(* ===== verification/_CoqProject ===== *)
-Q . S2P
Prelude.v
GoStrings.v
SortUtil.v
NextFit.v
Meta.v
ApiClient.v
K8sUtil.v
ShardedSecret.v
Semver.v
NamespaceLabeler.v
Rules.v
Status.v
Accessor.v
RuleConfigMaps.v
Json.v
RouteTree.v
MonitoringV1.v
TimeRanges.v
V1alpha1.v
V1beta1.v
ConvertFrom.v
ConvertTo.v
Conversion.v
AmLibs.v
ValidationV1alpha1.v
ValidationV1beta1.v
Validation.v
ListWatch.v
Reconciler.v
StatefulSets.v
Yaml.v
PromTypes.v
PromCommon.v
AssetStore.v
ConfigGenerator.v
Relabel.v
Monitors.v
GlobalConfig.v
PromArgs.v
ScrapeTypes.v
ServiceDiscovery.v
ScrapeConfigs.v
PromCfg.v
Limits.v
Selection.v
SelectionLaws.v
ServerConfig.v
NetIP.v
ResourceNamer.v
Kubelet.v
KubeletLaws.v
KubeletSync.v
WebConfig.v
JsonText.v
Admission.v
AmTypes.v
AmSanitize.v
AmSupport.v
AmProjection.v
AmConvert.v
AmCheck.v
AmBuilder.v
AmLaws.v
AmRefs.v
AmSafety.v
AmTeams.v
AmExample.v
AmOperator.v
PromExample.v
MonitorClaims.v
ConfigClaims.v
ArgClaims.v
SelectionClaims.v
ServerClaims.v
AmProvision.v
AmClaims.v
KubeletClaims.v
