(* ===== verification/Prelude.v ===== *)
(** * Verification of the Prometheus operator

    The Prometheus operator watches custom resources (Prometheus, PrometheusAgent, Alertmanager,
    ThanosRuler, PrometheusRule, AlertmanagerConfig, ...) and keeps the Kubernetes objects that run
    them in sync: it selects and validates resources, renders configuration, stores it in Secrets
    and ConfigMaps and reports a status. This library is a shallow embedding of the parts of the Go
    code under src/ that carry this logic, with the theorems that make them correct.

    ** Conventions

    A Go call returns [res A] (this file): a value, an error or a run-time panic. Code that talks
    to the Kubernetes API is a computation [M St A] over the server's state. A [map[string]string]
    that may be nil is an [option] of a [gmap]; the order in which Go visits a map is an argument,
    or a permutation quantified over, wherever the result could depend on it. Machine integers are
    [Z] and wrapped where the code converts them ([int32]). Logging, events and contexts are left
    out. Code of other repositories is a class or a section variable: [ApiClient], [ApiLaws],
    [ApiHealthy] and [Retry] (client-go and the API server), [SemanticEquality], [PromQL],
    [Semver] with [SemverLaws], [RuleLibs] (YAML and rulefmt), [KeyFunc], [RawJSON]
    (encoding/json), [AmLibs] (URL and template parsers), [WorkQueue] (client-go's queues),
    [NamingLaws] (objects named by the server), [ForegroundDeletion], [CacheStore] (client-go's object cache), [PromLibs] (parsers of
    Prometheus), [RelabelEngine] (how Prometheus runs relabelings), [SelectionLibs] (parsers of URLs, hosts,
    selectors and UUIDs), [ConvertLibs], [CheckLibs] and [BuilderLibs] (parsers and loaders of
    Alertmanager), [ImageRefs] (image references) and [DNS1123] (checks of names). Each has a
    concrete instance in the file that declares or first uses it, which the witnesses run. The laws
    of the API client are those of a client that is alone with the server: nobody else writes while
    a computation runs, and a deleted object is gone at once, as no object has finalizers.

    ** Files

    - [Prelude]: results, the state monad, lemmas on lists, tactics. [GoStrings]: byte strings
      with Go's string functions. [SortUtil]: internal/sortutil, sorted keys of a map.
      [NextFit]: the packing algorithm that pkg/operator/sharded_secret.go and the rules.go files
      share, with its bounds.
    - [Meta]: object metadata, the object options of pkg/operator/factory.go, the Map flag of
      pkg/operator/config.go and metadata merging of pkg/k8sutil/k8sutil.go. [ApiClient]: the
      client interface with its laws and a store that satisfies them. [K8sUtil]:
      CreateOrUpdateSecret. [Accessor]: pkg/operator/accessor.go and image.go.
    - [ShardedSecret]: pkg/operator/sharded_secret.go.
    - [NamespaceLabeler]: pkg/namespacelabeler and the rule types. [Rules]: pkg/operator/rules.go.
      [RuleConfigMaps]: pkg/prometheus/server/rules.go and pkg/thanos/rules.go, which have the same
      code but for the names and labels: one definition takes what differs as a record.
    - [Status]: conditions, reconciliation tracker and metrics of pkg/operator, the statefulset
      reporter and StatusReporter.Process of pkg/prometheus/operator.go.
    - [ListWatch]: pkg/listwatch, the namespace listers and watchers. [Reconciler]:
      pkg/operator/resource_reconciler.go and event_handler.go with their two work queues.
      [Semver]: versions. [StatefulSets]: the loop of sync in pkg/prometheus/server/operator.go
      that creates, updates and deletes statefulsets, with UpdateStatefulSet of pkg/k8sutil.
    - [Yaml]: YAML values, the emitters that fill a map in order, and [conforms], the format that a
      value follows, field by field, with the versions that know a field; what the user gave as text
      is a value of its own there and only passed on. [PromTypes], [ScrapeTypes]: the fields of Prometheus, ServiceMonitor,
      PodMonitor, Probe and ScrapeConfig that the generator reads. [PromCommon]: label names,
      default versions, validation of relabelings. [AssetStore]: pkg/assets.
    - pkg/prometheus/promcfg.go: [ConfigGenerator] (options, version gates, limits, authentication
      and TLS sections), [Relabel] (relabelings and sharding, with a model of how Prometheus runs
      them), [Monitors] (ServiceMonitors, PodMonitors, Probes), [GlobalConfig] (global section,
      storage, remote write and read, alerting, tracing, OTLP), [ServiceDiscovery] and
      [ScrapeConfigs] (ScrapeConfigs), [PromCfg] (the whole document, with the tables [config_fields] and
      [job_schema] of its format), [Limits] (limits in force).
      [PromArgs]: command lines and probes of Prometheus pods, with tables of the flags and features
      that a version of Prometheus knows. [PromExample] has the objects that
      the witnesses use; [MonitorClaims], [ConfigClaims], [ArgClaims] the theorems.
    - [Selection]: pkg/prometheus/resource_selector.go and store.go, the checks of resources and
      their selection. [SelectionLaws]: what these computations share (they only add to the store,
      their answer does not depend on it, and success ensures what the generator needs), proved
      once for everything that is composed of additions. [ServerConfig]:
      createOrUpdateConfigurationSecret of the server and the agent operator.
      [SelectionClaims], [ServerClaims]: the theorems.
    - [NetIP]: how Go's net package parses IP addresses. [Kubelet]: pkg/kubelet/controller.go with
      the functions of pkg/k8sutil/k8sutil.go that it calls; [KubeletLaws]: the planning of
      EndpointSlices, [KubeletSync]: their writing, [KubeletClaims]: the theorems.
    - [ResourceNamer]: names of volumes and other objects (pkg/k8sutil/k8sutil.go). [WebConfig]:
      pkg/webconfig, the web configuration file with its Secret, volumes and mounts. [Admission]:
      pkg/admission, the webhooks for PrometheusRules and AlertmanagerConfigs; [JsonText]: a reader
      for the JSON texts that they send as patches.
    - [Json]: the JSON values and decoding rules that routes need. [RouteTree]: the recursion over
      routes, which keep their children as raw JSON, once for both API versions.
    - [MonitoringV1]: shared types of pkg/apis/monitoring/v1 with their Validate methods.
      [TimeRanges]: the parsers of pkg/apis/monitoring/v1alpha1/validation.go. [V1alpha1],
      [V1beta1]: the AlertmanagerConfig types of the two versions with their Validate methods.
    - [ConvertFrom], [ConvertTo]: pkg/apis/monitoring/v1beta1/conversion_from.go, conversion_to.go;
      [Conversion]: their theorems.
    - [AmLibs], [ValidationV1alpha1], [ValidationV1beta1]: pkg/alertmanager/validation;
      [Validation]: their theorems.
    - pkg/alertmanager: [AmTypes] (types.go), [AmSanitize] (the sanitize methods of amcfg.go),
      [AmConvert] (its convert methods), [AmBuilder] (enforcers and ConfigBuilder), [AmCheck]
      (checkAlertmanagerConfigResource of operator.go). [AmSupport] states which fields a version
      of Alertmanager knows, as a table per type (in full, and without the few fields that no
      sanitizer looks at), and [AmProjection] that sanitizing projects onto them; [AmLaws] what the
      builder adds and how a generated route shows that of its object, [AmRefs] that names stay
      defined, [AmSafety] that nothing panics, [AmTeams] the one exception. [AmOperator]: selection of AlertmanagerConfig objects and provisioning of
      the generated Secret (operator.go), [AmProvision] its lemmas. [AmExample] has the objects of
      the witnesses, [AmClaims] the theorems.

    ** What the theorems show

    - Sharded secrets: sharding partitions the data within the size limit; after a successful run
      the API holds exactly the data under the mounted names; the clean-up loop terminates.
    - Rules: sanitizing, enforcement and selection do what they say, in any map order; the rule
      ConfigMaps in the API hold exactly the selected files, each once, after a successful run, a
      second run changes nothing, and a run succeeds when the server answers.
    - Status: totals and the Available condition reflect the shards; conditions and the tracker
      reflect the last reconciliation; the metrics map is updated at one place only.
    - AlertmanagerConfig: validation accepts exactly the objects described by [spec_valid]; the two
      versions agree across conversion; conversion is a round trip up to named losses; times,
      ranges and durations are parsed exactly.
    - Reconciliation: no request is lost, whatever interleaves; handlers enqueue exactly what an
      event concerns, but for the tombstones of missed deletions, which they ignore; a successful
      sync leaves every shard with its intended statefulset, and deletes one only when its update
      was refused as invalid; a poll of the namespaces brings the cache in line with the API.
    - Prometheus configuration: for objects that passed selection a document is generated that
      follows the format of the running version in every section, with distinct job names; every target is scraped
      by exactly one shard; enforced namespaces and limits cannot be overridden; credentials are
      in the cache and TLS files mounted when the configuration refers to them; secrets of service
      discovery that cannot be read are refused, or written empty where the code drops the error;
      the command line has no flag twice, but for [enable-feature], and no flag or feature of the
      operator's that the version does not know (agents from 2.32.0 on); arguments of the user are
      appended unless they clash.
    - Selection: an invalid resource is left out and disturbs no other; the result does not depend
      on the order of a map or on earlier loads. Together with the generator: a configuration
      Secret that was written holds a document that Prometheus accepts.
    - Alertmanager configuration: sanitizing is a projection onto what a version supports; the
      routes of AlertmanagerConfig objects precede the base routes, show what the objects say, fall
      through to them and are confined to their namespace; the names they use are defined; objects that were accepted do
      not make the builder panic, with one exception that a theorem shows; and the Secret that
      provisioning writes holds such a configuration of exactly the accepted objects.
    - Kubelet controller: after a synchronization without an error the EndpointSlices hold exactly
      one endpoint per node address, within their capacity and by address family; a Service that
      cannot be read makes the controller panic.
    - Web configuration and names: the file that is written follows its format and names only files
      that are mounted; object names are valid DNS labels and as distinct as their hashes.
    - Webhooks: the patch that is sent, as a text, turns exactly the values that are not text into
      text, for names and values that need no escaping; admission follows the validation that the operator does itself.
    - Some theorems state behaviour that the code shows and probably does not intend; their doc
      comments say so.

    ** Fuel

    Three recursions of the code are not structural. The clean-up loop of [ShardedSecret] gets one
    step per object of the namespace plus one, and [ReconcileShardedSecret_terminates] shows that
    it does not run out. The walks over routes get the depth of the JSON value; [RouteTree] shows
    that this is enough. The matcher for the regular expression of
    relabeling targets consumes a character per step and gets the length of the string. The JSON reader of the specification ([JsonText]) gets the length of the
    text. The retry loop of client-go is bounded by its own back-off and is a
    parameter ([Retry]).

    ** Not modelled, and next

    The generated clients, informers, process start-up and the builders of pod templates are
    plumbing or data. The YAML encoder is a parameter; the configuration generator without a
    Prometheus object, which ThanosRuler uses for two sections, is not modelled. What is left
    are the rest of the sync loops of the operators and ThanosRuler's. The timer of the kubelet
    controller, the registration of metrics and of HTTP handlers and the conversion webhook of
    controller-runtime are left out. *)

From Stdlib Require Export Ascii.
From stdpp Require Export base gmap strings list sorting pretty.

(** ** Go errors and results *)

(** The status reasons of the Kubernetes API the program distinguishes. *)
Inductive status_reason :=
  | NotFound
  | AlreadyExists
  | Conflict
  | OtherStatus (code : Z).

(** An [error] value: a fresh error ([errors.New], [fmt.Errorf] without [%w]), a wrapped one
    ([fmt.Errorf] with [%w]) or an [*apierrors.StatusError]. The format string is kept verbatim
    and the operands are kept beside it. *)
Inductive error :=
  | Errorf (fmt : string) (args : list string)
  | Wrapf (fmt : string) (args : list string) (cause : error)
  | StatusError (reason : status_reason) (name : string).

(** The result of a Go call: a value, a non-nil error, or a run-time panic. *)
Inductive res (A : Type) :=
  | Ok (a : A)
  | Err (e : error)
  | Panic (msg : string).
Arguments Ok {A} a.
Arguments Err {A} e.
Arguments Panic {A} msg.

#[global] Instance status_reason_eq_dec : EqDecision status_reason.
Proof. solve_decision. Defined.
#[global] Instance error_eq_dec : EqDecision error.
Proof.
  refine (fix go (x y : error) : Decision (x = y) :=
    match x, y with
    | Errorf f a, Errorf g b => cast_if (decide ((f, a) = (g, b)))
    | Wrapf f a c, Wrapf g b d =>
        match decide ((f, a) = (g, b)) with
        | left _ => cast_if (go c d)
        | right _ => right _
        end
    | StatusError r n, StatusError s m => cast_if (decide ((r, n) = (s, m)))
    | _, _ => right _
    end); clear go; abstract congruence.
Defined.
#[global] Instance res_eq_dec {A} `{EqDecision A} : EqDecision (res A).
Proof. solve_decision. Defined.

#[global] Instance res_ret : MRet res := @Ok.
#[global] Instance res_bind : MBind res := fun A B f x =>
  match x with Ok a => f a | Err e => Err e | Panic m => Panic m end.
#[global] Instance res_fmap : FMap res := fun A B f x =>
  match x with Ok a => Ok (f a) | Err e => Err e | Panic m => Panic m end.

(** [errors.As]-style search through wrapped errors, as [apierrors.ReasonForError] does. *)
Fixpoint reason_of (e : error) : option status_reason :=
  match e with
  | Errorf _ _ => None
  | Wrapf _ _ c => reason_of c
  | StatusError r _ => Some r
  end.
Definition IsNotFound (e : error) : bool := bool_decide (reason_of e = Some NotFound).
Definition IsConflict (e : error) : bool := bool_decide (reason_of e = Some Conflict).

(** [if err := c; err != nil { return fmt.Errorf(f, args..., err) }] *)
Definition wrap {A} (f : string) (args : list string) (x : res A) : res A :=
  match x with Err e => Err (Wrapf f args e) | _ => x end.
Definition is_ok {A} (x : res A) : bool := match x with Ok _ => true | _ => false end.
Definition no_panic {A} (x : res A) : Prop := ∀ m, x ≠ Panic m.

(** ** Effects: a state is threaded and survives an error *)

Definition M (S A : Type) : Type := S → S * res A.
#[global] Instance M_ret {S} : MRet (M S) := fun A a s => (s, Ok a).
#[global] Instance M_bind {S} : MBind (M S) := fun A B f c s =>
  match c s with
  | (s', Ok a) => f a s'
  | (s', Err e) => (s', Err e)
  | (s', Panic m) => (s', Panic m)
  end.
Definition mfail {S A} (e : error) : M S A := fun s => (s, Err e).
Definition mpanic {S A} (m : string) : M S A := fun s => (s, Panic m).
Definition mlift {S A} (r : res A) : M S A := fun s => (s, r).
(** Run [c] and hand its error, if any, to the caller as a value ([x, err := c]). *)
Definition mtry {S A} (c : M S A) : M S (A + error) := fun s =>
  match c s with
  | (s', Ok a) => (s', Ok (inl a))
  | (s', Err e) => (s', Ok (inr e))
  | (s', Panic m) => (s', Panic m)
  end.
Definition mwrap {S A} (f : string) (args : list string) (c : M S A) : M S A := fun s =>
  match c s with (s', r) => (s', wrap f args r) end.
Definition mget {S} : M S S := fun s => (s, Ok s).
Definition mput {S} (s' : S) : M S () := fun _ => (s', Ok ()).

(** [for _, x := range l { ... }] with early return on error. *)
Fixpoint for_each {A} (f : A → res ()) (l : list A) : res () :=
  match l with
  | [] => Ok ()
  | x :: l' => match f x with Ok _ => for_each f l' | Err e => Err e | Panic m => Panic m end
  end.
Fixpoint mfor_each {S A} (f : A → M S ()) (l : list A) : M S () :=
  match l with
  | [] => mret ()
  | x :: l' => f x ≫= (fun _ => mfor_each f l')
  end.
(** The same loop building a slice. *)
Fixpoint res_map {A B} (f : A → res B) (l : list A) : res (list B) :=
  match l with
  | [] => Ok []
  | x :: l' => y ← f x; ys ← res_map f l'; Ok (y :: ys)
  end.

Lemma for_each_ok {A} (f : A → res ()) l :
  for_each f l = Ok () ↔ Forall (fun x => f x = Ok ()) l.
Proof.
  induction l as [|x l IH]; simpl; [by split|].
  rewrite Forall_cons, <-IH. destruct (f x) as [[]| |]; naive_solver.
Qed.
Lemma for_each_is_ok {A} (f : A → res ()) l :
  is_ok (for_each f l) = forallb (fun x => is_ok (f x)) l.
Proof. induction l as [|x l IH]; simpl; [done|]. by destruct (f x). Qed.
Lemma for_each_ext {A} (f g : A → res ()) l :
  (∀ x, x ∈ l → f x = g x) → for_each f l = for_each g l.
Proof.
  induction l as [|x l IH]; intros H; simpl; [done|].
  rewrite (H x) by set_solver. destruct (g x); auto. apply IH. set_solver.
Qed.
Lemma for_each_map {A B} (h : A → B) (f : B → res ()) l :
  for_each f (h <$> l) = for_each (fun x => f (h x)) l.
Proof. induction l as [|x l IH]; simpl; [done|]. by destruct (f (h x)). Qed.
Lemma for_each_no_panic {A} (f : A → res ()) l :
  (∀ x, x ∈ l → no_panic (f x)) → no_panic (for_each f l).
Proof.
  induction l as [|x l IH]; intros H m; simpl; [done|].
  destruct (f x) eqn:E; [|done|].
  - apply IH. set_solver.
  - edestruct (H x); eauto. set_solver.
Qed.
Lemma res_map_ok {A B} (f : A → res B) l ys :
  res_map f l = Ok ys ↔ Forall2 (fun x y => f x = Ok y) l ys.
Proof.
  revert ys. induction l as [|x l IH]; intros ys; simpl.
  - split; [by intros [= <-]|by intros ->%Forall2_nil_inv_l].
  - split.
    + destruct (f x) eqn:E; simpl; try done.
      destruct (res_map f l) eqn:E'; simpl; try done.
      intros [= <-]. constructor; [done|]. by apply IH.
    + intros (y & ys' & Hy & Hys & ->)%Forall2_cons_inv_l.
      rewrite Hy. simpl. apply IH in Hys. by rewrite Hys.
Qed.
Lemma res_map_total {A B} (f : A → B) l : res_map (fun x => Ok (f x)) l = Ok (f <$> l).
Proof. induction l as [|x l IH]; simpl; [done|]. by rewrite IH. Qed.

(** ** Lists *)

Lemma elem_of_concat {A} (x : A) (ls : list (list A)) :
  x ∈ concat ls ↔ ∃ l, l ∈ ls ∧ x ∈ l.
Proof.
  induction ls as [|l ls IH]; simpl; [set_solver|].
  rewrite elem_of_app, IH. set_solver.
Qed.
Lemma sublist_concat {A} (l : list A) (ls : list (list A)) i :
  ls !! i = Some l → l `sublist_of` concat ls.
Proof.
  revert i. induction ls as [|l' ls IH]; intros [|i]; simpl; try done.
  - intros [= ->]. by apply sublist_inserts_r.
  - intros Hl. apply sublist_inserts_l. eauto.
Qed.
(** In a duplicate-free concatenation an element sits in one part only. *)
Lemma NoDup_concat_unique {A} (ls : list (list A)) i j l l' x :
  NoDup (concat ls) → ls !! i = Some l → ls !! j = Some l' → x ∈ l → x ∈ l' → i = j.
Proof.
  revert i j. induction ls as [|c ls IH]; intros i j Hnd; simpl; [done|].
  simpl in Hnd. apply NoDup_app in Hnd as (_ & Hd & Hnd).
  assert (∀ n d, ls !! n = Some d → x ∈ d → x ∈ concat ls) as Hin.
  { intros n d Hn Hx. apply elem_of_concat. exists d. split; [|done].
    by eapply list_elem_of_lookup_2. }
  destruct i as [|i], j as [|j]; simpl; intros Hi Hj Hx Hx'; [done| | |].
  - injection Hi as ->. edestruct Hd; eauto.
  - injection Hj as ->. edestruct Hd; eauto.
  - f_equal. by eapply IH.
Qed.

(** ** Successful sequences of calls *)

Lemma bind_ok {X} (x : res ()) (k : () → res X) v : x ≫= k = Ok v ↔ x = Ok () ∧ k () = Ok v.
Proof. destruct x as [[]| |]; simpl; naive_solver. Qed.
Lemma bind_ok_ex {X Y} (x : res X) (k : X → res Y) v : x ≫= k = Ok v ↔ ∃ y, x = Ok y ∧ k y = Ok v.
Proof. destruct x as [y| |]; simpl; naive_solver. Qed.
Lemma wrap_ok {X} f args (x : res X) v : wrap f args x = Ok v ↔ x = Ok v.
Proof. by destruct x. Qed.
Lemma mbind_ok {S A B} (c : M S A) (k : A → M S B) s s' v :
  (c ≫= k) s = (s', Ok v) ↔ ∃ s1 a, c s = (s1, Ok a) ∧ k a s1 = (s', Ok v).
Proof. unfold mbind, M_bind. destruct (c s) as [s1 [a|e|m]]; naive_solver. Qed.
Lemma mlift_ok {S A} (r : res A) (s s' : S) v : mlift r s = (s', Ok v) ↔ s = s' ∧ r = Ok v.
Proof. unfold mlift. naive_solver. Qed.
Lemma mret_ok {S A} (a v : A) (s s' : S) : (mret a : M S A) s = (s', Ok v) ↔ s = s' ∧ a = v.
Proof. unfold mret, M_ret. naive_solver. Qed.
Lemma mwrap_ok {S A} f args (c : M S A) s s' v : mwrap f args c s = (s', Ok v) ↔ c s = (s', Ok v).
Proof. unfold mwrap. destruct (c s) as [s1 [a|e|m]]; simpl; naive_solver. Qed.
Create HintDb res.
#[export] Hint Rewrite @bind_ok_ex @wrap_ok : res.

(** ** Tactics *)

(** Invert a successful [res]/[M] computation in the context. *)
Ltac inv_ok :=
  repeat match goal with
  | H : Ok _ = Ok _ |- _ => injection H as H; try subst
  | H : Err _ = Ok _ |- _ => discriminate H
  | H : Panic _ = Ok _ |- _ => discriminate H
  | H : Ok _ = Err _ |- _ => discriminate H
  | H : (_, _) = (_, _) |- _ => injection H as ? ?; try subst
  end.
(** Split the scrutinee of the outermost match/if of the goal. *)
Ltac case_goal :=
  match goal with |- context [match ?x with _ => _ end] => destruct x eqn:? end.
