(* ===== verification/GoStrings.v ===== *)
(** * Go strings

    The parts of Go's [strings], [strconv] and [slices] packages that the operator's code uses.
    A Go string is a byte sequence: [string] is the Standard Library's list of 8-bit characters,
    [String.length] is Go's [len] and [str_le] is Go's (byte-wise) string order. *)

From S2P Require Import Prelude.

#[local] Arguments String.append !_ _ / : simpl nomatch.

Declare Scope go_scope.
Delimit Scope go_scope with go.

(** [len(s)] as a Go [int]. *)
Definition len (s : string) : Z := Z.of_nat (String.length s).
Notation "s =s t" := (bool_decide (s = t%string)) (at level 70, no associativity) : go_scope.

(** ** The byte-wise order *)

Definition byte (c : ascii) : N := N_of_ascii c.

Fixpoint str_leb (s t : string) : bool :=
  match s, t with
  | EmptyString, _ => true
  | String _ _, EmptyString => false
  | String a s', String b t' =>
      if (byte a <? byte b)%N then true
      else if (byte b <? byte a)%N then false
      else str_leb s' t'
  end.
Definition str_le (s t : string) : Prop := str_leb s t = true.

Lemma byte_inj a b : byte a = byte b → a = b.
Proof. intros H. rewrite <-(ascii_N_embedding a), <-(ascii_N_embedding b). by f_equal. Qed.

#[global] Instance str_le_dec : RelDecision str_le.
Proof. intros s t. unfold str_le. apply _. Defined.
#[global] Instance str_le_total : Total str_le.
Proof.
  unfold str_le. intros s. induction s as [|a s IH]; intros [|b t]; simpl; auto.
  destruct (N.ltb_spec (byte a) (byte b)); auto.
  destruct (N.ltb_spec (byte b) (byte a)); auto.
Qed.
#[global] Instance str_le_trans : Transitive str_le.
Proof.
  unfold str_le. intros s. induction s as [|a s IH]; intros [|b t] [|c u]; simpl; auto; try done.
  destruct (N.ltb_spec (byte a) (byte b)), (N.ltb_spec (byte b) (byte c)),
    (N.ltb_spec (byte a) (byte c)), (N.ltb_spec (byte b) (byte a)),
    (N.ltb_spec (byte c) (byte b)), (N.ltb_spec (byte c) (byte a)); try done; try lia.
  apply IH.
Qed.
#[global] Instance str_le_antisym : AntiSymm (=) str_le.
Proof.
  unfold str_le. intros s. induction s as [|a s IH]; intros [|b t]; simpl; try done.
  destruct (N.ltb_spec (byte a) (byte b)), (N.ltb_spec (byte b) (byte a)); try done; try lia.
  intros H1 H2. assert (byte a = byte b) as ->%byte_inj by lia. f_equal. by apply IH.
Qed.

(** ** Concatenation, prefixes, joins *)

(** The rest of [s] after the prefix [p], if [s] has it. *)
Fixpoint TrimPrefix_aux (s p : string) : option string :=
  match p, s with
  | EmptyString, _ => Some s
  | String a p', String b s' => if decide (a = b) then TrimPrefix_aux s' p' else None
  | String _ _, EmptyString => None
  end.
(** [strings.TrimPrefix] and [strings.HasPrefix]. *)
Definition TrimPrefix (s p : string) : string := default s (TrimPrefix_aux s p).
Definition HasPrefix (s p : string) : bool := bool_decide (is_Some (TrimPrefix_aux s p)).

(** [strings.Join(l, sep)]. *)
Fixpoint Join (l : list string) (sep : string) : string :=
  match l with
  | [] => ""
  | [s] => s
  | s :: l' => s +:+ sep +:+ Join l' sep
  end.

(** [strings.ContainsRune(s, c)] for an ASCII [c]. *)
Fixpoint contains_char (c : ascii) (s : string) : bool :=
  match s with
  | EmptyString => false
  | String a s' => if decide (a = c) then true else contains_char c s'
  end.

(** [strings.Contains(s, sub)]. *)
Fixpoint Contains (s sub : string) : bool :=
  HasPrefix s sub ||
  match s with EmptyString => false | String _ s' => Contains s' sub end.

(** [strings.Split(s, sep)] for a one-byte separator. *)
Fixpoint Split (s : string) (sep : ascii) : list string :=
  match s with
  | EmptyString => [""]
  | String a s' =>
      let rest := Split s' sep in
      if decide (a = sep) then "" :: rest
      else match rest with
           | p :: ps => String a p :: ps
           | [] => [String a ""]
           end
  end.

Lemma app_str_nil_r s : s +:+ "" = s.
Proof. induction s as [|a s IH]; simpl; [done|by rewrite IH]. Qed.
Lemma app_str_assoc s t u : (s +:+ t) +:+ u = s +:+ t +:+ u.
Proof. induction s as [|a s IH]; simpl; [done|by rewrite IH]. Qed.
Lemma app_str_inj_l s t u : s +:+ t = s +:+ u → t = u.
Proof. induction s as [|a s IH]; simpl; [done|]. intros [= H]. auto. Qed.
Lemma length_app_str s t : String.length (s +:+ t) = String.length s + String.length t.
Proof. induction s as [|a s IH]; simpl; [done|by rewrite IH]. Qed.
Lemma len_app s t : len (s +:+ t) = (len s + len t)%Z.
Proof. unfold len. rewrite length_app_str. lia. Qed.
Lemma len_nonneg s : (0 ≤ len s)%Z.
Proof. unfold len. lia. Qed.

Lemma Split_nonempty s c : Split s c ≠ [].
Proof. destruct s as [|a s]; simpl; [done|]. case_decide; [done|]. by destruct (Split s c). Qed.
Lemma Split_no_sep s c : contains_char c s = false → Split s c = [s].
Proof.
  induction s as [|a s IH]; simpl; [done|].
  case_decide; [done|]. intros H1. by rewrite IH.
Qed.
Lemma Split_sep s c : contains_char c s = true ↔ ∃ a b ps, Split s c = a :: b :: ps.
Proof.
  induction s as [|a s IH]; simpl; [naive_solver|]. pose proof (Split_nonempty s c) as Hne.
  case_decide; destruct (Split s c) as [|p ps]; try done.
  - split; [eauto|done].
  - rewrite IH. naive_solver.
Qed.
Lemma Split_app s t c :
  contains_char c s = false → Split (s +:+ String c t) c = s :: Split t c.
Proof.
  induction s as [|a s IH]; simpl; [by rewrite decide_True by done|].
  case_decide; [done|]. intros H1. by rewrite IH.
Qed.
Lemma contains_char_app c s t :
  contains_char c (s +:+ t) = contains_char c s || contains_char c t.
Proof. induction s as [|a s IH]; simpl; [done|]. by case_decide. Qed.

Lemma TrimPrefix_aux_app p s : TrimPrefix_aux (p +:+ s) p = Some s.
Proof. induction p as [|a p IH]; simpl; [by destruct s|]. by rewrite decide_True. Qed.
Lemma TrimPrefix_aux_Some p s t : TrimPrefix_aux s p = Some t → s = p +:+ t.
Proof.
  revert s. induction p as [|a p IH]; intros s; [destruct s; simpl; congruence|].
  destruct s as [|b s]; simpl; [done|]. case_decide; [|done]. subst. intros ->%IH. done.
Qed.
Lemma HasPrefix_spec s p : HasPrefix s p = true ↔ ∃ t, s = p +:+ t.
Proof.
  unfold HasPrefix. rewrite bool_decide_eq_true. split.
  - intros [t Ht]. exists t. by apply TrimPrefix_aux_Some.
  - intros [t ->]. rewrite TrimPrefix_aux_app. eauto.
Qed.

(** ** Letter case and white space *)

(** Lower-casing of one ASCII byte. *)
Definition lower (c : ascii) : ascii :=
  let n := byte c in
  if (65 <=? n)%N && (n <=? 90)%N then ascii_of_N (n + 32) else c.

(** [strings.ToLower] on UTF-8 bytes: ASCII letters, and the two code points outside ASCII whose
    lower case is an ASCII letter, U+0130 (bytes C4 B0, to [i]) and U+212A (bytes E2 84 AA, to
    [k]). Other code points are left as they are. *)
Fixpoint ToLower (s : string) : string :=
  match s with
  | String a (String b s1 as s2) =>
      if (byte a =? 196)%N && (byte b =? 176)%N then String "i" (ToLower s1)
      else match s1 with
      | String c s3 =>
          if (byte a =? 226)%N && (byte b =? 132)%N && (byte c =? 170)%N
          then String "k" (ToLower s3)
          else String (lower a) (ToLower s2)
      | EmptyString => String (lower a) (ToLower s2)
      end
  | String a EmptyString => String (lower a) EmptyString
  | EmptyString => EmptyString
  end.

(** [strings.TrimSpace(s) == ""]: every code point of [s] is white space ([unicode.IsSpace]). *)
Fixpoint blank (s : string) : bool :=
  match s with
  | EmptyString => true
  | String a s1 =>
      let n := byte a in
      if ((9 <=? n) && (n <=? 13) || (n =? 32))%N then blank s1
      else match s1 with
      | EmptyString => false
      | String b s2 =>
          let m := byte b in
          if ((n =? 194) && ((m =? 133) || (m =? 160)))%N then blank s2
          else match s2 with
          | EmptyString => false
          | String c s3 =>
              let k := byte c in
              if ((n =? 225) && (m =? 154) && (k =? 128)
                || (n =? 226) && (m =? 128) &&
                   ((128 <=? k) && (k <=? 138) || (k =? 168) || (k =? 169) || (k =? 175))
                || (n =? 226) && (m =? 129) && (k =? 159)
                || (n =? 227) && (m =? 128) && (k =? 128))%N
              then blank s3 else false
          end
      end
  end.

(** [strings.TrimSpace]. A suffix that starts inside of a code point is never blank. *)
Fixpoint trim_left (s : string) : string :=
  match s with
  | EmptyString => EmptyString
  | String a s1 =>
      let n := byte a in
      if ((9 <=? n) && (n <=? 13) || (n =? 32))%N then trim_left s1
      else match s1 with
      | EmptyString => s
      | String b s2 =>
          let m := byte b in
          if ((n =? 194) && ((m =? 133) || (m =? 160)))%N then trim_left s2
          else match s2 with
          | EmptyString => s
          | String c s3 =>
              let k := byte c in
              if ((n =? 225) && (m =? 154) && (k =? 128)
                || (n =? 226) && (m =? 128) &&
                   ((128 <=? k) && (k <=? 138) || (k =? 168) || (k =? 169) || (k =? 175))
                || (n =? 226) && (m =? 129) && (k =? 159)
                || (n =? 227) && (m =? 128) && (k =? 128))%N
              then trim_left s3 else s
          end
      end
  end.
Fixpoint trim_right (s : string) : string :=
  match s with
  | EmptyString => EmptyString
  | String a s1 => if blank s then EmptyString else String a (trim_right s1)
  end.
Definition TrimSpace (s : string) : string := trim_right (trim_left s).

(** ** Integers as text *)

(** [strconv.Itoa], [fmt.Sprintf("%d", z)]. *)
Definition Itoa (z : Z) : string := pretty z.

Definition digit (c : ascii) : option Z :=
  let n := byte c in
  if (48 <=? n)%N && (n <=? 57)%N then Some (Z.of_N (n - 48)) else None.

Fixpoint digits_acc (acc : Z) (s : string) : option Z :=
  match s with
  | EmptyString => Some acc
  | String c s' => d ← digit c; digits_acc (acc * 10 + d) s'
  end.
Definition digits (s : string) : option Z :=
  match s with EmptyString => None | _ => digits_acc 0 s end.

Definition min_int64 : Z := - 2 ^ 63.
Definition max_int64 : Z := 2 ^ 63 - 1.

(** [strconv.Atoi] on a 64-bit platform: an optional sign, decimal digits, and a range error
    outside of int64. *)
Definition Atoi (s : string) : res Z :=
  let syntax := Err (Errorf "strconv.Atoi: parsing %q: invalid syntax" [s]) in
  let range z :=
    if decide (min_int64 ≤ z ≤ max_int64)%Z then Ok z
    else Err (Errorf "strconv.Atoi: parsing %q: value out of range" [s]) in
  match s with
  | String c s' =>
      if decide (c = "-"%char) then
        match digits s' with Some z => range (- z)%Z | None => syntax end
      else if decide (c = "+"%char) then
        match digits s' with Some z => range z | None => syntax end
      else match digits s with Some z => range z | None => syntax end
  | EmptyString => syntax
  end.

Lemma Atoi_range s z : Atoi s = Ok z → (min_int64 ≤ z ≤ max_int64)%Z.
Proof.
  unfold Atoi. destruct s as [|c s]; [done|].
  repeat case_decide; repeat case_match; try done; by intros [= <-].
Qed.

#[global] Instance Itoa_inj : Inj (=) (=) Itoa.
Proof. exact pretty_Z_inj. Qed.
