(* ===== verification/SortUtil.v ===== *)
(** * internal/sortutil: sorted map keys

    Go leaves the iteration order of a map unspecified. [range_order m ks] says that [ks] is one
    of the orders in which [for k := range m] may visit the keys; a definition that depends on
    the order takes [ks] as an argument. [SortedKeys] is the repository's way to get rid of that
    dependency, and this file proves that it does. *)

From S2P Require Import Prelude GoStrings.

Definition keys {V} (m : gmap string V) : list string := (map_to_list m).*1.

Definition range_order {V} (m : gmap string V) (ks : list string) : Prop := ks ≡ₚ keys m.

(** [slices.Sort] on a slice of strings. *)
Definition Sort (ks : list string) : list string := merge_sort str_le ks.

(** [SortedKeys] when the loop over the map visits the keys in the order [ks]. *)
Definition SortedKeys_visiting (ks : list string) : list string := Sort ks.

(** [SortedKeys]; [SortedKeys_deterministic] justifies fixing one visiting order. *)
Definition SortedKeys {V} (m : gmap string V) : list string := SortedKeys_visiting (keys m).

Lemma NoDup_keys {V} (m : gmap string V) : NoDup (keys m).
Proof. apply NoDup_fst_map_to_list. Qed.
Lemma elem_of_keys {V} (m : gmap string V) k : k ∈ keys m ↔ is_Some (m !! k).
Proof.
  unfold keys. rewrite list_elem_of_fmap. split.
  - intros ([k' v] & -> & H%elem_of_map_to_list). eauto.
  - intros [v Hv]. exists (k, v). by rewrite elem_of_map_to_list.
Qed.

Lemma SortedKeys_Permutation {V} (m : gmap string V) : SortedKeys m ≡ₚ keys m.
Proof. apply merge_sort_Permutation. Qed.
Lemma SortedKeys_sorted {V} (m : gmap string V) : StronglySorted str_le (SortedKeys m).
Proof. apply StronglySorted_merge_sort; apply _. Qed.
Lemma NoDup_SortedKeys {V} (m : gmap string V) : NoDup (SortedKeys m).
Proof. rewrite SortedKeys_Permutation. apply NoDup_keys. Qed.
Lemma elem_of_SortedKeys {V} (m : gmap string V) k : k ∈ SortedKeys m ↔ is_Some (m !! k).
Proof. by rewrite SortedKeys_Permutation, elem_of_keys. Qed.

(** Whatever order the map is visited in, the same sorted slice comes out. *)
Lemma SortedKeys_any_order {V} (m : gmap string V) ks :
  range_order m ks → SortedKeys_visiting ks = SortedKeys m.
Proof.
  intros H. apply (StronglySorted_unique str_le).
  - apply StronglySorted_merge_sort; apply _.
  - apply SortedKeys_sorted.
  - unfold SortedKeys_visiting, SortedKeys, SortedKeys_visiting, Sort.
    by rewrite !merge_sort_Permutation.
Qed.

(** The loop [for _, k := range SortedKeys(m) { ... m[k] ... }]. *)
Definition sorted_values {V} (m : gmap string V) : list V := omap (fun k => m !! k) (SortedKeys m).
Lemma elem_of_sorted_values {V} (m : gmap string V) v : v ∈ sorted_values m ↔ ∃ k, m !! k = Some v.
Proof.
  unfold sorted_values. rewrite list_elem_of_omap. split.
  - intros (k & _ & Hk). eauto.
  - intros (k & Hk). exists k. rewrite elem_of_SortedKeys. eauto.
Qed.
(** Values that the keys are recovered from are visited once. *)
Lemma NoDup_sorted_values {V B} (f : V → B) (m : gmap string V) :
  (∀ k k' v v', m !! k = Some v → m !! k' = Some v' → f v = f v' → k = k') → NoDup (f <$> sorted_values m).
Proof.
  intros Hf. unfold sorted_values. pose proof (NoDup_SortedKeys m) as Hnd.
  induction Hnd as [|k ks Hk _ IH]; csimpl; [constructor|].
  destruct (m !! k) as [v|] eqn:Ev; csimpl; [|done]. constructor; [|done].
  intros (v' & E & (k' & Hk' & Ev')%list_elem_of_omap)%list_elem_of_fmap.
  by rewrite (Hf k k' v v') in Hk.
Qed.

Create HintDb sortutil.
#[export] Hint Resolve NoDup_SortedKeys SortedKeys_sorted : sortutil.

(** ** Stable sorting by a key

    [slices.SortStableFunc] with a comparison of string keys, as an insertion sort: elements with
    the same key keep their order. *)
Section stable.
Context {A : Type} (key : A → string).

Fixpoint insert_by (x : A) (l : list A) : list A :=
  match l with
  | [] => [x]
  | y :: l' => if bool_decide (str_le (key x) (key y)) then x :: y :: l' else y :: insert_by x l'
  end.
Definition SortStableFunc (l : list A) : list A := foldr insert_by [] l.

Lemma insert_by_Permutation x l : insert_by x l ≡ₚ x :: l.
Proof. induction l as [|y l IH]; simpl; [done|]. case_bool_decide; [done|]. rewrite IH. apply Permutation_swap. Qed.
Lemma SortStableFunc_Permutation l : SortStableFunc l ≡ₚ l.
Proof. induction l as [|x l IH]; simpl; [done|]. by rewrite insert_by_Permutation, IH. Qed.
Lemma insert_by_sorted x l :
  StronglySorted (fun a b => str_le (key a) (key b)) l → StronglySorted (fun a b => str_le (key a) (key b)) (insert_by x l).
Proof.
  induction 1 as [|y l Hl IH Hy]; simpl; [repeat constructor|]. case_bool_decide as Hle.
  - repeat constructor; [done..|]. eapply Forall_impl; [exact Hy|]. intros z Hz. by transitivity (key y).
  - constructor; [done|]. rewrite insert_by_Permutation. constructor; [|done].
    by destruct (total str_le (key x) (key y)).
Qed.
Lemma SortStableFunc_sorted l : StronglySorted (fun a b => str_le (key a) (key b)) (SortStableFunc l).
Proof. induction l as [|x l IH]; simpl; [constructor|]. by apply insert_by_sorted. Qed.
Lemma insert_by_stable k x l :
  filter (fun a => key a = k) (insert_by x l) = filter (fun a => key a = k) (x :: l).
Proof.
  induction l as [|y l IH]; [done|]. cbn [insert_by]. case_bool_decide as Hle; [done|].
  rewrite !filter_cons, IH, filter_cons. repeat case_decide; [|done..].
  destruct Hle. replace (key x) with (key y) by congruence. by destruct (total str_le (key y) (key y)).
Qed.
Lemma SortStableFunc_stable k l : filter (fun a => key a = k) (SortStableFunc l) = filter (fun a => key a = k) l.
Proof. induction l as [|x l IH]; simpl; [done|]. by rewrite insert_by_stable, !filter_cons, IH. Qed.
End stable.

(** ** The part of a map at given keys *)

(** [restrict m ks]: the entries of [m] whose key is in [ks]. *)
Definition restrict {V} (m : gmap string V) (ks : list string) : gmap string V :=
  filter (fun kv => kv.1 ∈ ks) m.

Lemma lookup_restrict {V} (m : gmap string V) ks k :
  restrict m ks !! k = if decide (k ∈ ks) then m !! k else None.
Proof.
  unfold restrict. case_decide as H.
  - destruct (m !! k) eqn:E.
    + by apply map_lookup_filter_Some.
    + apply map_lookup_filter_None. by left.
  - apply map_lookup_filter_None. right. naive_solver.
Qed.
Lemma restrict_nil {V} (m : gmap string V) : restrict m [] = ∅.
Proof. apply map_eq. intros k. rewrite lookup_restrict, lookup_empty. by case_decide; set_solver. Qed.
Lemma restrict_snoc {V} (m : gmap string V) ks k v :
  m !! k = Some v → restrict m (ks ++ [k]) = <[k:=v]> (restrict m ks).
Proof.
  intros Hv. apply map_eq. intros k'.
  rewrite lookup_insert, !lookup_restrict.
  repeat case_decide; subst; set_solver.
Qed.
Lemma restrict_all {V} (m : gmap string V) ks :
  (∀ k, is_Some (m !! k) → k ∈ ks) → restrict m ks = m.
Proof.
  intros H. apply map_eq. intros k. rewrite lookup_restrict. case_decide; [done|].
  destruct (m !! k) eqn:E; [|done]. naive_solver.
Qed.
Lemma restrict_disjoint {V} (m : gmap string V) ks ks' :
  (∀ k, k ∈ ks → k ∉ ks') → restrict m ks ##ₘ restrict m ks'.
Proof.
  intros H. apply map_disjoint_spec. intros k x y. rewrite !lookup_restrict.
  repeat case_decide; naive_solver.
Qed.

(** Counting entries of a map. *)
Lemma size_filter {V} (P : string * V → Prop) `{∀ x, Decision (P x)} (m : gmap string V) :
  size (filter P m) = length (filter P (map_to_list m)).
Proof.
  rewrite map_filter_alt, <-length_map_to_list, map_to_list_to_map; [done|].
  eapply sublist_NoDup; [|apply fmap_sublist, sublist_filter].
  apply NoDup_fst_map_to_list.
Qed.
