(* ===== verification/NextFit.v ===== *)
(** * Next-fit packing

    Both [makeRulesConfigMaps] (rule files into ConfigMaps) and [ShardedSecret.shard] (TLS
    assets into Secrets) walk over sorted keys and open a new bucket when the next item does not
    fit into the current one. [nextfit] is that algorithm on abstract items with a weight; the
    component files prove that their loops compute it and inherit the facts proved here. *)

From S2P Require Import Prelude GoStrings SortUtil.

Section nextfit.
Context {K : Type} (w : K → Z) (cap : Z).
Hypothesis w_nonneg : ∀ k, (0 ≤ w k)%Z.

Fixpoint weight (ks : list K) : Z :=
  match ks with [] => 0 | k :: ks' => w k + weight ks' end.

(** [nextfit cur ks]: the buckets produced when [cur] is the open bucket and [ks] is left. *)
Fixpoint nextfit (cur ks : list K) : list (list K) :=
  match ks with
  | [] => [cur]
  | k :: ks' =>
      if decide (cap < weight cur + w k)%Z
      then cur :: nextfit [k] ks'
      else nextfit (cur ++ [k]) ks'
  end.

Lemma weight_app ks ks' : weight (ks ++ ks') = (weight ks + weight ks')%Z.
Proof. induction ks as [|k ks IH]; simpl; [done|]. rewrite IH. lia. Qed.
Lemma weight_nonneg ks : (0 ≤ weight ks)%Z.
Proof. induction ks as [|k ks IH]; simpl; [done|]. specialize (w_nonneg k). lia. Qed.
Lemma weight_concat kss : weight (concat kss) = foldr Z.add 0%Z (weight <$> kss).
Proof. induction kss as [|ks kss IH]; simpl; [done|]. by rewrite weight_app, IH. Qed.

(** Nothing is lost, duplicated or reordered. *)
Lemma nextfit_concat cur ks : concat (nextfit cur ks) = cur ++ ks.
Proof.
  revert cur. induction ks as [|k ks IH]; intros cur; simpl; [done|].
  case_decide; simpl; rewrite IH; [done|]. by rewrite <-app_assoc.
Qed.

Lemma nextfit_nonempty cur ks : nextfit cur ks ≠ [].
Proof.
  revert cur. induction ks as [|k ks IH]; intros cur; simpl; [done|].
  case_decide; [done|apply IH].
Qed.

(** A bucket respects the capacity, or holds a single item that does not. *)
Definition fits (ks : list K) : Prop := (weight ks ≤ cap)%Z ∨ ∃ k, ks = [k].

Lemma nextfit_fits cur ks : (0 ≤ cap)%Z → fits cur → Forall fits (nextfit cur ks).
Proof.
  intros Hcap. revert cur. induction ks as [|k ks IH]; intros cur Hcur; simpl; [by constructor|].
  case_decide as Hd.
  - constructor; [done|]. apply IH. right. eauto.
  - apply IH. left. rewrite weight_app. simpl. lia.
Qed.

(** If every item fits on its own, every bucket respects the capacity. *)
Lemma nextfit_le_cap cur ks :
  Forall (fun k => w k ≤ cap)%Z ks → (weight cur ≤ cap)%Z →
  Forall (fun b => weight b ≤ cap)%Z (nextfit cur ks).
Proof.
  intros Hks. revert cur. induction Hks as [|k ks Hk _ IH]; intros cur Hcur; simpl; [by constructor|].
  case_decide as Hd.
  - constructor; [done|]. apply IH. simpl. lia.
  - apply IH. rewrite weight_app. simpl. lia.
Qed.

Lemma nextfit_nonempty_buckets cur ks :
  cur ≠ [] → Forall (fun b => b ≠ []) (nextfit cur ks).
Proof.
  revert cur. induction ks as [|k ks IH]; intros cur Hc; simpl; [by constructor|].
  case_decide; [constructor; [done|]; by apply IH|]. apply IH. by destruct cur.
Qed.

(** Two neighbouring buckets never fit together: the first item of the next one did not fit. *)
Definition tight (b b' : list K) : Prop := (cap < weight b + weight b')%Z.

Lemma nextfit_head cur ks : ∃ b bs, nextfit cur ks = b :: bs ∧ (weight cur ≤ weight b)%Z.
Proof.
  revert cur. induction ks as [|k ks IH]; intros cur; simpl; [by exists cur, []|].
  case_decide; [by exists cur, (nextfit [k] ks)|].
  destruct (IH (cur ++ [k])) as (b & bs & -> & Hw). exists b, bs. split; [done|].
  rewrite weight_app in Hw. simpl in Hw. specialize (w_nonneg k). lia.
Qed.

Inductive chain : list (list K) → Prop :=
  | chain_one b : chain [b]
  | chain_cons b b' bs : tight b b' → chain (b' :: bs) → chain (b :: b' :: bs).

Lemma nextfit_chain cur ks : chain (nextfit cur ks).
Proof.
  revert cur. induction ks as [|k ks IH]; intros cur; simpl; [constructor|].
  case_decide as Hd; [|apply IH].
  destruct (nextfit_head [k] ks) as (b & bs & Heq & Hw). specialize (IH [k]).
  rewrite Heq in IH |- *. constructor; [|done]. unfold tight. simpl in Hw. lia.
Qed.

Lemma chain_count bs :
  chain bs →
  ((Z.of_nat (length bs) - 1) * cap ≤
    2 * weight (concat bs) - weight (default [] (head bs)))%Z.
Proof.
  induction 1 as [b|b b' bs Ht _ IH]; simpl.
  - rewrite app_nil_r. pose proof (weight_nonneg b). lia.
  - unfold tight in Ht. simpl in IH. rewrite weight_app in *.
    rewrite weight_app. lia.
Qed.

(** At most twice the number of buckets the total weight calls for (plus one). *)
Lemma nextfit_count ks :
  ((Z.of_nat (length (nextfit [] ks)) - 1) * cap ≤ 2 * weight ks)%Z.
Proof.
  pose proof (chain_count _ (nextfit_chain [] ks)) as H.
  rewrite nextfit_concat in H. simpl in H.
  pose proof (weight_nonneg (default [] (head (nextfit [] ks)))). lia.
Qed.
End nextfit.

(** ** A map split along a partition of its sorted keys *)

Section parts.
Context {V : Type} (m : gmap string V) (kss : list (list string)).
Hypothesis kss_keys : concat kss = SortedKeys m.

Lemma part_keys i ks :
  kss !! i = Some ks → NoDup ks ∧ Forall (fun k => is_Some (m !! k)) ks.
Proof.
  intros Hb. assert (ks `sublist_of` SortedKeys m) as Hsub.
  { rewrite <-kss_keys. by eapply sublist_concat. }
  split.
  - exact (sublist_NoDup _ _ (NoDup_SortedKeys _) Hsub).
  - apply Forall_forall. intros k Hk. rewrite <-elem_of_SortedKeys.
    by eapply elem_of_sublist.
Qed.
Lemma parts_cover k v :
  m !! k = Some v ↔ ∃ i ks, kss !! i = Some ks ∧ restrict m ks !! k = Some v.
Proof.
  split.
  - intros Hk. assert (k ∈ concat kss) as Hin.
    { rewrite kss_keys. apply elem_of_SortedKeys. eauto. }
    apply elem_of_concat in Hin as (b & Hb & Hkb). apply list_elem_of_lookup in Hb as [i Hi].
    exists i, b. rewrite lookup_restrict. by case_decide.
  - intros (i & ks & _ & Ho). rewrite lookup_restrict in Ho. by case_decide.
Qed.
Lemma parts_disjoint i j ks ks' :
  kss !! i = Some ks → kss !! j = Some ks' → i ≠ j → restrict m ks ##ₘ restrict m ks'.
Proof.
  intros Hi Hj Hne. apply restrict_disjoint. intros k Hk Hk'. destruct Hne.
  eapply (NoDup_concat_unique kss); try done. rewrite kss_keys. apply NoDup_SortedKeys.
Qed.
End parts.

(** The weight of a part is the sum over its entries. *)
Lemma map_weight_restrict {V} (f : string → V → Z) (w : string → Z) (m : gmap string V) ks :
  (∀ k v, m !! k = Some v → w k = f k v) →
  NoDup ks → Forall (fun k => is_Some (m !! k)) ks →
  map_fold (fun k v acc => acc + f k v)%Z 0%Z (restrict m ks) = weight w ks.
Proof.
  intros Hw. induction ks as [|k ks IH] using rev_ind; intros Hnd Hks.
  - by rewrite restrict_nil.
  - apply Forall_app in Hks as [Hks [[v Hv] _]%Forall_cons].
    apply NoDup_app in Hnd as (Hnd & Hk & _).
    rewrite (restrict_snoc _ _ _ v), map_fold_insert_L, IH, weight_app;
      try done; try (intros; lia).
    + simpl. rewrite (Hw _ _ Hv). lia.
    + rewrite lookup_restrict. case_decide; [set_solver|done].
Qed.

Create HintDb nextfit.
#[export] Hint Resolve nextfit_nonempty nextfit_chain : nextfit.
