(* ===== verification/Meta.v ===== *)
(** * Object metadata

    [metav1.ObjectMeta] as far as the operator reads and writes it, the object options of
    pkg/operator/factory.go, the [Map] flag type of pkg/operator/config.go and the metadata
    merging of pkg/k8sutil/k8sutil.go.

    A Go [map[string]string] is an [option] of a finite map: [None] is the nil map, which reads
    like the empty one but is distinguished by [reflect.DeepEqual] and by writes. *)

From S2P Require Import Prelude GoStrings SortUtil.

Abbreviation gomap := (option (gmap string string)).

Definition entries (m : gomap) : gmap string string := default ∅ m.
(** [m[k]], the zero value if the key is absent. *)
Definition at_key (m : gomap) (k : string) : string := default "" (entries m !! k).

(** A Go pointer: its address and the value it points to. Go's [==] on pointers (also inside of
    struct equality and map keys) compares the addresses. *)
Record pointer (A : Type) := Ptr { addr : nat; deref : A }.
Arguments Ptr {A} _ _.
Arguments addr {A} _.
Arguments deref {A} _.
#[global] Instance pointer_eq_dec {A} `{EqDecision A} : EqDecision (pointer A).
Proof. solve_decision. Defined.

Record OwnerReference := {
  or_APIVersion : string;
  or_Kind : string;
  or_Name : string;
  or_UID : string;
  or_Controller : option (pointer bool);
  or_BlockOwnerDeletion : option (pointer bool);
}.
#[global] Instance OwnerReference_eq_dec : EqDecision OwnerReference.
Proof. solve_decision. Defined.

Record ObjectMeta := {
  om_Name : string;
  om_Namespace : string;
  om_UID : string;
  om_ResourceVersion : string;
  om_Generation : Z;
  om_DeletionTimestamp : option Z;
  om_Labels : gomap;
  om_Annotations : gomap;
  om_OwnerReferences : list OwnerReference;
  om_Finalizers : list string;
}.
#[global] Instance ObjectMeta_eq_dec : EqDecision ObjectMeta.
Proof. solve_decision. Defined.

Definition zero_meta : ObjectMeta := {|
  om_Name := ""; om_Namespace := ""; om_UID := ""; om_ResourceVersion := "";
  om_Generation := 0; om_DeletionTimestamp := None; om_Labels := None; om_Annotations := None;
  om_OwnerReferences := []; om_Finalizers := [] |}.

Definition SetName (n : string) (o : ObjectMeta) : ObjectMeta := {|
  om_Name := n; om_Namespace := om_Namespace o; om_UID := om_UID o;
  om_ResourceVersion := om_ResourceVersion o; om_Generation := om_Generation o;
  om_DeletionTimestamp := om_DeletionTimestamp o; om_Labels := om_Labels o;
  om_Annotations := om_Annotations o; om_OwnerReferences := om_OwnerReferences o;
  om_Finalizers := om_Finalizers o |}.
Definition SetNamespace (n : string) (o : ObjectMeta) : ObjectMeta := {|
  om_Name := om_Name o; om_Namespace := n; om_UID := om_UID o;
  om_ResourceVersion := om_ResourceVersion o; om_Generation := om_Generation o;
  om_DeletionTimestamp := om_DeletionTimestamp o; om_Labels := om_Labels o;
  om_Annotations := om_Annotations o; om_OwnerReferences := om_OwnerReferences o;
  om_Finalizers := om_Finalizers o |}.
Definition SetResourceVersion (v : string) (o : ObjectMeta) : ObjectMeta := {|
  om_Name := om_Name o; om_Namespace := om_Namespace o; om_UID := om_UID o;
  om_ResourceVersion := v; om_Generation := om_Generation o;
  om_DeletionTimestamp := om_DeletionTimestamp o; om_Labels := om_Labels o;
  om_Annotations := om_Annotations o; om_OwnerReferences := om_OwnerReferences o;
  om_Finalizers := om_Finalizers o |}.
Definition SetLabels (l : gomap) (o : ObjectMeta) : ObjectMeta := {|
  om_Name := om_Name o; om_Namespace := om_Namespace o; om_UID := om_UID o;
  om_ResourceVersion := om_ResourceVersion o; om_Generation := om_Generation o;
  om_DeletionTimestamp := om_DeletionTimestamp o; om_Labels := l;
  om_Annotations := om_Annotations o; om_OwnerReferences := om_OwnerReferences o;
  om_Finalizers := om_Finalizers o |}.
Definition SetAnnotations (a : gomap) (o : ObjectMeta) : ObjectMeta := {|
  om_Name := om_Name o; om_Namespace := om_Namespace o; om_UID := om_UID o;
  om_ResourceVersion := om_ResourceVersion o; om_Generation := om_Generation o;
  om_DeletionTimestamp := om_DeletionTimestamp o; om_Labels := om_Labels o;
  om_Annotations := a; om_OwnerReferences := om_OwnerReferences o;
  om_Finalizers := om_Finalizers o |}.
Definition SetOwnerReferences (r : list OwnerReference) (o : ObjectMeta) : ObjectMeta := {|
  om_Name := om_Name o; om_Namespace := om_Namespace o; om_UID := om_UID o;
  om_ResourceVersion := om_ResourceVersion o; om_Generation := om_Generation o;
  om_DeletionTimestamp := om_DeletionTimestamp o; om_Labels := om_Labels o;
  om_Annotations := om_Annotations o; om_OwnerReferences := r;
  om_Finalizers := om_Finalizers o |}.
Definition SetFinalizers (f : list string) (o : ObjectMeta) : ObjectMeta := {|
  om_Name := om_Name o; om_Namespace := om_Namespace o; om_UID := om_UID o;
  om_ResourceVersion := om_ResourceVersion o; om_Generation := om_Generation o;
  om_DeletionTimestamp := om_DeletionTimestamp o; om_Labels := om_Labels o;
  om_Annotations := om_Annotations o; om_OwnerReferences := om_OwnerReferences o;
  om_Finalizers := f |}.

(** ** pkg/operator/config.go: the [Map] flag *)

Module Map.
(** [Merge]: a fresh map, the receiver's entries win. *)
Definition Merge (m other : gomap) : gmap string string := entries m ∪ entries other.

(** One [key=value] pair of the flag: [pair[1]] panics when there is no [=]. *)
Definition set_pair (m : gmap string string) (pair : string) : res (gmap string string) :=
  match Split pair "="%char with
  | k :: v :: _ => Ok (<[k := v]> m)
  | _ => Panic "index out of range [1] with length 1"
  end.
Fixpoint set_pairs (m : gmap string string) (pairs : list string) : res (gmap string string) :=
  match pairs with
  | [] => Ok m
  | p :: ps => m' ← set_pair m p; set_pairs m' ps
  end.
(** [Set] implements [flag.Value]. *)
Definition Set_ (m : gomap) (value : string) : res gomap :=
  if bool_decide (value = "") then Ok m
  else Some <$> set_pairs (entries m) (Split value ","%char).

(** [String] prints the entries in key order. *)
Definition String_ (m : option gomap) : string :=
  match m with
  | None => ""
  | Some m' =>
      Join ((fun k => k +:+ "=" +:+ at_key m' k) <$> SortedKeys (entries m')) ","
  end.
End Map.

(** ** pkg/operator/factory.go: object options *)

Definition ObjectOption := ObjectMeta → ObjectMeta.

(** What an [Owner] is asked for. *)
Record Owner := {
  owner_APIVersion : string;
  owner_Kind : string;
  owner_Name : string;
  owner_UID : string;
}.

Definition managedByOperatorLabel := "managed-by".
Definition managedByOperatorLabelValue := "prometheus-operator".
Definition InputHashAnnotationName := "prometheus-operator-input-hash".

Definition WithOwner (owner : Owner) : ObjectOption := fun o =>
  SetOwnerReferences
    (om_OwnerReferences o ++
      [{| or_APIVersion := owner_APIVersion owner; or_Kind := owner_Kind owner;
          or_Name := owner_Name owner; or_UID := owner_UID owner;
          or_Controller := None; or_BlockOwnerDeletion := None |}]) o.

(** [ptr.To(true)] allocates: [p] and [q] are the addresses of the two new pointers. *)
Definition WithManagingOwner (p q : nat) (owner : Owner) : ObjectOption := fun o =>
  SetOwnerReferences
    (om_OwnerReferences o ++
      [{| or_APIVersion := owner_APIVersion owner; or_Kind := owner_Kind owner;
          or_Name := owner_Name owner; or_UID := owner_UID owner;
          or_Controller := Some (Ptr q true); or_BlockOwnerDeletion := Some (Ptr p true) |}]) o.

Definition WithName (name : string) : ObjectOption := SetName name.
Definition WithNamespace (namespace : string) : ObjectOption := SetNamespace namespace.

Definition WithLabels (labels : gomap) : ObjectOption := fun o =>
  let l := Map.Merge (Some ∅) labels in
  let l := Map.Merge (Some l) (om_Labels o) in
  SetLabels (Some l) o.

Definition WithAnnotations (annotations : gomap) : ObjectOption := fun o =>
  let a := Map.Merge (Some ∅) annotations in
  let a := Map.Merge (Some a) (om_Annotations o) in
  SetAnnotations (Some a) o.

Definition WithInputHashAnnotation (h : string) : ObjectOption := fun o =>
  SetAnnotations (Some (<[InputHashAnnotationName := h]> (entries (om_Annotations o)))) o.

Definition WithoutKubectlAnnotations : ObjectOption := fun o =>
  SetAnnotations
    (Some (filter (fun kv => HasPrefix kv.1 "kubectl.kubernetes.io/" = false)
      (entries (om_Annotations o)))) o.

Definition UpdateObject (o : ObjectMeta) (opts : list ObjectOption) : ObjectMeta :=
  foldl (fun o opt => opt o)
    (WithLabels (Some {[managedByOperatorLabel := managedByOperatorLabelValue]}) o) opts.

(** ** pkg/k8sutil/k8sutil.go: merging metadata *)

(** [mergeMapsByPrefix from to prefix] returns [to] with the entries of [from] whose key has the
    prefix written into it. The map [to] itself is updated unless it is nil, in which case a new
    map is returned: [merge_in_place] is [to] after the call. *)
Definition mergeMapsByPrefix (from to : gomap) (prefix : string) : gomap :=
  Some (filter (fun kv => HasPrefix kv.1 prefix = true) (entries from) ∪ entries to).
Definition merge_in_place (from to : gomap) (prefix : string) : gomap :=
  match to with
  | None => None
  | Some _ => mergeMapsByPrefix from to prefix
  end.

Definition mergeMaps (newObj oldObj : gomap) : gomap := mergeMapsByPrefix newObj oldObj "".

Definition mergeMetadata (newObj oldObj : ObjectMeta) : ObjectMeta :=
  let newObj := SetResourceVersion (om_ResourceVersion oldObj) newObj in
  let newObj := SetLabels (mergeMaps (om_Labels newObj) (om_Labels oldObj)) newObj in
  SetAnnotations (mergeMaps (om_Annotations newObj) (om_Annotations oldObj)) newObj.

(** [mergeKubectlAnnotations(&from, to)]: the two objects after the call. The result is stored
    into [from]; [to] only sees it because it shares its (non-nil) map. *)
Definition mergeKubectlAnnotations (from to : ObjectMeta) : ObjectMeta * ObjectMeta :=
  let p := "kubectl.kubernetes.io/" in
  let merged := mergeMapsByPrefix (om_Annotations from) (om_Annotations to) p in
  (SetAnnotations merged from,
   SetAnnotations (merge_in_place (om_Annotations from) (om_Annotations to) p) to).

Fixpoint mergeOwnerReferences_loop (existing oldObj newObj : list OwnerReference)
    : list OwnerReference :=
  match newObj with
  | [] => oldObj
  | r :: newObj' =>
      if decide (r ∈ existing) then mergeOwnerReferences_loop existing oldObj newObj'
      else mergeOwnerReferences_loop existing (oldObj ++ [r]) newObj'
  end.
Definition mergeOwnerReferences (oldObj newObj : list OwnerReference) : list OwnerReference :=
  mergeOwnerReferences_loop oldObj oldObj newObj.

(** ** Lemmas *)

Lemma HasPrefix_empty k : HasPrefix k "" = true.
Proof. apply HasPrefix_spec. by exists k. Qed.

Lemma lookup_mergeMapsByPrefix from to p k :
  entries (mergeMapsByPrefix from to p) !! k =
  match entries from !! k with
  | Some v => if HasPrefix k p then Some v else entries to !! k
  | None => entries to !! k
  end.
Proof.
  unfold mergeMapsByPrefix. simpl.
  destruct (entries from !! k) as [v|] eqn:E.
  - destruct (HasPrefix k p) eqn:P.
    + apply lookup_union_Some_l. by apply map_lookup_filter_Some.
    + apply lookup_union_r. apply map_lookup_filter_None. right. simpl. congruence.
  - apply lookup_union_r. apply map_lookup_filter_None. by left.
Qed.
Lemma mergeMaps_union n o : mergeMaps n o = Some (entries n ∪ entries o).
Proof.
  unfold mergeMaps, mergeMapsByPrefix. do 2 f_equal. apply map_filter_id.
  intros k v _. apply HasPrefix_empty.
Qed.
Lemma mergeMetadata_idemp n o : mergeMetadata (mergeMetadata n o) o = mergeMetadata n o.
Proof.
  unfold mergeMetadata, SetAnnotations, SetLabels, SetResourceVersion. simpl.
  rewrite !mergeMaps_union. simpl.
  by rewrite <-!(assoc_L (∪)), !map_union_idemp.
Qed.

(** [mergeOwnerReferences] keeps the old references in front and appends, in order, the new ones
    that are not [==] to an old one. *)
Lemma mergeOwnerReferences_spec old new :
  mergeOwnerReferences old new = old ++ filter (fun r => r ∉ old) new.
Proof.
  unfold mergeOwnerReferences.
  assert (∀ acc, mergeOwnerReferences_loop old acc new = acc ++ filter (fun r => r ∉ old) new) as H.
  { induction new as [|r new IH]; intros acc; simpl; [by rewrite app_nil_r|].
    rewrite filter_cons, !IH. repeat case_decide; try done. by rewrite <-app_assoc. }
  apply H.
Qed.

Lemma lookup_WithLabels ls o k :
  entries (om_Labels (WithLabels ls o)) !! k =
  match entries ls !! k with Some v => Some v | None => entries (om_Labels o) !! k end.
Proof.
  unfold WithLabels, Map.Merge. simpl. rewrite (left_id_L ∅ (∪)), lookup_union.
  by destruct (entries ls !! k), (entries (om_Labels o) !! k).
Qed.
Lemma WithAnnotations_labels a o : om_Labels (WithAnnotations a o) = om_Labels o.
Proof. done. Qed.
