(* ===== verification/ApiClient.v ===== *)
(** * Typed API clients

    The operator talks to the Kubernetes API through typed clients of client-go
    ([SecretInterface], [ConfigMapInterface], ...). That code is not part of the repository: the
    class [ApiClient] is the interface the operator uses and [ApiLaws] states what the API
    documents about it. The components are proved against the laws; [FakeStore] is a concrete
    client, with injected failures, that satisfies them. *)

From S2P Require Import Prelude GoStrings SortUtil Meta.

(** ** API objects *)

(** The fields the server owns ([UID], [ResourceVersion], [Generation], the deletion timestamp)
    are erased, and representations that do not survive serialization (nil against empty maps,
    pointer addresses) are identified. *)
Definition erase_ptr {A} (p : pointer A) : pointer A := Ptr 0 (deref p).
Definition erase_ref (r : OwnerReference) : OwnerReference := {|
  or_APIVersion := or_APIVersion r; or_Kind := or_Kind r; or_Name := or_Name r;
  or_UID := or_UID r; or_Controller := erase_ptr <$> or_Controller r;
  or_BlockOwnerDeletion := erase_ptr <$> or_BlockOwnerDeletion r |}.
Definition user_meta (m : ObjectMeta) : ObjectMeta := {|
  om_Name := om_Name m; om_Namespace := om_Namespace m; om_UID := "";
  om_ResourceVersion := ""; om_Generation := 0; om_DeletionTimestamp := None;
  om_Labels := Some (entries (om_Labels m)); om_Annotations := Some (entries (om_Annotations m));
  om_OwnerReferences := erase_ref <$> om_OwnerReferences m;
  om_Finalizers := om_Finalizers m |}.

Class ApiObject (Obj : Type) := {
  meta : Obj → ObjectMeta;
  set_meta : ObjectMeta → Obj → Obj;
  meta_set_meta : ∀ m o, meta (set_meta m o) = m;
  set_meta_meta : ∀ o, set_meta (meta o) o = o;
  set_meta_set_meta : ∀ m m' o, set_meta m (set_meta m' o) = set_meta m o;
}.
#[global] Arguments meta : simpl never.
#[global] Arguments set_meta : simpl never.
Definition name {Obj} `{ApiObject Obj} (o : Obj) : string := om_Name (meta o).
(** What the author of the object decides about it. *)
Definition content {Obj} `{ApiObject Obj} (o : Obj) : Obj := set_meta (user_meta (meta o)) o.

Lemma content_name {Obj} `{ApiObject Obj} (o o' : Obj) : content o = content o' → name o = name o'.
Proof.
  unfold content, name. intros H0%(f_equal meta). rewrite !meta_set_meta in H0.
  by injection H0.
Qed.
Lemma content_user_meta {Obj} `{ApiObject Obj} (o o' : Obj) :
  content o = content o' → user_meta (meta o) = user_meta (meta o').
Proof. unfold content. intros H0%(f_equal meta). by rewrite !meta_set_meta in H0. Qed.
Lemma user_meta_labels m m' :
  user_meta m = user_meta m' → entries (om_Labels m) = entries (om_Labels m').
Proof. by injection 1. Qed.

(** v1.Secret and v1.ConfigMap. *)
Record Secret := { sec_meta : ObjectMeta; sec_Type : string; sec_Data : gmap string string }.
Record ConfigMap := { cm_meta : ObjectMeta; cm_Data : gmap string string }.
#[global] Instance Secret_eq_dec : EqDecision Secret.
Proof. solve_decision. Defined.
#[global] Instance ConfigMap_eq_dec : EqDecision ConfigMap.
Proof. solve_decision. Defined.

#[global] Program Instance Secret_object : ApiObject Secret := {|
  meta := sec_meta;
  set_meta m o := {| sec_meta := m; sec_Type := sec_Type o; sec_Data := sec_Data o |};
|}.
Solve All Obligations with by intros; repeat match goal with o : Secret |- _ => destruct o end.
#[global] Program Instance ConfigMap_object : ApiObject ConfigMap := {|
  meta := cm_meta;
  set_meta m o := {| cm_meta := m; cm_Data := cm_Data o |};
|}.
Solve All Obligations with by intros; repeat match goal with o : ConfigMap |- _ => destruct o end.

Lemma content_sec_Data (o o' : Secret) : content o = content o' → sec_Data o = sec_Data o'.
Proof. by intros [= _ _ H]. Qed.
Lemma content_cm_Data (o o' : ConfigMap) : content o = content o' → cm_Data o = cm_Data o'.
Proof. by intros [= _ H]. Qed.

(** ** The client interface *)

Class ApiClient (Obj St : Type) := {
  (** the objects of the client's namespace, by name *)
  objs : St → gmap string Obj;
  Get : string → M St Obj;
  Create : Obj → M St Obj;
  Update : Obj → M St Obj;
  Delete : string → M St ();
  (** [List] with a label selector *)
  List : (Obj → bool) → M St (list Obj);
}.

(** What a write left behind: [o1] is [o] up to the fields the server owns. *)
Definition stored {Obj} `{ApiObject Obj} (o : Obj) (before after : gmap string Obj) : Prop :=
  ∃ o1, content o1 = content o ∧ after = <[name o := o1]> before.

(** The laws of a client that is alone with the server: what it wrote is there until it writes again,
    as no one else does in between, and a deleted object is gone at once, as if no object had finalizers. *)
Class ApiLaws (Obj St : Type) `{ApiObject Obj, ApiClient Obj St} := {
  Get_objs n s s' r : Get n s = (s', r) → objs s' = objs s;
  Get_ok n s s' o : Get n s = (s', Ok o) → objs s !! n = Some o;
  Get_NotFound n s s' e : Get n s = (s', Err e) → IsNotFound e = true → objs s !! n = None;
  Create_ok o s s' o' :
    Create o s = (s', Ok o') → objs s !! name o = None ∧ stored o (objs s) (objs s');
  Update_ok o s s' o' :
    Update o s = (s', Ok o') → is_Some (objs s !! name o) ∧ stored o (objs s) (objs s');
  (** a request the server refuses with a conflict is not applied *)
  Create_conflict o s s' e : Create o s = (s', Err e) → IsConflict e = true → objs s' = objs s;
  Update_conflict o s s' e : Update o s = (s', Err e) → IsConflict e = true → objs s' = objs s;
  Delete_ok n s s' :
    Delete n s = (s', Ok ()) → is_Some (objs s !! n) ∧ objs s' = delete n (objs s);
  Delete_NotFound n s s' e :
    Delete n s = (s', Err e) → IsNotFound e = true → objs s !! n = None ∧ objs s' = objs s;
  List_objs p s s' r : List p s = (s', r) → objs s' = objs s;
  List_ok p s s' os :
    List p s = (s', Ok os) → os ≡ₚ filter (fun o => p o = true) ((map_to_list (objs s)).*2);
  (** objects are stored under their own name *)
  objs_name s n o : objs s !! n = Some o → name o = n;
  api_no_panic_Get n s m : (Get n s).2 ≠ Panic m;
  api_no_panic_Create (o : Obj) s m : (Create o s).2 ≠ Panic m;
  api_no_panic_Update (o : Obj) s m : (Update o s).2 ≠ Panic m;
  api_no_panic_Delete n s m : (Delete n s).2 ≠ Panic m;
}.

(** A server that answers every request ([healthy] states): what a client gets when neither the
    network nor the server fails. *)
Class ApiHealthy (Obj St : Type) `{ApiObject Obj, ApiClient Obj St} := {
  healthy : St → Prop;
  Get_healthy n s : healthy s → ∃ s', healthy s' ∧
    Get n s = (s', match objs s !! n with Some o => Ok o | None => Err (StatusError NotFound n) end);
  Create_healthy o s : healthy s → objs s !! name o = None →
    ∃ s' o', healthy s' ∧ Create o s = (s', Ok o');
  Update_healthy o s : healthy s → is_Some (objs s !! name o) →
    ∃ s' o', healthy s' ∧ Update o s = (s', Ok o');
  Delete_healthy n s : healthy s → ∃ s', healthy s' ∧
    Delete n s = (s', match objs s !! n with Some _ => Ok () | None => Err (StatusError NotFound n) end);
  List_healthy p s : healthy s → ∃ s' os, healthy s' ∧ List p s = (s', Ok os);
}.

(** ** retry.RetryOnConflict *)

(** The runs [retry.RetryOnConflict] documents: the function is called again only after a
    conflict; the last outcome is returned. *)
Inductive attempts {S A} (fn : M S A) : S → S → res A → Prop :=
  | attempt_last s s' r : fn s = (s', r) → attempts fn s s' r
  | attempt_again s s1 e s' r :
      fn s = (s1, Err e) → IsConflict e = true → attempts fn s1 s' r → attempts fn s s' r.

Class Retry := {
  RetryOnConflict : ∀ {S A}, M S A → M S A;
  RetryOnConflict_runs {S A} (fn : M S A) s s' r :
    RetryOnConflict fn s = (s', r) → attempts fn s s' r;
}.

(** Without a conflict the function runs exactly once. *)
Lemma RetryOnConflict_once `{Retry} {S A} (fn : M S A) s s' r :
  fn s = (s', r) → (∀ e, r = Err e → IsConflict e = false) → RetryOnConflict fn s = (s', r).
Proof.
  intros Hfn Hr. destruct (RetryOnConflict fn s) as [s1 r1] eqn:E.
  apply RetryOnConflict_runs in E. destruct E as [s s1 r1 E|s s2 e s1 r1 E He _].
  - congruence.
  - rewrite Hfn in E. injection E as -> ->. rewrite (Hr e) in He; done.
Qed.

(** Run an API call on the first component of the state. *)
Definition on_api {St T A} (c : M St A) : M (St * T) A := fun st =>
  let '(s', r) := c st.1 in ((s', st.2), r).

(** ** A concrete client: an in-memory store with injected failures *)

Module FakeStore.
Section store.
Context {Obj : Type} `{ApiObject Obj}.

Record state := State {
  faults : list bool;          (** [true]: the next request is answered with a 500 *)
  version : N;                 (** the resource version counter *)
  store : gmap string Obj;
}.

(** Only entries filed under their own name are objects of the store. *)
Definition named (kv : string * Obj) : Prop := name kv.2 = kv.1.
Definition contents (s : state) : gmap string Obj := filter named (store s).

Definition stamp (v : N) (o : Obj) : Obj :=
  set_meta (SetResourceVersion (pretty v) (meta o)) o.
Definition put (o : Obj) (s : state) : state :=
  let v := N.succ (version s) in State (faults s) v (<[name o := stamp v o]> (store s)).

(** Serve [c] unless a fault is due. *)
Definition serve {A} (c : M state A) : M state A := fun s =>
  match faults s with
  | [] => c s
  | true :: fs => (State fs (version s) (store s), Err (StatusError (OtherStatus 500) ""))
  | false :: fs => c (State fs (version s) (store s))
  end.

Definition get (n : string) : M state Obj := fun s =>
  match contents s !! n with
  | Some o => (s, Ok o)
  | None => (s, Err (StatusError NotFound n))
  end.
Definition create (o : Obj) : M state Obj := fun s =>
  match contents s !! name o with
  | Some _ => (s, Err (StatusError AlreadyExists (name o)))
  | None => (put o s, Ok o)
  end.
Definition update (o : Obj) : M state Obj := fun s =>
  match contents s !! name o with
  | None => (s, Err (StatusError NotFound (name o)))
  | Some _ => (put o s, Ok o)
  end.
Definition del (n : string) : M state () := fun s =>
  match contents s !! n with
  | None => (s, Err (StatusError NotFound n))
  | Some _ => (State (faults s) (version s) (delete n (store s)), Ok ())
  end.
Definition list_ (p : Obj → bool) : M state (list Obj) := fun s =>
  (s, Ok (filter (fun o => p o = true) ((map_to_list (contents s)).*2))).

Lemma name_stamp v o : name (stamp v o) = name o.
Proof. unfold name, stamp. by rewrite meta_set_meta. Qed.
Lemma content_stamp v o : content (stamp v o) = content o.
Proof. unfold content, stamp. by rewrite meta_set_meta, set_meta_set_meta. Qed.
Lemma contents_put o s : stored o (contents s) (contents (put o s)).
Proof.
  exists (stamp (N.succ (version s)) o). split; [apply content_stamp|].
  unfold contents, put. simpl. apply map_filter_insert_True. apply name_stamp.
Qed.

(** A served request behaves as on the store without the fault queue's head. *)
Lemma serve_inv {A} (c : M state A) s s' r :
  serve c s = (s', r) →
  (∃ e, r = Err e ∧ IsNotFound e = false ∧ IsConflict e = false ∧ contents s' = contents s) ∨
  ∃ fs, c (State fs (version s) (store s)) = (s', r).
Proof.
  unfold serve. destruct s as [[|[] fs] v m]; simpl; intros E; [by right; exists []| |by right; exists fs].
  injection E as <- <-. left. by eexists.
Qed.
End store.
Arguments state Obj : clear implicits.
Arguments State {Obj} _ _ _.

#[global] Instance client {Obj} `{ApiObject Obj} : ApiClient Obj (state Obj) := {|
  objs := contents;
  Get n := serve (get n);
  Create o := serve (create o);
  Update o := serve (update o);
  Delete n := serve (del n);
  List p := serve (list_ p);
|}.

Ltac served H :=
  apply serve_inv in H as [(? & ? & ? & ? & ?)|[? H]]; simplify_eq/=; try done.

Ltac stored_put :=
  match goal with |- stored ?o _ (contents (put _ ?t)) => exact (contents_put o t) end.

#[global] Instance laws {Obj} `{ApiObject Obj} : ApiLaws Obj (state Obj).
Proof.
  constructor; simpl.
  - intros n s s' r E. served E. unfold get in E. by case_match; simplify_eq/=.
  - intros n s s' o E. served E. unfold get in E. by case_match; simplify_eq/=.
  - intros n s s' e E He. served E; [congruence|]. unfold get in E. by case_match; simplify_eq/=.
  - intros o s s' o' E. served E. unfold create in E. case_match; simplify_eq/=.
    split; [done|]. stored_put.
  - intros o s s' o' E. served E. unfold update in E. case_match; simplify_eq/=.
    split; [by eexists|]. stored_put.
  - intros o s s' e E He. served E. unfold create in E. by case_match; simplify_eq/=.
  - intros o s s' e E He. served E. unfold update in E. by case_match; simplify_eq/=.
  - intros n s s' E. served E. unfold del in E. case_match; simplify_eq/=.
    split; [by eexists|]. unfold contents. simpl. apply map_filter_delete.
  - intros n s s' e E He. served E; [congruence|]. unfold del in E. by case_match; simplify_eq/=.
  - intros p s s' r E. served E. by unfold list_ in E; simplify_eq/=.
  - intros p s s' os E. served E. by unfold list_ in E; simplify_eq/=.
  - intros s n o [_ Hn]%map_lookup_filter_Some. done.
  - intros n s m. unfold serve, get. repeat case_match; done.
  - intros o s m. unfold serve, create. repeat case_match; done.
  - intros o s m. unfold serve, update. repeat case_match; done.
  - intros n s m. unfold serve, del. repeat case_match; done.
Qed.

#[global] Instance health {Obj} `{ApiObject Obj} : ApiHealthy Obj (state Obj).
Proof.
  refine {| healthy := fun s : state Obj => faults s = [] |}; simpl; unfold serve.
  - intros n s Hs. rewrite Hs. unfold get. exists s. by case_match.
  - intros o s Hs Hn. rewrite Hs. unfold create. rewrite Hn. by exists (put o s), o.
  - intros o s Hs [o' Hn]. rewrite Hs. unfold update. rewrite Hn. by exists (put o s), o.
  - intros n s Hs. rewrite Hs. unfold del.
    case_match; [by exists (State (faults s) (version s) (delete n (store s)))|by exists s].
  - intros p s Hs. rewrite Hs. unfold list_. by eexists s, _.
Defined.
End FakeStore.

(** [client-go]'s default retry gives up after five attempts. *)
Module FiveAttempts.
Fixpoint retry (k : nat) {S A} (fn : M S A) : M S A := fun s =>
  match fn s, k with
  | (s1, Err e), Datatypes.S k' =>
      if IsConflict e then retry k' fn s1 else (s1, Err e)
  | out, _ => out
  end.
#[global] Program Instance instance : Retry := {| RetryOnConflict S A := @retry 4 S A |}.
Next Obligation.
  intros S A fn. generalize 4. intros k. induction k as [|k IH]; intros s s' r; simpl.
  - destruct (fn s) as [s1 [a|e|m]] eqn:E; intros [= <- <-]; by apply attempt_last.
  - destruct (fn s) as [s1 [a|e|m]] eqn:E; try (intros [= <- <-]; by apply attempt_last).
    destruct (IsConflict e) eqn:He; [|intros [= <- <-]; by apply attempt_last].
    intros Hr. by eapply attempt_again, IH.
Qed.
End FiveAttempts.
