(* ===== verification/K8sUtil.v ===== *)
(** * pkg/k8sutil: creating and updating API objects

    [CreateOrUpdateSecret] of pkg/k8sutil/k8sutil.go against the client interface of [ApiClient]. The desired object is mutated by the retried closure, so it is part
    of the closure's state. *)

From S2P Require Import Prelude GoStrings SortUtil Meta ApiClient.

(** [apiequality.Semantic.DeepEqual] of apimachinery: equal objects have equal contents. *)
Class SemanticEquality (Obj : Type) `{ApiObject Obj} := {
  SemanticDeepEqual : Obj → Obj → bool;
  SemanticDeepEqual_content a b : SemanticDeepEqual a b = true → content a = content b;
}.
#[global] Program Instance content_equality {Obj} `{ApiObject Obj, EqDecision Obj} :
  SemanticEquality Obj := {| SemanticDeepEqual a b := bool_decide (a = b) |}.
Next Obligation. intros ??? a b. rewrite bool_decide_eq_true. by intros ->. Qed.

Section secrets.
Context {St : Type} `{ApiClient Secret St, !Retry, !SemanticEquality Secret}.

(** One run of the closure handed to [RetryOnConflict]. *)
Definition CreateOrUpdateSecret_attempt : M (St * Secret) () :=
  st ← mget;
  r ← mtry (on_api (Get (name st.2)));
  match r with
  | inr err =>
      if negb (IsNotFound err) then mfail err
      else on_api (Create st.2) ≫= fun _ => mret ()
  | inl existingSecret =>
      st1 ← mget;
      let desired := set_meta (mergeMetadata (meta st.2) (meta existingSecret)) st.2 in
      _ ← mput (st1.1, desired);
      if SemanticDeepEqual existingSecret desired then mret ()
      else on_api (Update desired) ≫= fun _ => mret ()
  end.

Definition CreateOrUpdateSecret (desired : Secret) : M St () := fun s =>
  let '(st, r) := RetryOnConflict CreateOrUpdateSecret_attempt (s, desired) in (st.1, r).

(** The secret that ends up in the API: the desired one, on top of the metadata of the
    existing one. *)
Definition reconciled (existing : option Secret) (desired : Secret) : Secret :=
  match existing with
  | None => desired
  | Some e => set_meta (mergeMetadata (meta desired) (meta e)) desired
  end.

Lemma name_reconciled e d : name (reconciled e d) = name d.
Proof. by destruct e. Qed.
Lemma reconciled_idemp e d : reconciled e (reconciled e d) = reconciled e d.
Proof.
  destruct e as [e|]; [|done]. unfold reconciled.
  by rewrite meta_set_meta, set_meta_set_meta, mergeMetadata_idemp.
Qed.

Context `{!ApiLaws Secret St}.

(** The desired object after any number of attempts. *)
Definition merged_from (objs0 : gmap string Secret) (desired d : Secret) : Prop :=
  d = desired ∨ d = reconciled (objs0 !! name desired) desired.

Lemma attempt_spec st st' r desired :
  merged_from (objs st.1) desired st.2 →
  CreateOrUpdateSecret_attempt st = (st', r) →
  match r with
  | Ok _ => stored (reconciled (objs st.1 !! name desired) desired) (objs st.1) (objs st'.1)
  | Err e =>
      IsConflict e = true → objs st'.1 = objs st.1 ∧ merged_from (objs st.1) desired st'.2
  | Panic _ => False
  end.
Proof.
  intros Hd. destruct st as [s d]. simpl in Hd.
  assert (name d = name desired) as Hn.
  { destruct Hd as [-> | ->]; [done|]. apply name_reconciled. }
  assert (reconciled (objs s !! name desired) d = reconciled (objs s !! name desired) desired) as Hr.
  { destruct Hd as [-> | ->]; [done|]. apply reconciled_idemp. }
  unfold CreateOrUpdateSecret_attempt, mget, mtry, on_api, mput, mbind, M_bind, mret, M_ret, mfail.
  simpl. rewrite Hn.
  destruct (Get (name desired) s) as [s1 [ex|err|m]] eqn:EG.
  - pose proof (Get_ok _ _ _ _ EG) as Hex. pose proof (Get_objs _ _ _ _ EG) as Hs1.
    rewrite Hex in *. simpl in Hr. simpl. rewrite Hr.
    set (d' := set_meta (mergeMetadata (meta desired) (meta ex)) desired).
    destruct (SemanticDeepEqual ex d') eqn:ES.
    + intros [= <- <-]. simpl. rewrite Hs1. exists ex. split.
      * by apply SemanticDeepEqual_content.
      * symmetry. by apply insert_id.
    + simpl. destruct (Update d' s1) as [s2 [o2|e2|m2]] eqn:EU; simpl; intros [= <- <-]; simpl.
      * apply Update_ok in EU as [_ EU]. by rewrite Hs1 in EU.
      * intros Hc. rewrite (Update_conflict _ _ _ _ EU Hc), Hs1. split; [done|].
        right. by rewrite Hex.
      * pose proof (api_no_panic_Update d' s1 m2) as Hp. by rewrite EU in Hp.
  - pose proof (Get_objs _ _ _ _ EG) as Hs1. simpl.
    destruct (IsNotFound err) eqn:ENF; simpl.
    + pose proof (Get_NotFound _ _ _ _ EG ENF) as Hex. rewrite Hex in *. simpl in *. subst d.
      simpl. destruct (Create desired s1) as [s2 [o2|e2|m2]] eqn:EC; simpl; intros [= <- <-]; simpl.
      * apply Create_ok in EC as [_ EC]. by rewrite Hs1 in EC.
      * intros Hc. rewrite (Create_conflict _ _ _ _ EC Hc), Hs1. split; [done|by left].
      * pose proof (api_no_panic_Create desired s1 m2) as Hp. by rewrite EC in Hp.
    + intros [= <- <-]. simpl. intros _. rewrite Hs1. done.
  - pose proof (api_no_panic_Get (name desired) s m) as Hp. by rewrite EG in Hp.
Qed.

Lemma CreateOrUpdateSecret_ok desired s s' :
  CreateOrUpdateSecret desired s = (s', Ok ()) →
  stored (reconciled (objs s !! name desired) desired) (objs s) (objs s').
Proof.
  unfold CreateOrUpdateSecret.
  destruct (RetryOnConflict _ _) as [st r] eqn:E. intros [= <- ->].
  apply RetryOnConflict_runs in E.
  assert (merged_from (objs s) desired desired) as Hd by by left.
  change (objs s) with (objs (s, desired).1) in Hd |- *.
  change (merged_from (objs (s, desired).1) desired (s, desired).2) in Hd.
  remember (s, desired) as st0 eqn:Heq. clear s Heq.
  remember (Ok ()) as r eqn:Hr. induction E as [st0 st r E|st0 st1 e st r E He _ IH]; subst.
  - exact (attempt_spec _ _ _ _ Hd E).
  - destruct (attempt_spec _ _ _ _ Hd E He) as [Ho Hm]. rewrite <-Ho in *. by apply IH.
Qed.

Lemma CreateOrUpdateSecret_no_panic desired s s' r :
  CreateOrUpdateSecret desired s = (s', r) → ∀ m, r ≠ Panic m.
Proof.
  unfold CreateOrUpdateSecret.
  destruct (RetryOnConflict _ _) as [st r'] eqn:E. intros [= <- ->].
  apply RetryOnConflict_runs in E. intros m ->.
  assert (merged_from (objs (s, desired).1) desired (s, desired).2) as Hd by by left.
  remember (s, desired) as st0 eqn:Heq. clear s Heq.
  remember (Panic m) as r eqn:Hr. induction E as [st0 st r E|st0 st1 e st r E He _ IH]; subst.
  - exact (attempt_spec _ _ _ _ Hd E).
  - destruct (attempt_spec _ _ _ _ Hd E He) as [Ho Hm]. rewrite <-Ho in *. by apply IH.
Qed.

(** With a server that answers, the call succeeds. *)
Lemma CreateOrUpdateSecret_healthy `{!ApiHealthy Secret St} desired s :
  healthy s → ∃ s', healthy s' ∧ CreateOrUpdateSecret desired s = (s', Ok ()).
Proof.
  intros Hs. destruct (Get_healthy (name desired) s Hs) as (s1 & Hs1 & EG).
  pose proof (Get_objs _ _ _ _ EG) as Ho.
  assert (∃ st, healthy st.1 ∧ CreateOrUpdateSecret_attempt (s, desired) = (st, Ok ())) as (st & Hst & E).
  { unfold CreateOrUpdateSecret_attempt, mget, mtry, on_api, mput, mbind, M_bind, mret, M_ret, mfail.
    simpl. rewrite EG. destruct (objs s !! name desired) as [ex|] eqn:Hex; simpl.
    - case_match; [by eexists (s1, _)|]. simpl.
      destruct (Update_healthy (set_meta (mergeMetadata (meta desired) (meta ex)) desired) s1 Hs1)
        as (s2 & o & Hs2 & ->); [|by eexists (_, _)].
      rewrite Ho. by eexists.
    - destruct (Create_healthy desired s1 Hs1) as (s2 & o & Hs2 & ->); [by rewrite Ho|].
      by eexists (_, _). }
  exists st.1. split; [done|]. unfold CreateOrUpdateSecret.
  by rewrite (RetryOnConflict_once _ _ _ _ E).
Qed.
End secrets.
