(* ===== verification/ShardedSecret.v ===== *)
(** * pkg/operator/sharded_secret.go

    The TLS assets of a Prometheus, Alertmanager or ThanosRuler object may exceed what one Secret
    can hold; [ReconcileShardedSecret] spreads them over numbered Secrets, writes these and
    removes the ones a previous reconciliation left behind. *)

From S2P Require Import Prelude GoStrings SortUtil NextFit Meta ApiClient K8sUtil.

(** [v1.MaxSecretSize - 50_000]. *)
Definition MaxSecretDataSizeBytes : Z := 1024 * 1024 - 50000.

Record ShardedSecret := {
  template : Secret;
  data : gmap string string;
  secretShards : list Secret;
}.

Definition secretNameAt (s : ShardedSecret) (index : Z) : string :=
  name (template s) +:+ "-" +:+ Itoa index.

Definition newSecretAt (s : ShardedSecret) (index : Z) : Secret := {|
  sec_meta := SetName (secretNameAt s index) (sec_meta (template s));
  sec_Type := sec_Type (template s);
  sec_Data := ∅ |}.

(** The local variables of the loop in [shard]. *)
Record shard_state := {
  shards : list Secret;
  currentIndex : Z;
  secretSize : Z;
  currentSecret : Secret;
}.

Definition add_entry (k v : string) (o : Secret) : Secret :=
  {| sec_meta := sec_meta o; sec_Type := sec_Type o; sec_Data := <[k := v]> (sec_Data o) |}.

Definition shard_step (s : ShardedSecret) (st : shard_state) (key : string) : shard_state :=
  let v := default "" (data s !! key) in
  let vSize := (len key + len v)%Z in
  let st :=
    if decide (MaxSecretDataSizeBytes < secretSize st + vSize)%Z then {|
      shards := shards st ++ [currentSecret st];
      currentIndex := currentIndex st + 1;
      secretSize := 0;
      currentSecret := newSecretAt s (currentIndex st + 1) |}
    else st in
  {| shards := shards st;
     currentIndex := currentIndex st;
     secretSize := secretSize st + vSize;
     currentSecret := add_entry key v (currentSecret st) |}.

(** [shard] returns the secrets; [updateSecrets] also needs them recorded in the receiver. *)
Definition shard (s : ShardedSecret) : list Secret :=
  let st := foldl (shard_step s)
    {| shards := []; currentIndex := 0; secretSize := 0; currentSecret := newSecretAt s 0 |}
    (SortedKeys (data s)) in
  shards st ++ [currentSecret st].

Definition with_shards (s : ShardedSecret) : ShardedSecret :=
  {| template := template s; data := data s; secretShards := shard s |}.

(** [Hash] and [Volume] describe the mounted shards to the pod specification. *)
Definition Hash (s : ShardedSecret) : Z := Z.of_nat (length (secretShards s)).
Definition Volume_sources (s : ShardedSecret) : list string :=
  (fun i => secretNameAt s (Z.of_nat i)) <$> seq 0 (length (secretShards s)).

Section api.
Context {St : Type} `{ApiClient Secret St, !Retry, !SemanticEquality Secret}.

(** The loop has no bound of its own: [fuel] bounds the number of [Delete] calls. *)
Fixpoint cleanup_loop (fuel : nat) (s : ShardedSecret) (i : Z) : M St () :=
  match fuel with
  | 0 => mpanic "out of fuel"
  | S fuel' =>
      let secretName := secretNameAt s i in
      r ← mtry (Delete secretName);
      match r with
      | inl _ => cleanup_loop fuel' s (i + 1)
      | inr err =>
          if IsNotFound err then mret ()
          else mfail (Wrapf "failed to delete secret %q: %w" [secretName] err)
      end
  end.
(** One call per object of the namespace, and one to find out that there is none left. *)
Definition cleanupExcessSecretShards (s : ShardedSecret) (lastSecretIndex : Z) : M St () :=
  fun st => cleanup_loop (S (size (objs st))) s (lastSecretIndex + 1) st.

Definition updateSecrets (s : ShardedSecret) : M St ShardedSecret :=
  let s := with_shards s in
  _ ← mfor_each (fun secret =>
        mwrap "failed to create secret %q: %w" [name secret] (CreateOrUpdateSecret secret))
      (secretShards s);
  _ ← cleanupExcessSecretShards s (Z.of_nat (length (secretShards s)) - 1);
  mret s.

Definition ReconcileShardedSecret (data : gmap string string) (template : Secret)
    : M St ShardedSecret :=
  mwrap "failed to update the TLS secrets: %w" []
    (updateSecrets {| template := template; data := data; secretShards := [] |}).
End api.

(** ** Sharding is next-fit packing *)

Definition entry_size (m : gmap string string) (k : string) : Z :=
  len k + len (default "" (m !! k)).
Definition buckets (s : ShardedSecret) : list (list string) :=
  nextfit (entry_size (data s)) MaxSecretDataSizeBytes [] (SortedKeys (data s)).
(** The secret made for the [i]-th bucket. *)
Definition secret_of (s : ShardedSecret) (i : nat) (ks : list string) : Secret := {|
  sec_meta := SetName (secretNameAt s (Z.of_nat i)) (sec_meta (template s));
  sec_Type := sec_Type (template s);
  sec_Data := restrict (data s) ks |}.
(** The bytes the keys and values of a secret take. *)
Definition data_size (m : gmap string string) : Z :=
  map_fold (fun k v acc => acc + (len k + len v))%Z 0%Z m.

Lemma entry_size_nonneg m k : (0 ≤ entry_size m k)%Z.
Proof. unfold entry_size. pose proof (len_nonneg k). pose proof (len_nonneg (default "" (m !! k))). lia. Qed.

(** The loop state when [done] is packed and the keys [cur] are in the open secret. *)
Definition packed (s : ShardedSecret) (done : list Secret) (cur : list string) : shard_state := {|
  shards := done;
  currentIndex := Z.of_nat (length done);
  secretSize := weight (entry_size (data s)) cur;
  currentSecret := secret_of s (length done) cur |}.

Lemma newSecretAt_secret_of s i : newSecretAt s (Z.of_nat i) = secret_of s i [].
Proof. unfold newSecretAt, secret_of. by rewrite restrict_nil. Qed.
Lemma add_entry_secret_of s i cur k v :
  data s !! k = Some v → add_entry k v (secret_of s i cur) = secret_of s i (cur ++ [k]).
Proof. intros Hv. unfold add_entry, secret_of. simpl. by rewrite (restrict_snoc _ _ _ v). Qed.

Lemma shard_step_packed s done cur k :
  is_Some (data s !! k) →
  shard_step s (packed s done cur) k =
    if decide (MaxSecretDataSizeBytes < weight (entry_size (data s)) cur + entry_size (data s) k)%Z
    then packed s (done ++ [secret_of s (length done) cur]) [k]
    else packed s done (cur ++ [k]).
Proof.
  intros [v Hv]. unfold shard_step, packed, entry_size. rewrite Hv. simpl. case_decide; simpl.
  - rewrite length_app. simpl.
    replace (Z.of_nat (length done) + 1)%Z with (Z.of_nat (length done + 1)) by lia.
    rewrite newSecretAt_secret_of, (add_entry_secret_of _ _ _ _ _ Hv), Hv. simpl.
    by rewrite Z.add_0_r.
  - rewrite (add_entry_secret_of _ _ _ _ _ Hv), weight_app. simpl. rewrite Hv. simpl.
    by rewrite Z.add_0_r.
Qed.

Lemma shard_loop s ks : ∀ done cur,
  Forall (fun k => is_Some (data s !! k)) ks →
  let st := foldl (shard_step s) (packed s done cur) ks in
  shards st ++ [currentSecret st] =
  done ++ imap (fun i b => secret_of s (length done + i) b)
    (nextfit (entry_size (data s)) MaxSecretDataSizeBytes cur ks).
Proof.
  induction ks as [|k ks IH]; intros done cur Hks; simpl; [by rewrite Nat.add_0_r|].
  apply Forall_cons in Hks as [Hk Hks]. rewrite (shard_step_packed _ _ _ _ Hk).
  case_decide; rewrite IH by done; [|done].
  rewrite <-app_assoc, length_app. simpl. rewrite Nat.add_0_r. do 2 f_equal.
  apply imap_ext. intros i b _. simpl. apply (f_equal (fun j => secret_of s j b)). lia.
Qed.

Lemma shard_eq s : shard s = imap (secret_of s) (buckets s).
Proof.
  unfold shard, buckets. change (newSecretAt s 0) with (newSecretAt s (Z.of_nat 0)).
  rewrite (newSecretAt_secret_of s 0).
  apply (shard_loop s (SortedKeys (data s)) [] []).
  apply Forall_forall. intros k. by apply elem_of_SortedKeys.
Qed.

(** ** What the shards hold *)

Lemma buckets_concat s : concat (buckets s) = SortedKeys (data s).
Proof. apply nextfit_concat. Qed.

Lemma shard_lookup s i o :
  shard s !! i = Some o ↔ ∃ b, buckets s !! i = Some b ∧ o = secret_of s i b.
Proof.
  rewrite shard_eq, list_lookup_imap. destruct (buckets s !! i) as [b|]; simpl; naive_solver.
Qed.

(** The asset [k] is in some shard, with its value. *)
Lemma shard_covers s k v :
  data s !! k = Some v ↔ ∃ i o, shard s !! i = Some o ∧ sec_Data o !! k = Some v.
Proof.
  rewrite (parts_cover _ _ (buckets_concat s)). split.
  - intros (i & b & Hi & Hk). exists i, (secret_of s i b). rewrite shard_lookup. eauto.
  - intros (i & o & (b & Hi & ->)%shard_lookup & Ho). by exists i, b.
Qed.

Lemma shard_disjoint s i j o o' :
  shard s !! i = Some o → shard s !! j = Some o' → i ≠ j → sec_Data o ##ₘ sec_Data o'.
Proof.
  intros (b & Hb & ->)%shard_lookup (b' & Hb' & ->)%shard_lookup.
  by apply (parts_disjoint _ _ (buckets_concat s)).
Qed.

(** The bytes of a shard are the weight of its keys. *)
Lemma data_size_restrict m ks :
  NoDup ks → Forall (fun k => is_Some (m !! k)) ks →
  data_size (restrict m ks) = weight (entry_size m) ks.
Proof.
  apply (map_weight_restrict (fun k v => len k + len v)%Z). intros k v Hv.
  unfold entry_size. by rewrite Hv.
Qed.

Lemma shard_size s i o :
  shard s !! i = Some o →
  (data_size (sec_Data o) ≤ MaxSecretDataSizeBytes)%Z ∨ ∃ k v, sec_Data o = {[k := v]}.
Proof.
  intros (b & Hb & ->)%shard_lookup. simpl.
  destruct (part_keys _ _ (buckets_concat s) _ _ Hb) as [Hnd Hks].
  assert (fits (entry_size (data s)) MaxSecretDataSizeBytes b) as [Hw|[k ->]].
  { assert (Forall (fits (entry_size (data s)) MaxSecretDataSizeBytes) (buckets s)) as HF.
    { apply nextfit_fits; [done|]. by left. }
    rewrite Forall_lookup in HF. eauto. }
  - left. by rewrite data_size_restrict.
  - right. apply Forall_singleton in Hks as [v Hv]. exists k, v.
    rewrite <-(app_nil_l [k]), (restrict_snoc _ [] _ v) by done. by rewrite restrict_nil.
Qed.

(** ** Writing the shards and removing the excess ones *)

Section correctness.
Context {St : Type} `{ApiClient Secret St, !Retry, !SemanticEquality Secret, !ApiLaws Secret St}.
Implicit Types s : ShardedSecret.
Implicit Types st : St.

#[global] Instance secretNameAt_inj s : Inj (=) (=) (secretNameAt s).
Proof. intros i j H2. unfold secretNameAt in H2. by apply app_str_inj_l, app_str_inj_l, (inj Itoa) in H2. Qed.

(** The loop that writes the shards: each one is stored, on top of what was there. *)
Definition write_all (os : list Secret) : M St () :=
  mfor_each (fun secret =>
    mwrap "failed to create secret %q: %w" [name secret] (CreateOrUpdateSecret secret)) os.

Lemma write_all_ok os : ∀ st st',
  NoDup (name <$> os) → write_all os st = (st', Ok ()) →
  (∀ o, o ∈ os → ∃ o1, content o1 = content (reconciled (objs st !! name o) o) ∧
                       objs st' !! name o = Some o1) ∧
  (∀ n, n ∉ name <$> os → objs st' !! n = objs st !! n).
Proof.
  induction os as [|o os IH]; intros st st' Hnd; unfold write_all; simpl.
  - intros [= ->]. split; [set_solver|done].
  - apply NoDup_cons in Hnd as [Hno Hnd].
    unfold mbind, M_bind, mwrap at 1.
    destruct (CreateOrUpdateSecret o st) as [st1 [[]|e|m]] eqn:E; simpl; try done.
    intros E'. apply CreateOrUpdateSecret_ok in E as (o1 & Ho1 & Heq).
    rewrite name_reconciled in Heq.
    destruct (IH st1 st' Hnd E') as [IH1 IH2]. split.
    + intros o' [->|Ho']%elem_of_cons.
      * exists o1. split; [done|]. rewrite IH2 by done. by rewrite Heq, lookup_insert_eq.
      * destruct (IH1 o' Ho') as (o2 & Ho2 & Hst'). exists o2. split; [|done].
        rewrite Ho2, Heq, lookup_insert_ne; [done|]. intros Hn. apply Hno. rewrite Hn.
        by apply list_elem_of_fmap_2.
    + intros n [Hn Hn']%not_elem_of_cons.
      by rewrite IH2, Heq, lookup_insert_ne by done.
Qed.

(** The clean-up loop: it stops within its fuel, at the first index [g] that is free, having
    deleted exactly the shards from [i] to [g]. *)
Lemma cleanup_loop_spec s fuel : ∀ i st st' r,
  size (objs st) < fuel → cleanup_loop fuel s i st = (st', r) →
  (∀ m, r ≠ Panic m) ∧
  (r = Ok () → ∃ g, (i ≤ g)%Z ∧ objs st' !! secretNameAt s g = None ∧
    (∀ j, (i ≤ j < g)%Z → objs st' !! secretNameAt s j = None ∧
                          is_Some (objs st !! secretNameAt s j)) ∧
    (∀ n, (∀ j, (i ≤ j < g)%Z → n ≠ secretNameAt s j) → objs st' !! n = objs st !! n)).
Proof.
  induction fuel as [|fuel IH]; intros i st st' r Hf; simpl; [lia|].
  unfold mbind, M_bind, mtry, mret, M_ret, mfail.
  destruct (Delete (secretNameAt s i) st) as [st1 [[]|e|m]] eqn:E; simpl.
  - apply Delete_ok in E as [Hin Hst1]. intros E'.
    assert (size (objs st1) < fuel) as Hf'.
    { rewrite Hst1. rewrite map_size_delete_Some by done.
      pose proof (map_size_non_empty_iff (objs st)) as Hne.
      destruct (size (objs st)) eqn:Hsz; [|lia].
      apply map_size_empty_inv in Hsz. rewrite Hsz in Hin.
      destruct Hin as [? Hin]. by rewrite lookup_empty in Hin. }
    destruct (IH _ _ _ _ Hf' E') as [Hp Hok]. split; [done|]. intros Hr.
    destruct (Hok Hr) as (g & Hg & Hnone & Hdel & Hrest). exists g.
    assert (objs st' !! secretNameAt s i = None) as Hi.
    { rewrite Hrest; [by rewrite Hst1, lookup_delete_eq|]. intros j Hj Heq.
      apply (inj (secretNameAt s)) in Heq. lia. }
    split_and!; [lia|done| |].
    + intros j Hj. destruct (decide (j = i)) as [->|Hji]; [done|].
      destruct (Hdel j) as [? Hs]; [lia|]. split; [done|].
      rewrite Hst1, lookup_delete_ne in Hs; [done|]. by intros ?%(inj (secretNameAt s)).
    + intros n Hn. rewrite Hrest by (intros j Hj; apply Hn; lia).
      rewrite Hst1, lookup_delete_ne; [done|]. apply not_eq_sym, Hn. lia.
  - destruct (IsNotFound e) eqn:He; intros [= <- <-]; (split; [done|]); [|done].
    intros _. destruct (Delete_NotFound _ _ _ _ E He) as [Hnone Hst1]. exists i.
    rewrite Hst1. split_and!; [lia|done|lia|done].
  - intros [= <- <-]. exfalso. eapply (api_no_panic_Delete (secretNameAt s i) st m).
    by rewrite E.
Qed.

Lemma names_shard s : name <$> shard s = (fun i => secretNameAt s (Z.of_nat i)) <$> seq 0 (length (shard s)).
Proof.
  apply list_eq. intros i. rewrite !list_lookup_fmap.
  destruct (shard s !! i) as [o|] eqn:E; simpl.
  - rewrite lookup_seq_lt by by eapply lookup_lt_Some. simpl.
    by apply shard_lookup in E as (b & _ & ->).
  - rewrite lookup_seq_ge; [done|]. by apply lookup_ge_None.
Qed.
Lemma NoDup_names_shard s : NoDup (name <$> shard s).
Proof.
  rewrite names_shard. apply NoDup_fmap; [|apply NoDup_seq].
  intros i j Hij%(inj (secretNameAt s)). lia.
Qed.

(** [updateSecrets], inverted. *)
Lemma updateSecrets_inv s st st' r :
  updateSecrets s st = (st', r) →
  ∃ st1 r1, write_all (shard s) st = (st1, r1) ∧
    match r1 with
    | Ok _ => ∃ r2, r = (fun _ => with_shards s) <$> r2 ∧
        cleanupExcessSecretShards (with_shards s) (Z.of_nat (length (shard s)) - 1) st1 = (st', r2)
    | Err e => r = Err e ∧ st' = st1
    | Panic m => r = Panic m ∧ st' = st1
    end.
Proof.
  unfold updateSecrets. unfold mbind at 1, M_bind at 1. simpl.
  fold (write_all (shard s)). destruct (write_all (shard s) st) as [st1 r1]. intros E.
  exists st1, r1. split; [done|]. destruct r1 as [[]|e|m]; [|by simplify_eq..].
  unfold mbind, M_bind in E.
  destruct (cleanupExcessSecretShards _ _ st1) as [st2 r2]. exists r2.
  unfold mret, M_ret in E. destruct r2 as [[]|e|m]; by simplify_eq/=.
Qed.

(** Reading the mounted secrets back gives the data. *)
Lemma shards_stored s st st1 st' :
  write_all (shard s) st = (st1, Ok ()) →
  (∀ n, n ∈ Volume_sources (with_shards s) → objs st' !! n = objs st1 !! n) →
  ∀ k v, data s !! k = Some v ↔
    ∃ src o, src ∈ Volume_sources (with_shards s) ∧ objs st' !! src = Some o ∧
             sec_Data o !! k = Some v.
Proof.
  intros EW Hkeep. destruct (write_all_ok _ _ _ (NoDup_names_shard s) EW) as [HW _].
  assert (Volume_sources (with_shards s) = name <$> shard s) as HV by by rewrite names_shard.
  rewrite HV in *.
  assert (∀ o, o ∈ shard s → ∃ o1, sec_Data o1 = sec_Data o ∧ objs st' !! name o = Some o1) as Hst.
  { intros o Ho. destruct (HW o Ho) as (o1 & Hc & Ho1). exists o1. split.
    - rewrite (content_sec_Data _ _ Hc). by destruct (objs st !! name o).
    - rewrite Hkeep; [done|]. by apply list_elem_of_fmap_2. }
  intros k v. rewrite shard_covers. split.
  - intros (i & o & Hi & Hk). apply list_elem_of_lookup_2 in Hi.
    destruct (Hst o Hi) as (o1 & Hd & Ho1). exists (name o), o1.
    split_and!; [by apply list_elem_of_fmap_2|done|by rewrite Hd].
  - intros (src & o1 & (o & -> & Ho)%list_elem_of_fmap & Ho1 & Hk).
    destruct (Hst o Ho) as (o2 & Hd & Ho2). simplify_eq.
    apply list_elem_of_lookup in Ho as [i Hi]. exists i, o. by rewrite <-Hd.
Qed.

Lemma write_all_no_panic os : ∀ st m, (write_all os st).2 ≠ Panic m.
Proof.
  induction os as [|o os IH]; intros st m; [done|].
  unfold write_all. simpl. unfold mbind, M_bind, mwrap at 1.
  destruct (CreateOrUpdateSecret o st) as [st1 r] eqn:E.
  pose proof (CreateOrUpdateSecret_no_panic _ _ _ _ E) as Hp.
  destruct r as [[]|e|m']; simpl; [apply IH|done|naive_solver].
Qed.

Lemma write_all_healthy `{!ApiHealthy Secret St} os : ∀ st,
  healthy st → ∃ st', healthy st' ∧ write_all os st = (st', Ok ()).
Proof.
  induction os as [|o os IH]; intros st Hst; [by exists st|].
  destruct (CreateOrUpdateSecret_healthy o st Hst) as (st1 & Hst1 & E).
  destruct (IH st1 Hst1) as (st2 & Hst2 & E2). exists st2. split; [done|].
  unfold write_all. simpl. unfold mbind, M_bind, mwrap at 1. rewrite E. exact E2.
Qed.

Lemma cleanup_loop_healthy `{!ApiHealthy Secret St} s fuel : ∀ i st,
  size (objs st) < fuel → healthy st →
  ∃ st', healthy st' ∧ cleanup_loop fuel s i st = (st', Ok ()).
Proof.
  induction fuel as [|fuel IH]; intros i st Hf Hst; [lia|]. simpl.
  destruct (Delete_healthy (secretNameAt s i) st Hst) as (st1 & Hst1 & E).
  unfold mbind, M_bind, mtry. rewrite E.
  destruct (objs st !! secretNameAt s i) as [o|] eqn:Ho; simpl; [|by exists st1].
  apply Delete_ok in E as [_ Heq]. apply IH; [|done].
  rewrite Heq, map_size_delete_Some by eauto.
  destruct (size (objs st)) eqn:Hsz; [|lia].
  apply map_size_empty_inv in Hsz. by rewrite Hsz, lookup_empty in Ho.
Qed.
End correctness.

(** ** Properties *)

(** C29: Sharding loses nothing and duplicates nothing: an asset is in the data exactly if some
    shard holds it with its value, two different shards share no key, and the [i]-th shard is
    named after the template and [i]. *)
Theorem shard_partitions_data (s : ShardedSecret) :
  (∀ k v, data s !! k = Some v ↔ ∃ i o, shard s !! i = Some o ∧ sec_Data o !! k = Some v) ∧
  (∀ i j o o', shard s !! i = Some o → shard s !! j = Some o' → i ≠ j →
     sec_Data o ##ₘ sec_Data o') ∧
  name <$> shard s = (fun i => secretNameAt s (Z.of_nat i)) <$> seq 0 (length (shard s)).
Proof.
  split_and!; [apply shard_covers|apply shard_disjoint|apply names_shard].
Qed.

(** C35: No shard exceeds [MaxSecretDataSizeBytes] unless it holds one single asset that is too
    large by itself, and the number of shards is at most one more than twice what the total size
    of the data calls for. *)
Theorem shard_sizes (s : ShardedSecret) :
  Forall (fun o => data_size (sec_Data o) ≤ MaxSecretDataSizeBytes ∨
                   ∃ k v, sec_Data o = {[k := v]})%Z (shard s) ∧
  ((Z.of_nat (length (shard s)) - 1) * MaxSecretDataSizeBytes ≤ 2 * data_size (data s))%Z.
Proof.
  split.
  - apply Forall_lookup. intros i o. apply shard_size.
  - rewrite shard_eq, length_imap.
    replace (data_size (data s)) with (weight (entry_size (data s)) (SortedKeys (data s))).
    + apply nextfit_count, entry_size_nonneg.
    + rewrite <-data_size_restrict; [|apply NoDup_SortedKeys|].
      * by rewrite restrict_all by (intros k; by rewrite elem_of_SortedKeys).
      * apply Forall_forall. intros k. by rewrite elem_of_SortedKeys.
Qed.

(** C4: When [ReconcileShardedSecret] succeeds, the secrets that [Volume] mounts exist in the API
    and together hold exactly the given data; the first index past them is free, no index past
    them is left if the secrets there were numbered without a gap before, and secrets with other
    names are untouched. Among these is the one named like the prefix, without an index, which the
    comment on the clean-up means to be removed too. *)
Theorem ReconcileShardedSecret_stores {St} `{ApiClient Secret St, !Retry, !SemanticEquality Secret}
    `{!ApiLaws Secret St} (d : gmap string string) (tmpl : Secret) (st st' : St) (s : ShardedSecret) :
  ReconcileShardedSecret d tmpl st = (st', Ok s) →
  let n := Hash s in
  (∀ k v, d !! k = Some v ↔
     ∃ src o, src ∈ Volume_sources s ∧ objs st' !! src = Some o ∧ sec_Data o !! k = Some v) ∧
  objs st' !! secretNameAt s n = None ∧
  (∀ m, (∀ i, (0 ≤ i)%Z → is_Some (objs st !! secretNameAt s i) ↔ (i < m)%Z) →
     ∀ j, (n ≤ j)%Z → objs st' !! secretNameAt s j = None) ∧
  (∀ x, (∀ i, (0 ≤ i)%Z → x ≠ secretNameAt s i) → objs st' !! x = objs st !! x).
Proof.
  unfold ReconcileShardedSecret, mwrap.
  set (s0 := {| template := tmpl; data := d; secretShards := [] |}).
  destruct (updateSecrets s0 st) as [st2 r] eqn:E. intros [= -> Hr].
  destruct r as [s'|e|m]; simplify_eq/=.
  apply updateSecrets_inv in E as (st1 & r1 & EW & E).
  destruct r1 as [[]|e|m]; [|naive_solver..].
  destruct E as (r2 & Hs & EC). destruct r2 as [[]|e|m]; simplify_eq/=.
  destruct (write_all_ok _ _ _ (NoDup_names_shard s0) EW) as [HW HW'].
  unfold cleanupExcessSecretShards in EC.
  apply cleanup_loop_spec in EC as [_ EC]; [|lia].
  destruct (EC eq_refl) as (g & Hg & Hnone & Hdel & Hrest). clear EC.
  replace (Z.of_nat (length (shard s0)) - 1 + 1)%Z with (Hash (with_shards s0)) in *
    by (unfold Hash; simpl; lia).
  assert (∀ i, (Hash (with_shards s0) ≤ i)%Z →
    objs st1 !! secretNameAt s0 i = objs st !! secretNameAt s0 i) as Hst1.
  { intros i Hi. apply HW'. rewrite names_shard. intros (j & Hj & Hj')%list_elem_of_fmap.
    apply elem_of_seq in Hj'. apply (inj (secretNameAt s0)) in Hj. unfold Hash in Hi. simpl in Hi. lia. }
  change (secretNameAt (with_shards s0)) with (secretNameAt s0) in *.
  split_and!.
  - apply (shards_stored s0 st st1); [done|]. intros n' Hn'. apply Hrest. intros j Hj ->.
    apply list_elem_of_fmap in Hn' as (i & Hi & Hi'). apply elem_of_seq in Hi'.
    apply (inj (secretNameAt s0)) in Hi. unfold Hash in Hj. simpl in *. lia.
  - destruct (decide (Hash (with_shards s0) = g)) as [->|]; [done|].
    apply Hdel. lia.
  - intros m Hm j Hj. destruct (decide (j < g)%Z) as [Hjg|Hjg]; [by apply Hdel|].
    rewrite Hrest; [|intros i Hi Hij; apply (inj (secretNameAt s0)) in Hij; lia].
    rewrite Hst1 by done. apply eq_None_not_Some. intros Hs%Hm; [|unfold Hash in Hj; lia].
    assert (objs st !! secretNameAt s0 g = None) as Hg'.
    { rewrite <-Hst1 by done. rewrite <-Hrest; [done|].
      intros i Hi Hij. apply (inj (secretNameAt s0)) in Hij. lia. }
    assert (is_Some (objs st !! secretNameAt s0 g)) as [? ?]; [|congruence].
    apply Hm; [unfold Hash in Hg; lia|lia].
  - intros x Hx. rewrite Hrest, HW'; [done| |].
    + rewrite names_shard. intros (i & -> & _)%list_elem_of_fmap. eapply Hx; [|done]. lia.
    + intros j Hj. apply Hx. unfold Hash in Hj. lia.
Qed.

(** C31: The unbounded clean-up loop terminates: whatever the API answers, one [Delete] per object
    of the namespace (plus one) is enough and [ReconcileShardedSecret] does not panic; when the
    API answers every request, it succeeds. *)
Theorem ReconcileShardedSecret_terminates {St} `{ApiClient Secret St, !Retry}
    `{!SemanticEquality Secret, !ApiLaws Secret St, !ApiHealthy Secret St}
    (d : gmap string string) (tmpl : Secret) (st : St) :
  (∀ m, (ReconcileShardedSecret d tmpl st).2 ≠ Panic m) ∧
  (healthy st → ∃ st' s, ReconcileShardedSecret d tmpl st = (st', Ok s)).
Proof.
  unfold ReconcileShardedSecret, mwrap.
  set (s0 := {| template := tmpl; data := d; secretShards := [] |}). split.
  - destruct (updateSecrets s0 st) as [st2 r] eqn:E. simpl.
    apply updateSecrets_inv in E as (st1 & r1 & EW & E).
    pose proof (write_all_no_panic (shard s0) st) as HP. rewrite EW in HP. simpl in HP.
    destruct r1 as [[]|e|m]; [|by destruct E as [-> _]|naive_solver].
    destruct E as (r2 & -> & EC). unfold cleanupExcessSecretShards in EC.
    apply cleanup_loop_spec in EC as [Hp _]; [|lia].
    destruct r2; simpl; [done|done|naive_solver].
  - intros Hst. destruct (write_all_healthy (shard s0) st Hst) as (st1 & Hst1 & EW).
    destruct (cleanup_loop_healthy (with_shards s0) (S (size (objs st1)))
      (Z.of_nat (length (shard s0)) - 1 + 1) st1) as (st2 & _ & EC); [lia|done|].
    destruct (updateSecrets s0 st) as [st3 r] eqn:E. exists st3.
    apply updateSecrets_inv in E as (st1' & r1 & EW' & E). rewrite EW in EW'. injection EW' as <- <-.
    destruct E as (r2 & -> & EC'). unfold cleanupExcessSecretShards in EC'.
    rewrite EC in EC'. injection EC' as _ <-. by eexists.
Qed.

(** A concrete run: one asset, a stale second shard in the store. *)
Definition example_template : Secret :=
  {| sec_meta := SetName "tls" zero_meta; sec_Type := ""; sec_Data := ∅ |}.
Definition example_store : FakeStore.state Secret :=
  FakeStore.State [] 7
    (<["tls-0" := set_meta (SetName "tls-0" zero_meta) example_template]>
    (<["tls-1" := set_meta (SetName "tls-1" zero_meta) example_template]> ∅)).

Lemma ReconcileShardedSecret_stores_witness :
  ∃ st' s, ReconcileShardedSecret {["ca.crt" := "PEM"]} example_template example_store = (st', Ok s) ∧
    Volume_sources s = ["tls-0"] ∧ objs st' !! "tls-1" = None.
Proof.
  set (r := ReconcileShardedSecret {["ca.crt" := "PEM"]} example_template example_store).
  assert (∃ st' s, r = (st', Ok s) ∧ Volume_sources s = ["tls-0"] ∧ Hash s = 1%Z ∧
    secretNameAt s 1 = "tls-1") as (st' & s & Hr & HV & HH & HN).
  { eexists _, _. vm_compute. repeat split. }
  exists st', s. split; [done|]. split; [done|].
  destruct (ReconcileShardedSecret_stores _ _ _ _ _ Hr) as (_ & H & _).
  rewrite HH, HN in H. exact H.
Defined.

Lemma ReconcileShardedSecret_terminates_witness :
  ∃ st' s, ReconcileShardedSecret {["ca.crt" := "PEM"]} example_template example_store = (st', Ok s).
Proof.
  apply (proj2 (ReconcileShardedSecret_terminates {["ca.crt" := "PEM"]} example_template example_store)).
  reflexivity.
Defined.
