(* ===== verification/Semver.v ===== *)
(** * Semantic versions (github.com/blang/semver)

    The operator compares the version of Prometheus, Alertmanager or Thanos with constants to
    decide what it may configure. The library is not part of the repository: [Semver] is what the
    operator uses of it and [SemverLaws] what its documentation promises: a total order, which is
    the lexicographic one on releases [major.minor.patch]. *)

From S2P Require Import Prelude GoStrings.

Class Semver := {
  version : Type;
  MustParse : string → version;
  ParseTolerant : string → res version;
  LT : version → version → bool;
  Major : version → Z;
  version_String : version → string;
}.
Definition GTE `{Semver} (v w : version) : bool := negb (LT v w).

Definition release (v : Z * Z * Z) : string :=
  let '(major, minor, patch) := v in Itoa major +:+ "." +:+ Itoa minor +:+ "." +:+ Itoa patch.
Definition release_lt (v w : Z * Z * Z) : bool :=
  let '(a, b, c) := v in let '(a', b', c') := w in
  bool_decide (a < a')%Z ||
  (bool_decide (a = a') && (bool_decide (b < b')%Z || (bool_decide (b = b') && bool_decide (c < c')%Z))).
Definition small (v : Z * Z * Z) : Prop :=
  (0 ≤ v.1.1 < 100 ∧ 0 ≤ v.1.2 < 100 ∧ 0 ≤ v.2 < 100)%Z.

Class SemverLaws `{Semver} := {
  LT_irrefl v : LT v v = false;
  GTE_trans u v w : GTE u v = true → GTE v w = true → GTE u w = true;
  GTE_total v w : GTE v w = true ∨ GTE w v = true;
  LT_release v w : small v → small w →
    LT (MustParse (release v)) (MustParse (release w)) = release_lt v w;
}.

Section laws.
Context `{SemverLaws}.

Lemma LT_GTE v w : LT v w = true ↔ GTE v w = false.
Proof. unfold GTE. by destruct (LT v w). Qed.
(** A version that reaches a release reaches every older one. *)
Lemma GTE_release v a b :
  GTE v (MustParse (release a)) = true → small a → small b → release_lt a b = false →
  GTE v (MustParse (release b)) = true.
Proof.
  intros Hv Ha Hb Hab. eapply GTE_trans; [exact Hv|]. unfold GTE. by rewrite LT_release, Hab.
Qed.
End laws.

(** ** A concrete instance: releases and pre-releases *)

Module Concrete_semver.
(** The numbers, then whether it is a release: a pre-release comes before its release. Names of
    pre-releases are not compared. *)
Record numbers := { nums : Z * Z * Z; is_release : bool }.
Definition number (s : string) : Z := match Atoi s with Ok z => z | _ => 0%Z end.
Definition parse (s : string) : numbers :=
  let '(core, rel) := match Split s "-"%char with c :: _ :: _ => (c, false) | _ => (s, true) end in
  {| nums := match Split core "."%char with
             | a :: b :: c :: _ => (number a, number b, number c)
             | _ => (0, 0, 0)%Z
             end; is_release := rel |}.
Definition lt (v w : numbers) : bool :=
  release_lt (nums v) (nums w) ||
  (bool_decide (nums v = nums w) && (negb (is_release v) && is_release w)).
#[global] Instance semver : Semver := {|
  version := numbers; MustParse := parse; LT := lt;
  ParseTolerant s0 :=
    let s := TrimPrefix s0 "v" in
    match Split s "."%char with
    | _ :: _ :: _ :: _ => Ok (parse s)
    | _ => Err (Errorf "No Major.Minor.Patch elements found" [])
    end;
  Major v := (nums v).1.1;
  version_String v := release (nums v);
|}.

Definition ok_number (n : nat) : bool :=
  let s := Itoa (Z.of_nat n) in
  bool_decide (number s = Z.of_nat n) && negb (contains_char "." s) && negb (contains_char "-" s).
Lemma ok_numbers : forallb ok_number (seq 0 100) = true.
Proof. by vm_compute. Qed.
Lemma ok_number_Z z :
  (0 ≤ z < 100)%Z →
  number (Itoa z) = z ∧ contains_char "." (Itoa z) = false ∧ contains_char "-" (Itoa z) = false.
Proof.
  intros Hz. pose proof ok_numbers as Ho. rewrite forallb_forall in Ho.
  specialize (Ho (Z.to_nat z)). unfold ok_number in Ho. rewrite Z2Nat.id in Ho by lia.
  rewrite !andb_true_iff, !negb_true_iff, bool_decide_eq_true in Ho.
  destruct Ho as [[? ?] ?]; [|done]. apply in_seq. lia.
Qed.
Lemma parse_release v : small v → parse (release v) = {| nums := v; is_release := true |}.
Proof.
  destruct v as [[a b] c]. intros (Ha & Hb & Hc). simpl in *.
  destruct (ok_number_Z a Ha) as (Na & Da & Ma), (ok_number_Z b Hb) as (Nb & Db & Mb),
    (ok_number_Z c Hc) as (Nc & Dc & Mc).
  unfold parse. rewrite Split_no_sep; [|rewrite !contains_char_app, Ma, Mb, Mc; done].
  assert (∀ s t, contains_char "." s = false → Split (s +:+ "." +:+ t) "." = s :: Split t ".") as Hs.
  { intros s t Hst. exact (Split_app s t "." Hst). }
  rewrite (Hs _ _ Da), (Hs _ _ Db), (Split_no_sep _ _ Dc). simpl. by rewrite Na, Nb, Nc.
Qed.

(** The order is the lexicographic one on four numbers. *)
Definition rank (v : numbers) : Z * Z * Z * Z := (nums v, if is_release v then 1 else 0)%Z.
Lemma lt_spec v w :
  lt v w = true ↔
  let '(a, b, c, r) := rank v in let '(a', b', c', r') := rank w in
  (a < a' ∨ a = a' ∧ (b < b' ∨ b = b' ∧ (c < c' ∨ c = c' ∧ r < r')))%Z.
Proof.
  destruct v as [[[a b] c] r], w as [[[a' b'] c'] r']. unfold lt, release_lt, rank. simpl.
  rewrite !orb_true_iff, !andb_true_iff, !orb_true_iff, !andb_true_iff, !bool_decide_eq_true, negb_true_iff.
  rewrite pair_eq, pair_eq. destruct r, r'; intuition lia.
Qed.
Lemma GTE_spec v w : GTE v w = true ↔ ~ lt v w = true.
Proof. unfold GTE. simpl. by destruct (lt v w). Qed.

#[global] Instance semver_laws : SemverLaws.
Proof.
  constructor.
  - intros v. simpl. apply not_true_is_false. rewrite lt_spec. destruct (rank v) as [[[a b] c] r]. lia.
  - intros u v w. rewrite !GTE_spec, !lt_spec.
    destruct (rank u) as [[[a b] c] r], (rank v) as [[[a' b'] c'] r'], (rank w) as [[[a'' b''] c''] r''].
    lia.
  - intros v w. rewrite !GTE_spec, !lt_spec.
    destruct (rank v) as [[[a b] c] r], (rank w) as [[[a' b'] c'] r']. lia.
  - intros v w Hv Hw. simpl. rewrite !parse_release by done. unfold lt. simpl.
    by rewrite andb_false_r, orb_false_r.
Qed.
End Concrete_semver.
