(* ===== verification/NamespaceLabeler.v ===== *)
(** * pkg/namespacelabeler: enforcing a namespace label

    The rule types of pkg/apis/monitoring/v1/prometheusrule_types.go, [monitoring.ResourceToKind]
    and the [Labeler] that forces the label named by [enforcedNamespaceLabel] onto rules and
    scraped targets. PromQL parsing, printing and matcher injection belong to other repositories:
    they are the operations of the class [PromQL]. *)

From S2P Require Import Prelude GoStrings SortUtil Meta.

(** ** PrometheusRule *)

Inductive IntOrString := FromInt (z : Z) | FromString (s : string).
Definition IntOrString_String (v : IntOrString) : string :=
  match v with FromInt z => Itoa z | FromString s => s end.

Record Rule := {
  r_Record : string;
  r_Alert : string;
  r_Expr : IntOrString;
  r_For : option string;
  r_KeepFiringFor : option string;
  r_Labels : gomap;
  r_Annotations : gomap;
}.
Record RuleGroup := {
  g_Name : string;
  g_Labels : gomap;
  g_Interval : option string;
  g_QueryOffset : option string;
  g_Rules : list Rule;
  g_PartialResponseStrategy : string;
  g_Limit : option Z;
}.
Record PrometheusRuleSpec := { Groups : list RuleGroup }.

Record GroupKind := { gk_Group : string; gk_Kind : string }.
#[global] Instance GroupKind_eq_dec : EqDecision GroupKind.
Proof. solve_decision. Defined.
#[global] Instance GroupKind_countable : Countable GroupKind.
Proof.
  refine (inj_countable' (fun g => (gk_Group g, gk_Kind g))
    (fun p => {| gk_Group := p.1; gk_Kind := p.2 |}) _). by intros [].
Defined.

(** [TypeMeta] is kept as the group and kind it denotes. *)
Record PrometheusRule := {
  pr_TypeMeta : GroupKind;
  pr_ObjectMeta : ObjectMeta;
  pr_Spec : PrometheusRuleSpec;
}.

(** ** pkg/apis/monitoring/resource.go *)

Definition GroupName := "monitoring.coreos.com".

Definition resourceToKindMap : list (string * string) :=
  [("prometheuses", "Prometheus"); ("alertmanagers", "Alertmanager");
   ("servicemonitors", "ServiceMonitor"); ("podmonitors", "PodMonitor");
   ("prometheusrules", "PrometheusRule"); ("probes", "Probe");
   ("scrapeconfigs", "ScrapeConfig")].

Definition ResourceToKind (s : string) : res string :=
  match list_find (fun kv => kv.1 = s) resourceToKindMap with
  | Some (_, kv) => Ok kv.2
  | None => Panic "failed to map resource %q to a kind"
  end.

Record ObjectReference := {
  ref_Group : string;
  ref_Resource : string;
  ref_Namespace : string;
  ref_Name : string;
}.
Definition getGroup (obj : ObjectReference) : string :=
  if bool_decide (ref_Group obj = "") then GroupName else ref_Group obj.
Definition ref_GroupKind (obj : ObjectReference) : res GroupKind :=
  kind ← ResourceToKind (ref_Resource obj);
  Ok {| gk_Kind := kind; gk_Group := getGroup obj |}.

(** ** PromQL (github.com/prometheus/prometheus and prom-label-proxy) *)

Class PromQL := {
  promql_expr : Type;
  ParseExpr : string → res promql_expr;
  expr_String : promql_expr → string;
  (** [NewPromQLEnforcer(false, name = value).EnforceNode]: the enforced expression *)
  EnforceNode : string → string → promql_expr → res promql_expr;
}.

(** ** The labeler *)

(** The map is keyed by the namespace and the printed group and kind; the printer
    ([schema.GroupKind.String]) maps equal group kinds to equal strings, and the map is kept keyed
    by the group kind itself. *)
Record Labeler := {
  enforcedNsLabel : string;
  prometheusRuleLabeler : bool;
  excludeNamespaceGroupKindToNames : gmap (string * GroupKind) (list string);
}.

Definition exclude_add (m : gmap (string * GroupKind) (list string)) (r : ObjectReference)
    : res (gmap (string * GroupKind) (list string)) :=
  if bool_decide (ref_Namespace r = "") then Ok m
  else
    gk ← ref_GroupKind r;
    if bool_decide (gk_Group gk = "" ∧ gk_Kind gk = "") || bool_decide (gk_Kind gk = "") then Ok m
    else
      let key := (ref_Namespace r, gk) in
      Ok (<[key := default [] (m !! key) ++ [ref_Name r]]> m).
Fixpoint exclude_all (m : gmap (string * GroupKind) (list string)) (rs : list ObjectReference)
    : res (gmap (string * GroupKind) (list string)) :=
  match rs with
  | [] => Ok m
  | r :: rs' => m' ← exclude_add m r; exclude_all m' rs'
  end.

Definition New (enforcedNsLabel : string) (excludeConfig : list ObjectReference)
    (prometheusRuleLabeler : bool) : res Labeler :=
  if bool_decide (enforcedNsLabel = "") then
    Ok {| enforcedNsLabel := ""; prometheusRuleLabeler := false;
          excludeNamespaceGroupKindToNames := ∅ |}
  else if bool_decide (excludeConfig = []) then
    Ok {| enforcedNsLabel := enforcedNsLabel; prometheusRuleLabeler := false;
          excludeNamespaceGroupKindToNames := ∅ |}
  else
    m ← exclude_all ∅ excludeConfig;
    Ok {| enforcedNsLabel := enforcedNsLabel; prometheusRuleLabeler := prometheusRuleLabeler;
          excludeNamespaceGroupKindToNames := m |}.

Definition IsExcluded (l : Labeler) (tm : GroupKind) (om : ObjectMeta) : bool :=
  if bool_decide (enforcedNsLabel l = "") then true
  else if bool_decide (excludeNamespaceGroupKindToNames l = ∅) then false
  else
    existsb (fun n => bool_decide (n = "") || bool_decide (om_Name om = n))
      (default [] (excludeNamespaceGroupKindToNames l !! (om_Namespace om, tm))).

Definition set_rule_labels (labels : gomap) (r : Rule) : Rule := {|
  r_Record := r_Record r; r_Alert := r_Alert r; r_Expr := r_Expr r; r_For := r_For r;
  r_KeepFiringFor := r_KeepFiringFor r; r_Labels := labels; r_Annotations := r_Annotations r |}.
Definition set_rule_expr (e : IntOrString) (r : Rule) : Rule := {|
  r_Record := r_Record r; r_Alert := r_Alert r; r_Expr := e; r_For := r_For r;
  r_KeepFiringFor := r_KeepFiringFor r; r_Labels := r_Labels r; r_Annotations := r_Annotations r |}.
Definition set_group_rules (rs : list Rule) (g : RuleGroup) : RuleGroup := {|
  g_Name := g_Name g; g_Labels := g_Labels g; g_Interval := g_Interval g;
  g_QueryOffset := g_QueryOffset g; g_Rules := rs;
  g_PartialResponseStrategy := g_PartialResponseStrategy g; g_Limit := g_Limit g |}.

Section enforce.
Context `{PromQL}.

(** The body of the inner loop. *)
Definition enforce_rule (l : Labeler) (namespace : string) (r : Rule) : res Rule :=
  let r1 := set_rule_labels (Some (<[enforcedNsLabel l := namespace]> (entries (r_Labels r)))) r in
  parsedExpr ← wrap "failed to parse promql expression: %w" []
    (ParseExpr (IntOrString_String (r_Expr r)));
  parsedExpr ← wrap "failed to inject labels to expression: %w" []
    (EnforceNode (enforcedNsLabel l) namespace parsedExpr);
  Ok (set_rule_expr (FromString (expr_String parsedExpr)) r1).

(** The outer loop ranges over copies: [group.PartialResponseStrategy = ""] is written to the
    copy and the group of the rule object keeps its value. *)
Definition enforce_group (l : Labeler) (namespace : string) (g : RuleGroup) : res RuleGroup :=
  rs ← res_map (enforce_rule l namespace) (g_Rules g);
  Ok (set_group_rules rs g).

Definition EnforceNamespaceLabel (l : Labeler) (rule : PrometheusRule) : res PrometheusRule :=
  if bool_decide (enforcedNsLabel l = "") || IsExcluded l (pr_TypeMeta rule) (pr_ObjectMeta rule)
  then Ok rule
  else
    gs ← res_map (enforce_group l (om_Namespace (pr_ObjectMeta rule))) (Groups (pr_Spec rule));
    Ok {| pr_TypeMeta := pr_TypeMeta rule; pr_ObjectMeta := pr_ObjectMeta rule;
          pr_Spec := {| Groups := gs |} |}.
End enforce.

(** monitoringv1.RelabelConfig. *)
Record RelabelConfig := {
  rc_SourceLabels : list string;
  rc_Separator : option string;
  rc_TargetLabel : string;
  rc_Regex : string;
  rc_Modulus : Z;
  rc_Replacement : option string;
  rc_Action : string;
}.

Definition GetRelabelingConfigs (l : Labeler) (tm : GroupKind) (om : ObjectMeta)
    (rc : list RelabelConfig) : list RelabelConfig :=
  if IsExcluded l tm om then rc
  else rc ++ [{| rc_SourceLabels := []; rc_Separator := None; rc_TargetLabel := enforcedNsLabel l;
                 rc_Regex := ""; rc_Modulus := 0; rc_Replacement := Some (om_Namespace om);
                 rc_Action := "" |}].

(** ** Which objects are excluded *)

Lemma ResourceToKind_nonempty s k : ResourceToKind s = Ok k → k ≠ "".
Proof.
  unfold ResourceToKind. destruct (list_find _ _) as [[i kv]|] eqn:E; [|done].
  intros [= <-]. apply list_find_Some in E as (E & _ & _).
  apply list_elem_of_lookup_2 in E. unfold resourceToKindMap in E.
  repeat (apply elem_of_cons in E as [->|E]; [done|]). by apply elem_of_nil in E.
Qed.

(** [r] names the group kind [gk] of the namespace [ns]. *)
Definition refers_to (ns : string) (gk : GroupKind) (r : ObjectReference) : Prop :=
  ref_Namespace r = ns ∧ ns ≠ "" ∧ ref_GroupKind r = Ok gk.
#[global] Instance refers_to_dec ns gk r : Decision (refers_to ns gk r).
Proof. unfold refers_to. apply _. Defined.

Lemma exclude_add_lookup m r m' ns gk :
  exclude_add m r = Ok m' →
  default [] (m' !! (ns, gk)) =
    default [] (m !! (ns, gk)) ++ if decide (refers_to ns gk r) then [ref_Name r] else [].
Proof.
  unfold exclude_add. case_bool_decide as Hns.
  { intros [= <-]. rewrite decide_False; [by rewrite app_nil_r|]. intros (? & ? & _). congruence. }
  destruct (ref_GroupKind r) as [gk'| |] eqn:Egk; simpl; try done.
  rewrite (bool_decide_false (gk_Kind gk' = "")).
  2:{ unfold ref_GroupKind in Egk. destruct (ResourceToKind _) eqn:Ek; simplify_eq/=.
      by eapply ResourceToKind_nonempty. }
  rewrite bool_decide_false.
  2:{ unfold ref_GroupKind in Egk. destruct (ResourceToKind _) eqn:Ek; simplify_eq/=.
      intros [_ ?]. by eapply ResourceToKind_nonempty. }
  simpl. intros [= <-]. rewrite lookup_insert.
  destruct (decide (refers_to ns gk r)) as [(Hr & ? & Hgk)|Hr]; case_decide; simplify_eq/=; try done.
  - congruence.
  - by destruct Hr.
  - by rewrite app_nil_r.
Qed.
Lemma exclude_all_lookup rs : ∀ m m' ns gk,
  exclude_all m rs = Ok m' →
  default [] (m' !! (ns, gk)) =
    default [] (m !! (ns, gk)) ++ (ref_Name <$> filter (refers_to ns gk) rs).
Proof.
  induction rs as [|r rs IH]; intros m m' ns gk; simpl.
  { intros [= <-]. by rewrite app_nil_r. }
  destruct (exclude_add m r) as [m1| |] eqn:E; simpl; try done.
  intros Hall. rewrite (IH _ _ _ _ Hall), (exclude_add_lookup _ _ _ _ _ E).
  rewrite <-app_assoc, filter_cons. by case_decide.
Qed.

(** An object is excluded from enforcement exactly if no label is enforced, or some
    reference of the exclusion list with a non-empty namespace has the object's namespace and
    group kind and names it (or names no object at all, which covers all of them). *)
Theorem New_IsExcluded (lbl : string) (cfg : list ObjectReference) (b : bool) (l : Labeler)
    (tm : GroupKind) (om : ObjectMeta) :
  New lbl cfg b = Ok l →
  IsExcluded l tm om = true ↔
    lbl = "" ∨ ∃ r, r ∈ cfg ∧ refers_to (om_Namespace om) tm r ∧
                    (ref_Name r = "" ∨ ref_Name r = om_Name om).
Proof.
  unfold New. case_bool_decide as Hl; [intros [= <-]; naive_solver|].
  case_bool_decide as Hc.
  { intros [= <-]. unfold IsExcluded. simpl. rewrite bool_decide_false by done.
    rewrite bool_decide_true by done. set_solver. }
  destruct (exclude_all ∅ cfg) as [m| |] eqn:E; simpl; try done. intros [= <-].
  unfold IsExcluded. simpl. rewrite bool_decide_false by done.
  pose proof (exclude_all_lookup _ _ _ (om_Namespace om) tm E) as Hm.
  rewrite lookup_empty in Hm. simpl in Hm.
  assert ((if bool_decide (m = ∅) then false else
    existsb (fun n => bool_decide (n = "") || bool_decide (om_Name om = n))
      (default [] (m !! (om_Namespace om, tm)))) =
    existsb (fun n => bool_decide (n = "") || bool_decide (om_Name om = n))
      (default [] (m !! (om_Namespace om, tm)))) as ->.
  { case_bool_decide; [|done]. subst m. by rewrite lookup_empty. }
  rewrite Hm, existsb_exists. split.
  - intros (n & Hn & Hb). right. apply list_elem_of_In, list_elem_of_fmap in Hn as (r & -> & Hr).
    apply list_elem_of_filter in Hr as [Href Hr]. exists r. split_and!; [done..|].
    apply orb_true_iff in Hb as [Hb|Hb]; apply bool_decide_eq_true in Hb; auto.
  - intros [?|(r & Hr & Href & Hn)]; [done|]. exists (ref_Name r). split.
    + apply list_elem_of_In, list_elem_of_fmap. exists r. split; [done|].
      by apply list_elem_of_filter.
    + apply orb_true_iff. rewrite !bool_decide_eq_true. destruct Hn; auto.
Qed.

(** ** What enforcement does *)

Section enforce_spec.
Context `{PromQL}.

(** What one rule becomes. *)
Definition enforced (lbl ns : string) (r r' : Rule) : Prop :=
  ∃ e e', ParseExpr (IntOrString_String (r_Expr r)) = Ok e ∧ EnforceNode lbl ns e = Ok e' ∧
    r' = set_rule_expr (FromString (expr_String e'))
           (set_rule_labels (Some (<[lbl := ns]> (entries (r_Labels r)))) r).

Lemma enforce_rule_ok l ns r r' :
  enforce_rule l ns r = Ok r' ↔ enforced (enforcedNsLabel l) ns r r'.
Proof.
  unfold enforce_rule, enforced. split.
  - destruct (ParseExpr _) as [e| |]; simpl; try done.
    destruct (EnforceNode _ _ _) as [e'| |] eqn:E; simpl; try done.
    intros [= <-]. by exists e, e'.
  - intros (e & e' & He & He' & ->). rewrite He. simpl. by rewrite He'.
Qed.
Lemma enforce_group_ok l ns g g' :
  enforce_group l ns g = Ok g' ↔
  ∃ rs, Forall2 (enforced (enforcedNsLabel l) ns) (g_Rules g) rs ∧ g' = set_group_rules rs g.
Proof.
  unfold enforce_group. split.
  - destruct (res_map _ _) as [rs| |] eqn:E; simpl; try done. intros [= <-].
    exists rs. split; [|done]. apply res_map_ok in E.
    eapply Forall2_impl; [done|]. intros ??. by rewrite enforce_rule_ok.
  - intros (rs & Hrs & ->).
    assert (res_map (enforce_rule l ns) (g_Rules g) = Ok rs) as ->; [|done].
    apply res_map_ok. eapply Forall2_impl; [done|]. intros ??. by rewrite enforce_rule_ok.
Qed.

(** Enforcement leaves an excluded rule object alone. Otherwise, when it succeeds, every
    rule of every group carries the enforced label with the object's namespace as value and
    has its expression replaced by the enforced one; nothing else of the object, in particular
    no group's [PartialResponseStrategy], changes. *)
Theorem EnforceNamespaceLabel_spec (l : Labeler) (rule rule' : PrometheusRule) :
  EnforceNamespaceLabel l rule = Ok rule' ↔
  if IsExcluded l (pr_TypeMeta rule) (pr_ObjectMeta rule) then rule' = rule
  else ∃ gs,
    Forall2 (fun g g' => ∃ rs,
      Forall2 (enforced (enforcedNsLabel l) (om_Namespace (pr_ObjectMeta rule))) (g_Rules g) rs ∧
      g' = set_group_rules rs g) (Groups (pr_Spec rule)) gs ∧
    rule' = {| pr_TypeMeta := pr_TypeMeta rule; pr_ObjectMeta := pr_ObjectMeta rule;
               pr_Spec := {| Groups := gs |} |}.
Proof.
  unfold EnforceNamespaceLabel.
  assert (bool_decide (enforcedNsLabel l = "") || IsExcluded l (pr_TypeMeta rule) (pr_ObjectMeta rule)
    = IsExcluded l (pr_TypeMeta rule) (pr_ObjectMeta rule)) as ->.
  { unfold IsExcluded. by case_bool_decide. }
  destruct (IsExcluded _ _ _); [split; [by intros [= ->]|by intros ->]|]. split.
  - destruct (res_map _ _) as [gs| |] eqn:E; simpl; try done. intros [= <-].
    exists gs. split; [|done]. apply res_map_ok in E.
    eapply Forall2_impl; [done|]. intros ??. by rewrite enforce_group_ok.
  - intros (gs & Hgs & ->).
    assert (res_map (enforce_group l (om_Namespace (pr_ObjectMeta rule)))
      (Groups (pr_Spec rule)) = Ok gs) as ->; [|done].
    apply res_map_ok. eapply Forall2_impl; [done|]. intros ??. by rewrite enforce_group_ok.
Qed.
End enforce_spec.

Lemma New_IsExcluded_witness :
  ∃ l, New "tenant" [{| ref_Group := ""; ref_Resource := "prometheusrules";
                        ref_Namespace := "infra"; ref_Name := "" |}] true = Ok l ∧
    IsExcluded l {| gk_Group := GroupName; gk_Kind := "PrometheusRule" |}
      (SetNamespace "infra" (SetName "node" zero_meta)) = true.
Proof.
  eexists. split; [vm_compute; reflexivity|].
  eapply (New_IsExcluded "tenant" [{| ref_Group := ""; ref_Resource := "prometheusrules";
    ref_Namespace := "infra"; ref_Name := "" |}] true); [vm_compute; reflexivity|].
  right. eexists. split; [constructor|]. split; [|by left].
  split; [reflexivity|]. split; [discriminate|reflexivity].
Defined.
