(* ===== verification/Rules.v ===== *)
(** * pkg/operator/rules.go: selecting PrometheusRules

    Version-dependent sanitizing, validation and rendering of PrometheusRule objects, and the
    selection loop. YAML rendering (sigs.k8s.io/yaml), the upstream rule validator
    (rulefmt.Parse) and semantic versions (blang/semver) are other repositories' code: they are
    the operations of the classes [RuleLibs] and [Semver].

    [generateRulesConfiguration] and [ValidateRule] assign to elements of the slices of their
    argument. Their callers pass a deep copy they do not read again (except for its name), so the
    definitions return the updated value instead. *)

From S2P Require Import Prelude GoStrings SortUtil Meta Semver NamespaceLabeler.

Class RuleLibs := {
  yaml_Marshal : PrometheusRuleSpec → string + error;
  rulefmt_Parse : string → list error;
}.

Inductive RuleConfigurationFormat := PrometheusFormat | ThanosFormat.
#[global] Instance RuleConfigurationFormat_eq_dec : EqDecision RuleConfigurationFormat.
Proof. solve_decision. Defined.

(** [int(float64(v1.MaxSecretSize) * 0.5)]. *)
Definition MaxConfigMapDataSize : Z := 524288.

Section rules.
Context `{Semver, RuleLibs, PromQL}.

Record PrometheusRuleSelector := {
  ruleFormat : RuleConfigurationFormat;
  prs_version : version;
  nsLabeler : Labeler;
}.

(** [NewPrometheusRuleSelector]; the label selector is part of the lister given to [Select]. *)
Definition NewPrometheusRuleSelector (fmt : RuleConfigurationFormat) (v : string)
    (labelSelector : res ()) (lab : Labeler) : res PrometheusRuleSelector :=
  componentVersion ← wrap "failed to parse version: %w" [] (ParseTolerant v);
  _ ← wrap "convert rule label selector to selector: %w" [] labelSelector;
  Ok {| ruleFormat := fmt; prs_version := componentVersion; nsLabeler := lab |}.

(** ** Sanitizing *)

Definition minVersionKeepFiringFor (f : RuleConfigurationFormat) : version :=
  match f with PrometheusFormat => MustParse "2.42.0" | ThanosFormat => MustParse "0.34.0" end.
Definition minVersionLimits (f : RuleConfigurationFormat) : version :=
  match f with PrometheusFormat => MustParse "2.31.0" | ThanosFormat => MustParse "0.24.0" end.
Definition minVersionQueryOffset (f : RuleConfigurationFormat) : version :=
  match f with PrometheusFormat => MustParse "2.53.0" | ThanosFormat => MustParse "100.0.0" end.
Definition minVersionRuleGroupLabels (f : RuleConfigurationFormat) : version :=
  match f with PrometheusFormat => MustParse "3.0.0" | ThanosFormat => MustParse "100.0.0" end.

Definition sanitize_rule (prs : PrometheusRuleSelector) (r : Rule) : Rule := {|
  r_Record := r_Record r; r_Alert := r_Alert r; r_Expr := r_Expr r; r_For := r_For r;
  r_KeepFiringFor :=
    if bool_decide (r_KeepFiringFor r ≠ None)
       && LT (prs_version prs) (minVersionKeepFiringFor (ruleFormat prs))
    then None else r_KeepFiringFor r;
  r_Labels := r_Labels r; r_Annotations := r_Annotations r |}.

Definition sanitize_group (prs : PrometheusRuleSelector) (g : RuleGroup) : RuleGroup := {|
  g_Name := g_Name g;
  g_Labels :=
    if bool_decide (0 < size (entries (g_Labels g)))
       && LT (prs_version prs) (minVersionRuleGroupLabels (ruleFormat prs))
    then None else g_Labels g;
  g_Interval := g_Interval g;
  g_QueryOffset :=
    if bool_decide (g_QueryOffset g ≠ None)
       && LT (prs_version prs) (minVersionQueryOffset (ruleFormat prs))
    then None else g_QueryOffset g;
  g_Rules := sanitize_rule prs <$> g_Rules g;
  g_PartialResponseStrategy :=
    match ruleFormat prs with PrometheusFormat => "" | ThanosFormat => g_PartialResponseStrategy g end;
  g_Limit :=
    if bool_decide (g_Limit g ≠ None)
       && LT (prs_version prs) (minVersionLimits (ruleFormat prs))
    then None else g_Limit g |}.

Definition sanitizePrometheusRulesSpec (prs : PrometheusRuleSelector) (spec : PrometheusRuleSpec)
    : PrometheusRuleSpec :=
  {| Groups := sanitize_group prs <$> Groups spec |}.

(** ** Validating and rendering *)

Definition normalise_rule (r : Rule) : Rule := {|
  r_Record := r_Record r; r_Alert := r_Alert r; r_Expr := r_Expr r;
  r_For := if bool_decide (default "" (r_For r) = "") then None else r_For r;
  r_KeepFiringFor := r_KeepFiringFor r; r_Labels := r_Labels r;
  r_Annotations := r_Annotations r |}.
Definition normalise_group (g : RuleGroup) : RuleGroup := {|
  g_Name := g_Name g; g_Labels := g_Labels g;
  g_Interval := if bool_decide (g_Interval g = Some "") then None else g_Interval g;
  g_QueryOffset := g_QueryOffset g; g_Rules := normalise_rule <$> g_Rules g;
  g_PartialResponseStrategy := ""; g_Limit := g_Limit g |}.
(** The loop of [ValidateRule]. *)
Definition normalise (spec : PrometheusRuleSpec) : PrometheusRuleSpec :=
  {| Groups := normalise_group <$> Groups spec |}.

Definition ValidateRule (spec : PrometheusRuleSpec) : list error :=
  match yaml_Marshal (normalise spec) with
  | inr e => [Wrapf "failed to marshal content: %w" [] e]
  | inl content =>
      if decide (MaxConfigMapDataSize < len content)%Z then
        [Errorf "the length of rendered Prometheus Rule is %d bytes which is above the maximum limit of %d bytes"
           [Itoa (len content); Itoa MaxConfigMapDataSize]]
      else rulefmt_Parse content
  end.

Definition generateRulesConfiguration (prs : PrometheusRuleSelector) (rule : PrometheusRule)
    : res string :=
  let spec := sanitizePrometheusRulesSpec prs (pr_Spec rule) in
  match yaml_Marshal spec with
  | inr e => Err (Wrapf "failed to marshal content: %w" [] e)
  | inl content =>
      if bool_decide (ValidateRule spec = []) then Ok content
      else Err (Errorf "invalid rule" [])
  end.

(** ** Selecting *)

(** The informer's view: the rule objects of a namespace that match the rule selector. *)
Context (ListAllByNamespace : string → res (list PrometheusRule)).
(** [k8sutil.AddTypeInformationToObject]; [None] when it fails. *)
Context (AddTypeInformationToObject : PrometheusRule → option PrometheusRule).

Definition rule_file_name (r : PrometheusRule) : string :=
  let m := pr_ObjectMeta r in
  om_Namespace m +:+ "-" +:+ om_Name m +:+ "-" +:+ om_UID m +:+ ".yaml".

Definition add_rule (acc : gmap string PrometheusRule) (obj : PrometheusRule)
    : gmap string PrometheusRule :=
  match AddTypeInformationToObject obj with
  | Some promRule => <[rule_file_name promRule := promRule]> acc
  | None => acc
  end.
Fixpoint collect (acc : gmap string PrometheusRule) (namespaces : list string)
    : res (gmap string PrometheusRule) :=
  match namespaces with
  | [] => Ok acc
  | ns :: nss =>
      objs ← wrap "failed to list prometheus rules in namespace %s: %w" [ns]
        (ListAllByNamespace ns);
      collect (foldl add_rule acc objs) nss
  end.

(** The loop over the collected rules; [es] are the entries in the order the loop visits them. *)
Fixpoint render_all (prs : PrometheusRuleSelector) (rules : gmap string string) (rejected : Z)
    (es : list (string * PrometheusRule)) : res (gmap string string * Z) :=
  match es with
  | [] => Ok (rules, rejected)
  | (ruleName, promRule) :: es' =>
      match EnforceNamespaceLabel (nsLabeler prs) promRule with
      | Panic m => Panic m
      | Err _ => render_all prs rules rejected es'
      | Ok promRule =>
          match generateRulesConfiguration prs promRule with
          | Panic m => Panic m
          | Err _ => render_all prs rules (rejected + 1) es'
          | Ok content => render_all prs (<[ruleName := content]> rules) rejected es'
          end
      end
  end.

Definition Select (prs : PrometheusRuleSelector) (namespaces : list string)
    : res (gmap string string * Z) :=
  promRules ← collect ∅ namespaces;
  render_all prs ∅ 0 (map_to_list promRules).
End rules.

(** ** Sanitizing is a projection onto what the version supports *)

Section sanitize_spec.
Context `{Semver}.
Implicit Types prs : PrometheusRuleSelector.

Definition supported_rule prs (r : Rule) : Prop :=
  LT (prs_version prs) (minVersionKeepFiringFor (ruleFormat prs)) = true → r_KeepFiringFor r = None.
Definition supported_group prs (g : RuleGroup) : Prop :=
  (LT (prs_version prs) (minVersionLimits (ruleFormat prs)) = true → g_Limit g = None) ∧
  (LT (prs_version prs) (minVersionQueryOffset (ruleFormat prs)) = true → g_QueryOffset g = None) ∧
  (LT (prs_version prs) (minVersionRuleGroupLabels (ruleFormat prs)) = true →
     entries (g_Labels g) = ∅) ∧
  (ruleFormat prs = PrometheusFormat → g_PartialResponseStrategy g = "") ∧
  Forall (supported_rule prs) (g_Rules g).
(** No field is set that the version at hand does not know. *)
Definition supported prs (spec : PrometheusRuleSpec) : Prop :=
  Forall (supported_group prs) (Groups spec).

(** Everything but the fields that depend on the version. *)
Definition core_rule (r : Rule) :=
  (r_Record r, r_Alert r, r_Expr r, r_For r, r_Labels r, r_Annotations r).
Definition core (spec : PrometheusRuleSpec) :=
  (fun g => (g_Name g, g_Interval g, core_rule <$> g_Rules g)) <$> Groups spec.

Lemma drop_if_unsupported {A} (o : option A) `{!EqDecision A} (b : bool) :
  (b = true → o = None) → (if bool_decide (o ≠ None) && b then None else o) = o.
Proof. destruct b; [|by rewrite andb_false_r]. intros ->; [|done]. by case_match. Qed.

Lemma dropped_unsupported {A} (o : option A) (b : bool) :
  b = true → (if bool_decide (o ≠ None) && b then None else o) = None.
Proof. intros ->. rewrite andb_true_r. destruct o; by case_bool_decide. Qed.

Lemma sanitize_rule_fix prs r : supported_rule prs r → sanitize_rule prs r = r.
Proof.
  intros Hr. unfold sanitize_rule. rewrite (drop_if_unsupported _ _ Hr). by destruct r.
Qed.
Lemma sanitize_group_fix prs g : supported_group prs g → sanitize_group prs g = g.
Proof.
  intros (Hl & Hq & Hg & Hp & Hr). unfold sanitize_group.
  rewrite (drop_if_unsupported _ _ Hl), (drop_if_unsupported _ _ Hq).
  replace (sanitize_rule prs <$> g_Rules g) with (g_Rules g).
  2:{ symmetry. rewrite <-(list_fmap_id (g_Rules g)) at 2. apply list_fmap_ext.
      intros i r Hi. apply sanitize_rule_fix. by eapply Forall_lookup_1. }
  destruct g as [gn gl gi gq gr gp gm]. simpl in *. f_equal.
  - destruct (LT _ (minVersionRuleGroupLabels _)); [|by rewrite andb_false_r]. rewrite Hg by done.
    by rewrite map_size_empty.
  - destruct (ruleFormat prs); [|done]. symmetry. by apply Hp.
Qed.

Lemma supported_sanitize_group prs g : supported_group prs (sanitize_group prs g).
Proof.
  unfold supported_group, sanitize_group. simpl. split_and!.
  - apply dropped_unsupported.
  - apply dropped_unsupported.
  - intros ->. rewrite andb_true_r. case_bool_decide as Hs; [done|].
    apply map_size_empty_inv. lia.
  - by intros ->.
  - apply Forall_fmap, Forall_true. intros r. unfold supported_rule, sanitize_rule. simpl.
    apply dropped_unsupported.
Qed.

(** Sanitizing removes exactly what the Prometheus or Thanos version does not support: the
    result sets no unsupported field, a spec that sets none is returned as it is (so that
    sanitizing twice changes nothing), and every field that does not depend on the version is
    kept. *)
Theorem sanitize_projects prs (spec : PrometheusRuleSpec) :
  supported prs (sanitizePrometheusRulesSpec prs spec) ∧
  (supported prs spec → sanitizePrometheusRulesSpec prs spec = spec) ∧
  core (sanitizePrometheusRulesSpec prs spec) = core spec.
Proof.
  split_and!.
  - apply Forall_fmap, Forall_true. intros g. apply supported_sanitize_group.
  - intros Hs. destruct spec as [gs]. unfold sanitizePrometheusRulesSpec. simpl. f_equal.
    rewrite <-(list_fmap_id gs) at 2. apply list_fmap_ext. intros i g Hi.
    apply sanitize_group_fix. by eapply Forall_lookup_1 in Hs.
  - unfold core, sanitizePrometheusRulesSpec. simpl. rewrite <-list_fmap_compose.
    apply list_fmap_ext. intros i g _. simpl. f_equal. rewrite <-list_fmap_compose.
    by apply list_fmap_ext.
Qed.
End sanitize_spec.

(** ** What is emitted and what is validated *)

Section generate_spec.
Context `{Semver, RuleLibs}.
Implicit Types prs : PrometheusRuleSelector.

(** The spec has no partial response strategy and no empty duration. *)
Definition normal (spec : PrometheusRuleSpec) : Prop := normalise spec = spec.

Lemma generateRulesConfiguration_ok prs rule content :
  generateRulesConfiguration prs rule = Ok content ↔
  let spec := sanitizePrometheusRulesSpec prs (pr_Spec rule) in
  yaml_Marshal spec = inl content ∧
  ∃ checked, yaml_Marshal (normalise spec) = inl checked ∧
    (len checked ≤ MaxConfigMapDataSize)%Z ∧ rulefmt_Parse checked = [].
Proof.
  unfold generateRulesConfiguration, ValidateRule. simpl.
  set (spec := sanitizePrometheusRulesSpec prs (pr_Spec rule)). split.
  - destruct (yaml_Marshal spec) as [c|e]; [|done]. case_bool_decide as Hv; [|done].
    intros [= <-]. split; [done|]. destruct (yaml_Marshal (normalise spec)) as [c'|e']; [|done].
    exists c'. case_decide; [done|]. split_and!; [done|lia|done].
  - intros (-> & c' & -> & Hlen & Hp). rewrite decide_False by lia. by rewrite bool_decide_true.
Qed.

(** A rule file is emitted only if the upstream validator accepts it and it fits into a
    ConfigMap, provided the sanitized spec has neither empty durations nor a partial response
    strategy. *)
Theorem generateRulesConfiguration_validated prs (rule : PrometheusRule) (content : string) :
  normal (sanitizePrometheusRulesSpec prs (pr_Spec rule)) →
  generateRulesConfiguration prs rule = Ok content →
  rulefmt_Parse content = [] ∧ (len content ≤ MaxConfigMapDataSize)%Z.
Proof.
  intros Hn (Hc & c' & Hc' & Hlen & Hp)%generateRulesConfiguration_ok. unfold normal in Hn.
  rewrite Hn, Hc in Hc'. by injection Hc' as <-.
Qed.
End generate_spec.

(** ** The selection loop does not depend on the order of the map *)

Section select_spec.
Context `{Semver, RuleLibs, PromQL}.
Implicit Types prs : PrometheusRuleSelector.

(** What becomes of one collected rule: [None] when enforcement fails. *)
Definition rendered prs (r : PrometheusRule) : option (res string) :=
  match EnforceNamespaceLabel (nsLabeler prs) r with
  | Ok r' => Some (generateRulesConfiguration prs r')
  | Err _ => None
  | Panic m => Some (Panic m)
  end.
Definition selected_entry prs (e : string * PrometheusRule) : option (string * string) :=
  match rendered prs e.2 with Some (Ok c) => Some (e.1, c) | _ => None end.
Definition is_rejected prs (e : string * PrometheusRule) : Prop :=
  ∃ err, rendered prs e.2 = Some (Err err).
#[global] Instance is_rejected_dec prs e : Decision (is_rejected prs e).
Proof.
  destruct (rendered prs e.2) as [[c|err|m]|] eqn:E;
    first [by left; exists err|right; intros [? ?]; congruence].
Defined.

Lemma selected_keys prs es k :
  k ∈ (omap (selected_entry prs) es).*1 → k ∈ es.*1.
Proof.
  rewrite !list_elem_of_fmap. intros ([k' c] & -> & ([k1 r] & Hr & Hs)%list_elem_of_omap).
  exists (k1, r). split; [|done]. unfold selected_entry in Hs.
  destruct (rendered prs _) as [[]|]; by simplify_eq/=.
Qed.

Lemma render_all_eq prs es : ∀ rules n,
  NoDup es.*1 → Forall (fun e => ∀ m, rendered prs e.2 ≠ Some (Panic m)) es →
  render_all prs rules n es =
    Ok (list_to_map (omap (selected_entry prs) es) ∪ rules,
        (n + Z.of_nat (length (filter (is_rejected prs) es)))%Z).
Proof.
  induction es as [|[k r] es IH]; intros rules n Hnd Hp; simpl.
  { by rewrite (left_id_L ∅ (∪)), Z.add_0_r. }
  apply NoDup_cons in Hnd as [Hk Hnd]. apply Forall_cons in Hp as [Hp0 Hp]. simpl in Hp0.
  rewrite filter_cons. unfold selected_entry at 1. simpl.
  destruct (decide (is_rejected prs (k, r))) as [Hrej|Hrej].
  - destruct Hrej as [err Herr]. simpl in Herr. rewrite Herr. unfold rendered in Herr.
    destruct (EnforceNamespaceLabel _ _) as [r'| |]; [|done..].
    injection Herr as ->. rewrite IH by done. do 2 f_equal. simpl. lia.
  - unfold is_rejected in Hrej. simpl in Hrej. unfold rendered in *.
    destruct (EnforceNamespaceLabel _ _) as [r'|e|m]; [|by apply IH|by destruct (Hp0 m)].
    destruct (generateRulesConfiguration _ _) as [c|e|m]; [|by destruct Hrej; eexists|by destruct (Hp0 m)].
    rewrite IH by done. simpl. do 2 f_equal. rewrite <-insert_union_l, insert_union_r; [done|].
    apply not_elem_of_list_to_map_1. intros Hin. by apply Hk, (selected_keys prs).
Qed.

(** For the collected rule objects, whatever order Go visits the map in, the selection holds
    the file of exactly those rules that pass enforcement and validation, under their names,
    and counts as rejected exactly those that pass enforcement but not validation; rules that
    fail enforcement are in neither number. *)
Theorem render_all_any_order prs (promRules : gmap string PrometheusRule)
    (es : list (string * PrometheusRule)) :
  es ≡ₚ map_to_list promRules →
  (∀ k r m, promRules !! k = Some r → rendered prs r ≠ Some (Panic m)) →
  ∃ rules rejected, render_all prs ∅ 0 es = Ok (rules, rejected) ∧
    (∀ k c, rules !! k = Some c ↔
       ∃ r, promRules !! k = Some r ∧ rendered prs r = Some (Ok c)) ∧
    rejected = Z.of_nat (size (filter (is_rejected prs) promRules)).
Proof.
  intros Hes Hp.
  assert (NoDup es.*1) as Hnd by (rewrite Hes; apply NoDup_fst_map_to_list).
  eexists _, _. split.
  { apply render_all_eq; [done|]. apply Forall_forall. intros [k r] Hin m.
    rewrite Hes, elem_of_map_to_list in Hin. eauto. }
  split.
  - intros k c. rewrite (right_id_L ∅ (∪)), <-elem_of_list_to_map.
    2:{ clear Hp Hes. induction es as [|e es IH]; simpl; [constructor|].
        apply NoDup_cons in Hnd as [Hk Hnd]. destruct (selected_entry prs e) as [[k1 c1]|] eqn:E; [|auto].
        simpl. constructor; [|auto]. intros Hin%selected_keys. apply Hk.
        unfold selected_entry in E. repeat case_match; by simplify_eq/=. }
    rewrite list_elem_of_omap. split.
    + intros ([k1 r] & Hin & Hs). rewrite Hes, elem_of_map_to_list in Hin.
      unfold selected_entry in Hs. simpl in Hs. repeat case_match; simplify_eq. eauto.
    + intros (r & Hr & Hc). exists (k, r). rewrite Hes, elem_of_map_to_list.
      split; [done|]. unfold selected_entry. simpl. by rewrite Hc.
  - by rewrite Z.add_0_l, Hes, size_filter.
Qed.
End select_spec.

(** ** Concrete libraries, for evaluating the definitions *)

Module Concrete.
(** Versions as lists of numbers, compared lexicographically. *)
Definition parse (s : string) : list Z :=
  (fun part => match Atoi part with Ok z => z | _ => 0%Z end) <$> Split s "."%char.
Fixpoint lt (v w : list Z) : bool :=
  match v, w with
  | x :: v', y :: w' => bool_decide (x < y)%Z || (bool_decide (x = y) && lt v' w')
  | [], _ :: _ => true
  | _, [] => false
  end.
#[local] Instance semver : Semver := {|
  version := list Z; MustParse := parse; ParseTolerant s := Ok (parse s); LT := lt;
  Major v := default 0%Z (head v); version_String v := Join (Itoa <$> v) "." |}.

(** Rendering lists the group names, intervals and expressions; the validator refuses a file
    in which an interval is empty. *)
Definition render_group (g : RuleGroup) : string :=
  "group=" +:+ g_Name g +:+
  match g_Interval g with None => "" | Some i => ";interval=" +:+ i end +:+
  Join ((fun r => ";expr=" +:+ IntOrString_String (r_Expr r)) <$> g_Rules g) "" +:+ ".".
Definition marshal (spec : PrometheusRuleSpec) : string := Join (render_group <$> Groups spec) "".
#[local] Instance rule_libs : RuleLibs := {|
  yaml_Marshal spec := inl (marshal spec);
  rulefmt_Parse content :=
    if Contains content "interval=;" then [Errorf "empty duration string" []] else [] |}.
(** Expressions are kept as text; enforcing appends the matcher. *)
#[local] Instance promql : PromQL := {|
  promql_expr := string; ParseExpr s := if bool_decide (s = "") then Err (Errorf "no expression" []) else Ok s;
  expr_String s := s;
  EnforceNode lbl ns e := Ok (e +:+ "{" +:+ lbl +:+ "=" +:+ ns +:+ "}") |}.

Definition rule (e : string) : Rule := {|
  r_Record := ""; r_Alert := "Down"; r_Expr := FromString e; r_For := None;
  r_KeepFiringFor := Some "5m"; r_Labels := None; r_Annotations := None |}.
Definition group (interval : option string) (e : string) : RuleGroup := {|
  g_Name := "g"; g_Labels := None; g_Interval := interval; g_QueryOffset := None;
  g_Rules := [rule e]; g_PartialResponseStrategy := ""; g_Limit := Some 3%Z |}.
Definition object (n : string) (g : RuleGroup) : PrometheusRule := {|
  pr_TypeMeta := {| gk_Group := GroupName; gk_Kind := "PrometheusRule" |};
  pr_ObjectMeta := SetNamespace "ns" (SetName n zero_meta); pr_Spec := {| Groups := [g] |} |}.
Definition selector : PrometheusRuleSelector := {|
  ruleFormat := PrometheusFormat; prs_version := parse "2.40.1";
  nsLabeler := {| enforcedNsLabel := "tenant"; prometheusRuleLabeler := true;
                  excludeNamespaceGroupKindToNames := ∅ |} |}.
(** One rule that is selected, one that fails validation and one that fails enforcement. *)
Definition good : PrometheusRule := object "good" (group (Some "30s") "up == 0").
Definition bad : PrometheusRule := object "bad" (group None "interval=;").
Definition unparsable : PrometheusRule := object "unparsable" (group None "").
Definition rules : gmap string PrometheusRule :=
  list_to_map [("good", good); ("bad", bad); ("unparsable", unparsable)].
End Concrete.
#[local] Existing Instances Concrete.semver Concrete.rule_libs Concrete.promql.

Lemma generateRulesConfiguration_validated_witness :
  ∃ content, generateRulesConfiguration Concrete.selector Concrete.good = Ok content ∧
    rulefmt_Parse content = [] ∧ (len content ≤ MaxConfigMapDataSize)%Z.
Proof.
  eexists. split; [vm_compute; reflexivity|].
  apply (generateRulesConfiguration_validated Concrete.selector Concrete.good);
    vm_compute; reflexivity.
Defined.

(** The third rule is neither selected nor counted. *)
Lemma render_all_any_order_witness :
  ∃ rules rejected,
    render_all Concrete.selector ∅ 0 (map_to_list Concrete.rules) = Ok (rules, rejected) ∧
    rejected = 1%Z ∧ is_Some (rules !! "good") ∧ size Concrete.rules = 3.
Proof.
  destruct (render_all_any_order Concrete.selector Concrete.rules (map_to_list Concrete.rules))
    as (rules & rejected & H & Hr & Hn).
  - reflexivity.
  - intros k r m Hk. change Concrete.rules with
      (<["good" := Concrete.good]> (<["bad" := Concrete.bad]> (<["unparsable" := Concrete.unparsable]> ∅))
        : gmap string PrometheusRule) in Hk.
    apply lookup_insert_Some in Hk as [[_ <-]|[_ Hk]]; [vm_compute; discriminate|].
    apply lookup_insert_Some in Hk as [[_ <-]|[_ Hk]]; [vm_compute; discriminate|].
    apply lookup_insert_Some in Hk as [[_ <-]|[_ Hk]]; [vm_compute; discriminate|].
    by rewrite lookup_empty in Hk.
  - exists rules, rejected. split; [exact H|]. split.
    + rewrite Hn. vm_compute. reflexivity.
    + split; [|reflexivity]. eexists. apply Hr. exists Concrete.good. split; vm_compute; reflexivity.
Defined.
