(* ===== verification/Status.v ===== *)
(** * Status reporting

    pkg/operator/operator.go ([ReconciliationTracker], [Metrics]), pkg/operator/conditions.go,
    pkg/operator/statefulset_reporter.go and [StatusReporter.Process] of pkg/prometheus/operator.go.
    The current time and the rendering of an error ([err.Error()]) are arguments. *)

From S2P Require Import Prelude GoStrings SortUtil Meta.

(** [int32(i)] for a Go [int]. *)
Definition int32 (z : Z) : Z := ((z + 2 ^ 31) mod 2 ^ 32 - 2 ^ 31)%Z.

(** ** Conditions (pkg/apis/monitoring/v1/types.go, pkg/operator/conditions.go) *)

Inductive ConditionType := Available | Reconciled | Accepted.
Inductive ConditionStatus := ConditionTrue | ConditionDegraded | ConditionFalse | ConditionUnknown.
#[global] Instance ConditionType_eq_dec : EqDecision ConditionType.
Proof. solve_decision. Defined.
#[global] Instance ConditionStatus_eq_dec : EqDecision ConditionStatus.
Proof. solve_decision. Defined.

Record Condition := {
  c_Type : ConditionType;
  c_Status : ConditionStatus;
  c_LastTransitionTime : Z;
  c_Reason : string;
  c_Message : string;
  c_ObservedGeneration : Z;
}.

Fixpoint FindStatusCondition (conditions : list Condition) (t : ConditionType) : option Condition :=
  match conditions with
  | [] => None
  | c :: cs => if bool_decide (c_Type c = t) then Some c else FindStatusCondition cs t
  end.

Definition set_transition_time (t : Z) (c : Condition) : Condition := {|
  c_Type := c_Type c; c_Status := c_Status c; c_LastTransitionTime := t;
  c_Reason := c_Reason c; c_Message := c_Message c;
  c_ObservedGeneration := c_ObservedGeneration c |}.

Definition update_condition (conditions : list Condition) (nc : Condition) : Condition :=
  match FindStatusCondition conditions (c_Type nc) with
  | None => nc
  | Some c =>
      if bool_decide (c_Status nc = c_Status c)
      then set_transition_time (c_LastTransitionTime c) nc else nc
  end.
Definition UpdateConditions (conditions newConditions : list Condition) : list Condition :=
  update_condition conditions <$> newConditions.

(** ** ReconciliationTracker *)

(** [err] is [None] when the last reconciliation succeeded. *)
Record ReconciliationStatus := { rs_err : option error }.
Definition rs_Ok (rs : ReconciliationStatus) : bool := bool_decide (rs_err rs = None).
Definition rs_Reason (rs : ReconciliationStatus) : string :=
  if rs_Ok rs then "" else "ReconciliationFailed".
Definition rs_Message (Error : error → string) (rs : ReconciliationStatus) : string :=
  match rs_err rs with None => "" | Some e => Error e end.

(** The zero tracker has a nil map, created by the first [SetStatus]. *)
Record ReconciliationTracker := { statusByObject : option (gmap string ReconciliationStatus) }.

Definition SetStatus (rt : ReconciliationTracker) (k : string) (err : option error)
    : ReconciliationTracker :=
  {| statusByObject := Some (<[k := {| rs_err := err |}]> (default ∅ (statusByObject rt))) |}.
Definition getStatus (rt : ReconciliationTracker) (k : string) : option ReconciliationStatus :=
  default ∅ (statusByObject rt) !! k.
Definition ForgetObject (rt : ReconciliationTracker) (k : string) : ReconciliationTracker :=
  match statusByObject rt with
  | None => rt
  | Some m => {| statusByObject := Some (delete k m) |}
  end.
Definition GetCondition (Error : error → string) (now : Z) (rt : ReconciliationTracker)
    (k : string) (gen : Z) : Condition :=
  match getStatus rt k with
  | None => {| c_Type := Reconciled; c_Status := ConditionUnknown; c_LastTransitionTime := now;
               c_Reason := "NotFound"; c_Message := "object " +:+ k +:+ " not found";
               c_ObservedGeneration := gen |}
  | Some rs => {| c_Type := Reconciled;
                  c_Status := if rs_Ok rs then ConditionTrue else ConditionFalse;
                  c_LastTransitionTime := now; c_Reason := rs_Reason rs;
                  c_Message := rs_Message Error rs; c_ObservedGeneration := gen |}
  end.
(** [Collect]: the [ok] and [failed] gauges. *)
Definition tracker_Collect (rt : ReconciliationTracker) : Z * Z :=
  map_fold (fun _ st '(ok, failed) => if rs_Ok st then (ok + 1, failed) else (ok, failed + 1))%Z
    (0, 0)%Z (default ∅ (statusByObject rt)).

(** ** Metrics: selected and rejected resources *)

Inductive resourceState := selected | rejected.
#[global] Instance resourceState_eq_dec : EqDecision resourceState.
Proof. solve_decision. Defined.
#[global] Instance resourceState_countable : Countable resourceState.
Proof.
  refine (inj_countable' (fun s => match s with selected => true | rejected => false end)
    (fun b : bool => if b then selected else rejected) _). by intros [].
Defined.

Record Metrics := { resources : gmap (string * resourceState) (gmap string Z) }.

(** Both maps of a resource are created when the requested one is missing. *)
Definition ensureResource (m : Metrics) (resKey : string * resourceState) : Metrics :=
  match resources m !! resKey with
  | Some _ => m
  | None => {| resources :=
      <[(resKey.1, rejected) := ∅]> (<[(resKey.1, selected) := ∅]> (resources m)) |}
  end.
Definition setResources (m : Metrics) (objKey : string) (resKey : string * resourceState) (v : Z)
    : Metrics :=
  {| resources := alter (fun byObj => <[objKey := v]> byObj) resKey
                    (resources (ensureResource m resKey)) |}.
Definition SetSelectedResources (m : Metrics) (objKey resource : string) (v : Z) : Metrics :=
  setResources m objKey (resource, selected) v.
Definition SetRejectedResources (m : Metrics) (objKey resource : string) (v : Z) : Metrics :=
  setResources m objKey (resource, rejected) v.
(** [Collect]: the gauge of one resource and state. *)
Definition metrics_Collect (m : Metrics) (resKey : string * resourceState) : option Z :=
  (fun byObj => map_fold (fun _ v total => total + v)%Z 0%Z byObj) <$> resources m !! resKey.

(** ** Pods and statefulsets (pkg/operator/statefulset_reporter.go) *)

Inductive PodPhase := PodPending | PodRunning | PodSucceeded | PodFailed | PodUnknown.
Inductive PodConditionType := PodScheduled | PodInitialized | ContainersReady | PodReady | OtherPodCondition.
Inductive PodConditionStatus := PodTrue | PodFalse | PodStatusUnknown.
#[global] Instance PodPhase_eq_dec : EqDecision PodPhase.
Proof. solve_decision. Defined.
#[global] Instance PodConditionType_eq_dec : EqDecision PodConditionType.
Proof. solve_decision. Defined.
#[global] Instance PodConditionStatus_eq_dec : EqDecision PodConditionStatus.
Proof. solve_decision. Defined.

Record PodCondition := {
  pc_Type : PodConditionType;
  pc_Status : PodConditionStatus;
  pc_Message : string;
}.
Record Pod := {
  pod_meta : ObjectMeta;
  pod_Phase : PodPhase;
  pod_Conditions : list PodCondition;
}.

Definition Ready (p : Pod) : bool :=
  bool_decide (pod_Phase p = PodRunning) &&
  match list_find (fun c => pc_Type c = PodReady) (pod_Conditions p) with
  | Some (_, c) => bool_decide (pc_Status c = PodTrue)
  | None => false
  end.

Definition failing (t : PodConditionType) (c : PodCondition) : Prop :=
  pc_Type c = t ∧ pc_Status c = PodFalse.
#[global] Instance failing_dec t c : Decision (failing t c).
Proof. unfold failing. apply _. Defined.
Fixpoint first_message (ts : list PodConditionType) (cs : list PodCondition) : string :=
  match ts with
  | [] => ""
  | t :: ts' =>
      match list_find (failing t) cs with
      | Some (_, c) => pc_Message c
      | None => first_message ts' cs
      end
  end.
Definition Message (p : Pod) : string :=
  first_message [PodScheduled; PodInitialized; ContainersReady; PodReady] (pod_Conditions p).

Record StatefulSet := {
  sts_meta : ObjectMeta;
  sts_UpdateRevision : string;
}.
Record StatefulSetReporter := {
  Pods : list Pod;
  sset : option StatefulSet;
}.

Definition IsUpdated (ss : StatefulSet) (p : Pod) : bool :=
  bool_decide (sts_UpdateRevision ss = at_key (om_Labels (pod_meta p)) "controller-revision-hash").
Definition ReadyPods (sr : StatefulSetReporter) : list Pod := filter (fun p => Ready p = true) (Pods sr).
(** [sr.sset] is dereferenced for each pod. *)
Definition UpdatedPods (sr : StatefulSetReporter) : res (list Pod) :=
  match sset sr, Pods sr with
  | None, [] => Ok []
  | None, _ :: _ => Panic "invalid memory address or nil pointer dereference"
  | Some ss, ps => Ok (filter (fun p => IsUpdated ss p = true) ps)
  end.

(** [NewStatefulSetReporter]: [listed] is what the API lists for the statefulset's selector. *)
Definition owned_by (ss : StatefulSet) (p : Pod) : bool :=
  existsb (fun o => bool_decide (or_Kind o = "StatefulSet") &&
                    bool_decide (or_Name o = om_Name (sts_meta ss)))
    (om_OwnerReferences (pod_meta p)).
Definition NewStatefulSetReporter (ss : option StatefulSet) (listed : res (list Pod))
    : res StatefulSetReporter :=
  match ss with
  | None => Ok {| Pods := []; sset := None |}
  | Some s =>
      pods ← listed;
      Ok {| Pods := filter (fun p => owned_by s p = true) pods; sset := Some s |}
  end.

(** The replica counters a [GoverningObject] stores. *)
Record ReplicaStatus := {
  Replicas : Z; UpdatedReplicas : Z; AvailableReplicas : Z; UnavailableReplicas : Z }.

(** [strings.Join] of the pods' messages. *)
Definition pod_messages (prefix : string) (ps : list Pod) : list string :=
  omap (fun p => if bool_decide (Message p = "") then None
                 else Some (prefix +:+ "pod " +:+ om_Name (pod_meta p) +:+ ": " +:+ Message p)) ps.
Definition newline : string := String (ascii_of_nat 10) EmptyString.

Definition reporter_Update (now generation expected : Z) (sr : StatefulSetReporter)
    : res (Condition * ReplicaStatus) :=
  updatedPods ← UpdatedPods sr;
  let ready := Z.of_nat (length (ReadyPods sr)) in
  let pods := Z.of_nat (length (Pods sr)) in
  let '(status, reason) :=
    match sset sr with
    | None => (ConditionFalse, "StatefulSetNotFound")
    | Some _ =>
        if decide (ready < expected)%Z then
          if decide (ready = 0)%Z then (ConditionFalse, "NoPodReady")
          else (ConditionDegraded, "SomePodsNotReady")
        else (ConditionTrue, "")
    end in
  Ok ({| c_Type := Available; c_Status := status; c_LastTransitionTime := now; c_Reason := reason;
         c_Message := Join (pod_messages "" (Pods sr)) newline; c_ObservedGeneration := generation |},
      {| Replicas := int32 pods; UpdatedReplicas := int32 (Z.of_nat (length updatedPods));
         AvailableReplicas := int32 ready; UnavailableReplicas := int32 (pods - ready) |}).

(** ** Statefulsets of a Prometheus object (pkg/prometheus/common.go, operator.go) *)

(** The two implementations of [monitoringv1.PrometheusInterface]. *)
Inductive PrometheusKind := Prometheus | PrometheusAgent.
Record PrometheusInterface := {
  p_kind : PrometheusKind;
  p_meta : ObjectMeta;
  p_Paused : bool;
  p_Replicas : option Z;
  p_Shards : option Z;
}.

Definition Prefix (p : PrometheusInterface) : string :=
  match p_kind p with Prometheus => "prometheus" | PrometheusAgent => "prom-agent" end.
Definition PrefixedName (p : PrometheusInterface) : string :=
  Prefix p +:+ "-" +:+ om_Name (p_meta p).
Definition shardsNumber (p : PrometheusInterface) : Z :=
  let shards := default 1%Z (p_Shards p) in if decide (shards ≤ 1)%Z then 1 else shards.
Definition ReplicasNumber (p : PrometheusInterface) : Z :=
  let replicas := default 1%Z (p_Replicas p) in if decide (replicas < 0)%Z then 1 else replicas.
Definition prometheusNameByShard (p : PrometheusInterface) (shard : Z) : string :=
  if decide (shard = 0)%Z then PrefixedName p
  else PrefixedName p +:+ "-shard-" +:+ Itoa shard.
Definition ExpectedStatefulSetShardNames (p : PrometheusInterface) : list string :=
  prometheusNameByShard p ∘ Z.of_nat <$> seq 0 (Z.to_nat (shardsNumber p)).
Definition statefulSetNameFromPrometheusName (p : PrometheusInterface) (name : string) (shard : Z)
    : string :=
  if decide (shard = 0)%Z then Prefix p +:+ "-" +:+ name
  else Prefix p +:+ "-" +:+ name +:+ "-shard-" +:+ Itoa shard.
(** [keyParts[1]] panics when the key has no [/]. *)
Definition KeyToStatefulSetKey (p : PrometheusInterface) (key : string) (shard : Z) : res string :=
  match Split key "/"%char with
  | ns :: name :: _ => Ok (ns +:+ "/" +:+ statefulSetNameFromPrometheusName p name shard)
  | _ => Panic "index out of range [1] with length 1"
  end.

(** ** StatusReporter.Process *)

Record ShardStatus := { ss_ShardID : string; ss_counts : ReplicaStatus }.
Record PrometheusStatus := {
  ps_Paused : bool;
  ps_counts : ReplicaStatus;
  ps_ShardStatuses : list ShardStatus;
  ps_Conditions : list Condition;
}.
Definition no_replicas : ReplicaStatus :=
  {| Replicas := 0; UpdatedReplicas := 0; AvailableReplicas := 0; UnavailableReplicas := 0 |}.
(** [+=] on the four [int32] counters. *)
Definition add_replicas (a b : ReplicaStatus) : ReplicaStatus :=
  {| Replicas := int32 (Replicas a + Replicas b);
     UpdatedReplicas := int32 (UpdatedReplicas a + UpdatedReplicas b);
     AvailableReplicas := int32 (AvailableReplicas a + AvailableReplicas b);
     UnavailableReplicas := int32 (UnavailableReplicas a + UnavailableReplicas b) |}.

Definition counts_of (sr : StatefulSetReporter) (updated : list Pod) : ReplicaStatus :=
  let pods := Z.of_nat (length (Pods sr)) in
  let ready := Z.of_nat (length (ReadyPods sr)) in
  {| Replicas := int32 pods; UpdatedReplicas := int32 (Z.of_nat (length updated));
     AvailableReplicas := int32 ready; UnavailableReplicas := int32 (pods - ready) |}.

(** The loop's variables. *)
Record ProcessState := {
  availableStatus : ConditionStatus;
  availableReason : string;
  messages : list string;
  counts : ReplicaStatus;
  shardStatuses : list ShardStatus;
}.
Definition process_start : ProcessState :=
  {| availableStatus := ConditionTrue; availableReason := ""; messages := [];
     counts := no_replicas; shardStatuses := [] |}.

(** [availableCondition.Status]: nobody sets it, so it is the empty string ([None]), which is not
    [ConditionFalse]. *)
Definition availableCondition_Status : option ConditionStatus := None.

Section Process.
(** The statefulset informer, and the pods the API lists for a statefulset's selector. *)
Context (SsetInfs_Get : string → res StatefulSet) (listPods : StatefulSet → res (list Pod)).

Definition DeletionInProgress (m : ObjectMeta) : bool := bool_decide (om_DeletionTimestamp m ≠ None).

Definition shard_not_found (shard : Z) (ssetName : string) (st : ProcessState) : ProcessState :=
  {| availableStatus := ConditionFalse; availableReason := "StatefulSetNotFound";
     messages := messages st ++
       ["shard " +:+ Itoa shard +:+ ": statefulset " +:+ ssetName +:+ " not found"];
     counts := counts st;
     shardStatuses := shardStatuses st ++ [{| ss_ShardID := Itoa shard; ss_counts := no_replicas |}] |}.

Definition shard_found (replicas shard : Z) (sr : StatefulSetReporter) (updated : list Pod)
    (st : ProcessState) : ProcessState :=
  let c := counts_of sr updated in
  let ready := Z.of_nat (length (ReadyPods sr)) in
  let '(status, reason, msgs) :=
    if decide (replicas ≤ ready)%Z then (availableStatus st, availableReason st, messages st)
    else
      let '(status, reason) :=
        if decide (ready = 0)%Z then (ConditionFalse, "NoPodReady")
        else if bool_decide (availableCondition_Status ≠ Some ConditionFalse)
        then (ConditionDegraded, "SomePodsNotReady")
        else (availableStatus st, availableReason st) in
      (status, reason, messages st ++ pod_messages ("shard " +:+ Itoa shard +:+ ": ") (Pods sr)) in
  {| availableStatus := status; availableReason := reason; messages := msgs;
     counts := add_replicas (counts st) c;
     shardStatuses := shardStatuses st ++ [{| ss_ShardID := Itoa shard; ss_counts := c |}] |}.

Definition process_shard (p : PrometheusInterface) (key : string) (replicas shard : Z)
    (st : ProcessState) : res ProcessState :=
  ssetName ← KeyToStatefulSetKey p key shard;
  match SsetInfs_Get ssetName with
  | Panic m => Panic m
  | Err err =>
      if IsNotFound err then Ok (shard_not_found shard ssetName st)
      else Err (Wrapf "failed to retrieve statefulset: %w" [] err)
  | Ok ss =>
      if DeletionInProgress (sts_meta ss) then Ok st
      else
        sr ← wrap "failed to retrieve statefulset state: %w" []
               (NewStatefulSetReporter (Some ss) (listPods ss));
        updated ← UpdatedPods sr;
        Ok (shard_found replicas shard sr updated st)
  end.

Fixpoint process_shards (p : PrometheusInterface) (key : string) (replicas : Z)
    (shards : list Z) (st : ProcessState) : res ProcessState :=
  match shards with
  | [] => Ok st
  | shard :: rest =>
      st' ← process_shard p key replicas shard st; process_shards p key replicas rest st'
  end.

(** [range] over the shard names, whose indices are used. *)
Definition shard_indices (p : PrometheusInterface) : list Z :=
  imap (fun i _ => Z.of_nat i) (ExpectedStatefulSetShardNames p).

(** [now] and [now'] are the two readings of the clock. *)
Definition Process (Error : error → string) (now now' : Z) (rt : ReconciliationTracker)
    (p : PrometheusInterface) (key : string) : res PrometheusStatus :=
  let replicas := default 1%Z (p_Replicas p) in
  st ← process_shards p key replicas (shard_indices p) process_start;
  Ok {| ps_Paused := p_Paused p; ps_counts := counts st; ps_ShardStatuses := shardStatuses st;
        ps_Conditions := UpdateConditions []
          [{| c_Type := Available; c_Status := availableStatus st; c_LastTransitionTime := now;
              c_Reason := availableReason st; c_Message := Join (messages st) newline;
              c_ObservedGeneration := om_Generation (p_meta p) |};
           GetCondition Error now' rt key (om_Generation (p_meta p))] |}.
End Process.

(** ** Theorems: conditions *)

Lemma int32_add_l a b : int32 (int32 a + b) = int32 (a + b).
Proof.
  unfold int32. f_equal.
  replace ((a + 2 ^ 31) mod 2 ^ 32 - 2 ^ 31 + b + 2 ^ 31)%Z
    with ((a + 2 ^ 31) mod 2 ^ 32 + b)%Z by lia.
  rewrite Zplus_mod_idemp_l. f_equal. lia.
Qed.
Lemma int32_id z : (- 2 ^ 31 ≤ z < 2 ^ 31)%Z → int32 z = z.
Proof. intros H. unfold int32. rewrite Z.mod_small; lia. Qed.
Lemma int32_idemp z : int32 (int32 z) = int32 z.
Proof. pose proof (int32_add_l z 0) as H. by rewrite !Z.add_0_r in H. Qed.

Lemma FindStatusCondition_Some cs t c :
  FindStatusCondition cs t = Some c → c ∈ cs ∧ c_Type c = t.
Proof.
  induction cs as [|c' cs IH]; simpl; [done|]. case_bool_decide.
  - intros [= ->]. set_solver.
  - intros [? ?]%IH. set_solver.
Qed.
Lemma FindStatusCondition_fmap f cs t :
  (∀ c, c_Type (f c) = c_Type c) →
  FindStatusCondition (f <$> cs) t = f <$> FindStatusCondition cs t.
Proof.
  intros Hf. induction cs as [|c cs IH]; simpl; [done|]. rewrite Hf. by case_bool_decide.
Qed.
Lemma update_condition_type cs c : c_Type (update_condition cs c) = c_Type c.
Proof. unfold update_condition. by repeat case_match. Qed.

(** Updating the conditions of an object keeps, for each condition, everything the new one
    says except the transition time, which stays the recorded one exactly as long as the status
    is unchanged; applying the same update again changes nothing. *)
Theorem UpdateConditions_transition (conditions newConditions : list Condition) (t : ConditionType) :
  let updated := UpdateConditions conditions newConditions in
  match FindStatusCondition updated t, FindStatusCondition newConditions t with
  | None, None => True
  | Some u, Some n =>
      set_transition_time 0 u = set_transition_time 0 n ∧
      c_LastTransitionTime u =
        match FindStatusCondition conditions t with
        | Some c => if decide (c_Status c = c_Status n) then c_LastTransitionTime c
                    else c_LastTransitionTime n
        | None => c_LastTransitionTime n
        end
  | _, _ => False
  end ∧
  UpdateConditions conditions updated = updated.
Proof.
  cbv zeta. split.
  - unfold UpdateConditions. rewrite FindStatusCondition_fmap by apply update_condition_type.
    destruct (FindStatusCondition newConditions t) as [n|] eqn:En; simpl; [|done].
    apply FindStatusCondition_Some in En as [_ <-]. unfold update_condition.
    destruct (FindStatusCondition conditions (c_Type n)) as [c|]; [|done].
    case_bool_decide; simpl; case_decide; by try congruence.
  - unfold UpdateConditions. rewrite <-list_fmap_compose. apply list_fmap_ext.
    intros i c _. simpl. unfold update_condition at 1. rewrite update_condition_type.
    unfold update_condition. destruct (FindStatusCondition conditions (c_Type c)) as [c'|] eqn:E; [|done].
    case_bool_decide as H; simpl; rewrite ?E; by case_bool_decide.
Qed.

(** ** Theorems: the reconciliation tracker *)

Inductive tracker_op :=
  | op_SetStatus (k : string) (err : option error)
  | op_ForgetObject (k : string).
Definition tracker_step (rt : ReconciliationTracker) (op : tracker_op) : ReconciliationTracker :=
  match op with
  | op_SetStatus k err => SetStatus rt k err
  | op_ForgetObject k => ForgetObject rt k
  end.
Definition tracker_new : ReconciliationTracker := {| statusByObject := None |}.
(** The specification: what the last operation on [k] said, [None] if it forgot [k]. *)
Fixpoint last_status (ops : list tracker_op) (k : string) (st : option (option error))
    : option (option error) :=
  match ops with
  | [] => st
  | op_SetStatus k' err :: ops' => last_status ops' k (if decide (k' = k) then Some err else st)
  | op_ForgetObject k' :: ops' => last_status ops' k (if decide (k' = k) then None else st)
  end.

Lemma getStatus_step rt op k :
  rs_err <$> getStatus (tracker_step rt op) k = last_status [op] k (rs_err <$> getStatus rt k).
Proof.
  destruct op as [k' err|k'], rt as [[m|]]; unfold getStatus; simpl; case_decide; subst;
    by simplify_map_eq.
Qed.
Lemma last_status_cons op ops k st :
  last_status (op :: ops) k st = last_status ops k (last_status [op] k st).
Proof. by destruct op. Qed.
Lemma getStatus_run ops : ∀ rt k,
  rs_err <$> getStatus (foldl tracker_step rt ops) k =
    last_status ops k (rs_err <$> getStatus rt k).
Proof.
  induction ops as [|op ops IH]; intros rt k; [done|].
  rewrite last_status_cons, <-getStatus_step. simpl. apply IH.
Qed.

(** After any sequence of operations on a tracker, the Reconciled condition of an object is
    Unknown when the object was never tracked or was forgotten last, True when its last recorded
    reconciliation had no error and otherwise False with that error's text. *)
Theorem GetCondition_last_status (Error : error → string) (now gen : Z) (ops : list tracker_op)
    (k : string) :
  let c := GetCondition Error now (foldl tracker_step tracker_new ops) k gen in
  c_Type c = Reconciled ∧ c_ObservedGeneration c = gen ∧
  (c_Status c, c_Reason c, c_Message c) =
    match last_status ops k None with
    | None => (ConditionUnknown, "NotFound", "object " +:+ k +:+ " not found")
    | Some None => (ConditionTrue, "", "")
    | Some (Some e) => (ConditionFalse, "ReconciliationFailed", Error e)
    end.
Proof.
  pose proof (getStatus_run ops tracker_new k) as H.
  change (rs_err <$> getStatus tracker_new k) with (@None (option error)) in H.
  cbv zeta. rewrite <-H.
  unfold GetCondition. destruct (getStatus _ k) as [[[e|]]|]; done.
Qed.

(** ** Theorems: resource metrics *)

(** The maps of the two states of a resource are created together. *)
Definition metrics_wf (m : Metrics) : Prop :=
  ∀ r, is_Some (resources m !! (r, selected)) ↔ is_Some (resources m !! (r, rejected)).
(** The number recorded for an object. *)
Definition recorded (m : Metrics) (objKey : string) (resKey : string * resourceState) : option Z :=
  resources m !! resKey ≫= fun byObj => byObj !! objKey.

Lemma ensureResource_lookup m r s (Hwf : metrics_wf m) rk :
  resources (ensureResource m (r, s)) !! rk =
    if decide (rk.1 = r) then Some (default ∅ (resources m !! rk)) else resources m !! rk.
Proof.
  assert (∀ s', is_Some (resources m !! (r, s')) ↔ is_Some (resources m !! (r, s))) as Hr.
  { specialize (Hwf r). intros []; destruct s; naive_solver. }
  unfold ensureResource. destruct rk as [r' s']. simpl.
  destruct (resources m !! (r, s)) as [byObj|] eqn:E.
  - case_decide; subst; [|done]. destruct (Hr s') as [_ H].
    destruct H as [? ->]; [by eexists|done].
  - simpl. case_decide as Hd; simpl; rewrite !lookup_insert.
    + subst r'. assert (resources m !! (r, s') = None) as ->.
      { apply eq_None_not_Some. rewrite Hr. by intros [? ?]. }
      destruct s'; repeat (case_decide; try done).
    + repeat case_decide; congruence.
Qed.

(** Recording the number of selected or rejected resources of an object keeps the two maps of
    each resource paired, stores that number and leaves every other recorded number as it was. *)
Theorem setResources_frame (m : Metrics) (objKey : string) (resKey : string * resourceState) (v : Z)
    (Hwf : metrics_wf m) :
  metrics_wf (setResources m objKey resKey v) ∧
  ∀ objKey' resKey',
    recorded (setResources m objKey resKey v) objKey' resKey' =
      if decide (objKey' = objKey ∧ resKey' = resKey) then Some v else recorded m objKey' resKey'.
Proof.
  destruct resKey as [r s]. pose proof (ensureResource_lookup m r s Hwf) as Hl.
  unfold metrics_wf, recorded, setResources in *. simpl. split.
  - intros r'. rewrite !lookup_alter_is_Some, !Hl. simpl. case_decide; [|done].
    split; intros _; by eexists.
  - intros o' rk'. destruct (decide (rk' = (r, s))) as [->|Hne].
    + rewrite lookup_alter_eq, Hl. simpl. rewrite decide_True by done. simpl.
      rewrite lookup_insert. destruct (decide (objKey = o')) as [->|].
      * by rewrite decide_True.
      * rewrite decide_False by naive_solver. by destruct (resources m !! (r, s)).
    + rewrite lookup_alter_ne, Hl by done. rewrite (decide_False (P := _ ∧ _)) by naive_solver.
      case_decide; [|done]. by destruct (resources m !! rk').
Qed.

(** The counts recorded for an object in an empty registry. *)
Lemma setResources_frame_witness :
  recorded (setResources {| resources := ∅ |} "ns/k8s" ("PrometheusRule", selected) 3)
    "ns/k8s" ("PrometheusRule", selected) = Some 3%Z.
Proof.
  destruct (setResources_frame {| resources := ∅ |} "ns/k8s" ("PrometheusRule", selected) 3) as [_ H].
  - intros r. simpl. by rewrite !lookup_empty.
  - rewrite H. by rewrite decide_True.
Defined.

(** ** Theorems: the status of a Prometheus object *)

Definition sum_counts (f : ReplicaStatus → Z) (l : list ShardStatus) : Z :=
  foldr (fun s acc => f (ss_counts s) + acc)%Z 0%Z l.
Lemma sum_counts_snoc f l s : sum_counts f (l ++ [s]) = (sum_counts f l + f (ss_counts s))%Z.
Proof. unfold sum_counts. induction l as [|x l IH]; simpl; [lia|]. rewrite IH. lia. Qed.

(** The totals are the sums over the shards, at the width of the counters. *)
Definition totals (c : ReplicaStatus) (l : list ShardStatus) : Prop :=
  Replicas c = int32 (sum_counts Replicas l) ∧
  UpdatedReplicas c = int32 (sum_counts UpdatedReplicas l) ∧
  AvailableReplicas c = int32 (sum_counts AvailableReplicas l) ∧
  UnavailableReplicas c = int32 (sum_counts UnavailableReplicas l).

Lemma totals_snoc c l id d :
  totals c l → totals (add_replicas c d) (l ++ [{| ss_ShardID := id; ss_counts := d |}]).
Proof.
  intros (H1 & H2 & H3 & H4). unfold totals, add_replicas. simpl. rewrite !sum_counts_snoc. simpl.
  by rewrite H1, H2, H3, H4, !int32_add_l.
Qed.

#[local] Arguments NewStatefulSetReporter : simpl never.
#[local] Arguments UpdatedPods : simpl never.

Section Process_spec.
Context (SsetInfs_Get : string → res StatefulSet) (listPods : StatefulSet → res (list Pod)).

(** The statefulset of a shard exists and is either going away or has enough ready pods. *)
Definition shard_available (p : PrometheusInterface) (key : string) (shard : Z) : Prop :=
  ∃ n ss, KeyToStatefulSetKey p key shard = Ok n ∧ SsetInfs_Get n = Ok ss ∧
    (DeletionInProgress (sts_meta ss) = true ∨
     ∃ sr, NewStatefulSetReporter (Some ss) (listPods ss) = Ok sr ∧
       (default 1 (p_Replicas p) ≤ Z.of_nat (length (ReadyPods sr)))%Z).

Lemma process_shard_spec p key shard st st' :
  process_shard SsetInfs_Get listPods p key (default 1%Z (p_Replicas p)) shard st = Ok st' →
  totals (counts st) (shardStatuses st) →
  totals (counts st') (shardStatuses st') ∧
  ((shard_available p key shard ∧ availableStatus st' = availableStatus st ∧
    availableReason st' = availableReason st ∧ messages st' = messages st) ∨
   (¬ shard_available p key shard ∧ availableStatus st' ≠ ConditionTrue ∧
    availableReason st' ≠ "")).
Proof.
  unfold process_shard, shard_available. intros H Ht.
  destruct (KeyToStatefulSetKey p key shard) as [n| |] eqn:En; simpl in H; try done.
  destruct (SsetInfs_Get n) as [ss|err|m] eqn:Es; [|destruct (IsNotFound err)|]; try done.
  2:{ injection H as <-. unfold shard_not_found. simpl. split.
      - destruct Ht as (H1 & H2 & H3 & H4). unfold totals. rewrite !sum_counts_snoc. simpl.
        by rewrite !Z.add_0_r.
      - right. split; [|done]. intros (? & ? & [= <-] & ? & _). congruence. }
  destruct (DeletionInProgress (sts_meta ss)) eqn:Ed.
  { injection H as <-. split; [done|]. left. split; [|done]. exists n, ss. by auto. }
  destruct (NewStatefulSetReporter _ _) as [sr| |] eqn:Er; simpl in H; try done.
  destruct (UpdatedPods sr) as [upd| |]; simpl in H; try done.
  injection H as <-. unfold shard_found. case_decide as Hr.
  - simpl. split; [by apply totals_snoc|]. left. split; [|done]. exists n, ss. eauto 8.
  - split; [case_decide; simpl; by apply totals_snoc|]. right. split.
    + intros (? & ? & [= <-] & Es' & [Hd|(sr' & Er' & Hr')]);
        rewrite Es in Es'; injection Es' as <-; [congruence|].
      rewrite Er in Er'. injection Er' as <-. done.
    + by case_decide.
Qed.

Lemma process_shards_spec p key shards : ∀ st st',
  process_shards SsetInfs_Get listPods p key (default 1%Z (p_Replicas p)) shards st = Ok st' →
  totals (counts st) (shardStatuses st) →
  (availableStatus st = ConditionTrue ↔ availableReason st = "") →
  totals (counts st') (shardStatuses st') ∧
  (availableStatus st' = ConditionTrue ↔ availableReason st' = "") ∧
  (availableStatus st' = ConditionTrue ↔
     availableStatus st = ConditionTrue ∧ Forall (shard_available p key) shards).
Proof.
  induction shards as [|shard rest IH]; intros st st' H Ht Hr; simpl in H.
  { injection H as <-. rewrite Forall_nil. naive_solver. }
  destruct (process_shard _ _ _ _ _ _ _) as [st1| |] eqn:E; simpl in H; try done.
  destruct (process_shard_spec _ _ _ _ _ E Ht) as [Ht1 Hs].
  destruct (IH st1 st' H Ht1) as (Ht' & Hr' & Ha').
  { destruct Hs as [(_ & -> & -> & _)|(_ & ? & ?)]; [done|]. by split. }
  split; [done|]. split; [done|]. rewrite Ha', Forall_cons.
  destruct Hs as [(Hs & -> & _)|(Hs & Hne & _)]; [naive_solver|].
  split; [by intros [? _]|]. by intros (_ & ? & _).
Qed.

(** C33: Whenever the status of a Prometheus object is computed, its totals are the sums of the
    per-shard counters (at 32 bits) and the Available condition is True, with an empty reason,
    exactly when every shard's statefulset exists and has the wanted number of ready pods or is
    being deleted. The last case is not in the description of the condition, by which True means
    that all pods are running and ready. *)
Theorem Process_available Error now now' rt (p : PrometheusInterface) (key : string)
    (st : PrometheusStatus)
    (H : Process SsetInfs_Get listPods Error now now' rt p key = Ok st) :
  totals (ps_counts st) (ps_ShardStatuses st) ∧
  ∃ c, FindStatusCondition (ps_Conditions st) Available = Some c ∧
    (c_Status c = ConditionTrue ↔ c_Reason c = "") ∧
    (c_Status c = ConditionTrue ↔ Forall (shard_available p key) (shard_indices p)).
Proof.
  unfold Process in H.
  destruct (process_shards _ _ _ _ _ _ _) as [s| |] eqn:E; simpl in H; try done.
  injection H as <-. simpl.
  destruct (process_shards_spec _ _ _ _ _ E) as (Ht & Hr & Ha); [done|done|].
  split; [done|]. eexists. split; [done|]. simpl. split; [done|]. rewrite Ha. naive_solver.
Qed.

Lemma KeyToStatefulSetKey_ok p key shard :
  contains_char "/" key = true → ∃ n, KeyToStatefulSetKey p key shard = Ok n.
Proof.
  intros (ns & name & ps & E)%Split_sep. unfold KeyToStatefulSetKey. rewrite E. by eexists.
Qed.
Lemma process_shards_total p key shards st :
  contains_char "/" key = true →
  (∀ n, match SsetInfs_Get n with
        | Ok ss => is_ok (listPods ss) = true | Err e => IsNotFound e = true | Panic _ => False
        end) →
  ∃ st', process_shards SsetInfs_Get listPods p key (default 1%Z (p_Replicas p)) shards st = Ok st'.
Proof.
  intros Hkey Hget. revert st. induction shards as [|shard shards IH]; intros st; simpl; [by eexists|].
  unfold process_shard. destruct (KeyToStatefulSetKey_ok p key shard Hkey) as [n ->]. simpl.
  specialize (Hget n). destruct (SsetInfs_Get n) as [ss|e|]; [|rewrite Hget; apply IH|done].
  destruct (DeletionInProgress (sts_meta ss)); [apply IH|].
  unfold NewStatefulSetReporter. destruct (listPods ss) as [pods| |]; [|done..]. simpl.
  unfold UpdatedPods. simpl. apply IH.
Qed.

(** For a key that has a namespace and a name, the status is computed whenever the informer
    either has the statefulset of a shard, and its pods can be listed, or reports that it is not
    there; the conditions are then exactly Available and Reconciled. *)
Theorem Process_succeeds Error now now' rt (p : PrometheusInterface) (key : string)
    (Hkey : contains_char "/" key = true)
    (Hget : ∀ n, match SsetInfs_Get n with
                 | Ok ss => is_ok (listPods ss) = true
                 | Err e => IsNotFound e = true
                 | Panic _ => False
                 end) :
  ∃ st, Process SsetInfs_Get listPods Error now now' rt p key = Ok st ∧
    c_Type <$> ps_Conditions st = [Available; Reconciled].
Proof.
  unfold Process.
  destruct (process_shards_total p key (shard_indices p) process_start Hkey Hget) as [st' ->].
  simpl. eexists. split; [done|]. simpl. unfold GetCondition. by case_match.
Qed.

(** The conditions computed for a Prometheus object always carry the current time as their
    transition time, whatever conditions the object had before. *)
Theorem Process_forgets_transitions Error now rt (p : PrometheusInterface) (key : string)
    (st : PrometheusStatus)
    (H : Process SsetInfs_Get listPods Error now now rt p key = Ok st) :
  Forall (fun c => c_LastTransitionTime c = now) (ps_Conditions st).
Proof.
  unfold Process in H.
  destruct (process_shards _ _ _ _ _ _ _) as [s| |]; simpl in H; try done.
  injection H as <-. simpl. repeat constructor. unfold GetCondition. by case_match.
Qed.
End Process_spec.

(** A two-shard object: no pod of the first shard is ready and one of the two pods of the second. *)
Module TwoShards.
Definition named_meta (n : string) : ObjectMeta := SetName n zero_meta.
Definition prom : PrometheusInterface :=
  {| p_kind := Prometheus; p_meta := named_meta "k8s"; p_Paused := false;
     p_Replicas := Some 2%Z; p_Shards := Some 2%Z |}.
Definition pod (n owner : string) (ready : bool) : Pod :=
  {| pod_meta := SetOwnerReferences [{| or_APIVersion := "apps/v1"; or_Kind := "StatefulSet";
       or_Name := owner; or_UID := ""; or_Controller := None; or_BlockOwnerDeletion := None |}]
       (named_meta n);
     pod_Phase := PodRunning;
     pod_Conditions := [{| pc_Type := PodReady; pc_Status := if ready then PodTrue else PodFalse;
                           pc_Message := if ready then "" else "containers not ready" |}] |}.
Definition informer (k : string) : res StatefulSet :=
  if decide (k = "default/prometheus-k8s")
  then Ok {| sts_meta := named_meta "prometheus-k8s"; sts_UpdateRevision := "" |}
  else if decide (k = "default/prometheus-k8s-shard-1")
  then Ok {| sts_meta := named_meta "prometheus-k8s-shard-1"; sts_UpdateRevision := "" |}
  else Err (StatusError NotFound k).
(** All pods match the selectors; they are told apart by their owner. *)
Definition pods (_ : StatefulSet) : res (list Pod) :=
  Ok [pod "a" "prometheus-k8s" false; pod "b" "prometheus-k8s" false;
      pod "c" "prometheus-k8s-shard-1" true; pod "d" "prometheus-k8s-shard-1" false].
Definition status : res PrometheusStatus :=
  Process informer pods (fun _ => "") 7 7 tracker_new prom "default/k8s".
End TwoShards.

Lemma Process_available_witness :
  ∃ st, TwoShards.status = Ok st ∧ Replicas (ps_counts st) = 4%Z ∧
    ¬ Forall (shard_available TwoShards.informer TwoShards.pods TwoShards.prom "default/k8s")
        (shard_indices TwoShards.prom).
Proof.
  eexists. split; [vm_compute; reflexivity|]. split; [reflexivity|].
  destruct (Process_available TwoShards.informer TwoShards.pods (fun _ => "") 7 7 tracker_new
    TwoShards.prom "default/k8s" _ eq_refl) as (_ & c & Hc & _ & Ha).
  vm_compute in Hc. injection Hc as <-. intros H%Ha. discriminate H.
Defined.

Lemma Process_forgets_transitions_witness :
  ∃ st, TwoShards.status = Ok st ∧ Forall (fun c => c_LastTransitionTime c = 7%Z) (ps_Conditions st).
Proof.
  eexists. split; [vm_compute; reflexivity|].
  exact (Process_forgets_transitions TwoShards.informer TwoShards.pods (fun _ => "") 7
    tracker_new TwoShards.prom "default/k8s" _ eq_refl).
Defined.

Lemma Process_succeeds_witness :
  ∃ st, TwoShards.status = Ok st ∧ c_Type <$> ps_Conditions st = [Available; Reconciled].
Proof.
  apply (Process_succeeds TwoShards.informer TwoShards.pods); [reflexivity|].
  intros n. unfold TwoShards.informer. repeat case_decide; reflexivity.
Defined.

(** A shard without a single ready pod is reported as Degraded, not False, when a later shard
    has some ready pods: the status of an earlier shard does not survive. *)
Lemma Process_hides_down_shard :
  ∃ st c, TwoShards.status = Ok st ∧
    FindStatusCondition (ps_Conditions st) Available = Some c ∧
    c_Status c = ConditionDegraded ∧ c_Reason c = "SomePodsNotReady" ∧
    ps_ShardStatuses st !! 0 =
      Some {| ss_ShardID := "0"; ss_counts :=
        {| Replicas := 2; UpdatedReplicas := 2; AvailableReplicas := 0; UnavailableReplicas := 2 |} |}.
Proof. eexists _, _. vm_compute. by repeat split. Qed.
