(* ===== verification/Accessor.v ===== *)
(** * Objects handed out by informers

    pkg/operator/accessor.go and pkg/operator/image.go. An event handler
    receives an [interface{}]: an API object, client-go's tombstone for an object whose deletion
    was missed, or anything else. *)

From S2P Require Import Prelude GoStrings Meta.

Inductive event_object :=
  | Object (m : ObjectMeta)
  | DeletedFinalStateUnknown (key : string) (obj : event_object)
  | NotAnObject.

(** [cache.DeletionHandlingMetaNamespaceKeyFunc] of client-go: a tombstone carries its key, an
    object's key is made of its namespace and name. *)
Class KeyFunc := {
  DeletionHandlingMetaNamespaceKeyFunc : event_object → res string;
  KeyFunc_object m :
    DeletionHandlingMetaNamespaceKeyFunc (Object m) =
      Ok (if bool_decide (om_Namespace m = "") then om_Name m
          else om_Namespace m +:+ "/" +:+ om_Name m);
  KeyFunc_tombstone k o :
    DeletionHandlingMetaNamespaceKeyFunc (DeletedFinalStateUnknown k o) = Ok k;
}.
#[global] Program Instance key_func : KeyFunc := {|
  DeletionHandlingMetaNamespaceKeyFunc o :=
    match o with
    | Object m => Ok (if bool_decide (om_Namespace m = "") then om_Name m
                      else om_Namespace m +:+ "/" +:+ om_Name m)
    | DeletedFinalStateUnknown k _ => Ok k
    | NotAnObject => Err (Errorf "object has no meta: %v" [])
    end |}.
Solve All Obligations with done.

(** [None] when the second result is [false]. *)
Definition MetaNamespaceKey `{KeyFunc} (o : event_object) : option string :=
  match DeletionHandlingMetaNamespaceKeyFunc o with Ok k => Some k | _ => None end.

(** [meta.Accessor] gives the metadata of an API object, and fails on a second tombstone. *)
Definition ObjectMetadata (o : event_object) : option ObjectMeta :=
  let o := match o with DeletedFinalStateUnknown _ o' => o' | _ => o end in
  match o with Object m => Some m | _ => None end.

Definition StringValOrDefault (val defaultVal : string) : string :=
  if blank val then defaultVal else val.

(** ** Image names *)

(** github.com/distribution/reference: parsed image references. *)
Class ImageRefs := {
  Named : Type;
  ParseNormalizedNamed : string → res Named;
  is_Tagged : Named → bool;
  is_Digested : Named → bool;
  WithTag : Named → string → res Named;
  Named_String : Named → string;
}.
(** References told apart by their punctuation. *)
#[global] Instance image_refs : ImageRefs := {|
  Named := string; ParseNormalizedNamed s := if blank s then Err (Errorf "invalid reference format" []) else Ok s;
  is_Tagged := contains_char ":"; is_Digested := contains_char "@"; WithTag n t := Ok (n +:+ ":" +:+ t); Named_String n := n |}.
Section image.
Context `{ImageRefs}.
Definition BuildImagePath (specImage baseImage version tag sha : string) : res string :=
  if negb (blank specImage) then Ok specImage
  else
    named ← wrap "couldn't parse image reference %q: %v" [baseImage] (ParseNormalizedNamed baseImage);
    if is_Tagged named || is_Digested named then Ok baseImage
    else if bool_decide (sha ≠ "") then Ok (baseImage +:+ "@sha256:" +:+ sha)
    else if bool_decide (tag ≠ "") then imageTag ← WithTag named tag; Ok (Named_String imageTag)
    else if bool_decide (version = "") then Err (Errorf "couldn't generate an image reference since version is empty" [])
    else Ok (baseImage +:+ ":" +:+ version).
Definition BuildImagePathForAgent (specImage baseImage version : string) : res string := BuildImagePath specImage baseImage version "" "".
(** Which settings give no image. *)
Lemma BuildImagePath_fails specImage baseImage version tag sha :
  is_ok (BuildImagePath specImage baseImage version tag sha) = false ↔
  blank specImage = true ∧ (is_ok (ParseNormalizedNamed baseImage) = false ∨
    ∃ named, ParseNormalizedNamed baseImage = Ok named ∧ is_Tagged named = false ∧ is_Digested named = false ∧ sha = "" ∧
      (tag ≠ "" ∧ is_ok (WithTag named tag) = false ∨ tag = "" ∧ version = "")).
Proof.
  unfold BuildImagePath. destruct (blank specImage); simpl; [|naive_solver].
  destruct (ParseNormalizedNamed baseImage) as [named|e|m]; simpl; [|naive_solver..].
  assert (∀ (P : Prop) (Q : Named → Prop), (P ↔ Q named) → P ↔ true = true ∧ (true = false ∨ ∃ n, Ok named = Ok n ∧ Q n)) as Hn by naive_solver.
  apply Hn. destruct (is_Tagged named), (is_Digested named); simpl; [naive_solver..|].
  repeat case_bool_decide; simpl; destruct (WithTag named tag); simpl; naive_solver.
Qed.
End image.
Example image_example : BuildImagePath "" "quay.io/prometheus/prometheus" "v3.5.0" "" "" = Ok "quay.io/prometheus/prometheus:v3.5.0".
Proof. reflexivity. Qed.
