(* ===== verification/RuleConfigMaps.v ===== *)
(** * Rule files in ConfigMaps

    pkg/prometheus/server/rules.go and pkg/thanos/rules.go: the rule files selected for a
    Prometheus or ThanosRuler object are packed into ConfigMaps, which are written when the
    stored ones do not hold the same files. The two files have the same code but for the names,
    the labels, the order of the object options and the rule format: [RuleOperator] is what
    differs, [PrometheusRules] and [ThanosRules] are its two values. *)

From S2P Require Import Prelude GoStrings SortUtil NextFit Meta ApiClient NamespaceLabeler.
From S2P Require Import Semver Rules Status Accessor.

(** ** Packing *)

Definition bucketSize (bucket : gmap string string) : Z :=
  map_fold (fun _ v totalSize => totalSize + len v)%Z 0%Z bucket.

Definition index_panic {A} : res A := Panic "index out of range".

(** The loop of [makeRulesConfigMaps]: [buckets[currBucketIndex]] is read and then assigned. *)
Fixpoint pack (ruleFiles : gmap string string) (filenames : list string)
    (buckets : list (gmap string string)) (currBucketIndex : nat) : res (list (gmap string string)) :=
  match filenames with
  | [] => Ok buckets
  | filename :: rest =>
      let file := default "" (ruleFiles !! filename) in
      match buckets !! currBucketIndex with
      | None => index_panic
      | Some current =>
          let '(buckets, currBucketIndex) :=
            if decide (MaxConfigMapDataSize < bucketSize current + len file)%Z
            then (buckets ++ [∅], S currBucketIndex) else (buckets, currBucketIndex) in
          match buckets !! currBucketIndex with
          | None => index_panic
          | Some current =>
              pack ruleFiles rest (<[currBucketIndex := <[filename := file]> current]> buckets)
                currBucketIndex
          end
      end
  end.

(** ** The two operators *)

(** A Prometheus or ThanosRuler object, as far as rules are concerned. A label selector is known
    by what [metav1.LabelSelectorAsSelector] makes of it. *)
Record RuleObject := {
  ro_meta : ObjectMeta;
  ro_owner : Owner;
  ro_RuleNamespaceSelector : option (res (ObjectMeta → bool));
  ro_RuleSelector : res ();
  ro_ExcludedFromEnforcement : list ObjectReference;
  (** the deprecated list of rule namespaces and names *)
  ro_PrometheusRulesExcludedFromEnforce : list (string * string);
  ro_EnforcedNamespaceLabel : string;
  ro_Version : string;
}.

Record RuleOperator := {
  op_label : string;
  op_format : RuleConfigurationFormat;
  op_defaultVersion : string;
  op_prometheusRuleLabeler : bool;
  (** the options of the second [UpdateObject]; the two numbers are the addresses of the
      pointers [WithManagingOwner] allocates *)
  op_opts : RuleObject → nat → nat * nat → list ObjectOption;
}.

Definition LabelPrometheusName := "prometheus-name".
Definition labelThanosRulerName := "thanos-ruler-name".

Definition PrometheusRules (defaultVersion : string) : RuleOperator := {|
  op_label := LabelPrometheusName;
  op_format := PrometheusFormat;
  op_defaultVersion := defaultVersion;
  op_prometheusRuleLabeler := true;
  op_opts p i a :=
    [WithLabels (Some {[LabelPrometheusName := om_Name (ro_meta p)]});
     WithName ("prometheus-" +:+ om_Name (ro_meta p) +:+ "-rulefiles-" +:+ Itoa (Z.of_nat i));
     WithManagingOwner a.1 a.2 (ro_owner p)] |}.
Definition ThanosRules (defaultVersion : string) : RuleOperator := {|
  op_label := labelThanosRulerName;
  op_format := ThanosFormat;
  op_defaultVersion := defaultVersion;
  op_prometheusRuleLabeler := false;
  op_opts t i a :=
    [WithName ("thanos-ruler-" +:+ om_Name (ro_meta t) +:+ "-rulefiles-" +:+ Itoa (Z.of_nat i));
     WithManagingOwner a.1 a.2 (ro_owner t);
     WithLabels (Some {[labelThanosRulerName := om_Name (ro_meta t)]})] |}.

Section make.
(** Where the [i]-th ConfigMap's pointers are allocated. *)
Context (op : RuleOperator) (alloc : nat → nat * nat).

Definition make_cm (p : RuleObject) (opts : list ObjectOption) (i : nat)
    (bucket : gmap string string) : ConfigMap :=
  let m := UpdateObject zero_meta opts in
  let m := UpdateObject m (op_opts op p i (alloc i)) in
  {| cm_meta := m; cm_Data := bucket |}.
Definition makeRulesConfigMaps (p : RuleObject) (ruleFiles : gmap string string)
    (opts : list ObjectOption) : res (list ConfigMap) :=
  buckets ← pack ruleFiles (SortedKeys ruleFiles) [∅] 0;
  Ok (imap (make_cm p opts) buckets).

(** The selector [label=name] of [prometheusRulesConfigMapSelector]. *)
Definition prometheusRulesConfigMapSelector (n : string) (cm : ConfigMap) : bool :=
  bool_decide (entries (om_Labels (cm_meta cm)) !! op_label op = Some n).
End make.

(** [ListMatchingNamespaces] over the namespaces in the informer's store ([cache.ListAll]). *)
Definition ListMatchingNamespaces (selector : ObjectMeta → bool) (known : res (list ObjectMeta))
    : res (list string) :=
  nss ← wrap "failed to list namespaces: %w" [] known;
  Ok (map om_Name (filter (fun ns => selector ns = true) (nss : list ObjectMeta))).

Definition selectRuleNamespaces (p : RuleObject) (known : res (list ObjectMeta)) : res (list string) :=
  match ro_RuleNamespaceSelector p with
  | None => Ok [om_Namespace (ro_meta p)]
  | Some sel =>
      ruleNamespaceSelector ← wrap "convert rule namespace label selector to selector: %w" [] sel;
      ListMatchingNamespaces ruleNamespaceSelector known
  end.

(** The exclusion list with the deprecated entries appended. *)
Definition excluded_refs (p : RuleObject) : list ObjectReference :=
  ro_ExcludedFromEnforcement p ++
  ((fun '(ns, n) => {| ref_Group := GroupName; ref_Resource := "prometheusrules";
                       ref_Namespace := ns; ref_Name := n |}) <$>
     ro_PrometheusRulesExcludedFromEnforce p).

Definition PrometheusRuleKind := "PrometheusRule".

(** ** Writing the ConfigMaps *)

Section write.
Context {St : Type} `{ApiClient ConfigMap St}.
Context (op : RuleOperator) (alloc : nat → nat * nat).

Definition current_rules (cms : list ConfigMap) : gmap string string :=
  foldl (fun acc cm => cm_Data cm ∪ acc) ∅ cms.

Definition create_all (fmt : string) (cms : list ConfigMap) : M St () :=
  mfor_each (fun cm => mwrap fmt [name cm] (Create cm ≫= fun _ => mret ())) cms.
Definition delete_all (cms : list ConfigMap) : M St () :=
  mfor_each (fun cm =>
    mwrap "failed to delete current ConfigMap '%v': %w" [name cm] (Delete (name cm))) cms.

Definition lift {A} (r : res A) : M St A := fun s => (s, r).

(** The second half of [createOrUpdateRuleConfigMaps], once the rules are selected. *)
Definition write_rules (p : RuleObject) (config_annotations config_labels : gomap)
    (newRules : gmap string string) : M St (list string) :=
  currentConfigMaps ← List (prometheusRulesConfigMapSelector op (om_Name (ro_meta p)));
  if bool_decide (newRules = current_rules currentConfigMaps)
     && bool_decide (currentConfigMaps ≠ [])
  then mret (name <$> currentConfigMaps)
  else
    newConfigMaps ← lift (wrap "failed to make rules ConfigMaps: %w" []
      (makeRulesConfigMaps op alloc p newRules
         [WithAnnotations config_annotations; WithLabels config_labels]));
    let newConfigMapNames := name <$> newConfigMaps in
    if bool_decide (currentConfigMaps = []) then
      create_all "failed to create ConfigMap '%v': %w" newConfigMaps ≫= fun _ =>
      mret newConfigMapNames
    else
      delete_all currentConfigMaps ≫= fun _ =>
      create_all "failed to create new ConfigMap '%v': %w" newConfigMaps ≫= fun _ =>
      mret newConfigMapNames.
End write.

Section operator.
Context `{Semver, RuleLibs, PromQL, KeyFunc} {St : Type} `{ApiClient ConfigMap St}.
Context (op : RuleOperator) (alloc : nat → nat * nat).
(** The informers: the rule objects of a namespace and the known namespaces. *)
Context (ListAllByNamespace : string → res (list PrometheusRule)).
Context (AddTypeInformationToObject : PrometheusRule → option PrometheusRule).
Context (known : res (list ObjectMeta)).

(** The rules of the object: the files and the number of rejected rule objects. *)
Definition select_rules (p : RuleObject) : res (gmap string string * Z) :=
  namespaces ← selectRuleNamespaces p known;
  nsLabeler ← New (ro_EnforcedNamespaceLabel p) (excluded_refs p) (op_prometheusRuleLabeler op);
  selector ← wrap "initializing PrometheusRules failed: %w" []
    (NewPrometheusRuleSelector (op_format op)
       (StringValOrDefault (ro_Version p) (op_defaultVersion op)) (ro_RuleSelector p) nsLabeler);
  wrap "selecting PrometheusRules failed: %w" []
    (Select ListAllByNamespace AddTypeInformationToObject selector namespaces).

Definition set_metrics (p : RuleObject) (n nrejected : Z) (m : Metrics) : Metrics :=
  match MetaNamespaceKey (Object (ro_meta p)) with
  | Some pKey =>
      SetRejectedResources (SetSelectedResources m pKey PrometheusRuleKind n)
        pKey PrometheusRuleKind nrejected
  | None => m
  end.

Definition createOrUpdateRuleConfigMaps (p : RuleObject)
    (config_annotations config_labels : gomap) : M (St * Metrics) (list string) := fun st =>
  match select_rules p with
  | Err e => (st, Err e)
  | Panic m => (st, Panic m)
  | Ok (newRules, nrejected) =>
      let metrics := set_metrics p (Z.of_nat (size newRules)) nrejected st.2 in
      let '(s', r) := write_rules op alloc p config_annotations config_labels newRules st.1 in
      ((s', metrics), r)
  end.
End operator.

(** ** Packing is next-fit *)

Definition file_size (m : gmap string string) (k : string) : Z := len (default "" (m !! k)).
Definition rule_buckets (m : gmap string string) : list (list string) :=
  nextfit (file_size m) MaxConfigMapDataSize [] (SortedKeys m).

Lemma file_size_nonneg m k : (0 ≤ file_size m k)%Z.
Proof. apply len_nonneg. Qed.
Lemma rule_buckets_concat m : concat (rule_buckets m) = SortedKeys m.
Proof. apply nextfit_concat. Qed.

Lemma bucketSize_restrict m ks :
  NoDup ks → Forall (fun k => is_Some (m !! k)) ks →
  bucketSize (restrict m ks) = weight (file_size m) ks.
Proof.
  apply (map_weight_restrict (fun _ v => len v)). intros k v Hv. unfold file_size. by rewrite Hv.
Qed.

(** The loop with the buckets [shut] closed and the files [cur] in the open one. *)
Lemma pack_loop m ks : ∀ shut cur,
  NoDup (cur ++ ks) → Forall (fun k => is_Some (m !! k)) (cur ++ ks) →
  pack m ks (shut ++ [restrict m cur]) (length shut) =
    Ok (shut ++ (restrict m <$> nextfit (file_size m) MaxConfigMapDataSize cur ks)).
Proof.
  induction ks as [|k ks IH]; intros shut cur Hnd Hks; simpl; [done|].
  pose proof Hnd as (Hc & Hk & Hnd')%NoDup_app. apply Forall_app in Hks as [HFc HFk].
  pose proof HFk as [[v Hv] HFk']%Forall_cons.
  rewrite list_lookup_middle by done. rewrite bucketSize_restrict by done.
  fold (file_size m k). case_decide as Hd.
  - assert (S (length shut) = length (shut ++ [restrict m cur])) as -> by (rewrite length_app; simpl; lia).
    rewrite list_lookup_middle by done. rewrite Hv. simpl.
    rewrite insert_app_r_alt, Nat.sub_diag by done. simpl.
    rewrite <-(restrict_nil m), <-(restrict_snoc m [] k v Hv), app_nil_l.
    rewrite IH; [by rewrite <-app_assoc|done|done].
  - rewrite list_lookup_middle by done. rewrite Hv. simpl.
    rewrite insert_app_r_alt, Nat.sub_diag by done. simpl.
    rewrite <-(restrict_snoc m cur k v Hv).
    apply IH; [by rewrite <-app_assoc|]. rewrite <-app_assoc. by apply Forall_app.
Qed.

Lemma pack_eq m : pack m (SortedKeys m) [∅] 0 = Ok (restrict m <$> rule_buckets m).
Proof.
  rewrite <-(restrict_nil m). apply (pack_loop m _ [] []); [apply NoDup_SortedKeys|].
  apply Forall_forall. intros k. by apply elem_of_SortedKeys.
Qed.

Section make_spec.
Context (op : RuleOperator) (alloc : nat → nat * nat).
Implicit Types (p : RuleObject) (opts : list ObjectOption).

Lemma makeRulesConfigMaps_eq p ruleFiles opts :
  makeRulesConfigMaps op alloc p ruleFiles opts =
    Ok (imap (make_cm op alloc p opts) (restrict ruleFiles <$> rule_buckets ruleFiles)).
Proof. unfold makeRulesConfigMaps. by rewrite pack_eq. Qed.
Lemma made_lookup p ruleFiles opts i cm :
  imap (make_cm op alloc p opts) (restrict ruleFiles <$> rule_buckets ruleFiles) !! i = Some cm ↔
  ∃ ks, rule_buckets ruleFiles !! i = Some ks ∧
    cm = make_cm op alloc p opts i (restrict ruleFiles ks).
Proof.
  rewrite list_lookup_imap, list_lookup_fmap.
  destruct (rule_buckets ruleFiles !! i); simpl; naive_solver.
Qed.

Lemma made_nonempty p ruleFiles opts :
  imap (make_cm op alloc p opts) (restrict ruleFiles <$> rule_buckets ruleFiles) ≠ [].
Proof.
  unfold rule_buckets. destruct (nextfit _ _ _ _) eqn:E; [|done].
  by apply nextfit_nonempty in E.
Qed.
Lemma made_cover p ruleFiles opts f c :
  ruleFiles !! f = Some c ↔ ∃ i cm,
    imap (make_cm op alloc p opts) (restrict ruleFiles <$> rule_buckets ruleFiles) !! i = Some cm ∧
    cm_Data cm !! f = Some c.
Proof.
  rewrite (parts_cover _ _ (rule_buckets_concat ruleFiles)). split.
  - intros (i & ks & Hi & Hf). eexists i, _. rewrite made_lookup. eauto.
  - intros (i & cm & (ks & Hi & ->)%made_lookup & Hf). eauto.
Qed.

(** Making the ConfigMaps never fails. There is at least one; each rule file is in exactly
    one of them, with its content, and they hold no other file. *)
Theorem makeRulesConfigMaps_partition p (ruleFiles : gmap string string) opts :
  ∃ cms, makeRulesConfigMaps op alloc p ruleFiles opts = Ok cms ∧ cms ≠ [] ∧
    (∀ f c, ruleFiles !! f = Some c ↔ ∃ i cm, cms !! i = Some cm ∧ cm_Data cm !! f = Some c) ∧
    (∀ i j cm cm', cms !! i = Some cm → cms !! j = Some cm' → i ≠ j → cm_Data cm ##ₘ cm_Data cm').
Proof.
  rewrite makeRulesConfigMaps_eq. eexists. split; [done|]. split; [|split].
  - apply made_nonempty.
  - apply made_cover.
  - intros i j cm cm' (ks & Hi & ->)%made_lookup (ks' & Hj & ->)%made_lookup.
    by apply (parts_disjoint _ _ (rule_buckets_concat ruleFiles)).
Qed.

(** Every ConfigMap made respects the size limit unless it holds one single file that is
    too large by itself, and their number is at most one more than twice what the total size of
    the files calls for. *)
Theorem makeRulesConfigMaps_sizes p (ruleFiles : gmap string string) opts :
  ∃ cms, makeRulesConfigMaps op alloc p ruleFiles opts = Ok cms ∧
    Forall (fun cm => (bucketSize (cm_Data cm) ≤ MaxConfigMapDataSize)%Z ∨
                      ∃ f c, cm_Data cm = {[f := c]} ∧ (MaxConfigMapDataSize < len c)%Z) cms ∧
    ((Z.of_nat (length cms) - 1) * MaxConfigMapDataSize ≤ 2 * bucketSize ruleFiles)%Z.
Proof.
  rewrite makeRulesConfigMaps_eq. eexists. split; [done|]. split.
  - apply Forall_lookup. intros i cm (ks & Hi & ->)%made_lookup. simpl.
    destruct (part_keys _ _ (rule_buckets_concat ruleFiles) _ _ Hi) as [Hnd Hks].
    rewrite bucketSize_restrict by done.
    assert (Forall (fits (file_size ruleFiles) MaxConfigMapDataSize) (rule_buckets ruleFiles)) as HF.
    { apply nextfit_fits; [done|]. by left. }
    destruct (proj1 (Forall_lookup _ _) HF _ _ Hi) as [Hw|[k ->]]; [by left|].
    apply Forall_singleton in Hks as [v Hv]. simpl. unfold file_size. rewrite Hv. simpl.
    destruct (decide (len v ≤ MaxConfigMapDataSize)%Z); [left; lia|].
    right. exists k, v. split; [|lia].
    rewrite <-(app_nil_l [k]), (restrict_snoc _ [] _ v) by done. by rewrite restrict_nil.
  - rewrite length_imap, length_fmap.
    rewrite <-(restrict_all ruleFiles (SortedKeys ruleFiles)) at 2
      by (intros k; by apply elem_of_SortedKeys).
    rewrite bucketSize_restrict.
    + by apply nextfit_count, file_size_nonneg.
    + apply NoDup_SortedKeys.
    + apply Forall_forall. intros k. by apply elem_of_SortedKeys.
Qed.
End make_spec.

(** ** Writing the ConfigMaps *)

(** What the writing loop needs to know about an operator's options. *)
Class RuleOperatorLaws (op : RuleOperator) := {
  op_labelled p i a m :
    entries (om_Labels (UpdateObject m (op_opts op p i a))) !! op_label op = Some (om_Name (ro_meta p));
  op_name : RuleObject → nat → string;
  op_named p i a m : om_Name (UpdateObject m (op_opts op p i a)) = op_name p i;
  op_name_inj p : Inj (=) (=) (op_name p);
}.
Ltac solve_labelled l :=
  intros; etrans;
    [eapply (lookup_WithLabels (Some {[l := _]}))|simpl; by rewrite lookup_singleton_eq].

#[global] Instance PrometheusRules_laws v : RuleOperatorLaws (PrometheusRules v).
Proof.
  refine {| op_name p i :=
    "prometheus-" +:+ om_Name (ro_meta p) +:+ "-rulefiles-" +:+ Itoa (Z.of_nat i) |}.
  - solve_labelled LabelPrometheusName.
  - done.
Defined.
#[global] Instance ThanosRules_laws v : RuleOperatorLaws (ThanosRules v).
Proof.
  refine {| op_name p i :=
    "thanos-ruler-" +:+ om_Name (ro_meta p) +:+ "-rulefiles-" +:+ Itoa (Z.of_nat i) |}.
  - solve_labelled labelThanosRulerName.
  - done.
Defined.

Section write_spec.
Context {St : Type} `{ApiClient ConfigMap St, !ApiLaws ConfigMap St}.
Context (op : RuleOperator) `{!RuleOperatorLaws op} (alloc : nat → nat * nat).
Implicit Types (s : St) (p : RuleObject) (cm : ConfigMap) (rules : gmap string string).

Abbreviation sel p := (prometheusRulesConfigMapSelector op (om_Name (ro_meta p))).

(** The ConfigMaps of the object in the store. *)
Definition owned p s : list ConfigMap :=
  filter (fun cm => sel p cm = true) ((map_to_list (objs s)).*2).

(** The stored ConfigMaps of the object are those named [names], there is at least one, and their
    files, with their contents, are the rule files. *)
Definition synced p rules (names : list string) s : Prop :=
  names ≡ₚ name <$> owned p s ∧ owned p s ≠ [] ∧
  ∀ f c, rules !! f = Some c ↔ ∃ cm, cm ∈ owned p s ∧ cm_Data cm !! f = Some c.
(** No rule file is in two ConfigMaps. *)
Definition unique_files (cms : list ConfigMap) : Prop :=
  ∀ cm cm' f, cm ∈ cms → cm' ∈ cms →
    is_Some (cm_Data cm !! f) → is_Some (cm_Data cm' !! f) → cm = cm'.

Lemma elem_of_owned p s cm :
  cm ∈ owned p s ↔ objs s !! name cm = Some cm ∧ sel p cm = true.
Proof.
  unfold owned. rewrite list_elem_of_filter, list_elem_of_fmap. split.
  - intros [Hs ([n cm'] & -> & Hin%elem_of_map_to_list)]. simpl in *.
    by rewrite (objs_name _ _ _ Hin).
  - intros [Ho Hs]. split; [done|]. exists (name cm, cm). by rewrite elem_of_map_to_list.
Qed.
Lemma NoDup_names_owned p s : NoDup (name <$> owned p s).
Proof.
  apply NoDup_fmap_2_strong.
  - intros cm cm' [H1 _]%elem_of_owned [H2 _]%elem_of_owned Hn. rewrite Hn in H1. congruence.
  - unfold owned. apply NoDup_filter.
    apply NoDup_fmap_2_strong; [|apply NoDup_map_to_list].
    intros [n cm] [n' cm'] Hin%elem_of_map_to_list Hin'%elem_of_map_to_list. simpl. intros <-.
    f_equal. by rewrite <-(objs_name _ _ _ Hin), <-(objs_name _ _ _ Hin').
Qed.

Lemma lookup_current_rules cms acc f :
  is_Some (foldl (fun acc cm => cm_Data cm ∪ acc) acc cms !! f) ↔
  is_Some (acc !! f) ∨ ∃ cm, cm ∈ cms ∧ is_Some (cm_Data cm !! f).
Proof.
  revert acc. induction cms as [|cm cms IH]; intros acc; simpl; [set_solver|].
  rewrite IH, lookup_union_is_Some. set_solver.
Qed.
Lemma current_rules_in cms acc f c :
  foldl (fun acc cm => cm_Data cm ∪ acc) acc cms !! f = Some c →
  acc !! f = Some c ∨ ∃ cm, cm ∈ cms ∧ cm_Data cm !! f = Some c.
Proof.
  revert acc. induction cms as [|cm cms IH]; intros acc; simpl; [by left|].
  intros [Hu|(cm' & ? & ?)]%IH; [|right; exists cm'; set_solver].
  apply lookup_union_Some_raw in Hu as [Hu|[_ Hu]]; [right; exists cm; set_solver|by left].
Qed.

Lemma create_all_ok fmt cms : ∀ s s',
  create_all fmt cms s = (s', Ok ()) →
  NoDup (name <$> cms) →
  (∀ cm, cm ∈ cms → ∃ cm1, content cm1 = content cm ∧ objs s' !! name cm = Some cm1) ∧
  (∀ n, n ∉ name <$> cms → objs s' !! n = objs s !! n) ∧
  (∀ n, n ∈ name <$> cms → objs s !! n = None).
Proof.
  induction cms as [|cm cms IH]; intros s s'; unfold create_all; simpl.
  { intros [= ->] _. split_and!; set_solver. }
  unfold mbind, M_bind, mwrap, mret, M_ret.
  destruct (Create cm s) as [s1 [o|e|m]] eqn:E; simpl; try done.
  intros E' [Hcm Hnd]%NoDup_cons.
  apply Create_ok in E as [Hfresh (o1 & Ho1 & Hs1)].
  destruct (IH s1 s' E' Hnd) as (H1 & H2 & H3). split_and!.
  - intros cm' [->|Hin]%elem_of_cons; [|by apply H1].
    exists o1. split; [done|]. rewrite H2, Hs1 by done. by rewrite lookup_insert_eq.
  - intros n [? ?]%not_elem_of_cons. by rewrite H2, Hs1, lookup_insert_ne.
  - intros n [->|Hin]%elem_of_cons; [done|]. specialize (H3 n Hin).
    rewrite Hs1, lookup_insert_ne in H3; [done|]. by intros <-.
Qed.
Lemma delete_all_ok cms : ∀ s s',
  delete_all cms s = (s', Ok ()) →
  ∀ n, objs s' !! n = if decide (n ∈ name <$> cms) then None else objs s !! n.
Proof.
  induction cms as [|cm cms IH]; intros s s'; unfold delete_all; simpl.
  { by intros [= ->] n. }
  unfold mbind, M_bind, mwrap.
  destruct (Delete (name cm) s) as [s1 [[]|e|m]] eqn:E; simpl; try done.
  intros E' n. apply Delete_ok in E as [_ Hs1]. rewrite (IH s1 s' E' n), Hs1.
  destruct (decide (n = name cm)) as [->|Hn].
  - rewrite lookup_delete_eq. repeat case_decide; set_solver.
  - rewrite lookup_delete_ne by done. repeat case_decide; set_solver.
Qed.

(** *** The new ConfigMaps *)

Lemma name_make_cm p opts i b : name (make_cm op alloc p opts i b) = op_name p i.
Proof. apply op_named. Qed.
Lemma sel_content p cm cm' : content cm = content cm' → sel p cm = sel p cm'.
Proof.
  intros Hl%content_user_meta%user_meta_labels. unfold prometheusRulesConfigMapSelector.
  unfold meta in Hl. simpl in Hl. by rewrite Hl.
Qed.
Lemma sel_make_cm p opts i b : sel p (make_cm op alloc p opts i b) = true.
Proof. apply bool_decide_eq_true. apply op_labelled. Qed.

(** The ConfigMaps of an object: distinct names, selected by the object's selector. *)
Lemma made_names p opts bs : NoDup (name <$> imap (make_cm op alloc p opts) bs).
Proof.
  rewrite fmap_imap. apply NoDup_alt. intros i j n Hi Hj.
  rewrite list_lookup_imap in Hi, Hj.
  destruct (bs !! i), (bs !! j); simpl in *; try done.
  injection Hi as <-. injection Hj as Hj. rewrite !name_make_cm in Hj.
  symmetry. by apply op_name_inj in Hj.
Qed.
Lemma made_sel p opts bs cm : cm ∈ imap (make_cm op alloc p opts) bs → sel p cm = true.
Proof.
  intros [i Hi]%list_elem_of_lookup. rewrite list_lookup_imap in Hi.
  destruct (bs !! i); simplify_eq/=. apply sel_make_cm.
Qed.

(** Replacing the ConfigMaps of the object by [cms]. *)
Definition replaced p (cms : list ConfigMap) s s' : Prop :=
  (∀ cm, cm ∈ cms → ∃ cm1, content cm1 = content cm ∧ objs s' !! name cm = Some cm1) ∧
  (∀ n, n ∉ name <$> cms →
     objs s' !! n = if decide (n ∈ name <$> owned p s) then None else objs s !! n).

Lemma replaced_owned p cms s s' :
  replaced p cms s s' → (∀ cm, cm ∈ cms → sel p cm = true) →
  (∀ cm1, cm1 ∈ owned p s' → ∃ cm, cm ∈ cms ∧ content cm1 = content cm) ∧
  (∀ cm, cm ∈ cms → ∃ cm1, cm1 ∈ owned p s' ∧ content cm1 = content cm).
Proof.
  intros [Hnew Hold] Hsel. split.
  - intros cm1 [Ho Hs]%elem_of_owned. destruct (decide (name cm1 ∈ name <$> cms)) as [Hin|Hin].
    + apply list_elem_of_fmap in Hin as (cm & Hn & Hcm). exists cm. split; [done|].
      destruct (Hnew cm Hcm) as (cm2 & Hc & Ho2). rewrite <-Hn in Ho2. congruence.
    + rewrite Hold in Ho by done. case_decide as Hd; [done|]. destruct Hd.
      apply list_elem_of_fmap_2, elem_of_owned. done.
  - intros cm Hcm. destruct (Hnew cm Hcm) as (cm1 & Hc & Ho). exists cm1. split; [|done].
    apply elem_of_owned. rewrite (sel_content p _ _ Hc), (content_name _ _ Hc). auto.
Qed.

Lemma replaced_synced p rules opts s s' :
  let cms := imap (make_cm op alloc p opts) (restrict rules <$> rule_buckets rules) in
  replaced p cms s s' → synced p rules (name <$> cms) s'.
Proof.
  intros cms Hr.
  destruct (replaced_owned p cms s s' Hr) as [H1 H2]; [intros cm; apply made_sel|].
  pose proof (made_nonempty op alloc p rules opts) as Hne. fold cms in Hne.
  pose proof (made_cover op alloc p rules opts) as Hp. fold cms in Hp.
  assert (∀ f c, rules !! f = Some c ↔ ∃ cm, cm ∈ cms ∧ cm_Data cm !! f = Some c) as Hp'.
  { intros f c. rewrite Hp. setoid_rewrite list_elem_of_lookup. naive_solver. }
  unfold synced. split_and!.
  - apply NoDup_Permutation; [apply made_names|apply NoDup_names_owned|].
    intros n. rewrite !list_elem_of_fmap. split.
    + intros (cm & -> & (cm1 & ? & Hc)%H2). exists cm1. by rewrite (content_name _ _ Hc).
    + intros (cm1 & -> & (cm & ? & Hc)%H1). exists cm. by rewrite (content_name _ _ Hc).
  - destruct cms as [|cm cms']; [done|]. destruct (H2 cm) as (cm1 & Hcm1 & _); [set_solver|].
    by destruct (owned p s'); [apply not_elem_of_nil in Hcm1|].
  - intros f c. rewrite Hp'. split.
    + intros (cm & (cm1 & Hcm1 & Hc)%H2 & Hf). exists cm1. by rewrite (content_cm_Data _ _ Hc).
    + intros (cm1 & (cm & Hcm & Hc)%H1 & Hf). exists cm. by rewrite <-(content_cm_Data _ _ Hc).
Qed.

Lemma owned_objs p s s' : objs s' = objs s → owned p s' = owned p s.
Proof. unfold owned. by intros ->. Qed.

Lemma current_rules_unique cms f c :
  unique_files cms →
  current_rules cms !! f = Some c ↔ ∃ cm, cm ∈ cms ∧ cm_Data cm !! f = Some c.
Proof.
  intros Hu. split.
  - intros [?|?]%current_rules_in; [done|]. done.
  - intros (cm & Hcm & Hf). assert (is_Some (current_rules cms !! f)) as [c' Hc'].
    { apply lookup_current_rules. right. by exists cm. }
    rewrite Hc'. apply current_rules_in in Hc' as [?|(cm' & Hcm' & Hf')]; [done|].
    assert (cm = cm') as <- by (eapply Hu; eauto). congruence.
Qed.
(** The branch in which nothing has to be written. *)
Lemma unchanged_synced p cur s :
  unique_files (owned p s) → cur ≡ₚ owned p s → cur ≠ [] → synced p (current_rules cur) (name <$> cur) s.
Proof.
  intros Hu E Hne. unfold synced. split_and!; [by rewrite E| |].
  - intros Hn. rewrite Hn in E. by apply Permutation_nil_r in E.
  - intros f c. rewrite current_rules_unique by (intros cm cm' f'; rewrite E; apply Hu). by setoid_rewrite E.
Qed.
(** Both writing branches: delete the listed ConfigMaps, if any, and create the new ones. *)
Lemma replace_ok p cur cms s s1 s2 s' fmt :
  objs s1 = objs s → cur ≡ₚ owned p s → NoDup (name <$> cms) →
  delete_all cur s1 = (s2, Ok ()) → create_all fmt cms s2 = (s', Ok ()) →
  replaced p cms s s' ∧
  ∀ n, n ∈ name <$> cms → n ∈ name <$> owned p s ∨ objs s !! n = None.
Proof.
  intros Hs1 E Hnd ED EC.
  destruct (create_all_ok _ _ _ _ EC Hnd) as (H1 & H2 & H3).
  assert (∀ n, objs s2 !! n = if decide (n ∈ name <$> owned p s) then None else objs s !! n) as HD.
  { intros n. rewrite (delete_all_ok _ _ _ ED), Hs1.
    apply decide_ext. by rewrite E. }
  split; [split; [done|]|].
  - intros n Hn. by rewrite H2, HD.
  - intros n Hn. specialize (H3 n Hn). rewrite HD in H3. case_decide; auto.
Qed.
Lemma replaced_frame p cms s s' n cm :
  replaced p cms s s' →
  (∀ n, n ∈ name <$> cms → n ∈ name <$> owned p s ∨ objs s !! n = None) →
  objs s !! n = Some cm → sel p cm = false → objs s' !! n = Some cm.
Proof.
  intros [_ Hr] Hfresh Hcm Hs. assert (n ∉ name <$> owned p s) as Hno.
  { intros (cm' & Hn & Hin)%list_elem_of_fmap. apply elem_of_owned in Hin as [Ho Hs'].
    rewrite <-Hn, Hcm in Ho. congruence. }
  rewrite Hr; [by rewrite decide_False|]. intros [?|?]%Hfresh; [done|congruence].
Qed.

(** The two ways in which a run succeeds. *)
Lemma write_rules_inv p anns labels rules s s' names :
  write_rules op alloc p anns labels rules s = (s', Ok names) →
  ∃ s1 cur, List (sel p) s = (s1, Ok cur) ∧
    ((rules = current_rules cur ∧ cur ≠ [] ∧ s' = s1 ∧ names = name <$> cur) ∨
     ∃ fmt s2, let cms := imap (make_cm op alloc p [WithAnnotations anns; WithLabels labels])
                    (restrict rules <$> rule_buckets rules) in
       delete_all cur s1 = (s2, Ok ()) ∧ create_all fmt cms s2 = (s', Ok ()) ∧
       names = name <$> cms).
Proof.
  unfold write_rules. unfold mbind at 1, M_bind at 1.
  destruct (List (sel p) s) as [s1 [cur|e|m]]; try done. intros Hw. exists s1, cur.
  split; [done|]. destruct (bool_decide _ && bool_decide _) eqn:Eq.
  { apply andb_prop in Eq as [?%bool_decide_eq_true ?%bool_decide_eq_true].
    left. by injection Hw as <- <-. }
  right. clear Eq. unfold lift in Hw. rewrite makeRulesConfigMaps_eq in Hw.
  unfold mbind, M_bind, mret, M_ret in Hw. simpl in Hw. case_bool_decide as Hcur.
  - subst cur. destruct (create_all _ _ s1) as [s2 [[]|e|m]] eqn:EC; try done.
    injection Hw as <- <-. eauto.
  - destruct (delete_all cur s1) as [s2 [[]|e|m]] eqn:ED; try done.
    destruct (create_all _ _ s2) as [s3 [[]|e|m]] eqn:EC; try done.
    injection Hw as <- <-. eauto.
Qed.

(** A successful run leaves the store in sync and other ConfigMaps alone. *)
Lemma write_rules_ok p anns labels rules s s' names :
  unique_files (owned p s) →
  write_rules op alloc p anns labels rules s = (s', Ok names) →
  synced p rules names s' ∧
  (∀ n cm, objs s !! n = Some cm → sel p cm = false → objs s' !! n = Some cm).
Proof.
  intros Hu (s1 & cur & E & Hw)%write_rules_inv.
  pose proof (List_objs _ _ _ _ E) as Hs1. apply List_ok in E. change (cur ≡ₚ owned p s) in E.
  destruct Hw as [(-> & Hne & -> & ->)|(fmt & s2 & ED & EC & ->)].
  - split; [|by rewrite Hs1]. apply unchanged_synced; [by rewrite (owned_objs _ _ _ Hs1)| |done]. by rewrite (owned_objs _ _ _ Hs1).
  - destruct (replace_ok _ _ _ _ _ _ _ _ Hs1 E (made_names _ _ _) ED EC) as [Hr Hf].
    split; [by eapply replaced_synced|]. intros n cm. by apply (replaced_frame p _ s s' n cm Hr).
Qed.

(** *** A second run *)

Lemma replaced_unique p rules opts s s' :
  replaced p (imap (make_cm op alloc p opts) (restrict rules <$> rule_buckets rules)) s s' →
  unique_files (owned p s').
Proof.
  intros Hr. destruct (replaced_owned _ _ _ _ Hr) as [H1 _]; [intros cm; apply made_sel|].
  intros cm1 cm2 f Hin1 Hin2 [c1 Hf1] [c2 Hf2].
  destruct (H1 _ Hin1) as (cm & Hcm & Hc), (H1 _ Hin2) as (cm' & Hcm' & Hc').
  rewrite (content_cm_Data _ _ Hc) in Hf1. rewrite (content_cm_Data _ _ Hc') in Hf2.
  apply elem_of_owned in Hin1 as [Ho1 _], Hin2 as [Ho2 _].
  rewrite (content_name _ _ Hc) in Ho1. rewrite (content_name _ _ Hc') in Ho2.
  apply list_elem_of_lookup in Hcm as [i (ks & Hi & ->)%made_lookup].
  apply list_elem_of_lookup in Hcm' as [j (ks' & Hj & ->)%made_lookup].
  destruct (decide (i = j)) as [->|Hne]; [congruence|]. exfalso.
  pose proof (parts_disjoint _ _ (rule_buckets_concat rules) _ _ _ _ Hi Hj Hne) as Hd.
  rewrite map_disjoint_spec in Hd. by eapply Hd.
Qed.
Lemma write_rules_unique p anns labels rules s s' names :
  unique_files (owned p s) → write_rules op alloc p anns labels rules s = (s', Ok names) →
  unique_files (owned p s').
Proof.
  intros Hu (s1 & cur & E & Hw)%write_rules_inv.
  pose proof (List_objs _ _ _ _ E) as Hs1. apply List_ok in E. change (cur ≡ₚ owned p s) in E.
  destruct Hw as [(_ & _ & -> & _)|(fmt & s2 & ED & EC & _)].
  - by rewrite (owned_objs _ _ _ Hs1).
  - eapply replaced_unique, replace_ok; eauto using made_names.
Qed.

(** Once in sync, a run only reads. *)
Lemma write_rules_synced p anns labels rules names s s1 cur :
  synced p rules names s → unique_files (owned p s) → List (sel p) s = (s1, Ok cur) →
  write_rules op alloc p anns labels rules s = (s1, Ok (name <$> cur)) ∧
  objs s1 = objs s ∧ name <$> cur ≡ₚ names.
Proof.
  intros (Hn & Hne & Hin) Hu E. unfold write_rules.
  unfold mbind at 1, M_bind at 1. rewrite E.
  pose proof (List_objs _ _ _ _ E) as Hs1. apply List_ok in E. change (cur ≡ₚ owned p s) in E.
  assert (current_rules cur = rules) as ->.
  { assert (unique_files cur) as Hu' by (intros cm cm' f; rewrite E; apply Hu).
    apply map_eq. intros f. apply option_eq. intros c. rewrite current_rules_unique, Hin by done. by setoid_rewrite E. }
  assert (cur ≠ []) as Hcur by (intros ->; by apply Permutation_nil_l in E).
  rewrite (bool_decide_true _ eq_refl), (bool_decide_true _ Hcur).
  split; [done|]. split; [done|]. by rewrite Hn, E.
Qed.

(** *** A server that answers *)

Context `{!ApiHealthy ConfigMap St}.

Lemma delete_all_healthy cms : ∀ s,
  healthy s → NoDup (name <$> cms) → (∀ cm, cm ∈ cms → is_Some (objs s !! name cm)) →
  ∃ s', healthy s' ∧ delete_all cms s = (s', Ok ()).
Proof.
  induction cms as [|cm cms IH]; intros s Hs Hnd Hin; [by exists s|].
  apply NoDup_cons in Hnd as [Hn Hnd].
  destruct (Delete_healthy (name cm) s Hs) as (s1 & Hs1 & E).
  destruct (Hin cm) as [o Ho]; [set_solver|]. rewrite Ho in E.
  destruct (IH s1 Hs1 Hnd) as (s' & Hs' & E').
  { intros cm' Hcm'. apply Delete_ok in E as [_ ->]. rewrite lookup_delete_ne; [apply Hin; set_solver|].
    intros Heq. apply Hn. rewrite Heq. by apply list_elem_of_fmap_2. }
  exists s'. split; [done|]. unfold delete_all. simpl. unfold mbind, M_bind, mwrap.
  rewrite E. exact E'.
Qed.
Lemma create_all_healthy fmt cms : ∀ s,
  healthy s → NoDup (name <$> cms) → (∀ cm, cm ∈ cms → objs s !! name cm = None) →
  ∃ s', healthy s' ∧ create_all fmt cms s = (s', Ok ()).
Proof.
  induction cms as [|cm cms IH]; intros s Hs Hnd Hin; [by exists s|].
  apply NoDup_cons in Hnd as [Hn Hnd].
  destruct (Create_healthy cm s Hs) as (s1 & o & Hs1 & E); [apply Hin; set_solver|].
  destruct (IH s1 Hs1 Hnd) as (s' & Hs' & E').
  { intros cm' Hcm'. apply Create_ok in E as [_ (o1 & _ & ->)].
    rewrite lookup_insert_ne; [apply Hin; set_solver|].
    intros Heq. apply Hn. rewrite Heq. by apply list_elem_of_fmap_2. }
  exists s'. split; [done|]. unfold create_all. simpl. unfold mbind, M_bind, mwrap, mret, M_ret.
  rewrite E. exact E'.
Qed.

(** The names the new ConfigMaps need are free or taken by the object's own ConfigMaps. *)
Definition no_collision p s : Prop :=
  ∀ i cm, objs s !! op_name p i = Some cm → sel p cm = true.

Lemma write_rules_healthy p anns labels rules s :
  healthy s → no_collision p s →
  ∃ s' names, healthy s' ∧ write_rules op alloc p anns labels rules s = (s', Ok names).
Proof.
  intros Hs Hc. destruct (List_healthy (sel p) s Hs) as (s1 & cur & Hs1 & EL).
  unfold write_rules, mbind at 1, M_bind at 1. rewrite EL.
  pose proof (List_objs _ _ _ _ EL) as Ho1. apply List_ok in EL. change (cur ≡ₚ owned p s) in EL.
  destruct (_ && _); [by eexists _, _|]. unfold lift. rewrite makeRulesConfigMaps_eq.
  set (cms := imap _ _). unfold mbind, M_bind, mret, M_ret. simpl.
  destruct (delete_all_healthy cur s1 Hs1) as (s2 & Hs2 & ED).
  { rewrite EL. apply NoDup_names_owned. }
  { intros cm. rewrite EL, elem_of_owned, Ho1. intros [-> _]. by eexists. }
  assert (∀ fmt, ∃ s', healthy s' ∧ create_all fmt cms s2 = (s', Ok ())) as HC.
  { intros fmt. apply create_all_healthy; [done|apply made_names|].
    intros cm [i (ks & _ & ->)%made_lookup]%list_elem_of_lookup. rewrite name_make_cm.
    rewrite (delete_all_ok _ _ _ ED), Ho1. case_decide as Hd; [done|].
    destruct (objs s !! op_name p i) as [cm|] eqn:Hcm; [|done]. destruct Hd.
    rewrite <-(objs_name _ _ _ Hcm). apply list_elem_of_fmap_2. rewrite EL.
    apply elem_of_owned. rewrite (objs_name _ _ _ Hcm). eauto. }
  case_bool_decide as Hcur.
  - subst cur. injection ED as ->. destruct (HC "failed to create ConfigMap '%v': %w") as (s' & Hs' & ->).
    by eexists _, _.
  - rewrite ED. destruct (HC "failed to create new ConfigMap '%v': %w") as (s' & Hs' & ->).
    by eexists _, _.
Qed.
End write_spec.

Section operator_spec.
Context `{Semver, RuleLibs, PromQL, KeyFunc} {St : Type}.
Context `{ApiClient ConfigMap St, !ApiLaws ConfigMap St}.
Context (op : RuleOperator) `{!RuleOperatorLaws op} (alloc : nat → nat * nat).
Context (ListAllByNamespace : string → res (list PrometheusRule)).
Context (AddTypeInformationToObject : PrometheusRule → option PrometheusRule).
Context (known : res (list ObjectMeta)).
Implicit Types p : RuleObject.

Abbreviation run :=
  (createOrUpdateRuleConfigMaps op alloc ListAllByNamespace AddTypeInformationToObject known).
Abbreviation chosen := (select_rules op ListAllByNamespace AddTypeInformationToObject known).

(** C5: When the rules of an object are written successfully, the rules were selected without
    error; the object's ConfigMaps in the API are exactly those whose names are returned (at
    least one), the files in them are exactly the selected ones with their contents, each in one ConfigMap; no other
    ConfigMap changed; the metrics were set from the selection. This supposes that before the run
    no file name was in two ConfigMaps of the object, which then stays so. *)
Theorem createOrUpdateRuleConfigMaps_synced p anns labels (s s' : St) (m m' : Metrics)
    (names : list string)
    (Hu : unique_files (owned op p s))
    (Hrun : run p anns labels (s, m) = ((s', m'), Ok names)) :
  ∃ rules nrejected,
    chosen p = Ok (rules, nrejected) ∧ synced op p rules names s' ∧ unique_files (owned op p s') ∧
    (∀ n cm, objs s !! n = Some cm →
       prometheusRulesConfigMapSelector op (om_Name (ro_meta p)) cm = false →
       objs s' !! n = Some cm) ∧
    m' = set_metrics p (Z.of_nat (size rules)) nrejected m.
Proof.
  unfold createOrUpdateRuleConfigMaps in Hrun.
  destruct (chosen p) as [[rules nrej]|e|msg]; try done. simpl in Hrun.
  destruct (write_rules _ _ _ _ _ _ _) as [s1 r] eqn:E. injection Hrun as <- <- ->.
  destruct (write_rules_ok _ _ _ _ _ _ _ _ _ Hu E). exists rules, nrej. split_and!; try done. by eapply write_rules_unique.
Qed.

(** C34: If every rule file is in at most one of the object's ConfigMaps, this is still so after
    a successful run, and a second run that can list the ConfigMaps changes nothing in the API
    and returns the same names. *)
Theorem createOrUpdateRuleConfigMaps_idempotent p anns labels (s s' : St) (m m' : Metrics)
    (names : list string)
    (Hu : unique_files (owned op p s))
    (Hrun : run p anns labels (s, m) = ((s', m'), Ok names)) :
  unique_files (owned op p s') ∧
  ∀ s'' cur, List (prometheusRulesConfigMapSelector op (om_Name (ro_meta p))) s' = (s'', Ok cur) →
    ∃ m'' names', run p anns labels (s', m') = ((s'', m''), Ok names') ∧
      objs s'' = objs s' ∧ names' ≡ₚ names.
Proof.
  unfold createOrUpdateRuleConfigMaps in *.
  destruct (chosen p) as [[rules nrej]|e|msg]; try done. simpl in Hrun |- *.
  destruct (write_rules _ _ _ _ _ _ _) as [s1 r] eqn:E. injection Hrun as <- <- ->.
  pose proof (write_rules_unique _ _ _ _ _ _ _ _ _ Hu E) as Hu'.
  split; [done|]. intros s'' cur EL.
  destruct (write_rules_ok _ _ _ _ _ _ _ _ _ Hu E) as [Hs _].
  destruct (write_rules_synced op alloc p anns labels _ _ _ _ _ Hs Hu' EL) as (-> & Ho & Hn).
  by eexists _, _.
Qed.

(** C30: With a server that answers every request and no foreign ConfigMap under the names the
    operator uses, writing the rules of an object whose rules can be selected succeeds. *)
Theorem createOrUpdateRuleConfigMaps_succeeds `{!ApiHealthy ConfigMap St} p anns labels
    (s : St) (m : Metrics) (rules : gmap string string) (nrejected : Z)
    (Hs : healthy s) (Hc : no_collision op p s) (Hsel : chosen p = Ok (rules, nrejected)) :
  ∃ s' m' names, healthy s' ∧ run p anns labels (s, m) = ((s', m'), Ok names).
Proof.
  unfold createOrUpdateRuleConfigMaps. rewrite Hsel. simpl.
  destruct (write_rules_healthy op alloc p anns labels rules s Hs Hc) as (s' & names & Hs' & ->).
  by eexists _, _, _.
Qed.
End operator_spec.

(** ** Witnesses: a Prometheus object with an outdated ConfigMap *)

Module Example.
#[local] Existing Instances Concrete.semver Concrete.rule_libs Concrete.promql.
Definition prom : RuleObject := {|
  ro_meta := SetNamespace "ns" (SetName "k8s" zero_meta);
  ro_owner := {| owner_APIVersion := "monitoring.coreos.com/v1"; owner_Kind := "Prometheus";
                 owner_Name := "k8s"; owner_UID := "" |};
  ro_RuleNamespaceSelector := None; ro_RuleSelector := Ok (); ro_ExcludedFromEnforcement := [];
  ro_PrometheusRulesExcludedFromEnforce := []; ro_EnforcedNamespaceLabel := "tenant";
  ro_Version := "" |}.
Definition informer (ns : string) : res (list PrometheusRule) :=
  if bool_decide (ns = "ns") then Ok [Concrete.good; Concrete.bad] else Ok [].
Definition op := PrometheusRules "v2.40.1".
Definition alloc (i : nat) := (2 * i, 2 * i + 1).
Definition stale : ConfigMap :=
  make_cm op alloc prom [] 0 {["gone.yaml" := "old"]}.
Definition other : ConfigMap :=
  {| cm_meta := SetName "other" zero_meta; cm_Data := ∅ |}.
Definition start : FakeStore.state ConfigMap :=
  FakeStore.State [] 0 (<["other" := other]> {[name stale := stale]}).
Definition run := createOrUpdateRuleConfigMaps op alloc informer Some (Ok []) prom None None.
End Example.

#[local] Existing Instances Concrete.semver Concrete.rule_libs Concrete.promql.

Lemma Example_unique : unique_files (owned Example.op Example.prom Example.start).
Proof.
  intros cm cm' f Hcm Hcm' _ _.
  assert (owned Example.op Example.prom Example.start = [Example.stale]) as E by reflexivity.
  rewrite E in Hcm, Hcm'. by apply list_elem_of_singleton in Hcm as ->, Hcm' as ->.
Qed.

Lemma createOrUpdateRuleConfigMaps_synced_witness :
  ∃ s' m' rules, Example.run (Example.start, {| resources := ∅ |})
      = ((s', m'), Ok ["prometheus-k8s-rulefiles-0"]) ∧
    synced Example.op Example.prom rules ["prometheus-k8s-rulefiles-0"] s' ∧
    objs s' !! "other" = Some Example.other.
Proof.
  destruct (Example.run (Example.start, {| resources := ∅ |})) as [[s' m'] r] eqn:E.
  assert (r = Ok ["prometheus-k8s-rulefiles-0"]) as ->.
  { change r with ((s', m', r).2). rewrite <-E. vm_compute. reflexivity. }
  destruct (createOrUpdateRuleConfigMaps_synced Example.op Example.alloc Example.informer Some
    (Ok []) Example.prom None None _ _ _ _ _ Example_unique E) as (rules & n & _ & Hs & _ & Hf & _).
  exists s', m', rules. split; [done|]. split; [done|]. by apply Hf.
Defined.

Lemma createOrUpdateRuleConfigMaps_idempotent_witness :
  ∃ s' m' m'', Example.run (Example.start, {| resources := ∅ |})
      = ((s', m'), Ok ["prometheus-k8s-rulefiles-0"]) ∧
    ∃ names', Example.run (s', m') = ((s', m''), Ok names') ∧
      names' ≡ₚ ["prometheus-k8s-rulefiles-0"].
Proof.
  destruct (Example.run (Example.start, {| resources := ∅ |})) as [[s' m'] r] eqn:E.
  assert (r = Ok ["prometheus-k8s-rulefiles-0"] ∧ FakeStore.faults s' = []) as [-> Hf].
  { change r with ((s', m', r).2). change (FakeStore.faults s') with (FakeStore.faults ((s', m', r).1.1)).
    rewrite <-E. vm_compute. by split. }
  destruct (createOrUpdateRuleConfigMaps_idempotent Example.op Example.alloc Example.informer Some
    (Ok []) Example.prom None None _ _ _ _ _ Example_unique E) as [_ H].
  destruct (H s' (filter (fun cm => prometheusRulesConfigMapSelector Example.op "k8s" cm = true)
    ((map_to_list (objs s')).*2))) as (m'' & names' & Hr & _ & Hn).
  { simpl. unfold FakeStore.serve. by rewrite Hf. }
  exists s', m', m''. split; [reflexivity|]. exists names'. split; [exact Hr|exact Hn].
Defined.

Lemma createOrUpdateRuleConfigMaps_succeeds_witness :
  ∃ s' m' names, healthy s' ∧
    Example.run (Example.start, {| resources := ∅ |}) = ((s', m'), Ok names).
Proof.
  eapply (createOrUpdateRuleConfigMaps_succeeds Example.op Example.alloc Example.informer Some
    (Ok []) Example.prom None None Example.start {| resources := ∅ |} _ _).
  - reflexivity.
  - intros i cm Hcm. change (objs Example.start) with (FakeStore.contents Example.start) in Hcm.
    unfold FakeStore.contents in Hcm. apply map_lookup_filter_Some in Hcm as [Hcm _].
    simpl in Hcm. apply lookup_insert_Some in Hcm as [[Heq _]|[_ Hcm]]; [discriminate Heq|].
    apply lookup_singleton_Some in Hcm as [_ <-]. reflexivity.
  - vm_compute. reflexivity.
Defined.
