(* ===== verification/Json.v ===== *)
(** * JSON values and their decoding into Go structs

    The part of Go's [encoding/json] that the AlertmanagerConfig types rely on to keep child
    routes as raw JSON: objects are decoded field by field, a key matches a field exactly or else
    by case folding, [DisallowUnknownFields] is in force, [null] leaves scalars alone and resets
    slices, and arrays are decoded over the elements a slice already has. Strings are valid UTF-8
    (they come out of a JSON decoder themselves), numbers occur in no struct decoded here and are
    kept as text. An error does not stop Go's decoder, but the first one is what it returns. The
    elements a slice's backing array keeps beyond its length, which Go's decoder would show again
    when three keys of an object fold to the same field, are not modelled. *)

From S2P Require Import Prelude GoStrings.

Inductive json :=
  | JNull
  | JBool (b : bool)
  | JNum (text : string)
  | JStr (s : string)
  | JArr (l : list json)
  | JObj (fields : list (string * json)).

(** [apiextensionsv1.JSON] (k8s.io/apiextensions-apiserver): the raw text of a value, [None] when
    it is empty. Its [UnmarshalJSON] keeps any value but [null], for which it leaves the receiver
    alone; [MarshalJSON] writes it back. *)
Class RawJSON := {
  unmarshal_raw : option json → json → option json;
  marshal_raw : option json → json;
  unmarshal_raw_value prev j : j ≠ JNull → unmarshal_raw prev j = Some j;
  unmarshal_raw_null prev : unmarshal_raw prev JNull = prev;
  marshal_raw_value j : marshal_raw (Some j) = j;
}.
#[global] Instance raw_json : RawJSON.
Proof.
  refine {| unmarshal_raw prev j := match j with JNull => prev | _ => Some j end;
            marshal_raw r := default JNull r |}.
  - by intros prev [].
  - done.
  - done.
Defined.

(** ** Field names *)

(** [foldName] of encoding/json for the runes whose folding is an ASCII letter: the letters
    themselves, U+017F (bytes C5 BF) and U+212A (bytes E2 84 AA). *)
Definition byte_is (n : N) (c : ascii) : bool := N.eqb (N_of_ascii c) n.
Definition upper (c : ascii) : ascii :=
  let n := N_of_ascii c in
  if (97 <=? n)%N && (n <=? 122)%N then ascii_of_N (n - 32) else c.
Fixpoint fold_name (s : string) : string :=
  match s with
  | EmptyString => EmptyString
  | String a r =>
      match r with
      | String b r' =>
          if byte_is 197 a && byte_is 191 b then String "S" (fold_name r')
          else match r' with
               | String c r'' =>
                   if byte_is 226 a && byte_is 132 b && byte_is 170 c
                   then String "K" (fold_name r'')
                   else String (upper a) (fold_name r)
               | EmptyString => String (upper a) (fold_name r)
               end
      | EmptyString => String (upper a) EmptyString
      end
  end.

(** ** Decoding *)

Definition type_error {A} (what : string) : res A :=
  Err (Errorf "json: cannot unmarshal %s into Go value" [what]).
Definition kind_of (j : json) : string :=
  match j with
  | JNull => "null" | JBool _ => "bool" | JNum _ => "number"
  | JStr _ => "string" | JArr _ => "array" | JObj _ => "object"
  end.

(** Each decoder gets the value the field holds before. *)
Definition decode_string (prev : string) (j : json) : res string :=
  match j with JStr s => Ok s | JNull => Ok prev | _ => type_error (kind_of j) end.
Definition decode_bool (prev : bool) (j : json) : res bool :=
  match j with JBool b => Ok b | JNull => Ok prev | _ => type_error (kind_of j) end.

Definition decode_raw `{RawJSON} (prev : option json) (j : json) : res (option json) :=
  Ok (unmarshal_raw prev j).

Section decode.
Context {A : Type}.

Fixpoint decode_elems (zero : A) (dec : A → json → res A) (prev : list A) (l : list json)
    : res (list A) :=
  match l with
  | [] => Ok []
  | j :: l' =>
      x ← dec (default zero (head prev)) j;
      xs ← decode_elems zero dec (tail prev) l';
      Ok (x :: xs)
  end.
Definition decode_slice (zero : A) (dec : A → json → res A) (prev : list A) (j : json)
    : res (list A) :=
  match j with
  | JArr l => decode_elems zero dec prev l
  | JNull => Ok []
  | _ => type_error (kind_of j)
  end.

(** The fields of a struct: name and how the field is decoded into the struct. *)
Definition fields_of := list (string * (A → json → res A)).
Definition find_field (fs : fields_of) (key : string) : option (A → json → res A) :=
  match list_find (fun f => f.1 = key) fs with
  | Some (_, f) => Some f.2
  | None =>
      match list_find (fun f => fold_name f.1 = fold_name key) fs with
      | Some (_, f) => Some f.2
      | None => None
      end
  end.
Fixpoint decode_fields (fs : fields_of) (prev : A) (kvs : list (string * json)) : res A :=
  match kvs with
  | [] => Ok prev
  | (k, j) :: kvs' =>
      match find_field fs k with
      | Some dec => x ← dec prev j; decode_fields fs x kvs'
      | None => Err (Errorf "json: unknown field %q" [k])
      end
  end.
Definition decode_struct (fs : fields_of) (prev : A) (j : json) : res A :=
  match j with
  | JObj kvs => decode_fields fs prev kvs
  | JNull => Ok prev
  | _ => type_error (kind_of j)
  end.

Lemma decode_fields_app fs prev l l' :
  decode_fields fs prev (l ++ l') = decode_fields fs prev l ≫= fun x => decode_fields fs x l'.
Proof.
  revert prev. induction l as [|[k j] l IH]; intros prev; simpl; [done|].
  destruct (find_field fs k) as [dec|]; [|done]. destruct (dec prev j); simpl; [apply IH|done..].
Qed.
End decode.

(** [dec.Decode] of the raw value of an [apiextensionsv1.JSON]: empty text is an unexpected end. *)
Definition Decode {A} (dec : A → json → res A) (zero : A) (raw : option json) : res A :=
  match raw with
  | None => Err (Errorf "EOF" [])
  | Some j => dec zero j
  end.

(** The loop of [ChildRoutes], from index [i] on. *)
Fixpoint Decode_all {A} (dec : A → json → res A) (zero : A) (i : nat) (raws : list (option json))
    : res (list A) :=
  match raws with
  | [] => Ok []
  | v :: raws' =>
      r ← wrap "route[%d]: %w" [Itoa (Z.of_nat i)] (Decode dec zero v);
      rs ← Decode_all dec zero (S i) raws';
      Ok (r :: rs)
  end.

(** ** Encoding *)

Definition encode_strings (l : list string) : json := JArr (JStr <$> l).
(** [omitempty] *)
Definition omit_string (k s : string) : list (string * json) :=
  if bool_decide (s = "") then [] else [(k, JStr s)].
Definition omit_bool (k : string) (b : bool) : list (string * json) :=
  if b then [(k, JBool true)] else [].
Definition omit_list {A} (k : string) (enc : A → json) (l : list A) : list (string * json) :=
  match l with [] => [] | _ => [(k, JArr (enc <$> l))] end.

Lemma decode_elems_enc {A} (zero : A) dec (enc : A → json) (l : list A) :
  (∀ x, x ∈ l → dec zero (enc x) = Ok x) → decode_elems zero dec [] (enc <$> l) = Ok l.
Proof.
  induction l as [|x l IH]; intros H; simpl; [done|].
  rewrite H by set_solver. simpl. fold (enc <$> l). rewrite IH; [done|]. set_solver.
Qed.

(** ** Nesting depth *)

Fixpoint json_depth (j : json) : nat :=
  match j with
  | JArr l => S (list_max (json_depth <$> l))
  | JObj kvs => S (list_max ((fun kv => json_depth kv.2) <$> kvs))
  | _ => 0
  end.
Definition raw_depth (r : option json) : nat := match r with None => 0 | Some j => S (json_depth j) end.

Lemma list_max_elem_of (n : nat) l : n ∈ l → n ≤ list_max l.
Proof. induction 1; simpl; lia. Qed.
Lemma json_depth_arr j l : j ∈ l → json_depth j < json_depth (JArr l).
Proof. intros H. simpl. apply Nat.lt_succ_r, list_max_elem_of. by apply list_elem_of_fmap_2. Qed.
Lemma json_depth_obj k j kvs : (k, j) ∈ kvs → json_depth j < json_depth (JObj kvs).
Proof.
  intros H. simpl. apply Nat.lt_succ_r, list_max_elem_of, list_elem_of_fmap. by exists (k, j).
Qed.

(** ** Facts about decoding into a struct *)

Section struct_facts.
Context {A : Type} (fs : fields_of (A := A)).

Lemma find_field_elem k dec : find_field fs k = Some dec → ∃ n, (n, dec) ∈ fs.
Proof.
  unfold find_field. intros E.
  repeat case_match; simplify_eq/=;
    match goal with H : list_find _ _ = Some (_, ?f) |- _ =>
      apply list_find_Some in H as (Hi & _); exists f.1; destruct f;
      by eapply list_elem_of_lookup_2 end.
Qed.
Lemma decode_fields_no_panic kvs : ∀ prev,
  Forall (fun f => ∀ x j, no_panic (f.2 x j)) fs → no_panic (decode_fields fs prev kvs).
Proof.
  induction kvs as [|[k j] kvs IH]; intros prev Hfs m; simpl; [done|].
  destruct (find_field fs k) as [dec|] eqn:E; [|done].
  apply find_field_elem in E as [n Hn]. rewrite Forall_forall in Hfs.
  pose proof (Hfs _ Hn prev j m). simpl in *.
  destruct (dec prev j) eqn:?; simpl; [|congruence..]. apply IH. by apply Forall_forall.
Qed.
(** An invariant kept by every field is kept by decoding the object. *)
Lemma decode_fields_inv (P : A → Prop) (Q : json → Prop) kvs : ∀ prev r,
  Forall (fun f => ∀ x j y, Q j → P x → f.2 x j = Ok y → P y) fs →
  Forall (fun kv => Q kv.2) kvs → P prev → decode_fields fs prev kvs = Ok r → P r.
Proof.
  induction kvs as [|[k j] kvs IH]; intros prev r Hfs Hq Hp; simpl; [by intros [= <-]|].
  apply Forall_cons in Hq as [Hj Hq]. destruct (find_field fs k) as [dec|] eqn:E; [|done].
  apply find_field_elem in E as [n Hn].
  destruct (dec prev j) as [x| |] eqn:Ed; simpl; [|done..]. apply IH; [done..|].
  rewrite Forall_forall in Hfs. by eapply (Hfs _ Hn).
Qed.
End struct_facts.

(** Decoding what was encoded for one field. *)
Section field_facts.
Context {A V : Type} (fs : fields_of (A := A)) (k : string).
Context (get : A → V) (set : V → A → A) (dec : V → json → res V).
Hypothesis Hk : find_field fs k = Some (fun r j => v ← dec (get r) j; Ok (set v r)).

Lemma decode_field r j v rest :
  dec (get r) j = Ok v → decode_fields fs r ((k, j) :: rest) = decode_fields fs (set v r) rest.
Proof. intros Hv. simpl. rewrite Hk, Hv. done. Qed.
End field_facts.
Section omit_facts.
Context {A : Type} (fs : fields_of (A := A)) (k : string).

Lemma decode_omit_string get set r s rest :
  find_field fs k = Some (fun r j => v ← decode_string (get r) j; Ok (set v r)) →
  set "" r = r →
  decode_fields fs r (omit_string k s ++ rest) = decode_fields fs (set s r) rest.
Proof.
  intros Hk Hr. unfold omit_string. case_bool_decide; subst; [by rewrite Hr|].
  by eapply (decode_field fs k).
Qed.
Lemma decode_omit_bool get set r b rest :
  find_field fs k = Some (fun r j => v ← decode_bool (get r) j; Ok (set v r)) →
  set false r = r →
  decode_fields fs r (omit_bool k b ++ rest) = decode_fields fs (set b r) rest.
Proof. intros Hk Hr. destruct b; simpl; [|by rewrite Hr]. by eapply (decode_field fs k). Qed.
Lemma decode_omit_list {B} (zero : B) (dec : B → json → res B) enc get set r l rest :
  find_field fs k = Some (fun r j => v ← decode_slice zero dec (get r) j; Ok (set v r)) →
  set [] r = r → get r = [] → (∀ x, x ∈ l → dec zero (enc x) = Ok x) →
  decode_fields fs r (omit_list k enc l ++ rest) = decode_fields fs (set l r) rest.
Proof.
  intros Hk Hr Hg Hl. destruct l as [|x l]; [simpl; by rewrite Hr|].
  unfold omit_list. eapply (decode_field fs k); [done|]. rewrite Hg.
  by apply decode_elems_enc.
Qed.
End omit_facts.

(** The raw children decoded from a value lie inside of it. *)
Lemma decode_raws_depth `{RawJSON} n prev j v :
  json_depth j ≤ n → Forall (fun raw => raw_depth raw ≤ n) prev →
  decode_slice None decode_raw prev j = Ok v → Forall (fun raw => raw_depth raw ≤ n) v.
Proof.
  intros Hj Hp. destruct j as [| | | |l|]; simpl; try done; [by intros [= <-]|].
  assert (∀ j', j' ∈ l → json_depth j' < n) as Hl.
  { intros j' Hin%json_depth_arr. lia. }
  clear Hj. revert prev v Hp. induction l as [|j l IH]; intros prev v Hp; simpl; [by intros [= <-]|].
  destruct (decode_elems _ _ _ l) as [xs| |] eqn:E; simpl; [|done..]. intros [= <-].
  assert (Forall (fun raw => raw_depth raw ≤ n) (tail prev)).
  { destruct prev; [done|]. by apply Forall_cons in Hp as [_ ?]. }
  constructor; [|eapply IH; [|done..]; set_solver].
  assert (j = JNull ∨ j ≠ JNull) as [->|Hne] by (destruct j; auto).
  - rewrite unmarshal_raw_null. destruct prev; simpl; [lia|]. by apply Forall_cons in Hp as [? _].
  - rewrite unmarshal_raw_value by done. simpl. apply Hl. set_solver.
Qed.

(** ** No decoder panics *)

Lemma decode_no_panic_field {A V} (dec : res V) (set : V → A) :
  no_panic dec → no_panic (v ← dec; Ok (set v)).
Proof. intros Hd m. specialize (Hd m). destruct dec; simpl; congruence. Qed.
Lemma decode_string_no_panic prev j : no_panic (decode_string prev j).
Proof. by destruct j. Qed.
Lemma decode_bool_no_panic prev j : no_panic (decode_bool prev j).
Proof. by destruct j. Qed.
Lemma decode_slice_no_panic {A} (zero : A) dec prev j :
  (∀ x j, no_panic (dec x j)) → no_panic (decode_slice zero dec prev j).
Proof.
  intros Hd. destruct j as [| | | |l|]; try done. simpl. revert prev.
  induction l as [|j l IH]; intros prev m; simpl; [done|].
  pose proof (Hd (default zero (head prev)) j m). destruct (dec _ j) eqn:?; simpl; [|congruence..].
  pose proof (IH (tail prev) m). destruct (decode_elems _ _ _ _) eqn:?; simpl; congruence.
Qed.
Lemma decode_struct_no_panic {A} (fs : fields_of (A := A)) prev j :
  Forall (fun f => ∀ x j, no_panic (f.2 x j)) fs → no_panic (decode_struct fs prev j).
Proof. intros Hfs. destruct j; try done. by apply decode_fields_no_panic. Qed.

Create HintDb json.
#[export] Hint Resolve decode_string_no_panic decode_bool_no_panic decode_slice_no_panic
  decode_struct_no_panic decode_no_panic_field : json.
