(* ===== verification/RouteTree.v ===== *)
(** * Trees of routes

    A route keeps its children as raw JSON and decodes them on demand; conversion and validation
    walk over the tree this way, decoding and (for the conversion) encoding at every level. This
    file has the two walks, once for both API versions, and relates them to plain recursion over
    the tree of routes. The walks take fuel; [depth] is enough for them. *)

From S2P Require Import Prelude GoStrings Json.

(** What the walks need to know about the [Route] type of an API version. *)
Class RouteVersion (R : Type) := {
  route_zero : R;
  decode_route : R → json → res R;
  encode_route : R → json;
  raws : R → list (option json);
  set_raws : list (option json) → R → R;
  raws_set_raws l r : raws (set_raws l r) = l;
  set_raws_set_raws l l' r : set_raws l (set_raws l' r) = set_raws l r;
  set_raws_raws r : set_raws (raws r) r = r;
  decode_no_panic j : no_panic (decode_route route_zero j);
  (** raw children come from inside of the decoded value *)
  decode_depth j r :
    decode_route route_zero j = Ok r → Forall (fun raw => raw_depth raw ≤ json_depth j) (raws r);
  (** encoding loses nothing of a route whose children are proper values *)
  decode_encode r :
    Forall (fun raw => ∃ j, raw = Some j ∧ j ≠ JNull) (raws r) →
    decode_route route_zero (encode_route r) = Ok r;
  encode_not_null r : encode_route r ≠ JNull;
}.

Definition child_routes {R} `{RouteVersion R} (r : R) : res (list R) :=
  Decode_all decode_route route_zero 0 (raws r).

(** [for i := range children { if err := f(children[i]); err != nil { return route[i]: err } }] *)
Definition indexed {A B} (f : A → res B) (ix : nat * A) : res B :=
  wrap "route[%d]: %w" [Itoa (Z.of_nat ix.1)] (f ix.2).

Definition depth {R} `{RouteVersion R} (r : R) : nat := S (list_max (raw_depth <$> raws r)).
#[global] Arguments depth : simpl never.
Definition out_of_fuel {A} : res A := Panic "out of fuel".

Section walks.
Context {R : Type} `{RouteVersion R}.

(** The conversion of a route and its children; [f] converts the route itself. *)
Fixpoint convert_with {R'} `{RouteVersion R'} (f : R → R') (fuel : nat) (r : R) : res R' :=
  match fuel with
  | 0 => out_of_fuel
  | S fuel' =>
      crs ← child_routes r;
      cs ← res_map (indexed (convert_with f fuel')) (imap pair crs);
      Ok (set_raws ((fun c => Some (encode_route c)) <$> cs) (f r))
  end.

(** The validation of a route and its children; [chk] checks the route itself, its first
    argument says whether the route is the root. *)
Fixpoint validate_with (chk : bool → R → res ()) (fuel : nat) (top : bool) (r : R) : res () :=
  match fuel with
  | 0 => out_of_fuel
  | S fuel' =>
      _ ← chk top r;
      children ← child_routes r;
      for_each (indexed (validate_with chk fuel' false)) (imap pair children)
  end.

(** ** The tree a route stands for *)

Inductive tree := Node (r : R) (children : list tree).

Fixpoint tree_of (fuel : nat) (r : R) : res tree :=
  match fuel with
  | 0 => out_of_fuel
  | S fuel' =>
      crs ← child_routes r;
      ts ← res_map (tree_of fuel') crs;
      Ok (Node (set_raws [] r) ts)
  end.
End walks.
Arguments tree R : clear implicits.
Arguments Node {R} r children.

(** Induction on trees with the hypothesis for every child. *)
Lemma tree_ind' {R} (P : tree R → Prop) :
  (∀ r ts, Forall P ts → P (Node r ts)) → ∀ t, P t.
Proof.
  intros HP. fix IH 1. intros [r ts]. apply HP.
  induction ts as [|t ts IHts]; constructor; [apply IH|apply IHts].
Qed.

Fixpoint tree_map {R R'} (f : R → R') (t : tree R) : tree R' :=
  match t with Node r ts => Node (f r) (tree_map f <$> ts) end.
Fixpoint of_tree {R} `{RouteVersion R} (t : tree R) : R :=
  match t with Node r ts => set_raws ((fun t => Some (encode_route (of_tree t))) <$> ts) r end.
(** Every route of the tree satisfies [P]; its first argument says which one is the root. *)
Inductive tree_all {R} (P : bool → R → Prop) : bool → tree R → Prop :=
  | tree_all_node top r ts :
      P top r → Forall (tree_all P false) ts → tree_all P top (Node r ts).
Lemma tree_all_inv {R} (P : bool → R → Prop) top r ts :
  tree_all P top (Node r ts) ↔ P top r ∧ Forall (tree_all P false) ts.
Proof. split; [by inversion 1|]. intros [? ?]. by constructor. Qed.

Lemma tree_all_iff {R} (P Q : bool → R → Prop) :
  (∀ top r, P top r ↔ Q top r) → ∀ top t, tree_all P top t ↔ tree_all Q top t.
Proof.
  intros HPQ top t. revert top. induction t as [r ts IH] using tree_ind'. intros top.
  rewrite !tree_all_inv, HPQ. apply and_iff_compat_l.
  induction IH as [|t ts Ht _ IH']; [by rewrite !Forall_nil|]. by rewrite !Forall_cons, Ht, IH'.
Qed.
Lemma tree_all_map {R R'} (P : bool → R' → Prop) (f : R → R') top t :
  tree_all P top (tree_map f t) ↔ tree_all (fun top r => P top (f r)) top t.
Proof.
  revert top. induction t as [r ts IH] using tree_ind'. intros top. simpl.
  rewrite !tree_all_inv. apply and_iff_compat_l. rewrite Forall_fmap.
  induction IH as [|t ts Ht _ IH']; [by rewrite !Forall_nil|]. by rewrite !Forall_cons, <-Ht, IH'.
Qed.

Section walks_spec.
Context {R : Type} `{RouteVersion R}.
Implicit Types (r : R) (t : tree R).

Lemma raw_depth_le r raw : raw ∈ raws r → raw_depth raw < depth r.
Proof.
  intros Hin. unfold depth. apply Nat.lt_succ_r, list_max_elem_of. by apply list_elem_of_fmap_2.
Qed.
Lemma Decode_all_ok (raws' : list (option json)) : ∀ i (rs : list R),
  Decode_all decode_route route_zero i raws' = Ok rs ↔
  Forall2 (fun raw c => ∃ j, raw = Some j ∧ decode_route route_zero j = Ok c) raws' rs.
Proof.
  induction raws' as [|raw raws' IH]; intros i rs; simpl.
  { split; [by intros [= <-]|by intros ->%Forall2_nil_inv_l]. }
  split.
  - destruct raw as [j|]; simpl; [|done].
    destruct (decode_route route_zero j) as [c| |] eqn:E; simpl; try done.
    destruct (Decode_all _ _ _ _) as [cs| |] eqn:E'; simpl; try done. intros [= <-].
    constructor; [eauto|]. by eapply IH.
  - intros (c & cs & (j & -> & Hj) & Hcs & ->)%Forall2_cons_inv_l. simpl. rewrite Hj. simpl.
    apply (IH (S i)) in Hcs. by rewrite Hcs.
Qed.
Lemma child_depth r crs c : child_routes r = Ok crs → c ∈ crs → depth c < depth r.
Proof.
  unfold child_routes. rewrite Decode_all_ok. intros HF Hin.
  apply list_elem_of_lookup in Hin as [i Hi].
  apply (Forall2_lookup_r _ _ _ _ _ HF) in Hi as (raw & Hraw & j & -> & Hj).
  apply list_elem_of_lookup_2, raw_depth_le in Hraw. simpl in Hraw.
  apply decode_depth in Hj. unfold depth at 1.
  enough (list_max (raw_depth <$> raws c) ≤ json_depth j) by lia.
  apply list_max_le, List.Forall_map. rewrite Forall_forall in Hj.
  apply List.Forall_forall. intros x Hx. apply Hj. by apply list_elem_of_In.
Qed.

(** ** Fuel *)

Lemma res_map_no_panic {A B} (f : A → res B) l :
  (∀ x, x ∈ l → no_panic (f x)) → no_panic (res_map f l).
Proof.
  induction l as [|x l IH]; intros Hf m; simpl; [done|].
  pose proof (Hf x ltac:(set_solver) m). destruct (f x) eqn:?; simpl; [|congruence..].
  pose proof (IH ltac:(set_solver) m). destruct (res_map f l) eqn:?; simpl; congruence.
Qed.
Lemma Decode_all_no_panic (raws' : list (option json)) i :
  no_panic (Decode_all decode_route (route_zero : R) i raws').
Proof.
  revert i. induction raws' as [|raw raws' IH]; intros i m; simpl; [done|].
  destruct raw as [j|]; simpl; [|done]. pose proof (decode_no_panic j m).
  destruct (decode_route route_zero j) eqn:?; simpl; [|congruence..].
  pose proof (IH (S i) m). destruct (Decode_all _ _ _ _) eqn:?; simpl; congruence.
Qed.

(** More fuel than the depth does not change the tree. *)
Lemma tree_of_fuel n : ∀ m r, depth r ≤ n → depth r ≤ m → tree_of n r = tree_of m r.
Proof.
  induction n as [|n IH]; intros m r Hn Hm; [unfold depth in Hn; lia|].
  destruct m as [|m]; [unfold depth in Hm; lia|]. simpl.
  destruct (child_routes r) as [crs| |] eqn:E; simpl; [|done..].
  assert (res_map (tree_of n) crs = res_map (tree_of m) crs) as ->; [|done].
  assert (∀ c, c ∈ crs → depth c < depth r) as Hd by (intros c; by apply child_depth).
  clear E. induction crs as [|c crs IHc]; simpl; [done|].
  rewrite (IH m c) by (specialize (Hd c ltac:(set_solver)); lia).
  destruct (tree_of m c); simpl; [|done..]. rewrite IHc; [done|set_solver].
Qed.

Lemma tree_of_no_panic n : ∀ r, depth r ≤ n → no_panic (tree_of n r).
Proof.
  induction n as [|n IH]; intros r Hn m; [unfold depth in Hn; lia|]. simpl.
  pose proof (Decode_all_no_panic (raws r) 0 m) as Hc. fold (child_routes r) in Hc.
  destruct (child_routes r) as [crs| |] eqn:E; simpl; [|congruence..].
  assert (no_panic (res_map (tree_of n) crs)) as Hp.
  { apply res_map_no_panic. intros c Hc'. apply IH.
    pose proof (child_depth _ _ _ E Hc'). lia. }
  specialize (Hp m). destruct (res_map (tree_of n) crs) eqn:?; simpl; congruence.
Qed.

(** ** The tree and its representation *)

(** Trees whose routes carry no raw children of their own. *)
Definition erased t : Prop := ∀ top, tree_all (fun _ r => raws r = []) top t.

Lemma erased_node r ts : erased (Node r ts) ↔ raws r = [] ∧ Forall erased ts.
Proof.
  unfold erased. split.
  - intros He. destruct (proj1 (tree_all_inv _ _ _ _) (He true)) as [Hr Hts]. split; [done|].
    eapply Forall_impl; [exact Hts|]. intros t Ht top. destruct t. apply tree_all_inv.
    by apply tree_all_inv in Ht.
  - intros [Hr Hts] top. apply tree_all_inv. split; [done|].
    eapply Forall_impl; [exact Hts|]. auto.
Qed.
Lemma tree_of_erased n : ∀ r t, tree_of n r = Ok t → erased t.
Proof.
  induction n as [|n IH]; intros r t; simpl; [done|].
  destruct (child_routes r) as [crs| |]; simpl; [|done..].
  destruct (res_map _ _) as [ts| |] eqn:E; simpl; [|done..]. intros [= <-].
  apply erased_node. split; [apply raws_set_raws|]. apply res_map_ok in E.
  clear -E IH. induction E; constructor; eauto.
Qed.

(** The children of a route made from a tree are the children of the tree. *)
Lemma child_routes_of_tree r ts :
  child_routes (of_tree (Node r ts)) = Ok (of_tree <$> ts).
Proof.
  unfold child_routes. simpl. rewrite raws_set_raws. apply Decode_all_ok.
  induction ts as [|t ts IH]; simpl; constructor; [|done].
  eexists. split; [done|]. apply decode_encode. destruct t as [r' ts']. simpl.
  rewrite raws_set_raws. apply Forall_fmap, Forall_true. intros t. eexists. split; [done|].
  apply encode_not_null.
Qed.
Lemma tree_of_of_tree t : erased t → ∀ n, depth (of_tree t) ≤ n → tree_of n (of_tree t) = Ok t.
Proof.
  induction t as [r ts IH] using tree_ind'. intros [Hr Hts]%erased_node n Hn.
  destruct n as [|n]; [unfold depth in Hn; lia|].
  cbn [tree_of]. rewrite child_routes_of_tree. cbn [mbind res_bind].
  assert (res_map (tree_of n) (of_tree <$> ts) = Ok ts) as ->.
  { assert (∀ c, c ∈ of_tree <$> ts → depth c ≤ n) as Hd.
    { intros c Hc. pose proof (child_depth _ _ _ (child_routes_of_tree r ts) Hc). lia. }
    clear Hn. induction IH as [|t ts Ht _ IH']; simpl; [done|].
    apply Forall_cons in Hts as [? ?].
    rewrite Ht by (try done; apply Hd; set_solver). simpl.
    change (list_fmap _ _ of_tree ts) with (of_tree <$> ts).
    rewrite IH'; [done|done|]. intros c Hc. apply Hd. set_solver. }
  cbn [mbind res_bind of_tree]. do 2 f_equal. rewrite set_raws_set_raws, <-Hr. apply set_raws_raws.
Qed.
End walks_spec.

Section convert_spec.
Context {R R' : Type} `{RouteVersion R, RouteVersion R'}.
Context (f : R → R').
Hypothesis f_raws : ∀ l r, f (set_raws l r) = f r.

Lemma res_map_indexed {A B} (g : A → res B) (l : list A) ys :
  res_map (indexed g) (imap pair l) = Ok ys ↔ Forall2 (fun x y => g x = Ok y) l ys.
Proof.
  rewrite res_map_ok, !Forall2_same_length_lookup, length_imap. apply and_iff_compat_l.
  setoid_rewrite list_lookup_imap. unfold indexed. split.
  - intros Hl i x y Hx Hy. specialize (Hl i (i, x) y). rewrite Hx in Hl.
    specialize (Hl eq_refl Hy). simpl in Hl. by destruct (g x).
  - intros Hl i [j x] y Hx Hy. destruct (l !! i) as [x'|] eqn:E; simplify_eq/=.
    by rewrite (Hl j x y E Hy).
Qed.

(** Converting level by level is converting every route of the tree. *)
Lemma convert_with_ok n : ∀ r r',
  convert_with f n r = Ok r' ↔ ∃ t, tree_of n r = Ok t ∧ r' = of_tree (tree_map f t).
Proof.
  induction n as [|n IH]; intros r r'; simpl; [split; [done|by intros (? & ? & _)]|].
  destruct (child_routes r) as [crs| |] eqn:E; simpl; [|naive_solver..].
  split.
  - destruct (res_map _ (imap pair crs)) as [cs| |] eqn:Ec; simpl; [|done..]. intros [= <-].
    apply res_map_indexed in Ec.
    assert (∃ ts, res_map (tree_of n) crs = Ok ts ∧ cs = of_tree <$> (tree_map f <$> ts)) as (ts & -> & ->).
    { setoid_rewrite res_map_ok. clear E. induction Ec as [|c c' crs cs Hc _ (ts & Hts & ->)].
      - by exists [].
      - apply IH in Hc as (t & Ht & ->). exists (t :: ts). by split; [constructor|]. }
    simpl. eexists. split; [done|]. simpl. by rewrite f_raws, <-!list_fmap_compose.
  - intros (t & Ht & ->). destruct (res_map (tree_of n) crs) as [ts| |] eqn:Et; simpl in Ht; [|done..].
    injection Ht as <-. apply res_map_ok in Et.
    assert (res_map (indexed (convert_with f n)) (imap pair crs) = Ok (of_tree <$> (tree_map f <$> ts))) as ->.
    { apply res_map_indexed. clear E. induction Et as [|c t crs ts Hc _ IH']; simpl; constructor; [|done].
      apply IH. eauto. }
    simpl. by rewrite f_raws, <-!list_fmap_compose.
Qed.
Lemma convert_with_no_panic n : ∀ r, depth r ≤ n → no_panic (convert_with f n r).
Proof.
  induction n as [|n IH]; intros r Hn m; [unfold depth in Hn; lia|]. simpl.
  pose proof (Decode_all_no_panic (R := R) (raws r) 0 m) as Hc. fold (child_routes r) in Hc.
  destruct (child_routes r) as [crs| |] eqn:E; simpl; [|congruence..].
  assert (no_panic (res_map (indexed (convert_with f n)) (imap pair crs))) as Hp.
  { apply res_map_no_panic. intros [i c] Hc'.
    apply elem_of_lookup_imap in Hc' as (j & c' & [= -> ->] & Hl).
    apply list_elem_of_lookup_2 in Hl. pose proof (child_depth _ _ _ E Hl).
    intros m'. pose proof (IH c' ltac:(lia) m'). unfold indexed. simpl.
    destruct (convert_with f n c') eqn:?; simpl; congruence. }
  specialize (Hp m). destruct (res_map (indexed _) _) eqn:?; simpl; congruence.
Qed.
End convert_spec.

Section validate_spec.
Context {R : Type} `{RouteVersion R} (chk : bool → R → res ()).
Hypothesis chk_raws : ∀ top l r, chk top (set_raws l r) = chk top r.

Lemma for_each_indexed {A} (g : A → res ()) (l : list A) :
  for_each (indexed g) (imap pair l) = Ok () ↔ Forall (fun x => g x = Ok ()) l.
Proof.
  rewrite for_each_ok, !Forall_lookup. setoid_rewrite list_lookup_imap. unfold indexed. split.
  - intros Hl i x Hx. specialize (Hl i (i, x)). rewrite Hx in Hl. specialize (Hl eq_refl).
    simpl in Hl. by destruct (g x).
  - intros Hl i [j x] Hx. destruct (l !! i) as [x'|] eqn:E; simplify_eq/=. by rewrite (Hl j x E).
Qed.

(** Validating level by level accepts exactly the decodable trees of which every route passes. *)
Lemma validate_with_ok n : ∀ top r,
  validate_with chk n top r = Ok () ↔
  ∃ t, tree_of n r = Ok t ∧ tree_all (fun top r => chk top r = Ok ()) top t.
Proof.
  induction n as [|n IH]; intros top r; simpl; [split; [done|by intros (? & ? & _)]|].
  destruct (chk top r) as [[]| |] eqn:Ec; simpl.
  2-3: split; [done|]; intros (t & Ht & Ha); exfalso;
    destruct (child_routes r); simpl in Ht; [|done..]; destruct (res_map _ _); simpl in Ht; [|done..];
    injection Ht as <-; apply tree_all_inv in Ha as [Ha _]; rewrite chk_raws in Ha; congruence.
  destruct (child_routes r) as [crs| |] eqn:E; simpl; [|naive_solver..].
  rewrite for_each_indexed. split.
  - intros HF. assert (∃ ts, res_map (tree_of n) crs = Ok ts ∧
      Forall (tree_all (fun top r => chk top r = Ok ()) false) ts) as (ts & -> & Hts).
    { setoid_rewrite res_map_ok. clear E. induction HF as [|c crs Hc _ (ts & Hts & Ha)].
      - by exists [].
      - apply IH in Hc as (t & Ht & Hat). exists (t :: ts). by split; constructor. }
    simpl. eexists. split; [done|]. apply tree_all_inv. by rewrite chk_raws.
  - intros (t & Ht & Ha). destruct (res_map (tree_of n) crs) as [ts| |] eqn:Et; simpl in Ht; [|done..].
    injection Ht as <-. apply tree_all_inv in Ha as [_ Ha]. apply res_map_ok in Et.
    clear E. induction Et as [|c t crs ts Hc _ IH']; constructor.
    + apply IH. apply Forall_cons in Ha as [Ha _]. eauto.
    + apply IH'. by apply Forall_cons in Ha as [_ ?].
Qed.
Lemma validate_with_no_panic n :
  (∀ top r, no_panic (chk top r)) → ∀ top r, depth r ≤ n → no_panic (validate_with chk n top r).
Proof.
  intros Hchk. induction n as [|n IH]; intros top r Hn m; [unfold depth in Hn; lia|]. simpl.
  pose proof (Hchk top r m). destruct (chk top r) eqn:?; simpl; [|congruence..].
  pose proof (Decode_all_no_panic (R := R) (raws r) 0 m) as Hc. fold (child_routes r) in Hc.
  destruct (child_routes r) as [crs| |] eqn:E; simpl; [|congruence..].
  apply for_each_no_panic. intros [i c] Hc'.
  apply elem_of_lookup_imap in Hc' as (j & c' & [= -> ->] & Hl).
  apply list_elem_of_lookup_2 in Hl. pose proof (child_depth _ _ _ E Hl).
  intros m'. pose proof (IH false c' ltac:(lia) m'). unfold indexed. simpl.
  destruct (validate_with chk n false c') eqn:?; simpl; congruence.
Qed.
End validate_spec.
