(* ===== verification/MonitoringV1.v ===== *)
(** * Shared API types: pkg/apis/monitoring/v1

    The selectors, credentials, TLS and proxy settings that the AlertmanagerConfig types embed,
    with their semantic validation. [url.Parse] is an argument of the definitions that call it:
    nothing here depends on which URLs it accepts. *)

From S2P Require Import Prelude GoStrings SortUtil Meta.

(** v1.SecretKeySelector and v1.ConfigMapKeySelector of k8s.io/api. *)
Record SecretKeySelector := {
  SecretKeySelector_Name : string;
  SecretKeySelector_Key : string;
  SecretKeySelector_Optional : option bool;
}.
Record ConfigMapKeySelector := {
  ConfigMapKeySelector_Name : string;
  ConfigMapKeySelector_Key : string;
  ConfigMapKeySelector_Optional : option bool;
}.
#[global] Instance SecretKeySelector_eq_dec : EqDecision SecretKeySelector.
Proof. solve_decision. Defined.
#[global] Instance ConfigMapKeySelector_eq_dec : EqDecision ConfigMapKeySelector.
Proof. solve_decision. Defined.
Definition zero_selector : SecretKeySelector :=
  {| SecretKeySelector_Name := ""; SecretKeySelector_Key := ""; SecretKeySelector_Optional := None |}.

Record SecretOrConfigMap := {
  SecretOrConfigMap_Secret : option SecretKeySelector;
  SecretOrConfigMap_ConfigMap : option ConfigMapKeySelector;
}.
#[global] Instance SecretOrConfigMap_eq_dec : EqDecision SecretOrConfigMap.
Proof. solve_decision. Defined.
Definition zero_SecretOrConfigMap : SecretOrConfigMap :=
  {| SecretOrConfigMap_Secret := None; SecretOrConfigMap_ConfigMap := None |}.

Record SafeAuthorization := {
  SafeAuthorization_Type : string;
  SafeAuthorization_Credentials : option SecretKeySelector;
}.
Record BasicAuth := {
  BasicAuth_Username : SecretKeySelector;
  BasicAuth_Password : SecretKeySelector;
}.
Record SafeTLSConfig := {
  SafeTLSConfig_CA : SecretOrConfigMap;
  SafeTLSConfig_Cert : SecretOrConfigMap;
  SafeTLSConfig_KeySecret : option SecretKeySelector;
  SafeTLSConfig_ServerName : option string;
  SafeTLSConfig_InsecureSkipVerify : option bool;
  SafeTLSConfig_MinVersion : option string;
  SafeTLSConfig_MaxVersion : option string;
}.
Record ProxyConfig := {
  ProxyConfig_ProxyURL : option string;
  ProxyConfig_NoProxy : option string;
  ProxyConfig_ProxyFromEnvironment : option bool;
  ProxyConfig_ProxyConnectHeader : option (gmap string (list SecretKeySelector));
}.
Record OAuth2 := {
  OAuth2_ClientID : SecretOrConfigMap;
  OAuth2_ClientSecret : SecretKeySelector;
  OAuth2_TokenURL : string;
  OAuth2_Scopes : list string;
  OAuth2_EndpointParams : gomap;
  OAuth2_TLSConfig : option SafeTLSConfig;
  OAuth2_ProxyConfig : ProxyConfig;
}.
Record Sigv4 := {
  Sigv4_Region : string;
  Sigv4_AccessKey : option SecretKeySelector;
  Sigv4_SecretKey : option SecretKeySelector;
  Sigv4_Profile : string;
  Sigv4_RoleArn : string;
}.

(** [if err := f(); err != nil { return err }] and an error of the source's own. *)
Definition check (b : bool) (msg : string) : res () := if b then Err (Errorf msg []) else Ok ().
Lemma check_ok b msg : check b msg = Ok () ↔ b = false.
Proof. by destruct b. Qed.
Definition is_set {A} (o : option A) : bool := match o with Some _ => true | None => false end.

Definition SecretOrConfigMap_Validate (c : SecretOrConfigMap) : res () :=
  check (is_set (SecretOrConfigMap_Secret c) && is_set (SecretOrConfigMap_ConfigMap c))
    "cannot specify both Secret and ConfigMap".

Definition SecretOrConfigMap_String (c : SecretOrConfigMap) : string :=
  match SecretOrConfigMap_Secret c, SecretOrConfigMap_ConfigMap c with
  | Some s, _ => "<secret=" +:+ SecretKeySelector_Name s +:+ ",key=" +:+ SecretKeySelector_Key s +:+ ">"
  | None, Some s =>
      "<configmap=" +:+ ConfigMapKeySelector_Name s +:+ ",key=" +:+ ConfigMapKeySelector_Key s +:+ ">"
  | None, None => "<empty>"
  end.

Definition SafeAuthorization_Validate (o : option SafeAuthorization) : res () :=
  match o with
  | None => Ok ()
  | Some c =>
      if bool_decide (ToLower (TrimSpace (SafeAuthorization_Type c)) = "basic")
      then Err (Errorf "Authorization type cannot be set to basic, use basic_auth instead" [])
      else check (negb (is_set (SafeAuthorization_Credentials c)))
             "Authorization credentials are required"
  end.

(** [strings.Compare(max, min) == -1]. *)
Definition str_lt (s t : string) : bool := bool_decide (str_le s t) && bool_decide (s ≠ t).

Definition SafeTLSConfig_Validate (o : option SafeTLSConfig) : res () :=
  match o with
  | None => Ok ()
  | Some c =>
      let CA := SafeTLSConfig_CA c in
      let Cert := SafeTLSConfig_Cert c in
      let hasCert := bool_decide (Cert ≠ zero_SecretOrConfigMap) in
      let hasKey := is_set (SafeTLSConfig_KeySecret c) in
      _ ← (if bool_decide (CA ≠ zero_SecretOrConfigMap)
           then wrap "ca %s: %w" [SecretOrConfigMap_String CA] (SecretOrConfigMap_Validate CA)
           else Ok ());
      _ ← (if hasCert
           then wrap "cert %s: %w" [SecretOrConfigMap_String Cert] (SecretOrConfigMap_Validate Cert)
           else Ok ());
      _ ← check (hasCert && negb hasKey) "client cert specified without client key";
      _ ← check (hasKey && negb hasCert) "client key specified without client cert";
      match SafeTLSConfig_MaxVersion c, SafeTLSConfig_MinVersion c with
      | Some max, Some min => check (str_lt max min) "maxVersion must more than or equal to minVersion"
      | _, _ => Ok ()
      end
  end.

Section proxy.
Context (url_Parse : string → res ()).

(** One entry of [ProxyConnectHeader]. *)
Definition connect_header_ok (kv : string * list SecretKeySelector) : res () :=
  let '(k, v) := kv in
  _ ← (if bool_decide (v = []) then
         Err (Errorf "proxyConnetHeader[%s]: selector must not be empty" [k]) else Ok ());
  for_each (fun '(i, sel) =>
      if bool_decide (sel = zero_selector)
      then Err (Errorf "proxyConnectHeader[%s][%d]: selector must be defined" [k; Itoa (Z.of_nat i)])
      else Ok ()) (imap pair v).

(** The receiver is never nil here and [reflect.ValueOf(pc).IsZero()] looks at the pointer, so
    the early returns are not taken. The entries of the header map are visited in some order. *)
Definition ProxyConfig_Validate (pc : ProxyConfig) : res () :=
  let proxyFromEnvironmentDefined := default false (ProxyConfig_ProxyFromEnvironment pc) in
  let proxyURLDefined := bool_decide (default "" (ProxyConfig_ProxyURL pc) ≠ "") in
  let noProxyDefined := bool_decide (default "" (ProxyConfig_NoProxy pc) ≠ "") in
  _ ← check (bool_decide (default ∅ (ProxyConfig_ProxyConnectHeader pc) ≠ ∅)
             && negb proxyFromEnvironmentDefined && negb proxyURLDefined)
        "if proxyConnectHeader is configured, proxyUrl or proxyFromEnvironment must also be configured";
  _ ← check (proxyFromEnvironmentDefined && proxyURLDefined)
        "if proxyFromEnvironment is configured, proxyUrl must not be configured";
  _ ← check (proxyFromEnvironmentDefined && noProxyDefined)
        "if proxyFromEnvironment is configured, noProxy must not be configured";
  _ ← check (negb proxyURLDefined && noProxyDefined)
        "if noProxy is configured, proxyUrl must also be configured";
  _ ← for_each connect_header_ok (map_to_list (default ∅ (ProxyConfig_ProxyConnectHeader pc)));
  match ProxyConfig_ProxyURL pc with Some u => url_Parse u | None => Ok () end.

(** The inner errors are printed into the text of the outer one. *)
Definition OAuth2_Validate (o : OAuth2) : res () :=
  _ ← check (bool_decide (OAuth2_TokenURL o = "")) "OAuth2 token url must be specified";
  _ ← check (bool_decide (OAuth2_ClientID o = zero_SecretOrConfigMap))
        "OAuth2 client id must be specified";
  _ ← wrap "invalid OAuth2 client id: %s" [] (SecretOrConfigMap_Validate (OAuth2_ClientID o));
  wrap "invalid OAuth2 tlsConfig: %s" [] (SafeTLSConfig_Validate (OAuth2_TLSConfig o)).

(** [HTTPConfig.Validate] of v1alpha1 and v1beta1, which differ in the type of the bearer token
    secret only; the code asks for nothing but its presence. *)
Definition HTTPConfig_Validate_fields (Authorization : option SafeAuthorization)
    (BasicAuth : option BasicAuth) (OAuth2 : option OAuth2) (hasBearerTokenSecret : bool)
    (TLSConfig : option SafeTLSConfig) (Proxy : ProxyConfig) : res () :=
  _ ← check ((is_set BasicAuth || is_set OAuth2) && hasBearerTokenSecret)
        "at most one of basicAuth, oauth2, bearerTokenSecret must be configured";
  _ ← (if is_set Authorization then
         _ ← check hasBearerTokenSecret "authorization is not compatible with bearerTokenSecret";
         _ ← check (is_set BasicAuth || is_set OAuth2)
               "at most one of basicAuth, oauth2 & authorization must be configured";
         SafeAuthorization_Validate Authorization
       else Ok ());
  _ ← match OAuth2 with
      | Some o =>
          _ ← check (is_set BasicAuth)
                "at most one of basicAuth, oauth2 & authorization must be configured";
          OAuth2_Validate o
      | None => Ok ()
      end;
  _ ← SafeTLSConfig_Validate TLSConfig;
  ProxyConfig_Validate Proxy.
End proxy.
