(* ===== verification/TimeRanges.v ===== *)
(** * Time ranges of mute and active time intervals

    The parsers of pkg/apis/monitoring/v1alpha1/validation.go, which v1beta1/validation.go repeats
    literally: times of day, weekdays, days of the month, months and years. The named string types
    ([Time], [WeekdayRange], [Month], ...) are strings. *)

From S2P Require Import Prelude GoStrings.

Record ParsedRange := { Start : Z; End : Z }.
#[global] Instance ParsedRange_eq_dec : EqDecision ParsedRange.
Proof. solve_decision. Defined.

(** ** Times of day *)

Definition in_range (lo hi c : ascii) : bool :=
  (N_of_ascii lo <=? N_of_ascii c)%N && (N_of_ascii c <=? N_of_ascii hi)%N.
Definition colon : ascii := ":"%char.

(** [validTimeRE]: the pattern is five characters long on both sides of the alternative. *)
Definition validTimeRE (s : string) : bool :=
  match s with
  | String a (String b (String c (String d (String e EmptyString)))) =>
      ((in_range "0" "1" a && in_range "0" "9" b || Ascii.eqb a "2" && in_range "0" "3" b)
         && Ascii.eqb c colon && in_range "0" "5" d && in_range "0" "9" e)
      || String.eqb s "24:00"
  | _ => false
  end.

Definition parseTime (s : string) : res Z :=
  if negb (validTimeRE s) then
    Err (Errorf "couldn't parse timestamp %s, invalid format" [s])
  else
    match Split s colon with
    | [h; m] =>
        timeStampHours ← Atoi h;
        timeStampMinutes ← Atoi m;
        if bool_decide (timeStampHours < 0 ∨ 24 < timeStampHours ∨
                        timeStampMinutes < 0 ∨ 60 < timeStampMinutes)%Z
        then Err (Errorf "timestamp %s out of range" [s])
        else Ok (timeStampHours * 60 + timeStampMinutes)%Z
    | _ => Err (Errorf "invalid timestamp format: %s" [s])
    end.

Definition TimeRange_Parse (StartTime EndTime : string) : res ParsedRange :=
  if bool_decide (StartTime = "" ∨ EndTime = "") then Err (Errorf "start and end are required" [])
  else
    start ← wrap "start time invalid: %w" [] (parseTime StartTime);
    end_ ← wrap "end time invalid: %w" [] (parseTime EndTime);
    if bool_decide (end_ ≤ start)%Z then
      Err (Errorf "start time %d cannot be equal or greater than end time %d" [Itoa start; Itoa end_])
    else Ok {| Start := start; End := end_ |}.

(** ** Ranges [a] and [a:b] *)

Definition parseRange (s : string) : res (string * string) :=
  if negb (contains_char colon s) then Ok (s, s)
  else match Split s colon with
       | [a; b] => Ok (a, b)
       | _ => Err (Errorf "invalid range provided %s" [s])
       end.

Definition daysOfWeek : list (string * Z) :=
  [("sunday", 0); ("monday", 1); ("tuesday", 2); ("wednesday", 3); ("thursday", 4);
   ("friday", 5); ("saturday", 6)]%Z.
Definition months : list (string * Z) :=
  [("january", 1); ("february", 2); ("march", 3); ("april", 4); ("may", 5); ("june", 6);
   ("july", 7); ("august", 8); ("september", 9); ("october", 10); ("november", 11);
   ("december", 12)]%Z.
Definition assoc {V} (k : string) (m : list (string * V)) : option V :=
  snd <$> (snd <$> list_find (fun kv => kv.1 = k) m).

Definition Weekday_Int (w : string) : res Z :=
  let normaliseWeekday := ToLower w in
  match assoc normaliseWeekday daysOfWeek with
  | Some day => Ok day
  | None =>
      match Atoi normaliseWeekday with
      | Ok i => Ok i
      | _ => Err (Errorf "%s is an invalid weekday" [w])
      end
  end.
Definition Month_Int (m : string) : res Z :=
  let normaliseMonth := ToLower m in
  match assoc normaliseMonth months with
  | Some month => Ok month
  | None =>
      match Atoi normaliseMonth with
      | Ok i => if bool_decide (i < 1 ∨ 12 < i)%Z then Err (Errorf "%s is an invalid month" [m]) else Ok i
      | _ => Err (Errorf "%s is an invalid month" [m])
      end
  end.

Definition WeekdayRange_Parse (wr : string) : res ParsedRange :=
  '(startStr, endStr) ← parseRange wr;
  start ← wrap "failed to parse start day from weekday range: %w" [] (Weekday_Int startStr);
  end_ ← wrap "failed to parse end day from weekday range: %w" [] (Weekday_Int endStr);
  if bool_decide (end_ < start)%Z then Err (Errorf "start day cannot be before end day" [])
  else if bool_decide (start < 0 ∨ 6 < start)%Z then
    Err (Errorf "%s is not a valid day of the week: out of range" [startStr])
  else if bool_decide (end_ < 0 ∨ 6 < end_)%Z then
    Err (Errorf "%s is not a valid day of the week: out of range" [endStr])
  else Ok {| Start := start; End := end_ |}.

Definition YearRange_Parse (yr : string) : res ParsedRange :=
  '(startStr, endStr) ← parseRange yr;
  start ← wrap "start year cannot be %s parsed: %w" [startStr] (Atoi startStr);
  end_ ← wrap "end year cannot be %s parsed: %w" [endStr] (Atoi endStr);
  if bool_decide (end_ < start)%Z then
    Err (Errorf "end year %d is before start year %d" [Itoa end_; Itoa start])
  else Ok {| Start := start; End := end_ |}.

Definition MonthRange_Parse (mr : string) : res ParsedRange :=
  '(startStr, endStr) ← parseRange mr;
  start ← wrap "failed to parse start month from month range: %w" [] (Month_Int startStr);
  end_ ← wrap "failed to parse start month from month range: %w" [] (Month_Int endStr);
  if bool_decide (end_ < start)%Z then
    Err (Errorf "end month %s is before start month %s" [endStr; startStr])
  else Ok {| Start := start; End := end_ |}.

Definition DayOfMonthRange_Validate (start end_ : Z) : res () :=
  let out_of_range d := Err (Errorf "%d is not a valid day of the month: out of range" [Itoa d]) in
  if bool_decide (start = 0 ∨ start < -31 ∨ 31 < start)%Z then out_of_range start
  else if bool_decide (end_ = 0 ∨ end_ < -31 ∨ 31 < end_)%Z then out_of_range end_
  else if bool_decide (start < 0 ∧ 0 < end_)%Z then
    Err (Errorf "end day must be negative if start day is negative" [])
  else
    let checkBegin := if bool_decide (start < 0)%Z then (28 + start)%Z else start in
    let checkEnd := if bool_decide (end_ < 0)%Z then (28 + end_)%Z else end_ in
    if bool_decide (checkEnd < checkBegin)%Z then
      Err (Errorf "end day %d is always before start day %d" [Itoa end_; Itoa start])
    else Ok ().

(** [Validate] of the range types drops the parsed value. *)
Definition Validate_of {A} (r : res A) : res () := r ≫= fun _ => Ok ().

(** ** Times of day are exactly the strings HH:MM from 00:00 to 24:00 *)

Definition two_digits (z : Z) : string :=
  let d n := String (ascii_of_N (48 + Z.to_N n)) EmptyString in d (z / 10)%Z +:+ d (z mod 10)%Z.
Definition hhmm (z : Z) : string := two_digits (z / 60) +:+ ":" +:+ two_digits (z mod 60).

Definition digits_to (n : nat) : list ascii := (fun i => ascii_of_nat (48 + i)) <$> seq 0 (S n).
Lemma in_range_digits n c :
  n ≤ 9 → in_range "0" (ascii_of_nat (48 + n)) c = true → c ∈ digits_to n.
Proof.
  intros Hn H. unfold in_range in H. apply andb_prop in H as [H1%N.leb_le H2%N.leb_le].
  unfold ascii_of_nat in H2. rewrite N_ascii_embedding in H2 by lia.
  change (N_of_ascii "0") with 48%N in H1.
  apply list_elem_of_fmap. exists (nat_of_ascii c - 48). unfold nat_of_ascii. split.
  - replace (48 + (N.to_nat (N_of_ascii c) - 48)) with (nat_of_ascii c) by (unfold nat_of_ascii; lia).
    by rewrite ascii_nat_embedding.
  - apply elem_of_seq. lia.
Qed.

(** The candidates: five characters, digits around a colon. *)
Definition candidates : list string :=
  a ← digits_to 2; b ← digits_to 9; d ← digits_to 5; e ← digits_to 9;
  [String a (String b (String colon (String d (String e EmptyString))))].
Lemma elem_of_candidates a b d e :
  a ∈ digits_to 2 → b ∈ digits_to 9 → d ∈ digits_to 5 → e ∈ digits_to 9 →
  String a (String b (String colon (String d (String e EmptyString)))) ∈ candidates.
Proof.
  intros Ha Hb Hd He. unfold candidates. repeat setoid_rewrite list_elem_of_bind.
  exists a. split; [|done]. exists b. split; [|done]. exists d. split; [|done].
  exists e. split; [|done]. by apply list_elem_of_singleton.
Qed.
Lemma in_range_weaken c (n m : nat) :
  n ≤ m → m ≤ 9 → in_range "0" (ascii_of_nat (48 + n)) c = true →
  in_range "0" (ascii_of_nat (48 + m)) c = true.
Proof.
  unfold in_range, ascii_of_nat. intros ? ?. rewrite !N_ascii_embedding by lia.
  rewrite !andb_true_iff, !N.leb_le. lia.
Qed.
Lemma validTimeRE_candidate s : validTimeRE s = true → s ∈ candidates.
Proof.
  destruct s as [|a [|b [|c [|d [|e [|]]]]]]; try done. unfold validTimeRE.
  rewrite orb_true_iff, !andb_true_iff, orb_true_iff, !andb_true_iff, !Ascii.eqb_eq.
  intros [[[[Hab ->] Hd%(in_range_digits 5)] He%(in_range_digits 9)] | [= -> -> -> -> ->]%String.eqb_eq];
    try lia; apply elem_of_candidates; try done; try (apply (in_range_digits 9); [lia|]).
  - destruct Hab as [[Ha _]|[-> _]]; apply (in_range_digits 2); try done; try lia.
    by apply (in_range_weaken _ 1); [lia..|].
  - destruct Hab as [[_ Hb]|[_ Hb]]; [done|]. by apply (in_range_weaken _ 3); [lia..|].
  - by apply (in_range_digits 2); [lia|].
  - done.
  - by apply (in_range_digits 5); [lia|].
  - done.
Qed.

Definition candidate_ok (s : string) : bool :=
  match parseTime s with
  | Ok m => bool_decide (0 ≤ m ≤ 1440)%Z && bool_decide (s = hhmm m)
  | _ => negb (validTimeRE s)
  end.
Lemma candidates_ok : forallb candidate_ok candidates = true.
Proof. vm_compute. reflexivity. Qed.
Lemma hhmm_ok :
  forallb (fun n => bool_decide (parseTime (hhmm (Z.of_nat n)) = Ok (Z.of_nat n))) (seq 0 1441) = true.
Proof. vm_compute. reflexivity. Qed.

Lemma parseTime_ok s m : parseTime s = Ok m → (0 ≤ m ≤ 1440)%Z ∧ s = hhmm m.
Proof.
  intros H. assert (validTimeRE s = true) as Hv.
  { unfold parseTime in H. by destruct (validTimeRE s). }
  pose proof candidates_ok as Hc. rewrite forallb_forall in Hc.
  specialize (Hc s (proj1 (list_elem_of_In _ _) (validTimeRE_candidate _ Hv))).
  unfold candidate_ok in Hc. rewrite H in Hc.
  by apply andb_prop in Hc as [?%bool_decide_eq_true ?%bool_decide_eq_true].
Qed.

(** C40: A time of day is accepted exactly when it is the two-digit rendering HH:MM of a number of
    minutes from 00:00 to 24:00, and then parses to that number. *)
Theorem parseTime_iff (s : string) (m : Z) :
  parseTime s = Ok m ↔ (0 ≤ m ≤ 1440)%Z ∧ s = hhmm m.
Proof.
  split; [apply parseTime_ok|]. intros [Hm ->].
  pose proof hhmm_ok as H. rewrite forallb_forall in H. specialize (H (Z.to_nat m)).
  rewrite Z2Nat.id in H by lia. eapply bool_decide_eq_true, H. apply in_seq. lia.
Qed.

(** ** Accepted ranges are ordered and within bounds *)

Definition ordered_within (lo hi : Z) (r : ParsedRange) : Prop :=
  (lo ≤ Start r ∧ Start r ≤ End r ∧ End r ≤ hi)%Z.

Lemma assoc_elem {V} k (m : list (string * V)) v : assoc k m = Some v → (k, v) ∈ m.
Proof.
  unfold assoc. destruct (list_find _ m) as [[i [k' v']]|] eqn:E; [|done]. simpl. intros [= <-].
  apply list_find_Some in E as (Hi & Hk & _). simpl in Hk. subst. by eapply list_elem_of_lookup_2.
Qed.
Lemma Month_Int_range m z : Month_Int m = Ok z → (1 ≤ z ≤ 12)%Z.
Proof.
  unfold Month_Int. destruct (assoc _ _) as [v|] eqn:E.
  - intros [= <-]. apply assoc_elem in E. unfold months in E.
    repeat (apply elem_of_cons in E as [[= _ ->]|E]; [lia|]). by apply not_elem_of_nil in E.
  - destruct (Atoi _); [|done..]. case_bool_decide; [done|]. intros [= <-]. lia.
Qed.

(** Split a monadic computation that succeeded into its steps. *)
Ltac run_parser H :=
  repeat match type of H with
  | (wrap _ _ ?x) ≫= _ = Ok _ =>
      let v := fresh "v" in let E := fresh "E" in destruct x as [v| |] eqn:E; simpl in H; try done
  | ?x ≫= _ = Ok _ =>
      let v := fresh "v" in let E := fresh "E" in destruct x as [v| |] eqn:E; simpl in H; try done
  | (let '(_, _) := ?p in _) = Ok _ => destruct p
  | (if bool_decide _ then _ else _) = Ok _ => case_bool_decide; try done
  | Ok _ = Ok _ => injection H as <-
  end.

(** Every accepted time, weekday, month or year range has its start not after its end (for
    times: strictly before) and both within the bounds of the kind: 0 to 1440 minutes, days 0 to
    6, months 1 to 12, 64-bit years. *)
Theorem parsed_ranges_bounded (s t : string) (r : ParsedRange) :
  (TimeRange_Parse s t = Ok r → ordered_within 0 1440 r ∧ (Start r < End r)%Z) ∧
  (WeekdayRange_Parse s = Ok r → ordered_within 0 6 r) ∧
  (MonthRange_Parse s = Ok r → ordered_within 1 12 r) ∧
  (YearRange_Parse s = Ok r → ordered_within min_int64 max_int64 r).
Proof.
  unfold ordered_within. split_and!; intros H.
  - unfold TimeRange_Parse in H. case_bool_decide; [done|]. run_parser H. simpl.
    apply parseTime_ok in E as [? _], E0 as [? _]. lia.
  - unfold WeekdayRange_Parse in H. run_parser H. simpl. lia.
  - unfold MonthRange_Parse in H. run_parser H. simpl.
    apply Month_Int_range in E0, E1. lia.
  - unfold YearRange_Parse in H. run_parser H. simpl.
    apply Atoi_range in E0, E1. lia.
Qed.

(** ** Days of the month *)

(** The day an index denotes in a month of [len] days: negative indices count from the end. *)
Definition resolve_day (len d : Z) : Z := if decide (d < 0)%Z then (len + d + 1)%Z else d.

(** An accepted range of days is never empty: in a month of any length its first day is not
    after its last day. *)
Theorem DayOfMonthRange_Validate_sound (start end_ len : Z)
    (Hlen : (28 ≤ len ≤ 31)%Z) (H : DayOfMonthRange_Validate start end_ = Ok ()) :
  (resolve_day len start ≤ resolve_day len end_)%Z ∧
  (1 ≤ Z.abs start ≤ 31)%Z ∧ (1 ≤ Z.abs end_ ≤ 31)%Z.
Proof.
  unfold DayOfMonthRange_Validate in H. repeat (case_bool_decide; try done);
    unfold resolve_day; repeat case_decide; lia.
Qed.
Lemma DayOfMonthRange_Validate_sound_witness :
  (resolve_day 28 15 ≤ resolve_day 28 (-1))%Z.
Proof. apply (DayOfMonthRange_Validate_sound 15 (-1) 28); [lia|reflexivity]. Defined.

(** The range from day 28 to the last day of the month is refused as one whose end is always
    before its start, although it is not empty in any month. *)
Lemma DayOfMonthRange_Validate_refuses_last_day :
  DayOfMonthRange_Validate 28 (-1)
    = Err (Errorf "end day %d is always before start day %d" ["-1"; "28"]) ∧
  ∀ len, (28 ≤ len ≤ 31)%Z → (resolve_day len 28 ≤ resolve_day len (-1))%Z.
Proof.
  split; [vm_compute; reflexivity|]. intros len Hlen. unfold resolve_day.
  repeat case_decide; lia.
Qed.
