(* ===== verification/V1alpha1.v ===== *)
(** * AlertmanagerConfig v1alpha1: types, child routes and validation

    pkg/apis/monitoring/v1alpha1/alertmanager_config_types.go and validation.go. A field [F] of the
    struct [T] is [T_F]; a pointer is an [option], a slice a list (a nil slice is an empty one:
    they marshal alike), named string types are strings, [TypeMeta] is left out. *)

From S2P Require Import Prelude GoStrings Meta Json RouteTree MonitoringV1 TimeRanges.

Module v1alpha1.

Record Matcher := {
  Matcher_Name : string;
  Matcher_Value : string;
  Matcher_MatchType : string;
  Matcher_Regex : bool;
}.
Record Route := {
  Route_Receiver : string;
  Route_GroupBy : list string;
  Route_GroupWait : string;
  Route_GroupInterval : string;
  Route_RepeatInterval : string;
  Route_Matchers : list Matcher;
  Route_Continue : bool;
  Route_Routes : list (option json);
  Route_MuteTimeIntervals : list string;
  Route_ActiveTimeIntervals : list string;
}.
Record KeyValue := {
  KeyValue_Key : string;
  KeyValue_Value : string;
}.
Record OpsGenieConfigResponder := {
  OpsGenieConfigResponder_ID : string;
  OpsGenieConfigResponder_Name : string;
  OpsGenieConfigResponder_Username : string;
  OpsGenieConfigResponder_Type : string;
}.
Record HTTPConfig := {
  HTTPConfig_Authorization : option MonitoringV1.SafeAuthorization;
  HTTPConfig_BasicAuth : option MonitoringV1.BasicAuth;
  HTTPConfig_OAuth2 : option MonitoringV1.OAuth2;
  HTTPConfig_BearerTokenSecret : option MonitoringV1.SecretKeySelector;
  HTTPConfig_TLSConfig : option MonitoringV1.SafeTLSConfig;
  HTTPConfig_ProxyURLOriginal : option string;
  HTTPConfig_ProxyConfig : MonitoringV1.ProxyConfig;
  HTTPConfig_FollowRedirects : option bool;
}.
Record OpsGenieConfig := {
  OpsGenieConfig_SendResolved : option bool;
  OpsGenieConfig_APIKey : option MonitoringV1.SecretKeySelector;
  OpsGenieConfig_APIURL : string;
  OpsGenieConfig_Message : string;
  OpsGenieConfig_Description : string;
  OpsGenieConfig_Source : string;
  OpsGenieConfig_Tags : string;
  OpsGenieConfig_Note : string;
  OpsGenieConfig_Priority : string;
  OpsGenieConfig_UpdateAlerts : option bool;
  OpsGenieConfig_Details : list KeyValue;
  OpsGenieConfig_Responders : list OpsGenieConfigResponder;
  OpsGenieConfig_HTTPConfig : option HTTPConfig;
  OpsGenieConfig_Entity : string;
  OpsGenieConfig_Actions : string;
}.
Record PagerDutyImageConfig := {
  PagerDutyImageConfig_Src : string;
  PagerDutyImageConfig_Href : string;
  PagerDutyImageConfig_Alt : string;
}.
Record PagerDutyLinkConfig := {
  PagerDutyLinkConfig_Href : string;
  PagerDutyLinkConfig_Text : string;
}.
Record PagerDutyConfig := {
  PagerDutyConfig_SendResolved : option bool;
  PagerDutyConfig_RoutingKey : option MonitoringV1.SecretKeySelector;
  PagerDutyConfig_ServiceKey : option MonitoringV1.SecretKeySelector;
  PagerDutyConfig_URL : string;
  PagerDutyConfig_Client : string;
  PagerDutyConfig_ClientURL : string;
  PagerDutyConfig_Description : string;
  PagerDutyConfig_Severity : string;
  PagerDutyConfig_Class : string;
  PagerDutyConfig_Group : string;
  PagerDutyConfig_Component : string;
  PagerDutyConfig_Details : list KeyValue;
  PagerDutyConfig_PagerDutyImageConfigs : list PagerDutyImageConfig;
  PagerDutyConfig_PagerDutyLinkConfigs : list PagerDutyLinkConfig;
  PagerDutyConfig_HTTPConfig : option HTTPConfig;
  PagerDutyConfig_Source : option string;
}.
Record DiscordConfig := {
  DiscordConfig_SendResolved : option bool;
  DiscordConfig_APIURL : MonitoringV1.SecretKeySelector;
  DiscordConfig_Title : option string;
  DiscordConfig_Message : option string;
  DiscordConfig_Content : option string;
  DiscordConfig_Username : option string;
  DiscordConfig_AvatarURL : option string;
  DiscordConfig_HTTPConfig : option HTTPConfig;
}.
Record SlackField := {
  SlackField_Title : string;
  SlackField_Value : string;
  SlackField_Short : option bool;
}.
Record SlackConfirmationField := {
  SlackConfirmationField_Text : string;
  SlackConfirmationField_Title : string;
  SlackConfirmationField_OkText : string;
  SlackConfirmationField_DismissText : string;
}.
Record SlackAction := {
  SlackAction_Type : string;
  SlackAction_Text : string;
  SlackAction_URL : string;
  SlackAction_Style : string;
  SlackAction_Name : string;
  SlackAction_Value : string;
  SlackAction_ConfirmField : option SlackConfirmationField;
}.
Record SlackConfig := {
  SlackConfig_SendResolved : option bool;
  SlackConfig_APIURL : option MonitoringV1.SecretKeySelector;
  SlackConfig_Channel : string;
  SlackConfig_Username : string;
  SlackConfig_Color : string;
  SlackConfig_Title : string;
  SlackConfig_TitleLink : string;
  SlackConfig_Pretext : string;
  SlackConfig_Text : string;
  SlackConfig_Fields : list SlackField;
  SlackConfig_ShortFields : bool;
  SlackConfig_Footer : string;
  SlackConfig_Fallback : string;
  SlackConfig_CallbackID : string;
  SlackConfig_IconEmoji : string;
  SlackConfig_IconURL : string;
  SlackConfig_ImageURL : string;
  SlackConfig_ThumbURL : string;
  SlackConfig_LinkNames : bool;
  SlackConfig_MrkdwnIn : list string;
  SlackConfig_Actions : list SlackAction;
  SlackConfig_HTTPConfig : option HTTPConfig;
}.
Record WebhookConfig := {
  WebhookConfig_SendResolved : option bool;
  WebhookConfig_URL : option string;
  WebhookConfig_URLSecret : option MonitoringV1.SecretKeySelector;
  WebhookConfig_HTTPConfig : option HTTPConfig;
  WebhookConfig_MaxAlerts : Z;
  WebhookConfig_Timeout : option string;
}.
Record WeChatConfig := {
  WeChatConfig_SendResolved : option bool;
  WeChatConfig_APISecret : option MonitoringV1.SecretKeySelector;
  WeChatConfig_APIURL : string;
  WeChatConfig_CorpID : string;
  WeChatConfig_AgentID : string;
  WeChatConfig_ToUser : string;
  WeChatConfig_ToParty : string;
  WeChatConfig_ToTag : string;
  WeChatConfig_Message : string;
  WeChatConfig_MessageType : string;
  WeChatConfig_HTTPConfig : option HTTPConfig;
}.
Record EmailConfig := {
  EmailConfig_SendResolved : option bool;
  EmailConfig_To : string;
  EmailConfig_From : string;
  EmailConfig_Hello : string;
  EmailConfig_Smarthost : string;
  EmailConfig_AuthUsername : string;
  EmailConfig_AuthPassword : option MonitoringV1.SecretKeySelector;
  EmailConfig_AuthSecret : option MonitoringV1.SecretKeySelector;
  EmailConfig_AuthIdentity : string;
  EmailConfig_Headers : list KeyValue;
  EmailConfig_HTML : option string;
  EmailConfig_Text : option string;
  EmailConfig_RequireTLS : option bool;
  EmailConfig_TLSConfig : option MonitoringV1.SafeTLSConfig;
}.
Record VictorOpsConfig := {
  VictorOpsConfig_SendResolved : option bool;
  VictorOpsConfig_APIKey : option MonitoringV1.SecretKeySelector;
  VictorOpsConfig_APIURL : string;
  VictorOpsConfig_RoutingKey : string;
  VictorOpsConfig_MessageType : string;
  VictorOpsConfig_EntityDisplayName : string;
  VictorOpsConfig_StateMessage : string;
  VictorOpsConfig_MonitoringTool : string;
  VictorOpsConfig_CustomFields : list KeyValue;
  VictorOpsConfig_HTTPConfig : option HTTPConfig;
}.
Record PushoverConfig := {
  PushoverConfig_SendResolved : option bool;
  PushoverConfig_UserKey : option MonitoringV1.SecretKeySelector;
  PushoverConfig_UserKeyFile : option string;
  PushoverConfig_Token : option MonitoringV1.SecretKeySelector;
  PushoverConfig_TokenFile : option string;
  PushoverConfig_Title : string;
  PushoverConfig_Message : string;
  PushoverConfig_URL : string;
  PushoverConfig_URLTitle : string;
  PushoverConfig_TTL : option string;
  PushoverConfig_Device : option string;
  PushoverConfig_Sound : string;
  PushoverConfig_Priority : string;
  PushoverConfig_Retry : string;
  PushoverConfig_Expire : string;
  PushoverConfig_HTML : bool;
  PushoverConfig_HTTPConfig : option HTTPConfig;
}.
Record SNSConfig := {
  SNSConfig_SendResolved : option bool;
  SNSConfig_ApiURL : string;
  SNSConfig_Sigv4 : option MonitoringV1.Sigv4;
  SNSConfig_TopicARN : string;
  SNSConfig_Subject : string;
  SNSConfig_PhoneNumber : string;
  SNSConfig_TargetARN : string;
  SNSConfig_Message : string;
  SNSConfig_Attributes : gomap;
  SNSConfig_HTTPConfig : option HTTPConfig;
}.
Record TelegramConfig := {
  TelegramConfig_SendResolved : option bool;
  TelegramConfig_APIURL : string;
  TelegramConfig_BotToken : option MonitoringV1.SecretKeySelector;
  TelegramConfig_BotTokenFile : option string;
  TelegramConfig_ChatID : Z;
  TelegramConfig_MessageThreadID : option Z;
  TelegramConfig_Message : string;
  TelegramConfig_DisableNotifications : option bool;
  TelegramConfig_ParseMode : string;
  TelegramConfig_HTTPConfig : option HTTPConfig;
}.
Record WebexConfig := {
  WebexConfig_SendResolved : option bool;
  WebexConfig_APIURL : option string;
  WebexConfig_HTTPConfig : option HTTPConfig;
  WebexConfig_Message : option string;
  WebexConfig_RoomID : string;
}.
Record MSTeamsConfig := {
  MSTeamsConfig_SendResolved : option bool;
  MSTeamsConfig_WebhookURL : MonitoringV1.SecretKeySelector;
  MSTeamsConfig_Title : option string;
  MSTeamsConfig_Summary : option string;
  MSTeamsConfig_Text : option string;
  MSTeamsConfig_HTTPConfig : option HTTPConfig;
}.
Record MSTeamsV2Config := {
  MSTeamsV2Config_SendResolved : option bool;
  MSTeamsV2Config_WebhookURL : option MonitoringV1.SecretKeySelector;
  MSTeamsV2Config_Title : option string;
  MSTeamsV2Config_Text : option string;
  MSTeamsV2Config_HTTPConfig : option HTTPConfig;
}.
Record Receiver := {
  Receiver_Name : string;
  Receiver_OpsGenieConfigs : list OpsGenieConfig;
  Receiver_PagerDutyConfigs : list PagerDutyConfig;
  Receiver_DiscordConfigs : list DiscordConfig;
  Receiver_SlackConfigs : list SlackConfig;
  Receiver_WebhookConfigs : list WebhookConfig;
  Receiver_WeChatConfigs : list WeChatConfig;
  Receiver_EmailConfigs : list EmailConfig;
  Receiver_VictorOpsConfigs : list VictorOpsConfig;
  Receiver_PushoverConfigs : list PushoverConfig;
  Receiver_SNSConfigs : list SNSConfig;
  Receiver_TelegramConfigs : list TelegramConfig;
  Receiver_WebexConfigs : list WebexConfig;
  Receiver_MSTeamsConfigs : list MSTeamsConfig;
  Receiver_MSTeamsV2Configs : list MSTeamsV2Config;
}.
Record InhibitRule := {
  InhibitRule_TargetMatch : list Matcher;
  InhibitRule_SourceMatch : list Matcher;
  InhibitRule_Equal : list string;
}.
Record TimeRange := {
  TimeRange_StartTime : string;
  TimeRange_EndTime : string;
}.
Record DayOfMonthRange := {
  DayOfMonthRange_Start : Z;
  DayOfMonthRange_End : Z;
}.
Record TimeInterval := {
  TimeInterval_Times : list TimeRange;
  TimeInterval_Weekdays : list string;
  TimeInterval_DaysOfMonth : list DayOfMonthRange;
  TimeInterval_Months : list string;
  TimeInterval_Years : list string;
}.
Record MuteTimeInterval := {
  MuteTimeInterval_Name : string;
  MuteTimeInterval_TimeIntervals : list TimeInterval;
}.
Record AlertmanagerConfigSpec := {
  AlertmanagerConfigSpec_Route : option Route;
  AlertmanagerConfigSpec_Receivers : list Receiver;
  AlertmanagerConfigSpec_InhibitRules : list InhibitRule;
  AlertmanagerConfigSpec_MuteTimeIntervals : list MuteTimeInterval;
}.
Record AlertmanagerConfig := {
  AlertmanagerConfig_ObjectMeta : ObjectMeta;
  AlertmanagerConfig_Spec : AlertmanagerConfigSpec;
}.

(** ** Child routes: raw JSON, decoded on demand *)

Definition Matcher_zero : Matcher := {|
  Matcher_Name := ""; Matcher_Value := ""; Matcher_MatchType := ""; Matcher_Regex := false |}.
Definition Route_zero : Route := {|
  Route_Receiver := ""; Route_GroupBy := []; Route_GroupWait := ""; Route_GroupInterval := "";
  Route_RepeatInterval := ""; Route_Matchers := []; Route_Continue := false;
  Route_Routes := []; Route_MuteTimeIntervals := []; Route_ActiveTimeIntervals := [] |}.

Definition set_Matcher_Name (v : string) (r : Matcher) : Matcher := {|
  Matcher_Name := v; Matcher_Value := Matcher_Value r;
  Matcher_MatchType := Matcher_MatchType r; Matcher_Regex := Matcher_Regex r |}.
Definition set_Matcher_Value (v : string) (r : Matcher) : Matcher := {|
  Matcher_Name := Matcher_Name r; Matcher_Value := v; Matcher_MatchType := Matcher_MatchType r;
  Matcher_Regex := Matcher_Regex r |}.
Definition set_Matcher_MatchType (v : string) (r : Matcher) : Matcher := {|
  Matcher_Name := Matcher_Name r; Matcher_Value := Matcher_Value r; Matcher_MatchType := v;
  Matcher_Regex := Matcher_Regex r |}.
Definition set_Matcher_Regex (v : bool) (r : Matcher) : Matcher := {|
  Matcher_Name := Matcher_Name r; Matcher_Value := Matcher_Value r;
  Matcher_MatchType := Matcher_MatchType r; Matcher_Regex := v |}.
Definition set_Route_Receiver (v : string) (r : Route) : Route := {|
  Route_Receiver := v; Route_GroupBy := Route_GroupBy r; Route_GroupWait := Route_GroupWait r;
  Route_GroupInterval := Route_GroupInterval r; Route_RepeatInterval := Route_RepeatInterval r;
  Route_Matchers := Route_Matchers r; Route_Continue := Route_Continue r;
  Route_Routes := Route_Routes r; Route_MuteTimeIntervals := Route_MuteTimeIntervals r;
  Route_ActiveTimeIntervals := Route_ActiveTimeIntervals r |}.
Definition set_Route_GroupBy (v : list string) (r : Route) : Route := {|
  Route_Receiver := Route_Receiver r; Route_GroupBy := v; Route_GroupWait := Route_GroupWait r;
  Route_GroupInterval := Route_GroupInterval r; Route_RepeatInterval := Route_RepeatInterval r;
  Route_Matchers := Route_Matchers r; Route_Continue := Route_Continue r;
  Route_Routes := Route_Routes r; Route_MuteTimeIntervals := Route_MuteTimeIntervals r;
  Route_ActiveTimeIntervals := Route_ActiveTimeIntervals r |}.
Definition set_Route_GroupWait (v : string) (r : Route) : Route := {|
  Route_Receiver := Route_Receiver r; Route_GroupBy := Route_GroupBy r; Route_GroupWait := v;
  Route_GroupInterval := Route_GroupInterval r; Route_RepeatInterval := Route_RepeatInterval r;
  Route_Matchers := Route_Matchers r; Route_Continue := Route_Continue r;
  Route_Routes := Route_Routes r; Route_MuteTimeIntervals := Route_MuteTimeIntervals r;
  Route_ActiveTimeIntervals := Route_ActiveTimeIntervals r |}.
Definition set_Route_GroupInterval (v : string) (r : Route) : Route := {|
  Route_Receiver := Route_Receiver r; Route_GroupBy := Route_GroupBy r;
  Route_GroupWait := Route_GroupWait r; Route_GroupInterval := v;
  Route_RepeatInterval := Route_RepeatInterval r; Route_Matchers := Route_Matchers r;
  Route_Continue := Route_Continue r; Route_Routes := Route_Routes r;
  Route_MuteTimeIntervals := Route_MuteTimeIntervals r;
  Route_ActiveTimeIntervals := Route_ActiveTimeIntervals r |}.
Definition set_Route_RepeatInterval (v : string) (r : Route) : Route := {|
  Route_Receiver := Route_Receiver r; Route_GroupBy := Route_GroupBy r;
  Route_GroupWait := Route_GroupWait r; Route_GroupInterval := Route_GroupInterval r;
  Route_RepeatInterval := v; Route_Matchers := Route_Matchers r;
  Route_Continue := Route_Continue r; Route_Routes := Route_Routes r;
  Route_MuteTimeIntervals := Route_MuteTimeIntervals r;
  Route_ActiveTimeIntervals := Route_ActiveTimeIntervals r |}.
Definition set_Route_Matchers (v : list Matcher) (r : Route) : Route := {|
  Route_Receiver := Route_Receiver r; Route_GroupBy := Route_GroupBy r;
  Route_GroupWait := Route_GroupWait r; Route_GroupInterval := Route_GroupInterval r;
  Route_RepeatInterval := Route_RepeatInterval r; Route_Matchers := v;
  Route_Continue := Route_Continue r; Route_Routes := Route_Routes r;
  Route_MuteTimeIntervals := Route_MuteTimeIntervals r;
  Route_ActiveTimeIntervals := Route_ActiveTimeIntervals r |}.
Definition set_Route_Continue (v : bool) (r : Route) : Route := {|
  Route_Receiver := Route_Receiver r; Route_GroupBy := Route_GroupBy r;
  Route_GroupWait := Route_GroupWait r; Route_GroupInterval := Route_GroupInterval r;
  Route_RepeatInterval := Route_RepeatInterval r; Route_Matchers := Route_Matchers r;
  Route_Continue := v; Route_Routes := Route_Routes r;
  Route_MuteTimeIntervals := Route_MuteTimeIntervals r;
  Route_ActiveTimeIntervals := Route_ActiveTimeIntervals r |}.
Definition set_Route_Routes (v : list (option json)) (r : Route) : Route := {|
  Route_Receiver := Route_Receiver r; Route_GroupBy := Route_GroupBy r;
  Route_GroupWait := Route_GroupWait r; Route_GroupInterval := Route_GroupInterval r;
  Route_RepeatInterval := Route_RepeatInterval r; Route_Matchers := Route_Matchers r;
  Route_Continue := Route_Continue r; Route_Routes := v;
  Route_MuteTimeIntervals := Route_MuteTimeIntervals r;
  Route_ActiveTimeIntervals := Route_ActiveTimeIntervals r |}.
Definition set_Route_MuteTimeIntervals (v : list string) (r : Route) : Route := {|
  Route_Receiver := Route_Receiver r; Route_GroupBy := Route_GroupBy r;
  Route_GroupWait := Route_GroupWait r; Route_GroupInterval := Route_GroupInterval r;
  Route_RepeatInterval := Route_RepeatInterval r; Route_Matchers := Route_Matchers r;
  Route_Continue := Route_Continue r; Route_Routes := Route_Routes r;
  Route_MuteTimeIntervals := v; Route_ActiveTimeIntervals := Route_ActiveTimeIntervals r |}.
Definition set_Route_ActiveTimeIntervals (v : list string) (r : Route) : Route := {|
  Route_Receiver := Route_Receiver r; Route_GroupBy := Route_GroupBy r;
  Route_GroupWait := Route_GroupWait r; Route_GroupInterval := Route_GroupInterval r;
  Route_RepeatInterval := Route_RepeatInterval r; Route_Matchers := Route_Matchers r;
  Route_Continue := Route_Continue r; Route_Routes := Route_Routes r;
  Route_MuteTimeIntervals := Route_MuteTimeIntervals r; Route_ActiveTimeIntervals := v |}.

Section json.
Context `{RawJSON}.

Definition Matcher_fields : fields_of (A := Matcher) :=
[("name", fun r j => v ← decode_string (Matcher_Name r) j; Ok (set_Matcher_Name v r));
 ("value", fun r j => v ← decode_string (Matcher_Value r) j; Ok (set_Matcher_Value v r));
 ("matchType", fun r j => v ← decode_string (Matcher_MatchType r) j; Ok (set_Matcher_MatchType v r));
 ("regex", fun r j => v ← decode_bool (Matcher_Regex r) j; Ok (set_Matcher_Regex v r))].
Definition decode_Matcher : Matcher → json → res Matcher := decode_struct Matcher_fields.

Definition Route_fields : fields_of (A := Route) :=
[("receiver", fun r j => v ← decode_string (Route_Receiver r) j; Ok (set_Route_Receiver v r));
 ("groupBy", fun r j => v ← decode_slice "" decode_string (Route_GroupBy r) j; Ok (set_Route_GroupBy v r));
 ("groupWait", fun r j => v ← decode_string (Route_GroupWait r) j; Ok (set_Route_GroupWait v r));
 ("groupInterval", fun r j => v ← decode_string (Route_GroupInterval r) j; Ok (set_Route_GroupInterval v r));
 ("repeatInterval", fun r j => v ← decode_string (Route_RepeatInterval r) j; Ok (set_Route_RepeatInterval v r));
 ("matchers", fun r j => v ← decode_slice Matcher_zero decode_Matcher (Route_Matchers r) j; Ok (set_Route_Matchers v r));
 ("continue", fun r j => v ← decode_bool (Route_Continue r) j; Ok (set_Route_Continue v r));
 ("routes", fun r j => v ← decode_slice None decode_raw (Route_Routes r) j; Ok (set_Route_Routes v r));
 ("muteTimeIntervals", fun r j => v ← decode_slice "" decode_string (Route_MuteTimeIntervals r) j; Ok (set_Route_MuteTimeIntervals v r));
 ("activeTimeIntervals", fun r j => v ← decode_slice "" decode_string (Route_ActiveTimeIntervals r) j; Ok (set_Route_ActiveTimeIntervals v r))].
Definition decode_Route : Route → json → res Route := decode_struct Route_fields.

(** [json.Marshal] of a matcher and of a route. *)
Definition encode_Matcher (m : Matcher) : json :=
JObj ([("name", JStr (Matcher_Name m)); ("value", JStr (Matcher_Value m))] ++
      omit_string "matchType" (Matcher_MatchType m) ++ omit_bool "regex" (Matcher_Regex m)).
Definition encode_Route (r : Route) : json :=
JObj ([("receiver", JStr (Route_Receiver r))] ++
      omit_list "groupBy" JStr (Route_GroupBy r) ++
      omit_string "groupWait" (Route_GroupWait r) ++
      omit_string "groupInterval" (Route_GroupInterval r) ++
      omit_string "repeatInterval" (Route_RepeatInterval r) ++
      omit_list "matchers" encode_Matcher (Route_Matchers r) ++
      omit_bool "continue" (Route_Continue r) ++
      omit_list "routes" marshal_raw (Route_Routes r) ++
      omit_list "muteTimeIntervals" JStr (Route_MuteTimeIntervals r) ++
      omit_list "activeTimeIntervals" JStr (Route_ActiveTimeIntervals r)).

Definition ChildRoutes (r : Route) : res (list Route) :=
Decode_all decode_Route Route_zero 0 (Route_Routes r).
End json.

(** ** Validation *)

Definition Matcher_valid_types : list string := ["="; "!="; "=~"; "!~"].
Definition MatchType_Valid (mt : string) : bool := bool_decide (mt ∈ Matcher_valid_types).
Definition Matcher_Validate (m : Matcher) : res () :=
  if bool_decide (Matcher_MatchType m = "") then Ok ()
  else if negb (MatchType_Valid (Matcher_MatchType m)) then
    Err (Errorf "invalid 'matchType' '%s' provided'" [Matcher_MatchType m])
  else check (blank (Matcher_Name m)) "matcher 'name' is required".

Definition SlackConfirmationField_Validate (f : SlackConfirmationField) : res () :=
  check (bool_decide (SlackConfirmationField_Text f = ""))
    "missing text in Slack confirmation configuration".
Definition SlackAction_Validate (a : SlackAction) : res () :=
  _ ← check (bool_decide (SlackAction_Type a = "")) "missing type in Slack action configuration";
  _ ← check (bool_decide (SlackAction_Text a = "")) "missing text in Slack action configuration";
  _ ← check (bool_decide (SlackAction_URL a = "") && bool_decide (SlackAction_Name a = ""))
        "missing name or url in Slack action configuration";
  match SlackAction_ConfirmField a with
  | Some f => SlackConfirmationField_Validate f
  | None => Ok ()
  end.
Definition SlackField_Validate (f : SlackField) : res () :=
  _ ← check (bool_decide (SlackField_Title f = "")) "missing title in Slack field configuration";
  check (bool_decide (SlackField_Value f = "")) "missing value in Slack field configuration".
Definition SlackConfig_Validate (sc : SlackConfig) : res () :=
  _ ← for_each SlackAction_Validate (SlackConfig_Actions sc);
  for_each SlackField_Validate (SlackConfig_Fields sc).

(** [template_Parse] is text/template's parser. *)
Definition opsgenieValidTypes : list string := ["team"; "teams"; "user"; "escalation"; "schedule"].
Definition OpsGenieConfigResponder_Validate (template_Parse : string → res ())
    (r : OpsGenieConfigResponder) : res () :=
  let ty := OpsGenieConfigResponder_Type r in
  if bool_decide (OpsGenieConfigResponder_ID r = "") && bool_decide (OpsGenieConfigResponder_Name r = "")
     && bool_decide (OpsGenieConfigResponder_Username r = "")
  then Err (Errorf "responder must have at least an ID, a Name or an Username defined" [])
  else if Contains ty "{{" then
    wrap "responder %v type is not a valid template: %w" [ty] (template_Parse ty)
  else if bool_decide (ToLower ty ∈ opsgenieValidTypes) then Ok ()
  else Err (Errorf "opsGenieConfig responder %v type does not match valid options %s" [ty]).
Definition OpsGenieConfig_Validate (template_Parse : string → res ()) (o : OpsGenieConfig) : res () :=
  for_each (OpsGenieConfigResponder_Validate template_Parse) (OpsGenieConfig_Responders o).

Definition HTTPConfig_Validate (url_Parse : string → res ()) (hc : option HTTPConfig) : res () :=
  match hc with
  | None => Ok ()
  | Some hc =>
      HTTPConfig_Validate_fields url_Parse (HTTPConfig_Authorization hc) (HTTPConfig_BasicAuth hc)
        (HTTPConfig_OAuth2 hc) (is_set (HTTPConfig_BearerTokenSecret hc))
        (HTTPConfig_TLSConfig hc) (HTTPConfig_ProxyConfig hc)
  end.

Definition TimeRange_Validate (tr : TimeRange) : res () :=
  Validate_of (TimeRange_Parse (TimeRange_StartTime tr) (TimeRange_EndTime tr)).
Definition WeekdayRange_Validate (wr : string) : res () := Validate_of (WeekdayRange_Parse wr).
Definition DayOfMonth_Validate (r : DayOfMonthRange) : res () :=
  DayOfMonthRange_Validate (DayOfMonthRange_Start r) (DayOfMonthRange_End r).
Definition MonthRange_Validate (mr : string) : res () := Validate_of (MonthRange_Parse mr).
Definition YearRange_Validate (yr : string) : res () := Validate_of (YearRange_Parse yr).

(** The body of the loop over the intervals; [i] is the loop's index. *)
Definition TimeInterval_Validate (iti : nat * TimeInterval) : res () :=
  let '(i, ti) := iti in
  let at_ := [Itoa (Z.of_nat i)] in
  _ ← for_each (fun x => wrap "time range at %d is invalid: %w" at_ (TimeRange_Validate x)) (TimeInterval_Times ti);
  _ ← for_each (fun x => wrap "weekday range at %d is invalid: %w" at_ (WeekdayRange_Validate x)) (TimeInterval_Weekdays ti);
  _ ← for_each (fun x => wrap "mute time interval is invalid - day of month range at %d is invalid: %w" at_ (DayOfMonth_Validate x)) (TimeInterval_DaysOfMonth ti);
  _ ← for_each (fun x => wrap "month range at %d is invalid: %w" at_ (MonthRange_Validate x)) (TimeInterval_Months ti);
  for_each (fun x => wrap "year range at %d is invalid: %w" at_ (YearRange_Validate x)) (TimeInterval_Years ti).
Definition MuteTimeInterval_Validate (ti : MuteTimeInterval) : res () :=
  if bool_decide (MuteTimeInterval_Name ti = "") then Err (Errorf "empty name field for mute time interval" [])
  else for_each TimeInterval_Validate (imap pair (MuteTimeInterval_TimeIntervals ti)).
End v1alpha1.

(** ** The route type is one the walks of [RouteTree] can handle *)

Section route_version.
Context `{RawJSON}.
Import v1alpha1.

Lemma decode_encode_Matcher_alpha m : decode_Matcher Matcher_zero (encode_Matcher m) = Ok m.
Proof.
  unfold decode_Matcher, encode_Matcher, decode_struct. cbn [app].
  erewrite (decode_field _ "name" Matcher_Name set_Matcher_Name decode_string) by reflexivity.
  erewrite (decode_field _ "value" Matcher_Value set_Matcher_Value decode_string) by reflexivity.
  rewrite (decode_omit_string _ "matchType" Matcher_MatchType set_Matcher_MatchType) by done.
  rewrite <-(app_nil_r (omit_bool _ _)).
  rewrite (decode_omit_bool _ "regex" Matcher_Regex set_Matcher_Regex) by done.
  by destruct m.
Qed.

Lemma decode_encode_Route_alpha r :
  Forall (fun raw => ∃ j, raw = Some j ∧ j ≠ JNull) (Route_Routes r) →
  decode_Route Route_zero (encode_Route r) = Ok r.
Proof.
  intros Hraws. unfold decode_Route, encode_Route, decode_struct. cbn [app].
  erewrite (decode_field _ "receiver" Route_Receiver set_Route_Receiver decode_string) by reflexivity.
  rewrite (decode_omit_list _ "groupBy" "" decode_string _ Route_GroupBy set_Route_GroupBy) by done.
  rewrite (decode_omit_string _ "groupWait" Route_GroupWait set_Route_GroupWait) by done.
  rewrite (decode_omit_string _ "groupInterval" Route_GroupInterval set_Route_GroupInterval) by done.
  rewrite (decode_omit_string _ "repeatInterval" Route_RepeatInterval set_Route_RepeatInterval) by done.
  rewrite (decode_omit_list _ "matchers" Matcher_zero decode_Matcher _ Route_Matchers set_Route_Matchers)
    by first [done|intros; apply decode_encode_Matcher_alpha].
  rewrite (decode_omit_bool _ "continue" Route_Continue set_Route_Continue) by done.
  rewrite (decode_omit_list _ "routes" None decode_raw _ Route_Routes set_Route_Routes); [|done..|].
  2:{ intros x Hx. rewrite Forall_forall in Hraws. destruct (Hraws x Hx) as (j & -> & Hj).
      unfold decode_raw. by rewrite marshal_raw_value, unmarshal_raw_value. }
  rewrite (decode_omit_list _ "muteTimeIntervals" "" decode_string _ Route_MuteTimeIntervals
    set_Route_MuteTimeIntervals) by done.
  rewrite <-(app_nil_r (omit_list "activeTimeIntervals" _ _)).
  rewrite (decode_omit_list _ "activeTimeIntervals" "" decode_string _ Route_ActiveTimeIntervals
    set_Route_ActiveTimeIntervals) by done.
  by destruct r.
Qed.

#[export] Instance Route_version_alpha : RouteVersion Route.
Proof.
  refine {| route_zero := Route_zero; decode_route := decode_Route; encode_route := encode_Route;
            raws := Route_Routes; set_raws := set_Route_Routes |}.
  - done.
  - done.
  - by intros [].
  - intros j. unfold decode_Route. destruct j; try done. apply decode_fields_no_panic.
    repeat constructor; simpl; intros; apply decode_no_panic_field; auto with json;
      apply decode_slice_no_panic; intros; [|done]. apply decode_struct_no_panic.
    repeat constructor; simpl; intros; auto with json.
  - intros j r. unfold decode_Route. destruct j as [| | | | |kvs]; try done; [by intros [= <-]|].
    apply (decode_fields_inv _
      (fun r => Forall (fun raw => raw_depth raw ≤ json_depth (JObj kvs)) (Route_Routes r))
      (fun j => json_depth j ≤ json_depth (JObj kvs))); [|..|done].
    + repeat constructor; intros x j y Hj Hx; simpl;
        match goal with |- ?d ≫= _ = Ok _ → _ => destruct d eqn:E; simpl; [|done..] end;
        intros [= <-]; try exact Hx. by eapply decode_raws_depth.
    + apply Forall_forall. intros [k j] Hin. apply json_depth_obj in Hin. simpl in *. lia.
  - apply decode_encode_Route_alpha.
  - done.
Defined.
End route_version.
