(* ===== verification/ConvertFrom.v ===== *)
(** * Conversion from v1alpha1 to v1beta1

    pkg/apis/monitoring/v1beta1/conversion_from.go: from the hub version v1alpha1 of an
    AlertmanagerConfig to v1beta1. Child routes are decoded, converted and encoded again. *)

From S2P Require Import Prelude GoStrings Meta Json RouteTree MonitoringV1 TimeRanges V1alpha1.
From S2P Require Import V1beta1.

Definition convertSecretKeySelectorFrom (o : option MonitoringV1.SecretKeySelector)
    : option v1beta1.SecretKeySelector :=
  (fun x => {|
    v1beta1.SecretKeySelector_Name := SecretKeySelector_Name x;
    v1beta1.SecretKeySelector_Key := SecretKeySelector_Key x |}) <$> o.
Definition convertMatchersFrom (ms : list v1alpha1.Matcher) : list v1beta1.Matcher :=
  (fun m =>
    let mt := v1alpha1.Matcher_MatchType m in
    let mt := if bool_decide (mt = "") then
                if v1alpha1.Matcher_Regex m then "=~" else "="
              else mt in
    {| v1beta1.Matcher_Name := v1alpha1.Matcher_Name m;
       v1beta1.Matcher_Value := v1alpha1.Matcher_Value m;
       v1beta1.Matcher_MatchType := mt |}) <$> ms.
(** The body of the loop of [convertTimeIntervalsFrom]. *)
Definition convertTimePeriodFrom (ti : v1alpha1.TimeInterval) : v1beta1.TimePeriod := {|
    v1beta1.TimePeriod_Times :=
      (fun tr => {| v1beta1.TimeRange_StartTime := v1alpha1.TimeRange_StartTime tr;
                    v1beta1.TimeRange_EndTime :=
                      v1alpha1.TimeRange_EndTime tr |}) <$> v1alpha1.TimeInterval_Times ti;
    v1beta1.TimePeriod_Weekdays := v1alpha1.TimeInterval_Weekdays ti;
    v1beta1.TimePeriod_DaysOfMonth :=
      (fun dm => {| v1beta1.DayOfMonthRange_Start := v1alpha1.DayOfMonthRange_Start dm;
                    v1beta1.DayOfMonthRange_End :=
                      v1alpha1.DayOfMonthRange_End dm |}) <$> v1alpha1.TimeInterval_DaysOfMonth ti;
    v1beta1.TimePeriod_Months := v1alpha1.TimeInterval_Months ti;
    v1beta1.TimePeriod_Years := v1alpha1.TimeInterval_Years ti |}.
Definition convertTimeIntervalsFrom (tis : list v1alpha1.TimeInterval) : list v1beta1.TimePeriod :=
  convertTimePeriodFrom <$> tis.
Definition convertHTTPConfigFrom (o : option v1alpha1.HTTPConfig) : option v1beta1.HTTPConfig :=
  (fun x => {|
    v1beta1.HTTPConfig_Authorization := v1alpha1.HTTPConfig_Authorization x;
    v1beta1.HTTPConfig_BasicAuth := v1alpha1.HTTPConfig_BasicAuth x;
    v1beta1.HTTPConfig_OAuth2 := v1alpha1.HTTPConfig_OAuth2 x;
    v1beta1.HTTPConfig_BearerTokenSecret :=
      convertSecretKeySelectorFrom (v1alpha1.HTTPConfig_BearerTokenSecret x);
    v1beta1.HTTPConfig_TLSConfig := v1alpha1.HTTPConfig_TLSConfig x;
    v1beta1.HTTPConfig_ProxyURLOriginal := v1alpha1.HTTPConfig_ProxyURLOriginal x;
    v1beta1.HTTPConfig_ProxyConfig := v1alpha1.HTTPConfig_ProxyConfig x;
    v1beta1.HTTPConfig_FollowRedirects := v1alpha1.HTTPConfig_FollowRedirects x |}) <$> o.
Definition convertKeyValuesFrom (xs : list v1alpha1.KeyValue)
    : list v1beta1.KeyValue :=
  (fun x => {|
    v1beta1.KeyValue_Key := v1alpha1.KeyValue_Key x;
    v1beta1.KeyValue_Value := v1alpha1.KeyValue_Value x |}) <$> xs.
Definition convertOpsGenieConfigRespondersFrom (xs : list v1alpha1.OpsGenieConfigResponder)
    : list v1beta1.OpsGenieConfigResponder :=
  (fun x => {|
    v1beta1.OpsGenieConfigResponder_ID := v1alpha1.OpsGenieConfigResponder_ID x;
    v1beta1.OpsGenieConfigResponder_Name := v1alpha1.OpsGenieConfigResponder_Name x;
    v1beta1.OpsGenieConfigResponder_Username := v1alpha1.OpsGenieConfigResponder_Username x;
    v1beta1.OpsGenieConfigResponder_Type := v1alpha1.OpsGenieConfigResponder_Type x |}) <$> xs.
Definition convertPagerDutyImageConfigsFrom (xs : list v1alpha1.PagerDutyImageConfig)
    : list v1beta1.PagerDutyImageConfig :=
  (fun x => {|
    v1beta1.PagerDutyImageConfig_Src := v1alpha1.PagerDutyImageConfig_Src x;
    v1beta1.PagerDutyImageConfig_Href := v1alpha1.PagerDutyImageConfig_Href x;
    v1beta1.PagerDutyImageConfig_Alt := v1alpha1.PagerDutyImageConfig_Alt x |}) <$> xs.
Definition convertPagerDutyLinkConfigsFrom (xs : list v1alpha1.PagerDutyLinkConfig)
    : list v1beta1.PagerDutyLinkConfig :=
  (fun x => {|
    v1beta1.PagerDutyLinkConfig_Href := v1alpha1.PagerDutyLinkConfig_Href x;
    v1beta1.PagerDutyLinkConfig_Text := v1alpha1.PagerDutyLinkConfig_Text x |}) <$> xs.
Definition convertSlackFieldsFrom (xs : list v1alpha1.SlackField)
    : list v1beta1.SlackField :=
  (fun x => {|
    v1beta1.SlackField_Title := v1alpha1.SlackField_Title x;
    v1beta1.SlackField_Value := v1alpha1.SlackField_Value x;
    v1beta1.SlackField_Short := v1alpha1.SlackField_Short x |}) <$> xs.
Definition convertSlackActionsFrom (xs : list v1alpha1.SlackAction) : list v1beta1.SlackAction :=
  (fun x => {|
    v1beta1.SlackAction_Type := v1alpha1.SlackAction_Type x;
    v1beta1.SlackAction_Text := v1alpha1.SlackAction_Text x;
    v1beta1.SlackAction_URL := v1alpha1.SlackAction_URL x;
    v1beta1.SlackAction_Style := v1alpha1.SlackAction_Style x;
    v1beta1.SlackAction_Name := v1alpha1.SlackAction_Name x;
    v1beta1.SlackAction_Value := v1alpha1.SlackAction_Value x;
    v1beta1.SlackAction_ConfirmField :=
      (fun c => {| v1beta1.SlackConfirmationField_Text := v1alpha1.SlackConfirmationField_Text c;
                   v1beta1.SlackConfirmationField_Title := v1alpha1.SlackConfirmationField_Title c;
                   v1beta1.SlackConfirmationField_OkText :=
                     v1alpha1.SlackConfirmationField_OkText c;
                   v1beta1.SlackConfirmationField_DismissText :=
                     v1alpha1.SlackConfirmationField_DismissText c |}) <$> v1alpha1.SlackAction_ConfirmField x |}) <$> xs.
Definition convertOpsGenieConfigFrom (x : v1alpha1.OpsGenieConfig) : v1beta1.OpsGenieConfig := {|
    v1beta1.OpsGenieConfig_SendResolved := v1alpha1.OpsGenieConfig_SendResolved x;
    v1beta1.OpsGenieConfig_APIKey :=
      convertSecretKeySelectorFrom (v1alpha1.OpsGenieConfig_APIKey x);
    v1beta1.OpsGenieConfig_APIURL := v1alpha1.OpsGenieConfig_APIURL x;
    v1beta1.OpsGenieConfig_Message := v1alpha1.OpsGenieConfig_Message x;
    v1beta1.OpsGenieConfig_Description := v1alpha1.OpsGenieConfig_Description x;
    v1beta1.OpsGenieConfig_Source := v1alpha1.OpsGenieConfig_Source x;
    v1beta1.OpsGenieConfig_Tags := v1alpha1.OpsGenieConfig_Tags x;
    v1beta1.OpsGenieConfig_Note := v1alpha1.OpsGenieConfig_Note x;
    v1beta1.OpsGenieConfig_Priority := v1alpha1.OpsGenieConfig_Priority x;
    v1beta1.OpsGenieConfig_Details := convertKeyValuesFrom (v1alpha1.OpsGenieConfig_Details x);
    v1beta1.OpsGenieConfig_Responders :=
      convertOpsGenieConfigRespondersFrom (v1alpha1.OpsGenieConfig_Responders x);
    v1beta1.OpsGenieConfig_HTTPConfig :=
      convertHTTPConfigFrom (v1alpha1.OpsGenieConfig_HTTPConfig x);
    v1beta1.OpsGenieConfig_Entity := v1alpha1.OpsGenieConfig_Entity x;
    v1beta1.OpsGenieConfig_Actions := v1alpha1.OpsGenieConfig_Actions x |}.
Definition convertPagerDutyConfigFrom (x : v1alpha1.PagerDutyConfig) : v1beta1.PagerDutyConfig := {|
    v1beta1.PagerDutyConfig_SendResolved := v1alpha1.PagerDutyConfig_SendResolved x;
    v1beta1.PagerDutyConfig_RoutingKey :=
      convertSecretKeySelectorFrom (v1alpha1.PagerDutyConfig_RoutingKey x);
    v1beta1.PagerDutyConfig_ServiceKey :=
      convertSecretKeySelectorFrom (v1alpha1.PagerDutyConfig_ServiceKey x);
    v1beta1.PagerDutyConfig_URL := v1alpha1.PagerDutyConfig_URL x;
    v1beta1.PagerDutyConfig_Client := v1alpha1.PagerDutyConfig_Client x;
    v1beta1.PagerDutyConfig_ClientURL := v1alpha1.PagerDutyConfig_ClientURL x;
    v1beta1.PagerDutyConfig_Description := v1alpha1.PagerDutyConfig_Description x;
    v1beta1.PagerDutyConfig_Severity := v1alpha1.PagerDutyConfig_Severity x;
    v1beta1.PagerDutyConfig_Class := v1alpha1.PagerDutyConfig_Class x;
    v1beta1.PagerDutyConfig_Group := v1alpha1.PagerDutyConfig_Group x;
    v1beta1.PagerDutyConfig_Component := v1alpha1.PagerDutyConfig_Component x;
    v1beta1.PagerDutyConfig_Details := convertKeyValuesFrom (v1alpha1.PagerDutyConfig_Details x);
    v1beta1.PagerDutyConfig_PagerDutyImageConfigs :=
      convertPagerDutyImageConfigsFrom (v1alpha1.PagerDutyConfig_PagerDutyImageConfigs x);
    v1beta1.PagerDutyConfig_PagerDutyLinkConfigs :=
      convertPagerDutyLinkConfigsFrom (v1alpha1.PagerDutyConfig_PagerDutyLinkConfigs x);
    v1beta1.PagerDutyConfig_HTTPConfig :=
      convertHTTPConfigFrom (v1alpha1.PagerDutyConfig_HTTPConfig x);
    v1beta1.PagerDutyConfig_Source := v1alpha1.PagerDutyConfig_Source x |}.
Definition convertDiscordConfigFrom (x : v1alpha1.DiscordConfig) : v1beta1.DiscordConfig := {|
    v1beta1.DiscordConfig_SendResolved := v1alpha1.DiscordConfig_SendResolved x;
    v1beta1.DiscordConfig_APIURL := v1alpha1.DiscordConfig_APIURL x;
    v1beta1.DiscordConfig_Title := v1alpha1.DiscordConfig_Title x;
    v1beta1.DiscordConfig_Message := v1alpha1.DiscordConfig_Message x;
    v1beta1.DiscordConfig_Content := v1alpha1.DiscordConfig_Content x;
    v1beta1.DiscordConfig_Username := v1alpha1.DiscordConfig_Username x;
    v1beta1.DiscordConfig_AvatarURL := v1alpha1.DiscordConfig_AvatarURL x;
    v1beta1.DiscordConfig_HTTPConfig :=
      convertHTTPConfigFrom (v1alpha1.DiscordConfig_HTTPConfig x) |}.
Definition convertSlackConfigFrom (x : v1alpha1.SlackConfig) : v1beta1.SlackConfig := {|
    v1beta1.SlackConfig_SendResolved := v1alpha1.SlackConfig_SendResolved x;
    v1beta1.SlackConfig_APIURL := convertSecretKeySelectorFrom (v1alpha1.SlackConfig_APIURL x);
    v1beta1.SlackConfig_Channel := v1alpha1.SlackConfig_Channel x;
    v1beta1.SlackConfig_Username := v1alpha1.SlackConfig_Username x;
    v1beta1.SlackConfig_Color := v1alpha1.SlackConfig_Color x;
    v1beta1.SlackConfig_Title := v1alpha1.SlackConfig_Title x;
    v1beta1.SlackConfig_TitleLink := v1alpha1.SlackConfig_TitleLink x;
    v1beta1.SlackConfig_Pretext := v1alpha1.SlackConfig_Pretext x;
    v1beta1.SlackConfig_Text := v1alpha1.SlackConfig_Text x;
    v1beta1.SlackConfig_Fields := convertSlackFieldsFrom (v1alpha1.SlackConfig_Fields x);
    v1beta1.SlackConfig_ShortFields := v1alpha1.SlackConfig_ShortFields x;
    v1beta1.SlackConfig_Footer := v1alpha1.SlackConfig_Footer x;
    v1beta1.SlackConfig_Fallback := v1alpha1.SlackConfig_Fallback x;
    v1beta1.SlackConfig_CallbackID := v1alpha1.SlackConfig_CallbackID x;
    v1beta1.SlackConfig_IconEmoji := v1alpha1.SlackConfig_IconEmoji x;
    v1beta1.SlackConfig_IconURL := v1alpha1.SlackConfig_IconURL x;
    v1beta1.SlackConfig_ImageURL := v1alpha1.SlackConfig_ImageURL x;
    v1beta1.SlackConfig_ThumbURL := v1alpha1.SlackConfig_ThumbURL x;
    v1beta1.SlackConfig_LinkNames := v1alpha1.SlackConfig_LinkNames x;
    v1beta1.SlackConfig_MrkdwnIn := v1alpha1.SlackConfig_MrkdwnIn x;
    v1beta1.SlackConfig_Actions := convertSlackActionsFrom (v1alpha1.SlackConfig_Actions x);
    v1beta1.SlackConfig_HTTPConfig := convertHTTPConfigFrom (v1alpha1.SlackConfig_HTTPConfig x) |}.
Definition convertWebexConfigFrom (x : v1alpha1.WebexConfig) : v1beta1.WebexConfig := {|
    v1beta1.WebexConfig_SendResolved := v1alpha1.WebexConfig_SendResolved x;
    v1beta1.WebexConfig_APIURL := v1alpha1.WebexConfig_APIURL x;
    v1beta1.WebexConfig_HTTPConfig := convertHTTPConfigFrom (v1alpha1.WebexConfig_HTTPConfig x);
    v1beta1.WebexConfig_Message := v1alpha1.WebexConfig_Message x;
    v1beta1.WebexConfig_RoomID := v1alpha1.WebexConfig_RoomID x |}.
Definition convertWebhookConfigFrom (x : v1alpha1.WebhookConfig) : v1beta1.WebhookConfig := {|
    v1beta1.WebhookConfig_SendResolved := v1alpha1.WebhookConfig_SendResolved x;
    v1beta1.WebhookConfig_URL := v1alpha1.WebhookConfig_URL x;
    v1beta1.WebhookConfig_URLSecret :=
      convertSecretKeySelectorFrom (v1alpha1.WebhookConfig_URLSecret x);
    v1beta1.WebhookConfig_HTTPConfig := convertHTTPConfigFrom (v1alpha1.WebhookConfig_HTTPConfig x);
    v1beta1.WebhookConfig_MaxAlerts := v1alpha1.WebhookConfig_MaxAlerts x;
    v1beta1.WebhookConfig_Timeout := v1alpha1.WebhookConfig_Timeout x |}.
Definition convertWeChatConfigFrom (x : v1alpha1.WeChatConfig) : v1beta1.WeChatConfig := {|
    v1beta1.WeChatConfig_SendResolved := v1alpha1.WeChatConfig_SendResolved x;
    v1beta1.WeChatConfig_APISecret :=
      convertSecretKeySelectorFrom (v1alpha1.WeChatConfig_APISecret x);
    v1beta1.WeChatConfig_APIURL := v1alpha1.WeChatConfig_APIURL x;
    v1beta1.WeChatConfig_CorpID := v1alpha1.WeChatConfig_CorpID x;
    v1beta1.WeChatConfig_AgentID := v1alpha1.WeChatConfig_AgentID x;
    v1beta1.WeChatConfig_ToUser := v1alpha1.WeChatConfig_ToUser x;
    v1beta1.WeChatConfig_ToParty := v1alpha1.WeChatConfig_ToParty x;
    v1beta1.WeChatConfig_ToTag := v1alpha1.WeChatConfig_ToTag x;
    v1beta1.WeChatConfig_Message := v1alpha1.WeChatConfig_Message x;
    v1beta1.WeChatConfig_MessageType := v1alpha1.WeChatConfig_MessageType x;
    v1beta1.WeChatConfig_HTTPConfig :=
      convertHTTPConfigFrom (v1alpha1.WeChatConfig_HTTPConfig x) |}.
Definition convertEmailConfigFrom (x : v1alpha1.EmailConfig) : v1beta1.EmailConfig := {|
    v1beta1.EmailConfig_SendResolved := v1alpha1.EmailConfig_SendResolved x;
    v1beta1.EmailConfig_To := v1alpha1.EmailConfig_To x;
    v1beta1.EmailConfig_From := v1alpha1.EmailConfig_From x;
    v1beta1.EmailConfig_Hello := v1alpha1.EmailConfig_Hello x;
    v1beta1.EmailConfig_Smarthost := v1alpha1.EmailConfig_Smarthost x;
    v1beta1.EmailConfig_AuthUsername := v1alpha1.EmailConfig_AuthUsername x;
    v1beta1.EmailConfig_AuthPassword :=
      convertSecretKeySelectorFrom (v1alpha1.EmailConfig_AuthPassword x);
    v1beta1.EmailConfig_AuthSecret :=
      convertSecretKeySelectorFrom (v1alpha1.EmailConfig_AuthSecret x);
    v1beta1.EmailConfig_AuthIdentity := v1alpha1.EmailConfig_AuthIdentity x;
    v1beta1.EmailConfig_Headers := convertKeyValuesFrom (v1alpha1.EmailConfig_Headers x);
    v1beta1.EmailConfig_HTML := v1alpha1.EmailConfig_HTML x;
    v1beta1.EmailConfig_Text := v1alpha1.EmailConfig_Text x;
    v1beta1.EmailConfig_RequireTLS := v1alpha1.EmailConfig_RequireTLS x;
    v1beta1.EmailConfig_TLSConfig := v1alpha1.EmailConfig_TLSConfig x |}.
Definition convertVictorOpsConfigFrom (x : v1alpha1.VictorOpsConfig) : v1beta1.VictorOpsConfig := {|
    v1beta1.VictorOpsConfig_SendResolved := v1alpha1.VictorOpsConfig_SendResolved x;
    v1beta1.VictorOpsConfig_APIKey :=
      convertSecretKeySelectorFrom (v1alpha1.VictorOpsConfig_APIKey x);
    v1beta1.VictorOpsConfig_APIURL := v1alpha1.VictorOpsConfig_APIURL x;
    v1beta1.VictorOpsConfig_RoutingKey := v1alpha1.VictorOpsConfig_RoutingKey x;
    v1beta1.VictorOpsConfig_MessageType := v1alpha1.VictorOpsConfig_MessageType x;
    v1beta1.VictorOpsConfig_EntityDisplayName := v1alpha1.VictorOpsConfig_EntityDisplayName x;
    v1beta1.VictorOpsConfig_StateMessage := v1alpha1.VictorOpsConfig_StateMessage x;
    v1beta1.VictorOpsConfig_MonitoringTool := v1alpha1.VictorOpsConfig_MonitoringTool x;
    v1beta1.VictorOpsConfig_CustomFields :=
      convertKeyValuesFrom (v1alpha1.VictorOpsConfig_CustomFields x);
    v1beta1.VictorOpsConfig_HTTPConfig :=
      convertHTTPConfigFrom (v1alpha1.VictorOpsConfig_HTTPConfig x) |}.
Definition convertPushoverConfigFrom (x : v1alpha1.PushoverConfig) : v1beta1.PushoverConfig := {|
    v1beta1.PushoverConfig_SendResolved := v1alpha1.PushoverConfig_SendResolved x;
    v1beta1.PushoverConfig_UserKey :=
      convertSecretKeySelectorFrom (v1alpha1.PushoverConfig_UserKey x);
    v1beta1.PushoverConfig_UserKeyFile := v1alpha1.PushoverConfig_UserKeyFile x;
    v1beta1.PushoverConfig_Token := convertSecretKeySelectorFrom (v1alpha1.PushoverConfig_Token x);
    v1beta1.PushoverConfig_TokenFile := v1alpha1.PushoverConfig_TokenFile x;
    v1beta1.PushoverConfig_Title := v1alpha1.PushoverConfig_Title x;
    v1beta1.PushoverConfig_Message := v1alpha1.PushoverConfig_Message x;
    v1beta1.PushoverConfig_URL := v1alpha1.PushoverConfig_URL x;
    v1beta1.PushoverConfig_URLTitle := v1alpha1.PushoverConfig_URLTitle x;
    v1beta1.PushoverConfig_TTL := None;
    v1beta1.PushoverConfig_Device := v1alpha1.PushoverConfig_Device x;
    v1beta1.PushoverConfig_Sound := v1alpha1.PushoverConfig_Sound x;
    v1beta1.PushoverConfig_Priority := v1alpha1.PushoverConfig_Priority x;
    v1beta1.PushoverConfig_Retry := v1alpha1.PushoverConfig_Retry x;
    v1beta1.PushoverConfig_Expire := v1alpha1.PushoverConfig_Expire x;
    v1beta1.PushoverConfig_HTML := v1alpha1.PushoverConfig_HTML x;
    v1beta1.PushoverConfig_HTTPConfig :=
      convertHTTPConfigFrom (v1alpha1.PushoverConfig_HTTPConfig x) |}.
Definition convertSNSConfigFrom (x : v1alpha1.SNSConfig) : v1beta1.SNSConfig := {|
    v1beta1.SNSConfig_SendResolved := v1alpha1.SNSConfig_SendResolved x;
    v1beta1.SNSConfig_ApiURL := v1alpha1.SNSConfig_ApiURL x;
    v1beta1.SNSConfig_Sigv4 := v1alpha1.SNSConfig_Sigv4 x;
    v1beta1.SNSConfig_TopicARN := v1alpha1.SNSConfig_TopicARN x;
    v1beta1.SNSConfig_Subject := v1alpha1.SNSConfig_Subject x;
    v1beta1.SNSConfig_PhoneNumber := v1alpha1.SNSConfig_PhoneNumber x;
    v1beta1.SNSConfig_TargetARN := v1alpha1.SNSConfig_TargetARN x;
    v1beta1.SNSConfig_Message := v1alpha1.SNSConfig_Message x;
    v1beta1.SNSConfig_Attributes := v1alpha1.SNSConfig_Attributes x;
    v1beta1.SNSConfig_HTTPConfig := convertHTTPConfigFrom (v1alpha1.SNSConfig_HTTPConfig x) |}.
Definition convertTelegramConfigFrom (x : v1alpha1.TelegramConfig) : v1beta1.TelegramConfig := {|
    v1beta1.TelegramConfig_SendResolved := v1alpha1.TelegramConfig_SendResolved x;
    v1beta1.TelegramConfig_APIURL := v1alpha1.TelegramConfig_APIURL x;
    v1beta1.TelegramConfig_BotToken :=
      convertSecretKeySelectorFrom (v1alpha1.TelegramConfig_BotToken x);
    v1beta1.TelegramConfig_BotTokenFile := v1alpha1.TelegramConfig_BotTokenFile x;
    v1beta1.TelegramConfig_ChatID := v1alpha1.TelegramConfig_ChatID x;
    v1beta1.TelegramConfig_MessageThreadID := v1alpha1.TelegramConfig_MessageThreadID x;
    v1beta1.TelegramConfig_Message := v1alpha1.TelegramConfig_Message x;
    v1beta1.TelegramConfig_DisableNotifications := v1alpha1.TelegramConfig_DisableNotifications x;
    v1beta1.TelegramConfig_ParseMode := v1alpha1.TelegramConfig_ParseMode x;
    v1beta1.TelegramConfig_HTTPConfig :=
      convertHTTPConfigFrom (v1alpha1.TelegramConfig_HTTPConfig x) |}.
Definition convertMSTeamsConfigFrom (x : v1alpha1.MSTeamsConfig) : v1beta1.MSTeamsConfig := {|
    v1beta1.MSTeamsConfig_SendResolved := v1alpha1.MSTeamsConfig_SendResolved x;
    v1beta1.MSTeamsConfig_WebhookURL := v1alpha1.MSTeamsConfig_WebhookURL x;
    v1beta1.MSTeamsConfig_Title := v1alpha1.MSTeamsConfig_Title x;
    v1beta1.MSTeamsConfig_Summary := v1alpha1.MSTeamsConfig_Summary x;
    v1beta1.MSTeamsConfig_Text := v1alpha1.MSTeamsConfig_Text x;
    v1beta1.MSTeamsConfig_HTTPConfig :=
      convertHTTPConfigFrom (v1alpha1.MSTeamsConfig_HTTPConfig x) |}.
Definition convertMSTeamsV2ConfigFrom (x : v1alpha1.MSTeamsV2Config) : v1beta1.MSTeamsV2Config := {|
    v1beta1.MSTeamsV2Config_SendResolved := v1alpha1.MSTeamsV2Config_SendResolved x;
    v1beta1.MSTeamsV2Config_WebhookURL := v1alpha1.MSTeamsV2Config_WebhookURL x;
    v1beta1.MSTeamsV2Config_Title := v1alpha1.MSTeamsV2Config_Title x;
    v1beta1.MSTeamsV2Config_Text := v1alpha1.MSTeamsV2Config_Text x;
    v1beta1.MSTeamsV2Config_HTTPConfig :=
      convertHTTPConfigFrom (v1alpha1.MSTeamsV2Config_HTTPConfig x) |}.
(** The body of the loop over the receivers of [ConvertFrom]. *)
Definition convertReceiverFrom (x : v1alpha1.Receiver) : v1beta1.Receiver := {|
    v1beta1.Receiver_Name := v1alpha1.Receiver_Name x;
    v1beta1.Receiver_OpsGenieConfigs :=
      convertOpsGenieConfigFrom <$> v1alpha1.Receiver_OpsGenieConfigs x;
    v1beta1.Receiver_PagerDutyConfigs :=
      convertPagerDutyConfigFrom <$> v1alpha1.Receiver_PagerDutyConfigs x;
    v1beta1.Receiver_DiscordConfigs :=
      convertDiscordConfigFrom <$> v1alpha1.Receiver_DiscordConfigs x;
    v1beta1.Receiver_SlackConfigs := convertSlackConfigFrom <$> v1alpha1.Receiver_SlackConfigs x;
    v1beta1.Receiver_WebhookConfigs :=
      convertWebhookConfigFrom <$> v1alpha1.Receiver_WebhookConfigs x;
    v1beta1.Receiver_WeChatConfigs := convertWeChatConfigFrom <$> v1alpha1.Receiver_WeChatConfigs x;
    v1beta1.Receiver_EmailConfigs := convertEmailConfigFrom <$> v1alpha1.Receiver_EmailConfigs x;
    v1beta1.Receiver_VictorOpsConfigs :=
      convertVictorOpsConfigFrom <$> v1alpha1.Receiver_VictorOpsConfigs x;
    v1beta1.Receiver_PushoverConfigs :=
      convertPushoverConfigFrom <$> v1alpha1.Receiver_PushoverConfigs x;
    v1beta1.Receiver_SNSConfigs := convertSNSConfigFrom <$> v1alpha1.Receiver_SNSConfigs x;
    v1beta1.Receiver_TelegramConfigs :=
      convertTelegramConfigFrom <$> v1alpha1.Receiver_TelegramConfigs x;
    v1beta1.Receiver_WebexConfigs := convertWebexConfigFrom <$> v1alpha1.Receiver_WebexConfigs x;
    v1beta1.Receiver_MSTeamsConfigs :=
      convertMSTeamsConfigFrom <$> v1alpha1.Receiver_MSTeamsConfigs x;
    v1beta1.Receiver_MSTeamsV2Configs :=
      convertMSTeamsV2ConfigFrom <$> v1alpha1.Receiver_MSTeamsV2Configs x |}.
Definition convertInhibitRuleFrom (x : v1alpha1.InhibitRule) : v1beta1.InhibitRule := {|
    v1beta1.InhibitRule_TargetMatch := convertMatchersFrom (v1alpha1.InhibitRule_TargetMatch x);
    v1beta1.InhibitRule_SourceMatch := convertMatchersFrom (v1alpha1.InhibitRule_SourceMatch x);
    v1beta1.InhibitRule_Equal := v1alpha1.InhibitRule_Equal x |}.

(** The body of the loop over the time intervals of [ConvertFrom]. *)
Definition convertIntervalFrom (x : v1alpha1.MuteTimeInterval) : v1beta1.TimeInterval := {|
    v1beta1.TimeInterval_Name := v1alpha1.MuteTimeInterval_Name x;
    v1beta1.TimeInterval_TimeIntervals := convertTimeIntervalsFrom (v1alpha1.MuteTimeInterval_TimeIntervals x) |}.

(** The route itself, before its children are appended. *)
Definition convertRouteFieldsFrom (x : v1alpha1.Route) : v1beta1.Route := {|
    v1beta1.Route_Receiver := v1alpha1.Route_Receiver x;
    v1beta1.Route_GroupBy := v1alpha1.Route_GroupBy x;
    v1beta1.Route_GroupWait := v1alpha1.Route_GroupWait x;
    v1beta1.Route_GroupInterval := v1alpha1.Route_GroupInterval x;
    v1beta1.Route_RepeatInterval := v1alpha1.Route_RepeatInterval x;
    v1beta1.Route_Matchers := convertMatchersFrom (v1alpha1.Route_Matchers x);
    v1beta1.Route_Continue := v1alpha1.Route_Continue x;
    v1beta1.Route_Routes := [];
    v1beta1.Route_MuteTimeIntervals := v1alpha1.Route_MuteTimeIntervals x;
    v1beta1.Route_ActiveTimeIntervals := v1alpha1.Route_ActiveTimeIntervals x |}.

Section convert.
Context `{RawJSON}.

(** A nil route stays nil. The recursion needs no more fuel than the route is deep. *)
Definition convertRouteFrom (o : option v1alpha1.Route) : res (option v1beta1.Route) :=
  match o with
  | None => Ok None
  | Some r => out ← convert_with convertRouteFieldsFrom (depth r) r; Ok (Some out)
  end.

Definition ConvertFrom (src : v1alpha1.AlertmanagerConfig) : res v1beta1.AlertmanagerConfig :=
  let spec := v1alpha1.AlertmanagerConfig_Spec src in
  r ← convertRouteFrom (v1alpha1.AlertmanagerConfigSpec_Route spec);
  Ok {| v1beta1.AlertmanagerConfig_ObjectMeta := v1alpha1.AlertmanagerConfig_ObjectMeta src;
        v1beta1.AlertmanagerConfig_Spec := {|
          v1beta1.AlertmanagerConfigSpec_Route := r;
          v1beta1.AlertmanagerConfigSpec_Receivers :=
            convertReceiverFrom <$> v1alpha1.AlertmanagerConfigSpec_Receivers spec;
          v1beta1.AlertmanagerConfigSpec_InhibitRules :=
            convertInhibitRuleFrom <$> v1alpha1.AlertmanagerConfigSpec_InhibitRules spec;
          v1beta1.AlertmanagerConfigSpec_TimeIntervals :=
            convertIntervalFrom <$> v1alpha1.AlertmanagerConfigSpec_MuteTimeIntervals spec |} |}.
End convert.
