(* ===== verification/ConvertTo.v ===== *)
(** * Conversion from v1beta1 to v1alpha1

    pkg/apis/monitoring/v1beta1/conversion_to.go: from the spoke version v1beta1 of an
    AlertmanagerConfig to the hub version v1alpha1. Child routes are decoded, converted and encoded again. *)

From S2P Require Import Prelude GoStrings Meta Json RouteTree MonitoringV1 TimeRanges V1alpha1.
From S2P Require Import V1beta1.

Definition convertSecretKeySelectorTo (o : option v1beta1.SecretKeySelector)
    : option MonitoringV1.SecretKeySelector :=
  (fun x => {|
    SecretKeySelector_Name := v1beta1.SecretKeySelector_Name x;
    SecretKeySelector_Key := v1beta1.SecretKeySelector_Key x;
    SecretKeySelector_Optional := None |}) <$> o.
Definition convertMatchersTo (ms : list v1beta1.Matcher) : list v1alpha1.Matcher :=
  (fun m =>
    {| v1alpha1.Matcher_Name := v1beta1.Matcher_Name m;
       v1alpha1.Matcher_Value := v1beta1.Matcher_Value m;
       v1alpha1.Matcher_MatchType := v1beta1.Matcher_MatchType m;
       v1alpha1.Matcher_Regex := false |}) <$> ms.
(** The body of the loop of [convertTimeIntervalsTo]. *)
Definition convertTimePeriodTo (ti : v1beta1.TimePeriod) : v1alpha1.TimeInterval := {|
    v1alpha1.TimeInterval_Times :=
      (fun tr => {| v1alpha1.TimeRange_StartTime := v1beta1.TimeRange_StartTime tr;
                    v1alpha1.TimeRange_EndTime :=
                      v1beta1.TimeRange_EndTime tr |}) <$> v1beta1.TimePeriod_Times ti;
    v1alpha1.TimeInterval_Weekdays := v1beta1.TimePeriod_Weekdays ti;
    v1alpha1.TimeInterval_DaysOfMonth :=
      (fun dm => {| v1alpha1.DayOfMonthRange_Start := v1beta1.DayOfMonthRange_Start dm;
                    v1alpha1.DayOfMonthRange_End :=
                      v1beta1.DayOfMonthRange_End dm |}) <$> v1beta1.TimePeriod_DaysOfMonth ti;
    v1alpha1.TimeInterval_Months := v1beta1.TimePeriod_Months ti;
    v1alpha1.TimeInterval_Years := v1beta1.TimePeriod_Years ti |}.
Definition convertTimeIntervalsTo (tis : list v1beta1.TimePeriod) : list v1alpha1.TimeInterval :=
  convertTimePeriodTo <$> tis.
Definition convertHTTPConfigTo (o : option v1beta1.HTTPConfig) : option v1alpha1.HTTPConfig :=
  (fun x => {|
    v1alpha1.HTTPConfig_Authorization := v1beta1.HTTPConfig_Authorization x;
    v1alpha1.HTTPConfig_BasicAuth := v1beta1.HTTPConfig_BasicAuth x;
    v1alpha1.HTTPConfig_OAuth2 := v1beta1.HTTPConfig_OAuth2 x;
    v1alpha1.HTTPConfig_BearerTokenSecret :=
      convertSecretKeySelectorTo (v1beta1.HTTPConfig_BearerTokenSecret x);
    v1alpha1.HTTPConfig_TLSConfig := v1beta1.HTTPConfig_TLSConfig x;
    v1alpha1.HTTPConfig_ProxyURLOriginal := v1beta1.HTTPConfig_ProxyURLOriginal x;
    v1alpha1.HTTPConfig_ProxyConfig := v1beta1.HTTPConfig_ProxyConfig x;
    v1alpha1.HTTPConfig_FollowRedirects := v1beta1.HTTPConfig_FollowRedirects x |}) <$> o.
Definition convertKeyValuesTo (xs : list v1beta1.KeyValue)
    : list v1alpha1.KeyValue :=
  (fun x => {|
    v1alpha1.KeyValue_Key := v1beta1.KeyValue_Key x;
    v1alpha1.KeyValue_Value := v1beta1.KeyValue_Value x |}) <$> xs.
Definition convertOpsGenieConfigRespondersTo (xs : list v1beta1.OpsGenieConfigResponder)
    : list v1alpha1.OpsGenieConfigResponder :=
  (fun x => {|
    v1alpha1.OpsGenieConfigResponder_ID := v1beta1.OpsGenieConfigResponder_ID x;
    v1alpha1.OpsGenieConfigResponder_Name := v1beta1.OpsGenieConfigResponder_Name x;
    v1alpha1.OpsGenieConfigResponder_Username := v1beta1.OpsGenieConfigResponder_Username x;
    v1alpha1.OpsGenieConfigResponder_Type := v1beta1.OpsGenieConfigResponder_Type x |}) <$> xs.
Definition convertPagerDutyImageConfigsTo (xs : list v1beta1.PagerDutyImageConfig)
    : list v1alpha1.PagerDutyImageConfig :=
  (fun x => {|
    v1alpha1.PagerDutyImageConfig_Src := v1beta1.PagerDutyImageConfig_Src x;
    v1alpha1.PagerDutyImageConfig_Href := v1beta1.PagerDutyImageConfig_Href x;
    v1alpha1.PagerDutyImageConfig_Alt := v1beta1.PagerDutyImageConfig_Alt x |}) <$> xs.
Definition convertPagerDutyLinkConfigsTo (xs : list v1beta1.PagerDutyLinkConfig)
    : list v1alpha1.PagerDutyLinkConfig :=
  (fun x => {|
    v1alpha1.PagerDutyLinkConfig_Href := v1beta1.PagerDutyLinkConfig_Href x;
    v1alpha1.PagerDutyLinkConfig_Text := v1beta1.PagerDutyLinkConfig_Text x |}) <$> xs.
Definition convertSlackFieldsTo (xs : list v1beta1.SlackField)
    : list v1alpha1.SlackField :=
  (fun x => {|
    v1alpha1.SlackField_Title := v1beta1.SlackField_Title x;
    v1alpha1.SlackField_Value := v1beta1.SlackField_Value x;
    v1alpha1.SlackField_Short := v1beta1.SlackField_Short x |}) <$> xs.
Definition convertSlackActionsTo (xs : list v1beta1.SlackAction) : list v1alpha1.SlackAction :=
  (fun x => {|
    v1alpha1.SlackAction_Type := v1beta1.SlackAction_Type x;
    v1alpha1.SlackAction_Text := v1beta1.SlackAction_Text x;
    v1alpha1.SlackAction_URL := v1beta1.SlackAction_URL x;
    v1alpha1.SlackAction_Style := v1beta1.SlackAction_Style x;
    v1alpha1.SlackAction_Name := v1beta1.SlackAction_Name x;
    v1alpha1.SlackAction_Value := v1beta1.SlackAction_Value x;
    v1alpha1.SlackAction_ConfirmField :=
      (fun c => {| v1alpha1.SlackConfirmationField_Text := v1beta1.SlackConfirmationField_Text c;
                   v1alpha1.SlackConfirmationField_Title := v1beta1.SlackConfirmationField_Title c;
                   v1alpha1.SlackConfirmationField_OkText :=
                     v1beta1.SlackConfirmationField_OkText c;
                   v1alpha1.SlackConfirmationField_DismissText :=
                     v1beta1.SlackConfirmationField_DismissText c |}) <$> v1beta1.SlackAction_ConfirmField x |}) <$> xs.
Definition convertOpsGenieConfigTo (x : v1beta1.OpsGenieConfig) : v1alpha1.OpsGenieConfig := {|
    v1alpha1.OpsGenieConfig_SendResolved := v1beta1.OpsGenieConfig_SendResolved x;
    v1alpha1.OpsGenieConfig_APIKey := convertSecretKeySelectorTo (v1beta1.OpsGenieConfig_APIKey x);
    v1alpha1.OpsGenieConfig_APIURL := v1beta1.OpsGenieConfig_APIURL x;
    v1alpha1.OpsGenieConfig_Message := v1beta1.OpsGenieConfig_Message x;
    v1alpha1.OpsGenieConfig_Description := v1beta1.OpsGenieConfig_Description x;
    v1alpha1.OpsGenieConfig_Source := v1beta1.OpsGenieConfig_Source x;
    v1alpha1.OpsGenieConfig_Tags := v1beta1.OpsGenieConfig_Tags x;
    v1alpha1.OpsGenieConfig_Note := v1beta1.OpsGenieConfig_Note x;
    v1alpha1.OpsGenieConfig_Priority := v1beta1.OpsGenieConfig_Priority x;
    v1alpha1.OpsGenieConfig_UpdateAlerts := None;
    v1alpha1.OpsGenieConfig_Details := convertKeyValuesTo (v1beta1.OpsGenieConfig_Details x);
    v1alpha1.OpsGenieConfig_Responders :=
      convertOpsGenieConfigRespondersTo (v1beta1.OpsGenieConfig_Responders x);
    v1alpha1.OpsGenieConfig_HTTPConfig := convertHTTPConfigTo (v1beta1.OpsGenieConfig_HTTPConfig x);
    v1alpha1.OpsGenieConfig_Entity := v1beta1.OpsGenieConfig_Entity x;
    v1alpha1.OpsGenieConfig_Actions := v1beta1.OpsGenieConfig_Actions x |}.
Definition convertPagerDutyConfigTo (x : v1beta1.PagerDutyConfig) : v1alpha1.PagerDutyConfig := {|
    v1alpha1.PagerDutyConfig_SendResolved := v1beta1.PagerDutyConfig_SendResolved x;
    v1alpha1.PagerDutyConfig_RoutingKey :=
      convertSecretKeySelectorTo (v1beta1.PagerDutyConfig_RoutingKey x);
    v1alpha1.PagerDutyConfig_ServiceKey :=
      convertSecretKeySelectorTo (v1beta1.PagerDutyConfig_ServiceKey x);
    v1alpha1.PagerDutyConfig_URL := v1beta1.PagerDutyConfig_URL x;
    v1alpha1.PagerDutyConfig_Client := v1beta1.PagerDutyConfig_Client x;
    v1alpha1.PagerDutyConfig_ClientURL := v1beta1.PagerDutyConfig_ClientURL x;
    v1alpha1.PagerDutyConfig_Description := v1beta1.PagerDutyConfig_Description x;
    v1alpha1.PagerDutyConfig_Severity := v1beta1.PagerDutyConfig_Severity x;
    v1alpha1.PagerDutyConfig_Class := v1beta1.PagerDutyConfig_Class x;
    v1alpha1.PagerDutyConfig_Group := v1beta1.PagerDutyConfig_Group x;
    v1alpha1.PagerDutyConfig_Component := v1beta1.PagerDutyConfig_Component x;
    v1alpha1.PagerDutyConfig_Details := convertKeyValuesTo (v1beta1.PagerDutyConfig_Details x);
    v1alpha1.PagerDutyConfig_PagerDutyImageConfigs :=
      convertPagerDutyImageConfigsTo (v1beta1.PagerDutyConfig_PagerDutyImageConfigs x);
    v1alpha1.PagerDutyConfig_PagerDutyLinkConfigs :=
      convertPagerDutyLinkConfigsTo (v1beta1.PagerDutyConfig_PagerDutyLinkConfigs x);
    v1alpha1.PagerDutyConfig_HTTPConfig :=
      convertHTTPConfigTo (v1beta1.PagerDutyConfig_HTTPConfig x);
    v1alpha1.PagerDutyConfig_Source := v1beta1.PagerDutyConfig_Source x |}.
Definition convertDiscordConfigTo (x : v1beta1.DiscordConfig) : v1alpha1.DiscordConfig := {|
    v1alpha1.DiscordConfig_SendResolved := v1beta1.DiscordConfig_SendResolved x;
    v1alpha1.DiscordConfig_APIURL := v1beta1.DiscordConfig_APIURL x;
    v1alpha1.DiscordConfig_Title := v1beta1.DiscordConfig_Title x;
    v1alpha1.DiscordConfig_Message := v1beta1.DiscordConfig_Message x;
    v1alpha1.DiscordConfig_Content := v1beta1.DiscordConfig_Content x;
    v1alpha1.DiscordConfig_Username := v1beta1.DiscordConfig_Username x;
    v1alpha1.DiscordConfig_AvatarURL := v1beta1.DiscordConfig_AvatarURL x;
    v1alpha1.DiscordConfig_HTTPConfig :=
      convertHTTPConfigTo (v1beta1.DiscordConfig_HTTPConfig x) |}.
Definition convertSlackConfigTo (x : v1beta1.SlackConfig) : v1alpha1.SlackConfig := {|
    v1alpha1.SlackConfig_SendResolved := v1beta1.SlackConfig_SendResolved x;
    v1alpha1.SlackConfig_APIURL := convertSecretKeySelectorTo (v1beta1.SlackConfig_APIURL x);
    v1alpha1.SlackConfig_Channel := v1beta1.SlackConfig_Channel x;
    v1alpha1.SlackConfig_Username := v1beta1.SlackConfig_Username x;
    v1alpha1.SlackConfig_Color := v1beta1.SlackConfig_Color x;
    v1alpha1.SlackConfig_Title := v1beta1.SlackConfig_Title x;
    v1alpha1.SlackConfig_TitleLink := v1beta1.SlackConfig_TitleLink x;
    v1alpha1.SlackConfig_Pretext := v1beta1.SlackConfig_Pretext x;
    v1alpha1.SlackConfig_Text := v1beta1.SlackConfig_Text x;
    v1alpha1.SlackConfig_Fields := convertSlackFieldsTo (v1beta1.SlackConfig_Fields x);
    v1alpha1.SlackConfig_ShortFields := v1beta1.SlackConfig_ShortFields x;
    v1alpha1.SlackConfig_Footer := v1beta1.SlackConfig_Footer x;
    v1alpha1.SlackConfig_Fallback := v1beta1.SlackConfig_Fallback x;
    v1alpha1.SlackConfig_CallbackID := v1beta1.SlackConfig_CallbackID x;
    v1alpha1.SlackConfig_IconEmoji := v1beta1.SlackConfig_IconEmoji x;
    v1alpha1.SlackConfig_IconURL := v1beta1.SlackConfig_IconURL x;
    v1alpha1.SlackConfig_ImageURL := v1beta1.SlackConfig_ImageURL x;
    v1alpha1.SlackConfig_ThumbURL := v1beta1.SlackConfig_ThumbURL x;
    v1alpha1.SlackConfig_LinkNames := v1beta1.SlackConfig_LinkNames x;
    v1alpha1.SlackConfig_MrkdwnIn := v1beta1.SlackConfig_MrkdwnIn x;
    v1alpha1.SlackConfig_Actions := convertSlackActionsTo (v1beta1.SlackConfig_Actions x);
    v1alpha1.SlackConfig_HTTPConfig := convertHTTPConfigTo (v1beta1.SlackConfig_HTTPConfig x) |}.
Definition convertWebexConfigTo (x : v1beta1.WebexConfig) : v1alpha1.WebexConfig := {|
    v1alpha1.WebexConfig_SendResolved := v1beta1.WebexConfig_SendResolved x;
    v1alpha1.WebexConfig_APIURL := v1beta1.WebexConfig_APIURL x;
    v1alpha1.WebexConfig_HTTPConfig := convertHTTPConfigTo (v1beta1.WebexConfig_HTTPConfig x);
    v1alpha1.WebexConfig_Message := v1beta1.WebexConfig_Message x;
    v1alpha1.WebexConfig_RoomID := v1beta1.WebexConfig_RoomID x |}.
Definition convertWebhookConfigTo (x : v1beta1.WebhookConfig) : v1alpha1.WebhookConfig := {|
    v1alpha1.WebhookConfig_SendResolved := v1beta1.WebhookConfig_SendResolved x;
    v1alpha1.WebhookConfig_URL := v1beta1.WebhookConfig_URL x;
    v1alpha1.WebhookConfig_URLSecret :=
      convertSecretKeySelectorTo (v1beta1.WebhookConfig_URLSecret x);
    v1alpha1.WebhookConfig_HTTPConfig := convertHTTPConfigTo (v1beta1.WebhookConfig_HTTPConfig x);
    v1alpha1.WebhookConfig_MaxAlerts := v1beta1.WebhookConfig_MaxAlerts x;
    v1alpha1.WebhookConfig_Timeout := v1beta1.WebhookConfig_Timeout x |}.
Definition convertWeChatConfigTo (x : v1beta1.WeChatConfig) : v1alpha1.WeChatConfig := {|
    v1alpha1.WeChatConfig_SendResolved := v1beta1.WeChatConfig_SendResolved x;
    v1alpha1.WeChatConfig_APISecret :=
      convertSecretKeySelectorTo (v1beta1.WeChatConfig_APISecret x);
    v1alpha1.WeChatConfig_APIURL := v1beta1.WeChatConfig_APIURL x;
    v1alpha1.WeChatConfig_CorpID := v1beta1.WeChatConfig_CorpID x;
    v1alpha1.WeChatConfig_AgentID := v1beta1.WeChatConfig_AgentID x;
    v1alpha1.WeChatConfig_ToUser := v1beta1.WeChatConfig_ToUser x;
    v1alpha1.WeChatConfig_ToParty := v1beta1.WeChatConfig_ToParty x;
    v1alpha1.WeChatConfig_ToTag := v1beta1.WeChatConfig_ToTag x;
    v1alpha1.WeChatConfig_Message := v1beta1.WeChatConfig_Message x;
    v1alpha1.WeChatConfig_MessageType := v1beta1.WeChatConfig_MessageType x;
    v1alpha1.WeChatConfig_HTTPConfig := convertHTTPConfigTo (v1beta1.WeChatConfig_HTTPConfig x) |}.
Definition convertEmailConfigTo (x : v1beta1.EmailConfig) : v1alpha1.EmailConfig := {|
    v1alpha1.EmailConfig_SendResolved := v1beta1.EmailConfig_SendResolved x;
    v1alpha1.EmailConfig_To := v1beta1.EmailConfig_To x;
    v1alpha1.EmailConfig_From := v1beta1.EmailConfig_From x;
    v1alpha1.EmailConfig_Hello := v1beta1.EmailConfig_Hello x;
    v1alpha1.EmailConfig_Smarthost := v1beta1.EmailConfig_Smarthost x;
    v1alpha1.EmailConfig_AuthUsername := v1beta1.EmailConfig_AuthUsername x;
    v1alpha1.EmailConfig_AuthPassword :=
      convertSecretKeySelectorTo (v1beta1.EmailConfig_AuthPassword x);
    v1alpha1.EmailConfig_AuthSecret :=
      convertSecretKeySelectorTo (v1beta1.EmailConfig_AuthSecret x);
    v1alpha1.EmailConfig_AuthIdentity := v1beta1.EmailConfig_AuthIdentity x;
    v1alpha1.EmailConfig_Headers := convertKeyValuesTo (v1beta1.EmailConfig_Headers x);
    v1alpha1.EmailConfig_HTML := v1beta1.EmailConfig_HTML x;
    v1alpha1.EmailConfig_Text := v1beta1.EmailConfig_Text x;
    v1alpha1.EmailConfig_RequireTLS := v1beta1.EmailConfig_RequireTLS x;
    v1alpha1.EmailConfig_TLSConfig := v1beta1.EmailConfig_TLSConfig x |}.
Definition convertVictorOpsConfigTo (x : v1beta1.VictorOpsConfig) : v1alpha1.VictorOpsConfig := {|
    v1alpha1.VictorOpsConfig_SendResolved := v1beta1.VictorOpsConfig_SendResolved x;
    v1alpha1.VictorOpsConfig_APIKey :=
      convertSecretKeySelectorTo (v1beta1.VictorOpsConfig_APIKey x);
    v1alpha1.VictorOpsConfig_APIURL := v1beta1.VictorOpsConfig_APIURL x;
    v1alpha1.VictorOpsConfig_RoutingKey := v1beta1.VictorOpsConfig_RoutingKey x;
    v1alpha1.VictorOpsConfig_MessageType := v1beta1.VictorOpsConfig_MessageType x;
    v1alpha1.VictorOpsConfig_EntityDisplayName := v1beta1.VictorOpsConfig_EntityDisplayName x;
    v1alpha1.VictorOpsConfig_StateMessage := v1beta1.VictorOpsConfig_StateMessage x;
    v1alpha1.VictorOpsConfig_MonitoringTool := v1beta1.VictorOpsConfig_MonitoringTool x;
    v1alpha1.VictorOpsConfig_CustomFields :=
      convertKeyValuesTo (v1beta1.VictorOpsConfig_CustomFields x);
    v1alpha1.VictorOpsConfig_HTTPConfig :=
      convertHTTPConfigTo (v1beta1.VictorOpsConfig_HTTPConfig x) |}.
Definition convertPushoverConfigTo (x : v1beta1.PushoverConfig) : v1alpha1.PushoverConfig := {|
    v1alpha1.PushoverConfig_SendResolved := v1beta1.PushoverConfig_SendResolved x;
    v1alpha1.PushoverConfig_UserKey :=
      convertSecretKeySelectorTo (v1beta1.PushoverConfig_UserKey x);
    v1alpha1.PushoverConfig_UserKeyFile := v1beta1.PushoverConfig_UserKeyFile x;
    v1alpha1.PushoverConfig_Token := convertSecretKeySelectorTo (v1beta1.PushoverConfig_Token x);
    v1alpha1.PushoverConfig_TokenFile := v1beta1.PushoverConfig_TokenFile x;
    v1alpha1.PushoverConfig_Title := v1beta1.PushoverConfig_Title x;
    v1alpha1.PushoverConfig_Message := v1beta1.PushoverConfig_Message x;
    v1alpha1.PushoverConfig_URL := v1beta1.PushoverConfig_URL x;
    v1alpha1.PushoverConfig_URLTitle := v1beta1.PushoverConfig_URLTitle x;
    v1alpha1.PushoverConfig_TTL := None;
    v1alpha1.PushoverConfig_Device := v1beta1.PushoverConfig_Device x;
    v1alpha1.PushoverConfig_Sound := v1beta1.PushoverConfig_Sound x;
    v1alpha1.PushoverConfig_Priority := v1beta1.PushoverConfig_Priority x;
    v1alpha1.PushoverConfig_Retry := v1beta1.PushoverConfig_Retry x;
    v1alpha1.PushoverConfig_Expire := v1beta1.PushoverConfig_Expire x;
    v1alpha1.PushoverConfig_HTML := v1beta1.PushoverConfig_HTML x;
    v1alpha1.PushoverConfig_HTTPConfig :=
      convertHTTPConfigTo (v1beta1.PushoverConfig_HTTPConfig x) |}.
Definition convertSNSConfigTo (x : v1beta1.SNSConfig) : v1alpha1.SNSConfig := {|
    v1alpha1.SNSConfig_SendResolved := v1beta1.SNSConfig_SendResolved x;
    v1alpha1.SNSConfig_ApiURL := v1beta1.SNSConfig_ApiURL x;
    v1alpha1.SNSConfig_Sigv4 := v1beta1.SNSConfig_Sigv4 x;
    v1alpha1.SNSConfig_TopicARN := v1beta1.SNSConfig_TopicARN x;
    v1alpha1.SNSConfig_Subject := v1beta1.SNSConfig_Subject x;
    v1alpha1.SNSConfig_PhoneNumber := v1beta1.SNSConfig_PhoneNumber x;
    v1alpha1.SNSConfig_TargetARN := v1beta1.SNSConfig_TargetARN x;
    v1alpha1.SNSConfig_Message := v1beta1.SNSConfig_Message x;
    v1alpha1.SNSConfig_Attributes := v1beta1.SNSConfig_Attributes x;
    v1alpha1.SNSConfig_HTTPConfig := convertHTTPConfigTo (v1beta1.SNSConfig_HTTPConfig x) |}.
Definition convertTelegramConfigTo (x : v1beta1.TelegramConfig) : v1alpha1.TelegramConfig := {|
    v1alpha1.TelegramConfig_SendResolved := v1beta1.TelegramConfig_SendResolved x;
    v1alpha1.TelegramConfig_APIURL := v1beta1.TelegramConfig_APIURL x;
    v1alpha1.TelegramConfig_BotToken :=
      convertSecretKeySelectorTo (v1beta1.TelegramConfig_BotToken x);
    v1alpha1.TelegramConfig_BotTokenFile := v1beta1.TelegramConfig_BotTokenFile x;
    v1alpha1.TelegramConfig_ChatID := v1beta1.TelegramConfig_ChatID x;
    v1alpha1.TelegramConfig_MessageThreadID := v1beta1.TelegramConfig_MessageThreadID x;
    v1alpha1.TelegramConfig_Message := v1beta1.TelegramConfig_Message x;
    v1alpha1.TelegramConfig_DisableNotifications := v1beta1.TelegramConfig_DisableNotifications x;
    v1alpha1.TelegramConfig_ParseMode := v1beta1.TelegramConfig_ParseMode x;
    v1alpha1.TelegramConfig_HTTPConfig :=
      convertHTTPConfigTo (v1beta1.TelegramConfig_HTTPConfig x) |}.
Definition convertMSTeamsConfigTo (x : v1beta1.MSTeamsConfig) : v1alpha1.MSTeamsConfig := {|
    v1alpha1.MSTeamsConfig_SendResolved := v1beta1.MSTeamsConfig_SendResolved x;
    v1alpha1.MSTeamsConfig_WebhookURL := v1beta1.MSTeamsConfig_WebhookURL x;
    v1alpha1.MSTeamsConfig_Title := v1beta1.MSTeamsConfig_Title x;
    v1alpha1.MSTeamsConfig_Summary := v1beta1.MSTeamsConfig_Summary x;
    v1alpha1.MSTeamsConfig_Text := v1beta1.MSTeamsConfig_Text x;
    v1alpha1.MSTeamsConfig_HTTPConfig :=
      convertHTTPConfigTo (v1beta1.MSTeamsConfig_HTTPConfig x) |}.
Definition convertMSTeamsV2ConfigTo (x : v1beta1.MSTeamsV2Config) : v1alpha1.MSTeamsV2Config := {|
    v1alpha1.MSTeamsV2Config_SendResolved := v1beta1.MSTeamsV2Config_SendResolved x;
    v1alpha1.MSTeamsV2Config_WebhookURL := v1beta1.MSTeamsV2Config_WebhookURL x;
    v1alpha1.MSTeamsV2Config_Title := v1beta1.MSTeamsV2Config_Title x;
    v1alpha1.MSTeamsV2Config_Text := v1beta1.MSTeamsV2Config_Text x;
    v1alpha1.MSTeamsV2Config_HTTPConfig :=
      convertHTTPConfigTo (v1beta1.MSTeamsV2Config_HTTPConfig x) |}.
(** The body of the loop over the receivers of [ConvertTo]. *)
Definition convertReceiverTo (x : v1beta1.Receiver) : v1alpha1.Receiver := {|
    v1alpha1.Receiver_Name := v1beta1.Receiver_Name x;
    v1alpha1.Receiver_OpsGenieConfigs :=
      convertOpsGenieConfigTo <$> v1beta1.Receiver_OpsGenieConfigs x;
    v1alpha1.Receiver_PagerDutyConfigs :=
      convertPagerDutyConfigTo <$> v1beta1.Receiver_PagerDutyConfigs x;
    v1alpha1.Receiver_DiscordConfigs :=
      convertDiscordConfigTo <$> v1beta1.Receiver_DiscordConfigs x;
    v1alpha1.Receiver_SlackConfigs := convertSlackConfigTo <$> v1beta1.Receiver_SlackConfigs x;
    v1alpha1.Receiver_WebhookConfigs :=
      convertWebhookConfigTo <$> v1beta1.Receiver_WebhookConfigs x;
    v1alpha1.Receiver_WeChatConfigs := convertWeChatConfigTo <$> v1beta1.Receiver_WeChatConfigs x;
    v1alpha1.Receiver_EmailConfigs := convertEmailConfigTo <$> v1beta1.Receiver_EmailConfigs x;
    v1alpha1.Receiver_VictorOpsConfigs :=
      convertVictorOpsConfigTo <$> v1beta1.Receiver_VictorOpsConfigs x;
    v1alpha1.Receiver_PushoverConfigs :=
      convertPushoverConfigTo <$> v1beta1.Receiver_PushoverConfigs x;
    v1alpha1.Receiver_SNSConfigs := convertSNSConfigTo <$> v1beta1.Receiver_SNSConfigs x;
    v1alpha1.Receiver_TelegramConfigs :=
      convertTelegramConfigTo <$> v1beta1.Receiver_TelegramConfigs x;
    v1alpha1.Receiver_WebexConfigs := convertWebexConfigTo <$> v1beta1.Receiver_WebexConfigs x;
    v1alpha1.Receiver_MSTeamsConfigs :=
      convertMSTeamsConfigTo <$> v1beta1.Receiver_MSTeamsConfigs x;
    v1alpha1.Receiver_MSTeamsV2Configs :=
      convertMSTeamsV2ConfigTo <$> v1beta1.Receiver_MSTeamsV2Configs x |}.
Definition convertInhibitRuleTo (x : v1beta1.InhibitRule) : v1alpha1.InhibitRule := {|
    v1alpha1.InhibitRule_TargetMatch := convertMatchersTo (v1beta1.InhibitRule_TargetMatch x);
    v1alpha1.InhibitRule_SourceMatch := convertMatchersTo (v1beta1.InhibitRule_SourceMatch x);
    v1alpha1.InhibitRule_Equal := v1beta1.InhibitRule_Equal x |}.

(** The body of the loop over the time intervals of [ConvertTo]. *)
Definition convertIntervalTo (x : v1beta1.TimeInterval) : v1alpha1.MuteTimeInterval := {|
    v1alpha1.MuteTimeInterval_Name := v1beta1.TimeInterval_Name x;
    v1alpha1.MuteTimeInterval_TimeIntervals := convertTimeIntervalsTo (v1beta1.TimeInterval_TimeIntervals x) |}.

(** The route itself, before its children are appended. *)
Definition convertRouteFieldsTo (x : v1beta1.Route) : v1alpha1.Route := {|
    v1alpha1.Route_Receiver := v1beta1.Route_Receiver x;
    v1alpha1.Route_GroupBy := v1beta1.Route_GroupBy x;
    v1alpha1.Route_GroupWait := v1beta1.Route_GroupWait x;
    v1alpha1.Route_GroupInterval := v1beta1.Route_GroupInterval x;
    v1alpha1.Route_RepeatInterval := v1beta1.Route_RepeatInterval x;
    v1alpha1.Route_Matchers := convertMatchersTo (v1beta1.Route_Matchers x);
    v1alpha1.Route_Continue := v1beta1.Route_Continue x;
    v1alpha1.Route_Routes := [];
    v1alpha1.Route_MuteTimeIntervals := v1beta1.Route_MuteTimeIntervals x;
    v1alpha1.Route_ActiveTimeIntervals := v1beta1.Route_ActiveTimeIntervals x |}.

Section convert.
Context `{RawJSON}.

(** A nil route stays nil. The recursion needs no more fuel than the route is deep. *)
Definition convertRouteTo (o : option v1beta1.Route) : res (option v1alpha1.Route) :=
  match o with
  | None => Ok None
  | Some r => out ← convert_with convertRouteFieldsTo (depth r) r; Ok (Some out)
  end.

Definition ConvertTo (src : v1beta1.AlertmanagerConfig) : res v1alpha1.AlertmanagerConfig :=
  let spec := v1beta1.AlertmanagerConfig_Spec src in
  r ← convertRouteTo (v1beta1.AlertmanagerConfigSpec_Route spec);
  Ok {| v1alpha1.AlertmanagerConfig_ObjectMeta := v1beta1.AlertmanagerConfig_ObjectMeta src;
        v1alpha1.AlertmanagerConfig_Spec := {|
          v1alpha1.AlertmanagerConfigSpec_Route := r;
          v1alpha1.AlertmanagerConfigSpec_Receivers :=
            convertReceiverTo <$> v1beta1.AlertmanagerConfigSpec_Receivers spec;
          v1alpha1.AlertmanagerConfigSpec_InhibitRules :=
            convertInhibitRuleTo <$> v1beta1.AlertmanagerConfigSpec_InhibitRules spec;
          v1alpha1.AlertmanagerConfigSpec_MuteTimeIntervals :=
            convertIntervalTo <$> v1beta1.AlertmanagerConfigSpec_TimeIntervals spec |} |}.
End convert.
