(* ===== verification/Conversion.v ===== *)
(** * What conversion between the API versions preserves

    Theorems about pkg/apis/monitoring/v1beta1/conversion_from.go and conversion_to.go. Going from
    v1beta1 to the hub version and back changes nothing but two things: a matcher without a match
    type becomes an equality matcher, and the time to live of Pushover receivers is lost. Routes
    are compared as trees, since converted children are encoded anew. *)

From S2P Require Import Prelude GoStrings Meta Json RouteTree MonitoringV1 TimeRanges V1alpha1.
From S2P Require Import V1beta1 ConvertFrom ConvertTo.

(** The tree of a route. *)
Definition route_tree {R} `{RouteVersion R} (r : R) : res (tree R) := tree_of (depth r) r.

(** ** Receivers *)

Lemma fmap_fmap {A B C} (f : B → C) (g : A → B) (h : A → C) (l : list A) :
  (∀ x, f (g x) = h x) → f <$> (g <$> l) = h <$> l.
Proof. intros Hf. rewrite <-list_fmap_compose. apply list_fmap_ext. intros i x _. apply Hf. Qed.
Lemma fmap_fmap_id {A B} (f : B → A) (g : A → B) (l : list A) :
  (∀ x, f (g x) = x) → f <$> (g <$> l) = l.
Proof. intros Hf. rewrite (fmap_fmap f g (fun x => x)) by done. apply list_fmap_id. Qed.

Ltac back_and_forth :=
  intros xs; apply fmap_fmap_id; intros x; destruct x; reflexivity.

Lemma selector_roundtrip o : convertSecretKeySelectorFrom (convertSecretKeySelectorTo o) = o.
Proof. by destruct o as [[]|]. Qed.
Lemma http_roundtrip o : convertHTTPConfigFrom (convertHTTPConfigTo o) = o.
Proof.
  destruct o as [[]|]; [|done]. unfold convertHTTPConfigFrom, convertHTTPConfigTo. simpl.
  by rewrite selector_roundtrip.
Qed.
Lemma keyvalues_roundtrip xs : convertKeyValuesFrom (convertKeyValuesTo xs) = xs.
Proof. revert xs. back_and_forth. Qed.
Lemma responders_roundtrip xs :
  convertOpsGenieConfigRespondersFrom (convertOpsGenieConfigRespondersTo xs) = xs.
Proof. revert xs. back_and_forth. Qed.
Lemma images_roundtrip xs :
  convertPagerDutyImageConfigsFrom (convertPagerDutyImageConfigsTo xs) = xs.
Proof. revert xs. back_and_forth. Qed.
Lemma links_roundtrip xs : convertPagerDutyLinkConfigsFrom (convertPagerDutyLinkConfigsTo xs) = xs.
Proof. revert xs. back_and_forth. Qed.
Lemma fields_roundtrip xs : convertSlackFieldsFrom (convertSlackFieldsTo xs) = xs.
Proof. revert xs. back_and_forth. Qed.
Lemma actions_roundtrip xs : convertSlackActionsFrom (convertSlackActionsTo xs) = xs.
Proof. apply fmap_fmap_id. by intros [? ? ? ? ? ? [[]|]]. Qed.

Create HintDb conv.
#[export] Hint Rewrite selector_roundtrip http_roundtrip keyvalues_roundtrip responders_roundtrip
  images_roundtrip links_roundtrip fields_roundtrip actions_roundtrip : conv.
Ltac conv_roundtrip f g := intros []; unfold f, g; simpl; autorewrite with conv; reflexivity.

Lemma opsgenie_roundtrip x : convertOpsGenieConfigFrom (convertOpsGenieConfigTo x) = x.
Proof. revert x. conv_roundtrip convertOpsGenieConfigFrom convertOpsGenieConfigTo. Qed.
Lemma pagerduty_roundtrip x : convertPagerDutyConfigFrom (convertPagerDutyConfigTo x) = x.
Proof. revert x. conv_roundtrip convertPagerDutyConfigFrom convertPagerDutyConfigTo. Qed.
Lemma discord_roundtrip x : convertDiscordConfigFrom (convertDiscordConfigTo x) = x.
Proof. revert x. conv_roundtrip convertDiscordConfigFrom convertDiscordConfigTo. Qed.
Lemma slack_roundtrip x : convertSlackConfigFrom (convertSlackConfigTo x) = x.
Proof. revert x. conv_roundtrip convertSlackConfigFrom convertSlackConfigTo. Qed.
Lemma webex_roundtrip x : convertWebexConfigFrom (convertWebexConfigTo x) = x.
Proof. revert x. conv_roundtrip convertWebexConfigFrom convertWebexConfigTo. Qed.
Lemma webhook_roundtrip x : convertWebhookConfigFrom (convertWebhookConfigTo x) = x.
Proof. revert x. conv_roundtrip convertWebhookConfigFrom convertWebhookConfigTo. Qed.
Lemma wechat_roundtrip x : convertWeChatConfigFrom (convertWeChatConfigTo x) = x.
Proof. revert x. conv_roundtrip convertWeChatConfigFrom convertWeChatConfigTo. Qed.
Lemma email_roundtrip x : convertEmailConfigFrom (convertEmailConfigTo x) = x.
Proof. revert x. conv_roundtrip convertEmailConfigFrom convertEmailConfigTo. Qed.
Lemma victorops_roundtrip x : convertVictorOpsConfigFrom (convertVictorOpsConfigTo x) = x.
Proof. revert x. conv_roundtrip convertVictorOpsConfigFrom convertVictorOpsConfigTo. Qed.
Lemma sns_roundtrip x : convertSNSConfigFrom (convertSNSConfigTo x) = x.
Proof. revert x. conv_roundtrip convertSNSConfigFrom convertSNSConfigTo. Qed.
Lemma telegram_roundtrip x : convertTelegramConfigFrom (convertTelegramConfigTo x) = x.
Proof. revert x. conv_roundtrip convertTelegramConfigFrom convertTelegramConfigTo. Qed.
Lemma msteams_roundtrip x : convertMSTeamsConfigFrom (convertMSTeamsConfigTo x) = x.
Proof. revert x. conv_roundtrip convertMSTeamsConfigFrom convertMSTeamsConfigTo. Qed.
Lemma msteamsv2_roundtrip x : convertMSTeamsV2ConfigFrom (convertMSTeamsV2ConfigTo x) = x.
Proof. revert x. conv_roundtrip convertMSTeamsV2ConfigFrom convertMSTeamsV2ConfigTo. Qed.

(** What is left of a Pushover receiver. *)
Definition drop_TTL (x : v1beta1.PushoverConfig) : v1beta1.PushoverConfig := {|
  v1beta1.PushoverConfig_SendResolved := v1beta1.PushoverConfig_SendResolved x;
  v1beta1.PushoverConfig_UserKey := v1beta1.PushoverConfig_UserKey x;
  v1beta1.PushoverConfig_UserKeyFile := v1beta1.PushoverConfig_UserKeyFile x;
  v1beta1.PushoverConfig_Token := v1beta1.PushoverConfig_Token x;
  v1beta1.PushoverConfig_TokenFile := v1beta1.PushoverConfig_TokenFile x;
  v1beta1.PushoverConfig_Title := v1beta1.PushoverConfig_Title x;
  v1beta1.PushoverConfig_Message := v1beta1.PushoverConfig_Message x;
  v1beta1.PushoverConfig_URL := v1beta1.PushoverConfig_URL x;
  v1beta1.PushoverConfig_URLTitle := v1beta1.PushoverConfig_URLTitle x;
  v1beta1.PushoverConfig_TTL := None;
  v1beta1.PushoverConfig_Device := v1beta1.PushoverConfig_Device x;
  v1beta1.PushoverConfig_Sound := v1beta1.PushoverConfig_Sound x;
  v1beta1.PushoverConfig_Priority := v1beta1.PushoverConfig_Priority x;
  v1beta1.PushoverConfig_Retry := v1beta1.PushoverConfig_Retry x;
  v1beta1.PushoverConfig_Expire := v1beta1.PushoverConfig_Expire x;
  v1beta1.PushoverConfig_HTML := v1beta1.PushoverConfig_HTML x;
  v1beta1.PushoverConfig_HTTPConfig := v1beta1.PushoverConfig_HTTPConfig x |}.
Lemma pushover_roundtrip x : convertPushoverConfigFrom (convertPushoverConfigTo x) = drop_TTL x.
Proof.
  destruct x. unfold convertPushoverConfigFrom, convertPushoverConfigTo, drop_TTL. simpl.
  by autorewrite with conv.
Qed.

Definition canonical_receiver (x : v1beta1.Receiver) : v1beta1.Receiver := {|
  v1beta1.Receiver_Name := v1beta1.Receiver_Name x;
  v1beta1.Receiver_OpsGenieConfigs := v1beta1.Receiver_OpsGenieConfigs x;
  v1beta1.Receiver_PagerDutyConfigs := v1beta1.Receiver_PagerDutyConfigs x;
  v1beta1.Receiver_DiscordConfigs := v1beta1.Receiver_DiscordConfigs x;
  v1beta1.Receiver_SlackConfigs := v1beta1.Receiver_SlackConfigs x;
  v1beta1.Receiver_WebhookConfigs := v1beta1.Receiver_WebhookConfigs x;
  v1beta1.Receiver_WeChatConfigs := v1beta1.Receiver_WeChatConfigs x;
  v1beta1.Receiver_EmailConfigs := v1beta1.Receiver_EmailConfigs x;
  v1beta1.Receiver_VictorOpsConfigs := v1beta1.Receiver_VictorOpsConfigs x;
  v1beta1.Receiver_PushoverConfigs := drop_TTL <$> v1beta1.Receiver_PushoverConfigs x;
  v1beta1.Receiver_SNSConfigs := v1beta1.Receiver_SNSConfigs x;
  v1beta1.Receiver_TelegramConfigs := v1beta1.Receiver_TelegramConfigs x;
  v1beta1.Receiver_WebexConfigs := v1beta1.Receiver_WebexConfigs x;
  v1beta1.Receiver_MSTeamsConfigs := v1beta1.Receiver_MSTeamsConfigs x;
  v1beta1.Receiver_MSTeamsV2Configs := v1beta1.Receiver_MSTeamsV2Configs x |}.
Lemma receiver_roundtrip x : convertReceiverFrom (convertReceiverTo x) = canonical_receiver x.
Proof.
  destruct x. unfold convertReceiverFrom, convertReceiverTo, canonical_receiver. simpl.
  rewrite (fmap_fmap _ _ _ _ pushover_roundtrip).
  rewrite (fmap_fmap_id _ _ _ opsgenie_roundtrip), (fmap_fmap_id _ _ _ pagerduty_roundtrip),
    (fmap_fmap_id _ _ _ discord_roundtrip), (fmap_fmap_id _ _ _ slack_roundtrip),
    (fmap_fmap_id _ _ _ webhook_roundtrip), (fmap_fmap_id _ _ _ wechat_roundtrip),
    (fmap_fmap_id _ _ _ email_roundtrip), (fmap_fmap_id _ _ _ victorops_roundtrip),
    (fmap_fmap_id _ _ _ sns_roundtrip), (fmap_fmap_id _ _ _ telegram_roundtrip),
    (fmap_fmap_id _ _ _ webex_roundtrip), (fmap_fmap_id _ _ _ msteams_roundtrip),
    (fmap_fmap_id _ _ _ msteamsv2_roundtrip).
  done.
Qed.
Lemma canonical_receiver_From x :
  canonical_receiver (convertReceiverFrom x) = convertReceiverFrom x.
Proof.
  destruct x. unfold canonical_receiver, convertReceiverFrom. simpl. f_equal.
  by apply fmap_fmap.
Qed.

(** ** Matchers, inhibition rules and time intervals *)

Definition canonical_matcher (m : v1beta1.Matcher) : v1beta1.Matcher := {|
  v1beta1.Matcher_Name := v1beta1.Matcher_Name m;
  v1beta1.Matcher_Value := v1beta1.Matcher_Value m;
  v1beta1.Matcher_MatchType :=
    if bool_decide (v1beta1.Matcher_MatchType m = "") then "=" else v1beta1.Matcher_MatchType m |}.
Lemma matchers_roundtrip ms :
  convertMatchersFrom (convertMatchersTo ms) = canonical_matcher <$> ms.
Proof. apply fmap_fmap. intros []. unfold canonical_matcher. simpl. by case_bool_decide. Qed.
Lemma canonical_matchers_From ms :
  canonical_matcher <$> convertMatchersFrom ms = convertMatchersFrom ms.
Proof.
  apply fmap_fmap. intros [n v mt re]. unfold canonical_matcher. simpl. f_equal.
  destruct (decide (mt = "")) as [->|Hmt]; [by destruct re|].
  rewrite (bool_decide_false (mt = "") Hmt). by rewrite (bool_decide_false (mt = "") Hmt).
Qed.

Definition canonical_inhibit_rule (x : v1beta1.InhibitRule) : v1beta1.InhibitRule := {|
  v1beta1.InhibitRule_TargetMatch := canonical_matcher <$> v1beta1.InhibitRule_TargetMatch x;
  v1beta1.InhibitRule_SourceMatch := canonical_matcher <$> v1beta1.InhibitRule_SourceMatch x;
  v1beta1.InhibitRule_Equal := v1beta1.InhibitRule_Equal x |}.
Lemma inhibit_rule_roundtrip x :
  convertInhibitRuleFrom (convertInhibitRuleTo x) = canonical_inhibit_rule x.
Proof.
  destruct x. unfold convertInhibitRuleFrom, convertInhibitRuleTo, canonical_inhibit_rule. simpl.
  by rewrite !matchers_roundtrip.
Qed.
Lemma canonical_inhibit_rule_From x :
  canonical_inhibit_rule (convertInhibitRuleFrom x) = convertInhibitRuleFrom x.
Proof.
  destruct x. unfold convertInhibitRuleFrom, canonical_inhibit_rule. simpl.
  by rewrite !canonical_matchers_From.
Qed.

Lemma time_periods_roundtrip tis : convertTimeIntervalsFrom (convertTimeIntervalsTo tis) = tis.
Proof.
  apply fmap_fmap_id. intros []. unfold convertTimePeriodFrom, convertTimePeriodTo.
  simpl. f_equal; apply fmap_fmap_id; by intros [].
Qed.

Lemma interval_roundtrip x : convertIntervalFrom (convertIntervalTo x) = x.
Proof. destruct x. unfold convertIntervalFrom. simpl. by rewrite time_periods_roundtrip. Qed.

(** ** Routes *)

Definition canonical_route (r : v1beta1.Route) : v1beta1.Route :=
  v1beta1.set_Route_Matchers (canonical_matcher <$> v1beta1.Route_Matchers r) r.
(** Both ways drop the raw children of the route itself, which are converted separately. *)
Lemma route_fields_roundtrip (r : v1beta1.Route) :
  v1beta1.Route_Routes r = [] →
  convertRouteFieldsFrom (convertRouteFieldsTo r) = canonical_route r.
Proof.
  destruct r. unfold convertRouteFieldsFrom, convertRouteFieldsTo, canonical_route. simpl. intros ->.
  by rewrite matchers_roundtrip.
Qed.
Lemma canonical_route_From r : canonical_route (convertRouteFieldsFrom r) = convertRouteFieldsFrom r.
Proof.
  destruct r. unfold canonical_route, convertRouteFieldsFrom. simpl. unfold v1beta1.set_Route_Matchers.
  simpl. by rewrite canonical_matchers_From.
Qed.

Lemma tree_map_tree_map {R R' R''} (g : R' → R'') (f : R → R') t :
  tree_map g (tree_map f t) = tree_map (fun r => g (f r)) t.
Proof.
  induction t as [r ts IH] using tree_ind'. simpl. f_equal.
  rewrite <-list_fmap_compose. induction IH as [|t ts Ht _ IH']; simpl; [done|]. by f_equal.
Qed.
Lemma tree_map_ext {R R'} (P : bool → R → Prop) (f g : R → R') top t :
  tree_all P top t → (∀ top r, P top r → f r = g r) → tree_map f t = tree_map g t.
Proof.
  intros Ht Hfg. revert top Ht. induction t as [r ts IH] using tree_ind'.
  intros top [Hr Hts]%tree_all_inv. simpl. f_equal; [by eapply Hfg|].
  induction IH as [|t ts Ht _ IH']; simpl; [done|].
  apply Forall_cons in Hts as [? ?]. f_equal; eauto.
Qed.
Lemma tree_map_erased {R R'} `{RouteVersion R, RouteVersion R'} (f : R → R') t :
  (∀ r, raws (f r) = []) → erased (tree_map f t).
Proof.
  intros Hf. induction t as [r ts IH] using tree_ind'. simpl. apply erased_node.
  split; [apply Hf|]. by apply Forall_fmap.
Qed.

Lemma tree_all_True {R} (t : tree R) : ∀ top, tree_all (fun _ _ => True) top t.
Proof.
  induction t as [r ts IH] using tree_ind'. intros top.
  constructor; [done|]. eapply Forall_impl; [exact IH|]. auto.
Qed.

Section conversion_spec.
Context `{RawJSON}.

Lemma canonical_erased (t : tree v1beta1.Route) : erased t → erased (tree_map canonical_route t).
Proof.
  induction t as [r ts IH] using tree_ind'. intros [Hr Hts]%erased_node.
  simpl. apply erased_node. split; [done|]. apply Forall_fmap.
  induction IH as [|t ts Ht _ IH']; [constructor|].
  apply Forall_cons in Hts as [? ?]. constructor; auto.
Qed.

(** The route of the converted object is the converted tree, encoded. *)
Lemma convert_route_ok {R R'} `{RouteVersion R, RouteVersion R'} (f : R → R') r r' :
  (∀ l r, f (set_raws l r) = f r) → (∀ r, raws (f r) = []) →
  convert_with f (depth r) r = Ok r' ↔
  ∃ t, route_tree r = Ok t ∧ r' = of_tree (tree_map f t).
Proof. intros Hf _. by apply convert_with_ok. Qed.
Lemma route_tree_of_tree {R} `{RouteVersion R} (t : tree R) :
  erased t → route_tree (of_tree t) = Ok t.
Proof. intros Ht. by apply tree_of_of_tree. Qed.

(** A hub route can be converted exactly when all its descendants can be decoded; the tree
    of the result is then the tree of the given route with every route converted. The
    conversion never runs out of fuel. *)
Theorem convertRouteFrom_tree (r : v1alpha1.Route) :
  match convertRouteFrom (Some r) with
  | Ok out => ∃ t r', route_tree r = Ok t ∧ out = Some r' ∧
                route_tree r' = Ok (tree_map convertRouteFieldsFrom t)
  | Err _ => ∃ e, route_tree r = Err e
  | Panic _ => False
  end.
Proof.
  pose proof (convert_route_ok convertRouteFieldsFrom r) as Hc.
  pose proof (tree_of_no_panic (depth r) r (le_n _)) as Hp. fold (route_tree r) in Hp.
  pose proof (convert_with_no_panic convertRouteFieldsFrom (depth r) r (le_n _)) as Hp'.
  unfold convertRouteFrom.
  destruct (route_tree r) as [t|e|m] eqn:Et; [| |by destruct (Hp m)].
  - assert (convert_with convertRouteFieldsFrom (depth r) r
      = Ok (of_tree (tree_map convertRouteFieldsFrom t))) as ->.
    { apply Hc; [done|done|]. by exists t. }
    simpl. exists t, (of_tree (tree_map convertRouteFieldsFrom t)). split_and!; [done|done|].
    by apply route_tree_of_tree, tree_map_erased.
  - destruct (convert_with _ _ _) as [r'|e'|m]; simpl; [|by exists e|by destruct (Hp' m)].
    destruct (proj1 (Hc r' ltac:(done) ltac:(done)) eq_refl) as (t & [=] & _).
Qed.

(** Both conversions of an optional route, in terms of trees. *)
Lemma convertRouteFrom_ok o o' :
  convertRouteFrom o = Ok o' ↔
  match o with
  | None => o' = None
  | Some r => ∃ t, route_tree r = Ok t ∧ o' = Some (of_tree (tree_map convertRouteFieldsFrom t))
  end.
Proof.
  unfold convertRouteFrom. destruct o as [r|]; [|split; congruence].
  pose proof (convert_route_ok convertRouteFieldsFrom r) as Hc. split.
  - intros Ho. destruct (convert_with convertRouteFieldsFrom _ _) as [r'| |] eqn:E in Ho; simpl in Ho; try done. injection Ho as <-.
    apply Hc in E as (t & Ht & ->); eauto.
  - intros (t & Ht & ->).
    assert (convert_with convertRouteFieldsFrom (depth r) r
      = Ok (of_tree (tree_map convertRouteFieldsFrom t))) as -> by (apply Hc; eauto). done.
Qed.
Lemma convertRouteTo_ok o o' :
  convertRouteTo o = Ok o' ↔
  match o with
  | None => o' = None
  | Some r => ∃ t, route_tree r = Ok t ∧ o' = Some (of_tree (tree_map convertRouteFieldsTo t))
  end.
Proof.
  unfold convertRouteTo. destruct o as [r|]; [|split; congruence].
  pose proof (convert_route_ok convertRouteFieldsTo r) as Hc. split.
  - intros Ho. destruct (convert_with convertRouteFieldsTo _ _) as [r'| |] eqn:E in Ho; simpl in Ho; try done. injection Ho as <-.
    apply Hc in E as (t & Ht & ->); eauto.
  - intros (t & Ht & ->).
    assert (convert_with convertRouteFieldsTo (depth r) r
      = Ok (of_tree (tree_map convertRouteFieldsTo t))) as -> by (apply Hc; eauto). done.
Qed.

(** From the spoke to the hub and back: the canonical tree. *)
Lemma tree_roundtrip (t : tree v1beta1.Route) :
  erased t →
  tree_map convertRouteFieldsFrom (tree_map convertRouteFieldsTo t) = tree_map canonical_route t.
Proof.
  intros He. rewrite tree_map_tree_map. apply (tree_map_ext _ _ _ true _ (He true)).
  intros _ r Hr. by apply route_fields_roundtrip.
Qed.
Lemma route_roundtrip o o1 :
  convertRouteTo o = Ok o1 →
  convertRouteFrom o1 = Ok (match o with
                            | Some r => match route_tree r with
                                        | Ok t => Some (of_tree (tree_map canonical_route t))
                                        | _ => None
                                        end
                            | None => None
                            end).
Proof.
  intros Ho%convertRouteTo_ok. destruct o as [r|]; [|by subst]. destruct Ho as (t & Ht & ->).
  rewrite Ht. apply convertRouteFrom_ok. exists (tree_map convertRouteFieldsTo t). split.
  - by apply route_tree_of_tree, tree_map_erased.
  - rewrite tree_roundtrip; [done|]. by eapply tree_of_erased.
Qed.

(** The optional routes [o] and [o'] have the same tree, up to the canonical match types. *)
Definition same_tree (o o' : option v1beta1.Route) : Prop :=
  match o, o' with
  | None, None => True
  | Some r, Some r' =>
      ∃ t, route_tree r = Ok t ∧ route_tree r' = Ok (tree_map canonical_route t)
  | _, _ => False
  end.

(** C7: An AlertmanagerConfig that can be converted from v1beta1 to the hub version can be
    converted back. The result has the same metadata, time intervals and receivers, but for the
    time to live of the Pushover receivers, which is lost; its inhibition rules and its tree of
    routes are the same but for empty match types, which have become the equality operator. *)
Theorem ConvertTo_ConvertFrom (c : v1beta1.AlertmanagerConfig) (c1 : v1alpha1.AlertmanagerConfig)
    (Hto : ConvertTo c = Ok c1) :
  ∃ c2, ConvertFrom c1 = Ok c2 ∧
    let spec := v1beta1.AlertmanagerConfig_Spec c in
    let spec2 := v1beta1.AlertmanagerConfig_Spec c2 in
    v1beta1.AlertmanagerConfig_ObjectMeta c2 = v1beta1.AlertmanagerConfig_ObjectMeta c ∧
    v1beta1.AlertmanagerConfigSpec_Receivers spec2 =
      canonical_receiver <$> v1beta1.AlertmanagerConfigSpec_Receivers spec ∧
    v1beta1.AlertmanagerConfigSpec_InhibitRules spec2 =
      canonical_inhibit_rule <$> v1beta1.AlertmanagerConfigSpec_InhibitRules spec ∧
    v1beta1.AlertmanagerConfigSpec_TimeIntervals spec2 =
      v1beta1.AlertmanagerConfigSpec_TimeIntervals spec ∧
    same_tree (v1beta1.AlertmanagerConfigSpec_Route spec) (v1beta1.AlertmanagerConfigSpec_Route spec2).
Proof.
  destruct c as [m [route recs inh tis]]. unfold ConvertTo in Hto. simpl in Hto.
  destruct (convertRouteTo route) as [o1| |] eqn:Er; simpl in Hto; try done. injection Hto as <-.
  unfold ConvertFrom. simpl. rewrite (route_roundtrip _ _ Er). simpl.
  eexists. split; [done|]. simpl. split_and!; [done| | | |].
  - apply fmap_fmap, receiver_roundtrip.
  - apply fmap_fmap, inhibit_rule_roundtrip.
  - apply fmap_fmap_id, interval_roundtrip.
  - apply convertRouteTo_ok in Er. destruct route as [r|]; [|done].
    destruct Er as (t & Ht & _). rewrite Ht. simpl. exists t. split; [done|].
    apply route_tree_of_tree, canonical_erased. by eapply tree_of_erased.
Qed.

(** What a hub object has become in v1beta1 is stable: converting it to the hub version and
    back gives exactly the same object. *)
Theorem ConvertFrom_stable (a : v1alpha1.AlertmanagerConfig) (c : v1beta1.AlertmanagerConfig)
    (Hfrom : ConvertFrom a = Ok c) :
  ∃ a', ConvertTo c = Ok a' ∧ ConvertFrom a' = Ok c.
Proof.
  destruct a as [m [route recs inh tis]]. unfold ConvertFrom in Hfrom. simpl in Hfrom.
  destruct (convertRouteFrom route) as [o| |] eqn:Er; simpl in Hfrom; try done. injection Hfrom as <-.
  assert (∃ o1, convertRouteTo o = Ok o1 ∧ convertRouteFrom o1 = Ok o) as (o1 & Ho1 & Ho).
  { apply convertRouteFrom_ok in Er. destruct route as [r|]; [|by subst; exists None].
    destruct Er as (t & _ & ->). set (t' := tree_map convertRouteFieldsFrom t).
    assert (erased t') as He by by apply tree_map_erased.
    eexists. split; [apply convertRouteTo_ok; eexists; split; [by apply route_tree_of_tree|done]|].
    apply convertRouteFrom_ok. eexists. split; [by apply route_tree_of_tree, tree_map_erased|].
    rewrite tree_roundtrip by done. unfold t'. rewrite tree_map_tree_map. do 2 f_equal.
    apply (tree_map_ext (fun _ _ => True) _ _ true).
    - apply tree_all_True.
    - intros _ r' _. symmetry. apply canonical_route_From. }
  unfold ConvertTo, ConvertFrom. simpl. rewrite Ho1. simpl. eexists. split; [done|]. simpl.
  rewrite Ho. simpl. do 3 f_equal; repeat (rewrite (fmap_fmap _ _ _ _ receiver_roundtrip) ||
    rewrite (fmap_fmap _ _ _ _ inhibit_rule_roundtrip)).
  - apply fmap_fmap, canonical_receiver_From.
  - apply fmap_fmap, canonical_inhibit_rule_From.
  - apply fmap_fmap_id, interval_roundtrip.
Qed.
End conversion_spec.

(** ** Witnesses: a route with a child route and a Pushover receiver with a time to live *)

Module ConversionExample.
Definition child : v1beta1.Route :=
  v1beta1.set_Route_Matchers
    [{| v1beta1.Matcher_Name := "severity"; v1beta1.Matcher_Value := "page";
        v1beta1.Matcher_MatchType := "" |}]
    (v1beta1.set_Route_Receiver "team" v1beta1.Route_zero).
Definition root : v1beta1.Route :=
  v1beta1.set_Route_Routes [Some (v1beta1.encode_Route child)]
    (v1beta1.set_Route_Receiver "team" v1beta1.Route_zero).
Definition pushover : v1beta1.PushoverConfig := {|
  v1beta1.PushoverConfig_SendResolved := None; v1beta1.PushoverConfig_UserKey := None;
  v1beta1.PushoverConfig_UserKeyFile := Some "/etc/user"; v1beta1.PushoverConfig_Token := None;
  v1beta1.PushoverConfig_TokenFile := Some "/etc/token"; v1beta1.PushoverConfig_Title := "";
  v1beta1.PushoverConfig_Message := ""; v1beta1.PushoverConfig_URL := "";
  v1beta1.PushoverConfig_URLTitle := ""; v1beta1.PushoverConfig_TTL := Some "10m";
  v1beta1.PushoverConfig_Device := None; v1beta1.PushoverConfig_Sound := "";
  v1beta1.PushoverConfig_Priority := ""; v1beta1.PushoverConfig_Retry := "";
  v1beta1.PushoverConfig_Expire := ""; v1beta1.PushoverConfig_HTML := false;
  v1beta1.PushoverConfig_HTTPConfig := None |}.
Definition receiver : v1beta1.Receiver := {|
  v1beta1.Receiver_Name := "team"; v1beta1.Receiver_OpsGenieConfigs := [];
  v1beta1.Receiver_PagerDutyConfigs := []; v1beta1.Receiver_DiscordConfigs := [];
  v1beta1.Receiver_SlackConfigs := []; v1beta1.Receiver_WebhookConfigs := [];
  v1beta1.Receiver_WeChatConfigs := []; v1beta1.Receiver_EmailConfigs := [];
  v1beta1.Receiver_VictorOpsConfigs := []; v1beta1.Receiver_PushoverConfigs := [pushover];
  v1beta1.Receiver_SNSConfigs := []; v1beta1.Receiver_TelegramConfigs := [];
  v1beta1.Receiver_WebexConfigs := []; v1beta1.Receiver_MSTeamsConfigs := [];
  v1beta1.Receiver_MSTeamsV2Configs := [] |}.
Definition config : v1beta1.AlertmanagerConfig := {|
  v1beta1.AlertmanagerConfig_ObjectMeta := SetName "team" zero_meta;
  v1beta1.AlertmanagerConfig_Spec := {|
    v1beta1.AlertmanagerConfigSpec_Route := Some root;
    v1beta1.AlertmanagerConfigSpec_Receivers := [receiver];
    v1beta1.AlertmanagerConfigSpec_InhibitRules := [];
    v1beta1.AlertmanagerConfigSpec_TimeIntervals := [] |} |}.
End ConversionExample.

Lemma ConvertTo_ConvertFrom_witness :
  ∃ c1 c2, ConvertTo ConversionExample.config = Ok c1 ∧ ConvertFrom c1 = Ok c2 ∧
    same_tree (Some ConversionExample.root)
      (v1beta1.AlertmanagerConfigSpec_Route (v1beta1.AlertmanagerConfig_Spec c2)).
Proof.
  assert (is_ok (ConvertTo ConversionExample.config) = true) as Hok by (vm_compute; reflexivity).
  destruct (ConvertTo ConversionExample.config) as [c1| |] eqn:E; try discriminate Hok.
  destruct (ConvertTo_ConvertFrom _ _ E) as (c2 & Hc2 & _ & _ & _ & _ & Ht).
  exists c1, c2. split; [reflexivity|]. split; [exact Hc2|exact Ht].
Defined.

(** Conversion loses the time to live of a Pushover receiver, although both versions have
    it. *)
Theorem conversion_loses_pushover_ttl :
  match ConvertTo ConversionExample.config ≫= ConvertFrom with
  | Ok c => v1beta1.PushoverConfig_TTL <$>
      (v1beta1.AlertmanagerConfigSpec_Receivers (v1beta1.AlertmanagerConfig_Spec c)
        ≫= v1beta1.Receiver_PushoverConfigs) = [None]
  | _ => False
  end ∧
  v1beta1.PushoverConfig_TTL <$> v1beta1.Receiver_PushoverConfigs ConversionExample.receiver
    = [Some "10m"].
Proof. vm_compute. by split. Qed.

Lemma ConvertFrom_stable_witness :
  ∃ a c a', ConvertFrom a = Ok c ∧ ConvertTo c = Ok a' ∧ ConvertFrom a' = Ok c ∧
    ConvertTo ConversionExample.config = Ok a.
Proof.
  assert (is_ok (ConvertTo ConversionExample.config ≫= ConvertFrom) = true) as Hok
    by (vm_compute; reflexivity).
  destruct (ConvertTo ConversionExample.config) as [a| |] eqn:E; try discriminate Hok.
  cbn [mbind res_bind] in Hok.
  destruct (ConvertFrom a) as [c| |] eqn:E'; try discriminate Hok.
  destruct (ConvertFrom_stable _ _ E') as (a' & H1 & H2).
  exists a, c, a'. split; [exact E'|]. split; [exact H1|]. split; [exact H2|reflexivity].
Defined.
