(* ===== verification/AmLibs.v ===== *)
(** * What the validation of AlertmanagerConfig objects uses

    pkg/alertmanager/validation/validation.go, the duration pattern both versions share and Go's
    [net.SplitHostPort]. [config.URL] of the Alertmanager repository, [url.Parse] and
    text/template's parser are the operations of the class [AmLibs]. *)

From S2P Require Import Prelude GoStrings.

Class AmLibs := {
  (** [json.Unmarshal] of a JSON text into [config.URL] *)
  unmarshal_config_URL : string → res ();
  url_Parse : string → res ();
  template_Parse : string → res ();
}.

Definition quote : string := String (ascii_of_nat 34) EmptyString.
Definition ValidateURL `{AmLibs} (url : string) : res () :=
  wrap "validate url from string failed for %s: %w" [url]
    (unmarshal_config_URL (quote +:+ url +:+ quote)).

(** ** Durations *)

(** The longest prefix of digits, if there is one, and what follows it. *)
Fixpoint skip_digits (s : string) : string :=
  match s with
  | String c s' => match digit c with Some _ => skip_digits s' | None => s end
  | EmptyString => EmptyString
  end.
Definition number_then (unit s : string) : option string :=
  match s with
  | String c s' =>
      match digit c with Some _ => TrimPrefix_aux (skip_digits s') unit | None => None end
  | EmptyString => None
  end.
Definition duration_units : list string := ["y"; "w"; "d"; "h"; "m"; "s"; "ms"].
(** Matching against the optional groups [(([0-9]+)unit)?] of [durationRe], up to the end. *)
Fixpoint match_units (units : list string) (s : string) : bool :=
  match units with
  | [] => bool_decide (s = "")
  | u :: us =>
      match number_then u s with
      | Some rest => match_units us rest
      | None => false
      end || match_units us s
  end.
Definition durationRe (s : string) : bool := match_units duration_units s.

(** ** net.SplitHostPort *)

Fixpoint index_byte (c : ascii) (l : list ascii) : option nat :=
  match l with
  | [] => None
  | x :: l' => if decide (x = c) then Some 0 else S <$> index_byte c l'
  end.
Fixpoint last_index_byte (c : ascii) (l : list ascii) : option nat :=
  match l with
  | [] => None
  | x :: l' =>
      match last_index_byte c l' with
      | Some i => Some (S i)
      | None => if decide (x = c) then Some 0 else None
      end
  end.
Definition SplitHostPort (hostport : string) : res (string * string) :=
  let h := String.list_ascii_of_string hostport in
  let addrErr why := Err (Errorf why [hostport]) in
  match last_index_byte ":" h with
  | None => addrErr "missing port in address"
  | Some i =>
      let rest (host : list ascii) (j k : nat) :=
        if bool_decide (is_Some (index_byte "[" (drop j h))) then addrErr "unexpected '[' in address"
        else if bool_decide (is_Some (index_byte "]" (drop k h))) then addrErr "unexpected ']' in address"
        else Ok (String.string_of_list_ascii host, String.string_of_list_ascii (drop (S i) h)) in
      if bool_decide (head h = Some "["%char) then
        match index_byte "]" h with
        | None => addrErr "missing ']' in address"
        | Some end_ =>
            if decide (S end_ = length h) then addrErr "missing port in address"
            else if decide (S end_ = i) then rest (take (end_ - 1) (drop 1 h)) 1 (S end_)
            else if bool_decide (h !! S end_ = Some ":"%char) then addrErr "too many colons in address"
            else addrErr "missing port in address"
        end
      else
        let host := take i h in
        if bool_decide (is_Some (index_byte ":" host)) then addrErr "too many colons in address"
        else rest host 0 0
  end.

(** [for _, v := range l { if _, ok := seen[v]; ok { return err(v) }; seen[v] = ... }] *)
Fixpoint no_duplicate (err : string → error) (seen : gset string) (l : list string) : res () :=
  match l with
  | [] => Ok ()
  | v :: l' => if decide (v ∈ seen) then Err (err v) else no_duplicate err ({[v]} ∪ seen) l'
  end.

(** Every name of [l] is in [known]. *)
Definition all_known (err : string → error) (known : gset string) (l : list string) : res () :=
  for_each (fun v => if decide (v ∈ known) then Ok () else Err (err v)) l.

Lemma no_duplicate_ok err seen l :
  no_duplicate err seen l = Ok () ↔ NoDup l ∧ ∀ v, v ∈ l → v ∉ seen.
Proof.
  revert seen. induction l as [|v l IH]; intros seen; simpl; [split; [|done]; intros _; split; [constructor|set_solver]|].
  rewrite NoDup_cons. case_decide; [split; [done|set_solver]|]. rewrite IH. set_solver.
Qed.
Lemma all_known_ok err known l : all_known err known l = Ok () ↔ ∀ v, v ∈ l → v ∈ known.
Proof.
  unfold all_known. rewrite for_each_ok, Forall_forall.
  split; intros Hl v Hv; specialize (Hl v Hv); by case_decide.
Qed.

(** ** What the duration pattern matches *)

(** A nonempty string of digits. *)
Definition number (n : string) : Prop := n ≠ "" ∧ skip_digits n = "".

(** The language of [((digits)u1)?((digits)u2)?...]. *)
Inductive duration_of : list string → string → Prop :=
  | duration_nil : duration_of [] ""
  | duration_skip u us s : duration_of us s → duration_of (u :: us) s
  | duration_take u us n s : number n → duration_of us s → duration_of (u :: us) (n +:+ u +:+ s).

(** A unit does not start with a digit. *)
Definition not_digit_first (u : string) : Prop :=
  match u with String c _ => digit c = None | EmptyString => False end.

Lemma skip_digits_split s : ∃ n, skip_digits n = "" ∧ s = n +:+ skip_digits s.
Proof.
  induction s as [|c s (n & Hn & Hs)]; simpl; [by exists ""|].
  destruct (digit c) eqn:E; [|by exists ""]. exists (String c n). simpl. rewrite E, Hs at 1. done.
Qed.
Lemma skip_digits_app n u s :
  skip_digits n = "" → not_digit_first u → skip_digits (n +:+ u +:+ s) = u +:+ s.
Proof.
  induction n as [|c n IH]; intros Hn Hu.
  - destruct u as [|c u]; [done|]. simpl. simpl in Hu. by rewrite Hu.
  - simpl in *. destruct (digit c); [|done]. by apply IH.
Qed.
Lemma number_then_ok u s rest :
  not_digit_first u → number_then u s = Some rest ↔ ∃ n, number n ∧ s = n +:+ u +:+ rest.
Proof.
  intros Hu. unfold number_then. split.
  - destruct s as [|c s]; [done|]. destruct (digit c) eqn:Ec; [|done].
    intros Hr%TrimPrefix_aux_Some. destruct (skip_digits_split s) as (n & Hn & Hs).
    exists (String c n). unfold number. simpl. rewrite Ec. split; [done|].
    rewrite Hs, Hr. done.
  - intros (n & [Hne Hn] & ->). destruct n as [|c n]; [done|]. simpl in Hn |- *.
    destruct (digit c); [|done]. rewrite skip_digits_app by done. apply TrimPrefix_aux_app.
Qed.
Lemma match_units_ok us s :
  Forall not_digit_first us → match_units us s = true ↔ duration_of us s.
Proof.
  intros Hus. revert s. induction Hus as [|u us Hu _ IH]; intros s; simpl.
  - rewrite bool_decide_eq_true. split; [intros ->; constructor|by inversion 1].
  - rewrite orb_true_iff, IH. split.
    + intros [Hm|?]; [|by constructor]. destruct (number_then u s) as [rest|] eqn:E; [|done].
      apply number_then_ok in E as (n & Hn & ->); [|done]. constructor; [done|]. by apply IH.
    + inversion 1 as [|? ? ? Hs|? ? n ? Hn Hs]; subst; [by right|]. left.
      assert (number_then u (n +:+ u +:+ s0) = Some s0) as ->; [|by apply IH].
      apply number_then_ok; [done|]. by exists n.
Qed.

(** The duration check accepts exactly the strings made of at most one number of years, weeks,
    days, hours, minutes, seconds and milliseconds each, in this order. *)
Theorem durationRe_spec (s : string) : durationRe s = true ↔ duration_of duration_units s.
Proof. apply match_units_ok. by repeat constructor. Qed.
