(* ===== verification/ValidationV1beta1.v ===== *)
(** * Validation of AlertmanagerConfig, version v1beta1

    pkg/alertmanager/validation/v1beta1/validation.go: the semantic checks that the OpenAPI schema
    cannot express. Each function returns the error of the first check that fails. *)

From S2P Require Import Prelude GoStrings Meta Json RouteTree MonitoringV1 TimeRanges V1alpha1.
From S2P Require Import V1beta1 AmLibs.

Module validation_v1beta1.
Import v1beta1.
Section validation.
Context `{RawJSON, AmLibs}.

(** [if url != "" { if _, err := ValidateURL(url); err != nil { return ... } }] *)
Definition optional_url (fmt : string) (args : list string) (u : string) : res () :=
if bool_decide (u = "") then Ok () else wrap fmt args (ValidateURL u).

Definition validatePagerDutyConfigs (configs : list PagerDutyConfig) : res () :=
for_each (fun conf =>
  _ ← optional_url "pagerduty validation failed for 'url': %w" [] (PagerDutyConfig_URL conf);
  _ ← check (negb (is_set (PagerDutyConfig_RoutingKey conf)) && negb (is_set (PagerDutyConfig_ServiceKey conf)))
        "one of 'routingKey' or 'serviceKey' is required";
  HTTPConfig_Validate url_Parse (PagerDutyConfig_HTTPConfig conf)) configs.

Definition validateOpsGenieConfigs (configs : list OpsGenieConfig) : res () :=
for_each (fun config =>
  _ ← OpsGenieConfig_Validate template_Parse config;
  _ ← optional_url "invalid 'apiURL': %w" [] (OpsGenieConfig_APIURL config);
  HTTPConfig_Validate url_Parse (OpsGenieConfig_HTTPConfig config)) configs.

Definition validateDiscordConfigs (configs : list DiscordConfig) : res () :=
for_each (fun config => HTTPConfig_Validate url_Parse (DiscordConfig_HTTPConfig config)) configs.

Definition validateSlackConfigs (configs : list SlackConfig) : res () :=
for_each (fun config =>
  _ ← SlackConfig_Validate config;
  HTTPConfig_Validate url_Parse (SlackConfig_HTTPConfig config)) configs.

Definition validateWebhookConfigs (configs : list WebhookConfig) : res () :=
for_each (fun config =>
  _ ← check (negb (is_set (WebhookConfig_URL config)) && negb (is_set (WebhookConfig_URLSecret config)))
        "one of 'url' or 'urlSecret' must be specified";
  _ ← match WebhookConfig_URL config with
      | Some u => wrap "invalid 'url': %w" [] (ValidateURL u)
      | None => Ok ()
      end;
  HTTPConfig_Validate url_Parse (WebhookConfig_HTTPConfig config)) configs.

Definition validateWechatConfigs (configs : list WeChatConfig) : res () :=
for_each (fun config =>
  _ ← optional_url "invalid 'apiURL': %w" [] (WeChatConfig_APIURL config);
  HTTPConfig_Validate url_Parse (WeChatConfig_HTTPConfig config)) configs.

(** Header names are compared in lower case. *)
Definition validateEmailConfig (configs : list EmailConfig) : res () :=
for_each (fun config =>
  _ ← check (bool_decide (EmailConfig_To config = "")) "missing 'to' address";
  _ ← (if bool_decide (EmailConfig_Smarthost config = "") then Ok ()
       else wrap "invalid 'smarthost' %s: %w" [EmailConfig_Smarthost config]
              (Validate_of (SplitHostPort (EmailConfig_Smarthost config))));
  no_duplicate (fun h => Errorf "duplicate header %q" [h]) ∅
    ((fun kv => ToLower (KeyValue_Key kv)) <$> EmailConfig_Headers config)) configs.

Definition reservedFields : list string :=
["routing_key"; "message_type"; "state_message"; "entity_display_name"; "monitoring_tool";
 "entity_id"; "entity_state"].
Definition validateVictorOpsConfigs (configs : list VictorOpsConfig) : res () :=
for_each (fun config =>
  _ ← for_each (fun v =>
        if bool_decide (KeyValue_Key v ∈ reservedFields)
        then Err (Errorf "usage of reserved word %q is not allowed in custom fields" [KeyValue_Key v])
        else Ok ()) (VictorOpsConfig_CustomFields config);
  _ ← check (bool_decide (VictorOpsConfig_RoutingKey config = "")) "missing 'routingKey' key";
  _ ← optional_url "'apiURL' %s invalid: %w" [VictorOpsConfig_APIURL config] (VictorOpsConfig_APIURL config);
  HTTPConfig_Validate url_Parse (VictorOpsConfig_HTTPConfig config)) configs.

Definition validatePushoverConfigs (configs : list PushoverConfig) : res () :=
for_each (fun config =>
  _ ← check (negb (is_set (PushoverConfig_UserKey config)) && negb (is_set (PushoverConfig_UserKeyFile config)))
        "one of userKey or userKeyFile must be configured";
  _ ← check (negb (is_set (PushoverConfig_Token config)) && negb (is_set (PushoverConfig_TokenFile config)))
        "one of token or tokenFile must be configured";
  HTTPConfig_Validate url_Parse (PushoverConfig_HTTPConfig config)) configs.

(** [a != b != c] groups to the left: the exclusive or of the three. *)
Definition sns_target_error (config : SNSConfig) : bool :=
xorb (xorb (bool_decide (SNSConfig_TargetARN config = "")) (bool_decide (SNSConfig_TopicARN config = "")))
  (bool_decide (SNSConfig_PhoneNumber config = "")).
Definition validateSnsConfigs (configs : list SNSConfig) : res () :=
for_each (fun config =>
  _ ← check (sns_target_error config)
        "must provide either a Target ARN, Topic ARN, or Phone Number for SNS config";
  HTTPConfig_Validate url_Parse (SNSConfig_HTTPConfig config)) configs.

Definition validateTelegramConfigs (configs : list TelegramConfig) : res () :=
for_each (fun config =>
  _ ← check (negb (is_set (TelegramConfig_BotToken config)) && negb (is_set (TelegramConfig_BotTokenFile config)))
        "mandatory field botToken or botTokenfile is empty";
  _ ← (if bool_decide (TelegramConfig_ChatID config = 0%Z)
       then Err (Errorf "mandatory field %q is empty" ["chatID"]) else Ok ());
  HTTPConfig_Validate url_Parse (TelegramConfig_HTTPConfig config)) configs.

Definition validateWebexConfigs (configs : list WebexConfig) : res () :=
for_each (fun config =>
  _ ← optional_url "invalid 'apiURL': %w" [] (default "" (WebexConfig_APIURL config));
  HTTPConfig_Validate url_Parse (WebexConfig_HTTPConfig config)) configs.

Definition validateMSTeamsConfigs (configs : list MSTeamsConfig) : res () :=
for_each (fun config => HTTPConfig_Validate url_Parse (MSTeamsConfig_HTTPConfig config)) configs.

(** The body of the loop of [validateReceivers] after the check for duplicates. *)
Definition validateReceiver (r : Receiver) : res () :=
let n := [Receiver_Name r] in
_ ← wrap "failed to validate 'pagerDutyConfig' - receiver %s: %w" n (validatePagerDutyConfigs (Receiver_PagerDutyConfigs r));
_ ← wrap "failed to validate 'opsGenieConfig' - receiver %s: %w" n (validateOpsGenieConfigs (Receiver_OpsGenieConfigs r));
_ ← wrap "failed to validate 'slackConfig' - receiver %s: %w" n (validateSlackConfigs (Receiver_SlackConfigs r));
_ ← wrap "failed to validate 'webhookConfig' - receiver %s: %w" n (validateWebhookConfigs (Receiver_WebhookConfigs r));
_ ← wrap "failed to validate 'weChatConfig' - receiver %s: %w" n (validateWechatConfigs (Receiver_WeChatConfigs r));
_ ← wrap "failed to validate 'emailConfig' - receiver %s: %w" n (validateEmailConfig (Receiver_EmailConfigs r));
_ ← wrap "failed to validate 'victorOpsConfig' - receiver %s: %w" n (validateVictorOpsConfigs (Receiver_VictorOpsConfigs r));
_ ← wrap "failed to validate 'pushOverConfig' - receiver %s: %w" n (validatePushoverConfigs (Receiver_PushoverConfigs r));
_ ← wrap "failed to validate 'snsConfig' - receiver %s: %w" n (validateSnsConfigs (Receiver_SNSConfigs r));
_ ← wrap "failed to validate 'telegramConfig' - receiver %s: %w" n (validateTelegramConfigs (Receiver_TelegramConfigs r));
_ ← wrap "failed to validate 'discordConfig' - receiver %s: %w" n (validateDiscordConfigs (Receiver_DiscordConfigs r));
_ ← wrap "failed to validate 'webexConfig' - receiver %s: %w" n (validateWebexConfigs (Receiver_WebexConfigs r));
wrap "failed to validate 'msteamsConfig' - receiver %s: %w" n (validateMSTeamsConfigs (Receiver_MSTeamsConfigs r)).
Fixpoint validateReceivers_from (receiverNames : gset string) (receivers : list Receiver)
  : res (gset string) :=
match receivers with
| [] => Ok receiverNames
| r :: rs =>
    if decide (Receiver_Name r ∈ receiverNames)
    then Err (Errorf "%q receiver is not unique" [Receiver_Name r])
    else
      _ ← validateReceiver r;
      validateReceivers_from ({[Receiver_Name r]} ∪ receiverNames) rs
end.
Definition validateReceivers (receivers : list Receiver) : res (gset string) :=
validateReceivers_from ∅ receivers.

Fixpoint validateTimeIntervals_from (i : nat) (names : gset string) (tis : list TimeInterval) : res (gset string) :=
match tis with
| [] => Ok names
| ti :: tis' =>
    _ ← wrap "time interval[%d] is invalid: %w" [Itoa (Z.of_nat i)] (TimeInterval_Validate ti);
    validateTimeIntervals_from (S i) ({[TimeInterval_Name ti]} ∪ names) tis'
end.
Definition validateTimeIntervals (tis : list TimeInterval) : res (gset string) := validateTimeIntervals_from 0 ∅ tis.

(** The checks of [validateRoute] on the route itself. *)
Definition duration_ok (fmt d : string) : res () :=
if bool_decide (d ≠ "") && negb (durationRe d) then Err (Errorf fmt [d]) else Ok ().
Definition check_groupBy (groupBy : list string) : res () :=
_ ← no_duplicate (fun _ => Errorf "duplicate values not permitted in route 'groupBy': %v" groupBy) ∅ groupBy;
if bool_decide ("..." ∈ groupBy) && bool_decide (1 < length groupBy)
then Err (Errorf "'...' must be a sole value in route 'groupBy': %v" groupBy) else Ok ().
Definition check_route (receivers timeIntervals : gset string) (topLevelRoute : bool) (r : Route) : res () :=
_ ← (if bool_decide (Route_Receiver r = "")
     then check topLevelRoute "root route must define a receiver"
     else if decide (Route_Receiver r ∈ receivers) then Ok ()
     else Err (Errorf "receiver %q not found" [Route_Receiver r]));
_ ← check_groupBy (Route_GroupBy r);
_ ← all_known (fun n => Errorf "time interval %q not found" [n]) timeIntervals (Route_MuteTimeIntervals r);
_ ← all_known (fun n => Errorf "time interval %q not found" [n]) timeIntervals (Route_ActiveTimeIntervals r);
_ ← duration_ok "groupInterval %s does not match required regex: %s" (Route_GroupInterval r);
_ ← duration_ok "groupWait %s does not match required regex: %s" (Route_GroupWait r);
_ ← duration_ok "repeatInterval %s does not match required regex: %s" (Route_RepeatInterval r);
for_each (fun '(i, m) => wrap "matcher[%d]: %w" [Itoa (Z.of_nat i)] (Matcher_Validate m))
  (imap pair (Route_Matchers r)).
(** A nil route is valid; the children are decoded and validated after the route itself. *)
Definition validateRoute (o : option Route) (receivers timeIntervals : gset string)
  (topLevelRoute : bool) : res () :=
match o with
| None => Ok ()
| Some r => validate_with (check_route receivers timeIntervals) (depth r) topLevelRoute r
end.

Definition ValidateAlertmanagerConfig (amc : AlertmanagerConfig) : res () :=
let spec := AlertmanagerConfig_Spec amc in
receivers ← validateReceivers (AlertmanagerConfigSpec_Receivers spec);
timeIntervals ← validateTimeIntervals (AlertmanagerConfigSpec_TimeIntervals spec);
validateRoute (AlertmanagerConfigSpec_Route spec) receivers timeIntervals true.
End validation.
End validation_v1beta1.
