(* ===== verification/Validation.v ===== *)
(** * What validation of AlertmanagerConfig objects accepts

    Theorems about pkg/alertmanager/validation/v1alpha1 and v1beta1: what an accepted object
    guarantees, and that the two versions agree across conversion. *)

From S2P Require Import Prelude GoStrings Meta Json RouteTree MonitoringV1 TimeRanges V1alpha1.
From S2P Require Import V1beta1 ConvertFrom ConvertTo Conversion AmLibs ValidationV1alpha1.
From S2P Require Import ValidationV1beta1.

Module A := validation_v1alpha1.
Module B := validation_v1beta1.

(** ** Sequences of checks *)

Section validation_spec.
Context `{RawJSON, AmLibs}.

(** ** The checks of receivers do not see the difference between the versions *)

Lemma is_set_fmap {X Y} (f : X → Y) (o : option X) : is_set (f <$> o) = is_set o.
Proof. by destruct o. Qed.
Lemma HTTPConfig_Validate_To u o :
  v1alpha1.HTTPConfig_Validate u (convertHTTPConfigTo o) = v1beta1.HTTPConfig_Validate u o.
Proof. destruct o as [[]|]; [|done]. simpl. unfold convertSecretKeySelectorTo. by rewrite is_set_fmap. Qed.

Ltac same_checks :=
  rewrite for_each_map; apply for_each_ext; intros [] _; simpl;
  unfold convertSecretKeySelectorTo; rewrite ?is_set_fmap, ?HTTPConfig_Validate_To; try reflexivity.

Lemma PagerDuty_To l :
  A.validatePagerDutyConfigs (convertPagerDutyConfigTo <$> l) = B.validatePagerDutyConfigs l.
Proof. unfold A.validatePagerDutyConfigs, B.validatePagerDutyConfigs. same_checks. Qed.
Lemma Slack_Validate_To x :
  v1alpha1.SlackConfig_Validate (convertSlackConfigTo x) = v1beta1.SlackConfig_Validate x.
Proof.
  unfold v1alpha1.SlackConfig_Validate, v1beta1.SlackConfig_Validate. destruct x. simpl.
  unfold convertSlackActionsTo, convertSlackFieldsTo. rewrite !for_each_map.
  by f_equal; apply for_each_ext; intros [? ? ? ? ? ? []] _.
Qed.
Lemma Slack_To l : A.validateSlackConfigs (convertSlackConfigTo <$> l) = B.validateSlackConfigs l.
Proof.
  unfold A.validateSlackConfigs, B.validateSlackConfigs. rewrite for_each_map.
  apply for_each_ext. intros x _. rewrite Slack_Validate_To. destruct x. simpl.
  by rewrite HTTPConfig_Validate_To.
Qed.
Lemma OpsGenie_To l :
  A.validateOpsGenieConfigs (convertOpsGenieConfigTo <$> l) = B.validateOpsGenieConfigs l.
Proof.
  unfold A.validateOpsGenieConfigs, B.validateOpsGenieConfigs. same_checks. unfold v1alpha1.OpsGenieConfig_Validate, v1beta1.OpsGenieConfig_Validate. simpl.
  unfold convertOpsGenieConfigRespondersTo. by rewrite for_each_map.
Qed.
Lemma Discord_To l :
  A.validateDiscordConfigs (convertDiscordConfigTo <$> l) = B.validateDiscordConfigs l.
Proof. unfold A.validateDiscordConfigs, B.validateDiscordConfigs. same_checks. Qed.
Lemma Webhook_To l :
  A.validateWebhookConfigs (convertWebhookConfigTo <$> l) = B.validateWebhookConfigs l.
Proof. unfold A.validateWebhookConfigs, B.validateWebhookConfigs. same_checks. Qed.
Lemma WeChat_To l :
  A.validateWechatConfigs (convertWeChatConfigTo <$> l) = B.validateWechatConfigs l.
Proof. unfold A.validateWechatConfigs, B.validateWechatConfigs. same_checks. Qed.
Lemma Email_To l : A.validateEmailConfig (convertEmailConfigTo <$> l) = B.validateEmailConfig l.
Proof. unfold A.validateEmailConfig, B.validateEmailConfig. same_checks. unfold convertKeyValuesTo. by rewrite <-list_fmap_compose. Qed.
Lemma VictorOps_To l :
  A.validateVictorOpsConfigs (convertVictorOpsConfigTo <$> l) = B.validateVictorOpsConfigs l.
Proof. unfold A.validateVictorOpsConfigs, B.validateVictorOpsConfigs. same_checks. unfold convertKeyValuesTo. by rewrite for_each_map. Qed.
Lemma Pushover_To l :
  A.validatePushoverConfigs (convertPushoverConfigTo <$> l) = B.validatePushoverConfigs l.
Proof. unfold A.validatePushoverConfigs, B.validatePushoverConfigs. same_checks. Qed.
Lemma SNS_To l : A.validateSnsConfigs (convertSNSConfigTo <$> l) = B.validateSnsConfigs l.
Proof. unfold A.validateSnsConfigs, B.validateSnsConfigs. same_checks. Qed.
Lemma Telegram_To l :
  A.validateTelegramConfigs (convertTelegramConfigTo <$> l) = B.validateTelegramConfigs l.
Proof. unfold A.validateTelegramConfigs, B.validateTelegramConfigs. same_checks. Qed.
Lemma Webex_To l : A.validateWebexConfigs (convertWebexConfigTo <$> l) = B.validateWebexConfigs l.
Proof. unfold A.validateWebexConfigs, B.validateWebexConfigs. same_checks. Qed.
Lemma MSTeams_To l :
  A.validateMSTeamsConfigs (convertMSTeamsConfigTo <$> l) = B.validateMSTeamsConfigs l.
Proof. unfold A.validateMSTeamsConfigs, B.validateMSTeamsConfigs. same_checks. Qed.

(** The versions check the kinds of receivers in a different order. *)
Lemma validateReceiver_To r :
  A.validateReceiver (convertReceiverTo r) = Ok () ↔ B.validateReceiver r = Ok ().
Proof.
  unfold A.validateReceiver, B.validateReceiver. rewrite !bind_ok, !wrap_ok. simpl.
  rewrite PagerDuty_To, OpsGenie_To, Slack_To, Webhook_To, WeChat_To, Email_To, VictorOps_To,
    Pushover_To, SNS_To, Telegram_To, Webex_To, Discord_To, MSTeams_To. tauto.
Qed.

Lemma validateReceivers_To rs : ∀ names s,
  A.validateReceivers_from names (convertReceiverTo <$> rs) = Ok s ↔
  B.validateReceivers_from names rs = Ok s.
Proof.
  induction rs as [|r rs IH]; intros names s; simpl; [done|].
  change (v1alpha1.Receiver_Name (convertReceiverTo r)) with (v1beta1.Receiver_Name r).
  case_decide; [done|]. by rewrite !bind_ok, validateReceiver_To, IH.
Qed.
Lemma validateReceivers_ok rs : ∀ names s,
  B.validateReceivers_from names rs = Ok s ↔
  NoDup (v1beta1.Receiver_Name <$> rs) ∧ (∀ n, n ∈ v1beta1.Receiver_Name <$> rs → n ∉ names) ∧
  Forall (fun r => B.validateReceiver r = Ok ()) rs ∧
  s = list_to_set (v1beta1.Receiver_Name <$> rs) ∪ names.
Proof.
  induction rs as [|r rs IH]; intros names s; simpl.
  { rewrite (left_id_L ∅ (∪)), Forall_nil. split; [|naive_solver].
    intros [= ->]. split_and!; [constructor|set_solver|done|done]. }
  rewrite NoDup_cons, Forall_cons. case_decide; [split; [done|set_solver]|].
  rewrite bind_ok, IH.
  assert (list_to_set (v1beta1.Receiver_Name <$> rs) ∪ ({[v1beta1.Receiver_Name r]} ∪ names)
    = {[v1beta1.Receiver_Name r]} ∪ list_to_set (v1beta1.Receiver_Name <$> rs) ∪ names) as ->
    by set_solver.
  set_solver.
Qed.

(** ** Time intervals *)

Lemma for_each_wrap_ok {X} f (args : nat → list string) (g : X → res ()) (l : list X) :
  for_each (fun '(i, x) => wrap f (args i) (g x)) (imap pair l) = Ok () ↔
  Forall (fun x => g x = Ok ()) l.
Proof.
  rewrite for_each_ok, !Forall_lookup. setoid_rewrite list_lookup_imap. split.
  - intros Hl i x Hx. specialize (Hl i (i, x)). rewrite Hx in Hl. by eapply wrap_ok, Hl.
  - intros Hl i [j x] Hx. destruct (l !! i) as [x'|] eqn:E; simplify_eq/=. eapply wrap_ok; eauto.
Qed.
Lemma for_each_wrap f args {X} (g : X → res ()) l :
  for_each (fun x => wrap f args (g x)) l = Ok () ↔ for_each g l = Ok ().
Proof. rewrite !for_each_ok. by setoid_rewrite wrap_ok. Qed.

Lemma TimePeriod_Validate_To i x :
  v1alpha1.TimeInterval_Validate (i, convertTimePeriodTo x) = Ok () ↔
  v1beta1.TimePeriod_Validate (i, x) = Ok ().
Proof.
  unfold v1alpha1.TimeInterval_Validate, v1beta1.TimePeriod_Validate. destruct x as [times ? doms ? ?].
  rewrite !bind_ok, !for_each_wrap. simpl. by rewrite !for_each_map.
Qed.
Lemma TimeInterval_Validate_To ti :
  v1alpha1.MuteTimeInterval_Validate (convertIntervalTo ti) = Ok () ↔
  v1beta1.TimeInterval_Validate ti = Ok ().
Proof.
  unfold v1alpha1.MuteTimeInterval_Validate, v1beta1.TimeInterval_Validate. simpl.
  case_bool_decide; [done|]. unfold convertTimeIntervalsTo. rewrite imap_fmap, !for_each_ok, !Forall_lookup.
  setoid_rewrite list_lookup_imap.
  split; intros Hl i [j x] Hx.
  - destruct (_ !! i) as [x'|] eqn:E; simplify_eq/=. apply TimePeriod_Validate_To.
    apply (Hl j). by rewrite E.
  - destruct (_ !! i) as [x'|] eqn:E; simplify_eq/=. apply TimePeriod_Validate_To.
    apply (Hl j). by rewrite E.
Qed.
Lemma validateTimeIntervals_To tis : ∀ i names s,
  A.validateMuteTimeIntervals_from i names (convertIntervalTo <$> tis) = Ok s ↔
  B.validateTimeIntervals_from i names tis = Ok s.
Proof.
  induction tis as [|ti tis IH]; intros i names s; [done|].
  rewrite fmap_cons. cbn [A.validateMuteTimeIntervals_from B.validateTimeIntervals_from].
  by rewrite !bind_ok, !wrap_ok, TimeInterval_Validate_To, IH.
Qed.
Lemma validateTimeIntervals_ok tis : ∀ i names s,
  B.validateTimeIntervals_from i names tis = Ok s ↔
  Forall (fun ti => v1beta1.TimeInterval_Validate ti = Ok ()) tis ∧
  s = list_to_set (v1beta1.TimeInterval_Name <$> tis) ∪ names.
Proof.
  induction tis as [|ti tis IH]; intros i names s; simpl.
  { rewrite (left_id_L ∅ (∪)), Forall_nil. naive_solver. }
  rewrite Forall_cons, bind_ok, wrap_ok, IH.
  assert (list_to_set (v1beta1.TimeInterval_Name <$> tis) ∪ ({[v1beta1.TimeInterval_Name ti]} ∪ names)
    = {[v1beta1.TimeInterval_Name ti]} ∪ list_to_set (v1beta1.TimeInterval_Name <$> tis) ∪ names) as ->
    by set_solver.
  tauto.
Qed.

(** ** Routes *)

Definition duration_valid (d : string) : Prop := d = "" ∨ duration_of duration_units d.
Lemma duration_ok_ok fmt d : B.duration_ok fmt d = Ok () ↔ duration_valid d.
Proof.
  unfold B.duration_ok, duration_valid. rewrite <-(match_units_ok duration_units) by by repeat constructor.
  unfold durationRe. case_bool_decide; destruct (match_units _ _); simpl; naive_solver.
Qed.
(** Everything that validation demands of one route; [top] says whether it is the root. *)
Record route_valid (receivers intervals : gset string) (top : bool) (r : v1beta1.Route) : Prop := {
  valid_receiver : v1beta1.Route_Receiver r = "" ∧ top = false ∨
                   v1beta1.Route_Receiver r ≠ "" ∧ v1beta1.Route_Receiver r ∈ receivers;
  valid_groupBy_unique : NoDup (v1beta1.Route_GroupBy r);
  valid_groupBy_all : "..." ∈ v1beta1.Route_GroupBy r → v1beta1.Route_GroupBy r = ["..."];
  valid_muted : ∀ n, n ∈ v1beta1.Route_MuteTimeIntervals r → n ∈ intervals;
  valid_active : ∀ n, n ∈ v1beta1.Route_ActiveTimeIntervals r → n ∈ intervals;
  valid_groupInterval : duration_valid (v1beta1.Route_GroupInterval r);
  valid_groupWait : duration_valid (v1beta1.Route_GroupWait r);
  valid_repeatInterval : duration_valid (v1beta1.Route_RepeatInterval r);
  valid_matchers :
    Forall (fun m => v1beta1.Matcher_MatchType m = "" ∨
                     v1beta1.MatchType_Valid (v1beta1.Matcher_MatchType m) = true ∧
                     blank (v1beta1.Matcher_Name m) = false) (v1beta1.Route_Matchers r);
}.
Lemma check_groupBy_ok l : B.check_groupBy l = Ok () ↔ NoDup l ∧ ("..." ∈ l → l = ["..."]).
Proof.
  unfold B.check_groupBy. rewrite bind_ok, no_duplicate_ok. split.
  - intros [[Hnd _] Hd]. split; [done|]. intros Hin. rewrite bool_decide_true in Hd by done.
    destruct l as [|x [|y l]]; simpl in Hd; [by apply elem_of_nil in Hin| |done].
    apply list_elem_of_singleton in Hin as <-. done.
  - intros [Hnd Hd]. split; [set_solver|]. case_bool_decide as Hin; [|done].
    rewrite (Hd Hin). done.
Qed.
Lemma Matcher_Validate_ok m :
  v1beta1.Matcher_Validate m = Ok () ↔
  v1beta1.Matcher_MatchType m = "" ∨
  v1beta1.MatchType_Valid (v1beta1.Matcher_MatchType m) = true ∧ blank (v1beta1.Matcher_Name m) = false.
Proof.
  unfold v1beta1.Matcher_Validate. case_bool_decide; [tauto|].
  destruct (v1beta1.MatchType_Valid _); simpl; [|naive_solver].
  rewrite check_ok. naive_solver.
Qed.
Lemma check_receiver_ok (receivers : gset string) top name :
  (if bool_decide (name = "") then check top "root route must define a receiver"
   else if decide (name ∈ receivers) then Ok () else Err (Errorf "receiver %q not found" [name])) = Ok () ↔
  name = "" ∧ top = false ∨ name ≠ "" ∧ name ∈ receivers.
Proof. case_bool_decide; [rewrite check_ok; naive_solver|]. case_decide; naive_solver. Qed.
Lemma check_route_ok receivers intervals top r :
  B.check_route receivers intervals top r = Ok () ↔ route_valid receivers intervals top r.
Proof.
  unfold B.check_route. rewrite !bind_ok, check_receiver_ok, check_groupBy_ok, !all_known_ok,
    !duration_ok_ok, for_each_wrap_ok.
  assert (Forall (fun m => v1beta1.Matcher_Validate m = Ok ()) (v1beta1.Route_Matchers r) ↔ _) as ->
    by (apply Forall_iff; apply Matcher_Validate_ok).
  split; [|by intros []]. intros (? & [? ?] & ? & ? & ? & ? & ? & ?). by constructor.
Qed.
Lemma check_route_To receivers intervals top r :
  A.check_route receivers intervals top (convertRouteFieldsTo r) = Ok () ↔
  B.check_route receivers intervals top r = Ok ().
Proof.
  unfold A.check_route, B.check_route. destruct r. simpl.
  rewrite !bind_ok, !all_known_ok, !for_each_wrap_ok. unfold convertMatchersTo.
  by rewrite Forall_fmap.
Qed.

(** A walk over the routes accepts a tree when each of its routes is valid. *)
Lemma validateRoute_ok o receivers intervals :
  B.validateRoute o receivers intervals true = Ok () ↔
  match o with
  | None => True
  | Some r => ∃ t, route_tree r = Ok t ∧ tree_all (route_valid receivers intervals) true t
  end.
Proof.
  destruct o as [r|]; [|done]. unfold B.validateRoute. rewrite validate_with_ok by done.
  apply exist_proper. intros t. apply and_iff_compat_l, tree_all_iff, check_route_ok.
Qed.
Lemma validateRoute_To r t receivers intervals :
  route_tree r = Ok t →
  A.validateRoute (Some (of_tree (tree_map convertRouteFieldsTo t))) receivers intervals true = Ok () ↔
  B.validateRoute (Some r) receivers intervals true = Ok ().
Proof.
  intros Ht. unfold A.validateRoute, B.validateRoute. rewrite !validate_with_ok by done.
  unfold route_tree in Ht. rewrite Ht.
  pose proof (route_tree_of_tree (tree_map convertRouteFieldsTo t)) as Ht'. unfold route_tree in Ht'.
  rewrite Ht' by by apply tree_map_erased.
  setoid_rewrite <-(tree_all_iff _ _ (check_route_To receivers intervals)).
  split; intros (? & [= <-] & Ha); eexists; (split; [done|]).
  - by apply (tree_all_map (fun top r => A.check_route receivers intervals top r = Ok ())).
  - by apply (tree_all_map (fun top r => A.check_route receivers intervals top r = Ok ())) in Ha.
Qed.

(** ** Objects *)

Definition spec_valid (s : v1beta1.AlertmanagerConfigSpec) : Prop :=
  let receivers := v1beta1.Receiver_Name <$> v1beta1.AlertmanagerConfigSpec_Receivers s in
  let intervals := v1beta1.TimeInterval_Name <$> v1beta1.AlertmanagerConfigSpec_TimeIntervals s in
  NoDup receivers ∧
  Forall (fun r => B.validateReceiver r = Ok ()) (v1beta1.AlertmanagerConfigSpec_Receivers s) ∧
  Forall (fun ti => v1beta1.TimeInterval_Validate ti = Ok ()) (v1beta1.AlertmanagerConfigSpec_TimeIntervals s) ∧
  match v1beta1.AlertmanagerConfigSpec_Route s with
  | None => True
  | Some r =>
      ∃ t, route_tree r = Ok t ∧ tree_all (route_valid (list_to_set receivers) (list_to_set intervals)) true t
  end.

(** C6: Validation of a v1beta1 object accepts exactly the objects whose receivers have different
    names and valid integrations, whose time intervals are valid, and whose route, when there is
    one, has only decodable descendants; the root names a receiver, every receiver and time
    interval a route names exists, a route groups by different labels, or by the special value
    alone, and all its durations and matchers are well formed. *)
Theorem ValidateAlertmanagerConfig_spec (c : v1beta1.AlertmanagerConfig) :
  B.ValidateAlertmanagerConfig c = Ok () ↔ spec_valid (v1beta1.AlertmanagerConfig_Spec c).
Proof.
  unfold B.ValidateAlertmanagerConfig, spec_valid, B.validateReceivers, B.validateTimeIntervals.
  split.
  - intros (rs & Hrs & (ivs & His & Hr)%bind_ok_ex)%bind_ok_ex.
    apply validateReceivers_ok in Hrs as (? & _ & ? & ->). apply validateTimeIntervals_ok in His as (? & ->).
    apply validateRoute_ok in Hr. by rewrite !(right_id_L ∅ (∪)) in Hr.
  - intros (? & ? & ? & Hr). apply bind_ok_ex. eexists.
    split; [apply validateReceivers_ok; split_and!; [done|set_solver|done|done]|].
    apply bind_ok_ex. eexists. split; [by apply validateTimeIntervals_ok|].
    apply validateRoute_ok. by rewrite !(right_id_L ∅ (∪)).
Qed.

(** C32: The versions agree on what is valid: a v1beta1 object is accepted exactly when it can be
    converted to v1alpha1 and the result is accepted there. *)
Theorem validation_agrees (c : v1beta1.AlertmanagerConfig) :
  B.ValidateAlertmanagerConfig c = Ok () ↔
  ∃ a, ConvertTo c = Ok a ∧ A.ValidateAlertmanagerConfig a = Ok ().
Proof.
  destruct c as [m [route recs inh tis]].
  assert (∀ r', convertRouteTo route = Ok r' → ∀ rs ivs,
    A.validateRoute r' rs ivs true = Ok () ↔ B.validateRoute route rs ivs true = Ok ()) as Hroute.
  { intros r' Hr' rs ivs. apply convertRouteTo_ok in Hr'. destruct route as [r|]; [|by subst].
    destruct Hr' as (t & Ht & ->). by apply validateRoute_To. }
  assert (∀ rs ivs, B.validateRoute route rs ivs true = Ok () → ∃ r', convertRouteTo route = Ok r') as Hdec.
  { intros rs ivs Hv%validateRoute_ok. destruct route as [r|]; [|by eexists].
    destruct Hv as (t & Ht & _). eexists. apply convertRouteTo_ok. eauto. }
  unfold B.ValidateAlertmanagerConfig, A.ValidateAlertmanagerConfig, ConvertTo, B.validateReceivers,
    A.validateReceivers, B.validateTimeIntervals, A.validateMuteTimeIntervals. simpl.
  split.
  - intros (rs & Hrs & (ivs & His & Hr)%bind_ok_ex)%bind_ok_ex. destruct (Hdec _ _ Hr) as [r' Hr']. rewrite Hr'. simpl.
    eexists. split; [done|]. simpl. apply bind_ok_ex. exists rs.
    split; [by apply validateReceivers_To|]. apply bind_ok_ex. exists ivs.
    split; [by apply validateTimeIntervals_To|]. by apply Hroute.
  - intros (a & (r' & Hr' & [= <-])%bind_ok_ex & Hv). simpl in Hv.
    apply bind_ok_ex in Hv as (rs & Hrs & (ivs & His & Hr)%bind_ok_ex).
    apply bind_ok_ex. exists rs. split; [by apply validateReceivers_To|].
    apply bind_ok_ex. exists ivs. split; [by apply validateTimeIntervals_To|]. by eapply Hroute.
Qed.

(** An SNS receiver with a valid HTTP configuration is accepted when exactly one of its three
    targets is set, as the error message asks for, and also when all three are. *)
Lemma validateSnsConfigs_targets (config : v1beta1.SNSConfig) :
  B.validateSnsConfigs [config] = Ok () ↔
  v1beta1.HTTPConfig_Validate url_Parse (v1beta1.SNSConfig_HTTPConfig config) = Ok () ∧
  let set_ := filter (.≠ "") [v1beta1.SNSConfig_TargetARN config; v1beta1.SNSConfig_TopicARN config;
                             v1beta1.SNSConfig_PhoneNumber config] in
  length set_ = 1 ∨ length set_ = 3.
Proof.
  unfold B.validateSnsConfigs.
  rewrite for_each_ok, Forall_singleton, bind_ok, check_ok. unfold B.sns_target_error.
  rewrite !filter_cons, filter_nil.
  repeat case_decide; repeat case_bool_decide; simplify_eq/=; naive_solver lia.
Qed.
End validation_spec.

(** ** A valid hub object whose conversion is not valid *)

Module EmptyMatcher.
Definition matcher : v1alpha1.Matcher := {|
  v1alpha1.Matcher_Name := ""; v1alpha1.Matcher_Value := "page";
  v1alpha1.Matcher_MatchType := ""; v1alpha1.Matcher_Regex := false |}.
Definition receiver : v1alpha1.Receiver := convertReceiverTo {|
  v1beta1.Receiver_Name := "team"; v1beta1.Receiver_OpsGenieConfigs := [];
  v1beta1.Receiver_PagerDutyConfigs := []; v1beta1.Receiver_DiscordConfigs := [];
  v1beta1.Receiver_SlackConfigs := []; v1beta1.Receiver_WebhookConfigs := [];
  v1beta1.Receiver_WeChatConfigs := []; v1beta1.Receiver_EmailConfigs := [];
  v1beta1.Receiver_VictorOpsConfigs := []; v1beta1.Receiver_PushoverConfigs := [];
  v1beta1.Receiver_SNSConfigs := []; v1beta1.Receiver_TelegramConfigs := [];
  v1beta1.Receiver_WebexConfigs := []; v1beta1.Receiver_MSTeamsConfigs := [];
  v1beta1.Receiver_MSTeamsV2Configs := [] |}.
Definition config : v1alpha1.AlertmanagerConfig := {|
  v1alpha1.AlertmanagerConfig_ObjectMeta := SetName "team" zero_meta;
  v1alpha1.AlertmanagerConfig_Spec := {|
    v1alpha1.AlertmanagerConfigSpec_Route :=
      Some (v1alpha1.set_Route_Matchers [matcher]
             (v1alpha1.set_Route_Receiver "team" v1alpha1.Route_zero));
    v1alpha1.AlertmanagerConfigSpec_Receivers := [receiver];
    v1alpha1.AlertmanagerConfigSpec_InhibitRules := [];
    v1alpha1.AlertmanagerConfigSpec_MuteTimeIntervals := [] |} |}.
End EmptyMatcher.

(** The other direction fails: a v1alpha1 matcher without a name and without a match type is
    accepted, conversion gives it a match type, and v1beta1 validation then wants a name. *)
Theorem validation_differs_after_ConvertFrom `{AmLibs} :
  A.ValidateAlertmanagerConfig EmptyMatcher.config = Ok () ∧
  match ConvertFrom EmptyMatcher.config with
  | Ok c => B.ValidateAlertmanagerConfig c =
              Err (Wrapf "matcher[%d]: %w" ["0"] (Errorf "matcher 'name' is required" []))
  | _ => False
  end.
Proof. split; vm_compute; reflexivity. Qed.
