(* ===== verification/ListWatch.v ===== *)
(** * pkg/listwatch: watching namespaces

    pkg/listwatch/listwatch.go, where a client without list permission polls the allowed
    namespaces and emulates a watch, and pkg/listwatch/namespace_denylist.go, which filters the
    results of another lister. A Go [map[string]struct{}] is a map to the unit type. The order in
    which Go visits a map is the argument [order]. *)

From S2P Require Import Prelude GoStrings SortUtil Meta.

(** ** Sets of namespaces *)

Abbreviation nsset := (gmap string ()).
(** v1.NamespaceAll of k8s.io/api. *)
Definition NamespaceAll : string := "".

Definition IsAllNamespaces (namespaces : nsset) : bool :=
  bool_decide (is_Some (namespaces !! NamespaceAll)) && bool_decide (size namespaces = 1).

Definition IdenticalNamespaces (a b : nsset) : bool :=
  if bool_decide (size a ≠ size b) then false
  else forallb (fun k => bool_decide (is_Some (b !! k))) (keys a).

(** metav1.ListOptions, the two selectors. *)
Record ListOptions := { LabelSelector : string; FieldSelector : string }.

Inductive FilterType := IncludeFilterType | ExcludeFilterType | OtherFilterType (f : string).

Definition TweakByLabel (options : ListOptions) (label : string) (filter : FilterType)
    (valueSet : nsset) : res ListOptions :=
  if bool_decide (size valueSet = 0) then Ok options
  else
    op ← match filter with
         | IncludeFilterType => Ok "in"
         | ExcludeFilterType => Ok "notin"
         | OtherFilterType f => Panic ("unsupported filter: " +:+ f)
         end;
    let selectors :=
      [label +:+ " " +:+ op +:+ " (" +:+ Join (SortedKeys valueSet) "," +:+ ")"] in
    let selectors :=
      if bool_decide (LabelSelector options ≠ "") then selectors ++ [LabelSelector options]
      else selectors in
    Ok {| LabelSelector := Join selectors ","; FieldSelector := FieldSelector options |}.

Definition DenyTweak (order : list string) (options : ListOptions) (field : string)
    (valueSet : nsset) : ListOptions :=
  if bool_decide (size valueSet = 0) then options
  else
    let selectors := Sort ((fun value => field +:+ "!=" +:+ value) <$> order) in
    let selectors :=
      if bool_decide (FieldSelector options ≠ "") then selectors ++ [FieldSelector options]
      else selectors in
    {| LabelSelector := LabelSelector options; FieldSelector := Join selectors "," |}.

(** ** The polling lister and watcher *)

Record cacheEntry := { present : bool; ce_ns : option ObjectMeta }.
Abbreviation nscache := (gmap string cacheEntry).
Definition zero_entry : cacheEntry := {| present := false; ce_ns := None |}.

Inductive EventType := Added | Modified | Deleted.
(** A watch.Event; the object is a pointer, [None] when it is nil. *)
Record Event := { ev_Type : EventType; ev_Object : option ObjectMeta }.

Definition nil_dereference {A} : res A :=
  Panic "invalid memory address or nil pointer dereference".

Definition newPollBasedListerWatcher (namespaces : list string) : nscache :=
  foldl (fun cache ns => <[ns := zero_entry]> cache) ∅ namespaces.

Section poll.
(** What the API answers to a [Get] of a namespace with a resource version, once per namespace
    and round. *)
Context (get : string → string → res ObjectMeta).

(** [List]: entries updated before an error stay updated. *)
Fixpoint list_loop (order : list string) (items : list ObjectMeta) : M nscache (list ObjectMeta) :=
  match order with
  | [] => mret items
  | ns :: rest =>
      match get ns "" with
      | Ok result =>
          cache ← mget;
          _ ← mput (<[ns := {| present := true; ce_ns := Some result |}]> cache);
          list_loop rest (items ++ [result])
      | Err err =>
          if IsNotFound err then list_loop rest items
          else mfail (Wrapf "unexpected error while listing namespaces: %w" [] err)
      | Panic m => mpanic m
      end
  end.
Definition List_ (order : list string) : M nscache (list ObjectMeta) := list_loop order [].

(** The first loop of [poll]: what has changed. [entry.ns] is dereferenced for every entry. *)
Fixpoint poll_changes (cache : nscache) (order : list string)
    (updated : list ObjectMeta) (deleted : list string) : res (list ObjectMeta * list string) :=
  match order with
  | [] => Ok (updated, deleted)
  | ns :: rest =>
      let entry := default zero_entry (cache !! ns) in
      match ce_ns entry with
      | None => nil_dereference
      | Some known =>
          match get ns (om_ResourceVersion known) with
          | Ok result =>
              if bool_decide (om_ResourceVersion known ≠ om_ResourceVersion result)
              then poll_changes cache rest (updated ++ [result]) deleted
              else poll_changes cache rest updated deleted
          | Err err =>
              if IsNotFound err && present entry
              then poll_changes cache rest updated (deleted ++ [ns])
              else poll_changes cache rest updated deleted
          | Panic m => Panic m
          end
      end
  end.

(** The second loop: deletions. *)
Fixpoint poll_deleted (deleted : list string) (st : nscache * list Event) : nscache * list Event :=
  match deleted with
  | [] => st
  | ns :: rest =>
      let entry := default zero_entry (st.1 !! ns) in
      poll_deleted rest
        (<[ns := zero_entry]> st.1, st.2 ++ [{| ev_Type := Deleted; ev_Object := ce_ns entry |}])
  end.

(** The third loop: additions and modifications. *)
Fixpoint poll_updated (updated : list ObjectMeta) (st : nscache * list Event)
    : res (nscache * list Event) :=
  match updated with
  | [] => Ok st
  | ns :: rest =>
      let entry := default zero_entry (st.1 !! om_Name ns) in
      let send (t : EventType) :=
        poll_updated rest
          (<[om_Name ns := {| present := true; ce_ns := Some ns |}]> st.1,
           st.2 ++ [{| ev_Type := t; ev_Object := Some ns |}]) in
      if negb (present entry) then send Added
      else
        match ce_ns entry with
        | None => nil_dereference
        | Some known =>
            if bool_decide (om_ResourceVersion ns = om_ResourceVersion known)
            then poll_updated rest st else send Modified
        end
  end.

(** The events are what [poll] sends to its channel, in order. *)
Definition poll (order : list string) (cache : nscache) : res (nscache * list Event) :=
  '(updated, deleted) ← poll_changes cache order [] [];
  poll_updated updated (poll_deleted deleted (cache, [])).
End poll.

(** ** Filtering by a denylist *)

(** An object that implements metav1.Object, and whether it is a *v1.Namespace. *)
Record object := { is_Namespace : bool; obj_meta : ObjectMeta }.
Definition getNamespace (o : object) : string :=
  if is_Namespace o then om_Name (obj_meta o) else om_Namespace (obj_meta o).

(** [List] of the wrapper: [None] stands for an item [meta.Accessor] refuses; the second part is
    the list's resource version. *)
Fixpoint denylist_items (denylist : nsset) (objs : list (option object)) : res (list object) :=
  match objs with
  | [] => Ok []
  | None :: _ => Err (Errorf "object does not implement the Object interfaces" [])
  | Some o :: rest =>
      if bool_decide (is_Some (denylist !! getNamespace o)) then denylist_items denylist rest
      else items ← denylist_items denylist rest; Ok (o :: items)
  end.
Definition denylist_List (denylist : nsset) (next : res (list (option object) * string))
    : res (list object * string) :=
  '(objs, rv) ← next;
  items ← denylist_items denylist objs;
  Ok (items, rv).

(** The goroutine of [newDenylistWatch]: where it is in its loop, what it has received from the
    wrapped watcher and what it has dispatched. *)
Inductive dw_phase := Waiting | Sending (e : EventType * object) | Closed | Stopped.
Record dw_state := {
  dw_at : dw_phase;
  dw_received : list (EventType * option object);
  dw_sent : list (EventType * object);
}.
Definition dw_init : dw_state := {| dw_at := Waiting; dw_received := []; dw_sent := [] |}.

Section denylist_watch.
Context (denylist : nsset).

(** What becomes of an event: ignored when its object has no metadata or is denied. *)
Definition dispatch (e : EventType * option object) : option (EventType * object) :=
  match e.2 with
  | None => None
  | Some o => if bool_decide (is_Some (denylist !! getNamespace o)) then None else Some (e.1, o)
  end.

Inductive dw_step : dw_state → dw_state → Prop :=
  | dw_receive r s e :
      dw_step {| dw_at := Waiting; dw_received := r; dw_sent := s |}
        {| dw_at := match dispatch e with Some x => Sending x | None => Waiting end;
           dw_received := r ++ [e]; dw_sent := s |}
  | dw_dispatch r s x :
      dw_step {| dw_at := Sending x; dw_received := r; dw_sent := s |}
        {| dw_at := Waiting; dw_received := r; dw_sent := s ++ [x] |}
  | dw_close r s :
      dw_step {| dw_at := Waiting; dw_received := r; dw_sent := s |}
        {| dw_at := Closed; dw_received := r; dw_sent := s |}
  | dw_stop p r s :
      p = Waiting ∨ (∃ x, p = Sending x) →
      dw_step {| dw_at := p; dw_received := r; dw_sent := s |}
        {| dw_at := Stopped; dw_received := r; dw_sent := s |}.
End denylist_watch.

(** ** Sets *)

Lemma IdenticalNamespaces_eq (a b : nsset) : IdenticalNamespaces a b = true ↔ a = b.
Proof.
  unfold IdenticalNamespaces. case_bool_decide as Hsz; [split; [done|congruence]|].
  rewrite forallb_forall. split; [|intros ->; intros k Hk%list_elem_of_In; by apply bool_decide_eq_true, elem_of_keys].
  intros Hk. assert (dom a = dom b) as Hdom.
  { apply set_subseteq_size_eq; [|rewrite !size_dom; lia].
    intros k Hka. apply elem_of_dom, elem_of_keys, list_elem_of_In, Hk, bool_decide_eq_true in Hka.
    by apply elem_of_dom. }
  apply map_eq. intros k. destruct (a !! k) as [[]|] eqn:E.
  - assert (k ∈ dom b) as [[] Hb]%elem_of_dom by (rewrite <-Hdom; by apply elem_of_dom_2 in E). done.
  - symmetry. apply not_elem_of_dom. rewrite <-Hdom. by apply not_elem_of_dom.
Qed.

(** The selector does not depend on the order in which the set is visited. *)
Lemma DenyTweak_any_order options field (valueSet : nsset) order order' :
  range_order valueSet order → range_order valueSet order' →
  DenyTweak order options field valueSet = DenyTweak order' options field valueSet.
Proof.
  unfold range_order, DenyTweak. intros Ho Ho'.
  assert (Sort ((fun value => field +:+ "!=" +:+ value) <$> order) =
          Sort ((fun value => field +:+ "!=" +:+ value) <$> order')) as ->; [|done].
  apply (StronglySorted_unique str_le).
  - apply StronglySorted_merge_sort; apply _.
  - apply StronglySorted_merge_sort; apply _.
  - unfold Sort. rewrite !merge_sort_Permutation. by rewrite Ho, Ho'.
Qed.

(** ** The cache *)

(** An entry has an object exactly when the namespace is present, under its own name. *)
Definition entry_ok (k : string) (e : cacheEntry) : Prop :=
  match ce_ns e with Some n => present e = true ∧ om_Name n = k | None => present e = false end.
Definition cache_ok (cache : nscache) : Prop := map_Forall entry_ok cache.

(** What a client that follows the events knows: the namespaces that are present. *)
Definition view (cache : nscache) : gmap string ObjectMeta :=
  omap (fun e => if present e then ce_ns e else None) cache.

(** The contract of a watch: an object is added when it is unknown, and modified or deleted when
    it is known. *)
Inductive delivers : gmap string ObjectMeta → list Event → gmap string ObjectMeta → Prop :=
  | delivers_nil v : delivers v [] v
  | delivers_added v n es v' :
      v !! om_Name n = None → delivers (<[om_Name n := n]> v) es v' →
      delivers v ({| ev_Type := Added; ev_Object := Some n |} :: es) v'
  | delivers_modified v n es v' :
      is_Some (v !! om_Name n) → delivers (<[om_Name n := n]> v) es v' →
      delivers v ({| ev_Type := Modified; ev_Object := Some n |} :: es) v'
  | delivers_deleted v n es v' :
      v !! om_Name n = Some n → delivers (delete (om_Name n) v) es v' →
      delivers v ({| ev_Type := Deleted; ev_Object := Some n |} :: es) v'.

Lemma delivers_app v es v' es' v'' :
  delivers v es v' → delivers v' es' v'' → delivers v (es ++ es') v''.
Proof. induction 1; simpl; eauto using delivers. Qed.

Lemma new_cache_ok namespaces : cache_ok (newPollBasedListerWatcher namespaces).
Proof.
  unfold newPollBasedListerWatcher. assert (cache_ok (∅ : nscache)) as H by apply map_Forall_empty.
  revert H. generalize (∅ : nscache). induction namespaces as [|ns nss IH]; intros c Hc; simpl; [done|].
  apply IH. by apply map_Forall_insert_2.
Qed.

(** The answers a server gives: a namespace is found under its own name. *)
Definition serves (get : string → string → res ObjectMeta) : Prop :=
  ∀ k rv, match get k rv with Ok n => om_Name n = k | Err _ => True | Panic _ => False end.

Lemma list_loop_ok get order : serves get → ∀ items c,
  cache_ok c → cache_ok (list_loop get order items c).1.
Proof.
  intros Hget. induction order as [|ns rest IH]; intros items c Hc; simpl; [done|].
  specialize (Hget ns ""). destruct (get ns "") as [n|err|]; [|destruct (IsNotFound err)|]; try done.
  - apply IH. apply map_Forall_insert_2; [|done]. by split.
  - by apply IH.
Qed.

(** A poll that returns has found every entry present. *)
Lemma poll_changes_panics get c : serves get → cache_ok c → ∀ order upd del,
  (∃ m, poll_changes get c order upd del = Panic m) ↔
  ∃ k, k ∈ order ∧ present (default zero_entry (c !! k)) = false.
Proof.
  intros Hget Hc. induction order as [|ns rest IH]; intros upd del; simpl.
  { split; [by intros []|]. intros (k & Hk & _). by apply elem_of_nil in Hk. }
  assert (entry_ok ns (default zero_entry (c !! ns))) as He.
  { destruct (c !! ns) as [e|] eqn:E; [by apply (Hc ns)|done]. }
  unfold entry_ok in He. destruct (ce_ns (default zero_entry (c !! ns))) as [known|] eqn:En.
  2:{ split; [|unfold nil_dereference; eauto]. intros _. exists ns. split; [set_solver|done]. }
  destruct He as [Hp _].
  assert ((∃ k, k ∈ rest ∧ present (default zero_entry (c !! k)) = false) ↔
    ∃ k, k ∈ ns :: rest ∧ present (default zero_entry (c !! k)) = false) as <-.
  { split; intros (k & Hk & Hpk); exists k; (split; [|done]); [set_solver|].
    apply elem_of_cons in Hk as [->|]; [congruence|done]. }
  specialize (Hget ns (om_ResourceVersion known)).
  destruct (get ns _) as [n|err|]; [case_bool_decide|destruct (_ && _)|done]; apply IH.
Qed.

(** ** What a poll sends *)

Lemma lookup_view c k : view c !! k = c !! k ≫= fun e => if present e then ce_ns e else None.
Proof. apply lookup_omap. Qed.
Lemma view_present c k e :
  cache_ok c → c !! k = Some e → present e = true →
  ∃ n, ce_ns e = Some n ∧ om_Name n = k ∧ view c !! k = Some n.
Proof.
  intros Hc Hk Hp. specialize (Hc k e Hk). unfold entry_ok in Hc. rewrite lookup_view, Hk. simpl.
  rewrite Hp. destruct (ce_ns e) as [n|]; [|congruence]. exists n. naive_solver.
Qed.
Lemma view_name c k n : cache_ok c → view c !! k = Some n → om_Name n = k.
Proof.
  intros Hc. rewrite lookup_view. destruct (c !! k) as [e|] eqn:E; [|done]. simpl.
  specialize (Hc k e E). unfold entry_ok in Hc. destruct (present e); [|done].
  intros Hn. rewrite Hn in Hc. naive_solver.
Qed.
Lemma view_insert c k n :
  view (<[k := {| present := true; ce_ns := Some n |}]> c) = <[k := n]> (view c).
Proof. unfold view. by rewrite omap_insert. Qed.
Lemma view_delete c k : view (<[k := zero_entry]> c) = delete k (view c).
Proof. unfold view. by rewrite omap_insert. Qed.

Lemma poll_deleted_spec del : ∀ c evs,
  NoDup del → cache_ok c → (∀ k, k ∈ del → is_Some (view c !! k)) →
  ∃ c' es, poll_deleted del (c, evs) = (c', evs ++ es) ∧ delivers (view c) es (view c') ∧
    cache_ok c' ∧ ∀ k, c' !! k = if decide (k ∈ del) then Some zero_entry else c !! k.
Proof.
  induction del as [|k del IH]; intros c evs Hnd Hc Hp; simpl.
  { exists c, []. rewrite app_nil_r. split_and!; [done|constructor|done|done]. }
  apply NoDup_cons in Hnd as [Hk Hnd]. destruct (Hp k) as [n Hn]; [set_solver|].
  pose proof (view_name _ _ _ Hc Hn) as Hname. pose proof Hn as Hn'. rewrite lookup_view in Hn'.
  destruct (c !! k) as [e|] eqn:E; [|done]. simpl in *. destruct (present e); [|done]. rewrite Hn'.
  destruct (IH (<[k := zero_entry]> c) (evs ++ [{| ev_Type := Deleted; ev_Object := Some n |}]))
    as (c' & es & -> & Hd & Hc' & Hl); [done|by apply map_Forall_insert_2| |].
  { intros k' Hk'. rewrite view_delete, lookup_delete_ne by set_solver. set_solver. }
  exists c', ({| ev_Type := Deleted; ev_Object := Some n |} :: es).
  split_and!; [by rewrite <-app_assoc| |done|].
  - rewrite view_delete in Hd. constructor; by rewrite Hname.
  - intros k'. rewrite Hl. destruct (decide (k = k')) as [<-|].
    + rewrite lookup_insert_eq. by case_decide; rewrite decide_True by set_solver.
    + rewrite lookup_insert_ne by done. by repeat case_decide; set_solver.
Qed.

Lemma poll_updated_spec upd : ∀ c evs,
  NoDup (om_Name <$> upd) → cache_ok c →
  (∀ n, n ∈ upd → ∃ known, view c !! om_Name n = Some known ∧
     om_ResourceVersion n ≠ om_ResourceVersion known) →
  ∃ c' es, poll_updated upd (c, evs) = Ok (c', evs ++ es) ∧ delivers (view c) es (view c') ∧
    cache_ok c' ∧ (∀ n, n ∈ upd → view c' !! om_Name n = Some n) ∧
    (∀ k, k ∉ om_Name <$> upd → c' !! k = c !! k).
Proof.
  induction upd as [|n upd IH]; intros c evs Hnd Hc Hp; simpl.
  { exists c, []. rewrite app_nil_r. split_and!; [done|constructor|done|set_solver|done]. }
  apply NoDup_cons in Hnd as [Hk Hnd]. destruct (Hp n) as (known & Hn & Hrv); [set_solver|].
  pose proof Hn as Hn'. rewrite lookup_view in Hn'.
  destruct (c !! om_Name n) as [e|] eqn:E; [|done]. simpl in *. destruct (present e); [|done].
  simpl. rewrite Hn', bool_decide_false by done.
  destruct (IH (<[om_Name n := {| present := true; ce_ns := Some n |}]> c)
    (evs ++ [{| ev_Type := Modified; ev_Object := Some n |}])) as (c' & es & -> & Hd & Hc' & Hl & Hf);
    [done|by apply map_Forall_insert_2| |].
  { intros n' Hn''. rewrite view_insert, lookup_insert_ne; [set_solver|].
    intros Heq. apply Hk. rewrite Heq. by apply list_elem_of_fmap_2. }
  exists c', ({| ev_Type := Modified; ev_Object := Some n |} :: es).
  rewrite view_insert in Hd. split_and!; [by rewrite <-app_assoc| |done| |].
  - by econstructor.
  - intros n' [->|Hn'']%elem_of_cons; [|by apply Hl].
    rewrite lookup_view, Hf by done. by rewrite lookup_insert_eq.
  - intros k [Hk1 Hk2]%not_elem_of_cons. rewrite Hf by done. by rewrite lookup_insert_ne.
Qed.
Section poll_spec.
Context (get : string → string → res ObjectMeta) (Hget : serves get).

(** The new version of a namespace, and whether it is gone, according to the API. *)
Definition changed (c : nscache) (k : string) : option ObjectMeta :=
  match view c !! k with
  | None => None
  | Some known =>
      match get k (om_ResourceVersion known) with
      | Ok n => if decide (om_ResourceVersion known = om_ResourceVersion n) then None else Some n
      | _ => None
      end
  end.
Definition gone (c : nscache) (k : string) : bool :=
  match view c !! k with
  | None => false
  | Some known =>
      match get k (om_ResourceVersion known) with Err e => IsNotFound e | _ => false end
  end.

Lemma poll_changes_eq c order :
  cache_ok c → (∀ k, k ∈ order → is_Some (view c !! k)) → ∀ upd del,
  poll_changes get c order upd del =
    Ok (upd ++ omap (changed c) order, del ++ filter (fun k => gone c k = true) order).
Proof.
  intros Hc. induction order as [|k order IH]; intros Hp upd del; simpl; [by rewrite !app_nil_r|].
  destruct (Hp k) as [known Hk]; [set_solver|].
  pose proof Hk as Hk'. rewrite lookup_view in Hk'. destruct (c !! k) as [e|] eqn:E; [|done]. simpl in *.
  destruct (present e) eqn:Ep; [|done]. rewrite Hk'.
  assert (∀ k', k' ∈ order → is_Some (view c !! k')) as Hp' by set_solver.
  pose proof (Hget k (om_ResourceVersion known)) as Hg.
  assert (changed c k = match get k (om_ResourceVersion known) with
    | Ok n => if decide (om_ResourceVersion known = om_ResourceVersion n) then None else Some n
    | _ => None end) as -> by (unfold changed; by rewrite Hk).
  assert (gone c k = match get k (om_ResourceVersion known) with Err e => IsNotFound e | _ => false end)
    as Hgone by (unfold gone; by rewrite Hk).
  rewrite filter_cons. destruct (get k (om_ResourceVersion known)) as [n|err|]; [| |done].
  - rewrite (decide_False (P := gone c k = true)) by congruence.
    case_bool_decide; case_decide; try done; rewrite IH by done; by rewrite <-?app_assoc.
  - rewrite andb_true_r, <-Hgone. case_decide as Hd;
      [rewrite Hd|apply not_true_is_false in Hd; rewrite Hd]; rewrite IH by done; by rewrite <-?app_assoc.
Qed.


Lemma changed_view c k n :
  changed c k = Some n →
  om_Name n = k ∧ gone c k = false ∧
  ∃ known, view c !! k = Some known ∧ om_ResourceVersion n ≠ om_ResourceVersion known.
Proof.
  unfold changed, gone. destruct (view c !! k) as [known|]; [|done].
  pose proof (Hget k (om_ResourceVersion known)) as Hg. destruct (get k _) as [n'| |]; [|done..].
  case_decide; [done|]. intros [= <-]. split_and!; [done|done|]. exists known. naive_solver.
Qed.
Lemma changed_names c order :
  NoDup order → NoDup (om_Name <$> omap (changed c) order) ∧
  ∀ k, k ∈ om_Name <$> omap (changed c) order ↔ k ∈ order ∧ is_Some (changed c k).
Proof.
  assert (∀ (l : list string) k, k ∈ om_Name <$> omap (changed c) l ↔ k ∈ l ∧ is_Some (changed c k)) as Hin.
  { intros l k. rewrite list_elem_of_fmap. setoid_rewrite list_elem_of_omap. split.
    - intros (n & -> & k' & Hk' & Hn). destruct (changed_view _ _ _ Hn) as (-> & _ & _). eauto.
    - intros (Hk & n & Hn). exists n. destruct (changed_view _ _ _ Hn) as (Hname & _ & _). eauto. }
  intros Hnd. split; [|apply Hin]. induction Hnd as [|k l Hk _ IH]; simpl; [constructor|].
  destruct (changed c k) as [n|] eqn:E; [|done]. destruct (changed_view _ _ _ E) as (Hname & _ & _).
  simpl. constructor; [|done]. rewrite Hname, Hin. tauto.
Qed.

(** What the watcher's client sees after a poll of a cache without absent namespaces. *)
Lemma poll_spec c order :
  cache_ok c → NoDup order → (∀ k, is_Some (c !! k) ↔ k ∈ order) →
  (∀ k, k ∈ order → is_Some (view c !! k)) →
  ∃ c' es, poll get order c = Ok (c', es) ∧ cache_ok c' ∧ delivers (view c) es (view c') ∧
    ∀ k old, view c !! k = Some old →
      view c' !! k = match get k (om_ResourceVersion old) with
                     | Ok n => Some (if decide (om_ResourceVersion old = om_ResourceVersion n)
                                     then old else n)
                     | Err e => if IsNotFound e then None else Some old
                     | Panic _ => Some old
                     end.
Proof.
  intros Hc Hnd Hdom Hp. unfold poll. rewrite poll_changes_eq by done. simpl.
  set (upd := omap (changed c) order). set (del := filter (fun k => gone c k = true) order).
  destruct (poll_deleted_spec del c []) as (c1 & es1 & -> & Hd1 & Hc1 & Hl1); [by apply NoDup_filter|done| |].
  { intros k [_ Hk]%list_elem_of_filter. auto. }
  rewrite app_nil_l. destruct (changed_names c order Hnd) as [Hnd' Hin].
  assert (∀ k, gone c k = false → view c1 !! k = view c !! k) as Hkeep.
  { intros k Hk. rewrite !lookup_view, Hl1, decide_False; [done|].
    intros [Hk' _]%list_elem_of_filter. congruence. }
  destruct (poll_updated_spec upd c1 es1) as (c2 & es2 & -> & Hd2 & Hc2 & Hu & Hf); [done|done| |].
  { intros n (k & Hk & Hn)%list_elem_of_omap.
    destruct (changed_view _ _ _ Hn) as (-> & Hg & known & Hv & Hrv). exists known. by rewrite Hkeep. }
  exists c2, (es1 ++ es2). split_and!; [done|done|by eapply delivers_app|].
  intros k old Hold. assert (k ∈ order) as Hk.
  { apply Hdom. rewrite lookup_view in Hold. by destruct (c !! k). }
  assert (changed c k = match get k (om_ResourceVersion old) with
    | Ok n => if decide (om_ResourceVersion old = om_ResourceVersion n) then None else Some n
    | _ => None end) as Hch by (unfold changed; by rewrite Hold).
  assert (gone c k = match get k (om_ResourceVersion old) with Err e => IsNotFound e | _ => false end)
    as Hgone by (unfold gone; by rewrite Hold).
  assert (changed c k = None → view c2 !! k = if gone c k then None else Some old) as Hsame.
  { intros Hn. rewrite lookup_view, Hf, Hl1 by (unfold upd; rewrite Hin, Hn; by intros [_ []]).
    unfold del. destruct (gone c k) eqn:Eg.
    - by rewrite decide_True by by apply list_elem_of_filter.
    - rewrite decide_False by (intros [? _]%list_elem_of_filter; congruence).
      by rewrite <-lookup_view. }
  destruct (get k (om_ResourceVersion old)) as [n|e|].
  - case_decide; [by rewrite Hsame, Hgone|]. destruct (changed_view _ _ _ Hch) as (<- & _ & _).
    apply Hu, list_elem_of_omap. eauto.
  - rewrite Hsame, Hgone by done. done.
  - by rewrite Hsame, Hgone.
Qed.
End poll_spec.

(** ** The watcher over time *)

(** One call of [List] or [poll], in any order of the map. *)
Inductive lw_step : nscache → list Event → nscache → Prop :=
  | lw_list get order c :
      serves get → range_order c order → lw_step c [] (List_ get order c).1
  | lw_poll get order c c' es :
      serves get → range_order c order → poll get order c = Ok (c', es) → lw_step c es c'.
Inductive lw_reachable (namespaces : list string) : nscache → Prop :=
  | lw_start : lw_reachable namespaces (newPollBasedListerWatcher namespaces)
  | lw_next c es c' : lw_reachable namespaces c → lw_step c es c' → lw_reachable namespaces c'.

Lemma range_order_keys (c : nscache) : range_order c (keys c).
Proof. unfold range_order. reflexivity. Qed.
Lemma range_order_spec (c : nscache) order :
  range_order c order → NoDup order ∧ ∀ k, is_Some (c !! k) ↔ k ∈ order.
Proof.
  unfold range_order. intros Ho. split; [rewrite Ho; apply NoDup_keys|].
  intros k. by rewrite Ho, elem_of_keys.
Qed.
Lemma poll_panics get order c :
  serves get → cache_ok c → range_order c order →
  (∃ m, poll get order c = Panic m) ↔ ∃ k e, c !! k = Some e ∧ present e = false.
Proof.
  intros Hget Hc Ho. destruct (range_order_spec _ _ Ho) as [Hnd Hdom].
  assert ((∃ k e, c !! k = Some e ∧ present e = false) ↔
    ∃ k, k ∈ order ∧ present (default zero_entry (c !! k)) = false) as ->.
  { split.
    - intros (k & e & Hk & He). exists k. rewrite <-Hdom, Hk. eauto.
    - intros (k & [e Hk]%Hdom & He). exists k, e. by rewrite Hk in He. }
  rewrite <-(poll_changes_panics get c Hget Hc order [] []). unfold poll. split; [|by intros [m ->]; exists m].
  intros [m Hm]. destruct (poll_changes get c order [] []) as [[upd del]| |] eqn:E; simpl in Hm; [|done|eauto].
  exfalso. assert (∀ k, k ∈ order → is_Some (view c !! k)) as Hp.
  { intros k Hk. destruct (decide (is_Some (view c !! k))) as [|Hn]; [done|]. exfalso.
    assert (∃ m, poll_changes get c order [] [] = Panic m) as [m' ?]; [|congruence].
    apply poll_changes_panics; [done|done|]. exists k. split; [done|].
    apply Hdom in Hk as [e Hk]. rewrite Hk. simpl. destruct (present e) eqn:Ee; [|done].
    destruct Hn. destruct (view_present _ _ _ Hc Hk Ee) as (n & _ & _ & ->). by eexists. }
  destruct (poll_spec get Hget c order Hc Hnd Hdom Hp) as (c' & es & Hpoll & _).
  unfold poll in Hpoll. rewrite E in Hpoll. simpl in Hpoll. congruence.
Qed.
Lemma reachable_ok namespaces c : lw_reachable namespaces c → cache_ok c.
Proof.
  induction 1 as [|c es c' _ IH Hs]; [apply new_cache_ok|].
  destruct Hs as [get order c Hget Ho|get order c c' es Hget Ho Hpoll]; [by apply list_loop_ok|].
  destruct (range_order_spec _ _ Ho) as [Hnd Hdom].
  assert (∀ k, k ∈ order → is_Some (view c !! k)) as Hp.
  { intros k [e Hk]%Hdom. destruct (present e) eqn:Ee.
    - destruct (view_present _ _ _ IH Hk Ee) as (n & _ & _ & ->). by eexists.
    - destruct (proj2 (poll_panics get order c Hget IH Ho)) as [m Hm]; [by eauto|congruence]. }
  destruct (poll_spec get Hget c order IH Hnd Hdom Hp) as (c1 & es1 & Hp1 & Hc1 & _).
  rewrite Hpoll in Hp1. by simplify_eq.
Qed.

(** C38: A poll of a reachable cache all of whose namespaces are present returns. Its events turn
    what the client knew into what it knows afterwards, following the contract of a watch; a
    namespace the API has under a new resource version is replaced, one that is not found is
    removed, and one whose lookup fails otherwise is kept. *)
Theorem poll_in_sync (namespaces : list string) (get : string → string → res ObjectMeta)
    (order : list string) (c : nscache)
    (Hr : lw_reachable namespaces c) (Hget : serves get) (Ho : range_order c order)
    (Hp : map_Forall (fun _ e => present e = true) c) :
  ∃ c' es, poll get order c = Ok (c', es) ∧ delivers (view c) es (view c') ∧
    ∀ k old, view c !! k = Some old →
      view c' !! k = match get k (om_ResourceVersion old) with
                     | Ok n => Some (if decide (om_ResourceVersion old = om_ResourceVersion n)
                                     then old else n)
                     | Err e => if IsNotFound e then None else Some old
                     | Panic _ => Some old
                     end.
Proof.
  apply reachable_ok in Hr. destruct (range_order_spec _ _ Ho) as [Hnd Hdom].
  destruct (poll_spec get Hget c order Hr Hnd Hdom) as (c' & es & ? & _ & ? & ?).
  - intros k [e Hk]%Hdom. destruct (view_present _ _ _ Hr Hk (Hp k e Hk)) as (n & _ & _ & ->). by eexists.
  - by exists c', es.
Qed.

(** A poll of a reachable cache panics exactly when some of its namespaces is absent, so that
    no namespace that was missing at first, or was deleted, is ever reported as added: the
    operator crashes on the next poll instead. *)
Theorem poll_panics_when_absent (namespaces : list string) (get : string → string → res ObjectMeta)
    (order : list string) (c : nscache)
    (Hr : lw_reachable namespaces c) (Hget : serves get) (Ho : range_order c order) :
  (∃ m, poll get order c = Panic m) ↔ ∃ k e, c !! k = Some e ∧ present e = false.
Proof. apply poll_panics; [done|by eapply reachable_ok|done]. Qed.

(** ** The denylist watcher *)

Lemma dispatch_allowed denylist e x :
  dispatch denylist e = Some x → denylist !! getNamespace x.2 = None.
Proof.
  unfold dispatch. destruct (e.2) as [o|]; [|done]. case_bool_decide as H; [done|].
  intros [= <-]. simpl. by apply eq_None_not_Some.
Qed.
(** What has been dispatched, by the place in the loop. *)
Definition dw_inv (denylist : nsset) (st : dw_state) : Prop :=
  match dw_at st with
  | Sending x => dw_sent st ++ [x] = omap (dispatch denylist) (dw_received st)
  | Stopped => dw_sent st `prefix_of` omap (dispatch denylist) (dw_received st)
  | _ => dw_sent st = omap (dispatch denylist) (dw_received st)
  end.
Lemma dw_step_inv denylist st st' : dw_step denylist st st' → dw_inv denylist st → dw_inv denylist st'.
Proof.
  unfold dw_inv. intros [r s e|r s x|r s|p r s Hp]; simpl.
  - intros ->. rewrite omap_app. simpl. destruct (dispatch denylist e); [done|]. by rewrite app_nil_r.
  - done.
  - done.
  - destruct Hp as [->|[x ->]]; [by intros ->|]. intros <-. by apply prefix_app_r.
Qed.
Lemma dw_reachable_inv denylist st st' :
  rtc (dw_step denylist) st st' → dw_inv denylist st → dw_inv denylist st'.
Proof. induction 1; eauto using dw_step_inv. Qed.

(** Whenever the denylist watcher waits for its next event, or has ended because the wrapped
    watcher ended, it has dispatched exactly the received events whose namespace is not denied,
    in their order; when it has been stopped, what it has dispatched is a prefix of them. Nothing
    of a denied namespace is ever dispatched. *)
Theorem denylist_watch_filters (denylist : nsset) (st : dw_state)
    (Hst : rtc (dw_step denylist) dw_init st) :
  dw_sent st `prefix_of` omap (dispatch denylist) (dw_received st) ∧
  (dw_at st = Waiting ∨ dw_at st = Closed → dw_sent st = omap (dispatch denylist) (dw_received st)) ∧
  Forall (fun e => denylist !! getNamespace e.2 = None) (dw_sent st).
Proof.
  assert (dw_inv denylist st) as Hinv by by apply (dw_reachable_inv _ _ _ Hst).
  unfold dw_inv in Hinv.
  assert (dw_sent st `prefix_of` omap (dispatch denylist) (dw_received st)) as Hpre.
  { destruct (dw_at st); [by rewrite Hinv| |by rewrite Hinv|done]. rewrite <-Hinv. by apply prefix_app_r. }
  split; [done|]. split; [by intros [E|E]; rewrite E in Hinv|].
  assert (Forall (fun e => denylist !! getNamespace e.2 = None) (omap (dispatch denylist) (dw_received st))) as HF.
  { apply Forall_forall. intros x (e & _ & Hx)%list_elem_of_omap. by eapply dispatch_allowed. }
  destruct Hpre as [tl Htl]. rewrite Htl in HF. by apply Forall_app in HF as [? _].
Qed.

(** ** Witnesses: two namespaces, of which one is deleted *)

Module TwoNamespaces.
Definition ns (k rv : string) : ObjectMeta := SetResourceVersion rv (SetName k zero_meta).
Definition both (k _ : string) : res ObjectMeta := Ok (ns k "1").
Definition only_a (k _ : string) : res ObjectMeta :=
  if decide (k = "a") then Ok (ns "a" "2") else Err (StatusError NotFound k).
Definition start : nscache := newPollBasedListerWatcher ["a"; "b"].
Definition listed : nscache := (List_ both (keys start) start).1.
Definition event : EventType * option object :=
  (Added, Some {| is_Namespace := true; obj_meta := ns "kube-system" "1" |}).
End TwoNamespaces.

Lemma both_serves : serves TwoNamespaces.both.
Proof. by intros k rv. Qed.
Lemma only_a_serves : serves TwoNamespaces.only_a.
Proof. intros k rv. unfold TwoNamespaces.only_a. by case_decide as H; [rewrite H|]. Qed.
Lemma listed_reachable : lw_reachable ["a"; "b"] TwoNamespaces.listed.
Proof.
  eapply lw_next; [apply lw_start|]. apply (lw_list TwoNamespaces.both); [apply both_serves|apply range_order_keys].
Qed.

Lemma poll_in_sync_witness :
  ∃ c' es, poll TwoNamespaces.only_a (keys TwoNamespaces.listed) TwoNamespaces.listed = Ok (c', es) ∧
    view c' !! "a" = Some (TwoNamespaces.ns "a" "2") ∧ view c' !! "b" = None.
Proof.
  destruct (poll_in_sync ["a"; "b"] TwoNamespaces.only_a (keys TwoNamespaces.listed)
    TwoNamespaces.listed listed_reachable only_a_serves (range_order_keys _)) as (c' & es & Hp & _ & Hv).
  - apply (bool_decide_eq_true_1 (map_Forall (fun _ e => present e = true) TwoNamespaces.listed)).
    vm_compute. reflexivity.
  - exists c', es. split; [exact Hp|]. split.
    + exact (Hv "a" (TwoNamespaces.ns "a" "1") ltac:(vm_compute; reflexivity)).
    + exact (Hv "b" (TwoNamespaces.ns "b" "1") ltac:(vm_compute; reflexivity)).
Defined.

Lemma poll_panics_when_absent_witness :
  ∃ m, poll TwoNamespaces.both (keys TwoNamespaces.start) TwoNamespaces.start = Panic m.
Proof.
  apply (poll_panics_when_absent ["a"; "b"] TwoNamespaces.both _ _ (lw_start _) both_serves (range_order_keys _)).
  exists "a", zero_entry. split; reflexivity.
Defined.

Lemma denylist_watch_filters_witness :
  ∃ st, rtc (dw_step {["kube-system" := ()]}) dw_init st ∧ length (dw_received st) = 1 ∧ dw_sent st = [].
Proof.
  eexists. assert (rtc (dw_step {["kube-system" := ()]}) dw_init
    {| dw_at := Waiting; dw_received := [TwoNamespaces.event]; dw_sent := [] |}) as Hst.
  { apply rtc_once. pose proof (dw_receive {["kube-system" := ()]} [] [] TwoNamespaces.event) as Hs.
    vm_compute (dispatch _ _) in Hs. exact Hs. }
  split; [exact Hst|]. split; [reflexivity|].
  destruct (denylist_watch_filters _ _ Hst) as (_ & He & _).
  rewrite He by (left; reflexivity). vm_compute. reflexivity.
Defined.
