(* ===== verification/Reconciler.v ===== *)
(** * Reacting on events: pkg/operator/resource_reconciler.go and event_handler.go

    Informers deliver events; the handlers decide which objects need a reconciliation or a status
    update and put their keys on one of two work queues, which two goroutines drain. client-go's
    work queue is the class [WorkQueue]. The trigger counters are kept, the other metrics are left
    out. *)

From S2P Require Import Prelude GoStrings Meta Status Accessor.

(** ** Trigger counters *)

Inductive HandlerEvent := AddEvent | DeleteEvent | UpdateEvent.
#[global] Instance HandlerEvent_eq_dec : EqDecision HandlerEvent.
Proof. solve_decision. Defined.
#[global] Instance HandlerEvent_countable : Countable HandlerEvent.
Proof.
  refine (inj_countable'
    (fun e => match e with AddEvent => 0 | DeleteEvent => 1 | UpdateEvent => 2 end)
    (fun n => match n with 0 => AddEvent | 1 => DeleteEvent | _ => UpdateEvent end) _).
  by intros [].
Defined.
Abbreviation triggers := (gmap (string * HandlerEvent) nat).
(** [TriggerByCounter] creates the counter at zero, [Inc] increments it. *)
Definition TriggerByCounter (triggeredBy : string) (action : HandlerEvent) (m : triggers) : triggers :=
  match m !! (triggeredBy, action) with
  | Some _ => m
  | None => <[(triggeredBy, action) := 0]> m
  end.
Definition Inc (triggeredBy : string) (action : HandlerEvent) (m : triggers) : triggers :=
  alter S (triggeredBy, action) (TriggerByCounter triggeredBy action m).

(** [meta.Accessor] of apimachinery: tombstones are not API objects. *)
Definition meta_Accessor (o : event_object) : option ObjectMeta :=
  match o with Object m => Some m | _ => None end.

Definition nil_interface {A} : res A :=
  Panic "invalid memory address or nil pointer dereference".

(** ** EventHandler *)

Record EventHandler := { eh_objName : string; eh_triggers : triggers; eh_enqueued : list string }.
(** [enqueueFunc] is called with a namespace. *)
Definition enqueueFunc (ns : string) (e : EventHandler) : EventHandler :=
  {| eh_objName := eh_objName e; eh_triggers := eh_triggers e; eh_enqueued := eh_enqueued e ++ [ns] |}.
Definition eh_count (f : triggers → triggers) (e : EventHandler) : EventHandler :=
  {| eh_objName := eh_objName e; eh_triggers := f (eh_triggers e); eh_enqueued := eh_enqueued e |}.

Definition EventHandler_OnAdd (obj : event_object) (e : EventHandler) : EventHandler :=
  match ObjectMetadata obj with
  | Some o => enqueueFunc (om_Namespace o) (eh_count (Inc (eh_objName e) AddEvent) e)
  | None => e
  end.
(** The type assertions panic on anything but API objects. *)
Definition EventHandler_OnUpdate (old cur : event_object) (e : EventHandler) : res EventHandler :=
  match meta_Accessor old, meta_Accessor cur with
  | Some o, Some c =>
      if bool_decide (om_ResourceVersion o = om_ResourceVersion c) then Ok e
      else
        match ObjectMetadata cur with
        | Some m => Ok (enqueueFunc (om_Namespace m) (eh_count (TriggerByCounter (eh_objName e) UpdateEvent) e))
        | None => Ok e
        end
  | _, _ => Panic "interface conversion: interface is not v1.Object"
  end.
Definition EventHandler_OnDelete (obj : event_object) (e : EventHandler) : EventHandler :=
  match ObjectMetadata obj with
  | Some o => enqueueFunc (om_Namespace o) (eh_count (Inc (eh_objName e) DeleteEvent) e)
  | None => e
  end.

(** ** Work queues *)

(** The part of client-go's rate-limited queue the reconciler relies on. [waiting] are the keys
    that will be handed out, now or later; [processing] those handed out and not done. Time decides
    when a delayed key is handed out. *)
Class WorkQueue (Q : Type) := {
  q_Add : string → Q → Q;
  q_AddRateLimited : string → Q → Q;
  q_Forget : string → Q → Q;
  q_Done : string → Q → Q;
  q_Get : Z → Q → option (string * Q);
  q_ShutDown : Q → Q;
  q_new : Q;
  waiting : Q → gset string;
  processing : Q → gset string;
  shuttingDown : Q → bool;
  new_law : waiting q_new = ∅ ∧ processing q_new = ∅ ∧ shuttingDown q_new = false;
  Add_law k q : shuttingDown q = false →
    waiting (q_Add k q) = {[k]} ∪ waiting q ∧ processing (q_Add k q) = processing q ∧
    shuttingDown (q_Add k q) = false;
  AddRateLimited_law k q : shuttingDown q = false →
    waiting (q_AddRateLimited k q) = {[k]} ∪ waiting q ∧
    processing (q_AddRateLimited k q) = processing q ∧ shuttingDown (q_AddRateLimited k q) = false;
  Forget_law k q : waiting (q_Forget k q) = waiting q ∧ processing (q_Forget k q) = processing q ∧
    shuttingDown (q_Forget k q) = shuttingDown q;
  Done_law k q : waiting (q_Done k q) = waiting q ∧ processing (q_Done k q) = processing q ∖ {[k]} ∧
    shuttingDown (q_Done k q) = shuttingDown q;
  (** a key is never handed out while it is processed *)
  Get_law now q k q' : q_Get now q = Some (k, q') →
    k ∈ waiting q ∧ k ∉ processing q ∧ waiting q' = waiting q ∖ {[k]} ∧
    processing q' = {[k]} ∪ processing q ∧ shuttingDown q' = shuttingDown q;
}.

(** A first-in-first-out queue without delays satisfies the laws. *)
Module Fifo.
Record queue := { items : list string; busy : gset string; down : bool }.
Definition add (k : string) (q : queue) : queue :=
  if down q then q
  else {| items := if decide (k ∈ items q) then items q else items q ++ [k]; busy := busy q; down := false |}.
Definition get (q : queue) : option (string * queue) :=
  match list_find (fun k => k ∉ busy q) (items q) with
  | Some (_, k) =>
      Some (k, {| items := filter (fun x => x ≠ k) (items q); busy := {[k]} ∪ busy q; down := down q |})
  | None => None
  end.
#[global, refine] Instance fifo : WorkQueue queue := {|
  q_Add := add; q_AddRateLimited := add; q_Forget _ q := q;
  q_Done k q := {| items := items q; busy := busy q ∖ {[k]}; down := down q |};
  q_Get _ := get;
  q_ShutDown q := {| items := items q; busy := busy q; down := true |};
  q_new := {| items := []; busy := ∅; down := false |};
  waiting q := list_to_set (items q); processing := busy; shuttingDown := down |}.
Proof.
  - done.
  - intros k q Hq. unfold add. rewrite Hq. simpl. case_decide; set_solver.
  - intros k q Hq. unfold add. rewrite Hq. simpl. case_decide; set_solver.
  - done.
  - done.
  - intros _ q k q'. unfold get. destruct (list_find _ _) as [[i k']|] eqn:E; [|done].
    apply list_find_Some in E as (Hi & Hk & _). apply list_elem_of_lookup_2 in Hi.
    intros [= -> <-]. simpl. split_and!; [set_solver|done| |done|done].
    apply set_eq. intros x. rewrite elem_of_list_to_set, list_elem_of_filter. set_solver.
Defined.
End Fifo.

(** ** ResourceReconciler *)

Definition controllerIDAnnotation := "operator.prometheus.io/controller-id".
Definition StatusCleanupFinalizerName := "monitoring.coreos.com/status-cleanup".

(** What an informer hands out: one of the workloads, told apart by their Go type, or any other
    object. *)
Inductive informed :=
  | AStatefulSet (m : ObjectMeta)
  | ADaemonSet (m : ObjectMeta)
  | Other (o : event_object).

Record ResourceReconciler := {
  resourceKind : string;
  controllerID : string;
  (** [getter.Get]: an error, or an object and its metadata if it has any *)
  getter : string → error + option ObjectMeta;
}.

Definition HasStatusCleanupFinalizer (m : ObjectMeta) : bool :=
  bool_decide (StatusCleanupFinalizerName ∈ om_Finalizers m).
Definition hasObjectChanged (old cur : ObjectMeta) : bool :=
  bool_decide (om_ResourceVersion old ≠ om_ResourceVersion cur).
Definition hasStateChanged (old cur : ObjectMeta) : bool :=
  if bool_decide (om_Generation old ≠ om_Generation cur) then true
  else if bool_decide (om_Labels old ≠ om_Labels cur) then true
  else if bool_decide (om_Annotations old ≠ om_Annotations cur) then true
  else false.
Definition isManagedByController (rr : ResourceReconciler) (m : ObjectMeta) : bool :=
  bool_decide (at_key (om_Annotations m) controllerIDAnnotation = controllerID rr).

(** [resolve]: the first controlling owner of the reconciled kind decides. *)
Fixpoint resolve_among (rr : ResourceReconciler) (ns : string) (refs : list OwnerReference)
    : option ObjectMeta :=
  match refs with
  | [] => None
  | ref :: rest =>
      if negb (default false (deref <$> or_Controller ref)) then resolve_among rr ns rest
      else if bool_decide (or_Kind ref ≠ resourceKind rr) then resolve_among rr ns rest
      else match getter rr (ns +:+ "/" +:+ or_Name ref) with
           | inl _ => None
           | inr o => o
           end
  end.
Definition resolve (rr : ResourceReconciler) (obj : ObjectMeta) : option ObjectMeta :=
  resolve_among rr (om_Namespace obj) (om_OwnerReferences obj).

Definition key_of (m : ObjectMeta) : string := om_Namespace m +:+ "/" +:+ om_Name m.

Section reconciler.
Context {Q : Type} `{WorkQueue Q, KeyFunc}.

Record rr_state := { reconcileQ : Q; statusQ : Q; counters : triggers }.
Definition on_reconcileQ (f : Q → Q) (s : rr_state) : rr_state :=
  {| reconcileQ := f (reconcileQ s); statusQ := statusQ s; counters := counters s |}.
Definition on_statusQ (f : Q → Q) (s : rr_state) : rr_state :=
  {| reconcileQ := reconcileQ s; statusQ := f (statusQ s); counters := counters s |}.
Definition count (f : triggers → triggers) (s : rr_state) : rr_state :=
  {| reconcileQ := reconcileQ s; statusQ := statusQ s; counters := f (counters s) |}.

(** The counters of both kinds and all events are created when the reconciler is. *)
Definition NewResourceReconciler (kind : string) : rr_state := {|
  reconcileQ := q_new; statusQ := q_new;
  counters := foldl (fun m t => foldl (fun m e => TriggerByCounter t e m) m
                [AddEvent; DeleteEvent; UpdateEvent]) ∅ ["StatefulSet"; kind] |}.

Definition EnqueueForReconciliation (rr : ResourceReconciler) (m : ObjectMeta) (s : rr_state) : rr_state :=
  if negb (isManagedByController rr m) then s else on_reconcileQ (q_Add (key_of m)) s.
Definition EnqueueForStatus (rr : ResourceReconciler) (m : ObjectMeta) (s : rr_state) : rr_state :=
  if negb (isManagedByController rr m) then s else on_statusQ (q_Add (key_of m)) s.

Definition onStatefulSetAdd (rr : ResourceReconciler) (ss : ObjectMeta) (s : rr_state) : rr_state :=
  match resolve rr ss with
  | None => s
  | Some obj => EnqueueForReconciliation rr obj (count (Inc "StatefulSet" AddEvent) s)
  end.
Definition onDaemonSetAdd (rr : ResourceReconciler) (ds : ObjectMeta) (s : rr_state) : rr_state :=
  match resolve rr ds with
  | None => s
  | Some obj => EnqueueForReconciliation rr obj s
  end.
Definition onStatefulSetUpdate (rr : ResourceReconciler) (old cur : ObjectMeta) (s : rr_state) : rr_state :=
  if DeletionInProgress cur then s
  else if negb (hasObjectChanged old cur) then s
  else match resolve rr cur with
       | None => s
       | Some obj =>
           let s := count (Inc "StatefulSet" UpdateEvent) s in
           if negb (hasStateChanged old cur) then EnqueueForStatus rr obj s
           else EnqueueForReconciliation rr obj s
       end.
Definition onDaemonSetUpdate (rr : ResourceReconciler) (old cur : ObjectMeta) (s : rr_state) : rr_state :=
  if DeletionInProgress cur then s
  else if negb (hasObjectChanged old cur) then s
  else match resolve rr cur with
       | None => s
       | Some obj => if negb (hasStateChanged old cur) then s else EnqueueForReconciliation rr obj s
       end.
Definition onStatefulSetDelete (rr : ResourceReconciler) (ss : ObjectMeta) (s : rr_state) : rr_state :=
  match resolve rr ss with
  | None => s
  | Some obj => EnqueueForReconciliation rr obj (count (Inc "StatefulSet" DeleteEvent) s)
  end.
Definition onDaemonSetDelete (rr : ResourceReconciler) (ds : ObjectMeta) (s : rr_state) : rr_state :=
  match resolve rr ds with
  | None => s
  | Some obj => EnqueueForReconciliation rr obj s
  end.

Definition OnAdd (rr : ResourceReconciler) (obj : informed) (s : rr_state) : rr_state :=
  match obj with
  | ADaemonSet v => onDaemonSetAdd rr v s
  | AStatefulSet v => onStatefulSetAdd rr v s
  | Other o =>
      match MetaNamespaceKey o with
      | None => s
      | Some key =>
          match meta_Accessor o with
          | None => s
          | Some objMeta =>
              if negb (isManagedByController rr objMeta) then s
              else on_reconcileQ (q_Add key) (count (Inc (resourceKind rr) AddEvent) s)
          end
      end
  end.

(** The errors of [meta.Accessor] are only logged: a method call on the nil result panics. *)
Definition OnUpdate (rr : ResourceReconciler) (old cur : informed) (s : rr_state) : res rr_state :=
  match cur with
  | ADaemonSet v =>
      match old with
      | ADaemonSet o => Ok (onDaemonSetUpdate rr o v s)
      | _ => Panic "interface conversion: interface is not *v1.DaemonSet"
      end
  | AStatefulSet v =>
      match old with
      | AStatefulSet o => Ok (onStatefulSetUpdate rr o v s)
      | _ => Panic "interface conversion: interface is not *v1.StatefulSet"
      end
  | Other c =>
      match MetaNamespaceKey c with
      | None => Ok s
      | Some key =>
          let mOld := match old with AStatefulSet m | ADaemonSet m => Some m | Other o => meta_Accessor o end in
          match meta_Accessor c with
          | None => nil_interface
          | Some mCur =>
              if negb (isManagedByController rr mCur) then Ok s
              else if negb (HasStatusCleanupFinalizer mCur) && DeletionInProgress mCur then Ok s
              else match mOld with
                   | None => nil_interface
                   | Some mOld =>
                       if negb (hasStateChanged mOld mCur) then Ok s
                       else Ok (on_reconcileQ (q_Add key) (count (Inc (resourceKind rr) UpdateEvent) s))
                   end
          end
      end
  end.

Definition OnDelete (rr : ResourceReconciler) (obj : informed) (s : rr_state) : rr_state :=
  match obj with
  | ADaemonSet v => onDaemonSetDelete rr v s
  | AStatefulSet v => onStatefulSetDelete rr v s
  | Other o =>
      match MetaNamespaceKey o with
      | None => s
      | Some key =>
          match meta_Accessor o with
          | None => s
          | Some objMeta =>
              if negb (isManagedByController rr objMeta) then s
              else on_reconcileQ (q_Add key) (count (Inc (resourceKind rr) DeleteEvent) s)
          end
      end
  end.

(** *** The goroutines *)

(** [processNextReconcileItem] up to the call of [Sync], and after it with the error it returned:
    the deferred calls run last, in reverse order. *)
Definition reconcile_begin (now : Z) (s : rr_state) : option (string * rr_state) :=
  '(key, q) ← q_Get now (reconcileQ s); Some (key, on_reconcileQ (fun _ => q) s).
Definition reconcile_end (key : string) (err : option error) (s : rr_state) : rr_state :=
  let s := match err with
           | None => on_reconcileQ (q_Forget key) s
           | Some _ => on_reconcileQ (q_AddRateLimited key) s
           end in
  on_reconcileQ (q_Done key) (on_statusQ (q_Add key) s).
(** The same for [processNextStatusItem] and [UpdateStatus]. *)
Definition status_begin (now : Z) (s : rr_state) : option (string * rr_state) :=
  '(key, q) ← q_Get now (statusQ s); Some (key, on_statusQ (fun _ => q) s).
Definition status_end (key : string) (err : option error) (s : rr_state) : rr_state :=
  let s := match err with
           | None => on_statusQ (q_Forget key) s
           | Some _ => on_statusQ (q_AddRateLimited key) s
           end in
  on_statusQ (q_Done key) s.
Definition Stop (s : rr_state) : rr_state := on_statusQ q_ShutDown (on_reconcileQ q_ShutDown s).
End reconciler.
Arguments rr_state Q : clear implicits.

(** ** What events ask for *)

Inductive event :=
  | EvAdd (o : informed)
  | EvUpdate (old cur : informed)
  | EvDelete (o : informed).
Definition handle {Q} `{WorkQueue Q, KeyFunc} (rr : ResourceReconciler) (ev : event) (s : rr_state Q)
    : res (rr_state Q) :=
  match ev with
  | EvAdd o => Ok (OnAdd rr o s)
  | EvUpdate old cur => OnUpdate rr old cur s
  | EvDelete o => Ok (OnDelete rr o s)
  end.

(** The two kinds of work. *)
Inductive work := Reconcile | UpdateStatus.

(** The part of an object whose change calls for a reconciliation. *)
Definition state_of (m : ObjectMeta) : Z * gomap * gomap := (om_Generation m, om_Labels m, om_Annotations m).
Definition object_key (m : ObjectMeta) : string :=
  if bool_decide (om_Namespace m = "") then om_Name m else key_of m.

(** [o] is the object of the reconciled kind that controls [m]: what the getter knows under the
    name of the first reference that says so. *)
Definition controls (rr : ResourceReconciler) (ref : OwnerReference) : Prop :=
  deref <$> or_Controller ref = Some true ∧ or_Kind ref = resourceKind rr.
#[global] Instance controls_dec rr ref : Decision (controls rr ref).
Proof. unfold controls. apply _. Defined.
Definition owner_of (rr : ResourceReconciler) (m o : ObjectMeta) : Prop :=
  ∃ pre ref post, om_OwnerReferences m = pre ++ ref :: post ∧ controls rr ref ∧
    Forall (fun r => ¬ controls rr r) pre ∧
    getter rr (om_Namespace m +:+ "/" +:+ or_Name ref) = inr (Some o).

Inductive workload : informed → ObjectMeta → Prop :=
  | workload_statefulset m : workload (AStatefulSet m) m
  | workload_daemonset m : workload (ADaemonSet m) m.

(** The objects of the controller, as the flag [-controller-id] documents them: with an identifier,
    those whose annotation has it; without, those without annotation or with an empty one. *)
Definition manages (rr : ResourceReconciler) (m : ObjectMeta) : Prop :=
  let annotation := entries (om_Annotations m) !! controllerIDAnnotation in
  (controllerID rr ≠ "" ∧ annotation = Some (controllerID rr)) ∨
  (controllerID rr = "" ∧ (annotation = None ∨ annotation = Some "")).
Lemma managed_iff rr m : isManagedByController rr m = true ↔ manages rr m.
Proof.
  unfold isManagedByController, manages, at_key. rewrite bool_decide_eq_true.
  destruct (entries (om_Annotations m) !! controllerIDAnnotation) as [id|]; simpl.
  - destruct (decide (controllerID rr = "")) as [Hc|Hc]; rewrite ?Hc; split; [intros -> | | intros -> |]; intuition congruence.
  - split; [intros <-; auto|]. intros [[_ ?]|[-> _]]; done.
Qed.

(** The work an event asks for, with the key of the object concerned. An object whose deletion
    the informer did not see is delivered as a tombstone, and is to be reconciled as well. *)
Inductive wants (rr : ResourceReconciler) : event → work → string → Prop :=
  | wants_added m :
      manages rr m →
      wants rr (EvAdd (Other (Object m))) Reconcile (object_key m)
  | wants_deleted m :
      manages rr m →
      wants rr (EvDelete (Other (Object m))) Reconcile (object_key m)
  | wants_deleted_unseen key m :
      manages rr m →
      wants rr (EvDelete (Other (DeletedFinalStateUnknown key (Object m)))) Reconcile (object_key m)
  | wants_updated old m :
      manages rr m →
      om_DeletionTimestamp m = None ∨ StatusCleanupFinalizerName ∈ om_Finalizers m →
      state_of old ≠ state_of m →
      wants rr (EvUpdate (Other (Object old)) (Other (Object m))) Reconcile (object_key m)
  | wants_workload_added w m o :
      workload w m → owner_of rr m o → manages rr o →
      wants rr (EvAdd w) Reconcile (key_of o)
  | wants_workload_deleted w m o :
      workload w m → owner_of rr m o → manages rr o →
      wants rr (EvDelete w) Reconcile (key_of o)
  | wants_workload_updated w w' old m o :
      (w = AStatefulSet old ∧ w' = AStatefulSet m) ∨ (w = ADaemonSet old ∧ w' = ADaemonSet m) →
      om_DeletionTimestamp m = None → om_ResourceVersion old ≠ om_ResourceVersion m →
      state_of old ≠ state_of m →
      owner_of rr m o → manages rr o →
      wants rr (EvUpdate w w') Reconcile (key_of o)
  | wants_status old m o :
      om_DeletionTimestamp m = None → om_ResourceVersion old ≠ om_ResourceVersion m →
      state_of old = state_of m →
      owner_of rr m o → manages rr o →
      wants rr (EvUpdate (AStatefulSet old) (AStatefulSet m)) UpdateStatus (key_of o).

(** The handlers ignore tombstones: [answered] is the work they do ask for. *)
Definition tombstone (ev : event) : bool :=
  match ev with EvDelete (Other (DeletedFinalStateUnknown _ _)) => true | _ => false end.
Definition answered (rr : ResourceReconciler) (ev : event) (w : work) (k : string) : Prop :=
  tombstone ev = false ∧ wants rr ev w k.

(** Informers deliver updates of API objects of one type. *)
Definition proper (ev : event) : Prop :=
  match ev with
  | EvUpdate (Other (Object _)) (Other (Object _)) => True
  | EvUpdate (AStatefulSet _) (AStatefulSet _) => True
  | EvUpdate (ADaemonSet _) (ADaemonSet _) => True
  | EvUpdate _ _ => False
  | _ => True
  end.

Lemma hasStateChanged_state old cur : hasStateChanged old cur = true ↔ state_of old ≠ state_of cur.
Proof.
  unfold hasStateChanged, state_of. repeat (case_bool_decide; [split; [intros _; congruence|done]|]).
  split; [done|]. intros Hn. destruct Hn.
  repeat match goal with H : ¬ (_ ≠ _) |- _ => apply dec_stable in H end. congruence.
Qed.
Lemma resolve_owner rr m o : resolve rr m = Some o ↔ owner_of rr m o.
Proof.
  unfold resolve, owner_of. generalize (om_Namespace m) as ns.
  induction (om_OwnerReferences m) as [|ref refs IH]; intros ns; simpl.
  { split; [done|]. by intros ([] & ? & ? & ? & _). }
  destruct (decide (controls rr ref)) as [Hc|Hc].
  - destruct Hc as [Hc Hk]. rewrite Hc. simpl. rewrite bool_decide_false by congruence. split.
    + destruct (getter rr _) as [|o'] eqn:E; [done|]. intros ->. exists [], ref, refs. by repeat split.
    + intros ([|r pre] & ref' & post & Heq & Hc' & HF & Hg); simplify_eq/=; [by rewrite Hg|].
      apply Forall_cons in HF as [[] _]. by split.
  - trans (resolve_among rr ns refs = Some o).
    { destruct (or_Controller ref) as [[a []]|] eqn:E; simpl; [|done..].
      rewrite bool_decide_true; [done|]. intros Hk. destruct Hc. split; [by rewrite E|done]. }
    rewrite IH. split.
    + intros (pre & ref' & post & -> & ? & ? & ?). exists (ref :: pre), ref', post. split_and!; eauto.
    + intros ([|r pre] & ref' & post & Heq & Hc' & HF & Hg); simplify_eq/=; [done|].
      exists pre, ref', post. apply Forall_cons in HF as [_ HF]. eauto.
Qed.

Section handlers.
Context {Q : Type} `{WorkQueue Q, KeyFunc} (rr : ResourceReconciler).
Implicit Types s : rr_state Q.

Definition running s : Prop := shuttingDown (reconcileQ s) = false ∧ shuttingDown (statusQ s) = false.

(** [s'] has the queues of [s], with the keys of [P] added. *)
Definition adds (P : work → string → Prop) s s' : Prop :=
  running s' ∧
  processing (reconcileQ s') = processing (reconcileQ s) ∧
  processing (statusQ s') = processing (statusQ s) ∧
  (∀ k, k ∈ waiting (reconcileQ s') ↔ k ∈ waiting (reconcileQ s) ∨ P Reconcile k) ∧
  (∀ k, k ∈ waiting (statusQ s') ↔ k ∈ waiting (statusQ s) ∨ P UpdateStatus k).

Lemma adds_none P s f : running s → (∀ w k, ¬ P w k) → adds P s (count f s).
Proof. intros Hs HP. unfold adds. simpl. split_and!; [done..| |]; intros k; naive_solver. Qed.
Lemma adds_reconcile P s f key :
  running s → (∀ w k, P w k ↔ w = Reconcile ∧ k = key) → adds P s (on_reconcileQ (q_Add key) (count f s)).
Proof.
  intros Hs HP. unfold adds. destruct Hs as [Hr Hs].
  destruct (Add_law key (reconcileQ s) Hr) as (Hw & Hp & Hd). unfold running. simpl.
  setoid_rewrite HP. rewrite Hw. split_and!; [done..| |]; intros k; rewrite ?elem_of_union, ?elem_of_singleton; intuition congruence.
Qed.
Lemma adds_status P s f key :
  running s → (∀ w k, P w k ↔ w = UpdateStatus ∧ k = key) → adds P s (on_statusQ (q_Add key) (count f s)).
Proof.
  intros Hs HP. unfold adds. destruct Hs as [Hr Hs].
  destruct (Add_law key (statusQ s) Hs) as (Hw & Hp & Hd). unfold running. simpl.
  setoid_rewrite HP. rewrite Hw. split_and!; [done..| |]; intros k; rewrite ?elem_of_union, ?elem_of_singleton; intuition congruence.
Qed.
Lemma count_id s : count (fun m => m) s = s.
Proof. by destruct s. Qed.
Lemma key_func_object m : MetaNamespaceKey (Object m) = Some (object_key m).
Proof. unfold MetaNamespaceKey. by rewrite KeyFunc_object. Qed.

Lemma adds_owner P s f m :
  running s →
  (∀ w k, P w k ↔ w = Reconcile ∧ ∃ o, owner_of rr m o ∧ isManagedByController rr o = true ∧ k = key_of o) →
  adds P s match resolve rr m with Some o => EnqueueForReconciliation rr o (count f s) | None => s end.
Proof.
  intros Hs HP. setoid_rewrite <-resolve_owner in HP.
  destruct (resolve rr m) as [o|].
  - unfold EnqueueForReconciliation. destruct (isManagedByController rr o) eqn:Em; simpl.
    + apply adds_reconcile; [done|]. intros w k. rewrite HP. naive_solver.
    + apply adds_none; [done|]. intros w k. rewrite HP. intros (_ & o' & [= <-] & ? & _). congruence.
  - rewrite <-(count_id s) at 2. apply adds_none; [done|]. intros w k. rewrite HP. by intros (_ & ? & ? & _).
Qed.

(** What each kind of event asks for, in one formula per kind. *)
Lemma wants_resource_iff ev m :
  ev = EvAdd (Other (Object m)) ∨ ev = EvDelete (Other (Object m)) → ∀ w k,
  wants rr ev w k ↔ isManagedByController rr m = true ∧ w = Reconcile ∧ k = object_key m.
Proof.
  intros Hev w k. rewrite managed_iff. split.
  - destruct 1 as [| | | |? ? ? Hw|? ? ? Hw| |]; destruct Hev as [Hev|Hev]; simplify_eq/=; try done; inversion Hw.
  - intros (? & -> & ->). destruct Hev as [->| ->]; by constructor.
Qed.
Lemma wants_workload_iff ev x m :
  workload x m → ev = EvAdd x ∨ ev = EvDelete x → ∀ w k,
  wants rr ev w k ↔ w = Reconcile ∧ ∃ o, owner_of rr m o ∧ isManagedByController rr o = true ∧ k = key_of o.
Proof.
  intros Hx Hev w k. setoid_rewrite managed_iff. split.
  - destruct 1 as [| | | |? ? ? Hw|? ? ? Hw| |]; destruct Hev as [Hev|Hev]; simplify_eq/=; try by inversion Hx.
    all: split; [done|]; destruct Hx; inversion Hw; subst; eauto.
  - intros (-> & o & ? & ? & ->). destruct Hev as [->| ->]; by econstructor.
Qed.
Lemma wants_updated_iff old m w k :
  wants rr (EvUpdate (Other (Object old)) (Other (Object m))) w k ↔
  isManagedByController rr m = true ∧
  (om_DeletionTimestamp m = None ∨ StatusCleanupFinalizerName ∈ om_Finalizers m) ∧
  state_of old ≠ state_of m ∧ w = Reconcile ∧ k = object_key m.
Proof.
  rewrite managed_iff. split.
  - inversion 1 as [| | | | | |? ? ? ? ? Hw|]; subst; [done|]. by destruct Hw as [[? ?]|[? ?]].
  - intros (? & ? & ? & -> & ->). by constructor.
Qed.
Lemma wants_statefulset_iff old m w k :
  wants rr (EvUpdate (AStatefulSet old) (AStatefulSet m)) w k ↔
  om_DeletionTimestamp m = None ∧ om_ResourceVersion old ≠ om_ResourceVersion m ∧
  w = (if decide (state_of old = state_of m) then UpdateStatus else Reconcile) ∧
  ∃ o, owner_of rr m o ∧ isManagedByController rr o = true ∧ k = key_of o.
Proof.
  setoid_rewrite managed_iff. split.
  - inversion 1 as [| | | | | |? ? ? ? ? Hw|]; subst.
    + destruct Hw as [[? ?]|[? ?]]; simplify_eq. rewrite decide_False by done. eauto 10.
    + rewrite decide_True by done. eauto 10.
  - intros (? & ? & -> & o & ? & ? & ->). case_decide; [by econstructor|].
    eapply (wants_workload_updated _ _ _ old m); eauto.
Qed.
Lemma wants_daemonset_iff old m w k :
  wants rr (EvUpdate (ADaemonSet old) (ADaemonSet m)) w k ↔
  om_DeletionTimestamp m = None ∧ om_ResourceVersion old ≠ om_ResourceVersion m ∧
  state_of old ≠ state_of m ∧ w = Reconcile ∧
  ∃ o, owner_of rr m o ∧ isManagedByController rr o = true ∧ k = key_of o.
Proof.
  setoid_rewrite managed_iff. split.
  - inversion 1 as [| | | | | |? ? ? ? ? Hw|]; subst.
    destruct Hw as [[? ?]|[? ?]]; simplify_eq. eauto 10.
  - intros (? & ? & ? & -> & o & ? & ? & ->). eapply (wants_workload_updated _ _ _ old m); eauto.
Qed.

Lemma adds_same P s : running s → (∀ w k, ¬ P w k) → adds P s s.
Proof. intros Hs HP. rewrite <-(count_id s) at 2. by apply adds_none. Qed.
Lemma adds_owner_uncounted P s m :
  running s →
  (∀ w k, P w k ↔ w = Reconcile ∧ ∃ o, owner_of rr m o ∧ isManagedByController rr o = true ∧ k = key_of o) →
  adds P s match resolve rr m with Some o => EnqueueForReconciliation rr o s | None => s end.
Proof. intros Hs HP. pose proof (adds_owner P s (fun m => m) m Hs HP) as Ho. by rewrite count_id in Ho. Qed.
(** Close the case of an object that has no metadata. *)
Ltac no_want :=
  apply adds_same; [done|]; intros ? ? Hw; inversion Hw;
  match goal with H : workload _ _ |- _ => inversion H end.
Lemma OnAdd_adds o s : running s → adds (wants rr (EvAdd o)) s (OnAdd rr o s).
Proof.
  intros Hs. destruct o as [m|m|o]; simpl.
  - apply adds_owner; [done|]. apply (wants_workload_iff _ (AStatefulSet m)); [constructor|by left].
  - apply adds_owner_uncounted; [done|]. apply (wants_workload_iff _ (ADaemonSet m)); [constructor|by left].
  - destruct o as [m|k o|]; simpl.
    + rewrite key_func_object. pose proof (wants_resource_iff _ m (or_introl eq_refl)) as Hw.
      destruct (isManagedByController rr m); simpl.
      * apply adds_reconcile; [done|]. intros w k. rewrite Hw. tauto.
      * apply adds_same; [done|]. intros w k. rewrite Hw. by intros [? _].
    + by destruct (MetaNamespaceKey _); no_want.
    + by destruct (MetaNamespaceKey _); no_want.
Qed.
Lemma adds_iff P P' s s' : adds P s s' → (∀ w k, P w k ↔ P' w k) → adds P' s s'.
Proof. intros Ha HP. unfold adds in *. by setoid_rewrite <-HP. Qed.
Lemma tombstone_ignored ev s : tombstone ev = true → handle rr ev s = Ok s.
Proof. destruct ev as [|? ?|[| |[|k o|]]]; try done. intros _. simpl. by destruct (MetaNamespaceKey _). Qed.
Lemma answered_iff ev w k : tombstone ev = false → answered rr ev w k ↔ wants rr ev w k.
Proof. unfold answered. tauto. Qed.
Lemma OnDelete_adds o s :
  running s → tombstone (EvDelete o) = false → adds (wants rr (EvDelete o)) s (OnDelete rr o s).
Proof.
  intros Hs Ht. destruct o as [m|m|o]; simpl.
  - apply adds_owner; [done|]. apply (wants_workload_iff _ (AStatefulSet m)); [constructor|by right].
  - apply adds_owner_uncounted; [done|]. apply (wants_workload_iff _ (ADaemonSet m)); [constructor|by right].
  - destruct o as [m|k o|]; simpl.
    + rewrite key_func_object. pose proof (wants_resource_iff _ m (or_intror eq_refl)) as Hw.
      destruct (isManagedByController rr m); simpl.
      * apply adds_reconcile; [done|]. intros w k. rewrite Hw. tauto.
      * apply adds_same; [done|]. intros w k. rewrite Hw. by intros [? _].
    + done.
    + by destruct (MetaNamespaceKey _); no_want.
Qed.
Lemma OnUpdate_resource_adds old m s :
  running s →
  ∃ s', OnUpdate rr (Other (Object old)) (Other (Object m)) s = Ok s' ∧
    adds (wants rr (EvUpdate (Other (Object old)) (Other (Object m)))) s s'.
Proof.
  intros Hs. unfold OnUpdate. rewrite key_func_object. simpl.
  pose proof (wants_updated_iff old m) as Hw. pose proof (hasStateChanged_state old m) as Hc.
  destruct (isManagedByController rr m); simpl.
  2:{ eexists. split; [done|]. apply adds_same; [done|]. intros w k. rewrite Hw. by intros [? _]. }
  assert (negb (HasStatusCleanupFinalizer m) && DeletionInProgress m = false ↔
    om_DeletionTimestamp m = None ∨ StatusCleanupFinalizerName ∈ om_Finalizers m) as Hd.
  { unfold HasStatusCleanupFinalizer, DeletionInProgress. case_bool_decide; simpl; [tauto|].
    rewrite bool_decide_eq_false. split; [intros ?%dec_stable; tauto|tauto]. }
  destruct (_ && _).
  { eexists. split; [done|]. apply adds_same; [done|]. intros w k. rewrite Hw, <-Hd.
    by intros (_ & ? & _). }
  destruct (hasStateChanged old m); simpl; eexists; (split; [done|]).
  - apply adds_reconcile; [done|]. intros w k. rewrite Hw, <-Hd. tauto.
  - apply adds_same; [done|]. intros w k. rewrite Hw, <-Hc. by intros (_ & _ & ? & _).
Qed.
Lemma DeletionInProgress_false m : DeletionInProgress m = false ↔ om_DeletionTimestamp m = None.
Proof. unfold DeletionInProgress. rewrite bool_decide_eq_false. split; [apply dec_stable|tauto]. Qed.
Lemma hasObjectChanged_true old cur :
  hasObjectChanged old cur = true ↔ om_ResourceVersion old ≠ om_ResourceVersion cur.
Proof. apply bool_decide_eq_true. Qed.

Lemma onStatefulSetUpdate_adds old m s :
  running s →
  adds (wants rr (EvUpdate (AStatefulSet old) (AStatefulSet m))) s (onStatefulSetUpdate rr old m s).
Proof.
  intros Hs. pose proof (wants_statefulset_iff old m) as Hw. unfold onStatefulSetUpdate.
  setoid_rewrite <-DeletionInProgress_false in Hw. setoid_rewrite <-hasObjectChanged_true in Hw.
  destruct (DeletionInProgress m); [apply adds_same; [done|]; intros w k; rewrite Hw; by intros [? _]|].
  destruct (hasObjectChanged old m); simpl;
    [|apply adds_same; [done|]; intros w k; rewrite Hw; by intros (_ & ? & _)].
  pose proof (hasStateChanged_state old m) as Hc. destruct (hasStateChanged old m); simpl.
  - apply adds_owner; [done|]. intros w k. rewrite Hw, decide_False by by apply Hc. tauto.
  - rewrite decide_True in Hw by (apply dec_stable; intros ?%Hc; done).
    setoid_rewrite <-resolve_owner in Hw. destruct (resolve rr m) as [o|].
    2:{ apply adds_same; [done|]. intros w k. rewrite Hw. by intros (_ & _ & _ & ? & ? & _). }
    unfold EnqueueForStatus. destruct (isManagedByController rr o) eqn:Em; simpl.
    + apply adds_status; [done|]. intros w k. rewrite Hw. naive_solver.
    + apply adds_none; [done|]. intros w k. rewrite Hw. intros (_ & _ & _ & ? & [= <-] & ? & _). congruence.
Qed.
Lemma onDaemonSetUpdate_adds old m s :
  running s →
  adds (wants rr (EvUpdate (ADaemonSet old) (ADaemonSet m))) s (onDaemonSetUpdate rr old m s).
Proof.
  intros Hs. pose proof (wants_daemonset_iff old m) as Hw. unfold onDaemonSetUpdate.
  setoid_rewrite <-DeletionInProgress_false in Hw. setoid_rewrite <-hasObjectChanged_true in Hw.
  setoid_rewrite <-hasStateChanged_state in Hw.
  destruct (DeletionInProgress m); [apply adds_same; [done|]; intros w k; rewrite Hw; by intros [? _]|].
  destruct (hasObjectChanged old m); simpl;
    [|apply adds_same; [done|]; intros w k; rewrite Hw; by intros (_ & ? & _)].
  destruct (hasStateChanged old m); simpl.
  - apply adds_owner_uncounted; [done|]. intros w k. rewrite Hw. tauto.
  - destruct (resolve rr m); (apply adds_same; [done|]); intros w k; rewrite Hw; by intros (_ & _ & ? & _).
Qed.

Lemma handle_adds ev s :
  proper ev → running s → ∃ s', handle rr ev s = Ok s' ∧ adds (answered rr ev) s s'.
Proof.
  intros Hp Hs. destruct (tombstone ev) eqn:Ht.
  { exists s. split; [by apply tombstone_ignored|]. apply adds_same; [done|]. intros w k [Hf _]. congruence. }
  assert (∃ s', handle rr ev s = Ok s' ∧ adds (wants rr ev) s s') as (s' & Hs' & Ha).
  { destruct ev as [o|old cur|o]; simpl in *.
    - eexists. split; [done|]. by apply OnAdd_adds.
    - destruct old as [old|old|[old| |]], cur as [cur|cur|[cur| |]]; try done; simpl.
      + eexists. split; [done|]. by apply onStatefulSetUpdate_adds.
      + eexists. split; [done|]. by apply onDaemonSetUpdate_adds.
      + by apply OnUpdate_resource_adds.
    - eexists. split; [done|]. by apply OnDelete_adds. }
  exists s'. split; [done|]. eapply adds_iff; [exact Ha|]. intros w k. by rewrite answered_iff.
Qed.
End handlers.

(** ** The reconciler over time *)

(** What happens: a handler runs, or one of the two goroutines starts or finishes its call. *)
Inductive label :=
  | Handled (ev : event)
  | SyncStart (k : string) | SyncEnd (k : string) (err : option error)
  | StatusStart (k : string) | StatusEnd (k : string) (err : option error).

(** The queues, and the key each goroutine is working on. *)
Record system (Q : Type) := { queues : rr_state Q; syncing : option string; updating : option string }.
Arguments queues {Q} _.
Arguments syncing {Q} _.
Arguments updating {Q} _.
Arguments Build_system {Q} _ _ _.

Section execution.
Context {Q : Type} `{WorkQueue Q, KeyFunc} (rr : ResourceReconciler).

Inductive sys_step : system Q → label → system Q → Prop :=
  | step_handle s s' a b ev :
      proper ev → handle rr ev s = Ok s' →
      sys_step (Build_system s a b) (Handled ev) (Build_system s' a b)
  | step_sync_start s s' b now k :
      reconcile_begin now s = Some (k, s') →
      sys_step (Build_system s None b) (SyncStart k) (Build_system s' (Some k) b)
  | step_sync_end s b k err :
      sys_step (Build_system s (Some k) b) (SyncEnd k err) (Build_system (reconcile_end k err s) None b)
  | step_status_start s s' a now k :
      status_begin now s = Some (k, s') →
      sys_step (Build_system s a None) (StatusStart k) (Build_system s' a (Some k))
  | step_status_end s a k err :
      sys_step (Build_system s a (Some k)) (StatusEnd k err) (Build_system (status_end k err s) a None).

(** [executes tr st]: the system has started, [tr] has happened, and it is in state [st] now. *)
Inductive executes : list label → system Q → Prop :=
  | executes_start : executes [] (Build_system (NewResourceReconciler (resourceKind rr)) None None)
  | executes_step tr st l st' : executes tr st → sys_step st l st' → executes (tr ++ [l]) st'.

(** What asks for work on [k], and what begins it. *)
Definition requests (w : work) (l : label) (k : string) : Prop :=
  match l with
  | Handled ev => answered rr ev w k
  | SyncEnd k' err => k' = k ∧ match w with Reconcile => err ≠ None | UpdateStatus => True end
  | StatusEnd k' err => k' = k ∧ w = UpdateStatus ∧ err ≠ None
  | _ => False
  end.
Definition start (w : work) (k : string) : label :=
  match w with Reconcile => SyncStart k | UpdateStatus => StatusStart k end.
(** Work on [k] has been asked for and has not been started since. *)
Definition owed (w : work) (tr : list label) (k : string) : Prop :=
  ∃ pre l post, tr = pre ++ l :: post ∧ requests w l k ∧ start w k ∉ post.

Lemma owed_nil w k : ¬ owed w [] k.
Proof. intros ([] & ? & ? & ? & _); done. Qed.
Lemma owed_snoc w tr l k : owed w (tr ++ [l]) k ↔ requests w l k ∨ (owed w tr k ∧ l ≠ start w k).
Proof.
  split.
  - intros (pre & l' & post & Heq & Hr & Hs). destruct post as [|x post] using rev_ind.
    + apply app_inj_tail in Heq as [-> ->]. by left.
    + clear IHpost. rewrite app_comm_cons, app_assoc in Heq. apply app_inj_tail in Heq as [-> ->].
      right. split; [|set_solver]. exists pre, l', post. set_solver.
  - intros [Hr|[(pre & l' & post & -> & Hr & Hs) Hl]].
    + exists tr, l, []. set_solver.
    + exists pre, l', (post ++ [l]). rewrite <-app_assoc. split; [done|]. set_solver.
Qed.

Definition in_sync (tr : list label) (st : system Q) : Prop :=
  running (queues st) ∧
  (∀ k, k ∈ waiting (reconcileQ (queues st)) ↔ owed Reconcile tr k) ∧
  (∀ k, k ∈ waiting (statusQ (queues st)) ↔ owed UpdateStatus tr k) ∧
  processing (reconcileQ (queues st)) = match syncing st with Some k => {[k]} | None => ∅ end ∧
  processing (statusQ (queues st)) = match updating st with Some k => {[k]} | None => ∅ end.

Lemma reconcile_end_adds k err (s : rr_state Q) :
  running s →
  running (reconcile_end k err s) ∧
  (∀ k', k' ∈ waiting (reconcileQ (reconcile_end k err s)) ↔
     k' ∈ waiting (reconcileQ s) ∨ (k = k' ∧ err ≠ None)) ∧
  (∀ k', k' ∈ waiting (statusQ (reconcile_end k err s)) ↔ k' ∈ waiting (statusQ s) ∨ k = k') ∧
  processing (reconcileQ (reconcile_end k err s)) = processing (reconcileQ s) ∖ {[k]} ∧
  processing (statusQ (reconcile_end k err s)) = processing (statusQ s).
Proof.
  intros [Hr Hs]. unfold reconcile_end, running. destruct (Add_law k (statusQ s) Hs) as (HwS & HpS & HdS).
  destruct err as [e|]; simpl.
  - destruct (AddRateLimited_law k (reconcileQ s) Hr) as (Hw & Hp & Hd).
    destruct (Done_law k (q_AddRateLimited k (reconcileQ s))) as (-> & -> & ->).
    rewrite Hw, Hp, Hd, HwS, HpS, HdS. split_and!; try done; intros k'; rewrite elem_of_union, elem_of_singleton;
      intuition congruence.
  - destruct (Forget_law k (reconcileQ s)) as (Hw & Hp & Hd).
    destruct (Done_law k (q_Forget k (reconcileQ s))) as (-> & -> & ->).
    rewrite Hw, Hp, Hd, HwS, HpS, HdS. split_and!; try done; intros k';
      rewrite ?elem_of_union, ?elem_of_singleton; intuition congruence.
Qed.
Lemma status_end_adds k err (s : rr_state Q) :
  running s →
  running (status_end k err s) ∧ reconcileQ (status_end k err s) = reconcileQ s ∧
  (∀ k', k' ∈ waiting (statusQ (status_end k err s)) ↔ k' ∈ waiting (statusQ s) ∨ (k = k' ∧ err ≠ None)) ∧
  processing (statusQ (status_end k err s)) = processing (statusQ s) ∖ {[k]}.
Proof.
  intros [Hr Hs]. unfold status_end, running. destruct err as [e|]; simpl.
  - destruct (AddRateLimited_law k (statusQ s) Hs) as (Hw & Hp & Hd).
    destruct (Done_law k (q_AddRateLimited k (statusQ s))) as (-> & -> & ->).
    rewrite Hw, Hp, Hd. split_and!; try done; intros k'; rewrite elem_of_union, elem_of_singleton;
      intuition congruence.
  - destruct (Forget_law k (statusQ s)) as (Hw & Hp & Hd).
    destruct (Done_law k (q_Forget k (statusQ s))) as (-> & -> & ->).
    rewrite Hw, Hp, Hd. split_and!; try done; intros k'; intuition congruence.
Qed.

Lemma sys_step_in_sync tr st l st' : in_sync tr st → sys_step st l st' → in_sync (tr ++ [l]) st'.
Proof.
  intros (Hrun & HR & HS & HpR & HpS) Hstep. unfold in_sync. setoid_rewrite owed_snoc.
  destruct Hstep as [s s' a b ev Hp Hh|s s' b now k Hb|s b k err|s s' a now k Hb|s a k err];
    cbn [queues syncing updating requests start] in *.
  - destruct (handle_adds rr ev s Hp Hrun) as (s1 & Hs1 & Hrun' & HpR' & HpS' & HR' & HS').
    rewrite Hh in Hs1. injection Hs1 as <-.
    split_and!; [done| | |by rewrite HpR'|by rewrite HpS'].
    + intros k. rewrite HR', HR. intuition congruence.
    + intros k. rewrite HS', HS. intuition congruence.
  - unfold reconcile_begin in Hb. destruct (q_Get now (reconcileQ s)) as [[k' q]|] eqn:E; simplify_eq/=.
    apply Get_law in E as (_ & _ & Hw & Hp & Hd). destruct Hrun as [Hr ?].
    split_and!; [unfold running; simpl; by rewrite Hd| | |by rewrite Hp, HpR, (right_id_L ∅ (∪))|done].
    + intros k'. rewrite Hw, elem_of_difference, elem_of_singleton, HR. intuition congruence.
    + intros k'. rewrite HS. intuition congruence.
  - destruct (reconcile_end_adds k err s Hrun) as (Hrun' & HR' & HS' & HpR' & HpS').
    split_and!; [done| | |rewrite HpR', HpR; set_solver|by rewrite HpS'].
    + intros k'. rewrite HR', HR. intuition congruence.
    + intros k'. rewrite HS', HS. intuition congruence.
  - unfold status_begin in Hb. destruct (q_Get now (statusQ s)) as [[k' q]|] eqn:E; simplify_eq/=.
    apply Get_law in E as (_ & _ & Hw & Hp & Hd). destruct Hrun as [? Hs].
    split_and!; [unfold running; simpl; by rewrite Hd| | |done|by rewrite Hp, HpS, (right_id_L ∅ (∪))].
    + intros k'. rewrite HR. intuition congruence.
    + intros k'. rewrite Hw, elem_of_difference, elem_of_singleton, HS. intuition congruence.
  - destruct (status_end_adds k err s Hrun) as (Hrun' & HR' & HS' & HpS').
    split_and!; [done| | |by rewrite HR'|rewrite HpS', HpS; set_solver].
    + intros k'. rewrite HR', HR. intuition congruence.
    + intros k'. rewrite HS', HS. intuition congruence.
Qed.

(** C18: No request for work is lost and none is made up: in every execution, a key waits in the
    reconciliation queue exactly if an event (but a tombstone, which the handlers ignore) wanted it
    reconciled, or its reconciliation failed, and no reconciliation of it has started since; and in the status queue exactly if its status
    was to be updated, a reconciliation of it has ended, or the update failed, and no update of it
    has started since. Each queue processes exactly the key its goroutine works on. *)
Theorem no_request_lost (tr : list label) (st : system Q) (Hex : executes tr st) :
  (∀ k, k ∈ waiting (reconcileQ (queues st)) ↔ owed Reconcile tr k) ∧
  (∀ k, k ∈ waiting (statusQ (queues st)) ↔ owed UpdateStatus tr k) ∧
  processing (reconcileQ (queues st)) = match syncing st with Some k => {[k]} | None => ∅ end ∧
  processing (statusQ (queues st)) = match updating st with Some k => {[k]} | None => ∅ end.
Proof.
  assert (in_sync tr st) as (_ & ? & ? & ? & ?); [|done].
  induction Hex as [|tr st l st' _ IH Hs]; [|by eapply sys_step_in_sync].
  destruct (new_law (Q := Q)) as (Hw & Hp & Hd). unfold in_sync, running. simpl. rewrite Hw, Hp, Hd.
  split_and!; try done; intros k; (split; [by intros ?%elem_of_empty|by intros ?%owed_nil]).
Qed.
End execution.

(** C28: Handling an event an informer may deliver never panics, and adds to each queue exactly the
    key the event asks for: an added or deleted object of the controller is to be reconciled, an
    updated one if its generation, labels or annotations have changed and it is not going away
    without a finalizer; a statefulset or daemonset stands for its controlling owner, and a
    statefulset that changed in its status only asks for a status update. The objects of the
    controller are those with its identifier in their annotation, and without identifier those
    whose annotation is missing or empty. The exception are tombstones: an object whose deletion the
    informer did not see is to be reconciled too, and the handler does nothing. *)
Theorem handle_requests {Q : Type} `{WorkQueue Q, KeyFunc} (rr : ResourceReconciler) (ev : event)
    (s : rr_state Q) (Hp : proper ev) (Hs : running s) :
  ∃ s', handle rr ev s = Ok s' ∧
    if tombstone ev then s' = s
    else (∀ k, k ∈ waiting (reconcileQ s') ↔ k ∈ waiting (reconcileQ s) ∨ wants rr ev Reconcile k) ∧
         (∀ k, k ∈ waiting (statusQ s') ↔ k ∈ waiting (statusQ s) ∨ wants rr ev UpdateStatus k).
Proof.
  destruct (tombstone ev) eqn:Ht; [exists s; split; [by apply tombstone_ignored|done]|].
  destruct (handle_adds rr ev s Hp Hs) as (s' & ? & _ & _ & _ & Hr & Hw). exists s'. split; [done|].
  split; intros k; [rewrite Hr|rewrite Hw]; by rewrite answered_iff.
Qed.

(** ** Witnesses: a Prometheus object is added, its reconciliation starts and fails *)

Module Added.
Definition prometheus : ObjectMeta := SetNamespace "default" (SetName "k8s" zero_meta).
Definition rr : ResourceReconciler :=
  {| resourceKind := "Prometheus"; controllerID := ""; getter _ := inr (Some prometheus) |}.
Definition added : event := EvAdd (Other (Object prometheus)).
Definition init : rr_state Fifo.queue := NewResourceReconciler "Prometheus".
Definition after_add : rr_state Fifo.queue := OnAdd rr (Other (Object prometheus)) init.
Definition in_progress : rr_state Fifo.queue :=
  on_reconcileQ (fun _ => {| Fifo.items := []; Fifo.busy := {["default/k8s"]}; Fifo.down := false |}) after_add.
Definition failed : option error := Some (Errorf "no such secret" []).
End Added.

Lemma handle_requests_witness :
  ∃ s', handle Added.rr Added.added Added.init = Ok s' ∧ "default/k8s" ∈ waiting (reconcileQ s').
Proof.
  assert (running Added.init) as Hrun by (split; reflexivity).
  destruct (handle_requests Added.rr Added.added Added.init I Hrun) as (s' & Hs' & Hw & _).
  exists s'. split; [exact Hs'|]. apply Hw. right. apply (wants_added Added.rr Added.prometheus). right. split; [reflexivity|]. left. reflexivity.
Defined.

Lemma no_request_lost_witness :
  ∃ st, executes Added.rr
      [Handled Added.added; SyncStart "default/k8s"; SyncEnd "default/k8s" Added.failed] st ∧
    "default/k8s" ∈ waiting (reconcileQ (queues st)) ∧ "default/k8s" ∈ waiting (statusQ (queues st)).
Proof.
  assert (executes Added.rr [Handled Added.added; SyncStart "default/k8s"; SyncEnd "default/k8s" Added.failed]
    (Build_system (reconcile_end "default/k8s" Added.failed Added.in_progress) None None)) as Hex.
  { apply (executes_step _ [Handled Added.added; SyncStart "default/k8s"]
      (Build_system Added.in_progress (Some "default/k8s") None)); [|apply step_sync_end].
    apply (executes_step _ [Handled Added.added] (Build_system Added.after_add None None)).
    - apply (executes_step _ [] (Build_system Added.init None None)); [apply executes_start|].
      apply step_handle; [exact I|reflexivity].
    - apply (step_sync_start _ _ _ _ 0). vm_compute. reflexivity. }
  destruct (no_request_lost Added.rr _ _ Hex) as (HR & HS & _).
  eexists. split; [exact Hex|]. split.
  - apply HR. exists [Handled Added.added; SyncStart "default/k8s"], (SyncEnd "default/k8s" Added.failed), [].
    split; [reflexivity|]. split; [|apply not_elem_of_nil]. split; [reflexivity|discriminate].
  - apply HS. exists [Handled Added.added; SyncStart "default/k8s"], (SyncEnd "default/k8s" Added.failed), [].
    split; [reflexivity|]. split; [|apply not_elem_of_nil]. split; [reflexivity|exact I].
Defined.
