(* ===== verification/StatefulSets.v ===== *)
(** * The statefulsets of a Prometheus object

    The second half of [sync] of pkg/prometheus/server/operator.go: one statefulset per shard is
    created, updated or left alone, and those of shards that are no longer wanted are deleted.
    With it, the metadata [makeStatefulSet] gives a statefulset (pkg/prometheus/server/statefulset.go),
    [UpdateStatefulSet] of pkg/k8sutil/k8sutil.go and [SanitizeSTS] of pkg/operator/operator.go.

    Of a statefulset's spec the model has the fields this code touches; the rest is a type [T]. The
    hash of github.com/mitchellh/hashstructure and the pod template are section variables. The
    informer's answers are those of one moment. *)

From S2P Require Import Prelude GoStrings SortUtil Meta ApiClient Status.

(** ** Statefulsets *)

Record VolumeClaimTemplate := { vct_APIVersion : string; vct_Kind : string; vct_Name : string }.
#[global] Instance VolumeClaimTemplate_eq_dec : EqDecision VolumeClaimTemplate.
Proof. solve_decision. Defined.

Record StatefulSetSpec (T : Type) := {
  RevisionHistoryLimit : option Z;
  Template : ObjectMeta;
  VolumeClaimTemplates : list VolumeClaimTemplate;
  spec_rest : T;
}.
Arguments RevisionHistoryLimit {T} _.
Arguments Template {T} _.
Arguments VolumeClaimTemplates {T} _.
Arguments spec_rest {T} _.
Arguments Build_StatefulSetSpec {T} _ _ _ _.
#[global] Instance StatefulSetSpec_eq_dec {T} `{EqDecision T} : EqDecision (StatefulSetSpec T).
Proof. solve_decision. Defined.

Record Sset (T : Type) := { sset_meta : ObjectMeta; sset_Spec : StatefulSetSpec T }.
Arguments sset_meta {T} _.
Arguments sset_Spec {T} _.
Arguments Build_Sset {T} _ _.
#[global] Instance Sset_eq_dec {T} `{EqDecision T} : EqDecision (Sset T).
Proof. solve_decision. Defined.
#[global] Program Instance Sset_object {T} : ApiObject (Sset T) := {|
  meta := sset_meta;
  set_meta m o := Build_Sset m (sset_Spec o);
|}.
Solve All Obligations with by intros; repeat match goal with o : Sset _ |- _ => destruct o end.

Definition set_Template {T} (m : ObjectMeta) (s : StatefulSetSpec T) : StatefulSetSpec T :=
  Build_StatefulSetSpec (RevisionHistoryLimit s) m (VolumeClaimTemplates s) (spec_rest s).
Definition set_RevisionHistoryLimit {T} (l : option Z) (s : StatefulSetSpec T) : StatefulSetSpec T :=
  Build_StatefulSetSpec l (Template s) (VolumeClaimTemplates s) (spec_rest s).

Definition SanitizeSTS {T} (sts : Sset T) : Sset T :=
  let spec := sset_Spec sts in
  Build_Sset (sset_meta sts)
    (Build_StatefulSetSpec (RevisionHistoryLimit spec) (Template spec)
       ((fun v => {| vct_APIVersion := ""; vct_Kind := ""; vct_Name := vct_Name v |}) <$>
          VolumeClaimTemplates spec)
       (spec_rest spec)).

(** [sErr.ErrStatus.Code == 422 && sErr.ErrStatus.Reason == metav1.StatusReasonInvalid]; the type
    assertion does not look into wrapped errors. *)
Definition IsInvalid (e : error) : bool :=
  match e with StatusError (OtherStatus c) _ => bool_decide (c = 422%Z) | _ => false end.

(** The client for statefulsets can also delete in the foreground: the object may stay, marked as
    being deleted, until its dependents are gone. *)
Class ForegroundDeletion (Obj St : Type) `{ApiObject Obj, ApiClient Obj St} := {
  DeleteForeground : string → M St ();
  DeleteForeground_ok n s s' : DeleteForeground n s = (s', Ok ()) →
    objs s' = delete n (objs s) ∨
    ∃ o, om_DeletionTimestamp (meta o) ≠ None ∧ objs s' = <[n := o]> (objs s);
  DeleteForeground_err n s s' e : DeleteForeground n s = (s', Err e) → objs s' = objs s;
  DeleteForeground_no_panic n s m : (DeleteForeground n s).2 ≠ Panic m;
  (** an update that is refused as invalid is not applied *)
  Update_invalid (o : Obj) s s' e :
    Update o s = (s', Err e) → IsInvalid e = true → objs s' = objs s;
}.

(** ** UpdateStatefulSet *)

Section update.
Context {T St : Type} `{ApiClient (Sset T) St, !Retry}.

(** The metadata of the existing object is merged into the new one, and the annotations kubectl
    has set on the pod template are kept if the new template has any annotations. *)
Definition updated_from (existing sset : Sset T) : Sset T :=
  let sset := set_meta (mergeMetadata (meta sset) (meta existing)) sset in
  let '(_, template) :=
    mergeKubectlAnnotations (Template (sset_Spec existing)) (Template (sset_Spec sset)) in
  Build_Sset (sset_meta sset) (set_Template template (sset_Spec sset)).
(** One run of the closure handed to [RetryOnConflict], which changes [sset]. *)
Definition UpdateStatefulSet_attempt : M (St * Sset T) () :=
  st ← mget;
  existing ← on_api (Get (name st.2));
  st1 ← mget;
  let sset := updated_from existing st.2 in
  _ ← mput (st1.1, sset);
  on_api (Update sset) ≫= fun _ => mret ().
Definition UpdateStatefulSet (sset : Sset T) : M St () := fun s =>
  let '(st, r) := RetryOnConflict UpdateStatefulSet_attempt (s, sset) in (st.1, r).
End update.

(** ** Making and synchronizing *)

Definition ShardLabelName := "operator.prometheus.io/shard".
Definition PrometheusNameLabelName := "operator.prometheus.io/name".
Definition PrometheusModeLabeLName := "operator.prometheus.io/mode".
Definition prometheusMode := "server".

Inductive WhenScaledRetentionType := RetainWhenScaled | DeleteWhenScaled.
#[global] Instance WhenScaledRetentionType_eq_dec : EqDecision WhenScaledRetentionType.
Proof. solve_decision. Defined.

Section sync.
Context {T St : Type} `{ApiClient (Sset T) St, !ForegroundDeletion (Sset T) St, !Retry}.
(** The Prometheus object, its key, its owner reference, [spec.shardRetentionPolicy.whenScaled]
    (the outer option is the pointer to the policy) and whether the feature gate is on. *)
Context (p : PrometheusInterface) (key : string) (owner : Owner).
Context (shardRetentionPolicy : option (option WhenScaledRetentionType)) (retentionPoliciesEnabled : bool).
(** The annotations and labels of the operator's configuration. *)
Context (config_Annotations config_Labels : gomap).
(** The hash of a statefulset spec with everything else that goes into it, the zero spec, and the
    spec made for a shard. *)
Context (hash : StatefulSetSpec T → res string) (zero_spec : StatefulSetSpec T).
Context (makeStatefulSetSpec : Z → res (StatefulSetSpec T)).
(** The informer: a statefulset by its key; the statefulsets with the object's labels, with an
    error if listing them failed. *)
Context (ssetInfs_Get : string → res (Sset T)) (ssetInfs_List : list (Sset T) * option error).
(** The addresses of the pointers [WithManagingOwner] allocates. *)
Context (alloc : nat * nat).

Definition createSSetInputHash (ssSpec : StatefulSetSpec T) : res string :=
  wrap "failed to calculate combined hash: %w" [] (hash (set_RevisionHistoryLimit None ssSpec)).

Definition statefulset_meta (name inputHash : string) (shard : Z) : ObjectMeta :=
  UpdateObject zero_meta
    [WithName name; WithInputHashAnnotation inputHash;
     WithAnnotations (om_Annotations (p_meta p)); WithAnnotations config_Annotations;
     WithLabels (om_Labels (p_meta p));
     WithLabels (Some (<[ShardLabelName := Itoa shard]>
       (<[PrometheusNameLabelName := om_Name (p_meta p)]> {[PrometheusModeLabeLName := prometheusMode]})));
     WithLabels config_Labels; WithManagingOwner alloc.1 alloc.2 owner; WithoutKubectlAnnotations].
Definition makeStatefulSet (name inputHash : string) (shard : Z) : res (Sset T) :=
  spec ← wrap "make StatefulSet spec: %w" [] (makeStatefulSetSpec shard);
  Ok (Build_Sset (statefulset_meta name inputHash shard) spec).

(** A nil policy is dereferenced. *)
Definition shouldRetain : res bool :=
  if negb retentionPoliciesEnabled then Ok false
  else match shardRetentionPolicy with
       | None => Panic "invalid memory address or nil pointer dereference"
       | Some whenScaled => Ok (bool_decide (default DeleteWhenScaled whenScaled = RetainWhenScaled))
       end.

(** The body of the loop over the expected statefulsets. *)
Definition sync_shard (shard : Z) (ssetName : string) : M St () :=
  k ← mlift (KeyToStatefulSetKey p key shard);
  match ssetInfs_Get k with
  | Panic m => mpanic m
  | Err err =>
      if negb (IsNotFound err) then mfail (Wrapf "retrieving statefulset failed: %w" [] err)
      else
        newSSetInputHash ← mlift (createSSetInputHash zero_spec);
        sset ← mlift (wrap "making statefulset failed: %w" [] (makeStatefulSet ssetName newSSetInputHash shard));
        mwrap "creating statefulset failed: %w" [] (Create (SanitizeSTS sset) ≫= fun _ => mret ())
  | Ok existingStatefulSet =>
      if DeletionInProgress (sset_meta existingStatefulSet) then mret ()
      else
        newSSetInputHash ← mlift (createSSetInputHash (sset_Spec existingStatefulSet));
        sset ← mlift (wrap "making statefulset failed: %w" [] (makeStatefulSet ssetName newSSetInputHash shard));
        let sset := SanitizeSTS sset in
        if bool_decide (newSSetInputHash =
             at_key (om_Annotations (sset_meta existingStatefulSet)) InputHashAnnotationName)
        then mret ()
        else
          r ← mtry (UpdateStatefulSet sset);
          match r with
          | inl _ => mret ()
          | inr err =>
              if IsInvalid err
              then mwrap "failed to delete StatefulSet to avoid forbidden action: %w" []
                     (DeleteForeground (name sset))
              else mfail (Wrapf "updating StatefulSet failed: %w" [] err)
          end
  end.

Fixpoint sync_shards (shard : nat) (expected : list string) : M St () :=
  match expected with
  | [] => mret ()
  | ssetName :: rest =>
      _ ← sync_shard (Z.of_nat shard) ssetName; sync_shards (S shard) rest
  end.

(** The callback of [ListAllByNamespace]: a failed deletion is only logged. *)
Definition cleanup_one (expected : list string) (s : Sset T) : M St () :=
  if decide (name s ∈ expected) then mret ()
  else if DeletionInProgress (sset_meta s) then mret ()
  else
    retain ← mlift shouldRetain;
    if (retain : bool) then mret ()
    else mtry (DeleteForeground (name s)) ≫= fun _ => mret ().

Definition sync_statefulsets : M St () :=
  let expected := ExpectedStatefulSetShardNames p in
  _ ← sync_shards 0 expected;
  _ ← mfor_each (cleanup_one expected) ssetInfs_List.1;
  match ssetInfs_List.2 with
  | None => mret ()
  | Some err => mfail (Wrapf "listing StatefulSet resources failed: %w" [] err)
  end.
End sync.

(** ** What an update leaves behind *)

Section update_spec.
Context {T St : Type} `{ApiClient (Sset T) St, !Retry, !ApiLaws (Sset T) St, !ForegroundDeletion (Sset T) St}.

Lemma name_updated_from (ex d : Sset T) : name (updated_from ex d) = name d.
Proof. done. Qed.
Lemma merge_in_place_idemp from to p :
  merge_in_place from (merge_in_place from to p) p = merge_in_place from to p.
Proof.
  destruct to as [to|]; [|done]. unfold merge_in_place, mergeMapsByPrefix. simpl.
  by rewrite (assoc_L (∪)), map_union_idemp.
Qed.
Lemma updated_from_idemp (ex d : Sset T) : updated_from ex (updated_from ex d) = updated_from ex d.
Proof.
  unfold updated_from, set_meta, mergeKubectlAnnotations. simpl. f_equal.
  - apply mergeMetadata_idemp.
  - unfold set_Template, SetAnnotations. simpl. by rewrite merge_in_place_idemp.
Qed.

(** The server, holding the objects [m], answers the update of a statefulset with the error [e]:
    when it is asked for the statefulset, or when it is handed the new one. *)
Definition server_answers (sset : Sset T) (m : gmap string (Sset T)) (e : error) : Prop :=
  ∃ s0 s1 : St, objs s0 = m ∧
    (Get (name sset) s0 = (s1, Err e) ∨
     ∃ ex s2, Get (name sset) s0 = (s1, Ok ex) ∧ Update (updated_from ex sset) s1 = (s2, Err e)).

Lemma UpdateStatefulSet_attempt_spec (sset : Sset T) (st st' : St * Sset T) r :
  (st.2 = sset ∨ ∃ ex, objs st.1 !! name sset = Some ex ∧ st.2 = updated_from ex sset) →
  UpdateStatefulSet_attempt st = (st', r) →
  match r with
  | Ok _ => ∃ ex, objs st.1 !! name sset = Some ex ∧ stored (updated_from ex sset) (objs st.1) (objs st'.1)
  | Err e =>
      server_answers sset (objs st.1) e ∧
      (IsConflict e = true ∨ IsInvalid e = true →
      objs st'.1 = objs st.1 ∧
      (st'.2 = sset ∨ ∃ ex, objs st.1 !! name sset = Some ex ∧ st'.2 = updated_from ex sset))
  | Panic _ => False
  end.
Proof.
  destruct st as [s d]. simpl. intros Hd.
  assert (name d = name sset) as Hn by (destruct Hd as [->|(ex & _ & ->)]; done).
  unfold UpdateStatefulSet_attempt, mget, on_api, mput, mbind, M_bind, mret, M_ret. simpl. rewrite Hn.
  destruct (Get (name sset) s) as [s1 [ex|err|m]] eqn:EG.
  - pose proof (Get_ok _ _ _ _ EG) as Hex. pose proof (Get_objs _ _ _ _ EG) as Hs1. simpl.
    assert (updated_from ex d = updated_from ex sset) as ->.
    { destruct Hd as [->|(ex' & Hex' & ->)]; [done|]. rewrite Hex in Hex'. injection Hex' as <-.
      apply updated_from_idemp. }
    destruct (Update (updated_from ex sset) s1) as [s2 [o2|e2|m2]] eqn:EU; simpl; intros [= <- <-]; simpl.
    + apply Update_ok in EU as [_ EU]. rewrite Hs1 in EU. eauto.
    + split; [by exists s, s1; split; [|right; exists ex, s2]|].
      intros He. assert (objs s2 = objs s1) as ->.
      { destruct He as [He|He]; [by eapply Update_conflict|by eapply Update_invalid]. }
      split; [done|]. right. eauto.
    + pose proof (api_no_panic_Update (updated_from ex sset) s1 m2) as Hp. by rewrite EU in Hp.
  - simpl. intros [= <- <-]. simpl. split; [by exists s, s1; split; [|left]|].
    intros _. by rewrite (Get_objs _ _ _ _ EG).
  - pose proof (api_no_panic_Get (name sset) s m) as Hp. by rewrite EG in Hp.
Qed.

Lemma UpdateStatefulSet_spec (sset : Sset T) s s' r :
  UpdateStatefulSet sset s = (s', r) →
  match r with
  | Ok _ => ∃ ex, objs s !! name sset = Some ex ∧ stored (updated_from ex sset) (objs s) (objs s')
  | Err e => server_answers sset (objs s) e ∧ (IsInvalid e = true → objs s' = objs s)
  | Panic _ => False
  end.
Proof.
  unfold UpdateStatefulSet. destruct (RetryOnConflict _ _) as [st r'] eqn:E. intros [= <- <-].
  apply RetryOnConflict_runs in E.
  assert ((s, sset).2 = sset ∨ ∃ ex, objs (s, sset).1 !! name sset = Some ex ∧
    (s, sset).2 = updated_from ex sset) as Hd by by left.
  change s with (s, sset).1 at 1 2 3 4. generalize dependent (s, sset). intros st0 E Hd. clear s.
  induction E as [st0 st r E|st0 st1 e st r E He _ IH].
  - pose proof (UpdateStatefulSet_attempt_spec _ _ _ _ Hd E) as Hs. destruct r; naive_solver.
  - destruct (UpdateStatefulSet_attempt_spec _ _ _ _ Hd E) as [_ Hc]. destruct (Hc (or_introl He)) as [Ho Hd'].
    rewrite <-Ho in Hd' |- *. by apply IH.
Qed.
End update_spec.

(** ** What synchronizing leaves behind *)

Lemma prometheusNameByShard_inj p i j :
  prometheusNameByShard p i = prometheusNameByShard p j → i = j.
Proof.
  assert (∀ k t, t ≠ "" → PrefixedName p ≠ PrefixedName p +:+ t +:+ k) as Hne.
  { intros k t Ht E%(f_equal String.length). rewrite !length_app_str in E.
    destruct t; simpl in E; [done|lia]. }
  unfold prometheusNameByShard. intros E. repeat case_decide; subst; try done.
  - by apply Hne in E.
  - symmetry in E. by apply Hne in E.
  - by apply app_str_inj_l, app_str_inj_l, (inj Itoa) in E.
Qed.
Lemma NoDup_ExpectedStatefulSetShardNames p : NoDup (ExpectedStatefulSetShardNames p).
Proof.
  unfold ExpectedStatefulSetShardNames. apply NoDup_fmap_2; [|apply NoDup_seq].
  intros i j E. by apply prometheusNameByShard_inj, Nat2Z.inj in E.
Qed.

Section sync_spec.
Context {T St : Type} `{ApiClient (Sset T) St, !Retry, !ApiLaws (Sset T) St, !ForegroundDeletion (Sset T) St}.
Context (p : PrometheusInterface) (key : string) (owner : Owner).
Context (shardRetentionPolicy : option (option WhenScaledRetentionType)) (retentionPoliciesEnabled : bool).
Context (config_Annotations config_Labels : gomap).
Context (hash : StatefulSetSpec T → res string) (zero_spec : StatefulSetSpec T).
Context (makeStatefulSetSpec : Z → res (StatefulSetSpec T)).
Context (ssetInfs_Get : string → res (Sset T)) (ssetInfs_List : list (Sset T) * option error).
Context (alloc : nat * nat).

Local Abbreviation made := (makeStatefulSet p owner config_Annotations config_Labels makeStatefulSetSpec alloc).
Local Abbreviation shard_step :=
  (sync_shard p key owner config_Annotations config_Labels hash zero_spec makeStatefulSetSpec
     ssetInfs_Get alloc).
Local Abbreviation shard_steps :=
  (sync_shards p key owner config_Annotations config_Labels hash zero_spec makeStatefulSetSpec
     ssetInfs_Get alloc).
Local Abbreviation retain := (shouldRetain shardRetentionPolicy retentionPoliciesEnabled).
Local Abbreviation cleanup := (cleanup_one shardRetentionPolicy retentionPoliciesEnabled).
Local Abbreviation run :=
  (sync_statefulsets p key owner shardRetentionPolicy retentionPoliciesEnabled config_Annotations
     config_Labels hash zero_spec makeStatefulSetSpec ssetInfs_Get ssetInfs_List alloc).

(** The statefulset is gone, or it is being deleted. *)
Definition removed (after : option (Sset T)) : Prop :=
  match after with None => True | Some o => om_DeletionTimestamp (sset_meta o) ≠ None end.

(** In state [s] the server refuses the update to [sset] as invalid. *)
Definition refused (sset : Sset T) (s : St) : Prop :=
  ∃ s' e, UpdateStatefulSet sset s = (s', Err e) ∧ IsInvalid e = true ∧ server_answers sset (objs s) e.

(** What becomes of the statefulset of a shard that is looked at in state [s]. *)
Definition shard_outcome (s : St) (shard : Z) (n : string) (before after : option (Sset T)) : Prop :=
  match before with
  | None =>
      ∃ h sset o, createSSetInputHash hash zero_spec = Ok h ∧ made n h shard = Ok sset ∧
        after = Some o ∧ content o = content (SanitizeSTS sset)
  | Some ex =>
      if DeletionInProgress (sset_meta ex) then after = before
      else ∃ h sset, createSSetInputHash hash (sset_Spec ex) = Ok h ∧ made n h shard = Ok sset ∧
        if bool_decide (h = at_key (om_Annotations (sset_meta ex)) InputHashAnnotationName)
        then after = before
        else (∃ o s', UpdateStatefulSet (SanitizeSTS sset) s = (s', Ok ()) ∧
                after = Some o ∧ content o = content (updated_from ex (SanitizeSTS sset))) ∨
             (refused (SanitizeSTS sset) s ∧ removed after)
  end.

(** The informer's answer for a shard agrees with the API server. *)
Definition informed (s : St) (shard : Z) (n : string) : Prop :=
  ∃ k, KeyToStatefulSetKey p key shard = Ok k ∧
    match ssetInfs_Get k with
    | Ok o => objs s !! n = Some o
    | Err e => IsNotFound e = true → objs s !! n = None
    | Panic _ => True
    end.

Lemma name_made n h shard sset : made n h shard = Ok sset → name (SanitizeSTS sset) = n.
Proof. unfold makeStatefulSet. by destruct (makeStatefulSetSpec shard); intros [= <-]. Qed.
Lemma DeleteForeground_removed n s s' :
  DeleteForeground n s = (s', Ok ()) → removed (objs s' !! n) ∧ ∀ m, m ≠ n → objs s' !! m = objs s !! m.
Proof.
  intros [-> | (o & Ho & ->)]%DeleteForeground_ok; (split; [|intros m Hm]).
  - by rewrite lookup_delete_eq.
  - by rewrite lookup_delete_ne.
  - by rewrite lookup_insert_eq.
  - by rewrite lookup_insert_ne.
Qed.

Lemma sync_shard_ok shard n s s' :
  informed s shard n → shard_step shard n s = (s', Ok ()) →
  shard_outcome s shard n (objs s !! n) (objs s' !! n) ∧ ∀ m, m ≠ n → objs s' !! m = objs s !! m.
Proof.
  intros (k & Hk & Hinf) (s1 & k' & [<- Hk']%mlift_ok & E)%mbind_ok.
  rewrite Hk in Hk'. injection Hk' as <-.
  destruct (ssetInfs_Get k) as [ex|err|m]; [| |done].
  - rewrite Hinf. simpl. destruct (DeletionInProgress (sset_meta ex)).
    { apply mret_ok in E as [<- _]. by rewrite Hinf. }
    apply mbind_ok in E as (? & h & [<- Hh]%mlift_ok & (? & sset & [<- Hm%wrap_ok]%mlift_ok & E)%mbind_ok).
    case_bool_decide as Hh'.
    { apply mret_ok in E as [<- _]. split; [|done]. exists h, sset. by rewrite bool_decide_true. }
    apply mbind_ok in E as (s1 & r & EU & E). unfold mtry in EU.
    destruct (UpdateStatefulSet (SanitizeSTS sset) s) as [s1' r'] eqn:EU'.
    pose proof (UpdateStatefulSet_spec _ _ _ _ EU') as Hu. pose proof (name_made _ _ _ _ Hm) as Hn.
    destruct r' as [[]|err|]; [| |done]; injection EU as -> <-.
    + apply mret_ok in E as [<- _]. destruct Hu as (ex' & Hex & o & Ho & ->).
      rewrite Hn, Hinf in Hex. injection Hex as <-. rewrite name_updated_from, Hn.
      split; [|intros m Hm'; by rewrite lookup_insert_ne].
      exists h, sset. rewrite bool_decide_false by done. rewrite lookup_insert_eq.
      split_and!; [done..|]. left. by eexists _, _.
    + destruct (IsInvalid err) eqn:Einv; [|done].
      apply mwrap_ok, DeleteForeground_removed in E as [Hr Ho]. destruct Hu as [Hsaid Hu]. rewrite Hn, (Hu eq_refl) in *.
      split; [|done]. exists h, sset. rewrite bool_decide_false by done.
      split_and!; [done..|]. right. split; [by eexists _, _|done].
  - destruct (IsNotFound err); [|done]. rewrite (Hinf eq_refl). simpl in E.
    apply mbind_ok in E as (? & h & [<- Hh]%mlift_ok & (? & sset & [<- Hm%wrap_ok]%mlift_ok & E)%mbind_ok).
    apply mwrap_ok, mbind_ok in E as (? & o & [_ (o' & Ho & Hs)]%Create_ok & [<- _]%mret_ok).
    rewrite (name_made _ _ _ _ Hm) in Hs. rewrite Hs, lookup_insert_eq.
    split; [|intros m Hm'; by rewrite lookup_insert_ne]. by exists h, sset, o'.
Qed.

Lemma sync_shards_ok names : ∀ i s s',
  NoDup names → (∀ j n, names !! j = Some n → informed s (Z.of_nat (i + j)) n) →
  shard_steps i names s = (s', Ok ()) →
  (∀ j n, names !! j = Some n → ∃ si, shard_steps i (take j names) s = (si, Ok ()) ∧
     shard_outcome si (Z.of_nat (i + j)) n (objs s !! n) (objs s' !! n)) ∧
  ∀ m, m ∉ names → objs s' !! m = objs s !! m.
Proof.
  induction names as [|n names IH]; intros i s s' Hnd Hinf E; simpl in E.
  { apply mret_ok in E as [<- _]. done. }
  apply mbind_ok in E as (s1 & [] & E1 & E). apply NoDup_cons in Hnd as [Hn Hnd].
  destruct (sync_shard_ok _ _ _ _ (eq_rect _ (fun z => informed s z n)
    (Hinf 0 n eq_refl) _ (f_equal Z.of_nat (Nat.add_0_r i))) E1) as [Hout Hother].
  destruct (IH (S i) s1 s' Hnd) as [Hrest Hrest']; [|done|].
  { intros j m Hj. destruct (Hinf (S j) m Hj) as (k & Hk & Hm). exists k.
    replace (S i + j) with (i + S j) by lia. split; [done|].
    rewrite (Hother m); [done|]. intros ->. by apply list_elem_of_lookup_2 in Hj. }
  split.
  - intros [|j] m Hj; simpl in Hj.
    + injection Hj as <-. exists s. rewrite Nat.add_0_r, (Hrest' n Hn). done.
    + replace (i + S j) with (S i + j) by lia. destruct (Hrest j m Hj) as (si & Hsi & Ho). exists si.
      split; [simpl; unfold mbind, M_bind; by rewrite E1|]. rewrite <-(Hother m); [done|].
      intros ->. by apply list_elem_of_lookup_2 in Hj.
  - intros m [Hne Hm]%not_elem_of_cons. by rewrite Hrest', Hother.
Qed.

(** A statefulset the cleanup may delete. *)
Definition stale (expected : list string) (x : Sset T) : Prop :=
  name x ∉ expected ∧ DeletionInProgress (sset_meta x) = false.

Lemma cleanup_one_ok expected x s s' :
  cleanup expected x s = (s', Ok ()) →
  ∀ m, objs s' !! m = objs s !! m ∨
       (m = name x ∧ stale expected x ∧ retain = Ok false ∧ removed (objs s' !! m)).
Proof.
  unfold cleanup_one. intros E m. case_decide as Hx; [apply mret_ok in E as [<- _]; by left|].
  destruct (DeletionInProgress (sset_meta x)) eqn:Ed; [apply mret_ok in E as [<- _]; by left|].
  apply mbind_ok in E as (? & b & [<- Hr]%mlift_ok & E).
  destruct b; [apply mret_ok in E as [<- _]; by left|].
  apply mbind_ok in E as (? & r & ED & [<- _]%mret_ok). unfold mtry in ED.
  destruct (DeleteForeground (name x) s) as [s1 [[]|e|]] eqn:ED'; [| |done]; injection ED as <- <-.
  - destruct (DeleteForeground_removed _ _ _ ED') as [Hrem Ho].
    destruct (decide (m = name x)) as [->|Hm]; [right|left; auto]. repeat split; done.
  - left. by rewrite (DeleteForeground_err _ _ _ _ ED').
Qed.
Lemma cleanup_ok expected l : ∀ s s',
  mfor_each (cleanup expected) l s = (s', Ok ()) →
  ∀ m, objs s' !! m = objs s !! m ∨
       (∃ x, x ∈ l ∧ name x = m ∧ stale expected x ∧ retain = Ok false) ∧ removed (objs s' !! m).
Proof.
  induction l as [|x l IH]; intros s s' E m; simpl in E.
  { apply mret_ok in E as [<- _]. by left. }
  apply mbind_ok in E as (s1 & [] & E1 & E).
  destruct (IH _ _ E m) as [->|[(y & Hy & Hrest) Hrem]].
  - destruct (cleanup_one_ok _ _ _ _ E1 m) as [Hm|(-> & Hs & Hr & Hrem)]; [by left|right].
    split; [|done]. exists x. split; [set_solver|done].
  - right. split; [|done]. exists y. split; [set_solver|done].
Qed.

Local Abbreviation expected := (ExpectedStatefulSetShardNames p).

(** C15: synchronizing the statefulsets of a Prometheus object, when the informer agrees with the
    API server and no error is returned, leaves the statefulset of each shard in its intended
    state: created with the generated content if it was missing, untouched if it is being deleted
    or its input hash is current, otherwise replaced by the generated content merged with the
    existing metadata, if the update succeeded; it is deleted only if, once the shards before it
    were done, the server refused that update as invalid. Any other
    statefulset is untouched unless it is one the informer lists for the object, it is not being
    deleted and the retention policy says to delete: then it is untouched or gone. *)
Theorem sync_statefulsets_ok s s' :
  (∀ i n, expected !! i = Some n → informed s (Z.of_nat i) n) →
  run s = (s', Ok ()) →
  (∀ i n, expected !! i = Some n → ∃ si, shard_steps 0 (take i expected) s = (si, Ok ()) ∧
     shard_outcome si (Z.of_nat i) n (objs s !! n) (objs s' !! n)) ∧
  ∀ n, n ∉ expected →
    objs s' !! n = objs s !! n ∨
    (∃ x, x ∈ ssetInfs_List.1 ∧ name x = n ∧ stale expected x ∧ retain = Ok false) ∧
    removed (objs s' !! n).
Proof.
  intros Hinf (s1 & [] & E1 & (s2 & [] & E2 & E)%mbind_ok)%mbind_ok.
  destruct ssetInfs_List.2; [done|]. apply mret_ok in E as [<- _].
  destruct (sync_shards_ok _ 0 _ _ (NoDup_ExpectedStatefulSetShardNames p) Hinf E1) as [Hout Hother].
  split.
  - intros i n Hi. destruct (cleanup_ok _ _ _ _ E2 n) as [->|[(x & _ & <- & [Hx _] & _) _]].
    + by apply Hout.
    + by apply list_elem_of_lookup_2 in Hi.
  - intros n Hn. rewrite <-(Hother n Hn). by eapply cleanup_ok.
Qed.

(** The statefulset of a shard needs no action. *)
Definition settled (shard : Z) : Prop :=
  ∃ k ex, KeyToStatefulSetKey p key shard = Ok k ∧ ssetInfs_Get k = Ok ex ∧
    (DeletionInProgress (sset_meta ex) = true ∨
     createSSetInputHash hash (sset_Spec ex) =
       Ok (at_key (om_Annotations (sset_meta ex)) InputHashAnnotationName) ∧
     is_Some (match makeStatefulSetSpec shard with Ok spec => Some spec | _ => None end)).

Lemma sync_shard_settled shard n s : settled shard → shard_step shard n s = (s, Ok ()).
Proof.
  intros (k & ex & Hk & Hex & Hs). unfold sync_shard, mlift, mbind, M_bind, makeStatefulSet.
  rewrite Hk, Hex. destruct Hs as [-> | [Hh [spec Hspec]]]; [done|].
  destruct (DeletionInProgress _); [done|]. rewrite Hh.
  destruct (makeStatefulSetSpec shard); [|done..]. simpl. by rewrite bool_decide_true.
Qed.
Lemma sync_shards_settled names : ∀ i s,
  (∀ j, j < length names → settled (Z.of_nat (i + j))) → shard_steps i names s = (s, Ok ()).
Proof.
  induction names as [|n names IH]; intros i s Hs; [done|]. simpl. unfold mbind, M_bind.
  rewrite sync_shard_settled; [|rewrite <-(Nat.add_0_r i); apply Hs; simpl; lia].
  apply IH. intros j Hj. replace (S i + j) with (i + S j) by lia. apply Hs. simpl. lia.
Qed.
Lemma cleanup_settled l s :
  (∀ x, x ∈ l → ~ stale expected x ∨ retain = Ok true) → mfor_each (cleanup expected) l s = (s, Ok ()).
Proof.
  induction l as [|x l IH]; intros Hl; [done|]. simpl. unfold mbind, M_bind.
  assert (cleanup expected x s = (s, Ok ())) as ->; [|apply IH; set_solver].
  unfold cleanup_one, mlift, mbind, M_bind. case_decide as Hx; [done|].
  destruct (DeletionInProgress _) eqn:Ed; [done|].
  destruct (Hl x) as [Hst | ->]; [set_solver| |done]. by destruct Hst.
Qed.

(** A Prometheus object whose statefulsets all carry the current input hash (or are being
    deleted), with nothing to clean up, is synchronized without any change to the API: the sync
    succeeds and the state of the API server is exactly what it was. *)
Theorem sync_statefulsets_steady s :
  (∀ i, i < length expected → settled (Z.of_nat i)) →
  (∀ x, x ∈ ssetInfs_List.1 → ~ stale expected x ∨ retain = Ok true) → ssetInfs_List.2 = None →
  run s = (s, Ok ()).
Proof.
  intros Hs Hl He. unfold sync_statefulsets, mbind, M_bind.
  by rewrite sync_shards_settled, cleanup_settled, He.
Qed.

Lemma cleanup_total l s : no_panic retain → ∃ s', mfor_each (cleanup expected) l s = (s', Ok ()).
Proof.
  intros Hr. revert s. induction l as [|x l IH]; intros s; [by eexists|].
  assert (∃ s1, cleanup expected x s = (s1, Ok ())) as [s1 E].
  { unfold cleanup_one, mlift, mtry, mbind, M_bind. case_decide; [by eexists|].
    destruct (DeletionInProgress _); [by eexists|].
    destruct retain as [[]| |] eqn:Er; [by eexists| | |by edestruct Hr].
    - pose proof (DeleteForeground_no_panic (name x) s) as Hp.
      destruct (DeleteForeground (name x) s) as [s1 [[]|e|m]]; [by eexists..|by edestruct (Hp m)].
    - unfold shouldRetain in Er. by repeat case_match. }
  simpl. unfold mbind, M_bind. rewrite E. apply IH.
Qed.

(** The panic of a scale-down with the feature gate on and no retention policy: [shouldRetain]
    dereferences the policy without looking whether there is one. *)
Lemma scale_down_panics x l s :
  retentionPoliciesEnabled = true → shardRetentionPolicy = None → stale expected x →
  (mfor_each (cleanup expected) (x :: l) s).2 = Panic "invalid memory address or nil pointer dereference".
Proof.
  intros Hen Hpol [Hx Hd]. simpl. unfold cleanup_one, mlift, mbind, M_bind.
  rewrite decide_False by done. rewrite Hd. by rewrite Hen, Hpol.
Qed.

Context `{!ApiHealthy (Sset T) St}.

Lemma UpdateStatefulSet_healthy (sset : Sset T) s :
  healthy s → is_Some (objs s !! name sset) →
  ∃ s', healthy s' ∧ UpdateStatefulSet sset s = (s', Ok ()).
Proof.
  intros Hs [ex Hex]. destruct (Get_healthy (name sset) s Hs) as (s1 & Hs1 & EG).
  pose proof (Get_objs _ _ _ _ EG) as Ho.
  destruct (Update_healthy (updated_from ex sset) s1 Hs1) as (s2 & o & Hs2 & EU).
  { rewrite name_updated_from, Ho. by eexists. }
  exists s2. split; [done|]. unfold UpdateStatefulSet.
  rewrite (RetryOnConflict_once _ _ (s2, updated_from ex sset) (Ok ())); [done| |done].
  unfold UpdateStatefulSet_attempt, mget, on_api, mput, mbind, M_bind, mret, M_ret. simpl.
  rewrite EG, Hex. simpl. by rewrite EU.
Qed.

(** The informer answers, and agrees with the server. *)
Definition answered (s : St) (shard : Z) (n : string) : Prop :=
  ∃ k, KeyToStatefulSetKey p key shard = Ok k ∧
    ssetInfs_Get k = match objs s !! n with Some o => Ok o | None => Err (StatusError NotFound n) end.

Lemma sync_shard_healthy shard n s :
  (∀ spec, is_ok (hash spec) = true) → is_ok (makeStatefulSetSpec shard) = true →
  healthy s → answered s shard n → ∃ s', healthy s' ∧ shard_step shard n s = (s', Ok ()).
Proof.
  intros Hhash Hspec Hs (k & Hk & Hget).
  unfold sync_shard, mlift, mtry, mwrap, mbind, M_bind, makeStatefulSet, createSSetInputHash.
  rewrite Hk, Hget. destruct (makeStatefulSetSpec shard) as [spec| |]; [|done..].
  destruct (objs s !! n) as [ex|] eqn:Hex.
  - destruct (DeletionInProgress _); [by eexists|].
    specialize (Hhash (set_RevisionHistoryLimit None (sset_Spec ex))).
    destruct (hash _) as [h| |]; [|done..]. simpl. case_bool_decide; [by eexists|].
    edestruct (UpdateStatefulSet_healthy (SanitizeSTS (Build_Sset (statefulset_meta p owner
      config_Annotations config_Labels alloc n h shard) spec)) s Hs) as (s1 & Hs1 & ->); [by eexists|].
    by eexists.
  - specialize (Hhash (set_RevisionHistoryLimit None zero_spec)). simpl.
    destruct (hash _) as [h| |]; [|done..]. simpl.
    edestruct (Create_healthy (SanitizeSTS (Build_Sset (statefulset_meta p owner
      config_Annotations config_Labels alloc n h shard) spec)) s Hs) as (s1 & o & Hs1 & ->); [done|].
    by eexists.
Qed.
Lemma answered_informed s shard n : answered s shard n → informed s shard n.
Proof. intros (k & Hk & Hg). exists k. rewrite Hg. by destruct (objs s !! n). Qed.
Lemma sync_shards_healthy names : ∀ i s,
  (∀ spec, is_ok (hash spec) = true) → (∀ shard, is_ok (makeStatefulSetSpec shard) = true) →
  NoDup names → healthy s → (∀ j n, names !! j = Some n → answered s (Z.of_nat (i + j)) n) →
  ∃ s', shard_steps i names s = (s', Ok ()).
Proof.
  intros i s Hh Hm. revert i s. induction names as [|n names IH]; intros i s Hnd Hs Ha; [by eexists|].
  apply NoDup_cons in Hnd as [Hn Hnd]. simpl. unfold mbind, M_bind.
  pose proof (Ha 0 n eq_refl) as Ha0. rewrite Nat.add_0_r in Ha0.
  destruct (sync_shard_healthy _ n s Hh (Hm _) Hs Ha0) as (s1 & Hs1 & E). rewrite E.
  destruct (sync_shard_ok _ _ _ _ (answered_informed _ _ _ Ha0) E) as [_ Hother].
  apply IH; [done..|]. intros j m Hj. destruct (Ha (S j) m Hj) as (k & Hk & Hg). exists k.
  replace (S i + j) with (i + S j) by lia. rewrite (Hother m); [done|].
  intros ->. by apply list_elem_of_lookup_2 in Hj.
Qed.

(** C37: synchronizing the statefulsets of a Prometheus object succeeds when the server answers, the
    informer agrees with it, the hash and the pod templates can be computed and the retention
    policy can be evaluated: deletions that fail during cleanup do not fail the sync. *)
Theorem sync_statefulsets_succeeds s :
  healthy s → (∀ i n, expected !! i = Some n → answered s (Z.of_nat i) n) →
  (∀ spec, is_ok (hash spec) = true) → (∀ shard, is_ok (makeStatefulSetSpec shard) = true) →
  no_panic retain → ssetInfs_List.2 = None →
  ∃ s', run s = (s', Ok ()).
Proof.
  intros Hs Ha Hh Hm Hr He.
  destruct (sync_shards_healthy _ 0 s Hh Hm (NoDup_ExpectedStatefulSetShardNames p) Hs Ha) as [s1 E1].
  destruct (cleanup_total ssetInfs_List.1 s1 Hr) as [s2 E2]. exists s2.
  unfold sync_statefulsets, mbind, M_bind. by rewrite E1, E2, He.
Qed.
End sync_spec.

(** ** A concrete cluster *)

#[global] Program Instance fake_foreground {T} : ForegroundDeletion (Sset T) (FakeStore.state (Sset T)) := {|
  DeleteForeground n := FakeStore.serve (FakeStore.del n);
|}.
Next Obligation. intros T n s s' E. left. exact (proj2 (Delete_ok (Obj := Sset T) (St := FakeStore.state (Sset T)) _ _ _ E)). Qed.
Next Obligation.
  intros T n s s' e E. apply FakeStore.serve_inv in E as [(e' & _ & _ & _ & Hc)|[fs E]]; [exact Hc|].
  unfold FakeStore.del in E. by case_match; simplify_eq/=.
Qed.
Next Obligation. intros T n s m. exact (api_no_panic_Delete (Obj := Sset T) (St := FakeStore.state (Sset T)) n s m). Qed.
Next Obligation.
  intros T o s s' e E He. simpl in E. unfold FakeStore.serve, FakeStore.update in E.
  by repeat case_match; simplify_eq/=.
Qed.

Module Example_.
Definition prom : PrometheusInterface := {|
  p_kind := Prometheus; p_meta := SetName "k8s" zero_meta; p_Paused := false;
  p_Replicas := Some 1%Z; p_Shards := Some 2%Z |}.
Definition own : Owner := {|
  owner_APIVersion := "monitoring.coreos.com/v1"; owner_Kind := "Prometheus"; owner_Name := "k8s"; owner_UID := "1" |}.
Definition spec (image : string) : StatefulSetSpec string := {|
  RevisionHistoryLimit := None; Template := zero_meta; VolumeClaimTemplates := []; spec_rest := image |}.
Definition hash_ (s : StatefulSetSpec string) : res string := Ok ("hash-" +:+ spec_rest s).
Definition made_spec (shard : Z) : res (StatefulSetSpec string) := Ok (spec "v2").
Definition sset_of (n h image : string) : Sset string :=
  Build_Sset (WithInputHashAnnotation h (SetName n zero_meta)) (spec image).
(** The first shard runs old inputs, the second is missing, a third one is left over. *)
Definition cluster : gmap string (Sset string) :=
  <["prometheus-k8s" := sset_of "prometheus-k8s" "old" "v1"]>
    {["prometheus-k8s-shard-2" := sset_of "prometheus-k8s-shard-2" "old" "v1"]}.
Definition informer (objects : gmap string (Sset string)) (k : string) : res (Sset string) :=
  let n := TrimPrefix k "default/" in
  match objects !! n with Some o => Ok o | None => Err (StatusError NotFound n) end.
Definition start := FakeStore.State (Obj := Sset string) [] 0 cluster.
Definition run (policy : option (option WhenScaledRetentionType)) (enabled : bool)
    (objects : gmap string (Sset string)) : M (FakeStore.state (Sset string)) () :=
  sync_statefulsets prom "default/k8s" own policy enabled None None hash_ (spec "") made_spec
    (informer objects) ((map_to_list objects).*2, None) (0, 1).

Lemma two_shards i n :
  ExpectedStatefulSetShardNames prom !! i = Some n →
  (i, n) = (0, "prometheus-k8s") ∨ (i, n) = (1, "prometheus-k8s-shard-1").
Proof. destruct i as [|[|i]]; intros E; vm_compute in E; [injection E as <-; auto..|done]. Qed.
Lemma answered_start i n :
  ExpectedStatefulSetShardNames prom !! i = Some n →
  answered prom "default/k8s" (informer cluster) start (Z.of_nat i) n.
Proof. intros [[= -> ->] | [= -> ->]]%two_shards; eexists; by split. Qed.
End Example_.

Lemma sync_statefulsets_ok_witness :
  ∃ s', Example_.run None false Example_.cluster Example_.start = (s', Ok ()) ∧
    objs s' !! "prometheus-k8s-shard-2" = None ∧
    (∀ i n, ExpectedStatefulSetShardNames Example_.prom !! i = Some n → ∃ si,
       shard_outcome Example_.prom Example_.own None None Example_.hash_ (Example_.spec "")
         Example_.made_spec (0, 1) si (Z.of_nat i) n (objs Example_.start !! n) (objs s' !! n)).
Proof.
  destruct (Example_.run None false Example_.cluster Example_.start) as [s' r] eqn:E.
  exists s'. assert (r = Ok ()) as -> by (vm_compute in E; by injection E).
  split; [done|]. split; [vm_compute in E; injection E as <-; by vm_compute|].
  eapply sync_statefulsets_ok in E as [Hout _].
  { intros i n Hi. destruct (Hout i n Hi) as (si & _ & Ho). by exists si. }
  intros i n Hi. by apply answered_informed, Example_.answered_start.
Defined.

Lemma sync_statefulsets_succeeds_witness :
  ∃ s', Example_.run (Some None) true Example_.cluster Example_.start = (s', Ok ()).
Proof.
  apply (sync_statefulsets_succeeds Example_.prom "default/k8s" Example_.own (Some None) true None None
    Example_.hash_ (Example_.spec "") Example_.made_spec
    (Example_.informer Example_.cluster) ((map_to_list Example_.cluster).*2, None) (0, 1)
    Example_.start); try done.
  exact Example_.answered_start.
Defined.

(** Everything is as the last sync left it. *)
Definition settled_cluster : gmap string (Sset string) :=
  <["prometheus-k8s" := Example_.sset_of "prometheus-k8s" "hash-v2" "v2"]>
    {["prometheus-k8s-shard-1" := Example_.sset_of "prometheus-k8s-shard-1" "hash-v2" "v2"]}.
Lemma sync_statefulsets_steady_witness :
  Example_.run None false settled_cluster (FakeStore.State [] 0 settled_cluster) =
    (FakeStore.State [] 0 settled_cluster, Ok ()).
Proof.
  apply sync_statefulsets_steady.
  - intros [|[|i]] Hi; [| |vm_compute in Hi; lia]; (eexists _, _; split; [done|]; split; [done|]);
      right; (split; [done|by eexists]).
  - intros x Hx. left. intros [Hn _]. apply Hn.
    assert (Forall (fun y => name y ∈ ExpectedStatefulSetShardNames Example_.prom)
      ((map_to_list settled_cluster).*2)) as Hall by (apply (bool_decide_eq_true_1 _); by vm_compute).
    rewrite Forall_forall in Hall. by apply Hall.
  - done.
Defined.
