(* ===== verification/Yaml.v ===== *)
(** * YAML documents as the configuration generators build them

    pkg/prometheus/promcfg.go and pkg/alertmanager/amcfg.go build documents of gopkg.in/yaml.v2
    from [yaml.MapSlice], a list of key/value items that keeps its order. Most functions take the
    items built so far and return them with items appended: an [emitter] here, and a Go function
    that appends one item after another is the [run] of a list of emitters.

    [schema] describes a document of the configuration language: the fields an object may have,
    since which version of the program that reads it, and what each field holds. [conforms] says
    that a document follows its schema: it has no field twice, none the schema does not know and
    none the version does not support. [emits] is what an emitter contributes to such an object;
    its lemmas compose the way the code does. *)

From S2P Require Import Prelude GoStrings SortUtil.

Inductive yaml :=
  | YNull
  | YBool (b : bool)
  | YInt (z : Z)
  | YFloat (text : string)
  | YStr (s : string)
  | YSeq (l : list yaml)
  | YMap (m : list (string * yaml)).
Abbreviation MapSlice := (list (string * yaml)).
#[global] Instance yaml_eq_dec : EqDecision yaml.
Proof.
  refine (fix go (x y : yaml) : Decision (x = y) :=
    let _ : EqDecision yaml := @go in
    match x, y with
    | YNull, YNull => left _
    | YBool a, YBool b => cast_if (decide (a = b))
    | YInt a, YInt b => cast_if (decide (a = b))
    | YFloat a, YFloat b => cast_if (decide (a = b))
    | YStr a, YStr b => cast_if (decide (a = b))
    | YSeq a, YSeq b => cast_if (decide (a = b))
    | YMap a, YMap b => cast_if (decide (a = b))
    | _, _ => right _
    end); abstract congruence.
Defined.
Definition YStrs (l : list string) : yaml := YSeq (YStr <$> l).
Definition YMaps (l : list MapSlice) : yaml := YSeq (YMap <$> l).

(** [stringMapToMapSlice]: the entries of a Go map, by key. yaml.v2 renders a Go map in the same
    way. *)
Definition stringMapToMapSlice {V} (f : V → yaml) (m : gmap string V) : MapSlice :=
  omap (fun k => v ← m !! k; Some (k, f v)) (SortedKeys m).

(** ** Emitters *)

Definition emitter := MapSlice → res MapSlice.
Definition skip : emitter := Ok.
Definition item (k : string) (v : yaml) : emitter := fun cfg => Ok (cfg ++ [(k, v)]).
Definition when (b : bool) (f : emitter) : emitter := if b then f else skip.
Definition if_set {A} (o : option A) (f : A → emitter) : emitter :=
  match o with Some x => f x | None => skip end.
Definition fails (e : error) : emitter := fun _ => Err e.
Definition from_res {A} (r : res A) (k : A → emitter) : emitter := fun cfg => x ← r; k x cfg.
Fixpoint run (fs : list emitter) : emitter :=
  match fs with
  | [] => skip
  | f :: fs' => fun cfg => cfg' ← f cfg; run fs' cfg'
  end.

(** ** Schemas *)

(** The versions that know a field. A [SScalar] is a text that may be written as a number, [SOpt] a
    value that may be null, [SGiven] one of the maps that a user gave as text. *)
Inductive avail :=
  | Always
  | Since (v : string)
  | Until (v : string)
  | OnlyMajor (m : Z)
  | NotMajor (m : Z)
  | FromMajor (m : Z)
  | BelowMajor (m : Z)
  | Both (a b : avail).
Inductive schema :=
  | SBool
  | SInt
  | SFloat
  | SStr
  | SScalar
  | SGiven (l : list MapSlice)
  | SEither (s t : schema)
  | SOpt (s : schema)
  | SSeq (s : schema)
  | SMap (s : schema)
  | SObj (fs : list (string * (avail * schema))).
#[global] Instance avail_eq_dec : EqDecision avail.
Proof. solve_decision. Defined.
#[global] Instance schema_eq_dec : EqDecision schema.
Proof.
  refine (fix go (x y : schema) : Decision (x = y) :=
    let _ : EqDecision schema := @go in
    match x, y with
    | SBool, SBool | SInt, SInt | SFloat, SFloat | SStr, SStr | SScalar, SScalar => left _
    | SGiven l, SGiven k => cast_if (decide (l = k))
    | SEither s s', SEither t t' => cast_if_and (decide (s = t)) (decide (s' = t'))
    | SOpt s, SOpt t => cast_if (decide (s = t))
    | SSeq s, SSeq t => cast_if (decide (s = t))
    | SMap s, SMap t => cast_if (decide (s = t))
    | SObj fs, SObj gs => cast_if (decide (fs = gs))
    | _, _ => right _
    end); abstract congruence.
Defined.
Abbreviation fields := (list (string * (avail * schema))).
Definition fld (k : string) (s : schema) : string * (avail * schema) := (k, (Always, s)).
Definition since (v : string) (k : string) (s : schema) : string * (avail * schema) := (k, (Since v, s)).
Definition names (fs : fields) : list string := fs.*1.

Section conforms.
Context (ok : avail → bool).

Inductive conforms : schema → yaml → Prop :=
  | conforms_bool b : conforms SBool (YBool b)
  | conforms_int z : conforms SInt (YInt z)
  | conforms_float q : conforms SFloat (YFloat q)
  | conforms_str s : conforms SStr (YStr s)
  | conforms_scalar_str s : conforms SScalar (YStr s)
  | conforms_scalar_int z : conforms SScalar (YInt z)
  | conforms_given l m : m ∈ l → conforms (SGiven l) (YMap m)
  | conforms_left s t y : conforms s y → conforms (SEither s t) y
  | conforms_right s t y : conforms t y → conforms (SEither s t) y
  | conforms_null s : conforms (SOpt s) YNull
  | conforms_opt s y : conforms s y → conforms (SOpt s) y
  | conforms_seq s l : Forall (conforms s) l → conforms (SSeq s) (YSeq l)
  | conforms_map s m : NoDup m.*1 → Forall (fun kv => conforms s kv.2) m → conforms (SMap s) (YMap m)
  | conforms_obj fs m :
      NoDup m.*1 →
      Forall (fun kv => ∃ a s, (kv.1, (a, s)) ∈ fs ∧ ok a = true ∧ conforms s kv.2) m →
      conforms (SObj fs) (YMap m).

(** [f] returns, and appends items with different keys that the table allows. *)
Definition allowed (fs : fields) (m : MapSlice) : Prop :=
  NoDup m.*1 ∧ Forall (fun kv => ∃ a s, (kv.1, (a, s)) ∈ fs ∧ ok a = true ∧ conforms s kv.2) m.
Definition emits (fs : fields) (f : emitter) : Prop :=
  ∀ cfg, ∃ m, f cfg = Ok (cfg ++ m) ∧ allowed fs m.

Lemma allowed_nil fs : allowed fs [].
Proof. split; constructor. Qed.
Lemma allowed_weaken fs fs' m : allowed fs m → fs ⊆ fs' → allowed fs' m.
Proof.
  intros [Hnd Hm] Hsub. split; [done|]. eapply Forall_impl; [exact Hm|].
  intros kv (a & s & Hin & Ha & Hs). exists a, s. set_solver.
Qed.
Lemma allowed_names fs m k : allowed fs m → k ∈ m.*1 → k ∈ names fs.
Proof.
  intros [_ Hm] (kv & -> & Hk)%list_elem_of_fmap. rewrite Forall_forall in Hm.
  destruct (Hm _ Hk) as (a & s & Hin & _). by apply (list_elem_of_fmap_2 fst) in Hin.
Qed.
Lemma allowed_app fs gs m m' :
  allowed fs m → allowed gs m' → (∀ k, k ∈ names fs → k ∈ names gs → False) → allowed (fs ++ gs) (m ++ m').
Proof.
  intros Hm Hm' Hd. split.
  - rewrite fmap_app. apply NoDup_app. split; [apply Hm|]. split; [|apply Hm'].
    intros k Hk Hk'. eapply Hd; eapply allowed_names; eauto.
  - apply Forall_app. split; eapply Forall_impl; [apply Hm| |apply Hm'|];
      intros kv (a & s & Hin & Ha & Hs); exists a, s; set_solver.
Qed.

Lemma emits_skip fs : emits fs skip.
Proof. intros cfg. exists []. rewrite app_nil_r. split; [done|apply allowed_nil]. Qed.
Lemma emits_item k a s v : ok a = true → conforms s v → emits [(k, (a, s))] (item k v).
Proof.
  intros Ha Hv cfg. exists [(k, v)]. split; [done|]. split; [apply NoDup_singleton|].
  constructor; [|constructor]. exists a, s. set_solver.
Qed.
Lemma emits_weaken fs fs' f : emits fs f → fs ⊆ fs' → emits fs' f.
Proof.
  intros Hf Hsub cfg. destruct (Hf cfg) as (m & Hr & Hm). exists m. split; [done|].
  by eapply allowed_weaken.
Qed.
Lemma emits_when fs b f : (b = true → emits fs f) → emits fs (when b f).
Proof. destruct b; simpl; [auto|intros _; apply emits_skip]. Qed.
Lemma emits_if (b : bool) fs f g :
  (b = true → emits fs f) → (b = false → emits fs g) → emits fs (if b then f else g).
Proof. destruct b; auto. Qed.
Lemma emits_if_set {A} fs (o : option A) f : (∀ x, o = Some x → emits fs (f x)) → emits fs (if_set o f).
Proof. destruct o; simpl; [auto|intros _; apply emits_skip]. Qed.
Lemma emits_from_res {A} fs (r : res A) k : (∃ x, r = Ok x ∧ emits fs (k x)) → emits fs (from_res r k).
Proof. intros (x & -> & Hk) cfg. apply Hk. Qed.
(** Emitters in sequence: together they may not repeat a key. *)
Lemma emits_app fs gs f g :
  emits fs f → emits gs g → (∀ k, k ∈ names fs → k ∈ names gs → False) →
  emits (fs ++ gs) (fun cfg => cfg' ← f cfg; g cfg').
Proof.
  intros Hf Hg Hd cfg. destruct (Hf cfg) as (m & Hf' & Hm), (Hg (cfg ++ m)) as (m' & Hg' & Hm').
  exists (m ++ m'). rewrite Hf'. simpl. rewrite Hg', app_assoc. split; [done|]. by apply allowed_app.
Qed.
Inductive emits_all : fields → list emitter → Prop :=
  | emits_all_nil : emits_all [] []
  | emits_all_cons fs gs f l : emits fs f → emits_all gs l → emits_all (fs ++ gs) (f :: l).
Lemma emits_run_all fs l : emits_all fs l → NoDup (names fs) → emits fs (run l).
Proof.
  induction 1 as [|fs gs f l Hf _ IH]; simpl; [intros; apply emits_skip|].
  unfold names. rewrite fmap_app, NoDup_app. intros (_ & Hd & Hnd).
  apply emits_app; [done|by apply IH|]. intros k Hk Hk'. by apply (Hd k).
Qed.
Lemma emits_run fs gs l :
  emits_all gs l → NoDup (names gs) → gs ⊆ fs → emits fs (run l).
Proof. intros Hl Hnd Hsub. eapply emits_weaken; [by apply emits_run_all|done]. Qed.

Lemma run_app l l' cfg : run (l ++ l') cfg = r ← run l cfg; run l' r.
Proof. revert cfg. induction l as [|f l IH]; intros cfg; simpl; [done|]. destruct (f cfg); simpl; auto. Qed.
(** An item that is appended stays. *)
Lemma run_item_in fs l k v l' cfg r :
  run (l ++ item k v :: l') cfg = Ok r → emits fs (run l') → (k, v) ∈ r.
Proof.
  rewrite run_app, bind_ok_ex. intros (r1 & _ & Hr) He. simpl in Hr.
  destruct (He (r1 ++ [(k, v)])) as (m & Hm & _). rewrite Hm in Hr. injection Hr as <-. set_solver.
Qed.
(** The last emitter ends what is written. *)
Lemma run_last l f cfg r : last l = Some f → run l cfg = Ok r → ∃ c, f c = Ok r.
Proof.
  revert cfg. induction l as [|g l IH]; intros cfg; [done|]. cbn [run]. rewrite bind_ok_ex. intros Hl (c & Hg & Hr).
  destruct l as [|g' l']; [|by eapply IH]. injection Hl as ->. injection Hr as ->. by exists cfg.
Qed.
Lemma keys_functional (m : MapSlice) k v w : NoDup m.*1 → (k, v) ∈ m → (k, w) ∈ m → v = w.
Proof.
  induction m as [|[k' x] m IH]; [by intros _ ?%elem_of_nil|]. csimpl. intros [Hk Hnd]%NoDup_cons Hv Hw.
  apply elem_of_cons in Hv as [Hv|Hv]; apply elem_of_cons in Hw as [Hw|Hw]; simplify_eq; [done| | |by apply IH].
  - by apply (list_elem_of_fmap_2 fst) in Hw.
  - by apply (list_elem_of_fmap_2 fst) in Hv.
Qed.
(** One field per emitter. *)
Lemma emits_each fs l : Forall2 (fun a f => emits [a] f) fs l → emits_all fs l.
Proof. induction 1 as [|a f fs l Hf _ IH]; [constructor|]. by apply (emits_all_cons [a]). Qed.

Lemma emits_conforms fs f : emits fs f → ∃ m, f [] = Ok m ∧ conforms (SObj fs) (YMap m).
Proof. intros Hf. destruct (Hf []) as (m & Hm & Hnd & Hok). exists m. split; [done|]. by constructor. Qed.
Lemma conforms_obj_inv fs y : conforms (SObj fs) y → ∃ m, y = YMap m ∧ allowed fs m.
Proof. inversion 1; subst. eexists. split; [done|]. by split. Qed.
Lemma conforms_seq_inv s y : conforms (SSeq s) y → ∃ l, y = YSeq l ∧ Forall (conforms s) l.
Proof. inversion 1; subst. eauto. Qed.
Lemma conforms_strs l : conforms (SSeq SStr) (YStrs l).
Proof. constructor. apply Forall_fmap, Forall_true. intros. constructor. Qed.
Lemma conforms_maps fs l : Forall (fun m => conforms (SObj fs) (YMap m)) l → conforms (SSeq (SObj fs)) (YMaps l).
Proof. intros Hl. constructor. by apply Forall_fmap. Qed.

Lemma stringMap_keys {V} (f : V → yaml) (m : gmap string V) : (stringMapToMapSlice f m).*1 = SortedKeys m.
Proof.
  unfold stringMapToMapSlice.
  assert (∀ ks, (∀ k, k ∈ ks → is_Some (m !! k)) →
    (omap (fun k => v ← m !! k; Some (k, f v)) ks).*1 = ks) as H.
  { induction ks as [|k ks IH]; intros Hks; simpl; [done|].
    destruct (Hks k) as [v ->]; [set_solver|]. csimpl. f_equal. apply IH. set_solver. }
  apply H. intros k. by rewrite elem_of_SortedKeys.
Qed.
Lemma elem_of_stringMap {V} (f : V → yaml) (m : gmap string V) k y :
  (k, y) ∈ stringMapToMapSlice f m ↔ ∃ v, m !! k = Some v ∧ y = f v.
Proof.
  unfold stringMapToMapSlice. rewrite list_elem_of_omap. split.
  - intros (k' & _ & Hk). destruct (m !! k') eqn:E; simplify_eq/=. eauto.
  - intros (v & Hv & ->). exists k. rewrite elem_of_SortedKeys, Hv. split; [eauto|done].
Qed.
Lemma conforms_stringMap {V} s (f : V → yaml) (m : gmap string V) :
  (∀ k v, m !! k = Some v → conforms s (f v)) → conforms (SMap s) (YMap (stringMapToMapSlice f m)).
Proof.
  intros Hf. constructor; [rewrite stringMap_keys; apply NoDup_SortedKeys|].
  apply Forall_forall. intros [k y] (v & Hv & ->)%elem_of_stringMap. eauto.
Qed.
End conforms.
#[global] Arguments emits_all ok fs l : clear implicits.

(** ** Automation: derive [emits] along the code *)

Create HintDb emits.
#[export] Hint Resolve emits_skip conforms_strs : emits.
(** Decide closed side conditions on field tables. *)
Ltac table := refine (bool_decide_eq_true_1 _ _); vm_compute; reflexivity.
