(* ===== verification/PromTypes.v ===== *)
(** * The API types of Prometheus objects and monitors

    The types of pkg/apis/monitoring/v1 that the configuration of a Prometheus server is generated
    from: prometheus_types.go, servicemonitor_types.go, podmonitor_types.go, probe_types.go and
    some of types.go. A pointer is an [option], a map that may be nil an [option] of a finite map,
    and a string type is [string]. A field is named after its type (abbreviated) and its name in
    the source. The fields that only configure pods (images, volumes, affinity and the like) and
    those no modelled code reads are left out. Quantities of apimachinery are kept as their
    text. *)

From S2P Require Import Prelude GoStrings SortUtil Meta NamespaceLabeler MonitoringV1 Status.

(** metav1.LabelSelector of apimachinery. *)
Record LabelSelectorRequirement := {
  lsr_Key : string;
  lsr_Operator : string;
  lsr_Values : list string;
}.
Record LabelSelector := {
  ls_MatchLabels : gomap;
  ls_MatchExpressions : list LabelSelectorRequirement;
}.

(** intstr.IntOrString: the fields of the struct; the other one is zero. *)
Definition StrVal (v : IntOrString) : string := match v with FromString s => s | FromInt _ => "" end.
Definition IntVal (v : IntOrString) : Z := match v with FromInt z => z | FromString _ => 0 end.

Record Argument := {
  Argument_Name : string;
  Argument_Value : string;
}.
Record NamespaceSelector := {
  nsel_Any : bool;
  nsel_MatchNames : list string;
}.
Record NativeHistogramConfig := {
  nhc_ScrapeClassicHistograms : option bool;
  nhc_NativeHistogramBucketLimit : option Z;
  nhc_NativeHistogramMinBucketFactor : option string;
  nhc_ConvertClassicHistogramsToNHCB : option bool;
}.
Record AttachMetadata := {
  AttachMetadata_Node : option bool;
}.
Record ArbitraryFSAccessThroughSMsConfig := {
  fsa_Deny : bool;
}.
Record EmbeddedObjectMetadata := {
  emd_Name : string;
  emd_Labels : gomap;
  emd_Annotations : gomap;
}.
Record TLSConfig := {
  TLSConfig_SafeTLSConfig : SafeTLSConfig;
  TLSConfig_CAFile : string;
  TLSConfig_CertFile : string;
  TLSConfig_KeyFile : string;
}.
Record Authorization := {
  Authorization_SafeAuthorization : SafeAuthorization;
  Authorization_CredentialsFile : string;
}.
Record ScrapeClass := {
  sc_Name : string;
  sc_Default : option bool;
  sc_FallbackScrapeProtocol : option string;
  sc_TLSConfig : option TLSConfig;
  sc_Authorization : option Authorization;
  sc_Relabelings : list RelabelConfig;
  sc_MetricRelabelings : list RelabelConfig;
  sc_AttachMetadata : option AttachMetadata;
}.
Record QueueConfig := {
  queue_Capacity : Z;
  queue_MinShards : Z;
  queue_MaxShards : Z;
  queue_MaxSamplesPerSend : Z;
  queue_BatchSendDeadline : option string;
  queue_MaxRetries : Z;
  queue_MinBackoff : option string;
  queue_MaxBackoff : option string;
  queue_RetryOnRateLimit : bool;
  queue_SampleAgeLimit : option string;
}.
Record AzureOAuth := {
  AzureOAuth_ClientID : string;
  AzureOAuth_ClientSecret : SecretKeySelector;
  AzureOAuth_TenantID : string;
}.
Record ManagedIdentity := {
  ManagedIdentity_ClientID : string;
}.
Record AzureSDK := {
  AzureSDK_TenantID : option string;
}.
Record AzureAD := {
  AzureAD_Cloud : option string;
  AzureAD_ManagedIdentity : option ManagedIdentity;
  AzureAD_OAuth : option AzureOAuth;
  AzureAD_SDK : option AzureSDK;
}.
Record MetadataConfig := {
  mdc_Send : bool;
  mdc_SendInterval : string;
  mdc_MaxSamplesPerSend : option Z;
}.
Record RemoteWriteSpec := {
  rw_URL : string;
  rw_Name : option string;
  rw_MessageVersion : option string;
  rw_SendExemplars : option bool;
  rw_SendNativeHistograms : option bool;
  rw_RemoteTimeout : option string;
  rw_Headers : gomap;
  rw_WriteRelabelConfigs : list RelabelConfig;
  rw_OAuth2 : option OAuth2;
  rw_BasicAuth : option BasicAuth;
  rw_BearerTokenFile : string;
  rw_Authorization : option Authorization;
  rw_Sigv4 : option Sigv4;
  rw_AzureAD : option AzureAD;
  rw_BearerToken : string;
  rw_TLSConfig : option TLSConfig;
  rw_ProxyConfig : ProxyConfig;
  rw_FollowRedirects : option bool;
  rw_QueueConfig : option QueueConfig;
  rw_MetadataConfig : option MetadataConfig;
  rw_EnableHttp2 : option bool;
  rw_RoundRobinDNS : option bool;
}.
Record RemoteReadSpec := {
  rrd_URL : string;
  rrd_Name : string;
  rrd_RequiredMatchers : gomap;
  rrd_RemoteTimeout : option string;
  rrd_Headers : gomap;
  rrd_ReadRecent : bool;
  rrd_OAuth2 : option OAuth2;
  rrd_BasicAuth : option BasicAuth;
  rrd_BearerTokenFile : string;
  rrd_Authorization : option Authorization;
  rrd_BearerToken : string;
  rrd_TLSConfig : option TLSConfig;
  rrd_ProxyConfig : ProxyConfig;
  rrd_FollowRedirects : option bool;
  rrd_FilterExternalLabels : option bool;
}.
Record APIServerConfig := {
  api_Host : string;
  api_BasicAuth : option BasicAuth;
  api_BearerTokenFile : string;
  api_TLSConfig : option TLSConfig;
  api_Authorization : option Authorization;
  api_BearerToken : string;
  api_ProxyConfig : ProxyConfig;
}.
Record AlertmanagerEndpoints := {
  ame_Namespace : option string;
  ame_Name : string;
  ame_Port : IntOrString;
  ame_Scheme : string;
  ame_PathPrefix : string;
  ame_TLSConfig : option TLSConfig;
  ame_BasicAuth : option BasicAuth;
  ame_BearerTokenFile : string;
  ame_Authorization : option SafeAuthorization;
  ame_Sigv4 : option Sigv4;
  ame_ProxyConfig : ProxyConfig;
  ame_APIVersion : option string;
  ame_Timeout : option string;
  ame_EnableHttp2 : option bool;
  ame_RelabelConfigs : list RelabelConfig;
  ame_AlertRelabelConfigs : list RelabelConfig;
}.
Record AlertingSpec := {
  AlertingSpec_Alertmanagers : list AlertmanagerEndpoints;
}.
Record RuntimeConfig := {
  RuntimeConfig_GoGC : option Z;
}.
Record TSDBSpec := {
  tsdb_OutOfOrderTimeWindow : option string;
}.
Record Exemplars := {
  Exemplars_MaxSize : option Z;
}.
Record PrometheusTracingConfig := {
  tracing_ClientType : option string;
  tracing_Endpoint : string;
  tracing_SamplingFraction : option string;
  tracing_Insecure : option bool;
  tracing_Headers : gomap;
  tracing_Compression : option string;
  tracing_Timeout : option string;
  tracing_TLSConfig : option TLSConfig;
}.
Record OTLPConfig := {
  otlp_PromoteResourceAttributes : list string;
  otlp_TranslationStrategy : option string;
  otlp_KeepIdentifyingResourceAttributes : option bool;
  otlp_ConvertHistogramsToNHCB : option bool;
}.
Record QuerySpec := {
  query_LookbackDelta : option string;
  query_MaxConcurrency : option Z;
  query_MaxSamples : option Z;
  query_Timeout : option string;
}.
Record RulesAlert := {
  ra_ForOutageTolerance : string;
  ra_ForGracePeriod : string;
  ra_ResendDelay : string;
}.
Record RulesSpec := {
  rls_Alert : RulesAlert;
}.
(** [PrometheusWebSpec] with the embedded [WebConfigFileFields], of which the operator asks
    here whether there is a TLS configuration. *)
Record PrometheusWebSpec := {
  web_hasTLSConfig : bool;
  web_PageTitle : option string;
  web_MaxConnections : option Z;
}.
Record CommonPrometheusFields := {
  cpf_PodMetadata : option EmbeddedObjectMetadata;
  cpf_ServiceMonitorSelector : option LabelSelector;
  cpf_ServiceMonitorNamespaceSelector : option LabelSelector;
  cpf_PodMonitorSelector : option LabelSelector;
  cpf_PodMonitorNamespaceSelector : option LabelSelector;
  cpf_ProbeSelector : option LabelSelector;
  cpf_ProbeNamespaceSelector : option LabelSelector;
  cpf_ScrapeConfigSelector : option LabelSelector;
  cpf_ScrapeConfigNamespaceSelector : option LabelSelector;
  cpf_Version : string;
  cpf_Paused : bool;
  cpf_Replicas : option Z;
  cpf_Shards : option Z;
  cpf_ReplicaExternalLabelName : option string;
  cpf_PrometheusExternalLabelName : option string;
  cpf_LogLevel : string;
  cpf_LogFormat : string;
  cpf_ScrapeInterval : string;
  cpf_ScrapeTimeout : string;
  cpf_ScrapeProtocols : list string;
  cpf_ExternalLabels : gomap;
  cpf_EnableRemoteWriteReceiver : bool;
  cpf_EnableOTLPReceiver : option bool;
  cpf_RemoteWriteReceiverMessageVersions : list string;
  cpf_EnableFeatures : list string;
  cpf_ExternalURL : string;
  cpf_RoutePrefix : string;
  cpf_Web : option PrometheusWebSpec;
  cpf_RemoteWrite : list RemoteWriteSpec;
  cpf_OTLP : option OTLPConfig;
  cpf_ListenLocal : bool;
  cpf_APIServerConfig : option APIServerConfig;
  cpf_PortName : string;
  cpf_ArbitraryFSAccessThroughSMs : ArbitraryFSAccessThroughSMsConfig;
  cpf_OverrideHonorLabels : bool;
  cpf_OverrideHonorTimestamps : bool;
  cpf_IgnoreNamespaceSelectors : bool;
  cpf_EnforcedNamespaceLabel : string;
  cpf_EnforcedSampleLimit : option Z;
  cpf_EnforcedTargetLimit : option Z;
  cpf_EnforcedLabelLimit : option Z;
  cpf_EnforcedLabelNameLengthLimit : option Z;
  cpf_EnforcedLabelValueLengthLimit : option Z;
  cpf_EnforcedKeepDroppedTargets : option Z;
  cpf_EnforcedBodySizeLimit : string;
  cpf_NameValidationScheme : option string;
  cpf_NameEscapingScheme : option string;
  cpf_ConvertClassicHistogramsToNHCB : option bool;
  cpf_ScrapeClassicHistograms : option bool;
  cpf_AdditionalArgs : list Argument;
  cpf_WALCompression : option bool;
  cpf_ExcludedFromEnforcement : list ObjectReference;
  cpf_HostNetwork : bool;
  cpf_PodTargetLabels : list string;
  cpf_TracingConfig : option PrometheusTracingConfig;
  cpf_AdditionalScrapeConfigs : option SecretKeySelector;
  cpf_BodySizeLimit : option string;
  cpf_SampleLimit : option Z;
  cpf_TargetLimit : option Z;
  cpf_LabelLimit : option Z;
  cpf_LabelNameLengthLimit : option Z;
  cpf_LabelValueLengthLimit : option Z;
  cpf_KeepDroppedTargets : option Z;
  cpf_ReloadStrategy : option string;
  cpf_MaximumStartupDurationSeconds : option Z;
  cpf_ScrapeClasses : list ScrapeClass;
  cpf_ServiceDiscoveryRole : option string;
  cpf_TSDB : option TSDBSpec;
  cpf_ScrapeFailureLogFile : option string;
  cpf_Runtime : option RuntimeConfig;
}.
Record PrometheusSpec := {
  spec_CommonPrometheusFields : CommonPrometheusFields;
  spec_Retention : string;
  spec_RetentionSize : string;
  spec_DisableCompaction : bool;
  spec_Rules : RulesSpec;
  spec_RuleSelector : option LabelSelector;
  spec_Query : option QuerySpec;
  spec_Alerting : option AlertingSpec;
  spec_RemoteRead : list RemoteReadSpec;
  spec_QueryLogFile : string;
  spec_AllowOverlappingBlocks : bool;
  spec_Exemplars : option Exemplars;
  spec_EvaluationInterval : string;
  spec_RuleQueryOffset : option string;
  spec_EnableAdminAPI : bool;
  spec_AdditionalAlertRelabelConfigs : option SecretKeySelector;
  spec_AdditionalAlertManagerConfigs : option SecretKeySelector;
}.
Record Endpoint := {
  ep_Port : string;
  ep_TargetPort : option IntOrString;
  ep_Path : string;
  ep_Scheme : string;
  ep_Params : option (gmap string (list string));
  ep_Interval : string;
  ep_ScrapeTimeout : string;
  ep_TLSConfig : option TLSConfig;
  ep_BearerTokenFile : string;
  ep_BearerTokenSecret : option SecretKeySelector;
  ep_Authorization : option SafeAuthorization;
  ep_HonorLabels : bool;
  ep_HonorTimestamps : option bool;
  ep_TrackTimestampsStaleness : option bool;
  ep_BasicAuth : option BasicAuth;
  ep_OAuth2 : option OAuth2;
  ep_MetricRelabelConfigs : list RelabelConfig;
  ep_RelabelConfigs : list RelabelConfig;
  ep_ProxyConfig : ProxyConfig;
  ep_FollowRedirects : option bool;
  ep_EnableHttp2 : option bool;
  ep_FilterRunning : option bool;
}.
Record ServiceMonitorSpec := {
  sms_JobLabel : string;
  sms_TargetLabels : list string;
  sms_PodTargetLabels : list string;
  sms_Endpoints : list Endpoint;
  sms_Selector : LabelSelector;
  sms_SelectorMechanism : option string;
  sms_NamespaceSelector : NamespaceSelector;
  sms_SampleLimit : option Z;
  sms_ScrapeProtocols : list string;
  sms_FallbackScrapeProtocol : option string;
  sms_TargetLimit : option Z;
  sms_LabelLimit : option Z;
  sms_LabelNameLengthLimit : option Z;
  sms_LabelValueLengthLimit : option Z;
  sms_NativeHistogramConfig : NativeHistogramConfig;
  sms_KeepDroppedTargets : option Z;
  sms_AttachMetadata : option AttachMetadata;
  sms_ScrapeClassName : option string;
  sms_BodySizeLimit : option string;
}.
Record PodMetricsEndpoint := {
  pep_Port : option string;
  pep_PortNumber : option Z;
  pep_TargetPort : option IntOrString;
  pep_Path : string;
  pep_Scheme : string;
  pep_Params : option (gmap string (list string));
  pep_Interval : string;
  pep_ScrapeTimeout : string;
  pep_TLSConfig : option SafeTLSConfig;
  pep_BearerTokenSecret : SecretKeySelector;
  pep_HonorLabels : bool;
  pep_HonorTimestamps : option bool;
  pep_TrackTimestampsStaleness : option bool;
  pep_BasicAuth : option BasicAuth;
  pep_OAuth2 : option OAuth2;
  pep_Authorization : option SafeAuthorization;
  pep_MetricRelabelConfigs : list RelabelConfig;
  pep_RelabelConfigs : list RelabelConfig;
  pep_ProxyConfig : ProxyConfig;
  pep_FollowRedirects : option bool;
  pep_EnableHttp2 : option bool;
  pep_FilterRunning : option bool;
}.
Record PodMonitorSpec := {
  pms_JobLabel : string;
  pms_PodTargetLabels : list string;
  pms_PodMetricsEndpoints : list PodMetricsEndpoint;
  pms_Selector : LabelSelector;
  pms_SelectorMechanism : option string;
  pms_NamespaceSelector : NamespaceSelector;
  pms_SampleLimit : option Z;
  pms_TargetLimit : option Z;
  pms_ScrapeProtocols : list string;
  pms_FallbackScrapeProtocol : option string;
  pms_LabelLimit : option Z;
  pms_LabelNameLengthLimit : option Z;
  pms_LabelValueLengthLimit : option Z;
  pms_NativeHistogramConfig : NativeHistogramConfig;
  pms_KeepDroppedTargets : option Z;
  pms_AttachMetadata : option AttachMetadata;
  pms_ScrapeClassName : option string;
  pms_BodySizeLimit : option string;
}.
Record ProbeTargetStaticConfig := {
  pts_Targets : list string;
  pts_Labels : gomap;
  pts_RelabelConfigs : list RelabelConfig;
}.
Record ProbeTargetIngress := {
  pti_Selector : LabelSelector;
  pti_NamespaceSelector : NamespaceSelector;
  pti_RelabelConfigs : list RelabelConfig;
}.
Record ProbeTargets := {
  pt_StaticConfig : option ProbeTargetStaticConfig;
  pt_Ingress : option ProbeTargetIngress;
}.
Record ProberSpec := {
  prober_URL : string;
  prober_Scheme : string;
  prober_Path : string;
  prober_ProxyConfig : ProxyConfig;
}.
Record ProbeSpec := {
  prs_JobName : string;
  prs_ProberSpec : ProberSpec;
  prs_Module : string;
  prs_Targets : ProbeTargets;
  prs_Interval : string;
  prs_ScrapeTimeout : string;
  prs_TLSConfig : option SafeTLSConfig;
  prs_BearerTokenSecret : SecretKeySelector;
  prs_BasicAuth : option BasicAuth;
  prs_OAuth2 : option OAuth2;
  prs_MetricRelabelConfigs : list RelabelConfig;
  prs_Authorization : option SafeAuthorization;
  prs_SampleLimit : option Z;
  prs_TargetLimit : option Z;
  prs_ScrapeProtocols : list string;
  prs_FallbackScrapeProtocol : option string;
  prs_LabelLimit : option Z;
  prs_LabelNameLengthLimit : option Z;
  prs_LabelValueLengthLimit : option Z;
  prs_NativeHistogramConfig : NativeHistogramConfig;
  prs_KeepDroppedTargets : option Z;
  prs_ScrapeClassName : option string;
}.
Record ServiceMonitor := {
  sm_TypeMeta : GroupKind; sm_ObjectMeta : ObjectMeta; sm_Spec : ServiceMonitorSpec }.
Record PodMonitor := {
  pm_TypeMeta : GroupKind; pm_ObjectMeta : ObjectMeta; pm_Spec : PodMonitorSpec }.
Record Probe := {
  probe_TypeMeta : GroupKind; probe_ObjectMeta : ObjectMeta; probe_Spec : ProbeSpec }.

(** A Prometheus object: what [PrometheusInterface] gives access to. *)
Record PrometheusObject := {
  po_kind : PrometheusKind;
  po_ObjectMeta : ObjectMeta;
  po_cpf : CommonPrometheusFields;
}.
Definition iface (p : PrometheusObject) : PrometheusInterface := {|
  p_kind := po_kind p; p_meta := po_ObjectMeta p; p_Paused := cpf_Paused (po_cpf p);
  p_Replicas := cpf_Replicas (po_cpf p); p_Shards := cpf_Shards (po_cpf p) |}.

(** ** Equality and zero values, for [reflect.ValueOf(x).IsZero()] *)

#[global] Instance SafeAuthorization_eq_dec : EqDecision SafeAuthorization.
Proof. solve_decision. Defined.
#[global] Instance SafeTLSConfig_eq_dec : EqDecision SafeTLSConfig.
Proof. solve_decision. Defined.
#[global] Instance ProxyConfig_eq_dec : EqDecision ProxyConfig.
Proof. solve_decision. Defined.
#[global] Instance NativeHistogramConfig_eq_dec : EqDecision NativeHistogramConfig.
Proof. solve_decision. Defined.
Definition zero_SafeAuthorization : SafeAuthorization :=
  {| SafeAuthorization_Type := ""; SafeAuthorization_Credentials := None |}.
Definition zero_SafeTLSConfig : SafeTLSConfig := {|
  SafeTLSConfig_CA := zero_SecretOrConfigMap; SafeTLSConfig_Cert := zero_SecretOrConfigMap;
  SafeTLSConfig_KeySecret := None; SafeTLSConfig_ServerName := None;
  SafeTLSConfig_InsecureSkipVerify := None; SafeTLSConfig_MinVersion := None;
  SafeTLSConfig_MaxVersion := None |}.
Definition zero_ProxyConfig : ProxyConfig := {|
  ProxyConfig_ProxyURL := None; ProxyConfig_NoProxy := None;
  ProxyConfig_ProxyFromEnvironment := None; ProxyConfig_ProxyConnectHeader := None |}.
Definition zero_NativeHistogramConfig : NativeHistogramConfig := {|
  nhc_ScrapeClassicHistograms := None; nhc_NativeHistogramBucketLimit := None;
  nhc_NativeHistogramMinBucketFactor := None; nhc_ConvertClassicHistogramsToNHCB := None |}.
Definition zero_ScrapeClass : ScrapeClass := {|
  sc_Name := ""; sc_Default := None; sc_FallbackScrapeProtocol := None; sc_TLSConfig := None;
  sc_Authorization := None; sc_Relabelings := []; sc_MetricRelabelings := [];
  sc_AttachMetadata := None |}.

(** ** Methods *)

Definition TLSConfig_Validate (o : option TLSConfig) : res () :=
  match o with
  | None => Ok ()
  | Some c =>
      let safe := TLSConfig_SafeTLSConfig c in
      let CA := SafeTLSConfig_CA safe in
      let Cert := SafeTLSConfig_Cert safe in
      let hasCA := bool_decide (CA ≠ zero_SecretOrConfigMap) in
      let hasCertRef := bool_decide (Cert ≠ zero_SecretOrConfigMap) in
      let hasCertFile := bool_decide (TLSConfig_CertFile c ≠ "") in
      let hasKeyFile := bool_decide (TLSConfig_KeyFile c ≠ "") in
      let hasKeySecret := is_set (SafeTLSConfig_KeySecret safe) in
      _ ← (if hasCA then
             _ ← check (bool_decide (TLSConfig_CAFile c ≠ "")) "cannot specify both caFile and ca";
             wrap "SecretOrConfigMap ca: %w" [] (SecretOrConfigMap_Validate CA)
           else Ok ());
      _ ← (if hasCertRef then
             _ ← check hasCertFile "cannot specify both certFile and cert";
             wrap "SecretOrConfigMap cert: %w" [] (SecretOrConfigMap_Validate Cert)
           else Ok ());
      _ ← check (hasKeyFile && hasKeySecret) "cannot specify both keyFile and keySecret";
      let hasCert := hasCertFile || hasCertRef in
      let hasKey := hasKeyFile || hasKeySecret in
      _ ← check (hasCert && negb hasKey) "cannot specify client cert without client key";
      _ ← check (hasKey && negb hasCert) "cannot specify client key without client cert";
      match SafeTLSConfig_MaxVersion safe, SafeTLSConfig_MinVersion safe with
      | Some max, Some min => check (str_lt max min) "maxVersion must more than or equal to minVersion"
      | _, _ => Ok ()
      end
  end.

Definition Authorization_Validate (o : option Authorization) : res () :=
  match o with
  | None => Ok ()
  | Some c =>
      let safe := Authorization_SafeAuthorization c in
      _ ← check (is_set (SafeAuthorization_Credentials safe) &&
                 bool_decide (Authorization_CredentialsFile c ≠ ""))
            "Authorization can not specify both Credentials and CredentialsFile";
      check (bool_decide (ToLower (TrimSpace (SafeAuthorization_Type safe)) = "basic"))
        "Authorization type cannot be set to basic, use basic_auth instead"
  end.

Definition PrometheusURIScheme (cpf : CommonPrometheusFields) : string :=
  if default false (web_hasTLSConfig <$> cpf_Web cpf) then "https" else "http".
Definition WebRoutePrefix (cpf : CommonPrometheusFields) : string :=
  if bool_decide (cpf_RoutePrefix cpf ≠ "") then cpf_RoutePrefix cpf else "/".

Definition ProbeTargets_Validate (it : ProbeTargets) : res () :=
  check (negb (is_set (pt_StaticConfig it)) && negb (is_set (pt_Ingress it)))
    "at least one of .spec.targets.staticConfig and .spec.targets.ingress is required".

(** ** Constants *)

Definition PrometheusText1_0_0 := "PrometheusText1.0.0".
Definition EndpointsRole := "Endpoints".
Definition EndpointSliceRole := "EndpointSlice".
Definition SelectorMechanismRelabel := "RelabelConfig".
Definition HTTPReloadStrategyType := "HTTP".
Definition LegacyNameValidationScheme := "Legacy".
Definition RemoteWriteMessageVersion1_0 := "V1.0".
Definition RemoteWriteMessageVersion2_0 := "V2.0".
Definition AlertmanagerAPIVersion1 := "V1".
Definition AlertmanagerAPIVersion2 := "V2".
Definition NoUTF8EscapingWithSuffixes := "NoUTF8EscapingWithSuffixes".
Definition NoTranslation := "NoTranslation".
