(* ===== verification/PromCommon.v ===== *)
(** * What the code around Prometheus objects shares

    Paths (package path of Go), label names, the default version (pkg/operator/defaults.go,
    image.go) and the validation of relabeling configurations
    ([LabelConfigValidator] of pkg/prometheus/resource_selector.go). The parsers of
    github.com/prometheus/common, prometheus/prometheus and alecthomas/units are the class
    [PromLibs], with the printing of label selectors (apimachinery) and the quoting of regular
    expressions. *)

From S2P Require Import Prelude GoStrings SortUtil Meta Semver NamespaceLabeler MonitoringV1 PromTypes.

(** ** Package path *)

(** One element of a path is added to the cleaned ones, which are kept in reverse. *)
Definition clean_step (rooted : bool) (out : list string) (e : string) : list string :=
  if bool_decide (e = "") || bool_decide (e = ".") then out
  else if bool_decide (e = "..") then
    match out with
    | [] => if rooted then [] else [".."]
    | top :: out' => if bool_decide (top = "..") then ".." :: out else out'
    end
  else e :: out.
(** [path.Clean]. *)
Definition path_Clean (p : string) : string :=
  let rooted := HasPrefix p "/" in
  let out := Join (reverse (foldl (clean_step rooted) [] (Split p "/"%char))) "/" in
  if rooted then "/" +:+ out else if bool_decide (out = "") then "." else out.
(** [path.Join]. *)
Definition path_Join (elems : list string) : string :=
  match base.filter (fun e => e ≠ "") elems with
  | [] => ""
  | es => path_Clean (Join es "/")
  end.

(** ** Label names *)

Definition alpha (c : ascii) : bool :=
  let n := byte c in ((65 <=? n) && (n <=? 90) || (97 <=? n) && (n <=? 122) || (n =? 95))%N.
Definition word (c : ascii) : bool := alpha c || match digit c with Some _ => true | None => false end.

(** [invalidLabelCharRE] is [[^a-zA-Z0-9_]]: it matches a code point, whose bytes after the first
    are 128 to 191. *)
Fixpoint sanitizeLabelName (name : string) : string :=
  match name with
  | EmptyString => EmptyString
  | String c s =>
      if word c then String c (sanitizeLabelName s)
      else if ((128 <=? byte c) && (byte c <=? 191))%N then sanitizeLabelName s
      else String "_" (sanitizeLabelName s)
  end.

(** A label name of Prometheus' legacy character set is left alone, and anything becomes one
    made of its characters. *)
Fixpoint all_word (s : string) : bool :=
  match s with EmptyString => true | String c s' => word c && all_word s' end.
Lemma sanitizeLabelName_word s : all_word (sanitizeLabelName s) = true.
Proof. induction s as [|c s IH]; simpl; [done|]. destruct (word c) eqn:E; [|case_match]; simpl; try done. by rewrite E. Qed.
Lemma sanitizeLabelName_id s : all_word s = true → sanitizeLabelName s = s.
Proof. induction s as [|c s IH]; simpl; [done|]. destruct (word c); simpl; [|done]. intros. by rewrite IH. Qed.

(** ** Numbers as text *)

Lemma pretty_N_go_chars c x s :
  digit c = None → contains_char c s = false → contains_char c (pretty_N_go x s) = false.
Proof.
  intros Hc. revert s. induction (N.lt_wf_0 x) as [x _ IH]; intros s Hs.
  assert (x = 0 ∨ 0 < x)%N as [-> | Hx] by lia; [by rewrite pretty_N_go_0|].
  rewrite pretty_N_go_step by done. apply IH; [by apply N.div_lt|]. simpl.
  rewrite decide_False; [done|]. intros <-.
  assert (x `mod` 10 < 10)%N as Hm by (apply N.mod_lt; lia).
  destruct (x `mod` 10)%N as [|[[[[]|[]|]|[[]|[]|]|]|[[[]|[]|]|[[]|[]|]|]|]]; try done; lia.
Qed.
Lemma Itoa_no_char c z : digit c = None → c ≠ "-"%char → contains_char c (Itoa z) = false.
Proof.
  intros Hc Hd. unfold Itoa, pretty, pretty_Z. destruct z as [|p|p]; simpl.
  - rewrite decide_False; [done|]. by intros <-.
  - unfold pretty, pretty_N. simpl. by apply pretty_N_go_chars.
  - rewrite decide_False by done. unfold pretty, pretty_N. simpl. by apply pretty_N_go_chars.
Qed.
Lemma pretty_N_go_nonempty x s : s ≠ "" → pretty_N_go x s ≠ "".
Proof.
  revert s. induction (N.lt_wf_0 x) as [x _ IH]; intros s Hs.
  assert (x = 0 ∨ 0 < x)%N as [-> | Hx] by lia; [by rewrite pretty_N_go_0|].
  rewrite pretty_N_go_step by done. apply IH; [by apply N.div_lt|done].
Qed.
Lemma Itoa_nonempty z : Itoa z ≠ "".
Proof.
  unfold Itoa, pretty, pretty_Z. destruct z as [|p|p]; simpl; [done| |done].
  change (pretty_N_go (N.pos p) "" ≠ ""). rewrite pretty_N_go_step by done. by apply pretty_N_go_nonempty.
Qed.
Lemma app_str_snoc_inj s t c d : s +:+ String c "" = t +:+ String d "" → s = t ∧ c = d.
Proof.
  revert t. induction s as [|a s IH]; intros [|b t]; simpl; intros E.
  - by injection E.
  - injection E as _ E. by destruct t.
  - injection E as _ E. by destruct s.
  - injection E as -> E. apply IH in E as [-> ->]. done.
Qed.
Lemma string_snoc b : b ≠ "" → ∃ b' c, b = b' +:+ String c "".
Proof.
  induction b as [|a b IH]; [done|]. intros _. destruct b as [|a' b]; [by exists "", a|].
  destruct IH as (b' & c & ->); [done|]. by exists (String a b'), c.
Qed.

(** ** Versions *)

Definition PrometheusCompatibilityMatrix : list string := [
  "v2.45.0"; "v2.46.0"; "v2.47.0"; "v2.47.1"; "v2.47.2"; "v2.48.0"; "v2.48.1"; "v2.49.0"; "v2.49.1";
  "v2.50.0"; "v2.50.1"; "v2.51.0"; "v2.51.1"; "v2.51.2"; "v2.52.0"; "v2.53.0"; "v2.53.1"; "v2.53.2";
  "v2.53.3"; "v2.54.0"; "v2.54.1"; "v2.55.0"; "v2.55.1"; "v3.0.0"; "v3.0.1"; "v3.1.0"; "v3.2.0";
  "v3.2.1"; "v3.3.0"; "v3.3.1"; "v3.4.0"; "v3.4.1"; "v3.4.2"; "v3.5.0"].
Definition DefaultPrometheusVersion : string := default "" (last PrometheusCompatibilityMatrix).
(** The loop of [getLatestPrometheusV2] with the entry before the current one. *)
Fixpoint latest_v2 (prev : option string) (l : list string) : res string :=
  match l with
  | [] => Panic "failed to find a v2.x entry in the compatibility matrix"
  | v :: l' =>
      if HasPrefix v "v3" then match prev with Some p => Ok p | None => Panic "index out of range" end
      else latest_v2 (Some v) l'
  end.
Definition getLatestPrometheusV2 : res string := latest_v2 None PrometheusCompatibilityMatrix.
Definition StringValOrDefault (val defaultVal : string) : string :=
  if bool_decide (TrimSpace val = "") then defaultVal else val.

(** ** Parsers of other repositories *)

Class PromLibs := {
  (** [relabel.NewRegexp], [model.LabelName.IsValid], [model.ParseDuration] (nanoseconds) and
      [units.ParseBase2Bytes] *)
  NewRegexp : string → res ();
  LabelName_IsValid : string → bool;
  ParseDuration : string → res Z;
  ParseBase2Bytes : string → res Z;
  (** [metav1.LabelSelectorAsSelector] and [String] of the selector *)
  LabelSelector_String : LabelSelector → res string;
  (** [regexp.QuoteMeta] *)
  QuoteMeta : string → string;
}.

(** ** LabelConfigValidator *)

(** The actions of the package relabel and [relabel.DefaultRelabelConfig]. *)
Definition Replace := "replace".
Definition Keep := "keep".
Definition Drop := "drop".
Definition KeepEqual := "keepequal".
Definition DropEqual := "dropequal".
Definition HashMod := "hashmod".
Definition LabelMap := "labelmap".
Definition LabelDrop := "labeldrop".
Definition LabelKeep := "labelkeep".
Definition Lowercase := "lowercase".
Definition Uppercase := "uppercase".
Definition DefaultRelabelConfig : RelabelConfig := {|
  rc_SourceLabels := []; rc_Separator := Some ";"; rc_TargetLabel := ""; rc_Regex := "(.*)";
  rc_Modulus := 0; rc_Replacement := Some "$1"; rc_Action := Replace |}.

(** The expression of the code, in words: a letter, an underscore or a reference to a group
    ([$name] or [${name}]), then any number of these and of digits. *)
Fixpoint braced (seen : bool) (k : string → bool) (s : string) : bool :=
  match s with
  | EmptyString => false
  | String c s' => if word c then braced true k s' else bool_decide (c = "}"%char) && seen && k s'
  end.
Fixpoint target_rest (fuel : nat) (s : string) : bool :=
  match fuel, s with
  | _, EmptyString => true
  | O, _ => false
  | S n, String c s' =>
      if word c then target_rest n s'
      else if bool_decide (c = "$"%char) then
        match s' with
        | String d s'' => if word d then target_rest n s'' else bool_decide (d = "{"%char) && braced false (target_rest n) s''
        | EmptyString => false
        end
      else false
  end.
Definition relabelTarget (s : string) : bool :=
  match s with
  | EmptyString => false
  | String c _ => (alpha c || bool_decide (c = "$"%char)) && target_rest (String.length s) s
  end.

Section validator.
Context `{Semver} `{PromLibs}.

Record LabelConfigValidator := { lcv_v : version }.
Definition NewLabelConfigValidator (p : PrometheusObject) : res LabelConfigValidator :=
  let promVersion := StringValOrDefault (cpf_Version (po_cpf p)) DefaultPrometheusVersion in
  v ← wrap "failed to parse Prometheus version: %w" [] (ParseTolerant promVersion);
  Ok {| lcv_v := v |}.

(** The field is set, to something else than the default. *)
Definition other_than (o d : option string) : bool := is_set o && bool_decide (o ≠ d).
Definition lcv_validate (lcv : LabelConfigValidator) (rc : RelabelConfig) : res () :=
  let minimumVersionCaseActions := GTE (lcv_v lcv) (MustParse "2.36.0") in
  let minimumVersionEqualActions := GTE (lcv_v lcv) (MustParse "2.41.0") in
  let rc_action := if bool_decide (rc_Action rc = "") then Replace else rc_Action rc in
  let action := ToLower rc_action in
  let one_of l := bool_decide (action ∈ l) in
  let fail (b : bool) (fmt : string) (args : list string) : res () := if b then Err (Errorf fmt args) else Ok () in
  _ ← fail (one_of [Lowercase; Uppercase] && negb minimumVersionCaseActions)
        "%s relabel action is only supported from Prometheus version 2.36.0" [rc_action];
  _ ← fail (one_of [KeepEqual; DropEqual] && negb minimumVersionEqualActions)
        "%s relabel action is only supported from Prometheus version 2.41.0" [rc_action];
  _ ← wrap "invalid regex %s for relabel configuration: %w" [rc_Regex rc] (NewRegexp (rc_Regex rc));
  _ ← fail (bool_decide (rc_Modulus rc = 0%Z) && one_of [HashMod])
        "relabel configuration for hashmod requires non-zero modulus" [];
  _ ← fail (one_of [Replace; HashMod; Lowercase; Uppercase; KeepEqual; DropEqual] && bool_decide (rc_TargetLabel rc = ""))
        "relabel configuration for %s action needs targetLabel value" [rc_action];
  _ ← fail (one_of [Replace; Lowercase; Uppercase; KeepEqual; DropEqual] && negb (relabelTarget (rc_TargetLabel rc)))
        "%q is invalid 'target_label' for %s action" [rc_TargetLabel rc; rc_action];
  _ ← fail (one_of [Lowercase; Uppercase; KeepEqual; DropEqual] &&
            other_than (rc_Replacement rc) (rc_Replacement DefaultRelabelConfig))
        "'replacement' can not be set for %s action" [rc_action];
  _ ← (if one_of [LabelMap] then
         match rc_Replacement rc with
         | Some r => fail (negb (relabelTarget r)) "%q is invalid 'replacement' for %s action" [r; rc_action]
         | None => Ok ()
         end
       else Ok ());
  _ ← fail (one_of [HashMod] && negb (LabelName_IsValid (rc_TargetLabel rc)))
        "%q is invalid 'target_label' for %s action" [rc_TargetLabel rc; rc_action];
  _ ← fail (one_of [KeepEqual; DropEqual] &&
            (bool_decide (rc_Regex rc ≠ "" ∧ rc_Regex rc ≠ rc_Regex DefaultRelabelConfig)
             || bool_decide (rc_Modulus rc ≠ 0%Z ∧ rc_Modulus rc ≠ rc_Modulus DefaultRelabelConfig)
             || other_than (rc_Separator rc) (rc_Separator DefaultRelabelConfig)
             || other_than (rc_Replacement rc) (rc_Replacement DefaultRelabelConfig)))
        "%s action requires only 'source_labels' and `target_label`, and no other fields" [rc_action];
  fail (one_of [LabelDrop; LabelKeep] &&
        (bool_decide (rc_SourceLabels rc ≠ [])
         || bool_decide (rc_TargetLabel rc ≠ "" ∧ rc_TargetLabel rc ≠ rc_TargetLabel DefaultRelabelConfig)
         || bool_decide (rc_Modulus rc ≠ 0%Z ∧ rc_Modulus rc ≠ rc_Modulus DefaultRelabelConfig)
         || other_than (rc_Separator rc) (rc_Separator DefaultRelabelConfig)
         || other_than (rc_Replacement rc) (rc_Replacement DefaultRelabelConfig)))
    "%s action requires only 'regex', and no other fields" [rc_action].
Definition lcv_Validate (lcv : LabelConfigValidator) (rcs : list RelabelConfig) : res () :=
  for_each (fun '(i, rc) => wrap "[%d]: %w" [Itoa (Z.of_nat i)] (lcv_validate lcv rc)) (imap pair rcs).
End validator.
