(* ===== verification/AssetStore.v ===== *)
(** * pkg/assets: the store of credentials and TLS material

    pkg/assets/store.go, tls.go and interface.go. While resources are selected, the objects their
    selectors refer to are fetched into the cache of a [StoreBuilder]; while the configuration is
    generated, the same references are resolved from the cache only ([cacheOnlyStore]). The TLS
    material that is referenced is collected in the map that becomes the sharded secret of
    [ShardedSecret], and the configuration names its files by the keys of that map.

    cache.Store of client-go is the class [CacheStore]. The API's answers and the parsers of
    crypto/x509 and crypto/tls are section variables; the API's answers are those of one moment. *)

From S2P Require Import Prelude GoStrings SortUtil Meta ApiClient NamespaceLabeler MonitoringV1 Status PromTypes.

(** ** Keys *)

Inductive source := fromSecret | fromConfigMap.
#[global] Instance source_eq_dec : EqDecision source.
Proof. solve_decision. Defined.
(** [iota]. *)
Definition source_int (f : source) : Z := match f with fromSecret => 0 | fromConfigMap => 1 end.

Record tlsAssetKey := { tak_from : source; tak_ns : string; tak_name : string; tak_key : string }.
#[global] Instance tlsAssetKey_eq_dec : EqDecision tlsAssetKey.
Proof. solve_decision. Defined.
#[global] Instance tlsAssetKey_countable : Countable tlsAssetKey.
Proof.
  refine (inj_countable'
    (fun k => (match tak_from k with fromSecret => true | fromConfigMap => false end, tak_ns k, tak_name k, tak_key k))
    (fun '(f, ns, n, k) => {| tak_from := if (f : bool) then fromSecret else fromConfigMap;
                              tak_ns := ns; tak_name := n; tak_key := k |}) _).
  by intros [[] ? ? ?].
Defined.

(** A selector with neither reference is dereferenced. *)
Definition tlsAssetKeyFromSelector (ns : string) (sel : SecretOrConfigMap) : res tlsAssetKey :=
  match SecretOrConfigMap_Secret sel, SecretOrConfigMap_ConfigMap sel with
  | Some s, _ => Ok {| tak_from := fromSecret; tak_ns := ns; tak_name := SecretKeySelector_Name s;
                       tak_key := SecretKeySelector_Key s |}
  | None, Some c => Ok {| tak_from := fromConfigMap; tak_ns := ns;
                          tak_name := ConfigMapKeySelector_Name c; tak_key := ConfigMapKeySelector_Key c |}
  | None, None => Panic "invalid memory address or nil pointer dereference"
  end.
Definition tlsAssetKeyFromSecretSelector (ns : string) (sel : SecretKeySelector) : res tlsAssetKey :=
  tlsAssetKeyFromSelector ns
    {| SecretOrConfigMap_Secret := Some sel; SecretOrConfigMap_ConfigMap := None |}.
Definition toString (k : tlsAssetKey) : string :=
  Itoa (source_int (tak_from k)) +:+ "_" +:+ tak_ns k +:+ "_" +:+ tak_name k +:+ "_" +:+ tak_key k.

(** The key of a Secret or ConfigMap in the cache, [assetKeyFunc] on an object. *)
Definition asset_key (from : source) (ns n : string) : string :=
  Itoa (source_int from) +:+ "/" +:+ ns +:+ "/" +:+ n.
Inductive asset := ASecret (s : Secret) | AConfigMap (c : ConfigMap).
Definition assetKeyFunc (obj : asset) : string :=
  match obj with
  | AConfigMap v => asset_key fromConfigMap (om_Namespace (cm_meta v)) (om_Name (cm_meta v))
  | ASecret v => asset_key fromSecret (om_Namespace (sec_meta v)) (om_Name (sec_meta v))
  end.

(** ** The cache (k8s.io/client-go/tools/cache) *)

Class CacheStore (C : Type) := {
  NewStore : C;
  GetByKey : string → C → option asset;
  (** [Add] under the key of the object *)
  Add : asset → C → C;
  GetByKey_new k : GetByKey k NewStore = None;
  GetByKey_add k o c : GetByKey k (Add o c) = if decide (k = assetKeyFunc o) then Some o else GetByKey k c;
}.

(** ** The store builder *)

Record StoreBuilder (C : Type) := { objStore : C; tlsAssetKeys : gset tlsAssetKey }.
Arguments objStore {C} _.
Arguments tlsAssetKeys {C} _.
Arguments Build_StoreBuilder {C} _ _.
Definition NewStoreBuilder {C} `{CacheStore C} : StoreBuilder C := Build_StoreBuilder NewStore ∅.

Section builder.
Context {C : Type} `{CacheStore C}.
(** What the API answers to [Get] for a namespace and a name. *)
Context (sClient : string → string → res Secret) (cmClient : string → string → res ConfigMap).
(** [pem.Decode], [x509.ParseCertificate] and [tls.X509KeyPair]. *)
Context (pem_Decode : string → option string) (x509_ParseCertificate : string → res ()).
Context (tls_X509KeyPair : string → string → res ()).

Abbreviation builder := (M (StoreBuilder C)).

Definition cache_add (o : asset) : builder () := fun st =>
  (Build_StoreBuilder (Add o (objStore st)) (tlsAssetKeys st), Ok ()).
Definition add_key (k : tlsAssetKey) : builder () := fun st =>
  (Build_StoreBuilder (objStore st) ({[k]} ∪ tlsAssetKeys st), Ok ()).

Definition bad_type {A} : res A := Panic "interface conversion: interface {} is of another type".

Definition GetConfigMapKey (namespace : string) (sel : ConfigMapKeySelector) : builder string :=
  let n := ConfigMapKeySelector_Name sel in
  if bool_decide (namespace = "") then mfail (Errorf "namespace cannot be empty" [])
  else
    st ← mget;
    cm ← match GetByKey (asset_key fromConfigMap namespace n) (objStore st) with
         | Some (AConfigMap cm) => mret cm
         | Some (ASecret _) => mlift bad_type
         | None =>
             cm ← mlift (wrap "unable to get configmap %q: %w" [n] (cmClient namespace n));
             _ ← cache_add (AConfigMap cm);
             mret cm
         end;
    match cm_Data cm !! ConfigMapKeySelector_Key sel with
    | Some v => mret v
    | None => mfail (Errorf "key %q in configmap %q not found" [ConfigMapKeySelector_Key sel; n])
    end.

Definition GetSecretKey (namespace : string) (sel : SecretKeySelector) : builder string :=
  let n := SecretKeySelector_Name sel in
  if bool_decide (namespace = "") then mfail (Errorf "namespace cannot be empty" [])
  else
    st ← mget;
    secret ← match GetByKey (asset_key fromSecret namespace n) (objStore st) with
             | Some (ASecret s) => mret s
             | Some (AConfigMap _) => mlift bad_type
             | None =>
                 s ← mlift (wrap "unable to get secret %q: %w" [n] (sClient namespace n));
                 _ ← cache_add (ASecret s);
                 mret s
             end;
    match sec_Data secret !! SecretKeySelector_Key sel with
    | Some v => mret v
    | None => mfail (Errorf "key %q in secret %q not found" [SecretKeySelector_Key sel; n])
    end.

Definition GetKey (namespace : string) (sel : SecretOrConfigMap) : builder string :=
  match SecretOrConfigMap_Secret sel, SecretOrConfigMap_ConfigMap sel with
  | Some s, _ => GetSecretKey namespace s
  | None, Some c => GetConfigMapKey namespace c
  | None, None => mret ""
  end.

Definition AddBasicAuth (ns : string) (ba : option BasicAuth) : builder () :=
  match ba with
  | None => mret ()
  | Some ba =>
      _ ← mwrap "failed to get basic auth username: %w" [] (GetSecretKey ns (BasicAuth_Username ba));
      _ ← mwrap "failed to get basic auth password: %w" [] (GetSecretKey ns (BasicAuth_Password ba));
      mret ()
  end.

(** The entries of the map in the order Go visits them. *)
Definition AddProxyConfig_order (order : list (string * list SecretKeySelector)) (namespace : string)
    : builder () :=
  mfor_each (fun kv =>
      mfor_each (fun '(index, sel) =>
          mwrap "header[%s][%d]: %w" [kv.1; Itoa (Z.of_nat index)]
            (GetSecretKey namespace sel ≫= fun _ => mret ())) (imap pair kv.2)) order.
Definition AddProxyConfig (namespace : string) (pc : ProxyConfig) : builder () :=
  AddProxyConfig_order (map_to_list (default ∅ (ProxyConfig_ProxyConnectHeader pc))) namespace.

Definition add_ca (ns : string) (CA : SecretOrConfigMap) (ca : string) : builder () :=
  if bool_decide (ca = "") then mret ()
  else
    _ ← mlift (match pem_Decode ca with
               | None => Err (Errorf "ca %s: failed to decode PEM block" [SecretOrConfigMap_String CA])
               | Some block =>
                   wrap "ca %s: failed to parse certificate: %w" [SecretOrConfigMap_String CA]
                     (x509_ParseCertificate block)
               end);
    k ← mlift (tlsAssetKeyFromSelector ns CA);
    add_key k.
(** [KeySecret] is set whenever the key is not empty. *)
Definition add_pair (ns : string) (tlsConfig : SafeTLSConfig) (cert key : string) : builder () :=
  if bool_decide (cert = "") || bool_decide (key = "") then mret ()
  else
    match SafeTLSConfig_KeySecret tlsConfig with
    | None => mret ()
    | Some KeySecret =>
        _ ← mlift (wrap "cert %s, key <%s/%s>: %w"
                     [SecretOrConfigMap_String (SafeTLSConfig_Cert tlsConfig);
                      SecretKeySelector_Name KeySecret; SecretKeySelector_Key KeySecret]
                     (tls_X509KeyPair cert key));
        kc ← mlift (tlsAssetKeyFromSelector ns (SafeTLSConfig_Cert tlsConfig));
        _ ← add_key kc;
        kk ← mlift (tlsAssetKeyFromSecretSelector ns KeySecret);
        add_key kk
    end.
Definition addTLSAssets (ns : string) (tlsConfig : SafeTLSConfig) : builder () :=
  let CA := SafeTLSConfig_CA tlsConfig in
  let Cert := SafeTLSConfig_Cert tlsConfig in
  ca ← mwrap "failed to get ca %q: %w" [SecretOrConfigMap_String CA] (GetKey ns CA);
  cert ← mwrap "failed to get cert %q: %w" [SecretOrConfigMap_String Cert] (GetKey ns Cert);
  key ← match SafeTLSConfig_KeySecret tlsConfig with
        | None => mret ""
        | Some k => mwrap "failed to get key %s/%s: %w" [SecretKeySelector_Name k; SecretKeySelector_Key k]
                      (GetSecretKey ns k)
        end;
  _ ← add_ca ns CA ca;
  add_pair ns tlsConfig cert key.

Definition AddSafeTLSConfig (ns : string) (tlsConfig : option SafeTLSConfig) : builder () :=
  match tlsConfig with
  | None => mret ()
  | Some c =>
      _ ← mlift (wrap "failed to validate TLS configuration: %w" [] (SafeTLSConfig_Validate tlsConfig));
      addTLSAssets ns c
  end.
Definition AddTLSConfig (ns : string) (tlsConfig : option TLSConfig) : builder () :=
  match tlsConfig with
  | None => mret ()
  | Some c =>
      _ ← mlift (wrap "failed to validate TLS configuration: %w" [] (TLSConfig_Validate tlsConfig));
      addTLSAssets ns (TLSConfig_SafeTLSConfig c)
  end.

Definition AddOAuth2 (ns : string) (oauth2 : option OAuth2) : builder () :=
  match oauth2 with
  | None => mret ()
  | Some o =>
      _ ← mlift (OAuth2_Validate o);
      _ ← mwrap "failed to get oauth2 client id: %w" [] (GetKey ns (OAuth2_ClientID o));
      _ ← mwrap "failed to get oauth2 client secret: %w" [] (GetSecretKey ns (OAuth2_ClientSecret o));
      _ ← mwrap "failed to get oauth2 proxyConfig: %w" [] (AddProxyConfig ns (OAuth2_ProxyConfig o));
      mwrap "failed to get oauth2 tlsConfig: %w" [] (AddSafeTLSConfig ns (OAuth2_TLSConfig o))
  end.

Definition AddSafeAuthorizationCredentials (namespace : string) (auth : option SafeAuthorization) : builder () :=
  match auth with
  | None => mret ()
  | Some a =>
      match SafeAuthorization_Credentials a with
      | None => mret ()
      | Some c =>
          _ ← mlift (SafeAuthorization_Validate auth);
          if bool_decide (SecretKeySelector_Name c ≠ "")
          then mwrap "failed to get authorization token of type %q: %w" [SafeAuthorization_Type a]
                 (GetSecretKey namespace c ≫= fun _ => mret ())
          else mret ()
      end
  end.
Definition AddAuthorizationCredentials (namespace : string) (auth : option Authorization) : builder () :=
  match auth with
  | None => mret ()
  | Some a =>
      let safe := Authorization_SafeAuthorization a in
      match SafeAuthorization_Credentials safe with
      | None => mret ()
      | Some c =>
          _ ← mlift (Authorization_Validate auth);
          if bool_decide (SecretKeySelector_Name c ≠ "")
          then mwrap "failed to get authorization token of type %q: %w" [SafeAuthorization_Type safe]
                 (GetSecretKey namespace c ≫= fun _ => mret ())
          else mret ()
      end
  end.

Definition AddSigV4 (ns : string) (sigv4 : option Sigv4) : builder () :=
  match sigv4 with
  | None => mret ()
  | Some s =>
      match Sigv4_AccessKey s, Sigv4_SecretKey s with
      | None, None => mret ()
      | Some ak, Some sk =>
          _ ← mwrap "failed to read SigV4 access-key: %w" [] (GetSecretKey ns ak);
          _ ← mwrap "failed to read SigV4 secret-key: %w" [] (GetSecretKey ns sk);
          mret ()
      | _, _ => mfail (Errorf "both accessKey and secretKey should be provided" [])
      end
  end.

Definition AddAzureOAuth (ns : string) (azureAD : option AzureAD) : builder () :=
  match azureAD ≫= AzureAD_OAuth with
  | None => mret ()
  | Some o =>
      mwrap "failed to read AzureOAuth clientSecret: %w" []
        (GetSecretKey ns (AzureOAuth_ClientSecret o) ≫= fun _ => mret ())
  end.
End builder.

(** ** Reading from the cache only *)

Section getter.
Context {C : Type} `{CacheStore C}.

Record cacheOnlyStore := { cos_ns : string; cos_c : C }.
Definition ForNamespace (s : StoreBuilder C) (namespace : string) : res cacheOnlyStore :=
  if bool_decide (namespace = "") then Panic "namespace can't be empty"
  else Ok {| cos_ns := namespace; cos_c := objStore s |}.

Definition cos_GetConfigMapKey (cos : cacheOnlyStore) (sel : ConfigMapKeySelector) : res string :=
  let n := ConfigMapKeySelector_Name sel in
  match GetByKey (asset_key fromConfigMap (cos_ns cos) n) (cos_c cos) with
  | None => Err (Errorf "configmap %s/%s not found" [cos_ns cos; n])
  | Some (ASecret _) => bad_type
  | Some (AConfigMap cm) =>
      match cm_Data cm !! ConfigMapKeySelector_Key sel with
      | Some v => Ok v
      | None => Err (Errorf "key %q in configmap %s/%s not found" [ConfigMapKeySelector_Key sel; cos_ns cos; n])
      end
  end.
Definition cos_GetSecretKey (cos : cacheOnlyStore) (sel : SecretKeySelector) : res string :=
  let n := SecretKeySelector_Name sel in
  match GetByKey (asset_key fromSecret (cos_ns cos) n) (cos_c cos) with
  | None => Err (Errorf "secret %s/%s not found" [cos_ns cos; n])
  | Some (AConfigMap _) => bad_type
  | Some (ASecret s) =>
      match sec_Data s !! SecretKeySelector_Key sel with
      | Some v => Ok v
      | None => Err (Errorf "key %q in secret %s/%s not found" [SecretKeySelector_Key sel; cos_ns cos; n])
      end
  end.
Definition cos_GetSecretOrConfigMapKey (cos : cacheOnlyStore) (key : SecretOrConfigMap) : res string :=
  match SecretOrConfigMap_Secret key, SecretOrConfigMap_ConfigMap key with
  | Some s, _ => cos_GetSecretKey cos s
  | None, Some c => cos_GetConfigMapKey cos c
  | None, None => Ok ""
  end.
(** [TLSAsset] on its two argument types. *)
Definition TLSAsset (cos : cacheOnlyStore) (sel : SecretOrConfigMap) : res string :=
  toString <$> tlsAssetKeyFromSelector (cos_ns cos) sel.
Definition TLSAsset_secret (cos : cacheOnlyStore) (sel : SecretKeySelector) : res string :=
  toString <$> tlsAssetKeyFromSecretSelector (cos_ns cos) sel.

(** ** The TLS assets *)

Definition asset_data (obj : asset) (key : string) : string :=
  match obj with
  | AConfigMap v => default "" (cm_Data v !! key)
  | ASecret v => default "" (sec_Data v !! key)
  end.
(** The loop over [tlsAssetKeys], visited in some order. *)
Definition tls_asset (c : C) (m : gmap string string) (tak : tlsAssetKey) : gmap string string :=
  match GetByKey (asset_key (tak_from tak) (tak_ns tak) (tak_name tak)) c with
  | None => m
  | Some obj =>
      let b := asset_data obj (tak_key tak) in
      if bool_decide (b = "") then m else <[toString tak := b]> m
  end.
Definition TLSAssets (order : list tlsAssetKey) (s : StoreBuilder C) : gmap string string :=
  foldl (tls_asset (objStore s)) ∅ order.
End getter.
Arguments cacheOnlyStore C : clear implicits.

(** ** Names are unambiguous *)

Lemma cut_unique sep a b x y :
  contains_char sep a = false → contains_char sep b = false →
  a +:+ String sep x = b +:+ String sep y → a = b ∧ x = y.
Proof.
  intros Ha Hb E. pose proof (Split_app a x sep Ha) as Sa. pose proof (Split_app b y sep Hb) as Sb.
  rewrite E, Sb in Sa. injection Sa as Hab _. subst b. split; [done|].
  apply app_str_inj_l in E. by injection E.
Qed.
Lemma source_no_sep sep f :
  sep = "_"%char ∨ sep = "/"%char → contains_char sep (Itoa (source_int f)) = false.
Proof. intros [-> | ->]; by destruct f. Qed.
Lemma source_int_inj f g : Itoa (source_int f) = Itoa (source_int g) → f = g.
Proof. intros E%(inj Itoa). by destruct f, g. Qed.

(** Namespaces and names of Kubernetes objects hold no underscore. *)
Definition k8s_names (k : tlsAssetKey) : Prop :=
  contains_char "_" (tak_ns k) = false ∧ contains_char "_" (tak_name k) = false.
Lemma toString_inj k k' : k8s_names k → k8s_names k' → toString k = toString k' → k = k'.
Proof.
  intros [Hns Hn] [Hns' Hn'] E. destruct k as [f ns n key], k' as [f' ns' n' key']. simpl in *.
  apply cut_unique in E as [Hf%source_int_inj E]; [|apply source_no_sep; by left..].
  apply cut_unique in E as [Hns1 E]; [|done..]. apply cut_unique in E as [Hn1 Hk1]; [|done..].
  simpl in *. by subst.
Qed.

(** ** The store only grows *)

Section grows.
Context {C : Type} `{CacheStore C}.

Record grows (st st' : StoreBuilder C) : Prop := {
  grows_cache k o : GetByKey k (objStore st) = Some o → GetByKey k (objStore st') = Some o;
  grows_keys : tlsAssetKeys st ⊆ tlsAssetKeys st';
}.
#[global] Instance grows_preorder : PreOrder grows.
Proof.
  split; [by split|]. intros s1 s2 s3 [H1 K1] [H2 K2]. split; [auto|]. by trans (tlsAssetKeys s2).
Qed.

(** A computation of the builder that keeps what is there, whether it succeeds or not. *)
Definition monotone {A} (c : M (StoreBuilder C) A) : Prop := ∀ st, grows st (c st).1.

Lemma monotone_ret {A} (a : A) : monotone (mret a).
Proof. by intros st. Qed.
Lemma monotone_fail {A} e : monotone (mfail e : M _ A).
Proof. by intros st. Qed.
Lemma monotone_lift {A} (r : res A) : monotone (mlift r).
Proof. by intros st. Qed.
Lemma monotone_bind {A B} (c : M _ A) (k : A → M _ B) :
  monotone c → (∀ a, monotone (k a)) → monotone (c ≫= k).
Proof.
  intros Hc Hk st. specialize (Hc st). unfold mbind, M_bind.
  destruct (c st) as [st1 [a|e|m]]; simpl in *; [|done..]. trans st1; [done|apply Hk].
Qed.
Lemma monotone_wrap {A} f args (c : M _ A) : monotone c → monotone (mwrap f args c).
Proof. intros Hc st. specialize (Hc st). unfold mwrap. by destruct (c st). Qed.
Lemma monotone_for_each {A} (f : A → M _ ()) l : (∀ x, monotone (f x)) → monotone (mfor_each f l).
Proof. intros Hf. induction l; [apply monotone_ret|]. simpl. by apply monotone_bind. Qed.
Lemma monotone_add_key k : monotone (add_key k).
Proof. intros st. split; [done|]. simpl. set_solver. Qed.
End grows.

Create HintDb store.
#[export] Hint Resolve monotone_ret monotone_fail monotone_lift monotone_bind monotone_wrap
  monotone_for_each monotone_add_key : store.

(** Split the matches and conditionals of a computation until the hints apply. *)
Ltac monotone_tac :=
  repeat first
    [ progress intros
    | match goal with
      | |- monotone (match ?x with _ => _ end) => destruct x
      | |- monotone (let '(_, _) := ?x in _) => destruct x
      | |- monotone (_ ≫= _) => apply monotone_bind
      | |- monotone (mwrap _ _ _) => apply monotone_wrap
      | |- monotone (mfor_each _ _) => apply monotone_for_each
      end ]; eauto with store.

Section adding.
Context {C : Type} `{CacheStore C}.
Context (sClient : string → string → res Secret) (cmClient : string → string → res ConfigMap).
Context (pem_Decode : string → option string) (x509_ParseCertificate : string → res ()).
Context (tls_X509KeyPair : string → string → res ()).
(** The API answers with the object it was asked for. *)
Context (sClient_named : ∀ ns n s, sClient ns n = Ok s → om_Namespace (sec_meta s) = ns ∧ om_Name (sec_meta s) = n).
Context (cmClient_named : ∀ ns n c, cmClient ns n = Ok c → om_Namespace (cm_meta c) = ns ∧ om_Name (cm_meta c) = n).

Local Abbreviation secretKey := (GetSecretKey sClient).
Local Abbreviation configMapKey := (GetConfigMapKey cmClient).
Local Abbreviation anyKey := (GetKey sClient cmClient).
Local Abbreviation tlsAssets := (addTLSAssets sClient cmClient pem_Decode x509_ParseCertificate tls_X509KeyPair).

(** What a reference resolves to, from the cache of [st]. *)
Definition resolves (st : StoreBuilder C) (ns : string) (ref : SecretOrConfigMap) (v : string) : Prop :=
  cos_GetSecretOrConfigMapKey {| cos_ns := ns; cos_c := objStore st |} ref = Ok v.
Definition secret_ref (s : SecretKeySelector) : SecretOrConfigMap :=
  {| SecretOrConfigMap_Secret := Some s; SecretOrConfigMap_ConfigMap := None |}.

Lemma resolves_grows st st' ns ref v : grows st st' → resolves st ns ref v → resolves st' ns ref v.
Proof.
  intros [Hg _]. unfold resolves, cos_GetSecretOrConfigMapKey, cos_GetSecretKey, cos_GetConfigMapKey. simpl.
  destruct (SecretOrConfigMap_Secret ref), (SecretOrConfigMap_ConfigMap ref); try done.
  all: destruct (GetByKey _ (objStore st)) as [o|] eqn:E; [|done]; by rewrite (Hg _ _ E).
Qed.

Lemma GetSecretKey_monotone ns sel : monotone (secretKey ns sel).
Proof.
  unfold GetSecretKey. intros st. case_bool_decide; [done|].
  unfold mget, mbind, M_bind, mret, M_ret, mlift, cache_add, mfail. simpl.
  destruct (GetByKey _ (objStore st)) as [[s|c]|] eqn:E; simpl; [by case_match|done|].
  destruct (sClient ns _) as [s| |] eqn:Es; simpl; [|done..].
  assert (grows st (Build_StoreBuilder (Add (ASecret s) (objStore st)) (tlsAssetKeys st))) as Hg;
    [|by case_match].
  destruct (sClient_named _ _ _ Es) as [Hns Hn]. split; [|done]. simpl. intros k o Hk.
  rewrite GetByKey_add. simpl. rewrite Hns, Hn. case_decide as Hd; [|done]. congruence.
Qed.
Lemma GetConfigMapKey_monotone ns sel : monotone (configMapKey ns sel).
Proof.
  unfold GetConfigMapKey. intros st. case_bool_decide; [done|].
  unfold mget, mbind, M_bind, mret, M_ret, mlift, cache_add, mfail. simpl.
  destruct (GetByKey _ (objStore st)) as [[s|c]|] eqn:E; simpl; [done|by case_match|].
  destruct (cmClient ns _) as [c| |] eqn:Es; simpl; [|done..].
  assert (grows st (Build_StoreBuilder (Add (AConfigMap c) (objStore st)) (tlsAssetKeys st))) as Hg;
    [|by case_match].
  destruct (cmClient_named _ _ _ Es) as [Hns Hn]. split; [|done]. simpl. intros k o Hk.
  rewrite GetByKey_add. simpl. rewrite Hns, Hn. case_decide as Hd; [|done]. congruence.
Qed.
Hint Resolve GetSecretKey_monotone GetConfigMapKey_monotone : store.
Lemma GetKey_monotone ns sel : monotone (anyKey ns sel).
Proof. unfold GetKey. monotone_tac. Qed.
Hint Resolve GetKey_monotone : store.
Lemma addTLSAssets_monotone ns c : monotone (tlsAssets ns c).
Proof. unfold addTLSAssets, add_ca, add_pair. monotone_tac. Qed.
Hint Resolve addTLSAssets_monotone : store.

(** ** What was fetched can be read *)

Lemma GetSecretKey_resolves ns sel st st' v :
  secretKey ns sel st = (st', Ok v) → resolves st' ns (secret_ref sel) v.
Proof.
  unfold GetSecretKey. case_bool_decide; [done|]. intros (st1 & st2 & [= <- <-] & E)%mbind_ok.
  apply mbind_ok in E as (st1 & s & Es & E). unfold resolves, cos_GetSecretOrConfigMapKey, cos_GetSecretKey. simpl.
  assert (GetByKey (asset_key fromSecret ns (SecretKeySelector_Name sel)) (objStore st1) = Some (ASecret s)) as Hs.
  { destruct (GetByKey _ (objStore st)) as [[s'|c]|] eqn:Eg; [| |].
    - apply mret_ok in Es as [<- ->]. done.
    - by apply mlift_ok in Es as [_ Es].
    - apply mbind_ok in Es as (? & s' & [<- Ec%wrap_ok]%mlift_ok & Es).
      apply mbind_ok in Es as (? & ? & [= <- <-] & [<- ->]%mret_ok). simpl.
      destruct (sClient_named _ _ _ Ec) as [Hns Hn]. rewrite GetByKey_add. simpl.
      by rewrite Hns, Hn, decide_True. }
  destruct (sec_Data s !! SecretKeySelector_Key sel) eqn:Ed; [|done].
  apply mret_ok in E as [<- ->]. by rewrite Hs, Ed.
Qed.
Lemma GetConfigMapKey_resolves ns sel st st' v :
  configMapKey ns sel st = (st', Ok v) →
  resolves st' ns {| SecretOrConfigMap_Secret := None; SecretOrConfigMap_ConfigMap := Some sel |} v.
Proof.
  unfold GetConfigMapKey. case_bool_decide; [done|]. intros (st1 & st2 & [= <- <-] & E)%mbind_ok.
  apply mbind_ok in E as (st1 & s & Es & E). unfold resolves, cos_GetSecretOrConfigMapKey, cos_GetConfigMapKey. simpl.
  assert (GetByKey (asset_key fromConfigMap ns (ConfigMapKeySelector_Name sel)) (objStore st1) = Some (AConfigMap s)) as Hs.
  { destruct (GetByKey _ (objStore st)) as [[s'|c]|] eqn:Eg; [| |].
    - by apply mlift_ok in Es as [_ Es].
    - apply mret_ok in Es as [<- ->]. done.
    - apply mbind_ok in Es as (? & s' & [<- Ec%wrap_ok]%mlift_ok & Es).
      apply mbind_ok in Es as (? & ? & [= <- <-] & [<- ->]%mret_ok). simpl.
      destruct (cmClient_named _ _ _ Ec) as [Hns Hn]. rewrite GetByKey_add. simpl.
      by rewrite Hns, Hn, decide_True. }
  destruct (cm_Data s !! ConfigMapKeySelector_Key sel) eqn:Ed; [|done].
  apply mret_ok in E as [<- ->]. by rewrite Hs, Ed.
Qed.
Lemma GetKey_resolves ns sel st st' v : anyKey ns sel st = (st', Ok v) → resolves st' ns sel v.
Proof.
  unfold GetKey. destruct sel as [[s|] [c|]]; simpl.
  - intros E%GetSecretKey_resolves. exact E.
  - apply GetSecretKey_resolves.
  - apply GetConfigMapKey_resolves.
  - by intros [_ <-]%mret_ok.
Qed.

(** ** Sequences of additions *)

(** What a resource may add to the store. *)
Inductive addition :=
  | OfBasicAuth (o : option BasicAuth)
  | OfProxyConfig (pc : ProxyConfig)
  | OfSafeTLSConfig (o : option SafeTLSConfig)
  | OfTLSConfig (o : option TLSConfig)
  | OfOAuth2 (o : option OAuth2)
  | OfSafeAuthorization (o : option SafeAuthorization)
  | OfAuthorization (o : option Authorization)
  | OfSigV4 (o : option Sigv4)
  | OfAzureAD (o : option AzureAD).

Definition run_addition (x : string * addition) : M (StoreBuilder C) () :=
  let ns := x.1 in
  match x.2 with
  | OfBasicAuth o => AddBasicAuth sClient ns o
  | OfProxyConfig pc => AddProxyConfig sClient ns pc
  | OfSafeTLSConfig o => AddSafeTLSConfig sClient cmClient pem_Decode x509_ParseCertificate tls_X509KeyPair ns o
  | OfTLSConfig o => AddTLSConfig sClient cmClient pem_Decode x509_ParseCertificate tls_X509KeyPair ns o
  | OfOAuth2 o => AddOAuth2 sClient cmClient pem_Decode x509_ParseCertificate tls_X509KeyPair ns o
  | OfSafeAuthorization o => AddSafeAuthorizationCredentials sClient ns o
  | OfAuthorization o => AddAuthorizationCredentials sClient ns o
  | OfSigV4 o => AddSigV4 sClient ns o
  | OfAzureAD o => AddAzureOAuth sClient ns o
  end.

(** The references the configuration generator resolves for it. *)
Definition tls_refs (c : SafeTLSConfig) : list SecretOrConfigMap :=
  [SafeTLSConfig_CA c; SafeTLSConfig_Cert c] ++ (secret_ref <$> option_list (SafeTLSConfig_KeySecret c)).
Definition proxy_refs (pc : ProxyConfig) : list SecretOrConfigMap :=
  secret_ref <$> concat ((map_to_list (default ∅ (ProxyConfig_ProxyConnectHeader pc))).*2).
Definition auth_refs (a : SafeAuthorization) : list SecretOrConfigMap :=
  secret_ref <$> filter (fun c => SecretKeySelector_Name c ≠ "") (option_list (SafeAuthorization_Credentials a)).
Definition addition_refs (a : addition) : list SecretOrConfigMap :=
  match a with
  | OfBasicAuth (Some b) => [secret_ref (BasicAuth_Username b); secret_ref (BasicAuth_Password b)]
  | OfProxyConfig pc => proxy_refs pc
  | OfSafeTLSConfig (Some c) => tls_refs c
  | OfTLSConfig (Some c) => tls_refs (TLSConfig_SafeTLSConfig c)
  | OfOAuth2 (Some o) =>
      [OAuth2_ClientID o; secret_ref (OAuth2_ClientSecret o)] ++ proxy_refs (OAuth2_ProxyConfig o) ++
      default [] (tls_refs <$> OAuth2_TLSConfig o)
  | OfSafeAuthorization (Some a) => auth_refs a
  | OfAuthorization (Some a) => auth_refs (Authorization_SafeAuthorization a)
  | OfSigV4 (Some s) =>
      match Sigv4_AccessKey s, Sigv4_SecretKey s with
      | Some ak, Some sk => [secret_ref ak; secret_ref sk] | _, _ => [] end
  | OfAzureAD o => match o ≫= AzureAD_OAuth with Some x => [secret_ref (AzureOAuth_ClientSecret x)] | None => [] end
  | _ => []
  end.

Lemma run_addition_monotone x : monotone (run_addition x).
Proof.
  destruct x as [ns []]; unfold run_addition; simpl;
    unfold AddBasicAuth, AddProxyConfig, AddProxyConfig_order, AddSafeTLSConfig, AddTLSConfig, AddOAuth2,
      AddSafeAuthorizationCredentials, AddAuthorizationCredentials, AddSigV4, AddAzureOAuth,
      AddProxyConfig, AddProxyConfig_order, AddSafeTLSConfig; monotone_tac.
Qed.

Definition resolved (st : StoreBuilder C) (ns : string) (ref : SecretOrConfigMap) : Prop :=
  ∃ v, resolves st ns ref v.
Lemma resolved_grows st st' ns refs :
  grows st st' → Forall (resolved st ns) refs → Forall (resolved st' ns) refs.
Proof.
  intros Hg HF. eapply Forall_impl; [exact HF|]. intros ref [v Hv]. exists v. by eapply resolves_grows.
Qed.

(** [c] leaves the references resolved. *)
Definition secures {A} (ns : string) (refs : list SecretOrConfigMap) (c : M (StoreBuilder C) A) : Prop :=
  ∀ st st' v, c st = (st', Ok v) → Forall (resolved st' ns) refs.
Lemma secures_nil {A} ns (c : M _ A) : secures ns [] c.
Proof. by intros st st' v _. Qed.
Lemma secures_bind {A B} ns refs refs' (c : M _ A) (k : A → M _ B) :
  secures ns refs c → (∀ a, monotone (k a)) → (∀ a, secures ns refs' (k a)) →
  secures ns (refs ++ refs') (c ≫= k).
Proof.
  intros Hc Hm Hk st st' v (st1 & a & E1 & E2)%mbind_ok. apply Forall_app. split.
  - eapply resolved_grows; [|by eapply Hc]. specialize (Hm a st1). by rewrite E2 in Hm.
  - by eapply Hk.
Qed.
Lemma secures_skip {A B} ns refs (c : M _ A) (k : A → M _ B) :
  (∀ a, secures ns refs (k a)) → secures ns refs (c ≫= k).
Proof. intros Hk st st' v (st1 & a & E1 & E2)%mbind_ok. by eapply Hk. Qed.
Lemma secures_then_ret {A B} ns refs (c : M _ A) (b : B) :
  secures ns refs c → secures ns refs (c ≫= fun _ => mret b).
Proof. intros Hc st st' v (st1 & a & E1 & [<- _]%mret_ok)%mbind_ok. by eapply Hc. Qed.
Lemma secures_wrap {A} ns refs f args (c : M _ A) : secures ns refs c → secures ns refs (mwrap f args c).
Proof. intros Hc st st' v E%mwrap_ok. by eapply Hc. Qed.
Lemma secures_secret ns sel : secures ns [secret_ref sel] (secretKey ns sel).
Proof. intros st st' v E%GetSecretKey_resolves. apply Forall_singleton. by exists v. Qed.
Lemma secures_key ns sel : secures ns [sel] (anyKey ns sel).
Proof. intros st st' v E%GetKey_resolves. apply Forall_singleton. by exists v. Qed.
Lemma secures_for_each {A} ns (refs : A → list SecretOrConfigMap) f l :
  (∀ x, monotone (f x)) → (∀ x, secures ns (refs x) (f x)) →
  secures ns (concat (refs <$> l)) (mfor_each f l).
Proof.
  intros Hm Hf. induction l as [|x l IH]; [apply secures_nil|]. simpl.
  apply secures_bind; [done|intros _; by apply monotone_for_each|done].
Qed.

Lemma proxy_secures ns pc : secures ns (proxy_refs pc) (AddProxyConfig sClient ns pc).
Proof.
  unfold AddProxyConfig, AddProxyConfig_order, proxy_refs.
  intros st st' v E. eapply (secures_for_each ns (fun kv => secret_ref <$> kv.2)) in E; [| |].
  - revert E. generalize (map_to_list (default ∅ (ProxyConfig_ProxyConnectHeader pc))). intros l.
    induction l as [|kv l IH]; simpl; [done|]. rewrite fmap_app, !Forall_app. intros [H1 H2]. auto.
  - intros kv. monotone_tac.
  - intros [k l]. simpl. clear E.
    assert (∀ n, secures ns (secret_ref <$> l) (mfor_each (fun '(index, sel) =>
      mwrap "header[%s][%d]: %w" [k; Itoa (Z.of_nat index)] (secretKey ns sel ≫= (fun _ => mret ())))
      (imap (fun i x => (n + i, x)) l))) as Hl; [|exact (Hl 0)].
    induction l as [|x l IH]; intros n; simpl; [apply secures_nil|].
    apply (secures_bind ns [secret_ref x]).
    + apply secures_wrap, secures_then_ret, secures_secret.
    + intros _. monotone_tac.
    + intros _. specialize (IH (S n)). rewrite (imap_ext _ (fun i y => (S n + i, y)) l); [done|].
      intros i y _. simpl. f_equal. lia.
Qed.
Lemma tls_secures ns c : secures ns (tls_refs c) (tlsAssets ns c).
Proof.
  unfold addTLSAssets, tls_refs.
  apply (secures_bind ns [SafeTLSConfig_CA c]); [by apply secures_wrap, secures_key|unfold add_ca, add_pair; monotone_tac|].
  intros ca. apply (secures_bind ns [SafeTLSConfig_Cert c]); [by apply secures_wrap, secures_key|unfold add_ca, add_pair; monotone_tac|].
  intros cert. rewrite <-(app_nil_r (secret_ref <$> _)). apply secures_bind; [|unfold add_ca, add_pair; monotone_tac|].
  - destruct (SafeTLSConfig_KeySecret c); [|apply secures_nil]. by apply secures_wrap, secures_secret.
  - intros key. apply secures_nil.
Qed.
Lemma auth_secures ns a (v : res ()) f args :
  secures ns (auth_refs a)
    (match SafeAuthorization_Credentials a with
     | None => mret ()
     | Some c => _ ← mlift v;
         if bool_decide (SecretKeySelector_Name c ≠ "")
         then mwrap f args (secretKey ns c ≫= fun _ => mret ()) else mret ()
     end).
Proof.
  unfold auth_refs. destruct (SafeAuthorization_Credentials a) as [c|]; [|apply secures_nil].
  apply secures_skip. intros _. simpl. rewrite filter_cons. case_bool_decide as Hc.
  - rewrite decide_True by done. by apply secures_wrap, secures_then_ret, secures_secret.
  - case_decide; [done|]. apply secures_nil.
Qed.

Lemma run_addition_secures x : secures x.1 (addition_refs x.2) (run_addition x).
Proof.
  destruct x as [ns []]; unfold run_addition; simpl.
  - destruct o as [b|]; [|apply secures_nil]. unfold AddBasicAuth.
    apply (secures_bind ns [_]); [by apply secures_wrap, secures_secret|monotone_tac|].
    intros _. by apply secures_then_ret, secures_wrap, secures_secret.
  - apply proxy_secures.
  - destruct o as [c|]; [|apply secures_nil]. apply secures_skip. intros _. apply tls_secures.
  - destruct o as [c|]; [|apply secures_nil]. apply secures_skip. intros _. apply tls_secures.
  - destruct o as [o|]; [|apply secures_nil]. unfold AddOAuth2. apply secures_skip. intros _.
    apply (secures_bind ns [_]); [by apply secures_wrap, secures_key
      |unfold AddProxyConfig, AddProxyConfig_order, AddSafeTLSConfig; monotone_tac|].
    intros _. apply (secures_bind ns [_]); [by apply secures_wrap, secures_secret
      |unfold AddProxyConfig, AddProxyConfig_order, AddSafeTLSConfig; monotone_tac|].
    intros _. apply secures_bind; [by apply secures_wrap, proxy_secures
      |unfold AddSafeTLSConfig; monotone_tac|].
    intros _. apply secures_wrap. unfold AddSafeTLSConfig.
    destruct (OAuth2_TLSConfig o); [|apply secures_nil]. apply secures_skip. intros _. apply tls_secures.
  - destruct o as [a|]; [|apply secures_nil]. apply auth_secures.
  - destruct o as [a|]; [|apply secures_nil]. apply auth_secures.
  - destruct o as [s|]; [|apply secures_nil]. unfold AddSigV4.
    destruct (Sigv4_AccessKey s), (Sigv4_SecretKey s); try apply secures_nil.
    apply (secures_bind ns [_]); [by apply secures_wrap, secures_secret|monotone_tac|].
    intros _. by apply secures_then_ret, secures_wrap, secures_secret.
  - unfold AddAzureOAuth. destruct (o ≫= AzureAD_OAuth); [|apply secures_nil].
    by apply secures_wrap, secures_then_ret, secures_secret.
Qed.

(** C14: after any sequence of successful additions to the store, for resources of any namespaces
    and in any order, every reference of every one of them is resolved from the cache: no
    credential the configuration generator looks up is missing. *)
Theorem added_references_resolve (l : list (string * addition)) st st' :
  mfor_each run_addition l st = (st', Ok ()) →
  ∀ ns a ref, (ns, a) ∈ l → ref ∈ addition_refs a → ∃ v, resolves st' ns ref v.
Proof.
  revert st. induction l as [|x l IH]; intros st E ns a ref Hl Href; simpl in E; [by apply elem_of_nil in Hl|].
  apply mbind_ok in E as (st1 & [] & E1 & E2). apply elem_of_cons in Hl as [<-|Hl]; [|by eapply IH].
  pose proof (run_addition_secures _ _ _ _ E1) as Hs. simpl in Hs.
  assert (grows st1 st') as Hg.
  { pose proof (monotone_for_each run_addition l run_addition_monotone st1) as Hm. by rewrite E2 in Hm. }
  eapply resolved_grows in Hs; [|exact Hg]. rewrite Forall_forall in Hs. by apply Hs.
Qed.

(** ** TLS material *)

(** The content of the file made for a key, if there is one. *)
Definition tls_file (c : C) (k : tlsAssetKey) : option string :=
  obj ← GetByKey (asset_key (tak_from k) (tak_ns k) (tak_name k)) c;
  let b := asset_data obj (tak_key k) in if bool_decide (b = "") then None else Some b.

Lemma lookup_TLSAssets (c : C) order n v :
  (∀ k k', k ∈ order → k' ∈ order → toString k = toString k' → k = k') →
  foldl (tls_asset c) ∅ order !! n = Some v ↔ ∃ k, k ∈ order ∧ toString k = n ∧ tls_file c k = Some v.
Proof.
  induction order as [|k order IH] using rev_ind; intros Hinj; simpl.
  { rewrite lookup_empty. split; [done|]. intros (k & Hk & _). by apply elem_of_nil in Hk. }
  rewrite foldl_app. simpl. set (m := foldl (tls_asset c) ∅ order) in *.
  assert (m !! n = Some v ↔ ∃ k, k ∈ order ∧ toString k = n ∧ tls_file c k = Some v) as IH'.
  { apply IH. intros k1 k2 H1 H2. apply Hinj; set_solver. }
  assert (tls_asset c m k = match tls_file c k with Some b => <[toString k := b]> m | None => m end) as ->.
  { unfold tls_asset, tls_file. destruct (GetByKey _ c); simpl; [|done]. by case_bool_decide. }
  destruct (decide (toString k = n)) as [<-|Hne].
  - assert ((∃ k0, k0 ∈ order ++ [k] ∧ toString k0 = toString k ∧ tls_file c k0 = Some v) ↔ tls_file c k = Some v) as ->.
    { split; [|intros Hv; exists k; set_solver]. intros (k0 & Hk0 & Hn & Hv).
      rewrite <-(Hinj k0 k); [done|set_solver..|done]. }
    destruct (tls_file c k) as [b|] eqn:Ef; [by rewrite lookup_insert_eq|].
    split; [|done]. intros (k0 & Hk0 & Hn & Hv)%IH'. rewrite (Hinj k0 k) in Hv; [congruence|set_solver..|done].
  - assert ((match tls_file c k with Some b => <[toString k := b]> m | None => m end) !! n = m !! n) as ->.
    { destruct (tls_file c k); [by rewrite lookup_insert_ne|done]. }
    rewrite IH'. split; intros (k0 & Hk0 & Hn & Hv); exists k0; [set_solver|].
    apply elem_of_app in Hk0 as [Hk0|Hk0%list_elem_of_singleton]; [done|by subst].
Qed.

Lemma resolves_file st ns ref v :
  resolves st ns ref v → v ≠ "" → ∃ k, tlsAssetKeyFromSelector ns ref = Ok k ∧ tls_file (objStore st) k = Some v.
Proof.
  unfold resolves, cos_GetSecretOrConfigMapKey, cos_GetSecretKey, cos_GetConfigMapKey, tlsAssetKeyFromSelector, tls_file.
  destruct ref as [[s|] [cm|]]; simpl; [| | |by intros [= <-]]; intros E Hv; (eexists; split; [done|]); simpl.
  all: destruct (GetByKey _ (objStore st)) as [[o|o]|]; simpl; try done.
  all: revert E; case_match; intros [= <-]; simpl; by rewrite bool_decide_false.
Qed.

Lemma resolves_fun st ns ref v w : resolves st ns ref v → resolves st ns ref w → v = w.
Proof. unfold resolves. congruence. Qed.

(** The keys of the material of [c] that is not empty are recorded. *)
Definition recorded (st : StoreBuilder C) (ns : string) (ref : SecretOrConfigMap) : Prop :=
  ∃ k, tlsAssetKeyFromSelector ns ref = Ok k ∧ k ∈ tlsAssetKeys st.
Definition tls_recorded (st : StoreBuilder C) (ns : string) (c : SafeTLSConfig) : Prop :=
  (∀ v, resolves st ns (SafeTLSConfig_CA c) v → v ≠ "" → recorded st ns (SafeTLSConfig_CA c)) ∧
  (∀ k v w, SafeTLSConfig_KeySecret c = Some k → resolves st ns (SafeTLSConfig_Cert c) v →
     resolves st ns (secret_ref k) w → v ≠ "" → w ≠ "" →
     recorded st ns (SafeTLSConfig_Cert c) ∧ recorded st ns (secret_ref k)).

Lemma add_ca_recorded ns CA ca st st' :
  add_ca pem_Decode x509_ParseCertificate ns CA ca st = (st', Ok ()) → ca ≠ "" → recorded st' ns CA.
Proof.
  unfold add_ca. intros E Hca. rewrite bool_decide_false in E by done.
  apply mbind_ok in E as (? & ? & [<- _]%mlift_ok & (? & k & [<- Hk]%mlift_ok & [= <-])%mbind_ok).
  exists k. split; [done|]. simpl. set_solver.
Qed.
Lemma add_pair_recorded ns c cert key k st st' :
  add_pair tls_X509KeyPair ns c cert key st = (st', Ok ()) → SafeTLSConfig_KeySecret c = Some k →
  cert ≠ "" → key ≠ "" → recorded st' ns (SafeTLSConfig_Cert c) ∧ recorded st' ns (secret_ref k).
Proof.
  unfold add_pair. intros E Hk Hc Hkey. rewrite !bool_decide_false in E by done. simpl in E. rewrite Hk in E.
  apply mbind_ok in E as (? & ? & [<- _]%mlift_ok & (? & kc & [<- Hkc]%mlift_ok & E)%mbind_ok).
  apply mbind_ok in E as (? & ? & [= <- _] & (? & kk & [<- Hkk]%mlift_ok & [= <-])%mbind_ok).
  split; [exists kc|exists kk]; (split; [done|]); simpl; set_solver.
Qed.
Lemma addTLSAssets_recorded ns c st st' : tlsAssets ns c st = (st', Ok ()) → tls_recorded st' ns c.
Proof.
  unfold addTLSAssets. intros (s1 & ca & E1%mwrap_ok & (s2 & cert & E2%mwrap_ok & E)%mbind_ok)%mbind_ok.
  apply mbind_ok in E as (s3 & key & E3 & (s4 & [] & E4 & E5)%mbind_ok).
  assert (grows s1 s2) as G2 by (pose proof (GetKey_monotone ns (SafeTLSConfig_Cert c) s1) as G; by rewrite E2 in G).
  assert (grows s2 s3) as G3.
  { revert E3. destruct (SafeTLSConfig_KeySecret c) as [k|]; [|intros [<- _]%mret_ok; done].
    intros E3%mwrap_ok. pose proof (GetSecretKey_monotone ns k s2) as G. by rewrite E3 in G. }
  assert (grows s3 s4) as G4.
  { assert (monotone (add_ca pem_Decode x509_ParseCertificate ns (SafeTLSConfig_CA c) ca)) as G
      by (unfold add_ca; monotone_tac). specialize (G s3). by rewrite E4 in G. }
  assert (grows s4 st') as G5.
  { assert (monotone (add_pair tls_X509KeyPair ns c cert key)) as G by (unfold add_pair; monotone_tac).
    specialize (G s4). by rewrite E5 in G. }
  split.
  - intros v Hv Hne.
    assert (v = ca) as -> by (eapply resolves_fun; [exact Hv|]; eapply resolves_grows; [|by eapply GetKey_resolves];
      by rewrite G2, G3, G4).
    destruct (add_ca_recorded _ _ _ _ _ E4 Hne) as (k & Hk & Hin). exists k. split; [done|].
    by apply (grows_keys _ _ G5).
  - intros k v w Hk Hv Hw Hv' Hw'. rewrite Hk in E3. apply mwrap_ok in E3.
    assert (v = cert) as -> by (eapply resolves_fun; [exact Hv|]; eapply resolves_grows; [|by eapply GetKey_resolves];
      by rewrite G3, G4).
    assert (w = key) as -> by (eapply resolves_fun; [exact Hw|]; eapply resolves_grows; [|by eapply GetSecretKey_resolves];
      by rewrite G4).
    by eapply add_pair_recorded.
Qed.

(** The TLS settings an addition brings. *)
Definition tls_of (a : addition) : option SafeTLSConfig :=
  match a with
  | OfSafeTLSConfig o => o
  | OfTLSConfig o => TLSConfig_SafeTLSConfig <$> o
  | OfOAuth2 (Some o) => OAuth2_TLSConfig o
  | _ => None
  end.
Lemma run_addition_recorded ns a c st st' :
  run_addition (ns, a) st = (st', Ok ()) → tls_of a = Some c → tls_recorded st' ns c.
Proof.
  intros E Ha. destruct a; try done; simpl in *.
  - subst o. apply mbind_ok in E as (? & ? & [<- _]%mlift_ok & E). by eapply addTLSAssets_recorded.
  - destruct o as [o|]; [|done]. injection Ha as <-.
    apply mbind_ok in E as (? & ? & [<- _]%mlift_ok & E). by eapply addTLSAssets_recorded.
  - destruct o as [o|]; [|done]. apply mbind_ok in E as (? & ? & [<- _]%mlift_ok & E).
    do 3 apply mbind_ok in E as (? & ? & _ & E). apply mwrap_ok in E. rewrite Ha in E.
    apply mbind_ok in E as (? & ? & [<- _]%mlift_ok & E). by eapply addTLSAssets_recorded.
Qed.

(** What is recorded stays recorded. *)
Lemma additions_recorded l ns a c st st' :
  mfor_each run_addition l st = (st', Ok ()) → (ns, a) ∈ l → tls_of a = Some c → tls_recorded st' ns c.
Proof.
  intros E Hl Ha. revert st E Hl. induction l as [|x l IH]; intros st E Hl; [by apply elem_of_nil in Hl|].
  simpl in E. apply mbind_ok in E as (st1 & [] & E1 & E2). apply elem_of_cons in Hl as [<-|Hl]; [|by eapply IH].
  assert (grows st1 st') as Hg.
  { pose proof (monotone_for_each run_addition l run_addition_monotone st1) as Hm. by rewrite E2 in Hm. }
  pose proof (run_addition_secures _ _ _ _ E1) as Hsec. simpl in Hsec.
  destruct (run_addition_recorded _ _ _ _ _ E1 Ha) as [Hca Hpair].
  assert (∀ ref, recorded st1 ns ref → recorded st' ns ref) as Hrec.
  { intros ref (k & Hk & Hin). exists k. split; [done|]. by apply (grows_keys _ _ Hg). }
  assert (∀ ref v, ref ∈ tls_refs c → resolves st' ns ref v → resolves st1 ns ref v) as Hback.
  { intros ref v Href Hv. rewrite Forall_forall in Hsec. destruct (Hsec ref) as [w Hw].
    { destruct a; simpl in *; try done.
      - by subst o.
      - destruct o as [o|]; [|done]. by injection Ha as <-.
      - destruct o as [o|]; [|done]. rewrite Ha. simpl. set_solver. }
    pose proof (resolves_grows _ _ _ _ _ Hg Hw) as Hw'. by rewrite (resolves_fun _ _ _ _ _ Hv Hw'). }
  unfold tls_refs in Hback. split.
  - intros v Hv Hne. apply Hrec, (Hca v); [|done]. apply Hback; [set_solver|done].
  - intros k v w Hk Hv Hw Hv' Hw'. destruct (Hpair k v w) as [H1 H2]; auto.
    + apply Hback; [set_solver|done].
    + apply Hback; [rewrite Hk; set_solver|done].
Qed.

(** The material a TLS file holds, and the name the configuration gives it. *)
Definition mounted (assets : gmap string string) (ns : string) (ref : SecretOrConfigMap) (v : string) : Prop :=
  ∃ f, toString <$> tlsAssetKeyFromSelector ns ref = Ok f ∧ assets !! f = Some v.

(** C25: after any sequence of successful additions, the map of TLS assets has a file for every CA
    and for every certificate with its key that the added settings refer to, under the very name
    the configuration gives it and with the referenced content, as long as that content is not
    empty. Names cannot clash, because those of Kubernetes objects hold no underscore. *)
Theorem tls_assets_mounted (l : list (string * addition)) st st' order ns a c :
  mfor_each run_addition l st = (st', Ok ()) → (ns, a) ∈ l → tls_of a = Some c →
  order ≡ₚ elements (tlsAssetKeys st') → (∀ k, k ∈ tlsAssetKeys st' → k8s_names k) →
  (∀ v, resolves st' ns (SafeTLSConfig_CA c) v → v ≠ "" →
     mounted (TLSAssets order st') ns (SafeTLSConfig_CA c) v) ∧
  (∀ k v w, SafeTLSConfig_KeySecret c = Some k → resolves st' ns (SafeTLSConfig_Cert c) v →
     resolves st' ns (secret_ref k) w → v ≠ "" → w ≠ "" →
     mounted (TLSAssets order st') ns (SafeTLSConfig_Cert c) v ∧
     mounted (TLSAssets order st') ns (secret_ref k) w).
Proof.
  intros E Hl Ha Hord Hnames.
  assert (∀ ref v, resolves st' ns ref v → v ≠ "" → recorded st' ns ref →
    mounted (TLSAssets order st') ns ref v) as Hmount.
  { intros ref v Hr Hv (k & Hk & Hin). exists (toString k). rewrite Hk. split; [done|].
    destruct (resolves_file _ _ _ _ Hr Hv) as (k' & Hk' & Hf). rewrite Hk in Hk'. injection Hk' as <-.
    apply lookup_TLSAssets; [|exists k; by rewrite Hord, elem_of_elements].
    intros k1 k2. rewrite Hord, !elem_of_elements. intros H1 H2. apply toString_inj; auto. }
  destruct (additions_recorded _ _ _ _ _ _ E Hl Ha) as [Hca Hpair].
  split.
  - intros v Hv Hne. by apply Hmount, (Hca v).
  - intros k v w Hk Hv Hw Hv' Hw'. destruct (Hpair k v w) as [H1 H2]; auto.
Qed.

(** Reading keys records nothing. *)
Lemma GetKey_keys ns sel st : tlsAssetKeys (anyKey ns sel st).1 = tlsAssetKeys st.
Proof.
  destruct sel as [[s|] [m|]]; unfold GetKey, GetSecretKey, GetConfigMapKey; simpl; [| | |done].
  all: case_bool_decide; [done|]; unfold mget, mbind, M_bind, mlift, mret, M_ret, cache_add, mfail; simpl.
  all: destruct (GetByKey _ (objStore st)) as [[o|o]|]; simpl; try done; try by case_match.
  1,2: destruct (sClient _ _); simpl; try done; by case_match.
  destruct (cmClient _ _); simpl; try done; by case_match.
Qed.

(** A TLS configuration that takes its certificate from a Secret or ConfigMap and its key from
    a file is accepted, but its certificate is never among the TLS assets, although the
    configuration refers to it there: the certificate is only recorded together with a key that
    is read from a Secret. (The new key must not be recorded already, nor be that of the CA.) *)
Lemma cert_with_key_file_not_recorded ns c kc st st' :
  AddTLSConfig sClient cmClient pem_Decode x509_ParseCertificate tls_X509KeyPair ns (Some c) st = (st', Ok ()) →
  TLSConfig_KeyFile c ≠ "" →
  tlsAssetKeyFromSelector ns (SafeTLSConfig_Cert (TLSConfig_SafeTLSConfig c)) = Ok kc →
  tlsAssetKeyFromSelector ns (SafeTLSConfig_CA (TLSConfig_SafeTLSConfig c)) ≠ Ok kc →
  kc ∉ tlsAssetKeys st → kc ∉ tlsAssetKeys st'.
Proof.
  clear sClient_named cmClient_named. set (safe := TLSConfig_SafeTLSConfig c).
  intros (? & ? & [<- Hval%wrap_ok]%mlift_ok & E)%mbind_ok Hkey Hkc Hca Hst.
  assert (SafeTLSConfig_KeySecret safe = None) as Hnone.
  { unfold TLSConfig_Validate in Hval. fold safe in Hval.
    apply bind_ok in Hval as [_ [_ [Hv _]%bind_ok]%bind_ok]. rewrite bool_decide_true in Hv by done.
    by destruct (SafeTLSConfig_KeySecret safe). }
  unfold addTLSAssets in E. fold safe in E. rewrite Hnone in E.
  apply mbind_ok in E as (s1 & ca & E1%mwrap_ok & (s2 & cert & E2%mwrap_ok & E)%mbind_ok).
  apply mbind_ok in E as (s3 & key & [<- <-]%mret_ok & (s4 & [] & E4 & E5)%mbind_ok).
  assert (∀ sel x y v, anyKey ns sel x = (y, Ok v) → tlsAssetKeys y = tlsAssetKeys x) as Hkeep.
  { clear. intros sel x y v E. pose proof (GetKey_keys ns sel x) as Hk. by rewrite E in Hk. }
  unfold add_pair in E5. rewrite orb_true_r in E5. apply mret_ok in E5 as [<- _].
  rewrite <-(Hkeep _ _ _ _ E1), <-(Hkeep _ _ _ _ E2) in Hst. revert E4. unfold add_ca.
  case_bool_decide; [by intros [<- _]%mret_ok|].
  intros (? & ? & [<- _]%mlift_ok & (? & k & [<- Hk]%mlift_ok & [= <-])%mbind_ok)%mbind_ok. simpl.
  assert (k ≠ kc) by congruence. set_solver.
Qed.
End adding.

(** ** A concrete store *)

#[global] Program Instance map_store : CacheStore (gmap string asset) := {|
  NewStore := ∅;
  GetByKey k c := c !! k;
  Add o c := <[assetKeyFunc o := o]> c;
|}.
Next Obligation. intros k. apply lookup_empty. Qed.
Next Obligation.
  intros k o c. case_decide; subst; [by rewrite lookup_insert_eq|by rewrite lookup_insert_ne].
Qed.

Module Example_.
(** One secret with user, password and TLS material. *)
Definition creds : Secret := {|
  sec_meta := SetNamespace "default" (SetName "creds" zero_meta); sec_Type := "Opaque";
  sec_Data := list_to_map [("user", "u"); ("pass", "p"); ("ca", "CA"); ("cert", "CERT"); ("key", "KEY")] |}.
Definition secrets (ns n : string) : res Secret :=
  if bool_decide (ns = "default" ∧ n = "creds") then Ok creds else Err (StatusError NotFound n).
Definition configmaps (ns n : string) : res ConfigMap := Err (StatusError NotFound n).
Definition sel (k : string) : SecretKeySelector :=
  {| SecretKeySelector_Name := "creds"; SecretKeySelector_Key := k; SecretKeySelector_Optional := None |}.
Definition auth : BasicAuth := {| BasicAuth_Username := sel "user"; BasicAuth_Password := sel "pass" |}.
Definition tls (key : option SecretKeySelector) : SafeTLSConfig := {|
  SafeTLSConfig_CA := secret_ref (sel "ca"); SafeTLSConfig_Cert := secret_ref (sel "cert");
  SafeTLSConfig_KeySecret := key; SafeTLSConfig_ServerName := None;
  SafeTLSConfig_InsecureSkipVerify := None; SafeTLSConfig_MinVersion := None;
  SafeTLSConfig_MaxVersion := None |}.
Definition key_file : TLSConfig := {|
  TLSConfig_SafeTLSConfig := tls None; TLSConfig_CAFile := ""; TLSConfig_CertFile := "";
  TLSConfig_KeyFile := "/etc/key.pem" |}.
Definition additions : list (string * addition) :=
  [("default", OfBasicAuth (Some auth)); ("default", OfSafeTLSConfig (Some (tls (Some (sel "key")))))].
Definition add_all (l : list (string * addition)) : StoreBuilder (gmap string asset) * res () :=
  mfor_each (run_addition secrets configmaps Some (fun _ => Ok ()) (fun _ _ => Ok ())) l NewStoreBuilder.

Lemma secrets_named ns n s :
  secrets ns n = Ok s → om_Namespace (sec_meta s) = ns ∧ om_Name (sec_meta s) = n.
Proof. unfold secrets. case_bool_decide as Hn; [|done]. destruct Hn as [-> ->]. by intros [= <-]. Qed.
End Example_.

Lemma added_references_resolve_witness :
  (Example_.add_all Example_.additions).2 = Ok () ∧
  ∃ v, resolves (Example_.add_all Example_.additions).1 "default" (secret_ref (Example_.sel "pass")) v.
Proof.
  split; [by vm_compute|].
  eapply (added_references_resolve Example_.secrets Example_.configmaps Some (fun _ => Ok ()) (fun _ _ => Ok ())
    Example_.secrets_named (fun _ _ _ H => ltac:(discriminate H)) Example_.additions NewStoreBuilder).
  - by vm_compute.
  - left.
  - right. left.
Defined.

Lemma tls_assets_mounted_witness :
  let st := (Example_.add_all Example_.additions).1 in
  mounted (TLSAssets (elements (tlsAssetKeys st)) st) "default" (secret_ref (Example_.sel "ca")) "CA".
Proof.
  intros st.
  edestruct (tls_assets_mounted Example_.secrets Example_.configmaps Some (fun _ => Ok ()) (fun _ _ => Ok ())
    Example_.secrets_named (fun _ _ _ H => ltac:(discriminate H)) Example_.additions NewStoreBuilder st
    (elements (tlsAssetKeys st)) "default" (OfSafeTLSConfig (Some (Example_.tls (Some (Example_.sel "key"))))))
    as [Hca _].
  - by vm_compute.
  - right. left.
  - done.
  - done.
  - intros k Hk. apply elem_of_elements in Hk. revert k Hk. apply Forall_forall.
    apply (bool_decide_eq_true_1 _). by vm_compute.
  - apply (Hca "CA"); [by vm_compute|done].
Defined.

Lemma cert_with_key_file_not_recorded_witness :
  let run := AddTLSConfig Example_.secrets Example_.configmaps Some (fun _ => Ok ()) (fun _ _ => Ok ())
    "default" (Some Example_.key_file) NewStoreBuilder in
  run.2 = Ok () ∧
  {| tak_from := fromSecret; tak_ns := "default"; tak_name := "creds"; tak_key := "cert" |} ∉
    tlsAssetKeys (run.1 : StoreBuilder (gmap string asset)).
Proof.
  split; [by vm_compute|].
  eapply (cert_with_key_file_not_recorded Example_.secrets Example_.configmaps Some (fun _ => Ok ())
    (fun _ _ => Ok ()) "default" Example_.key_file _ NewStoreBuilder).
  - by vm_compute.
  - done.
  - done.
  - done.
  - set_solver.
Defined.
