(* ===== verification/ConfigGenerator.v ===== *)
(** * The configuration generator: versions and common parts

    pkg/prometheus/promcfg.go, its first part: [ConfigGenerator] with the version it generates
    for, the scrape classes, and the helpers that append a piece of configuration (limits,
    authentication, TLS, proxies). An appending method of the code is an [emitter]: it takes the
    items last. A generator without a Prometheus object, which the ThanosRuler controller uses for
    its remote-write configuration, is not modelled. Logging is left out.

    The tables of fields ([tls_fields] and so on) follow the configuration format of Prometheus;
    for each helper a lemma of the hint database [emits] says that it respects its table. *)

From S2P Require Import Prelude GoStrings SortUtil Meta Semver NamespaceLabeler MonitoringV1.
From S2P Require Import PromTypes PromCommon AssetStore Yaml.

(** ** The store (pkg/assets/interface.go) *)

Record StoreGetter := {
  sg_GetSecretKey : SecretKeySelector → res string;
  sg_GetSecretOrConfigMapKey : SecretOrConfigMap → res string;
  sg_TLSAsset : SecretOrConfigMap → res string;
  sg_TLSAsset_secret : SecretKeySelector → res string;
}.
Definition getter {C} `{CacheStore C} (cos : cacheOnlyStore C) : StoreGetter := {|
  sg_GetSecretKey := cos_GetSecretKey cos;
  sg_GetSecretOrConfigMapKey := cos_GetSecretOrConfigMapKey cos;
  sg_TLSAsset := TLSAsset cos;
  sg_TLSAsset_secret := TLSAsset_secret cos |}.
(** [v, err := r], where the error is logged and the zero value used. *)
Definition or_zero (r : res string) : res string :=
  match r with Err _ => Ok "" | _ => r end.
(** [v, err := r], where the rest is skipped on an error. *)
Definition unless_err (r : res string) (k : string → emitter) : emitter := fun cfg =>
  match r with Err _ => Ok cfg | Ok v => k v cfg | Panic m => Panic m end.

(** ** The generator *)

Definition kubernetesSDRoleEndpoint := "endpoints".
Definition kubernetesSDRoleEndpointSlice := "endpointslice".
Definition kubernetesSDRolePod := "pod".
Definition kubernetesSDRoleIngress := "ingress".
Definition defaultPrometheusExternalLabelName := "prometheus".
Definition defaultReplicaExternalLabelName := "prometheus_replica".
Definition hashLabelNameForSharding := "__tmp_hash".
Definition hashLabelNameForDisablingSharding := "__tmp_disable_sharding".
Definition tlsAssetsDir := "/etc/prometheus/certs".
Definition ConfOutDir := "/etc/prometheus/config_out".
Definition PodNameEnvVar := "POD_NAME".

Section generator.
Context `{Semver} `{PromLibs}.

Record ConfigGenerator := {
  cg_version : version;
  notCompatible : bool;
  prom : PrometheusObject;
  useEndpointSlice : bool;
  scrapeClasses : gmap string ScrapeClass;
  defaultScrapeClassName : string;
  daemonSet : bool;
  prometheusTopologySharding : bool;
  inlineTLSConfig : bool;
  bypassVersionCheck : bool;
}.
Definition cg_cpf (cg : ConfigGenerator) : CommonPrometheusFields := po_cpf (prom cg).

Definition set_flags (useSlice daemon topology inline bypass incompatible : bool) (cg : ConfigGenerator)
    : ConfigGenerator := {|
  cg_version := cg_version cg; notCompatible := incompatible; prom := prom cg;
  useEndpointSlice := useSlice; scrapeClasses := scrapeClasses cg;
  defaultScrapeClassName := defaultScrapeClassName cg; daemonSet := daemon;
  prometheusTopologySharding := topology; inlineTLSConfig := inline; bypassVersionCheck := bypass |}.
Definition ConfigGeneratorOption := ConfigGenerator → ConfigGenerator.
Definition WithEndpointSliceSupport : ConfigGeneratorOption := fun cg =>
  set_flags (bool_decide (default EndpointsRole (cpf_ServiceDiscoveryRole (cg_cpf cg)) = EndpointSliceRole))
    (daemonSet cg) (prometheusTopologySharding cg) (inlineTLSConfig cg) (bypassVersionCheck cg) (notCompatible cg) cg.
Definition WithDaemonSet : ConfigGeneratorOption := fun cg =>
  set_flags (useEndpointSlice cg) true (prometheusTopologySharding cg) (inlineTLSConfig cg)
    (bypassVersionCheck cg) (notCompatible cg) cg.
Definition WithPrometheusTopologySharding : ConfigGeneratorOption := fun cg =>
  set_flags (useEndpointSlice cg) (daemonSet cg) true (inlineTLSConfig cg) (bypassVersionCheck cg) (notCompatible cg) cg.
Definition WithInlineTLSConfig : ConfigGeneratorOption := fun cg =>
  set_flags (useEndpointSlice cg) (daemonSet cg) (prometheusTopologySharding cg) true
    (bypassVersionCheck cg) (notCompatible cg) cg.
Definition WithoutVersionCheck : ConfigGeneratorOption := fun cg =>
  set_flags (useEndpointSlice cg) (daemonSet cg) (prometheusTopologySharding cg) (inlineTLSConfig cg)
    true (notCompatible cg) cg.
(** The generator with [notCompatible] set. *)
Definition incompatible (cg : ConfigGenerator) : ConfigGenerator :=
  set_flags (useEndpointSlice cg) (daemonSet cg) (prometheusTopologySharding cg) (inlineTLSConfig cg)
    (bypassVersionCheck cg) true cg.

Definition add_scrape_class (lcv : LabelConfigValidator) (acc : gmap string ScrapeClass * string)
    (sc : ScrapeClass) : res (gmap string ScrapeClass * string) :=
  let '(classes, defaultScrapeClass) := acc in
  _ ← wrap "invalid relabelings for scrapeClass %s: %w" [sc_Name sc] (lcv_Validate lcv (sc_Relabelings sc));
  _ ← wrap "invalid metric relabelings for scrapeClass %s: %w" [sc_Name sc] (lcv_Validate lcv (sc_MetricRelabelings sc));
  _ ← wrap "invalid TLS config for scrapeClass %s: %w" [sc_Name sc] (TLSConfig_Validate (sc_TLSConfig sc));
  _ ← wrap "invalid authorization for scrapeClass %s: %w" [sc_Name sc] (Authorization_Validate (sc_Authorization sc));
  d ← (if default false (sc_Default sc) then
         if bool_decide (defaultScrapeClass ≠ "") then Err (Errorf "multiple default scrape classes defined" [])
         else Ok (sc_Name sc)
       else Ok defaultScrapeClass);
  Ok (<[sc_Name sc := sc]> classes, d).
Fixpoint add_scrape_classes (p : PrometheusObject) (acc : gmap string ScrapeClass * string)
    (scs : list ScrapeClass) : res (gmap string ScrapeClass * string) :=
  match scs with
  | [] => Ok acc
  | sc :: scs' =>
      lcv ← NewLabelConfigValidator p;
      acc' ← add_scrape_class lcv acc sc;
      add_scrape_classes p acc' scs'
  end.
Definition getScrapeClassConfig (p : PrometheusObject) : res (gmap string ScrapeClass * string) :=
  add_scrape_classes p (∅, "") (cpf_ScrapeClasses (po_cpf p)).

Definition NewConfigGenerator (p : PrometheusObject) (opts : list ConfigGeneratorOption) : res ConfigGenerator :=
  let promVersion := StringValOrDefault (cpf_Version (po_cpf p)) DefaultPrometheusVersion in
  v ← wrap "failed to parse Prometheus version: %w" [] (ParseTolerant promVersion);
  if bool_decide (Major v ≠ 2%Z) && bool_decide (Major v ≠ 3%Z) then
    Err (Errorf "unsupported Prometheus version %q" [promVersion])
  else
    '(classes, defaultName) ← wrap "failed to parse scrape classes: %w" [] (getScrapeClassConfig p);
    Ok (foldl (fun cg opt => opt cg)
          {| cg_version := v; notCompatible := false; prom := p; useEndpointSlice := false;
             scrapeClasses := classes; defaultScrapeClassName := defaultName; daemonSet := false;
             prometheusTopologySharding := false; inlineTLSConfig := false; bypassVersionCheck := false |} opts).

Definition endpointRoleFlavor (cg : ConfigGenerator) : string :=
  if GTE (cg_version cg) (MustParse "2.21.0") && useEndpointSlice cg
  then kubernetesSDRoleEndpointSlice else kubernetesSDRoleEndpoint.

Definition WithMinimumVersion (cg : ConfigGenerator) (v : string) : ConfigGenerator :=
  if bypassVersionCheck cg then cg
  else if LT (cg_version cg) (MustParse v) then incompatible cg else cg.
Definition WithMaximumVersion (cg : ConfigGenerator) (v : string) : ConfigGenerator :=
  if bypassVersionCheck cg then cg
  else if GTE (cg_version cg) (MustParse v) then incompatible cg else cg.
Definition IsCompatible (cg : ConfigGenerator) : bool := negb (notCompatible cg).

Definition AppendMapItem (cg : ConfigGenerator) (k : string) (v : yaml) : emitter := fun m =>
  if notCompatible cg then Ok m else Ok (m ++ [(k, v)]).
Definition AppendCommandlineArgument (cg : ConfigGenerator) (m : list Argument) (argument : Argument) : list Argument :=
  if notCompatible cg then m else m ++ [argument].

Definition getScrapeClassOrDefault (cg : ConfigGenerator) (name : option string) : ScrapeClass :=
  match (n ← name; scrapeClasses cg !! n) with
  | Some sc => sc
  | None =>
      if bool_decide (defaultScrapeClassName cg ≠ "") then
        default zero_ScrapeClass (scrapeClasses cg !! defaultScrapeClassName cg)
      else zero_ScrapeClass
  end.

(** ** Limits and flags of a scrape configuration *)

Record limitKey := { lk_specField : string; lk_prometheusField : string; lk_minVersion : string }.
Definition sampleLimitKey := {| lk_specField := "sampleLimit"; lk_prometheusField := "sample_limit"; lk_minVersion := "" |}.
Definition targetLimitKey := {| lk_specField := "targetLimit"; lk_prometheusField := "target_limit"; lk_minVersion := "2.21.0" |}.
Definition labelLimitKey := {| lk_specField := "labelLimit"; lk_prometheusField := "label_limit"; lk_minVersion := "2.27.0" |}.
Definition labelNameLengthLimitKey := {|
  lk_specField := "labelNameLengthLimit"; lk_prometheusField := "label_name_length_limit"; lk_minVersion := "2.27.0" |}.
Definition labelValueLengthLimitKey := {|
  lk_specField := "labelValueLengthLimit"; lk_prometheusField := "label_value_length_limit"; lk_minVersion := "2.27.0" |}.
Definition keepDroppedTargetsKey := {|
  lk_specField := "keepDroppedTargets"; lk_prometheusField := "keep_dropped_targets"; lk_minVersion := "2.47.0" |}.

Definition getLimit (cg : ConfigGenerator) (user enforced : option Z) : option Z :=
  if bool_decide (default 0%Z enforced = 0%Z) then user
  else if bool_decide (default 0%Z user = 0%Z) then
    (* With Prometheus >= 2.45.0 the limit of the global section applies. *)
    if GTE (cg_version cg) (MustParse "2.45.0") then None else enforced
  else if bool_decide (default 0%Z enforced > default 0%Z user)%Z then user
  else enforced.
Definition AddLimitsToYAML (cg : ConfigGenerator) (k : limitKey) (limit enforcedLimit : option Z) : emitter :=
  if_set (getLimit cg limit enforcedLimit) (fun finalLimit =>
    AppendMapItem (if bool_decide (lk_minVersion k = "") then cg else WithMinimumVersion cg (lk_minVersion k))
      (lk_prometheusField k) (YInt finalLimit)).

Definition AddHonorTimestamps (cg : ConfigGenerator) (userHonorTimestamps : option bool) : emitter :=
  let override := cpf_OverrideHonorTimestamps (cg_cpf cg) in
  if negb (is_set userHonorTimestamps) && negb override then skip
  else AppendMapItem (WithMinimumVersion cg "2.9.0") "honor_timestamps"
         (YBool (default false userHonorTimestamps && negb override)).
Definition AddTrackTimestampsStaleness (cg : ConfigGenerator) (track : option bool) : emitter :=
  if_set track (fun b => AppendMapItem (WithMinimumVersion cg "2.48.0") "track_timestamps_staleness" (YBool b)).
Definition addScrapeProtocols (cg : ConfigGenerator) (scrapeProtocols : list string) : emitter :=
  if bool_decide (scrapeProtocols = []) then skip
  else
    let supported sp :=
      negb (bool_decide (sp = PrometheusText1_0_0) && negb (IsCompatible (WithMinimumVersion cg "3.0.0-rc.0"))) in
    AppendMapItem (WithMinimumVersion cg "2.49.0") "scrape_protocols" (YStrs (List.filter supported scrapeProtocols)).
Definition addFallbackScrapeProtocol (cg : ConfigGenerator) (fallback : option string) : emitter :=
  if_set fallback (fun sp => AppendMapItem (WithMinimumVersion cg "3.0.0") "fallback_scrape_protocol" (YStr sp)).
Definition AddHonorLabels (cg : ConfigGenerator) (honorLabels : bool) : emitter :=
  AppendMapItem cg "honor_labels"
    (YBool (if cpf_OverrideHonorLabels (cg_cpf cg) then false else honorLabels)).
Definition addNativeHistogramConfig (cg : ConfigGenerator) (nhc : NativeHistogramConfig) : emitter :=
  if bool_decide (nhc = zero_NativeHistogramConfig) then skip
  else run [
    if_set (nhc_NativeHistogramBucketLimit nhc) (fun l =>
      AppendMapItem (WithMinimumVersion cg "2.45.0") "native_histogram_bucket_limit" (YInt l));
    if_set (nhc_NativeHistogramMinBucketFactor nhc) (fun f =>
      AppendMapItem (WithMinimumVersion cg "2.50.0") "native_histogram_min_bucket_factor" (YFloat f));
    if_set (nhc_ScrapeClassicHistograms nhc) (fun b =>
      if bool_decide (Major (cg_version cg) = 3%Z)
      then AppendMapItem cg "always_scrape_classic_histograms" (YBool b)
      else AppendMapItem (WithMinimumVersion cg "2.45.0") "scrape_classic_histograms" (YBool b));
    if_set (nhc_ConvertClassicHistogramsToNHCB nhc) (fun b =>
      AppendMapItem (WithMinimumVersion cg "3.0.0") "convert_classic_histograms_to_nhcb" (YBool b))].

(** ** Merging with a scrape class *)

(** The code updates the object in place and returns it; these are the values it returns. *)
Definition set_credentials (a : Authorization) (c : option SecretKeySelector) (file : string) : Authorization := {|
  Authorization_SafeAuthorization := {|
    SafeAuthorization_Type := SafeAuthorization_Type (Authorization_SafeAuthorization a);
    SafeAuthorization_Credentials := c |};
  Authorization_CredentialsFile := file |}.
Definition credentials (a : Authorization) : option SecretKeySelector :=
  SafeAuthorization_Credentials (Authorization_SafeAuthorization a).
Definition mergeAuthorizationWithScrapeClass (authz : option Authorization) (scrapeClass : ScrapeClass)
    : option Authorization :=
  match authz, sc_Authorization scrapeClass with
  | None, _ => sc_Authorization scrapeClass
  | Some _, None => authz
  | Some a, Some sca =>
      let a1 := if is_set (credentials a) then a
                else set_credentials a (credentials sca) (Authorization_CredentialsFile a) in
      Some (if negb (is_set (credentials a1)) && bool_decide (Authorization_CredentialsFile a1 = "")
            then set_credentials a1 (credentials sca) (Authorization_CredentialsFile sca)
            else a1)
  end.
Definition mergeSafeAuthorizationWithScrapeClass (authz : option SafeAuthorization) (scrapeClass : ScrapeClass)
    : option Authorization :=
  match authz with
  | None => mergeAuthorizationWithScrapeClass None scrapeClass
  | Some a =>
      if bool_decide (a = zero_SafeAuthorization) then mergeAuthorizationWithScrapeClass None scrapeClass
      else mergeAuthorizationWithScrapeClass
             (Some {| Authorization_SafeAuthorization := a; Authorization_CredentialsFile := "" |}) scrapeClass
  end.
Definition mergeTLSConfigWithScrapeClass (tlsConfig : option TLSConfig) (scrapeClass : ScrapeClass)
    : option TLSConfig :=
  match tlsConfig, sc_TLSConfig scrapeClass with
  | None, _ => sc_TLSConfig scrapeClass
  | Some _, None => tlsConfig
  | Some c, Some sc =>
      let safe := TLSConfig_SafeTLSConfig c in
      Some {|
        TLSConfig_SafeTLSConfig := safe;
        TLSConfig_CAFile :=
          if bool_decide (TLSConfig_CAFile c = "") && bool_decide (SafeTLSConfig_CA safe = zero_SecretOrConfigMap)
          then TLSConfig_CAFile sc else TLSConfig_CAFile c;
        TLSConfig_CertFile :=
          if bool_decide (TLSConfig_CertFile c = "") && bool_decide (SafeTLSConfig_Cert safe = zero_SecretOrConfigMap)
          then TLSConfig_CertFile sc else TLSConfig_CertFile c;
        TLSConfig_KeyFile :=
          if bool_decide (TLSConfig_KeyFile c = "") && negb (is_set (SafeTLSConfig_KeySecret safe))
          then TLSConfig_KeyFile sc else TLSConfig_KeyFile c |}
  end.
Definition mergeSafeTLSConfigWithScrapeClass (tlsConfig : option SafeTLSConfig) (scrapeClass : ScrapeClass)
    : option TLSConfig :=
  match tlsConfig with
  | None => mergeTLSConfigWithScrapeClass None scrapeClass
  | Some c =>
      if bool_decide (c = zero_SafeTLSConfig) then mergeTLSConfigWithScrapeClass None scrapeClass
      else mergeTLSConfigWithScrapeClass
             (Some {| TLSConfig_SafeTLSConfig := c; TLSConfig_CAFile := "";
                      TLSConfig_CertFile := ""; TLSConfig_KeyFile := "" |}) scrapeClass
  end.
Record attachMetadataConfig := { amc_MinimumVersion : string; amc_attachMetadata : AttachMetadata }.
Definition amc_node (a : attachMetadataConfig) : bool :=
  default false (AttachMetadata_Node (amc_attachMetadata a)).
Definition mergeAttachMetadataWithScrapeClass (attachMetadata : option AttachMetadata)
    (scrapeClass : ScrapeClass) (minimumVersion : string) : option attachMetadataConfig :=
  let attachMetadata := if is_set attachMetadata then attachMetadata else sc_AttachMetadata scrapeClass in
  (fun a => {| amc_MinimumVersion := minimumVersion; amc_attachMetadata := a |}) <$> attachMetadata.
Definition mergeFallbackScrapeProtocolWithScrapeClass (fallback : option string) (scrapeClass : ScrapeClass)
    : option string :=
  if is_set fallback then fallback else sc_FallbackScrapeProtocol scrapeClass.

(** ** Authentication, proxies and TLS *)

Definition addBasicAuthToYaml (cg : ConfigGenerator) (store : StoreGetter) (basicAuth : option BasicAuth) : emitter :=
  if_set basicAuth (fun ba =>
    from_res (or_zero (sg_GetSecretKey store (BasicAuth_Username ba))) (fun username =>
    from_res (or_zero (sg_GetSecretKey store (BasicAuth_Password ba))) (fun password =>
    AppendMapItem cg "basic_auth" (YMap [("username", YStr username); ("password", YStr password)])))).

Definition sigv4_items (store : StoreGetter) (sigv4 : Sigv4) : emitter := run [
  when (bool_decide (Sigv4_Region sigv4 ≠ "")) (item "region" (YStr (Sigv4_Region sigv4)));
  match Sigv4_AccessKey sigv4, Sigv4_SecretKey sigv4 with
  | Some akref, Some skref =>
      from_res (or_zero (sg_GetSecretKey store akref)) (fun ak =>
      from_res (or_zero (sg_GetSecretKey store skref)) (fun sk =>
      when (bool_decide (ak ≠ "") && bool_decide (sk ≠ ""))
        (run [item "access_key" (YStr ak); item "secret_key" (YStr sk)])))
  | _, _ => skip
  end;
  when (bool_decide (Sigv4_Profile sigv4 ≠ "")) (item "profile" (YStr (Sigv4_Profile sigv4)));
  when (bool_decide (Sigv4_RoleArn sigv4 ≠ "")) (item "role_arn" (YStr (Sigv4_RoleArn sigv4)))].
Definition addSigv4ToYaml (cg : ConfigGenerator) (store : StoreGetter) (sigv4 : option Sigv4) : emitter :=
  if_set sigv4 (fun s =>
    from_res (sigv4_items store s []) (fun sigv4Cfg => AppendMapItem cg "sigv4" (YMap sigv4Cfg))).

(** The value under the key [authorization]. *)
Definition auth_items (store : StoreGetter) (auth : SafeAuthorization) : emitter := run [
  item "type" (YStr (TrimSpace (if bool_decide (SafeAuthorization_Type auth = "") then "Bearer"
                                else SafeAuthorization_Type auth)));
  if_set (SafeAuthorization_Credentials auth) (fun c =>
    unless_err (sg_GetSecretKey store c) (fun b => item "credentials" (YStr b)))].
Definition addSafeAuthorizationToYaml (cg : ConfigGenerator) (store : StoreGetter)
    (auth : option SafeAuthorization) : emitter :=
  if_set auth (fun a =>
    from_res (auth_items store a []) (fun authCfg =>
    AppendMapItem (WithMinimumVersion cg "2.26.0") "authorization" (YMap authCfg))).
(** [m[0].Value.(yaml.MapSlice)] *)
Definition first_value (m : MapSlice) : res MapSlice :=
  match m with
  | [] => Panic "index out of range [0] with length 0"
  | (_, YMap v) :: _ => Ok v
  | _ => Panic "interface conversion"
  end.
Definition addAuthorizationToYaml (cg : ConfigGenerator) (store : StoreGetter)
    (auth : option Authorization) : emitter :=
  if_set auth (fun a =>
    from_res (addSafeAuthorizationToYaml cg store (Some (Authorization_SafeAuthorization a)) []) (fun m =>
    from_res (first_value m) (fun authCfg =>
    from_res (when (bool_decide (Authorization_CredentialsFile a ≠ ""))
                (item "credentials_file" (YStr (Authorization_CredentialsFile a))) authCfg) (fun authCfg =>
    AppendMapItem (WithMinimumVersion cg "2.26.0") "authorization" (YMap authCfg))))).

Definition proxy_values (store : StoreGetter) (sels : list SecretKeySelector) : res (list string) :=
  res_map (fun s => or_zero (sg_GetSecretKey store s)) sels.
(** The values of every header; a Go map visited in any order gives the same map. *)
Fixpoint proxy_headers (store : StoreGetter) (l : list (string * list SecretKeySelector))
    : res (gmap string (list string)) :=
  match l with
  | [] => Ok ∅
  | (k, sels) :: l' =>
      vs ← proxy_values store sels;
      m ← proxy_headers store l';
      Ok (<[k := vs]> m)
  end.
Definition addProxyConfigtoYaml (cg : ConfigGenerator) (store : StoreGetter) (proxyConfig : ProxyConfig) : emitter :=
  if bool_decide (proxyConfig = zero_ProxyConfig) then skip
  else
    let cgProxyConfig := WithMinimumVersion cg "2.43.0" in
    run [
      if_set (ProxyConfig_ProxyURL proxyConfig) (fun u => AppendMapItem cg "proxy_url" (YStr u));
      if_set (ProxyConfig_NoProxy proxyConfig) (fun n => AppendMapItem cgProxyConfig "no_proxy" (YStr n));
      if_set (ProxyConfig_ProxyFromEnvironment proxyConfig) (fun b =>
        AppendMapItem cgProxyConfig "proxy_from_environment" (YBool b));
      if_set (ProxyConfig_ProxyConnectHeader proxyConfig) (fun h =>
        from_res (proxy_headers store (map_to_list h)) (fun m =>
        AppendMapItem cgProxyConfig "proxy_connect_header" (YMap (stringMapToMapSlice YStrs m))))].

Definition has_ref (s : SecretOrConfigMap) : bool :=
  is_set (SecretOrConfigMap_Secret s) || is_set (SecretOrConfigMap_ConfigMap s).
(** A file of the TLS assets, or its contents when the generator inlines them. *)
Definition tls_item (cg : ConfigGenerator) (inline_key file_key : string) (content asset : res string) : emitter :=
  if inlineTLSConfig cg then unless_err content (fun b => item inline_key (YStr b))
  else from_res asset (fun a => item file_key (YStr (path_Join [tlsAssetsDir; a]))).
Definition safe_tls_items (cg : ConfigGenerator) (store : StoreGetter) (safetls : SafeTLSConfig) : emitter :=
  let CA := SafeTLSConfig_CA safetls in
  let Cert := SafeTLSConfig_Cert safetls in
  run [
    if_set (SafeTLSConfig_InsecureSkipVerify safetls) (fun b => item "insecure_skip_verify" (YBool b));
    when (has_ref CA) (tls_item cg "ca" "ca_file" (sg_GetSecretOrConfigMapKey store CA) (sg_TLSAsset store CA));
    when (has_ref Cert) (tls_item cg "cert" "cert_file" (sg_GetSecretOrConfigMapKey store Cert) (sg_TLSAsset store Cert));
    if_set (SafeTLSConfig_KeySecret safetls) (fun k =>
      tls_item cg "key" "key_file" (sg_GetSecretKey store k) (sg_TLSAsset_secret store k));
    if_set (SafeTLSConfig_ServerName safetls) (fun n => when (bool_decide (n ≠ "")) (item "server_name" (YStr n)));
    if_set (SafeTLSConfig_MinVersion safetls) (fun v =>
      AppendMapItem (WithMinimumVersion cg "2.35.0") "min_version" (YStr v));
    if_set (SafeTLSConfig_MaxVersion safetls) (fun v =>
      AppendMapItem (WithMinimumVersion cg "2.41.0") "max_version" (YStr v))].
Definition addSafeTLStoYaml (cg : ConfigGenerator) (store : StoreGetter) (safetls : option SafeTLSConfig) : emitter :=
  if_set safetls (fun c =>
    from_res (safe_tls_items cg store c []) (fun m => AppendMapItem cg "tls_config" (YMap m))).
Definition tls_files (tls : TLSConfig) : emitter := run [
  when (bool_decide (TLSConfig_CAFile tls ≠ "")) (item "ca_file" (YStr (TLSConfig_CAFile tls)));
  when (bool_decide (TLSConfig_CertFile tls ≠ "")) (item "cert_file" (YStr (TLSConfig_CertFile tls)));
  when (bool_decide (TLSConfig_KeyFile tls ≠ "")) (item "key_file" (YStr (TLSConfig_KeyFile tls)))].
Definition addTLStoYaml (cg : ConfigGenerator) (store : StoreGetter) (tls : option TLSConfig) : emitter :=
  if_set tls (fun c =>
    from_res (addSafeTLStoYaml cg store (Some (TLSConfig_SafeTLSConfig c)) []) (fun m =>
    from_res (first_value m) (fun tlsConfig =>
    from_res (tls_files c tlsConfig) (fun tlsConfig =>
    AppendMapItem cg "tls_config" (YMap tlsConfig))))).

(** The external labels: those of the operator win over the user's. *)
Definition externalLabelsMap (cg : ConfigGenerator) : gmap string string :=
  let cpf := cg_cpf cg in
  let meta := po_ObjectMeta (prom cg) in
  let prometheusName := default defaultPrometheusExternalLabelName (cpf_PrometheusExternalLabelName cpf) in
  let replicaName := default defaultReplicaExternalLabelName (cpf_ReplicaExternalLabelName cpf) in
  let m0 : gmap string string :=
    if bool_decide (prometheusName ≠ "")
    then {[prometheusName := om_Namespace meta +:+ "/" +:+ om_Name meta]} else ∅ in
  let m1 := if bool_decide (replicaName ≠ "") then <[replicaName := "$(" +:+ PodNameEnvVar +:+ ")"]> m0 else m0 in
  m1 ∪ default ∅ (cpf_ExternalLabels cpf).
Definition buildExternalLabels (cg : ConfigGenerator) : MapSlice := stringMapToMapSlice YStr (externalLabelsMap cg).

Definition CompareScrapeTimeoutToScrapeInterval (scrapeTimeout scrapeInterval : string) : res () :=
  si ← wrap "invalid scrapeInterval %q: %w" [scrapeInterval] (ParseDuration scrapeInterval);
  st ← wrap "invalid scrapeTimeout: %q: %w" [scrapeTimeout] (ParseDuration scrapeTimeout);
  if bool_decide (st > si)%Z
  then Err (Errorf "scrapeTimeout %q greater than scrapeInterval %q" [scrapeTimeout; scrapeInterval])
  else Ok ().

Definition isByteSizeEmpty (v : option string) : bool := bool_decide (v = None ∨ v = Some "").
Definition getLowerByteSize (v : option string) (cpf : CommonPrometheusFields) : option string :=
  let enforced := cpf_EnforcedBodySizeLimit cpf in
  if isByteSizeEmpty (Some enforced) then v
  else if isByteSizeEmpty v then Some enforced
  else
    let bytes s := match ParseBase2Bytes s with Ok z => z | _ => 0%Z end in
    if bool_decide (bytes (default "" v) > bytes enforced)%Z then Some enforced else v.
End generator.

(** ** What the helpers emit *)

Section tables.
Context `{Semver} `{PromLibs}.

Fixpoint available (bypass : bool) (v : version) (a : avail) : bool :=
  match a with
  | Always => true
  | Since w => bypass || GTE v (MustParse w)
  | Until w => bypass || LT v (MustParse w)
  | OnlyMajor m => bool_decide (Major v = m)
  | NotMajor m => bool_decide (Major v ≠ m)
  | FromMajor m => bool_decide (m ≤ Major v)%Z
  | BelowMajor m => bool_decide (Major v < m)%Z
  | Both a b => available bypass v a && available bypass v b
  end.
(** What the version of an object supports; everything, when the object turns the check off. *)
Definition supported (cg : ConfigGenerator) (a : avail) : bool := available (bypassVersionCheck cg) (cg_version cg) a.
#[local] Arguments supported _ !_ /.

Definition basic_auth_schema : schema := SObj [fld "username" SStr; fld "password" SStr].
Definition sigv4_schema : schema :=
  SObj [fld "region" SStr; fld "access_key" SStr; fld "secret_key" SStr; fld "profile" SStr; fld "role_arn" SStr].
Definition safe_auth_fields : fields := [fld "type" SStr; fld "credentials" SStr].
Definition auth_schema : schema := SObj (safe_auth_fields ++ [fld "credentials_file" SStr]).
Definition tls_schema : schema := SObj [
  fld "insecure_skip_verify" SBool; fld "ca" SStr; fld "ca_file" SStr; fld "cert" SStr; fld "cert_file" SStr;
  fld "key" SStr; fld "key_file" SStr; fld "server_name" SStr; since "2.35.0" "min_version" SStr;
  since "2.41.0" "max_version" SStr].
Definition proxy_fields : fields := [
  fld "proxy_url" SStr; since "2.43.0" "no_proxy" SStr; since "2.43.0" "proxy_from_environment" SBool;
  since "2.43.0" "proxy_connect_header" (SMap (SSeq SStr))].
Definition histogram_fields : fields := [
  since "2.45.0" "native_histogram_bucket_limit" SInt; since "2.50.0" "native_histogram_min_bucket_factor" SFloat;
  ("always_scrape_classic_histograms", (OnlyMajor 3, SBool)); since "2.45.0" "scrape_classic_histograms" SBool;
  since "3.0.0" "convert_classic_histograms_to_nhcb" SBool].

Lemma supported_min cg v : supported (WithMinimumVersion cg v) = supported cg.
Proof. unfold WithMinimumVersion. repeat case_match; done. Qed.
Lemma emits_append cg k s v : conforms (supported cg) s v → emits (supported cg) [fld k s] (AppendMapItem cg k v).
Proof.
  intros Hv. unfold AppendMapItem. destruct (notCompatible cg) eqn:E.
  - apply emits_skip.
  - by apply emits_item.
Qed.
Lemma emits_append_since cg k s v ver :
  conforms (supported cg) s v →
  emits (supported cg) [since ver k s] (AppendMapItem (WithMinimumVersion cg ver) k v).
Proof.
  intros Hv. unfold AppendMapItem, WithMinimumVersion.
  destruct (bypassVersionCheck cg) eqn:E.
  { destruct (notCompatible cg); [apply emits_skip|]. apply emits_item; [|done]. simpl. by rewrite E. }
  destruct (LT _ _) eqn:E'; simpl; [apply emits_skip|].
  destruct (notCompatible cg); [apply emits_skip|]. apply emits_item; [|done].
  simpl. unfold GTE. by rewrite E, E'.
Qed.
Lemma emits_append_until cg k s v ver :
  conforms (supported cg) s v →
  emits (supported cg) [(k, (Until ver, s))] (AppendMapItem (WithMaximumVersion cg ver) k v).
Proof.
  intros Hv. unfold AppendMapItem, WithMaximumVersion.
  destruct (bypassVersionCheck cg) eqn:E.
  { destruct (notCompatible cg); [apply emits_skip|]. apply emits_item; [|done]. simpl. by rewrite E. }
  unfold GTE. destruct (LT _ _) eqn:E'; simpl; [|apply emits_skip].
  destruct (notCompatible cg); [apply emits_skip|]. apply emits_item; [|done].
  simpl. by rewrite E, E'.
Qed.
End tables.
#[global] Arguments supported {_} _ !_ / : rename.

(** Derive that a value conforms, reading the schema off it when it is not given. *)
Ltac emit_val :=
  lazymatch goal with
  | |- conforms _ _ (YBool _) => apply conforms_bool
  | |- conforms _ _ (YInt _) => first [apply conforms_int|apply conforms_scalar_int]
  | |- conforms _ _ (YFloat _) => apply conforms_float
  | |- conforms _ _ (YStr _) => first [apply conforms_str|apply conforms_scalar_str]
  | |- conforms _ _ (YStrs _) => apply conforms_strs
  | |- conforms _ _ (YMap (stringMapToMapSlice _ _)) => apply conforms_stringMap; intros; emit_val
  | |- _ => solve [eauto with emits]
  end.
(** Derive [emits] along the code. *)
Ltac emit :=
  lazymatch goal with
  | H : emits _ _ ?f |- emits _ _ ?f => exact H
  | |- emits _ _ skip => apply (emits_skip _ [])
  | |- emits _ _ (when _ _) => apply emits_when; intros ?; emit
  | |- emits _ _ (if_set _ _) => apply emits_if_set; intros ? ?; emit
  | |- emits _ _ (item _ _) => eapply (emits_item _ _ Always); [reflexivity|emit_val]
  | |- emits _ _ (AppendMapItem (WithMinimumVersion _ _) _ _) => apply emits_append_since; emit_val
  | |- emits _ _ (AppendMapItem (WithMaximumVersion _ _) _ _) => apply emits_append_until; emit_val
  | |- emits _ _ (AppendMapItem _ _ _) => apply emits_append; emit_val
  | |- emits _ ?fs (run _) =>
      tryif is_evar fs then (apply emits_run_all; [emit_list|table])
      else (eapply emits_run; [emit_list|table|table])
  | |- _ => solve [eauto with emits]
  end
with emit_list :=
  lazymatch goal with
  | |- emits_all _ _ [] => apply emits_all_nil
  | |- emits_all _ _ (_ :: _) => eapply emits_all_cons; [emit|emit_list]
  end.
(** A map written out. *)
Ltac emit_member := first [apply list_elem_of_here|apply list_elem_of_further; emit_member].
Ltac emit_obj :=
  apply conforms_obj; [table|];
  repeat (apply Forall_cons; split;
    [do 2 eexists; split; [emit_member|split; [reflexivity|cbn [fst snd]; emit_val]]|]); apply Forall_nil; exact I.
(** The same against a given table. *)
Ltac emit_in := eapply emits_weaken; [emit|table].

(** A store that answers: it may report an error but does not panic, and names the asset of every
    reference. [getter_ok] below gives one from a well-formed cache. *)
Record store_ok (s : StoreGetter) : Prop := {
  ok_GetSecretKey sel : no_panic (sg_GetSecretKey s sel);
  ok_GetSecretOrConfigMapKey sel : no_panic (sg_GetSecretOrConfigMapKey s sel);
  ok_TLSAsset sel : has_ref sel = true → ∃ a, sg_TLSAsset s sel = Ok a;
  ok_TLSAsset_secret sel : ∃ a, sg_TLSAsset_secret s sel = Ok a;
}.
(** The configuration does not name a file and a reference for the same item. *)
Definition tls_exclusive (c : TLSConfig) : Prop :=
  let safe := TLSConfig_SafeTLSConfig c in
  (has_ref (SafeTLSConfig_CA safe) = true → TLSConfig_CAFile c = "") ∧
  (has_ref (SafeTLSConfig_Cert safe) = true → TLSConfig_CertFile c = "") ∧
  (is_Some (SafeTLSConfig_KeySecret safe) → TLSConfig_KeyFile c = "").

Lemma or_zero_ok r : no_panic r → ∃ v, or_zero r = Ok v.
Proof. destruct r as [v|e|m]; simpl; eauto. intros Hr. by destruct (Hr m). Qed.
Lemma emits_or_zero ok fs r k :
  no_panic r → (∀ v, emits ok fs (k v)) → emits ok fs (from_res (or_zero r) k).
Proof. intros [v Hv]%or_zero_ok Hk. apply emits_from_res. eauto. Qed.
Lemma emits_unless_err ok fs r k :
  no_panic r → (∀ v, emits ok fs (k v)) → emits ok fs (unless_err r k).
Proof.
  intros Hr Hk cfg. unfold unless_err. destruct r as [v|e|m]; [apply Hk|apply emits_skip|by destruct (Hr m)].
Qed.
(** A value that is built by an emitter of its own. *)
Lemma emits_nested ok fs gs f k :
  emits ok gs f → (∀ m, conforms ok (SObj gs) (YMap m) → emits ok fs (k m)) →
  emits ok fs (from_res (f []) k).
Proof. intros (m & Hm & Hc)%emits_conforms Hk. apply emits_from_res. eauto. Qed.

Section helpers.
Context `{Semver} `{PromLibs} (cg : ConfigGenerator).

Definition limit_field (k : limitKey) : string * (avail * schema) :=
  if bool_decide (lk_minVersion k = "") then fld (lk_prometheusField k) SInt
  else since (lk_minVersion k) (lk_prometheusField k) SInt.
Lemma AddLimitsToYAML_emits k l e : emits (supported cg) [limit_field k] (AddLimitsToYAML cg k l e).
Proof.
  unfold AddLimitsToYAML, limit_field. apply emits_if_set. intros x _.
  case_bool_decide; emit.
Qed.
Lemma AddHonorTimestamps_emits b : emits (supported cg) [since "2.9.0" "honor_timestamps" SBool] (AddHonorTimestamps cg b).
Proof. unfold AddHonorTimestamps. case_match; [apply emits_skip|emit]. Qed.
Lemma AddTrackTimestampsStaleness_emits b :
  emits (supported cg) [since "2.48.0" "track_timestamps_staleness" SBool] (AddTrackTimestampsStaleness cg b).
Proof. unfold AddTrackTimestampsStaleness. emit. Qed.
Lemma addScrapeProtocols_emits l :
  emits (supported cg) [since "2.49.0" "scrape_protocols" (SSeq SStr)] (addScrapeProtocols cg l).
Proof. unfold addScrapeProtocols. case_match; [apply emits_skip|emit]. Qed.
Lemma addFallbackScrapeProtocol_emits p :
  emits (supported cg) [since "3.0.0" "fallback_scrape_protocol" SStr] (addFallbackScrapeProtocol cg p).
Proof. unfold addFallbackScrapeProtocol. emit. Qed.
Lemma AddHonorLabels_emits b : emits (supported cg) [fld "honor_labels" SBool] (AddHonorLabels cg b).
Proof. unfold AddHonorLabels. emit. Qed.
Lemma addNativeHistogramConfig_emits nhc : emits (supported cg) histogram_fields (addNativeHistogramConfig cg nhc).
Proof.
  unfold addNativeHistogramConfig. case_bool_decide; [apply emits_skip|].
  assert (∀ b, emits (supported cg)
    [("always_scrape_classic_histograms", (OnlyMajor 3, SBool)); since "2.45.0" "scrape_classic_histograms" SBool]
    (if bool_decide (Major (cg_version cg) = 3%Z) then AppendMapItem cg "always_scrape_classic_histograms" (YBool b)
     else AppendMapItem (WithMinimumVersion cg "2.45.0") "scrape_classic_histograms" (YBool b))).
  { intros b. case_bool_decide as Hm; [|emit_in].
    unfold AppendMapItem. destruct (notCompatible cg); [apply emits_skip|].
    apply (emits_weaken _ [("always_scrape_classic_histograms", (OnlyMajor 3, SBool))]); [|table].
    apply emits_item; [|emit_val]. simpl. by rewrite bool_decide_true. }
  emit.
Qed.

Context (store : StoreGetter) (Hstore : store_ok store).

Lemma addBasicAuthToYaml_emits ba :
  emits (supported cg) [fld "basic_auth" basic_auth_schema] (addBasicAuthToYaml cg store ba).
Proof.
  unfold addBasicAuthToYaml. apply emits_if_set. intros x _.
  do 2 (apply emits_or_zero; [apply Hstore|intros ?]). apply emits_append.
  emit_obj.
Qed.
Lemma sigv4_items_emits s : emits (supported cg) [fld "region" SStr; fld "access_key" SStr; fld "secret_key" SStr;
  fld "profile" SStr; fld "role_arn" SStr] (sigv4_items store s).
Proof.
  assert (emits (supported cg) [fld "access_key" SStr; fld "secret_key" SStr]
    match Sigv4_AccessKey s, Sigv4_SecretKey s with
    | Some akref, Some skref =>
        from_res (or_zero (sg_GetSecretKey store akref)) (fun ak =>
        from_res (or_zero (sg_GetSecretKey store skref)) (fun sk =>
        when (bool_decide (ak ≠ "") && bool_decide (sk ≠ ""))
          (run [item "access_key" (YStr ak); item "secret_key" (YStr sk)])))
    | _, _ => skip
    end).
  { destruct (Sigv4_AccessKey s), (Sigv4_SecretKey s); try apply emits_skip.
    do 2 (apply emits_or_zero; [apply Hstore|intros ?]). emit. }
  unfold sigv4_items. emit.
Qed.
Lemma addSigv4ToYaml_emits s : emits (supported cg) [fld "sigv4" sigv4_schema] (addSigv4ToYaml cg store s).
Proof.
  unfold addSigv4ToYaml. apply emits_if_set. intros x _.
  eapply emits_nested; [apply sigv4_items_emits|]. intros m Hm. by apply emits_append.
Qed.

Lemma auth_items_emits a : emits (supported cg) safe_auth_fields (auth_items store a).
Proof.
  unfold auth_items. apply (emits_run _ _ [fld "type" SStr; fld "credentials" SStr]); [|table|table].
  apply (emits_all_cons _ [_] [_]); [emit|]. apply (emits_all_cons _ [_] []); [|apply emits_all_nil].
  apply emits_if_set. intros c _. apply emits_unless_err; [apply Hstore|]. intros v. emit.
Qed.
Lemma addSafeAuthorizationToYaml_emits a :
  emits (supported cg) [since "2.26.0" "authorization" (SObj safe_auth_fields)] (addSafeAuthorizationToYaml cg store a).
Proof.
  unfold addSafeAuthorizationToYaml. apply emits_if_set. intros x _.
  eapply emits_nested; [apply auth_items_emits|]. intros m Hm. by apply emits_append_since.
Qed.
(** A supported version is needed, or there is nothing to index. *)
Definition auth_supported : Prop :=
  notCompatible cg = false ∧ supported cg (Since "2.26.0") = true.
Lemma min_version_supported v : notCompatible cg = false → supported cg (Since v) = true → notCompatible (WithMinimumVersion cg v) = false.
Proof.
  unfold WithMinimumVersion. simpl. unfold GTE. destruct (bypassVersionCheck cg), (LT _ _); simpl; done.
Qed.
Lemma addAuthorizationToYaml_emits a :
  auth_supported →
  emits (supported cg) [since "2.26.0" "authorization" auth_schema] (addAuthorizationToYaml cg store a).
Proof.
  intros [Hc Hv]. unfold addAuthorizationToYaml. apply emits_if_set. intros x _.
  set (safe := Authorization_SafeAuthorization x).
  assert (emits (supported cg) (safe_auth_fields ++ [fld "credentials_file" SStr]) (run [auth_items store safe;
    when (bool_decide (Authorization_CredentialsFile x ≠ "")) (item "credentials_file" (YStr (Authorization_CredentialsFile x)))])) as Hr.
  { pose proof auth_items_emits. emit. }
  destruct (Hr []) as (m & Hm & Hok). simpl in Hm. rewrite bind_ok_ex in Hm. destruct Hm as (m1 & Hm1 & Hm2).
  apply emits_from_res. exists [("authorization", YMap m1)]. split.
  { simpl. unfold from_res, AppendMapItem. rewrite Hm1. simpl. by rewrite min_version_supported. }
  apply emits_from_res. exists m1. split; [done|]. apply emits_from_res. exists m. split.
  { rewrite bind_ok_ex in Hm2. destruct Hm2 as (m2 & Hm2 & [= <-]). done. }
  apply emits_append_since. constructor; apply Hok.
Qed.

Lemma proxy_headers_ok l : ∃ m, proxy_headers store l = Ok m.
Proof.
  induction l as [|[k sels] l [m IH]]; simpl; [eauto|].
  assert (∃ vs, proxy_values store sels = Ok vs) as [vs ->].
  { unfold proxy_values. induction sels as [|s sels [vs IHs]]; simpl; [eauto|].
    destruct (or_zero_ok _ (ok_GetSecretKey _ Hstore s)) as [v ->]. simpl. rewrite IHs. simpl. eauto. }
  simpl. rewrite IH. simpl. eauto.
Qed.
Lemma addProxyConfigtoYaml_emits p : emits (supported cg) proxy_fields (addProxyConfigtoYaml cg store p).
Proof.
  unfold addProxyConfigtoYaml. case_bool_decide; [apply emits_skip|].
  assert (∀ h, emits (supported cg) [since "2.43.0" "proxy_connect_header" (SMap (SSeq SStr))]
    (from_res (proxy_headers store (map_to_list h)) (fun m =>
     AppendMapItem (WithMinimumVersion cg "2.43.0") "proxy_connect_header" (YMap (stringMapToMapSlice YStrs m))))).
  { intros h. apply emits_from_res. destruct (proxy_headers_ok (map_to_list h)) as [m Hm].
    exists m. split; [done|]. emit. }
  emit.
Qed.

Lemma tls_item_emits ik fk c a :
  no_panic c → (∃ v, a = Ok v) → emits (supported cg) [fld ik SStr; fld fk SStr] (tls_item cg ik fk c a).
Proof.
  intros Hc [v ->]. unfold tls_item. case_match.
  - apply emits_unless_err; [done|]. intros b. eapply emits_weaken; [emit|]. set_solver.
  - apply emits_from_res. exists v. split; [done|]. eapply emits_weaken; [emit|]. set_solver.
Qed.

Definition tls_fields : fields := match tls_schema with SObj fs => fs | _ => [] end.
Lemma tls_ref_emits ik fk sel : has_ref sel = true →
  emits (supported cg) [fld ik SStr; fld fk SStr]
    (tls_item cg ik fk (sg_GetSecretOrConfigMapKey store sel) (sg_TLSAsset store sel)).
Proof. intros Hs. apply tls_item_emits; [apply Hstore|by apply (ok_TLSAsset _ Hstore)]. Qed.
Lemma tls_key_emits k :
  emits (supported cg) [fld "key" SStr; fld "key_file" SStr]
    (tls_item cg "key" "key_file" (sg_GetSecretKey store k) (sg_TLSAsset_secret store k)).
Proof. apply tls_item_emits; apply Hstore. Qed.
#[local] Hint Resolve tls_ref_emits tls_key_emits : emits.

Lemma safe_tls_items_emits c : emits (supported cg) tls_fields (safe_tls_items cg store c).
Proof. unfold safe_tls_items. emit. Qed.
Lemma addSafeTLStoYaml_emits c : emits (supported cg) [fld "tls_config" tls_schema] (addSafeTLStoYaml cg store c).
Proof.
  unfold addSafeTLStoYaml. apply emits_if_set. intros x _.
  eapply emits_nested; [apply safe_tls_items_emits|]. intros m Hm. by apply emits_append.
Qed.
(** References and files together: an item comes from one of them. *)
Lemma tls_items_emits c :
  tls_exclusive c →
  emits (supported cg) tls_fields (run [safe_tls_items cg store (TLSConfig_SafeTLSConfig c); tls_files c]).
Proof.
  intros (HCA & HCert & HKey). unfold safe_tls_items, tls_files.
  destruct (has_ref (SafeTLSConfig_CA _)) eqn:ECA; [rewrite (bool_decide_false (TLSConfig_CAFile c ≠ "")) by auto|];
  destruct (has_ref (SafeTLSConfig_Cert _)) eqn:ECert; [rewrite (bool_decide_false (TLSConfig_CertFile c ≠ "")) by auto| |
    rewrite (bool_decide_false (TLSConfig_CertFile c ≠ "")) by auto|];
  (destruct (SafeTLSConfig_KeySecret _) eqn:EKey;
    [rewrite (bool_decide_false (TLSConfig_KeyFile c ≠ "")) by eauto|]);
  cbn [when if_set]; emit.
Qed.
Lemma addTLStoYaml_emits c :
  notCompatible cg = false → (∀ x, c = Some x → tls_exclusive x) →
  emits (supported cg) [fld "tls_config" tls_schema] (addTLStoYaml cg store c).
Proof.
  intros Hc Hx. unfold addTLStoYaml. apply emits_if_set. intros x ->.
  destruct (tls_items_emits x (Hx x eq_refl) []) as (m & Hm & Hok).
  cbn [run] in Hm. rewrite bind_ok_ex in Hm. destruct Hm as (m1 & Hm1 & Hm2).
  rewrite bind_ok_ex in Hm2. destruct Hm2 as (m2 & Hm2 & [= ->]).
  apply emits_from_res. exists [("tls_config", YMap m1)]. split.
  { simpl. unfold from_res, AppendMapItem. rewrite Hm1. simpl. by rewrite Hc. }
  apply emits_from_res. exists m1. split; [done|]. apply emits_from_res. exists m. split; [done|].
  apply emits_append. constructor; apply Hok.
Qed.
End helpers.

#[export] Hint Resolve AddLimitsToYAML_emits AddHonorTimestamps_emits AddTrackTimestampsStaleness_emits
  addScrapeProtocols_emits addFallbackScrapeProtocol_emits AddHonorLabels_emits
  addNativeHistogramConfig_emits addBasicAuthToYaml_emits addSigv4ToYaml_emits
  addSafeAuthorizationToYaml_emits addAuthorizationToYaml_emits addProxyConfigtoYaml_emits
  addSafeTLStoYaml_emits addTLStoYaml_emits : emits.

(** ** Validated TLS configurations stay unambiguous *)

Section exclusive.
Context `{Semver} `{PromLibs}.

Lemma has_ref_zero s : has_ref s = true ↔ s ≠ zero_SecretOrConfigMap.
Proof.
  unfold has_ref, zero_SecretOrConfigMap. destruct s as [[s|] [c|]]; simpl; split; try done.
Qed.
Lemma TLSConfig_Validate_exclusive c : TLSConfig_Validate (Some c) = Ok () → tls_exclusive c.
Proof.
  unfold TLSConfig_Validate, tls_exclusive. rewrite !bind_ok. intros (HCA & HCert & HKey & _).
  rewrite check_ok in HKey. split; [|split].
  - rewrite has_ref_zero. intros E. rewrite bool_decide_true in HCA by done.
    rewrite bind_ok, check_ok, bool_decide_eq_false in HCA. destruct HCA as [HCA _]. by apply dec_stable.
  - rewrite has_ref_zero. intros E. rewrite bool_decide_true in HCert by done.
    rewrite bind_ok, check_ok, bool_decide_eq_false in HCert. destruct HCert as [HCert _]. by apply dec_stable.
  - intros [k Hk]. rewrite Hk in HKey. simpl in HKey. rewrite andb_true_r, bool_decide_eq_false in HKey. by apply dec_stable.
Qed.
Lemma safe_exclusive c :
  tls_exclusive {| TLSConfig_SafeTLSConfig := c; TLSConfig_CAFile := ""; TLSConfig_CertFile := ""; TLSConfig_KeyFile := "" |}.
Proof. by repeat split. Qed.
Definition class_exclusive (sc : ScrapeClass) : Prop := ∀ x, sc_TLSConfig sc = Some x → tls_exclusive x.
Lemma mergeTLSConfig_exclusive o sc :
  (∀ x, o = Some x → tls_exclusive x) → class_exclusive sc →
  ∀ x, mergeTLSConfigWithScrapeClass o sc = Some x → tls_exclusive x.
Proof.
  intros Ho Hsc x. unfold mergeTLSConfigWithScrapeClass.
  destruct o as [c|]; [|apply Hsc]. destruct (sc_TLSConfig sc) as [s|]; [|apply Ho].
  destruct (Ho c eq_refl) as (HCA & HCert & HKey). intros [= <-]. unfold tls_exclusive. simpl.
  split; [|split].
  - intros E. rewrite (HCA E). apply has_ref_zero in E. by rewrite (bool_decide_false (_ = zero_SecretOrConfigMap)), andb_false_r.
  - intros E. rewrite (HCert E). apply has_ref_zero in E. by rewrite (bool_decide_false (_ = zero_SecretOrConfigMap)), andb_false_r.
  - intros E. rewrite (HKey E). destruct E as [k ->]. by rewrite andb_false_r.
Qed.
Lemma mergeSafeTLSConfig_exclusive o sc :
  class_exclusive sc → ∀ x, mergeSafeTLSConfigWithScrapeClass o sc = Some x → tls_exclusive x.
Proof.
  intros Hsc x. unfold mergeSafeTLSConfigWithScrapeClass. destruct o as [c|]; [case_bool_decide|];
    apply mergeTLSConfig_exclusive; try done. intros y [= <-]. apply safe_exclusive.
Qed.

(** ** The scrape classes of a generator are valid *)

Definition class_valid (sc : ScrapeClass) : Prop :=
  TLSConfig_Validate (sc_TLSConfig sc) = Ok () ∧ Authorization_Validate (sc_Authorization sc) = Ok ().
Definition classes_valid (m : gmap string ScrapeClass) : Prop := map_Forall (fun n sc => sc_Name sc = n ∧ class_valid sc) m.
Lemma add_scrape_class_valid lcv m d sc m' d' :
  add_scrape_class lcv (m, d) sc = Ok (m', d') → classes_valid m →
  classes_valid m' ∧ m' = <[sc_Name sc := sc]> m.
Proof.
  unfold add_scrape_class. rewrite !bind_ok, !wrap_ok. intros (_ & _ & Ht & Ha & Hd) Hm.
  rewrite bind_ok_ex in Hd. destruct Hd as (d0 & _ & [= <- <-]). split; [|done].
  by apply map_Forall_insert_2.
Qed.
Lemma add_scrape_classes_valid p scs m d m' d' :
  add_scrape_classes p (m, d) scs = Ok (m', d') → classes_valid m → classes_valid m'.
Proof.
  revert m d. induction scs as [|sc scs IH]; intros m d; simpl.
  - by intros [= -> ->].
  - rewrite bind_ok_ex. intros (lcv & _ & Hr). rewrite bind_ok_ex in Hr. destruct Hr as ([m1 d1] & H1 & Hr) .
    intros Hm. eapply IH; [exact Hr|]. by eapply add_scrape_class_valid.
Qed.
Lemma getScrapeClassConfig_valid p m d : getScrapeClassConfig p = Ok (m, d) → classes_valid m.
Proof. intros Hr. eapply add_scrape_classes_valid; [exact Hr|]. apply map_Forall_empty. Qed.
Definition options : list ConfigGeneratorOption :=
  [WithEndpointSliceSupport; WithDaemonSet; WithPrometheusTopologySharding; WithInlineTLSConfig; WithoutVersionCheck].
Definition known_options (opts : list ConfigGeneratorOption) : Prop := Forall (fun o => In o options) opts.
Lemma option_frame o cg : In o options →
  scrapeClasses (o cg) = scrapeClasses cg ∧ notCompatible (o cg) = notCompatible cg ∧
  cg_version (o cg) = cg_version cg ∧ prom (o cg) = prom cg ∧ defaultScrapeClassName (o cg) = defaultScrapeClassName cg.
Proof. simpl. by intros [<-|[<-|[<-|[<-|[<-|[]]]]]]. Qed.
Lemma options_frame opts cg : known_options opts →
  let cg' := foldl (fun cg opt => opt cg) cg opts in
  scrapeClasses cg' = scrapeClasses cg ∧ notCompatible cg' = notCompatible cg ∧
  cg_version cg' = cg_version cg ∧ prom cg' = prom cg ∧ defaultScrapeClassName cg' = defaultScrapeClassName cg.
Proof.
  intros Ho. revert cg. induction Ho as [|o opts Ho _ IH]; intros cg; simpl; [done|].
  destruct (IH (o cg)) as (-> & -> & -> & -> & ->). by apply option_frame.
Qed.
(** What the rest of the code may assume of a generator. *)
Record cg_wf (cg : ConfigGenerator) : Prop := {
  wf_compatible : notCompatible cg = false;
  wf_classes : classes_valid (scrapeClasses cg);
  wf_major : Major (cg_version cg) = 2%Z ∨ Major (cg_version cg) = 3%Z;
}.
Lemma NewConfigGenerator_wf p opts cg :
  known_options opts → NewConfigGenerator p opts = Ok cg → cg_wf cg ∧ prom cg = p.
Proof.
  intros Ho. unfold NewConfigGenerator. rewrite bind_ok_ex. intros (v & _ & Hr).
  destruct (_ && _) eqn:Em; [done|]. rewrite bind_ok_ex in Hr. destruct Hr as ([m d] & Hc & [= <-]).
  rewrite wrap_ok in Hc. apply getScrapeClassConfig_valid in Hc.
  match goal with |- cg_wf (foldl _ ?c _) ∧ _ => destruct (options_frame opts c Ho) as (E1 & E2 & E3 & E4 & _) end.
  split; [|by rewrite E4]. constructor.
  - by rewrite E2.
  - by rewrite E1.
  - rewrite E3. simpl. rewrite andb_false_iff, !bool_decide_eq_false in Em. destruct Em as [Em|Em]; apply dec_stable in Em; auto.
Qed.
Lemma getScrapeClassOrDefault_valid cg n : cg_wf cg → class_valid (getScrapeClassOrDefault cg n).
Proof.
  intros Hcg. unfold getScrapeClassOrDefault.
  assert (class_valid zero_ScrapeClass) as Hz by done.
  assert (∀ k, class_valid (default zero_ScrapeClass (scrapeClasses cg !! k))) as Hl.
  { intros k. destruct (scrapeClasses cg !! k) as [sc|] eqn:E; simpl; [|done]. by apply (wf_classes _ Hcg) in E as [_ ?]. }
  destruct n as [n|]; simpl.
  - specialize (Hl n) as Hn. destruct (scrapeClasses cg !! n); [done|]. case_bool_decide; auto.
  - case_bool_decide; auto.
Qed.
Lemma getScrapeClassOrDefault_exclusive cg n : cg_wf cg → class_exclusive (getScrapeClassOrDefault cg n).
Proof.
  intros Hcg x Hx. destruct (getScrapeClassOrDefault_valid cg n Hcg) as [Ht _]. rewrite Hx in Ht.
  by apply TLSConfig_Validate_exclusive.
Qed.
End exclusive.

(** ** The cache answers *)

Section cache.
Context {C : Type} `{CacheStore C}.

(** Objects are stored under their own keys: an invariant of [Add]. *)
Definition cache_wf (c : C) : Prop := ∀ k o, GetByKey k c = Some o → assetKeyFunc o = k.
Lemma cache_wf_new : cache_wf NewStore.
Proof. intros k o. by rewrite GetByKey_new. Qed.
Lemma cache_wf_add o c : cache_wf c → cache_wf (Add o c).
Proof. intros Hc k o'. rewrite GetByKey_add. case_decide; [congruence|apply Hc]. Qed.
Lemma asset_key_kind f f' ns n ns' n' : asset_key f ns n = asset_key f' ns' n' → f = f'.
Proof. destruct f, f'; vm_compute; congruence. Qed.

Lemma getter_ok cos : cache_wf (cos_c cos) → store_ok (getter cos).
Proof.
  intros Hc.
  assert (∀ sel, no_panic (cos_GetSecretKey cos sel)) as Hs.
  { intros sel m. unfold cos_GetSecretKey. destruct (GetByKey _ _) as [[s|cm]|] eqn:E; [by case_match| |done].
    apply Hc in E. by apply asset_key_kind in E. }
  assert (∀ sel, no_panic (cos_GetConfigMapKey cos sel)) as Hm.
  { intros sel m. unfold cos_GetConfigMapKey. destruct (GetByKey _ _) as [[s|cm]|] eqn:E; [|by case_match|done].
    apply Hc in E. by apply asset_key_kind in E. }
  constructor; simpl; [done| | |].
  - intros sel m. unfold cos_GetSecretOrConfigMapKey. repeat case_match; first [apply Hs|apply Hm|done].
  - intros sel. unfold has_ref, TLSAsset, tlsAssetKeyFromSelector. destruct sel as [[s|] [c|]]; simpl; eauto; done.
  - intros sel. unfold TLSAsset_secret. simpl. eauto.
Qed.
End cache.
