(* ===== verification/Relabel.v ===== *)
(** * Relabelings: generation, selectors and sharding

    The relabeling rules that pkg/prometheus/promcfg.go generates: those of the user
    ([generateRelabelConfig]), those that implement label selectors, and the three that spread the
    targets of a scrape configuration over the shards of a Prometheus object.

    What the rules do to a target is decided by Prometheus. [RelabelEngine] states its documented
    behaviour for the forms of rule that matter here: labels are a finite map without empty
    values, a rule sees the values of its source labels joined by semicolons, regular expressions
    are anchored, [hashmod] writes a hash modulo a number and [keep] drops what does not match. *)

From S2P Require Import Prelude GoStrings SortUtil Meta Semver NamespaceLabeler MonitoringV1.
From S2P Require Import PromTypes PromCommon AssetStore Yaml ConfigGenerator.

Definition ShardEnvVar := "SHARD".

(** ** Rules *)

Definition relabel_fields : fields := [
  fld "source_labels" (SSeq SStr); fld "separator" SStr; fld "target_label" SStr; fld "regex" SScalar;
  fld "modulus" SInt; fld "replacement" SStr; fld "action" SStr].
Definition relabel_schema : schema := SObj relabel_fields.

Definition relabel_items (c : RelabelConfig) : emitter := run [
  when (bool_decide (rc_SourceLabels c ≠ [])) (item "source_labels" (YStrs (rc_SourceLabels c)));
  if_set (rc_Separator c) (fun s => item "separator" (YStr s));
  when (bool_decide (rc_TargetLabel c ≠ "")) (item "target_label" (YStr (rc_TargetLabel c)));
  when (bool_decide (rc_Regex c ≠ "")) (item "regex" (YStr (rc_Regex c)));
  when (bool_decide (rc_Modulus c ≠ 0%Z)) (item "modulus" (YInt (rc_Modulus c)));
  if_set (rc_Replacement c) (fun r => item "replacement" (YStr r));
  when (bool_decide (rc_Action c ≠ "")) (item "action" (YStr (ToLower (rc_Action c))))].
(** The items are appended to an empty slice; nothing in it fails. *)
Definition relabel_rule (c : RelabelConfig) : MapSlice :=
  match relabel_items c [] with Ok m => m | _ => [] end.
Definition generateRelabelConfig (rc : list RelabelConfig) : list MapSlice := relabel_rule <$> rc.

Definition initRelabelings : list MapSlice :=
  [[("source_labels", YStrs ["job"]); ("target_label", YStr "__tmp_prometheus_job_name")]].
Definition generateRunningFilter : MapSlice :=
  [("action", YStr "drop"); ("source_labels", YStrs ["__meta_kubernetes_pod_phase"]);
   ("regex", YStr "(Failed|Succeeded)")].

(** ** Label selectors as rules *)

Definition LabelSelectorOpIn := "In".
Definition LabelSelectorOpNotIn := "NotIn".
Definition LabelSelectorOpExists := "Exists".
Definition LabelSelectorOpDoesNotExist := "DoesNotExist".

Section selectors.
(** The kind of object whose labels are selected: [pod], [service] or [ingress]. *)
Context (kind : string).
Definition meta_label (k : string) : string := "__meta_kubernetes_" +:+ kind +:+ "_label_" +:+ sanitizeLabelName k.
Definition meta_labelpresent (k : string) : string :=
  "__meta_kubernetes_" +:+ kind +:+ "_labelpresent_" +:+ sanitizeLabelName k.
Definition match_label_rule (k v : string) : MapSlice :=
  [("action", YStr "keep"); ("source_labels", YStrs [meta_label k; meta_labelpresent k]);
   ("regex", YStr ("(" +:+ v +:+ ");true"))].
Definition match_expression_rules (exp : LabelSelectorRequirement) : list MapSlice :=
  let k := lsr_Key exp in
  let op := lsr_Operator exp in
  let values := "(" +:+ Join (lsr_Values exp) "|" +:+ ");true" in
  if bool_decide (op = LabelSelectorOpIn) then
    [[("action", YStr "keep"); ("source_labels", YStrs [meta_label k; meta_labelpresent k]); ("regex", YStr values)]]
  else if bool_decide (op = LabelSelectorOpNotIn) then
    [[("action", YStr "drop"); ("source_labels", YStrs [meta_label k; meta_labelpresent k]); ("regex", YStr values)]]
  else if bool_decide (op = LabelSelectorOpExists) then
    [[("action", YStr "keep"); ("source_labels", YStrs [meta_labelpresent k]); ("regex", YStr "true")]]
  else if bool_decide (op = LabelSelectorOpDoesNotExist) then
    [[("action", YStr "drop"); ("source_labels", YStrs [meta_labelpresent k]); ("regex", YStr "true")]]
  else [].
Definition selector_rules (sel : LabelSelector) : list MapSlice :=
  let labels := default ∅ (ls_MatchLabels sel) in
  (omap (fun k => match_label_rule k <$> labels !! k) (SortedKeys labels)) ++
  concat (match_expression_rules <$> ls_MatchExpressions sel).
End selectors.
(** The same code stands in the three generators. *)
Definition pod_selector_rules := selector_rules "pod".
Definition service_selector_rules := selector_rules "service".
Definition ingress_selector_rules := selector_rules "ingress".

(** ** Sharding *)

Definition sharding_rules (shards : Z) (shardLabel : string) : list MapSlice := [
  [("source_labels", YStrs [shardLabel; hashLabelNameForSharding]);
   ("target_label", YStr hashLabelNameForSharding); ("regex", YStr "(.+);");
   ("replacement", YStr "$1"); ("action", YStr "replace")];
  [("source_labels", YStrs [hashLabelNameForSharding]); ("target_label", YStr hashLabelNameForSharding);
   ("modulus", YInt shards); ("action", YStr "hashmod")];
  [("source_labels", YStrs [hashLabelNameForSharding; hashLabelNameForDisablingSharding]);
   ("regex", YStr ("$(" +:+ ShardEnvVar +:+ ");|.+;.+")); ("action", YStr "keep")]].
Definition appendShardingRelabelingWithLabel (relabelings : list MapSlice) (shards : Z) (shardLabel : string)
    : list MapSlice := relabelings ++ sharding_rules shards shardLabel.
Definition appendShardingRelabelingWithAddress (relabelings : list MapSlice) (shards : Z) : list MapSlice :=
  appendShardingRelabelingWithLabel relabelings shards "__address__".
Definition appendShardingRelabelingForProbes (relabelings : list MapSlice) (shards : Z) : list MapSlice :=
  appendShardingRelabelingWithLabel relabelings shards "__param_target".
Definition is_hashmod (relabeling : MapSlice) : bool :=
  existsb (fun kv => bool_decide (kv.1 = "action") &&
                     match kv.2 with YStr a => bool_decide (a = "hashmod") | _ => false end) relabeling.
Definition appendShardingRelabelingWithAddressIfMissing (relabelings : list MapSlice) (shards : Z) : list MapSlice :=
  if existsb is_hashmod relabelings then relabelings
  else appendShardingRelabelingWithAddress relabelings shards.

(** ** The rules conform *)

Section conform.
Context (ok : avail → bool) (ok_always : ok Always = true).

Definition rules_ok (l : list MapSlice) : Prop := Forall (fun m => conforms ok relabel_schema (YMap m)) l.
Lemma rules_ok_app l l' : rules_ok l → rules_ok l' → rules_ok (l ++ l').
Proof. intros. by apply Forall_app. Qed.
Lemma rules_ok_cons m l : conforms ok relabel_schema (YMap m) → rules_ok l → rules_ok (m :: l).
Proof. intros. by constructor. Qed.
Lemma rules_ok_nil : rules_ok [].
Proof. constructor. Qed.
Lemma rules_ok_concat {A} (f : A → list MapSlice) l : (∀ x, rules_ok (f x)) → rules_ok (concat (f <$> l)).
Proof. intros Hf. induction l; simpl; [constructor|]. by apply rules_ok_app. Qed.
Lemma rules_ok_map {A} (f : A → MapSlice) l :
  (∀ x, conforms ok relabel_schema (YMap (f x))) → rules_ok (f <$> l).
Proof. intros Hf. by apply Forall_fmap, Forall_true. Qed.
Lemma rules_ok_when (b : bool) l : rules_ok l → rules_ok (if b then l else []).
Proof. destruct b; [done|]. intros _. constructor. Qed.
Lemma rules_ok_conforms l : rules_ok l → conforms ok (SSeq relabel_schema) (YMaps l).
Proof. apply conforms_maps. Qed.
End conform.
(** A rule that is written out. *)
Ltac rule := apply conforms_obj; [table|];
  repeat (apply Forall_cons; split; [do 2 eexists; split; [emit_member|split; [first [eassumption|reflexivity]|cbn [fst snd]; emit_val]]|]);
  apply Forall_nil; exact I.
Create HintDb rules.
#[export] Hint Resolve rules_ok_app rules_ok_nil rules_ok_when : rules.
#[export] Hint Extern 1 (rules_ok _ (_ :: _)) => apply rules_ok_cons; [rule|] : rules.

Section conform_rules.
Context (ok : avail → bool) (ok_always : ok Always = true).

Lemma relabel_items_emits c : emits ok relabel_fields (relabel_items c).
Proof.
  assert (∀ k s v, conforms ok s v → emits ok [fld k s] (item k v)) as Hi by (intros; by apply emits_item).
  unfold relabel_items. apply emits_run_all; [|table]. apply emits_each.
  repeat first [apply Forall2_nil_2
    |apply Forall2_cons_2; [first [apply emits_when; intros _|apply emits_if_set; intros ? _]; apply Hi; emit_val|]].
Qed.
Lemma relabel_rule_conforms c : conforms ok relabel_schema (YMap (relabel_rule c)).
Proof.
  unfold relabel_rule. destruct (emits_conforms _ _ _ (relabel_items_emits c)) as (m & -> & Hm). done.
Qed.
Lemma generateRelabelConfig_ok rc : rules_ok ok (generateRelabelConfig rc).
Proof. apply rules_ok_map, relabel_rule_conforms. Qed.
Lemma initRelabelings_ok : rules_ok ok initRelabelings.
Proof. unfold initRelabelings. auto with rules. Qed.
Lemma generateRunningFilter_conforms : conforms ok relabel_schema (YMap generateRunningFilter).
Proof. unfold generateRunningFilter. rule. Qed.
Lemma selector_rules_ok kind sel : rules_ok ok (selector_rules kind sel).
Proof.
  unfold selector_rules. apply rules_ok_app.
  - apply Forall_forall. intros m (k & _ & Hk)%list_elem_of_omap.
    destruct (_ !! k) as [v|]; simplify_eq/=. unfold match_label_rule. rule.
  - apply rules_ok_concat. intros exp. unfold match_expression_rules.
    repeat case_bool_decide; auto with rules.
Qed.
Lemma appendSharding_ok l shards lbl : rules_ok ok l → rules_ok ok (appendShardingRelabelingWithLabel l shards lbl).
Proof.
  intros Hl. apply rules_ok_app; [done|]. unfold sharding_rules. auto with rules.
Qed.
End conform_rules.
#[export] Hint Resolve generateRelabelConfig_ok initRelabelings_ok selector_rules_ok appendSharding_ok : rules.

(** ** What Prometheus does with the rules *)

Abbreviation labels := (gmap string string).
Definition value (t : labels) (n : string) : string := default "" (t !! n).
Definition source_value (t : labels) (names : list string) : string := Join (value t <$> names) ";".
Definition one_line (s : string) : Prop := contains_char "010"%char s = false.
(** [s] is two non-empty texts around a semicolon. *)
Definition two_parts (s : string) : Prop := ∃ a b, a ≠ "" ∧ b ≠ "" ∧ s = a +:+ ";" +:+ b.

Class RelabelEngine := {
  (** one rule on the labels of a target: the new labels, or the target is dropped *)
  relabel : MapSlice → labels → option labels;
  (** the first group of a match, whether there is a match, the hash *)
  capture : string → string → option string;
  full_match : string → string → bool;
  hash : string → Z;
  relabel_replace src tgt re t :
    relabel [("source_labels", YStrs src); ("target_label", YStr tgt); ("regex", YStr re);
             ("replacement", YStr "$1"); ("action", YStr "replace")] t =
      Some match capture re (source_value t src) with
           | Some "" => delete tgt t
           | Some v => <[tgt := v]> t
           | None => t
           end;
  relabel_hashmod src tgt m t : (0 < m)%Z →
    relabel [("source_labels", YStrs src); ("target_label", YStr tgt); ("modulus", YInt m);
             ("action", YStr "hashmod")] t =
      Some (<[tgt := Itoa (hash (source_value t src) mod m)]> t);
  relabel_keep src re t :
    relabel [("source_labels", YStrs src); ("regex", YStr re); ("action", YStr "keep")] t =
      if full_match re (source_value t src) then Some t else None;
  (** a rule without source labels replaces unconditionally; [$] starts a reference *)
  relabel_set tgt v t : contains_char "$" v = false → v ≠ "" →
    relabel [("target_label", YStr tgt); ("replacement", YStr v)] t = Some (<[tgt := v]> t);
  hash_nonneg s : (0 ≤ hash s)%Z;
  capture_one s a : one_line s → capture "(.+);" s = Some a ↔ a ≠ "" ∧ s = a +:+ ";";
  full_match_shard n s : one_line s →
    full_match (Itoa n +:+ ";|.+;.+") s = true ↔ s = Itoa n +:+ ";" ∨ two_parts s;
}.

(** The configuration reloader of a pod replaces the variable by the number of its shard. *)
Definition shard_var := "$(" +:+ ShardEnvVar +:+ ")".
Fixpoint expand_text (todo : nat) (v s : string) : string :=
  match s with
  | EmptyString => EmptyString
  | String c s' =>
      match todo with
      | S n => expand_text n v s'
      | O => if HasPrefix s shard_var then v +:+ expand_text (String.length shard_var - 1) v s'
             else String c (expand_text 0 v s')
      end
  end.
Definition expand_shard (i : Z) (rule : MapSlice) : MapSlice :=
  (fun kv => (kv.1, match kv.2 with YStr s => YStr (expand_text 0 (Itoa i) s) | y => y end)) <$> rule.
Definition shard_independent (rules : list MapSlice) : Prop :=
  Forall (fun r => ∀ i, expand_shard i r = r) rules.

Section engine.
Context `{RelabelEngine}.

Fixpoint run_rules (rules : list MapSlice) (t : labels) : option labels :=
  match rules with
  | [] => Some t
  | r :: rules' => t' ← relabel r t; run_rules rules' t'
  end.
Lemma run_rules_app l l' t : run_rules (l ++ l') t = t' ← run_rules l t; run_rules l' t'.
Proof. revert t. induction l as [|r l IH]; intros t; simpl; [done|]. destruct (relabel r t); simpl; auto. Qed.

(** One part only. *)
Lemma not_two_parts s : contains_char ";" s = false → ~ two_parts (s +:+ ";").
Proof.
  intros Hs (a & b & _ & Hb & E). destruct (string_snoc b Hb) as (b' & c & ->).
  assert (s +:+ ";" = (a +:+ ";" +:+ b') +:+ String c "") as E'.
  { rewrite E, !app_str_assoc. done. }
  apply app_str_snoc_inj in E' as [-> _]. rewrite !contains_char_app in Hs. simpl in Hs.
  by rewrite orb_true_r in Hs.
Qed.

(** ** A target belongs to one shard *)

Lemma expand_sharding i shards lbl :
  expand_shard i <$> sharding_rules shards lbl = [
    [("source_labels", YStrs [lbl; hashLabelNameForSharding]);
     ("target_label", YStr hashLabelNameForSharding); ("regex", YStr "(.+);");
     ("replacement", YStr "$1"); ("action", YStr "replace")];
    [("source_labels", YStrs [hashLabelNameForSharding]); ("target_label", YStr hashLabelNameForSharding);
     ("modulus", YInt shards); ("action", YStr "hashmod")];
    [("source_labels", YStrs [hashLabelNameForSharding; hashLabelNameForDisablingSharding]);
     ("regex", YStr (Itoa i +:+ ";|.+;.+")); ("action", YStr "keep")]].
Proof. done. Qed.

Definition kept (t : option labels) : Prop := is_Some t.
(** The first two rules leave the number of the shard in the label of the hash. *)
Lemma hash_rules shards lbl t :
  (0 < shards)%Z →
  ∃ t' h, (0 ≤ h < shards)%Z ∧
    (∀ i, run_rules (expand_shard i <$> sharding_rules shards lbl) t =
      (if full_match (Itoa i +:+ ";|.+;.+") (Itoa h +:+ ";" +:+ value t hashLabelNameForDisablingSharding)
       then Some t' else None)) ∧
    (one_line (value t lbl) → value t lbl ≠ "" → value t hashLabelNameForSharding = "" →
     h = hash (value t lbl) mod shards)%Z ∧
    (∀ l, l ≠ hashLabelNameForSharding → t' !! l = t !! l).
Proof.
  intros Hs.
  set (t1 := match capture "(.+);" (source_value t [lbl; hashLabelNameForSharding]) with
             | Some "" => delete hashLabelNameForSharding t
             | Some v => <[hashLabelNameForSharding := v]> t
             | None => t
             end).
  set (h := (hash (source_value t1 [hashLabelNameForSharding]) mod shards)%Z).
  set (t2 := <[hashLabelNameForSharding := Itoa h]> t1).
  assert (∀ l, l ≠ hashLabelNameForSharding → t2 !! l = t !! l) as Hl2.
  { intros l Hl. unfold t2. rewrite lookup_insert_ne by done. unfold t1.
    destruct (capture _ _) as [[|c v]|]; [by rewrite lookup_delete_ne|by rewrite lookup_insert_ne|done]. }
  assert (value t2 hashLabelNameForDisablingSharding = value t hashLabelNameForDisablingSharding) as Hd.
  { unfold value. by rewrite Hl2. }
  exists t2, h. split; [by apply Z.mod_pos_bound|]. split; [|split; [|done]].
  - intros i. rewrite expand_sharding. cbn [run_rules]. rewrite relabel_replace. cbn [mbind option_bind].
    fold t1. rewrite relabel_hashmod by done. cbn [mbind option_bind]. fold h. fold t2. rewrite relabel_keep.
    unfold source_value. cbn [fmap list_fmap Join]. rewrite Hd.
    unfold value at 1, t2. rewrite lookup_insert, decide_True by done. simpl. by destruct (full_match _ _).
  - intros Hl Hv Hh. unfold h. do 2 f_equal. unfold source_value. simpl. unfold t1.
    assert (capture "(.+);" (source_value t [lbl; hashLabelNameForSharding]) = Some (value t lbl)) as ->.
    { apply capture_one; unfold source_value; simpl; rewrite Hh.
      - unfold one_line. rewrite contains_char_app. by rewrite Hl.
      - by split. }
    destruct (value t lbl) as [|c v] eqn:E; [done|]. unfold value. by rewrite lookup_insert, decide_True.
Qed.

(** The rule of the enforced namespace. *)
Definition enforce_rule (label ns : string) : MapSlice := [("target_label", YStr label); ("replacement", YStr ns)].
Lemma expand_no_ref i s : contains_char "$" s = false → expand_text 0 (Itoa i) s = s.
Proof.
  induction s as [|c s IH]; simpl; [done|]. case_decide as Hc; [done|]. intros Hs.
  assert (HasPrefix (String c s) shard_var = false) as ->.
  { apply not_true_is_false. rewrite HasPrefix_spec. intros [r [= -> _]]. by apply Hc. }
  by rewrite IH.
Qed.
Lemma enforced_last pre shards lbl label ns (sharded : bool) i t t' :
  contains_char "$" label = false → contains_char "$" ns = false → ns ≠ "" → label ≠ hashLabelNameForSharding →
  (0 < shards)%Z →
  run_rules (expand_shard i <$> pre ++ [enforce_rule label ns] ++ if sharded then sharding_rules shards lbl else []) t = Some t' →
  t' !! label = Some ns.
Proof.
  intros Hl Hn Hne Hlh Hs. rewrite !fmap_app, run_rules_app.
  destruct (run_rules (expand_shard i <$> pre) t) as [t1|]; cbn [mbind option_bind]; [|done].
  assert (expand_shard i <$> [enforce_rule label ns] = [enforce_rule label ns]) as ->.
  { unfold expand_shard. simpl. by rewrite !expand_no_ref. }
  rewrite run_rules_app. cbn [run_rules]. unfold enforce_rule. rewrite relabel_set by done. cbn [mbind option_bind].
  destruct sharded; [|intros [= <-]; by rewrite lookup_insert, decide_True].
  destruct (hash_rules shards lbl (<[label := ns]> t1) Hs) as (t2 & h & _ & -> & _ & Ht2).
  destruct (full_match _ _); [|done]. intros [= <-]. rewrite Ht2 by done. by rewrite lookup_insert, decide_True.
Qed.

(** C3: The relabelings that the generator appends spread targets over the shards of a Prometheus
    object, whatever relabelings come before them. A target that they do not drop is scraped by
    exactly one shard, the one given by the hash of its address (of [__param_target] for a probe)
    unless a relabeling chose the label [__tmp_hash] itself; a target with the label
    [__tmp_disable_sharding] is scraped by every shard. *)
Theorem shards_partition_targets (relabelings : list MapSlice) (shards : Z) (lbl : string) (t0 t : labels) :
  (0 < shards)%Z → shard_independent relabelings → run_rules relabelings t0 = Some t →
  one_line (value t hashLabelNameForDisablingSharding) →
  let scraped i :=
    kept (run_rules (expand_shard i <$> appendShardingRelabelingWithLabel relabelings shards lbl) t0) in
  (value t hashLabelNameForDisablingSharding = "" →
     ∃ i, (0 ≤ i < shards)%Z ∧ (∀ j, scraped j ↔ j = i) ∧
       (one_line (value t lbl) → value t lbl ≠ "" → value t hashLabelNameForSharding = "" →
        i = hash (value t lbl) mod shards)%Z) ∧
  (value t hashLabelNameForDisablingSharding ≠ "" → ∀ j, scraped j).
Proof.
  intros Hs Hi Ht Hd scraped.
  assert (∀ j, scraped j ↔ kept (run_rules (expand_shard j <$> sharding_rules shards lbl) t)) as Hk.
  { intros j. unfold scraped, appendShardingRelabelingWithLabel. rewrite fmap_app, run_rules_app.
    assert (expand_shard j <$> relabelings = relabelings) as ->.
    { clear -Hi. induction Hi as [|r l Hr _ IH]; [done|]. csimpl. by rewrite Hr, IH. }
    by rewrite Ht. }
  assert (∀ s, one_line s → ∀ h, one_line (Itoa h +:+ ";" +:+ s)) as Hol.
  { intros s Hl h. unfold one_line. rewrite contains_char_app, Itoa_no_char by done. done. }
  destruct (hash_rules shards lbl t Hs) as (t' & h & Hh & Hr & Hv & _). split.
  - intros Hz. exists h. split; [done|]. split; [|done]. intros j. rewrite Hk, Hr, Hz.
    pose proof (full_match_shard j (Itoa h +:+ ";") (Hol "" eq_refl h)) as Hm.
    transitivity (full_match (Itoa j +:+ ";|.+;.+") (Itoa h +:+ ";") = true).
    { unfold kept. rewrite app_str_nil_r. destruct (full_match _ _); (split; [by intros []|]); [by eexists|done]. }
    rewrite Hm. split; [|by intros ->; left].
    intros [E|E]; [|by apply not_two_parts in E; [|apply Itoa_no_char]].
    apply app_str_snoc_inj in E as [E _]. by apply (inj Itoa) in E.
  - intros Hz j. rewrite Hk, Hr.
    assert (full_match (Itoa j +:+ ";|.+;.+") (Itoa h +:+ ";" +:+ value t hashLabelNameForDisablingSharding) = true) as ->; [|by eexists].
    apply full_match_shard; [by apply Hol|]. right. exists (Itoa h), (value t hashLabelNameForDisablingSharding).
    split; [apply Itoa_nonempty|done].
Qed.
End engine.

(** ** A concrete engine *)

Module Concrete_engine.
Definition text (y : yaml) : string := match y with YStr s => s | _ => "" end.
Definition texts (y : yaml) : list string := match y with YSeq l => text <$> l | _ => [] end.
(** The suffix is removed. *)
Fixpoint cut_suffix (suffix s : string) : option string :=
  if bool_decide (s = suffix) then Some ""
  else match s with EmptyString => None | String c s' => String c <$> cut_suffix suffix s' end.
Fixpoint parts (seen : bool) (s : string) : bool :=
  match s with
  | EmptyString => false
  | String c s' => (seen && bool_decide (c = ";"%char) && bool_decide (s' ≠ "")) || parts true s'
  end.
Definition capture (re s : string) : option string :=
  if bool_decide (re = "(.+);") then
    match cut_suffix ";" s with Some "" => None | r => r end
  else None.
Definition full_match (re s : string) : bool :=
  match cut_suffix ";|.+;.+" re with
  | Some v => bool_decide (s = v +:+ ";") || parts false s
  | None => false
  end.
Definition hash (s : string) : Z := Z.of_nat (String.length s).
Definition number (y : yaml) : Z := match y with YInt z => z | _ => 0 end.
Definition relabel (rule : MapSlice) (t : labels) : option labels :=
  match rule with
  | [(_, src); (_, tgt); (_, re); _; _] =>
      Some match capture (text re) (source_value t (texts src)) with
           | Some "" => delete (text tgt) t
           | Some v => <[text tgt := v]> t
           | None => t
           end
  | [(_, src); (_, tgt); (_, m); _] =>
      Some (<[text tgt := Itoa (hash (source_value t (texts src)) mod number m)]> t)
  | [(_, src); (_, re); (_, act)] =>
      if bool_decide (text act = "keep") then
        if full_match (text re) (source_value t (texts src)) then Some t else None
      else Some t
  | [(k, tgt); (_, v)] => if bool_decide (k = "target_label") then Some (<[text tgt := text v]> t) else Some t
  | _ => Some t
  end.

Lemma texts_YStrs l : texts (YStrs l) = l.
Proof. unfold YStrs. simpl. induction l as [|s l IH]; [done|]. csimpl. by rewrite IH. Qed.
Lemma cut_suffix_app suffix v : cut_suffix suffix (v +:+ suffix) = Some v.
Proof.
  induction v as [|c v IH].
  - change ("" +:+ suffix) with suffix. destruct suffix; cbn [cut_suffix]; by rewrite bool_decide_true.
  - change (String c v +:+ suffix) with (String c (v +:+ suffix)). cbn [cut_suffix].
    rewrite bool_decide_false; [by rewrite IH|]. intros E%(f_equal String.length).
    simpl in E. rewrite length_app_str in E. lia.
Qed.
Lemma cut_suffix_Some suffix s v : cut_suffix suffix s = Some v → s = v +:+ suffix.
Proof.
  revert v. induction s as [|c s IH]; intros v; simpl; case_bool_decide as E.
  - by intros [= <-].
  - done.
  - by intros [= <-].
  - destruct (cut_suffix suffix s) as [w|]; simpl; [|done]. intros [= <-]. simpl. by rewrite (IH w).
Qed.
Lemma parts_spec seen s :
  parts seen s = true ↔ ∃ a b, (seen = true ∨ a ≠ "") ∧ b ≠ "" ∧ s = a +:+ ";" +:+ b.
Proof.
  revert seen. induction s as [|c s IH]; intros seen; simpl.
  - split; [done|]. by intros ([|] & b & _ & _ & E).
  - rewrite orb_true_iff, !andb_true_iff, !bool_decide_eq_true, IH. split.
    + intros [[[-> ->] Hs]|(a & b & _ & Hb & ->)]; [exists "", s; auto|].
      exists (String c a), b. auto.
    + intros ([|d a] & b & Ha & Hb & E); simpl in E.
      * injection E as -> ->. destruct Ha as [-> | Ha]; [by left|done].
      * injection E as -> ->. right. exists a, b. auto.
Qed.
#[global, refine] Instance engine : RelabelEngine := {|
  Relabel.relabel := relabel; Relabel.capture := capture; Relabel.full_match := full_match; Relabel.hash := hash |}.
Proof.
  - intros. unfold relabel. rewrite texts_YStrs. reflexivity.
  - intros. unfold relabel. rewrite texts_YStrs. reflexivity.
  - intros. unfold relabel. rewrite texts_YStrs. reflexivity.
  - intros. reflexivity.
  - intros. unfold hash. lia.
  - intros s a _. unfold capture. rewrite bool_decide_true by done. split.
    + destruct (cut_suffix ";" s) as [[|c v]|] eqn:E; try done. intros [= <-].
      apply cut_suffix_Some in E. done.
    + intros [Ha ->]. rewrite cut_suffix_app. by destruct a.
  - intros n s _. unfold full_match. rewrite cut_suffix_app.
    rewrite orb_true_iff, bool_decide_eq_true, parts_spec. unfold two_parts. naive_solver.
Defined.
End Concrete_engine.

Section witness.
Import Concrete_engine.
Definition target : labels := {["__address__" := "10.0.0.1:9090"; "job" := "api"]}.
(** Two shards: the target is scraped by the shard of the hash of its address, the second. *)
Lemma shards_partition_targets_witness :
  ∃ i, (0 ≤ i < 2)%Z ∧ (i = hash "10.0.0.1:9090" mod 2)%Z ∧ ∀ j,
    kept (run_rules (expand_shard j <$> appendShardingRelabelingWithAddress initRelabelings 2) target) ↔ j = i.
Proof.
  destruct (shards_partition_targets initRelabelings 2 "__address__" target target) as [Hp _].
  - done.
  - by repeat constructor.
  - done.
  - done.
  - destruct Hp as (i & Hi & Hj & He); [done|]. exists i. split; [done|]. split; [by apply He|exact Hj].
Defined.
End witness.
