(* ===== verification/Monitors.v ===== *)
(** * Scrape configurations of PodMonitors, ServiceMonitors and Probes

    [generatePodMonitorConfig], [generateServiceMonitorConfig] and [generateProbeConfig] of
    pkg/prometheus/promcfg.go with what they call: OAuth2 and the Kubernetes service discovery.
    A generator returns the items of one scrape configuration, or panics where the code does. *)

From S2P Require Import Prelude GoStrings SortUtil Meta Semver NamespaceLabeler MonitoringV1.
From S2P Require Import PromTypes PromCommon AssetStore Yaml ConfigGenerator Relabel.

Section generators.
Context `{Semver} `{PromLibs}.

(** ** OAuth2 *)

Definition oauth2_items (cg : ConfigGenerator) (store : StoreGetter) (o : OAuth2) (clientID clientSecret : string)
    : emitter := run [
  item "client_id" (YStr clientID);
  item "client_secret" (YStr clientSecret);
  item "token_url" (YStr (OAuth2_TokenURL o));
  when (bool_decide (OAuth2_Scopes o ≠ [])) (item "scopes" (YStrs (OAuth2_Scopes o)));
  when (bool_decide (default ∅ (OAuth2_EndpointParams o) ≠ ∅))
    (item "endpoint_params" (YMap (stringMapToMapSlice YStr (default ∅ (OAuth2_EndpointParams o)))));
  addProxyConfigtoYaml (WithMinimumVersion cg "2.43.0") store (OAuth2_ProxyConfig o);
  addSafeTLStoYaml (WithMinimumVersion cg "2.43.0") store (OAuth2_TLSConfig o)].
Definition addOAuth2ToYaml (cg : ConfigGenerator) (store : StoreGetter) (oauth2 : option OAuth2) : emitter :=
  if_set oauth2 (fun o =>
    unless_err (sg_GetSecretOrConfigMapKey store (OAuth2_ClientID o)) (fun clientID =>
    unless_err (sg_GetSecretKey store (OAuth2_ClientSecret o)) (fun clientSecret =>
    from_res (oauth2_items cg store o clientID clientSecret []) (fun oauth2Cfg =>
    AppendMapItem (WithMinimumVersion cg "2.27.0") "oauth2" (YMap oauth2Cfg))))).

(** ** Kubernetes service discovery *)

Definition getNamespacesFromNamespaceSelector (cg : ConfigGenerator) (nsel : NamespaceSelector) (namespace : string)
    : list string :=
  if cpf_IgnoreNamespaceSelectors (cg_cpf cg) then [namespace]
  else if nsel_Any nsel then []
  else if bool_decide (nsel_MatchNames nsel = []) then [namespace]
  else nsel_MatchNames nsel.

(** The first item with the key is extended in place. *)
Fixpoint extend_selectors (m : MapSlice) (selectors : list yaml) : option (res MapSlice) :=
  match m with
  | [] => None
  | (k, v) :: m' =>
      if bool_decide (k = "selectors") then
        Some (match v with
              | YSeq l => Ok ((k, YSeq (l ++ selectors)) :: m')
              | _ => Panic "interface conversion"
              end)
      else option_map (fmap (cons (k, v))) (extend_selectors m' selectors)
  end.
Definition generateRoleSelectorConfig (cg : ConfigGenerator) (roles : list string) (selector : LabelSelector) : emitter :=
  fun k8sSDConfig =>
  match LabelSelector_String selector with
  | Err e => Panic "failed to convert label selector to selector: %w"
  | Panic m => Panic m
  | Ok s =>
      let selectors := (fun role => [("role", YStr role); ("label", YStr s)]) <$> roles in
      match extend_selectors k8sSDConfig (YMap <$> selectors) with
      | Some r => r
      | None => AppendMapItem cg "selectors" (YMaps selectors) k8sSDConfig
      end
  end.
Definition relabel_mechanism (selectorMechanism : option string) : bool :=
  bool_decide (default SelectorMechanismRelabel selectorMechanism = SelectorMechanismRelabel).
Definition withK8SRoleSelectorConfig (cg : ConfigGenerator) (selector : LabelSelector)
    (selectorMechanism : option string) (roles : list string) : emitter :=
  if relabel_mechanism selectorMechanism then skip else generateRoleSelectorConfig cg roles selector.

Definition k8s_sd_items (cg : ConfigGenerator) (namespaceSelector : NamespaceSelector) (namespace : string)
    (apiserverConfig : option APIServerConfig) (store : StoreGetter) (role : string)
    (attach : option attachMetadataConfig) : emitter :=
  let namespaces := getNamespacesFromNamespaceSelector cg namespaceSelector namespace in
  run [
    item "role" (YStr role);
    when (bool_decide (namespaces ≠ [])) (item "namespaces" (YMap [("names", YStrs namespaces)]));
    if_set apiserverConfig (fun api => run [
      item "api_server" (YStr (api_Host api));
      addBasicAuthToYaml cg store (api_BasicAuth api);
      when (bool_decide (api_BearerToken api ≠ "")) (item "bearer_token" (YStr (api_BearerToken api)));
      when (bool_decide (api_BearerTokenFile api ≠ "")) (item "bearer_token_file" (YStr (api_BearerTokenFile api)));
      addAuthorizationToYaml cg store (api_Authorization api);
      addTLStoYaml cg store (api_TLSConfig api);
      addProxyConfigtoYaml cg store (api_ProxyConfig api)]);
    if_set attach (fun a =>
      AppendMapItem (WithMinimumVersion cg (amc_MinimumVersion a)) "attach_metadata" (YMap [("node", YBool (amc_node a))]));
    when (daemonSet cg) (AppendMapItem cg "selectors"
      (YMaps [[("role", YStr "pod"); ("field", YStr "spec.nodeName=$(NODE_NAME)")]]))].
Definition generateK8SSDConfig (cg : ConfigGenerator) (namespaceSelector : NamespaceSelector) (namespace : string)
    (apiserverConfig : option APIServerConfig) (store : StoreGetter) (role : string)
    (attach : option attachMetadataConfig) (opts : list emitter) : res (string * yaml) :=
  k8sSDConfig ← k8s_sd_items cg namespaceSelector namespace apiserverConfig store role attach [];
  k8sSDConfig ← run opts k8sSDConfig;
  Ok ("kubernetes_sd_configs", YMaps [k8sSDConfig]).
Definition append_item (r : res (string * yaml)) : emitter := from_res r (fun kv => item kv.1 kv.2).

(** ** Parts of the three generators *)

Definition params_yaml (p : gmap string (list string)) : yaml := YMap (stringMapToMapSlice YStrs p).
Definition non_empty (k v : string) : emitter := when (bool_decide (v ≠ "")) (item k (YStr v)).
Definition bearer_token (s : StoreGetter) (sel : SecretKeySelector) : emitter :=
  when (bool_decide (SecretKeySelector_Name sel ≠ ""))
    (unless_err (sg_GetSecretKey s sel) (fun b => item "bearer_token" (YStr b))).
Definition http_flags (cg : ConfigGenerator) (followRedirects enableHttp2 : option bool) : emitter := run [
  if_set followRedirects (fun b => AppendMapItem (WithMinimumVersion cg "2.26.0") "follow_redirects" (YBool b));
  if_set enableHttp2 (fun b => AppendMapItem (WithMinimumVersion cg "2.35.0") "enable_http2" (YBool b))].
Definition limits (cg : ConfigGenerator) (sample target label labelName labelValue keepDropped : option Z) : emitter :=
  let cpf := cg_cpf cg in run [
  AddLimitsToYAML cg sampleLimitKey sample (cpf_EnforcedSampleLimit cpf);
  AddLimitsToYAML cg targetLimitKey target (cpf_EnforcedTargetLimit cpf);
  AddLimitsToYAML cg labelLimitKey label (cpf_EnforcedLabelLimit cpf);
  AddLimitsToYAML cg labelNameLengthLimitKey labelName (cpf_EnforcedLabelNameLengthLimit cpf);
  AddLimitsToYAML cg labelValueLengthLimitKey labelValue (cpf_EnforcedLabelValueLengthLimit cpf);
  AddLimitsToYAML cg keepDroppedTargetsKey keepDropped (cpf_EnforcedKeepDroppedTargets cpf)].
Definition body_size_limit (cg : ConfigGenerator) (limit : option string) : emitter :=
  let bodySizeLimit := getLowerByteSize limit (cg_cpf cg) in
  when (negb (isByteSizeEmpty bodySizeLimit))
    (AppendMapItem (WithMinimumVersion cg "2.28.0") "body_size_limit" (YStr (default "" bodySizeLimit))).
Definition metric_relabelings (labeler : Labeler) (tm : GroupKind) (om : ObjectMeta) (scrapeClass : ScrapeClass)
    (rcs : list RelabelConfig) : emitter :=
  let metricRelabelings := sc_MetricRelabelings scrapeClass ++ GetRelabelingConfigs labeler tm om rcs in
  when (bool_decide (metricRelabelings ≠ []))
    (item "metric_relabel_configs" (YMaps (generateRelabelConfig metricRelabelings))).
Definition label_rule (l kind : string) : MapSlice :=
  [("source_labels", YStrs ["__meta_kubernetes_" +:+ kind +:+ "_label_" +:+ sanitizeLabelName l]);
   ("target_label", YStr (sanitizeLabelName l)); ("regex", YStr "(.+)"); ("replacement", YStr "${1}")].
Definition job_label_rules (kind jobLabel : string) : list MapSlice :=
  if bool_decide (jobLabel ≠ "") then
    [[("source_labels", YStrs ["__meta_kubernetes_" +:+ kind +:+ "_label_" +:+ sanitizeLabelName jobLabel]);
      ("target_label", YStr "job"); ("regex", YStr "(.+)"); ("replacement", YStr "${1}")]]
  else [].
Definition keep_rule (source : string) (regex : yaml) : MapSlice :=
  [("action", YStr "keep"); ("source_labels", YStrs [source]); ("regex", regex)].
Definition copy_rule (source target : string) : MapSlice :=
  [("source_labels", YStrs [source]); ("target_label", YStr target)].
Definition set_rule (target value : string) : MapSlice :=
  [("target_label", YStr target); ("replacement", YStr value)].
Definition target_port_rules (p : IntOrString) : list MapSlice :=
  if bool_decide (StrVal p ≠ "") then [keep_rule "__meta_kubernetes_pod_container_port_name" (YStr (IntOrString_String p))]
  else if bool_decide (IntVal p ≠ 0%Z) then [keep_rule "__meta_kubernetes_pod_container_port_number" (YInt (IntVal p))]
  else [].

(** The rules of the scrape class, of the user and of the enforced namespace, in this order. *)
Definition user_rules (labeler : Labeler) (tm : GroupKind) (om : ObjectMeta) (scrapeClass : ScrapeClass)
    (rcs : list RelabelConfig) : list MapSlice :=
  generateRelabelConfig (sc_Relabelings scrapeClass) ++
  generateRelabelConfig (GetRelabelingConfigs labeler tm om rcs).

Context {C : Type} `{CacheStore C}.

(** ** PodMonitors *)

Definition pod_port_rules (ep : PodMetricsEndpoint) : list MapSlice :=
  if bool_decide (default "" (pep_Port ep) ≠ "") then
    [keep_rule "__meta_kubernetes_pod_container_port_name" (YStr (default "" (pep_Port ep)))]
  else if bool_decide (default 0%Z (pep_PortNumber ep) ≠ 0%Z) then
    [keep_rule "__meta_kubernetes_pod_container_port_number" (YInt (default 0%Z (pep_PortNumber ep)))]
  else match pep_TargetPort ep with Some p => target_port_rules p | None => [] end.
Definition pod_endpoint_rules (ep : PodMetricsEndpoint) : list MapSlice :=
  if bool_decide (default "" (pep_Port ep) ≠ "") then [set_rule "endpoint" (default "" (pep_Port ep))]
  else match pep_TargetPort ep with
       | Some p => if bool_decide (IntOrString_String p ≠ "") then [set_rule "endpoint" (IntOrString_String p)] else []
       | None => []
       end.
Definition pod_relabelings (cg : ConfigGenerator) (labeler : Labeler) (m : PodMonitor) (ep : PodMetricsEndpoint)
    (shards : Z) : list MapSlice :=
  let spec := pm_Spec m in
  let om := pm_ObjectMeta m in
  let relabelings :=
    initRelabelings ++
    (if default true (pep_FilterRunning ep) then [generateRunningFilter] else []) ++
    (if relabel_mechanism (pms_SelectorMechanism spec) then pod_selector_rules (pms_Selector spec) else []) ++
    pod_port_rules ep ++
    [copy_rule "__meta_kubernetes_namespace" "namespace";
     copy_rule "__meta_kubernetes_pod_container_name" "container";
     copy_rule "__meta_kubernetes_pod_name" "pod"] ++
    ((fun l => label_rule l "pod") <$> pms_PodTargetLabels spec ++ cpf_PodTargetLabels (cg_cpf cg)) ++
    [set_rule "job" (om_Namespace om +:+ "/" +:+ om_Name om)] ++
    job_label_rules "pod" (pms_JobLabel spec) ++
    pod_endpoint_rules ep ++
    user_rules labeler (pm_TypeMeta m) om (getScrapeClassOrDefault cg (pms_ScrapeClassName spec)) (pep_RelabelConfigs ep) in
  if daemonSet cg then relabelings else appendShardingRelabelingWithAddress relabelings shards.

Definition podMonitor_job (m : PodMonitor) (i : nat) : string :=
  "podMonitor/" +:+ om_Namespace (pm_ObjectMeta m) +:+ "/" +:+ om_Name (pm_ObjectMeta m) +:+ "/" +:+ Itoa (Z.of_nat i).
Definition generatePodMonitorConfig (cg : ConfigGenerator) (m : PodMonitor) (ep : PodMetricsEndpoint) (i : nat)
    (apiserverConfig : option APIServerConfig) (store : StoreBuilder C) (shards : Z) : res MapSlice :=
  let spec := pm_Spec m in
  let namespace := om_Namespace (pm_ObjectMeta m) in
  let scrapeClass := getScrapeClassOrDefault cg (pms_ScrapeClassName spec) in
  let cpf := cg_cpf cg in
  cos ← ForNamespace store namespace;
  let s := getter cos in
  labeler ← New (cpf_EnforcedNamespaceLabel cpf) (cpf_ExcludedFromEnforcement cpf) false;
  run [
    item "job_name" (YStr (podMonitor_job m i));
    AddHonorLabels cg (pep_HonorLabels ep);
    AddHonorTimestamps cg (pep_HonorTimestamps ep);
    AddTrackTimestampsStaleness cg (pep_TrackTimestampsStaleness ep);
    append_item (generateK8SSDConfig cg (pms_NamespaceSelector spec) namespace apiserverConfig s kubernetesSDRolePod
      (mergeAttachMetadataWithScrapeClass (pms_AttachMetadata spec) scrapeClass "2.35.0")
      [withK8SRoleSelectorConfig cg (pms_Selector spec) (pms_SelectorMechanism spec) [kubernetesSDRolePod]]);
    non_empty "scrape_interval" (pep_Interval ep);
    non_empty "scrape_timeout" (pep_ScrapeTimeout ep);
    non_empty "metrics_path" (pep_Path ep);
    if_set (pep_Params ep) (fun p => item "params" (params_yaml p));
    non_empty "scheme" (pep_Scheme ep);
    http_flags cg (pep_FollowRedirects ep) (pep_EnableHttp2 ep);
    addTLStoYaml cg s (mergeSafeTLSConfigWithScrapeClass (pep_TLSConfig ep) scrapeClass);
    bearer_token s (pep_BearerTokenSecret ep);
    addBasicAuthToYaml cg s (pep_BasicAuth ep);
    addOAuth2ToYaml cg s (pep_OAuth2 ep);
    addProxyConfigtoYaml cg s (pep_ProxyConfig ep);
    addAuthorizationToYaml cg s (mergeSafeAuthorizationWithScrapeClass (pep_Authorization ep) scrapeClass);
    item "relabel_configs" (YMaps (pod_relabelings cg labeler m ep shards));
    limits cg (pms_SampleLimit spec) (pms_TargetLimit spec) (pms_LabelLimit spec) (pms_LabelNameLengthLimit spec)
      (pms_LabelValueLengthLimit spec) (pms_KeepDroppedTargets spec);
    addNativeHistogramConfig cg (pms_NativeHistogramConfig spec);
    addScrapeProtocols cg (pms_ScrapeProtocols spec);
    addFallbackScrapeProtocol cg (mergeFallbackScrapeProtocolWithScrapeClass (pms_FallbackScrapeProtocol spec) scrapeClass);
    body_size_limit cg (pms_BodySizeLimit spec);
    metric_relabelings labeler (pm_TypeMeta m) (pm_ObjectMeta m) scrapeClass (pep_MetricRelabelConfigs ep)] [].

(** ** ServiceMonitors *)

Definition KubernetesRoleService := "Service".
Definition service_port_rules (role : string) (ep : Endpoint) : list MapSlice :=
  if bool_decide (ep_Port ep ≠ "") then
    [keep_rule (if bool_decide (role = kubernetesSDRoleEndpointSlice)
                then "__meta_kubernetes_endpointslice_port_name" else "__meta_kubernetes_endpoint_port_name")
       (YStr (ep_Port ep))]
  else match ep_TargetPort ep with Some p => target_port_rules p | None => [] end.
Definition address_target_rule (role kind target : string) : MapSlice :=
  let sourceLabels :=
    if bool_decide (role = kubernetesSDRoleEndpointSlice)
    then ["__meta_kubernetes_endpointslice_address_target_kind"; "__meta_kubernetes_endpointslice_address_target_name"]
    else ["__meta_kubernetes_endpoint_address_target_kind"; "__meta_kubernetes_endpoint_address_target_name"] in
  [("source_labels", YStrs sourceLabels); ("separator", YStr ";"); ("regex", YStr (kind +:+ ";(.*)"));
   ("replacement", YStr "${1}"); ("target_label", YStr target)].
Definition service_endpoint_rules (ep : Endpoint) : list MapSlice :=
  if bool_decide (ep_Port ep ≠ "") then [set_rule "endpoint" (ep_Port ep)]
  else match ep_TargetPort ep with
       | Some p => if bool_decide (IntOrString_String p ≠ "") then [set_rule "endpoint" (IntOrString_String p)] else []
       | None => []
       end.
Definition service_relabelings (cg : ConfigGenerator) (labeler : Labeler) (m : ServiceMonitor) (ep : Endpoint)
    (shards : Z) : list MapSlice :=
  let spec := sm_Spec m in
  let om := sm_ObjectMeta m in
  let role := endpointRoleFlavor cg in
  appendShardingRelabelingWithAddress
    (initRelabelings ++
     (if relabel_mechanism (sms_SelectorMechanism spec) then service_selector_rules (sms_Selector spec) else []) ++
     service_port_rules role ep ++
     [address_target_rule role "Node" "node";
      address_target_rule role "Pod" "pod";
      copy_rule "__meta_kubernetes_namespace" "namespace";
      copy_rule "__meta_kubernetes_service_name" "service";
      copy_rule "__meta_kubernetes_pod_name" "pod";
      copy_rule "__meta_kubernetes_pod_container_name" "container"] ++
     (if default true (ep_FilterRunning ep) then [generateRunningFilter] else []) ++
     ((fun l => label_rule l "service") <$> sms_TargetLabels spec) ++
     ((fun l => label_rule l "pod") <$> sms_PodTargetLabels spec ++ cpf_PodTargetLabels (cg_cpf cg)) ++
     [[("source_labels", YStrs ["__meta_kubernetes_service_name"]); ("target_label", YStr "job");
       ("replacement", YStr "${1}")]] ++
     job_label_rules "service" (sms_JobLabel spec) ++
     service_endpoint_rules ep ++
     user_rules labeler (sm_TypeMeta m) om (getScrapeClassOrDefault cg (sms_ScrapeClassName spec)) (ep_RelabelConfigs ep))
    shards.

Definition serviceMonitor_job (m : ServiceMonitor) (i : nat) : string :=
  "serviceMonitor/" +:+ om_Namespace (sm_ObjectMeta m) +:+ "/" +:+ om_Name (sm_ObjectMeta m) +:+ "/" +:+ Itoa (Z.of_nat i).
Definition generateServiceMonitorConfig (cg : ConfigGenerator) (m : ServiceMonitor) (ep : Endpoint) (i : nat)
    (apiserverConfig : option APIServerConfig) (store : StoreBuilder C) (shards : Z) : res MapSlice :=
  let spec := sm_Spec m in
  let namespace := om_Namespace (sm_ObjectMeta m) in
  let scrapeClass := getScrapeClassOrDefault cg (sms_ScrapeClassName spec) in
  let cpf := cg_cpf cg in
  let role := endpointRoleFlavor cg in
  cos ← ForNamespace store namespace;
  let s := getter cos in
  labeler ← New (cpf_EnforcedNamespaceLabel cpf) (cpf_ExcludedFromEnforcement cpf) false;
  run [
    item "job_name" (YStr (serviceMonitor_job m i));
    AddHonorLabels cg (ep_HonorLabels ep);
    AddHonorTimestamps cg (ep_HonorTimestamps ep);
    AddTrackTimestampsStaleness cg (ep_TrackTimestampsStaleness ep);
    append_item (generateK8SSDConfig cg (sms_NamespaceSelector spec) namespace apiserverConfig s role
      (mergeAttachMetadataWithScrapeClass (sms_AttachMetadata spec) scrapeClass "2.37.0")
      [withK8SRoleSelectorConfig cg (sms_Selector spec) (sms_SelectorMechanism spec) [role; ToLower KubernetesRoleService]]);
    non_empty "scrape_interval" (ep_Interval ep);
    non_empty "scrape_timeout" (ep_ScrapeTimeout ep);
    non_empty "metrics_path" (ep_Path ep);
    if_set (ep_Params ep) (fun p => item "params" (params_yaml p));
    non_empty "scheme" (ep_Scheme ep);
    http_flags cg (ep_FollowRedirects ep) (ep_EnableHttp2 ep);
    addProxyConfigtoYaml cg s (ep_ProxyConfig ep);
    addOAuth2ToYaml cg s (ep_OAuth2 ep);
    addTLStoYaml cg s (mergeTLSConfigWithScrapeClass (ep_TLSConfig ep) scrapeClass);
    non_empty "bearer_token_file" (ep_BearerTokenFile ep);
    if_set (ep_BearerTokenSecret ep) (fun sel => bearer_token s sel);
    addBasicAuthToYaml cg s (ep_BasicAuth ep);
    addAuthorizationToYaml cg s (mergeSafeAuthorizationWithScrapeClass (ep_Authorization ep) scrapeClass);
    item "relabel_configs" (YMaps (service_relabelings cg labeler m ep shards));
    limits cg (sms_SampleLimit spec) (sms_TargetLimit spec) (sms_LabelLimit spec) (sms_LabelNameLengthLimit spec)
      (sms_LabelValueLengthLimit spec) (sms_KeepDroppedTargets spec);
    addNativeHistogramConfig cg (sms_NativeHistogramConfig spec);
    addScrapeProtocols cg (sms_ScrapeProtocols spec);
    addFallbackScrapeProtocol cg (mergeFallbackScrapeProtocolWithScrapeClass (sms_FallbackScrapeProtocol spec) scrapeClass);
    body_size_limit cg (sms_BodySizeLimit spec);
    metric_relabelings labeler (sm_TypeMeta m) (sm_ObjectMeta m) scrapeClass (ep_MetricRelabelConfigs ep)] [].

(** ** Probes *)

(** The labels of the static targets get a namespace unless the user chose one. The code stores
    them back into the object, where they stay. *)
Definition probe_static_labels (m : Probe) (labels : gomap) : gmap string string :=
  let ns := om_Namespace (probe_ObjectMeta m) in
  match labels with
  | None => {["namespace" := ns]}
  | Some l => if is_set (l !! "namespace") then l else <["namespace" := ns]> l
  end.
Definition prober_rules (m : Probe) : list MapSlice :=
  [copy_rule "__param_target" "instance"; set_rule "__address__" (prober_URL (prs_ProberSpec (probe_Spec m)))].
Definition ingress_rules : list MapSlice :=
  [[("source_labels", YStrs ["__meta_kubernetes_ingress_scheme"; "__address__"; "__meta_kubernetes_ingress_path"]);
    ("separator", YStr ";"); ("regex", YStr "(.+);(.+);(.+)"); ("target_label", YStr "__param_target");
    ("replacement", YStr "${1}://${2}${3}"); ("action", YStr "replace")];
   copy_rule "__meta_kubernetes_namespace" "namespace";
   copy_rule "__meta_kubernetes_ingress_name" "ingress";
   [("source_labels", YStrs ["__address__"]); ("separator", YStr ";"); ("regex", YStr "(.*)");
    ("target_label", YStr "__tmp_ingress_address"); ("replacement", YStr "$1"); ("action", YStr "replace")]].
(** Static targets take precedence over an ingress. *)
Definition probe_target_rules (cg : ConfigGenerator) (labeler : Labeler) (m : Probe) : list MapSlice :=
  let spec := probe_Spec m in
  let scrapeClass := getScrapeClassOrDefault cg (prs_ScrapeClassName spec) in
  match pt_StaticConfig (prs_Targets spec), pt_Ingress (prs_Targets spec) with
  | Some st, _ =>
      [copy_rule "__address__" "__param_target"] ++ prober_rules m ++
      user_rules labeler (probe_TypeMeta m) (probe_ObjectMeta m) scrapeClass (pts_RelabelConfigs st)
  | None, Some ing =>
      ingress_selector_rules (pti_Selector ing) ++ ingress_rules ++ prober_rules m ++
      user_rules labeler (probe_TypeMeta m) (probe_ObjectMeta m) scrapeClass (pti_RelabelConfigs ing)
  | None, None => []
  end.
Definition probe_relabelings (cg : ConfigGenerator) (labeler : Labeler) (m : Probe) (shards : Z) : list MapSlice :=
  appendShardingRelabelingForProbes
    (initRelabelings ++
     (if bool_decide (prs_JobName (probe_Spec m) ≠ "") then [set_rule "job" (prs_JobName (probe_Spec m))] else []) ++
     probe_target_rules cg labeler m) shards.
Definition probe_targets (cg : ConfigGenerator) (m : Probe) (apiserverConfig : option APIServerConfig)
    (s : StoreGetter) : emitter :=
  let spec := probe_Spec m in
  match pt_StaticConfig (prs_Targets spec), pt_Ingress (prs_Targets spec) with
  | Some st, _ =>
      item "static_configs" (YMaps [[("targets", YStrs (pts_Targets st));
        ("labels", YMap (stringMapToMapSlice YStr (probe_static_labels m (pts_Labels st))))]])
  | None, Some ing =>
      append_item (generateK8SSDConfig cg (pti_NamespaceSelector ing) (om_Namespace (probe_ObjectMeta m))
        apiserverConfig s kubernetesSDRoleIngress None [])
  | None, None => skip
  end.

Definition probe_job (m : Probe) : string :=
  "probe/" +:+ om_Namespace (probe_ObjectMeta m) +:+ "/" +:+ om_Name (probe_ObjectMeta m).
Definition generateProbeConfig (cg : ConfigGenerator) (m : Probe) (apiserverConfig : option APIServerConfig)
    (store : StoreBuilder C) (shards : Z) : res MapSlice :=
  let spec := probe_Spec m in
  let scrapeClass := getScrapeClassOrDefault cg (prs_ScrapeClassName spec) in
  let cpf := cg_cpf cg in
  labeler ← New (cpf_EnforcedNamespaceLabel cpf) (cpf_ExcludedFromEnforcement cpf) false;
  cos ← ForNamespace store (om_Namespace (probe_ObjectMeta m));
  let s := getter cos in
  run [
    item "job_name" (YStr (probe_job m));
    AddHonorTimestamps cg (Some true);
    item "metrics_path" (YStr (prober_Path (prs_ProberSpec spec)));
    non_empty "scrape_interval" (prs_Interval spec);
    non_empty "scrape_timeout" (prs_ScrapeTimeout spec);
    non_empty "scheme" (prober_Scheme (prs_ProberSpec spec));
    when (bool_decide (prs_Module spec ≠ "")) (item "params" (YMap [("module", YStrs [prs_Module spec])]));
    limits cg (prs_SampleLimit spec) (prs_TargetLimit spec) (prs_LabelLimit spec) (prs_LabelNameLengthLimit spec)
      (prs_LabelValueLengthLimit spec) (prs_KeepDroppedTargets spec);
    addNativeHistogramConfig cg (prs_NativeHistogramConfig spec);
    addScrapeProtocols cg (prs_ScrapeProtocols spec);
    addFallbackScrapeProtocol cg (mergeFallbackScrapeProtocolWithScrapeClass (prs_FallbackScrapeProtocol spec) scrapeClass);
    when (bool_decide (cpf_EnforcedBodySizeLimit cpf ≠ ""))
      (AppendMapItem (WithMinimumVersion cg "2.28.0") "body_size_limit" (YStr (cpf_EnforcedBodySizeLimit cpf)));
    addProxyConfigtoYaml cg s (prober_ProxyConfig (prs_ProberSpec spec));
    probe_targets cg m apiserverConfig s;
    item "relabel_configs" (YMaps (probe_relabelings cg labeler m shards));
    addTLStoYaml cg s (mergeSafeTLSConfigWithScrapeClass (prs_TLSConfig spec) scrapeClass);
    bearer_token s (prs_BearerTokenSecret spec);
    addBasicAuthToYaml cg s (prs_BasicAuth spec);
    addOAuth2ToYaml cg s (prs_OAuth2 spec);
    addAuthorizationToYaml cg s (mergeSafeAuthorizationWithScrapeClass (prs_Authorization spec) scrapeClass);
    metric_relabelings labeler (probe_TypeMeta m) (probe_ObjectMeta m) scrapeClass (prs_MetricRelabelConfigs spec)] [].
End generators.

(** ** The format of a scrape configuration *)

Section tables.
Definition oauth2_schema : schema := SObj ([
  fld "client_id" SStr; fld "client_secret" SStr; fld "token_url" SStr; fld "scopes" (SSeq SStr);
  fld "endpoint_params" (SMap SStr)] ++ proxy_fields ++ [fld "tls_config" tls_schema]).
Definition auth_fields : fields := [
  fld "basic_auth" basic_auth_schema; fld "bearer_token" SStr; fld "bearer_token_file" SStr;
  since "2.26.0" "authorization" auth_schema; fld "tls_config" tls_schema].
Definition k8s_sd_fields : fields := [
  fld "role" SStr; fld "namespaces" (SObj [fld "names" (SSeq SStr)]); fld "api_server" SStr] ++
  auth_fields ++ proxy_fields ++ [
  since "2.35.0" "attach_metadata" (SObj [fld "node" SBool]);
  fld "selectors" (SSeq (SObj [fld "role" SStr; fld "field" SStr; fld "label" SStr]))].
Definition limit_fields : fields := limit_field <$> [sampleLimitKey; targetLimitKey; labelLimitKey;
  labelNameLengthLimitKey; labelValueLengthLimitKey; keepDroppedTargetsKey].
Definition scrape_fields : fields := [
  fld "job_name" SStr; fld "honor_labels" SBool; since "2.9.0" "honor_timestamps" SBool;
  since "2.48.0" "track_timestamps_staleness" SBool;
  fld "kubernetes_sd_configs" (SSeq (SObj k8s_sd_fields));
  fld "static_configs" (SSeq (SObj [fld "targets" (SSeq SStr); fld "labels" (SMap SStr)]));
  fld "scrape_interval" SStr; fld "scrape_timeout" SStr; fld "metrics_path" SStr;
  fld "params" (SMap (SSeq SStr)); fld "scheme" SStr;
  since "2.26.0" "follow_redirects" SBool; since "2.35.0" "enable_http2" SBool;
  since "2.27.0" "oauth2" oauth2_schema] ++
  auth_fields ++ proxy_fields ++ limit_fields ++ histogram_fields ++ [
  since "2.49.0" "scrape_protocols" (SSeq SStr); since "3.0.0" "fallback_scrape_protocol" SStr;
  since "2.28.0" "body_size_limit" SStr;
  fld "relabel_configs" (SSeq relabel_schema); fld "metric_relabel_configs" (SSeq relabel_schema)].
End tables.

Section emits.
Context `{SemverLaws} `{PromLibs} (cg : ConfigGenerator) (s : StoreGetter).
Context (Hcg : cg_wf cg) (Hauth : supported cg (Since "2.26.0") = true) (Hs : store_ok s).

Lemma oauth2_items_emits o a b :
  emits (supported cg) ([
    fld "client_id" SStr; fld "client_secret" SStr; fld "token_url" SStr; fld "scopes" (SSeq SStr);
    fld "endpoint_params" (SMap SStr)] ++ proxy_fields ++ [fld "tls_config" tls_schema]) (oauth2_items cg s o a b).
Proof.
  pose proof (addProxyConfigtoYaml_emits (WithMinimumVersion cg "2.43.0") s Hs (OAuth2_ProxyConfig o)) as Hp.
  pose proof (addSafeTLStoYaml_emits (WithMinimumVersion cg "2.43.0") s Hs (OAuth2_TLSConfig o)) as Ht.
  rewrite supported_min in Hp, Ht. unfold oauth2_items. emit.
Qed.
Lemma addOAuth2ToYaml_emits o : emits (supported cg) [since "2.27.0" "oauth2" oauth2_schema] (addOAuth2ToYaml cg s o).
Proof.
  unfold addOAuth2ToYaml. apply emits_if_set. intros x _.
  do 2 (apply emits_unless_err; [apply Hs|intros ?]).
  eapply emits_nested; [apply oauth2_items_emits|]. intros m Hm. by apply emits_append_since.
Qed.

Definition attach_ok (a : option attachMetadataConfig) : Prop :=
  ∀ x, a = Some x → amc_MinimumVersion x = "2.35.0" ∨ amc_MinimumVersion x = "2.37.0".
Definition api_ok (api : option APIServerConfig) : Prop :=
  ∀ x, api = Some x → TLSConfig_Validate (api_TLSConfig x) = Ok ().
Lemma merge_attach_ok a sc v : v = "2.35.0" ∨ v = "2.37.0" → attach_ok (mergeAttachMetadataWithScrapeClass a sc v).
Proof.
  intros Hv x. unfold mergeAttachMetadataWithScrapeClass. intros (y & _ & ->)%fmap_Some. done.
Qed.
Lemma api_exclusive c : TLSConfig_Validate c = Ok () → ∀ x, c = Some x → tls_exclusive x.
Proof. intros Hv x ->. by apply TLSConfig_Validate_exclusive. Qed.
(** A field that is written from a later version on is one of an earlier version. *)
Lemma supported_release a b :
  small a → small b → release_lt a b = false →
  supported cg (Since (release a)) = true → supported cg (Since (release b)) = true.
Proof.
  intros Ha Hb Hab. simpl. destruct (bypassVersionCheck cg); simpl; [done|]. intros Hv. by eapply GTE_release.
Qed.
Lemma emits_append_later k sc v a b :
  small a → small b → release_lt a b = false → conforms (supported cg) sc v →
  emits (supported cg) [since (release b) k sc] (AppendMapItem (WithMinimumVersion cg (release a)) k v).
Proof.
  intros Ha Hb Hab Hv cfg. destruct (emits_append_since cg k sc v (release a) Hv cfg) as (m & Hm & Hnd & Hok).
  exists m. split; [done|]. split; [done|]. eapply Forall_impl; [exact Hok|].
  intros kv (av & s' & [[= -> -> ->]|[]%elem_of_nil]%elem_of_cons & Ha' & Hs').
  exists (Since (release b)), sc. split; [apply list_elem_of_singleton; by destruct kv|].
  split; [by apply (supported_release a b)|done].
Qed.
Lemma attach_emits a :
  attach_ok a →
  emits (supported cg) [since "2.35.0" "attach_metadata" (SObj [fld "node" SBool])]
    (if_set a (fun a => AppendMapItem (WithMinimumVersion cg (amc_MinimumVersion a)) "attach_metadata"
       (YMap [("node", YBool (amc_node a))]))).
Proof.
  intros Ha. apply emits_if_set. intros x Hx.
  assert (conforms (supported cg) (SObj [fld "node" SBool]) (YMap [("node", YBool (amc_node x))])) by emit_obj.
  destruct (Ha x Hx) as [-> | ->]; [emit|].
  apply (emits_append_later _ _ _ (2, 37, 0)%Z (2, 35, 0)%Z); by vm_compute || done.
Qed.

Lemma k8s_sd_items_emits nsel ns api role a :
  api_ok api → attach_ok a → emits (supported cg) k8s_sd_fields (k8s_sd_items cg nsel ns api s role a).
Proof.
  intros Hapi Ha%attach_emits.
  assert (∀ l, conforms (supported cg) (SObj [fld "names" (SSeq SStr)]) (YMap [("names", YStrs l)])) by (intros; emit_obj).
  assert (conforms (supported cg) (SSeq (SObj [fld "role" SStr; fld "field" SStr; fld "label" SStr]))
    (YMaps [[("role", YStr "pod"); ("field", YStr "spec.nodeName=$(NODE_NAME)")]])).
  { apply conforms_maps, Forall_singleton. emit_obj. }
  pose proof (wf_compatible _ Hcg). assert (auth_supported cg) by done.
  unfold k8s_sd_items. destruct api as [x|]; cbn [if_set].
  - pose proof (api_exclusive _ (Hapi x eq_refl)). emit.
  - emit.
Qed.

Definition selectors_schema : schema := SSeq (SObj [fld "role" SStr; fld "field" SStr; fld "label" SStr]).
Definition selectors_field : Prop := ∀ a sc, ("selectors", (a, sc)) ∈ k8s_sd_fields → a = Always ∧ sc = selectors_schema.
Lemma k8s_selectors_field : selectors_field.
Proof.
  intros a sc Hin. assert (Forall (fun f => f.1 = "selectors" → f = fld "selectors" selectors_schema) k8s_sd_fields) as Hf by table.
  rewrite Forall_forall in Hf. by specialize (Hf _ Hin eq_refl) as [= -> ->].
Qed.
Lemma extend_selectors_conforms m l :
  conforms (supported cg) (SObj k8s_sd_fields) (YMap m) → conforms (supported cg) selectors_schema (YSeq l) →
  match extend_selectors m l with
  | Some r => ∃ m', r = Ok m' ∧ m'.*1 = m.*1 ∧ conforms (supported cg) (SObj k8s_sd_fields) (YMap m')
  | None => "selectors" ∉ m.*1
  end.
Proof.
  clear Hcg Hauth Hs. intros Hm Hl. apply conforms_obj_inv in Hm as (m0 & [= <-] & Hm).
  induction m as [|[k v] m IH]; simpl; [set_solver|].
  assert (allowed (supported cg) k8s_sd_fields m) as Hm'.
  { destruct Hm as [Hnd Hf]. split; [by apply NoDup_cons in Hnd as [_ ?]|by apply Forall_cons in Hf as [_ ?]]. }
  destruct Hm as [Hnd Hf]. pose proof (proj1 (proj1 (Forall_cons _ _ _) Hf)) as (a & sc & Hin & Ha & Hv).
  simpl in Hin, Hv. case_bool_decide as Ek.
  - subst k. apply k8s_selectors_field in Hin as [-> ->].
    apply conforms_seq_inv in Hv as (l0 & -> & Hl0). apply conforms_seq_inv in Hl as (l1 & [= <-] & Hl1).
    eexists. split; [done|]. split; [done|]. constructor; [done|]. constructor; [|apply Hm'].
    exists Always, selectors_schema. split; [table|].
    split; [done|]. constructor. by apply Forall_app.
  - specialize (IH Hm'). destruct (extend_selectors m l) as [r|]; simpl; [|set_solver].
    destruct IH as (m' & -> & Hk & Hc). eexists. split; [done|]. split; [by csimpl; rewrite Hk|].
    apply conforms_obj_inv in Hc as (m0 & [= <-] & [Hnd' Hf']).
    constructor; [csimpl; rewrite Hk; done|]. constructor; [|done]. by exists a, sc.
Qed.
Definition selector_ok (sel : LabelSelector) : Prop := ∃ t, LabelSelector_String sel = Ok t.
Lemma withK8SRoleSelectorConfig_conforms sel mech roles m :
  selector_ok sel → conforms (supported cg) (SObj k8s_sd_fields) (YMap m) →
  ∃ m', withK8SRoleSelectorConfig cg sel mech roles m = Ok m' ∧ conforms (supported cg) (SObj k8s_sd_fields) (YMap m').
Proof.
  clear Hauth Hs. intros [t Ht] Hm. unfold withK8SRoleSelectorConfig. case_match; [by exists m|].
  unfold generateRoleSelectorConfig. rewrite Ht.
  assert (conforms (supported cg) selectors_schema (YMaps ((fun role => [("role", YStr role); ("label", YStr t)]) <$> roles))) as Hsel.
  { apply conforms_maps, Forall_fmap, Forall_true. intros r. simpl. emit_obj. }
  pose proof (extend_selectors_conforms m _ Hm Hsel) as He.
  destruct (extend_selectors _ _) as [r|]; [destruct He as (m' & -> & _ & ?); eauto|].
  unfold AppendMapItem. rewrite (wf_compatible _ Hcg). eexists. split; [done|].
  apply conforms_obj_inv in Hm as (m0 & [= <-] & [Hnd Hf]). constructor.
  - rewrite fmap_app. apply NoDup_app. split; [done|]. split; [set_solver|apply NoDup_singleton].
  - apply Forall_app. split; [done|]. apply Forall_singleton.
    exists Always, selectors_schema. split; [table|done].
Qed.
Lemma generateK8SSDConfig_emits nsel ns api role a opts :
  api_ok api → attach_ok a →
  Forall (fun f => ∀ m, conforms (supported cg) (SObj k8s_sd_fields) (YMap m) →
    ∃ m', f m = Ok m' ∧ conforms (supported cg) (SObj k8s_sd_fields) (YMap m')) opts →
  emits (supported cg) [fld "kubernetes_sd_configs" (SSeq (SObj k8s_sd_fields))]
    (append_item (generateK8SSDConfig cg nsel ns api s role a opts)).
Proof.
  intros Hapi Ha Ho. destruct (emits_conforms _ _ _ (k8s_sd_items_emits nsel ns api role a Hapi Ha)) as (m & Hm & Hc).
  unfold generateK8SSDConfig. rewrite Hm. simpl.
  assert (∃ m', run opts m = Ok m' ∧ conforms (supported cg) (SObj k8s_sd_fields) (YMap m')) as (m' & -> & Hc').
  { clear Hm. revert m Hc. induction Ho as [|f opts Hf _ IH]; intros m Hc; simpl; [by exists m|].
    destruct (Hf m Hc) as (m1 & -> & Hc1). simpl. by apply IH. }
  simpl. unfold append_item. apply emits_from_res. eexists. split; [done|]. simpl.
  apply emits_item; [done|]. by apply conforms_maps, Forall_singleton.
Qed.
End emits.

#[export] Hint Resolve addOAuth2ToYaml_emits : emits.

Section parts.
Context `{SemverLaws} `{PromLibs} (cg : ConfigGenerator) (s : StoreGetter) (Hs : store_ok s).

Lemma non_empty_emits k v : emits (supported cg) [fld k SStr] (non_empty k v).
Proof. unfold non_empty. emit. Qed.
Lemma bearer_token_emits sel : emits (supported cg) [fld "bearer_token" SStr] (bearer_token s sel).
Proof.
  unfold bearer_token. apply emits_when. intros _. apply emits_unless_err; [apply Hs|]. intros v. emit.
Qed.
Lemma http_flags_emits f h :
  emits (supported cg) [since "2.26.0" "follow_redirects" SBool; since "2.35.0" "enable_http2" SBool] (http_flags cg f h).
Proof. unfold http_flags. emit. Qed.
Lemma limits_emits a b c d e f : emits (supported cg) limit_fields (limits cg a b c d e f).
Proof. unfold limits. emit. Qed.
Lemma body_size_limit_emits l : emits (supported cg) [since "2.28.0" "body_size_limit" SStr] (body_size_limit cg l).
Proof. unfold body_size_limit. emit. Qed.
Lemma metric_relabelings_emits lb tm om sc rcs :
  emits (supported cg) [fld "metric_relabel_configs" (SSeq relabel_schema)] (metric_relabelings lb tm om sc rcs).
Proof.
  unfold metric_relabelings. apply emits_when. intros _. apply emits_item; [done|].
  by apply rules_ok_conforms, generateRelabelConfig_ok.
Qed.

Lemma label_rules_ok (kind : string) l : rules_ok (supported cg) ((fun x => label_rule x kind) <$> l).
Proof. apply rules_ok_map. intros x. unfold label_rule. emit_obj. Qed.
Lemma keep_rule_ok src y l : conforms (supported cg) SScalar y → rules_ok (supported cg) l → rules_ok (supported cg) (keep_rule src y :: l).
Proof. intros Hy Hl. constructor; [|done]. unfold keep_rule. emit_obj. Qed.
Lemma copy_rule_ok a b l : rules_ok (supported cg) l → rules_ok (supported cg) (copy_rule a b :: l).
Proof. intros Hl. constructor; [|done]. unfold copy_rule. emit_obj. Qed.
Lemma set_rule_ok a b l : rules_ok (supported cg) l → rules_ok (supported cg) (set_rule a b :: l).
Proof. intros Hl. constructor; [|done]. unfold set_rule. emit_obj. Qed.
Lemma job_label_rules_ok k l : rules_ok (supported cg) (job_label_rules k l).
Proof. unfold job_label_rules. case_match; [|constructor]. constructor; [emit_obj|constructor]. Qed.
Lemma address_target_rule_ok r k t l : rules_ok (supported cg) l → rules_ok (supported cg) (address_target_rule r k t :: l).
Proof. intros Hl. constructor; [|done]. unfold address_target_rule. emit_obj. Qed.
Lemma user_rules_ok lb tm om sc rcs : rules_ok (supported cg) (user_rules lb tm om sc rcs).
Proof. unfold user_rules. auto with rules. Qed.
Lemma running_filter_ok l : rules_ok (supported cg) l → rules_ok (supported cg) (generateRunningFilter :: l).
Proof. intros Hl. constructor; [|done]. by apply generateRunningFilter_conforms. Qed.
End parts.
#[export] Hint Resolve non_empty_emits bearer_token_emits http_flags_emits limits_emits body_size_limit_emits
  metric_relabelings_emits : emits.
#[export] Hint Resolve label_rules_ok keep_rule_ok copy_rule_ok set_rule_ok job_label_rules_ok
  address_target_rule_ok user_rules_ok running_filter_ok conforms_scalar_str conforms_scalar_int : rules.

Section relabelings.
Context `{SemverLaws} `{PromLibs} (cg : ConfigGenerator).

Lemma target_port_rules_ok p : rules_ok (supported cg) (target_port_rules p).
Proof. unfold target_port_rules. repeat case_match; auto with rules. Qed.
Lemma pod_relabelings_ok lb m ep n : rules_ok (supported cg) (pod_relabelings cg lb m ep n).
Proof.
  pose proof target_port_rules_ok.
  assert (rules_ok (supported cg) (pod_port_rules ep)) by (unfold pod_port_rules; repeat case_match; auto with rules).
  assert (rules_ok (supported cg) (pod_endpoint_rules ep)) by (unfold pod_endpoint_rules; repeat case_match; auto with rules).
  unfold pod_relabelings, appendShardingRelabelingWithAddress, pod_selector_rules.
  case_match; [|apply appendSharding_ok; [done|]]; repeat (apply rules_ok_app; [solve [auto with rules]|]);
    auto with rules.
Qed.
Lemma service_relabelings_ok lb m ep n : rules_ok (supported cg) (service_relabelings cg lb m ep n).
Proof.
  pose proof target_port_rules_ok. set (role := endpointRoleFlavor cg).
  assert (rules_ok (supported cg) (service_port_rules role ep)) by (unfold service_port_rules; repeat case_match; auto with rules).
  assert (rules_ok (supported cg) (service_endpoint_rules ep)) by (unfold service_endpoint_rules; repeat case_match; auto with rules).
  unfold service_relabelings, appendShardingRelabelingWithAddress, service_selector_rules. fold role.
  apply appendSharding_ok; [done|].
  repeat (apply rules_ok_app; [solve [auto 10 with rules]|]); auto with rules.
Qed.
Lemma probe_relabelings_ok lb m n : rules_ok (supported cg) (probe_relabelings cg lb m n).
Proof.
  assert (rules_ok (supported cg) (probe_target_rules cg lb m)).
  { unfold probe_target_rules, prober_rules, ingress_rules, ingress_selector_rules.
    repeat case_match; auto 10 with rules. }
  unfold probe_relabelings, appendShardingRelabelingForProbes. apply appendSharding_ok; [done|].
  auto with rules.
Qed.
End relabelings.

(** ** The generated configurations follow the format *)

Inductive monitor :=
  | MPod (m : PodMonitor) (ep : PodMetricsEndpoint) (i : nat)
  | MService (m : ServiceMonitor) (ep : Endpoint) (i : nat)
  | MProbe (m : Probe).

Section conform.
Context `{SemverLaws} `{PromLibs} {C : Type} `{CacheStore C}.

Definition generate (cg : ConfigGenerator) (api : option APIServerConfig) (store : StoreBuilder C) (shards : Z)
    (x : monitor) : res MapSlice :=
  match x with
  | MPod m ep i => generatePodMonitorConfig cg m ep i api store shards
  | MService m ep i => generateServiceMonitorConfig cg m ep i api store shards
  | MProbe m => generateProbeConfig cg m api store shards
  end.
Definition monitor_meta (x : monitor) : ObjectMeta :=
  match x with
  | MPod m _ _ => pm_ObjectMeta m
  | MService m _ _ => sm_ObjectMeta m
  | MProbe m => probe_ObjectMeta m
  end.
Definition monitor_kind (x : monitor) : GroupKind :=
  match x with
  | MPod m _ _ => pm_TypeMeta m
  | MService m _ _ => sm_TypeMeta m
  | MProbe m => probe_TypeMeta m
  end.
(** What the selection of monitors checks: a namespace, selectors that Kubernetes accepts, a
    valid TLS configuration. *)
Definition monitor_ok (x : monitor) : Prop :=
  om_Namespace (monitor_meta x) ≠ "" ∧
  match x with
  | MPod m ep i => selector_ok (pms_Selector (pm_Spec m))
  | MService m ep i => selector_ok (sms_Selector (sm_Spec m)) ∧ TLSConfig_Validate (ep_TLSConfig ep) = Ok ()
  | MProbe m => True
  end.
(** What holds of a generator and a store when configurations are generated. *)
Record ready (cg : ConfigGenerator) (api : option APIServerConfig) (store : StoreBuilder C) : Prop := {
  ready_cg : cg_wf cg;
  ready_version : supported cg (Since "2.26.0") = true;
  ready_api : api_ok api;
  ready_cache : cache_wf (objStore store);
  ready_labeler : ∃ l, New (cpf_EnforcedNamespaceLabel (cg_cpf cg)) (cpf_ExcludedFromEnforcement (cg_cpf cg)) false = Ok l;
}.

Section proof.
Context (cg : ConfigGenerator) (api : option APIServerConfig) (store : StoreBuilder C) (Hr : ready cg api store).

Lemma ForNamespace_ok ns : ns ≠ "" → ∃ cos, ForNamespace store ns = Ok cos ∧ store_ok (getter cos).
Proof.
  intros Hn. unfold ForNamespace. rewrite bool_decide_false by done. eexists. split; [done|].
  by apply getter_ok, (ready_cache _ _ _ Hr).
Qed.
Lemma role_selector_opts sel mech roles :
  selector_ok sel →
  Forall (fun f => ∀ m, conforms (supported cg) (SObj k8s_sd_fields) (YMap m) →
    ∃ m', f m = Ok m' ∧ conforms (supported cg) (SObj k8s_sd_fields) (YMap m'))
    [withK8SRoleSelectorConfig cg sel mech roles].
Proof.
  intros Hsel. apply Forall_singleton. intros m Hm.
  by apply withK8SRoleSelectorConfig_conforms; [apply (ready_cg _ _ _ Hr)|..].
Qed.
Lemma params_conforms p : conforms (supported cg) (SMap (SSeq SStr)) (params_yaml p).
Proof. unfold params_yaml. emit_val. Qed.
Lemma rules_yaml l : rules_ok (supported cg) l → conforms (supported cg) (SSeq relabel_schema) (YMaps l).
Proof. by apply rules_ok_conforms. Qed.
#[local] Hint Resolve params_conforms rules_yaml pod_relabelings_ok service_relabelings_ok probe_relabelings_ok : emits.
#[local] Hint Resolve mergeSafeTLSConfig_exclusive mergeTLSConfig_exclusive getScrapeClassOrDefault_exclusive
  ready_cg wf_compatible : emits.

Lemma monitor_sd_emits s nsel ns role am sc v sel mech roles :
  store_ok s → (v = "2.35.0" ∨ v = "2.37.0") → selector_ok sel →
  emits (supported cg) [fld "kubernetes_sd_configs" (SSeq (SObj k8s_sd_fields))]
    (append_item (generateK8SSDConfig cg nsel ns api s role (mergeAttachMetadataWithScrapeClass am sc v)
       [withK8SRoleSelectorConfig cg sel mech roles])).
Proof.
  destruct Hr as [Hcg Hv Hapi Hc _]. intros Hs Hver Hsel.
  apply generateK8SSDConfig_emits; [done..|by apply merge_attach_ok|by apply role_selector_opts].
Qed.
Lemma probe_targets_emits s m :
  store_ok s →
  emits (supported cg) [fld "kubernetes_sd_configs" (SSeq (SObj k8s_sd_fields));
    fld "static_configs" (SSeq (SObj [fld "targets" (SSeq SStr); fld "labels" (SMap SStr)]))] (probe_targets cg m api s).
Proof.
  destruct Hr as [Hcg Hv Hapi Hc _]. intros Hs. unfold probe_targets.
  destruct (pt_StaticConfig _) as [st|]; [|destruct (pt_Ingress _) as [ing|]; [|apply emits_skip]].
  - apply (emits_weaken _ [fld "static_configs" (SSeq (SObj [fld "targets" (SSeq SStr); fld "labels" (SMap SStr)]))]);
      [|table]. apply emits_item; [done|]. apply conforms_maps, Forall_singleton. emit_obj.
  - apply (emits_weaken _ [fld "kubernetes_sd_configs" (SSeq (SObj k8s_sd_fields))]); [|table].
    refine (generateK8SSDConfig_emits cg s Hcg Hv Hs _ _ api _ None [] Hapi _ (Forall_nil_2 _)). intros x [=].
Qed.
#[local] Hint Resolve monitor_sd_emits probe_targets_emits : emits.

Definition scrape_schema : schema := SObj scrape_fields.
Definition monitor_relabelings (labeler : Labeler) (n : Z) (x : monitor) : list MapSlice :=
  match x with
  | MPod m ep i => pod_relabelings cg labeler m ep n
  | MService m ep i => service_relabelings cg labeler m ep n
  | MProbe m => probe_relabelings cg labeler m n
  end.
Definition monitor_job (x : monitor) : string :=
  match x with
  | MPod m _ i => podMonitor_job m i
  | MService m _ i => serviceMonitor_job m i
  | MProbe m => probe_job m
  end.
(** A generator ends with a run of emitters, the first of which writes the name of the job. *)
Definition generated (labeler : Labeler) (n : Z) (x : monitor) (r : res MapSlice) : Prop :=
  ∃ cfg, r = Ok cfg ∧ conforms (supported cg) scrape_schema (YMap cfg) ∧
    head cfg = Some ("job_name", YStr (monitor_job x)) ∧
    ("relabel_configs", YMaps (monitor_relabelings labeler n x)) ∈ cfg.
Lemma generated_run lb n x l1 l2 :
  emits (supported cg) scrape_fields
    (run (item "job_name" (YStr (monitor_job x)) :: l1 ++ item "relabel_configs" (YMaps (monitor_relabelings lb n x)) :: l2)) →
  emits (supported cg) scrape_fields (run (l1 ++ item "relabel_configs" (YMaps (monitor_relabelings lb n x)) :: l2)) →
  emits (supported cg) scrape_fields (run l2) →
  generated lb n x (run (item "job_name" (YStr (monitor_job x)) ::
    l1 ++ item "relabel_configs" (YMaps (monitor_relabelings lb n x)) :: l2) []).
Proof.
  intros He Hl Hl2. destruct (emits_conforms _ _ _ He) as (cfg & Hrun & Hc). exists cfg. split; [done|].
  split; [done|]. simpl in Hrun.
  destruct (Hl [("job_name", YStr (monitor_job x))]) as (m & Hm & _). rewrite Hm in Hrun. injection Hrun as <-.
  split; [done|]. by eapply run_item_in.
Qed.
(** The steps that the three proofs share. *)
Ltac generator_proof :=
  lazymatch goal with H : om_Namespace _ ≠ "" |- _ =>
    let cos := fresh "cos" in let Hf := fresh "Hf" in let Hs := fresh "Hs" in
    destruct (ForNamespace_ok _ H) as (cos & Hf & Hs); rewrite Hf
  end;
  lazymatch goal with H : New _ _ _ = Ok _ |- _ => try rewrite H end;
  cbn [mbind res_bind].
(** Split the run at the relabelings. *)
Ltac split_run l acc k :=
  lazymatch l with
  | item "relabel_configs" ?v :: ?l2 => let acc' := eval cbn [rev app] in (rev acc) in k acc' v l2
  | ?f :: ?l' => split_run l' (f :: acc) k
  end.
Ltac generator_run :=
  lazymatch goal with
  | |- generated ?lb ?n ?x (run (?j :: ?l) []) =>
      split_run l (@nil emitter) ltac:(fun l1 v l2 => refine (generated_run lb n x l1 l2 _ _ _))
  end; cbn [app monitor_job monitor_relabelings]; emit.
Lemma generate_ok x n :
  monitor_ok x →
  ∃ lb, New (cpf_EnforcedNamespaceLabel (cg_cpf cg)) (cpf_ExcludedFromEnforcement (cg_cpf cg)) false = Ok lb ∧
    generated lb n x (generate cg api store n x).
Proof.
  pose proof Hr as [Hcg Hv Hapi Hc [lb Hlb]]. intros Hok. exists lb. split; [done|].
  assert (auth_supported cg) by (split; [apply Hcg|done]). pose proof (wf_compatible _ Hcg).
  destruct x as [m ep i|m ep i|m]; destruct Hok as [Hns Hok]; simpl in Hns, Hok; cbn [generate].
  - unfold generatePodMonitorConfig. generator_proof. generator_run.
  - destruct Hok as [Hsel Htls]. pose proof (api_exclusive _ Htls).
    unfold generateServiceMonitorConfig. generator_proof. generator_run.
  - assert (conforms (supported cg) (SMap (SSeq SStr)) (YMap [("module", YStrs [prs_Module (probe_Spec m)])])).
    { apply conforms_map; [table|]. apply Forall_singleton. emit_val. }
    unfold generateProbeConfig. rewrite Hlb. cbn [mbind res_bind]. generator_proof. generator_run.
Qed.
End proof.
End conform.
