(* ===== verification/GlobalConfig.v ===== *)
(** * The sections of the Prometheus configuration other than scrape configurations

    pkg/prometheus/promcfg.go: the global section with its limits, remote write and read,
    alerting, storage, OTLP, tracing, rule files and the additional scrape configurations that a
    user gives as YAML text; shardsNumber and logFilePath of common.go. Parsing YAML text belongs
    to gopkg.in/yaml.v2 and is a variable. *)

From S2P Require Import Prelude GoStrings SortUtil Meta Semver NamespaceLabeler MonitoringV1 Status.
From S2P Require Import PromTypes PromCommon AssetStore Yaml ConfigGenerator Relabel Monitors.

(** ** common.go *)

Definition RulesDir := "/etc/prometheus/rules".
Definition DefaultLogDirectory := "/var/log/prometheus".
(** [filepath.Dir] *)
Definition filepath_Dir (p : string) : string :=
  path_Clean (String.concat "" ((fun e => e +:+ "/") <$> take (length (Split p "/"%char) - 1) (Split p "/"%char))).
Definition UsesDefaultFileVolume (file : string) : bool :=
  bool_decide (file ≠ "") && bool_decide (filepath_Dir file = ".").
Definition logFilePath (logFile : string) : string :=
  if UsesDefaultFileVolume logFile then path_Join [DefaultLogDirectory; logFile] else logFile.

(** [strings.ToUpper], of ASCII letters: no other code point becomes a letter of the constants it
    is compared with. *)
Fixpoint ToUpper_ascii (s : string) : string :=
  match s with
  | EmptyString => EmptyString
  | String c s' =>
      String (let n := byte c in if (97 <=? n)%N && (n <=? 122)%N then ascii_of_N (n - 32) else c) (ToUpper_ascii s')
  end.

Section sections.
Context `{Semver} `{PromLibs}.

(** ** The global section *)

Definition appendScrapeIntervals (cg : ConfigGenerator) : emitter :=
  let cpf := cg_cpf cg in run [
  item "scrape_interval" (YStr (cpf_ScrapeInterval cpf));
  when (bool_decide (cpf_ScrapeTimeout cpf ≠ "")) (item "scrape_timeout" (YStr (cpf_ScrapeTimeout cpf)))].
Definition appendExternalLabels (cg : ConfigGenerator) : emitter :=
  item "external_labels" (YMap (buildExternalLabels cg)).
Definition appendGlobalLimits (cg : ConfigGenerator) (limitKey : string) (limit enforcedLimit : option Z) : emitter :=
  let l := default 0%Z limit in
  let e := default 0%Z enforcedLimit in
  if bool_decide (0 < l)%Z then
    if bool_decide (0 < e)%Z && bool_decide (l > e)%Z then AppendMapItem cg limitKey (YInt e)
    else AppendMapItem cg limitKey (YInt l)
  else if bool_decide (0 < e)%Z then AppendMapItem cg limitKey (YInt e)
  else skip.
Definition appendScrapeLimits (cg : ConfigGenerator) : emitter :=
  let cpf := cg_cpf cg in
  let cg45 := WithMinimumVersion cg "2.45.0" in
  run [
    match cpf_BodySizeLimit cpf with
    | Some b => AppendMapItem cg45 "body_size_limit" (YStr b)
    | None => when (bool_decide (cpf_EnforcedBodySizeLimit cpf ≠ ""))
                (AppendMapItem cg45 "body_size_limit" (YStr (cpf_EnforcedBodySizeLimit cpf)))
    end;
    appendGlobalLimits cg45 "sample_limit" (cpf_SampleLimit cpf) (cpf_EnforcedSampleLimit cpf);
    appendGlobalLimits cg45 "target_limit" (cpf_TargetLimit cpf) (cpf_EnforcedTargetLimit cpf);
    appendGlobalLimits cg45 "label_limit" (cpf_LabelLimit cpf) (cpf_EnforcedLabelLimit cpf);
    appendGlobalLimits cg45 "label_name_length_limit" (cpf_LabelNameLengthLimit cpf) (cpf_EnforcedLabelNameLengthLimit cpf);
    appendGlobalLimits cg45 "label_value_length_limit" (cpf_LabelValueLengthLimit cpf) (cpf_EnforcedLabelValueLengthLimit cpf);
    appendGlobalLimits (WithMinimumVersion cg "2.47.0") "keep_dropped_targets" (cpf_KeepDroppedTargets cpf)
      (cpf_EnforcedKeepDroppedTargets cpf)].
Definition appendScrapeFailureLogFile (cg : ConfigGenerator) (file : option string) : emitter :=
  if_set file (fun f => AppendMapItem (WithMinimumVersion cg "2.55.0") "scrape_failure_log_file" (YStr (logFilePath f))).
Definition appendNameValidationScheme (cg : ConfigGenerator) (scheme : option string) : emitter :=
  if_set scheme (fun v => AppendMapItem (WithMinimumVersion cg "3.0.0") "metric_name_validation_scheme" (YStr (ToLower v))).
Definition escaping_names : list (string * string) :=
  [("AllowUTF8", "allow-utf-8"); ("Underscores", "underscores"); ("Dots", "dots"); ("Values", "values")].
Definition appendNameEscapingScheme (cg : ConfigGenerator) (scheme : option string) : emitter :=
  if_set scheme (fun v =>
    if_set (snd ∘ snd <$> list_find (fun kv => kv.1 = v) escaping_names) (fun w =>
      AppendMapItem (WithMinimumVersion cg "3.4.0") "metric_name_escaping_scheme" (YStr w))).
Definition appendConvertClassicHistogramsToNHCB (cg : ConfigGenerator) : emitter :=
  if_set (cpf_ConvertClassicHistogramsToNHCB (cg_cpf cg)) (fun b =>
    AppendMapItem (WithMinimumVersion cg "3.4.0") "convert_classic_histograms_to_nhcb" (YBool b)).
Definition appendConvertScrapeClassicHistograms (cg : ConfigGenerator) : emitter :=
  if_set (cpf_ScrapeClassicHistograms (cg_cpf cg)) (fun b =>
    AppendMapItem (WithMinimumVersion cg "3.5.0") "always_scrape_classic_histograms" (YBool b)).
Definition buildGlobalConfig (cg : ConfigGenerator) : emitter :=
  let cpf := cg_cpf cg in run [
  appendScrapeIntervals cg;
  addScrapeProtocols cg (cpf_ScrapeProtocols cpf);
  appendExternalLabels cg;
  appendScrapeLimits cg;
  appendScrapeFailureLogFile cg (cpf_ScrapeFailureLogFile cpf);
  appendNameValidationScheme cg (cpf_NameValidationScheme cpf);
  appendNameEscapingScheme cg (cpf_NameEscapingScheme cpf);
  appendConvertClassicHistogramsToNHCB cg;
  appendConvertScrapeClassicHistograms cg].
Definition appendEvaluationInterval (interval : string) : emitter := item "evaluation_interval" (YStr interval).
Definition appendRuleQueryOffset (cg : ConfigGenerator) (offset : option string) : emitter :=
  if_set offset (fun o => AppendMapItem (WithMinimumVersion cg "2.53.0") "rule_query_offset" (YStr o)).
Definition appendQueryLogFile (cg : ConfigGenerator) (file : string) : emitter :=
  when (bool_decide (file ≠ "")) (AppendMapItem (WithMinimumVersion cg "2.16.0") "query_log_file" (YStr (logFilePath file))).

(** ** Runtime, rule files, storage *)

Definition appendRuntime (cg : ConfigGenerator) : emitter :=
  if_set (cpf_Runtime (cg_cpf cg)) (fun runtime =>
    if negb (IsCompatible (WithMinimumVersion cg "2.53.0")) then skip
    else AppendMapItem cg "runtime"
           (YMap (match RuntimeConfig_GoGC runtime with Some g => [("gogc", YInt g)] | None => [] end))).
Definition appendRuleFiles (ruleFiles : list string) (ruleSelector : option LabelSelector) : emitter :=
  if_set ruleSelector (fun _ =>
    item "rule_files" (YStrs ((fun name => RulesDir +:+ "/" +:+ name +:+ "/*.yaml") <$> ruleFiles))).
Definition tsdb_window (cg : ConfigGenerator) : option string := cpf_TSDB (cg_cpf cg) ≫= tsdb_OutOfOrderTimeWindow.
Definition storage_items (cg : ConfigGenerator) (exemplars : option Exemplars) : emitter := run [
  if_set (exemplars ≫= Exemplars_MaxSize) (fun n =>
    AppendMapItem (WithMinimumVersion cg "2.29.0") "exemplars" (YMap [("max_exemplars", YInt n)]));
  if_set (tsdb_window cg) (fun w =>
    AppendMapItem (WithMinimumVersion cg "2.39.0") "tsdb" (YMap [("out_of_order_time_window", YStr w)]))].
Definition appendStorageSettingsConfig (cg : ConfigGenerator) (exemplars : option Exemplars) : emitter :=
  from_res (storage_items cg exemplars []) (fun storage =>
    when (bool_decide (length storage ≠ 0)) (AppendMapItem (WithMinimumVersion cg "2.29.0") "storage" (YMap storage))).
Definition agent_storage (cg : ConfigGenerator) : emitter :=
  if_set (tsdb_window cg) (fun w =>
    from_res (AppendMapItem cg "tsdb" (YMap [("out_of_order_time_window", YStr w)]) []) (fun storage =>
    AppendMapItem (WithMinimumVersion cg "2.54.0") "storage" (YMap storage))).

(** ** Remote write and read *)

Definition toProtobufMessageVersion (mv : string) : string :=
  if bool_decide (mv = RemoteWriteMessageVersion1_0) then "prometheus.WriteRequest"
  else if bool_decide (mv = RemoteWriteMessageVersion2_0) then "io.prometheus.write.v2.Request"
  else "prometheus.WriteRequest".
Definition headers_yaml (h : gomap) : yaml := YMap (stringMapToMapSlice YStr (default ∅ h)).
Definition has_entries (h : gomap) : bool := bool_decide (default ∅ h ≠ ∅).

Definition azure_items (cg : ConfigGenerator) (s : StoreGetter) (ad : AzureAD) : emitter := run [
  if_set (AzureAD_ManagedIdentity ad) (fun mi =>
    item "managed_identity" (YMap [("client_id", YStr (ManagedIdentity_ClientID mi))]));
  if_set (AzureAD_OAuth ad) (fun o =>
    unless_err (sg_GetSecretKey s (AzureOAuth_ClientSecret o)) (fun b =>
      AppendMapItem (WithMinimumVersion cg "2.48.0") "oauth"
        (YMap [("client_id", YStr (AzureOAuth_ClientID o)); ("client_secret", YStr b);
               ("tenant_id", YStr (AzureOAuth_TenantID o))])));
  if_set (AzureAD_SDK ad) (fun sdk =>
    AppendMapItem (WithMinimumVersion cg "2.52.0") "sdk" (YMap [("tenant_id", YStr (default "" (AzureSDK_TenantID sdk)))]));
  if_set (AzureAD_Cloud ad) (fun c => item "cloud" (YStr c))].
Definition nonzero (k : string) (z : Z) : emitter := when (bool_decide (z ≠ 0%Z)) (item k (YInt z)).
Definition queue_items (cg : ConfigGenerator) (q : QueueConfig) : emitter := run [
  nonzero "capacity" (queue_Capacity q);
  when (bool_decide (queue_MinShards q ≠ 0%Z))
    (AppendMapItem (WithMinimumVersion cg "2.6.0") "min_shards" (YInt (queue_MinShards q)));
  nonzero "max_shards" (queue_MaxShards q);
  nonzero "max_samples_per_send" (queue_MaxSamplesPerSend q);
  if_set (queue_BatchSendDeadline q) (fun d => item "batch_send_deadline" (YStr d));
  when (bool_decide (queue_MaxRetries q ≠ 0%Z))
    (AppendMapItem (WithMaximumVersion cg "2.11.0") "max_retries" (YInt (queue_MaxRetries q)));
  if_set (queue_MinBackoff q) (fun d => item "min_backoff" (YStr d));
  if_set (queue_MaxBackoff q) (fun d => item "max_backoff" (YStr d));
  when (queue_RetryOnRateLimit q)
    (AppendMapItem (WithMinimumVersion cg "2.26.0") "retry_on_http_429" (YBool (queue_RetryOnRateLimit q)));
  if_set (queue_SampleAgeLimit q) (fun d =>
    AppendMapItem (WithMinimumVersion cg "2.50.0") "sample_age_limit" (YStr d))].
Definition metadata_items (cg : ConfigGenerator) (md : MetadataConfig) : emitter := run [
  item "send" (YBool (mdc_Send md));
  when (bool_decide (mdc_SendInterval md ≠ "")) (item "send_interval" (YStr (mdc_SendInterval md)));
  if_set (mdc_MaxSamplesPerSend md) (fun n =>
    AppendMapItem (WithMinimumVersion cg "2.29.0") "max_samples_per_send" (YInt n))].

Definition remote_write_items (cg : ConfigGenerator) (s : StoreGetter) (spec : RemoteWriteSpec) : emitter := run [
  item "url" (YStr (rw_URL spec));
  if_set (rw_RemoteTimeout spec) (fun t => item "remote_timeout" (YStr t));
  when (has_entries (rw_Headers spec)) (AppendMapItem (WithMinimumVersion cg "2.15.0") "headers" (headers_yaml (rw_Headers spec)));
  when (bool_decide (default "" (rw_Name spec) ≠ ""))
    (AppendMapItem (WithMinimumVersion cg "2.15.0") "name" (YStr (default "" (rw_Name spec))));
  if_set (rw_MessageVersion spec) (fun v =>
    AppendMapItem (WithMinimumVersion cg "2.54.0") "protobuf_message" (YStr (toProtobufMessageVersion v)));
  if_set (rw_SendExemplars spec) (fun b => AppendMapItem (WithMinimumVersion cg "2.27.0") "send_exemplars" (YBool b));
  if_set (rw_SendNativeHistograms spec) (fun b =>
    AppendMapItem (WithMinimumVersion cg "2.40.0") "send_native_histograms" (YBool b));
  when (bool_decide (rw_WriteRelabelConfigs spec ≠ []))
    (item "write_relabel_configs" (YMaps (generateRelabelConfig (rw_WriteRelabelConfigs spec))));
  addBasicAuthToYaml cg s (rw_BasicAuth spec);
  non_empty "bearer_token" (rw_BearerToken spec);
  non_empty "bearer_token_file" (rw_BearerTokenFile spec);
  addOAuth2ToYaml cg s (rw_OAuth2 spec);
  addTLStoYaml cg s (rw_TLSConfig spec);
  addAuthorizationToYaml cg s (rw_Authorization spec);
  addProxyConfigtoYaml cg s (rw_ProxyConfig spec);
  addSigv4ToYaml (WithMinimumVersion cg "2.26.0") s (rw_Sigv4 spec);
  if_set (rw_AzureAD spec) (fun ad =>
    from_res (azure_items cg s ad []) (fun azureAd =>
      AppendMapItem (WithMinimumVersion cg "2.45.0") "azuread" (YMap azureAd)));
  if_set (rw_FollowRedirects spec) (fun b => AppendMapItem (WithMinimumVersion cg "2.26.0") "follow_redirects" (YBool b));
  if_set (rw_EnableHttp2 spec) (fun b => AppendMapItem (WithMinimumVersion cg "2.35.0") "enable_http2" (YBool b));
  if_set (rw_QueueConfig spec) (fun q =>
    from_res (queue_items cg q []) (fun queueConfig => item "queue_config" (YMap queueConfig)));
  if_set (rw_MetadataConfig spec) (fun md =>
    from_res (metadata_items cg md []) (fun metadataConfig =>
      AppendMapItem (WithMinimumVersion cg "2.23.0") "metadata_config" (YMap metadataConfig)));
  if_set (rw_RoundRobinDNS spec) (fun b => AppendMapItem (WithMinimumVersion cg "3.1.0") "round_robin_dns" (YBool b))].
Definition GenerateRemoteWriteConfig (cg : ConfigGenerator) (rws : list RemoteWriteSpec) (s : StoreGetter)
    : res (string * yaml) :=
  cfgs ← res_map (fun spec => remote_write_items cg s spec []) rws;
  Ok ("remote_write", YMaps cfgs).

Definition remote_read_items (cg : ConfigGenerator) (s : StoreGetter) (spec : RemoteReadSpec) : emitter := run [
  item "url" (YStr (rrd_URL spec));
  if_set (rrd_RemoteTimeout spec) (fun t => item "remote_timeout" (YStr t));
  when (has_entries (rrd_Headers spec)) (AppendMapItem (WithMinimumVersion cg "2.26.0") "headers" (headers_yaml (rrd_Headers spec)));
  when (bool_decide (rrd_Name spec ≠ "")) (AppendMapItem (WithMinimumVersion cg "2.15.0") "name" (YStr (rrd_Name spec)));
  when (has_entries (rrd_RequiredMatchers spec)) (item "required_matchers" (headers_yaml (rrd_RequiredMatchers spec)));
  when (rrd_ReadRecent spec) (item "read_recent" (YBool (rrd_ReadRecent spec)));
  addBasicAuthToYaml cg s (rrd_BasicAuth spec);
  non_empty "bearer_token" (rrd_BearerToken spec);
  non_empty "bearer_token_file" (rrd_BearerTokenFile spec);
  addOAuth2ToYaml cg s (rrd_OAuth2 spec);
  addTLStoYaml cg s (rrd_TLSConfig spec);
  addAuthorizationToYaml cg s (rrd_Authorization spec);
  addProxyConfigtoYaml cg s (rrd_ProxyConfig spec);
  if_set (rrd_FollowRedirects spec) (fun b => AppendMapItem (WithMinimumVersion cg "2.26.0") "follow_redirects" (YBool b));
  if_set (rrd_FilterExternalLabels spec) (fun b =>
    AppendMapItem (WithMinimumVersion cg "2.34.0") "filter_external_labels" (YBool b))].
Definition generateRemoteReadConfig (cg : ConfigGenerator) (remoteRead : list RemoteReadSpec) (s : StoreGetter)
    : res (string * yaml) :=
  cfgs ← res_map (fun spec => remote_read_items cg s spec []) remoteRead;
  Ok ("remote_read", YMaps cfgs).

(** ** Alerting *)

Definition am_port_rules (cg : ConfigGenerator) (port : IntOrString) : list MapSlice :=
  if bool_decide (StrVal port ≠ "") then
    [keep_rule (if bool_decide (endpointRoleFlavor cg = kubernetesSDRoleEndpointSlice)
                then "__meta_kubernetes_endpointslice_port_name" else "__meta_kubernetes_endpoint_port_name")
       (YStr (IntOrString_String port))]
  else if bool_decide (IntVal port ≠ 0%Z) then
    [keep_rule "__meta_kubernetes_pod_container_port_number" (YStr (IntOrString_String port))]
  else [].
Definition am_api_version (cg : ConfigGenerator) (v : string) : emitter :=
  let apiVersionCg := WithMinimumVersion cg "2.11.0" in
  let up := ToUpper_ascii v in
  if bool_decide (up = AlertmanagerAPIVersion1) then
    when (bool_decide (Major (cg_version cg) ≤ 2)%Z) (AppendMapItem apiVersionCg "api_version" (YStr (ToLower v)))
  else when (bool_decide (up = AlertmanagerAPIVersion2)) (AppendMapItem apiVersionCg "api_version" (YStr (ToLower v))).
Definition alertmanager_items (cg : ConfigGenerator) (apiserverConfig : option APIServerConfig) (store : StoreGetter)
    (am : AlertmanagerEndpoints) : emitter :=
  let or_else s d := if bool_decide (s = "") then d else s in
  let ns := default (om_Namespace (po_ObjectMeta (prom cg))) (ame_Namespace am) in
  run [
    item "path_prefix" (YStr (or_else (ame_PathPrefix am) "/"));
    item "scheme" (YStr (or_else (ame_Scheme am) "http"));
    if_set (ame_Timeout am) (fun t => item "timeout" (YStr t));
    if_set (ame_EnableHttp2 am) (fun b => AppendMapItem (WithMinimumVersion cg "2.35.0") "enable_http2" (YBool b));
    addTLStoYaml cg store (ame_TLSConfig am);
    addProxyConfigtoYaml cg store (ame_ProxyConfig am);
    append_item (generateK8SSDConfig cg {| nsel_Any := false; nsel_MatchNames := [] |} ns apiserverConfig store
      (endpointRoleFlavor cg) None []);
    non_empty "bearer_token_file" (ame_BearerTokenFile am);
    addBasicAuthToYaml (WithMinimumVersion cg "2.26.0") store (ame_BasicAuth am);
    addSafeAuthorizationToYaml cg store (ame_Authorization am);
    addSigv4ToYaml (WithMinimumVersion cg "2.48.0") store (ame_Sigv4 am);
    if_set (ame_APIVersion am) (fun v => am_api_version cg v);
    item "relabel_configs" (YMaps (keep_rule "__meta_kubernetes_service_name" (YStr (ame_Name am)) ::
      am_port_rules cg (ame_Port am) ++ generateRelabelConfig (ame_RelabelConfigs am)));
    when (bool_decide (ame_AlertRelabelConfigs am ≠ []))
      (AppendMapItem (WithMinimumVersion cg "2.51.0") "alert_relabel_configs"
         (YMaps (generateRelabelConfig (ame_AlertRelabelConfigs am))))].
Definition generateAlertmanagerConfig (cg : ConfigGenerator) (alerting : option AlertingSpec)
    (apiserverConfig : option APIServerConfig) (store : StoreGetter) : res (list MapSlice) :=
  match alerting with
  | None => Ok []
  | Some a => res_map (fun am => alertmanager_items cg apiserverConfig store am []) (AlertingSpec_Alertmanagers a)
  end.

(** [yaml.Unmarshal] into a slice of maps. *)
Context (yaml_Unmarshal : string → res (list MapSlice)).

Definition appendAlertingConfig (cg : ConfigGenerator) (alerting : option AlertingSpec)
    (additionalAlertRelabelConfigs additionalAlertmanagerConfigs : option string) (store : StoreGetter) : emitter :=
  if negb (is_set alerting) && negb (is_set additionalAlertRelabelConfigs) && negb (is_set additionalAlertmanagerConfigs)
  then skip
  else
    let cpf := cg_cpf cg in
    from_res (generateAlertmanagerConfig cg alerting (cpf_APIServerConfig cpf) store) (fun alertmanagerConfigs =>
    from_res (match yaml_Unmarshal (default "" additionalAlertmanagerConfigs) with
              | Err _ => Err (Errorf "unmarshalling additional alertmanager configs failed" [])
              | r => r
              end) (fun additionalAm =>
    let replicaExternalLabelName := default defaultReplicaExternalLabelName (cpf_ReplicaExternalLabelName cpf) in
    let dropReplica :=
      if bool_decide (replicaExternalLabelName ≠ "")
      then [[("action", YStr "labeldrop"); ("regex", YStr (QuoteMeta replicaExternalLabelName))]] else [] in
    from_res (wrap "unmarshalling additional alerting relabel configs failed: %w" []
                (yaml_Unmarshal (default "" additionalAlertRelabelConfigs))) (fun additionalRelabel =>
    item "alerting" (YMap [("alert_relabel_configs", YMaps (dropReplica ++ additionalRelabel));
                           ("alertmanagers", YMaps (alertmanagerConfigs ++ additionalAm))])))).

(** ** Additional scrape configurations *)

Definition nil_error : error := Errorf "<nil>" [].
Definition relabelings_of (v : yaml) : res (list MapSlice) :=
  match v with
  | YSeq values =>
      res_map (fun value => match value with
                            | YMap m => Ok m
                            | _ => Err (Wrapf "error parsing relabel config: %w" [] nil_error)
                            end) values
  | _ => Err (Wrapf "error parsing relabel configs: %w" [] nil_error)
  end.
(** The items other than the relabelings, and the relabelings. *)
Fixpoint split_relabelings (m : MapSlice) : res (MapSlice * list MapSlice) :=
  match m with
  | [] => Ok ([], [])
  | (k, v) :: m' =>
      if bool_decide (k ≠ "relabel_configs") then
        '(others, rs) ← split_relabelings m';
        Ok ((k, v) :: others, rs)
      else
        r ← relabelings_of v;
        '(others, rs) ← split_relabelings m';
        Ok (others, r ++ rs)
  end.
Definition generateAdditionalScrapeConfigs (cg : ConfigGenerator) (additionalScrapeConfigs : option string) (shards : Z)
    : res (list MapSlice) :=
  cfgs ← wrap "unmarshalling additional scrape configs failed: %w" [] (yaml_Unmarshal (default "" additionalScrapeConfigs));
  if daemonSet cg || bool_decide (shards = 1%Z) then Ok cfgs
  else
    res_map (fun mapSlice =>
      '(others, relabelings) ← split_relabelings mapSlice;
      Ok (others ++ [("relabel_configs", YMaps (appendShardingRelabelingWithAddressIfMissing relabelings shards))])) cfgs.

(** ** OTLP and tracing *)

Definition otlp_items (cg : ConfigGenerator) (o : OTLPConfig) : emitter := run [
  when (bool_decide (otlp_PromoteResourceAttributes o ≠ []))
    (AppendMapItem (WithMinimumVersion cg "2.55.0") "promote_resource_attributes" (YStrs (otlp_PromoteResourceAttributes o)));
  if_set (otlp_TranslationStrategy o) (fun v => AppendMapItem (WithMinimumVersion cg "3.0.0") "translation_strategy" (YStr v));
  if_set (otlp_KeepIdentifyingResourceAttributes o) (fun b =>
    AppendMapItem (WithMinimumVersion cg "3.1.0") "keep_identifying_resource_attributes" (YBool b));
  if_set (otlp_ConvertHistogramsToNHCB o) (fun b =>
    AppendMapItem (WithMinimumVersion cg "3.4.0") "convert_histograms_to_nhcb" (YBool b))].
Definition appendOTLPConfig (cg : ConfigGenerator) : emitter :=
  if_set (cpf_OTLP (cg_cpf cg)) (fun o =>
    let strategy := default "" (otlp_TranslationStrategy o) in
    if LT (cg_version cg) (MustParse "2.55.0") then
      fails (Errorf "OTLP configuration is only supported from Prometheus version 2.55.0" [])
    else if bool_decide (strategy = NoUTF8EscapingWithSuffixes) &&
            bool_decide (default "" (cpf_NameValidationScheme (cg_cpf cg)) = LegacyNameValidationScheme) then
      fails (Errorf "nameValidationScheme %q is not compatible with OTLP translation strategy %q"
               [LegacyNameValidationScheme; NoUTF8EscapingWithSuffixes])
    else if LT (cg_version cg) (MustParse "3.4.0") && bool_decide (strategy = NoTranslation) then
      fails (Errorf "nameValidationScheme %q is only supported from Prometheus version 3.4.0 " [NoTranslation])
    else
      from_res (otlp_items cg o []) (fun otlp =>
        when (bool_decide (length otlp ≠ 0)) (AppendMapItem cg "otlp" (YMap otlp)))).

(** The headers come in the order in which Go visits the map. *)
Definition tracing_items (cg : ConfigGenerator) (s : StoreGetter) (t : PrometheusTracingConfig)
    (order : list (string * string)) : emitter := run [
  item "endpoint" (YStr (tracing_Endpoint t));
  if_set (tracing_ClientType t) (fun v => item "client_type" (YStr v));
  if_set (tracing_SamplingFraction t) (fun q => item "sampling_fraction" (YFloat q));
  if_set (tracing_Insecure t) (fun b => item "insecure" (YBool b));
  when (has_entries (tracing_Headers t)) (item "headers" (YMap ((fun kv => (kv.1, YStr kv.2)) <$> order)));
  if_set (tracing_Compression t) (fun v => item "compression" (YStr v));
  if_set (tracing_Timeout t) (fun v => item "timeout" (YStr v));
  addTLStoYaml cg s (tracing_TLSConfig t)].
Definition appendTracingConfig (cg : ConfigGenerator) (s : StoreGetter) (order : list (string * string)) : emitter :=
  if_set (cpf_TracingConfig (cg_cpf cg)) (fun t =>
    from_res (tracing_items cg s t order []) (fun tracing => item "tracing" (YMap tracing))).
End sections.

(** ** The format *)

Definition global_limit_fields : fields := [
  since "2.45.0" "body_size_limit" SStr; since "2.45.0" "sample_limit" SInt; since "2.45.0" "target_limit" SInt;
  since "2.45.0" "label_limit" SInt; since "2.45.0" "label_name_length_limit" SInt;
  since "2.45.0" "label_value_length_limit" SInt; since "2.47.0" "keep_dropped_targets" SInt].
Definition common_global_fields : fields := [
  fld "scrape_interval" SStr; fld "scrape_timeout" SStr; since "2.49.0" "scrape_protocols" (SSeq SStr);
  fld "external_labels" (SMap SStr)] ++ global_limit_fields ++ [
  since "2.55.0" "scrape_failure_log_file" SStr; since "3.0.0" "metric_name_validation_scheme" SStr;
  since "3.4.0" "metric_name_escaping_scheme" SStr; since "3.4.0" "convert_classic_histograms_to_nhcb" SBool;
  since "3.5.0" "always_scrape_classic_histograms" SBool].
Definition global_fields : fields := common_global_fields ++ [
  fld "evaluation_interval" SStr; since "2.53.0" "rule_query_offset" SStr; since "2.16.0" "query_log_file" SStr].
Definition azure_schema : schema := SObj [
  fld "managed_identity" (SObj [fld "client_id" SStr]);
  since "2.48.0" "oauth" (SObj [fld "client_id" SStr; fld "client_secret" SStr; fld "tenant_id" SStr]);
  since "2.52.0" "sdk" (SObj [fld "tenant_id" SStr]); fld "cloud" SStr].
Definition queue_schema : schema := SObj [
  fld "capacity" SInt; since "2.6.0" "min_shards" SInt; fld "max_shards" SInt; fld "max_samples_per_send" SInt;
  fld "batch_send_deadline" SStr; ("max_retries", (Until "2.11.0", SInt)); fld "min_backoff" SStr;
  fld "max_backoff" SStr; since "2.26.0" "retry_on_http_429" SBool; since "2.50.0" "sample_age_limit" SStr].
Definition metadata_schema : schema := SObj [
  fld "send" SBool; fld "send_interval" SStr; since "2.29.0" "max_samples_per_send" SInt].
Definition remote_fields : fields := [
  fld "url" SStr; fld "remote_timeout" SStr; since "2.15.0" "name" SStr; since "2.27.0" "oauth2" oauth2_schema;
  since "2.26.0" "follow_redirects" SBool] ++ auth_fields ++ proxy_fields.
Definition remote_write_fields : fields := remote_fields ++ [
  since "2.15.0" "headers" (SMap SStr); since "2.54.0" "protobuf_message" SStr; since "2.27.0" "send_exemplars" SBool;
  since "2.40.0" "send_native_histograms" SBool; fld "write_relabel_configs" (SSeq relabel_schema);
  since "2.26.0" "sigv4" sigv4_schema; since "2.45.0" "azuread" azure_schema; since "2.35.0" "enable_http2" SBool;
  fld "queue_config" queue_schema; since "2.23.0" "metadata_config" metadata_schema;
  since "3.1.0" "round_robin_dns" SBool].
Definition remote_read_fields : fields := remote_fields ++ [
  since "2.26.0" "headers" (SMap SStr); fld "required_matchers" (SMap SStr); fld "read_recent" SBool;
  since "2.34.0" "filter_external_labels" SBool].
Definition alertmanager_fields : fields := [
  fld "path_prefix" SStr; fld "scheme" SStr; fld "timeout" SStr; since "2.35.0" "enable_http2" SBool;
  fld "tls_config" tls_schema; fld "kubernetes_sd_configs" (SSeq (SObj k8s_sd_fields)); fld "bearer_token_file" SStr;
  since "2.26.0" "basic_auth" basic_auth_schema; since "2.26.0" "authorization" (SObj safe_auth_fields);
  since "2.48.0" "sigv4" sigv4_schema; since "2.11.0" "api_version" SStr;
  fld "relabel_configs" (SSeq relabel_schema); since "2.51.0" "alert_relabel_configs" (SSeq relabel_schema)] ++ proxy_fields.
Definition otlp_schema : schema := SObj [
  since "2.55.0" "promote_resource_attributes" (SSeq SStr); since "3.0.0" "translation_strategy" SStr;
  since "3.1.0" "keep_identifying_resource_attributes" SBool; since "3.4.0" "convert_histograms_to_nhcb" SBool].
Definition tracing_schema : schema := SObj [
  fld "endpoint" SStr; fld "client_type" SStr; fld "sampling_fraction" SFloat; fld "insecure" SBool;
  fld "headers" (SMap SStr); fld "compression" SStr; fld "timeout" SStr; fld "tls_config" tls_schema].
Definition storage_schema : schema := SObj [
  since "2.29.0" "exemplars" (SObj [fld "max_exemplars" SInt]);
  since "2.39.0" "tsdb" (SObj [fld "out_of_order_time_window" SStr])].
(** Alertmanagers and alert relabelings also come from the user as text ([ams], [relabels]), which is passed on
    as it is. *)
Definition alerting_schema (ams relabels : list MapSlice) : schema := SObj [
  fld "alert_relabel_configs" (SSeq (SEither (SGiven relabels) relabel_schema));
  fld "alertmanagers" (SSeq (SEither (SGiven ams) (SObj alertmanager_fields)))].

Section global_emits.
Context `{SemverLaws} `{PromLibs} (cg : ConfigGenerator).

Lemma appendGlobalLimits_emits v k l e :
  emits (supported cg) [since v k SInt] (appendGlobalLimits (WithMinimumVersion cg v) k l e).
Proof. unfold appendGlobalLimits. repeat case_match; try apply emits_skip; emit. Qed.
#[local] Hint Resolve appendGlobalLimits_emits : emits.
Lemma appendScrapeLimits_emits : emits (supported cg) global_limit_fields (appendScrapeLimits cg).
Proof. unfold appendScrapeLimits. destruct (cpf_BodySizeLimit _); emit. Qed.
#[local] Hint Resolve appendScrapeLimits_emits : emits.
Lemma buildGlobalConfig_emits : emits (supported cg) common_global_fields (buildGlobalConfig cg).
Proof.
  assert (conforms (supported cg) (SMap SStr) (YMap (buildExternalLabels cg))) by (unfold buildExternalLabels; emit_val).
  unfold buildGlobalConfig, appendScrapeIntervals, appendExternalLabels, appendScrapeFailureLogFile,
    appendNameValidationScheme, appendNameEscapingScheme, appendConvertClassicHistogramsToNHCB,
    appendConvertScrapeClassicHistograms. emit.
Qed.
#[local] Hint Resolve buildGlobalConfig_emits : emits.
Lemma server_global_emits ev off log :
  emits (supported cg) global_fields
    (run [buildGlobalConfig cg; appendEvaluationInterval ev; appendRuleQueryOffset cg off; appendQueryLogFile cg log]).
Proof. unfold appendEvaluationInterval, appendRuleQueryOffset, appendQueryLogFile. emit. Qed.

Lemma IsCompatible_min v : IsCompatible (WithMinimumVersion cg v) = true → supported cg (Since v) = true.
Proof.
  unfold IsCompatible, WithMinimumVersion. simpl. unfold GTE.
  destruct (bypassVersionCheck cg) eqn:E; simpl; [done|]. by destruct (LT _ _).
Qed.
Lemma appendRuntime_emits : emits (supported cg) [since "2.53.0" "runtime" (SObj [fld "gogc" SInt])] (appendRuntime cg).
Proof.
  unfold appendRuntime. apply emits_if_set. intros r _.
  destruct (IsCompatible _) eqn:E; simpl; [|apply emits_skip]. apply IsCompatible_min in E.
  unfold AppendMapItem. destruct (notCompatible cg); [apply emits_skip|]. apply emits_item; [done|].
  destruct (RuntimeConfig_GoGC r); [emit_obj|]. constructor; [table|constructor].
Qed.
Lemma appendRuleFiles_emits fs sel : emits (supported cg) [fld "rule_files" (SSeq SStr)] (appendRuleFiles fs sel).
Proof. unfold appendRuleFiles. emit. Qed.
Lemma storage_items_emits ex :
  emits (supported cg) [since "2.29.0" "exemplars" (SObj [fld "max_exemplars" SInt]);
    since "2.39.0" "tsdb" (SObj [fld "out_of_order_time_window" SStr])] (storage_items cg ex).
Proof.
  assert (∀ n, conforms (supported cg) (SObj [fld "max_exemplars" SInt]) (YMap [("max_exemplars", YInt n)])) by (intros; emit_obj).
  assert (∀ w, conforms (supported cg) (SObj [fld "out_of_order_time_window" SStr]) (YMap [("out_of_order_time_window", YStr w)]))
    by (intros; emit_obj).
  unfold storage_items. emit.
Qed.
Lemma appendStorageSettingsConfig_emits ex :
  emits (supported cg) [since "2.29.0" "storage" storage_schema] (appendStorageSettingsConfig cg ex).
Proof.
  unfold appendStorageSettingsConfig. eapply emits_nested; [apply storage_items_emits|].
  intros m Hm. apply emits_when. intros _. by apply emits_append_since.
Qed.

Context (s : StoreGetter) (Hcg : cg_wf cg) (Hauth : supported cg (Since "2.26.0") = true) (Hs : store_ok s).

Lemma addBasicAuth_since v ba :
  emits (supported cg) [since v "basic_auth" basic_auth_schema] (addBasicAuthToYaml (WithMinimumVersion cg v) s ba).
Proof.
  unfold addBasicAuthToYaml. apply emits_if_set. intros x _.
  do 2 (apply emits_or_zero; [apply Hs|intros ?]). apply emits_append_since. emit_obj.
Qed.
Lemma addSigv4_since v x :
  emits (supported cg) [since v "sigv4" sigv4_schema] (addSigv4ToYaml (WithMinimumVersion cg v) s x).
Proof.
  unfold addSigv4ToYaml. apply emits_if_set. intros y _.
  eapply emits_nested; [by apply sigv4_items_emits|]. intros m Hm. by apply emits_append_since.
Qed.
#[local] Hint Resolve addBasicAuth_since addSigv4_since : emits.
Lemma headers_conforms h : conforms (supported cg) (SMap SStr) (headers_yaml h).
Proof. unfold headers_yaml. emit_val. Qed.
Lemma relabel_yaml rc : conforms (supported cg) (SSeq relabel_schema) (YMaps (generateRelabelConfig rc)).
Proof. by apply rules_ok_conforms, generateRelabelConfig_ok. Qed.
#[local] Hint Resolve headers_conforms relabel_yaml : emits.

Lemma azure_emits ad :
  emits (supported cg) [since "2.45.0" "azuread" azure_schema]
    (from_res (azure_items cg s ad []) (fun a => AppendMapItem (WithMinimumVersion cg "2.45.0") "azuread" (YMap a))).
Proof.
  eapply emits_nested; [|intros m Hm; apply emits_append_since; exact Hm].
  assert (∀ o, emits (supported cg)
    [since "2.48.0" "oauth" (SObj [fld "client_id" SStr; fld "client_secret" SStr; fld "tenant_id" SStr])]
    (unless_err (sg_GetSecretKey s (AzureOAuth_ClientSecret o)) (fun b =>
      AppendMapItem (WithMinimumVersion cg "2.48.0") "oauth"
        (YMap [("client_id", YStr (AzureOAuth_ClientID o)); ("client_secret", YStr b);
               ("tenant_id", YStr (AzureOAuth_TenantID o))])))).
  { intros o. apply emits_unless_err; [apply Hs|]. intros b. apply emits_append_since. emit_obj. }
  assert (∀ c, conforms (supported cg) (SObj [fld "client_id" SStr]) (YMap [("client_id", YStr c)])) by (intros; emit_obj).
  assert (∀ c, conforms (supported cg) (SObj [fld "tenant_id" SStr]) (YMap [("tenant_id", YStr c)])) by (intros; emit_obj).
  unfold azure_items. emit.
Qed.
Lemma queue_emits q :
  emits (supported cg) [fld "queue_config" queue_schema]
    (from_res (queue_items cg q []) (fun m => item "queue_config" (YMap m))).
Proof.
  eapply emits_nested; [|intros m Hm; apply emits_item; [done|exact Hm]]. unfold queue_items, nonzero. emit.
Qed.
Lemma metadata_emits md :
  emits (supported cg) [since "2.23.0" "metadata_config" metadata_schema]
    (from_res (metadata_items cg md []) (fun m => AppendMapItem (WithMinimumVersion cg "2.23.0") "metadata_config" (YMap m))).
Proof.
  eapply emits_nested; [|intros m Hm; apply emits_append_since; exact Hm]. unfold metadata_items. emit.
Qed.
#[local] Hint Resolve azure_emits queue_emits metadata_emits : emits.

Lemma remote_write_items_emits spec :
  TLSConfig_Validate (rw_TLSConfig spec) = Ok () → emits (supported cg) remote_write_fields (remote_write_items cg s spec).
Proof.
  intros Htls. pose proof (api_exclusive _ Htls). assert (auth_supported cg) by (split; [apply Hcg|done]). pose proof (wf_compatible _ Hcg).
  unfold remote_write_items. emit.
Qed.
Lemma remote_read_items_emits spec :
  TLSConfig_Validate (rrd_TLSConfig spec) = Ok () → emits (supported cg) remote_read_fields (remote_read_items cg s spec).
Proof.
  intros Htls. pose proof (api_exclusive _ Htls). assert (auth_supported cg) by (split; [apply Hcg|done]).
  pose proof (wf_compatible _ Hcg). unfold remote_read_items. emit.
Qed.
(** A section that is a list of objects. *)
Lemma list_section_emits {A} fs k (P : A → Prop) (f : A → emitter) (l : list A) :
  (∀ x, P x → emits (supported cg) fs (f x)) → Forall P l →
  emits (supported cg) [fld k (SSeq (SObj fs))]
    (append_item (cfgs ← res_map (fun x => f x []) l; Ok (k, YMaps cfgs))).
Proof.
  intros Hf Hl.
  assert (∃ cfgs, res_map (fun x => f x []) l = Ok cfgs ∧
    Forall (fun m => conforms (supported cg) (SObj fs) (YMap m)) cfgs) as (cfgs & -> & Hc).
  { induction Hl as [|x l Hx _ (cfgs & IH & Hc)]; simpl; [by exists []|].
    destruct (emits_conforms _ _ _ (Hf x Hx)) as (m & -> & Hm). simpl. rewrite IH. simpl. eauto. }
  unfold append_item. apply emits_from_res. eexists. split; [done|]. simpl. apply emits_item; [done|].
  by apply conforms_maps.
Qed.
Lemma GenerateRemoteWriteConfig_emits rws :
  Forall (fun spec => TLSConfig_Validate (rw_TLSConfig spec) = Ok ()) rws →
  emits (supported cg) [fld "remote_write" (SSeq (SObj remote_write_fields))] (append_item (GenerateRemoteWriteConfig cg rws s)).
Proof. apply list_section_emits. intros. by apply remote_write_items_emits. Qed.
Lemma generateRemoteReadConfig_emits rrs :
  Forall (fun spec => TLSConfig_Validate (rrd_TLSConfig spec) = Ok ()) rrs →
  emits (supported cg) [fld "remote_read" (SSeq (SObj remote_read_fields))] (append_item (generateRemoteReadConfig cg rrs s)).
Proof. apply list_section_emits. intros. by apply remote_read_items_emits. Qed.

Lemma am_api_version_emits v : emits (supported cg) [since "2.11.0" "api_version" SStr] (am_api_version cg v).
Proof. unfold am_api_version. repeat case_match; emit. Qed.
Lemma am_rules_ok name port rc :
  rules_ok (supported cg) (keep_rule "__meta_kubernetes_service_name" (YStr name) ::
    am_port_rules cg port ++ generateRelabelConfig rc).
Proof. unfold am_port_rules. repeat case_match; auto with rules. Qed.
#[local] Hint Resolve am_api_version_emits am_rules_ok rules_ok_conforms : emits.
Lemma no_metadata : attach_ok None.
Proof. by intros x [=]. Qed.
Lemma alertmanager_items_emits api am :
  api_ok api → TLSConfig_Validate (ame_TLSConfig am) = Ok () →
  emits (supported cg) alertmanager_fields (alertmanager_items cg api s am).
Proof.
  intros Hapi Htls. pose proof (api_exclusive _ Htls). pose proof (wf_compatible _ Hcg).
  pose proof (generateK8SSDConfig_emits cg s Hcg Hauth Hs {| nsel_Any := false; nsel_MatchNames := [] |}
    (default (om_Namespace (po_ObjectMeta (prom cg))) (ame_Namespace am)) api (endpointRoleFlavor cg) None [] Hapi
    no_metadata (Forall_nil_2 _)).
  unfold alertmanager_items. emit.
Qed.
Definition alerting_ok (a : option AlertingSpec) : Prop :=
  ∀ x, a = Some x → Forall (fun am => TLSConfig_Validate (ame_TLSConfig am) = Ok ()) (AlertingSpec_Alertmanagers x).
Lemma generateAlertmanagerConfig_ok a api :
  api_ok api → alerting_ok a →
  ∃ cfgs, generateAlertmanagerConfig cg a api s = Ok cfgs ∧
    Forall (fun m => conforms (supported cg) (SObj alertmanager_fields) (YMap m)) cfgs.
Proof.
  intros Hapi Ha. destruct a as [x|]; simpl; [|by exists []]. specialize (Ha x eq_refl).
  induction Ha as [|am l Ham _ (cfgs & IH & Hc)]; simpl; [by exists []|].
  destruct (emits_conforms _ _ _ (alertmanager_items_emits api am Hapi Ham)) as (m & -> & Hm). simpl.
  rewrite IH. simpl. eauto.
Qed.
Lemma conforms_user_maps given sch l : Forall (fun m => m ∈ given ∨ conforms (supported cg) sch (YMap m)) l →
  conforms (supported cg) (SSeq (SEither (SGiven given) sch)) (YMaps l).
Proof.
  intros Hl. constructor. apply Forall_fmap, (Forall_impl _ _ _ Hl). intros m [Hm|Hm]; [by apply conforms_left, conforms_given|by apply conforms_right].
Qed.
Definition parses (unmarshal : string → res (list MapSlice)) (text : option string) : Prop :=
  ∃ l, unmarshal (default "" text) = Ok l.
(** The maps in a user's text, if they are used. *)
Definition given_by (unmarshal : string → res (list MapSlice)) (text : option string) (l : list MapSlice) : Prop :=
  l = [] ∨ unmarshal (default "" text) = Ok l.
Lemma drop_rule_conforms regex : conforms (supported cg) relabel_schema (YMap [("action", YStr "labeldrop"); ("regex", YStr regex)]).
Proof. emit_obj. Qed.
Lemma appendAlertingConfig_emits um a x y :
  api_ok (cpf_APIServerConfig (cg_cpf cg)) → alerting_ok a →
  (is_set a || is_set x || is_set y = true → parses um x ∧ parses um y) →
  ∃ ams relabels, given_by um y ams ∧ given_by um x relabels ∧
    emits (supported cg) [fld "alerting" (alerting_schema ams relabels)] (appendAlertingConfig um cg a x y s).
Proof.
  intros Hapi Ha Hp. unfold appendAlertingConfig.
  destruct (_ && _) eqn:E; [exists [], []; split; [by left|]; split; [by left|]; apply emits_skip|].
  destruct Hp as [[l Hl] [l' Hl']]; [by destruct a, x, y|]. exists l', l. split; [by right|]. split; [by right|].
  destruct (generateAlertmanagerConfig_ok a _ Hapi Ha) as (cfgs & Hg & Hc).
  apply emits_from_res. exists cfgs. split; [done|]. apply emits_from_res. rewrite Hl'. eexists. split; [done|].
  apply emits_from_res. rewrite Hl. eexists. split; [done|]. apply emits_item; [done|].
  apply conforms_obj; [table|]. repeat (apply Forall_cons; split; [do 2 eexists; split; [emit_member|split; [reflexivity|]]|]); [..|by apply Forall_nil].
  - apply conforms_user_maps, Forall_app. split; [|apply Forall_forall; auto]. case_bool_decide; [|constructor].
    apply Forall_singleton. right. apply drop_rule_conforms.
  - apply conforms_user_maps, Forall_app. split; [|apply Forall_forall; auto]. apply (Forall_impl _ _ _ Hc). auto.
Qed.

Lemma otlp_items_emits o : emits (supported cg) (match otlp_schema with SObj fs => fs | _ => [] end) (otlp_items cg o).
Proof. unfold otlp_items. emit. Qed.
(** OTLP is refused for old versions and for contradicting settings. *)
Definition otlp_accepted : Prop :=
  ∀ o, cpf_OTLP (cg_cpf cg) = Some o →
    GTE (cg_version cg) (MustParse "2.55.0") = true ∧
    (otlp_TranslationStrategy o = Some NoUTF8EscapingWithSuffixes →
     cpf_NameValidationScheme (cg_cpf cg) ≠ Some LegacyNameValidationScheme) ∧
    (otlp_TranslationStrategy o = Some NoTranslation → GTE (cg_version cg) (MustParse "3.4.0") = true).
Lemma default_eq (o : option string) v : v ≠ "" → default "" o = v → o = Some v.
Proof. intros Hv. destruct o; simpl; congruence. Qed.
Lemma appendOTLPConfig_accepted m m' : appendOTLPConfig cg m = Ok m' → otlp_accepted.
Proof.
  unfold appendOTLPConfig, otlp_accepted, GTE. intros E o Ho. rewrite Ho in E. simpl in E.
  destruct (LT (cg_version cg) (MustParse "2.55.0")); [done|]. destruct (bool_decide _ && bool_decide _) eqn:E1; [done|].
  destruct (LT _ _ && _) eqn:E2; [done|]. split; [done|]. split.
  - intros Ht Hn. rewrite Ht, Hn in E1. done.
  - intros Ht. rewrite Ht in E2. simpl in E2. rewrite andb_true_r in E2. by rewrite E2.
Qed.
Lemma appendOTLPConfig_emits :
  otlp_accepted → emits (supported cg) [since "2.55.0" "otlp" otlp_schema] (appendOTLPConfig cg).
Proof.
  intros Hok. unfold appendOTLPConfig. apply emits_if_set. intros o Ho.
  destruct (Hok o Ho) as (Hv & Hutf & Hno). unfold GTE in Hv. destruct (LT (cg_version cg) (MustParse "2.55.0")) eqn:E; [done|].
  rewrite (bool_decide_ext (default "" (otlp_TranslationStrategy o) = NoUTF8EscapingWithSuffixes)
    (otlp_TranslationStrategy o = Some NoUTF8EscapingWithSuffixes)) by (split; [by apply default_eq|by intros ->]).
  rewrite (bool_decide_ext (default "" (otlp_TranslationStrategy o) = NoTranslation)
    (otlp_TranslationStrategy o = Some NoTranslation)) by (split; [by apply default_eq|by intros ->]).
  destruct (_ && _) eqn:E1.
  { apply andb_true_iff in E1 as [E1%bool_decide_eq_true E2%bool_decide_eq_true].
    apply default_eq in E2; [|done]. by destruct (Hutf E1). }
  destruct (LT _ _ && _) eqn:E2.
  { apply andb_true_iff in E2 as [E2 E3%bool_decide_eq_true]. specialize (Hno E3). unfold GTE in Hno. by rewrite E2 in Hno. }
  eapply emits_nested; [apply otlp_items_emits|]. intros m Hm. apply emits_when. intros _.
  unfold AppendMapItem. destruct (notCompatible cg); [apply emits_skip|]. apply emits_item; [|done].
  simpl. unfold GTE. rewrite E. by destruct (bypassVersionCheck cg).
Qed.

Definition header_order (h : gomap) (order : list (string * string)) : Prop := order ≡ₚ map_to_list (default ∅ h).
Lemma headers_in_order h order :
  header_order h order → conforms (supported cg) (SMap SStr) (YMap ((fun kv => (kv.1, YStr kv.2)) <$> order)).
Proof.
  intros Ho. constructor.
  - rewrite <-list_fmap_compose. change (NoDup (fst <$> order)). rewrite Ho. apply NoDup_fst_map_to_list.
  - apply Forall_fmap, Forall_true. intros x. constructor.
Qed.
Lemma appendTracingConfig_emits order :
  (∀ t, cpf_TracingConfig (cg_cpf cg) = Some t →
     TLSConfig_Validate (tracing_TLSConfig t) = Ok () ∧ header_order (tracing_Headers t) order) →
  emits (supported cg) [fld "tracing" tracing_schema] (appendTracingConfig cg s order).
Proof.
  intros Ht. unfold appendTracingConfig. apply emits_if_set. intros t Et. destruct (Ht t Et) as [Htls Ho].
  eapply emits_nested; [|intros m Hm; apply emits_item; [done|exact Hm]].
  pose proof (api_exclusive _ Htls). pose proof (wf_compatible _ Hcg). pose proof (headers_in_order _ _ Ho).
  unfold tracing_items. emit.
Qed.
End global_emits.
