(* ===== verification/PromArgs.v ===== *)
(** * Command lines and probes of Prometheus pods

    The arguments of the Prometheus container: [BuildCommonPrometheusArgs] of
    pkg/prometheus/promcfg.go, [buildServerArgs] of pkg/prometheus/server/statefulset.go,
    [buildAgentArgs] of pkg/prometheus/agent/statefulset.go, and [BuildArgs] of
    pkg/operator/argument.go, which adds the arguments of the user. Also the metadata and the probes
    of the pods, with the commands of pkg/operator/prober.go. *)

From S2P Require Import Prelude GoStrings SortUtil Meta Semver NamespaceLabeler MonitoringV1 Status.
From S2P Require Import PromTypes PromCommon AssetStore Yaml ConfigGenerator GlobalConfig.

(** ** Arguments of the user *)

Definition negated (item : string) : string :=
  let negatedItem := TrimPrefix item "no-" in
  if bool_decide (item = negatedItem) then "no-" +:+ item else negatedItem.
Definition intersection_of (a : gset string) (item : string) : list string :=
  (if bool_decide (item ∈ a) then [item] else []) ++ (if bool_decide (negated item ∈ a) then [item] else []).
Definition intersection (a b : list string) : list string := b ≫= intersection_of (list_to_set a).
Definition extractArgKeys (args : list Argument) : list string := Argument_Name <$> args.
Definition render_arg (arg : Argument) : string :=
  if bool_decide (Argument_Value arg ≠ "") then "--" +:+ Argument_Name arg +:+ "=" +:+ Argument_Value arg
  else "--" +:+ Argument_Name arg.
Definition BuildArgs (args additionalArgs : list Argument) : res (list string) :=
  let i := intersection (extractArgKeys args) (extractArgKeys additionalArgs) in
  if bool_decide (i ≠ []) then
    Err (Errorf "can't set arguments which are already managed by the operator: %s" [Join i ","])
  else Ok (render_arg <$> args ++ additionalArgs).

(** ** Arguments of the operator *)

Definition ConfigEnvsubstFilename := "prometheus.env.yaml".
Definition StorageDir := "/prometheus".
Definition defaultRetention := "24h".
Definition arg (name value : string) : Argument := {| Argument_Name := name; Argument_Value := value |}.

Section arguments.
Context `{Semver} `{PromLibs}.
(** A step of the functions below: it appends to the arguments built so far. *)
Definition arg_step := list Argument → list Argument.
Definition steps (fs : list arg_step) : list Argument := foldl (fun m f => f m) [] fs.
Definition add_arg (a : Argument) : arg_step := fun m => m ++ [a].
Definition add_when (b : bool) (f : arg_step) : arg_step := if b then f else id.
Definition add_set {A} (o : option A) (f : A → arg_step) : arg_step := match o with Some x => f x | None => id end.
Definition add_compat (cg : ConfigGenerator) (a : Argument) : arg_step := fun m => AppendCommandlineArgument cg m a.

Definition common_steps (cg : ConfigGenerator) : list arg_step :=
  let cpf := cg_cpf cg in [
  add_arg (arg "config.file" (path_Join [ConfOutDir; ConfigEnvsubstFilename]));
  add_when (bool_decide (Major (cg_version cg) = 2%Z)) (add_arg (arg "web.console.templates" "/etc/prometheus/consoles"));
  add_when (bool_decide (Major (cg_version cg) = 2%Z)) (add_arg (arg "web.console.libraries" "/etc/prometheus/console_libraries"));
  add_when (bool_decide (default HTTPReloadStrategyType (cpf_ReloadStrategy cpf) = HTTPReloadStrategyType))
    (add_arg (arg "web.enable-lifecycle" ""));
  add_set (cpf_Web cpf ≫= web_PageTitle) (fun t => add_compat (WithMinimumVersion cg "2.6.0") (arg "web.page-title" t));
  add_set (cpf_Web cpf ≫= web_MaxConnections) (fun n => add_arg (arg "web.max-connections" (Itoa n)));
  add_when (cpf_EnableRemoteWriteReceiver cpf)
    (add_compat (WithMinimumVersion cg "2.33.0") (arg "web.enable-remote-write-receiver" ""));
  add_when (cpf_EnableRemoteWriteReceiver cpf && bool_decide (cpf_RemoteWriteReceiverMessageVersions cpf ≠ []))
    (add_compat (WithMinimumVersion cg "2.54.0") (arg "web.remote-write-receiver.accepted-protobuf-messages"
       (Join (toProtobufMessageVersion <$> cpf_RemoteWriteReceiverMessageVersions cpf) ",")))].
Definition feature_steps (cg : ConfigGenerator) : list arg_step :=
  let cpf := cg_cpf cg in
  ((fun rw => add_when (bool_decide (default RemoteWriteMessageVersion1_0 (rw_MessageVersion rw) = RemoteWriteMessageVersion2_0))
      (add_compat (WithMinimumVersion cg "2.54.0") (arg "enable-feature" "metadata-wal-records"))) <$> cpf_RemoteWrite cpf) ++ [
  add_when (match cpf_EnableOTLPReceiver cpf with Some b => b | None => is_set (cpf_OTLP cpf) end)
    (if bool_decide (3 ≤ Major (cg_version cg))%Z then add_compat cg (arg "web.enable-otlp-receiver" "")
     else add_compat (WithMinimumVersion cg "2.47.0") (arg "enable-feature" "otlp-write-receiver"));
  add_when (bool_decide (cpf_EnableFeatures cpf ≠ []))
    (add_compat (WithMinimumVersion cg "2.25.0") (arg "enable-feature" (Join (cpf_EnableFeatures cpf) ",")))].
Definition web_steps (cg : ConfigGenerator) : list arg_step :=
  let cpf := cg_cpf cg in [
  add_when (bool_decide (cpf_ExternalURL cpf ≠ "")) (add_arg (arg "web.external-url" (cpf_ExternalURL cpf)));
  add_arg (arg "web.route-prefix" (WebRoutePrefix cpf));
  add_when (bool_decide (cpf_LogLevel cpf ∉ [""; "info"])) (add_arg (arg "log.level" (cpf_LogLevel cpf)));
  add_when (bool_decide (cpf_LogFormat cpf ∉ [""; "logfmt"]))
    (add_compat (WithMinimumVersion cg "2.6.0") (arg "log.format" (cpf_LogFormat cpf)));
  add_when (cpf_ListenLocal cpf) (add_arg (arg "web.listen-address" "127.0.0.1:9090"))].
Definition BuildCommonPrometheusArgs (cg : ConfigGenerator) : list Argument :=
  steps (common_steps cg ++ feature_steps cg ++ web_steps cg).

Definition wal_compression (prefix : string) (b : bool) : Argument :=
  arg (if b then prefix +:+ "wal-compression" else "no-" +:+ prefix +:+ "wal-compression") "".
Definition retention (cg : ConfigGenerator) (p : PrometheusSpec) : string * string :=
  if IsCompatible (WithMaximumVersion cg "2.7.0") then
    ("storage.tsdb.retention", if bool_decide (spec_Retention p = "") then defaultRetention else spec_Retention p)
  else ("storage.tsdb.retention.time",
        if bool_decide (spec_Retention p = "" ∧ spec_RetentionSize p = "") then defaultRetention else spec_Retention p).
Definition server_steps (cg : ConfigGenerator) (p : PrometheusSpec) : list arg_step :=
  let alert := rls_Alert (spec_Rules p) in
  let query := spec_Query p in [
  add_when (bool_decide ((retention cg p).2 ≠ "")) (add_arg (arg (retention cg p).1 (retention cg p).2));
  add_when (bool_decide (spec_RetentionSize p ≠ ""))
    (add_compat (WithMinimumVersion cg "2.7.0") (arg "storage.tsdb.retention.size" (spec_RetentionSize p)));
  add_arg (arg "storage.tsdb.path" StorageDir);
  add_when (spec_EnableAdminAPI p) (add_arg (arg "web.enable-admin-api" ""));
  add_when (bool_decide (ra_ForOutageTolerance alert ≠ ""))
    (add_compat (WithMinimumVersion cg "2.4.0") (arg "rules.alert.for-outage-tolerance" (ra_ForOutageTolerance alert)));
  add_when (bool_decide (ra_ForGracePeriod alert ≠ ""))
    (add_compat (WithMinimumVersion cg "2.4.0") (arg "rules.alert.for-grace-period" (ra_ForGracePeriod alert)));
  add_when (bool_decide (ra_ResendDelay alert ≠ ""))
    (add_compat (WithMinimumVersion cg "2.4.0") (arg "rules.alert.resend-delay" (ra_ResendDelay alert)));
  add_set (query ≫= query_LookbackDelta) (fun d => add_arg (arg "query.lookback-delta" d));
  add_set (query ≫= query_MaxSamples) (fun n => add_when (bool_decide (0 < n)%Z)
    (add_compat (WithMinimumVersion cg "2.5.0") (arg "query.max-samples" (Itoa n))));
  add_set (query ≫= query_MaxConcurrency) (fun n => add_when (bool_decide (1 < n)%Z) (add_arg (arg "query.max-concurrency" (Itoa n))));
  add_set (query ≫= query_Timeout) (fun t => add_arg (arg "query.timeout" t));
  add_when (spec_AllowOverlappingBlocks p)
    (add_compat (WithMaximumVersion (WithMinimumVersion cg "2.11.0") "2.39.0") (arg "storage.tsdb.allow-overlapping-blocks" ""));
  add_set (cpf_WALCompression (spec_CommonPrometheusFields p)) (fun b =>
    add_compat (WithMinimumVersion cg "2.11.0") (wal_compression "storage.tsdb." b))].
Definition buildServerArgs (cg : ConfigGenerator) (p : PrometheusSpec) : list Argument :=
  foldl (fun m f => f m) (BuildCommonPrometheusArgs cg) (server_steps cg p).
Definition agent_steps (cg : ConfigGenerator) (walCompression : option bool) : list arg_step := [
  add_when (bool_decide (Major (cg_version cg) = 2%Z)) (add_arg (arg "enable-feature" "agent"));
  add_when (bool_decide (Major (cg_version cg) = 3%Z)) (add_arg (arg "agent" ""));
  add_arg (arg "storage.agent.path" StorageDir);
  add_set walCompression (fun b => add_compat cg (wal_compression "storage.agent." b))].
Definition buildAgentArgs (cg : ConfigGenerator) (walCompression : option bool) : list Argument :=
  foldl (fun m f => f m) (BuildCommonPrometheusArgs cg) (agent_steps cg walCompression).
End arguments.

(** ** Names of the arguments

    The flags of Prometheus with the versions that know them, and the features that the operator
    turns on itself. A command line is acceptable when no flag is passed twice, except
    [enable-feature], which Prometheus accepts any number of times, every flag is known to the
    version, and every feature too, but for the features that the user asks for. *)

Definition flags := list (string * avail).
Definition repeatable := "enable-feature".
Definition features : flags := [
  ("metadata-wal-records", Since "2.54.0"); ("otlp-write-receiver", Both (Since "2.47.0") (BelowMajor 3));
  ("agent", Both (Since "2.32.0") (BelowMajor 3))].
Definition once (l : list string) : list string := filter (fun n => n ≠ repeatable) l.
Section flags.
Context (ok : avail → bool) (user : list string).
Definition feature_ok (x : string) : Prop := x = Join user "," ∨ ∃ v, (x, v) ∈ features ∧ ok v = true.
Definition arg_ok (fs : flags) (a : Argument) : Prop :=
  (∃ v, (Argument_Name a, v) ∈ fs ∧ ok v = true) ∧ (Argument_Name a = repeatable → feature_ok (Argument_Value a)).
Definition args_ok (fs : flags) (l : list Argument) : Prop :=
  NoDup (once (Argument_Name <$> l)) ∧ Forall (arg_ok fs) l.
Definition grows (fs : flags) (l : list arg_step) : Prop :=
  ∀ m, ∃ l', foldl (fun m f => f m) m l = m ++ l' ∧ args_ok fs l'.

Lemma once_app l l' : once (l ++ l') = once l ++ once l'.
Proof. apply filter_app. Qed.
Lemma arg_ok_weaken fs gs a : arg_ok fs a → fs ⊆ gs → arg_ok gs a.
Proof. intros [(v & Hv & Hok) Hf] Hs. split; [|done]. exists v. by split; [apply Hs|]. Qed.
Lemma once_in fs l x : Forall (arg_ok fs) l → x ∈ once (Argument_Name <$> l) → x ∈ once fs.*1.
Proof.
  intros Hl [Hr (a & -> & Ha)%list_elem_of_fmap]%list_elem_of_filter. rewrite Forall_forall in Hl.
  destruct (Hl a Ha) as [(v & Hv & _) _]. apply list_elem_of_filter. split; [done|].
  by apply (list_elem_of_fmap_2 fst) in Hv.
Qed.
Lemma args_ok_app fs gs l l' :
  args_ok fs l → args_ok gs l' → Forall (fun n => n ∉ once gs.*1) (once fs.*1) → args_ok (fs ++ gs) (l ++ l').
Proof.
  intros [Hn Hl] [Hn' Hl'] Hd. split.
  - rewrite fmap_app, once_app. apply NoDup_app. split; [done|]. split; [|done].
    intros x Hx Hx'. rewrite Forall_forall in Hd. apply (Hd x); by eapply once_in.
  - apply Forall_app. split; eapply Forall_impl; [exact Hl| |exact Hl'|]; intros a Ha; eapply arg_ok_weaken; try exact Ha; set_solver.
Qed.
Lemma grows_nil : grows [] [].
Proof. intros m. exists []. split; [by rewrite app_nil_r|]. split; constructor. Qed.
Lemma grows_app fs gs l l' : grows fs l → grows gs l' → Forall (fun n => n ∉ once gs.*1) (once fs.*1) → grows (fs ++ gs) (l ++ l').
Proof.
  intros Hl Hl' Hd m. destruct (Hl m) as (a & Ha & Hok). destruct (Hl' (m ++ a)) as (b & Hb & Hok').
  exists (a ++ b). rewrite foldl_app, Ha, Hb, app_assoc. split; [done|]. by apply args_ok_app.
Qed.
Lemma grows_cons fs gs f l : grows fs [f] → grows gs l → Forall (fun n => n ∉ once gs.*1) (once fs.*1) → grows (fs ++ gs) (f :: l).
Proof. apply (grows_app fs gs [f] l). Qed.
Lemma grows_add n v x : ok v = true → (n = repeatable → feature_ok x) → grows [(n, v)] [add_arg (arg n x)].
Proof.
  intros Hv Hf m. exists [arg n x]. split; [done|]. split.
  - apply NoDup_filter, NoDup_singleton.
  - apply Forall_singleton. split; [|done]. exists v. by rewrite list_elem_of_singleton.
Qed.
Lemma grows_none fs : grows fs [id].
Proof. intros m. exists []. split; [by rewrite app_nil_r|]. split; constructor. Qed.
Lemma grows_when fs b f : (b = true → grows fs [f]) → grows fs [add_when b f].
Proof. destruct b; simpl; [auto|intros _; apply grows_none]. Qed.
Lemma grows_set {A} fs (o : option A) f : (∀ x, o = Some x → grows fs [f x]) → grows fs [add_set o f].
Proof. destruct o; simpl; [auto|intros _; apply grows_none]. Qed.
Lemma grows_weaken fs gs l : grows fs l → fs ⊆ gs → grows gs l.
Proof.
  intros Hl Hs m. destruct (Hl m) as (l' & Hl' & Hn & Ha). exists l'. split; [done|]. split; [done|].
  eapply Forall_impl; [exact Ha|]. intros a Hok. by eapply arg_ok_weaken.
Qed.
End flags.

Section supported_flags.
Context `{SemverLaws} `{PromLibs} (cg : ConfigGenerator) (Hcg : notCompatible cg = false).
Let user := cpf_EnableFeatures (cg_cpf cg).
Lemma grows_compat n v x :
  supported cg v = true → n ≠ repeatable → grows (supported cg) user [(n, v)] [add_compat cg (arg n x)].
Proof.
  intros Hv Hn m. unfold add_compat, AppendCommandlineArgument. simpl. rewrite Hcg.
  apply (grows_add (supported cg) user n v x); [exact Hv|intros Hr; by destruct Hn].
Qed.
(** What an argument gated by a minimum version, or by both bounds, may suppose of the version. *)
Lemma minimum_kept v m a :
  (supported cg (Since v) = true → add_compat cg a m = m ++ [a]) →
  add_compat (WithMinimumVersion cg v) a m = m ∨
  supported cg (Since v) = true ∧ add_compat (WithMinimumVersion cg v) a m = m ++ [a].
Proof.
  intros Ha. unfold add_compat, AppendCommandlineArgument in *. unfold WithMinimumVersion. simpl in *. unfold GTE in *.
  destruct (bypassVersionCheck cg), (LT (cg_version cg) (MustParse v)); simpl in *; auto.
Qed.
Lemma bounds_kept v w m a :
  add_compat (WithMaximumVersion (WithMinimumVersion cg v) w) a m = m ∨
  supported cg (Both (Since v) (Until w)) = true ∧
  add_compat (WithMaximumVersion (WithMinimumVersion cg v) w) a m = m ++ [a].
Proof.
  unfold add_compat, AppendCommandlineArgument, WithMaximumVersion, WithMinimumVersion. simpl. unfold GTE.
  destruct (bypassVersionCheck cg) eqn:Eb, (LT (cg_version cg) (MustParse v)); simpl; rewrite ?Eb, ?Hcg; simpl;
    destruct (LT (cg_version cg) (MustParse w)); simpl; rewrite ?Hcg; auto.
Qed.
Lemma compat_added a m : add_compat cg a m = m ++ [a].
Proof. unfold add_compat, AppendCommandlineArgument. by rewrite Hcg. Qed.
Lemma grows_gated n v x f :
  (∀ m, f m = m ∨ supported cg v = true ∧ f m = m ++ [arg n x]) →
  (supported cg v = true → n = repeatable → feature_ok (supported cg) user x) → grows (supported cg) user [(n, v)] [f].
Proof.
  intros Hf Hu m. destruct (Hf m) as [Hm|[Hv Hm]]; simpl; rewrite Hm.
  - apply (grows_none (supported cg) user [(n, v)]).
  - apply (grows_add (supported cg) user n v x); auto.
Qed.
Lemma grows_since n v x :
  n ≠ repeatable → grows (supported cg) user [(n, Since v)] [add_compat (WithMinimumVersion cg v) (arg n x)].
Proof. intros Hn. apply (grows_gated n _ x); [|intros _ Hr; by destruct Hn]. intros m. apply minimum_kept. intros _. apply compat_added. Qed.
Lemma grows_between n v w x :
  n ≠ repeatable →
  grows (supported cg) user [(n, Both (Since v) (Until w))] [add_compat (WithMaximumVersion (WithMinimumVersion cg v) w) (arg n x)].
Proof. intros Hn. apply (grows_gated n _ x); [|intros _ Hr; by destruct Hn]. intros m. apply bounds_kept. Qed.
(** [enable-feature] exists since 2.25.0, and so in every version that has a feature. *)
Lemma since_older a b :
  supported cg (Since (release a)) = true → small a → small b → release_lt a b = false →
  supported cg (Since (release b)) = true.
Proof.
  simpl. intros [Hb|Hv]%orb_true_iff Ha Hs Hl; [by rewrite Hb|]. apply orb_true_iff. right. by eapply GTE_release.
Qed.
Lemma feature_known v : v ∈ [(2, 54, 0); (2, 47, 0); (2, 32, 0); (2, 25, 0)]%Z → supported cg (Since (release v)) = true →
  supported cg (Since "2.25.0") = true.
Proof.
  intros Hv Hs. change "2.25.0" with (release (2, 25, 0)%Z). eapply since_older; [exact Hs|..];
    repeat (apply elem_of_cons in Hv as [-> | Hv]); try by apply elem_of_nil in Hv.
  all: first [reflexivity|unfold small; simpl; lia].
Qed.
Lemma grows_feature v x :
  v ∈ [(2, 54, 0); (2, 47, 0); (2, 32, 0); (2, 25, 0)]%Z →
  (supported cg (Since (release v)) = true → feature_ok (supported cg) user x) →
  grows (supported cg) user [(repeatable, Since "2.25.0")]
    [add_compat (WithMinimumVersion cg (release v)) (arg repeatable x)].
Proof.
  intros Hv Hf m.
  destruct (minimum_kept (release v) m (arg repeatable x)) as [Hm|[Hs Hm]]; [intros _; apply compat_added|..]; simpl; rewrite Hm.
  - apply (grows_none (supported cg) user [(repeatable, Since "2.25.0")]).
  - apply (grows_add (supported cg) user repeatable (Since "2.25.0") x); [by eapply feature_known|auto].
Qed.
Definition common_flags : flags := [
  ("config.file", Always); ("web.console.templates", OnlyMajor 2); ("web.console.libraries", OnlyMajor 2);
  ("web.enable-lifecycle", Always); ("web.page-title", Since "2.6.0"); ("web.max-connections", Always);
  ("web.enable-remote-write-receiver", Since "2.33.0");
  ("web.remote-write-receiver.accepted-protobuf-messages", Since "2.54.0")].
Definition feature_flags : flags := [("enable-feature", Since "2.25.0"); ("web.enable-otlp-receiver", FromMajor 3)].
Definition web_flags : flags := [
  ("web.external-url", Always); ("web.route-prefix", Always); ("log.level", Always); ("log.format", Since "2.6.0");
  ("web.listen-address", Always)].
Definition server_flags : flags := [
  ("storage.tsdb.retention", Until "2.7.0"); ("storage.tsdb.retention.time", Since "2.7.0");
  ("storage.tsdb.retention.size", Since "2.7.0"); ("storage.tsdb.path", Always); ("web.enable-admin-api", Always);
  ("rules.alert.for-outage-tolerance", Since "2.4.0"); ("rules.alert.for-grace-period", Since "2.4.0");
  ("rules.alert.resend-delay", Since "2.4.0"); ("query.lookback-delta", Always); ("query.max-samples", Since "2.5.0");
  ("query.max-concurrency", Always); ("query.timeout", Always);
  ("storage.tsdb.allow-overlapping-blocks", Both (Since "2.11.0") (Until "2.39.0"));
  ("storage.tsdb.wal-compression", Since "2.11.0"); ("no-storage.tsdb.wal-compression", Since "2.11.0")].
(** The agent mode exists since 2.32.0: a feature of Prometheus 2, a flag of its own afterwards. *)
Definition agent_flags : flags := [
  ("enable-feature", Since "2.25.0"); ("agent", FromMajor 3); ("storage.agent.path", Since "2.32.0");
  ("storage.agent.wal-compression", Since "2.32.0"); ("no-storage.agent.wal-compression", Since "2.32.0")].

Ltac grow :=
  lazymatch goal with
  | |- grows _ _ _ [add_when _ _] => apply grows_when; intros ?; grow
  | |- grows _ _ _ [add_set _ _] => apply grows_set; intros ? ?; grow
  | H : bool_decide (Major _ = ?m) = true |- grows _ _ _ [add_arg _] =>
      apply (grows_add _ _ _ (OnlyMajor m)); [exact H|discriminate]
  | |- grows _ _ _ [add_arg _] => apply (grows_add _ _ _ Always); [reflexivity|discriminate]
  | |- grows _ _ _ [add_compat (WithMaximumVersion _ _) _] => apply grows_between; discriminate
  | |- grows _ _ _ [add_compat (WithMinimumVersion _ _) _] => apply grows_since; discriminate
  end.
Ltac grow_all :=
  lazymatch goal with
  | |- grows _ _ _ [] => apply grows_nil
  | |- grows _ _ _ (_ :: _) => eapply grows_cons; [grow|grow_all|table]
  end.
Ltac grow_in := eapply grows_weaken; [grow_all|table].
Lemma common_grows : grows (supported cg) user common_flags (common_steps cg).
Proof. unfold common_steps. grow_in. Qed.
Lemma web_grows : grows (supported cg) user web_flags (web_steps cg).
Proof. unfold web_steps. grow_in. Qed.
Lemma otlp_grows :
  grows (supported cg) user feature_flags
    [if bool_decide (3 ≤ Major (cg_version cg))%Z then add_compat cg (arg "web.enable-otlp-receiver" "")
     else add_compat (WithMinimumVersion cg "2.47.0") (arg "enable-feature" "otlp-write-receiver")].
Proof.
  case_bool_decide as Hm.
  - eapply grows_weaken; [apply (grows_compat _ (FromMajor 3)); [by apply bool_decide_eq_true|discriminate]|table].
  - apply (grows_weaken _ _ [(repeatable, Since "2.25.0")]); [|table]. apply (grows_feature (2, 47, 0)%Z); [set_solver|]. intros Hs. right.
    exists (Both (Since "2.47.0") (BelowMajor 3)). split; [table|].
    change (supported cg (Since "2.47.0") && bool_decide (Major (cg_version cg) < 3)%Z = true).
    apply andb_true_iff. split; [exact Hs|]. apply bool_decide_eq_true. lia.
Qed.
Lemma feature_grows : grows (supported cg) user feature_flags (feature_steps cg).
Proof.
  unfold feature_steps.
  apply (grows_weaken _ _ ([("enable-feature", Since "2.25.0")] ++ feature_flags ++ [("enable-feature", Since "2.25.0")])); [|table].
  apply grows_app; [| |table].
  - induction (cpf_RemoteWrite (cg_cpf cg)) as [|rw l IH]; csimpl; [intros m; exists []; rewrite app_nil_r; by repeat constructor|].
    apply (grows_weaken _ _ ([(repeatable, Since "2.25.0")] ++ [("enable-feature", Since "2.25.0")])); [|table].
    apply grows_cons; [|exact IH|table].
    apply grows_when. intros _. apply (grows_feature (2, 54, 0)%Z); [set_solver|]. intros Hs. right.
    exists (Since "2.54.0"). split; [table|exact Hs].
  - apply grows_cons; [apply grows_when; intros _; apply otlp_grows| |table].
    apply grows_when. intros _. apply (grows_feature (2, 25, 0)%Z); [set_solver|]. intros _. by left.
Qed.
Lemma retention_grows p :
  grows (supported cg) user [("storage.tsdb.retention", Until "2.7.0"); ("storage.tsdb.retention.time", Since "2.7.0")]
    [add_when (bool_decide ((retention cg p).2 ≠ "")) (add_arg (arg (retention cg p).1 (retention cg p).2))].
Proof.
  apply grows_when. intros _. unfold retention, IsCompatible, WithMaximumVersion.
  destruct (bypassVersionCheck cg) eqn:Eb; [|unfold GTE; destruct (LT (cg_version cg) (MustParse "2.7.0")) eqn:El];
    simpl; rewrite ?Hcg; simpl; eapply grows_weaken.
  1, 3: by apply (grows_add _ _ _ (Until "2.7.0")); [simpl; rewrite Eb, ?El|].
  1, 2: table.
  - by apply (grows_add _ _ _ (Since "2.7.0")); [simpl; unfold GTE; rewrite Eb, El|].
  - table.
Qed.
Lemma wal_grows n v o :
  n ∈ ["storage.tsdb."; "storage.agent."] →
  grows (supported cg) user [(n +:+ "wal-compression", Since v); ("no-" +:+ n +:+ "wal-compression", Since v)]
    [add_set o (fun b => add_compat (WithMinimumVersion cg v) (wal_compression n b))].
Proof.
  intros Hn. apply grows_set. intros b _. unfold wal_compression. destruct b; (eapply grows_weaken; [apply grows_since|set_solver]).
  all: by repeat (apply elem_of_cons in Hn as [-> | Hn]); [..|apply elem_of_nil in Hn].
Qed.
Ltac grow_server :=
  lazymatch goal with
  | |- grows _ _ _ [] => apply grows_nil
  | |- grows _ _ _ (?f :: _) =>
      eapply grows_cons; [
        lazymatch f with
        | context [retention] => apply retention_grows
        | context [wal_compression ?n] => apply (wal_grows n); set_solver
        | _ => grow
        end|grow_server|table]
  end.
Lemma server_grows p : grows (supported cg) user server_flags (server_steps cg p).
Proof. unfold server_steps. eapply grows_weaken; [grow_server|table]. Qed.
Section agent.
Context (Hagent : supported cg (Since "2.32.0") = true).
Lemma agent_feature_grows :
  grows (supported cg) user [("enable-feature", Since "2.25.0")]
    [add_when (bool_decide (Major (cg_version cg) = 2%Z)) (add_arg (arg "enable-feature" "agent"))].
Proof.
  apply grows_when. intros Hm%bool_decide_eq_true. apply grows_add.
  - apply (feature_known (2, 32, 0)%Z); [set_solver|exact Hagent].
  - intros _. right. exists (Both (Since "2.32.0") (BelowMajor 3)). split; [table|].
    change (supported cg (Since "2.32.0") && bool_decide (Major (cg_version cg) < 3)%Z = true).
    rewrite Hagent. apply bool_decide_eq_true. lia.
Qed.
Lemma agent_flag_grows :
  grows (supported cg) user [("agent", FromMajor 3)]
    [add_when (bool_decide (Major (cg_version cg) = 3%Z)) (add_arg (arg "agent" ""))].
Proof.
  apply grows_when. intros Hm%bool_decide_eq_true. apply grows_add; [|discriminate]. apply bool_decide_eq_true. lia.
Qed.
Lemma agent_wal_grows o :
  grows (supported cg) user
    [("storage.agent.wal-compression", Since "2.32.0"); ("no-storage.agent.wal-compression", Since "2.32.0")]
    [add_set o (fun b => add_compat cg (wal_compression "storage.agent." b))].
Proof.
  apply grows_set. intros b _. unfold wal_compression.
  destruct b; (eapply grows_weaken; [by apply (grows_compat _ (Since "2.32.0"))|table]).
Qed.
Lemma agent_grows o : grows (supported cg) user agent_flags (agent_steps cg o).
Proof.
  unfold agent_steps. eapply grows_weaken.
  - eapply grows_cons; [apply agent_feature_grows| |].
    { eapply grows_cons; [apply agent_flag_grows| |].
      - eapply grows_cons; [by apply (grows_add _ _ _ (Since "2.32.0"))|apply agent_wal_grows|table].
      - table. }
    table.
  - table.
Qed.
End agent.
Lemma common_args_ok :
  grows (supported cg) user (common_flags ++ feature_flags ++ web_flags) (common_steps cg ++ feature_steps cg ++ web_steps cg).
Proof.
  apply grows_app; [apply common_grows|apply grows_app; [apply feature_grows|apply web_grows|table]|table].
Qed.
Lemma managed_args_ok gs l :
  grows (supported cg) user gs l → Forall (fun n => n ∉ once gs.*1) (once (common_flags ++ feature_flags ++ web_flags).*1) →
  args_ok (supported cg) user ((common_flags ++ feature_flags ++ web_flags) ++ gs) (foldl (fun m f => f m) (BuildCommonPrometheusArgs cg) l).
Proof.
  intros Hl Hd. destruct (common_args_ok []) as (a & Ha & Hok). unfold BuildCommonPrometheusArgs, steps. rewrite Ha.
  change ([] ++ a) with a. destruct (Hl a) as (b & -> & Hok'). by apply args_ok_app.
Qed.
End supported_flags.

(** ** What [BuildArgs] accepts *)

Section build.
(** [e] is the flag [a], or turns it off or on: the negation of a flag is written with the prefix
    [no-], and a name that already has it is not negated again. *)
Definition clashes (a e : string) : Prop :=
  e = a ∨ e = "no-" +:+ a ∨ (a = "no-" +:+ e ∧ ∀ x, e ≠ "no-" +:+ x).
(** How an argument stands on a command line. *)
Inductive passed_as (a : Argument) : string → Prop :=
  | passed_switch : Argument_Value a = "" → passed_as a ("--" +:+ Argument_Name a)
  | passed_value : Argument_Value a ≠ "" → passed_as a ("--" +:+ Argument_Name a +:+ "=" +:+ Argument_Value a).
Lemma render_arg_passed a : passed_as a (render_arg a).
Proof. unfold render_arg. case_bool_decide; constructor; [done|]. by destruct (decide (Argument_Value a = "")). Qed.
Lemma TrimPrefix_cases s p : (∃ t, s = p +:+ t ∧ TrimPrefix s p = t) ∨ (∀ t, s ≠ p +:+ t) ∧ TrimPrefix s p = s.
Proof.
  unfold TrimPrefix. destruct (TrimPrefix_aux s p) as [t|] eqn:E; simpl.
  - left. exists t. split; [by apply TrimPrefix_aux_Some|done].
  - right. split; [|done]. intros t ->. by rewrite TrimPrefix_aux_app in E.
Qed.
Lemma negated_clashes a e : clashes a e ↔ e = a ∨ negated e = a.
Proof.
  unfold clashes, negated. destruct (TrimPrefix_cases e "no-") as [[x [-> Ht]]|[Hn Ht]]; rewrite Ht.
  - rewrite bool_decide_false; [|intros Hx; apply (f_equal String.length) in Hx; rewrite length_app_str in Hx; simpl in Hx; lia]. split.
    + intros [He|[He|[_ Hx]]]; [by left|right; by apply (inj (String.app "no-")) in He|by destruct (Hx x)].
    + intros [He| ->]; auto.
  - rewrite bool_decide_true by done. split.
    + intros [He|[He|[He _]]]; [by left|by destruct (Hn a)|by right].
    + intros [He| <-]; auto.
Qed.
Lemma intersection_of_nil a e : intersection_of (list_to_set a) e = [] ↔ ∀ n, n ∈ a → ¬ clashes n e.
Proof.
  unfold intersection_of. setoid_rewrite negated_clashes. repeat case_bool_decide; simpl; set_solver.
Qed.
Lemma intersection_nil a b : intersection a b = [] ↔ ∀ n e, n ∈ a → e ∈ b → ¬ clashes n e.
Proof.
  unfold intersection. induction b as [|e b IH]; csimpl; [set_solver|].
  split.
  - intros [He Hb]%app_nil n x Hn Hx. apply elem_of_cons in Hx as [-> | Hx].
    + by apply (proj1 (intersection_of_nil a e) He).
    + by apply (proj1 IH Hb).
  - intros Hc. rewrite (proj2 (intersection_of_nil a e)); [|intros n Hn; apply Hc; set_solver].
    apply IH. intros n x Hn Hx. apply Hc; set_solver.
Qed.
Lemma BuildArgs_ok args extra :
  (∀ a e, a ∈ args → e ∈ extra → ¬ clashes (Argument_Name a) (Argument_Name e)) →
  ∃ l, BuildArgs args extra = Ok l ∧ Forall2 passed_as (args ++ extra) l.
Proof.
  intros Hc. exists (render_arg <$> args ++ extra). split.
  - unfold BuildArgs. rewrite bool_decide_false; [done|].
    rewrite (proj2 (intersection_nil _ _)); [by intros []|]. unfold extractArgKeys.
    intros n e (a & -> & Ha)%list_elem_of_fmap (x & -> & Hx)%list_elem_of_fmap. by apply Hc.
  - apply Forall2_fmap_r, Forall_Forall2_diag, Forall_forall. intros a _. apply render_arg_passed.
Qed.
Lemma BuildArgs_err args extra a e :
  a ∈ args → e ∈ extra → clashes (Argument_Name a) (Argument_Name e) → ∃ err, BuildArgs args extra = Err err.
Proof.
  intros Ha He Hc. unfold BuildArgs. rewrite bool_decide_true; [eauto|]. intros Hi.
  apply (proj1 (intersection_nil _ _) Hi (Argument_Name a) (Argument_Name e)); [by apply list_elem_of_fmap_2..|done].
Qed.
Lemma exists_clash args extra :
  intersection (extractArgKeys args) (extractArgKeys extra) ≠ [] →
  ∃ a e, a ∈ args ∧ e ∈ extra ∧ clashes (Argument_Name a) (Argument_Name e).
Proof.
  intros Hi. destruct (intersection _ _) as [|x l] eqn:E; [done|].
  assert (x ∈ intersection (extractArgKeys args) (extractArgKeys extra)) as Hx by (rewrite E; set_solver).
  unfold intersection in Hx. apply list_elem_of_bind in Hx as (n & Hx & (e & -> & He)%list_elem_of_fmap).
  setoid_rewrite negated_clashes.
  unfold intersection_of in *. apply elem_of_app in Hx as [Hx|Hx]; case_bool_decide as Hn; set_solver.
Qed.
End build.

(** ** Metadata and probes of the pods *)

(** Kubernetes' probes, with the fields the operator sets. *)
Record HTTPGetAction := { hga_Path : string; hga_Port : IntOrString; hga_Scheme : string }.
Inductive ProbeHandler := HExec (command : list string) | HHTTPGet (a : HTTPGetAction).
Record PodProbe := {
  pp_ProbeHandler : ProbeHandler; pp_TimeoutSeconds : Z; pp_PeriodSeconds : Z; pp_FailureThreshold : Z }.
Definition ProbeTimeoutSeconds : Z := 3.

(** [fmt.Sprintf] with commands in double quotes: [dquote] is the character. *)
Definition dquote : string := String (ascii_of_N 34) "".
Definition curlProber (u : string) : string := "curl --fail " +:+ u.
Definition wgetProber (u : string) : string := "wget -q -O /dev/null " +:+ u.
Definition ExecAction (u : string) : list string :=
  ["sh"; "-c";
   "if [ -x " +:+ dquote +:+ "$(command -v curl)" +:+ dquote +:+ " ]; then exec " +:+ curlProber u +:+
   "; elif [ -x " +:+ dquote +:+ "$(command -v wget)" +:+ dquote +:+ " ]; then exec " +:+ wgetProber u +:+
   "; else exit 1; fi"].

(** [url.URL.String] for a host and an absolute path: bytes that may not occur in a path are
    written as two hexadecimal digits. *)
Definition hex (n : N) : string :=
  let digit (d : N) := String (ascii_of_N (if (d <? 10)%N then 48 + d else 55 + d)%N) "" in
  digit (n / 16)%N +:+ digit (n mod 16)%N.
Definition path_char (c : ascii) : bool :=
  alpha c || is_set (digit c) ||
  bool_decide (c ∈ ["-"; "_"; "."; "~"; "$"; "&"; "+"; ","; "/"; ":"; ";"; "="; "@"]%char).
Fixpoint escape_path (s : string) : string :=
  match s with
  | EmptyString => ""
  | String c s' => (if path_char c then String c "" else "%" +:+ hex (N_of_ascii c)) +:+ escape_path s'
  end.
Definition url_String (scheme host path : string) : string := scheme +:+ "://" +:+ host +:+ escape_path path.

Section pods.
Context `{Semver} `{PromLibs} (cg : ConfigGenerator).
Definition BuildPodMetadata : gmap string string * gmap string string :=
  let md := cpf_PodMetadata (cg_cpf cg) in
  let given (f : EmbeddedObjectMetadata → gomap) : gmap string string := default ∅ (md ≫= f) in
  (given emd_Annotations ∪ {["kubectl.kubernetes.io/default-container" := "prometheus"]},
   given emd_Labels ∪ {["app.kubernetes.io/version" := version_String (cg_version cg)]}).
Definition buildProbeHandler (probePath : string) : ProbeHandler :=
  let cpf := cg_cpf cg in
  let probePath := path_Clean (WebRoutePrefix cpf +:+ probePath) in
  if cpf_ListenLocal cpf then HExec (ExecAction (url_String "http" "localhost:9090" probePath))
  else HHTTPGet {| hga_Path := probePath; hga_Port := FromString (cpf_PortName cpf);
         hga_Scheme := if default false (web_hasTLSConfig <$> cpf_Web cpf) && IsCompatible cg then "HTTPS" else "" |}.
(** [math.Ceil] of a quotient. The code divides in floating point; numerators below 2^31 and
    denominators below 2^26 are exact there, and a quotient that is not an integer is further from
    the next one than the error of the division. *)
Definition ceil_div (a b : Z) : Z := (- ((- a) / b))%Z.
Definition getStatupProbePeriodSecondsAndFailureThreshold (maxStartupDurationSeconds : option Z) : Z * Z :=
  let maximum := default 0%Z maxStartupDurationSeconds in
  if bool_decide (60 ≤ maximum)%Z then
    let threshold := ceil_div maximum 60 in (ceil_div maximum threshold, threshold)
  else (15, 60)%Z.
Definition BuildProbes : PodProbe * PodProbe * PodProbe :=
  let readyProbeHandler := buildProbeHandler "/-/ready" in
  let '(period, threshold) := getStatupProbePeriodSecondsAndFailureThreshold (cpf_MaximumStartupDurationSeconds (cg_cpf cg)) in
  ({| pp_ProbeHandler := readyProbeHandler; pp_TimeoutSeconds := ProbeTimeoutSeconds;
      pp_PeriodSeconds := period; pp_FailureThreshold := threshold |},
   {| pp_ProbeHandler := readyProbeHandler; pp_TimeoutSeconds := ProbeTimeoutSeconds;
      pp_PeriodSeconds := 5; pp_FailureThreshold := 3 |},
   {| pp_ProbeHandler := buildProbeHandler "/-/healthy"; pp_TimeoutSeconds := ProbeTimeoutSeconds;
      pp_PeriodSeconds := 5; pp_FailureThreshold := 6 |}).
End pods.

Lemma ceil_div_bounds a b : (0 < b → b * (ceil_div a b - 1) < a ≤ b * ceil_div a b)%Z.
Proof.
  intros Hb. unfold ceil_div. pose proof (Z.div_mod (- a) b). pose proof (Z.mod_pos_bound (- a) b Hb). nia.
Qed.
