(* ===== verification/ScrapeTypes.v ===== *)
(** * The ScrapeConfig resource: types

    The types of pkg/apis/monitoring/v1alpha1/scrapeconfig_types.go that a Prometheus configuration
    is generated from. The record [T] has the fields [T_Field] of the Go struct of the same name;
    [ScrapeConfigSpec] uses the prefix [scs_], and the [AttachMetadata] of this package is
    [SDAttachMetadata]. Optional fields are options, enumerated strings are strings, unsigned and
    32-bit integers are [Z]. *)

From S2P Require Import Prelude GoStrings Meta NamespaceLabeler MonitoringV1 PromTypes.

Definition ScrapeConfigsKind := "ScrapeConfig".
Definition KubernetesRoleEndpointSlice := "EndpointSlice".
Definition DNSRecordTypeMX := "MX".
Definition DNSRecordTypeNS := "NS".
Definition OVHServiceVPS := "VPS".
Definition OVHServiceDedicatedServer := "DedicatedServer".

Record NamespaceDiscovery := {
  NamespaceDiscovery_IncludeOwnNamespace : option bool;
  NamespaceDiscovery_Names : list string;
}.
Record SDAttachMetadata := {
  SDAttachMetadata_Node : option bool;
}.
Record Filter := {
  Filter_Name : string;
  Filter_Values : list string;
}.
Record K8SSelectorConfig := {
  K8SSelectorConfig_Role : string;
  K8SSelectorConfig_Label : option string;
  K8SSelectorConfig_Field : option string;
}.
Record StaticConfig := {
  StaticConfig_Targets : list string;
  StaticConfig_Labels : gomap;
}.
Record FileSDConfig := {
  FileSDConfig_Files : list string;
  FileSDConfig_RefreshInterval : option string;
}.
Record HTTPSDConfig := {
  HTTPSDConfig_URL : string;
  HTTPSDConfig_RefreshInterval : option string;
  HTTPSDConfig_BasicAuth : option BasicAuth;
  HTTPSDConfig_Authorization : option SafeAuthorization;
  HTTPSDConfig_OAuth2 : option OAuth2;
  HTTPSDConfig_ProxyConfig : ProxyConfig;
  HTTPSDConfig_TLSConfig : option SafeTLSConfig;
  HTTPSDConfig_FollowRedirects : option bool;
  HTTPSDConfig_EnableHTTP2 : option bool;
}.
Record KubernetesSDConfig := {
  KubernetesSDConfig_APIServer : option string;
  KubernetesSDConfig_Role : string;
  KubernetesSDConfig_Namespaces : option NamespaceDiscovery;
  KubernetesSDConfig_AttachMetadata : option SDAttachMetadata;
  KubernetesSDConfig_Selectors : list K8SSelectorConfig;
  KubernetesSDConfig_BasicAuth : option BasicAuth;
  KubernetesSDConfig_Authorization : option SafeAuthorization;
  KubernetesSDConfig_OAuth2 : option OAuth2;
  KubernetesSDConfig_ProxyConfig : ProxyConfig;
  KubernetesSDConfig_FollowRedirects : option bool;
  KubernetesSDConfig_EnableHTTP2 : option bool;
  KubernetesSDConfig_TLSConfig : option SafeTLSConfig;
}.
Record ConsulSDConfig := {
  ConsulSDConfig_Server : string;
  ConsulSDConfig_PathPrefix : option string;
  ConsulSDConfig_TokenRef : option SecretKeySelector;
  ConsulSDConfig_Datacenter : option string;
  ConsulSDConfig_Namespace : option string;
  ConsulSDConfig_Partition : option string;
  ConsulSDConfig_Scheme : option string;
  ConsulSDConfig_Services : list string;
  ConsulSDConfig_Tags : list string;
  ConsulSDConfig_TagSeparator : option string;
  ConsulSDConfig_NodeMeta : gomap;
  ConsulSDConfig_Filter : option string;
  ConsulSDConfig_AllowStale : option bool;
  ConsulSDConfig_RefreshInterval : option string;
  ConsulSDConfig_BasicAuth : option BasicAuth;
  ConsulSDConfig_Authorization : option SafeAuthorization;
  ConsulSDConfig_OAuth2 : option OAuth2;
  ConsulSDConfig_ProxyConfig : ProxyConfig;
  ConsulSDConfig_FollowRedirects : option bool;
  ConsulSDConfig_EnableHttp2 : option bool;
  ConsulSDConfig_TLSConfig : option SafeTLSConfig;
}.
Record DNSSDConfig := {
  DNSSDConfig_Names : list string;
  DNSSDConfig_RefreshInterval : option string;
  DNSSDConfig_Type : option string;
  DNSSDConfig_Port : option Z;
}.
Record EC2SDConfig := {
  EC2SDConfig_Region : option string;
  EC2SDConfig_AccessKey : option SecretKeySelector;
  EC2SDConfig_SecretKey : option SecretKeySelector;
  EC2SDConfig_RoleARN : option string;
  EC2SDConfig_Port : option Z;
  EC2SDConfig_RefreshInterval : option string;
  EC2SDConfig_Filters : list Filter;
  EC2SDConfig_ProxyConfig : ProxyConfig;
  EC2SDConfig_TLSConfig : option SafeTLSConfig;
  EC2SDConfig_FollowRedirects : option bool;
  EC2SDConfig_EnableHTTP2 : option bool;
}.
Record AzureSDConfig := {
  AzureSDConfig_Environment : option string;
  AzureSDConfig_AuthenticationMethod : option string;
  AzureSDConfig_SubscriptionID : string;
  AzureSDConfig_TenantID : option string;
  AzureSDConfig_ClientID : option string;
  AzureSDConfig_ClientSecret : option SecretKeySelector;
  AzureSDConfig_ResourceGroup : option string;
  AzureSDConfig_RefreshInterval : option string;
  AzureSDConfig_Port : option Z;
  AzureSDConfig_BasicAuth : option BasicAuth;
  AzureSDConfig_Authorization : option SafeAuthorization;
  AzureSDConfig_OAuth2 : option OAuth2;
  AzureSDConfig_ProxyConfig : ProxyConfig;
  AzureSDConfig_FollowRedirects : option bool;
  AzureSDConfig_EnableHTTP2 : option bool;
  AzureSDConfig_TLSConfig : option SafeTLSConfig;
}.
Record GCESDConfig := {
  GCESDConfig_Project : string;
  GCESDConfig_Zone : string;
  GCESDConfig_Filter : option string;
  GCESDConfig_RefreshInterval : option string;
  GCESDConfig_Port : option Z;
  GCESDConfig_TagSeparator : option string;
}.
Record OpenStackSDConfig := {
  OpenStackSDConfig_Role : string;
  OpenStackSDConfig_Region : string;
  OpenStackSDConfig_IdentityEndpoint : option string;
  OpenStackSDConfig_Username : option string;
  OpenStackSDConfig_UserID : option string;
  OpenStackSDConfig_Password : option SecretKeySelector;
  OpenStackSDConfig_DomainName : option string;
  OpenStackSDConfig_DomainID : option string;
  OpenStackSDConfig_ProjectName : option string;
  OpenStackSDConfig_ProjectID : option string;
  OpenStackSDConfig_ApplicationCredentialName : option string;
  OpenStackSDConfig_ApplicationCredentialID : option string;
  OpenStackSDConfig_ApplicationCredentialSecret : option SecretKeySelector;
  OpenStackSDConfig_AllTenants : option bool;
  OpenStackSDConfig_RefreshInterval : option string;
  OpenStackSDConfig_Port : option Z;
  OpenStackSDConfig_Availability : option string;
  OpenStackSDConfig_TLSConfig : option SafeTLSConfig;
}.
Record DigitalOceanSDConfig := {
  DigitalOceanSDConfig_Authorization : option SafeAuthorization;
  DigitalOceanSDConfig_OAuth2 : option OAuth2;
  DigitalOceanSDConfig_ProxyConfig : ProxyConfig;
  DigitalOceanSDConfig_FollowRedirects : option bool;
  DigitalOceanSDConfig_EnableHTTP2 : option bool;
  DigitalOceanSDConfig_TLSConfig : option SafeTLSConfig;
  DigitalOceanSDConfig_Port : option Z;
  DigitalOceanSDConfig_RefreshInterval : option string;
}.
Record KumaSDConfig := {
  KumaSDConfig_Server : string;
  KumaSDConfig_ClientID : option string;
  KumaSDConfig_RefreshInterval : option string;
  KumaSDConfig_FetchTimeout : option string;
  KumaSDConfig_ProxyConfig : ProxyConfig;
  KumaSDConfig_TLSConfig : option SafeTLSConfig;
  KumaSDConfig_BasicAuth : option BasicAuth;
  KumaSDConfig_Authorization : option SafeAuthorization;
  KumaSDConfig_OAuth2 : option OAuth2;
  KumaSDConfig_FollowRedirects : option bool;
  KumaSDConfig_EnableHTTP2 : option bool;
}.
Record EurekaSDConfig := {
  EurekaSDConfig_Server : string;
  EurekaSDConfig_BasicAuth : option BasicAuth;
  EurekaSDConfig_Authorization : option SafeAuthorization;
  EurekaSDConfig_OAuth2 : option OAuth2;
  EurekaSDConfig_TLSConfig : option SafeTLSConfig;
  EurekaSDConfig_ProxyConfig : ProxyConfig;
  EurekaSDConfig_FollowRedirects : option bool;
  EurekaSDConfig_EnableHTTP2 : option bool;
  EurekaSDConfig_RefreshInterval : option string;
}.
Record DockerSDConfig := {
  DockerSDConfig_Host : string;
  DockerSDConfig_ProxyConfig : ProxyConfig;
  DockerSDConfig_TLSConfig : option SafeTLSConfig;
  DockerSDConfig_Port : option Z;
  DockerSDConfig_HostNetworkingHost : option string;
  DockerSDConfig_MatchFirstNetwork : option bool;
  DockerSDConfig_Filters : list Filter;
  DockerSDConfig_RefreshInterval : option string;
  DockerSDConfig_BasicAuth : option BasicAuth;
  DockerSDConfig_Authorization : option SafeAuthorization;
  DockerSDConfig_OAuth2 : option OAuth2;
  DockerSDConfig_FollowRedirects : option bool;
  DockerSDConfig_EnableHTTP2 : option bool;
}.
Record HetznerSDConfig := {
  HetznerSDConfig_Role : string;
  HetznerSDConfig_BasicAuth : option BasicAuth;
  HetznerSDConfig_Authorization : option SafeAuthorization;
  HetznerSDConfig_OAuth2 : option OAuth2;
  HetznerSDConfig_ProxyConfig : ProxyConfig;
  HetznerSDConfig_FollowRedirects : option bool;
  HetznerSDConfig_EnableHTTP2 : option bool;
  HetznerSDConfig_TLSConfig : option SafeTLSConfig;
  HetznerSDConfig_Port : option Z;
  HetznerSDConfig_RefreshInterval : option string;
  HetznerSDConfig_LabelSelector : option string;
}.
Record NomadSDConfig := {
  NomadSDConfig_AllowStale : option bool;
  NomadSDConfig_Namespace : option string;
  NomadSDConfig_RefreshInterval : option string;
  NomadSDConfig_Region : option string;
  NomadSDConfig_Server : string;
  NomadSDConfig_TagSeparator : option string;
  NomadSDConfig_BasicAuth : option BasicAuth;
  NomadSDConfig_Authorization : option SafeAuthorization;
  NomadSDConfig_OAuth2 : option OAuth2;
  NomadSDConfig_TLSConfig : option SafeTLSConfig;
  NomadSDConfig_ProxyConfig : ProxyConfig;
  NomadSDConfig_FollowRedirects : option bool;
  NomadSDConfig_EnableHTTP2 : option bool;
}.
Record OVHCloudSDConfig := {
  OVHCloudSDConfig_ApplicationKey : string;
  OVHCloudSDConfig_ApplicationSecret : SecretKeySelector;
  OVHCloudSDConfig_ConsumerKey : SecretKeySelector;
  OVHCloudSDConfig_Service : string;
  OVHCloudSDConfig_Endpoint : option string;
  OVHCloudSDConfig_RefreshInterval : option string;
}.
Record DockerSwarmSDConfig := {
  DockerSwarmSDConfig_Host : string;
  DockerSwarmSDConfig_Role : string;
  DockerSwarmSDConfig_Port : option Z;
  DockerSwarmSDConfig_Filters : list Filter;
  DockerSwarmSDConfig_RefreshInterval : option string;
  DockerSwarmSDConfig_BasicAuth : option BasicAuth;
  DockerSwarmSDConfig_Authorization : option SafeAuthorization;
  DockerSwarmSDConfig_OAuth2 : option OAuth2;
  DockerSwarmSDConfig_ProxyConfig : ProxyConfig;
  DockerSwarmSDConfig_TLSConfig : option SafeTLSConfig;
  DockerSwarmSDConfig_FollowRedirects : option bool;
  DockerSwarmSDConfig_EnableHTTP2 : option bool;
}.
Record LinodeSDConfig := {
  LinodeSDConfig_Region : option string;
  LinodeSDConfig_Port : option Z;
  LinodeSDConfig_TagSeparator : option string;
  LinodeSDConfig_RefreshInterval : option string;
  LinodeSDConfig_Authorization : option SafeAuthorization;
  LinodeSDConfig_OAuth2 : option OAuth2;
  LinodeSDConfig_ProxyConfig : ProxyConfig;
  LinodeSDConfig_FollowRedirects : option bool;
  LinodeSDConfig_TLSConfig : option SafeTLSConfig;
  LinodeSDConfig_EnableHTTP2 : option bool;
}.
Record PuppetDBSDConfig := {
  PuppetDBSDConfig_URL : string;
  PuppetDBSDConfig_Query : string;
  PuppetDBSDConfig_IncludeParameters : option bool;
  PuppetDBSDConfig_RefreshInterval : option string;
  PuppetDBSDConfig_Port : option Z;
  PuppetDBSDConfig_BasicAuth : option BasicAuth;
  PuppetDBSDConfig_Authorization : option SafeAuthorization;
  PuppetDBSDConfig_OAuth2 : option OAuth2;
  PuppetDBSDConfig_ProxyConfig : ProxyConfig;
  PuppetDBSDConfig_TLSConfig : option SafeTLSConfig;
  PuppetDBSDConfig_FollowRedirects : option bool;
  PuppetDBSDConfig_EnableHTTP2 : option bool;
}.
Record LightSailSDConfig := {
  LightSailSDConfig_Region : option string;
  LightSailSDConfig_AccessKey : option SecretKeySelector;
  LightSailSDConfig_SecretKey : option SecretKeySelector;
  LightSailSDConfig_RoleARN : option string;
  LightSailSDConfig_Endpoint : option string;
  LightSailSDConfig_RefreshInterval : option string;
  LightSailSDConfig_Port : option Z;
  LightSailSDConfig_BasicAuth : option BasicAuth;
  LightSailSDConfig_Authorization : option SafeAuthorization;
  LightSailSDConfig_OAuth2 : option OAuth2;
  LightSailSDConfig_ProxyConfig : ProxyConfig;
  LightSailSDConfig_TLSConfig : option SafeTLSConfig;
  LightSailSDConfig_FollowRedirects : option bool;
  LightSailSDConfig_EnableHTTP2 : option bool;
}.
Record ScalewaySDConfig := {
  ScalewaySDConfig_AccessKey : string;
  ScalewaySDConfig_SecretKey : SecretKeySelector;
  ScalewaySDConfig_ProjectID : string;
  ScalewaySDConfig_Role : string;
  ScalewaySDConfig_Port : option Z;
  ScalewaySDConfig_ApiURL : option string;
  ScalewaySDConfig_Zone : option string;
  ScalewaySDConfig_NameFilter : option string;
  ScalewaySDConfig_TagsFilter : list string;
  ScalewaySDConfig_RefreshInterval : option string;
  ScalewaySDConfig_ProxyConfig : ProxyConfig;
  ScalewaySDConfig_FollowRedirects : option bool;
  ScalewaySDConfig_EnableHTTP2 : option bool;
  ScalewaySDConfig_TLSConfig : option SafeTLSConfig;
}.
Record IonosSDConfig := {
  IonosSDConfig_DataCenterID : string;
  IonosSDConfig_Port : option Z;
  IonosSDConfig_RefreshInterval : option string;
  IonosSDConfig_Authorization : SafeAuthorization;
  IonosSDConfig_ProxyConfig : ProxyConfig;
  IonosSDConfig_TLSConfig : option SafeTLSConfig;
  IonosSDConfig_FollowRedirects : option bool;
  IonosSDConfig_EnableHTTP2 : option bool;
  IonosSDConfig_OAuth2 : option OAuth2;
}.
Record ScrapeConfigSpec := {
  scs_JobName : option string;
  scs_StaticConfigs : list StaticConfig;
  scs_FileSDConfigs : list FileSDConfig;
  scs_HTTPSDConfigs : list HTTPSDConfig;
  scs_KubernetesSDConfigs : list KubernetesSDConfig;
  scs_ConsulSDConfigs : list ConsulSDConfig;
  scs_DNSSDConfigs : list DNSSDConfig;
  scs_EC2SDConfigs : list EC2SDConfig;
  scs_AzureSDConfigs : list AzureSDConfig;
  scs_GCESDConfigs : list GCESDConfig;
  scs_OpenStackSDConfigs : list OpenStackSDConfig;
  scs_DigitalOceanSDConfigs : list DigitalOceanSDConfig;
  scs_KumaSDConfigs : list KumaSDConfig;
  scs_EurekaSDConfigs : list EurekaSDConfig;
  scs_DockerSDConfigs : list DockerSDConfig;
  scs_LinodeSDConfigs : list LinodeSDConfig;
  scs_HetznerSDConfigs : list HetznerSDConfig;
  scs_NomadSDConfigs : list NomadSDConfig;
  scs_DockerSwarmSDConfigs : list DockerSwarmSDConfig;
  scs_PuppetDBSDConfigs : list PuppetDBSDConfig;
  scs_LightSailSDConfigs : list LightSailSDConfig;
  scs_OVHCloudSDConfigs : list OVHCloudSDConfig;
  scs_ScalewaySDConfigs : list ScalewaySDConfig;
  scs_IonosSDConfigs : list IonosSDConfig;
  scs_RelabelConfigs : list RelabelConfig;
  scs_MetricsPath : option string;
  scs_ScrapeInterval : option string;
  scs_ScrapeTimeout : option string;
  scs_ScrapeProtocols : list string;
  scs_FallbackScrapeProtocol : option string;
  scs_HonorTimestamps : option bool;
  scs_TrackTimestampsStaleness : option bool;
  scs_HonorLabels : option bool;
  scs_Params : option (gmap string (list string));
  scs_Scheme : option string;
  scs_EnableCompression : option bool;
  scs_EnableHTTP2 : option bool;
  scs_BasicAuth : option BasicAuth;
  scs_Authorization : option SafeAuthorization;
  scs_OAuth2 : option OAuth2;
  scs_TLSConfig : option SafeTLSConfig;
  scs_SampleLimit : option Z;
  scs_TargetLimit : option Z;
  scs_LabelLimit : option Z;
  scs_LabelNameLengthLimit : option Z;
  scs_LabelValueLengthLimit : option Z;
  scs_NativeHistogramConfig : NativeHistogramConfig;
  scs_KeepDroppedTargets : option Z;
  scs_MetricRelabelConfigs : list RelabelConfig;
  scs_ProxyConfig : ProxyConfig;
  scs_NameValidationScheme : option string;
  scs_NameEscapingScheme : option string;
  scs_ScrapeClassName : option string;
}.
Record ScrapeConfig := {
  scrapeconfig_TypeMeta : GroupKind;
  scrapeconfig_ObjectMeta : ObjectMeta;
  scrapeconfig_Spec : ScrapeConfigSpec;
}.
