(* ===== verification/ServiceDiscovery.v ===== *)
(** * Service discovery of ScrapeConfigs

    The blocks of [generateScrapeConfig] (pkg/prometheus/promcfg.go) that render the service
    discovery configurations of a ScrapeConfig, one definition [T_items] for the body of the loop
    over the configurations of type [T], with the table [T_fields] of the fields it may write.
    Some blocks fail when a secret cannot be read; [T_secrets] lists those secrets. Other secrets
    are optional: an error is ignored and the value is empty or left out. *)

From S2P Require Import Prelude GoStrings SortUtil Meta Semver NamespaceLabeler MonitoringV1.
From S2P Require Import PromTypes PromCommon AssetStore Yaml ConfigGenerator Relabel Monitors GlobalConfig ScrapeTypes.

Section blocks.
Context `{Semver} `{PromLibs}.

(** ** Shared parts *)

(** A secret that must be readable. *)
Definition secret_item (s : StoreGetter) (fmt jobName k : string) (x : SecretKeySelector) : emitter :=
  from_res (wrap fmt [SecretKeySelector_Name x; jobName] (sg_GetSecretKey s x)) (fun value => item k (YStr value)).
(** The AWS keys, when both are given. *)
Definition key_pair (s : StoreGetter) (jobName : string) (access secret : option SecretKeySelector) : emitter :=
  match access, secret with
  | Some a, Some b => run [secret_item s "failed to get %s access key %s: %w" jobName "access_key" a;
                           secret_item s "failed to get %s access key %s: %w" jobName "secret_key" b]
  | _, _ => skip
  end.
Definition filter_map (f : Filter) : MapSlice := [("name", YStr (Filter_Name f)); ("values", YStrs (Filter_Values f))].
Definition addFiltersToYaml (cg : ConfigGenerator) (filters : list Filter) : emitter :=
  when (bool_decide (filters ≠ []))
    (AppendMapItem cg "filters" (YMaps (filter_map <$> SortStableFunc Filter_Name filters))).
Definition role_cg (cg : ConfigGenerator) (role : string) : ConfigGenerator :=
  if bool_decide (role = KubernetesRoleEndpointSlice) then WithMinimumVersion cg "2.21.0" else cg.
Definition namespaces_items (n : NamespaceDiscovery) : emitter := run [
  item "names" (YStrs (NamespaceDiscovery_Names n));
  if_set (NamespaceDiscovery_IncludeOwnNamespace n) (fun b => item "own_namespace" (YBool b))].
Definition selector_items (cg : ConfigGenerator) (x : K8SSelectorConfig) : emitter := run [
  AppendMapItem cg "role" (YStr (ToLower (K8SSelectorConfig_Role x)));
  if_set (K8SSelectorConfig_Label x) (fun l => AppendMapItem cg "label" (YStr l));
  if_set (K8SSelectorConfig_Field x) (fun f => AppendMapItem cg "field" (YStr f))].
(** yaml.v2 renders a struct with all its fields, a nil pointer as null. *)
Definition attach_yaml (a : SDAttachMetadata) : yaml :=
  YMap [("node", match SDAttachMetadata_Node a with Some b => YBool b | None => YNull end)].
Definition sd_attach_metadata (cg : ConfigGenerator) (role : string) (a : SDAttachMetadata) : emitter :=
  if bool_decide (role = "pod") then AppendMapItem (WithMinimumVersion cg "2.35.0") "attach_metadata" (attach_yaml a)
  else when (bool_decide (role ∈ ["endpoints"; "endpointslice"]))
    (AppendMapItem (WithMinimumVersion cg "2.37.0") "attach_metadata" (attach_yaml a)).
Definition dns_cg (cg : ConfigGenerator) (type : string) : ConfigGenerator :=
  if bool_decide (type = DNSRecordTypeNS) then WithMinimumVersion cg "2.49.0"
  else if bool_decide (type = DNSRecordTypeMX) then WithMinimumVersion cg "2.38.0"
  else cg.
Definition dns_type (cg : ConfigGenerator) (type : string) : emitter := AppendMapItem (dns_cg cg type) "type" (YStr type).
Definition role_item (cg : ConfigGenerator) (role : string) : emitter :=
  AppendMapItem (role_cg cg role) "role" (YStr (ToLower role)).
Definition ovh_service (service : string) : option string :=
  if bool_decide (service = OVHServiceVPS) then Some "vps"
  else if bool_decide (service = OVHServiceDedicatedServer) then Some "dedicated_server"
  else None.
(** A list of configurations, unless it is empty. *)
Definition sd_configs {A} (key : string) (items : A → emitter) (l : list A) : emitter :=
  when (bool_decide (l ≠ [])) (from_res (res_map (fun c => items c []) l) (fun configs => item key (YMaps configs))).

(** ** One definition per kind of service discovery *)

Definition StaticConfig_items (c : StaticConfig) : emitter := run [
  item "targets" (YStrs (StaticConfig_Targets c));
  item "labels" (headers_yaml (StaticConfig_Labels c))].
Definition FileSDConfig_items (c : FileSDConfig) : emitter := run [
  item "files" (YStrs (FileSDConfig_Files c));
  if_set (FileSDConfig_RefreshInterval c) (fun x => item "refresh_interval" (YStr x))].
Definition HTTPSDConfig_items (cg : ConfigGenerator) (s : StoreGetter) (c : HTTPSDConfig) : emitter := run [
  addBasicAuthToYaml cg s (HTTPSDConfig_BasicAuth c);
  addSafeAuthorizationToYaml cg s (HTTPSDConfig_Authorization c);
  addSafeTLStoYaml cg s (HTTPSDConfig_TLSConfig c);
  addProxyConfigtoYaml cg s (HTTPSDConfig_ProxyConfig c);
  addOAuth2ToYaml cg s (HTTPSDConfig_OAuth2 c);
  item "url" (YStr (HTTPSDConfig_URL c));
  if_set (HTTPSDConfig_RefreshInterval c) (fun x => item "refresh_interval" (YStr x));
  if_set (HTTPSDConfig_FollowRedirects c) (fun x => item "follow_redirects" (YBool x));
  if_set (HTTPSDConfig_EnableHTTP2 c) (fun x => item "enable_http2" (YBool x))].
Definition KubernetesSDConfig_items (cg : ConfigGenerator) (s : StoreGetter) (c : KubernetesSDConfig) : emitter :=
  run [
  if_set (KubernetesSDConfig_APIServer c) (fun x => item "api_server" (YStr x));
  role_item cg (KubernetesSDConfig_Role c);
  addBasicAuthToYaml cg s (KubernetesSDConfig_BasicAuth c);
  addSafeAuthorizationToYaml cg s (KubernetesSDConfig_Authorization c);
  addOAuth2ToYaml cg s (KubernetesSDConfig_OAuth2 c);
  addProxyConfigtoYaml cg s (KubernetesSDConfig_ProxyConfig c);
  if_set (KubernetesSDConfig_FollowRedirects c) (fun x => item "follow_redirects" (YBool x));
  if_set (KubernetesSDConfig_EnableHTTP2 c) (fun x => item "enable_http2" (YBool x));
  addSafeTLStoYaml cg s (KubernetesSDConfig_TLSConfig c);
  if_set (KubernetesSDConfig_Namespaces c) (fun n => from_res (namespaces_items n []) (fun m => item "namespaces" (YMap m)));
  when (bool_decide (KubernetesSDConfig_Selectors c ≠ []))
    (from_res (res_map (fun x => selector_items cg x []) (KubernetesSDConfig_Selectors c)) (fun l =>
      AppendMapItem (WithMinimumVersion cg "2.17.0") "selectors" (YMaps l)));
  if_set (KubernetesSDConfig_AttachMetadata c) (fun a => sd_attach_metadata cg (ToLower (KubernetesSDConfig_Role c)) a)].
Definition ConsulSDConfig_items (cg : ConfigGenerator) (s : StoreGetter) (jobName : string) (c : ConsulSDConfig) : emitter :=
  run [
  addBasicAuthToYaml cg s (ConsulSDConfig_BasicAuth c);
  addSafeAuthorizationToYaml cg s (ConsulSDConfig_Authorization c);
  addOAuth2ToYaml cg s (ConsulSDConfig_OAuth2 c);
  addProxyConfigtoYaml cg s (ConsulSDConfig_ProxyConfig c);
  addSafeTLStoYaml cg s (ConsulSDConfig_TLSConfig c);
  item "server" (YStr (ConsulSDConfig_Server c));
  if_set (ConsulSDConfig_PathPrefix c) (fun x => item "path_prefix" (YStr x));
  if_set (ConsulSDConfig_TokenRef c) (secret_item s "failed to read %s secret %s: %w" jobName "token");
  if_set (ConsulSDConfig_Datacenter c) (fun x => item "datacenter" (YStr x));
  if_set (ConsulSDConfig_Namespace c) (fun x => item "namespace" (YStr x));
  if_set (ConsulSDConfig_Partition c) (fun x => item "partition" (YStr x));
  if_set (ConsulSDConfig_Scheme c) (fun x => item "scheme" (YStr (ToLower x)));
  when (bool_decide (ConsulSDConfig_Services c ≠ [])) (item "services" (YStrs (ConsulSDConfig_Services c)));
  when (bool_decide (ConsulSDConfig_Tags c ≠ [])) (item "tags" (YStrs (ConsulSDConfig_Tags c)));
  if_set (ConsulSDConfig_TagSeparator c) (fun x => item "tag_separator" (YStr x));
  when (has_entries (ConsulSDConfig_NodeMeta c)) (item "node_meta" (headers_yaml (ConsulSDConfig_NodeMeta c)));
  if_set (ConsulSDConfig_Filter c) (fun x => item "filter" (YStr x));
  if_set (ConsulSDConfig_AllowStale c) (fun x => item "allow_stale" (YBool x));
  if_set (ConsulSDConfig_RefreshInterval c) (fun x => item "refresh_interval" (YStr x));
  if_set (ConsulSDConfig_FollowRedirects c) (fun x => item "follow_redirects" (YBool x));
  if_set (ConsulSDConfig_EnableHttp2 c) (fun x => item "enable_http2" (YBool x))].
Definition DNSSDConfig_items (cg : ConfigGenerator) (c : DNSSDConfig) : emitter := run [
  item "names" (YStrs (DNSSDConfig_Names c));
  if_set (DNSSDConfig_RefreshInterval c) (fun x => item "refresh_interval" (YStr x));
  if_set (DNSSDConfig_Type c) (dns_type cg);
  if_set (DNSSDConfig_Port c) (fun x => item "port" (YInt x))].
Definition EC2SDConfig_items (cg : ConfigGenerator) (s : StoreGetter) (jobName : string) (c : EC2SDConfig) : emitter :=
  run [
  addProxyConfigtoYaml cg s (EC2SDConfig_ProxyConfig c);
  if_set (EC2SDConfig_Region c) (fun x => item "region" (YStr x));
  key_pair s jobName (EC2SDConfig_AccessKey c) (EC2SDConfig_SecretKey c);
  if_set (EC2SDConfig_RoleARN c) (fun x => item "role_arn" (YStr x));
  if_set (EC2SDConfig_RefreshInterval c) (fun x => item "refresh_interval" (YStr x));
  if_set (EC2SDConfig_Port c) (fun x => item "port" (YInt x));
  addFiltersToYaml (WithMinimumVersion cg "2.3.0") (EC2SDConfig_Filters c);
  if_set (EC2SDConfig_FollowRedirects c) (fun x => AppendMapItem (WithMinimumVersion cg "2.41.0") "follow_redirects" (YBool x));
  if_set (EC2SDConfig_EnableHTTP2 c) (fun x => AppendMapItem (WithMinimumVersion cg "2.41.0") "enable_http2" (YBool x));
  addSafeTLStoYaml (WithMinimumVersion cg "2.41.0") s (EC2SDConfig_TLSConfig c)].
Definition AzureSDConfig_items (s : StoreGetter) (jobName : string) (c : AzureSDConfig) : emitter := run [
  if_set (AzureSDConfig_Environment c) (fun x => item "environment" (YStr x));
  if_set (AzureSDConfig_AuthenticationMethod c) (fun x => item "authentication_method" (YStr x));
  when (bool_decide (AzureSDConfig_SubscriptionID c ≠ "")) (item "subscription_id" (YStr (AzureSDConfig_SubscriptionID c)));
  if_set (AzureSDConfig_TenantID c) (fun x => item "tenant_id" (YStr x));
  if_set (AzureSDConfig_ClientID c) (fun x => item "client_id" (YStr x));
  if_set (AzureSDConfig_ClientSecret c) (secret_item s "failed to get %s client secret %s: %w" jobName "client_secret");
  if_set (AzureSDConfig_ResourceGroup c) (fun x => item "resource_group" (YStr x));
  if_set (AzureSDConfig_RefreshInterval c) (fun x => item "refresh_interval" (YStr x));
  if_set (AzureSDConfig_Port c) (fun x => item "port" (YInt x))].
Definition GCESDConfig_items (c : GCESDConfig) : emitter := run [
  item "project" (YStr (GCESDConfig_Project c));
  item "zone" (YStr (GCESDConfig_Zone c));
  if_set (GCESDConfig_Filter c) (fun x => item "filter" (YStr x));
  if_set (GCESDConfig_RefreshInterval c) (fun x => item "refresh_interval" (YStr x));
  if_set (GCESDConfig_Port c) (fun x => item "port" (YInt x));
  if_set (GCESDConfig_TagSeparator c) (fun x => item "tag_separator" (YStr x))].
Definition OpenStackSDConfig_items (cg : ConfigGenerator) (s : StoreGetter) (jobName : string) (c : OpenStackSDConfig) : emitter :=
  run [
  item "role" (YStr (ToLower (OpenStackSDConfig_Role c)));
  item "region" (YStr (OpenStackSDConfig_Region c));
  if_set (OpenStackSDConfig_IdentityEndpoint c) (fun x => item "identity_endpoint" (YStr x));
  if_set (OpenStackSDConfig_Username c) (fun x => item "username" (YStr x));
  if_set (OpenStackSDConfig_UserID c) (fun x => item "userid" (YStr x));
  if_set (OpenStackSDConfig_Password c) (secret_item s "failed to read %s secret %s: %w" jobName "password");
  if_set (OpenStackSDConfig_DomainName c) (fun x => item "domain_name" (YStr x));
  if_set (OpenStackSDConfig_DomainID c) (fun x => item "domain_id" (YStr x));
  if_set (OpenStackSDConfig_ProjectName c) (fun x => item "project_name" (YStr x));
  if_set (OpenStackSDConfig_ProjectID c) (fun x => item "project_id" (YStr x));
  if_set (OpenStackSDConfig_ApplicationCredentialName c) (fun x => item "application_credential_name" (YStr x));
  if_set (OpenStackSDConfig_ApplicationCredentialID c) (fun x => item "application_credential_id" (YStr x));
  if_set (OpenStackSDConfig_ApplicationCredentialSecret c) (secret_item s "failed to read %s secret %s: %w" jobName "application_credential_secret");
  if_set (OpenStackSDConfig_AllTenants c) (fun x => item "all_tenants" (YBool x));
  if_set (OpenStackSDConfig_RefreshInterval c) (fun x => item "refresh_interval" (YStr x));
  if_set (OpenStackSDConfig_Port c) (fun x => item "port" (YInt x));
  if_set (OpenStackSDConfig_Availability c) (fun x => item "availability" (YStr x));
  addSafeTLStoYaml cg s (OpenStackSDConfig_TLSConfig c)].
Definition DigitalOceanSDConfig_items (cg : ConfigGenerator) (s : StoreGetter) (c : DigitalOceanSDConfig) : emitter :=
  run [
  addSafeAuthorizationToYaml cg s (DigitalOceanSDConfig_Authorization c);
  addOAuth2ToYaml cg s (DigitalOceanSDConfig_OAuth2 c);
  addProxyConfigtoYaml cg s (DigitalOceanSDConfig_ProxyConfig c);
  if_set (DigitalOceanSDConfig_FollowRedirects c) (fun x => item "follow_redirects" (YBool x));
  if_set (DigitalOceanSDConfig_EnableHTTP2 c) (fun x => item "enable_http2" (YBool x));
  addSafeTLStoYaml cg s (DigitalOceanSDConfig_TLSConfig c);
  if_set (DigitalOceanSDConfig_Port c) (fun x => item "port" (YInt x));
  if_set (DigitalOceanSDConfig_RefreshInterval c) (fun x => item "refresh_interval" (YStr x))].
Definition KumaSDConfig_items (cg : ConfigGenerator) (s : StoreGetter) (c : KumaSDConfig) : emitter := run [
  addBasicAuthToYaml cg s (KumaSDConfig_BasicAuth c);
  addSafeAuthorizationToYaml cg s (KumaSDConfig_Authorization c);
  addOAuth2ToYaml cg s (KumaSDConfig_OAuth2 c);
  addProxyConfigtoYaml cg s (KumaSDConfig_ProxyConfig c);
  item "server" (YStr (KumaSDConfig_Server c));
  if_set (KumaSDConfig_FollowRedirects c) (fun x => item "follow_redirects" (YBool x));
  if_set (KumaSDConfig_EnableHTTP2 c) (fun x => item "enable_http2" (YBool x));
  addSafeTLStoYaml cg s (KumaSDConfig_TLSConfig c);
  if_set (KumaSDConfig_RefreshInterval c) (fun x => item "refresh_interval" (YStr x));
  if_set (KumaSDConfig_FetchTimeout c) (fun x => item "fetch_timeout" (YStr x));
  if_set (KumaSDConfig_ClientID c) (fun x => item "client_id" (YStr x))].
Definition EurekaSDConfig_items (cg : ConfigGenerator) (s : StoreGetter) (c : EurekaSDConfig) : emitter := run [
  addBasicAuthToYaml cg s (EurekaSDConfig_BasicAuth c);
  addSafeAuthorizationToYaml cg s (EurekaSDConfig_Authorization c);
  addOAuth2ToYaml cg s (EurekaSDConfig_OAuth2 c);
  addProxyConfigtoYaml cg s (EurekaSDConfig_ProxyConfig c);
  if_set (EurekaSDConfig_FollowRedirects c) (fun x => item "follow_redirects" (YBool x));
  if_set (EurekaSDConfig_EnableHTTP2 c) (fun x => item "enable_http2" (YBool x));
  addSafeTLStoYaml cg s (EurekaSDConfig_TLSConfig c);
  if_set (EurekaSDConfig_RefreshInterval c) (fun x => item "refresh_interval" (YStr x));
  when (bool_decide (EurekaSDConfig_Server c ≠ "")) (item "server" (YStr (EurekaSDConfig_Server c)))].
Definition DockerSDConfig_items (cg : ConfigGenerator) (s : StoreGetter) (c : DockerSDConfig) : emitter := run [
  addSafeAuthorizationToYaml cg s (DockerSDConfig_Authorization c);
  addOAuth2ToYaml cg s (DockerSDConfig_OAuth2 c);
  addProxyConfigtoYaml cg s (DockerSDConfig_ProxyConfig c);
  addBasicAuthToYaml cg s (DockerSDConfig_BasicAuth c);
  addFiltersToYaml cg (DockerSDConfig_Filters c);
  item "host" (YStr (DockerSDConfig_Host c));
  addSafeTLStoYaml cg s (DockerSDConfig_TLSConfig c);
  if_set (DockerSDConfig_Port c) (fun x => item "port" (YInt x));
  if_set (DockerSDConfig_HostNetworkingHost c) (fun x => item "host_networking_host" (YStr x));
  if_set (DockerSDConfig_MatchFirstNetwork c) (fun x => AppendMapItem (WithMinimumVersion cg "2.54.1") "match_first_network" (YBool x));
  if_set (DockerSDConfig_RefreshInterval c) (fun x => item "refresh_interval" (YStr x));
  if_set (DockerSDConfig_FollowRedirects c) (fun x => item "follow_redirects" (YBool x));
  if_set (DockerSDConfig_EnableHTTP2 c) (fun x => item "enable_http2" (YBool x))].
Definition LinodeSDConfig_items (cg : ConfigGenerator) (s : StoreGetter) (c : LinodeSDConfig) : emitter := run [
  addSafeAuthorizationToYaml cg s (LinodeSDConfig_Authorization c);
  addOAuth2ToYaml cg s (LinodeSDConfig_OAuth2 c);
  addProxyConfigtoYaml cg s (LinodeSDConfig_ProxyConfig c);
  addSafeTLStoYaml cg s (LinodeSDConfig_TLSConfig c);
  if_set (LinodeSDConfig_Port c) (fun x => item "port" (YInt x));
  if_set (LinodeSDConfig_Region c) (fun x => item "region" (YStr x));
  if_set (LinodeSDConfig_EnableHTTP2 c) (fun x => item "enable_http2" (YBool x));
  if_set (LinodeSDConfig_TagSeparator c) (fun x => item "tag_separator" (YStr x));
  if_set (LinodeSDConfig_RefreshInterval c) (fun x => item "refresh_interval" (YStr x));
  if_set (LinodeSDConfig_FollowRedirects c) (fun x => item "follow_redirects" (YBool x))].
Definition HetznerSDConfig_items (cg : ConfigGenerator) (s : StoreGetter) (c : HetznerSDConfig) : emitter := run [
  addBasicAuthToYaml cg s (HetznerSDConfig_BasicAuth c);
  addSafeAuthorizationToYaml cg s (HetznerSDConfig_Authorization c);
  addOAuth2ToYaml cg s (HetznerSDConfig_OAuth2 c);
  addProxyConfigtoYaml cg s (HetznerSDConfig_ProxyConfig c);
  item "role" (YStr (ToLower (HetznerSDConfig_Role c)));
  if_set (HetznerSDConfig_FollowRedirects c) (fun x => item "follow_redirects" (YBool x));
  if_set (HetznerSDConfig_EnableHTTP2 c) (fun x => item "enable_http2" (YBool x));
  addSafeTLStoYaml cg s (HetznerSDConfig_TLSConfig c);
  if_set (HetznerSDConfig_Port c) (fun x => item "port" (YInt x));
  if_set (HetznerSDConfig_RefreshInterval c) (fun x => item "refresh_interval" (YStr x));
  if_set (HetznerSDConfig_LabelSelector c) (fun x => when (bool_decide (x ≠ ""))
      (AppendMapItem (WithMinimumVersion cg "3.5.0") "label_selector" (YStr x)))].
Definition NomadSDConfig_items (cg : ConfigGenerator) (s : StoreGetter) (c : NomadSDConfig) : emitter := run [
  addBasicAuthToYaml cg s (NomadSDConfig_BasicAuth c);
  addSafeAuthorizationToYaml cg s (NomadSDConfig_Authorization c);
  addOAuth2ToYaml cg s (NomadSDConfig_OAuth2 c);
  addProxyConfigtoYaml cg s (NomadSDConfig_ProxyConfig c);
  item "server" (YStr (NomadSDConfig_Server c));
  if_set (NomadSDConfig_AllowStale c) (fun x => item "allow_stale" (YBool x));
  if_set (NomadSDConfig_Namespace c) (fun x => item "namespace" (YStr x));
  if_set (NomadSDConfig_RefreshInterval c) (fun x => item "refresh_interval" (YStr x));
  if_set (NomadSDConfig_Region c) (fun x => item "region" (YStr x));
  if_set (NomadSDConfig_TagSeparator c) (fun x => item "tag_separator" (YStr x));
  if_set (NomadSDConfig_FollowRedirects c) (fun x => item "follow_redirects" (YBool x));
  if_set (NomadSDConfig_EnableHTTP2 c) (fun x => item "enable_http2" (YBool x));
  addSafeTLStoYaml cg s (NomadSDConfig_TLSConfig c)].
Definition DockerSwarmSDConfig_items (cg : ConfigGenerator) (s : StoreGetter) (c : DockerSwarmSDConfig) : emitter :=
  run [
  addBasicAuthToYaml cg s (DockerSwarmSDConfig_BasicAuth c);
  addSafeAuthorizationToYaml cg s (DockerSwarmSDConfig_Authorization c);
  addOAuth2ToYaml cg s (DockerSwarmSDConfig_OAuth2 c);
  addProxyConfigtoYaml cg s (DockerSwarmSDConfig_ProxyConfig c);
  addFiltersToYaml cg (DockerSwarmSDConfig_Filters c);
  item "host" (YStr (DockerSwarmSDConfig_Host c));
  addSafeTLStoYaml cg s (DockerSwarmSDConfig_TLSConfig c);
  item "role" (YStr (ToLower (DockerSwarmSDConfig_Role c)));
  if_set (DockerSwarmSDConfig_Port c) (fun x => item "port" (YInt x));
  if_set (DockerSwarmSDConfig_RefreshInterval c) (fun x => item "refresh_interval" (YStr x));
  if_set (DockerSwarmSDConfig_FollowRedirects c) (fun x => item "follow_redirects" (YBool x));
  if_set (DockerSwarmSDConfig_EnableHTTP2 c) (fun x => item "enable_http2" (YBool x))].
Definition PuppetDBSDConfig_items (cg : ConfigGenerator) (s : StoreGetter) (c : PuppetDBSDConfig) : emitter := run [
  addBasicAuthToYaml cg s (PuppetDBSDConfig_BasicAuth c);
  addSafeAuthorizationToYaml cg s (PuppetDBSDConfig_Authorization c);
  addOAuth2ToYaml cg s (PuppetDBSDConfig_OAuth2 c);
  addProxyConfigtoYaml cg s (PuppetDBSDConfig_ProxyConfig c);
  item "url" (YStr (PuppetDBSDConfig_URL c));
  item "query" (YStr (PuppetDBSDConfig_Query c));
  if_set (PuppetDBSDConfig_IncludeParameters c) (fun x => item "include_parameters" (YBool x));
  if_set (PuppetDBSDConfig_Port c) (fun x => item "port" (YInt x));
  if_set (PuppetDBSDConfig_RefreshInterval c) (fun x => item "refresh_interval" (YStr x));
  if_set (PuppetDBSDConfig_FollowRedirects c) (fun x => item "follow_redirects" (YBool x));
  addSafeTLStoYaml cg s (PuppetDBSDConfig_TLSConfig c);
  if_set (PuppetDBSDConfig_EnableHTTP2 c) (fun x => item "enable_http2" (YBool x))].
Definition LightSailSDConfig_items (cg : ConfigGenerator) (s : StoreGetter) (jobName : string) (c : LightSailSDConfig) : emitter :=
  run [
  addBasicAuthToYaml cg s (LightSailSDConfig_BasicAuth c);
  addSafeAuthorizationToYaml cg s (LightSailSDConfig_Authorization c);
  addProxyConfigtoYaml cg s (LightSailSDConfig_ProxyConfig c);
  addOAuth2ToYaml cg s (LightSailSDConfig_OAuth2 c);
  if_set (LightSailSDConfig_Region c) (fun x => item "region" (YStr x));
  if_set (LightSailSDConfig_Endpoint c) (fun x => item "endpoint" (YStr x));
  if_set (LightSailSDConfig_Port c) (fun x => item "port" (YInt x));
  if_set (LightSailSDConfig_RefreshInterval c) (fun x => item "refresh_interval" (YStr x));
  key_pair s jobName (LightSailSDConfig_AccessKey c) (LightSailSDConfig_SecretKey c);
  if_set (LightSailSDConfig_RoleARN c) (fun x => item "role_arn" (YStr x));
  addSafeTLStoYaml cg s (LightSailSDConfig_TLSConfig c);
  if_set (LightSailSDConfig_FollowRedirects c) (fun x => item "follow_redirects" (YBool x));
  if_set (LightSailSDConfig_EnableHTTP2 c) (fun x => item "enable_http2" (YBool x))].
Definition OVHCloudSDConfig_items (s : StoreGetter) (c : OVHCloudSDConfig) : emitter := run [
  item "application_key" (YStr (OVHCloudSDConfig_ApplicationKey c));
  from_res (or_zero (sg_GetSecretKey s (OVHCloudSDConfig_ApplicationSecret c))) (fun value => item "application_secret" (YStr value));
  from_res (or_zero (sg_GetSecretKey s (OVHCloudSDConfig_ConsumerKey c))) (fun value => item "consumer_key" (YStr value));
  if_set (ovh_service (OVHCloudSDConfig_Service c)) (fun x => item "service" (YStr x));
  if_set (OVHCloudSDConfig_Endpoint c) (fun x => item "endpoint" (YStr x));
  if_set (OVHCloudSDConfig_RefreshInterval c) (fun x => item "refresh_interval" (YStr x))].
Definition ScalewaySDConfig_items (cg : ConfigGenerator) (s : StoreGetter) (c : ScalewaySDConfig) : emitter := run [
  item "access_key" (YStr (ScalewaySDConfig_AccessKey c));
  from_res (or_zero (sg_GetSecretKey s (ScalewaySDConfig_SecretKey c))) (fun value => item "secret_key" (YStr value));
  item "project_id" (YStr (ScalewaySDConfig_ProjectID c));
  item "role" (YStr (ToLower (ScalewaySDConfig_Role c)));
  if_set (ScalewaySDConfig_Port c) (fun x => item "port" (YInt x));
  if_set (ScalewaySDConfig_ApiURL c) (fun x => item "api_url" (YStr x));
  if_set (ScalewaySDConfig_Zone c) (fun x => item "zone" (YStr x));
  if_set (ScalewaySDConfig_NameFilter c) (fun x => item "name_filter" (YStr x));
  when (bool_decide (ScalewaySDConfig_TagsFilter c ≠ [])) (item "tags_filter" (YStrs (ScalewaySDConfig_TagsFilter c)));
  if_set (ScalewaySDConfig_RefreshInterval c) (fun x => item "refresh_interval" (YStr x));
  addProxyConfigtoYaml cg s (ScalewaySDConfig_ProxyConfig c);
  addSafeTLStoYaml cg s (ScalewaySDConfig_TLSConfig c);
  if_set (ScalewaySDConfig_FollowRedirects c) (fun x => item "follow_redirects" (YBool x));
  if_set (ScalewaySDConfig_EnableHTTP2 c) (fun x => item "enable_http2" (YBool x))].
Definition IonosSDConfig_items (cg : ConfigGenerator) (s : StoreGetter) (c : IonosSDConfig) : emitter := run [
  addSafeAuthorizationToYaml cg s (Some (IonosSDConfig_Authorization c));
  addProxyConfigtoYaml cg s (IonosSDConfig_ProxyConfig c);
  addSafeTLStoYaml cg s (IonosSDConfig_TLSConfig c);
  item "datacenter_id" (YStr (IonosSDConfig_DataCenterID c));
  if_set (IonosSDConfig_FollowRedirects c) (fun x => item "follow_redirects" (YBool x));
  if_set (IonosSDConfig_EnableHTTP2 c) (fun x => item "enable_http2" (YBool x));
  if_set (IonosSDConfig_Port c) (fun x => item "port" (YInt x));
  if_set (IonosSDConfig_RefreshInterval c) (fun x => item "refresh_interval" (YStr x))].

Definition appendServiceDiscoveryConfigs (cg : ConfigGenerator) (s : StoreGetter) (jobName : string) (spec : ScrapeConfigSpec)
    : emitter := run [
  sd_configs "static_configs" (StaticConfig_items) (scs_StaticConfigs spec);
  sd_configs "file_sd_configs" (FileSDConfig_items) (scs_FileSDConfigs spec);
  sd_configs "http_sd_configs" (HTTPSDConfig_items cg s) (scs_HTTPSDConfigs spec);
  sd_configs "kubernetes_sd_configs" (KubernetesSDConfig_items cg s) (scs_KubernetesSDConfigs spec);
  sd_configs "consul_sd_configs" (ConsulSDConfig_items cg s jobName) (scs_ConsulSDConfigs spec);
  sd_configs "dns_sd_configs" (DNSSDConfig_items cg) (scs_DNSSDConfigs spec);
  sd_configs "ec2_sd_configs" (EC2SDConfig_items cg s jobName) (scs_EC2SDConfigs spec);
  sd_configs "azure_sd_configs" (AzureSDConfig_items s jobName) (scs_AzureSDConfigs spec);
  sd_configs "gce_sd_configs" (GCESDConfig_items) (scs_GCESDConfigs spec);
  sd_configs "openstack_sd_configs" (OpenStackSDConfig_items cg s jobName) (scs_OpenStackSDConfigs spec);
  sd_configs "digitalocean_sd_configs" (DigitalOceanSDConfig_items cg s) (scs_DigitalOceanSDConfigs spec);
  sd_configs "kuma_sd_configs" (KumaSDConfig_items cg s) (scs_KumaSDConfigs spec);
  sd_configs "eureka_sd_configs" (EurekaSDConfig_items cg s) (scs_EurekaSDConfigs spec);
  sd_configs "docker_sd_configs" (DockerSDConfig_items cg s) (scs_DockerSDConfigs spec);
  sd_configs "linode_sd_configs" (LinodeSDConfig_items cg s) (scs_LinodeSDConfigs spec);
  sd_configs "hetzner_sd_configs" (HetznerSDConfig_items cg s) (scs_HetznerSDConfigs spec);
  sd_configs "nomad_sd_configs" (NomadSDConfig_items cg s) (scs_NomadSDConfigs spec);
  sd_configs "dockerswarm_sd_configs" (DockerSwarmSDConfig_items cg s) (scs_DockerSwarmSDConfigs spec);
  sd_configs "puppetdb_sd_configs" (PuppetDBSDConfig_items cg s) (scs_PuppetDBSDConfigs spec);
  sd_configs "lightsail_sd_configs" (LightSailSDConfig_items cg s jobName) (scs_LightSailSDConfigs spec);
  sd_configs "ovhcloud_sd_configs" (OVHCloudSDConfig_items s) (scs_OVHCloudSDConfigs spec);
  sd_configs "scaleway_sd_configs" (ScalewaySDConfig_items cg s) (scs_ScalewaySDConfigs spec);
  sd_configs "ionos_sd_configs" (IonosSDConfig_items cg s) (scs_IonosSDConfigs spec)].

(** The secrets whose errors the generator returns. The others (the secrets of OVHCloud and Scaleway
    and those of basic authentication and authorization) are read without looking at the error. *)
Definition both (a b : option SecretKeySelector) : list (option SecretKeySelector) :=
  match a, b with Some _, Some _ => [a; b] | _, _ => [] end.
Definition ConsulSDConfig_secrets (c : ConsulSDConfig) : list (option SecretKeySelector) := [ConsulSDConfig_TokenRef c].
Definition EC2SDConfig_secrets (c : EC2SDConfig) : list (option SecretKeySelector) := both (EC2SDConfig_AccessKey c) (EC2SDConfig_SecretKey c).
Definition AzureSDConfig_secrets (c : AzureSDConfig) : list (option SecretKeySelector) := [AzureSDConfig_ClientSecret c].
Definition OpenStackSDConfig_secrets (c : OpenStackSDConfig) : list (option SecretKeySelector) := [OpenStackSDConfig_Password c; OpenStackSDConfig_ApplicationCredentialSecret c].
Definition LightSailSDConfig_secrets (c : LightSailSDConfig) : list (option SecretKeySelector) := both (LightSailSDConfig_AccessKey c) (LightSailSDConfig_SecretKey c).
Definition checked_secrets (spec : ScrapeConfigSpec) : list (option SecretKeySelector) :=
  (scs_ConsulSDConfigs spec ≫= ConsulSDConfig_secrets) ++
  (scs_EC2SDConfigs spec ≫= EC2SDConfig_secrets) ++
  (scs_AzureSDConfigs spec ≫= AzureSDConfig_secrets) ++
  (scs_OpenStackSDConfigs spec ≫= OpenStackSDConfig_secrets) ++
  (scs_LightSailSDConfigs spec ≫= LightSailSDConfig_secrets).
End blocks.

(** ** The fields of each kind *)

Section tables.
Definition safe_auth_schema : schema := SObj safe_auth_fields.
Definition filters_schema : schema := SSeq (SObj [fld "name" SStr; fld "values" (SSeq SStr)]).
Definition namespaces_fields : fields := [fld "names" (SSeq SStr); fld "own_namespace" SBool].
Definition selector_fields : fields := [fld "role" SStr; fld "label" SStr; fld "field" SStr].
Definition StaticConfig_fields : fields := [
  fld "targets" (SSeq SStr); fld "labels" (SMap SStr)].
Definition FileSDConfig_fields : fields := [
  fld "files" (SSeq SStr); fld "refresh_interval" SStr].
Definition HTTPSDConfig_fields : fields := [
  fld "basic_auth" basic_auth_schema; since "2.26.0" "authorization" safe_auth_schema; fld "tls_config" tls_schema] ++ proxy_fields ++ [
  since "2.27.0" "oauth2" oauth2_schema; fld "url" SStr; fld "refresh_interval" SStr; fld "follow_redirects" SBool;
  fld "enable_http2" SBool].
Definition KubernetesSDConfig_fields : fields := [
  fld "api_server" SStr; fld "role" SStr; fld "basic_auth" basic_auth_schema;
  since "2.26.0" "authorization" safe_auth_schema; since "2.27.0" "oauth2" oauth2_schema] ++ proxy_fields ++ [
  fld "follow_redirects" SBool; fld "enable_http2" SBool; fld "tls_config" tls_schema;
  fld "namespaces" (SObj namespaces_fields); since "2.17.0" "selectors" (SSeq (SObj selector_fields));
  since "2.35.0" "attach_metadata" (SObj [fld "node" (SOpt SBool)])].
Definition ConsulSDConfig_fields : fields := [
  fld "basic_auth" basic_auth_schema; since "2.26.0" "authorization" safe_auth_schema;
  since "2.27.0" "oauth2" oauth2_schema] ++ proxy_fields ++ [
  fld "tls_config" tls_schema; fld "server" SStr; fld "path_prefix" SStr; fld "token" SStr; fld "datacenter" SStr;
  fld "namespace" SStr; fld "partition" SStr; fld "scheme" SStr; fld "services" (SSeq SStr); fld "tags" (SSeq SStr);
  fld "tag_separator" SStr; fld "node_meta" (SMap SStr); fld "filter" SStr; fld "allow_stale" SBool;
  fld "refresh_interval" SStr; fld "follow_redirects" SBool; fld "enable_http2" SBool].
Definition DNSSDConfig_fields : fields := [
  fld "names" (SSeq SStr); fld "refresh_interval" SStr; fld "type" SStr; fld "port" SInt].
Definition EC2SDConfig_fields : fields := proxy_fields ++ [
  fld "region" SStr; fld "access_key" SStr; fld "secret_key" SStr; fld "role_arn" SStr; fld "refresh_interval" SStr;
  fld "port" SInt; since "2.3.0" "filters" filters_schema; since "2.41.0" "follow_redirects" SBool;
  since "2.41.0" "enable_http2" SBool; since "2.41.0" "tls_config" tls_schema].
Definition AzureSDConfig_fields : fields := [
  fld "environment" SStr; fld "authentication_method" SStr; fld "subscription_id" SStr; fld "tenant_id" SStr;
  fld "client_id" SStr; fld "client_secret" SStr; fld "resource_group" SStr; fld "refresh_interval" SStr;
  fld "port" SInt].
Definition GCESDConfig_fields : fields := [
  fld "project" SStr; fld "zone" SStr; fld "filter" SStr; fld "refresh_interval" SStr; fld "port" SInt;
  fld "tag_separator" SStr].
Definition OpenStackSDConfig_fields : fields := [
  fld "role" SStr; fld "region" SStr; fld "identity_endpoint" SStr; fld "username" SStr; fld "userid" SStr;
  fld "password" SStr; fld "domain_name" SStr; fld "domain_id" SStr; fld "project_name" SStr; fld "project_id" SStr;
  fld "application_credential_name" SStr; fld "application_credential_id" SStr;
  fld "application_credential_secret" SStr; fld "all_tenants" SBool; fld "refresh_interval" SStr; fld "port" SInt;
  fld "availability" SStr; fld "tls_config" tls_schema].
Definition DigitalOceanSDConfig_fields : fields := [
  since "2.26.0" "authorization" safe_auth_schema; since "2.27.0" "oauth2" oauth2_schema] ++ proxy_fields ++ [
  fld "follow_redirects" SBool; fld "enable_http2" SBool; fld "tls_config" tls_schema; fld "port" SInt;
  fld "refresh_interval" SStr].
Definition KumaSDConfig_fields : fields := [
  fld "basic_auth" basic_auth_schema; since "2.26.0" "authorization" safe_auth_schema;
  since "2.27.0" "oauth2" oauth2_schema] ++ proxy_fields ++ [
  fld "server" SStr; fld "follow_redirects" SBool; fld "enable_http2" SBool; fld "tls_config" tls_schema;
  fld "refresh_interval" SStr; fld "fetch_timeout" SStr; fld "client_id" SStr].
Definition EurekaSDConfig_fields : fields := [
  fld "basic_auth" basic_auth_schema; since "2.26.0" "authorization" safe_auth_schema;
  since "2.27.0" "oauth2" oauth2_schema] ++ proxy_fields ++ [
  fld "follow_redirects" SBool; fld "enable_http2" SBool; fld "tls_config" tls_schema; fld "refresh_interval" SStr;
  fld "server" SStr].
Definition DockerSDConfig_fields : fields := [
  since "2.26.0" "authorization" safe_auth_schema; since "2.27.0" "oauth2" oauth2_schema] ++ proxy_fields ++ [
  fld "basic_auth" basic_auth_schema; fld "filters" filters_schema; fld "host" SStr; fld "tls_config" tls_schema;
  fld "port" SInt; fld "host_networking_host" SStr; since "2.54.1" "match_first_network" SBool;
  fld "refresh_interval" SStr; fld "follow_redirects" SBool; fld "enable_http2" SBool].
Definition LinodeSDConfig_fields : fields := [
  since "2.26.0" "authorization" safe_auth_schema; since "2.27.0" "oauth2" oauth2_schema] ++ proxy_fields ++ [
  fld "tls_config" tls_schema; fld "port" SInt; fld "region" SStr; fld "enable_http2" SBool;
  fld "tag_separator" SStr; fld "refresh_interval" SStr; fld "follow_redirects" SBool].
Definition HetznerSDConfig_fields : fields := [
  fld "basic_auth" basic_auth_schema; since "2.26.0" "authorization" safe_auth_schema;
  since "2.27.0" "oauth2" oauth2_schema] ++ proxy_fields ++ [
  fld "role" SStr; fld "follow_redirects" SBool; fld "enable_http2" SBool; fld "tls_config" tls_schema;
  fld "port" SInt; fld "refresh_interval" SStr; since "3.5.0" "label_selector" SStr].
Definition NomadSDConfig_fields : fields := [
  fld "basic_auth" basic_auth_schema; since "2.26.0" "authorization" safe_auth_schema;
  since "2.27.0" "oauth2" oauth2_schema] ++ proxy_fields ++ [
  fld "server" SStr; fld "allow_stale" SBool; fld "namespace" SStr; fld "refresh_interval" SStr; fld "region" SStr;
  fld "tag_separator" SStr; fld "follow_redirects" SBool; fld "enable_http2" SBool; fld "tls_config" tls_schema].
Definition DockerSwarmSDConfig_fields : fields := [
  fld "basic_auth" basic_auth_schema; since "2.26.0" "authorization" safe_auth_schema;
  since "2.27.0" "oauth2" oauth2_schema] ++ proxy_fields ++ [
  fld "filters" filters_schema; fld "host" SStr; fld "tls_config" tls_schema; fld "role" SStr; fld "port" SInt;
  fld "refresh_interval" SStr; fld "follow_redirects" SBool; fld "enable_http2" SBool].
Definition PuppetDBSDConfig_fields : fields := [
  fld "basic_auth" basic_auth_schema; since "2.26.0" "authorization" safe_auth_schema;
  since "2.27.0" "oauth2" oauth2_schema] ++ proxy_fields ++ [
  fld "url" SStr; fld "query" SStr; fld "include_parameters" SBool; fld "port" SInt; fld "refresh_interval" SStr;
  fld "follow_redirects" SBool; fld "tls_config" tls_schema; fld "enable_http2" SBool].
Definition LightSailSDConfig_fields : fields := [
  fld "basic_auth" basic_auth_schema; since "2.26.0" "authorization" safe_auth_schema] ++ proxy_fields ++ [
  since "2.27.0" "oauth2" oauth2_schema; fld "region" SStr; fld "endpoint" SStr; fld "port" SInt;
  fld "refresh_interval" SStr; fld "access_key" SStr; fld "secret_key" SStr; fld "role_arn" SStr;
  fld "tls_config" tls_schema; fld "follow_redirects" SBool; fld "enable_http2" SBool].
Definition OVHCloudSDConfig_fields : fields := [
  fld "application_key" SStr; fld "application_secret" SStr; fld "consumer_key" SStr; fld "service" SStr;
  fld "endpoint" SStr; fld "refresh_interval" SStr].
Definition ScalewaySDConfig_fields : fields := [
  fld "access_key" SStr; fld "secret_key" SStr; fld "project_id" SStr; fld "role" SStr; fld "port" SInt;
  fld "api_url" SStr; fld "zone" SStr; fld "name_filter" SStr; fld "tags_filter" (SSeq SStr);
  fld "refresh_interval" SStr] ++ proxy_fields ++ [
  fld "tls_config" tls_schema; fld "follow_redirects" SBool; fld "enable_http2" SBool].
Definition IonosSDConfig_fields : fields := [
  since "2.26.0" "authorization" safe_auth_schema] ++ proxy_fields ++ [
  fld "tls_config" tls_schema; fld "datacenter_id" SStr; fld "follow_redirects" SBool; fld "enable_http2" SBool;
  fld "port" SInt; fld "refresh_interval" SStr].
Definition sd_fields : fields := [
  fld "static_configs" (SSeq (SObj StaticConfig_fields)); fld "file_sd_configs" (SSeq (SObj FileSDConfig_fields));
  fld "http_sd_configs" (SSeq (SObj HTTPSDConfig_fields));
  fld "kubernetes_sd_configs" (SSeq (SObj KubernetesSDConfig_fields));
  fld "consul_sd_configs" (SSeq (SObj ConsulSDConfig_fields)); fld "dns_sd_configs" (SSeq (SObj DNSSDConfig_fields));
  fld "ec2_sd_configs" (SSeq (SObj EC2SDConfig_fields)); fld "azure_sd_configs" (SSeq (SObj AzureSDConfig_fields));
  fld "gce_sd_configs" (SSeq (SObj GCESDConfig_fields));
  fld "openstack_sd_configs" (SSeq (SObj OpenStackSDConfig_fields));
  fld "digitalocean_sd_configs" (SSeq (SObj DigitalOceanSDConfig_fields));
  fld "kuma_sd_configs" (SSeq (SObj KumaSDConfig_fields));
  fld "eureka_sd_configs" (SSeq (SObj EurekaSDConfig_fields));
  fld "docker_sd_configs" (SSeq (SObj DockerSDConfig_fields));
  fld "linode_sd_configs" (SSeq (SObj LinodeSDConfig_fields));
  fld "hetzner_sd_configs" (SSeq (SObj HetznerSDConfig_fields));
  fld "nomad_sd_configs" (SSeq (SObj NomadSDConfig_fields));
  fld "dockerswarm_sd_configs" (SSeq (SObj DockerSwarmSDConfig_fields));
  fld "puppetdb_sd_configs" (SSeq (SObj PuppetDBSDConfig_fields));
  fld "lightsail_sd_configs" (SSeq (SObj LightSailSDConfig_fields));
  fld "ovhcloud_sd_configs" (SSeq (SObj OVHCloudSDConfig_fields));
  fld "scaleway_sd_configs" (SSeq (SObj ScalewaySDConfig_fields));
  fld "ionos_sd_configs" (SSeq (SObj IonosSDConfig_fields))].
End tables.

Section emits.
Context `{SemverLaws} `{PromLibs} (cg : ConfigGenerator) (s : StoreGetter).
Context (Hcg : cg_wf cg) (Hauth : supported cg (Since "2.26.0") = true) (Hs : store_ok s).

Definition readable (l : list (option SecretKeySelector)) : Prop :=
  ∀ x, Some x ∈ l → ∃ v, sg_GetSecretKey s x = Ok v.

Lemma secret_item_emits fmt jobName k x :
  (∃ v, sg_GetSecretKey s x = Ok v) → emits (supported cg) [fld k SStr] (secret_item s fmt jobName k x).
Proof.
  intros [v Hv]. unfold secret_item. apply emits_from_res. exists v. rewrite wrap_ok. split; [done|]. emit.
Qed.
Lemma key_pair_emits jobName a b :
  readable (both a b) →
  emits (supported cg) [fld "access_key" SStr; fld "secret_key" SStr] (key_pair s jobName a b).
Proof.
  intros Hr. unfold key_pair. destruct a as [a|], b as [b|]; try apply emits_skip.
  apply (emits_run_all _ ([fld "access_key" SStr] ++ [fld "secret_key" SStr] ++ [])); [|table].
  repeat constructor; apply secret_item_emits, Hr; set_solver.
Qed.
Lemma filters_conforms l : conforms (supported cg) filters_schema (YMaps (filter_map <$> l)).
Proof. apply conforms_maps, Forall_fmap, Forall_true. intros f. unfold filter_map. simpl. emit_obj. Qed.
#[local] Hint Resolve filters_conforms : emits.
Lemma addFiltersToYaml_emits l : emits (supported cg) [fld "filters" filters_schema] (addFiltersToYaml cg l).
Proof. unfold addFiltersToYaml. emit. Qed.
Lemma addFilters_since v l :
  emits (supported cg) [since v "filters" filters_schema] (addFiltersToYaml (WithMinimumVersion cg v) l).
Proof. unfold addFiltersToYaml. emit. Qed.
Lemma addSafeTLS_since v c :
  emits (supported cg) [since v "tls_config" tls_schema] (addSafeTLStoYaml (WithMinimumVersion cg v) s c).
Proof.
  unfold addSafeTLStoYaml. apply emits_if_set. intros x _.
  pose proof (safe_tls_items_emits (WithMinimumVersion cg v) s Hs x) as He. rewrite supported_min in He.
  eapply emits_nested; [exact He|]. intros m Hm. by apply emits_append_since.
Qed.
Lemma addSafeAuthorization_emits a :
  emits (supported cg) [since "2.26.0" "authorization" safe_auth_schema] (addSafeAuthorizationToYaml cg s a).
Proof. by apply addSafeAuthorizationToYaml_emits. Qed.
(** A field that the code writes from some version on, for some of its values. *)
Lemma emits_append_min k sc v ver :
  conforms (supported cg) sc v → emits (supported cg) [fld k sc] (AppendMapItem (WithMinimumVersion cg ver) k v).
Proof. intros Hv. pose proof (emits_append (WithMinimumVersion cg ver) k sc v) as He. rewrite supported_min in He. auto. Qed.
Lemma role_emits r : emits (supported cg) [fld "role" SStr] (role_item cg r).
Proof. unfold role_item, role_cg. case_bool_decide; [apply emits_append_min|apply emits_append]; emit_val. Qed.
Lemma dns_type_emits t : emits (supported cg) [fld "type" SStr] (dns_type cg t).
Proof. unfold dns_type, dns_cg. repeat case_bool_decide; (apply emits_append_min || apply emits_append); emit_val. Qed.
Lemma attach_conforms a : conforms (supported cg) (SObj [fld "node" (SOpt SBool)]) (attach_yaml a).
Proof.
  unfold attach_yaml. apply conforms_obj; [table|]. apply Forall_singleton. exists Always, (SOpt SBool).
  split; [set_solver|]. split; [done|]. destruct (SDAttachMetadata_Node a); repeat constructor.
Qed.
Lemma sd_attach_emits r a :
  emits (supported cg) [since "2.35.0" "attach_metadata" (SObj [fld "node" (SOpt SBool)])] (sd_attach_metadata cg r a).
Proof.
  unfold sd_attach_metadata. case_bool_decide; [apply emits_append_since, attach_conforms|].
  apply emits_when. intros _. pose proof (attach_conforms a).
  apply (emits_append_later cg _ _ _ (2, 37, 0)%Z (2, 35, 0)%Z); by vm_compute || done.
Qed.
Lemma namespaces_emits n : emits (supported cg) namespaces_fields (namespaces_items n).
Proof. unfold namespaces_items. emit. Qed.
Lemma selector_emits x : emits (supported cg) selector_fields (selector_items cg x).
Proof. unfold selector_items. emit. Qed.
(** A list of objects that are each built by an emitter. *)
Lemma res_map_conforms {A} fs (f : A → emitter) l :
  (∀ x, x ∈ l → emits (supported cg) fs (f x)) →
  ∃ ms, res_map (fun x => f x []) l = Ok ms ∧ conforms (supported cg) (SSeq (SObj fs)) (YMaps ms).
Proof.
  clear s Hcg Hauth Hs. intros Hf.
  assert (∃ ms, res_map (fun x => f x []) l = Ok ms ∧ Forall (fun m => conforms (supported cg) (SObj fs) (YMap m)) ms)
    as (ms & Hms & Hc); [|exists ms; split; [done|by apply conforms_maps]].
  induction l as [|x l IH]; simpl; [exists []; by split; [|constructor]|].
  destruct (emits_conforms _ _ _ (Hf x ltac:(set_solver))) as (m & Hm & Hmc).
  destruct IH as (ms & Hms & Hc); [set_solver|]. rewrite Hm. simpl. rewrite Hms. simpl. eexists. split; [done|]. by constructor.
Qed.
Lemma emits_res_map {A} fs gs (f : A → emitter) l k :
  (∀ x, x ∈ l → emits (supported cg) fs (f x)) →
  (∀ ms, conforms (supported cg) (SSeq (SObj fs)) (YMaps ms) → emits (supported cg) gs (k ms)) →
  emits (supported cg) gs (from_res (res_map (fun x => f x []) l) k).
Proof. intros (ms & Hms & Hc)%res_map_conforms Hk. apply emits_from_res. eauto. Qed.
Lemma sd_configs_emits {A} key fs (items : A → emitter) l :
  (∀ x, x ∈ l → emits (supported cg) fs (items x)) →
  emits (supported cg) [fld key (SSeq (SObj fs))] (sd_configs key items l).
Proof.
  intros Hf. unfold sd_configs. apply emits_when. intros _. eapply emits_res_map; [done|]. intros ms Hms.
  by apply emits_item.
Qed.
Lemma namespaces_field_emits n :
  emits (supported cg) [fld "namespaces" (SObj namespaces_fields)]
    (from_res (namespaces_items n []) (fun m => item "namespaces" (YMap m))).
Proof. eapply emits_nested; [apply namespaces_emits|]. intros m Hm. by apply emits_item. Qed.
Lemma selectors_field_emits l :
  emits (supported cg) [since "2.17.0" "selectors" (SSeq (SObj selector_fields))]
    (from_res (res_map (fun x => selector_items cg x []) l) (fun l => AppendMapItem (WithMinimumVersion cg "2.17.0") "selectors" (YMaps l))).
Proof. eapply emits_res_map; [intros x _; apply selector_emits|]. intros m Hm. by apply emits_append_since. Qed.
Lemma sd_or_zero_emits x k :
  emits (supported cg) [fld k SStr] (from_res (or_zero (sg_GetSecretKey s x)) (fun v => item k (YStr v))).
Proof. apply emits_or_zero; [apply Hs|]. intros v. emit. Qed.
Lemma labels_conforms h : conforms (supported cg) (SMap SStr) (headers_yaml h).
Proof. by apply headers_conforms. Qed.
#[local] Hint Resolve secret_item_emits key_pair_emits addFiltersToYaml_emits addFilters_since addSafeTLS_since addSafeAuthorization_emits
  role_emits dns_type_emits sd_attach_emits namespaces_field_emits selectors_field_emits sd_or_zero_emits labels_conforms : emits.

Ltac readables :=
  lazymatch goal with
  | H : readable [?a; ?b] |- _ =>
      assert (∀ x, a = Some x → ∃ v, sg_GetSecretKey s x = Ok v) by (intros ? E; apply H; rewrite E; set_solver);
      assert (∀ x, b = Some x → ∃ v, sg_GetSecretKey s x = Ok v) by (intros ? E; apply H; rewrite E; set_solver)
  | H : readable [?a] |- _ =>
      assert (∀ x, a = Some x → ∃ v, sg_GetSecretKey s x = Ok v) by (intros ? E; apply H; rewrite E; set_solver)
  | _ => idtac
  end.

Lemma StaticConfig_emits c : emits (supported cg) StaticConfig_fields (StaticConfig_items c).
Proof. unfold StaticConfig_items. emit. Qed.
Lemma FileSDConfig_emits c : emits (supported cg) FileSDConfig_fields (FileSDConfig_items c).
Proof. unfold FileSDConfig_items. emit. Qed.
Lemma HTTPSDConfig_emits c : emits (supported cg) HTTPSDConfig_fields (HTTPSDConfig_items cg s c).
Proof. unfold HTTPSDConfig_items. emit. Qed.
Lemma KubernetesSDConfig_emits c : emits (supported cg) KubernetesSDConfig_fields (KubernetesSDConfig_items cg s c).
Proof. unfold KubernetesSDConfig_items. emit. Qed.
Lemma ConsulSDConfig_emits jobName c : readable (ConsulSDConfig_secrets c) → emits (supported cg) ConsulSDConfig_fields (ConsulSDConfig_items cg s jobName c).
Proof. intros Hr. unfold ConsulSDConfig_secrets in Hr. readables. unfold ConsulSDConfig_items. emit. Qed.
Lemma DNSSDConfig_emits c : emits (supported cg) DNSSDConfig_fields (DNSSDConfig_items cg c).
Proof. unfold DNSSDConfig_items. emit. Qed.
Lemma EC2SDConfig_emits jobName c : readable (EC2SDConfig_secrets c) → emits (supported cg) EC2SDConfig_fields (EC2SDConfig_items cg s jobName c).
Proof. intros Hr. unfold EC2SDConfig_secrets in Hr. readables. unfold EC2SDConfig_items. emit. Qed.
Lemma AzureSDConfig_emits jobName c : readable (AzureSDConfig_secrets c) → emits (supported cg) AzureSDConfig_fields (AzureSDConfig_items s jobName c).
Proof. intros Hr. unfold AzureSDConfig_secrets in Hr. readables. unfold AzureSDConfig_items. emit. Qed.
Lemma GCESDConfig_emits c : emits (supported cg) GCESDConfig_fields (GCESDConfig_items c).
Proof. unfold GCESDConfig_items. emit. Qed.
Lemma OpenStackSDConfig_emits jobName c : readable (OpenStackSDConfig_secrets c) → emits (supported cg) OpenStackSDConfig_fields (OpenStackSDConfig_items cg s jobName c).
Proof. intros Hr. unfold OpenStackSDConfig_secrets in Hr. readables. unfold OpenStackSDConfig_items. emit. Qed.
Lemma DigitalOceanSDConfig_emits c : emits (supported cg) DigitalOceanSDConfig_fields (DigitalOceanSDConfig_items cg s c).
Proof. unfold DigitalOceanSDConfig_items. emit. Qed.
Lemma KumaSDConfig_emits c : emits (supported cg) KumaSDConfig_fields (KumaSDConfig_items cg s c).
Proof. unfold KumaSDConfig_items. emit. Qed.
Lemma EurekaSDConfig_emits c : emits (supported cg) EurekaSDConfig_fields (EurekaSDConfig_items cg s c).
Proof. unfold EurekaSDConfig_items. emit. Qed.
Lemma DockerSDConfig_emits c : emits (supported cg) DockerSDConfig_fields (DockerSDConfig_items cg s c).
Proof. unfold DockerSDConfig_items. emit. Qed.
Lemma LinodeSDConfig_emits c : emits (supported cg) LinodeSDConfig_fields (LinodeSDConfig_items cg s c).
Proof. unfold LinodeSDConfig_items. emit. Qed.
Lemma HetznerSDConfig_emits c : emits (supported cg) HetznerSDConfig_fields (HetznerSDConfig_items cg s c).
Proof. unfold HetznerSDConfig_items. emit. Qed.
Lemma NomadSDConfig_emits c : emits (supported cg) NomadSDConfig_fields (NomadSDConfig_items cg s c).
Proof. unfold NomadSDConfig_items. emit. Qed.
Lemma DockerSwarmSDConfig_emits c : emits (supported cg) DockerSwarmSDConfig_fields (DockerSwarmSDConfig_items cg s c).
Proof. unfold DockerSwarmSDConfig_items. emit. Qed.
Lemma PuppetDBSDConfig_emits c : emits (supported cg) PuppetDBSDConfig_fields (PuppetDBSDConfig_items cg s c).
Proof. unfold PuppetDBSDConfig_items. emit. Qed.
Lemma LightSailSDConfig_emits jobName c : readable (LightSailSDConfig_secrets c) → emits (supported cg) LightSailSDConfig_fields (LightSailSDConfig_items cg s jobName c).
Proof. intros Hr. unfold LightSailSDConfig_secrets in Hr. readables. unfold LightSailSDConfig_items. emit. Qed.
Lemma OVHCloudSDConfig_emits c : emits (supported cg) OVHCloudSDConfig_fields (OVHCloudSDConfig_items s c).
Proof. unfold OVHCloudSDConfig_items. emit. Qed.
Lemma ScalewaySDConfig_emits c : emits (supported cg) ScalewaySDConfig_fields (ScalewaySDConfig_items cg s c).
Proof. unfold ScalewaySDConfig_items. emit. Qed.
Lemma IonosSDConfig_emits c : emits (supported cg) IonosSDConfig_fields (IonosSDConfig_items cg s c).
Proof. unfold IonosSDConfig_items. emit. Qed.
End emits.
