(* ===== verification/ScrapeConfigs.v ===== *)
(** * ScrapeConfigs

    [generateScrapeConfig] and [appendScrapeConfigs] of pkg/prometheus/promcfg.go: a scrape
    configuration from a ScrapeConfig object. Unlike the monitors it can fail, when a secret of a
    service discovery configuration cannot be read. *)

From S2P Require Import Prelude GoStrings SortUtil Meta Semver NamespaceLabeler MonitoringV1.
From S2P Require Import PromTypes PromCommon AssetStore Yaml ConfigGenerator Relabel Monitors GlobalConfig.
From S2P Require Import ScrapeTypes ServiceDiscovery.

Section generator.
Context `{Semver} `{PromLibs}.

Definition scrapeConfig_job (sc : ScrapeConfig) : string :=
  "scrapeConfig/" +:+ om_Namespace (scrapeconfig_ObjectMeta sc) +:+ "/" +:+ om_Name (scrapeconfig_ObjectMeta sc).
(** The rules of the scrape class, of the job name, of the user with the enforced namespace, and
    of the shards. *)
Definition scrape_config_relabelings (cg : ConfigGenerator) (labeler : Labeler) (sc : ScrapeConfig) (shards : Z)
    : list MapSlice :=
  let spec := scrapeconfig_Spec sc in
  let scrapeClass := getScrapeClassOrDefault cg (scs_ScrapeClassName spec) in
  let relabelings := initRelabelings ++ generateRelabelConfig (sc_Relabelings scrapeClass) ++
    match scs_JobName spec with
    | Some n => [[("target_label", YStr "job"); ("action", YStr "replace"); ("replacement", YStr n)]]
    | None => []
    end ++
    (if bool_decide (scs_RelabelConfigs spec ≠ [])
     then generateRelabelConfig (GetRelabelingConfigs labeler (scrapeconfig_TypeMeta sc) (scrapeconfig_ObjectMeta sc)
            (scs_RelabelConfigs spec))
     else []) in
  if bool_decide (shards ≠ 1%Z) then appendShardingRelabelingWithAddressIfMissing relabelings shards else relabelings.
(** The fields from the name of the job to the limit on the size of the body. *)
Definition scrape_config_head (cg : ConfigGenerator) (s : StoreGetter) (sc : ScrapeConfig) (scrapeClass : ScrapeClass)
    : emitter :=
  let spec := scrapeconfig_Spec sc in
  let cpf := cg_cpf cg in run [
  item "job_name" (YStr (scrapeConfig_job sc));
  if_set (scs_HonorTimestamps spec) (fun b => AddHonorTimestamps cg (Some b));
  if_set (scs_TrackTimestampsStaleness spec) (fun b => AddTrackTimestampsStaleness cg (Some b));
  if_set (scs_HonorLabels spec) (fun b => AddHonorLabels cg b);
  if_set (scs_MetricsPath spec) (fun p => item "metrics_path" (YStr p));
  when (bool_decide (default ∅ (scs_Params spec) ≠ ∅)) (item "params" (params_yaml (default ∅ (scs_Params spec))));
  if_set (scs_EnableCompression spec) (fun b => AppendMapItem (WithMinimumVersion cg "2.49.0") "enable_compression" (YBool b));
  if_set (scs_EnableHTTP2 spec) (fun b => AppendMapItem (WithMinimumVersion cg "2.35.0") "enable_http2" (YBool b));
  if_set (scs_ScrapeInterval spec) (fun i => item "scrape_interval" (YStr i));
  if_set (scs_ScrapeTimeout spec) (fun i => item "scrape_timeout" (YStr i));
  addScrapeProtocols cg (scs_ScrapeProtocols spec);
  addFallbackScrapeProtocol cg (mergeFallbackScrapeProtocolWithScrapeClass (scs_FallbackScrapeProtocol spec) scrapeClass);
  if_set (scs_Scheme spec) (fun v => item "scheme" (YStr (ToLower v)));
  addProxyConfigtoYaml cg s (scs_ProxyConfig spec);
  addBasicAuthToYaml cg s (scs_BasicAuth spec);
  addAuthorizationToYaml cg s (mergeSafeAuthorizationWithScrapeClass (scs_Authorization spec) scrapeClass);
  addOAuth2ToYaml cg s (scs_OAuth2 spec);
  addTLStoYaml cg s (mergeSafeTLSConfigWithScrapeClass (scs_TLSConfig spec) scrapeClass);
  limits cg (scs_SampleLimit spec) (scs_TargetLimit spec) (scs_LabelLimit spec) (scs_LabelNameLengthLimit spec)
    (scs_LabelValueLengthLimit spec) (scs_KeepDroppedTargets spec);
  addNativeHistogramConfig cg (scs_NativeHistogramConfig spec);
  when (bool_decide (cpf_EnforcedBodySizeLimit cpf ≠ ""))
    (AppendMapItem (WithMinimumVersion cg "2.28.0") "body_size_limit" (YStr (cpf_EnforcedBodySizeLimit cpf)))].
Definition generateScrapeConfig (cg : ConfigGenerator) (sc : ScrapeConfig) (s : StoreGetter) (shards : Z) : res MapSlice :=
  let spec := scrapeconfig_Spec sc in
  let scrapeClass := getScrapeClassOrDefault cg (scs_ScrapeClassName spec) in
  let cpf := cg_cpf cg in
  labeler ← New (cpf_EnforcedNamespaceLabel cpf) (cpf_ExcludedFromEnforcement cpf) false;
  run [
    scrape_config_head cg s sc scrapeClass;
    appendServiceDiscoveryConfigs cg s (scrapeConfig_job sc) spec;
    item "relabel_configs" (YMaps (scrape_config_relabelings cg labeler sc shards));
    metric_relabelings labeler (scrapeconfig_TypeMeta sc) (scrapeconfig_ObjectMeta sc) scrapeClass
      (scs_MetricRelabelConfigs spec);
    appendNameValidationScheme cg (scs_NameValidationScheme spec);
    appendNameEscapingScheme cg (scs_NameEscapingScheme spec)] [].

Context {C : Type} `{CacheStore C}.
Definition appendScrapeConfigs (cg : ConfigGenerator) (slices : list MapSlice) (scrapeConfigs : gmap string ScrapeConfig)
    (store : StoreBuilder C) (shards : Z) : res (list MapSlice) :=
  cfgs ← res_map (fun sc =>
    cos ← ForNamespace store (om_Namespace (scrapeconfig_ObjectMeta sc));
    generateScrapeConfig cg sc (getter cos) shards) (sorted_values scrapeConfigs);
  Ok (slices ++ cfgs).
End generator.

(** ** The format *)

Section tables.
Definition scrape_head_fields : fields := [
  fld "job_name" SStr; since "2.9.0" "honor_timestamps" SBool; since "2.48.0" "track_timestamps_staleness" SBool;
  fld "honor_labels" SBool; fld "metrics_path" SStr; fld "params" (SMap (SSeq SStr));
  since "2.49.0" "enable_compression" SBool; since "2.35.0" "enable_http2" SBool;
  fld "scrape_interval" SStr; fld "scrape_timeout" SStr; since "2.49.0" "scrape_protocols" (SSeq SStr);
  since "3.0.0" "fallback_scrape_protocol" SStr; fld "scheme" SStr] ++ proxy_fields ++ [
  fld "basic_auth" basic_auth_schema; since "2.26.0" "authorization" auth_schema;
  since "2.27.0" "oauth2" oauth2_schema; fld "tls_config" tls_schema] ++ limit_fields ++ histogram_fields ++ [
  since "2.28.0" "body_size_limit" SStr].
Definition scrape_config_fields : fields := scrape_head_fields ++ sd_fields ++ [
  fld "relabel_configs" (SSeq relabel_schema); fld "metric_relabel_configs" (SSeq relabel_schema);
  since "3.0.0" "metric_name_validation_scheme" SStr; since "3.4.0" "metric_name_escaping_scheme" SStr].
End tables.

Section emits.
Context `{SemverLaws} `{PromLibs} (cg : ConfigGenerator) (s : StoreGetter).
Context (Hcg : cg_wf cg) (Hauth : supported cg (Since "2.26.0") = true) (Hs : store_ok s).

Lemma readable_in {A} (f : A → list (option SecretKeySelector)) l x :
  readable s (l ≫= f) → x ∈ l → readable s (f x).
Proof. intros Hr Hx y Hy. apply Hr, list_elem_of_bind. eauto. Qed.
Lemma readable_app l l' : readable s (l ++ l') → readable s l ∧ readable s l'.
Proof. intros Hr. split; intros x Hx; apply Hr, elem_of_app; auto. Qed.
#[local] Hint Resolve readable_in : emits.
#[local] Hint Resolve StaticConfig_emits FileSDConfig_emits HTTPSDConfig_emits KubernetesSDConfig_emits ConsulSDConfig_emits DNSSDConfig_emits EC2SDConfig_emits AzureSDConfig_emits GCESDConfig_emits OpenStackSDConfig_emits DigitalOceanSDConfig_emits KumaSDConfig_emits EurekaSDConfig_emits DockerSDConfig_emits LinodeSDConfig_emits HetznerSDConfig_emits NomadSDConfig_emits DockerSwarmSDConfig_emits PuppetDBSDConfig_emits LightSailSDConfig_emits OVHCloudSDConfig_emits ScalewaySDConfig_emits IonosSDConfig_emits : emits.
Lemma service_discovery_emits jobName spec :
  readable s (checked_secrets spec) → emits (supported cg) sd_fields (appendServiceDiscoveryConfigs cg s jobName spec).
Proof.
  unfold checked_secrets. intros Hr.
  repeat match goal with H : readable _ (_ ++ _) |- _ => apply readable_app in H as [? ?] end.
  apply (emits_run _ _ sd_fields); [|table|done]. apply emits_each. unfold sd_fields.
  repeat (apply Forall2_cons_2; [apply sd_configs_emits; intros ? ?; eauto with emits|]). apply Forall2_nil_2.
Qed.
#[local] Hint Resolve mergeSafeTLSConfig_exclusive getScrapeClassOrDefault_exclusive : emits.
Lemma scrape_config_head_emits sc n :
  emits (supported cg) scrape_head_fields (scrape_config_head cg s sc (getScrapeClassOrDefault cg n)).
Proof.
  assert (auth_supported cg) by (split; [apply Hcg|done]). pose proof (wf_compatible _ Hcg).
  pose proof (params_conforms cg (default ∅ (scs_Params (scrapeconfig_Spec sc)))).
  unfold scrape_config_head. emit.
Qed.
Lemma scrape_config_head_job sc n :
  ∃ m, scrape_config_head cg s sc (getScrapeClassOrDefault cg n) [] = Ok (("job_name", YStr (scrapeConfig_job sc)) :: m).
Proof.
  assert (auth_supported cg) by (split; [apply Hcg|done]). pose proof (wf_compatible _ Hcg).
  pose proof (params_conforms cg (default ∅ (scs_Params (scrapeconfig_Spec sc)))).
  unfold scrape_config_head.
  match goal with |- context [run (item ?k ?v :: ?l)] =>
    assert (emits (supported cg) scrape_head_fields (run l)) as He by emit;
    destruct (He [(k, v)]) as (m & Hm & _); exists m; exact Hm
  end.
Qed.
Lemma scrape_config_relabelings_ok lb sc n : rules_ok (supported cg) (scrape_config_relabelings cg lb sc n).
Proof.
  assert (∀ l, rules_ok (supported cg) l → rules_ok (supported cg) (appendShardingRelabelingWithAddressIfMissing l n)) as Hsh.
  { intros l Hl. unfold appendShardingRelabelingWithAddressIfMissing, appendShardingRelabelingWithAddress.
    case_match; auto with rules. }
  unfold scrape_config_relabelings. case_bool_decide; [apply Hsh|]; destruct (scs_JobName _); auto 10 with rules.
Qed.
Lemma rules_conforms l : rules_ok (supported cg) l → conforms (supported cg) (SSeq relabel_schema) (YMaps l).
Proof. by apply rules_ok_conforms. Qed.
#[local] Hint Resolve rules_conforms scrape_config_relabelings_ok scrape_config_head_emits service_discovery_emits : emits.

(** A ScrapeConfig whose checked secrets can be read gives a configuration that follows the
    format. *)
Lemma generateScrapeConfig_ok sc n lb :
  New (cpf_EnforcedNamespaceLabel (cg_cpf cg)) (cpf_ExcludedFromEnforcement (cg_cpf cg)) false = Ok lb →
  readable s (checked_secrets (scrapeconfig_Spec sc)) →
  ∃ cfg, generateScrapeConfig cg sc s n = Ok cfg ∧ conforms (supported cg) (SObj scrape_config_fields) (YMap cfg) ∧
    ("relabel_configs", YMaps (scrape_config_relabelings cg lb sc n)) ∈ cfg ∧
    head cfg = Some ("job_name", YStr (scrapeConfig_job sc)).
Proof.
  intros Hl Hr. unfold generateScrapeConfig. rewrite Hl. cbn [mbind res_bind].
  match goal with |- context [run (?h :: ?d :: ?i :: ?l) []] =>
    assert (emits (supported cg) scrape_config_fields (run (h :: d :: i :: l))) as He
      by (unfold appendNameValidationScheme, appendNameEscapingScheme; emit);
    assert (emits (supported cg) scrape_config_fields (run (d :: i :: l))) as Hd
      by (unfold appendNameValidationScheme, appendNameEscapingScheme; emit);
    assert (emits (supported cg) scrape_config_fields (run l)) as Ht
      by (unfold appendNameValidationScheme, appendNameEscapingScheme; emit);
    destruct (emits_conforms _ _ _ He) as (cfg & Hrun & Hc); exists cfg; split; [exact Hrun|]; split; [exact Hc|];
    split; [exact (run_item_in _ _ [h; d] _ _ l [] cfg Hrun Ht)|]
  end.
  destruct (scrape_config_head_job sc (scs_ScrapeClassName (scrapeconfig_Spec sc))) as [m Hm].
  cbn [run] in Hrun. rewrite Hm in Hrun. cbn [mbind res_bind] in Hrun.
  destruct (Hd (("job_name", YStr (scrapeConfig_job sc)) :: m)) as (m' & Hm' & _).
  cbn [run] in Hm'. rewrite Hm' in Hrun. by injection Hrun as <-.
Qed.

(** *** When it fails *)

(** [f] appends items when [b] holds and reports an error otherwise. *)
Definition tries (b : bool) (f : emitter) : Prop :=
  ∀ cfg, if b then ∃ m, f cfg = Ok (cfg ++ m) else ∃ e, f cfg = Err e.
Definition readableb (o : option SecretKeySelector) : bool :=
  match o with Some x => match sg_GetSecretKey s x with Ok _ => true | _ => false end | None => true end.

Lemma tries_emits ok fs f : emits ok fs f → tries true f.
Proof. intros Hf cfg. destruct (Hf cfg) as (m & Hm & _). eauto. Qed.
Lemma tries_run_nil : tries true (run []).
Proof. intros cfg. exists []. by rewrite app_nil_r. Qed.
Lemma tries_run_cons b c f l : tries b f → tries c (run l) → tries (b && c) (run (f :: l)).
Proof.
  intros Hf Hl cfg. specialize (Hf cfg). cbn [run]. destruct b; simpl.
  - destruct Hf as [m ->]. cbn [mbind res_bind]. specialize (Hl (cfg ++ m)). destruct c; [|done].
    destruct Hl as [m' ->]. exists (m ++ m'). by rewrite app_assoc.
  - destruct Hf as [e ->]. by exists e.
Qed.
Lemma tries_if_set {A} (o : option A) b f :
  (∀ x, o = Some x → tries b (f x)) → (o = None → b = true) → tries b (if_set o f).
Proof. destruct o as [x|]; simpl; [auto|]. intros _ ->; [|done]. exact tries_run_nil. Qed.
Lemma tries_secret fmt jobName k o :
  tries (readableb o) (if_set o (secret_item s fmt jobName k)).
Proof.
  apply tries_if_set; [|by intros ->]. intros x -> cfg. unfold readableb, secret_item, from_res.
  destruct (sg_GetSecretKey s x) as [v|e|m] eqn:E; simpl; [by eexists|by eexists|].
  by destruct (ok_GetSecretKey _ Hs x m).
Qed.
Lemma tries_key_pair jobName a b : tries (forallb readableb (both a b)) (key_pair s jobName a b).
Proof.
  unfold key_pair, both. destruct a as [a|], b as [b|]; try exact tries_run_nil.
  simpl forallb. repeat apply tries_run_cons; [apply (tries_secret _ _ _ (Some a))|apply (tries_secret _ _ _ (Some b))|].
  exact tries_run_nil.
Qed.
Lemma tries_objects {A} (b : A → bool) (items : A → emitter) l :
  (∀ x, tries (b x) (items x)) →
  if forallb b l then ∃ ms, res_map (fun c => items c []) l = Ok ms else ∃ e, res_map (fun c => items c []) l = Err e.
Proof.
  intros Hi. induction l as [|x l IH]; simpl; [by eexists|]. specialize (Hi x []). destruct (b x); simpl.
  - destruct Hi as [m ->]. simpl. destruct (forallb b l); destruct IH as [? ->]; simpl; by eexists.
  - destruct Hi as [e ->]. by eexists.
Qed.
Lemma tries_sd_configs {A} key (b : A → bool) (items : A → emitter) l :
  (∀ x, tries (b x) (items x)) → tries (forallb b l) (sd_configs key items l).
Proof.
  intros Hi cfg. unfold sd_configs, when, from_res. case_bool_decide as Hl.
  - pose proof (tries_objects b items l Hi) as Ho. destruct (forallb b l); destruct Ho as [? ->]; simpl; by eexists.
  - destruct l; [exact (tries_run_nil cfg)|done].
Qed.

(** The steps of a block: those that read a checked secret, and the others, which do not fail. *)
Ltac tries_step :=
  first [ eapply tries_secret | eapply tries_key_pair
        | eapply (tries_emits (supported cg)); solve [unfold appendNameValidationScheme, appendNameEscapingScheme; emit] ].
Ltac tries_items :=
  lazymatch goal with
  | |- tries _ (run []) => exact tries_run_nil
  | |- tries _ (run (_ :: _)) => eapply tries_run_cons; [tries_step|tries_items]
  end.
Lemma tries_eq b c f : tries c f → b = c → tries b f.
Proof. by intros ? ->. Qed.
#[local] Hint Resolve addSafeAuthorization_emits addFilters_since addSafeTLS_since labels_conforms : emits.
Lemma ConsulSDConfig_tries jobName c : tries (forallb readableb (ConsulSDConfig_secrets c)) (ConsulSDConfig_items cg s jobName c).
Proof. eapply tries_eq; [unfold ConsulSDConfig_items; tries_items|done]. Qed.
Lemma EC2SDConfig_tries jobName c : tries (forallb readableb (EC2SDConfig_secrets c)) (EC2SDConfig_items cg s jobName c).
Proof. eapply tries_eq; [unfold EC2SDConfig_items; tries_items|]. unfold EC2SDConfig_secrets. by rewrite andb_true_r. Qed.
Lemma AzureSDConfig_tries jobName c : tries (forallb readableb (AzureSDConfig_secrets c)) (AzureSDConfig_items s jobName c).
Proof. eapply tries_eq; [unfold AzureSDConfig_items; tries_items|done]. Qed.
Lemma OpenStackSDConfig_tries jobName c :
  tries (forallb readableb (OpenStackSDConfig_secrets c)) (OpenStackSDConfig_items cg s jobName c).
Proof. eapply tries_eq; [unfold OpenStackSDConfig_items; tries_items|done]. Qed.
Lemma LightSailSDConfig_tries jobName c :
  tries (forallb readableb (LightSailSDConfig_secrets c)) (LightSailSDConfig_items cg s jobName c).
Proof. eapply tries_eq; [unfold LightSailSDConfig_items; tries_items|]. unfold LightSailSDConfig_secrets. by rewrite andb_true_r. Qed.
Lemma forallb_bind {A B} (f : B → bool) (g : A → list B) (l : list A) :
  forallb f (l ≫= g) = forallb (fun x => forallb f (g x)) l.
Proof. induction l as [|x l IH]; csimpl; [done|]. by rewrite forallb_app, IH. Qed.
Lemma service_discovery_tries jobName spec :
  tries (forallb readableb (checked_secrets spec)) (appendServiceDiscoveryConfigs cg s jobName spec).
Proof.
  eapply tries_eq.
  - unfold appendServiceDiscoveryConfigs.
    repeat (eapply tries_run_cons;
      [lazymatch goal with
       | |- tries _ (sd_configs _ (ConsulSDConfig_items _ _ _) _) => apply tries_sd_configs, ConsulSDConfig_tries
       | |- tries _ (sd_configs _ (EC2SDConfig_items _ _ _) _) => apply tries_sd_configs, EC2SDConfig_tries
       | |- tries _ (sd_configs _ (AzureSDConfig_items _ _) _) => apply tries_sd_configs, AzureSDConfig_tries
       | |- tries _ (sd_configs _ (OpenStackSDConfig_items _ _ _) _) => apply tries_sd_configs, OpenStackSDConfig_tries
       | |- tries _ (sd_configs _ (LightSailSDConfig_items _ _ _) _) => apply tries_sd_configs, LightSailSDConfig_tries
       | |- _ => eapply (tries_emits (supported cg)), sd_configs_emits; intros x _; eauto with emits
       end|]).
    exact tries_run_nil.
  - unfold checked_secrets. rewrite !forallb_app, !forallb_bind. simpl. by rewrite ?andb_true_r, ?andb_assoc.
Qed.
Lemma generateScrapeConfig_err sc n lb :
  New (cpf_EnforcedNamespaceLabel (cg_cpf cg)) (cpf_ExcludedFromEnforcement (cg_cpf cg)) false = Ok lb →
  forallb readableb (checked_secrets (scrapeconfig_Spec sc)) = false →
  ∃ e, generateScrapeConfig cg sc s n = Err e.
Proof.
  intros Hl Hr. unfold generateScrapeConfig. rewrite Hl. cbn [mbind res_bind run].
  destruct (scrape_config_head_job sc (scs_ScrapeClassName (scrapeconfig_Spec sc))) as [m ->]. cbn [mbind res_bind].
  pose proof (service_discovery_tries (scrapeConfig_job sc) (scrapeconfig_Spec sc)) as Ht. rewrite Hr in Ht.
  destruct (Ht (("job_name", YStr (scrapeConfig_job sc)) :: m)) as [e ->]. by exists e.
Qed.
(** *** Secrets that are not checked *)

(** The value of a secret, or nothing when it cannot be read. *)
Definition secret_or_empty (x : SecretKeySelector) : string :=
  match sg_GetSecretKey s x with Ok v => v | _ => "" end.
(** The secrets of OVHCloud and Scaleway and of the basic authentication of the scrape, as they stand
    in a configuration. *)
Definition unchecked_written (spec : ScrapeConfigSpec) (cfg : MapSlice) : Prop :=
  (∀ i c, scs_OVHCloudSDConfigs spec !! i = Some c → ∃ l m, ("ovhcloud_sd_configs", YMaps l) ∈ cfg ∧ l !! i = Some m ∧
     ("application_secret", YStr (secret_or_empty (OVHCloudSDConfig_ApplicationSecret c))) ∈ m ∧
     ("consumer_key", YStr (secret_or_empty (OVHCloudSDConfig_ConsumerKey c))) ∈ m) ∧
  (∀ i c, scs_ScalewaySDConfigs spec !! i = Some c → ∃ l m, ("scaleway_sd_configs", YMaps l) ∈ cfg ∧ l !! i = Some m ∧
     ("secret_key", YStr (secret_or_empty (ScalewaySDConfig_SecretKey c))) ∈ m) ∧
  (∀ ba, scs_BasicAuth spec = Some ba →
     ("basic_auth", YMap [("username", YStr (secret_or_empty (BasicAuth_Username ba)));
                          ("password", YStr (secret_or_empty (BasicAuth_Password ba)))]) ∈ cfg).

Definition appends (f : emitter) : Prop := ∀ c r, f c = Ok r → ∃ m, r = c ++ m.
Definition leaves (P : MapSlice → Prop) (f : emitter) : Prop := ∀ c r, f c = Ok r → P r.
Lemma emits_appends fs f : emits (supported cg) fs f → appends f.
Proof. intros Hf c r Hr. destruct (Hf c) as (m & Hm & _). rewrite Hm in Hr. injection Hr as <-. eauto. Qed.
Lemma sd_configs_appends {A} key (items : A → emitter) l : appends (sd_configs key items l).
Proof.
  intros c r. unfold sd_configs, when, from_res. case_bool_decide; [|intros [= <-]; exists []; by rewrite app_nil_r].
  destruct (res_map _ l); [|done..]. intros [= <-]. eauto.
Qed.
Lemma run_appends l : Forall appends l → appends (run l).
Proof.
  induction 1 as [|f l Hf _ IH]; intros c r; cbn [run]; [intros [= <-]; exists []; by rewrite app_nil_r|].
  intros (c1 & [m ->]%Hf & [m' ->]%IH)%bind_ok_ex. exists (m ++ m'). by rewrite app_assoc.
Qed.
(** What one emitter has written stays. *)
Lemma run_leaves (P : MapSlice → Prop) f l :
  (∀ m m', P m → P (m ++ m')) → Forall appends l → f ∈ l → leaves P f → leaves P (run l).
Proof.
  intros HP Hl Hf Hw. induction Hl as [|g l Hg Hl IH]; [by apply elem_of_nil in Hf|]. intros c r. cbn [run].
  intros (c1 & Hc1 & Hr)%bind_ok_ex. apply elem_of_cons in Hf as [->|Hf]; [|by eapply IH].
  destruct (run_appends _ Hl _ _ Hr) as [m ->]. by eapply HP, Hw.
Qed.
Lemma item_leaves k v : leaves (fun m => (k, v) ∈ m) (item k v).
Proof. intros c r [= <-]. set_solver. Qed.
Lemma secret_leaves k x :
  leaves (fun m => (k, YStr (secret_or_empty x)) ∈ m) (from_res (or_zero (sg_GetSecretKey s x)) (fun v => item k (YStr v))).
Proof.
  unfold secret_or_empty, from_res, or_zero. pose proof (ok_GetSecretKey _ Hs x) as Hp.
  destruct (sg_GetSecretKey s x) as [v|e|m]; simpl; [apply item_leaves..|by destruct (Hp m)].
Qed.
Lemma sd_configs_leaves {A} key (items : A → emitter) (P : MapSlice → Prop) (xs : list A) i x :
  xs !! i = Some x → leaves P (items x) →
  leaves (fun cfg => ∃ l m, (key, YMaps l) ∈ cfg ∧ l !! i = Some m ∧ P m) (sd_configs key items xs).
Proof.
  intros Hi Hx c r. unfold sd_configs, when, from_res. rewrite bool_decide_true by (by destruct xs).
  destruct (res_map _ xs) as [ms| |] eqn:E; [|done..]. intros [= <-]. apply res_map_ok in E.
  destruct (Forall2_lookup_l _ _ _ _ _ E Hi) as (m & Hm & Hmx). exists ms, m. split_and!; [set_solver|done|]. by eapply Hx.
Qed.
Lemma app_keeps k v (m m' : MapSlice) : (k, v) ∈ m → (k, v) ∈ m ++ m'.
Proof. set_solver. Qed.
Ltac member := repeat first [apply list_elem_of_here|apply list_elem_of_further].
Lemma from_res_appends {A} (r : res A) k : (∀ x, appends (k x)) → appends (from_res r k).
Proof. intros Hk c m. unfold from_res. destruct r; [apply Hk|done..]. Qed.
Lemma item_appends k v : appends (item k v).
Proof. intros c r [= <-]. eauto. Qed.
Ltac all_append :=
  repeat (apply Forall_cons_2; [first [apply from_res_appends; intros; apply item_appends|eapply emits_appends; emit]|]); apply Forall_nil_2.
Lemma OVHCloud_leaves c :
  leaves (fun m => ("application_secret", YStr (secret_or_empty (OVHCloudSDConfig_ApplicationSecret c))) ∈ m ∧
    ("consumer_key", YStr (secret_or_empty (OVHCloudSDConfig_ConsumerKey c))) ∈ m) (OVHCloudSDConfig_items s c).
Proof.
  intros c0 r Hr. unfold OVHCloudSDConfig_items in Hr. split; revert Hr.
  - apply (run_leaves (fun m => _ ∈ m) (from_res (or_zero (sg_GetSecretKey s (OVHCloudSDConfig_ApplicationSecret c)))
      (fun value => item "application_secret" (YStr value)))); [intros; by apply app_keeps|all_append|member|apply secret_leaves].
  - apply (run_leaves (fun m => _ ∈ m) (from_res (or_zero (sg_GetSecretKey s (OVHCloudSDConfig_ConsumerKey c)))
      (fun value => item "consumer_key" (YStr value)))); [intros; by apply app_keeps|all_append|member|apply secret_leaves].
Qed.
Lemma Scaleway_leaves c :
  leaves (fun m => ("secret_key", YStr (secret_or_empty (ScalewaySDConfig_SecretKey c))) ∈ m) (ScalewaySDConfig_items cg s c).
Proof.
  unfold ScalewaySDConfig_items. apply (run_leaves _ (from_res (or_zero (sg_GetSecretKey s (ScalewaySDConfig_SecretKey c)))
    (fun value => item "secret_key" (YStr value)))); [intros; by apply app_keeps|all_append|member|apply secret_leaves].
Qed.
Lemma basic_auth_leaves ba :
  leaves (fun m => ("basic_auth", YMap [("username", YStr (secret_or_empty (BasicAuth_Username ba)));
                          ("password", YStr (secret_or_empty (BasicAuth_Password ba)))]) ∈ m) (addBasicAuthToYaml cg s (Some ba)).
Proof.
  unfold addBasicAuthToYaml, from_res, or_zero, secret_or_empty, AppendMapItem. simpl. rewrite (wf_compatible _ Hcg).
  pose proof (ok_GetSecretKey _ Hs (BasicAuth_Username ba)) as Hp. pose proof (ok_GetSecretKey _ Hs (BasicAuth_Password ba)) as Hq.
  destruct (sg_GetSecretKey s (BasicAuth_Username ba)) as [u|e|m], (sg_GetSecretKey s (BasicAuth_Password ba)) as [w|e'|m'];
    try (by destruct (Hp m)); try (by destruct (Hq m')); intros c r [= <-]; set_solver.
Qed.
Lemma blocks_keep key (P : MapSlice → Prop) i (m m' : MapSlice) :
  (∃ l x, (key, YMaps l) ∈ m ∧ l !! i = Some x ∧ P x) → ∃ l x, (key, YMaps l) ∈ m ++ m' ∧ l !! i = Some x ∧ P x.
Proof. intros (l & x & Hl & Hx & HP). exists l, x. set_solver. Qed.
Ltac sd_append := repeat (apply Forall_cons_2; [apply sd_configs_appends|]); apply Forall_nil_2.
Lemma service_discovery_appends jobName spec : appends (appendServiceDiscoveryConfigs cg s jobName spec).
Proof.
  apply run_appends. sd_append.
Qed.
Lemma scrape_config_leaves (P : MapSlice → Prop) f sc n cfg :
  (∀ m m', P m → P (m ++ m')) → leaves P f →
  f = scrape_config_head cg s sc (getScrapeClassOrDefault cg (scs_ScrapeClassName (scrapeconfig_Spec sc))) ∨
  f = appendServiceDiscoveryConfigs cg s (scrapeConfig_job sc) (scrapeconfig_Spec sc) →
  generateScrapeConfig cg sc s n = Ok cfg → P cfg.
Proof.
  intros HP Hf Hin. unfold generateScrapeConfig. intros (lb & _ & Hr)%bind_ok_ex. revert Hr.
  assert (appends (appendNameValidationScheme cg (scs_NameValidationScheme (scrapeconfig_Spec sc)))) as Hval
    by (eapply emits_appends; unfold appendNameValidationScheme; emit).
  assert (appends (appendNameEscapingScheme cg (scs_NameEscapingScheme (scrapeconfig_Spec sc)))) as Hesc
    by (eapply emits_appends; unfold appendNameEscapingScheme; emit).
  apply (run_leaves P f); [done| |destruct Hin as [->| ->]; member|done].
  repeat apply Forall_cons_2; [eapply emits_appends, scrape_config_head_emits|apply service_discovery_appends| | |done|done|apply Forall_nil_2].
  - apply item_appends.
  - eapply emits_appends. emit.
Qed.
Lemma unchecked_secrets_written sc n cfg :
  generateScrapeConfig cg sc s n = Ok cfg → unchecked_written (scrapeconfig_Spec sc) cfg.
Proof.
  intros Hg. split_and!.
  - intros i c Hi.
    refine (scrape_config_leaves (fun cfg => ∃ l m, ("ovhcloud_sd_configs", YMaps l) ∈ cfg ∧ l !! i = Some m ∧
      (("application_secret", YStr (secret_or_empty (OVHCloudSDConfig_ApplicationSecret c))) ∈ m ∧
       ("consumer_key", YStr (secret_or_empty (OVHCloudSDConfig_ConsumerKey c))) ∈ m)) _ sc n cfg
      (blocks_keep _ _ i) _ (or_intror eq_refl) Hg).
    eapply (run_leaves _ (sd_configs "ovhcloud_sd_configs" (OVHCloudSDConfig_items s) (scs_OVHCloudSDConfigs (scrapeconfig_Spec sc))));
      [apply blocks_keep|sd_append|member|exact (sd_configs_leaves _ _ _ _ _ _ Hi (OVHCloud_leaves c))].
  - intros i c Hi.
    refine (scrape_config_leaves (fun cfg => ∃ l m, ("scaleway_sd_configs", YMaps l) ∈ cfg ∧ l !! i = Some m ∧
      ("secret_key", YStr (secret_or_empty (ScalewaySDConfig_SecretKey c))) ∈ m) _ sc n cfg
      (blocks_keep _ _ i) _ (or_intror eq_refl) Hg).
    eapply (run_leaves _ (sd_configs "scaleway_sd_configs" (ScalewaySDConfig_items cg s) (scs_ScalewaySDConfigs (scrapeconfig_Spec sc))));
      [apply blocks_keep|sd_append|member|exact (sd_configs_leaves _ _ _ _ _ _ Hi (Scaleway_leaves c))].
  - intros ba Hba. assert (auth_supported cg) by (split; [apply Hcg|done]). pose proof (wf_compatible _ Hcg).
    pose proof (params_conforms cg (default ∅ (scs_Params (scrapeconfig_Spec sc)))).
    refine (scrape_config_leaves (fun m => _ ∈ m) _ sc n cfg _ _ (or_introl eq_refl) Hg); [intros; by apply app_keeps|].
    unfold scrape_config_head. rewrite Hba.
    apply (run_leaves (fun m => _ ∈ m) (addBasicAuthToYaml cg s (Some ba))); [intros; by apply app_keeps|all_append|member|apply basic_auth_leaves].
Qed.
Lemma readableb_spec l : forallb readableb l = true ↔ readable s l.
Proof.
  rewrite forallb_forall. split.
  - intros Hl x Hx. specialize (Hl (Some x)). rewrite list_elem_of_In in Hx. specialize (Hl Hx). simpl in Hl.
    destruct (sg_GetSecretKey s x); by eauto.
  - intros Hl [x|] Hx; [|done]. apply list_elem_of_In in Hx. destruct (Hl x Hx) as [v Hv]. simpl. by rewrite Hv.
Qed.
End emits.
