(* ===== verification/PromCfg.v ===== *)
(** * The Prometheus configuration

    [GenerateServerConfiguration] and [GenerateAgentConfiguration] of pkg/prometheus/promcfg.go:
    the whole configuration from a Prometheus object and the resources it selects. The document
    is handed to [yaml.Marshal], a parameter like [yaml.Unmarshal]; the order in which Go visits
    the headers of the tracing configuration is an argument. *)

From S2P Require Import Prelude GoStrings SortUtil Meta Semver NamespaceLabeler MonitoringV1 Status.
From S2P Require Import PromTypes PromCommon AssetStore Yaml ConfigGenerator Relabel Monitors GlobalConfig.
From S2P Require Import ScrapeTypes ServiceDiscovery ScrapeConfigs.

Section configuration.
Context `{Semver} `{PromLibs} {C : Type} `{CacheStore C}.
Context (yaml_Unmarshal : string → res (list MapSlice)) (yaml_Marshal : yaml → res string).

(** ** Scrape configurations *)

(** The endpoints of all monitors, monitors by identifier. *)
Definition service_endpoints (sMons : gmap string ServiceMonitor) : list (ServiceMonitor * (nat * Endpoint)) :=
  m ← sorted_values sMons; imap (fun i ep => (m, (i, ep))) (sms_Endpoints (sm_Spec m)).
Definition pod_endpoints (pMons : gmap string PodMonitor) : list (PodMonitor * (nat * PodMetricsEndpoint)) :=
  m ← sorted_values pMons; imap (fun i ep => (m, (i, ep))) (pms_PodMetricsEndpoints (pm_Spec m)).

Section append.
Context (cg : ConfigGenerator) (apiserverConfig : option APIServerConfig) (store : StoreBuilder C) (shards : Z).
Definition appendServiceMonitorConfigs (slices : list MapSlice) (serviceMonitors : gmap string ServiceMonitor)
    : res (list MapSlice) :=
  cfgs ← res_map (fun '(m, (i, ep)) => generateServiceMonitorConfig cg m ep i apiserverConfig store shards)
           (service_endpoints serviceMonitors);
  Ok (slices ++ cfgs).
Definition appendPodMonitorConfigs (slices : list MapSlice) (podMonitors : gmap string PodMonitor)
    : res (list MapSlice) :=
  cfgs ← res_map (fun '(m, (i, ep)) => generatePodMonitorConfig cg m ep i apiserverConfig store shards)
           (pod_endpoints podMonitors);
  Ok (slices ++ cfgs).
Definition appendProbeConfigs (slices : list MapSlice) (probes : gmap string Probe) : res (list MapSlice) :=
  cfgs ← res_map (fun m => generateProbeConfig cg m apiserverConfig store shards) (sorted_values probes);
  Ok (slices ++ cfgs).
Definition appendAdditionalScrapeConfigs (scrapeConfigs : list MapSlice) (additionalScrapeConfigs : option string)
    : res (list MapSlice) :=
  addl ← generateAdditionalScrapeConfigs yaml_Unmarshal cg additionalScrapeConfigs shards;
  Ok (scrapeConfigs ++ addl).
End append.

(** ** The document *)

(** [cfg, err = f(cfg); if err != nil { return nil, fmt.Errorf(fmt, err) }] *)
Definition or_fail (fmt : string) (f : emitter) : emitter := fun cfg => wrap fmt [] (f cfg).
Definition check_timeout (cpf : CommonPrometheusFields) : res () :=
  if bool_decide (cpf_ScrapeTimeout cpf ≠ "")
  then CompareScrapeTimeoutToScrapeInterval (cpf_ScrapeTimeout cpf) (cpf_ScrapeInterval cpf)
  else Ok ().

Section documents.
Context (cg : ConfigGenerator).
Context (sMons : gmap string ServiceMonitor) (pMons : gmap string PodMonitor) (probes : gmap string Probe).
Context (sCons : gmap string ScrapeConfig) (store : StoreBuilder C) (additionalScrapeConfigs : option string).
Context (order : list (string * string)).

Definition server_scrape_configs : res (list MapSlice) :=
  let apiserverConfig := cpf_APIServerConfig (cg_cpf cg) in
  let shards := shardsNumber (iface (prom cg)) in
  l ← appendServiceMonitorConfigs cg apiserverConfig store shards [] sMons;
  l ← appendPodMonitorConfigs cg apiserverConfig store shards l pMons;
  l ← appendProbeConfigs cg apiserverConfig store shards l probes;
  l ← wrap "generate scrape configs: %w" [] (appendScrapeConfigs cg l sCons store shards);
  wrap "generate additional scrape configs: %w" [] (appendAdditionalScrapeConfigs cg shards l additionalScrapeConfigs).
Definition GenerateServerConfiguration (p : PrometheusSpec)
    (additionalAlertRelabelConfigs additionalAlertManagerConfigs : option string) (ruleConfigMapNames : list string)
    : res string :=
  let cpf := cg_cpf cg in
  _ ← check_timeout cpf;
  cfg ← run [
    from_res (run [buildGlobalConfig cg; appendEvaluationInterval (spec_EvaluationInterval p);
                   appendRuleQueryOffset cg (spec_RuleQueryOffset p); appendQueryLogFile cg (spec_QueryLogFile p)] [])
      (fun globalCfg => item "global" (YMap globalCfg));
    appendRuntime cg;
    appendRuleFiles ruleConfigMapNames (spec_RuleSelector p);
    from_res server_scrape_configs (fun scrapeConfigs => item "scrape_configs" (YMaps scrapeConfigs));
    or_fail "generating storage_settings configuration failed: %w" (appendStorageSettingsConfig cg (spec_Exemplars p));
    from_res (ForNamespace store (om_Namespace (po_ObjectMeta (prom cg)))) (fun cos =>
      let s := getter cos in run [
      or_fail "generating alerting configuration failed: %w"
        (appendAlertingConfig yaml_Unmarshal cg (spec_Alerting p) additionalAlertRelabelConfigs additionalAlertManagerConfigs s);
      when (bool_decide (cpf_RemoteWrite cpf ≠ [])) (append_item (GenerateRemoteWriteConfig cg (cpf_RemoteWrite cpf) s));
      when (bool_decide (spec_RemoteRead p ≠ [])) (append_item (generateRemoteReadConfig cg (spec_RemoteRead p) s));
      or_fail "failed to generate OTLP configuration: %w" (appendOTLPConfig cg);
      or_fail "failed to generate tracing configuration: %w" (appendTracingConfig cg s order)])] [];
  yaml_Marshal (YMap cfg).

Definition agent_scrape_configs : res (list MapSlice) :=
  let apiserverConfig := cpf_APIServerConfig (cg_cpf cg) in
  let shards := shardsNumber (iface (prom cg)) in
  l ← appendPodMonitorConfigs cg apiserverConfig store shards [] pMons;
  l ← wrap "generate additional scrape configs: %w" []
        (appendAdditionalScrapeConfigs cg shards l additionalScrapeConfigs);
  if daemonSet cg then Ok l
  else
    l ← appendServiceMonitorConfigs cg apiserverConfig store shards l sMons;
    l ← appendProbeConfigs cg apiserverConfig store shards l probes;
    wrap "generate scrape configs: %w" [] (appendScrapeConfigs cg l sCons store shards).
Definition GenerateAgentConfiguration : res string :=
  let cpf := cg_cpf cg in
  _ ← check_timeout cpf;
  cfg ← run [
    from_res (buildGlobalConfig cg []) (fun globalCfg => item "global" (YMap globalCfg));
    appendRuntime cg;
    from_res agent_scrape_configs (fun scrapeConfigs => item "scrape_configs" (YMaps scrapeConfigs));
    agent_storage cg;
    from_res (ForNamespace store (om_Namespace (po_ObjectMeta (prom cg)))) (fun cos =>
      let s := getter cos in run [
      when (bool_decide (cpf_RemoteWrite cpf ≠ [])) (append_item (GenerateRemoteWriteConfig cg (cpf_RemoteWrite cpf) s));
      or_fail "failed to generate OTLP configuration: %w" (appendOTLPConfig cg);
      or_fail "failed to generate tracing configuration: %w" (appendTracingConfig cg s order)])] [];
  yaml_Marshal (YMap cfg).
End documents.
End configuration.

(** ** Names of jobs *)

(** Objects by identifier, as selection leaves them: the identifier is the namespace and the name,
    which contain no slash, and the namespace is not empty. *)
Definition no_slash (om : ObjectMeta) : Prop :=
  contains_char "/" (om_Namespace om) = false ∧ contains_char "/" (om_Name om) = false.
Definition objects_ok {A} (meta : A → ObjectMeta) (P : A → Prop) (m : gmap string A) : Prop :=
  ∀ k x, m !! k = Some x →
    k = om_Namespace (meta x) +:+ "/" +:+ om_Name (meta x) ∧ no_slash (meta x) ∧ om_Namespace (meta x) ≠ "" ∧ P x.
Definition object_job (kind : string) (om : ObjectMeta) : string :=
  kind +:+ "/" +:+ om_Namespace om +:+ "/" +:+ om_Name om.
Definition endpoint_job (kind : string) (om : ObjectMeta) (i : nat) : string :=
  kind +:+ "/" +:+ om_Namespace om +:+ "/" +:+ om_Name om +:+ "/" +:+ Itoa (Z.of_nat i).
Definition kind_of_job (kind j : string) : Prop := head (Split j "/") = Some kind.

Section jobs.
Lemma split_slash a t : contains_char "/" a = false → Split (a +:+ "/" +:+ t) "/" = a :: Split t "/".
Proof. intros Ha. exact (Split_app a t "/" Ha). Qed.
Context (kind : string) (Hk : contains_char "/" kind = false).
Lemma object_job_split om : no_slash om → Split (object_job kind om) "/" = [kind; om_Namespace om; om_Name om].
Proof. intros [Hns Hn]. unfold object_job. rewrite !split_slash by done. by rewrite Split_no_sep. Qed.
Lemma endpoint_job_split om i :
  no_slash om → Split (endpoint_job kind om i) "/" = [kind; om_Namespace om; om_Name om; Itoa (Z.of_nat i)].
Proof.
  intros [Hns Hn]. unfold endpoint_job. rewrite !split_slash by done.
  by rewrite Split_no_sep by by apply Itoa_no_char.
Qed.

Context {A : Type} (meta : A → ObjectMeta) (P : A → Prop) (m : gmap string A) (Hm : objects_ok meta P m).
Lemma sorted_objects x : x ∈ sorted_values m → no_slash (meta x) ∧ om_Namespace (meta x) ≠ "" ∧ P x.
Proof. intros [k Hx]%elem_of_sorted_values. by destruct (Hm k x Hx) as (_ & ? & ? & ?). Qed.
Lemma sorted_same x y :
  x ∈ sorted_values m → y ∈ sorted_values m → om_Namespace (meta x) = om_Namespace (meta y) →
  om_Name (meta x) = om_Name (meta y) → x = y.
Proof.
  intros [k Hx]%elem_of_sorted_values [k' Hy]%elem_of_sorted_values Hns Hn.
  destruct (Hm k x Hx) as [-> _], (Hm k' y Hy) as [-> _]. rewrite Hns, Hn in Hx. congruence.
Qed.
Lemma sorted_NoDup : NoDup (sorted_values m).
Proof.
  rewrite <-(list_fmap_id (sorted_values m)). apply NoDup_sorted_values. intros k k' x y Hx Hy E. simpl in E. subst y.
  by destruct (Hm k x Hx) as [-> _], (Hm k' x Hy) as [-> _].
Qed.
Lemma object_jobs_NoDup : NoDup ((fun x => object_job kind (meta x)) <$> sorted_values m).
Proof.
  apply NoDup_fmap_2_strong; [|apply sorted_NoDup]. intros x y Hx Hy E.
  pose proof (f_equal (fun j => Split j "/") E) as Es. simpl in Es.
  rewrite !object_job_split in Es by (by apply sorted_objects). injection Es as Hns Hn. by apply sorted_same.
Qed.
Lemma object_jobs_kind : Forall (kind_of_job kind) ((fun x => object_job kind (meta x)) <$> sorted_values m).
Proof.
  apply Forall_fmap, Forall_forall. intros x Hx. unfold kind_of_job, compose.
  by rewrite object_job_split by by apply sorted_objects.
Qed.
Definition endpoint_jobs {E} (eps : A → list E) : list string :=
  x ← sorted_values m; imap (fun i _ => endpoint_job kind (meta x) i) (eps x).
Lemma elem_of_endpoint_jobs {E} (eps : A → list E) x j :
  j ∈ imap (fun i _ => endpoint_job kind (meta x) i) (eps x) → ∃ i, j = endpoint_job kind (meta x) i.
Proof. intros (i & e & -> & _)%elem_of_lookup_imap_1. eauto. Qed.
Lemma endpoint_jobs_NoDup {E} (eps : A → list E) : NoDup (endpoint_jobs eps).
Proof.
  unfold endpoint_jobs. apply NoDup_bind; [| |apply sorted_NoDup].
  - intros x y j Hx Hy [i ->]%elem_of_endpoint_jobs [i' Ej]%elem_of_endpoint_jobs.
    pose proof (f_equal (fun j => Split j "/") Ej) as Es. simpl in Es.
    rewrite !endpoint_job_split in Es by (by apply sorted_objects). injection Es as Hns Hn _. by apply sorted_same.
  - intros x Hx. apply NoDup_alt. intros i i' j. rewrite !list_lookup_imap.
    destruct (eps x !! i), (eps x !! i'); simpl; intros [= <-] [= Ej].
    pose proof (f_equal (fun j => Split j "/") Ej) as Es. simpl in Es.
    rewrite !endpoint_job_split in Es by (by apply sorted_objects). injection Es as Hi. apply (inj pretty) in Hi. lia.
Qed.
Lemma endpoint_jobs_kind {E} (eps : A → list E) : Forall (kind_of_job kind) (endpoint_jobs eps).
Proof.
  apply Forall_forall. intros j (x & Hj & Hx)%list_elem_of_bind. apply elem_of_endpoint_jobs in Hj as [i ->].
  unfold kind_of_job. by rewrite endpoint_job_split by by apply sorted_objects.
Qed.
End jobs.
Lemma jobs_app k l l' :
  NoDup l → NoDup l' → Forall (kind_of_job k) l → Forall (fun j => ¬ kind_of_job k j) l' → NoDup (l ++ l').
Proof.
  intros Hl Hl' Hk Hk'. apply NoDup_app. split; [done|]. split; [|done]. intros j Hj Hj'.
  rewrite Forall_forall in Hk, Hk'. by apply (Hk' j), Hk.
Qed.
Lemma other_kind k k' l : k ≠ k' → Forall (kind_of_job k) l → Forall (fun j => ¬ kind_of_job k' j) l.
Proof.
  intros Hne Hl. eapply Forall_impl; [exact Hl|]. unfold kind_of_job. intros j -> [=]. done.
Qed.

(** ** The generated scrape configurations *)

Lemma res_map_ext {A B} (f g : A → res B) l : (∀ x, x ∈ l → f x = g x) → res_map f l = res_map g l.
Proof.
  induction l as [|x l IH]; intros Hfg; simpl; [done|]. rewrite Hfg by set_solver. rewrite IH by set_solver. done.
Qed.
Lemma res_map_fmap {A B D} (f : B → res D) (g : A → B) l : res_map f (g <$> l) = res_map (fun x => f (g x)) l.
Proof. induction l as [|x l IH]; csimpl; [done|]. by rewrite IH. Qed.
(** A list is generated item by item. *)
Lemma res_map_each {A B} (f : A → res B) (Q : A → B → Prop) l :
  (∀ x, x ∈ l → ∃ y, f x = Ok y ∧ Q x y) → ∃ ys, res_map f l = Ok ys ∧ Forall2 Q l ys.
Proof.
  induction l as [|x l IH]; intros Hl; simpl; [exists []; split; [done|constructor]|].
  destruct (Hl x) as (y & -> & Hy); [set_solver|]. destruct IH as (ys & -> & Hys); [set_solver|]. simpl. eauto.
Qed.

(** The format of a whole configuration. Scrape configurations, Alertmanagers and alert relabelings
    may also come from the user as text ([scrapes], [ams], [relabels]); all others are typed. *)
Definition job_schema : schema := SEither (SObj scrape_fields) (SObj scrape_config_fields).
Definition config_fields (scrapes ams relabels : list MapSlice) : fields := [
  fld "global" (SObj global_fields); since "2.53.0" "runtime" (SObj [fld "gogc" SInt]); fld "rule_files" (SSeq SStr);
  fld "scrape_configs" (SSeq (SEither (SGiven scrapes) job_schema)); since "2.29.0" "storage" storage_schema;
  fld "alerting" (alerting_schema ams relabels);
  fld "remote_write" (SSeq (SObj remote_write_fields)); fld "remote_read" (SSeq (SObj remote_read_fields));
  since "2.55.0" "otlp" otlp_schema; fld "tracing" tracing_schema].

Section scrape_configs.
Context `{SemverLaws} `{PromLibs} {C : Type} `{CacheStore C}.
Context (um : string → res (list MapSlice)).
Context (cg : ConfigGenerator) (api : option APIServerConfig) (store : StoreBuilder C) (Hr : ready cg api store).
Context (shards : Z).

(** A scrape configuration that follows the format, under a given job name. *)
Definition job_config (j : string) (cfg : MapSlice) : Prop :=
  head cfg = Some ("job_name", YStr j) ∧
  conforms (supported cg) job_schema (YMap cfg).
(** [f] returns its argument with one scrape configuration for each of [jobs]. *)
Definition appends_jobs (jobs : list string) (f : list MapSlice → res (list MapSlice)) : Prop :=
  ∃ cfgs, Forall2 job_config jobs cfgs ∧ ∀ l, f l = Ok (l ++ cfgs).

Lemma appends_generated {A} (f : A → res MapSlice) (job : A → string) l :
  (∀ x, x ∈ l → ∃ cfg, f x = Ok cfg ∧ job_config (job x) cfg) →
  appends_jobs (job <$> l) (fun slices => cfgs ← res_map f l; Ok (slices ++ cfgs)).
Proof.
  intros (cfgs & Hc & Hj)%(res_map_each f (fun x => job_config (job x))). exists cfgs. split.
  - by apply Forall2_fmap_l.
  - intros slices. by rewrite Hc.
Qed.
Lemma generate_job x : monitor_ok x → ∃ cfg, generate cg api store shards x = Ok cfg ∧ job_config (monitor_job x) cfg.
Proof.
  intros (lb & _ & cfg & Hg & Hc & Hj & _)%(generate_ok cg api store Hr x shards). exists cfg. split; [done|].
  split; [done|]. by apply conforms_left.
Qed.

(** What selection checks. *)
Definition service_ok (m : ServiceMonitor) : Prop :=
  selector_ok (sms_Selector (sm_Spec m)) ∧
  Forall (fun ep => TLSConfig_Validate (ep_TLSConfig ep) = Ok ()) (sms_Endpoints (sm_Spec m)).
Definition pod_ok (m : PodMonitor) : Prop := selector_ok (pms_Selector (pm_Spec m)).
Definition secrets_ok (sc : ScrapeConfig) : Prop :=
  ∀ cos, ForNamespace store (om_Namespace (scrapeconfig_ObjectMeta sc)) = Ok cos →
    readable (getter cos) (checked_secrets (scrapeconfig_Spec sc)).

Lemma imap_bind {A B E} (job : A → nat → B) (eps : A → list E) (l : list A) :
  (fun '(m, (i, _)) => job m i) <$> (m ← l; imap (fun i ep => (m, (i, ep))) (eps m)) =
  m ← l; imap (fun i _ => job m i) (eps m).
Proof.
  induction l as [|m l IH]; csimpl; [done|]. rewrite fmap_app, IH. f_equal.
  by rewrite fmap_imap.
Qed.
Lemma service_configs sMons : objects_ok sm_ObjectMeta service_ok sMons →
  appends_jobs (endpoint_jobs "serviceMonitor" sm_ObjectMeta sMons (fun m => sms_Endpoints (sm_Spec m)))
    (fun l => appendServiceMonitorConfigs cg api store shards l sMons).
Proof.
  intros Ho. unfold endpoint_jobs. rewrite <-imap_bind. apply appends_generated.
  intros (m & i & ep) (m' & Hin & Hm)%list_elem_of_bind. apply elem_of_lookup_imap in Hin as (i' & ep' & [= -> -> ->] & Hep).
  apply (sorted_objects _ _ _ Ho) in Hm as (_ & Hns & Hsel & Htls).
  apply (generate_job (MService m' ep' i')). split; [done|]. split; [done|].
  rewrite Forall_forall in Htls. apply Htls. by apply list_elem_of_lookup_2 in Hep.
Qed.
Lemma pod_configs pMons : objects_ok pm_ObjectMeta pod_ok pMons →
  appends_jobs (endpoint_jobs "podMonitor" pm_ObjectMeta pMons (fun m => pms_PodMetricsEndpoints (pm_Spec m)))
    (fun l => appendPodMonitorConfigs cg api store shards l pMons).
Proof.
  intros Ho. unfold endpoint_jobs. rewrite <-imap_bind. apply appends_generated.
  intros (m & i & ep) (m' & Hin & Hm)%list_elem_of_bind. apply elem_of_lookup_imap in Hin as (i' & ep' & [= -> -> ->] & Hep).
  apply (sorted_objects _ _ _ Ho) in Hm as (_ & Hns & Hsel). by apply (generate_job (MPod m' ep' i')).
Qed.
Lemma probe_configs probes : objects_ok probe_ObjectMeta (fun _ => True) probes →
  appends_jobs ((fun m => object_job "probe" (probe_ObjectMeta m)) <$> sorted_values probes)
    (fun l => appendProbeConfigs cg api store shards l probes).
Proof.
  intros Ho. apply appends_generated. intros m Hm. apply (sorted_objects _ _ _ Ho) in Hm as (_ & Hns & _).
  by apply (generate_job (MProbe m)).
Qed.
Lemma scrapeConfig_configs sCons : objects_ok scrapeconfig_ObjectMeta secrets_ok sCons →
  appends_jobs ((fun sc => object_job "scrapeConfig" (scrapeconfig_ObjectMeta sc)) <$> sorted_values sCons)
    (fun l => appendScrapeConfigs cg l sCons store shards).
Proof.
  intros Ho. apply appends_generated. intros sc Hsc. apply (sorted_objects _ _ _ Ho) in Hsc as (_ & Hns & Hsec).
  destruct (ForNamespace_ok _ _ _ Hr _ Hns) as (cos & Hf & Hok). rewrite Hf. cbn [mbind res_bind].
  destruct (ready_labeler _ _ _ Hr) as [lb Hlb].
  destruct (generateScrapeConfig_ok cg (getter cos) (ready_cg _ _ _ Hr) (ready_version _ _ _ Hr) Hok sc shards lb Hlb (Hsec cos Hf))
    as (cfg & Hg & Hc & _ & Hj).
  exists cfg. split; [done|]. split; [done|]. by apply conforms_right.
Qed.
End scrape_configs.

(** ** The whole configuration *)

(** Additional scrape configurations in which [relabel_configs] is a list of maps. *)
Definition additional_wf (l : list MapSlice) : Prop :=
  Forall (Forall (fun kv => kv.1 = "relabel_configs" → ∃ rs, kv.2 = YMaps rs)) l.
Lemma relabelings_of_maps rs : relabelings_of (YMaps rs) = Ok rs.
Proof. unfold relabelings_of, YMaps. rewrite res_map_fmap, res_map_total. by rewrite list_fmap_id. Qed.
Lemma split_relabelings_ok m :
  Forall (fun kv => kv.1 = "relabel_configs" → ∃ rs, kv.2 = YMaps rs) m → ∃ r, split_relabelings m = Ok r.
Proof.
  induction 1 as [|[k v] m Hkv _ [[others rs] IH]]; simpl; [eauto|]. rewrite IH. case_bool_decide as Hk; [by eexists|].
  destruct (Hkv Hk) as [rs' E]. simpl in E. subst v. rewrite relabelings_of_maps. by eexists.
Qed.
Lemma additional_ok `{Semver} `{PromLibs} um cg text shards l :
  um (default "" text) = Ok l → additional_wf l → ∃ l', generateAdditionalScrapeConfigs um cg text shards = Ok l'.
Proof.
  intros Hu Hwf. unfold generateAdditionalScrapeConfigs. rewrite Hu. cbn [wrap mbind res_bind].
  destruct (daemonSet cg || _); [eauto|].
  destruct (res_map_each (fun mapSlice => '(others, relabelings) ← split_relabelings mapSlice;
      Ok (others ++ [("relabel_configs", YMaps (appendShardingRelabelingWithAddressIfMissing relabelings shards))]))
    (fun _ _ => True) l) as (ys & Hys & _); [|eauto].
  intros m Hm. unfold additional_wf in Hwf. rewrite Forall_forall in Hwf.
  destruct (split_relabelings_ok m (Hwf m Hm)) as [[others rs] ->]. by eexists.
Qed.
Lemma emits_or_fail ok fs fmt f : emits ok fs f → emits ok fs (or_fail fmt f).
Proof. intros Hf cfg. destruct (Hf cfg) as (m & Hm & Ha). exists m. split; [|done]. unfold or_fail. by rewrite Hm. Qed.

Section whole.
Context `{SemverLaws} `{PromLibs} {C : Type} `{CacheStore C}.
Context (um : string → res (list MapSlice)) (marshal : yaml → res string).
Context (cg : ConfigGenerator) (sMons : gmap string ServiceMonitor) (pMons : gmap string PodMonitor).
Context (probes : gmap string Probe) (sCons : gmap string ScrapeConfig) (store : StoreBuilder C).
Context (additional : option string) (order : list (string * string)).

(** What holds of the inputs of both functions once the resources are selected. *)
Record inputs_ok : Prop := {
  in_ready : ready cg (cpf_APIServerConfig (cg_cpf cg)) store;
  in_namespace : om_Namespace (po_ObjectMeta (prom cg)) ≠ "";
  in_services : objects_ok sm_ObjectMeta service_ok sMons;
  in_pods : objects_ok pm_ObjectMeta pod_ok pMons;
  in_probes : objects_ok probe_ObjectMeta (fun _ => True) probes;
  in_scrapeConfigs : objects_ok scrapeconfig_ObjectMeta (secrets_ok store) sCons;
  in_timeout : check_timeout (cg_cpf cg) = Ok ();
  in_additional : ∃ l, generateAdditionalScrapeConfigs um cg additional (shardsNumber (iface (prom cg))) = Ok l;
  in_remote_write : Forall (fun r => TLSConfig_Validate (rw_TLSConfig r) = Ok ()) (cpf_RemoteWrite (cg_cpf cg));
  in_otlp : otlp_accepted cg;
  in_tracing : ∀ t, cpf_TracingConfig (cg_cpf cg) = Some t →
    TLSConfig_Validate (tracing_TLSConfig t) = Ok () ∧ header_order (tracing_Headers t) order;
}.
Context (Hin : inputs_ok).

Definition service_jobs : list string := endpoint_jobs "serviceMonitor" sm_ObjectMeta sMons (fun m => sms_Endpoints (sm_Spec m)).
Definition pod_jobs : list string := endpoint_jobs "podMonitor" pm_ObjectMeta pMons (fun m => pms_PodMetricsEndpoints (pm_Spec m)).
Definition probe_jobs : list string := (fun m => object_job "probe" (probe_ObjectMeta m)) <$> sorted_values probes.
Definition scrapeConfig_jobs : list string :=
  (fun sc => object_job "scrapeConfig" (scrapeconfig_ObjectMeta sc)) <$> sorted_values sCons.
Definition all_jobs : list string := service_jobs ++ pod_jobs ++ probe_jobs ++ scrapeConfig_jobs.

Lemma all_jobs_NoDup : NoDup all_jobs.
Proof.
  destruct Hin as [_ _ Hs Hp Hpr Hsc _ _ _ _ _].
  pose proof (endpoint_jobs_kind "serviceMonitor" eq_refl _ _ _ Hs (fun m => sms_Endpoints (sm_Spec m))).
  pose proof (endpoint_jobs_kind "podMonitor" eq_refl _ _ _ Hp (fun m => pms_PodMetricsEndpoints (pm_Spec m))).
  pose proof (object_jobs_kind "probe" eq_refl _ _ _ Hpr). pose proof (object_jobs_kind "scrapeConfig" eq_refl _ _ _ Hsc).
  unfold all_jobs, service_jobs, pod_jobs, probe_jobs, scrapeConfig_jobs.
  apply (jobs_app "serviceMonitor"); [by eapply endpoint_jobs_NoDup| |done|].
  2: { rewrite !Forall_app. split_and!; (eapply other_kind; [|eassumption]; done). }
  apply (jobs_app "podMonitor"); [by eapply endpoint_jobs_NoDup| |done|].
  2: { rewrite !Forall_app. split_and!; (eapply other_kind; [|eassumption]; done). }
  apply (jobs_app "probe"); [by eapply object_jobs_NoDup|by eapply object_jobs_NoDup|done|].
  eapply other_kind; [|eassumption]; done.
Qed.
Lemma server_scrape_configs_ok :
  ∃ cfgs addl, server_scrape_configs um cg sMons pMons probes sCons store additional = Ok (cfgs ++ addl) ∧
    generateAdditionalScrapeConfigs um cg additional (shardsNumber (iface (prom cg))) = Ok addl ∧
    Forall2 (job_config cg) all_jobs cfgs.
Proof.
  destruct Hin as [Hr _ Hs Hp Hpr Hsc _ [addl Hal] _ _ _]. unfold server_scrape_configs.
  set (n := shardsNumber _) in *.
  destruct (service_configs _ _ _ Hr n _ Hs) as (a & Ha & Ea), (pod_configs _ _ _ Hr n _ Hp) as (b & Hb & Eb),
    (probe_configs _ _ _ Hr n _ Hpr) as (c & Hc & Ec), (scrapeConfig_configs _ _ _ Hr n _ Hsc) as (d & Hd & Ed).
  rewrite Ea. cbn [mbind res_bind]. rewrite Eb. cbn [mbind res_bind]. rewrite Ec. cbn [mbind res_bind].
  rewrite Ed. unfold appendAdditionalScrapeConfigs. cbn [wrap mbind res_bind]. rewrite Hal. cbn [wrap mbind res_bind].
  exists (a ++ b ++ c ++ d), addl. split; [by rewrite <-!app_assoc|]. split; [done|]. by repeat apply Forall2_app.
Qed.
Lemma agent_scrape_configs_ok :
  ∃ pods addl others, agent_scrape_configs um cg sMons pMons probes sCons store additional = Ok (pods ++ addl ++ others) ∧
    generateAdditionalScrapeConfigs um cg additional (shardsNumber (iface (prom cg))) = Ok addl ∧
    Forall2 (job_config cg) pod_jobs pods ∧
    Forall2 (job_config cg) (if daemonSet cg then [] else service_jobs ++ probe_jobs ++ scrapeConfig_jobs) others.
Proof.
  destruct Hin as [Hr _ Hs Hp Hpr Hsc _ [addl Hal] _ _ _]. unfold agent_scrape_configs.
  set (n := shardsNumber _) in *.
  destruct (service_configs _ _ _ Hr n _ Hs) as (a & Ha & Ea), (pod_configs _ _ _ Hr n _ Hp) as (b & Hb & Eb),
    (probe_configs _ _ _ Hr n _ Hpr) as (c & Hc & Ec), (scrapeConfig_configs _ _ _ Hr n _ Hsc) as (d & Hd & Ed).
  rewrite Eb. unfold appendAdditionalScrapeConfigs. cbn [mbind res_bind]. rewrite Hal. cbn [wrap mbind res_bind].
  destruct (daemonSet cg).
  - exists b, addl, []. rewrite app_nil_r. split; [done|]. split; [done|]. by split; [|constructor].
  - rewrite Ea. cbn [mbind res_bind]. rewrite Ec. cbn [mbind res_bind]. rewrite Ed. cbn [wrap].
    exists b, addl, (a ++ c ++ d). split; [by rewrite <-!app_assoc|]. do 2 (split; [done|]). by repeat apply Forall2_app.
Qed.

Lemma global_object_emits fs f :
  emits (supported cg) fs f → emits (supported cg) [fld "global" (SObj fs)] (from_res (f []) (fun g => item "global" (YMap g))).
Proof. intros Hf. eapply emits_nested; [exact Hf|]. intros m Hm. by apply emits_item. Qed.
Lemma agent_storage_emits : emits (supported cg) [since "2.29.0" "storage" storage_schema] (agent_storage cg).
Proof.
  unfold agent_storage. apply emits_if_set. intros w _. unfold AppendMapItem.
  rewrite (wf_compatible _ (ready_cg _ _ _ (in_ready Hin))). apply emits_from_res. eexists. split; [done|].
  destruct (notCompatible (WithMinimumVersion cg "2.54.0")) eqn:E; [apply emits_skip|].
  assert (supported cg (Since (release (2, 54, 0)%Z)) = true) as Hv.
  { apply IsCompatible_min. unfold IsCompatible. change (release (2, 54, 0)%Z) with "2.54.0". by rewrite E. }
  apply emits_item.
  - by apply (supported_release cg (2, 54, 0)%Z (2, 29, 0)%Z); [by vm_compute..|].
  - apply conforms_obj; [table|]. apply Forall_singleton. do 2 eexists. split; [apply list_elem_of_further, list_elem_of_here|].
    split; [by apply (supported_release cg (2, 54, 0)%Z (2, 39, 0)%Z); [by vm_compute..|]|]. simpl. emit_obj.
Qed.
(** A section that is known already. *)
Ltac from_ok :=
  repeat match goal with |- context [from_res (Ok ?x) ?k] => change (from_res (Ok x) k) with (k x) end; cbv beta zeta.
(** Split the run at a key. *)
Ltac split_at key l acc k :=
  lazymatch l with
  | item key ?v :: ?l2 => let acc' := eval cbn [rev app] in (rev acc) in k acc' v l2
  | ?f :: ?l' => split_at key l' (f :: acc) k
  end.
(** The fields of a run among those of a table with parameters. *)
Ltac members :=
  cbn [app]; let f := fresh "f" in let Hf := fresh "Hf" in
  intros f Hf; repeat (apply elem_of_cons in Hf as [-> |Hf]; [emit_member|]); by apply elem_of_nil in Hf.
Ltac document_emits := eapply emits_run; [emit_list|table|members].
Ltac document_run key fs :=
  lazymatch goal with |- context [run ?l []] =>
    split_at key l (@nil emitter) ltac:(fun l1 v l2 =>
      let He := fresh "He" in let Ht := fresh "Ht" in
      assert (emits (supported cg) fs (run l)) as He by document_emits;
      assert (emits (supported cg) fs (run l2)) as Ht by document_emits;
      let cfg := fresh "cfg" in let Hrun := fresh "Hrun" in let Hconf := fresh "Hconf" in
      destruct (emits_conforms _ _ _ He) as (cfg & Hrun & Hconf); rewrite Hrun; cbn [mbind res_bind];
      eexists cfg, _; split; [reflexivity|]; split; [exact Hconf|]; split; [reflexivity|];
      exact (run_item_in _ _ l1 _ _ l2 [] cfg Hrun Ht))
  end.
(** Generated scrape configurations among those of the user. *)
Lemma jobs_conform (given l l1 l2 : list MapSlice) jobs1 jobs2 : l = l1 ++ given ++ l2 →
  Forall2 (job_config cg) jobs1 l1 → Forall2 (job_config cg) jobs2 l2 →
  conforms (supported cg) (SSeq (SEither (SGiven given) job_schema)) (YMaps l).
Proof.
  assert (∀ jobs k, Forall2 (job_config cg) jobs k → Forall (fun m => m ∈ given ∨ conforms (supported cg) job_schema (YMap m)) k) as Hj.
  { induction 1 as [|j m jobs k [_ Hm] _ IH]; constructor; auto. }
  intros -> Hl1%Hj Hl2%Hj. apply conforms_user_maps, Forall_app. split; [done|]. apply Forall_app. split; [|done]. apply Forall_forall. auto.
Qed.

Section documents.
Context (s : StoreGetter) (Hs : store_ok s).
Lemma remote_write_emits :
  emits (supported cg) [fld "remote_write" (SSeq (SObj remote_write_fields))]
    (append_item (GenerateRemoteWriteConfig cg (cpf_RemoteWrite (cg_cpf cg)) s)).
Proof. destruct Hin as [[Hcg Hv _ _ _] ? ? ? ? ? ? ? ? ? ?]. by apply GenerateRemoteWriteConfig_emits. Qed.
Lemma otlp_emits fmt : emits (supported cg) [since "2.55.0" "otlp" otlp_schema] (or_fail fmt (appendOTLPConfig cg)).
Proof. destruct Hin. by apply emits_or_fail, appendOTLPConfig_emits. Qed.
Lemma tracing_emits fmt : emits (supported cg) [fld "tracing" tracing_schema] (or_fail fmt (appendTracingConfig cg s order)).
Proof. destruct Hin as [[Hcg Hv _ _ _] ? ? ? ? ? ? ? ? ? ?]. by apply emits_or_fail, appendTracingConfig_emits. Qed.
End documents.
#[local] Hint Resolve remote_write_emits otlp_emits tracing_emits appendRuntime_emits appendRuleFiles_emits : emits.

(** The user's part of a configuration. *)
Definition user_part (scrapes ams relabels : list MapSlice) (relabel am : option string) : Prop :=
  generateAdditionalScrapeConfigs um cg additional (shardsNumber (iface (prom cg))) = Ok scrapes ∧
  given_by um am ams ∧ given_by um relabel relabels.
Lemma GenerateServerConfiguration_ok p rules relabel am :
  alerting_ok (spec_Alerting p) →
  (is_set (spec_Alerting p) || is_set relabel || is_set am = true → parses um relabel ∧ parses um am) →
  Forall (fun r => TLSConfig_Validate (rrd_TLSConfig r) = Ok ()) (spec_RemoteRead p) →
  ∃ scrapes ams relabels, user_part scrapes ams relabels relabel am ∧
  ∃ cfg l, GenerateServerConfiguration um marshal cg sMons pMons probes sCons store additional order p relabel am rules =
      marshal (YMap cfg) ∧
    conforms (supported cg) (SObj (config_fields scrapes ams relabels)) (YMap cfg) ∧
    server_scrape_configs um cg sMons pMons probes sCons store additional = Ok l ∧ ("scrape_configs", YMaps l) ∈ cfg.
Proof.
  intros Ha Hxy Hrr. pose proof Hin as [[Hcg Hv Hapi Hc Hlb] Hns Hsm Hp Hpr Hsc Ht Had Hrw Hotlp Htr].
  destruct server_scrape_configs_ok as (cfgs & addl & Hl & Haddl & Hjobs). unfold GenerateServerConfiguration. rewrite Ht, Hl.
  cbn [mbind res_bind].
  destruct (ForNamespace_ok _ _ _ (in_ready Hin) _ Hns) as (cos & Hf & Hok).
  destruct (appendAlertingConfig_emits cg (getter cos) Hcg Hv Hok um _ relabel am Hapi Ha Hxy) as (ams & relabels & Hams & Hrel & Hal).
  exists addl, ams, relabels. split; [done|].
  pose proof (emits_or_fail _ _ "generating storage_settings configuration failed: %w" _
    (appendStorageSettingsConfig_emits cg (spec_Exemplars p))).
  pose proof (emits_or_fail _ _ "generating alerting configuration failed: %w" _ Hal).
  pose proof (generateRemoteReadConfig_emits cg (getter cos) Hcg Hv Hok _ Hrr).
  pose proof (global_object_emits _ _ (server_global_emits cg (spec_EvaluationInterval p) (spec_RuleQueryOffset p) (spec_QueryLogFile p))).
  assert (conforms (supported cg) (SSeq (SEither (SGiven addl) job_schema)) (YMaps (cfgs ++ addl))) as Hscr.
  { eapply (jobs_conform _ _ cfgs [] _ []); [by rewrite app_nil_r|exact Hjobs|constructor]. }
  rewrite Hf. from_ok. document_run "scrape_configs" (config_fields addl ams relabels).
Qed.
Lemma GenerateAgentConfiguration_ok :
  ∃ scrapes, user_part scrapes [] [] None None ∧
  ∃ cfg l, GenerateAgentConfiguration um marshal cg sMons pMons probes sCons store additional order = marshal (YMap cfg) ∧
    conforms (supported cg) (SObj (config_fields scrapes [] [])) (YMap cfg) ∧
    agent_scrape_configs um cg sMons pMons probes sCons store additional = Ok l ∧ ("scrape_configs", YMaps l) ∈ cfg.
Proof.
  pose proof Hin as [[Hcg Hv Hapi Hc Hlb] Hns Hsm Hp Hpr Hsc Ht Had Hrw Hotlp Htr].
  destruct agent_scrape_configs_ok as (pods & addl & others & Hl & Haddl & Hpods & Hothers). unfold GenerateAgentConfiguration. rewrite Ht, Hl.
  cbn [mbind res_bind].
  destruct (ForNamespace_ok _ _ _ (in_ready Hin) _ Hns) as (cos & Hf & Hok).
  exists addl. split; [by split; [|split; left]|].
  pose proof agent_storage_emits.
  pose proof (global_object_emits _ _ (emits_weaken _ _ global_fields _ (buildGlobalConfig_emits cg) ltac:(table))).
  assert (conforms (supported cg) (SSeq (SEither (SGiven addl) job_schema)) (YMaps (pods ++ addl ++ others))) as Hscr.
  { by eapply jobs_conform. }
  rewrite Hf. from_ok. document_run "scrape_configs" (config_fields addl [] []).
Qed.
End whole.
