(* ===== verification/Limits.v ===== *)
(** * Enforced limits

    A Prometheus object may enforce limits on the targets it scrapes ([enforcedSampleLimit] and
    the like). The code writes them at two places: [getLimit] of pkg/prometheus/promcfg.go decides
    the limit of a scrape configuration, and [appendGlobalLimits] the limit of the global section,
    which Prometheus applies to scrape configurations without a limit of their own. This file
    proves that the two together enforce the limit. *)

From S2P Require Import Prelude GoStrings SortUtil Meta Semver NamespaceLabeler MonitoringV1.
From S2P Require Import PromTypes PromCommon AssetStore Yaml ConfigGenerator Relabel Monitors GlobalConfig.
From S2P Require Import ScrapeTypes ServiceDiscovery ScrapeConfigs.

(** ** Fields of a document *)

Definition field (k : string) (m : MapSlice) : option yaml := (list_to_map m : gmap string yaml) !! k.
Lemma field_app k m m' : k ∉ m.*1 → field k (m ++ m') = field k m'.
Proof.
  intros Hk. unfold field. rewrite list_to_map_app. apply lookup_union_r. by apply not_elem_of_list_to_map_1.
Qed.
Lemma field_app_l k m m' : k ∉ m'.*1 → field k (m ++ m') = field k m.
Proof.
  intros Hk. unfold field. rewrite list_to_map_app, lookup_union.
  rewrite (not_elem_of_list_to_map_1 m' k) by done. by destruct (list_to_map m !! k).
Qed.
(** Emitters that do not know a field leave it alone. *)
Lemma field_emits_r ok fs f cfg r k : emits ok fs f → k ∉ names fs → f cfg = Ok r → field k r = field k cfg.
Proof.
  intros Hf Hk Hr. destruct (Hf cfg) as (m & Hm & Ha). rewrite Hm in Hr. injection Hr as <-.
  apply field_app_l. intros Hin. by apply Hk, (allowed_names _ _ _ _ Ha).
Qed.
Lemma field_run ok fs gs l f l' cfg0 r k :
  emits ok fs (run l) → k ∉ names fs → emits ok gs (run l') → k ∉ names gs → k ∉ cfg0.*1 →
  run (l ++ f :: l') cfg0 = Ok r → ∃ m cfg, k ∉ m.*1 ∧ f m = Ok cfg ∧ field k r = field k cfg.
Proof.
  intros Hl Hk Hl' Hk' H0. rewrite run_app, bind_ok_ex. intros (m & Hm & Hr). cbn [run] in Hr.
  apply bind_ok_ex in Hr as (cfg & Hf & Hr). exists m, cfg. split; [|split; [done|by eapply field_emits_r]].
  destruct (Hl cfg0) as (m' & Hm' & Ha). rewrite Hm in Hm'. injection Hm' as ->.
  rewrite fmap_app, elem_of_app. intros [Hin|Hin]; [done|]. by apply Hk, (allowed_names _ _ _ _ Ha).
Qed.
(** Find the emitter of a field in a run. *)
Ltac pick f l acc k :=
  lazymatch l with
  | f :: ?l2 => let acc' := eval cbn [rev app] in (rev acc) in k acc' l2
  | ?g :: ?l' => pick f l' (g :: acc) k
  end.
Ltac field_of ok f H :=
  lazymatch type of H with run ?l ?cfg0 = Ok ?r =>
    pick f l (@nil emitter) ltac:(fun l1 l2 =>
      let He := fresh "He" in
      eassert (emits ok _ (run l1)) as He by emit;
      let He' := fresh "He" in
      eassert (emits ok _ (run l2)) as He' by emit;
      lazymatch goal with |- context [field ?k r] =>
        let m := fresh "m" in let cfg := fresh "cfg" in let Hm := fresh "Hm" in let Hf := fresh "Hf" in let Hr := fresh "Hr" in
        destruct (field_run _ _ _ l1 f l2 cfg0 r k He ltac:(table) He' ltac:(table) ltac:(first [table|done]) H)
          as (m & cfg & Hm & Hf & Hr); rewrite Hr; clear He He' Hr
      end)
  end.

(** ** Limits *)

(** The limit Prometheus applies: the one of the scrape configuration unless it is absent or zero,
    and then the one of the global section; zero is no limit. *)
Definition int_field (k : string) (m : MapSlice) : Z := match field k m with Some (YInt n) => n | _ => 0%Z end.
Definition effective_limit (global job : MapSlice) (k : string) : Z :=
  if decide (int_field k job = 0%Z) then int_field k global else int_field k job.

Definition limit_keys : list limitKey := [sampleLimitKey; targetLimitKey; labelLimitKey;
  labelNameLengthLimitKey; labelValueLengthLimitKey; keepDroppedTargetsKey].
(** The value of a key among those of [limit_keys]. *)
Definition limit_of (k : limitKey) (l : list (option Z)) : option Z :=
  nth (default 0 (fst <$> list_find (fun k' => lk_prometheusField k' = lk_prometheusField k) limit_keys)) l None.
Definition enforced_limit (cpf : CommonPrometheusFields) (k : limitKey) : option Z :=
  limit_of k [cpf_EnforcedSampleLimit cpf; cpf_EnforcedTargetLimit cpf; cpf_EnforcedLabelLimit cpf;
     cpf_EnforcedLabelNameLengthLimit cpf; cpf_EnforcedLabelValueLengthLimit cpf; cpf_EnforcedKeepDroppedTargets cpf].
Definition key_supported `{Semver} `{PromLibs} (cg : ConfigGenerator) (k : limitKey) : Prop :=
  lk_minVersion k = "" ∨ supported cg (Since (lk_minVersion k)) = true.

Section limits.
Context `{SemverLaws} `{PromLibs} (cg : ConfigGenerator) (Hcg : cg_wf cg).

Lemma AddLimits_field k l e m cfg :
  key_supported cg k → lk_prometheusField k ∉ m.*1 → AddLimitsToYAML cg k l e m = Ok cfg →
  field (lk_prometheusField k) cfg = YInt <$> getLimit cg l e.
Proof.
  intros Hk Hm. unfold AddLimitsToYAML. destruct (getLimit cg l e) as [n|]; simpl.
  - unfold AppendMapItem.
    assert (notCompatible (if bool_decide (lk_minVersion k = "") then cg else WithMinimumVersion cg (lk_minVersion k)) = false) as ->.
    { destruct Hk as [->|Hk]; [by rewrite bool_decide_true; [apply wf_compatible|]|].
      case_bool_decide; [by apply wf_compatible|]. apply min_version_supported; [by apply wf_compatible|done]. }
    intros [= <-]. rewrite field_app by done. unfold field. simpl. by rewrite lookup_insert_eq.
  - intros [= <-]. unfold field. by apply not_elem_of_list_to_map_1.
Qed.

Lemma limits_field a b c d e f k m cfg :
  k ∈ limit_keys → key_supported cg k → lk_prometheusField k ∉ m.*1 →
  limits cg a b c d e f m = Ok cfg →
  field (lk_prometheusField k) cfg =
    YInt <$> getLimit cg (limit_of k [a; b; c; d; e; f]) (enforced_limit (cg_cpf cg) k).
Proof.
  intros Hk Hs Hm Hl. unfold limits in Hl.
  repeat (apply elem_of_cons in Hk as [-> | Hk]; [
    match type of Hl with context [AddLimitsToYAML cg ?key ?x ?y] =>
      lazymatch type of Hm with context [key] =>
        field_of (supported cg) (AddLimitsToYAML cg key x y) Hl; by eapply AddLimits_field
      end
    end|]).
  by apply elem_of_nil in Hk.
Qed.

(** The global section has the enforced limit, or a lower one. *)
Lemma appendGlobalLimits_field v key l e n m cfg :
  supported cg (Since v) = true → key ∉ m.*1 → e = Some n → (0 < n)%Z →
  appendGlobalLimits (WithMinimumVersion cg v) key l e m = Ok cfg → (0 < int_field key cfg ≤ n)%Z.
Proof.
  intros Hv Hm -> Hn.
  assert (∀ x, AppendMapItem (WithMinimumVersion cg v) key (YInt x) m = Ok cfg → int_field key cfg = x) as Hf.
  { intros x. unfold AppendMapItem. rewrite min_version_supported by (done || by apply wf_compatible). intros [= <-].
    unfold int_field. rewrite field_app by done. unfold field. simpl. by rewrite lookup_insert_eq. }
  unfold appendGlobalLimits. simpl. repeat case_bool_decide; simpl; try lia; intros ->%Hf; lia.
Qed.
Lemma scrape_limits_field k n m cfg :
  k ∈ limit_keys → key_supported cg k → supported cg (Since "2.45.0") = true →
  lk_prometheusField k ∉ m.*1 → enforced_limit (cg_cpf cg) k = Some n → (0 < n)%Z →
  appendScrapeLimits cg m = Ok cfg → (0 < int_field (lk_prometheusField k) cfg ≤ n)%Z.
Proof.
  intros Hk Hs Hv Hm He Hn Hl. unfold appendScrapeLimits in Hl. unfold int_field.
  assert (∀ v key l e, emits (supported cg) [since v key SInt] (appendGlobalLimits (WithMinimumVersion cg v) key l e)) as Hg
    by (intros; apply appendGlobalLimits_emits).
  assert (emits (supported cg) [since "2.45.0" "body_size_limit" SStr]
    match cpf_BodySizeLimit (cg_cpf cg) with
    | Some b => AppendMapItem (WithMinimumVersion cg "2.45.0") "body_size_limit" (YStr b)
    | None => when (bool_decide (cpf_EnforcedBodySizeLimit (cg_cpf cg) ≠ ""))
                (AppendMapItem (WithMinimumVersion cg "2.45.0") "body_size_limit" (YStr (cpf_EnforcedBodySizeLimit (cg_cpf cg))))
    end) by (destruct (cpf_BodySizeLimit _); emit).
  repeat (apply elem_of_cons in Hk as [-> | Hk]; [
    cbn [lk_prometheusField sampleLimitKey targetLimitKey labelLimitKey labelNameLengthLimitKey labelValueLengthLimitKey
      keepDroppedTargetsKey] in Hm |- *;
    lazymatch type of Hm with ?key ∉ _ =>
    match type of Hl with context [appendGlobalLimits ?c key ?x ?y] =>
        field_of (supported cg) (appendGlobalLimits c key x y) Hl;
        eapply appendGlobalLimits_field; [|eassumption..]; first [exact Hv|by destruct Hs]
    end end|]).
  by apply elem_of_nil in Hk.
Qed.
Lemma global_field k n cfg :
  k ∈ limit_keys → key_supported cg k → supported cg (Since "2.45.0") = true →
  enforced_limit (cg_cpf cg) k = Some n → (0 < n)%Z →
  buildGlobalConfig cg [] = Ok cfg → (0 < int_field (lk_prometheusField k) cfg ≤ n)%Z.
Proof.
  intros Hk Hs Hv He Hn Hl.
  assert (conforms (supported cg) (SMap SStr) (YMap (buildExternalLabels cg))) by (unfold buildExternalLabels; emit_val).
  unfold buildGlobalConfig, appendScrapeIntervals, appendExternalLabels, appendScrapeFailureLogFile,
    appendNameValidationScheme, appendNameEscapingScheme, appendConvertClassicHistogramsToNHCB,
    appendConvertScrapeClassicHistograms in Hl.
  assert (∃ m cfg', lk_prometheusField k ∉ m.*1 ∧ appendScrapeLimits cg m = Ok cfg' ∧
    field (lk_prometheusField k) cfg = field (lk_prometheusField k) cfg') as (m & cfg' & Hm & Hf & Hr).
  { clear Hs He. repeat (apply elem_of_cons in Hk as [-> | Hk]; [
      field_of (supported cg) (appendScrapeLimits cg) Hl; by eauto|]). by apply elem_of_nil in Hk. }
  unfold int_field. rewrite Hr. by eapply scrape_limits_field.
Qed.
End limits.

(** ** Limits of the generated scrape configurations *)

Section generated.
Context `{SemverLaws} `{PromLibs} {C : Type} `{CacheStore C}.
Context (cg : ConfigGenerator) (api : option APIServerConfig) (store : StoreBuilder C) (Hr : ready cg api store).

Definition monitor_limits (x : monitor) : list (option Z) :=
  match x with
  | MPod m _ _ => let s := pm_Spec m in [pms_SampleLimit s; pms_TargetLimit s; pms_LabelLimit s;
      pms_LabelNameLengthLimit s; pms_LabelValueLengthLimit s; pms_KeepDroppedTargets s]
  | MService m _ _ => let s := sm_Spec m in [sms_SampleLimit s; sms_TargetLimit s; sms_LabelLimit s;
      sms_LabelNameLengthLimit s; sms_LabelValueLengthLimit s; sms_KeepDroppedTargets s]
  | MProbe m => let s := probe_Spec m in [prs_SampleLimit s; prs_TargetLimit s; prs_LabelLimit s;
      prs_LabelNameLengthLimit s; prs_LabelValueLengthLimit s; prs_KeepDroppedTargets s]
  end.
#[local] Hint Resolve params_conforms rules_yaml pod_relabelings_ok service_relabelings_ok probe_relabelings_ok
  monitor_sd_emits probe_targets_emits : emits.
#[local] Hint Resolve mergeSafeTLSConfig_exclusive mergeTLSConfig_exclusive getScrapeClassOrDefault_exclusive
  ready_cg wf_compatible : emits.
(** Every key is written by [limits] alone. *)
Ltac limits_of_run Hg Hk :=
  repeat (apply elem_of_cons in Hk as [-> | Hk]; [
    lazymatch type of Hg with context [limits ?c ?a ?b ?d ?e ?f ?g] =>
      field_of (supported cg) (limits c a b d e f g) Hg; eapply limits_field; [eassumption|unfold limit_keys; emit_member|eassumption..]
    end|]); by apply elem_of_nil in Hk.

Lemma monitor_limits_field x n k cfg :
  k ∈ limit_keys → key_supported cg k → monitor_ok x → generate cg api store n x = Ok cfg →
  field (lk_prometheusField k) cfg = YInt <$> getLimit cg (limit_of k (monitor_limits x)) (enforced_limit (cg_cpf cg) k).
Proof.
  pose proof Hr as [Hcg Hv Hapi Hc [lb Hlb]]. intros Hk Hs Hok.
  assert (auth_supported cg) by (split; [apply Hcg|done]). pose proof (wf_compatible _ Hcg).
  destruct x as [m ep i|m ep i|m]; destruct Hok as [Hns Hok]; simpl in Hns, Hok; cbn [generate monitor_limits];
    destruct (ForNamespace_ok _ _ _ Hr _ Hns) as (cos & Hf & Hst).
  - unfold generatePodMonitorConfig. rewrite Hf, Hlb. cbn [mbind res_bind]. intros Hg. limits_of_run Hg Hk.
  - destruct Hok as [Hsel Htls]. pose proof (api_exclusive _ Htls).
    unfold generateServiceMonitorConfig. rewrite Hf, Hlb. cbn [mbind res_bind]. intros Hg. limits_of_run Hg Hk.
  - assert (conforms (supported cg) (SMap (SSeq SStr)) (YMap [("module", YStrs [prs_Module (probe_Spec m)])])).
    { apply conforms_map; [table|]. apply Forall_singleton. emit_val. }
    unfold generateProbeConfig. rewrite Hlb, Hf. cbn [mbind res_bind]. intros Hg. limits_of_run Hg Hk.
Qed.

Definition scrape_config_limits (sc : ScrapeConfig) : list (option Z) :=
  let s := scrapeconfig_Spec sc in [scs_SampleLimit s; scs_TargetLimit s; scs_LabelLimit s;
    scs_LabelNameLengthLimit s; scs_LabelValueLengthLimit s; scs_KeepDroppedTargets s].
#[local] Hint Resolve rules_conforms scrape_config_relabelings_ok service_discovery_emits : emits.
Lemma scrape_config_limits_field sc s n k cfg :
  store_ok s → readable s (checked_secrets (scrapeconfig_Spec sc)) →
  k ∈ limit_keys → key_supported cg k → generateScrapeConfig cg sc s n = Ok cfg →
  field (lk_prometheusField k) cfg = YInt <$> getLimit cg (limit_of k (scrape_config_limits sc)) (enforced_limit (cg_cpf cg) k).
Proof.
  pose proof Hr as [Hcg Hv Hapi Hc [lb Hlb]]. intros Hst Hsec Hk Hs.
  assert (auth_supported cg) by (split; [apply Hcg|done]). pose proof (wf_compatible _ Hcg).
  pose proof (params_conforms cg (default ∅ (scs_Params (scrapeconfig_Spec sc)))).
  unfold generateScrapeConfig, appendNameValidationScheme, appendNameEscapingScheme. rewrite Hlb. cbn [mbind res_bind]. intros Hg.
  assert (∃ m cfg', lk_prometheusField k ∉ m.*1 ∧
    scrape_config_head cg s sc (getScrapeClassOrDefault cg (scs_ScrapeClassName (scrapeconfig_Spec sc))) m = Ok cfg' ∧
    field (lk_prometheusField k) cfg = field (lk_prometheusField k) cfg') as (m & cfg' & Hm & Hf & ->).
  { clear Hs. repeat (apply elem_of_cons in Hk as [-> | Hk]; [
      lazymatch type of Hg with context [scrape_config_head ?a ?b ?c ?d] =>
        field_of (supported cg) (scrape_config_head a b c d) Hg; by eauto end|]). by apply elem_of_nil in Hk. }
  clear Hg. unfold scrape_config_head in Hf. limits_of_run Hf Hk.
Qed.

(** The limit of a job and the limit of the global section, taken together. *)
Lemma enforced_bound k l n global job :
  k ∈ limit_keys → key_supported cg k → enforced_limit (cg_cpf cg) k = Some n → (0 < n)%Z → (0 ≤ default 0%Z l)%Z →
  buildGlobalConfig cg [] = Ok global →
  field (lk_prometheusField k) job = YInt <$> getLimit cg l (Some n) →
  (0 < effective_limit global job (lk_prometheusField k) ≤ n)%Z.
Proof.
  intros Hk Hs He Hn Hl Hg Hj. unfold effective_limit.
  assert (int_field (lk_prometheusField k) job = default 0%Z (getLimit cg l (Some n))) as ->
    by (unfold int_field; rewrite Hj; by destruct (getLimit _ _ _)).
  unfold getLimit. simpl. rewrite bool_decide_false by lia. case_bool_decide as Hu.
  - destruct (GTE (cg_version cg) (MustParse "2.45.0")) eqn:E; cbn [default].
    + change (default 0%Z None) with 0%Z. rewrite decide_True by done. apply (global_field cg (ready_cg _ _ _ Hr) k n); try done.
      simpl. rewrite E. by destruct (bypassVersionCheck cg).
    + simpl. case_decide; lia.
  - case_bool_decide; simpl; case_decide; lia.
Qed.
End generated.
