(* ===== verification/Selection.v ===== *)
(** * Selecting the resources of a Prometheus object

    pkg/prometheus/resource_selector.go and store.go, with ListMatchingNamespaces of
    pkg/operator/resource_reconciler.go and AddTypeInformationToObject of pkg/k8sutil. A check of a
    resource validates it and loads what it refers to into the store, so it is a computation of the
    store builder; selecting also sets the metrics of the Prometheus object. The informers are
    functions that answer a listing. *)

From S2P Require Import Prelude GoStrings SortUtil Meta ApiClient Accessor Semver NamespaceLabeler MonitoringV1 Status.
From S2P Require Import PromTypes PromCommon AssetStore Yaml ConfigGenerator ScrapeTypes.

(** ** Parsers of other repositories *)

(** [url.Parse] with the two parts the code looks at, [fields.ParseSelector], [labels.Parse],
    [govalidator.IsHost], [govalidator.IsPort] and [uuid.Parse]. *)
Record URL := { url_Scheme : string; url_Host : string }.
Class SelectionLibs := {
  parse_URL : string → res URL;
  fields_ParseSelector : string → res ();
  labels_Parse : string → res ();
  IsHost : string → bool;
  IsPort : string → bool;
  uuid_Parse : string → res ();
}.

(** ** Resources *)

Class Resource (A : Type) := {
  r_meta : A → ObjectMeta;
  (** [SetGroupVersionKind], of which the model keeps group and kind *)
  r_set_kind : GroupKind → A → A;
  r_meta_set_kind k x : r_meta (r_set_kind k x) = r_meta x;
}.
#[global] Program Instance ServiceMonitor_resource : Resource ServiceMonitor := {|
  r_meta := sm_ObjectMeta;
  r_set_kind k m := {| sm_TypeMeta := k; sm_ObjectMeta := sm_ObjectMeta m; sm_Spec := sm_Spec m |} |}.
Solve All Obligations with done.
#[global] Program Instance PodMonitor_resource : Resource PodMonitor := {|
  r_meta := pm_ObjectMeta;
  r_set_kind k m := {| pm_TypeMeta := k; pm_ObjectMeta := pm_ObjectMeta m; pm_Spec := pm_Spec m |} |}.
Solve All Obligations with done.
#[global] Program Instance Probe_resource : Resource Probe := {|
  r_meta := probe_ObjectMeta;
  r_set_kind k m := {| probe_TypeMeta := k; probe_ObjectMeta := probe_ObjectMeta m; probe_Spec := probe_Spec m |} |}.
Solve All Obligations with done.
#[global] Program Instance ScrapeConfig_resource : Resource ScrapeConfig := {|
  r_meta := scrapeconfig_ObjectMeta;
  r_set_kind k m := {| scrapeconfig_TypeMeta := k; scrapeconfig_ObjectMeta := scrapeconfig_ObjectMeta m;
                       scrapeconfig_Spec := scrapeconfig_Spec m |} |}.
Solve All Obligations with done.

Record GroupVersionKind := { gvk_Group : string; gvk_Version : string; gvk_Kind : string }.
Definition APIVersionInternal := "__internal".
(** The loop over the kinds that the scheme knows for the type of the object. *)
Fixpoint usable_kind (gvks : list GroupVersionKind) : option GroupVersionKind :=
  match gvks with
  | [] => None
  | gvk :: rest =>
      if bool_decide (gvk_Kind gvk = "") then usable_kind rest
      else if bool_decide (gvk_Version gvk = "") || bool_decide (gvk_Version gvk = APIVersionInternal)
      then usable_kind rest
      else Some gvk
  end.
(** [ObjectKinds] is what the scheme answers for the type. *)
Definition AddTypeInformationToObject {A} `{Resource A} (ObjectKinds : res (list GroupVersionKind)) (obj : A) : res A :=
  gvks ← wrap "missing apiVersion or kind and cannot assign it; %w" [] ObjectKinds;
  Ok match usable_kind gvks with
     | Some gvk => r_set_kind {| gk_Group := gvk_Group gvk; gk_Kind := gvk_Kind gvk |} obj
     | None => obj
     end.

Definition ServiceMonitorsKind := "ServiceMonitor".
Definition PodMonitorsKind := "PodMonitor".
Definition ProbesKind := "Probe".

Definition invalidConfiguration := "InvalidConfiguration".
Record selected A := { sel_resource : A; sel_key : string; sel_err : option error; sel_reason : string }.
Arguments sel_resource {A} _.
Arguments sel_key {A} _.
Arguments sel_err {A} _.
Arguments sel_reason {A} _.
Definition ResourcesSelection (A : Type) : Type := list (selected A).
Definition ValidResources {A} (resources : ResourcesSelection A) : gmap string A :=
  foldl (fun validRes res => match sel_err res with None => <[sel_key res := sel_resource res]> validRes | Some _ => validRes end)
    ∅ resources.

Section checks.
Context `{Semver} `{PromLibs} `{SelectionLibs} `{KeyFunc} {C : Type} `{CacheStore C}.
Context (sClient : string → string → res Secret) (cmClient : string → string → res ConfigMap).
Context (pem_Decode : string → option string) (x509_ParseCertificate : string → res ()).
Context (tls_X509KeyPair : string → string → res ()).

Local Abbreviation builder := (M (StoreBuilder C)).
Local Abbreviation secretKey := (GetSecretKey sClient).
Local Abbreviation addBasicAuth := (AddBasicAuth sClient).
Local Abbreviation addProxyConfig := (AddProxyConfig sClient).
Local Abbreviation addSafeTLSConfig := (AddSafeTLSConfig sClient cmClient pem_Decode x509_ParseCertificate tls_X509KeyPair).
Local Abbreviation addTLSConfig := (AddTLSConfig sClient cmClient pem_Decode x509_ParseCertificate tls_X509KeyPair).
Local Abbreviation addOAuth2 := (AddOAuth2 sClient cmClient pem_Decode x509_ParseCertificate tls_X509KeyPair).
Local Abbreviation addSafeAuthorization := (AddSafeAuthorizationCredentials sClient).
Local Abbreviation addAuthorization := (AddAuthorizationCredentials sClient).
Local Abbreviation addSigV4 := (AddSigV4 sClient).
Local Abbreviation addAzureOAuth := (AddAzureOAuth sClient).

(** A loop with an index, each step of which wraps its errors. *)
Definition each {A} (l : list A) (f : nat → A → builder ()) : builder () :=
  mfor_each (fun x => f x.1 x.2) (imap pair l).
Definition at_index (i : nat) {A} (c : builder A) : builder A := mwrap "[%d]: %w" [Itoa (Z.of_nat i)] c.
Definition require (b : bool) (fmt : string) (args : list string) : builder () :=
  if b then mret () else mfail (Errorf fmt args).
(** A reference that is loaded for later. *)
Definition load_secret (ns : string) (sel : SecretKeySelector) : builder () := secretKey ns sel ≫= fun _ => mret ().
Definition load_optional (ns : string) (sel : option SecretKeySelector) : builder () :=
  match sel with Some s => load_secret ns s | None => mret () end.

(** ** store.go *)

Local Abbreviation proxyConfig_Validate := (ProxyConfig_Validate (fun u => _ ← parse_URL u; Ok ())).

Definition addProxyConfigToStore (pc : ProxyConfig) (namespace : string) : builder () :=
  _ ← mlift (proxyConfig_Validate pc); addProxyConfig namespace pc.

Definition set_fields (l : list (string * bool)) : list string := (base.filter (fun kv => kv.2 = true) l).*1.
(** The fields are visited in the order of a map, which only shows in the error message. *)
Definition validateRemoteWriteSpec (spec : RemoteWriteSpec) : res () :=
  let nonNilFields := set_fields [("basicAuth", is_set (rw_BasicAuth spec)); ("oauth2", is_set (rw_OAuth2 spec));
    ("authorization", is_set (rw_Authorization spec)); ("sigv4", is_set (rw_Sigv4 spec));
    ("azureAd", is_set (rw_AzureAD spec))] in
  _ ← check (bool_decide (1 < length nonNilFields)) "can't be set at the same time, at most one of them must be defined";
  _ ← match rw_AzureAD spec with
      | None => Ok ()
      | Some a =>
          let mi := is_set (AzureAD_ManagedIdentity a) in
          let oauth := is_set (AzureAD_OAuth a) in
          let sdk := is_set (AzureAD_SDK a) in
          _ ← check (negb mi && negb oauth && negb sdk)
                "must provide Azure Managed Identity or Azure OAuth or Azure SDK in the Azure AD config";
          _ ← check (mi && oauth) "cannot provide both Azure Managed Identity and Azure OAuth in the Azure AD config";
          _ ← check (oauth && sdk) "cannot provide both Azure OAuth and Azure SDK in the Azure AD config";
          _ ← check (mi && sdk) "cannot provide both Azure Managed Identity and Azure SDK in the Azure AD config";
          match AzureAD_OAuth a with
          | None => Ok ()
          | Some o =>
              match uuid_Parse (AzureOAuth_ClientID o) with
              | Err _ => Err (Errorf "the provided Azure OAuth clientId is invalid" [])
              | r => r
              end
          end
      end;
  proxyConfig_Validate (rw_ProxyConfig spec).

Definition AddRemoteWritesToStore (namespace : string) (rws : list RemoteWriteSpec) : builder () :=
  each rws (fun i remote => mwrap "remote write %d: %w" [Itoa (Z.of_nat i)] (
    _ ← mlift (validateRemoteWriteSpec remote);
    _ ← addBasicAuth namespace (rw_BasicAuth remote);
    _ ← addOAuth2 namespace (rw_OAuth2 remote);
    _ ← addTLSConfig namespace (rw_TLSConfig remote);
    _ ← addAuthorization namespace (rw_Authorization remote);
    _ ← addSigV4 namespace (rw_Sigv4 remote);
    _ ← addAzureOAuth namespace (rw_AzureAD remote);
    addProxyConfig namespace (rw_ProxyConfig remote))).
(** [remote.Validate] is the method of the embedded proxy configuration. *)
Definition AddRemoteReadsToStore (namespace : string) (rrs : list RemoteReadSpec) : builder () :=
  each rrs (fun i remote => mwrap "remote read %d: %w" [Itoa (Z.of_nat i)] (
    _ ← addBasicAuth namespace (rrd_BasicAuth remote);
    _ ← addOAuth2 namespace (rrd_OAuth2 remote);
    _ ← addTLSConfig namespace (rrd_TLSConfig remote);
    _ ← addAuthorization namespace (rrd_Authorization remote);
    _ ← mlift (proxyConfig_Validate (rrd_ProxyConfig remote));
    addProxyConfig namespace (rrd_ProxyConfig remote))).
Definition AddAPIServerConfigToStore (namespace : string) (config : option APIServerConfig) : builder () :=
  match config with
  | None => mret ()
  | Some config => mwrap "apiserver config: %w" [] (
      _ ← addBasicAuth namespace (api_BasicAuth config);
      _ ← addAuthorization namespace (api_Authorization config);
      _ ← addTLSConfig namespace (api_TLSConfig config);
      addProxyConfig namespace (api_ProxyConfig config))
  end.
Definition AddScrapeClassesToStore (namespace : string) (scrapeClasses : list ScrapeClass) : builder () :=
  mfor_each (fun scrapeClass =>
    mwrap "scrape class %q: %w" [sc_Name scrapeClass] (addTLSConfig namespace (sc_TLSConfig scrapeClass))) scrapeClasses.

(** ** The selector *)

Record ResourceSelector := { rs_p : PrometheusObject; rs_version : version }.
Definition NewResourceSelector (p : PrometheusObject) : res ResourceSelector :=
  let promVersion := StringValOrDefault (cpf_Version (po_cpf p)) DefaultPrometheusVersion in
  v ← wrap "failed to parse Prometheus version: %w" [] (ParseTolerant promVersion);
  Ok {| rs_p := p; rs_version := v |}.

Definition testForArbitraryFSAccess (e : Endpoint) : res () :=
  _ ← check (bool_decide (ep_BearerTokenFile e ≠ ""))
        "it accesses file system via bearer token file which Prometheus specification prohibits";
  match ep_TLSConfig e with
  | None => Ok ()
  | Some tlsConf =>
      check (bool_decide (TLSConfig_CAFile tlsConf ≠ "") || bool_decide (TLSConfig_CertFile tlsConf ≠ "")
             || bool_decide (TLSConfig_KeyFile tlsConf ≠ ""))
        "it accesses file system via tls config which Prometheus specification prohibits"
  end.
Definition validateScrapeIntervalAndTimeout (p : PrometheusObject) (scrapeInterval scrapeTimeout : string) : res () :=
  if bool_decide (scrapeTimeout = "") then Ok ()
  else CompareScrapeTimeoutToScrapeInterval scrapeTimeout
         (if bool_decide (scrapeInterval = "") then cpf_ScrapeInterval (po_cpf p) else scrapeInterval).
Definition validateScrapeClass (p : PrometheusObject) (sc : option string) : res () :=
  let n := default "" sc in
  if bool_decide (n = "") || existsb (fun c => bool_decide (sc_Name c = n)) (cpf_ScrapeClasses (po_cpf p)) then Ok ()
  else Err (Errorf "scrapeClass %q not found in Prometheus scrapeClasses" [n]).
Definition validateProberURL (url : string) : res () :=
  let hostPort := Split url ":"%char in
  let host := default "" (head hostPort) in
  if negb (IsHost host) then Err (Errorf "invalid host: %q" [host])
  else match hostPort with
       | _ :: port :: _ => if IsPort port then Ok () else Err (Errorf "invalid port: %q" [port])
       | _ => Ok ()
       end.
Definition validateServer (server : string) : res () :=
  match parse_URL server with
  | Err e => Err (Errorf "cannot parse server: %s" [])
  | Panic m => Panic m
  | Ok u => if bool_decide (url_Scheme u = "") || bool_decide (url_Host u = "")
            then Err (Errorf "must not be empty and have a scheme: %s" [server]) else Ok ()
  end.

Section selector.
Context (rs : ResourceSelector).
Local Abbreviation cpf := (po_cpf (rs_p rs)).

Definition ValidateRelabelConfigs (rcs : list RelabelConfig) : res () := lcv_Validate {| lcv_v := rs_version rs |} rcs.
Definition SelectorMechanismRole := "RoleSelector".
Definition validateMonitorSelectorMechanism (selectorMechanism : option string) : res () :=
  check (bool_decide (default SelectorMechanismRelabel selectorMechanism = SelectorMechanismRole)
         && negb (GTE (rs_version rs) (MustParse "2.17.0")))
    "RoleSelector selectorMechanism is only supported in Prometheus 2.17.0 and newer".

(** ** ServiceMonitors *)

Definition checkServiceMonitor (sm : ServiceMonitor) : builder () :=
  let ns := om_Namespace (sm_ObjectMeta sm) in
  _ ← mlift (LabelSelector_String (sms_Selector (sm_Spec sm)));
  _ ← mlift (validateMonitorSelectorMechanism (sms_SelectorMechanism (sm_Spec sm)));
  _ ← each (sms_Endpoints (sm_Spec sm)) (fun i endpoint =>
    let epErr {A} (what : string) (c : builder A) : builder A :=
      mwrap ("endpoints[%d]: " +:+ what +:+ "%w") [Itoa (Z.of_nat i)] c in
    _ ← (if fsa_Deny (cpf_ArbitraryFSAccessThroughSMs cpf)
         then epErr "" (mlift (testForArbitraryFSAccess endpoint)) else mret ());
    _ ← match ep_BearerTokenSecret endpoint with
        | Some s => if bool_decide (SecretKeySelector_Name s ≠ "")
                    then epErr "bearerTokenSecret: " (load_secret ns s) else mret ()
        | None => mret ()
        end;
    _ ← epErr "basicAuth: " (addBasicAuth ns (ep_BasicAuth endpoint));
    _ ← epErr "tlsConfig: " (addTLSConfig ns (ep_TLSConfig endpoint));
    _ ← epErr "oauth2: " (addOAuth2 ns (ep_OAuth2 endpoint));
    _ ← epErr "authorization: " (addSafeAuthorization ns (ep_Authorization endpoint));
    _ ← epErr "" (mlift (validateScrapeIntervalAndTimeout (rs_p rs) (ep_Interval endpoint) (ep_ScrapeTimeout endpoint)));
    _ ← epErr "relabelConfigs: " (mlift (ValidateRelabelConfigs (ep_RelabelConfigs endpoint)));
    _ ← epErr "metricRelabelConfigs: " (mlift (ValidateRelabelConfigs (ep_MetricRelabelConfigs endpoint)));
    addProxyConfigToStore (ep_ProxyConfig endpoint) ns);
  mlift (wrap "scrapeClassName: %w" [] (validateScrapeClass (rs_p rs) (sms_ScrapeClassName (sm_Spec sm)))).

(** ** PodMonitors *)

Definition named_key (s : SecretKeySelector) : bool :=
  bool_decide (SecretKeySelector_Name s ≠ "") && bool_decide (SecretKeySelector_Key s ≠ "").
Definition checkPodMonitor (pm : PodMonitor) : builder () :=
  let ns := om_Namespace (pm_ObjectMeta pm) in
  _ ← mlift (wrap "failed to parse label selector: %w" [] (LabelSelector_String (pms_Selector (pm_Spec pm))));
  _ ← mlift (validateMonitorSelectorMechanism (pms_SelectorMechanism (pm_Spec pm)));
  _ ← each (pms_PodMetricsEndpoints (pm_Spec pm)) (fun i endpoint =>
    let epErr {A} (what : string) (c : builder A) : builder A :=
      mwrap ("endpoint[%d]: " +:+ what +:+ "%w") [Itoa (Z.of_nat i)] c in
    _ ← (if named_key (pep_BearerTokenSecret endpoint)
         then epErr "bearerTokenSecret: " (load_secret ns (pep_BearerTokenSecret endpoint)) else mret ());
    _ ← epErr "basicAuth: " (addBasicAuth ns (pep_BasicAuth endpoint));
    _ ← epErr "tlsConfig: " (addSafeTLSConfig ns (pep_TLSConfig endpoint));
    _ ← epErr "oauth2: " (addOAuth2 ns (pep_OAuth2 endpoint));
    _ ← epErr "authorization: " (addSafeAuthorization ns (pep_Authorization endpoint));
    _ ← epErr "" (mlift (validateScrapeIntervalAndTimeout (rs_p rs) (pep_Interval endpoint) (pep_ScrapeTimeout endpoint)));
    _ ← epErr "relabelConfigs: " (mlift (ValidateRelabelConfigs (pep_RelabelConfigs endpoint)));
    _ ← epErr "metricRelabelConfigs: " (mlift (ValidateRelabelConfigs (pep_MetricRelabelConfigs endpoint)));
    epErr "proxyConfig: " (addProxyConfigToStore (pep_ProxyConfig endpoint) ns));
  mlift (wrap "scrapeClassName: %w" [] (validateScrapeClass (rs_p rs) (pms_ScrapeClassName (pm_Spec pm)))).

(** ** Probes *)

Definition checkProbe (probe : Probe) : builder () :=
  let ns := om_Namespace (probe_ObjectMeta probe) in
  let spec := probe_Spec probe in
  let targets := prs_Targets spec in
  let url := prober_URL (prs_ProberSpec spec) in
  _ ← mlift (wrap "scrapeClassName: %w" [] (validateScrapeClass (rs_p rs) (prs_ScrapeClassName spec)));
  _ ← mlift (ProbeTargets_Validate targets);
  _ ← (if named_key (prs_BearerTokenSecret spec)
       then mwrap "bearerTokenSecret: %w" [] (load_secret ns (prs_BearerTokenSecret spec)) else mret ());
  _ ← mwrap "basicAuth: %w" [] (addBasicAuth ns (prs_BasicAuth spec));
  _ ← mwrap "tlsConfig: %w" [] (addSafeTLSConfig ns (prs_TLSConfig spec));
  _ ← mwrap "authorization: %w" [] (addSafeAuthorization ns (prs_Authorization spec));
  _ ← mwrap "oauth2: %w" [] (addOAuth2 ns (prs_OAuth2 spec));
  _ ← mlift (validateScrapeIntervalAndTimeout (rs_p rs) (prs_Interval spec) (prs_ScrapeTimeout spec));
  _ ← mlift (wrap "metricRelabelConfigs: %w" [] (ValidateRelabelConfigs (prs_MetricRelabelConfigs spec)));
  _ ← match pt_StaticConfig targets with
      | Some t => mlift (wrap "targets.staticConfig.relabelConfigs: %w" [] (ValidateRelabelConfigs (pts_RelabelConfigs t)))
      | None => mret ()
      end;
  _ ← match pt_Ingress targets with
      | Some t => mlift (wrap "targets.ingress.relabelConfigs: %w" [] (ValidateRelabelConfigs (pti_RelabelConfigs t)))
      | None => mret ()
      end;
  _ ← mwrap "proxy configuration: %w" [] (addProxyConfigToStore (prober_ProxyConfig (prs_ProberSpec spec)) ns);
  mlift (wrap "%q url specified in proberSpec is invalid, it should be of the format `hostname` or `hostname:port`: %w" [url]
           (validateProberURL url)).
(** ** ScrapeConfigs *)

Local Abbreviation sc_ns sc := (om_Namespace (scrapeconfig_ObjectMeta sc)).
(** A feature of a later version. *)
Definition require_version (v what : string) : builder () :=
  require (negb (LT (rs_version rs) (MustParse v))) what [].

(** The labels are visited in the order of a map, which only shows in the error message. *)
Definition validateStaticConfig (sc : ScrapeConfig) : builder () :=
  each (scs_StaticConfigs (scrapeconfig_Spec sc)) (fun i config =>
    mlift (for_each (fun kv : string * string =>
      if LabelName_IsValid kv.1 then Ok () else Err (Errorf "[%d]: invalid label in map %s" [Itoa (Z.of_nat i); kv.1]))
      (map_to_list (default ∅ (StaticConfig_Labels config))))).

Definition validateHTTPSDConfigs (sc : ScrapeConfig) : builder () :=
  _ ← require_version "2.28.0" "HTTP SD configuration is only supported for Prometheus version >= 2.28.0";
  each (scs_HTTPSDConfigs (scrapeconfig_Spec sc)) (fun i config => at_index i (
    _ ← mlift (parse_URL (HTTPSDConfig_URL config));
    _ ← addBasicAuth (sc_ns sc) (HTTPSDConfig_BasicAuth config);
    _ ← addSafeAuthorization (sc_ns sc) (HTTPSDConfig_Authorization config);
    _ ← addOAuth2 (sc_ns sc) (HTTPSDConfig_OAuth2 config);
    _ ← addSafeTLSConfig (sc_ns sc) (HTTPSDConfig_TLSConfig config);
    addProxyConfigToStore (HTTPSDConfig_ProxyConfig config) (sc_ns sc))).

Definition RolePod := "pod".
Definition RoleService := "service".
Definition RoleEndpoint := "endpoints".
Definition RoleEndpointSlice := "endpointslice".
Definition RoleNode := "node".
Definition RoleIngress := "ingress".
Definition allowedSelectors (configRole : string) : option (list string) :=
  if bool_decide (configRole = RolePod) then Some [RolePod]
  else if bool_decide (configRole = RoleService) then Some [RoleService]
  else if bool_decide (configRole = RoleEndpointSlice) then Some [RolePod; RoleService; RoleEndpointSlice]
  else if bool_decide (configRole = RoleEndpoint) then Some [RolePod; RoleService; RoleEndpoint]
  else if bool_decide (configRole = RoleNode) then Some [RoleNode]
  else if bool_decide (configRole = RoleIngress) then Some [RoleIngress]
  else None.
Definition check_selector_role (i : nat) (role : string) (s : K8SSelectorConfig) : res () :=
  match allowedSelectors (ToLower role) with
  | None => Err (Errorf "[%d]: invalid role: %q, expecting one of: pod, service, endpoints, endpointslice, node or ingress"
                   [Itoa (Z.of_nat i); K8SSelectorConfig_Role s])
  | Some allowed =>
      if bool_decide (ToLower (K8SSelectorConfig_Role s) ∈ allowed) then Ok ()
      else Err (Errorf "[%d] : %s role supports only %s selectors" [Itoa (Z.of_nat i); role; Join allowed ", "])
  end.
Definition check_selector_syntax (s : K8SSelectorConfig) : res () :=
  _ ← match K8SSelectorConfig_Field s with Some f => fields_ParseSelector f | None => Ok () end;
  match K8SSelectorConfig_Label s with Some l => labels_Parse l | None => Ok () end.
Definition validateKubernetesSDConfigs (sc : ScrapeConfig) : builder () :=
  each (scs_KubernetesSDConfigs (scrapeconfig_Spec sc)) (fun i config =>
    _ ← at_index i (addBasicAuth (sc_ns sc) (KubernetesSDConfig_BasicAuth config));
    _ ← at_index i (addSafeAuthorization (sc_ns sc) (KubernetesSDConfig_Authorization config));
    _ ← at_index i (addOAuth2 (sc_ns sc) (KubernetesSDConfig_OAuth2 config));
    _ ← at_index i (addSafeTLSConfig (sc_ns sc) (KubernetesSDConfig_TLSConfig config));
    _ ← at_index i (addProxyConfigToStore (KubernetesSDConfig_ProxyConfig config) (sc_ns sc));
    _ ← at_index i (mlift (check
          (is_set (KubernetesSDConfig_APIServer config) &&
           match KubernetesSDConfig_Namespaces config with
           | Some n => default false (NamespaceDiscovery_IncludeOwnNamespace n)
           | None => false
           end) "cannot use 'apiServer' and 'namespaces.ownNamespace' simultaneously"));
    _ ← mlift (for_each (check_selector_role i (KubernetesSDConfig_Role config)) (KubernetesSDConfig_Selectors config));
    at_index i (mlift (for_each check_selector_syntax (KubernetesSDConfig_Selectors config)))).

Definition validateConsulSDConfigs (sc : ScrapeConfig) : builder () :=
  each (scs_ConsulSDConfigs (scrapeconfig_Spec sc)) (fun i config =>
    _ ← (if is_set (ConsulSDConfig_PathPrefix config) then
           require_version "2.45.0" "field `config.PathPrefix` is only supported for Prometheus version >= 2.45.0" else mret ());
    _ ← (if is_set (ConsulSDConfig_Namespace config) then
           require_version "2.28.0" "field `config.Namespace` is only supported for Prometheus version >= 2.28.0" else mret ());
    _ ← require (negb (is_set (ConsulSDConfig_Filter config) && bool_decide (Major (rs_version rs) < 3)%Z))
          "field `config.Filter` is only supported for Prometheus version >= 3.0.0" [];
    at_index i (
      _ ← addBasicAuth (sc_ns sc) (ConsulSDConfig_BasicAuth config);
      _ ← addSafeAuthorization (sc_ns sc) (ConsulSDConfig_Authorization config);
      _ ← addSafeTLSConfig (sc_ns sc) (ConsulSDConfig_TLSConfig config);
      _ ← load_optional (sc_ns sc) (ConsulSDConfig_TokenRef config);
      addProxyConfigToStore (ConsulSDConfig_ProxyConfig config) (sc_ns sc))).

Definition validateDNSSDConfigs (sc : ScrapeConfig) : builder () :=
  each (scs_DNSSDConfigs (scrapeconfig_Spec sc)) (fun i config =>
    match DNSSDConfig_Type config with
    | Some t => require (bool_decide (t = "SRV") || is_set (DNSSDConfig_Port config))
                  "[%d]: %s %q" [Itoa (Z.of_nat i); "port required for record type"; t]
    | None => mret ()
    end).

Definition validateEC2SDConfigs (sc : ScrapeConfig) : builder () :=
  each (scs_EC2SDConfigs (scrapeconfig_Spec sc)) (fun i config => at_index i (
    _ ← load_optional (sc_ns sc) (EC2SDConfig_AccessKey config);
    _ ← load_optional (sc_ns sc) (EC2SDConfig_SecretKey config);
    _ ← addSafeTLSConfig (sc_ns sc) (EC2SDConfig_TLSConfig config);
    addProxyConfigToStore (EC2SDConfig_ProxyConfig config) (sc_ns sc))).

(** The default method of Prometheus is OAuth, for which credentials are needed. *)
Definition validateAzureSDConfigs (sc : ScrapeConfig) : builder () :=
  each (scs_AzureSDConfigs (scrapeconfig_Spec sc)) (fun i config =>
    let authMethod := default "" (AzureSDConfig_AuthenticationMethod config) in
    _ ← require (negb (bool_decide (authMethod = "SDK") && LT (rs_version rs) (MustParse "2.52.0")))
          "[%d]: SDK authentication is only supported from Prometheus version 2.52.0" [Itoa (Z.of_nat i)];
    _ ← require (negb (is_set (AzureSDConfig_ResourceGroup config) && LT (rs_version rs) (MustParse "2.35.0")))
          "[%d]: ResourceGroup is only supported from Prometheus version >= 2.35.0" [Itoa (Z.of_nat i)];
    if bool_decide (authMethod = "ManagedIdentity") || bool_decide (authMethod = "SDK") then mret ()
    else
      _ ← require (bool_decide (default "" (AzureSDConfig_TenantID config) ≠ ""))
            "[%d]: configuration requires a tenantID" [Itoa (Z.of_nat i)];
      _ ← require (bool_decide (default "" (AzureSDConfig_ClientID config) ≠ ""))
            "[%d]: configuration requires a clientID" [Itoa (Z.of_nat i)];
      match AzureSDConfig_ClientSecret config with
      | None => mfail (Errorf "[%d]: configuration requires a clientSecret" [Itoa (Z.of_nat i)])
      | Some s => at_index i (
          _ ← load_secret (sc_ns sc) s;
          _ ← addBasicAuth (sc_ns sc) (AzureSDConfig_BasicAuth config);
          _ ← addOAuth2 (sc_ns sc) (AzureSDConfig_OAuth2 config);
          _ ← addProxyConfigToStore (AzureSDConfig_ProxyConfig config) (sc_ns sc);
          _ ← addSafeTLSConfig (sc_ns sc) (AzureSDConfig_TLSConfig config);
          addSafeAuthorization (sc_ns sc) (AzureSDConfig_Authorization config))
      end).

Definition OpenStackRoleLoadBalancer := "LoadBalancer".
Definition validateOpenStackSDConfigs (sc : ScrapeConfig) : builder () :=
  each (scs_OpenStackSDConfigs (scrapeconfig_Spec sc)) (fun i config =>
    _ ← require (negb (bool_decide (OpenStackSDConfig_Role config = OpenStackRoleLoadBalancer)
                       && LT (rs_version rs) (MustParse "3.2.0")))
          "[%d]: The %s role is only supported from Prometheus version 3.2.0" [Itoa (Z.of_nat i); OpenStackSDConfig_Role config];
    at_index i (
      _ ← load_optional (sc_ns sc) (OpenStackSDConfig_Password config);
      load_optional (sc_ns sc) (OpenStackSDConfig_ApplicationCredentialSecret config))).

Definition validateDigitalOceanSDConfigs (sc : ScrapeConfig) : builder () :=
  _ ← require_version "2.20.0" "service discovery for Digital Ocean is only supported for Prometheus version >= 2.20.0";
  each (scs_DigitalOceanSDConfigs (scrapeconfig_Spec sc)) (fun i config => at_index i (
    _ ← addSafeAuthorization (sc_ns sc) (DigitalOceanSDConfig_Authorization config);
    _ ← addOAuth2 (sc_ns sc) (DigitalOceanSDConfig_OAuth2 config);
    _ ← addSafeTLSConfig (sc_ns sc) (DigitalOceanSDConfig_TLSConfig config);
    addProxyConfigToStore (DigitalOceanSDConfig_ProxyConfig config) (sc_ns sc))).

Definition validateDockerSDConfigs (sc : ScrapeConfig) : builder () :=
  each (scs_DockerSDConfigs (scrapeconfig_Spec sc)) (fun i config => at_index i (
    _ ← addBasicAuth (sc_ns sc) (DockerSDConfig_BasicAuth config);
    _ ← addSafeAuthorization (sc_ns sc) (DockerSDConfig_Authorization config);
    _ ← addOAuth2 (sc_ns sc) (DockerSDConfig_OAuth2 config);
    _ ← addSafeTLSConfig (sc_ns sc) (DockerSDConfig_TLSConfig config);
    _ ← mlift (parse_URL (DockerSDConfig_Host config));
    addProxyConfigToStore (DockerSDConfig_ProxyConfig config) (sc_ns sc))).

Definition validateLinodeSDConfigs (sc : ScrapeConfig) : builder () :=
  _ ← require_version "2.28.0" "linode SD configuration is only supported for Prometheus version >= 2.28.0";
  each (scs_LinodeSDConfigs (scrapeconfig_Spec sc)) (fun i config => at_index i (
    _ ← addSafeAuthorization (sc_ns sc) (LinodeSDConfig_Authorization config);
    _ ← addOAuth2 (sc_ns sc) (LinodeSDConfig_OAuth2 config);
    _ ← addSafeTLSConfig (sc_ns sc) (LinodeSDConfig_TLSConfig config);
    addProxyConfigToStore (LinodeSDConfig_ProxyConfig config) (sc_ns sc))).

Definition validateKumaSDConfigs (sc : ScrapeConfig) : builder () :=
  each (scs_KumaSDConfigs (scrapeconfig_Spec sc)) (fun i config => at_index i (
    _ ← mlift (validateServer (KumaSDConfig_Server config));
    _ ← addSafeAuthorization (sc_ns sc) (KumaSDConfig_Authorization config);
    _ ← addOAuth2 (sc_ns sc) (KumaSDConfig_OAuth2 config);
    _ ← addSafeTLSConfig (sc_ns sc) (KumaSDConfig_TLSConfig config);
    _ ← addBasicAuth (sc_ns sc) (KumaSDConfig_BasicAuth config);
    addProxyConfigToStore (KumaSDConfig_ProxyConfig config) (sc_ns sc))).

Definition validateEurekaSDConfigs (sc : ScrapeConfig) : builder () :=
  each (scs_EurekaSDConfigs (scrapeconfig_Spec sc)) (fun i config => at_index i (
    _ ← addSafeAuthorization (sc_ns sc) (EurekaSDConfig_Authorization config);
    _ ← addOAuth2 (sc_ns sc) (EurekaSDConfig_OAuth2 config);
    _ ← addSafeTLSConfig (sc_ns sc) (EurekaSDConfig_TLSConfig config);
    _ ← addBasicAuth (sc_ns sc) (EurekaSDConfig_BasicAuth config);
    addProxyConfigToStore (EurekaSDConfig_ProxyConfig config) (sc_ns sc))).

Definition validateHetznerSDConfigs (sc : ScrapeConfig) : builder () :=
  each (scs_HetznerSDConfigs (scrapeconfig_Spec sc)) (fun i config => at_index i (
    _ ← addBasicAuth (sc_ns sc) (HetznerSDConfig_BasicAuth config);
    _ ← addSafeAuthorization (sc_ns sc) (HetznerSDConfig_Authorization config);
    _ ← addOAuth2 (sc_ns sc) (HetznerSDConfig_OAuth2 config);
    _ ← addSafeTLSConfig (sc_ns sc) (HetznerSDConfig_TLSConfig config);
    addProxyConfigToStore (HetznerSDConfig_ProxyConfig config) (sc_ns sc))).

Definition validateNomadSDConfigs (sc : ScrapeConfig) : builder () :=
  each (scs_NomadSDConfigs (scrapeconfig_Spec sc)) (fun i config => at_index i (
    _ ← addSafeAuthorization (sc_ns sc) (NomadSDConfig_Authorization config);
    _ ← addOAuth2 (sc_ns sc) (NomadSDConfig_OAuth2 config);
    _ ← addSafeTLSConfig (sc_ns sc) (NomadSDConfig_TLSConfig config);
    _ ← addBasicAuth (sc_ns sc) (NomadSDConfig_BasicAuth config);
    addProxyConfigToStore (NomadSDConfig_ProxyConfig config) (sc_ns sc))).

Definition validateDockerSwarmSDConfigs (sc : ScrapeConfig) : builder () :=
  _ ← require_version "2.20.0" "dockerswarm SD configuration is only supported for Prometheus version >= 2.20.0";
  each (scs_DockerSwarmSDConfigs (scrapeconfig_Spec sc)) (fun i config => at_index i (
    _ ← mlift (parse_URL (DockerSwarmSDConfig_Host config));
    _ ← addSafeAuthorization (sc_ns sc) (DockerSwarmSDConfig_Authorization config);
    _ ← addOAuth2 (sc_ns sc) (DockerSwarmSDConfig_OAuth2 config);
    _ ← addSafeTLSConfig (sc_ns sc) (DockerSwarmSDConfig_TLSConfig config);
    _ ← addBasicAuth (sc_ns sc) (DockerSwarmSDConfig_BasicAuth config);
    addProxyConfigToStore (DockerSwarmSDConfig_ProxyConfig config) (sc_ns sc))).

Definition validatePuppetDBSDConfigs (sc : ScrapeConfig) : builder () :=
  _ ← require_version "2.31.0" "puppetDB SD configuration is only supported for Prometheus version >= 2.31.0";
  each (scs_PuppetDBSDConfigs (scrapeconfig_Spec sc)) (fun i config => at_index i (
    parsedURL ← mlift (parse_URL (PuppetDBSDConfig_URL config));
    _ ← require (bool_decide (url_Scheme parsedURL = "http") || bool_decide (url_Scheme parsedURL = "https"))
          "URL scheme must be 'http' or 'https'" [];
    _ ← require (bool_decide (url_Host parsedURL ≠ "")) "host is missing in URL" [];
    _ ← addSafeAuthorization (sc_ns sc) (PuppetDBSDConfig_Authorization config);
    _ ← addOAuth2 (sc_ns sc) (PuppetDBSDConfig_OAuth2 config);
    _ ← addSafeTLSConfig (sc_ns sc) (PuppetDBSDConfig_TLSConfig config);
    _ ← addBasicAuth (sc_ns sc) (PuppetDBSDConfig_BasicAuth config);
    addProxyConfigToStore (PuppetDBSDConfig_ProxyConfig config) (sc_ns sc))).

Definition validateLightSailSDConfigs (sc : ScrapeConfig) : builder () :=
  _ ← require_version "2.27.0" "lightSail SD configuration is only supported for Prometheus version >= 2.27.0";
  each (scs_LightSailSDConfigs (scrapeconfig_Spec sc)) (fun i config => at_index i (
    _ ← load_optional (sc_ns sc) (LightSailSDConfig_AccessKey config);
    _ ← load_optional (sc_ns sc) (LightSailSDConfig_SecretKey config);
    _ ← addSafeAuthorization (sc_ns sc) (LightSailSDConfig_Authorization config);
    _ ← addOAuth2 (sc_ns sc) (LightSailSDConfig_OAuth2 config);
    _ ← addSafeTLSConfig (sc_ns sc) (LightSailSDConfig_TLSConfig config);
    _ ← addBasicAuth (sc_ns sc) (LightSailSDConfig_BasicAuth config);
    addProxyConfigToStore (LightSailSDConfig_ProxyConfig config) (sc_ns sc))).

Definition validateOVHCloudSDConfigs (sc : ScrapeConfig) : builder () :=
  _ ← require_version "2.40.0" "OVHCloud SD configuration is only supported for Prometheus version >= 2.40.0";
  each (scs_OVHCloudSDConfigs (scrapeconfig_Spec sc)) (fun i config => at_index i (
    _ ← load_secret (sc_ns sc) (OVHCloudSDConfig_ApplicationSecret config);
    load_secret (sc_ns sc) (OVHCloudSDConfig_ConsumerKey config))).

Definition validateScalewaySDConfigs (sc : ScrapeConfig) : builder () :=
  _ ← require_version "2.26.0" "ScaleWay SD configuration is only supported for Prometheus version >= 2.26.0";
  each (scs_ScalewaySDConfigs (scrapeconfig_Spec sc)) (fun i config => at_index i (
    _ ← load_secret (sc_ns sc) (ScalewaySDConfig_SecretKey config);
    _ ← addProxyConfigToStore (ScalewaySDConfig_ProxyConfig config) (sc_ns sc);
    addSafeTLSConfig (sc_ns sc) (ScalewaySDConfig_TLSConfig config))).

Definition validateIonosSDConfigs (sc : ScrapeConfig) : builder () :=
  _ ← require_version "2.36.0" "IONOS SD configuration is only supported for Prometheus version >= 2.36.0";
  each (scs_IonosSDConfigs (scrapeconfig_Spec sc)) (fun i config => at_index i (
    _ ← addSafeAuthorization (sc_ns sc) (Some (IonosSDConfig_Authorization config));
    _ ← addProxyConfigToStore (IonosSDConfig_ProxyConfig config) (sc_ns sc);
    _ ← addSafeTLSConfig (sc_ns sc) (IonosSDConfig_TLSConfig config);
    addOAuth2 (sc_ns sc) (IonosSDConfig_OAuth2 config))).

(** The service discoveries, in the order in which they are checked. *)
Definition checkServiceDiscoveries (sc : ScrapeConfig) : builder () :=
  _ ← mwrap "staticConfigs: %w" [] (validateStaticConfig sc);
  _ ← mwrap "httpSDConfigs: %w" [] (validateHTTPSDConfigs sc);
  _ ← mwrap "kubernetesSDConfigs: %w" [] (validateKubernetesSDConfigs sc);
  _ ← mwrap "consulSDConfigs: %w" [] (validateConsulSDConfigs sc);
  _ ← mwrap "dnsSDConfigs: %w" [] (validateDNSSDConfigs sc);
  _ ← mwrap "ec2SDConfigs: %w" [] (validateEC2SDConfigs sc);
  _ ← mwrap "azureSDConfigs: %w" [] (validateAzureSDConfigs sc);
  _ ← mwrap "openstackSDConfigs: %w" [] (validateOpenStackSDConfigs sc);
  _ ← mwrap "digitalOceanSDConfigs: %w" [] (validateDigitalOceanSDConfigs sc);
  _ ← mwrap "kumaSDConfigs: %w" [] (validateKumaSDConfigs sc);
  _ ← mwrap "eurekaSDConfigs: %w" [] (validateEurekaSDConfigs sc);
  _ ← mwrap "dockerSDConfigs: %w" [] (validateDockerSDConfigs sc);
  _ ← mwrap "linodeSDConfigs: %w" [] (validateLinodeSDConfigs sc);
  _ ← mwrap "hetznerSDConfigs: %w" [] (validateHetznerSDConfigs sc);
  _ ← mwrap "nomadSDConfigs: %w" [] (validateNomadSDConfigs sc);
  _ ← mwrap "dockerswarmSDConfigs: %w" [] (validateDockerSwarmSDConfigs sc);
  _ ← mwrap "puppetDBSDConfigs: %w" [] (validatePuppetDBSDConfigs sc);
  _ ← mwrap "lightSailSDConfigs: %w" [] (validateLightSailSDConfigs sc);
  _ ← mwrap "OVHCloudSDConfigs: %w" [] (validateOVHCloudSDConfigs sc);
  _ ← mwrap "ScalewaySDConfigs: %w" [] (validateScalewaySDConfigs sc);
  mwrap "IonosSDConfigs: %w" [] (validateIonosSDConfigs sc).

Definition checkScrapeConfig (sc : ScrapeConfig) : builder () :=
  let ns := sc_ns sc in
  let spec := scrapeconfig_Spec sc in
  _ ← mlift (validateScrapeClass (rs_p rs) (scs_ScrapeClassName spec));
  _ ← mlift (wrap "relabelConfigs: %w" [] (ValidateRelabelConfigs (scs_RelabelConfigs spec)));
  _ ← mwrap "basicAuth: %w" [] (addBasicAuth ns (scs_BasicAuth spec));
  _ ← mwrap "authorization: %w" [] (addSafeAuthorization ns (scs_Authorization spec));
  _ ← mwrap "oauth2: %w" [] (addOAuth2 ns (scs_OAuth2 spec));
  _ ← mwrap "tlsConfig: %w" [] (addSafeTLSConfig ns (scs_TLSConfig spec));
  _ ← mlift (validateScrapeIntervalAndTimeout (rs_p rs) (default "" (scs_ScrapeInterval spec)) (default "" (scs_ScrapeTimeout spec)));
  _ ← addProxyConfigToStore (scs_ProxyConfig spec) ns;
  _ ← mlift (wrap "metricRelabelConfigs: %w" [] (ValidateRelabelConfigs (scs_MetricRelabelConfigs spec)));
  checkServiceDiscoveries sc.

(** ** Selection *)

Record selector_state := { ss_store : StoreBuilder C; ss_metrics : Metrics }.
Definition on_store {A} (c : builder A) : M selector_state A := fun st =>
  let '(s, r) := c (ss_store st) in ({| ss_store := s; ss_metrics := ss_metrics st |}, r).

(** [metav1.LabelSelectorAsSelector]: without a selector nothing is selected, which is no error. A
    selector is known by what it was made from. *)
Definition LabelSelectorAsSelector (selector : option LabelSelector) : res (option LabelSelector) :=
  match selector with None => Ok None | Some s => _ ← LabelSelector_String s; Ok selector end.

(** [ListAll] of the informer of namespaces: the names of those that match. *)
Context (nsInf : LabelSelector → res (list string)).
Definition ListMatchingNamespaces (selector : LabelSelector) : res (list string) :=
  wrap "failed to list namespaces: %w" [] (nsInf selector).

Section objects.
Context {A : Type} `{Resource A}.
Context (ObjectKinds : res (list GroupVersionKind)).
(** The objects of a namespace that match, in the order the informer reports them; and the order
    in which Go visits the map of objects. *)
Context (listFn : string → option LabelSelector → res (list A)) (visit : gmap string A → list (string * A)).

Definition add_object (objects : gmap string A) (o : A) : gmap string A :=
  match MetaNamespaceKey (Object (r_meta o)) with
  | None => objects
  | Some k => match AddTypeInformationToObject ObjectKinds o with Ok obj => <[k := obj]> objects | _ => objects end
  end.
Fixpoint list_objects (labelSelector : option LabelSelector) (namespaces : list string) (objects : gmap string A)
    : res (gmap string A) :=
  match namespaces with
  | [] => Ok objects
  | ns :: rest =>
      l ← wrap "failed to list objects in namespace %s: %w" [ns] (listFn ns labelSelector);
      list_objects labelSelector rest (foldl add_object objects l)
  end.
Fixpoint check_objects (checkFn : A → builder ()) (objects : list (string * A)) : M selector_state (ResourcesSelection A) :=
  match objects with
  | [] => mret []
  | (namespaceAndName, o) :: rest =>
      r ← mtry (on_store (checkFn o));
      let err := match r with inl _ => None | inr e => Some e end in
      l ← check_objects checkFn rest;
      mret ({| sel_resource := o; sel_key := namespaceAndName; sel_err := err;
               sel_reason := match err with Some _ => invalidConfiguration | None => "" end |} :: l)
  end.
Definition rejected_count (l : list (selected A)) : Z := Z.of_nat (length (base.filter (fun r => is_Some (sel_err r)) l)).
Definition set_selection_metrics (kind : string) (n rejected : Z) : M selector_state () := fun st =>
  match MetaNamespaceKey (Object (po_ObjectMeta (rs_p rs))) with
  | None => (st, Ok ())
  | Some pKey =>
      ({| ss_store := ss_store st;
          ss_metrics := SetRejectedResources (SetSelectedResources (ss_metrics st) pKey kind n) pKey kind rejected |}, Ok ())
  end.
Definition selected_objects (selector nsSelector : option LabelSelector) : res (gmap string A) :=
  labelSelector ← LabelSelectorAsSelector selector;
  namespaces ← match nsSelector with
               | None => Ok [om_Namespace (po_ObjectMeta (rs_p rs))]
               | Some s => _ ← LabelSelectorAsSelector nsSelector; ListMatchingNamespaces s
               end;
  list_objects labelSelector namespaces ∅.
Definition selectObjects (kind : string) (selector nsSelector : option LabelSelector) (checkFn : A → builder ())
    : M selector_state (ResourcesSelection A) :=
  objects ← mlift (selected_objects selector nsSelector);
  l ← check_objects checkFn (visit objects);
  _ ← set_selection_metrics kind (Z.of_nat (length l)) (rejected_count l);
  mret l.
End objects.

Definition SelectServiceMonitors kinds listFn visit : M selector_state (ResourcesSelection ServiceMonitor) :=
  selectObjects kinds listFn visit ServiceMonitorsKind (cpf_ServiceMonitorSelector cpf) (cpf_ServiceMonitorNamespaceSelector cpf)
    checkServiceMonitor.
Definition SelectPodMonitors kinds listFn visit : M selector_state (ResourcesSelection PodMonitor) :=
  selectObjects kinds listFn visit PodMonitorsKind (cpf_PodMonitorSelector cpf) (cpf_PodMonitorNamespaceSelector cpf)
    checkPodMonitor.
Definition SelectProbes kinds listFn visit : M selector_state (ResourcesSelection Probe) :=
  selectObjects kinds listFn visit ProbesKind (cpf_ProbeSelector cpf) (cpf_ProbeNamespaceSelector cpf) checkProbe.
Definition SelectScrapeConfigs kinds listFn visit : M selector_state (ResourcesSelection ScrapeConfig) :=
  selectObjects kinds listFn visit ScrapeConfigsKind (cpf_ScrapeConfigSelector cpf) (cpf_ScrapeConfigNamespaceSelector cpf)
    checkScrapeConfig.
End selector.
End checks.
