(* ===== verification/SelectionLaws.v ===== *)
(** * What a check of a resource leaves behind

    The checks of [Selection] only add to the store ([monotone]), what they answer does not depend
    on what is already cached ([determined]), and when they succeed the references that the
    configuration generator needs can be read ([ensures]). Each of the three is closed under the
    ways in which checks are put together, so that one tactic establishes it for all of them. *)

From S2P Require Import Prelude GoStrings SortUtil Meta ApiClient Accessor Semver NamespaceLabeler MonitoringV1 Status.
From S2P Require Import PromTypes PromCommon AssetStore Yaml ConfigGenerator ScrapeTypes Monitors ServiceDiscovery.
From S2P Require Import Selection.

(** What the API answers: the object that was asked for, and names hold no slash. *)
Record api_answers (sClient : string → string → res Secret) (cmClient : string → string → res ConfigMap) : Prop := {
  secret_named ns n s : sClient ns n = Ok s → om_Namespace (sec_meta s) = ns ∧ om_Name (sec_meta s) = n;
  configmap_named ns n c : cmClient ns n = Ok c → om_Namespace (cm_meta c) = ns ∧ om_Name (cm_meta c) = n;
  secret_slash ns n s : sClient ns n = Ok s → contains_char "/" ns = false ∧ contains_char "/" n = false;
  configmap_slash ns n c : cmClient ns n = Ok c → contains_char "/" ns = false ∧ contains_char "/" n = false;
}.

(** ** Keys of the cache *)

Lemma contains_char_split c s : contains_char c s = true → ∃ a b, s = a +:+ String c b ∧ contains_char c a = false.
Proof.
  induction s as [|x s IH]; simpl; [done|]. case_decide as Hx.
  - subst x. intros _. by exists "", s.
  - intros (a & b & -> & Ha)%IH. exists (String x a), b. split; [done|]. simpl. by rewrite decide_False.
Qed.
Lemma asset_key_inj f f' ns ns' n n' :
  contains_char "/" ns' = false → contains_char "/" n' = false →
  asset_key f ns n = asset_key f' ns' n' → f = f' ∧ ns = ns' ∧ n = n'.
Proof.
  intros Hns Hn E. unfold asset_key in E.
  apply cut_unique in E as [Hf%source_int_inj E]; [|apply source_no_sep; by right..]. split; [done|].
  destruct (contains_char "/" ns) eqn:Hc; [|by apply cut_unique in E].
  apply contains_char_split in Hc as (a & b & -> & Ha). exfalso.
  rewrite !app_str_assoc in E. simpl in E. apply cut_unique in E as [_ E]; [|done..].
  rewrite <-E in Hn. rewrite contains_char_app in Hn. simpl in Hn. rewrite orb_true_r in Hn. done.
Qed.

Section laws.
Context `{Semver} `{PromLibs} `{SelectionLibs} `{KeyFunc} {C : Type} `{CacheStore C}.
Context (sClient : string → string → res Secret) (cmClient : string → string → res ConfigMap).
Context (pem_Decode : string → option string) (x509_ParseCertificate : string → res ()).
Context (tls_X509KeyPair : string → string → res ()).
Context (Hapi : api_answers sClient cmClient).
Local Abbreviation builder := (M (StoreBuilder C)).
Local Abbreviation secretKey := (GetSecretKey sClient).
Local Abbreviation configMapKey := (GetConfigMapKey cmClient).

(** ** Answers do not depend on the cache *)

Definition from_api (o : asset) : Prop :=
  match o with
  | ASecret s => sClient (om_Namespace (sec_meta s)) (om_Name (sec_meta s)) = Ok s
  | AConfigMap c => cmClient (om_Namespace (cm_meta c)) (om_Name (cm_meta c)) = Ok c
  end.
(** The cache holds what the API answers, under the key of the object. *)
Definition coherent (st : StoreBuilder C) : Prop :=
  ∀ k o, GetByKey k (objStore st) = Some o → k = assetKeyFunc o ∧ from_api o.
Lemma coherent_new : coherent NewStoreBuilder.
Proof. intros k o. simpl. by rewrite GetByKey_new. Qed.
Lemma coherent_add o st : coherent st → from_api o → coherent (Build_StoreBuilder (Add o (objStore st)) (tlsAssetKeys st)).
Proof.
  intros Hc Ho k o'. simpl. rewrite GetByKey_add. case_decide as Hk; [|apply Hc]. by intros [= <-].
Qed.
Lemma coherent_secret st ns n o :
  coherent st → GetByKey (asset_key fromSecret ns n) (objStore st) = Some o → ∃ s, o = ASecret s ∧ sClient ns n = Ok s.
Proof.
  intros Hc Hk. destruct (Hc _ _ Hk) as [E Ho]. destruct o as [s|c]; simpl in E, Ho.
  - pose proof (secret_slash _ _ Hapi _ _ _ Ho) as [Hs1 Hs2].
    apply asset_key_inj in E as (_ & -> & ->); [|done..]. by exists s.
  - by apply asset_key_kind in E.
Qed.
Lemma coherent_configmap st ns n o :
  coherent st → GetByKey (asset_key fromConfigMap ns n) (objStore st) = Some o → ∃ c, o = AConfigMap c ∧ cmClient ns n = Ok c.
Proof.
  intros Hc Hk. destruct (Hc _ _ Hk) as [E Ho]. destruct o as [s|c]; simpl in E, Ho.
  - by apply asset_key_kind in E.
  - pose proof (configmap_slash _ _ Hapi _ _ _ Ho) as [Hs1 Hs2].
    apply asset_key_inj in E as (_ & -> & ->); [|done..]. by exists c.
Qed.

Definition answers {A} (c : builder A) (r : res A) : Prop := ∀ st, coherent st → (c st).2 = r ∧ coherent (c st).1.
Definition determined {A} (c : builder A) : Prop := ∃ r, answers c r.

Lemma determined_ret {A} (a : A) : determined (mret a).
Proof. by exists (Ok a). Qed.
Lemma determined_fail {A} e : determined (mfail e : builder A).
Proof. by exists (Err e). Qed.
Lemma determined_lift {A} (r : res A) : determined (mlift r).
Proof. by exists r. Qed.
Lemma determined_bind {A B} (c : builder A) (k : A → builder B) :
  determined c → (∀ a, determined (k a)) → determined (c ≫= k).
Proof.
  intros [r Hr] Hk. destruct r as [a|e|m].
  - destruct (Hk a) as [r' Hr']. exists r'. intros st Hst. specialize (Hr st Hst). unfold mbind, M_bind.
    destruct (c st) as [st' x]. simpl in Hr. destruct Hr as [-> Hc]. by apply Hr'.
  - exists (Err e). intros st Hst. specialize (Hr st Hst). unfold mbind, M_bind.
    destruct (c st) as [st' x]. simpl in Hr. by destruct Hr as [-> Hc].
  - exists (Panic m). intros st Hst. specialize (Hr st Hst). unfold mbind, M_bind.
    destruct (c st) as [st' x]. simpl in Hr. by destruct Hr as [-> Hc].
Qed.
Lemma determined_wrap {A} f args (c : builder A) : determined c → determined (mwrap f args c).
Proof.
  intros [r Hr]. exists (wrap f args r). intros st Hst. specialize (Hr st Hst). unfold mwrap.
  destruct (c st) as [st' x]. simpl in *. by destruct Hr as [-> Hc].
Qed.
Lemma determined_for_each {A} (f : A → builder ()) l : (∀ x, determined (f x)) → determined (mfor_each f l).
Proof. intros Hf. induction l; [apply determined_ret|]. simpl. by apply determined_bind. Qed.
Lemma determined_add_key k : determined (add_key k).
Proof. by exists (Ok ()). Qed.
Lemma determined_secret ns sel : determined (secretKey ns sel).
Proof.
  unfold GetSecretKey. case_bool_decide; [apply determined_fail|].
  exists (s ← wrap "unable to get secret %q: %w" [SecretKeySelector_Name sel] (sClient ns (SecretKeySelector_Name sel));
     match sec_Data s !! SecretKeySelector_Key sel with
     | Some v => Ok v
     | None => Err (Errorf "key %q in secret %q not found" [SecretKeySelector_Key sel; SecretKeySelector_Name sel])
     end).
  intros st Hst. unfold mget, mbind, M_bind, mlift, mret, M_ret, cache_add, mfail. simpl.
  destruct (GetByKey _ (objStore st)) as [o|] eqn:E.
  - destruct (coherent_secret _ _ _ _ Hst E) as (s & -> & Hs). rewrite Hs. simpl. by case_match.
  - destruct (sClient ns _) as [s| |] eqn:Es; simpl; [|done..].
    assert (coherent (Build_StoreBuilder (Add (ASecret s) (objStore st)) (tlsAssetKeys st))) as Hc.
    { apply coherent_add; [done|]. simpl. by destruct (secret_named _ _ Hapi _ _ _ Es) as [-> ->]. }
    by case_match.
Qed.
Lemma determined_configmap ns sel : determined (configMapKey ns sel).
Proof.
  unfold GetConfigMapKey. case_bool_decide; [apply determined_fail|].
  exists (s ← wrap "unable to get configmap %q: %w" [ConfigMapKeySelector_Name sel] (cmClient ns (ConfigMapKeySelector_Name sel));
     match cm_Data s !! ConfigMapKeySelector_Key sel with
     | Some v => Ok v
     | None => Err (Errorf "key %q in configmap %q not found" [ConfigMapKeySelector_Key sel; ConfigMapKeySelector_Name sel])
     end).
  intros st Hst. unfold mget, mbind, M_bind, mlift, mret, M_ret, cache_add, mfail. simpl.
  destruct (GetByKey _ (objStore st)) as [o|] eqn:E.
  - destruct (coherent_configmap _ _ _ _ Hst E) as (s & -> & Hs). rewrite Hs. simpl. by case_match.
  - destruct (cmClient ns _) as [s| |] eqn:Es; simpl; [|done..].
    assert (coherent (Build_StoreBuilder (Add (AConfigMap s) (objStore st)) (tlsAssetKeys st))) as Hc.
    { apply coherent_add; [done|]. simpl. by destruct (configmap_named _ _ Hapi _ _ _ Es) as [-> ->]. }
    by case_match.
Qed.

(** ** Checks are composed of additions *)

Local Abbreviation addition_of := (run_addition sClient cmClient pem_Decode x509_ParseCertificate tls_X509KeyPair).

(** A property of computations that is closed under composition and holds of reading keys. *)
Record compositional (P : ∀ A, builder A → Prop) : Prop := {
  comp_ret A (a : A) : P A (mret a);
  comp_fail A e : P A (mfail e);
  comp_lift A (r : res A) : P A (mlift r);
  comp_bind A B (c : builder A) (k : A → builder B) : P A c → (∀ a, P B (k a)) → P B (c ≫= k);
  comp_wrap A f args (c : builder A) : P A c → P A (mwrap f args c);
  comp_for_each A (f : A → builder ()) l : (∀ x, P unit (f x)) → P unit (mfor_each f l);
  comp_add_key k : P unit (add_key k);
  comp_secret ns sel : P string (secretKey ns sel);
  comp_configmap ns sel : P string (configMapKey ns sel);
}.
Lemma determined_compositional : compositional (@determined).
Proof.
  split; eauto using determined_ret, determined_fail, determined_lift, determined_bind, determined_wrap,
    determined_for_each, determined_add_key, determined_secret, determined_configmap.
Qed.
Lemma monotone_compositional : compositional (@monotone C _).
Proof.
  split; eauto using monotone_ret, monotone_fail, monotone_lift, monotone_bind, monotone_wrap, monotone_for_each, monotone_add_key.
  - intros ns sel. apply GetSecretKey_monotone, Hapi.
  - intros ns sel. apply GetConfigMapKey_monotone, Hapi.
Qed.

Section compositional.
Context (P : ∀ A, builder A → Prop) (HP : compositional P).
Ltac comp :=
  repeat first
    [ progress intros
    | match goal with
      | |- P _ (match ?x with _ => _ end) => destruct x
      | |- P _ (let '(_, _) := ?x in _) => destruct x
      | |- P _ (mret _) => apply (comp_ret P HP)
      | |- P _ (mfail _) => apply (comp_fail P HP)
      | |- P _ (mlift _) => apply (comp_lift P HP)
      | |- P _ (_ ≫= _) => apply (comp_bind P HP)
      | |- P _ (mwrap _ _ _) => apply (comp_wrap P HP)
      | |- P _ (at_index _ _) => apply (comp_wrap P HP)
      | |- P _ (mfor_each _ _) => apply (comp_for_each P HP)
      | |- P _ (each _ _) => apply (comp_for_each P HP)
      | |- P _ (add_key _) => apply (comp_add_key P HP)
      | |- P _ (GetSecretKey _ _ _) => apply (comp_secret P HP)
      | |- P _ (GetConfigMapKey _ _ _) => apply (comp_configmap P HP)
      end ].
Lemma comp_addition x : P unit (addition_of x).
Proof.
  destruct x as [ns []]; unfold run_addition; simpl;
    unfold AddBasicAuth, AddProxyConfig, AddProxyConfig_order, AddSafeTLSConfig, AddTLSConfig, AddOAuth2,
      AddSafeAuthorizationCredentials, AddAuthorizationCredentials, AddSigV4, AddAzureOAuth,
      AddProxyConfig, AddProxyConfig_order, AddSafeTLSConfig, addTLSAssets, add_ca, add_pair, GetKey; comp.
Qed.
Ltac additions :=
  first [ apply (comp_addition (_, OfBasicAuth _)) | apply (comp_addition (_, OfProxyConfig _))
        | apply (comp_addition (_, OfSafeTLSConfig _)) | apply (comp_addition (_, OfTLSConfig _))
        | apply (comp_addition (_, OfOAuth2 _)) | apply (comp_addition (_, OfSafeAuthorization _))
        | apply (comp_addition (_, OfAuthorization _)) | apply (comp_addition (_, OfSigV4 _))
        | apply (comp_addition (_, OfAzureAD _)) | apply (comp_addition (_, OfSafeAuthorization (Some _))) ].
Ltac check_comp :=
  repeat first [ progress comp | additions
    | progress unfold addProxyConfigToStore, load_optional, load_secret, require_version, require ].

Context (rs : ResourceSelector).
Local Abbreviation checkServiceMonitor_ := (checkServiceMonitor sClient cmClient pem_Decode x509_ParseCertificate tls_X509KeyPair rs).
Local Abbreviation checkPodMonitor_ := (checkPodMonitor sClient cmClient pem_Decode x509_ParseCertificate tls_X509KeyPair rs).
Local Abbreviation checkProbe_ := (checkProbe sClient cmClient pem_Decode x509_ParseCertificate tls_X509KeyPair rs).
Local Abbreviation checkScrapeConfig_ := (checkScrapeConfig sClient cmClient pem_Decode x509_ParseCertificate tls_X509KeyPair rs).
Local Abbreviation checkServiceDiscoveries_ := (checkServiceDiscoveries sClient cmClient pem_Decode x509_ParseCertificate tls_X509KeyPair rs).
Lemma comp_checkServiceMonitor sm : P unit (checkServiceMonitor_ sm).
Proof. unfold checkServiceMonitor. check_comp. Qed.
Lemma comp_checkPodMonitor pm : P unit (checkPodMonitor_ pm).
Proof. unfold checkPodMonitor. check_comp. Qed.
Lemma comp_checkProbe probe : P unit (checkProbe_ probe).
Proof. unfold checkProbe. check_comp. Qed.
Lemma comp_checkServiceDiscoveries sc : P unit (checkServiceDiscoveries_ sc).
Proof.
  unfold checkServiceDiscoveries, validateStaticConfig, validateHTTPSDConfigs, validateKubernetesSDConfigs,
    validateConsulSDConfigs, validateDNSSDConfigs, validateEC2SDConfigs, validateAzureSDConfigs, validateOpenStackSDConfigs,
    validateDigitalOceanSDConfigs, validateKumaSDConfigs, validateEurekaSDConfigs, validateDockerSDConfigs,
    validateLinodeSDConfigs, validateHetznerSDConfigs, validateNomadSDConfigs, validateDockerSwarmSDConfigs,
    validatePuppetDBSDConfigs, validateLightSailSDConfigs, validateOVHCloudSDConfigs, validateScalewaySDConfigs,
    validateIonosSDConfigs. check_comp.
Qed.
Lemma comp_checkScrapeConfig sc : P unit (checkScrapeConfig_ sc).
Proof. unfold checkScrapeConfig. check_comp. apply comp_checkServiceDiscoveries. Qed.
Lemma comp_AddRemoteWrites ns l : P unit (AddRemoteWritesToStore sClient cmClient pem_Decode x509_ParseCertificate tls_X509KeyPair ns l).
Proof. unfold AddRemoteWritesToStore. check_comp. Qed.
Lemma comp_AddRemoteReads ns l : P unit (AddRemoteReadsToStore sClient cmClient pem_Decode x509_ParseCertificate tls_X509KeyPair ns l).
Proof. unfold AddRemoteReadsToStore. check_comp. Qed.
Lemma comp_AddAPIServerConfig ns o : P unit (AddAPIServerConfigToStore sClient cmClient pem_Decode x509_ParseCertificate tls_X509KeyPair ns o).
Proof. unfold AddAPIServerConfigToStore. check_comp. Qed.
Lemma comp_AddScrapeClasses ns l : P unit (AddScrapeClassesToStore sClient cmClient pem_Decode x509_ParseCertificate tls_X509KeyPair ns l).
Proof. unfold AddScrapeClassesToStore. check_comp. Qed.
End compositional.

(** ** What success ensures *)

(** A condition on the store that survives additions. *)
Definition persistent (Q : StoreBuilder C → Prop) : Prop := ∀ st st', grows st st' → Q st → Q st'.
Lemma persistent_resolved ns ref : persistent (fun st => resolved st ns ref).
Proof. intros st st' Hg [v Hv]. exists v. by eapply resolves_grows. Qed.
Lemma persistent_pure (Q : Prop) : persistent (fun _ => Q).
Proof. by intros st st' _ HQ. Qed.

Definition ensures {A} (Q : StoreBuilder C → Prop) (c : builder A) : Prop := ∀ st st' v, c st = (st', Ok v) → Q st'.
Lemma ensures_left {A B} Q (c : builder A) (k : A → builder B) :
  persistent Q → (∀ a, monotone (k a)) → ensures Q c → ensures Q (c ≫= k).
Proof.
  intros HQ Hk Hc st st' v (st1 & a & E1 & E2)%mbind_ok. eapply HQ; [|by eapply Hc].
  specialize (Hk a st1). by rewrite E2 in Hk.
Qed.
Lemma ensures_right {A B} Q (c : builder A) (k : A → builder B) : (∀ a, ensures Q (k a)) → ensures Q (c ≫= k).
Proof. intros Hk st st' v (st1 & a & E1 & E2)%mbind_ok. by eapply Hk. Qed.
Lemma ensures_wrap {A} Q f args (c : builder A) : ensures Q c → ensures Q (mwrap f args c).
Proof. intros Hc st st' v E%mwrap_ok. by eapply Hc. Qed.
Lemma ensures_lift {A} (Q : Prop) (r : res A) : (∀ v, r = Ok v → Q) → ensures (fun _ => Q) (mlift r).
Proof. intros Hr st st' v [_ E]%mlift_ok. by eapply Hr. Qed.
Lemma ensures_each {A} Q (l : list A) f x :
  persistent Q → (∀ i y, monotone (f i y)) → x ∈ l → (∀ i, ensures Q (f i x)) → ensures Q (each l f).
Proof.
  intros HQ Hm Hx Hf. unfold each. generalize 0.
  assert (∀ n, ensures Q (mfor_each (fun y => f y.1 y.2) (imap (fun i y => (n + i, y)) l))) as Hl; [|intros _; exact (Hl 0)].
  revert Hx. induction l as [|y l IH]; intros Hx n; [by apply elem_of_nil in Hx|]. simpl.
  assert (∀ a : (), monotone (mfor_each (fun y => f y.1 y.2) (imap ((fun i z => (n + i, z)) ∘ S) l))).
  { intros _. apply monotone_for_each. intros z. apply Hm. }
  apply elem_of_cons in Hx as [<-|Hx]; [by apply ensures_left|]. apply ensures_right. intros _.
  specialize (IH Hx (S n)). rewrite (imap_ext _ (fun i z => (S n + i, z)) l); [done|].
  intros i z _. simpl. f_equal. lia.
Qed.
Lemma ensures_load ns sel : ensures (fun st => resolved st ns (secret_ref sel)) (load_secret sClient ns sel).
Proof.
  intros st st' v (st1 & a & E & [<- _]%mret_ok)%mbind_ok. exists a. eapply GetSecretKey_resolves; [apply Hapi|done].
Qed.
Lemma ensures_optional ns sel x :
  sel = Some x → ensures (fun st => resolved st ns (secret_ref x)) (load_optional sClient ns sel).
Proof. intros ->. apply ensures_load. Qed.
Lemma ensures_tls ns o :
  ensures (fun _ => TLSConfig_Validate o = Ok ()) (AddTLSConfig sClient cmClient pem_Decode x509_ParseCertificate tls_X509KeyPair ns o).
Proof.
  unfold AddTLSConfig. destruct o as [c|]; [|by intros st st' v _].
  apply (ensures_left (fun _ => TLSConfig_Validate (Some c) = Ok ())); [apply persistent_pure| |].
  - intros []. apply (addTLSAssets_monotone sClient cmClient pem_Decode x509_ParseCertificate tls_X509KeyPair); apply Hapi.
  - apply ensures_lift. intros [] Hw. by apply wrap_ok in Hw.
Qed.

Lemma addition_monotone x : monotone (addition_of x).
Proof. apply run_addition_monotone; apply Hapi. Qed.
Ltac mono_add :=
  first [ apply (addition_monotone (_, OfBasicAuth _)) | apply (addition_monotone (_, OfProxyConfig _))
        | apply (addition_monotone (_, OfSafeTLSConfig _)) | apply (addition_monotone (_, OfTLSConfig _))
        | apply (addition_monotone (_, OfOAuth2 _)) | apply (addition_monotone (_, OfSafeAuthorization _))
        | apply (addition_monotone (_, OfAuthorization _)) | apply (addition_monotone (_, OfSigV4 _))
        | apply (addition_monotone (_, OfAzureAD _)) | apply (addition_monotone (_, OfSafeAuthorization (Some _))) ].
Lemma load_secret_monotone ns sel : monotone (load_secret sClient ns sel).
Proof. unfold load_secret. apply monotone_bind; [|intros _; apply monotone_ret]. apply (comp_secret _ monotone_compositional). Qed.
(** Split a computation until an addition or the hints apply. *)
Ltac mono :=
  repeat first [ progress monotone_tac | mono_add | apply load_secret_monotone
    | progress unfold each, at_index, addProxyConfigToStore, load_optional, require_version, require ].
(** Look for the step that ensures the condition. *)
Ltac ens lem :=
  repeat match goal with
    | |- ensures _ (_ ≫= _) =>
        first [ solve [ apply ensures_left; [first [apply persistent_resolved|apply persistent_pure]|mono
                  |unfold at_index; repeat apply ensures_wrap; lem] ]
              | apply ensures_right; intros ? ]
    | |- ensures _ (mwrap _ _ _) => apply ensures_wrap
    | |- ensures _ (at_index _ _) => apply ensures_wrap
    end; try lem.

Context (rs : ResourceSelector).
Lemma service_monitor_selector sm :
  ensures (fun _ => selector_ok (sms_Selector (sm_Spec sm)))
    (checkServiceMonitor sClient cmClient pem_Decode x509_ParseCertificate tls_X509KeyPair rs sm).
Proof. unfold checkServiceMonitor. ens ltac:(apply ensures_lift; intros t Ht; by exists t). Qed.
Lemma service_monitor_tls sm ep :
  ep ∈ sms_Endpoints (sm_Spec sm) →
  ensures (fun _ => TLSConfig_Validate (ep_TLSConfig ep) = Ok ())
    (checkServiceMonitor sClient cmClient pem_Decode x509_ParseCertificate tls_X509KeyPair rs sm).
Proof.
  intros Hep. unfold checkServiceMonitor.
  ens ltac:(eapply ensures_each; [apply persistent_pure|mono|exact Hep|intros i; ens ltac:(apply ensures_tls)]).
Qed.
Lemma pod_monitor_selector pm :
  ensures (fun _ => selector_ok (pms_Selector (pm_Spec pm)))
    (checkPodMonitor sClient cmClient pem_Decode x509_ParseCertificate tls_X509KeyPair rs pm).
Proof. unfold checkPodMonitor. ens ltac:(apply ensures_lift; intros t Ht%wrap_ok; by exists t). Qed.
(** With denied access to the file system no endpoint names a file. *)
Lemma service_monitor_files sm ep :
  fsa_Deny (cpf_ArbitraryFSAccessThroughSMs (po_cpf (rs_p rs))) = true → ep ∈ sms_Endpoints (sm_Spec sm) →
  ensures (fun _ => testForArbitraryFSAccess ep = Ok ())
    (checkServiceMonitor sClient cmClient pem_Decode x509_ParseCertificate tls_X509KeyPair rs sm).
Proof.
  intros Hd Hep. unfold checkServiceMonitor. rewrite Hd.
  ens ltac:(eapply ensures_each; [apply persistent_pure|mono|exact Hep
    |intros i; ens ltac:(apply ensures_lift; intros [] Hv; exact Hv)]).
Qed.

(** ** The secrets of a ScrapeConfig *)

(** The client secret of Azure is loaded for the default method of authentication only. *)
Definition azure_checked (c : AzureSDConfig) : Prop :=
  let m := default "" (AzureSDConfig_AuthenticationMethod c) in
  (m = "ManagedIdentity" ∨ m = "SDK") → AzureSDConfig_ClientSecret c = None.

Section secrets.
Context (sc : ScrapeConfig) (x : SecretKeySelector).
Local Abbreviation spec := (scrapeconfig_Spec sc).
Local Abbreviation can_read := (fun st => resolved st (om_Namespace (scrapeconfig_ObjectMeta sc)) (secret_ref x)).
Ltac in_loop Hc := eapply ensures_each; [apply persistent_resolved|mono|exact Hc|intros i].
Lemma consul_secret c :
  c ∈ scs_ConsulSDConfigs spec → ConsulSDConfig_TokenRef c = Some x →
  ensures can_read (validateConsulSDConfigs sClient cmClient pem_Decode x509_ParseCertificate tls_X509KeyPair rs sc).
Proof. intros Hc Hx. unfold validateConsulSDConfigs. in_loop Hc. ens ltac:(by apply ensures_optional). Qed.
Lemma ec2_secret c :
  c ∈ scs_EC2SDConfigs spec → EC2SDConfig_AccessKey c = Some x ∨ EC2SDConfig_SecretKey c = Some x →
  ensures can_read (validateEC2SDConfigs sClient cmClient pem_Decode x509_ParseCertificate tls_X509KeyPair sc).
Proof.
  intros Hc Hx. unfold validateEC2SDConfigs. in_loop Hc. destruct Hx; ens ltac:(by apply ensures_optional).
Qed.
Lemma lightsail_secret c :
  c ∈ scs_LightSailSDConfigs spec → LightSailSDConfig_AccessKey c = Some x ∨ LightSailSDConfig_SecretKey c = Some x →
  ensures can_read (validateLightSailSDConfigs sClient cmClient pem_Decode x509_ParseCertificate tls_X509KeyPair rs sc).
Proof.
  intros Hc Hx. unfold validateLightSailSDConfigs. apply ensures_right. intros _.
  in_loop Hc. destruct Hx; ens ltac:(by apply ensures_optional).
Qed.
Lemma openstack_secret c :
  c ∈ scs_OpenStackSDConfigs spec →
  OpenStackSDConfig_Password c = Some x ∨ OpenStackSDConfig_ApplicationCredentialSecret c = Some x →
  ensures can_read (validateOpenStackSDConfigs sClient rs sc).
Proof.
  intros Hc Hx. unfold validateOpenStackSDConfigs. in_loop Hc. destruct Hx; ens ltac:(by apply ensures_optional).
Qed.
Lemma azure_secret c :
  c ∈ scs_AzureSDConfigs spec → azure_checked c → AzureSDConfig_ClientSecret c = Some x →
  ensures can_read (validateAzureSDConfigs sClient cmClient pem_Decode x509_ParseCertificate tls_X509KeyPair rs sc).
Proof.
  intros Hc Ha Hx. unfold validateAzureSDConfigs. in_loop Hc. unfold azure_checked in Ha. rewrite Hx in *.
  do 2 (apply ensures_right; intros _). case_match eqn:E.
  - apply orb_prop in E. rewrite !bool_decide_eq_true in E. by apply Ha in E.
  - ens ltac:(apply ensures_load).
Qed.
Lemma both_elem a b : Some x ∈ both a b → a = Some x ∨ b = Some x.
Proof. unfold both. destruct a, b; set_solver. Qed.
(** The check that loads the secret, among the others. *)
Ltac search lem :=
  unfold validateStaticConfig, validateHTTPSDConfigs, validateKubernetesSDConfigs, validateDNSSDConfigs,
    validateDigitalOceanSDConfigs, validateKumaSDConfigs, validateEurekaSDConfigs, validateDockerSDConfigs,
    validateLinodeSDConfigs, validateHetznerSDConfigs, validateNomadSDConfigs, validateDockerSwarmSDConfigs,
    validatePuppetDBSDConfigs, validateOVHCloudSDConfigs, validateScalewaySDConfigs, validateIonosSDConfigs;
  repeat match goal with
    | |- ensures _ (_ ≫= _) =>
        first [ apply ensures_left; [apply persistent_resolved| |apply ensures_wrap; solve [lem]]; intros _
              | apply ensures_right; intros _ ]
    end;
  unfold validateConsulSDConfigs, validateEC2SDConfigs, validateAzureSDConfigs, validateOpenStackSDConfigs,
    validateLightSailSDConfigs; mono.
Lemma scrape_config_secrets :
  Forall azure_checked (scs_AzureSDConfigs spec) → Some x ∈ checked_secrets spec →
  ensures can_read (checkScrapeConfig sClient cmClient pem_Decode x509_ParseCertificate tls_X509KeyPair rs sc).
Proof.
  intros Ha Hx. unfold checkScrapeConfig. do 9 (apply ensures_right; intros _). unfold checkServiceDiscoveries.
  unfold checked_secrets in Hx. rewrite Forall_forall in Ha.
  repeat (apply elem_of_app in Hx as [Hx|Hx]); apply list_elem_of_bind in Hx as (c & Hx & Hc).
  - unfold ConsulSDConfig_secrets in Hx. apply list_elem_of_singleton in Hx.
    search ltac:(by eapply consul_secret).
  - apply both_elem in Hx. search ltac:(by eapply ec2_secret).
  - unfold AzureSDConfig_secrets in Hx. apply list_elem_of_singleton in Hx.
    search ltac:(by eapply azure_secret; [|apply Ha|]).
  - search ltac:(eapply openstack_secret; [done|]; unfold OpenStackSDConfig_secrets in Hx; set_solver).
  - apply both_elem in Hx. search ltac:(by eapply lightsail_secret).
Qed.
End secrets.

(** The version that service discovery with OVHcloud needs, whether or not it is used. *)
Lemma scrape_config_version sc :
  ensures (fun _ => LT (rs_version rs) (MustParse "2.40.0") = false)
    (checkScrapeConfig sClient cmClient pem_Decode x509_ParseCertificate tls_X509KeyPair rs sc).
Proof.
  unfold checkScrapeConfig. do 9 (apply ensures_right; intros _). unfold checkServiceDiscoveries.
  do 18 (apply ensures_right; intros _). apply ensures_left; [apply persistent_pure| |].
  - intros _. unfold validateScalewaySDConfigs, validateIonosSDConfigs. mono.
  - apply ensures_wrap. unfold validateOVHCloudSDConfigs. apply ensures_left; [apply persistent_pure|mono|].
    unfold require_version, require. intros st st' v. destruct (LT _ _); [done|]. done.
Qed.

(** ** store.go *)

Lemma remote_write_tls ns l r :
  r ∈ l → ensures (fun _ => TLSConfig_Validate (rw_TLSConfig r) = Ok ())
    (AddRemoteWritesToStore sClient cmClient pem_Decode x509_ParseCertificate tls_X509KeyPair ns l).
Proof.
  intros Hr. unfold AddRemoteWritesToStore.
  eapply ensures_each; [apply persistent_pure|mono|exact Hr|intros i]. ens ltac:(apply ensures_tls).
Qed.
Lemma remote_read_tls ns l r :
  r ∈ l → ensures (fun _ => TLSConfig_Validate (rrd_TLSConfig r) = Ok ())
    (AddRemoteReadsToStore sClient cmClient pem_Decode x509_ParseCertificate tls_X509KeyPair ns l).
Proof.
  intros Hr. unfold AddRemoteReadsToStore.
  eapply ensures_each; [apply persistent_pure|mono|exact Hr|intros i]. ens ltac:(apply ensures_tls).
Qed.
Lemma api_server_tls ns o :
  ensures (fun _ => api_ok o) (AddAPIServerConfigToStore sClient cmClient pem_Decode x509_ParseCertificate tls_X509KeyPair ns o).
Proof.
  unfold api_ok. destruct o as [c|]; [|by intros st st' v _ x]. simpl.
  assert (ensures (fun _ => TLSConfig_Validate (api_TLSConfig c) = Ok ())
    (AddAPIServerConfigToStore sClient cmClient pem_Decode x509_ParseCertificate tls_X509KeyPair ns (Some c))) as He.
  { simpl. ens ltac:(apply ensures_tls). }
  intros st st' v E x [= <-]. by eapply He.
Qed.

(** ** Selecting objects *)

End laws.

Section selecting.
Context `{Semver} `{PromLibs} `{KeyFunc} {C : Type} `{CacheStore C}.
Context (sClient : string → string → res Secret) (cmClient : string → string → res ConfigMap).
Local Abbreviation builder := (M (StoreBuilder C)).
Local Abbreviation coherent := (coherent sClient cmClient).
Context {A : Type} `{Resource A} (checkFn : A → builder ()).
Context (Hdet : ∀ o, determined sClient cmClient (checkFn o)) (Hmono : ∀ o, monotone (checkFn o)).

(** What the check says of an object, whatever is cached. *)
Definition verdict (o : A) : res () := (checkFn o NewStoreBuilder).2.
Lemma verdict_spec o st : coherent st → (checkFn o st).2 = verdict o ∧ coherent (checkFn o st).1.
Proof.
  intros Hst. destruct (Hdet o) as [r Hr]. destruct (Hr st Hst) as [E Hc]. split; [|done]. rewrite E. symmetry.
  apply Hr, coherent_new.
Qed.
Definition judged (kv : string * A) : selected A := {|
  sel_resource := kv.2; sel_key := kv.1;
  sel_err := match verdict kv.2 with Err e => Some e | _ => None end;
  sel_reason := match verdict kv.2 with Err e => invalidConfiguration | _ => "" end |}.
(** What holds after the objects of [l] were checked. *)
Record all_checked (l : list (string * A)) (st st' : selector_state) : Prop := {
  ac_no_panic : Forall (fun kv => no_panic (verdict kv.2)) l;
  ac_coherent : coherent (ss_store st');
  ac_grows : grows (ss_store st) (ss_store st');
  ac_metrics : ss_metrics st' = ss_metrics st;
  ac_ensured kv Q : kv ∈ l → verdict kv.2 = Ok () → persistent Q → ensures Q (checkFn kv.2) → Q (ss_store st');
}.
Lemma check_objects_ok l st st' sel :
  coherent (ss_store st) → check_objects checkFn l st = (st', Ok sel) → sel = judged <$> l ∧ all_checked l st st'.
Proof.
  revert st sel. induction l as [|[k o] l IH]; intros st sel Hst; simpl.
  { intros [<- <-]%mret_ok. split; [done|]. split; try done. intros kv Q Hl. by apply elem_of_nil in Hl. }
  intros (st1 & r & E1 & (st2 & l' & E2 & [<- <-]%mret_ok)%mbind_ok)%mbind_ok.
  unfold mtry, on_store in E1. destruct (verdict_spec o (ss_store st) Hst) as [Hv Hc]. pose proof (Hmono o (ss_store st)) as Hg.
  destruct (checkFn o (ss_store st)) as [s0 r0] eqn:E0. simpl in Hv, Hc, Hg. subst r0.
  assert (∃ v, verdict o = v ∧ st1 = {| ss_store := s0; ss_metrics := ss_metrics st |} ∧ no_panic v ∧
    match r with inl _ => None | inr e => Some e end = match v with Err e => Some e | _ => None end) as (v & Hv & -> & Hn & Hr).
  { destruct (verdict o) as [[]|e|m] eqn:Ev; [| |discriminate E1]; injection E1 as <- <-;
      eexists; split_and!; [reflexivity|reflexivity|unfold no_panic; congruence|reflexivity
        |reflexivity|reflexivity|unfold no_panic; congruence|reflexivity]. }
  apply IH in E2 as [-> [Hp Hc' Hg' Hm He]]; [|done]. simpl in *. split.
  { f_equal. unfold judged. simpl. rewrite Hr, Hv. by destruct v. }
  split; simpl; try done.
  - constructor; [by simpl; rewrite Hv|done].
  - by trans s0.
  - intros kv Q [->|Hl]%elem_of_cons Hok HQ Hens; [|by eapply He].
    simpl in Hok. eapply HQ; [exact Hg'|]. eapply Hens. simpl. rewrite E0, Hok. done.
Qed.

Lemma ValidResources_snoc (l : ResourcesSelection A) r :
  ValidResources (l ++ [r]) =
  match sel_err r with None => <[sel_key r := sel_resource r]> (ValidResources l) | Some _ => ValidResources l end.
Proof. unfold ValidResources. by rewrite foldl_app. Qed.
(** The valid resources are the objects with a good verdict, in whatever order they were visited. *)
Lemma ValidResources_judged (objects : gmap string A) l :
  Forall (fun kv => no_panic (verdict kv.2)) l → l ≡ₚ map_to_list objects →
  ValidResources (judged <$> l) = base.filter (fun kv => verdict kv.2 = Ok ()) objects.
Proof.
  intros Hn Hl. apply map_eq. intros k. apply option_eq. intros x.
  rewrite map_lookup_filter_Some. simpl.
  assert (objects !! k = Some x ↔ (k, x) ∈ l) as -> by by rewrite Hl, elem_of_map_to_list.
  assert (NoDup l.*1) as Hnd by (rewrite Hl; apply NoDup_fst_map_to_list). clear Hl objects.
  induction l as [|[k' y] l IH] using rev_ind.
  { split; [done|]. by intros [Hx%elem_of_nil _]. }
  rewrite fmap_app in Hnd. apply NoDup_app in Hnd as (Hnd & Hd & _). apply Forall_app in Hn as [Hn [Hy _]%Forall_cons].
  rewrite fmap_app. change (judged <$> [(k', y)]) with [judged (k', y)].
  rewrite ValidResources_snoc, elem_of_app, list_elem_of_singleton. simpl.
  assert (verdict y = Ok () ∧ sel_err (judged (k', y)) = None ∨ verdict y ≠ Ok () ∧ is_Some (sel_err (judged (k', y)))) as Hc.
  { simpl in *. destruct (verdict y) as [[]|e|m] eqn:E; [left; by rewrite ?E|right|by destruct (Hy m)].
    split; [done|]. rewrite ?E. by eexists. }
  simpl in Hc. destruct Hc as [[Hv ->]|[Hv [e ->]]].
  - rewrite lookup_insert. case_decide as Hk.
    + subst k'. split; [intros [= <-]; auto|]. intros [[Hin|[= ->]] _]; [|done].
      exfalso. apply (Hd k); [apply (list_elem_of_fmap_2' _ _ (k, x)); done|by left].
    + rewrite IH by done. naive_solver.
  - rewrite IH by done. split; [naive_solver|]. intros [[Hin|[= -> ->]] Hx]; done.
Qed.
Lemma judged_err kv : no_panic (verdict kv.2) → is_Some (sel_err (judged kv)) ↔ verdict kv.2 ≠ Ok ().
Proof.
  intros Hn. simpl. destruct (verdict kv.2) as [[]|e|m] eqn:E; [| |by destruct (Hn m)].
  - split; [by intros []|done].
  - split; [done|]. by eexists.
Qed.
Lemma rejected_judged (l : list (string * A)) :
  Forall (fun kv => no_panic (verdict kv.2)) l →
  rejected_count (judged <$> l) = Z.of_nat (length (base.filter (fun kv => verdict kv.2 ≠ Ok ()) l)).
Proof.
  unfold rejected_count. intros Hn. f_equal. induction Hn as [|kv l Hkv _ IH]; [done|].
  change (judged <$> kv :: l) with (judged kv :: (judged <$> l)). pose proof (judged_err kv Hkv) as Hj.
  destruct (decide (verdict kv.2 = Ok ())) as [Hd|Hd].
  - rewrite !filter_cons_False by (rewrite ?Hj; tauto). exact IH.
  - rewrite !filter_cons_True by (rewrite ?Hj; tauto). simpl. by rewrite IH.
Qed.

Context (rs' : ResourceSelector) (nsInf : LabelSelector → res (list string)) (ObjectKinds : res (list GroupVersionKind)).
Context (listFn : string → option LabelSelector → res (list A)) (visit : gmap string A → list (string * A)).
Context (Hvisit : ∀ m, visit m ≡ₚ map_to_list m).

Lemma selectObjects_ok kind selector nsSelector st st' sel :
  coherent (ss_store st) → selectObjects rs' nsInf ObjectKinds listFn visit kind selector nsSelector checkFn st = (st', Ok sel) →
  ∃ objects st1, selected_objects rs' nsInf ObjectKinds listFn selector nsSelector = Ok objects ∧
    sel = judged <$> visit objects ∧ all_checked (visit objects) st st1 ∧ ss_store st' = ss_store st1 ∧
    ValidResources sel = base.filter (fun kv => verdict kv.2 = Ok ()) objects.
Proof.
  intros Hst. unfold selectObjects. intros (s1 & objects & [<- Hobj]%mlift_ok & E)%mbind_ok.
  apply mbind_ok in E as (st1 & l & E & (s2 & [] & Em & [<- <-]%mret_ok)%mbind_ok).
  apply check_objects_ok in E as [-> Hac]; [|done]. exists objects, st1. split; [done|]. split; [done|]. split; [done|]. split.
  - unfold set_selection_metrics in Em. case_match; by injection Em as <-.
  - apply ValidResources_judged; [|done]. apply Hac.
Qed.
(** Selection succeeds when the objects can be listed and no check panics. *)
Lemma check_objects_total (l : list (string * A)) st :
  coherent (ss_store st) → Forall (fun kv => no_panic (verdict kv.2)) l → ∃ st' sel, check_objects checkFn l st = (st', Ok sel).
Proof.
  intros Hst Hl. revert st Hst. induction Hl as [|[k o] l Ho _ IH]; intros st Hst; simpl; [by do 2 eexists|].
  destruct (verdict_spec o (ss_store st) Hst) as [Hv Hc]. unfold mbind, M_bind, mtry, on_store.
  destruct (checkFn o (ss_store st)) as [s0 r0]. simpl in Hv, Hc, Ho. subst r0.
  destruct (verdict o) as [[]|e|m]; [| |by destruct (Ho m)];
    destruct (IH {| ss_store := s0; ss_metrics := ss_metrics st |} Hc) as (st' & sel & ->); by do 2 eexists.
Qed.
(** ** The objects that are listed *)

Definition listed_as (o x : A) : Prop := ∃ k, x = o ∨ x = r_set_kind k o.
Lemma add_object_lookup m o k x :
  add_object ObjectKinds m o !! k = Some x →
  m !! k = Some x ∨ (MetaNamespaceKey (Object (r_meta o)) = Some k ∧ listed_as o x).
Proof.
  unfold add_object, AddTypeInformationToObject. destruct (MetaNamespaceKey _) as [k'|] eqn:Ek; [|by left].
  destruct (wrap _ _ ObjectKinds) as [gvks| |]; simpl; [|by left..].
  rewrite lookup_insert. case_decide as Hk; [|by left]. subst k'. intros [= <-]. right. split; [done|].
  destruct (usable_kind gvks) as [gvk|]; [|by exists {| gk_Group := ""; gk_Kind := "" |}; left]. eexists. right. done.
Qed.
Lemma list_objects_lookup sel nss m m' k x :
  list_objects ObjectKinds listFn sel nss m = Ok m' → m' !! k = Some x →
  m !! k = Some x ∨
  ∃ ns l o, listFn ns sel = Ok l ∧ o ∈ l ∧ MetaNamespaceKey (Object (r_meta o)) = Some k ∧ listed_as o x.
Proof.
  revert m. induction nss as [|ns nss IH]; intros m; simpl; [by intros [= <-]; left|].
  rewrite bind_ok_ex. intros (l & Hl%wrap_ok & E) Hx. destruct (IH _ E Hx) as [Hm|Hm]; [|by right].
  clear IH E Hx. assert (∀ o, o ∈ l → o ∈ l) as Hsub by done. revert Hm Hsub. generalize l at 1 2 as l'.
  intros l'. revert m. induction l' as [|o l' IH]; intros m; simpl; [by left|]. intros Hm Hsub.
  destruct (IH _ Hm) as [Hm'|Hm']; [intros y Hy; apply Hsub; by right| |by right].
  apply add_object_lookup in Hm' as [Hm'|[Hk Hx]]; [by left|]. right. exists ns, l, o. split; [done|].
  split; [apply Hsub; by left|]. done.
Qed.
Lemma listed_meta o x : listed_as o x → r_meta x = r_meta o.
Proof. intros [k [-> | ->]]; [done|apply r_meta_set_kind]. Qed.
End selecting.
