(* ===== verification/ServerConfig.v ===== *)
(** * Writing the configuration of a Prometheus object

    createOrUpdateConfigurationSecret of pkg/prometheus/server/operator.go and of
    pkg/prometheus/agent/operator.go: the resources are selected, everything they refer to is
    loaded into the store, the configuration is generated, compressed and written into a Secret.
    With LoadSecretRef of pkg/k8sutil/secrets.go, GzipConfig of pkg/operator/gzip_config.go and
    MakeConfigurationSecret of pkg/prometheus/common.go. *)

From S2P Require Import Prelude GoStrings SortUtil Meta ApiClient K8sUtil Accessor Semver NamespaceLabeler MonitoringV1 Status.
From S2P Require Import PromTypes PromCommon AssetStore Yaml ConfigGenerator Relabel Monitors GlobalConfig.
From S2P Require Import ScrapeTypes ServiceDiscovery ScrapeConfigs PromCfg Selection SelectionLaws.

Definition IsAlreadyExists (e : error) : bool := bool_decide (reason_of e = Some AlreadyExists).
Definition ConfigFilename := "prometheus.yaml.gz".

(** The settings of the operator for the objects it makes. *)
Record Config := { config_Labels : gomap; config_Annotations : gomap }.

(** The informers of the operator; ScrapeConfigs may not be watched. *)
Record Informers := {
  nsMonInf : LabelSelector → res (list string);
  smonInfs : string → option LabelSelector → res (list ServiceMonitor);
  pmonInfs : string → option LabelSelector → res (list PodMonitor);
  probeInfs : string → option LabelSelector → res (list Probe);
  sconInfs : option (string → option LabelSelector → res (list ScrapeConfig));
}.

Section handlers.
Context `{Semver} `{PromLibs} `{SelectionLibs} `{KeyFunc} {C : Type} `{CacheStore C}.
Context (sClient : string → string → res Secret) (cmClient : string → string → res ConfigMap).
Context (pem_Decode : string → option string) (x509_ParseCertificate : string → res ()).
Context (tls_X509KeyPair : string → string → res ()).
(** The client for the Secrets of the object's namespace. *)
Context {St : Type} `{ApiClient Secret St, !Retry, !SemanticEquality Secret}.
(** Compression, the two directions of YAML, what the scheme knows of a kind, the order in which
    a map is visited and that of the tracing headers, and the owner reference with the addresses
    of its pointers. *)
Context (gzip_Write : string → res string) (um : string → res (list MapSlice)) (marshal : yaml → res string).
Context (ObjectKinds : string → res (list GroupVersionKind)) (visit : ∀ A, gmap string A → list (string * A)).
Context (order : list (string * string)) (owner : Owner) (addrs : nat * nat).
Context (config : Config) (infs : Informers) (disableUnmanagedConfiguration : bool).

Definition GzipConfig (conf : string) : res string := if bool_decide (conf = "") then Ok "" else gzip_Write conf.
Definition compress (data : string) : res string := wrap "failed to gzip config: %w" [] (GzipConfig data).
Definition ConfigSecretName (p : PrometheusObject) : string := PrefixedName (iface p).
Definition MakeConfigurationSecret (p : PrometheusObject) (data : string) : res Secret :=
  promConfig ← compress data;
  Ok {| sec_meta := UpdateObject zero_meta
          [WithLabels (config_Labels config); WithAnnotations (config_Annotations config);
           WithManagingOwner addrs.1 addrs.2 owner; WithName (ConfigSecretName p)];
        sec_Type := ""; sec_Data := {[ConfigFilename := promConfig]} |}.

(** ** State *)

Record op_state := { os_api : St; os_sel : @selector_state C }.
Definition on_secrets {A} (c : M St A) : M op_state A := fun st =>
  let '(s, r) := c (os_api st) in ({| os_api := s; os_sel := os_sel st |}, r).
Definition on_selection {A} (c : M selector_state A) : M op_state A := fun st =>
  let '(s, r) := c (os_sel st) in ({| os_api := os_api st; os_sel := s |}, r).
Local Abbreviation on_builder c := (on_selection (on_store c)).
Definition get_store : M op_state (StoreBuilder C) := fun st => (st, Ok (ss_store (os_sel st))).

Definition LoadSecretRef (sks : option SecretKeySelector) : M St (option string) :=
  match sks with
  | None => mret None
  | Some sks =>
      let optional := default false (SecretKeySelector_Optional sks) in
      r ← mtry (Get (SecretKeySelector_Name sks));
      match r with
      | inr err => if IsNotFound err && optional then mret None else mfail err
      | inl secret =>
          match sec_Data secret !! SecretKeySelector_Key sks with
          | Some b => mret (Some b)
          | None =>
              if optional then mret None
              else mfail (Errorf "key %v could not be found in secret %v" [SecretKeySelector_Key sks; SecretKeySelector_Name sks])
          end
      end
  end.

(** ** Alertmanager endpoints *)

Definition validateAlertmanagerEndpoints (p : PrometheusObject) (am : AlertmanagerEndpoints) : res () :=
  let nonNilFields := set_fields [("bearerTokenFile", bool_decide (ame_BearerTokenFile am ≠ ""));
    ("basicAuth", is_set (ame_BasicAuth am)); ("authorization", is_set (ame_Authorization am)); ("sigv4", is_set (ame_Sigv4 am))] in
  _ ← check (bool_decide (1 < length nonNilFields)) "can't be set at the same time, at most one of them must be defined";
  lcv ← NewLabelConfigValidator p;
  _ ← wrap "invalid relabelings: %w" [] (lcv_Validate lcv (ame_RelabelConfigs am));
  wrap "invalid alertRelabelings: %w" [] (lcv_Validate lcv (ame_AlertRelabelConfigs am)).
(** One round of the loop over the Alertmanagers. *)
Definition addAlertmanagerEndpoint (namespace : string) (am : AlertmanagerEndpoints) : M (StoreBuilder C) () :=
  _ ← AddBasicAuth sClient namespace (ame_BasicAuth am);
  _ ← AddSafeAuthorizationCredentials sClient namespace (ame_Authorization am);
  _ ← AddSigV4 sClient namespace (ame_Sigv4 am);
  _ ← AddTLSConfig sClient cmClient pem_Decode x509_ParseCertificate tls_X509KeyPair namespace (ame_TLSConfig am);
  AddProxyConfig sClient namespace (ame_ProxyConfig am).
Definition addAlertmanagerEndpointsToStore (namespace : string) (ams : list AlertmanagerEndpoints) : M (StoreBuilder C) () :=
  each ams (fun i am => mwrap "alertmanager %d: %w" [Itoa (Z.of_nat i)] (addAlertmanagerEndpoint namespace am)).

(** ** Selecting all kinds of resources *)

Record Resources := {
  res_smons : gmap string ServiceMonitor; res_pmons : gmap string PodMonitor;
  res_probes : gmap string Probe; res_scons : gmap string ScrapeConfig }.
Definition select_resources (p : PrometheusObject) : M selector_state Resources :=
  rs ← mlift (NewResourceSelector p);
  smons ← mwrap "selecting ServiceMonitors failed: %w" []
    (SelectServiceMonitors sClient cmClient pem_Decode x509_ParseCertificate tls_X509KeyPair rs (nsMonInf infs)
       (ObjectKinds ServiceMonitorsKind) (smonInfs infs) (visit _));
  pmons ← mwrap "selecting PodMonitors failed: %w" []
    (SelectPodMonitors sClient cmClient pem_Decode x509_ParseCertificate tls_X509KeyPair rs (nsMonInf infs)
       (ObjectKinds PodMonitorsKind) (pmonInfs infs) (visit _));
  bmons ← mwrap "selecting Probes failed: %w" []
    (SelectProbes sClient cmClient pem_Decode x509_ParseCertificate tls_X509KeyPair rs (nsMonInf infs)
       (ObjectKinds ProbesKind) (probeInfs infs) (visit _));
  scrapeConfigs ← match sconInfs infs with
    | None => mret []
    | Some listFn => mwrap "selecting ScrapeConfigs failed: %w" []
        (SelectScrapeConfigs sClient cmClient pem_Decode x509_ParseCertificate tls_X509KeyPair rs (nsMonInf infs)
           (ObjectKinds ScrapeConfigsKind) listFn (visit _))
    end;
  mret {| res_smons := ValidResources smons; res_pmons := ValidResources pmons;
          res_probes := ValidResources bmons; res_scons := ValidResources scrapeConfigs |}.

(** ** Prometheus servers *)

Definition server_object (om : ObjectMeta) (spec : PrometheusSpec) : PrometheusObject :=
  {| po_kind := Prometheus; po_ObjectMeta := om; po_cpf := spec_CommonPrometheusFields spec |}.
Definition unmanagedPrometheusConfiguration (spec : PrometheusSpec) : bool :=
  let cpf := spec_CommonPrometheusFields spec in
  negb disableUnmanagedConfiguration && negb (is_set (cpf_ServiceMonitorSelector cpf)) && negb (is_set (cpf_PodMonitorSelector cpf))
  && negb (is_set (cpf_ProbeSelector cpf)) && negb (is_set (cpf_ScrapeConfigSelector cpf)).
(** The user manages the configuration: an empty Secret is created when there is none. *)
Definition create_empty_secret (p : PrometheusObject) : M St () :=
  s ← mlift (wrap "failed to generate empty configuration secret: %w" [] (MakeConfigurationSecret p ""));
  r ← mtry (Get (name s));
  match r with
  | inl _ => mret ()
  | inr err =>
      if IsNotFound err then
        r ← mtry (Create s);
        match r with
        | inl _ => mret ()
        | inr err => if IsAlreadyExists err then mret ()
                     else mfail (Wrapf "failed to create an empty configuration secret: %w" [] err)
        end
      else mfail err
  end.
(** What the object itself refers to. *)
Definition load_server_assets (p : PrometheusObject) (spec : PrometheusSpec) : M (StoreBuilder C) () :=
  let ns := om_Namespace (po_ObjectMeta p) in
  let cpf := po_cpf p in
  _ ← AddRemoteReadsToStore sClient cmClient pem_Decode x509_ParseCertificate tls_X509KeyPair ns (spec_RemoteRead spec);
  _ ← AddRemoteWritesToStore sClient cmClient pem_Decode x509_ParseCertificate tls_X509KeyPair ns (cpf_RemoteWrite cpf);
  _ ← AddAPIServerConfigToStore sClient cmClient pem_Decode x509_ParseCertificate tls_X509KeyPair ns (cpf_APIServerConfig cpf);
  _ ← match spec_Alerting spec with
      | None => mret ()
      | Some alerting =>
          let ams := AlertingSpec_Alertmanagers alerting in
          _ ← each ams (fun i am => mwrap "alertmanager %d: %w" [Itoa (Z.of_nat i)] (mlift (validateAlertmanagerEndpoints p am)));
          addAlertmanagerEndpointsToStore ns ams
      end;
  mwrap "failed to process scrape classes: %w" []
    (AddScrapeClassesToStore sClient cmClient pem_Decode x509_ParseCertificate tls_X509KeyPair ns (cpf_ScrapeClasses cpf)).
Definition load_ref (what : string) (sks : option SecretKeySelector) : M op_state (option string) :=
  mwrap ("loading " +:+ what +:+ " from Secret failed: %w") [] (on_secrets (LoadSecretRef sks)).
(** The generated configuration is compressed and written. *)
Definition write_configuration (p : PrometheusObject) (conf : string) : M op_state () :=
  s ← mlift (wrap "creating compressed secret failed: %w" [] (MakeConfigurationSecret p conf));
  on_secrets (CreateOrUpdateSecret s).

Definition createOrUpdateConfigurationSecret (om : ObjectMeta) (spec : PrometheusSpec) (cg : ConfigGenerator)
    (ruleConfigMapNames : list string) : M op_state () :=
  let p := server_object om spec in
  if unmanagedPrometheusConfiguration spec then on_secrets (create_empty_secret p)
  else
    resources ← on_selection (select_resources p);
    _ ← on_builder (load_server_assets p spec);
    additionalScrapeConfigs ← load_ref "additional scrape configs" (cpf_AdditionalScrapeConfigs (po_cpf p));
    additionalAlertRelabelConfigs ← load_ref "additional alert relabel configs" (spec_AdditionalAlertRelabelConfigs spec);
    additionalAlertManagerConfigs ← load_ref "additional alert manager configs" (spec_AdditionalAlertManagerConfigs spec);
    store ← get_store;
    conf ← mlift (wrap "generating config failed: %w" []
      (GenerateServerConfiguration um marshal cg (res_smons resources) (res_pmons resources) (res_probes resources)
         (res_scons resources) store additionalScrapeConfigs order spec additionalAlertRelabelConfigs
         additionalAlertManagerConfigs ruleConfigMapNames));
    write_configuration p conf.

(** ** Prometheus agents *)

Definition agent_object (om : ObjectMeta) (cpf : CommonPrometheusFields) : PrometheusObject :=
  {| po_kind := PrometheusAgent; po_ObjectMeta := om; po_cpf := cpf |}.
Definition load_agent_assets (p : PrometheusObject) : M (StoreBuilder C) () :=
  let ns := om_Namespace (po_ObjectMeta p) in
  let cpf := po_cpf p in
  _ ← AddRemoteWritesToStore sClient cmClient pem_Decode x509_ParseCertificate tls_X509KeyPair ns (cpf_RemoteWrite cpf);
  _ ← AddAPIServerConfigToStore sClient cmClient pem_Decode x509_ParseCertificate tls_X509KeyPair ns (cpf_APIServerConfig cpf);
  mwrap "failed to process scrape classes: %w" []
    (AddScrapeClassesToStore sClient cmClient pem_Decode x509_ParseCertificate tls_X509KeyPair ns (cpf_ScrapeClasses cpf)).
Definition agent_createOrUpdateConfigurationSecret (om : ObjectMeta) (cpf : CommonPrometheusFields) (cg : ConfigGenerator)
    : M op_state () :=
  let p := agent_object om cpf in
  resources ← on_selection (select_resources p);
  _ ← on_builder (load_agent_assets p);
  additionalScrapeConfigs ← load_ref "additional scrape configs" (cpf_AdditionalScrapeConfigs cpf);
  store ← get_store;
  conf ← mlift (wrap "generating config failed: %w" []
    (GenerateAgentConfiguration um marshal cg (res_smons resources) (res_pmons resources) (res_probes resources)
       (res_scons resources) store additionalScrapeConfigs order));
  write_configuration p conf.
End handlers.
