(* ===== verification/NetIP.v ===== *)
(** * IP addresses

    What pkg/kubelet uses of Go's net package: [net.ParseIP] (by way of netip.ParseAddr, without a
    zone) and [To4]. An address is its 16 bytes. *)

From S2P Require Import Prelude GoStrings.

(** ** IPv4 *)

(** An octet: decimal digits without a leading zero, at most 255. *)
Definition parse_octet (s : string) : option Z :=
  match s with
  | EmptyString => None
  | String c (String _ _) => if decide (c = "0"%char) then None else z ← digits s; if bool_decide (z <= 255)%Z then Some z else None
  | _ => digits s
  end.
Definition parseIPv4Fields (s : string) : option (list Z) :=
  match Split s "."%char with
  | [a; b; c; d] => a ← parse_octet a; b ← parse_octet b; c ← parse_octet c; d ← parse_octet d; Some [a; b; c; d]
  | _ => None
  end.

(** ** IPv6 *)

Definition hex_digit (c : ascii) : option Z :=
  let n := Z.of_N (byte c) in
  if bool_decide (48 <= n <= 57)%Z then Some (n - 48)%Z
  else if bool_decide (97 <= n <= 102)%Z then Some (n - 87)%Z
  else if bool_decide (65 <= n <= 70)%Z then Some (n - 55)%Z
  else None.
(** The hexadecimal number at the start: its value, how many digits it has, and what follows. *)
Fixpoint hex_prefix (acc : Z) (n : nat) (s : string) : Z * nat * string :=
  match s with
  | String c s' => match hex_digit c with Some d => hex_prefix (acc * 16 + d)%Z (S n) s' | None => (acc, n, s) end
  | EmptyString => (acc, n, s)
  end.
(** The groups up to the end of the string: the bytes before the ellipsis, those after it if there
    is one, and what is left of the string. [room] counts the 16-bit groups that still fit. *)
Record groups := { before_ellipsis : list Z; after_ellipsis : option (list Z); rest_of : string }.
Definition push (g : groups) (bytes : list Z) : groups :=
  match after_ellipsis g with
  | None => {| before_ellipsis := before_ellipsis g ++ bytes; after_ellipsis := None; rest_of := rest_of g |}
  | Some l => {| before_ellipsis := before_ellipsis g; after_ellipsis := Some (l ++ bytes); rest_of := rest_of g |}
  end.
Definition at_rest (g : groups) (s : string) : groups :=
  {| before_ellipsis := before_ellipsis g; after_ellipsis := after_ellipsis g; rest_of := s |}.
Fixpoint parse_groups (room : nat) (g : groups) : option groups :=
  match room with
  | 0 => Some g
  | S room' =>
      let '(acc, off, s) := hex_prefix 0 0 (rest_of g) in
      if bool_decide (off = 0 ∨ 4 < off) then None
      else match s with
      | String "."%char _ =>
          (* a trailing IPv4 address needs two groups, and without an ellipsis the last two *)
          match after_ellipsis g with
          | None => if decide (room = 2) then v4 ← parseIPv4Fields (rest_of g); Some (at_rest (push g v4) "") else None
          | Some _ => if decide (2 <= room) then v4 ← parseIPv4Fields (rest_of g); Some (at_rest (push g v4) "") else None
          end
      | _ =>
          let g := at_rest (push g [acc / 256; acc mod 256]%Z) s in
          match s with
          | EmptyString => Some g
          | String ":"%char EmptyString => None
          | String ":"%char (String ":"%char s') =>
              match after_ellipsis g with
              | Some _ => None
              | None =>
                  let g := {| before_ellipsis := before_ellipsis g; after_ellipsis := Some []; rest_of := s' |} in
                  match s' with EmptyString => Some g | _ => parse_groups room' g end
              end
          | String ":"%char s' => parse_groups room' (at_rest g s')
          | _ => None
          end
      end
  end.
Definition expand (g : groups) : option (list Z) :=
  if bool_decide (rest_of g ≠ "") then None
  else match after_ellipsis g with
  | None => if decide (length (before_ellipsis g) = 16) then Some (before_ellipsis g) else None
  | Some l =>
      let n := length (before_ellipsis g) + length l in
      if decide (n < 16) then Some (before_ellipsis g ++ replicate (16 - n) 0%Z ++ l) else None
  end.
Definition parseIPv6 (s : string) : option (list Z) :=
  if contains_char "%" s then None
  else match s with
  | String ":"%char (String ":"%char s') =>
      match s' with
      | EmptyString => Some (replicate 16 0%Z)
      | _ => parse_groups 8 {| before_ellipsis := []; after_ellipsis := Some []; rest_of := s' |} ≫= expand
      end
  | _ => parse_groups 8 {| before_ellipsis := []; after_ellipsis := None; rest_of := s |} ≫= expand
  end.

(** ** Addresses *)

Definition v4_prefix : list Z := replicate 10 0%Z ++ [255; 255]%Z.
(** The first of [.], [:] and [%] decides. *)
Fixpoint parse_kind (s : string) : option bool :=
  match s with
  | EmptyString => None
  | String c s' =>
      if decide (c = "."%char) then Some true
      else if decide (c = ":"%char) then Some false
      else if decide (c = "%"%char) then None
      else parse_kind s'
  end.
Definition ParseIP (s : string) : option (list Z) :=
  match parse_kind s with
  | Some true => app v4_prefix <$> parseIPv4Fields s
  | Some false => parseIPv6 s
  | None => None
  end.
(** [ip.To4() != nil] *)
Definition is_ipv4 (ip : list Z) : bool := bool_decide (take 12 ip = v4_prefix).

(** ** Checks *)

Example parse_v4 : is_ipv4 <$> ParseIP "10.0.12.255" = Some true.
Proof. by vm_compute. Qed.
Example parse_leading_zero : ParseIP "10.0.012.255" = None.
Proof. by vm_compute. Qed.
Example parse_v6 : ParseIP "fe80::1:2" = Some ([254; 128] ++ replicate 10 0 ++ [0; 1; 0; 2])%Z.
Proof. by vm_compute. Qed.
Example parse_mapped : is_ipv4 <$> ParseIP "::ffff:10.0.0.1" = Some true.
Proof. by vm_compute. Qed.
Example parse_full_ellipsis : ParseIP "1:2:3:4::5:6:7:8" = None.
Proof. by vm_compute. Qed.

Lemma parseIPv4Fields_length s l : parseIPv4Fields s = Some l → length l = 4.
Proof. unfold parseIPv4Fields. repeat case_match; try done. intros E. repeat (apply bind_Some in E as (? & _ & E)). by injection E as <-. Qed.
