(* ===== verification/ResourceNamer.v ===== *)
(** * Names of Kubernetes objects

    ResourceNamer of pkg/k8sutil/k8sutil.go, which turns any text into a DNS label. The checks of
    apimachinery are the class [DNS1123]; the hash is an argument. *)

From S2P Require Import Prelude GoStrings.

#[local] Arguments String.append !_ _ / : simpl nomatch.

(** ** Strings *)

Fixpoint str_all (p : ascii → bool) (s : string) : bool :=
  match s with EmptyString => true | String a s => p a && str_all p s end.
(** [strings.TrimLeft(s, c)] and [strings.TrimRight(s, c)] for one character. *)
Fixpoint TrimLeft (s : string) (c : ascii) : string :=
  match s with
  | EmptyString => EmptyString
  | String a s' => if decide (a = c) then TrimLeft s' c else s
  end.
Fixpoint TrimRight (s : string) (c : ascii) : string :=
  match s with
  | EmptyString => EmptyString
  | String a s' => match TrimRight s' c with
                   | EmptyString => if decide (a = c) then EmptyString else String a EmptyString
                   | t => String a t
                   end
  end.
Definition Trim (s : string) (c : ascii) : string := TrimRight (TrimLeft s c) c.
(** [s[:n]], for an [n] within bounds. *)
Fixpoint str_take (n : nat) (s : string) : string :=
  match n, s with
  | S n, String a s => String a (str_take n s)
  | _, _ => EmptyString
  end.
(** [fmt.Sprintf("%x", n)] *)
Definition hex_digit (d : N) : ascii := if (d <? 10)%N then ascii_of_N (48 + d) else ascii_of_N (87 + d).
Fixpoint hex_acc (fuel : nat) (n : N) (acc : string) : string :=
  match fuel with
  | O => acc
  | S fuel =>
      let acc := String (hex_digit (n mod 16)) acc in
      if (n <? 16)%N then acc else hex_acc fuel (n / 16) acc
  end.
(** Sixteen digits hold 64 bits. *)
Definition hex (n : N) : string := hex_acc 16 n "".

(** ** DNS labels *)

Definition alnum (c : ascii) : bool := let n := byte c in ((97 <=? n) && (n <=? 122) || (48 <=? n) && (n <=? 57))%N.
Definition label_char (c : ascii) : bool := alnum c || bool_decide (c = "-"%char).
Fixpoint last_char (s : string) : option ascii :=
  match s with EmptyString => None | String a EmptyString => Some a | String _ s => last_char s end.
Definition DNS1123LabelMaxLength : nat := 63.
(** RFC 1123: letters, digits and hyphens, with a letter or digit at both ends. *)
Definition valid_label (s : string) : bool :=
  bool_decide (String.length s <= DNS1123LabelMaxLength) && str_all label_char s &&
  match s with String a _ => alnum a | EmptyString => false end &&
  match last_char s with Some a => alnum a | None => false end.
(** validation.IsDNS1123Label of apimachinery returns what is wrong with a label. *)
Class DNS1123 := {
  IsDNS1123Label : string → list string;
  IsDNS1123Label_valid s : IsDNS1123Label s = [] ↔ valid_label s = true;
}.
#[global] Program Instance rfc1123 : DNS1123 := {|
  IsDNS1123Label s := if valid_label s then [] else ["a lowercase RFC 1123 label must consist of lower case alphanumeric characters or '-'"] |}.
Next Obligation. intros s. simpl. by destruct (valid_label s). Qed.

(** ** The namer *)

Record ResourceNamer := { prefix : string }.
Definition NewResourceNamerWithPrefix (p : string) : ResourceNamer := {| prefix := p |}.
(** [invalidDNS1123Characters.ReplaceAllString(name, "-")]: a run of characters that do not belong
    into a label becomes one hyphen. All bytes of other code points are such characters. *)
Fixpoint replace_invalid (in_run : bool) (s : string) : string :=
  match s with
  | EmptyString => EmptyString
  | String a s =>
      if label_char a then String a (replace_invalid false s)
      else if in_run then replace_invalid true s else String "-" (replace_invalid true s)
  end.
Definition sanitizedLabel (rn : ResourceNamer) (name : string) : string :=
  let name := if bool_decide (prefix rn ≠ "") then TrimRight (prefix rn) "-" +:+ "-" +:+ name else name in
  Trim (replace_invalid false (ToLower name)) "-".

Section namer.
Context `{DNS1123} (Sum64 : string → N).
Definition isValidDNS1123Label (name : string) : res () :=
  match IsDNS1123Label name with [] => Ok () | errs => Err (Errorf (Join errs ",") []) end.
Definition hash_suffix (name : string) : res string :=
  let h := String "-" (hex (Sum64 name)) in
  if bool_decide (9 <= String.length h) then Ok (str_take 9 h)
  else Panic ("slice bounds out of range [:9] with length " +:+ Itoa (len h)).
Definition truncated (n : nat) (name : string) : string := if bool_decide (n < String.length name) then str_take n name else name.
Definition UniqueDNS1123Label (rn : ResourceNamer) (name : string) : res string :=
  h ← hash_suffix name;
  let name := truncated (DNS1123LabelMaxLength - 9) (sanitizedLabel rn name) +:+ h in
  _ ← isValidDNS1123Label name;
  Ok name.
Definition DNS1123Label (rn : ResourceNamer) (name : string) : res string :=
  let name := truncated DNS1123LabelMaxLength (sanitizedLabel rn name) in
  _ ← isValidDNS1123Label name;
  Ok name.
End namer.

Example sanitized_example : sanitizedLabel (NewResourceNamerWithPrefix "secret--") "My_App.TLS-" = "secret-my-app-tls".
Proof. reflexivity. Qed.
Example label_example : UniqueDNS1123Label (fun _ => 3735928559%N) (NewResourceNamerWithPrefix "secret") "x" = Ok "secret-x-deadbeef".
Proof. reflexivity. Qed.
Example short_hash_panics : UniqueDNS1123Label (fun _ => 255%N) (NewResourceNamerWithPrefix "secret") "x" = Panic "slice bounds out of range [:9] with length 3".
Proof. reflexivity. Qed.

(** ** Lemmas on strings *)

Lemma str_all_app p s t : str_all p (s +:+ t) = str_all p s && str_all p t.
Proof. induction s as [|a s IH]; simpl; [done|]. by rewrite IH, andb_assoc. Qed.
Lemma str_all_impl (p q : ascii → bool) s : (∀ a, p a = true → q a = true) → str_all p s = true → str_all q s = true.
Proof. intros Hpq. induction s as [|a s IH]; simpl; [done|]. rewrite !andb_true_iff. naive_solver. Qed.
Lemma str_all_take p n s : str_all p s = true → str_all p (str_take n s) = true.
Proof. revert n. induction s as [|a s IH]; intros [|n]; simpl; try done. rewrite !andb_true_iff. naive_solver. Qed.
Lemma length_str_take n s : String.length (str_take n s) = min n (String.length s).
Proof. revert n. induction s as [|a s IH]; intros [|n]; simpl; [done..|]. by rewrite IH. Qed.
Lemma str_take_app n p s : String.length p <= n → str_take n (p +:+ s) = p +:+ str_take (n - String.length p) s.
Proof.
  revert n. induction p as [|a p IH]; intros n; simpl; [by rewrite Nat.sub_0_r|]. destruct n as [|n]; [lia|]. intros Hn. simpl. rewrite IH; [done|lia].
Qed.
Lemma length_truncated n s : String.length (truncated n s) <= n.
Proof. unfold truncated. case_bool_decide; [rewrite length_str_take|]; lia. Qed.
Lemma truncated_app n p s : String.length p <= n → ∃ t, truncated n (p +:+ s) = p +:+ t.
Proof. intros Hn. unfold truncated. case_bool_decide; [rewrite str_take_app by done|]; eauto. Qed.
Lemma str_all_truncated p n s : str_all p s = true → str_all p (truncated n s) = true.
Proof. intros Hs. unfold truncated. case_bool_decide; [by apply str_all_take|done]. Qed.
Lemma app_str_same_length a b s t : String.length a = String.length b → s +:+ a = t +:+ b → s = t ∧ a = b.
Proof.
  intros Hl. revert t. induction s as [|x s IH]; intros [|y t]; simpl.
  - done.
  - intros ->. simpl in Hl. rewrite length_app_str in Hl. lia.
  - intros <-. simpl in Hl. rewrite length_app_str in Hl. lia.
  - intros [= -> [-> ->]%IH]. done.
Qed.
Lemma prefixes_comparable s t s' t' : s +:+ s' = t +:+ t' → (∃ u, t = s +:+ u) ∨ ∃ u, s = t +:+ u.
Proof.
  revert t. induction s as [|a s IH]; intros [|b t]; simpl; [eauto..|]. intros [= -> E]. destruct (IH _ E) as [[u ->]|[u ->]]; eauto.
Qed.

(** Trimming. *)
Lemma str_all_TrimLeft p s c : str_all p s = true → str_all p (TrimLeft s c) = true.
Proof. induction s as [|a s IH]; simpl; [done|]. rewrite andb_true_iff. case_decide; simpl; rewrite ?andb_true_iff; naive_solver. Qed.
Lemma str_all_TrimRight p s c : str_all p s = true → str_all p (TrimRight s c) = true.
Proof.
  induction s as [|a s IH]; simpl; [done|]. rewrite andb_true_iff. intros [Ha Hs]. specialize (IH Hs).
  destruct (TrimRight s c); [case_decide|]; simpl in *; by rewrite ?Ha.
Qed.
Lemma TrimLeft_first s c a t : TrimLeft s c = String a t → a ≠ c.
Proof. induction s as [|b s IH]; simpl; [done|]. case_decide; [done|]. by intros [= <- _]. Qed.
Lemma TrimRight_first s c a t : TrimRight s c = String a t → ∃ t', s = String a t'.
Proof. destruct s as [|b s]; simpl; [done|]. destruct (TrimRight s c); [case_decide; [done|]|]; intros [= <- _]; eauto. Qed.
Lemma TrimRight_last s c a : last_char (TrimRight s c) = Some a → a ≠ c.
Proof.
  induction s as [|b s IH]; simpl; [done|]. destruct (TrimRight s c) as [|x t]; [case_decide; [done|]; by intros [= <-]|exact IH].
Qed.
Lemma TrimRight_app p s c a : last_char p = Some a → a ≠ c → TrimRight (p +:+ s) c = p +:+ TrimRight s c.
Proof.
  intros Hl Hne. induction p as [|b p IH]; [done|]. destruct p as [|b' p].
  - injection Hl as <-. simpl. destruct (TrimRight s c); [by rewrite decide_False|done].
  - specialize (IH Hl). change (String b (String b' p) +:+ s) with (String b (String b' p +:+ s)). cbn [TrimRight]. by rewrite IH.
Qed.
Lemma last_char_Some s : s ≠ "" → ∃ a, last_char s = Some a ∧ ∀ p, str_all p s = true → p a = true.
Proof.
  induction s as [|a s IH]; [done|]. intros _. destruct s as [|b s].
  - exists a. split; [done|]. intros p. simpl. by rewrite andb_true_r.
  - destruct IH as (x & Hx & Hp); [done|]. exists x. split; [done|]. intros p. cbn [str_all]. rewrite andb_true_iff. intros [_ Hs]. by apply Hp.
Qed.
Lemma last_char_app s t : t ≠ "" → last_char (s +:+ t) = last_char t.
Proof.
  intros Ht. induction s as [|a s IH]; [done|]. change (String a s +:+ t) with (String a (s +:+ t)).
  rewrite <-IH. destruct (s +:+ t) eqn:E; [|done]. destruct s, t; done.
Qed.

(** Characters of labels. *)
Lemma str_all_replace in_run s : str_all label_char (replace_invalid in_run s) = true.
Proof.
  revert in_run. induction s as [|a s IH]; intros in_run; simpl; [done|]. destruct (label_char a) eqn:E; [simpl; rewrite E; apply IH|].
  destruct in_run; apply IH.
Qed.
Lemma replace_app p s : str_all label_char p = true → replace_invalid false (p +:+ s) = p +:+ replace_invalid false s.
Proof. induction p as [|a p IH]; simpl; [done|]. rewrite andb_true_iff. intros [-> Hp]. by rewrite IH. Qed.
Lemma label_char_cases a : label_char a = true → a ≠ "-"%char → alnum a = true.
Proof. unfold label_char. rewrite orb_true_iff, bool_decide_eq_true. naive_solver. Qed.
Lemma sanitized_char rn name : str_all label_char (sanitizedLabel rn name) = true.
Proof. apply str_all_TrimRight, str_all_TrimLeft, str_all_replace. Qed.
Lemma sanitized_first rn name a t : sanitizedLabel rn name = String a t → alnum a = true.
Proof.
  intros E. pose proof (sanitized_char rn name) as Hc. rewrite E in Hc. simpl in Hc. apply andb_true_iff in Hc as [Ha _].
  apply TrimRight_first in E as [t' E%TrimLeft_first]. by apply label_char_cases.
Qed.
Lemma sanitized_last rn name a : last_char (sanitizedLabel rn name) = Some a → a ≠ "-"%char.
Proof. apply TrimRight_last. Qed.
(** A prefix that is a label is kept. *)
Lemma ToLower_ascii a s : (byte a < 128)%N → lower a = a → ToLower (String a s) = String a (ToLower s).
Proof.
  intros Hb Hl. destruct s as [|b [|c s]]; simpl; rewrite ?Hl; [done|..].
  - by replace (byte a =? 196)%N with false by (symmetry; apply N.eqb_neq; lia).
  - replace (byte a =? 196)%N with false by (symmetry; apply N.eqb_neq; lia). by replace (byte a =? 226)%N with false by (symmetry; apply N.eqb_neq; lia).
Qed.
Lemma label_char_lower a : label_char a = true → (byte a < 128)%N ∧ lower a = a.
Proof.
  unfold label_char, alnum, lower. rewrite orb_true_iff, bool_decide_eq_true. intros [Ha| ->]; [|done]. cbv zeta in Ha.
  rewrite orb_true_iff, !andb_true_iff, !N.leb_le in Ha. split; [lia|]. destruct (N.leb_spec 65 (byte a)), (N.leb_spec (byte a) 90); simpl; try done. lia.
Qed.
Lemma ToLower_app p s : str_all label_char p = true → ToLower (p +:+ s) = p +:+ ToLower s.
Proof.
  induction p as [|a p IH]; [done|]. cbn [str_all]. rewrite andb_true_iff. intros [[Hb Hl]%label_char_lower Hp].
  change (String a p +:+ s) with (String a (p +:+ s)). rewrite ToLower_ascii by done. by rewrite IH.
Qed.
Lemma sanitized_prefix q p name : TrimRight q "-" = p → valid_label p = true →
  ∃ t, sanitizedLabel (NewResourceNamerWithPrefix q) name = p +:+ t.
Proof.
  intros Hq. unfold valid_label. rewrite !andb_true_iff. intros [[[_ Hc] Hf] Hl]. destruct (last_char p) as [z|] eqn:Ez; [|done].
  assert (z ≠ "-"%char) as Hz by (by intros ->). destruct p as [|a p]; [done|]. assert (a ≠ "-"%char) as Ha by (by intros ->).
  unfold sanitizedLabel. cbn [prefix NewResourceNamerWithPrefix]. rewrite bool_decide_eq_true_2 by (by intros ->). rewrite Hq.
  rewrite ToLower_app, replace_app by done. unfold Trim. cbn [String.append TrimLeft]. rewrite decide_False by done.
  change (String a (p +:+ ?x)) with (String a p +:+ x). erewrite TrimRight_app by done. eauto.
Qed.

(** ** The hash *)

Lemma hex_digit_alnum n : alnum (hex_digit (n mod 16)) = true.
Proof.
  assert (n mod 16 < 16)%N as Hn by (by apply N.mod_lt). unfold hex_digit, alnum, byte. cbv zeta. revert Hn. generalize (n mod 16)%N. clear n. intros n Hn.
  destruct (N.ltb_spec n 10); rewrite N_ascii_embedding by lia; rewrite orb_true_iff, !andb_true_iff, !N.leb_le; lia.
Qed.
Lemma hex_acc_alnum fuel n acc : str_all alnum acc = true → str_all alnum (hex_acc fuel n acc) = true.
Proof.
  revert n acc. induction fuel as [|fuel IH]; intros n acc Hacc; simpl; [done|].
  assert (str_all alnum (String (hex_digit (n mod 16)) acc) = true) by (simpl; by rewrite hex_digit_alnum). case_match; auto.
Qed.
(** The number of digits. *)
Lemma hex_acc_length k : ∀ fuel n acc, k < fuel →
  (k + String.length acc < String.length (hex_acc fuel n acc) ↔ (16 ^ N.of_nat k <= n)%N ∨ k = 0).
Proof.
  assert (∀ fuel n acc, String.length acc <= String.length (hex_acc fuel n acc)) as Hle.
  { induction fuel as [|fuel IH]; intros n acc; simpl; [lia|]. case_match; simpl; [lia|]. specialize (IH (n / 16)%N (String (hex_digit (n mod 16)) acc)). simpl in IH. lia. }
  induction k as [|k IH]; intros fuel n acc Hf; destruct fuel as [|fuel]; try lia; simpl hex_acc.
  - split; [lia|]. intros _. case_match; [simpl; lia|]. specialize (Hle fuel (n / 16)%N (String (hex_digit (n mod 16)) acc)). simpl in Hle. lia.
  - replace (16 ^ N.of_nat (S k))%N with (16 * 16 ^ N.of_nat k)%N by (rewrite Nat2N.inj_succ, N.pow_succ_r'; lia).
    assert (0 < 16 ^ N.of_nat k)%N by (apply N.neq_0_lt_0, N.pow_nonzero; lia).
    destruct (N.ltb_spec n 16) as [Hn|Hn].
    + simpl. split; [lia|]. intros [?|?]; lia.
    + specialize (IH fuel (n / 16)%N (String (hex_digit (n mod 16)) acc)). simpl in IH.
      replace (S k + String.length acc) with (k + S (String.length acc)) by lia. rewrite IH by lia.
      assert (16 ^ N.of_nat k <= n / 16 ↔ 16 * 16 ^ N.of_nat k <= n)%N as ->.
      { pose proof (N.mul_div_le n 16). split; [lia|]. apply N.div_le_lower_bound. done. }
      split; [|naive_solver lia]. intros [?| ->]; [by left|]. left. simpl. lia.
Qed.

Section labels.
Context `{DNS1123} (Sum64 : string → N).
Lemma hash_suffix_cases name :
  if (16 ^ 7 <=? Sum64 name)%N
  then ∃ h, hash_suffix Sum64 name = Ok (String "-" h) ∧ String.length h = 8 ∧ str_all alnum h = true
  else ∃ m, hash_suffix Sum64 name = Panic m.
Proof.
  unfold hash_suffix. pose proof (hex_acc_length 7 16 (Sum64 name) "" ltac:(lia)) as Hl. fold (hex (Sum64 name)) in Hl. cbn [String.length] in *.
  change (16 ^ N.of_nat 7)%N with (16 ^ 7)%N in Hl.
  destruct (N.leb_spec (16 ^ 7) (Sum64 name)); [rewrite bool_decide_eq_true_2 by lia|rewrite bool_decide_eq_false_2 by lia; eauto].
  exists (str_take 8 (hex (Sum64 name))). split_and!; [done|rewrite length_str_take; lia|]. by apply str_all_take, hex_acc_alnum.
Qed.
Lemma unique_parts rn name l : UniqueDNS1123Label Sum64 rn name = Ok l →
  ∃ h, hash_suffix Sum64 name = Ok h ∧ String.length h = 9 ∧ l = truncated 54 (sanitizedLabel rn name) +:+ h ∧ valid_label l = true.
Proof.
  unfold UniqueDNS1123Label. pose proof (hash_suffix_cases name) as Hh. destruct (N.leb (16 ^ 7) (Sum64 name)).
  - destruct Hh as (h & -> & Hl & _). simpl mbind. unfold isValidDNS1123Label.
    destruct (IsDNS1123Label _) eqn:E; [|done]. intros [= <-]. apply IsDNS1123Label_valid in E. exists (String "-" h). simpl. rewrite Hl. done.
  - destruct Hh as [m ->]. done.
Qed.
Lemma truncated_empty n s : 0 < n → truncated n s = "" ↔ s = "".
Proof. intros Hn. unfold truncated. case_bool_decide; [|done]. destruct n, s; simpl in *; try done; lia. Qed.
Lemma truncated_first n s a t : truncated n s = String a t → ∃ t', s = String a t'.
Proof. unfold truncated. case_bool_decide; [|eauto]. destruct n, s; simpl; try done. intros [= -> _]. eauto. Qed.
Lemma unique_valid rn name h : sanitizedLabel rn name ≠ "" → String.length h = 8 → str_all alnum h = true →
  valid_label (truncated 54 (sanitizedLabel rn name) +:+ String "-" h) = true.
Proof.
  intros Hs Hl Hh. unfold valid_label. rewrite !andb_true_iff, bool_decide_eq_true, str_all_app, length_app_str. split_and!.
  - simpl. pose proof (length_truncated 54 (sanitizedLabel rn name)). unfold DNS1123LabelMaxLength. lia.
  - apply andb_true_iff. split; [apply str_all_truncated, sanitized_char|]. simpl. eapply str_all_impl; [|done]. intros a Ha. unfold label_char. by rewrite Ha.
  - destruct (truncated 54 (sanitizedLabel rn name)) as [|a t] eqn:E; [apply truncated_empty in E; [done|lia]|].
    apply truncated_first in E as [t' E]. simpl. by eapply sanitized_first.
  - rewrite last_char_app by done. destruct h as [|x h]; [done|]. change (last_char (String "-" (String x h))) with (last_char (String x h)).
    destruct (last_char_Some (String x h)) as (z & -> & Hz); [done|]. by apply Hz.
Qed.

(** C36: The labels for volumes and other objects are valid DNS labels of at most 63 characters, and
    two names get the same label only if the leading eight digits of their hashes agree, however
    the names are sanitized and cut. A name is refused only when nothing is left of it and the
    prefix. A hash with fewer than eight hexadecimal digits makes the namer panic. *)
Theorem unique_label (rn : ResourceNamer) (name : string) :
  match UniqueDNS1123Label Sum64 rn name with
  | Ok l => (16 ^ 7 <= Sum64 name)%N ∧ sanitizedLabel rn name ≠ "" ∧ valid_label l = true ∧
            ∀ name', UniqueDNS1123Label Sum64 rn name' = Ok l → hash_suffix Sum64 name' = hash_suffix Sum64 name
  | Err _ => (16 ^ 7 <= Sum64 name)%N ∧ sanitizedLabel rn name = ""
  | Panic _ => (Sum64 name < 16 ^ 7)%N
  end.
Proof.
  destruct (UniqueDNS1123Label Sum64 rn name) as [l|e|m] eqn:E.
  - pose proof (unique_parts _ _ _ E) as (h & Hh & Hl & El & Hv). pose proof (hash_suffix_cases name) as Hc. rewrite Hh in Hc.
    destruct (N.leb_spec (16 ^ 7) (Sum64 name)); [|by destruct Hc]. destruct Hc as (h' & [= ->] & _). split_and!; [done| |done|].
    + intros Hs. rewrite Hs in El. subst l. unfold valid_label in Hv. rewrite !andb_true_iff in Hv. by destruct Hv as [[_ ?] _].
    + intros name' (h & Hh2 & Hl2 & El2 & _)%unique_parts. rewrite El in El2. apply app_str_same_length in El2 as [_ <-]; [congruence|congruence].
  - unfold UniqueDNS1123Label in E. pose proof (hash_suffix_cases name) as Hc.
    destruct (N.leb_spec (16 ^ 7) (Sum64 name)); [|destruct Hc as [m Hm]; by rewrite Hm in E]. destruct Hc as (h & Hh & Hl & Ha). split; [done|].
    rewrite Hh in E. simpl mbind in E. unfold isValidDNS1123Label in E.
    destruct (decide (sanitizedLabel rn name = "")) as [|Hs]; [done|]. pose proof (unique_valid rn name h Hs Hl Ha) as Hv.
    apply IsDNS1123Label_valid in Hv. unfold DNS1123LabelMaxLength in E. simpl Nat.sub in E. by rewrite Hv in E.
  - unfold UniqueDNS1123Label in E. pose proof (hash_suffix_cases name) as Hc.
    destruct (N.leb_spec (16 ^ 7) (Sum64 name)); [|done]. destruct Hc as (h & Hh & _). rewrite Hh in E. simpl mbind in E.
    unfold isValidDNS1123Label in E. by destruct (IsDNS1123Label _).
Qed.
(** Different prefixes give different labels. *)
Lemma unique_label_prefix q p name l : TrimRight q "-" = p → valid_label p = true → String.length p <= 54 →
  UniqueDNS1123Label Sum64 (NewResourceNamerWithPrefix q) name = Ok l → ∃ t, l = p +:+ t.
Proof.
  intros Hq Hp Hl (h & _ & _ & -> & _)%unique_parts. destruct (sanitized_prefix q p name Hq Hp) as [t ->].
  destruct (truncated_app 54 p t Hl) as [u ->]. rewrite app_str_assoc. eauto.
Qed.
(** A label that is cut may end with a hyphen, which is refused. *)
Example DNS1123Label_refuses :
  is_ok (DNS1123Label (NewResourceNamerWithPrefix "") "aaaaaaaaaaaaaaaaaaaaaaaaaaaaaaaaaaaaaaaaaaaaaaaaaaaaaaaaaaaaaa-b") = false.
Proof.
  unfold DNS1123Label, isValidDNS1123Label. simpl mbind. destruct (IsDNS1123Label _) eqn:E; [|done]. by apply IsDNS1123Label_valid in E.
Qed.
End labels.
