(* ===== verification/Kubelet.v ===== *)
(** * The kubelet controller

    pkg/kubelet/controller.go keeps a Service without selector, and Endpoints and EndpointSlices with
    the addresses of all nodes, in sync with the nodes of the cluster. With CreateOrUpdateService,
    CreateOrUpdateEndpoints and CreateOrUpdateEndpointSlice of pkg/k8sutil/k8sutil.go. The three
    kinds of objects are reached through three clients; the counters are part of the state. *)

From S2P Require Import Prelude GoStrings SortUtil Meta ApiClient NetIP.

(** ** API objects *)

Record EndpointPort := { port_Name : string; port_Port : Z }.
#[global] Instance EndpointPort_eq_dec : EqDecision EndpointPort.
Proof. solve_decision. Defined.
Record ObjectReference := { objref_Kind : string; objref_Name : string; objref_UID : string; objref_APIVersion : string }.
#[global] Instance ObjectReference_eq_dec : EqDecision ObjectReference.
Proof. solve_decision. Defined.

(** discoveryv1.Endpoint and EndpointSlice; [generateName] is kept beside the other metadata. *)
Record Endpoint := {
  Endpoint_Addresses : list string;
  Endpoint_Ready : option bool;
  Endpoint_NodeName : option string;
  Endpoint_TargetRef : option ObjectReference;
}.
#[global] Instance Endpoint_eq_dec : EqDecision Endpoint.
Proof. solve_decision. Defined.
Record EndpointSlice := {
  eps_meta : ObjectMeta;
  eps_GenerateName : string;
  eps_AddressType : string;
  eps_Endpoints : list Endpoint;
  eps_Ports : list EndpointPort;
}.
#[global] Instance EndpointSlice_eq_dec : EqDecision EndpointSlice.
Proof. solve_decision. Defined.
#[global] Program Instance EndpointSlice_object : ApiObject EndpointSlice := {|
  meta := eps_meta;
  set_meta m o := {| eps_meta := m; eps_GenerateName := eps_GenerateName o; eps_AddressType := eps_AddressType o;
                     eps_Endpoints := eps_Endpoints o; eps_Ports := eps_Ports o |} |}.
Solve All Obligations with by intros; repeat match goal with o : EndpointSlice |- _ => destruct o end.
Definition set_Endpoints (l : list Endpoint) (o : EndpointSlice) : EndpointSlice := {|
  eps_meta := eps_meta o; eps_GenerateName := eps_GenerateName o; eps_AddressType := eps_AddressType o;
  eps_Endpoints := l; eps_Ports := eps_Ports o |}.

(** v1.Endpoints. *)
Record EndpointAddress := { ea_IP : string; ea_NodeName : option string; ea_TargetRef : option ObjectReference }.
Record EndpointSubset := { subset_Addresses : list EndpointAddress; subset_Ports : list EndpointPort }.
Record Endpoints := { ends_meta : ObjectMeta; ends_Subsets : list EndpointSubset }.
#[global] Program Instance Endpoints_object : ApiObject Endpoints := {|
  meta := ends_meta; set_meta m o := {| ends_meta := m; ends_Subsets := ends_Subsets o |} |}.
Solve All Obligations with by intros; repeat match goal with o : Endpoints |- _ => destruct o end.

(** v1.Service, with the immutable fields that an update carries over. *)
Record Service := {
  svc_meta : ObjectMeta;
  svc_Type : string;
  svc_ClusterIP : string;
  svc_ClusterIPs : list string;
  svc_IPFamilies : list string;
  svc_IPFamilyPolicy : option string;
  svc_Ports : list EndpointPort;
}.
#[global] Program Instance Service_object : ApiObject Service := {|
  meta := svc_meta;
  set_meta m o := {| svc_meta := m; svc_Type := svc_Type o; svc_ClusterIP := svc_ClusterIP o; svc_ClusterIPs := svc_ClusterIPs o;
                     svc_IPFamilies := svc_IPFamilies o; svc_IPFamilyPolicy := svc_IPFamilyPolicy o; svc_Ports := svc_Ports o |} |}.
Solve All Obligations with by intros; repeat match goal with o : Service |- _ => destruct o end.

(** v1.Node, with the fields that are read. *)
Record Node := {
  node_Name : string;
  node_UID : string;
  node_APIVersion : string;
  node_Addresses : list (string * string);   (** type and address *)
  node_Conditions : list (string * string);  (** type and status *)
}.
Definition NodeInternalIP := "InternalIP".
Definition NodeExternalIP := "ExternalIP".
Definition AddressTypeIPv4 := "IPv4".
Definition AddressTypeIPv6 := "IPv6".
Definition LabelServiceName := "kubernetes.io/service-name".
Definition LabelManagedBy := "endpointslice.kubernetes.io/managed-by".
Definition LabelSkipMirror := "endpointslice.kubernetes.io/skip-mirror".

(** ** The controller *)

Record Controller := {
  kubeletObjectName : string;
  annotations : gomap;
  labels : gomap;
  nodeAddressPriority : string;
  maxEndpointsPerSlice : Z;
  manageEndpointSlice : bool;
  manageEndpoints : bool;
}.
Definition ControllerOption := Controller → Controller.
Definition WithEndpointSlice : ControllerOption := fun c => {|
  kubeletObjectName := kubeletObjectName c; annotations := annotations c; labels := labels c;
  nodeAddressPriority := nodeAddressPriority c; maxEndpointsPerSlice := maxEndpointsPerSlice c;
  manageEndpointSlice := true; manageEndpoints := manageEndpoints c |}.
Definition WithMaxEndpointsPerSlice (v : Z) : ControllerOption := fun c => {|
  kubeletObjectName := kubeletObjectName c; annotations := annotations c; labels := labels c;
  nodeAddressPriority := nodeAddressPriority c; maxEndpointsPerSlice := v;
  manageEndpointSlice := manageEndpointSlice c; manageEndpoints := manageEndpoints c |}.
Definition WithEndpoints : ControllerOption := fun c => {|
  kubeletObjectName := kubeletObjectName c; annotations := annotations c; labels := labels c;
  nodeAddressPriority := nodeAddressPriority c; maxEndpointsPerSlice := maxEndpointsPerSlice c;
  manageEndpointSlice := manageEndpointSlice c; manageEndpoints := true |}.
Definition WithNodeAddressPriority (s : string) : ControllerOption := fun c => {|
  kubeletObjectName := kubeletObjectName c; annotations := annotations c; labels := labels c;
  nodeAddressPriority := s; maxEndpointsPerSlice := maxEndpointsPerSlice c;
  manageEndpointSlice := manageEndpointSlice c; manageEndpoints := manageEndpoints c |}.
Definition New (kubeletServiceName : string) (commonAnnotations commonLabels : gomap) (opts : list ControllerOption) : res Controller :=
  let c := foldl (fun c opt => opt c) {|
    kubeletObjectName := kubeletServiceName; annotations := commonAnnotations; labels := commonLabels; nodeAddressPriority := "";
    maxEndpointsPerSlice := 512; manageEndpointSlice := false; manageEndpoints := false |} opts in
  if negb (manageEndpoints c) && negb (manageEndpointSlice c)
  then Err (Errorf "at least one of endpoints or endpointslice needs to be enabled" []) else Ok c.

(** ** Addresses of nodes *)

Definition nodeReadyConditionKnown (node : Node) : bool :=
  existsb (fun c => bool_decide (c.1 = "Ready") && bool_decide (c.2 ≠ "Unknown")) (node_Conditions node).

Record nodeAddress := {
  na_apiVersion : string;
  na_ipAddress : string;
  na_name : string;
  na_uid : string;
  na_ipv4 : bool;
  na_ready : bool;
}.
Definition target_ref (na : nodeAddress) : ObjectReference :=
  {| objref_Kind := "Node"; objref_Name := na_name na; objref_UID := na_uid na; objref_APIVersion := na_apiVersion na |}.
Definition discoveryV1Endpoint (na : nodeAddress) : Endpoint := {|
  Endpoint_Addresses := [na_ipAddress na]; Endpoint_Ready := Some true; Endpoint_NodeName := Some (na_name na);
  Endpoint_TargetRef := Some (target_ref na) |}.
Definition v1EndpointAddress (na : nodeAddress) : EndpointAddress :=
  {| ea_IP := na_ipAddress na; ea_NodeName := Some (na_name na); ea_TargetRef := Some (target_ref na) |}.

Section controller.
Context (c : Controller).

(** [m[a.Type] = append(m[a.Type], a.Address)] *)
Definition addresses_by_type (node : Node) : gmap string (list string) :=
  foldl (fun m a => <[a.1 := default [] (m !! a.1) ++ [a.2]]> m) ∅ (node_Addresses node).
Definition first_of (m : gmap string (list string)) (types : list string) : res string :=
  match list_find (fun t => is_Some (m !! t)) types with
  | Some (_, t) => match default [] (m !! t) with
                   | a :: _ => Ok a
                   | [] => Panic "index out of range [0] with length 0"
                   end
  | None => Err (Errorf "host address unknown" [])
  end.
Definition nodeAddress_of (node : Node) : res string :=
  let m := addresses_by_type node in
  if bool_decide (nodeAddressPriority c = "internal") then first_of m [NodeInternalIP; NodeExternalIP]
  else if bool_decide (nodeAddressPriority c = "external") then first_of m [NodeExternalIP; NodeInternalIP]
  else Err (Errorf "host address unknown" []).

(** One round of the first loop of [getNodeAddresses]: the address of a node, or the error that is
    recorded. *)
Definition address_of (n : Node) : res nodeAddress :=
  address ← wrap "failed to determine hostname for node %q (priority: %s): %w" [node_Name n; nodeAddressPriority c] (nodeAddress_of n);
  match ParseIP address with
  | None => Err (Errorf "failed to parse IP address %q for node %q (priority: %s): %!w(<nil>)" [address; node_Name n; nodeAddressPriority c])
  | Some ip => Ok {| na_apiVersion := node_APIVersion n; na_ipAddress := address; na_name := node_Name n; na_uid := node_UID n;
                     na_ipv4 := is_ipv4 ip; na_ready := nodeReadyConditionKnown n |}
  end.
Fixpoint collect_addresses (nodes : list Node) : res (list nodeAddress * list error) :=
  match nodes with
  | [] => Ok ([], [])
  | n :: nodes =>
      match address_of n with
      | Panic m => Panic m
      | Err e => r ← collect_addresses nodes; Ok (r.1, e :: r.2)
      | Ok na => r ← collect_addresses nodes; Ok (na :: r.1, r.2)
      end
  end.
(** The name of the last node with an address among those that are ready, or not. *)
Definition names_by_address (ready : bool) (l : list nodeAddress) : gmap string string :=
  foldl (fun m na => if bool_decide (na_ready na = ready) then <[na_ipAddress na := na_name na]> m else m) ∅ l.
Definition kept (addresses : list nodeAddress) (a : nodeAddress) : bool :=
  match names_by_address true addresses !! na_ipAddress a, names_by_address false addresses !! na_ipAddress a with
  | Some knownNodeName, Some _ => bool_decide (na_name a = knownNodeName)
  | _, _ => true
  end.
Definition getNodeAddresses (nodes : list Node) : res (list nodeAddress * list error) :=
  r ← collect_addresses nodes;
  Ok (base.filter (fun a => kept r.1 a = true) r.1, r.2).

(** ** Objects that the controller makes *)

Definition ports : list EndpointPort :=
  [{| port_Name := "https-metrics"; port_Port := 10250 |}; {| port_Name := "http-metrics"; port_Port := 10255 |};
   {| port_Name := "cadvisor"; port_Port := 4194 |}].
Definition kubelet_labels : gmap string string :=
  list_to_map [("k8s-app", "kubelet"); ("app.kubernetes.io/name", "kubelet"); ("app.kubernetes.io/managed-by", "prometheus-operator")].
Definition object_meta (l : gmap string string) : ObjectMeta :=
  SetLabels (Some (Map.Merge (labels c) (Some l))) (SetAnnotations (annotations c) (SetName (kubeletObjectName c) zero_meta)).
Definition kubelet_endpoints (addresses : list nodeAddress) : Endpoints :=
  let m := object_meta kubelet_labels in {|
  ends_meta := if manageEndpointSlice c then SetLabels (Some (<[LabelSkipMirror := "true"]> (entries (om_Labels m)))) m else m;
  ends_Subsets := [{| subset_Addresses := v1EndpointAddress <$> addresses; subset_Ports := ports |}] |}.
Definition kubelet_service : Service := {|
  svc_meta := object_meta kubelet_labels; svc_Type := "ClusterIP"; svc_ClusterIP := "None"; svc_ClusterIPs := []; svc_IPFamilies := [];
  svc_IPFamilyPolicy := None; svc_Ports := ports |}.
(** The owner's pointers are fresh. *)
Definition new_slice (addrs : nat * nat) (svc : Service) (ipv4 : bool) : EndpointSlice := {|
  eps_meta := SetOwnerReferences
    [{| or_APIVersion := "v1"; or_Kind := "Service"; or_Name := kubeletObjectName c; or_UID := om_UID (svc_meta svc);
        or_Controller := Some (Ptr addrs.1 true); or_BlockOwnerDeletion := Some (Ptr addrs.2 true) |}]
    (SetName "" (object_meta (<[LabelServiceName := kubeletObjectName c]> (<[LabelManagedBy := "prometheus-operator"]> kubelet_labels))));
  eps_GenerateName := kubeletObjectName c +:+ "-";
  eps_AddressType := if ipv4 then AddressTypeIPv4 else AddressTypeIPv6;
  eps_Endpoints := []; eps_Ports := ports |}.

(** ** Planning EndpointSlices *)

Local Abbreviation index := (gmap string nodeAddress).
(** The endpoints of a slice that belong to a node are updated, the others removed. *)
Fixpoint refresh_endpoints (idx : index) (l : list Endpoint) : index * list Endpoint :=
  match l with
  | [] => (idx, [])
  | ep :: l =>
      match Endpoint_Addresses ep with
      | [ip] => match idx !! ip with
                | Some a => let r := refresh_endpoints (delete (na_ipAddress a) idx) l in (r.1, discoveryV1Endpoint a :: r.2)
                | None => refresh_endpoints idx l
                end
      | _ => refresh_endpoints idx l
      end
  end.
Fixpoint refresh (idx : index) (epsl : list EndpointSlice) : index * list EndpointSlice :=
  match epsl with
  | [] => (idx, [])
  | eps :: epsl =>
      let r := refresh_endpoints idx (eps_Endpoints eps) in
      let r' := refresh r.1 epsl in
      (r'.1, set_Endpoints r.2 eps :: r'.2)
  end.
Definition fullCapacity (l : list Endpoint) : bool := bool_decide (maxEndpointsPerSlice c <= Z.of_nat (length l))%Z.
(** The address goes into the first slice of its family that is not full. *)
Fixpoint append_to (a : nodeAddress) (epsl : list EndpointSlice) : option (list EndpointSlice) :=
  match epsl with
  | [] => None
  | eps :: rest =>
      if bool_decide (na_ipv4 a ≠ bool_decide (eps_AddressType eps = AddressTypeIPv4)) || fullCapacity (eps_Endpoints eps)
      then cons eps <$> append_to a rest
      else Some (set_Endpoints (eps_Endpoints eps ++ [discoveryV1Endpoint a]) eps :: rest)
  end.
Fixpoint append_existing (addresses : list nodeAddress) (idx : index) (epsl : list EndpointSlice) : index * list EndpointSlice :=
  match addresses with
  | [] => (idx, epsl)
  | a :: addresses =>
      match idx !! na_ipAddress a with
      | None => append_existing addresses idx epsl
      | Some _ => match append_to a epsl with
                  | Some epsl' => append_existing addresses (delete (na_ipAddress a) idx) epsl'
                  | None => append_existing addresses idx epsl
                  end
      end
  end.
(** New slices: the finished ones, and the one that is being filled for each family. *)
Record packing := { pk_epsl : list EndpointSlice; pk_v4 : option EndpointSlice; pk_v6 : option EndpointSlice }.
Definition flush_full (epsl : list EndpointSlice) (o : option EndpointSlice) : list EndpointSlice * option EndpointSlice :=
  match o with
  | Some eps => if fullCapacity (eps_Endpoints eps) then (epsl ++ [eps], None) else (epsl, o)
  | None => (epsl, o)
  end.
Definition nil_service : res Service := Panic "invalid memory address or nil pointer dereference".
Definition pack_one (fresh : nat → nat * nat) (svc : option Service) (p : packing) (a : nodeAddress) : res packing :=
  let f4 := flush_full (pk_epsl p) (pk_v4 p) in
  let f6 := flush_full f4.1 (pk_v6 p) in
  eps ← match (if na_ipv4 a then f4.2 else f6.2) with
        | Some eps => Ok eps
        | None => svc ← match svc with Some svc => Ok svc | None => nil_service end;
                  Ok (new_slice (fresh (length f6.1)) svc (na_ipv4 a))
        end;
  let eps := set_Endpoints (eps_Endpoints eps ++ [discoveryV1Endpoint a]) eps in
  Ok {| pk_epsl := f6.1; pk_v4 := if na_ipv4 a then Some eps else f4.2; pk_v6 := if na_ipv4 a then f6.2 else Some eps |}.
Fixpoint pack_new (fresh : nat → nat * nat) (svc : option Service) (addresses : list nodeAddress) (idx : index) (p : packing) : res packing :=
  match addresses with
  | [] => Ok p
  | a :: addresses =>
      match idx !! na_ipAddress a with
      | None => pack_new fresh svc addresses idx p
      | Some _ => p ← pack_one fresh svc p a; pack_new fresh svc addresses (delete (na_ipAddress a) idx) p
      end
  end.
Definition plan_slices (fresh : nat → nat * nat) (svc : option Service) (addresses : list nodeAddress) (epsl : list EndpointSlice)
    : res (list EndpointSlice) :=
  let idx := foldl (fun m a => <[na_ipAddress a := a]> m) ∅ addresses in
  let r := refresh idx epsl in
  let r := append_existing addresses r.1 r.2 in
  p ← pack_new fresh svc addresses r.1 {| pk_epsl := r.2; pk_v4 := None; pk_v6 := None |};
  Ok (pk_epsl p ++ option_list (pk_v4 p) ++ option_list (pk_v6 p)).
End controller.

(** ** pkg/k8sutil *)

Section k8sutil.
Context `{!Retry}.

Section services.
Context {St : Type} `{ApiClient Service St}.
(** What the client returns beside an error of a request to create or update. *)
Context (failed_result : option Service).
Definition adopt_service (service svc : Service) : Service :=
  let m := SetOwnerReferences (mergeOwnerReferences (om_OwnerReferences (meta service)) (om_OwnerReferences (meta svc))) (meta svc) in {|
  svc_meta := mergeMetadata m (meta service); svc_Type := svc_Type svc; svc_ClusterIP := svc_ClusterIP service;
  svc_ClusterIPs := svc_ClusterIPs service; svc_IPFamilies := svc_IPFamilies service; svc_IPFamilyPolicy := svc_IPFamilyPolicy service;
  svc_Ports := svc_Ports svc |}.
(** [ret, err = ...; return err] *)
Definition record_result (r : Service + error) : M (St * (Service * option Service)) () :=
  st ← mget;
  match r with
  | inl svc => mput (st.1, (st.2.1, Some svc))
  | inr e => _ ← mput (st.1, (st.2.1, failed_result)); mfail e
  end.
Definition CreateOrUpdateService_attempt : M (St * (Service * option Service)) () :=
  st ← mget;
  r ← mtry (on_api (Get (name st.2.1)));
  match r with
  | inr err =>
      if negb (IsNotFound err) then mfail err
      else r ← mtry (on_api (Create st.2.1)); record_result r
  | inl service =>
      st1 ← mget;
      let svc := adopt_service service st.2.1 in
      _ ← mput (st1.1, (svc, st1.2.2));
      r ← mtry (on_api (Update svc));
      record_result r
  end.
(** The returned service and error. *)
Definition CreateOrUpdateService (svc : Service) : M St (option Service * option error) := fun s =>
  let '(st, r) := RetryOnConflict CreateOrUpdateService_attempt (s, (svc, None)) in
  (st.1, match r with Ok _ => Ok (st.2.2, None) | Err e => Ok (st.2.2, Some e) | Panic m => Panic m end).
End services.

Section endpoints.
Context {St : Type} `{ApiClient Endpoints St}.
Definition CreateOrUpdateEndpoints_attempt : M (St * Endpoints) () :=
  st ← mget;
  r ← mtry (on_api (Get (name st.2)));
  match r with
  | inr err => if negb (IsNotFound err) then mfail err else on_api (Create st.2) ≫= fun _ => mret ()
  | inl endpoints =>
      st1 ← mget;
      let eps := set_meta (mergeMetadata (meta st.2) (meta endpoints)) st.2 in
      _ ← mput (st1.1, eps);
      on_api (Update eps) ≫= fun _ => mret ()
  end.
Definition CreateOrUpdateEndpoints (eps : Endpoints) : M St () := fun s =>
  let '(st, r) := RetryOnConflict CreateOrUpdateEndpoints_attempt (s, eps) in (st.1, r).
End endpoints.

Section slices.
Context {St : Type} `{ApiClient EndpointSlice St}.
Definition CreateOrUpdateEndpointSlice_attempt : M (St * EndpointSlice) () :=
  st ← mget;
  if bool_decide (name st.2 = "") then on_api (Create st.2) ≫= fun _ => mret ()
  else
    r ← mtry (on_api (Get (name st.2)));
    match r with
    | inr err => if negb (IsNotFound err) then mfail err else on_api (Create st.2) ≫= fun _ => mret ()
    | inl endpoints =>
        st1 ← mget;
        let eps := set_meta (mergeMetadata (meta st.2) (meta endpoints)) st.2 in
        _ ← mput (st1.1, eps);
        on_api (Update eps) ≫= fun _ => mret ()
    end.
Definition CreateOrUpdateEndpointSlice (eps : EndpointSlice) : M St () := fun s =>
  let '(st, r) := RetryOnConflict CreateOrUpdateEndpointSlice_attempt (s, eps) in (st.1, r).
End slices.
End k8sutil.

(** ** Synchronization *)

Section sync.
Context `{!Retry} {S1 S2 S3 : Type} `{ApiClient Service S1, ApiClient Endpoints S2, ApiClient EndpointSlice S3}.
Context (c : Controller) (failed_result : option Service) (fresh : nat → nat * nat).

Record kubelet_state := {
  ks_services : S1;
  ks_endpoints : S2;
  ks_slices : S3;
  nodeAddressLookupErrors : Z;
  (** the counters for [endpoints] and [endpointslice] *)
  nodeEndpointSyncs : Z * Z;
  nodeEndpointSyncErrors : Z * Z;
}.
Definition on_services {A} (m : M S1 A) : M kubelet_state A := fun st =>
  let '(s, r) := m (ks_services st) in
  ({| ks_services := s; ks_endpoints := ks_endpoints st; ks_slices := ks_slices st; nodeAddressLookupErrors := nodeAddressLookupErrors st;
      nodeEndpointSyncs := nodeEndpointSyncs st; nodeEndpointSyncErrors := nodeEndpointSyncErrors st |}, r).
Definition on_endpoints {A} (m : M S2 A) : M kubelet_state A := fun st =>
  let '(s, r) := m (ks_endpoints st) in
  ({| ks_services := ks_services st; ks_endpoints := s; ks_slices := ks_slices st; nodeAddressLookupErrors := nodeAddressLookupErrors st;
      nodeEndpointSyncs := nodeEndpointSyncs st; nodeEndpointSyncErrors := nodeEndpointSyncErrors st |}, r).
Definition on_slices {A} (m : M S3 A) : M kubelet_state A := fun st =>
  let '(s, r) := m (ks_slices st) in
  ({| ks_services := ks_services st; ks_endpoints := ks_endpoints st; ks_slices := s; nodeAddressLookupErrors := nodeAddressLookupErrors st;
      nodeEndpointSyncs := nodeEndpointSyncs st; nodeEndpointSyncErrors := nodeEndpointSyncErrors st |}, r).
Definition count (lookups : Z) (syncs errors : Z * Z) : M kubelet_state () := fun st =>
  ({| ks_services := ks_services st; ks_endpoints := ks_endpoints st; ks_slices := ks_slices st;
      nodeAddressLookupErrors := nodeAddressLookupErrors st + lookups;
      nodeEndpointSyncs := ((nodeEndpointSyncs st).1 + syncs.1, (nodeEndpointSyncs st).2 + syncs.2);
      nodeEndpointSyncErrors := ((nodeEndpointSyncErrors st).1 + errors.1, (nodeEndpointSyncErrors st).2 + errors.2) |}%Z, Ok ()).

Definition syncEndpoints (addresses : list nodeAddress) : M S2 () := CreateOrUpdateEndpoints (kubelet_endpoints c addresses).
Definition syncService : M S1 (option Service * option error) := CreateOrUpdateService failed_result (kubelet_service c).

(** The slices that carry the label of the service. *)
Definition of_service (eps : EndpointSlice) : bool :=
  bool_decide (entries (om_Labels (meta eps)) !! LabelServiceName = Some (kubeletObjectName c)).
Definition write_slice (eps : EndpointSlice) : M S3 () :=
  if bool_decide (eps_Endpoints eps = []) then mwrap "failed to delete endpoinslice: %w" [] (Delete (name eps))
  else mwrap "failed to update endpoinslice: %w" [] (CreateOrUpdateEndpointSlice eps).
Definition syncEndpointSlice (svc : option Service) (addresses : list nodeAddress) : M S3 () :=
  epsl ← mwrap "failed to list endpointslice: %w" [] (List of_service);
  epsl ← mlift (plan_slices c fresh svc addresses epsl);
  mfor_each write_slice epsl.

(** Errors are counted and logged; [nodes] is what listing the nodes returns. *)
Definition sync (nodes : res (list Node)) : M kubelet_state () :=
  r ← mtry (mlift nodes);
  match r with
  | inr _ => mret ()
  | inl nodes =>
      r ← mlift (getNodeAddresses c (SortStableFunc node_Name nodes));
      let addresses := r.1 in
      _ ← count (Z.of_nat (length r.2)) (0, 0)%Z (0, 0)%Z;
      svc ← on_services syncService;
      _ ← (if manageEndpoints c then
             _ ← count 0 (1, 0)%Z (0, 0)%Z;
             r ← mtry (on_endpoints (syncEndpoints addresses));
             match r with inl _ => mret () | inr _ => count 0 (0, 0)%Z (1, 0)%Z end
           else mret ());
      if manageEndpointSlice c then
        _ ← count 0 (0, 1)%Z (0, 0)%Z;
        r ← mtry (on_slices (syncEndpointSlice svc.1 addresses));
        match r with inl _ => mret () | inr _ => count 0 (0, 0)%Z (0, 1)%Z end
      else mret ()
  end.
End sync.
