(* ===== verification/KubeletLaws.v ===== *)
(** * EndpointSlices of the kubelet controller: planning

    What [plan_slices] computes: every address of a node ends up in exactly one endpoint, within the
    capacity of slices and in a slice of its family. *)

From S2P Require Import Prelude GoStrings SortUtil Meta ApiClient NetIP Kubelet.

(** ** Taking addresses out of the index *)

Definition ips_of (l : list Endpoint) : list string := l ≫= Endpoint_Addresses.
Definition ips (l : list EndpointSlice) : list string := l ≫= fun s => ips_of (eps_Endpoints s).
Lemma ips_app l l' : ips (l ++ l') = ips l ++ ips l'.
Proof. apply bind_app. Qed.
Lemma ips_of_app l l' : ips_of (l ++ l') = ips_of l ++ ips_of l'.
Proof. apply bind_app. Qed.

(** The addresses [l] are in the index, once each, and [idx'] is the index without them. *)
Record takes {A} (idx : gmap string A) (l : list string) (idx' : gmap string A) : Prop := {
  takes_NoDup : NoDup l;
  takes_in ip : ip ∈ l → is_Some (idx !! ip);
  takes_lookup ip x : idx' !! ip = Some x ↔ idx !! ip = Some x ∧ ip ∉ l;
}.
Lemma takes_nil {A} (idx : gmap string A) : takes idx [] idx.
Proof. split; [constructor|by intros ip ?%elem_of_nil|]. intros ip x. split; [intros; split; [done|apply not_elem_of_nil]|by intros []]. Qed.
Lemma takes_delete {A} (idx : gmap string A) ip x : idx !! ip = Some x → takes idx [ip] (delete ip idx).
Proof.
  intros Hx. split; [apply NoDup_singleton|by intros ip' ->%list_elem_of_singleton|].
  intros ip' y. rewrite lookup_delete_Some, list_elem_of_singleton. naive_solver.
Qed.
Lemma takes_app {A} (idx idx1 idx2 : gmap string A) l1 l2 : takes idx l1 idx1 → takes idx1 l2 idx2 → takes idx (l1 ++ l2) idx2.
Proof.
  intros [Hn1 Hi1 Hl1] [Hn2 Hi2 Hl2]. split.
  - apply NoDup_app. split_and!; [done| |done]. intros ip H1 H2. destruct (Hi2 ip H2) as [x Hx]. by apply Hl1 in Hx as [_ ?].
  - intros ip [?|H2]%elem_of_app; [auto|]. destruct (Hi2 ip H2) as [x Hx]. apply Hl1 in Hx as [? _]. eauto.
  - intros ip x. rewrite Hl2, Hl1, not_elem_of_app. tauto.
Qed.
Lemma takes_perm {A} (idx idx' : gmap string A) l l' : l ≡ₚ l' → takes idx l idx' → takes idx l' idx'.
Proof. intros Hl [Hn Hi Hx]. split; [by rewrite <-Hl|intros ip; rewrite <-Hl; apply Hi|intros ip x; by rewrite <-Hl]. Qed.

Section plan.
Context (c : Controller) (fresh : nat → nat * nat) (svc : option Service) (addresses : list nodeAddress).
Local Abbreviation index := (gmap string nodeAddress).
(** An endpoint of a node. *)
Definition endpoint_of (e : Endpoint) : Prop := ∃ a, a ∈ addresses ∧ e = discoveryV1Endpoint a.
Definition slice_of_nodes (s : EndpointSlice) : Prop := Forall endpoint_of (eps_Endpoints s).
Definition indexed (idx : index) : Prop := ∀ ip a, idx !! ip = Some a → na_ipAddress a = ip ∧ a ∈ addresses.
Lemma indexed_takes idx l idx' : indexed idx → takes idx l idx' → indexed idx'.
Proof. intros Hi Ht ip a [Ha _]%(takes_lookup _ _ _ Ht). by apply Hi. Qed.

(** The part of a slice that depends on the address family and the capacity. *)
Definition family (ip : string) : bool := match ParseIP ip with Some b => is_ipv4 b | None => false end.
Definition slice_ok (s : EndpointSlice) : Prop :=
  (Z.of_nat (length (eps_Endpoints s)) <= Z.max 1 (maxEndpointsPerSlice c))%Z ∧
  Forall (fun ip => family ip = bool_decide (eps_AddressType s = AddressTypeIPv4)) (ips_of (eps_Endpoints s)).
Context (Hfam : Forall (fun a => na_ipv4 a = family (na_ipAddress a)) addresses).

(** ** Refreshing the slices that exist *)

Lemma refresh_endpoints_ok l : ∀ idx, indexed idx →
  let r := refresh_endpoints idx l in
  takes idx (ips_of r.2) r.1 ∧ Forall endpoint_of r.2 ∧ length r.2 <= length l ∧ (∀ ip, ip ∈ ips_of r.2 → ip ∈ ips_of l).
Proof.
  induction l as [|ep l IH]; intros idx Hi; simpl; [split_and!; [apply takes_nil|done|done|done]|].
  assert (∀ r : index * list Endpoint, takes idx (ips_of r.2) r.1 ∧ Forall endpoint_of r.2 ∧ length r.2 <= length l ∧ (∀ ip, ip ∈ ips_of r.2 → ip ∈ ips_of l) →
    takes idx (ips_of r.2) r.1 ∧ Forall endpoint_of r.2 ∧ length r.2 <= S (length l) ∧ (∀ ip, ip ∈ ips_of r.2 → ip ∈ Endpoint_Addresses ep ++ ips_of l)) as Hskip.
  { intros r (? & ? & ? & Hin). split_and!; [done|done|lia|]. intros ip ?%Hin. set_solver. }
  destruct (Endpoint_Addresses ep) as [|ip [|ip' rest]] eqn:Ee; [apply Hskip, IH, Hi| |apply Hskip, IH, Hi].
  destruct (idx !! ip) as [a|] eqn:Ha; [|apply Hskip, IH, Hi].
  destruct (Hi _ _ Ha) as [Hip Hin]. rewrite Hip. simpl.
  assert (takes idx [ip] (delete ip idx)) as Ht by by eapply takes_delete.
  destruct (IH (delete ip idx)) as (IH1 & IH2 & IH3 & IH4); [by eapply indexed_takes|]. rewrite <-Hip in Ht |- *. split_and!.
  - by apply (takes_app idx (delete (na_ipAddress a) idx) _ [na_ipAddress a]); rewrite ?Hip in *.
  - constructor; [by exists a|by rewrite Hip].
  - rewrite Hip. lia.
  - intros ip1. rewrite Hip. unfold ips_of. simpl. set_solver.
Qed.
Lemma refresh_ok epsl : ∀ idx, indexed idx → Forall slice_ok epsl →
  let r := refresh idx epsl in
  takes idx (ips r.2) r.1 ∧ Forall slice_of_nodes r.2 ∧ Forall slice_ok r.2 ∧ eps_meta <$> r.2 = eps_meta <$> epsl.
Proof.
  induction epsl as [|s epsl IH]; intros idx Hi Hok; simpl; [split_and!; [apply takes_nil|done|done|done]|].
  apply Forall_cons in Hok as [[Hcap Hf] Hok]. destruct (refresh_endpoints_ok (eps_Endpoints s) idx Hi) as (Ht & He & Hl & Hin).
  destruct (IH (refresh_endpoints idx (eps_Endpoints s)).1) as (IH1 & IH2 & IH3 & IH4); [by eapply indexed_takes|done|]. split_and!.
  - by eapply takes_app.
  - by constructor.
  - constructor; [|done]. split; simpl; [lia|]. rewrite Forall_forall in Hf |- *. auto.
  - by f_equal.
Qed.

(** ** Appending to them *)

Lemma slice_ok_snoc a s : a ∈ addresses → na_ipv4 a = bool_decide (eps_AddressType s = AddressTypeIPv4) →
  fullCapacity c (eps_Endpoints s) = false ∨ eps_Endpoints s = [] → slice_ok s → slice_ok (set_Endpoints (eps_Endpoints s ++ [discoveryV1Endpoint a]) s).
Proof.
  intros Ha Hv Hfull [Hcap Hf]. rewrite Forall_forall in Hfam. split; simpl.
  - rewrite length_app. simpl. destruct Hfull as [Hfull | ->]; [|simpl; lia]. unfold fullCapacity in Hfull. apply bool_decide_eq_false in Hfull. lia.
  - rewrite ips_of_app. apply Forall_app. split; [done|]. simpl. constructor; [|done]. rewrite <-Hv. symmetry. by apply Hfam.
Qed.
Lemma append_to_ok a epsl epsl' : a ∈ addresses → append_to c a epsl = Some epsl' → Forall slice_ok epsl → Forall slice_of_nodes epsl →
  ips epsl' ≡ₚ ips epsl ++ [na_ipAddress a] ∧ Forall slice_of_nodes epsl' ∧ Forall slice_ok epsl' ∧ eps_meta <$> epsl' = eps_meta <$> epsl.
Proof.
  intros Ha. revert epsl'. induction epsl as [|s epsl IH]; intros epsl'; simpl; [done|].
  intros E [Hs Hok]%Forall_cons [Hn Hnodes]%Forall_cons. destruct (bool_decide _ || _) eqn:Eskip.
  - apply fmap_Some in E as (l & El & ->). destruct (IH l El Hok Hnodes) as (IH1 & IH2 & IH3 & IH4). split_and!.
    + simpl. by rewrite IH1, app_assoc.
    + by constructor.
    + by constructor.
    + rewrite !fmap_cons. by f_equal.
  - injection E as <-. apply orb_false_iff in Eskip as [Hv Hfull]. apply bool_decide_eq_false, dec_stable in Hv. split_and!.
    + simpl. rewrite ips_of_app. simpl. rewrite <-!app_assoc. apply Permutation_app_head, Permutation_app_comm.
    + constructor; [|done]. apply Forall_app. split; [done|]. repeat constructor. by exists a.
    + constructor; [|done]. apply slice_ok_snoc; auto.
    + done.
Qed.
Lemma append_existing_ok l : ∀ idx epsl, l ⊆ addresses → Forall slice_ok epsl → Forall slice_of_nodes epsl →
  let r := append_existing c l idx epsl in
  ∃ taken, takes idx taken r.1 ∧ ips r.2 ≡ₚ ips epsl ++ taken ∧ Forall slice_of_nodes r.2 ∧ Forall slice_ok r.2 ∧ eps_meta <$> r.2 = eps_meta <$> epsl.
Proof.
  induction l as [|a l IH]; intros idx epsl Hl Hok Hn; simpl.
  { exists []. split_and!; [apply takes_nil|by rewrite app_nil_r|done|done|done]. }
  assert (a ∈ addresses ∧ l ⊆ addresses) as [Ha Hl'] by set_solver. clear Hl. rename Hl' into Hl. destruct (idx !! na_ipAddress a) as [x|] eqn:Hx; [|by apply IH].
  destruct (append_to c a epsl) as [epsl'|] eqn:E; [|by apply IH].
  destruct (append_to_ok _ _ _ Ha E Hok Hn) as (Hp & Hn' & Hok' & Hm).
  destruct (IH (delete (na_ipAddress a) idx) epsl' Hl Hok' Hn') as (taken & Ht & Hp' & Hn'' & Hok'' & Hm').
  exists (na_ipAddress a :: taken). split_and!; [|by rewrite Hp', Hp, <-app_assoc|done|done|congruence].
  by apply (takes_app _ (delete (na_ipAddress a) idx) _ [na_ipAddress a]); [eapply takes_delete|].
Qed.

(** ** New slices *)

(** A slice that the controller has made: without a name, with a label for the service. *)
Definition made (s : EndpointSlice) : Prop := ∃ addrs svc ipv4, eps_meta s = eps_meta (new_slice c addrs svc ipv4).
Definition in_packing (p : packing) : list EndpointSlice := pk_epsl p ++ option_list (pk_v4 p) ++ option_list (pk_v6 p).
(** The slices that exist come first, then full new ones, then those that are being filled, each for
    its family. *)
Record packed (old : list EndpointSlice) (p : packing) : Prop := {
  packed_new : ∃ new, pk_epsl p = old ++ new ∧ Forall made new;
  packed_v4 s : pk_v4 p = Some s → made s ∧ eps_AddressType s = AddressTypeIPv4;
  packed_v6 s : pk_v6 p = Some s → made s ∧ eps_AddressType s = AddressTypeIPv6;
  packed_nodes : Forall slice_of_nodes (in_packing p);
  packed_ok : Forall slice_ok (in_packing p);
}.

(** A slice that is full moves to the finished ones. *)
Lemma flush_full_ok epsl o : ∃ done_ o', flush_full c epsl o = (epsl ++ done_, o') ∧ option_list o = done_ ++ option_list o' ∧
  ∀ s, o' = Some s → o = Some s ∧ fullCapacity c (eps_Endpoints s) = false.
Proof.
  unfold flush_full. destruct o as [s|]; [destruct (fullCapacity c (eps_Endpoints s)) eqn:E|].
  - by exists [s], None.
  - exists [], (Some s). rewrite app_nil_r. split_and!; [done..|]. by intros s' [= <-].
  - exists [], None. by rewrite app_nil_r.
Qed.
Lemma new_slice_ok addrs service ipv4 : slice_ok (new_slice c addrs service ipv4).
Proof. split; simpl; [lia|done]. Qed.
Lemma new_slice_family addrs service ipv4 : bool_decide (eps_AddressType (new_slice c addrs service ipv4) = AddressTypeIPv4) = ipv4.
Proof. by destruct ipv4. Qed.
(** The slice an address goes into, and the one it becomes. *)
Record filled (a : nodeAddress) (s s' : EndpointSlice) : Prop := {
  filled_made : made s';
  filled_family : eps_AddressType s' = if na_ipv4 a then AddressTypeIPv4 else AddressTypeIPv6;
  filled_nodes : slice_of_nodes s';
  filled_ok : slice_ok s';
  filled_ips : ips [s'] = ips [s] ++ [na_ipAddress a];
}.
Lemma fill_ok a s : a ∈ addresses → made s → eps_AddressType s = (if na_ipv4 a then AddressTypeIPv4 else AddressTypeIPv6) →
  slice_of_nodes s → slice_ok s → fullCapacity c (eps_Endpoints s) = false ∨ eps_Endpoints s = [] →
  filled a s (set_Endpoints (eps_Endpoints s ++ [discoveryV1Endpoint a]) s).
Proof.
  intros Ha Hm Hf Hn Hok Hfull. split; [done|done| | |].
  - apply Forall_app. split; [done|]. repeat constructor. by exists a.
  - apply slice_ok_snoc; auto. rewrite Hf. by destruct (na_ipv4 a).
  - unfold ips. simpl. rewrite ips_of_app. simpl. by rewrite !app_nil_r.
Qed.

Lemma target_ok (target : option EndpointSlice) a n s : a ∈ addresses →
  (∀ s, target = Some s → made s ∧ eps_AddressType s = (if na_ipv4 a then AddressTypeIPv4 else AddressTypeIPv6) ∧ slice_of_nodes s ∧ slice_ok s ∧
     fullCapacity c (eps_Endpoints s) = false) →
  match target with
  | Some eps => Ok eps
  | None => svc ← match svc with Some svc => Ok svc | None => nil_service end; Ok (new_slice c (fresh n) svc (na_ipv4 a))
  end = Ok s →
  filled a s (set_Endpoints (eps_Endpoints s ++ [discoveryV1Endpoint a]) s) ∧ ips [s] = ips (option_list target).
Proof.
  intros Ha Ht. destruct target as [s'|]; [|destruct svc as [service|]; [|done]]; simpl; intros [= <-].
  - destruct (Ht s' eq_refl) as (? & ? & ? & ? & ?). split; [|done]. apply fill_ok; auto.
  - split; [|done]. apply fill_ok; [done|by eexists _, _, _|by destruct (na_ipv4 a)|by constructor|apply new_slice_ok|by right].
Qed.
Lemma pack_one_ok old p a p' : a ∈ addresses → packed old p → pack_one c fresh svc p a = Ok p' →
  packed old p' ∧ ips (in_packing p') ≡ₚ ips (in_packing p) ++ [na_ipAddress a].
Proof.
  intros Ha [(new & Hnew & Hmade) H4 H6 Hn Hok]. unfold pack_one.
  destruct (flush_full_ok (pk_epsl p) (pk_v4 p)) as (d4 & v4 & -> & E4 & F4). simpl.
  destruct (flush_full_ok (pk_epsl p ++ d4) (pk_v6 p)) as (d6 & v6 & -> & E6 & F6). simpl.
  unfold in_packing in Hn, Hok |- *. rewrite E4, E6 in *. rewrite !Forall_app in Hn, Hok. destruct Hn as (Hn0 & [Hnd4 Hn4] & [Hnd6 Hn6]), Hok as (Ho0 & [Hod4 Ho4] & [Hod6 Ho6]).
  assert (Forall made (d4 ++ d6)) as Hd.
  { apply Forall_app. split; apply Forall_forall; intros s Hs.
    - destruct (pk_v4 p) as [x|] eqn:Ev; [|by destruct d4; [apply elem_of_nil in Hs|]].
      assert (s ∈ option_list (Some x)) as ->%list_elem_of_singleton by (rewrite E4; set_solver). by apply H4.
    - destruct (pk_v6 p) as [x|] eqn:Ev; [|by destruct d6; [apply elem_of_nil in Hs|]].
      assert (s ∈ option_list (Some x)) as ->%list_elem_of_singleton by (rewrite E6; set_solver). by apply H6. }
  intros (s & Hs & [= <-])%bind_ok_ex. simpl. apply target_ok in Hs as [[Gm Gf Gn Gok Gip] Hip]; [|done|].
  2:{ intros s0. destruct (na_ipv4 a); intros Hs0.
      - destruct (F4 s0 Hs0) as [Hp Hfull]. destruct (H4 s0 Hp) as [? ?]. rewrite Hs0 in *. split_and!; [done|done|by inversion Hn4|by inversion Ho4|done].
      - destruct (F6 s0 Hs0) as [Hp Hfull]. destruct (H6 s0 Hp) as [? ?]. rewrite Hs0 in *. split_and!; [done|done|by inversion Hn6|by inversion Ho6|done]. }
  rewrite Hip in Gip. set (s' := set_Endpoints _ s) in *.
  assert (∃ new, (pk_epsl p ++ d4) ++ d6 = old ++ new ∧ Forall made new) as Hnew'.
  { exists (new ++ d4 ++ d6). rewrite Hnew, <-!app_assoc. split; [done|]. by apply Forall_app. }
  destruct (na_ipv4 a); simpl.
  - split.
    + split; simpl; [done|by intros x [= <-]|intros x Hx; apply H6, F6, Hx| |]; unfold in_packing; simpl; rewrite !Forall_app; split_and!; try done; by constructor.
    + change (s' :: option_list v6) with ([s'] ++ option_list v6). rewrite !ips_app, Gip. solve_Permutation.
  - split.
    + split; simpl; [done|intros x Hx; apply H4, F4, Hx|by intros x [= <-]| |]; unfold in_packing; simpl; rewrite !Forall_app; split_and!; try done; by constructor.
    + rewrite !ips_app, Gip. solve_Permutation.
Qed.
Lemma pack_new_ok old l : ∀ idx p p', l ⊆ addresses → packed old p → pack_new c fresh svc l idx p = Ok p' →
  ∃ taken idx', takes idx taken idx' ∧ packed old p' ∧ ips (in_packing p') ≡ₚ ips (in_packing p) ++ taken ∧
    ∀ a, a ∈ l → idx' !! na_ipAddress a = None.
Proof.
  induction l as [|a l IH]; intros idx p p' Hl Hp; simpl.
  { intros [= <-]. exists [], idx. split_and!; [apply takes_nil|done|by rewrite app_nil_r|]. by intros a ?%elem_of_nil. }
  assert (a ∈ addresses ∧ l ⊆ addresses) as [Ha Hl'] by set_solver. destruct (idx !! na_ipAddress a) as [x|] eqn:Hx.
  - intros (p1 & E1 & E)%bind_ok_ex. destruct (pack_one_ok _ _ _ _ Ha Hp E1) as [Hp1 Hperm].
    destruct (IH _ _ _ Hl' Hp1 E) as (taken & idx' & Ht & Hp' & Hperm' & Hnone).
    assert (takes idx (na_ipAddress a :: taken) idx') as Ht'.
    { by apply (takes_app _ (delete (na_ipAddress a) idx) _ [na_ipAddress a]); [eapply takes_delete|]. }
    exists (na_ipAddress a :: taken), idx'. split_and!; [done|done|by rewrite Hperm', Hperm, <-app_assoc|].
    intros b [->|Hb]%elem_of_cons; [|auto]. apply eq_None_not_Some. intros [y [_ Hy]%(takes_lookup _ _ _ Ht')]. set_solver.
  - intros E. destruct (IH _ _ _ Hl' Hp E) as (taken & idx' & Ht & Hp' & Hperm' & Hnone). exists taken, idx'. split_and!; [done..|].
    intros b [->|Hb]%elem_of_cons; [|auto]. apply eq_None_not_Some. intros [y [Hy _]%(takes_lookup _ _ _ Ht)]. congruence.
Qed.

(** ** The whole plan *)

Definition node_index (l : list nodeAddress) : index := foldl (fun m a => <[na_ipAddress a := a]> m) ∅ l.
Lemma node_index_ok l : ∀ ip, match node_index l !! ip with
  | Some a => na_ipAddress a = ip ∧ a ∈ l | None => ip ∉ na_ipAddress <$> l end.
Proof.
  clear. unfold node_index. induction l as [|a l IH] using rev_ind; intros ip; simpl; [apply not_elem_of_nil|].
  rewrite foldl_app, fmap_app. simpl. rewrite lookup_insert. case_decide as Hip; [split; [done|set_solver]|].
  specialize (IH ip). case_match; set_solver.
Qed.
Lemma plan_ok epsl l : Forall slice_ok epsl → plan_slices c fresh svc addresses epsl = Ok l →
  (∃ old new, l = old ++ new ∧ eps_meta <$> old = eps_meta <$> epsl ∧ Forall made new) ∧
  NoDup (ips l) ∧ (∀ ip, ip ∈ ips l ↔ ip ∈ na_ipAddress <$> addresses) ∧ Forall slice_of_nodes l ∧ Forall slice_ok l.
Proof.
  intros Hok. unfold plan_slices. fold (node_index addresses). set (idx := node_index addresses).
  assert (indexed idx) as Hi. { intros ip a Ha. pose proof (node_index_ok addresses ip) as Hn. fold idx in Hn. by rewrite Ha in Hn. }
  destruct (refresh_ok epsl idx Hi Hok) as (T1 & N1 & O1 & M1). destruct (refresh idx epsl) as [idx1 epsl1]. simpl in *.
  destruct (append_existing_ok addresses idx1 epsl1 ltac:(set_solver) O1 N1) as (taken & T2 & P2 & N2 & O2 & M2).
  destruct (append_existing c addresses idx1 epsl1) as [idx2 epsl2]. simpl in *.
  intros (p & E & [= <-])%bind_ok_ex. fold (in_packing p).
  assert (packed epsl2 {| pk_epsl := epsl2; pk_v4 := None; pk_v6 := None |}) as Hp.
  { split; simpl; [by exists []; rewrite app_nil_r|done|done|unfold in_packing; simpl; by rewrite app_nil_r..]. }
  destruct (pack_new_ok _ _ _ _ _ ltac:(set_solver) Hp E) as (taken' & idx3 & T3 & Hp3 & P3 & Hnone).
  unfold in_packing at 2 in P3. simpl in P3. rewrite app_nil_r, P2 in P3.
  assert (takes idx (ips (in_packing p)) idx3) as T.
  { eapply takes_perm; [symmetry; exact P3|]. eapply takes_app; [by eapply takes_app|done]. }
  split; [|split_and!].
  - destruct Hp3 as [(new & Hnew & Hmade) H4 H6 _ _]. exists epsl2, (new ++ option_list (pk_v4 p) ++ option_list (pk_v6 p)).
    unfold in_packing. rewrite Hnew, <-app_assoc. split; [done|]. split; [congruence|]. rewrite !Forall_app. split; [done|].
    split; [destruct (pk_v4 p)|destruct (pk_v6 p)]; simpl; repeat constructor; naive_solver.
  - apply T.
  - intros ip. split.
    + intros [a Ha]%(takes_in _ _ _ T). apply Hi in Ha as [<- Ha]. by apply list_elem_of_fmap_2.
    + intros (a & -> & Ha)%list_elem_of_fmap. destruct (decide (na_ipAddress a ∈ ips (in_packing p))) as [|Hno]; [done|exfalso].
      pose proof (node_index_ok addresses (na_ipAddress a)) as Hn. fold idx in Hn. destruct (idx !! na_ipAddress a) as [b|] eqn:Eb; [|set_solver].
      assert (idx3 !! na_ipAddress a = Some b) as Hb by (apply (takes_lookup _ _ _ T); done). by rewrite (Hnone a Ha) in Hb.
  - apply Hp3.
  - apply Hp3.
Qed.
(** With the service, planning succeeds. *)
Lemma plan_total epsl : is_Some svc → ∃ l, plan_slices c fresh svc addresses epsl = Ok l.
Proof.
  intros [service ->]. unfold plan_slices.
  assert (∀ l idx p, ∃ p', pack_new c fresh (Some service) l idx p = Ok p') as Ht.
  { induction l as [|a l IH]; intros idx p; simpl; [eauto|]. destruct (idx !! na_ipAddress a); [|apply IH].
    unfold pack_one at 1. destruct (if na_ipv4 a then _ else _); simpl; apply IH. }
  edestruct Ht as [p ->]. simpl. eauto.
Qed.
End plan.
