(* ===== verification/KubeletSync.v ===== *)
(** * EndpointSlices of the kubelet controller: writing

    The API server gives a name to an object that is created with [generateName]; [NamingLaws] are the
    laws of such a client, with an in-memory store that satisfies them. After a synchronization the
    slices of the service in the API are those that were planned. *)

From S2P Require Import Prelude GoStrings SortUtil Meta ApiClient NetIP Kubelet KubeletLaws.

Class NamingLaws (Obj St : Type) `{ApiObject Obj, ApiClient Obj St} := {
  naming_Get_objs n s s' r : Get n s = (s', r) → objs s' = objs s;
  naming_Get_ok n s s' o : Get n s = (s', Ok o) → objs s !! n = Some o;
  naming_Get_NotFound n s s' e : Get n s = (s', Err e) → IsNotFound e = true → objs s !! n = None;
  (** the object is stored under its name, or under a new one if it has none *)
  naming_Create o s s' o' : Create o s = (s', Ok o') →
    ∃ n o1, n ≠ "" ∧ (name o ≠ "" → n = name o) ∧ objs s !! n = None ∧
      content o1 = content (set_meta (SetName n (meta o)) o) ∧ objs s' = <[n := o1]> (objs s);
  naming_Update o s s' o' : Update o s = (s', Ok o') → is_Some (objs s !! name o) ∧ stored o (objs s) (objs s');
  naming_Create_conflict o s s' e : Create o s = (s', Err e) → IsConflict e = true → objs s' = objs s;
  naming_Update_conflict o s s' e : Update o s = (s', Err e) → IsConflict e = true → objs s' = objs s;
  naming_Delete n s s' : Delete n s = (s', Ok ()) → objs s' = delete n (objs s);
  naming_List_objs p s s' r : List p s = (s', r) → objs s' = objs s;
  naming_List p s s' os : List p s = (s', Ok os) → os ≡ₚ base.filter (fun o => p o = true) ((map_to_list (objs s)).*2);
  naming_objs s n o : objs s !! n = Some o → name o = n ∧ n ≠ "";
}.

(** ** A store that names objects *)

Module NamingStore.
Section store.
Context {Obj : Type} `{ApiObject Obj}.
Definition named (kv : string * Obj) : Prop := name kv.2 = kv.1 ∧ kv.1 ≠ "".
Definition contents (m : gmap string Obj) : gmap string Obj := base.filter named m.
Definition state := gmap string Obj.
Definition get (n : string) : M state Obj := fun s =>
  match contents s !! n with Some o => (s, Ok o) | None => (s, Err (StatusError NotFound n)) end.
Definition chosen (o : Obj) (s : state) : string := if bool_decide (name o = "") then fresh ({[""]} ∪ dom s : gset string) else name o.
Definition create (o : Obj) : M state Obj := fun s =>
  let n := chosen o s in
  match contents s !! n with
  | Some _ => (s, Err (StatusError AlreadyExists n))
  | None => let o := set_meta (SetName n (meta o)) o in (<[n := o]> s, Ok o)
  end.
Definition update (o : Obj) : M state Obj := fun s =>
  match contents s !! name o with
  | Some _ => (<[name o := o]> s, Ok o)
  | None => (s, Err (StatusError NotFound (name o)))
  end.
Definition del (n : string) : M state () := fun s =>
  match contents s !! n with Some _ => (delete n s, Ok ()) | None => (s, Err (StatusError NotFound n)) end.
Definition list_ (p : Obj → bool) : M state (list Obj) := fun s =>
  (s, Ok (base.filter (fun o => p o = true) ((map_to_list (contents s)).*2))).
Lemma chosen_nonempty o s : chosen o s ≠ "".
Proof.
  unfold chosen. case_bool_decide as Hn; [|done]. pose proof (is_fresh ({[""]} ∪ dom s : gset string)) as Hf. intros E. rewrite E in Hf. set_solver.
Qed.
Lemma contents_insert (s : state) n o : name o = n → n ≠ "" → contents (<[n := o]> s) = <[n := o]> (contents s).
Proof. intros Hn Hne. apply map_filter_insert_True. by split. Qed.
End store.
Arguments state Obj : clear implicits.
#[global] Instance client {Obj} `{ApiObject Obj} : ApiClient Obj (state Obj) := {|
  objs := contents; Get := get; Create := create; Update := update; Delete := del; List := list_ |}.
#[global] Instance laws {Obj} `{ApiObject Obj} : NamingLaws Obj (state Obj).
Proof.
  split; simpl.
  - intros n s s' r. unfold get. case_match; by intros [= <- <-].
  - intros n s s' o. unfold get. case_match; by intros [= <- <-].
  - intros n s s' e. unfold get. case_match; by intros [= <- <-].
  - intros o s s' o'. unfold create. case_match eqn:E; [done|]. intros [= <- <-].
    assert (name (set_meta (SetName (chosen o s) (meta o)) o) = chosen o s) as Hn by (unfold name; by rewrite meta_set_meta).
    eexists (chosen o s), _. split_and!; [apply chosen_nonempty| |done|reflexivity|apply contents_insert; [done|apply chosen_nonempty]].
    intros Hne. unfold chosen. by rewrite bool_decide_eq_false_2.
  - intros o s s' o'. unfold update. case_match eqn:E; [|done]. intros [= <- <-]. split; [done|]. exists o. split; [done|].
    apply map_lookup_filter_Some in E as [_ [_ Hne]]. by apply contents_insert.
  - intros o s s' e. unfold create. case_match; by intros [= <- <-].
  - intros o s s' e. unfold update. case_match; by intros [= <- <-].
  - intros n s s'. unfold del. case_match; [|done]. intros [= <-]. apply map_filter_delete.
  - intros p s s' r. unfold list_. by intros [= <- <-].
  - intros p s s' os. unfold list_. by intros [= <- <-].
  - intros s n o [_ [Hn Hne]]%map_lookup_filter_Some. done.
Qed.
End NamingStore.

(** ** Writing a slice *)

Section slices.
Context `{!Retry} {St : Type} `{ApiClient EndpointSlice St, !NamingLaws EndpointSlice St}.
Context (c : Controller).

(** Slices that differ in metadata only, with the same name and for the same service. *)
Record alike (d s : EndpointSlice) : Prop := {
  alike_name : name d = name s;
  alike_Endpoints : eps_Endpoints d = eps_Endpoints s;
  alike_AddressType : eps_AddressType d = eps_AddressType s;
  alike_service : of_service c s = true → of_service c d = true;
}.
#[global] Instance alike_refl : Reflexive alike.
Proof. by intros s. Qed.
#[global] Instance alike_trans : Transitive alike.
Proof. intros x y z [] []. split; [congruence..|auto]. Qed.
Lemma alike_merged d m : alike (set_meta (mergeMetadata (meta d) m) d) d.
Proof.
  split; [done..|]. unfold of_service. rewrite !bool_decide_eq_true, meta_set_meta. intros Hl.
  change (om_Labels (mergeMetadata (meta d) m)) with (mergeMaps (om_Labels (meta d)) (om_Labels m)). rewrite mergeMaps_union. simpl.
  rewrite lookup_union, Hl. by destruct (entries (om_Labels m) !! _).
Qed.
Lemma alike_content d s : content d = content s → alike d s.
Proof.
  intros E. pose proof (content_name _ _ E) as Hn. pose proof (user_meta_labels _ _ (content_user_meta _ _ E)) as Hl.
  unfold content in E. injection E as _ _ Ha He _. split; [done..|]. unfold of_service. by rewrite Hl.
Qed.
Lemma alike_named n s : name s = "" → eps_Endpoints (set_meta (SetName n (meta s)) s) = eps_Endpoints s.
Proof. done. Qed.

(** What a write leaves behind. *)
Definition slice_stored (s : EndpointSlice) (before after : gmap string EndpointSlice) : Prop :=
  ∃ n o, after = <[n := o]> before ∧ n ≠ "" ∧ (if bool_decide (name s = "") then before !! n = None else n = name s) ∧
    eps_Endpoints o = eps_Endpoints s ∧ eps_AddressType o = eps_AddressType s ∧ (of_service c s = true → of_service c o = true).
Lemma slice_stored_alike d s before after : alike d s → slice_stored d before after → slice_stored s before after.
Proof.
  intros [Hn He Ha Hs] (n & o & ? & ? & ? & ? & ? & ?). exists n, o. rewrite <-Hn, <-He, <-Ha. split_and!; auto.
Qed.
Lemma created d (s s' : St) o : Create d s = (s', Ok o) → slice_stored d (objs s) (objs s').
Proof.
  intros (n & o1 & Hne & Hn & Hnone & [_ He Ha Hs]%alike_content & ->)%naming_Create. exists n, o1. split_and!; [done|done| |done|done|exact Hs].
  case_bool_decide; auto.
Qed.
Lemma updated d (s s' : St) o : Update d s = (s', Ok o) → slice_stored d (objs s) (objs s').
Proof.
  intros [[x Hx] (o1 & [_ He Ha Hs]%alike_content & ->)]%naming_Update. pose proof (naming_objs _ _ _ Hx) as [_ Hne].
  exists (name d), o1. split_and!; try done. by rewrite bool_decide_eq_false_2.
Qed.
Lemma attempt_slice eps (st st' : St * EndpointSlice) r : alike st.2 eps → CreateOrUpdateEndpointSlice_attempt st = (st', r) →
  match r with
  | Ok _ => slice_stored eps (objs st.1) (objs st'.1)
  | Err e => IsConflict e = true → objs st'.1 = objs st.1 ∧ alike st'.2 eps
  | Panic _ => True
  end.
Proof.
  intros Hd. destruct st as [s d]. simpl in Hd.
  unfold CreateOrUpdateEndpointSlice_attempt, mget, mtry, on_api, mput, mbind, M_bind, mret, M_ret, mfail. simpl.
  assert (∀ s1, objs s1 = objs s → ∀ out, (let '(s', r) := Create d s1 in ((s', d), r)) = out →
    (let (s', r) := out in match r with Ok _ => (s', Ok ()) | Err e => (s', Err e) | Panic m => (s', Panic m) end) = (st', r) →
    match r with Ok _ => slice_stored eps (objs s) (objs st'.1) | Err e => IsConflict e = true → objs st'.1 = objs s ∧ alike st'.2 eps | Panic _ => True end) as Hcreate.
  { intros s1 Hs1 out <-. destruct (Create d s1) as [s2 [o|e|m]] eqn:E; intros [= <- <-]; simpl; [|intros He|done].
    - apply created in E. rewrite Hs1 in E. by eapply slice_stored_alike.
    - apply naming_Create_conflict in E; [|done]. by rewrite E. }
  case_bool_decide; [exact (Hcreate s eq_refl _ eq_refl)|].
  cbn [fst snd]. destruct (Get (name d) s) as [s1 [ex|err|m]] eqn:EG; pose proof (naming_Get_objs _ _ _ _ EG) as Hs1; simpl.
  - destruct (Update (set_meta (mergeMetadata (meta d) (meta ex)) d) s1) as [s2 [o|e|m]] eqn:E; intros [= <- <-]; simpl; [|intros He|done].
    + apply updated in E. rewrite Hs1 in E. eapply slice_stored_alike; [|exact E]. etrans; [apply alike_merged|done].
    + apply naming_Update_conflict in E; [|done]. rewrite E. split; [done|]. etrans; [apply alike_merged|done].
  - destruct (IsNotFound err); simpl; [exact (Hcreate s1 Hs1 _ eq_refl)|]. by intros [= <- <-].
  - by intros [= <- <-].
Qed.
Lemma CreateOrUpdateEndpointSlice_ok eps (s s' : St) :
  CreateOrUpdateEndpointSlice eps s = (s', Ok ()) → slice_stored eps (objs s) (objs s').
Proof.
  unfold CreateOrUpdateEndpointSlice. destruct (RetryOnConflict _ _) as [st r] eqn:E. intros [= <- ->].
  apply RetryOnConflict_runs in E. assert (alike (s, eps).2 eps) as Hd by done. change (objs s) with (objs (s, eps).1).
  remember (s, eps) as st0 eqn:Heq. clear s Heq. remember (Ok ()) as r eqn:Hr. induction E as [st0 st r E|st0 st1 e st r E He _ IH]; subst.
  - exact (attempt_slice _ _ _ _ Hd E).
  - destruct (attempt_slice _ _ _ _ Hd E He) as [Ho Hm]. rewrite <-Ho in *. by apply IH.
Qed.

(** ** Writing all of them *)

(** The slices of the service, but for those whose names are in [N], which are still to be written. *)
Definition view (m : gmap string EndpointSlice) (N : gset string) : gmap string EndpointSlice :=
  base.filter (fun kv => of_service c kv.2 = true ∧ kv.1 ∉ N) m.
Definition slices_in (m : gmap string EndpointSlice) : list EndpointSlice := (map_to_list m).*2.
Section step.
Context (m : gmap string EndpointSlice) (N N' : gset string) (n : string).
Context (Hother : ∀ k, k ≠ n → k ∈ N' ↔ k ∈ N) (HnN' : n ∉ N') (Hnew : n ∈ N ∨ m !! n = None).
Lemma view_missing : view m N !! n = None.
Proof. apply map_lookup_filter_None. destruct Hnew as [?|Hm]; [right; intros x _ [_ ?]; done|by left]. Qed.
Lemma slices_view_delete : view (delete n m) N' = view m N.
Proof.
  apply map_eq. intros k. destruct (decide (k = n)) as [->|Hk].
  - rewrite view_missing. apply map_lookup_filter_None. left. apply lookup_delete_eq.
  - apply option_eq. intros o. unfold view. rewrite !map_lookup_filter_Some, lookup_delete_ne by done. simpl. by rewrite Hother.
Qed.
Lemma slices_view_insert o : of_service c o = true → view (<[n := o]> m) N' = <[n := o]> (view m N).
Proof.
  intros Ho. unfold view at 1. rewrite map_filter_insert_True by done. rewrite <-slices_view_delete.
  unfold view. rewrite map_filter_delete, insert_delete_eq. done.
Qed.
Lemma slices_insert o : of_service c o = true → slices_in (view (<[n := o]> m) N') ≡ₚ o :: slices_in (view m N).
Proof. intros Ho. unfold slices_in. rewrite slices_view_insert by done. by rewrite map_to_list_insert by apply view_missing. Qed.
End step.

Definition written (s w : EndpointSlice) : Prop := eps_Endpoints w = eps_Endpoints s ∧ eps_AddressType w = eps_AddressType s.
Definition pending (l : list EndpointSlice) : list string := base.filter (fun n => n ≠ "") (name <$> l).
(** The name under which the first slice is written, or from which it is deleted. *)
Lemma pending_step eps l n (m : gmap string EndpointSlice) :
  NoDup (pending (eps :: l)) → (∀ n, n ∈ pending (eps :: l) → is_Some (m !! n)) →
  (if bool_decide (name eps = "") then m !! n = None else n = name eps) →
  (∀ k, k ≠ n → k ∈ (list_to_set (pending l) : gset string) ↔ k ∈ (list_to_set (pending (eps :: l)) : gset string)) ∧
  n ∉ (list_to_set (pending l) : gset string) ∧ (n ∈ (list_to_set (pending (eps :: l)) : gset string) ∨ m !! n = None) ∧ NoDup (pending l) ∧
  ∀ k, k ∈ pending l → k ∈ pending (eps :: l).
Proof.
  unfold pending. rewrite fmap_cons, filter_cons. setoid_rewrite elem_of_list_to_set. case_bool_decide as Hn.
  - rewrite decide_False by naive_solver. intros Hnd Hin Hnone. split_and!; [done| |by right|done|done].
    intros [x Hx]%Hin. congruence.
  - rewrite decide_True by done. intros [Hno Hnd]%NoDup_cons Hin ->. split_and!; [|done|left; set_solver|done|set_solver].
    intros k Hk. set_solver.
Qed.
Lemma write_slice_ok eps (s s' : St) : of_service c eps = true → write_slice eps s = (s', Ok ()) →
  ∃ n, (if bool_decide (name eps = "") then objs s !! n = None else n = name eps) ∧
    if bool_decide (eps_Endpoints eps = []) then objs s' = delete n (objs s)
    else ∃ w, written eps w ∧ of_service c w = true ∧ objs s' = <[n := w]> (objs s).
Proof.
  intros Hs. unfold write_slice. case_bool_decide as He; intros E%mwrap_ok.
  - exists (name eps). split; [|by apply naming_Delete in E]. case_bool_decide as Hn; [|done]. apply eq_None_not_Some. intros [x [_ Hx]%naming_objs]. done.
  - apply CreateOrUpdateEndpointSlice_ok in E as (n & w & -> & _ & Hn & ? & ? & Hw). exists n. split; [done|]. exists w. split; [by split|auto].
Qed.
Lemma write_all l : ∀ s s' : St, NoDup (pending l) → (∀ n, n ∈ pending l → is_Some (objs s !! n)) → Forall (fun eps => of_service c eps = true) l →
  mfor_each write_slice l s = (s', Ok ()) →
  (∃ ws, slices_in (view (objs s') ∅) ≡ₚ ws ++ slices_in (view (objs s) (list_to_set (pending l))) ∧
     Forall2 written (base.filter (fun eps => eps_Endpoints eps ≠ []) l) ws) ∧
  ∀ n o, n ∉ pending l → objs s !! n = Some o → objs s' !! n = Some o.
Proof.
  induction l as [|eps l IH]; intros s s' Hnd Hin Hl; simpl.
  { intros [= <-]. split; [exists []; by split|done]. }
  apply Forall_cons in Hl as [Heps Hl]. intros (s1 & [] & (n & Hn & E1)%write_slice_ok & E)%mbind_ok; [|done].
  destruct (pending_step eps l n (objs s) Hnd Hin Hn) as (Hother & HnN & Hnew & Hnd' & Hsub).
  assert (∀ k x, k ≠ n → objs s !! k = Some x → objs s1 !! k = Some x) as Hkeep.
  { intros k x Hk Hx. case_bool_decide; [rewrite E1, lookup_delete_ne by done|destruct E1 as (w & _ & _ & ->); rewrite lookup_insert_ne by done]; done. }
  assert (∀ k, k ∈ pending l → is_Some (objs s1 !! k)) as Hin1.
  { intros k Hk. destruct (Hin k (Hsub k Hk)) as [x Hx]. exists x. apply Hkeep; [|done]. intros ->. set_solver. }
  destruct (IH s1 s' Hnd' Hin1 Hl E) as [(ws & Hp & HF) Hframe]. split.
  - rewrite filter_cons. case_bool_decide as He.
    + rewrite decide_False by naive_solver. exists ws. split; [|done]. rewrite Hp, E1. by rewrite (slices_view_delete _ _ _ _ Hother Hnew).
    + rewrite decide_True by done. destruct E1 as (w & Hw & Hs & E1). exists (w :: ws). split; [|by constructor].
      rewrite Hp, E1, (slices_insert _ _ _ _ Hother HnN Hnew _ Hs). symmetry. apply Permutation_middle.
  - intros k x Hk Hx. apply Hframe; [set_solver|]. apply Hkeep; [|done]. intros ->. destruct Hnew as [?|]; [set_solver|congruence].
Qed.

(** ** A successful synchronization *)

Lemma filter_all {A} (P : A → Prop) `{∀ x, Decision (P x)} l : Forall P l → base.filter P l = l.
Proof. induction 1 as [|x l Hx _ IH]; [done|]. by rewrite filter_cons_True, IH. Qed.
Lemma filter_none {A} (P : A → Prop) `{∀ x, Decision (P x)} l : Forall (fun x => ¬ P x) l → base.filter P l = [].
Proof. induction 1 as [|x l Hx _ IH]; [done|]. by rewrite filter_cons_False. Qed.
Lemma slices_view m : slices_in (view m ∅) ≡ₚ base.filter (fun o => of_service c o = true) (map_to_list m).*2.
Proof.
  assert (∀ l : list (string * EndpointSlice),
    (base.filter (fun kv => of_service c kv.2 = true) l).*2 = base.filter (fun o => of_service c o = true) l.*2) as <-.
  { induction l as [|[k o] l IH]; [done|]. rewrite fmap_cons, !filter_cons. simpl. case_decide; [|done]. by rewrite fmap_cons, IH. }
  apply fmap_Permutation, NoDup_Permutation; [apply NoDup_map_to_list|apply NoDup_filter, NoDup_map_to_list|].
  intros [k o]. rewrite list_elem_of_filter, !elem_of_map_to_list. unfold view. rewrite map_lookup_filter_Some. simpl. set_solver.
Qed.
Lemma names_view (s : St) N : name <$> slices_in (view (objs s) N) = (map_to_list (view (objs s) N)).*1.
Proof.
  unfold slices_in. rewrite <-list_fmap_compose. apply list_fmap_ext. intros i [k o] Hi%list_elem_of_lookup_2. simpl.
  apply elem_of_map_to_list, map_lookup_filter_Some in Hi as [Hi _]. by apply naming_objs in Hi as [? _].
Qed.
Lemma written_same l ws : Forall2 written (base.filter (fun eps => eps_Endpoints eps ≠ []) l) ws →
  ips ws = ips l ∧ Forall (fun eps => eps_Endpoints eps ≠ []) ws ∧
  ∀ P : list Endpoint → string → Prop, Forall (fun eps => P (eps_Endpoints eps) (eps_AddressType eps)) l → Forall (fun eps => P (eps_Endpoints eps) (eps_AddressType eps)) ws.
Proof.
  intros HF. assert (Forall (fun eps => eps_Endpoints eps ≠ []) (base.filter (fun eps => eps_Endpoints eps ≠ []) l)) as Hne.
  { apply Forall_forall. intros x. rewrite list_elem_of_filter. tauto. }
  assert (ips (base.filter (fun eps => eps_Endpoints eps ≠ []) l) = ips l) as Hips.
  { clear. induction l as [|eps l IH]; [done|]. rewrite filter_cons. case_decide as He; unfold ips in *; csimpl; rewrite IH; [done|].
    by rewrite He. }
  split_and!.
  - rewrite <-Hips. clear -HF. induction HF as [|x y l' ws [He _] _ IH]; [done|]. unfold ips in *. csimpl. by rewrite He, IH.
  - clear -HF Hne. induction HF as [|x y l' ws [He _] _ IH]; [done|]. apply Forall_cons in Hne as [? ?]. constructor; [by rewrite He|auto].
  - intros P HP. assert (Forall (fun eps => P (eps_Endpoints eps) (eps_AddressType eps)) (base.filter (fun eps => eps_Endpoints eps ≠ []) l)) as HP'.
    { apply Forall_forall. intros x [_ Hx]%list_elem_of_filter. rewrite Forall_forall in HP. auto. }
    clear -HF HP'. induction HF as [|x y l' ws [He Ha] _ IH]; [done|]. apply Forall_cons in HP' as [? ?]. constructor; [by rewrite He, Ha|auto].
Qed.

Context (fresh : nat → nat * nat) (Hlabel : default (kubeletObjectName c) (entries (labels c) !! LabelServiceName) = kubeletObjectName c).
Lemma made_named eps : made c eps → name eps = "" ∧ of_service c eps = true.
Proof.
  intros (addrs & svc & ipv4 & E). unfold name, of_service, meta. simpl. rewrite E. split; [done|]. apply bool_decide_eq_true. simpl.
  unfold Map.Merge. simpl. rewrite lookup_union, lookup_insert_eq. by destruct (entries (labels c) !! LabelServiceName); simpl in Hlabel; subst.
Qed.
Lemma syncEndpointSlice_ok svc addresses (s s' : St) :
  Forall (fun a => na_ipv4 a = family (na_ipAddress a)) addresses →
  Forall (slice_ok c) (slices_in (view (objs s) ∅)) →
  syncEndpointSlice c fresh svc addresses s = (s', Ok ()) →
  let l := slices_in (view (objs s') ∅) in
  NoDup (ips l) ∧ (∀ ip, ip ∈ ips l ↔ ip ∈ na_ipAddress <$> addresses) ∧ Forall (slice_of_nodes addresses) l ∧ Forall (slice_ok c) l ∧
  Forall (fun eps => eps_Endpoints eps ≠ []) l ∧ ∀ n o, of_service c o = false → objs s !! n = Some o → objs s' !! n = Some o.
Proof.
  intros Hfam Hok (s1 & epsl & E1%mwrap_ok & (s2 & l & [<- Hl]%mlift_ok & E)%mbind_ok)%mbind_ok.
  pose proof (naming_List _ _ _ _ E1) as Hlist. apply naming_List_objs in E1. rewrite <-slices_view in Hlist. rewrite <-Hlist in Hok.
  destruct (plan_ok c fresh svc addresses Hfam epsl l Hok Hl) as ((old & new & Happ & Hold & Hnew) & Hnd & Hin & Hnodes & Hcap).
  assert (Forall (fun o => of_service c o = true) epsl) as Hserv.
  { rewrite Hlist. apply Forall_forall. intros o. rewrite slices_view, list_elem_of_filter. tauto. }
  assert (pending l = name <$> epsl) as Hpend.
  { rewrite Happ. unfold pending. rewrite fmap_app, filter_app.
    assert (name <$> old = name <$> epsl) as ->.
    { unfold name. rewrite !(list_fmap_compose eps_meta om_Name). simpl. by rewrite Hold. }
    rewrite filter_all, filter_none; [by rewrite app_nil_r|..].
    - apply Forall_fmap, (Forall_impl _ _ _ Hnew). intros eps [Hn _]%made_named Hne. done.
    - rewrite Hlist, names_view. apply Forall_forall. intros n ([k o] & -> & Hk)%list_elem_of_fmap.
      apply elem_of_map_to_list, map_lookup_filter_Some in Hk as [Hk _]. by apply naming_objs in Hk as [_ ?]. }
  assert (pending l ≡ₚ (map_to_list (view (objs s) ∅)).*1) as Hkeys by by rewrite Hpend, Hlist, names_view.
  apply write_all in E as [(ws & Hws & HF) Hframe].
  - assert (view (objs s1) (list_to_set (pending l)) = ∅) as Hempty.
    { apply map_empty. intros k. apply map_lookup_filter_None. right. intros o Hk [Ho Hno]. apply Hno, elem_of_list_to_set. rewrite Hkeys.
      apply list_elem_of_fmap. exists (k, o). split; [done|]. apply elem_of_map_to_list, map_lookup_filter_Some. rewrite <-E1. split; [done|]. split; [done|set_solver]. }
    rewrite Hempty in Hws. unfold slices_in at 2 in Hws. rewrite map_to_list_empty, app_nil_r in Hws.
    destruct (written_same _ _ HF) as (Hips & Hne & HP). simpl.
    assert (ips (slices_in (view (objs s') ∅)) ≡ₚ ips l) as Hperm by (rewrite <-Hips; unfold ips; by rewrite Hws).
    split_and!; [by rewrite Hperm|intros ip; by rewrite Hperm|rewrite Hws..|].
    + exact (HP (fun l _ => Forall (endpoint_of addresses) l) Hnodes).
    + exact (HP (fun l t => (Z.of_nat (length l) <= Z.max 1 (maxEndpointsPerSlice c))%Z ∧
        Forall (fun ip => family ip = bool_decide (t = AddressTypeIPv4)) (ips_of l)) Hcap).
    + done.
    + intros n o Ho Hn. apply Hframe; [|by rewrite E1]. rewrite Hkeys. intros ([k x] & -> & Hk)%list_elem_of_fmap.
      apply elem_of_map_to_list, map_lookup_filter_Some in Hk as [Hk [Hx _]]. simpl in *. congruence.
  - rewrite Hkeys. apply NoDup_fst_map_to_list.
  - intros n. rewrite Hkeys. intros ([k x] & -> & Hk)%list_elem_of_fmap. apply elem_of_map_to_list, map_lookup_filter_Some in Hk as [Hk _]. rewrite E1. by exists x.
  - rewrite Happ. apply Forall_app. split.
    + assert (Forall (fun m => bool_decide (entries (om_Labels m) !! LabelServiceName = Some (kubeletObjectName c)) = true) (eps_meta <$> old)) as Hm.
      { rewrite Hold. by apply Forall_fmap. }
      by apply Forall_fmap in Hm.
    + apply (Forall_impl _ _ _ Hnew). by intros eps [_ ?]%made_named.
Qed.
End slices.
