(* ===== verification/WebConfig.v ===== *)
(** * The web configuration file

    pkg/webconfig: the file for the flag --web.config.file of Prometheus, Alertmanager and
    ThanosRuler, the Secret that holds it, and the volumes and mounts for it and for the
    certificates it names; with the types of pkg/apis/monitoring/v1/types.go. A document is a list
    of items as in [Yaml]; [yaml.Marshal] is an argument. *)

From S2P Require Import Prelude GoStrings SortUtil Meta ApiClient K8sUtil Yaml MonitoringV1 PromTypes PromCommon ResourceNamer.

(** ** API types *)

Record WebTLSConfig := {
  web_Cert : SecretOrConfigMap;
  web_CertFile : option string;
  web_KeySecret : SecretKeySelector;
  web_KeyFile : option string;
  web_ClientCA : SecretOrConfigMap;
  web_ClientCAFile : option string;
  web_ClientAuthType : option string;
  web_MinVersion : option string;
  web_MaxVersion : option string;
  web_CipherSuites : list string;
  web_PreferServerCipherSuites : option bool;
  web_CurvePreferences : list string;
}.
Record WebHTTPHeaders := {
  ContentSecurityPolicy : string;
  XFrameOptions : string;
  XContentTypeOptions : string;
  XXSSProtection : string;
  StrictTransportSecurity : string;
}.
Record WebHTTPConfig := { web_HTTP2 : option bool; web_Headers : option WebHTTPHeaders }.
Record WebConfigFileFields := { web_TLSConfig : option WebTLSConfig; web_HTTPConfig : option WebHTTPConfig }.

(** [ptr.Deref(p, "")] *)
Local Abbreviation text p := (default "" p).
Definition WebTLSConfig_Validate (c : option WebTLSConfig) : res () :=
  match c with
  | None => Ok ()
  | Some c =>
      _ ← (if bool_decide (web_ClientCA c ≠ zero_SecretOrConfigMap) then
             _ ← check (bool_decide (text (web_ClientCAFile c) ≠ "")) "cannot specify both clientCAFile and clientCA";
             wrap "invalid client CA: %w" [] (SecretOrConfigMap_Validate (web_ClientCA c))
           else Ok ());
      _ ← (if bool_decide (web_Cert c ≠ zero_SecretOrConfigMap) then
             _ ← check (bool_decide (text (web_CertFile c) ≠ "")) "cannot specify both cert and certFile";
             wrap "invalid TLS certificate: %w" [] (SecretOrConfigMap_Validate (web_Cert c))
           else Ok ());
      _ ← check (bool_decide (text (web_KeyFile c) ≠ "") && bool_decide (web_KeySecret c ≠ zero_selector)) "cannot specify both keyFile and keySecret";
      _ ← check (bool_decide (text (web_KeyFile c) = "") && bool_decide (web_KeySecret c = zero_selector)) "TLS private key must be defined";
      check (bool_decide (text (web_CertFile c) = "") && bool_decide (web_Cert c = zero_SecretOrConfigMap)) "TLS certificate must be defined"
  end.

(** ** Volumes *)

Inductive VolumeSource :=
  | SecretVolume (SecretName : string)
  | ConfigMapVolume (Name : string).
Record Volume := { vol_Name : string; vol_Source : VolumeSource }.
Record VolumeMount := { vm_Name : string; vm_SubPath : string; vm_ReadOnly : bool; vm_MountPath : string }.

(** ** tls_credentials.go *)

Definition volumePrefix := "web-config-tls-".
Record TLSReferences := {
  tr_mountPath : string;
  tr_keySecret : SecretKeySelector;
  tr_cert : SecretOrConfigMap;
  tr_clientCA : SecretOrConfigMap;
}.
Definition NewTLSReferences (mountPath : string) (keySecret : SecretKeySelector) (cert clientCA : SecretOrConfigMap) : TLSReferences :=
  {| tr_mountPath := mountPath; tr_keySecret := keySecret; tr_cert := cert; tr_clientCA := clientCA |}.
(** The second case dereferences a pointer; its callers have checked that one is set. *)
Definition tlsPathForSelector (tr : TLSReferences) (sel : SecretOrConfigMap) (mountType : string) : res string :=
  filename ← match SecretOrConfigMap_Secret sel, SecretOrConfigMap_ConfigMap sel with
             | Some s, _ => Ok (path_Join ["secret"; SecretKeySelector_Name s +:+ "-" +:+ mountType])
             | None, Some c => Ok (path_Join ["configmap"; ConfigMapKeySelector_Name c +:+ "-" +:+ mountType])
             | None, None => Panic "invalid memory address or nil pointer dereference"
             end;
  Ok (path_Join [tr_mountPath tr; filename]).
Definition selector_path (tr : TLSReferences) (sel : SecretOrConfigMap) (mountType : string) : res string :=
  if is_set (SecretOrConfigMap_ConfigMap sel) || is_set (SecretOrConfigMap_Secret sel) then tlsPathForSelector tr sel mountType else Ok "".
Definition selector_key (sel : SecretOrConfigMap) : string :=
  match SecretOrConfigMap_Secret sel, SecretOrConfigMap_ConfigMap sel with
  | Some s, _ => SecretKeySelector_Key s
  | None, Some c => ConfigMapKeySelector_Key c
  | None, None => ""
  end.
Definition GetKeyMountPath (tr : TLSReferences) : res string :=
  tlsPathForSelector tr {| SecretOrConfigMap_Secret := Some (tr_keySecret tr); SecretOrConfigMap_ConfigMap := None |} "key".
Definition GetKeyFilename (tr : TLSReferences) : string := SecretKeySelector_Key (tr_keySecret tr).
Definition GetCertMountPath (tr : TLSReferences) : res string := selector_path tr (tr_cert tr) "cert".
Definition GetCertFilename (tr : TLSReferences) : string := selector_key (tr_cert tr).
Definition GetCAMountPath (tr : TLSReferences) : res string := selector_path tr (tr_clientCA tr) "ca".
Definition GetCAFilename (tr : TLSReferences) : string := selector_key (tr_clientCA tr).

Section mounts.
Context `{DNS1123} (Sum64 : string → N).
Local Abbreviation params := (list Volume * list VolumeMount)%type.
Definition mountParams (p : params) (src : VolumeSource) (name prefix mountPath : string) : res params :=
  volumeName ← UniqueDNS1123Label Sum64 (NewResourceNamerWithPrefix prefix) name;
  Ok (p.1 ++ [{| vol_Name := volumeName; vol_Source := src |}],
      p.2 ++ [{| vm_Name := volumeName; vm_SubPath := ""; vm_ReadOnly := true; vm_MountPath := mountPath |}]).
Definition mountParamsForSecret (p : params) (secret : SecretKeySelector) (prefix mountPath : string) : res params :=
  mountParams p (SecretVolume (SecretKeySelector_Name secret)) (SecretKeySelector_Name secret) prefix mountPath.
Definition mountParamsForConfigmap (p : params) (configMap : ConfigMapKeySelector) (prefix mountPath : string) : res params :=
  mountParams p (ConfigMapVolume (ConfigMapKeySelector_Name configMap)) (ConfigMapKeySelector_Name configMap) prefix mountPath.
Definition mount_selector (p : params) (sel : SecretOrConfigMap) (volumePrefix what : string) (mountPath : res string) : res params :=
  match SecretOrConfigMap_Secret sel, SecretOrConfigMap_ConfigMap sel with
  | Some s, _ => path ← mountPath; mountParamsForSecret p s (volumePrefix +:+ "secret-" +:+ what) path
  | None, Some c => path ← mountPath; mountParamsForConfigmap p c (volumePrefix +:+ "configmap-" +:+ what) path
  | None, None => Ok p
  end.
Definition TLSReferences_GetMountParameters (tr : TLSReferences) (volumePrefix : string) : res params :=
  keyPath ← GetKeyMountPath tr;
  p ← mountParamsForSecret ([], []) (tr_keySecret tr) (volumePrefix +:+ "secret-key-") keyPath;
  p ← mount_selector p (tr_cert tr) volumePrefix "cert-" (GetCertMountPath tr);
  mount_selector p (tr_clientCA tr) volumePrefix "client-ca-" (GetCAMountPath tr).

(** ** config.go *)

Definition volumeName := "web-config".
Definition configFile := "web-config.yaml".
Record Config := {
  tlsConfig : option WebTLSConfig;
  httpConfig : option WebHTTPConfig;
  mountingDir : string;
  secretName : string;
}.
Definition New (mountingDir secretName : string) (configFileFields : WebConfigFileFields) : res Config :=
  let tls := web_TLSConfig configFileFields in
  _ ← WebTLSConfig_Validate tls;
  Ok {| tlsConfig := tls; httpConfig := web_HTTPConfig configFileFields; mountingDir := mountingDir; secretName := secretName |}.
Definition makeArg (filePath : string) : Argument := {| Argument_Name := "web.config.file"; Argument_Value := filePath |}.
Definition makeVolume (c : Config) : Volume := {| vol_Name := volumeName; vol_Source := SecretVolume (secretName c) |}.
Definition makeVolumeMount (filePath : string) : VolumeMount :=
  {| vm_Name := volumeName; vm_SubPath := configFile; vm_ReadOnly := true; vm_MountPath := filePath |}.
Definition references (c : Config) (tls : WebTLSConfig) : TLSReferences :=
  NewTLSReferences (mountingDir c) (web_KeySecret tls) (web_Cert tls) (web_ClientCA tls).
Definition GetMountParameters (c : Config) : res (Argument * params) :=
  let destinationPath := path_Join [mountingDir c; configFile] in
  let arg := makeArg destinationPath in
  let volumes := [makeVolume c] in
  let mounts := [makeVolumeMount destinationPath] in
  match tlsConfig c with
  | Some tls =>
      p ← TLSReferences_GetMountParameters (references c tls) volumePrefix;
      Ok (arg, (volumes ++ p.1, mounts ++ p.2))
  | None => Ok (arg, (volumes, mounts))
  end.
End mounts.

(** ** The file *)

Definition file_item (key : string) (file : option string) (mountPath : res string) (filename : string) : res MapSlice :=
  if bool_decide (text file ≠ "") then Ok [(key, YStr (text file))]
  else path ← mountPath; Ok (if bool_decide (path ≠ "") then [(key, YStr (path_Join [path; filename]))] else []).
Definition text_item (key value : string) : MapSlice := if bool_decide (value ≠ "") then [(key, YStr value)] else [].
Definition lower_item (key value : string) : MapSlice := if bool_decide (value ≠ "") then [(key, YStr (ToLower value))] else [].
Definition texts_item (key : string) (l : list string) : MapSlice := if bool_decide (l ≠ []) then [(key, YStrs l)] else [].
Definition bool_item (key : string) (b : option bool) : MapSlice := match b with Some b => [(key, YBool b)] | None => [] end.
Definition tlsServerConfig (c : Config) (tls : WebTLSConfig) : res MapSlice :=
  let tlsRefs := references c tls in
  cert ← file_item "cert_file" (web_CertFile tls) (GetCertMountPath tlsRefs) (GetCertFilename tlsRefs);
  key ← file_item "key_file" (web_KeyFile tls) (GetKeyMountPath tlsRefs) (GetKeyFilename tlsRefs);
  ca ← file_item "client_ca_file" (web_ClientCAFile tls) (GetCAMountPath tlsRefs) (GetCAFilename tlsRefs);
  Ok (concat [cert; key; text_item "client_auth_type" (text (web_ClientAuthType tls)); ca;
              text_item "min_version" (text (web_MinVersion tls)); text_item "max_version" (text (web_MaxVersion tls));
              texts_item "cipher_suites" (web_CipherSuites tls); bool_item "prefer_server_cipher_suites" (web_PreferServerCipherSuites tls);
              texts_item "curve_preferences" (web_CurvePreferences tls)]).
Definition addTLSServerConfigToYaml (c : Config) (cfg : MapSlice) : res MapSlice :=
  match tlsConfig c with
  | None => Ok cfg
  | Some tls => m ← tlsServerConfig c tls; Ok (cfg ++ [("tls_server_config", YMap m)])
  end.
Definition headersConfig (headers : WebHTTPHeaders) : MapSlice :=
  concat [text_item "Content-Security-Policy" (ContentSecurityPolicy headers);
          text_item "Strict-Transport-Security" (StrictTransportSecurity headers);
          lower_item "X-Content-Type-Options" (XContentTypeOptions headers);
          lower_item "X-Frame-Options" (XFrameOptions headers);
          text_item "X-XSS-Protection" (XXSSProtection headers)].
Definition addHTTPServerConfigToYaml (c : Config) (cfg : MapSlice) : MapSlice :=
  match httpConfig c with
  | None => cfg
  | Some http =>
      let headers := match web_Headers http with None => [] | Some headers => [("headers", YMap (headersConfig headers))] end in
      cfg ++ [("http_server_config", YMap (bool_item "http2" (web_HTTP2 http) ++ headers))]
  end.
Definition document (c : Config) : res MapSlice :=
  cfg ← addTLSServerConfigToYaml c [];
  Ok (addHTTPServerConfigToYaml c cfg).

Section file.
Context (yaml_Marshal : yaml → res string).
Definition generateConfigFileContents (c : Config) : res string :=
  match tlsConfig c, httpConfig c with
  | None, None => Ok ""
  | _, _ => cfg ← document c; yaml_Marshal (YMap cfg)
  end.
Context {St : Type} `{ApiClient Secret St, !Retry, !SemanticEquality Secret}.
Definition CreateOrUpdateWebConfigSecret (c : Config) (s : Secret) : M St () :=
  data ← mlift (generateConfigFileContents c);
  CreateOrUpdateSecret {| sec_meta := SetName (secretName c) (sec_meta s); sec_Type := sec_Type s; sec_Data := {[configFile := data]} |}.
End file.

(** ** The format of the file *)

(** The format that the web package of the exporter toolkit documents. *)
Definition tls_fields : fields :=
  [fld "cert_file" SStr; fld "key_file" SStr; fld "client_auth_type" SStr; fld "client_ca_file" SStr; fld "min_version" SStr;
   fld "max_version" SStr; fld "cipher_suites" (SSeq SStr); fld "prefer_server_cipher_suites" SBool; fld "curve_preferences" (SSeq SStr)].
Definition header_fields : fields :=
  [fld "Content-Security-Policy" SStr; fld "Strict-Transport-Security" SStr; fld "X-Content-Type-Options" SStr;
   fld "X-Frame-Options" SStr; fld "X-XSS-Protection" SStr].
Definition http_fields : fields := [fld "http2" SBool; fld "headers" (SObj header_fields)].
Definition web_fields : fields := [fld "tls_server_config" (SObj tls_fields); fld "http_server_config" (SObj http_fields)].
Definition any_version (a : avail) : bool := bool_decide (a = Always).
Local Abbreviation allowed := (Yaml.allowed any_version).
Local Abbreviation conforms := (Yaml.conforms any_version).

Lemma allowed_one k s v : conforms s v → allowed [fld k s] [(k, v)].
Proof. intros Hv. split; [apply NoDup_singleton|]. constructor; [|constructor]. exists Always, s. set_solver. Qed.
Lemma allowed_concat fs ms : Forall2 (fun f m => allowed [f] m) fs ms → NoDup (names fs) → allowed fs (concat ms).
Proof.
  induction 1 as [|f m fs ms Hm _ IH]; simpl; [intros; apply allowed_nil|]. intros [Hf Hnd]%NoDup_cons.
  apply (allowed_app _ [f]); [done|by apply IH|]. intros k. unfold names. simpl. intros ->%list_elem_of_singleton. done.
Qed.
Lemma allowed_text k v : allowed [fld k SStr] (text_item k v).
Proof. unfold text_item. case_bool_decide; [|apply allowed_nil]. apply allowed_one. constructor. Qed.
Lemma allowed_lower k v : allowed [fld k SStr] (lower_item k v).
Proof. unfold lower_item. case_bool_decide; [|apply allowed_nil]. apply allowed_one. constructor. Qed.
Lemma allowed_texts k l : allowed [fld k (SSeq SStr)] (texts_item k l).
Proof. unfold texts_item. case_bool_decide; [|apply allowed_nil]. apply allowed_one, conforms_strs. Qed.
Lemma allowed_bool k b : allowed [fld k SBool] (bool_item k b).
Proof. destruct b; [|apply allowed_nil]. apply allowed_one. constructor. Qed.
Lemma allowed_file k file path filename m : file_item k file path filename = Ok m → allowed [fld k SStr] m.
Proof.
  unfold file_item. case_bool_decide; [intros [= <-]; apply allowed_one; constructor|].
  intros (p & _ & [= <-])%bind_ok_ex. case_bool_decide; [|apply allowed_nil]. apply allowed_one. constructor.
Qed.
Create HintDb web.
#[local] Hint Resolve allowed_text allowed_lower allowed_texts allowed_bool allowed_file : web.
Ltac each_field := repeat (apply List.Forall2_cons; [eauto with web|]); apply List.Forall2_nil.
Lemma conforms_allowed fs m : allowed fs m → conforms (SObj fs) (YMap m).
Proof. intros [? ?]. by constructor. Qed.
Lemma item_key k s m k' y : allowed [fld k s] m → (k', y) ∈ m → k' = k.
Proof. intros Hm Hy%(list_elem_of_fmap_2 fst). by apply (allowed_names _ _ _ _ Hm), list_elem_of_singleton in Hy. Qed.
Lemma Ok_inj {A} (x y : A) : Ok x = Ok y → x = y.
Proof. congruence. Qed.
Lemma tlsServerConfig_conforms c tls m : tlsServerConfig c tls = Ok m → conforms (SObj tls_fields) (YMap m).
Proof.
  unfold tlsServerConfig. intros (cert & Hc & (key & Hk & (ca & Ha & E)%bind_ok_ex)%bind_ok_ex)%bind_ok_ex.
  apply Ok_inj in E as <-. apply conforms_allowed, allowed_concat; [|table]. unfold tls_fields. each_field.
Qed.
Lemma headersConfig_conforms h : conforms (SObj header_fields) (YMap (headersConfig h)).
Proof. apply conforms_allowed, allowed_concat; [|table]. each_field. Qed.
Lemma document_conforms c doc : document c = Ok doc → conforms (SObj web_fields) (YMap doc).
Proof.
  intros (cfg & Hcfg & [= <-])%bind_ok_ex.
  assert (∃ m1 m2, addHTTPServerConfigToYaml c cfg = concat [m1; m2] ∧ allowed [fld "tls_server_config" (SObj tls_fields)] m1 ∧
    allowed [fld "http_server_config" (SObj http_fields)] m2) as (m1 & m2 & -> & H1 & H2).
  { exists cfg. unfold addHTTPServerConfigToYaml. assert (allowed [fld "tls_server_config" (SObj tls_fields)] cfg) as Hm1.
    { unfold addTLSServerConfigToYaml in Hcfg. destruct (tlsConfig c); [|injection Hcfg as <-; apply allowed_nil].
      apply bind_ok_ex in Hcfg as (m & Hm%tlsServerConfig_conforms & [= <-]). by apply allowed_one. }
    destruct (httpConfig c) as [http|]; [|exists []; simpl; rewrite app_nil_r; eauto using allowed_nil].
    eexists [_]. split; [simpl; reflexivity|]. split; [done|]. apply allowed_one, conforms_allowed.
    apply (allowed_app _ [_] [_]); [apply allowed_bool| |by vm_compute; set_solver].
    destruct (web_Headers http); [|apply allowed_nil]. apply allowed_one, headersConfig_conforms. }
  apply conforms_allowed, allowed_concat; [|table]. each_field.
Qed.

(** ** Mounts *)

Definition extends (n r : string) : Prop := ∃ t, n = r +:+ t.
Fixpoint separate (l : list string) : bool :=
  match l with [] => true | a :: l => forallb (fun b => negb (HasPrefix a b) && negb (HasPrefix b a)) l && separate l end.
Lemma extends_distinct ns rs : Forall2 extends ns rs → separate rs = true → NoDup ns.
Proof.
  induction 1 as [|n r ns rs [t ->] HF IH]; simpl; [constructor|]. rewrite andb_true_iff. intros [Hr Hs]. constructor; [|auto].
  intros Hin. clear IH Hs. induction HF as [|n' r' ns rs [t' ->] _ IH]; [by apply elem_of_nil in Hin|]. simpl in Hr.
  apply andb_true_iff in Hr as [[Hr1 Hr2]%andb_true_iff Hr]. apply elem_of_cons in Hin as [E|?]; [|auto].
  apply prefixes_comparable in E as [E|E]; apply HasPrefix_spec in E; [by rewrite E in Hr2|by rewrite E in Hr1].
Qed.
Definition source_of (sel : SecretOrConfigMap) : option VolumeSource :=
  match SecretOrConfigMap_Secret sel, SecretOrConfigMap_ConfigMap sel with
  | Some s, _ => Some (SecretVolume (SecretKeySelector_Name s))
  | None, Some c => Some (ConfigMapVolume (ConfigMapKeySelector_Name c))
  | None, None => None
  end.
Definition of_secret (s : SecretKeySelector) : SecretOrConfigMap := {| SecretOrConfigMap_Secret := Some s; SecretOrConfigMap_ConfigMap := None |}.
Definition volume (n : string) (src : VolumeSource) : Volume := {| vol_Name := n; vol_Source := src |}.
Definition mount (n path : string) : VolumeMount := {| vm_Name := n; vm_SubPath := ""; vm_ReadOnly := true; vm_MountPath := path |}.

Section mounting.
Context `{DNS1123} (Sum64 : string → N).
Lemma mountParams_ok q p src name path p' : let r := TrimRight q "-" in valid_label r = true → String.length r <= 54 →
  mountParams Sum64 p src name q path = Ok p' →
  ∃ n, extends n r ∧ p' = (p.1 ++ [volume n src], p.2 ++ [mount n path]).
Proof. intros r Hr Hl (n & Hn & [= <-])%bind_ok_ex. exists n. split; [|done]. by eapply unique_label_prefix. Qed.

(** The volume of a reference, if there is one, and the prefix of its name. *)
Definition added (sel : SecretOrConfigMap) (path : res string) (rs : list string) (p p' : list Volume * list VolumeMount) : Prop :=
  match source_of sel with
  | None => rs = [] ∧ p' = p
  | Some src => ∃ n r path', rs = [r] ∧ extends n r ∧ path = Ok path' ∧ p' = (p.1 ++ [volume n src], p.2 ++ [mount n path'])
  end.
Lemma mount_selector_ok p sel what path p' : what = "cert-" ∨ what = "client-ca-" →
  mount_selector Sum64 p sel volumePrefix what path = Ok p' →
  ∃ rs, (rs = [] ∨ rs = [TrimRight (volumePrefix +:+ "secret-" +:+ what) "-"] ∨ rs = [TrimRight (volumePrefix +:+ "configmap-" +:+ what) "-"]) ∧
    added sel path rs p p'.
Proof.
  intros Hw. unfold mount_selector, added, source_of.
  destruct (SecretOrConfigMap_Secret sel) as [s|], (SecretOrConfigMap_ConfigMap sel) as [c|].
  1,2: intros (path' & -> & (n & Hn & ->)%mountParams_ok)%bind_ok_ex; [eexists [_]; split; [right; left; reflexivity|eauto 10]|by destruct Hw as [-> | ->]|].
  1,2: destruct Hw as [-> | ->]; vm_compute; lia.
  - intros (path' & -> & (n & Hn & ->)%mountParams_ok)%bind_ok_ex; [eexists [_]; split; [right; right; reflexivity|eauto 10]|by destruct Hw as [-> | ->]|].
    destruct Hw as [-> | ->]; vm_compute; lia.
  - intros [= <-]. exists []. auto.
Qed.
Lemma references_mounted tr p : TLSReferences_GetMountParameters Sum64 tr volumePrefix = Ok p →
  ∃ p1 p2 r1 rs2 rs3, added (of_secret (tr_keySecret tr)) (GetKeyMountPath tr) [r1] ([], []) p1 ∧
    added (tr_cert tr) (GetCertMountPath tr) rs2 p1 p2 ∧ added (tr_clientCA tr) (GetCAMountPath tr) rs3 p2 p ∧
    HasPrefix r1 "web-config-tls" = true ∧ separate (r1 :: rs2 ++ rs3) = true ∧ Forall (fun r => HasPrefix r "web-config-tls" = true) (rs2 ++ rs3).
Proof.
  intros (path & Hpath & (p1 & Hp1 & (p2 & Hp2 & Hp)%bind_ok_ex)%bind_ok_ex)%bind_ok_ex.
  apply mountParams_ok in Hp1 as (n & Hn & ->); [|done|vm_compute; lia].
  apply mount_selector_ok in Hp2 as (rs2 & Hrs2 & Ha2); [|auto]. apply mount_selector_ok in Hp as (rs3 & Hrs3 & Ha3); [|auto].
  eexists _, p2, (TrimRight (volumePrefix +:+ "secret-key-") "-"), rs2, rs3. split_and!; [|exact Ha2|exact Ha3|reflexivity|..].
  - unfold added. simpl. eauto 10.
  - destruct Hrs2 as [-> |[-> | ->]], Hrs3 as [-> |[-> | ->]]; reflexivity.
  - destruct Hrs2 as [-> |[-> | ->]], Hrs3 as [-> |[-> | ->]]; repeat constructor.
Qed.
End mounting.

(** ** Files *)

Lemma path_Clean_nonempty p : path_Clean p ≠ "".
Proof. unfold path_Clean. destruct (HasPrefix p "/"); [done|]. by case_bool_decide. Qed.
Lemma path_Join_nonempty a b : b ≠ "" → path_Join [a; b] ≠ "".
Proof.
  intros Hb. unfold path_Join. rewrite !filter_cons, (decide_True (P:=b ≠ "")) by done. case_decide; apply path_Clean_nonempty.
Qed.
Lemma tlsPath_ok tr sel ty path : tlsPathForSelector tr sel ty = Ok path → path ≠ "".
Proof.
  intros (f & Hf & [= <-])%bind_ok_ex. apply path_Join_nonempty.
  assert (∀ a b, path_Join [a; b +:+ "-" +:+ ty] ≠ "") as Hne by (intros a b; apply path_Join_nonempty; by destruct b).
  destruct (SecretOrConfigMap_Secret sel), (SecretOrConfigMap_ConfigMap sel); try done; injection Hf as <-; apply Hne.
Qed.

Section files.
Context (volumes : list Volume) (mounts : list VolumeMount).
(** The file of a reference, in a volume with its Secret or ConfigMap. *)
Definition mounted (sel : SecretOrConfigMap) (file : string) : Prop :=
  ∃ src n path, source_of sel = Some src ∧ volume n src ∈ volumes ∧ mount n path ∈ mounts ∧ file = path_Join [path; selector_key sel].
Definition served (file : option string) (sel : SecretOrConfigMap) (f : string) : Prop := (file = Some f ∧ f ≠ "") ∨ mounted sel f.
Definition mounted_at (sel : SecretOrConfigMap) (path : res string) : Prop :=
  ∀ src, source_of sel = Some src → ∃ n path', path = Ok path' ∧ volume n src ∈ volumes ∧ mount n path' ∈ mounts.

Lemma file_served k file sel path m : file_item k file path (selector_key sel) = Ok m → mounted_at sel path →
  (source_of sel = None → path = Ok "") → (∀ p, source_of sel ≠ None → path = Ok p → p ≠ "") →
  (m = [] ∧ text file = "" ∧ source_of sel = None) ∨ ∃ f, m = [(k, YStr f)] ∧ served file sel f.
Proof.
  unfold file_item. intros E Hm Hnone Hne. case_bool_decide as Hf.
  - injection E as <-. right. exists (text file). split; [done|]. left. destruct file; [done|by destruct Hf].
  - apply bind_ok_ex in E as (p & Hp & [= <-]). destruct (source_of sel) as [src|] eqn:Es.
    + specialize (Hne p ltac:(done) Hp). rewrite bool_decide_eq_true_2 by done. right. eexists. split; [done|]. right.
      destruct (Hm _ Es) as (n & path' & Hp' & Hv & Hmt). assert (p = path') as <- by congruence. exists src, n, p. done.
    + rewrite Hnone in Hp by done. injection Hp as <-. left. done.
Qed.
End files.

Section web.
Context `{DNS1123} (Sum64 : string → N).

Lemma mounted_names sel path rs p p' : added sel path rs p p' → vol_Name <$> p.1 = vm_Name <$> p.2 →
  vol_Name <$> p'.1 = vm_Name <$> p'.2 ∧ p.1 ⊆ p'.1 ∧ p.2 ⊆ p'.2 ∧
  ∃ ns, vol_Name <$> p'.1 = (vol_Name <$> p.1) ++ ns ∧ Forall2 extends ns rs.
Proof.
  unfold added. intros Ha Hn. destruct (source_of sel); [|destruct Ha as [-> ->]; split_and!; [done..|exists []; rewrite app_nil_r; by split]].
  destruct Ha as (n & r & path' & -> & Hr & _ & ->). simpl. rewrite !fmap_app, Hn. split_and!; [done|set_solver..|].
  exists [n]. split; [done|]. by repeat constructor.
Qed.
Lemma added_mounted sel path rs p p' volumes mounts : added sel path rs p p' → p'.1 ⊆ volumes → p'.2 ⊆ mounts → mounted_at volumes mounts sel path.
Proof.
  unfold added. intros Ha Hv Hm src Hs. rewrite Hs in Ha. destruct Ha as (n & r & path' & _ & _ & -> & ->). simpl in *.
  exists n, path'. split_and!; [done|set_solver..].
Qed.
Definition key_reference (tls : WebTLSConfig) : SecretOrConfigMap := of_secret (web_KeySecret tls).
Lemma mounts_ok c arg volumes mounts : GetMountParameters Sum64 c = Ok (arg, (volumes, mounts)) →
  arg = makeArg (path_Join [mountingDir c; configFile]) ∧ makeVolume c ∈ volumes ∧ makeVolumeMount (Argument_Value arg) ∈ mounts ∧
  vol_Name <$> volumes = vm_Name <$> mounts ∧ NoDup (vol_Name <$> volumes) ∧
  ∀ tls, tlsConfig c = Some tls → let tr := references c tls in
    mounted_at volumes mounts (key_reference tls) (GetKeyMountPath tr) ∧
    mounted_at volumes mounts (web_Cert tls) (GetCertMountPath tr) ∧ mounted_at volumes mounts (web_ClientCA tls) (GetCAMountPath tr).
Proof.
  unfold GetMountParameters. destruct (tlsConfig c) as [tls|].
  2:{ intros [= <- <- <-]. split_and!; [done|set_solver..| |done]. apply NoDup_singleton. }
  intros (p & (p1 & p2 & r1 & rs2 & rs3 & H1 & H2 & H3 & Hr1 & Hsep & Hrs)%references_mounted & [= <- <- <-])%bind_ok_ex.
  destruct (mounted_names _ _ _ _ _ H1) as (E1 & S1 & S1' & ns1 & En1 & HF1); [done|]. destruct (mounted_names _ _ _ _ _ H2 E1) as (E2 & S2 & S2' & ns2 & En2 & HF2).
  destruct (mounted_names _ _ _ _ _ H3 E2) as (E3 & S3 & S3' & ns3 & En3 & HF3). rewrite En2, En1 in En3. simpl in En3.
  assert (Forall2 extends (vol_Name <$> p.1) ([r1] ++ rs2 ++ rs3)) as HF by (rewrite En3, <-app_assoc; by repeat apply Forall2_app).
  split_and!; [done|set_solver..| | |].
  - by rewrite !fmap_cons, E3.
  - rewrite fmap_cons. constructor; [|by eapply extends_distinct]. intros Hin.
    apply list_elem_of_lookup in Hin as [i Hi]. destruct (Forall2_lookup_l _ _ _ _ _ HF Hi) as (r & Hr%list_elem_of_lookup_2 & [t Et]).
    assert (HasPrefix r "web-config-tls" = true) as [u ->]%HasPrefix_spec by (rewrite Forall_forall in Hrs; set_solver). done.
  - intros tls' [= <-]. simpl. split_and!; eapply added_mounted; eauto; set_solver.
Qed.
End web.

(** What a valid configuration names. *)
Lemma valid_tls tls : WebTLSConfig_Validate (Some tls) = Ok () →
  (text (web_CertFile tls) = "" → source_of (web_Cert tls) ≠ None) ∧ (text (web_KeyFile tls) = "" → web_KeySecret tls ≠ zero_selector).
Proof.
  simpl. intros ([] & _ & ([] & _ & ([] & _ & ([] & Hk%check_ok & Hc%check_ok)%bind_ok_ex)%bind_ok_ex)%bind_ok_ex)%bind_ok_ex.
  rewrite andb_false_iff, !bool_decide_eq_false in Hk, Hc. split; [|naive_solver]. intros Hf Hs. destruct Hc as [?|Hc]; [done|]. apply Hc.
  destruct (web_Cert tls) as [[?|] [?|]]; done.
Qed.
Lemma selector_path_none tr sel ty : source_of sel = None → selector_path tr sel ty = Ok "".
Proof. unfold source_of, selector_path. destruct sel as [[?|] [?|]]; simpl; done. Qed.
Lemma selector_path_some tr sel ty path : source_of sel ≠ None → selector_path tr sel ty = Ok path → path ≠ "".
Proof. unfold source_of, selector_path. destruct sel as [[?|] [?|]]; simpl; try done; intros _; apply tlsPath_ok. Qed.

(** The files that the TLS section names are on the disk of the container. *)
Definition names_files (volumes : list Volume) (mounts : list VolumeMount) (tls : WebTLSConfig) (m : MapSlice) : Prop :=
  (∃ f, ("cert_file", YStr f) ∈ m ∧ served volumes mounts (web_CertFile tls) (web_Cert tls) f) ∧
  (∃ f, ("key_file", YStr f) ∈ m ∧ served volumes mounts (web_KeyFile tls) (key_reference tls) f) ∧
  ∀ y, ("client_ca_file", y) ∈ m → ∃ f, y = YStr f ∧ served volumes mounts (web_ClientCAFile tls) (web_ClientCA tls) f.
Lemma tls_section_files c tls volumes mounts m : WebTLSConfig_Validate (Some tls) = Ok () → tlsServerConfig c tls = Ok m →
  let tr := references c tls in
  mounted_at volumes mounts (key_reference tls) (GetKeyMountPath tr) →
  mounted_at volumes mounts (web_Cert tls) (GetCertMountPath tr) → mounted_at volumes mounts (web_ClientCA tls) (GetCAMountPath tr) →
  names_files volumes mounts tls m.
Proof.
  intros [Hvc Hvk]%valid_tls. unfold tlsServerConfig.
  intros (cert & Hc & (key & Hk & (ca & Ha & <-%Ok_inj)%bind_ok_ex)%bind_ok_ex)%bind_ok_ex Mk Mc Ma.
  pose proof (file_served _ _ _ _ (web_Cert tls) _ _ Hc Mc (selector_path_none _ _ _) (selector_path_some _ _ _)) as Sc.
  pose proof (file_served _ _ _ _ (key_reference tls) _ _ Hk Mk ltac:(done) (fun p _ => tlsPath_ok _ _ _ p)) as Sk.
  pose proof (file_served _ _ _ _ (web_ClientCA tls) _ _ Ha Ma (selector_path_none _ _ _) (selector_path_some _ _ _)) as Sa.
  destruct Sc as [(_ & Hf & Hs)|(fc & -> & Sc)]; [by destruct (Hvc Hf)|]. destruct Sk as [(_ & _ & ?)|(fk & -> & Sk)]; [done|].
  split_and!; [exists fc|exists fk|]; [split; [simpl; set_solver|done]..|].
  intros y (l & Hl & Hy)%elem_of_concat. repeat (apply elem_of_cons in Hl as [-> |Hl]); try (by eapply item_key in Hy; [|eauto with web]).
  - destruct Sa as [(-> & _)|(fa & -> & Sa)]; [by apply elem_of_nil in Hy|]. apply list_elem_of_singleton in Hy as [= ->]. eauto.
  - by apply elem_of_nil in Hl.
Qed.

Section written.
Context `{DNS1123} (Sum64 : string → N) (yaml_Marshal : yaml → res string).
Context {St : Type} `{ApiClient Secret St, !ApiLaws Secret St, !Retry, !SemanticEquality Secret}.

Lemma written_secret (c : Config) s (st st' : St) : CreateOrUpdateWebConfigSecret yaml_Marshal c s st = (st', Ok ()) →
  ∃ data o, generateConfigFileContents yaml_Marshal c = Ok data ∧ sec_Data o = {[configFile := data]} ∧ objs st' = <[secretName c := o]> (objs st).
Proof.
  intros (s1 & data & [<- Hd]%mlift_ok & (o & Ho & ->)%CreateOrUpdateSecret_ok)%mbind_ok. rewrite name_reconciled. exists data, o.
  split_and!; [done| |done]. apply content_sec_Data in Ho. rewrite Ho. by destruct (objs _ !! _).
Qed.
Lemma document_tls c doc tls : document c = Ok doc → tlsConfig c = Some tls → ∃ m, tlsServerConfig c tls = Ok m ∧ ("tls_server_config", YMap m) ∈ doc.
Proof.
  intros (cfg & Hcfg & [= <-])%bind_ok_ex Ht. unfold addTLSServerConfigToYaml in Hcfg. rewrite Ht in Hcfg.
  apply bind_ok_ex in Hcfg as (m & Hm & [= <-]). exists m. split; [done|]. unfold addHTTPServerConfigToYaml. destruct (httpConfig c); set_solver.
Qed.

(** C16: For web settings that are accepted, the Secret that is written holds either nothing, when there are
    no settings, or a file in the format of the exporter toolkit, and the container finds it where
    the flag points. With TLS the file names a certificate and a key; each file it names is the
    one that the user gave, or lies in a mounted volume with the Secret or ConfigMap that the user
    refers to, under its key. Volumes have different names, which are those of the mounts. *)
Theorem web_config_mounted (dir secret : string) (settings : WebConfigFileFields) (c : Config) (s : Secret) (st st' : St) arg volumes mounts :
  New dir secret settings = Ok c →
  GetMountParameters Sum64 c = Ok (arg, (volumes, mounts)) →
  CreateOrUpdateWebConfigSecret yaml_Marshal c s st = (st', Ok ()) →
  (∃ data o, objs st' = <[secret := o]> (objs st) ∧ sec_Data o = {[configFile := data]} ∧
    match web_TLSConfig settings, web_HTTPConfig settings with
    | None, None => data = ""
    | tls, _ => ∃ doc, yaml_Marshal (YMap doc) = Ok data ∧ Yaml.conforms any_version (SObj web_fields) (YMap doc) ∧
        ∀ tls', tls = Some tls' → ∃ m, ("tls_server_config", YMap m) ∈ doc ∧ names_files volumes mounts tls' m
    end) ∧
  arg = makeArg (path_Join [dir; configFile]) ∧ volume volumeName (SecretVolume secret) ∈ volumes ∧
  makeVolumeMount (Argument_Value arg) ∈ mounts ∧ vol_Name <$> volumes = vm_Name <$> mounts ∧ NoDup (vol_Name <$> volumes).
Proof.
  intros ([] & Hv & [= <-])%bind_ok_ex (Harg & Hvol & Hmnt & Hn & Hnd & Hat)%mounts_ok (data & o & Hd & Ho & Hst)%written_secret. simpl in *.
  split; [|by split_and!]. exists data, o. split; [done|]. split; [done|].
  assert (∀ c, web_TLSConfig settings = tlsConfig c → mountingDir c = dir → document c ≫= (fun cfg => yaml_Marshal (YMap cfg)) = Ok data →
    ∃ doc, yaml_Marshal (YMap doc) = Ok data ∧ Yaml.conforms any_version (SObj web_fields) (YMap doc) ∧
      ∀ tls', web_TLSConfig settings = Some tls' → ∃ m, ("tls_server_config", YMap m) ∈ doc ∧ names_files volumes mounts tls' m) as Hdoc.
  { intros c Ht Hdir (doc & Hdoc & Hm)%bind_ok_ex. exists doc. split; [done|]. split; [by eapply document_conforms|]. intros tls E.
    destruct (document_tls _ _ tls Hdoc) as (m & Hms & Hin); [congruence|]. exists m. split; [done|]. destruct (Hat _ E) as (Hk & Hc & Ha).
    assert (WebTLSConfig_Validate (Some tls) = Ok ()) as Hvt by (rewrite E in Hv; exact Hv).
    apply (tls_section_files c tls volumes mounts m Hvt Hms); unfold references in *; rewrite Hdir; done. }
  unfold generateConfigFileContents in Hd. simpl in Hd.
  destruct (web_TLSConfig settings) as [tls|].
  - by apply (Hdoc {| tlsConfig := Some tls; httpConfig := web_HTTPConfig settings; mountingDir := dir; secretName := secret |}).
  - destruct (web_HTTPConfig settings) as [http|]; [|congruence].
    by apply (Hdoc {| tlsConfig := None; httpConfig := Some http; mountingDir := dir; secretName := secret |}).
Qed.
End written.

(** With a key file there is no Secret for the key, but a volume of a Secret without a name is
    mounted all the same, which the API server refuses. *)
Theorem key_file_mounts_nameless_secret `{DNS1123} (Sum64 : string → N) dir secret settings tls c arg volumes mounts :
  New dir secret settings = Ok c → web_TLSConfig settings = Some tls → default "" (web_KeyFile tls) ≠ "" →
  GetMountParameters Sum64 c = Ok (arg, (volumes, mounts)) → ∃ n, volume n (SecretVolume "") ∈ volumes.
Proof.
  intros ([] & Hv & [= <-])%bind_ok_ex Ht Hf (_ & _ & _ & _ & _ & Hat)%mounts_ok. simpl in *. rewrite Ht in Hv. destruct (Hat _ Ht) as (Hk & _).
  destruct (Hk (SecretVolume (SecretKeySelector_Name (web_KeySecret tls)))) as (n & path & _ & Hn & _); [done|]. exists n.
  simpl in Hv. apply bind_ok_ex in Hv as ([] & _ & ([] & _ & ([] & Hz%check_ok & _)%bind_ok_ex)%bind_ok_ex).
  rewrite bool_decide_eq_true_2 in Hz by done. simpl in Hz. apply bool_decide_eq_false, dec_stable in Hz. by rewrite Hz in Hn.
Qed.

(** ** An example *)

Definition example_settings : WebConfigFileFields := {|
  web_TLSConfig := Some {|
    web_Cert := {| SecretOrConfigMap_Secret := None;
                   SecretOrConfigMap_ConfigMap := Some {| ConfigMapKeySelector_Name := "web-cert"; ConfigMapKeySelector_Key := "tls.crt"; ConfigMapKeySelector_Optional := None |} |};
    web_CertFile := None;
    web_KeySecret := {| SecretKeySelector_Name := "web-key"; SecretKeySelector_Key := "tls.key"; SecretKeySelector_Optional := None |};
    web_KeyFile := None; web_ClientCA := zero_SecretOrConfigMap; web_ClientCAFile := Some "/etc/ca.crt"; web_ClientAuthType := Some "RequireAndVerifyClientCert";
    web_MinVersion := Some "TLS12"; web_MaxVersion := None; web_CipherSuites := ["TLS_AES_128_GCM_SHA256"]; web_PreferServerCipherSuites := Some true;
    web_CurvePreferences := [] |};
  web_HTTPConfig := Some {| web_HTTP2 := Some true; web_Headers := Some {| ContentSecurityPolicy := ""; XFrameOptions := "Deny"; XContentTypeOptions := "NoSniff";
    XXSSProtection := ""; StrictTransportSecurity := "" |} |} |}.
Definition example_config : Config := {| tlsConfig := web_TLSConfig example_settings; httpConfig := web_HTTPConfig example_settings;
  mountingDir := "/etc/prometheus/web_config"; secretName := "prometheus-web-config" |}.
Definition example_hash (s : string) : N := 3735928559.
Definition example_secret : Secret := {| sec_meta := zero_meta; sec_Type := "Opaque"; sec_Data := ∅ |}.
Definition example_parameters : res (Argument * (list Volume * list VolumeMount)) := GetMountParameters example_hash example_config.
Definition example_written : FakeStore.state Secret * res () :=
  CreateOrUpdateWebConfigSecret (fun _ => Ok "web") example_config example_secret (FakeStore.State [] 0 ∅).
Example example_names : match example_parameters with Ok r => map vol_Name r.2.1 | _ => [] end =
  ["web-config"; "web-config-tls-secret-key-web-key-deadbeef"; "web-config-tls-configmap-cert-web-cert-deadbeef"].
Proof. vm_compute. reflexivity. Qed.
Lemma web_config_mounted_witness : ∃ arg volumes mounts,
  example_parameters = Ok (arg, (volumes, mounts)) ∧ example_written.2 = Ok () ∧ NoDup (vol_Name <$> volumes).
Proof.
  destruct example_parameters as [[arg [volumes mounts]]|e|m] eqn:E; [|by vm_compute in E..].
  assert (example_written.2 = Ok ()) as Ew by (vm_compute; reflexivity).
  exists arg, volumes, mounts. split; [reflexivity|]. split; [exact Ew|].
  apply (web_config_mounted example_hash (fun _ => Ok "web") "/etc/prometheus/web_config" "prometheus-web-config" example_settings example_config
    example_secret (FakeStore.State [] 0 ∅) example_written.1 arg volumes mounts).
  - reflexivity.
  - exact E.
  - rewrite <-Ew. apply surjective_pairing.
Defined.
