(* ===== verification/JsonText.v ===== *)
(** * Reading JSON texts

    A reader for the part of JSON (RFC 8259) that the patches of the admission webhook consist of:
    arrays, objects and strings without escape sequences, with white space between them. It refuses
    every other text, and numbers and literals among them. *)

From S2P Require Import Prelude GoStrings Json.

Definition quote_char : ascii := ascii_of_nat 34.
Definition is_space (c : ascii) : bool := bool_decide (c ∈ ascii_of_nat <$> [32; 9; 10; 13]).
(** A character that stands for itself in a string. *)
Definition plain_char (c : ascii) : bool :=
  bool_decide (c ≠ quote_char) && bool_decide (c ≠ ascii_of_nat 92) && (32 <=? N_of_ascii c)%N.
Fixpoint plain (s : string) : bool :=
  match s with EmptyString => true | String c s' => plain_char c && plain s' end.

Fixpoint skip_spaces (s : string) : string :=
  match s with
  | String c s' => if is_space c then skip_spaces s' else s
  | EmptyString => ""
  end.
(** What is up to the closing quote, and what is after it. *)
Fixpoint read_chars (s : string) : option (string * string) :=
  match s with
  | EmptyString => None
  | String c s' =>
      if bool_decide (c = quote_char) then Some ("", s')
      else if plain_char c then '(t, r) ← read_chars s'; Some (String c t, r) else None
  end.
Definition read_key (s : string) : option (string * string) :=
  match skip_spaces s with
  | String c r =>
      if bool_decide (c = quote_char) then
        '(k, r) ← read_chars r;
        match skip_spaces r with
        | String c r' => if bool_decide (c = ":"%char) then Some (k, r') else None
        | EmptyString => None
        end
      else None
  | EmptyString => None
  end.
(** After an element or member: a comma and more, or the closing bracket. *)
Definition read_more {A} (close : ascii) (x : A) (more : string → option (list A * string)) (s : string) : option (list A * string) :=
  match skip_spaces s with
  | String c r =>
      if bool_decide (c = ","%char) then '(l, r) ← more r; Some (x :: l, r)
      else if bool_decide (c = close) then Some ([x], r) else None
  | EmptyString => None
  end.
Fixpoint read_value (fuel : nat) (s : string) : option (json * string) :=
  match fuel, skip_spaces s with
  | S n, String c r =>
      if bool_decide (c = quote_char) then '(t, r) ← read_chars r; Some (JStr t, r)
      else if bool_decide (c = "["%char) then
        match skip_spaces r with
        | String "]" r' => Some (JArr [], r')
        | _ => '(l, r) ← read_elements n r; Some (JArr l, r)
        end
      else if bool_decide (c = "{"%char) then
        match skip_spaces r with
        | String "}" r' => Some (JObj [], r')
        | _ => '(l, r) ← read_members n r; Some (JObj l, r)
        end
      else None
  | _, _ => None
  end
with read_elements (fuel : nat) (s : string) : option (list json * string) :=
  match fuel with
  | S n => '(v, r) ← read_value n s; read_more "]" v (read_elements n) r
  | 0 => None
  end
with read_members (fuel : nat) (s : string) : option (list (string * json) * string) :=
  match fuel with
  | S n => '(k, r) ← read_key s; '(v, r) ← read_value n r; read_more "}" (k, v) (read_members n) r
  | 0 => None
  end.
(** A value nests no deeper, and has no more elements, than its text has characters. *)
Definition read_json (s : string) : option json :=
  '(v, r) ← read_value (S (S (String.length s))) s;
  if bool_decide (skip_spaces r = "") then Some v else None.

(** ** Texts that are read *)

(** The text [t] stands for [v], whatever comes after it. *)
Definition reads (n : nat) (t : string) (v : json) : Prop :=
  ∀ fuel rest, n ≤ fuel → read_value fuel (t +:+ rest) = Some (v, rest).

Lemma read_chars_plain s rest : plain s = true → read_chars (s +:+ String quote_char rest) = Some (s, rest).
Proof.
  induction s as [|c s IH]; [done|]. simpl. intros [Hc Hs]%andb_true_iff. rewrite Hc, (IH Hs). simpl.
  rewrite bool_decide_false; [done|]. unfold plain_char in Hc. by destruct (bool_decide (c ≠ quote_char)) eqn:E; [apply bool_decide_eq_true in E|].
Qed.
Lemma skip_spaces_value n t v fuel rest :
  reads n t v → n ≤ fuel → read_value fuel (String " " (t +:+ rest)) = Some (v, rest).
Proof.
  intros Hr Hf. rewrite <-(Hr fuel rest Hf). by destruct fuel.
Qed.
Lemma read_more_comma {A} close (x : A) more r : read_more close x more (String "," r) = '(l, r) ← more r; Some (x :: l, r).
Proof. done. Qed.
Lemma reads_elements n ts vs rest : Forall2 (reads n) ts vs → ts ≠ [] → ∀ fuel, n + length ts ≤ fuel →
  read_elements fuel (Join ts "," +:+ String "]" rest) = Some (vs, rest).
Proof.
  intros HF Hne. induction HF as [|t v ts vs Hv HF IH]; [done|]. intros fuel Hf. simpl in Hf.
  destruct fuel as [|fuel]; [lia|]. cbn [read_elements]. destruct ts as [|t' ts].
  - apply Forall2_nil_inv_l in HF as ->. simpl. rewrite Hv by lia. done.
  - change (Join (t :: t' :: ts) ",") with (t +:+ "," +:+ Join (t' :: ts) ",").
    rewrite !app_str_assoc, Hv by lia. change ("," +:+ ?x) with (String "," x). cbn [mbind option_bind]. rewrite read_more_comma.
    rewrite IH; [done|done|simpl in *; lia].
Qed.
Lemma length_Join n ts : Forall (fun t => S n ≤ String.length t) ts → length ts * S n ≤ String.length (Join ts ",").
Proof.
  intros HF. induction HF as [|t [|t' ts] Ht HF IH]; [done|simpl; lia|].
  change (Join (t :: t' :: ts) ",") with (t +:+ "," +:+ Join (t' :: ts) ","). rewrite !length_app_str. simpl length in *. lia.
Qed.
(** An array whose elements are read with at most as much fuel as their texts are long. *)
Lemma reads_array n ts vs : Forall2 (reads n) ts vs → ts ≠ [] → Forall (fun t => S n ≤ String.length t) ts →
  Forall (fun t => ∃ c t', t = String c t' ∧ is_space c = false ∧ c ≠ "]"%char) ts →
  read_json ("[" +:+ Join ts "," +:+ "]") = Some (JArr vs).
Proof.
  intros HF Hne Hlen Hfirst. unfold read_json. pose proof (length_Join n ts Hlen) as Hl.
  destruct ts as [|t ts]; [done|]. set (l := Join (t :: ts) ",") in *.
  assert (∃ c l', l = String c l' ∧ is_space c = false ∧ c ≠ "]"%char) as (c & l' & El & Hc & Hc').
  { apply Forall_inv in Hfirst as (c & t' & -> & ? & ?). unfold l. destruct ts; simpl; eauto. }
  change ("[" +:+ ?x) with (String "[" x). cbn [String.length read_value skip_spaces]. rewrite length_app_str.
  change (is_space "[") with false. cbn beta iota. rewrite bool_decide_false, bool_decide_true by done.
  pose proof (reads_elements n (t :: ts) vs "" HF Hne (S (S (String.length l + String.length "]")))) as Hr. fold l in Hr.
  change ("]" : string) with (String "]" "") at 2.
  rewrite Hr by (simpl in *; lia). rewrite El. simpl. rewrite Hc. by destruct c as [[] [] [] [] [] [] [] []].
Qed.

(** Members whose values are strings. *)
Definition text_member (k t rest : string) : string :=
  String quote_char (k +:+ String quote_char (String ":" (String " " (String quote_char (t +:+ String quote_char rest))))).
Lemma read_string_member fuel k t rest {A} (f : string * json * string → option A) : plain k = true → plain t = true →
  ('(k, r) ← read_key (text_member k t rest); '(v, r) ← read_value (S fuel) r; f (k, v, r)) = f (k, JStr t, rest).
Proof.
  intros Hk Ht. assert (read_key (text_member k t rest) = Some (k, String " " (String quote_char (t +:+ String quote_char rest)))) as ->.
  { unfold text_member, read_key. cbn [skip_spaces]. change (is_space quote_char) with false. cbn beta iota.
    by rewrite bool_decide_true, (read_chars_plain k). }
  cbn [mbind option_bind]. change (read_value (S fuel) (String " " (String quote_char ?s))) with ('(u, r') ← read_chars s; Some (JStr u, r')).
  by rewrite (read_chars_plain t).
Qed.
Lemma read_member_more fuel k t rest : plain k = true → plain t = true →
  read_members (S (S fuel)) (text_member k t (String "," rest)) = '(l, r) ← read_members (S fuel) rest; Some ((k, JStr t) :: l, r).
Proof.
  intros Hk Ht. change (read_members (S (S fuel)) ?s) with
    ('(k, r) ← read_key s; '(v, r) ← read_value (S fuel) r; (fun x => read_more "}" (x.1.1, x.1.2) (read_members (S fuel)) x.2) (k, v, r)).
  by rewrite read_string_member.
Qed.
Lemma read_member_last fuel k t rest : plain k = true → plain t = true →
  read_members (S (S fuel)) (text_member k t (String "}" rest)) = Some ([(k, JStr t)], rest).
Proof.
  intros Hk Ht. change (read_members (S (S fuel)) ?s) with
    ('(k, r) ← read_key s; '(v, r) ← read_value (S fuel) r; (fun x => read_more "}" (x.1.1, x.1.2) (read_members (S fuel)) x.2) (k, v, r)).
  by rewrite read_string_member.
Qed.
Lemma read_object fuel k t rest :
  read_value (S fuel) (String "{" (text_member k t rest)) = '(l, r) ← read_members fuel (text_member k t rest); Some (JObj l, r).
Proof. done. Qed.
