(* ===== verification/Admission.v ===== *)
(** * The admission webhook

    pkg/admission: the webhooks that the API server asks before it stores a PrometheusRule or an
    AlertmanagerConfig. Decoding and encoding JSON and printing JSON values are arguments; a status cause holds
    the error instead of its text. *)

From S2P Require Import Prelude GoStrings SortUtil Meta Semver NamespaceLabeler Rules Json JsonText MonitoringV1 V1alpha1 V1beta1 AmLibs ValidationV1alpha1 ValidationV1beta1 PromCommon.

#[local] Arguments String.append !_ _ / : simpl nomatch.

(** ** Requests and responses (k8s.io/api/admission/v1) *)

Record GroupVersionResource := { gvr_Group : string; gvr_Version : string; gvr_Resource : string }.
#[global] Instance GroupVersionResource_eq_dec : EqDecision GroupVersionResource.
Proof. solve_decision. Defined.
Record AdmissionRequest := { req_UID : string; req_Resource : GroupVersionResource; req_Raw : string }.
Record Status := {
  status_Status : string;
  status_Reason : string;
  status_Code : Z;
  status_Message : string;
  status_Name : string;
  status_Causes : list error;
}.
Record AdmissionResponse := {
  resp_UID : string;
  resp_Allowed : bool;
  resp_Result : option Status;
  resp_PatchType : option string;
  resp_Patch : string;
}.
Record AdmissionReview := {
  rev_APIVersion : string;
  rev_Kind : string;
  rev_Request : option AdmissionRequest;
  rev_Response : option AdmissionResponse;
}.
Definition allowed : AdmissionResponse :=
  {| resp_UID := ""; resp_Allowed := true; resp_Result := None; resp_PatchType := None; resp_Patch := "" |}.
Definition toAdmissionResponseFailure (message resource : string) (errors : list error) : AdmissionResponse := {|
  resp_UID := ""; resp_Allowed := false;
  resp_Result := Some {| status_Status := "Failure"; status_Reason := "Invalid"; status_Code := 422; status_Message := message;
                         status_Name := if bool_decide (errors = []) then "" else resource; status_Causes := errors |};
  resp_PatchType := None; resp_Patch := "" |}.

Definition prometheusRuleResource := "prometheusrules".
Definition alertManagerConfigResource := "alertmanagerconfigs".
Definition prometheusRuleGVR : GroupVersionResource :=
  {| gvr_Group := "monitoring.coreos.com"; gvr_Version := "v1"; gvr_Resource := prometheusRuleResource |}.
(** [ar.Request] is a pointer. *)
Definition request (ar : AdmissionReview) : res AdmissionRequest :=
  match rev_Request ar with Some r => Ok r | None => Panic "invalid memory address or nil pointer dereference" end.

(** ** jsonpatch.go *)

(** The rules as they are patched: labels and annotations are any JSON values. *)
Record patch_rule := { rule_Labels : gmap string json; rule_Annotations : gmap string json }.
Definition RuleGroups := list (list patch_rule).

Section patches.
(** The order in which a map is visited, and [fmt.Sprintf("%v", v)]. *)
Context (range : gmap string json → list (string * json)) (print : json → string).
Record operation := { op_path : string; op_value : string }.
Definition patch_path (gi ri : nat) (typ key : string) : string :=
  "/spec/groups/" +:+ Itoa (Z.of_nat gi) +:+ "/rules/" +:+ Itoa (Z.of_nat ri) +:+ "/" +:+ typ +:+ "/" +:+ key.
Definition operation_text (o : operation) : string :=
  "{" +:+ quote +:+ "op" +:+ quote +:+ ": " +:+ quote +:+ "replace" +:+ quote +:+ "," +:+ quote +:+ "path" +:+ quote +:+ ": " +:+
  quote +:+ op_path o +:+ quote +:+ "," +:+ quote +:+ "value" +:+ quote +:+ ": " +:+ quote +:+ op_value o +:+ quote +:+ "}".
Definition needs_patch (val : json) : bool := match val with JStr _ | JNull => false | _ => true end.
Definition patchIfNotString (gi ri : nat) (typ : string) (kv : string * json) : list operation :=
  if needs_patch kv.2 then [{| op_path := patch_path gi ri typ kv.1; op_value := print kv.2 |}] else [].
Definition rule_patches (gi ri : nat) (rule : patch_rule) : list operation :=
  concat (patchIfNotString gi ri "annotations" <$> range (rule_Annotations rule)) ++
  concat (patchIfNotString gi ri "labels" <$> range (rule_Labels rule)).
Definition patches (groups : RuleGroups) : list operation :=
  concat (imap (fun gi rules => concat (imap (fun ri rule => rule_patches gi ri rule) rules)) groups).
Context (unmarshal_groups : string → res RuleGroups).
Definition generatePatchesForNonStringLabelsAnnotations (content : string) : res (list operation) :=
  groups ← wrap "cannot unmarshal RuleGroups: %w" [] (unmarshal_groups content);
  Ok (patches groups).
End patches.

(** ** admission.go *)

Definition validated := "prometheus-operator-validated".
Definition quoted (s : string) : string := quote +:+ s +:+ quote.
Definition addFirstAnnotationPatch : string :=
  "{ " +:+ quoted "op" +:+ ": " +:+ quoted "add" +:+ ", " +:+ quoted "path" +:+ ": " +:+ quoted "/metadata/annotations" +:+ ", " +:+ quoted "value" +:+
  ": {" +:+ quoted validated +:+ ": " +:+ quoted "true" +:+ "}}".
Definition addAdditionalAnnotationPatch : string :=
  "{ " +:+ quoted "op" +:+ ": " +:+ quoted "add" +:+ ", " +:+ quoted "path" +:+ ": " +:+ quoted ("/metadata/annotations/" +:+ validated) +:+ ", " +:+
  quoted "value" +:+ ": " +:+ quoted "true" +:+ " }".

Section admission.
Context `{RuleLibs, RawJSON, AmLibs}.
Context (range : gmap string json → list (string * json)) (print : json → string) (unmarshal_groups : string → res RuleGroups).
(** [json.Unmarshal] into PrometheusRules (its annotations and raw spec), PrometheusRule and the
    two versions of AlertmanagerConfig. *)
Context (unmarshal_PrometheusRules : string → res (gomap * string)) (unmarshal_PrometheusRule : string → res PrometheusRule).
(** How a resource is printed in messages. *)
Context (gvr_text : GroupVersionResource → string).
Context (unmarshal_v1alpha1 : string → res v1alpha1.AlertmanagerConfig) (unmarshal_v1beta1 : string → res v1beta1.AlertmanagerConfig).

(** [if err := ...; err != nil { return toAdmissionResponseFailure(...) }] *)
Definition or_refuse {A} (r : res A) (message resource : string) (k : A → res AdmissionResponse) : res AdmissionResponse :=
  match r with
  | Ok a => k a
  | Err e => Ok (toAdmissionResponseFailure message resource [e])
  | Panic m => Panic m
  end.
Definition unexpected (resource : string) (r : GroupVersionResource) : AdmissionResponse :=
  toAdmissionResponseFailure "Unexpected resource kind" resource
    [Errorf "expected resource to be %v, but received %v" [resource; gvr_text r]].

Definition mutatePrometheusRules (ar : AdmissionReview) : res AdmissionResponse :=
  r ← request ar;
  if bool_decide (req_Resource r ≠ prometheusRuleGVR) then Ok (unexpected prometheusRuleResource (req_Resource r))
  else
    or_refuse (unmarshal_PrometheusRules (req_Raw r)) "Cannot unmarshal admission request" prometheusRuleResource (fun rule =>
    or_refuse (generatePatchesForNonStringLabelsAnnotations range print unmarshal_groups rule.2) "Cannot unmarshal rules from spec" prometheusRuleResource (fun ops =>
    let last := if bool_decide (entries rule.1 = ∅) then addFirstAnnotationPatch else addAdditionalAnnotationPatch in
    Ok {| resp_UID := ""; resp_Allowed := true; resp_Result := None; resp_PatchType := Some "JSONPatch";
          resp_Patch := "[" +:+ Join ((operation_text <$> ops) ++ [last]) "," +:+ "]" |})).

Definition validatePrometheusRules (ar : AdmissionReview) : res AdmissionResponse :=
  r ← request ar;
  if bool_decide (req_Resource r ≠ prometheusRuleGVR) then Ok (unexpected prometheusRuleResource (req_Resource r))
  else
    or_refuse (unmarshal_PrometheusRule (req_Raw r)) "Cannot unmarshal rules from spec" prometheusRuleResource (fun promRule =>
    let errors := ValidateRule (pr_Spec promRule) in
    if bool_decide (errors ≠ []) then Ok (toAdmissionResponseFailure "Rules are not valid" prometheusRuleResource errors) else Ok allowed).

Definition validateAlertmanagerConfig (ar : AdmissionReview) : res AdmissionResponse :=
  r ← request ar;
  let gvr := req_Resource r in
  if bool_decide ((gvr_Group gvr, gvr_Resource gvr) ≠ ("monitoring.coreos.com", alertManagerConfigResource))
  then Ok (unexpected alertManagerConfigResource gvr)
  else
    let refuse {A} (err : res A) msg k := or_refuse err msg alertManagerConfigResource k in
    if bool_decide (gvr_Version gvr = "v1alpha1") then
      refuse (unmarshal_v1alpha1 (req_Raw r)) "Cannot unmarhsal config from spec" (fun amConf =>
      refuse (validation_v1alpha1.ValidateAlertmanagerConfig amConf) "AlertmanagerConfig is invalid" (fun _ => Ok allowed))
    else if bool_decide (gvr_Version gvr = "v1beta1") then
      refuse (unmarshal_v1beta1 (req_Raw r)) "Cannot unmarhsal config from spec" (fun amConf =>
      refuse (validation_v1beta1.ValidateAlertmanagerConfig amConf) "AlertmanagerConfig is invalid" (fun _ => Ok allowed))
    else Ok (toAdmissionResponseFailure "Unexpected resource version" alertManagerConfigResource
               [Errorf "expected resource version to be 'v1alpha1' or 'v1beta1', but received %v" [gvr_Version gvr]]).
End admission.

(** ** Serving a request *)

Inductive http_write := HttpError (message : string) (code : Z) | HttpBody (body : string).
Section serve.
(** [deserializer.Decode(body, nil, &review)]: the review after the call, and the error; the
    encoder; and whether the connection takes the answer. *)
Context (decode_review : string → AdmissionReview * option error) (marshal_review : AdmissionReview → res string) (write : string → option error).
Context (error_text : error → string).
(** [body] is empty when it cannot be read. *)
Definition serveAdmission (body contentType : string) (admitFunc : AdmissionReview → res AdmissionResponse) : res (list http_write) :=
  if bool_decide (body = "") then Ok [HttpError "request has no body" 400]
  else if bool_decide (contentType ≠ "application/json") then Ok [HttpError "invalid Content-Type, want `application/json`" 415]
  else
    let (requested, err) := decode_review body in
    response ← match err with
               | Some err => Ok (toAdmissionResponseFailure "Unable to deserialize request" "" [err])
               | None => admitFunc requested
               end;
    r ← request requested;
    let review := {| rev_APIVersion := rev_APIVersion requested; rev_Kind := rev_Kind requested; rev_Request := None;
      rev_Response := Some {| resp_UID := req_UID r; resp_Allowed := resp_Allowed response; resp_Result := resp_Result response;
                              resp_PatchType := resp_PatchType response; resp_Patch := resp_Patch response |} |} in
    match marshal_review review with
    | Panic m => Panic m
    | encoded =>
        let respBytes := match encoded with Ok b => b | _ => "" end in
        let failed := match encoded with Err e => [HttpError ("could not serialize response: " +:+ error_text e) 500] | _ => [] end in
        let unwritten := match write respBytes with Some e => [HttpError ("could not write response: " +:+ error_text e) 500] | None => [HttpBody respBytes] end in
        Ok (failed ++ unwritten)
    end.
End serve.

(** ** What the patches do *)

(** A place in the rules: group, rule, labels or annotations, and key. *)
Record place := { pl_group : nat; pl_rule : nat; pl_labels : bool; pl_key : string }.
#[global] Instance place_eq_dec : EqDecision place.
Proof. solve_decision. Defined.
Definition value_at (groups : RuleGroups) (p : place) : option json :=
  rules ← groups !! pl_group p; rule ← rules !! pl_rule p;
  (if pl_labels p then rule_Labels rule else rule_Annotations rule) !! pl_key p.
(** JSON pointers, RFC 6901. *)
Fixpoint unescape (s : string) : string :=
  match s with
  | String "~" (String "0" s) => String "~" (unescape s)
  | String "~" (String "1" s) => String "/" (unescape s)
  | String a s => String a (unescape s)
  | EmptyString => EmptyString
  end.
Definition find_index (s : string) (n : nat) : option nat := fst <$> list_find (fun i => Itoa (Z.of_nat i) = s) (seq 0 n).
Definition find_place (groups : RuleGroups) (path : string) : option place :=
  match Split path "/" with
  | ["" ; spec; gs; g; rs; r; typ; key] =>
      if bool_decide ([spec; gs; rs] = ["spec"; "groups"; "rules"]) then
        gi ← find_index g (length groups); rules ← groups !! gi; ri ← find_index r (length rules);
        labels ← (if bool_decide (typ = "labels") then Some true else if bool_decide (typ = "annotations") then Some false else None);
        Some {| pl_group := gi; pl_rule := ri; pl_labels := labels; pl_key := unescape key |}
      else None
  | _ => None
  end.
(** The operation replace of RFC 6902 on the values of the rules: the place must hold one. *)
Definition replace_value (groups : RuleGroups) (path : string) (v : json) (d : place → option json) : option (place → option json) :=
  p ← find_place groups path; _ ← d p; Some (fun p' => if decide (p' = p) then Some v else d p').
(** The operation add on the annotations of the object: on all of them, or on one of the existing
    ones. *)
Definition string_field (kv : string * json) : option (string * string) :=
  match kv.2 with JStr s => Some (kv.1, s) | _ => None end.
Definition add_annotations (path : string) (v : json) (annotations : gomap) : option gomap :=
  if bool_decide (take 3 (Split path "/") = [""; "metadata"; "annotations"]) then
    match drop 3 (Split path "/"), v, annotations with
    | [], JObj fields, _ => fields ← mapM string_field fields; Some (Some (list_to_map fields))
    | [key], JStr s, Some m => Some (Some (<[unescape key := s]> m))
    | _, _, _ => None
    end
  else None.
(** What the patch is applied to: the annotations of the object, and the labels and annotations of
    its rules. *)
Record document := { doc_annotations : gomap; doc_values : place → option json }.
Definition member (k : string) (fields : list (string * json)) : option json :=
  (fun x => x.2.2) <$> list_find (fun kv => kv.1 = k) fields.
Definition apply_operation (groups : RuleGroups) (d : document) (o : json) : option document :=
  match o with
  | JObj fields =>
      v ← member "value" fields;
      match member "op" fields, member "path" fields with
      | Some (JStr op), Some (JStr path) =>
          if bool_decide (op = "replace") then
            values ← replace_value groups path v (doc_values d); Some {| doc_annotations := doc_annotations d; doc_values := values |}
          else if bool_decide (op = "add") then
            annotations ← add_annotations path v (doc_annotations d); Some {| doc_annotations := annotations; doc_values := doc_values d |}
          else None
      | _, _ => None
      end
  | _ => None
  end.
Fixpoint apply_patch (groups : RuleGroups) (ops : list json) (d : document) : option document :=
  match ops with
  | [] => Some d
  | o :: ops => d ← apply_operation groups d o; apply_patch groups ops d
  end.
Fixpoint replace_values (groups : RuleGroups) (ops : list operation) (d : place → option json) : option (place → option json) :=
  match ops with
  | [] => Some d
  | o :: ops => d ← replace_value groups (op_path o) (JStr (op_value o)) d; replace_values groups ops d
  end.
Definition stringified (print : json → string) (v : json) : json := if needs_patch v then JStr (print v) else v.

Lemma find_index_Itoa i n : i < n → find_index (Itoa (Z.of_nat i)) n = Some i.
Proof.
  intros Hi. unfold find_index.
  assert (list_find (fun j => Itoa (Z.of_nat j) = Itoa (Z.of_nat i)) (seq 0 n) = Some (i, i)) as ->; [|done].
  apply list_find_Some. split_and!; [by apply lookup_seq_lt|done|]. intros j y [-> Hj]%lookup_seq Hlt E%(inj pretty). lia.
Qed.
Lemma unescape_id s : contains_char "~" s = false → unescape s = s.
Proof.
  induction s as [|a s IH]; [done|]. cbn [contains_char]. case_decide as Ha; [done|]. intros Hs. specialize (IH Hs).
  change (unescape (String a s) = String a s). destruct a as [[] [] [] [] [] [] [] []]; simpl; by rewrite IH.
Qed.
Lemma find_place_path groups gi ri (labels : bool) key rules rule :
  groups !! gi = Some rules → rules !! ri = Some rule → contains_char "/" key = false → contains_char "~" key = false →
  find_place groups (patch_path gi ri (if labels then "labels" else "annotations") key) =
    Some {| pl_group := gi; pl_rule := ri; pl_labels := labels; pl_key := key |}.
Proof.
  intros Hg Hr Hk Hk'.
  assert (Split (patch_path gi ri (if labels then "labels" else "annotations") key) "/" =
    [""; "spec"; "groups"; Itoa (Z.of_nat gi); "rules"; Itoa (Z.of_nat ri); (if labels then "labels" else "annotations"); key]) as E.
  { unfold patch_path. change ("/spec/groups/" +:+ ?x) with ("" +:+ String "/" ("spec" +:+ String "/" ("groups" +:+ String "/" x))).
    change ("/rules/" +:+ ?x) with (String "/" ("rules" +:+ String "/" x)). change ("/" +:+ ?x) with (String "/" x).
    rewrite (Split_app ""), (Split_app "spec"), (Split_app "groups"), (Split_app (Itoa (Z.of_nat gi))), (Split_app "rules"), (Split_app (Itoa (Z.of_nat ri))) by (done || by apply Itoa_no_char).
    change ("/" +:+ key) with (String "/" key). rewrite Split_app by (by destruct labels). by rewrite Split_no_sep. }
  unfold find_place. rewrite E, bool_decide_eq_true_2 by done. rewrite find_index_Itoa by (by eapply lookup_lt_Some). simpl. rewrite Hg. simpl.
  rewrite find_index_Itoa by (by eapply lookup_lt_Some). simpl. rewrite unescape_id by done. by destruct labels.
Qed.

Section patched.
Context (range : gmap string json → list (string * json)) (print : json → string).
Context (range_visits : ∀ m, range m ≡ₚ map_to_list m).
Lemma elem_of_patches groups o : o ∈ patches range print groups ↔
  ∃ gi rules ri rule (labels : bool) key v, groups !! gi = Some rules ∧ rules !! ri = Some rule ∧
    (if labels then rule_Labels rule else rule_Annotations rule) !! key = Some v ∧ needs_patch v = true ∧
    o = {| op_path := patch_path gi ri (if labels then "labels" else "annotations") key; op_value := print v |}.
Proof.
  assert (∀ gi ri typ m, o ∈ concat (patchIfNotString print gi ri typ <$> range m) ↔
    ∃ key v, m !! key = Some v ∧ needs_patch v = true ∧ o = {| op_path := patch_path gi ri typ key; op_value := print v |}) as Hmap.
  { intros gi ri typ m. rewrite elem_of_concat. setoid_rewrite list_elem_of_fmap. split.
    - intros (l & ((key, v) & -> & Hkv) & Ho). rewrite range_visits in Hkv. apply elem_of_map_to_list in Hkv. exists key, v.
      unfold patchIfNotString in Ho. simpl in Ho. destruct (needs_patch v); [|by apply elem_of_nil in Ho]. by apply list_elem_of_singleton in Ho.
    - intros (key & v & Hkv & Hn & ->). eexists. split; [exists (key, v); split; [done|]; by rewrite range_visits, elem_of_map_to_list|].
      unfold patchIfNotString. simpl. rewrite Hn. by apply list_elem_of_singleton. }
  unfold patches. rewrite elem_of_concat. setoid_rewrite elem_of_lookup_imap. split.
  - intros (l & (gi & rules & -> & Hg) & Ho). apply elem_of_concat in Ho as (l & Hl & Ho). apply elem_of_lookup_imap in Hl as (ri & rule & -> & Hr).
    unfold rule_patches in Ho. rewrite elem_of_app, !Hmap in Ho. destruct Ho as [(key & v & ?)|(key & v & ?)];
      [exists gi, rules, ri, rule, false, key, v|exists gi, rules, ri, rule, true, key, v]; naive_solver.
  - intros (gi & rules & ri & rule & labels & key & v & Hg & Hr & Hkv & Hn & Ho). eexists. split; [exists gi, rules; split; [done|exact Hg]|].
    apply elem_of_concat. eexists. split; [apply elem_of_lookup_imap; exists ri, rule; split; [done|exact Hr]|].
    unfold rule_patches. rewrite elem_of_app, !Hmap. destruct labels; [right|left]; eauto.
Qed.

(** Operations that agree on what they write. *)
Lemma replace_values_ok groups ops : ∀ d,
  (∀ o, o ∈ ops → ∃ p, find_place groups (op_path o) = Some p ∧ is_Some (d p)) →
  (∀ o o', o ∈ ops → o' ∈ ops → find_place groups (op_path o) = find_place groups (op_path o') → op_value o = op_value o') →
  ∃ d', replace_values groups ops d = Some d' ∧ ∀ p,
    (∀ o, o ∈ ops → find_place groups (op_path o) = Some p → d' p = Some (JStr (op_value o))) ∧
    ((∀ o, o ∈ ops → find_place groups (op_path o) ≠ Some p) → d' p = d p).
Proof.
  induction ops as [|o ops IH]; intros d Hd Hagree; simpl.
  { exists d. split; [done|]. intros p. split; [by intros o ?%elem_of_nil|done]. }
  destruct (Hd o) as (p & Hp & [v Hv]); [set_solver|]. unfold replace_value. rewrite Hp. simpl. rewrite Hv. simpl.
  destruct (IH (fun p' => if decide (p' = p) then Some (JStr (op_value o)) else d p')) as (d' & E & Hd').
  { intros o' Ho'. destruct (Hd o') as (p' & Hp' & Hs); [set_solver|]. exists p'. split; [done|]. case_decide; [by eexists|done]. }
  { intros o1 o2 H1 H2. apply Hagree; set_solver. }
  exists d'. split; [done|]. intros q. destruct (Hd' q) as [H1 H2]. split.
  - intros o' [-> |Ho']%elem_of_cons Hq; [|auto]. assert (q = p) as -> by congruence.
    destruct (decide (Exists (fun o' => find_place groups (op_path o') = Some p) ops)) as [(o' & Ho' & Hp')%Exists_exists|Hn].
    + rewrite (H1 o' Ho' Hp'). do 2 f_equal. apply Hagree; [set_solver..|congruence].
    + rewrite H2; [by rewrite decide_True|]. intros o' Ho' Hp'. apply Hn, Exists_exists. eauto.
  - intros Hq. rewrite H2; [|intros o' Ho'; apply Hq; set_solver]. rewrite decide_False; [done|]. intros ->. by apply (Hq o); [set_solver|].
Qed.

(** Names of labels and annotations that can be written as they are in JSON pointers and in JSON
    texts, and values that are printed so. *)
Definition plain_key (k : string) : bool := negb (contains_char "/" k) && negb (contains_char "~" k) && plain k.
Definition plain_entry (kv : string * json) : bool := plain_key kv.1 && (negb (needs_patch kv.2) || plain (print kv.2)).
Definition plain_map (m : gmap string json) : bool := forallb plain_entry (map_to_list m).
Definition plain_groups (groups : RuleGroups) : bool :=
  forallb (forallb (fun rule => plain_map (rule_Labels rule) && plain_map (rule_Annotations rule))) groups.
Lemma plain_groups_at groups p v : plain_groups groups = true → value_at groups p = Some v → plain_entry (pl_key p, v) = true.
Proof.
  assert (∀ m k v, plain_map m = true → m !! k = Some v → plain_entry (k, v) = true) as Hm.
  { intros m k v' Hm Hk%elem_of_map_to_list. unfold plain_map in Hm. rewrite forallb_forall in Hm. by apply Hm, list_elem_of_In. }
  intros Hg (rules & Hi & (rule & Hr & Hk)%bind_Some)%bind_Some. unfold plain_groups in Hg. rewrite forallb_forall in Hg.
  apply list_elem_of_lookup_2, list_elem_of_In, Hg in Hi. rewrite forallb_forall in Hi.
  apply list_elem_of_lookup_2, list_elem_of_In, Hi, andb_true_iff in Hr as [Hl Ha]. destruct (pl_labels p); eauto.
Qed.
Lemma plain_groups_key groups p v : plain_groups groups = true → value_at groups p = Some v →
  contains_char "/" (pl_key p) = false ∧ contains_char "~" (pl_key p) = false ∧ plain (pl_key p) = true.
Proof.
  intros Hg Hv. pose proof (plain_groups_at _ _ _ Hg Hv) as H. unfold plain_entry, plain_key in H. simpl in H.
  by rewrite !andb_true_iff, !negb_true_iff in H; destruct H as [[[? ?] ?] _].
Qed.

(** The values after the operations of the rules. *)
Lemma patches_replace groups : plain_groups groups = true →
  ∃ d, replace_values groups (patches range print groups) (value_at groups) = Some d ∧
    ∀ p, d p = stringified print <$> value_at groups p.
Proof.
  intros Hplain.
  assert (∀ o, o ∈ patches range print groups → ∃ p v, find_place groups (op_path o) = Some p ∧ value_at groups p = Some v ∧
    needs_patch v = true ∧ op_value o = print v) as Hops.
  { intros o (gi & rules & ri & rule & labels & key & v & Hg & Hr & Hkv & Hn & ->)%elem_of_patches.
    set (p := {| pl_group := gi; pl_rule := ri; pl_labels := labels; pl_key := key |}).
    assert (value_at groups p = Some v) as Hv by (unfold value_at; simpl; rewrite Hg; simpl; by rewrite Hr). destruct (plain_groups_key _ _ _ Hplain Hv) as (? & ? & _).
    exists p, v. split; [by eapply find_place_path|done]. }
  destruct (replace_values_ok groups (patches range print groups) (value_at groups)) as (d & Hd & Hp).
  - intros o (p & v & Hpl & Hv & _)%Hops. eauto.
  - intros o o' (p & v & Hpl & Hv & _ & ->)%Hops (p' & v' & Hpl' & Hv' & _ & ->)%Hops E. congruence.
  - exists d. split; [done|]. intros p. destruct (Hp p) as [Hin Hout]. unfold stringified.
    destruct (value_at groups p) as [v|] eqn:Hv; simpl.
    + destruct (needs_patch v) eqn:Hn.
      * destruct p as [gi ri labels key]. pose proof Hv as Hv'. unfold value_at in Hv'. simpl in Hv'.
        apply bind_Some in Hv' as (rules & Hg & (rule & Hr & Hk)%bind_Some). destruct (plain_groups_key _ _ _ Hplain Hv) as (? & ? & _).
        eapply (Hin {| op_path := patch_path gi ri (if labels then "labels" else "annotations") key; op_value := print v |}).
        -- apply elem_of_patches. exists gi, rules, ri, rule, labels, key, v. done.
        -- by eapply find_place_path.
      * rewrite Hout; [done|]. intros o (p' & v' & Hpl & Hv' & Hn' & _)%Hops Hp'. congruence.
    + rewrite Hout; [done|]. intros o (p' & v' & Hpl & Hv' & _)%Hops Hp'. congruence.
Qed.

(** The operation that marks the object as validated. *)
Definition annotation_json (annotations : gmap string string) : json :=
  JObj (("op", JStr "add") ::
    if bool_decide (annotations = ∅) then [("path", JStr "/metadata/annotations"); ("value", JObj [(validated, JStr "true")])]
    else [("path", JStr ("/metadata/annotations/" +:+ validated)); ("value", JStr "true")]).
Lemma annotation_read annotations :
  reads 7 (if bool_decide (annotations = ∅) then addFirstAnnotationPatch else addAdditionalAnnotationPatch) (annotation_json annotations).
Proof. intros fuel rest Hf. do 7 (destruct fuel as [|fuel]; [lia|]). unfold annotation_json. by case_bool_decide. Qed.
Lemma annotation_added groups a d :
  apply_patch groups [annotation_json (entries a)] {| doc_annotations := a; doc_values := d |} =
    Some {| doc_annotations := Some (<[validated := "true"]> (entries a)); doc_values := d |}.
Proof.
  unfold annotation_json. case_bool_decide as Ha; [by rewrite Ha|]. destruct a as [a|]; [done|by destruct Ha].
Qed.

(** What the operations' texts are read as. *)
Definition operation_json (o : operation) : json :=
  JObj [("op", JStr "replace"); ("path", JStr (op_path o)); ("value", JStr (op_value o))].
Lemma reads_operation o : plain (op_path o) = true → plain (op_value o) = true → reads 7 (operation_text o) (operation_json o).
Proof.
  intros Hp Hv fuel rest Hf. do 7 (destruct fuel as [|fuel]; [lia|]). unfold operation_text, quote. rewrite !app_str_assoc.
  change (read_value (S (S (S (S (S (S (S fuel))))))) (String "{" (text_member "op" "replace" (String "," (text_member "path" (op_path o)
    (String "," (text_member "value" (op_value o) (String "}" rest))))))) = Some (operation_json o, rest)).
  by rewrite read_object, !read_member_more, read_member_last.
Qed.

Lemma plain_app s t : plain (s +:+ t) = plain s && plain t.
Proof. induction s as [|c s IH]; simpl; [done|]. by rewrite IH, andb_assoc. Qed.
Lemma contains_plain s : (∀ c, plain_char c = false → contains_char c s = false) → plain s = true.
Proof.
  induction s as [|c s IH]; [done|]. intros Hs. simpl. destruct (plain_char c) eqn:Hc.
  - apply IH. intros c' Hc'. specialize (Hs c' Hc'). simpl in Hs. by case_decide.
  - specialize (Hs c Hc). simpl in Hs. by case_decide.
Qed.
Lemma plain_Itoa z : plain (Itoa z) = true.
Proof.
  apply contains_plain. intros c Hc. apply Itoa_no_char; [|by intros ->]. by destruct c as [[] [] [] [] [] [] [] []].
Qed.
Lemma patches_read groups : plain_groups groups = true →
  Forall2 (reads 7) (operation_text <$> patches range print groups) (operation_json <$> patches range print groups).
Proof.
  intros Hplain. apply Forall2_fmap, Forall_Forall2_diag, Forall_forall.
  intros o (gi & rules & ri & rule & labels & key & v & Hg & Hr & Hkv & Hn & ->)%elem_of_patches.
  set (p := {| pl_group := gi; pl_rule := ri; pl_labels := labels; pl_key := key |}).
  assert (value_at groups p = Some v) as Hv by (unfold value_at; simpl; rewrite Hg; simpl; by rewrite Hr).
  destruct (plain_groups_key _ _ _ Hplain Hv) as (_ & _ & Hk). pose proof (plain_groups_at _ _ _ Hplain Hv) as He.
  apply andb_true_iff in He as [_ He]. cbn [snd] in He. rewrite Hn in He. simpl in He.
  apply reads_operation; [|done]. cbn [op_path]. unfold patch_path. rewrite !plain_app, !plain_Itoa. simpl in Hk. rewrite Hk. by destruct labels.
Qed.
Lemma apply_replace groups ops last a : ∀ d,
  apply_patch groups ((operation_json <$> ops) ++ last) {| doc_annotations := a; doc_values := d |} =
    d' ← replace_values groups ops d; apply_patch groups last {| doc_annotations := a; doc_values := d' |}.
Proof.
  induction ops as [|o ops IH]; intros d; [done|]. cbn [fmap list_fmap app apply_patch replace_values].
  unfold apply_operation at 1. simpl. destruct (replace_value _ _ _ _) as [d'|]; simpl; [|done]. apply IH.
Qed.

Context (unmarshal_groups : string → res RuleGroups) (unmarshal_PrometheusRules : string → res (gomap * string)) (gvr_text : GroupVersionResource → string).
End patched.

Definition sample_print (v : json) : string :=
  match v with JNum t => t | JBool true => "true" | JBool false => "false" | _ => "" end.
Definition sample_groups : RuleGroups :=
  [[]; [{| rule_Labels := {[ "severity" := JStr "page"; "priority" := JNum "1" ]}; rule_Annotations := {[ "active" := JBool true; "note" := JNull ]} |}]].
Definition sample_review : AdmissionReview := {|
  rev_APIVersion := "admission.k8s.io/v1"; rev_Kind := "AdmissionReview"; rev_Response := None;
  rev_Request := Some {| req_UID := "1"; req_Resource := prometheusRuleGVR; req_Raw := "" |} |}.

(** A quote in a name is not escaped in the text, which then is no JSON text. *)
Example quoted_key_not_read :
  let groups := [[{| rule_Labels := ∅; rule_Annotations := {[ "a" +:+ quote := JNum "1" ]} |}]] in
  read_json ("[" +:+ Join (operation_text <$> patches map_to_list sample_print groups) "," +:+ "]") = None.
Proof. vm_compute. reflexivity. Qed.
(** A slash in the key is not escaped in the path of the operation, which then leads nowhere. *)
Example slash_key_not_patched :
  let groups := [[{| rule_Labels := ∅; rule_Annotations := {[ "example.com/level" := JNum "1" ]} |}]] in
  replace_values groups (patches map_to_list sample_print groups) (value_at groups) = None.
Proof. vm_compute. reflexivity. Qed.

(** The answer that is prepared for a request that cannot be decoded is never sent: the request's
    UID is read from a nil pointer first. *)
Theorem undecodable_request_panics decode_review marshal_review write error_text body admitFunc review err :
  body ≠ "" → decode_review body = (review, Some err) → rev_Request review = None →
  serveAdmission decode_review marshal_review write error_text body "application/json" admitFunc = Panic "invalid memory address or nil pointer dereference".
Proof. intros Hb Hd Hr. unfold serveAdmission. rewrite bool_decide_eq_false_2 by done. simpl. rewrite Hd. simpl. unfold request. by rewrite Hr. Qed.

Section verdicts.
Context `{RuleLibs, RawJSON, AmLibs}.
(** A PrometheusRule is admitted exactly if the operator's own check finds nothing, and the answer
    to a refused one lists what it found. *)
Theorem rules_verdict unmarshal gvr_text ar r rule :
  rev_Request ar = Some r → req_Resource r = prometheusRuleGVR → unmarshal (req_Raw r) = Ok rule →
  ∃ resp, validatePrometheusRules unmarshal gvr_text ar = Ok resp ∧ (resp_Allowed resp = true ↔ ValidateRule (pr_Spec rule) = []) ∧
    (resp_Allowed resp = false → status_Causes <$> resp_Result resp = Some (ValidateRule (pr_Spec rule))).
Proof.
  intros Hr Hg Hu. unfold validatePrometheusRules, request. rewrite Hr. simpl. rewrite bool_decide_eq_false_2 by (by intros []). rewrite Hu. simpl.
  case_bool_decide as Hv; eexists; (split; [done|]); simpl; split; by try split.
Qed.
(** An AlertmanagerConfig is admitted in the version it is sent in exactly if that version's
    validation accepts it. *)
Theorem config_verdict unmarshalA unmarshalB gvr_text ar r resp :
  rev_Request ar = Some r → validateAlertmanagerConfig gvr_text unmarshalA unmarshalB ar = Ok resp →
  resp_Allowed resp = true ↔
    (gvr_Group (req_Resource r) = "monitoring.coreos.com" ∧ gvr_Resource (req_Resource r) = alertManagerConfigResource) ∧
    ((gvr_Version (req_Resource r) = "v1alpha1" ∧ ∃ c, unmarshalA (req_Raw r) = Ok c ∧ validation_v1alpha1.ValidateAlertmanagerConfig c = Ok ()) ∨
     (gvr_Version (req_Resource r) = "v1beta1" ∧ ∃ c, unmarshalB (req_Raw r) = Ok c ∧ validation_v1beta1.ValidateAlertmanagerConfig c = Ok ())).
Proof.
  intros Hr. unfold validateAlertmanagerConfig, request. rewrite Hr. simpl. case_bool_decide as Hg.
  { intros [= <-]. simpl. split; [done|]. intros [[E1 E2] _]. destruct Hg. by rewrite E1, E2. }
  injection Hg as E1 E2.
  unfold or_refuse. case_bool_decide as Ha; [|case_bool_decide as Hb].
  - destruct (unmarshalA (req_Raw r)) as [c|e|m]; [|intros [= <-]; simpl; split; [done|]; intros [_ [(_ & c & ? & _)|(? & _)]]; congruence|done].
    destruct (validation_v1alpha1.ValidateAlertmanagerConfig c) as [[]|e|m] eqn:Ev; [| |done]; intros [= <-]; simpl; split; try done.
    + intros _. split; [done|]. left. eauto.
    + intros [_ [(_ & c' & ? & ?)|(? & _)]]; congruence.
  - destruct (unmarshalB (req_Raw r)) as [c|e|m]; [|intros [= <-]; simpl; split; [done|]; intros [_ [(? & _)|(_ & c & ? & _)]]; congruence|done].
    destruct (validation_v1beta1.ValidateAlertmanagerConfig c) as [[]|e|m] eqn:Ev; [| |done]; intros [= <-]; simpl; split; try done.
    + intros _. split; [done|]. right. eauto.
    + intros [_ [(? & _)|(_ & c' & ? & ?)]]; congruence.
  - intros [= <-]. simpl. split; [done|]. intros [_ [(? & _)|(? & _)]]; congruence.
Qed.
End verdicts.
