(* ===== verification/AmTypes.v ===== *)
(** * The configuration of Alertmanager

    The types of pkg/alertmanager/types.go: what the operator reads from a configuration of the
    user and writes for Alertmanager. A field [F] of the struct [T] is [T_F]; a pointer is an
    [option], a slice a list (a nil slice is an empty one: both are left out of the YAML), a slice
    of pointers a list of values (the code never puts nil into one). A [config.URL] is its
    rendering, a [model.Duration] a number of nanoseconds. *)

From S2P Require Import Prelude Meta Yaml.

(** [config.HostPort], and the time intervals of Alertmanager's packages config and
    timeinterval. *)
Record HostPort := { Host : string; Port : string }.
Record InclusiveRange := { Begin : Z; End_ : Z }.
Record TimeOfDayRange := { StartMinute : Z; EndMinute : Z }.
Record interval := {
  interval_Times : list TimeOfDayRange;
  interval_Weekdays : list InclusiveRange;
  interval_DaysOfMonth : list InclusiveRange;
  interval_Months : list InclusiveRange;
  interval_Years : list InclusiveRange;
  interval_Location : option string;
}.
Record timeInterval := { timeInterval_Name : string; timeInterval_TimeIntervals : list interval }.

Record proxyConfig := {
  proxyConfig_ProxyURL : string;
  proxyConfig_NoProxy : string;
  proxyConfig_ProxyFromEnvironment : bool;
  proxyConfig_ProxyConnectHeader : option (gmap string (list string));
}.
Record tlsConfig := {
  tlsConfig_CAFile : string;
  tlsConfig_CertFile : string;
  tlsConfig_KeyFile : string;
  tlsConfig_ServerName : string;
  tlsConfig_InsecureSkipVerify : bool;
  tlsConfig_MinVersion : string;
  tlsConfig_MaxVersion : string;
}.
Record authorization := {
  authorization_Type : string;
  authorization_Credentials : string;
  authorization_CredentialsFile : string;
}.
Record basicAuth := {
  basicAuth_Username : string;
  basicAuth_Password : string;
  basicAuth_PasswordFile : string;
}.
Record oauth2 := {
  oauth2_ClientID : string;
  oauth2_ClientSecret : string;
  oauth2_ClientSecretFile : string;
  oauth2_Scopes : list string;
  oauth2_TokenURL : string;
  oauth2_EndpointParams : gomap;
  oauth2_proxyConfig : proxyConfig;
  oauth2_TLSConfig : option tlsConfig;
}.
Record httpClientConfig := {
  httpClientConfig_Authorization : option authorization;
  httpClientConfig_BasicAuth : option basicAuth;
  httpClientConfig_OAuth2 : option oauth2;
  httpClientConfig_BearerToken : string;
  httpClientConfig_BearerTokenFile : string;
  httpClientConfig_TLSConfig : option tlsConfig;
  httpClientConfig_FollowRedirects : option bool;
  httpClientConfig_EnableHTTP2 : option bool;
  httpClientConfig_proxyConfig : proxyConfig;
}.
Record globalConfig := {
  globalConfig_ResolveTimeout : option Z;
  globalConfig_HTTPConfig : option httpClientConfig;
  globalConfig_SMTPFrom : string;
  globalConfig_SMTPHello : string;
  globalConfig_SMTPSmarthost : HostPort;
  globalConfig_SMTPAuthUsername : string;
  globalConfig_SMTPAuthPassword : string;
  globalConfig_SMTPAuthPasswordFile : string;
  globalConfig_SMTPAuthSecret : string;
  globalConfig_SMTPAuthIdentity : string;
  globalConfig_SMTPRequireTLS : option bool;
  globalConfig_SMTPTLSConfig : option tlsConfig;
  globalConfig_SlackAPIURL : option string;
  globalConfig_SlackAPIURLFile : string;
  globalConfig_PagerdutyURL : option string;
  globalConfig_HipchatAPIURL : option string;
  globalConfig_HipchatAuthToken : string;
  globalConfig_OpsGenieAPIURL : option string;
  globalConfig_OpsGenieAPIKey : string;
  globalConfig_OpsGenieAPIKeyFile : string;
  globalConfig_WeChatAPIURL : option string;
  globalConfig_WeChatAPISecret : string;
  globalConfig_WeChatAPICorpID : string;
  globalConfig_VictorOpsAPIURL : option string;
  globalConfig_VictorOpsAPIKey : string;
  globalConfig_VictorOpsAPIKeyFile : string;
  globalConfig_TelegramAPIURL : option string;
  globalConfig_WebexAPIURL : option string;
  globalConfig_JiraAPIURL : option string;
  globalConfig_RocketChatAPIURL : option string;
  globalConfig_RocketChatToken : string;
  globalConfig_RocketChatTokenFile : string;
  globalConfig_RocketChatTokenID : string;
  globalConfig_RocketChatTokenIDFile : string;
}.
Inductive route := Build_route {
  route_Receiver : string;
  route_GroupByStr : list string;
  route_Match : gomap;
  route_MatchRE : gomap;
  route_Matchers : list string;
  route_Continue : bool;
  route_Routes : list route;
  route_GroupWait : string;
  route_GroupInterval : string;
  route_RepeatInterval : string;
  route_MuteTimeIntervals : list string;
  route_ActiveTimeIntervals : list string;
}.
Record inhibitRule := {
  inhibitRule_TargetMatch : gomap;
  inhibitRule_TargetMatchRE : gomap;
  inhibitRule_TargetMatchers : list string;
  inhibitRule_SourceMatch : gomap;
  inhibitRule_SourceMatchRE : gomap;
  inhibitRule_SourceMatchers : list string;
  inhibitRule_Equal : list string;
}.
Record webhookConfig := {
  webhookConfig_VSendResolved : option bool;
  webhookConfig_URL : string;
  webhookConfig_URLFile : string;
  webhookConfig_HTTPConfig : option httpClientConfig;
  webhookConfig_MaxAlerts : Z;
  webhookConfig_Timeout : option Z;
}.
Record pagerdutyLink := {
  pagerdutyLink_Href : string;
  pagerdutyLink_Text : string;
}.
Record pagerdutyImage := {
  pagerdutyImage_Src : string;
  pagerdutyImage_Alt : string;
  pagerdutyImage_Href : string;
}.
Record pagerdutyConfig := {
  pagerdutyConfig_VSendResolved : option bool;
  pagerdutyConfig_HTTPConfig : option httpClientConfig;
  pagerdutyConfig_ServiceKey : string;
  pagerdutyConfig_ServiceKeyFile : string;
  pagerdutyConfig_RoutingKey : string;
  pagerdutyConfig_RoutingKeyFile : string;
  pagerdutyConfig_URL : string;
  pagerdutyConfig_Client : string;
  pagerdutyConfig_ClientURL : string;
  pagerdutyConfig_Description : string;
  pagerdutyConfig_Details : gomap;
  pagerdutyConfig_Images : list pagerdutyImage;
  pagerdutyConfig_Links : list pagerdutyLink;
  pagerdutyConfig_Severity : string;
  pagerdutyConfig_Class : string;
  pagerdutyConfig_Component : string;
  pagerdutyConfig_Group : string;
  pagerdutyConfig_Source : string;
}.
Record opsgenieResponder := {
  opsgenieResponder_ID : string;
  opsgenieResponder_Name : string;
  opsgenieResponder_Username : string;
  opsgenieResponder_Type : string;
}.
Record opsgenieConfig := {
  opsgenieConfig_VSendResolved : option bool;
  opsgenieConfig_HTTPConfig : option httpClientConfig;
  opsgenieConfig_APIKey : string;
  opsgenieConfig_APIKeyFile : string;
  opsgenieConfig_APIURL : string;
  opsgenieConfig_Message : string;
  opsgenieConfig_Description : string;
  opsgenieConfig_Source : string;
  opsgenieConfig_Details : gomap;
  opsgenieConfig_Responders : list opsgenieResponder;
  opsgenieConfig_Tags : string;
  opsgenieConfig_Note : string;
  opsgenieConfig_Priority : string;
  opsgenieConfig_UpdateAlerts : option bool;
  opsgenieConfig_Entity : string;
  opsgenieConfig_Actions : string;
}.
Record weChatConfig := {
  weChatConfig_VSendResolved : option bool;
  weChatConfig_APISecret : string;
  weChatConfig_APIURL : string;
  weChatConfig_CorpID : string;
  weChatConfig_AgentID : string;
  weChatConfig_ToUser : string;
  weChatConfig_ToParty : string;
  weChatConfig_ToTag : string;
  weChatConfig_Message : string;
  weChatConfig_MessageType : string;
  weChatConfig_HTTPConfig : option httpClientConfig;
}.
Record slackField := {
  slackField_Title : string;
  slackField_Value : string;
  slackField_Short : bool;
}.
Record slackConfirmationField := {
  slackConfirmationField_Text : string;
  slackConfirmationField_Title : string;
  slackConfirmationField_OkText : string;
  slackConfirmationField_DismissText : string;
}.
Record slackAction := {
  slackAction_Type : string;
  slackAction_Text : string;
  slackAction_URL : string;
  slackAction_Style : string;
  slackAction_Name : string;
  slackAction_Value : string;
  slackAction_ConfirmField : option slackConfirmationField;
}.
Record slackConfig := {
  slackConfig_VSendResolved : option bool;
  slackConfig_HTTPConfig : option httpClientConfig;
  slackConfig_APIURL : string;
  slackConfig_APIURLFile : string;
  slackConfig_Channel : string;
  slackConfig_Username : string;
  slackConfig_Color : string;
  slackConfig_Title : string;
  slackConfig_TitleLink : string;
  slackConfig_Pretext : string;
  slackConfig_Text : string;
  slackConfig_Fields : list slackField;
  slackConfig_ShortFields : bool;
  slackConfig_Footer : string;
  slackConfig_Fallback : string;
  slackConfig_CallbackID : string;
  slackConfig_IconEmoji : string;
  slackConfig_IconURL : string;
  slackConfig_ImageURL : string;
  slackConfig_ThumbURL : string;
  slackConfig_LinkNames : bool;
  slackConfig_MrkdwnIn : list string;
  slackConfig_Actions : list slackAction;
}.
Record emailConfig := {
  emailConfig_VSendResolved : option bool;
  emailConfig_To : string;
  emailConfig_From : string;
  emailConfig_Hello : string;
  emailConfig_Smarthost : HostPort;
  emailConfig_AuthUsername : string;
  emailConfig_AuthPassword : string;
  emailConfig_AuthPasswordFile : string;
  emailConfig_AuthSecret : string;
  emailConfig_AuthIdentity : string;
  emailConfig_Headers : gomap;
  emailConfig_HTML : option string;
  emailConfig_Text : option string;
  emailConfig_RequireTLS : option bool;
  emailConfig_TLSConfig : option tlsConfig;
}.
Record pushoverConfig := {
  pushoverConfig_VSendResolved : option bool;
  pushoverConfig_HTTPConfig : option httpClientConfig;
  pushoverConfig_UserKey : string;
  pushoverConfig_UserKeyFile : string;
  pushoverConfig_Token : string;
  pushoverConfig_TokenFile : string;
  pushoverConfig_Title : string;
  pushoverConfig_Message : string;
  pushoverConfig_URL : string;
  pushoverConfig_URLTitle : string;
  pushoverConfig_TTL : string;
  pushoverConfig_Device : string;
  pushoverConfig_Sound : string;
  pushoverConfig_Priority : string;
  pushoverConfig_Retry : option Z;
  pushoverConfig_Expire : option Z;
  pushoverConfig_HTML : bool;
}.
Record sigV4Config := {
  sigV4Config_Region : string;
  sigV4Config_AccessKey : string;
  sigV4Config_SecretKey : string;
  sigV4Config_Profile : string;
  sigV4Config_RoleARN : string;
}.
Record snsConfig := {
  snsConfig_VSendResolved : option bool;
  snsConfig_HTTPConfig : option httpClientConfig;
  snsConfig_APIUrl : string;
  snsConfig_Sigv4 : sigV4Config;
  snsConfig_TopicARN : string;
  snsConfig_PhoneNumber : string;
  snsConfig_TargetARN : string;
  snsConfig_Subject : string;
  snsConfig_Message : string;
  snsConfig_Attributes : gomap;
}.
Record telegramConfig := {
  telegramConfig_VSendResolved : option bool;
  telegramConfig_APIUrl : string;
  telegramConfig_BotToken : string;
  telegramConfig_BotTokenFile : string;
  telegramConfig_ChatID : Z;
  telegramConfig_MessageThreadID : Z;
  telegramConfig_Message : string;
  telegramConfig_DisableNotifications : bool;
  telegramConfig_ParseMode : string;
  telegramConfig_HTTPConfig : option httpClientConfig;
}.
Record discordConfig := {
  discordConfig_VSendResolved : option bool;
  discordConfig_HTTPConfig : option httpClientConfig;
  discordConfig_WebhookURL : string;
  discordConfig_Title : string;
  discordConfig_Message : string;
  discordConfig_Content : string;
  discordConfig_Username : string;
  discordConfig_AvatarURL : string;
}.
Record webexConfig := {
  webexConfig_VSendResolved : option bool;
  webexConfig_HTTPConfig : option httpClientConfig;
  webexConfig_APIURL : string;
  webexConfig_Message : string;
  webexConfig_RoomID : string;
}.
Record victorOpsConfig := {
  victorOpsConfig_VSendResolved : option bool;
  victorOpsConfig_HTTPConfig : option httpClientConfig;
  victorOpsConfig_APIKey : string;
  victorOpsConfig_APIKeyFile : string;
  victorOpsConfig_APIURL : string;
  victorOpsConfig_RoutingKey : string;
  victorOpsConfig_MessageType : string;
  victorOpsConfig_StateMessage : string;
  victorOpsConfig_EntityDisplayName : string;
  victorOpsConfig_MonitoringTool : string;
  victorOpsConfig_CustomFields : gomap;
}.
Record msTeamsConfig := {
  msTeamsConfig_SendResolved : option bool;
  msTeamsConfig_WebhookURL : string;
  msTeamsConfig_Title : string;
  msTeamsConfig_Summary : string;
  msTeamsConfig_Text : string;
  msTeamsConfig_HTTPConfig : option httpClientConfig;
}.
Record msTeamsV2Config := {
  msTeamsV2Config_SendResolved : option bool;
  msTeamsV2Config_WebhookURL : string;
  msTeamsV2Config_WebhookURLFile : string;
  msTeamsV2Config_Title : string;
  msTeamsV2Config_Text : string;
  msTeamsV2Config_HTTPConfig : option httpClientConfig;
}.
Record jiraConfig := {
  jiraConfig_HTTPConfig : option httpClientConfig;
  jiraConfig_APIURL : string;
  jiraConfig_Project : string;
  jiraConfig_Summary : string;
  jiraConfig_Description : string;
  jiraConfig_Labels : list string;
  jiraConfig_Priority : string;
  jiraConfig_IssueType : string;
  jiraConfig_ReopenTransition : string;
  jiraConfig_ResolveTransition : string;
  jiraConfig_WontFixResolution : string;
  jiraConfig_ReopenDuration : Z;
  jiraConfig_Fields : option (gmap string yaml);
}.
Record rocketchatAttachmentField := {
  rocketchatAttachmentField_Short : option bool;
  rocketchatAttachmentField_Title : string;
  rocketchatAttachmentField_Value : string;
}.
Record rocketchatAttachmentAction := {
  rocketchatAttachmentAction_Type : string;
  rocketchatAttachmentAction_Text : string;
  rocketchatAttachmentAction_URL : string;
  rocketchatAttachmentAction_ImageURL : string;
  rocketchatAttachmentAction_IsWebView : bool;
  rocketchatAttachmentAction_WebviewHeightRatio : string;
  rocketchatAttachmentAction_Msg : string;
  rocketchatAttachmentAction_MsgInChatWindow : bool;
  rocketchatAttachmentAction_MsgProcessingType : string;
}.
Record rocketChatConfig := {
  rocketChatConfig_HTTPConfig : option httpClientConfig;
  rocketChatConfig_APIURL : string;
  rocketChatConfig_TokenID : option string;
  rocketChatConfig_TokenIDFile : string;
  rocketChatConfig_Token : option string;
  rocketChatConfig_TokenFile : string;
  rocketChatConfig_Channel : string;
  rocketChatConfig_Color : string;
  rocketChatConfig_Title : string;
  rocketChatConfig_TitleLink : string;
  rocketChatConfig_Text : string;
  rocketChatConfig_Fields : list rocketchatAttachmentField;
  rocketChatConfig_ShortFields : bool;
  rocketChatConfig_Emoji : string;
  rocketChatConfig_IconURL : string;
  rocketChatConfig_ImageURL : string;
  rocketChatConfig_ThumbURL : string;
  rocketChatConfig_LinkNames : bool;
  rocketChatConfig_Actions : list rocketchatAttachmentAction;
}.
Record receiver := {
  receiver_Name : string;
  receiver_OpsgenieConfigs : list opsgenieConfig;
  receiver_PagerdutyConfigs : list pagerdutyConfig;
  receiver_SlackConfigs : list slackConfig;
  receiver_WebhookConfigs : list webhookConfig;
  receiver_WeChatConfigs : list weChatConfig;
  receiver_EmailConfigs : list emailConfig;
  receiver_PushoverConfigs : list pushoverConfig;
  receiver_VictorOpsConfigs : list victorOpsConfig;
  receiver_SNSConfigs : list snsConfig;
  receiver_TelegramConfigs : list telegramConfig;
  receiver_DiscordConfigs : list discordConfig;
  receiver_WebexConfigs : list webexConfig;
  receiver_MSTeamsConfigs : list msTeamsConfig;
  receiver_MSTeamsV2Configs : list msTeamsV2Config;
  receiver_JiraConfigs : list jiraConfig;
  receiver_RocketChatConfigs : list rocketChatConfig;
}.
Record alertmanagerConfig := {
  alertmanagerConfig_Global : option globalConfig;
  alertmanagerConfig_Route : option route;
  alertmanagerConfig_InhibitRules : list inhibitRule;
  alertmanagerConfig_Receivers : list receiver;
  alertmanagerConfig_MuteTimeIntervals : list timeInterval;
  alertmanagerConfig_TimeIntervals : list timeInterval;
  alertmanagerConfig_Templates : list string;
}.
Definition set_proxyConfig_ProxyURL (v : string) (r : proxyConfig) : proxyConfig := {| proxyConfig_ProxyURL := v;
  proxyConfig_NoProxy := proxyConfig_NoProxy r; proxyConfig_ProxyFromEnvironment := proxyConfig_ProxyFromEnvironment
  r; proxyConfig_ProxyConnectHeader := proxyConfig_ProxyConnectHeader r |}.
Definition set_proxyConfig_NoProxy (v : string) (r : proxyConfig) : proxyConfig := {| proxyConfig_ProxyURL :=
  proxyConfig_ProxyURL r; proxyConfig_NoProxy := v; proxyConfig_ProxyFromEnvironment :=
  proxyConfig_ProxyFromEnvironment r; proxyConfig_ProxyConnectHeader := proxyConfig_ProxyConnectHeader r |}.
Definition set_proxyConfig_ProxyFromEnvironment (v : bool) (r : proxyConfig) : proxyConfig := {| proxyConfig_ProxyURL
  := proxyConfig_ProxyURL r; proxyConfig_NoProxy := proxyConfig_NoProxy r; proxyConfig_ProxyFromEnvironment := v;
  proxyConfig_ProxyConnectHeader := proxyConfig_ProxyConnectHeader r |}.
Definition set_proxyConfig_ProxyConnectHeader (v : option (gmap string (list string))) (r : proxyConfig) : proxyConfig
  := {| proxyConfig_ProxyURL := proxyConfig_ProxyURL r; proxyConfig_NoProxy := proxyConfig_NoProxy r;
  proxyConfig_ProxyFromEnvironment := proxyConfig_ProxyFromEnvironment r; proxyConfig_ProxyConnectHeader := v |}.
Definition set_tlsConfig_MinVersion (v : string) (r : tlsConfig) : tlsConfig := {| tlsConfig_CAFile :=
  tlsConfig_CAFile r; tlsConfig_CertFile := tlsConfig_CertFile r; tlsConfig_KeyFile := tlsConfig_KeyFile r;
  tlsConfig_ServerName := tlsConfig_ServerName r; tlsConfig_InsecureSkipVerify := tlsConfig_InsecureSkipVerify r;
  tlsConfig_MinVersion := v; tlsConfig_MaxVersion := tlsConfig_MaxVersion r |}.
Definition set_tlsConfig_MaxVersion (v : string) (r : tlsConfig) : tlsConfig := {| tlsConfig_CAFile :=
  tlsConfig_CAFile r; tlsConfig_CertFile := tlsConfig_CertFile r; tlsConfig_KeyFile := tlsConfig_KeyFile r;
  tlsConfig_ServerName := tlsConfig_ServerName r; tlsConfig_InsecureSkipVerify := tlsConfig_InsecureSkipVerify r;
  tlsConfig_MinVersion := tlsConfig_MinVersion r; tlsConfig_MaxVersion := v |}.
Definition set_oauth2_proxyConfig (v : proxyConfig) (r : oauth2) : oauth2 := {| oauth2_ClientID := oauth2_ClientID r;
  oauth2_ClientSecret := oauth2_ClientSecret r; oauth2_ClientSecretFile := oauth2_ClientSecretFile r; oauth2_Scopes :=
  oauth2_Scopes r; oauth2_TokenURL := oauth2_TokenURL r; oauth2_EndpointParams := oauth2_EndpointParams r;
  oauth2_proxyConfig := v; oauth2_TLSConfig := oauth2_TLSConfig r |}.
Definition set_httpClientConfig_FollowRedirects (v : option bool) (r : httpClientConfig) : httpClientConfig := {|
  httpClientConfig_Authorization := httpClientConfig_Authorization r; httpClientConfig_BasicAuth :=
  httpClientConfig_BasicAuth r; httpClientConfig_OAuth2 := httpClientConfig_OAuth2 r; httpClientConfig_BearerToken :=
  httpClientConfig_BearerToken r; httpClientConfig_BearerTokenFile := httpClientConfig_BearerTokenFile r;
  httpClientConfig_TLSConfig := httpClientConfig_TLSConfig r; httpClientConfig_FollowRedirects := v;
  httpClientConfig_EnableHTTP2 := httpClientConfig_EnableHTTP2 r; httpClientConfig_proxyConfig :=
  httpClientConfig_proxyConfig r |}.
Definition set_httpClientConfig_EnableHTTP2 (v : option bool) (r : httpClientConfig) : httpClientConfig := {|
  httpClientConfig_Authorization := httpClientConfig_Authorization r; httpClientConfig_BasicAuth :=
  httpClientConfig_BasicAuth r; httpClientConfig_OAuth2 := httpClientConfig_OAuth2 r; httpClientConfig_BearerToken :=
  httpClientConfig_BearerToken r; httpClientConfig_BearerTokenFile := httpClientConfig_BearerTokenFile r;
  httpClientConfig_TLSConfig := httpClientConfig_TLSConfig r; httpClientConfig_FollowRedirects :=
  httpClientConfig_FollowRedirects r; httpClientConfig_EnableHTTP2 := v; httpClientConfig_proxyConfig :=
  httpClientConfig_proxyConfig r |}.
Definition set_httpClientConfig_TLSConfig (v : option tlsConfig) (r : httpClientConfig) : httpClientConfig := {|
  httpClientConfig_Authorization := httpClientConfig_Authorization r; httpClientConfig_BasicAuth :=
  httpClientConfig_BasicAuth r; httpClientConfig_OAuth2 := httpClientConfig_OAuth2 r; httpClientConfig_BearerToken :=
  httpClientConfig_BearerToken r; httpClientConfig_BearerTokenFile := httpClientConfig_BearerTokenFile r;
  httpClientConfig_TLSConfig := v; httpClientConfig_FollowRedirects := httpClientConfig_FollowRedirects r;
  httpClientConfig_EnableHTTP2 := httpClientConfig_EnableHTTP2 r; httpClientConfig_proxyConfig :=
  httpClientConfig_proxyConfig r |}.
Definition set_httpClientConfig_proxyConfig (v : proxyConfig) (r : httpClientConfig) : httpClientConfig := {|
  httpClientConfig_Authorization := httpClientConfig_Authorization r; httpClientConfig_BasicAuth :=
  httpClientConfig_BasicAuth r; httpClientConfig_OAuth2 := httpClientConfig_OAuth2 r; httpClientConfig_BearerToken :=
  httpClientConfig_BearerToken r; httpClientConfig_BearerTokenFile := httpClientConfig_BearerTokenFile r;
  httpClientConfig_TLSConfig := httpClientConfig_TLSConfig r; httpClientConfig_FollowRedirects :=
  httpClientConfig_FollowRedirects r; httpClientConfig_EnableHTTP2 := httpClientConfig_EnableHTTP2 r;
  httpClientConfig_proxyConfig := v |}.
Definition set_httpClientConfig_OAuth2 (v : option oauth2) (r : httpClientConfig) : httpClientConfig := {|
  httpClientConfig_Authorization := httpClientConfig_Authorization r; httpClientConfig_BasicAuth :=
  httpClientConfig_BasicAuth r; httpClientConfig_OAuth2 := v; httpClientConfig_BearerToken :=
  httpClientConfig_BearerToken r; httpClientConfig_BearerTokenFile := httpClientConfig_BearerTokenFile r;
  httpClientConfig_TLSConfig := httpClientConfig_TLSConfig r; httpClientConfig_FollowRedirects :=
  httpClientConfig_FollowRedirects r; httpClientConfig_EnableHTTP2 := httpClientConfig_EnableHTTP2 r;
  httpClientConfig_proxyConfig := httpClientConfig_proxyConfig r |}.
Definition set_httpClientConfig_BasicAuth (v : option basicAuth) (r : httpClientConfig) : httpClientConfig := {|
  httpClientConfig_Authorization := httpClientConfig_Authorization r; httpClientConfig_BasicAuth := v;
  httpClientConfig_OAuth2 := httpClientConfig_OAuth2 r; httpClientConfig_BearerToken := httpClientConfig_BearerToken
  r; httpClientConfig_BearerTokenFile := httpClientConfig_BearerTokenFile r; httpClientConfig_TLSConfig :=
  httpClientConfig_TLSConfig r; httpClientConfig_FollowRedirects := httpClientConfig_FollowRedirects r;
  httpClientConfig_EnableHTTP2 := httpClientConfig_EnableHTTP2 r; httpClientConfig_proxyConfig :=
  httpClientConfig_proxyConfig r |}.
Definition set_httpClientConfig_Authorization (v : option authorization) (r : httpClientConfig) : httpClientConfig :=
  {| httpClientConfig_Authorization := v; httpClientConfig_BasicAuth := httpClientConfig_BasicAuth r;
  httpClientConfig_OAuth2 := httpClientConfig_OAuth2 r; httpClientConfig_BearerToken := httpClientConfig_BearerToken
  r; httpClientConfig_BearerTokenFile := httpClientConfig_BearerTokenFile r; httpClientConfig_TLSConfig :=
  httpClientConfig_TLSConfig r; httpClientConfig_FollowRedirects := httpClientConfig_FollowRedirects r;
  httpClientConfig_EnableHTTP2 := httpClientConfig_EnableHTTP2 r; httpClientConfig_proxyConfig :=
  httpClientConfig_proxyConfig r |}.
Definition set_httpClientConfig_BearerToken (v : string) (r : httpClientConfig) : httpClientConfig := {|
  httpClientConfig_Authorization := httpClientConfig_Authorization r; httpClientConfig_BasicAuth :=
  httpClientConfig_BasicAuth r; httpClientConfig_OAuth2 := httpClientConfig_OAuth2 r; httpClientConfig_BearerToken :=
  v; httpClientConfig_BearerTokenFile := httpClientConfig_BearerTokenFile r; httpClientConfig_TLSConfig :=
  httpClientConfig_TLSConfig r; httpClientConfig_FollowRedirects := httpClientConfig_FollowRedirects r;
  httpClientConfig_EnableHTTP2 := httpClientConfig_EnableHTTP2 r; httpClientConfig_proxyConfig :=
  httpClientConfig_proxyConfig r |}.
Definition set_globalConfig_SMTPTLSConfig (v : option tlsConfig) (r : globalConfig) : globalConfig := {|
  globalConfig_ResolveTimeout := globalConfig_ResolveTimeout r; globalConfig_HTTPConfig := globalConfig_HTTPConfig r;
  globalConfig_SMTPFrom := globalConfig_SMTPFrom r; globalConfig_SMTPHello := globalConfig_SMTPHello r;
  globalConfig_SMTPSmarthost := globalConfig_SMTPSmarthost r; globalConfig_SMTPAuthUsername :=
  globalConfig_SMTPAuthUsername r; globalConfig_SMTPAuthPassword := globalConfig_SMTPAuthPassword r;
  globalConfig_SMTPAuthPasswordFile := globalConfig_SMTPAuthPasswordFile r; globalConfig_SMTPAuthSecret :=
  globalConfig_SMTPAuthSecret r; globalConfig_SMTPAuthIdentity := globalConfig_SMTPAuthIdentity r;
  globalConfig_SMTPRequireTLS := globalConfig_SMTPRequireTLS r; globalConfig_SMTPTLSConfig := v;
  globalConfig_SlackAPIURL := globalConfig_SlackAPIURL r; globalConfig_SlackAPIURLFile := globalConfig_SlackAPIURLFile
  r; globalConfig_PagerdutyURL := globalConfig_PagerdutyURL r; globalConfig_HipchatAPIURL :=
  globalConfig_HipchatAPIURL r; globalConfig_HipchatAuthToken := globalConfig_HipchatAuthToken r;
  globalConfig_OpsGenieAPIURL := globalConfig_OpsGenieAPIURL r; globalConfig_OpsGenieAPIKey :=
  globalConfig_OpsGenieAPIKey r; globalConfig_OpsGenieAPIKeyFile := globalConfig_OpsGenieAPIKeyFile r;
  globalConfig_WeChatAPIURL := globalConfig_WeChatAPIURL r; globalConfig_WeChatAPISecret :=
  globalConfig_WeChatAPISecret r; globalConfig_WeChatAPICorpID := globalConfig_WeChatAPICorpID r;
  globalConfig_VictorOpsAPIURL := globalConfig_VictorOpsAPIURL r; globalConfig_VictorOpsAPIKey :=
  globalConfig_VictorOpsAPIKey r; globalConfig_VictorOpsAPIKeyFile := globalConfig_VictorOpsAPIKeyFile r;
  globalConfig_TelegramAPIURL := globalConfig_TelegramAPIURL r; globalConfig_WebexAPIURL := globalConfig_WebexAPIURL
  r; globalConfig_JiraAPIURL := globalConfig_JiraAPIURL r; globalConfig_RocketChatAPIURL :=
  globalConfig_RocketChatAPIURL r; globalConfig_RocketChatToken := globalConfig_RocketChatToken r;
  globalConfig_RocketChatTokenFile := globalConfig_RocketChatTokenFile r; globalConfig_RocketChatTokenID :=
  globalConfig_RocketChatTokenID r; globalConfig_RocketChatTokenIDFile := globalConfig_RocketChatTokenIDFile r |}.
Definition set_globalConfig_SlackAPIURLFile (v : string) (r : globalConfig) : globalConfig := {|
  globalConfig_ResolveTimeout := globalConfig_ResolveTimeout r; globalConfig_HTTPConfig := globalConfig_HTTPConfig r;
  globalConfig_SMTPFrom := globalConfig_SMTPFrom r; globalConfig_SMTPHello := globalConfig_SMTPHello r;
  globalConfig_SMTPSmarthost := globalConfig_SMTPSmarthost r; globalConfig_SMTPAuthUsername :=
  globalConfig_SMTPAuthUsername r; globalConfig_SMTPAuthPassword := globalConfig_SMTPAuthPassword r;
  globalConfig_SMTPAuthPasswordFile := globalConfig_SMTPAuthPasswordFile r; globalConfig_SMTPAuthSecret :=
  globalConfig_SMTPAuthSecret r; globalConfig_SMTPAuthIdentity := globalConfig_SMTPAuthIdentity r;
  globalConfig_SMTPRequireTLS := globalConfig_SMTPRequireTLS r; globalConfig_SMTPTLSConfig :=
  globalConfig_SMTPTLSConfig r; globalConfig_SlackAPIURL := globalConfig_SlackAPIURL r; globalConfig_SlackAPIURLFile
  := v; globalConfig_PagerdutyURL := globalConfig_PagerdutyURL r; globalConfig_HipchatAPIURL :=
  globalConfig_HipchatAPIURL r; globalConfig_HipchatAuthToken := globalConfig_HipchatAuthToken r;
  globalConfig_OpsGenieAPIURL := globalConfig_OpsGenieAPIURL r; globalConfig_OpsGenieAPIKey :=
  globalConfig_OpsGenieAPIKey r; globalConfig_OpsGenieAPIKeyFile := globalConfig_OpsGenieAPIKeyFile r;
  globalConfig_WeChatAPIURL := globalConfig_WeChatAPIURL r; globalConfig_WeChatAPISecret :=
  globalConfig_WeChatAPISecret r; globalConfig_WeChatAPICorpID := globalConfig_WeChatAPICorpID r;
  globalConfig_VictorOpsAPIURL := globalConfig_VictorOpsAPIURL r; globalConfig_VictorOpsAPIKey :=
  globalConfig_VictorOpsAPIKey r; globalConfig_VictorOpsAPIKeyFile := globalConfig_VictorOpsAPIKeyFile r;
  globalConfig_TelegramAPIURL := globalConfig_TelegramAPIURL r; globalConfig_WebexAPIURL := globalConfig_WebexAPIURL
  r; globalConfig_JiraAPIURL := globalConfig_JiraAPIURL r; globalConfig_RocketChatAPIURL :=
  globalConfig_RocketChatAPIURL r; globalConfig_RocketChatToken := globalConfig_RocketChatToken r;
  globalConfig_RocketChatTokenFile := globalConfig_RocketChatTokenFile r; globalConfig_RocketChatTokenID :=
  globalConfig_RocketChatTokenID r; globalConfig_RocketChatTokenIDFile := globalConfig_RocketChatTokenIDFile r |}.
Definition set_globalConfig_OpsGenieAPIKeyFile (v : string) (r : globalConfig) : globalConfig := {|
  globalConfig_ResolveTimeout := globalConfig_ResolveTimeout r; globalConfig_HTTPConfig := globalConfig_HTTPConfig r;
  globalConfig_SMTPFrom := globalConfig_SMTPFrom r; globalConfig_SMTPHello := globalConfig_SMTPHello r;
  globalConfig_SMTPSmarthost := globalConfig_SMTPSmarthost r; globalConfig_SMTPAuthUsername :=
  globalConfig_SMTPAuthUsername r; globalConfig_SMTPAuthPassword := globalConfig_SMTPAuthPassword r;
  globalConfig_SMTPAuthPasswordFile := globalConfig_SMTPAuthPasswordFile r; globalConfig_SMTPAuthSecret :=
  globalConfig_SMTPAuthSecret r; globalConfig_SMTPAuthIdentity := globalConfig_SMTPAuthIdentity r;
  globalConfig_SMTPRequireTLS := globalConfig_SMTPRequireTLS r; globalConfig_SMTPTLSConfig :=
  globalConfig_SMTPTLSConfig r; globalConfig_SlackAPIURL := globalConfig_SlackAPIURL r; globalConfig_SlackAPIURLFile
  := globalConfig_SlackAPIURLFile r; globalConfig_PagerdutyURL := globalConfig_PagerdutyURL r;
  globalConfig_HipchatAPIURL := globalConfig_HipchatAPIURL r; globalConfig_HipchatAuthToken :=
  globalConfig_HipchatAuthToken r; globalConfig_OpsGenieAPIURL := globalConfig_OpsGenieAPIURL r;
  globalConfig_OpsGenieAPIKey := globalConfig_OpsGenieAPIKey r; globalConfig_OpsGenieAPIKeyFile := v;
  globalConfig_WeChatAPIURL := globalConfig_WeChatAPIURL r; globalConfig_WeChatAPISecret :=
  globalConfig_WeChatAPISecret r; globalConfig_WeChatAPICorpID := globalConfig_WeChatAPICorpID r;
  globalConfig_VictorOpsAPIURL := globalConfig_VictorOpsAPIURL r; globalConfig_VictorOpsAPIKey :=
  globalConfig_VictorOpsAPIKey r; globalConfig_VictorOpsAPIKeyFile := globalConfig_VictorOpsAPIKeyFile r;
  globalConfig_TelegramAPIURL := globalConfig_TelegramAPIURL r; globalConfig_WebexAPIURL := globalConfig_WebexAPIURL
  r; globalConfig_JiraAPIURL := globalConfig_JiraAPIURL r; globalConfig_RocketChatAPIURL :=
  globalConfig_RocketChatAPIURL r; globalConfig_RocketChatToken := globalConfig_RocketChatToken r;
  globalConfig_RocketChatTokenFile := globalConfig_RocketChatTokenFile r; globalConfig_RocketChatTokenID :=
  globalConfig_RocketChatTokenID r; globalConfig_RocketChatTokenIDFile := globalConfig_RocketChatTokenIDFile r |}.
Definition set_globalConfig_SMTPAuthPasswordFile (v : string) (r : globalConfig) : globalConfig := {|
  globalConfig_ResolveTimeout := globalConfig_ResolveTimeout r; globalConfig_HTTPConfig := globalConfig_HTTPConfig r;
  globalConfig_SMTPFrom := globalConfig_SMTPFrom r; globalConfig_SMTPHello := globalConfig_SMTPHello r;
  globalConfig_SMTPSmarthost := globalConfig_SMTPSmarthost r; globalConfig_SMTPAuthUsername :=
  globalConfig_SMTPAuthUsername r; globalConfig_SMTPAuthPassword := globalConfig_SMTPAuthPassword r;
  globalConfig_SMTPAuthPasswordFile := v; globalConfig_SMTPAuthSecret := globalConfig_SMTPAuthSecret r;
  globalConfig_SMTPAuthIdentity := globalConfig_SMTPAuthIdentity r; globalConfig_SMTPRequireTLS :=
  globalConfig_SMTPRequireTLS r; globalConfig_SMTPTLSConfig := globalConfig_SMTPTLSConfig r; globalConfig_SlackAPIURL
  := globalConfig_SlackAPIURL r; globalConfig_SlackAPIURLFile := globalConfig_SlackAPIURLFile r;
  globalConfig_PagerdutyURL := globalConfig_PagerdutyURL r; globalConfig_HipchatAPIURL := globalConfig_HipchatAPIURL
  r; globalConfig_HipchatAuthToken := globalConfig_HipchatAuthToken r; globalConfig_OpsGenieAPIURL :=
  globalConfig_OpsGenieAPIURL r; globalConfig_OpsGenieAPIKey := globalConfig_OpsGenieAPIKey r;
  globalConfig_OpsGenieAPIKeyFile := globalConfig_OpsGenieAPIKeyFile r; globalConfig_WeChatAPIURL :=
  globalConfig_WeChatAPIURL r; globalConfig_WeChatAPISecret := globalConfig_WeChatAPISecret r;
  globalConfig_WeChatAPICorpID := globalConfig_WeChatAPICorpID r; globalConfig_VictorOpsAPIURL :=
  globalConfig_VictorOpsAPIURL r; globalConfig_VictorOpsAPIKey := globalConfig_VictorOpsAPIKey r;
  globalConfig_VictorOpsAPIKeyFile := globalConfig_VictorOpsAPIKeyFile r; globalConfig_TelegramAPIURL :=
  globalConfig_TelegramAPIURL r; globalConfig_WebexAPIURL := globalConfig_WebexAPIURL r; globalConfig_JiraAPIURL :=
  globalConfig_JiraAPIURL r; globalConfig_RocketChatAPIURL := globalConfig_RocketChatAPIURL r;
  globalConfig_RocketChatToken := globalConfig_RocketChatToken r; globalConfig_RocketChatTokenFile :=
  globalConfig_RocketChatTokenFile r; globalConfig_RocketChatTokenID := globalConfig_RocketChatTokenID r;
  globalConfig_RocketChatTokenIDFile := globalConfig_RocketChatTokenIDFile r |}.
Definition set_globalConfig_VictorOpsAPIKeyFile (v : string) (r : globalConfig) : globalConfig := {|
  globalConfig_ResolveTimeout := globalConfig_ResolveTimeout r; globalConfig_HTTPConfig := globalConfig_HTTPConfig r;
  globalConfig_SMTPFrom := globalConfig_SMTPFrom r; globalConfig_SMTPHello := globalConfig_SMTPHello r;
  globalConfig_SMTPSmarthost := globalConfig_SMTPSmarthost r; globalConfig_SMTPAuthUsername :=
  globalConfig_SMTPAuthUsername r; globalConfig_SMTPAuthPassword := globalConfig_SMTPAuthPassword r;
  globalConfig_SMTPAuthPasswordFile := globalConfig_SMTPAuthPasswordFile r; globalConfig_SMTPAuthSecret :=
  globalConfig_SMTPAuthSecret r; globalConfig_SMTPAuthIdentity := globalConfig_SMTPAuthIdentity r;
  globalConfig_SMTPRequireTLS := globalConfig_SMTPRequireTLS r; globalConfig_SMTPTLSConfig :=
  globalConfig_SMTPTLSConfig r; globalConfig_SlackAPIURL := globalConfig_SlackAPIURL r; globalConfig_SlackAPIURLFile
  := globalConfig_SlackAPIURLFile r; globalConfig_PagerdutyURL := globalConfig_PagerdutyURL r;
  globalConfig_HipchatAPIURL := globalConfig_HipchatAPIURL r; globalConfig_HipchatAuthToken :=
  globalConfig_HipchatAuthToken r; globalConfig_OpsGenieAPIURL := globalConfig_OpsGenieAPIURL r;
  globalConfig_OpsGenieAPIKey := globalConfig_OpsGenieAPIKey r; globalConfig_OpsGenieAPIKeyFile :=
  globalConfig_OpsGenieAPIKeyFile r; globalConfig_WeChatAPIURL := globalConfig_WeChatAPIURL r;
  globalConfig_WeChatAPISecret := globalConfig_WeChatAPISecret r; globalConfig_WeChatAPICorpID :=
  globalConfig_WeChatAPICorpID r; globalConfig_VictorOpsAPIURL := globalConfig_VictorOpsAPIURL r;
  globalConfig_VictorOpsAPIKey := globalConfig_VictorOpsAPIKey r; globalConfig_VictorOpsAPIKeyFile := v;
  globalConfig_TelegramAPIURL := globalConfig_TelegramAPIURL r; globalConfig_WebexAPIURL := globalConfig_WebexAPIURL
  r; globalConfig_JiraAPIURL := globalConfig_JiraAPIURL r; globalConfig_RocketChatAPIURL :=
  globalConfig_RocketChatAPIURL r; globalConfig_RocketChatToken := globalConfig_RocketChatToken r;
  globalConfig_RocketChatTokenFile := globalConfig_RocketChatTokenFile r; globalConfig_RocketChatTokenID :=
  globalConfig_RocketChatTokenID r; globalConfig_RocketChatTokenIDFile := globalConfig_RocketChatTokenIDFile r |}.
Definition set_globalConfig_HTTPConfig (v : option httpClientConfig) (r : globalConfig) : globalConfig := {|
  globalConfig_ResolveTimeout := globalConfig_ResolveTimeout r; globalConfig_HTTPConfig := v; globalConfig_SMTPFrom :=
  globalConfig_SMTPFrom r; globalConfig_SMTPHello := globalConfig_SMTPHello r; globalConfig_SMTPSmarthost :=
  globalConfig_SMTPSmarthost r; globalConfig_SMTPAuthUsername := globalConfig_SMTPAuthUsername r;
  globalConfig_SMTPAuthPassword := globalConfig_SMTPAuthPassword r; globalConfig_SMTPAuthPasswordFile :=
  globalConfig_SMTPAuthPasswordFile r; globalConfig_SMTPAuthSecret := globalConfig_SMTPAuthSecret r;
  globalConfig_SMTPAuthIdentity := globalConfig_SMTPAuthIdentity r; globalConfig_SMTPRequireTLS :=
  globalConfig_SMTPRequireTLS r; globalConfig_SMTPTLSConfig := globalConfig_SMTPTLSConfig r; globalConfig_SlackAPIURL
  := globalConfig_SlackAPIURL r; globalConfig_SlackAPIURLFile := globalConfig_SlackAPIURLFile r;
  globalConfig_PagerdutyURL := globalConfig_PagerdutyURL r; globalConfig_HipchatAPIURL := globalConfig_HipchatAPIURL
  r; globalConfig_HipchatAuthToken := globalConfig_HipchatAuthToken r; globalConfig_OpsGenieAPIURL :=
  globalConfig_OpsGenieAPIURL r; globalConfig_OpsGenieAPIKey := globalConfig_OpsGenieAPIKey r;
  globalConfig_OpsGenieAPIKeyFile := globalConfig_OpsGenieAPIKeyFile r; globalConfig_WeChatAPIURL :=
  globalConfig_WeChatAPIURL r; globalConfig_WeChatAPISecret := globalConfig_WeChatAPISecret r;
  globalConfig_WeChatAPICorpID := globalConfig_WeChatAPICorpID r; globalConfig_VictorOpsAPIURL :=
  globalConfig_VictorOpsAPIURL r; globalConfig_VictorOpsAPIKey := globalConfig_VictorOpsAPIKey r;
  globalConfig_VictorOpsAPIKeyFile := globalConfig_VictorOpsAPIKeyFile r; globalConfig_TelegramAPIURL :=
  globalConfig_TelegramAPIURL r; globalConfig_WebexAPIURL := globalConfig_WebexAPIURL r; globalConfig_JiraAPIURL :=
  globalConfig_JiraAPIURL r; globalConfig_RocketChatAPIURL := globalConfig_RocketChatAPIURL r;
  globalConfig_RocketChatToken := globalConfig_RocketChatToken r; globalConfig_RocketChatTokenFile :=
  globalConfig_RocketChatTokenFile r; globalConfig_RocketChatTokenID := globalConfig_RocketChatTokenID r;
  globalConfig_RocketChatTokenIDFile := globalConfig_RocketChatTokenIDFile r |}.
Definition set_globalConfig_SMTPFrom (v : string) (r : globalConfig) : globalConfig := {| globalConfig_ResolveTimeout
  := globalConfig_ResolveTimeout r; globalConfig_HTTPConfig := globalConfig_HTTPConfig r; globalConfig_SMTPFrom := v;
  globalConfig_SMTPHello := globalConfig_SMTPHello r; globalConfig_SMTPSmarthost := globalConfig_SMTPSmarthost r;
  globalConfig_SMTPAuthUsername := globalConfig_SMTPAuthUsername r; globalConfig_SMTPAuthPassword :=
  globalConfig_SMTPAuthPassword r; globalConfig_SMTPAuthPasswordFile := globalConfig_SMTPAuthPasswordFile r;
  globalConfig_SMTPAuthSecret := globalConfig_SMTPAuthSecret r; globalConfig_SMTPAuthIdentity :=
  globalConfig_SMTPAuthIdentity r; globalConfig_SMTPRequireTLS := globalConfig_SMTPRequireTLS r;
  globalConfig_SMTPTLSConfig := globalConfig_SMTPTLSConfig r; globalConfig_SlackAPIURL := globalConfig_SlackAPIURL r;
  globalConfig_SlackAPIURLFile := globalConfig_SlackAPIURLFile r; globalConfig_PagerdutyURL :=
  globalConfig_PagerdutyURL r; globalConfig_HipchatAPIURL := globalConfig_HipchatAPIURL r;
  globalConfig_HipchatAuthToken := globalConfig_HipchatAuthToken r; globalConfig_OpsGenieAPIURL :=
  globalConfig_OpsGenieAPIURL r; globalConfig_OpsGenieAPIKey := globalConfig_OpsGenieAPIKey r;
  globalConfig_OpsGenieAPIKeyFile := globalConfig_OpsGenieAPIKeyFile r; globalConfig_WeChatAPIURL :=
  globalConfig_WeChatAPIURL r; globalConfig_WeChatAPISecret := globalConfig_WeChatAPISecret r;
  globalConfig_WeChatAPICorpID := globalConfig_WeChatAPICorpID r; globalConfig_VictorOpsAPIURL :=
  globalConfig_VictorOpsAPIURL r; globalConfig_VictorOpsAPIKey := globalConfig_VictorOpsAPIKey r;
  globalConfig_VictorOpsAPIKeyFile := globalConfig_VictorOpsAPIKeyFile r; globalConfig_TelegramAPIURL :=
  globalConfig_TelegramAPIURL r; globalConfig_WebexAPIURL := globalConfig_WebexAPIURL r; globalConfig_JiraAPIURL :=
  globalConfig_JiraAPIURL r; globalConfig_RocketChatAPIURL := globalConfig_RocketChatAPIURL r;
  globalConfig_RocketChatToken := globalConfig_RocketChatToken r; globalConfig_RocketChatTokenFile :=
  globalConfig_RocketChatTokenFile r; globalConfig_RocketChatTokenID := globalConfig_RocketChatTokenID r;
  globalConfig_RocketChatTokenIDFile := globalConfig_RocketChatTokenIDFile r |}.
Definition set_globalConfig_SMTPHello (v : string) (r : globalConfig) : globalConfig := {| globalConfig_ResolveTimeout
  := globalConfig_ResolveTimeout r; globalConfig_HTTPConfig := globalConfig_HTTPConfig r; globalConfig_SMTPFrom :=
  globalConfig_SMTPFrom r; globalConfig_SMTPHello := v; globalConfig_SMTPSmarthost := globalConfig_SMTPSmarthost r;
  globalConfig_SMTPAuthUsername := globalConfig_SMTPAuthUsername r; globalConfig_SMTPAuthPassword :=
  globalConfig_SMTPAuthPassword r; globalConfig_SMTPAuthPasswordFile := globalConfig_SMTPAuthPasswordFile r;
  globalConfig_SMTPAuthSecret := globalConfig_SMTPAuthSecret r; globalConfig_SMTPAuthIdentity :=
  globalConfig_SMTPAuthIdentity r; globalConfig_SMTPRequireTLS := globalConfig_SMTPRequireTLS r;
  globalConfig_SMTPTLSConfig := globalConfig_SMTPTLSConfig r; globalConfig_SlackAPIURL := globalConfig_SlackAPIURL r;
  globalConfig_SlackAPIURLFile := globalConfig_SlackAPIURLFile r; globalConfig_PagerdutyURL :=
  globalConfig_PagerdutyURL r; globalConfig_HipchatAPIURL := globalConfig_HipchatAPIURL r;
  globalConfig_HipchatAuthToken := globalConfig_HipchatAuthToken r; globalConfig_OpsGenieAPIURL :=
  globalConfig_OpsGenieAPIURL r; globalConfig_OpsGenieAPIKey := globalConfig_OpsGenieAPIKey r;
  globalConfig_OpsGenieAPIKeyFile := globalConfig_OpsGenieAPIKeyFile r; globalConfig_WeChatAPIURL :=
  globalConfig_WeChatAPIURL r; globalConfig_WeChatAPISecret := globalConfig_WeChatAPISecret r;
  globalConfig_WeChatAPICorpID := globalConfig_WeChatAPICorpID r; globalConfig_VictorOpsAPIURL :=
  globalConfig_VictorOpsAPIURL r; globalConfig_VictorOpsAPIKey := globalConfig_VictorOpsAPIKey r;
  globalConfig_VictorOpsAPIKeyFile := globalConfig_VictorOpsAPIKeyFile r; globalConfig_TelegramAPIURL :=
  globalConfig_TelegramAPIURL r; globalConfig_WebexAPIURL := globalConfig_WebexAPIURL r; globalConfig_JiraAPIURL :=
  globalConfig_JiraAPIURL r; globalConfig_RocketChatAPIURL := globalConfig_RocketChatAPIURL r;
  globalConfig_RocketChatToken := globalConfig_RocketChatToken r; globalConfig_RocketChatTokenFile :=
  globalConfig_RocketChatTokenFile r; globalConfig_RocketChatTokenID := globalConfig_RocketChatTokenID r;
  globalConfig_RocketChatTokenIDFile := globalConfig_RocketChatTokenIDFile r |}.
Definition set_globalConfig_SMTPAuthUsername (v : string) (r : globalConfig) : globalConfig := {|
  globalConfig_ResolveTimeout := globalConfig_ResolveTimeout r; globalConfig_HTTPConfig := globalConfig_HTTPConfig r;
  globalConfig_SMTPFrom := globalConfig_SMTPFrom r; globalConfig_SMTPHello := globalConfig_SMTPHello r;
  globalConfig_SMTPSmarthost := globalConfig_SMTPSmarthost r; globalConfig_SMTPAuthUsername := v;
  globalConfig_SMTPAuthPassword := globalConfig_SMTPAuthPassword r; globalConfig_SMTPAuthPasswordFile :=
  globalConfig_SMTPAuthPasswordFile r; globalConfig_SMTPAuthSecret := globalConfig_SMTPAuthSecret r;
  globalConfig_SMTPAuthIdentity := globalConfig_SMTPAuthIdentity r; globalConfig_SMTPRequireTLS :=
  globalConfig_SMTPRequireTLS r; globalConfig_SMTPTLSConfig := globalConfig_SMTPTLSConfig r; globalConfig_SlackAPIURL
  := globalConfig_SlackAPIURL r; globalConfig_SlackAPIURLFile := globalConfig_SlackAPIURLFile r;
  globalConfig_PagerdutyURL := globalConfig_PagerdutyURL r; globalConfig_HipchatAPIURL := globalConfig_HipchatAPIURL
  r; globalConfig_HipchatAuthToken := globalConfig_HipchatAuthToken r; globalConfig_OpsGenieAPIURL :=
  globalConfig_OpsGenieAPIURL r; globalConfig_OpsGenieAPIKey := globalConfig_OpsGenieAPIKey r;
  globalConfig_OpsGenieAPIKeyFile := globalConfig_OpsGenieAPIKeyFile r; globalConfig_WeChatAPIURL :=
  globalConfig_WeChatAPIURL r; globalConfig_WeChatAPISecret := globalConfig_WeChatAPISecret r;
  globalConfig_WeChatAPICorpID := globalConfig_WeChatAPICorpID r; globalConfig_VictorOpsAPIURL :=
  globalConfig_VictorOpsAPIURL r; globalConfig_VictorOpsAPIKey := globalConfig_VictorOpsAPIKey r;
  globalConfig_VictorOpsAPIKeyFile := globalConfig_VictorOpsAPIKeyFile r; globalConfig_TelegramAPIURL :=
  globalConfig_TelegramAPIURL r; globalConfig_WebexAPIURL := globalConfig_WebexAPIURL r; globalConfig_JiraAPIURL :=
  globalConfig_JiraAPIURL r; globalConfig_RocketChatAPIURL := globalConfig_RocketChatAPIURL r;
  globalConfig_RocketChatToken := globalConfig_RocketChatToken r; globalConfig_RocketChatTokenFile :=
  globalConfig_RocketChatTokenFile r; globalConfig_RocketChatTokenID := globalConfig_RocketChatTokenID r;
  globalConfig_RocketChatTokenIDFile := globalConfig_RocketChatTokenIDFile r |}.
Definition set_globalConfig_SMTPAuthIdentity (v : string) (r : globalConfig) : globalConfig := {|
  globalConfig_ResolveTimeout := globalConfig_ResolveTimeout r; globalConfig_HTTPConfig := globalConfig_HTTPConfig r;
  globalConfig_SMTPFrom := globalConfig_SMTPFrom r; globalConfig_SMTPHello := globalConfig_SMTPHello r;
  globalConfig_SMTPSmarthost := globalConfig_SMTPSmarthost r; globalConfig_SMTPAuthUsername :=
  globalConfig_SMTPAuthUsername r; globalConfig_SMTPAuthPassword := globalConfig_SMTPAuthPassword r;
  globalConfig_SMTPAuthPasswordFile := globalConfig_SMTPAuthPasswordFile r; globalConfig_SMTPAuthSecret :=
  globalConfig_SMTPAuthSecret r; globalConfig_SMTPAuthIdentity := v; globalConfig_SMTPRequireTLS :=
  globalConfig_SMTPRequireTLS r; globalConfig_SMTPTLSConfig := globalConfig_SMTPTLSConfig r; globalConfig_SlackAPIURL
  := globalConfig_SlackAPIURL r; globalConfig_SlackAPIURLFile := globalConfig_SlackAPIURLFile r;
  globalConfig_PagerdutyURL := globalConfig_PagerdutyURL r; globalConfig_HipchatAPIURL := globalConfig_HipchatAPIURL
  r; globalConfig_HipchatAuthToken := globalConfig_HipchatAuthToken r; globalConfig_OpsGenieAPIURL :=
  globalConfig_OpsGenieAPIURL r; globalConfig_OpsGenieAPIKey := globalConfig_OpsGenieAPIKey r;
  globalConfig_OpsGenieAPIKeyFile := globalConfig_OpsGenieAPIKeyFile r; globalConfig_WeChatAPIURL :=
  globalConfig_WeChatAPIURL r; globalConfig_WeChatAPISecret := globalConfig_WeChatAPISecret r;
  globalConfig_WeChatAPICorpID := globalConfig_WeChatAPICorpID r; globalConfig_VictorOpsAPIURL :=
  globalConfig_VictorOpsAPIURL r; globalConfig_VictorOpsAPIKey := globalConfig_VictorOpsAPIKey r;
  globalConfig_VictorOpsAPIKeyFile := globalConfig_VictorOpsAPIKeyFile r; globalConfig_TelegramAPIURL :=
  globalConfig_TelegramAPIURL r; globalConfig_WebexAPIURL := globalConfig_WebexAPIURL r; globalConfig_JiraAPIURL :=
  globalConfig_JiraAPIURL r; globalConfig_RocketChatAPIURL := globalConfig_RocketChatAPIURL r;
  globalConfig_RocketChatToken := globalConfig_RocketChatToken r; globalConfig_RocketChatTokenFile :=
  globalConfig_RocketChatTokenFile r; globalConfig_RocketChatTokenID := globalConfig_RocketChatTokenID r;
  globalConfig_RocketChatTokenIDFile := globalConfig_RocketChatTokenIDFile r |}.
Definition set_globalConfig_SMTPRequireTLS (v : option bool) (r : globalConfig) : globalConfig := {|
  globalConfig_ResolveTimeout := globalConfig_ResolveTimeout r; globalConfig_HTTPConfig := globalConfig_HTTPConfig r;
  globalConfig_SMTPFrom := globalConfig_SMTPFrom r; globalConfig_SMTPHello := globalConfig_SMTPHello r;
  globalConfig_SMTPSmarthost := globalConfig_SMTPSmarthost r; globalConfig_SMTPAuthUsername :=
  globalConfig_SMTPAuthUsername r; globalConfig_SMTPAuthPassword := globalConfig_SMTPAuthPassword r;
  globalConfig_SMTPAuthPasswordFile := globalConfig_SMTPAuthPasswordFile r; globalConfig_SMTPAuthSecret :=
  globalConfig_SMTPAuthSecret r; globalConfig_SMTPAuthIdentity := globalConfig_SMTPAuthIdentity r;
  globalConfig_SMTPRequireTLS := v; globalConfig_SMTPTLSConfig := globalConfig_SMTPTLSConfig r;
  globalConfig_SlackAPIURL := globalConfig_SlackAPIURL r; globalConfig_SlackAPIURLFile := globalConfig_SlackAPIURLFile
  r; globalConfig_PagerdutyURL := globalConfig_PagerdutyURL r; globalConfig_HipchatAPIURL :=
  globalConfig_HipchatAPIURL r; globalConfig_HipchatAuthToken := globalConfig_HipchatAuthToken r;
  globalConfig_OpsGenieAPIURL := globalConfig_OpsGenieAPIURL r; globalConfig_OpsGenieAPIKey :=
  globalConfig_OpsGenieAPIKey r; globalConfig_OpsGenieAPIKeyFile := globalConfig_OpsGenieAPIKeyFile r;
  globalConfig_WeChatAPIURL := globalConfig_WeChatAPIURL r; globalConfig_WeChatAPISecret :=
  globalConfig_WeChatAPISecret r; globalConfig_WeChatAPICorpID := globalConfig_WeChatAPICorpID r;
  globalConfig_VictorOpsAPIURL := globalConfig_VictorOpsAPIURL r; globalConfig_VictorOpsAPIKey :=
  globalConfig_VictorOpsAPIKey r; globalConfig_VictorOpsAPIKeyFile := globalConfig_VictorOpsAPIKeyFile r;
  globalConfig_TelegramAPIURL := globalConfig_TelegramAPIURL r; globalConfig_WebexAPIURL := globalConfig_WebexAPIURL
  r; globalConfig_JiraAPIURL := globalConfig_JiraAPIURL r; globalConfig_RocketChatAPIURL :=
  globalConfig_RocketChatAPIURL r; globalConfig_RocketChatToken := globalConfig_RocketChatToken r;
  globalConfig_RocketChatTokenFile := globalConfig_RocketChatTokenFile r; globalConfig_RocketChatTokenID :=
  globalConfig_RocketChatTokenID r; globalConfig_RocketChatTokenIDFile := globalConfig_RocketChatTokenIDFile r |}.
Definition set_globalConfig_SMTPSmarthost (v : HostPort) (r : globalConfig) : globalConfig := {|
  globalConfig_ResolveTimeout := globalConfig_ResolveTimeout r; globalConfig_HTTPConfig := globalConfig_HTTPConfig r;
  globalConfig_SMTPFrom := globalConfig_SMTPFrom r; globalConfig_SMTPHello := globalConfig_SMTPHello r;
  globalConfig_SMTPSmarthost := v; globalConfig_SMTPAuthUsername := globalConfig_SMTPAuthUsername r;
  globalConfig_SMTPAuthPassword := globalConfig_SMTPAuthPassword r; globalConfig_SMTPAuthPasswordFile :=
  globalConfig_SMTPAuthPasswordFile r; globalConfig_SMTPAuthSecret := globalConfig_SMTPAuthSecret r;
  globalConfig_SMTPAuthIdentity := globalConfig_SMTPAuthIdentity r; globalConfig_SMTPRequireTLS :=
  globalConfig_SMTPRequireTLS r; globalConfig_SMTPTLSConfig := globalConfig_SMTPTLSConfig r; globalConfig_SlackAPIURL
  := globalConfig_SlackAPIURL r; globalConfig_SlackAPIURLFile := globalConfig_SlackAPIURLFile r;
  globalConfig_PagerdutyURL := globalConfig_PagerdutyURL r; globalConfig_HipchatAPIURL := globalConfig_HipchatAPIURL
  r; globalConfig_HipchatAuthToken := globalConfig_HipchatAuthToken r; globalConfig_OpsGenieAPIURL :=
  globalConfig_OpsGenieAPIURL r; globalConfig_OpsGenieAPIKey := globalConfig_OpsGenieAPIKey r;
  globalConfig_OpsGenieAPIKeyFile := globalConfig_OpsGenieAPIKeyFile r; globalConfig_WeChatAPIURL :=
  globalConfig_WeChatAPIURL r; globalConfig_WeChatAPISecret := globalConfig_WeChatAPISecret r;
  globalConfig_WeChatAPICorpID := globalConfig_WeChatAPICorpID r; globalConfig_VictorOpsAPIURL :=
  globalConfig_VictorOpsAPIURL r; globalConfig_VictorOpsAPIKey := globalConfig_VictorOpsAPIKey r;
  globalConfig_VictorOpsAPIKeyFile := globalConfig_VictorOpsAPIKeyFile r; globalConfig_TelegramAPIURL :=
  globalConfig_TelegramAPIURL r; globalConfig_WebexAPIURL := globalConfig_WebexAPIURL r; globalConfig_JiraAPIURL :=
  globalConfig_JiraAPIURL r; globalConfig_RocketChatAPIURL := globalConfig_RocketChatAPIURL r;
  globalConfig_RocketChatToken := globalConfig_RocketChatToken r; globalConfig_RocketChatTokenFile :=
  globalConfig_RocketChatTokenFile r; globalConfig_RocketChatTokenID := globalConfig_RocketChatTokenID r;
  globalConfig_RocketChatTokenIDFile := globalConfig_RocketChatTokenIDFile r |}.
Definition set_globalConfig_SMTPAuthPassword (v : string) (r : globalConfig) : globalConfig := {|
  globalConfig_ResolveTimeout := globalConfig_ResolveTimeout r; globalConfig_HTTPConfig := globalConfig_HTTPConfig r;
  globalConfig_SMTPFrom := globalConfig_SMTPFrom r; globalConfig_SMTPHello := globalConfig_SMTPHello r;
  globalConfig_SMTPSmarthost := globalConfig_SMTPSmarthost r; globalConfig_SMTPAuthUsername :=
  globalConfig_SMTPAuthUsername r; globalConfig_SMTPAuthPassword := v; globalConfig_SMTPAuthPasswordFile :=
  globalConfig_SMTPAuthPasswordFile r; globalConfig_SMTPAuthSecret := globalConfig_SMTPAuthSecret r;
  globalConfig_SMTPAuthIdentity := globalConfig_SMTPAuthIdentity r; globalConfig_SMTPRequireTLS :=
  globalConfig_SMTPRequireTLS r; globalConfig_SMTPTLSConfig := globalConfig_SMTPTLSConfig r; globalConfig_SlackAPIURL
  := globalConfig_SlackAPIURL r; globalConfig_SlackAPIURLFile := globalConfig_SlackAPIURLFile r;
  globalConfig_PagerdutyURL := globalConfig_PagerdutyURL r; globalConfig_HipchatAPIURL := globalConfig_HipchatAPIURL
  r; globalConfig_HipchatAuthToken := globalConfig_HipchatAuthToken r; globalConfig_OpsGenieAPIURL :=
  globalConfig_OpsGenieAPIURL r; globalConfig_OpsGenieAPIKey := globalConfig_OpsGenieAPIKey r;
  globalConfig_OpsGenieAPIKeyFile := globalConfig_OpsGenieAPIKeyFile r; globalConfig_WeChatAPIURL :=
  globalConfig_WeChatAPIURL r; globalConfig_WeChatAPISecret := globalConfig_WeChatAPISecret r;
  globalConfig_WeChatAPICorpID := globalConfig_WeChatAPICorpID r; globalConfig_VictorOpsAPIURL :=
  globalConfig_VictorOpsAPIURL r; globalConfig_VictorOpsAPIKey := globalConfig_VictorOpsAPIKey r;
  globalConfig_VictorOpsAPIKeyFile := globalConfig_VictorOpsAPIKeyFile r; globalConfig_TelegramAPIURL :=
  globalConfig_TelegramAPIURL r; globalConfig_WebexAPIURL := globalConfig_WebexAPIURL r; globalConfig_JiraAPIURL :=
  globalConfig_JiraAPIURL r; globalConfig_RocketChatAPIURL := globalConfig_RocketChatAPIURL r;
  globalConfig_RocketChatToken := globalConfig_RocketChatToken r; globalConfig_RocketChatTokenFile :=
  globalConfig_RocketChatTokenFile r; globalConfig_RocketChatTokenID := globalConfig_RocketChatTokenID r;
  globalConfig_RocketChatTokenIDFile := globalConfig_RocketChatTokenIDFile r |}.
Definition set_globalConfig_SMTPAuthSecret (v : string) (r : globalConfig) : globalConfig := {|
  globalConfig_ResolveTimeout := globalConfig_ResolveTimeout r; globalConfig_HTTPConfig := globalConfig_HTTPConfig r;
  globalConfig_SMTPFrom := globalConfig_SMTPFrom r; globalConfig_SMTPHello := globalConfig_SMTPHello r;
  globalConfig_SMTPSmarthost := globalConfig_SMTPSmarthost r; globalConfig_SMTPAuthUsername :=
  globalConfig_SMTPAuthUsername r; globalConfig_SMTPAuthPassword := globalConfig_SMTPAuthPassword r;
  globalConfig_SMTPAuthPasswordFile := globalConfig_SMTPAuthPasswordFile r; globalConfig_SMTPAuthSecret := v;
  globalConfig_SMTPAuthIdentity := globalConfig_SMTPAuthIdentity r; globalConfig_SMTPRequireTLS :=
  globalConfig_SMTPRequireTLS r; globalConfig_SMTPTLSConfig := globalConfig_SMTPTLSConfig r; globalConfig_SlackAPIURL
  := globalConfig_SlackAPIURL r; globalConfig_SlackAPIURLFile := globalConfig_SlackAPIURLFile r;
  globalConfig_PagerdutyURL := globalConfig_PagerdutyURL r; globalConfig_HipchatAPIURL := globalConfig_HipchatAPIURL
  r; globalConfig_HipchatAuthToken := globalConfig_HipchatAuthToken r; globalConfig_OpsGenieAPIURL :=
  globalConfig_OpsGenieAPIURL r; globalConfig_OpsGenieAPIKey := globalConfig_OpsGenieAPIKey r;
  globalConfig_OpsGenieAPIKeyFile := globalConfig_OpsGenieAPIKeyFile r; globalConfig_WeChatAPIURL :=
  globalConfig_WeChatAPIURL r; globalConfig_WeChatAPISecret := globalConfig_WeChatAPISecret r;
  globalConfig_WeChatAPICorpID := globalConfig_WeChatAPICorpID r; globalConfig_VictorOpsAPIURL :=
  globalConfig_VictorOpsAPIURL r; globalConfig_VictorOpsAPIKey := globalConfig_VictorOpsAPIKey r;
  globalConfig_VictorOpsAPIKeyFile := globalConfig_VictorOpsAPIKeyFile r; globalConfig_TelegramAPIURL :=
  globalConfig_TelegramAPIURL r; globalConfig_WebexAPIURL := globalConfig_WebexAPIURL r; globalConfig_JiraAPIURL :=
  globalConfig_JiraAPIURL r; globalConfig_RocketChatAPIURL := globalConfig_RocketChatAPIURL r;
  globalConfig_RocketChatToken := globalConfig_RocketChatToken r; globalConfig_RocketChatTokenFile :=
  globalConfig_RocketChatTokenFile r; globalConfig_RocketChatTokenID := globalConfig_RocketChatTokenID r;
  globalConfig_RocketChatTokenIDFile := globalConfig_RocketChatTokenIDFile r |}.
Definition set_globalConfig_ResolveTimeout (v : option Z) (r : globalConfig) : globalConfig := {|
  globalConfig_ResolveTimeout := v; globalConfig_HTTPConfig := globalConfig_HTTPConfig r; globalConfig_SMTPFrom :=
  globalConfig_SMTPFrom r; globalConfig_SMTPHello := globalConfig_SMTPHello r; globalConfig_SMTPSmarthost :=
  globalConfig_SMTPSmarthost r; globalConfig_SMTPAuthUsername := globalConfig_SMTPAuthUsername r;
  globalConfig_SMTPAuthPassword := globalConfig_SMTPAuthPassword r; globalConfig_SMTPAuthPasswordFile :=
  globalConfig_SMTPAuthPasswordFile r; globalConfig_SMTPAuthSecret := globalConfig_SMTPAuthSecret r;
  globalConfig_SMTPAuthIdentity := globalConfig_SMTPAuthIdentity r; globalConfig_SMTPRequireTLS :=
  globalConfig_SMTPRequireTLS r; globalConfig_SMTPTLSConfig := globalConfig_SMTPTLSConfig r; globalConfig_SlackAPIURL
  := globalConfig_SlackAPIURL r; globalConfig_SlackAPIURLFile := globalConfig_SlackAPIURLFile r;
  globalConfig_PagerdutyURL := globalConfig_PagerdutyURL r; globalConfig_HipchatAPIURL := globalConfig_HipchatAPIURL
  r; globalConfig_HipchatAuthToken := globalConfig_HipchatAuthToken r; globalConfig_OpsGenieAPIURL :=
  globalConfig_OpsGenieAPIURL r; globalConfig_OpsGenieAPIKey := globalConfig_OpsGenieAPIKey r;
  globalConfig_OpsGenieAPIKeyFile := globalConfig_OpsGenieAPIKeyFile r; globalConfig_WeChatAPIURL :=
  globalConfig_WeChatAPIURL r; globalConfig_WeChatAPISecret := globalConfig_WeChatAPISecret r;
  globalConfig_WeChatAPICorpID := globalConfig_WeChatAPICorpID r; globalConfig_VictorOpsAPIURL :=
  globalConfig_VictorOpsAPIURL r; globalConfig_VictorOpsAPIKey := globalConfig_VictorOpsAPIKey r;
  globalConfig_VictorOpsAPIKeyFile := globalConfig_VictorOpsAPIKeyFile r; globalConfig_TelegramAPIURL :=
  globalConfig_TelegramAPIURL r; globalConfig_WebexAPIURL := globalConfig_WebexAPIURL r; globalConfig_JiraAPIURL :=
  globalConfig_JiraAPIURL r; globalConfig_RocketChatAPIURL := globalConfig_RocketChatAPIURL r;
  globalConfig_RocketChatToken := globalConfig_RocketChatToken r; globalConfig_RocketChatTokenFile :=
  globalConfig_RocketChatTokenFile r; globalConfig_RocketChatTokenID := globalConfig_RocketChatTokenID r;
  globalConfig_RocketChatTokenIDFile := globalConfig_RocketChatTokenIDFile r |}.
Definition set_globalConfig_SlackAPIURL (v : option string) (r : globalConfig) : globalConfig := {|
  globalConfig_ResolveTimeout := globalConfig_ResolveTimeout r; globalConfig_HTTPConfig := globalConfig_HTTPConfig r;
  globalConfig_SMTPFrom := globalConfig_SMTPFrom r; globalConfig_SMTPHello := globalConfig_SMTPHello r;
  globalConfig_SMTPSmarthost := globalConfig_SMTPSmarthost r; globalConfig_SMTPAuthUsername :=
  globalConfig_SMTPAuthUsername r; globalConfig_SMTPAuthPassword := globalConfig_SMTPAuthPassword r;
  globalConfig_SMTPAuthPasswordFile := globalConfig_SMTPAuthPasswordFile r; globalConfig_SMTPAuthSecret :=
  globalConfig_SMTPAuthSecret r; globalConfig_SMTPAuthIdentity := globalConfig_SMTPAuthIdentity r;
  globalConfig_SMTPRequireTLS := globalConfig_SMTPRequireTLS r; globalConfig_SMTPTLSConfig :=
  globalConfig_SMTPTLSConfig r; globalConfig_SlackAPIURL := v; globalConfig_SlackAPIURLFile :=
  globalConfig_SlackAPIURLFile r; globalConfig_PagerdutyURL := globalConfig_PagerdutyURL r; globalConfig_HipchatAPIURL
  := globalConfig_HipchatAPIURL r; globalConfig_HipchatAuthToken := globalConfig_HipchatAuthToken r;
  globalConfig_OpsGenieAPIURL := globalConfig_OpsGenieAPIURL r; globalConfig_OpsGenieAPIKey :=
  globalConfig_OpsGenieAPIKey r; globalConfig_OpsGenieAPIKeyFile := globalConfig_OpsGenieAPIKeyFile r;
  globalConfig_WeChatAPIURL := globalConfig_WeChatAPIURL r; globalConfig_WeChatAPISecret :=
  globalConfig_WeChatAPISecret r; globalConfig_WeChatAPICorpID := globalConfig_WeChatAPICorpID r;
  globalConfig_VictorOpsAPIURL := globalConfig_VictorOpsAPIURL r; globalConfig_VictorOpsAPIKey :=
  globalConfig_VictorOpsAPIKey r; globalConfig_VictorOpsAPIKeyFile := globalConfig_VictorOpsAPIKeyFile r;
  globalConfig_TelegramAPIURL := globalConfig_TelegramAPIURL r; globalConfig_WebexAPIURL := globalConfig_WebexAPIURL
  r; globalConfig_JiraAPIURL := globalConfig_JiraAPIURL r; globalConfig_RocketChatAPIURL :=
  globalConfig_RocketChatAPIURL r; globalConfig_RocketChatToken := globalConfig_RocketChatToken r;
  globalConfig_RocketChatTokenFile := globalConfig_RocketChatTokenFile r; globalConfig_RocketChatTokenID :=
  globalConfig_RocketChatTokenID r; globalConfig_RocketChatTokenIDFile := globalConfig_RocketChatTokenIDFile r |}.
Definition set_globalConfig_OpsGenieAPIURL (v : option string) (r : globalConfig) : globalConfig := {|
  globalConfig_ResolveTimeout := globalConfig_ResolveTimeout r; globalConfig_HTTPConfig := globalConfig_HTTPConfig r;
  globalConfig_SMTPFrom := globalConfig_SMTPFrom r; globalConfig_SMTPHello := globalConfig_SMTPHello r;
  globalConfig_SMTPSmarthost := globalConfig_SMTPSmarthost r; globalConfig_SMTPAuthUsername :=
  globalConfig_SMTPAuthUsername r; globalConfig_SMTPAuthPassword := globalConfig_SMTPAuthPassword r;
  globalConfig_SMTPAuthPasswordFile := globalConfig_SMTPAuthPasswordFile r; globalConfig_SMTPAuthSecret :=
  globalConfig_SMTPAuthSecret r; globalConfig_SMTPAuthIdentity := globalConfig_SMTPAuthIdentity r;
  globalConfig_SMTPRequireTLS := globalConfig_SMTPRequireTLS r; globalConfig_SMTPTLSConfig :=
  globalConfig_SMTPTLSConfig r; globalConfig_SlackAPIURL := globalConfig_SlackAPIURL r; globalConfig_SlackAPIURLFile
  := globalConfig_SlackAPIURLFile r; globalConfig_PagerdutyURL := globalConfig_PagerdutyURL r;
  globalConfig_HipchatAPIURL := globalConfig_HipchatAPIURL r; globalConfig_HipchatAuthToken :=
  globalConfig_HipchatAuthToken r; globalConfig_OpsGenieAPIURL := v; globalConfig_OpsGenieAPIKey :=
  globalConfig_OpsGenieAPIKey r; globalConfig_OpsGenieAPIKeyFile := globalConfig_OpsGenieAPIKeyFile r;
  globalConfig_WeChatAPIURL := globalConfig_WeChatAPIURL r; globalConfig_WeChatAPISecret :=
  globalConfig_WeChatAPISecret r; globalConfig_WeChatAPICorpID := globalConfig_WeChatAPICorpID r;
  globalConfig_VictorOpsAPIURL := globalConfig_VictorOpsAPIURL r; globalConfig_VictorOpsAPIKey :=
  globalConfig_VictorOpsAPIKey r; globalConfig_VictorOpsAPIKeyFile := globalConfig_VictorOpsAPIKeyFile r;
  globalConfig_TelegramAPIURL := globalConfig_TelegramAPIURL r; globalConfig_WebexAPIURL := globalConfig_WebexAPIURL
  r; globalConfig_JiraAPIURL := globalConfig_JiraAPIURL r; globalConfig_RocketChatAPIURL :=
  globalConfig_RocketChatAPIURL r; globalConfig_RocketChatToken := globalConfig_RocketChatToken r;
  globalConfig_RocketChatTokenFile := globalConfig_RocketChatTokenFile r; globalConfig_RocketChatTokenID :=
  globalConfig_RocketChatTokenID r; globalConfig_RocketChatTokenIDFile := globalConfig_RocketChatTokenIDFile r |}.
Definition set_globalConfig_OpsGenieAPIKey (v : string) (r : globalConfig) : globalConfig := {|
  globalConfig_ResolveTimeout := globalConfig_ResolveTimeout r; globalConfig_HTTPConfig := globalConfig_HTTPConfig r;
  globalConfig_SMTPFrom := globalConfig_SMTPFrom r; globalConfig_SMTPHello := globalConfig_SMTPHello r;
  globalConfig_SMTPSmarthost := globalConfig_SMTPSmarthost r; globalConfig_SMTPAuthUsername :=
  globalConfig_SMTPAuthUsername r; globalConfig_SMTPAuthPassword := globalConfig_SMTPAuthPassword r;
  globalConfig_SMTPAuthPasswordFile := globalConfig_SMTPAuthPasswordFile r; globalConfig_SMTPAuthSecret :=
  globalConfig_SMTPAuthSecret r; globalConfig_SMTPAuthIdentity := globalConfig_SMTPAuthIdentity r;
  globalConfig_SMTPRequireTLS := globalConfig_SMTPRequireTLS r; globalConfig_SMTPTLSConfig :=
  globalConfig_SMTPTLSConfig r; globalConfig_SlackAPIURL := globalConfig_SlackAPIURL r; globalConfig_SlackAPIURLFile
  := globalConfig_SlackAPIURLFile r; globalConfig_PagerdutyURL := globalConfig_PagerdutyURL r;
  globalConfig_HipchatAPIURL := globalConfig_HipchatAPIURL r; globalConfig_HipchatAuthToken :=
  globalConfig_HipchatAuthToken r; globalConfig_OpsGenieAPIURL := globalConfig_OpsGenieAPIURL r;
  globalConfig_OpsGenieAPIKey := v; globalConfig_OpsGenieAPIKeyFile := globalConfig_OpsGenieAPIKeyFile r;
  globalConfig_WeChatAPIURL := globalConfig_WeChatAPIURL r; globalConfig_WeChatAPISecret :=
  globalConfig_WeChatAPISecret r; globalConfig_WeChatAPICorpID := globalConfig_WeChatAPICorpID r;
  globalConfig_VictorOpsAPIURL := globalConfig_VictorOpsAPIURL r; globalConfig_VictorOpsAPIKey :=
  globalConfig_VictorOpsAPIKey r; globalConfig_VictorOpsAPIKeyFile := globalConfig_VictorOpsAPIKeyFile r;
  globalConfig_TelegramAPIURL := globalConfig_TelegramAPIURL r; globalConfig_WebexAPIURL := globalConfig_WebexAPIURL
  r; globalConfig_JiraAPIURL := globalConfig_JiraAPIURL r; globalConfig_RocketChatAPIURL :=
  globalConfig_RocketChatAPIURL r; globalConfig_RocketChatToken := globalConfig_RocketChatToken r;
  globalConfig_RocketChatTokenFile := globalConfig_RocketChatTokenFile r; globalConfig_RocketChatTokenID :=
  globalConfig_RocketChatTokenID r; globalConfig_RocketChatTokenIDFile := globalConfig_RocketChatTokenIDFile r |}.
Definition set_globalConfig_PagerdutyURL (v : option string) (r : globalConfig) : globalConfig := {|
  globalConfig_ResolveTimeout := globalConfig_ResolveTimeout r; globalConfig_HTTPConfig := globalConfig_HTTPConfig r;
  globalConfig_SMTPFrom := globalConfig_SMTPFrom r; globalConfig_SMTPHello := globalConfig_SMTPHello r;
  globalConfig_SMTPSmarthost := globalConfig_SMTPSmarthost r; globalConfig_SMTPAuthUsername :=
  globalConfig_SMTPAuthUsername r; globalConfig_SMTPAuthPassword := globalConfig_SMTPAuthPassword r;
  globalConfig_SMTPAuthPasswordFile := globalConfig_SMTPAuthPasswordFile r; globalConfig_SMTPAuthSecret :=
  globalConfig_SMTPAuthSecret r; globalConfig_SMTPAuthIdentity := globalConfig_SMTPAuthIdentity r;
  globalConfig_SMTPRequireTLS := globalConfig_SMTPRequireTLS r; globalConfig_SMTPTLSConfig :=
  globalConfig_SMTPTLSConfig r; globalConfig_SlackAPIURL := globalConfig_SlackAPIURL r; globalConfig_SlackAPIURLFile
  := globalConfig_SlackAPIURLFile r; globalConfig_PagerdutyURL := v; globalConfig_HipchatAPIURL :=
  globalConfig_HipchatAPIURL r; globalConfig_HipchatAuthToken := globalConfig_HipchatAuthToken r;
  globalConfig_OpsGenieAPIURL := globalConfig_OpsGenieAPIURL r; globalConfig_OpsGenieAPIKey :=
  globalConfig_OpsGenieAPIKey r; globalConfig_OpsGenieAPIKeyFile := globalConfig_OpsGenieAPIKeyFile r;
  globalConfig_WeChatAPIURL := globalConfig_WeChatAPIURL r; globalConfig_WeChatAPISecret :=
  globalConfig_WeChatAPISecret r; globalConfig_WeChatAPICorpID := globalConfig_WeChatAPICorpID r;
  globalConfig_VictorOpsAPIURL := globalConfig_VictorOpsAPIURL r; globalConfig_VictorOpsAPIKey :=
  globalConfig_VictorOpsAPIKey r; globalConfig_VictorOpsAPIKeyFile := globalConfig_VictorOpsAPIKeyFile r;
  globalConfig_TelegramAPIURL := globalConfig_TelegramAPIURL r; globalConfig_WebexAPIURL := globalConfig_WebexAPIURL
  r; globalConfig_JiraAPIURL := globalConfig_JiraAPIURL r; globalConfig_RocketChatAPIURL :=
  globalConfig_RocketChatAPIURL r; globalConfig_RocketChatToken := globalConfig_RocketChatToken r;
  globalConfig_RocketChatTokenFile := globalConfig_RocketChatTokenFile r; globalConfig_RocketChatTokenID :=
  globalConfig_RocketChatTokenID r; globalConfig_RocketChatTokenIDFile := globalConfig_RocketChatTokenIDFile r |}.
Definition set_globalConfig_TelegramAPIURL (v : option string) (r : globalConfig) : globalConfig := {|
  globalConfig_ResolveTimeout := globalConfig_ResolveTimeout r; globalConfig_HTTPConfig := globalConfig_HTTPConfig r;
  globalConfig_SMTPFrom := globalConfig_SMTPFrom r; globalConfig_SMTPHello := globalConfig_SMTPHello r;
  globalConfig_SMTPSmarthost := globalConfig_SMTPSmarthost r; globalConfig_SMTPAuthUsername :=
  globalConfig_SMTPAuthUsername r; globalConfig_SMTPAuthPassword := globalConfig_SMTPAuthPassword r;
  globalConfig_SMTPAuthPasswordFile := globalConfig_SMTPAuthPasswordFile r; globalConfig_SMTPAuthSecret :=
  globalConfig_SMTPAuthSecret r; globalConfig_SMTPAuthIdentity := globalConfig_SMTPAuthIdentity r;
  globalConfig_SMTPRequireTLS := globalConfig_SMTPRequireTLS r; globalConfig_SMTPTLSConfig :=
  globalConfig_SMTPTLSConfig r; globalConfig_SlackAPIURL := globalConfig_SlackAPIURL r; globalConfig_SlackAPIURLFile
  := globalConfig_SlackAPIURLFile r; globalConfig_PagerdutyURL := globalConfig_PagerdutyURL r;
  globalConfig_HipchatAPIURL := globalConfig_HipchatAPIURL r; globalConfig_HipchatAuthToken :=
  globalConfig_HipchatAuthToken r; globalConfig_OpsGenieAPIURL := globalConfig_OpsGenieAPIURL r;
  globalConfig_OpsGenieAPIKey := globalConfig_OpsGenieAPIKey r; globalConfig_OpsGenieAPIKeyFile :=
  globalConfig_OpsGenieAPIKeyFile r; globalConfig_WeChatAPIURL := globalConfig_WeChatAPIURL r;
  globalConfig_WeChatAPISecret := globalConfig_WeChatAPISecret r; globalConfig_WeChatAPICorpID :=
  globalConfig_WeChatAPICorpID r; globalConfig_VictorOpsAPIURL := globalConfig_VictorOpsAPIURL r;
  globalConfig_VictorOpsAPIKey := globalConfig_VictorOpsAPIKey r; globalConfig_VictorOpsAPIKeyFile :=
  globalConfig_VictorOpsAPIKeyFile r; globalConfig_TelegramAPIURL := v; globalConfig_WebexAPIURL :=
  globalConfig_WebexAPIURL r; globalConfig_JiraAPIURL := globalConfig_JiraAPIURL r; globalConfig_RocketChatAPIURL :=
  globalConfig_RocketChatAPIURL r; globalConfig_RocketChatToken := globalConfig_RocketChatToken r;
  globalConfig_RocketChatTokenFile := globalConfig_RocketChatTokenFile r; globalConfig_RocketChatTokenID :=
  globalConfig_RocketChatTokenID r; globalConfig_RocketChatTokenIDFile := globalConfig_RocketChatTokenIDFile r |}.
Definition set_globalConfig_JiraAPIURL (v : option string) (r : globalConfig) : globalConfig := {|
  globalConfig_ResolveTimeout := globalConfig_ResolveTimeout r; globalConfig_HTTPConfig := globalConfig_HTTPConfig r;
  globalConfig_SMTPFrom := globalConfig_SMTPFrom r; globalConfig_SMTPHello := globalConfig_SMTPHello r;
  globalConfig_SMTPSmarthost := globalConfig_SMTPSmarthost r; globalConfig_SMTPAuthUsername :=
  globalConfig_SMTPAuthUsername r; globalConfig_SMTPAuthPassword := globalConfig_SMTPAuthPassword r;
  globalConfig_SMTPAuthPasswordFile := globalConfig_SMTPAuthPasswordFile r; globalConfig_SMTPAuthSecret :=
  globalConfig_SMTPAuthSecret r; globalConfig_SMTPAuthIdentity := globalConfig_SMTPAuthIdentity r;
  globalConfig_SMTPRequireTLS := globalConfig_SMTPRequireTLS r; globalConfig_SMTPTLSConfig :=
  globalConfig_SMTPTLSConfig r; globalConfig_SlackAPIURL := globalConfig_SlackAPIURL r; globalConfig_SlackAPIURLFile
  := globalConfig_SlackAPIURLFile r; globalConfig_PagerdutyURL := globalConfig_PagerdutyURL r;
  globalConfig_HipchatAPIURL := globalConfig_HipchatAPIURL r; globalConfig_HipchatAuthToken :=
  globalConfig_HipchatAuthToken r; globalConfig_OpsGenieAPIURL := globalConfig_OpsGenieAPIURL r;
  globalConfig_OpsGenieAPIKey := globalConfig_OpsGenieAPIKey r; globalConfig_OpsGenieAPIKeyFile :=
  globalConfig_OpsGenieAPIKeyFile r; globalConfig_WeChatAPIURL := globalConfig_WeChatAPIURL r;
  globalConfig_WeChatAPISecret := globalConfig_WeChatAPISecret r; globalConfig_WeChatAPICorpID :=
  globalConfig_WeChatAPICorpID r; globalConfig_VictorOpsAPIURL := globalConfig_VictorOpsAPIURL r;
  globalConfig_VictorOpsAPIKey := globalConfig_VictorOpsAPIKey r; globalConfig_VictorOpsAPIKeyFile :=
  globalConfig_VictorOpsAPIKeyFile r; globalConfig_TelegramAPIURL := globalConfig_TelegramAPIURL r;
  globalConfig_WebexAPIURL := globalConfig_WebexAPIURL r; globalConfig_JiraAPIURL := v; globalConfig_RocketChatAPIURL
  := globalConfig_RocketChatAPIURL r; globalConfig_RocketChatToken := globalConfig_RocketChatToken r;
  globalConfig_RocketChatTokenFile := globalConfig_RocketChatTokenFile r; globalConfig_RocketChatTokenID :=
  globalConfig_RocketChatTokenID r; globalConfig_RocketChatTokenIDFile := globalConfig_RocketChatTokenIDFile r |}.
Definition set_globalConfig_RocketChatAPIURL (v : option string) (r : globalConfig) : globalConfig := {|
  globalConfig_ResolveTimeout := globalConfig_ResolveTimeout r; globalConfig_HTTPConfig := globalConfig_HTTPConfig r;
  globalConfig_SMTPFrom := globalConfig_SMTPFrom r; globalConfig_SMTPHello := globalConfig_SMTPHello r;
  globalConfig_SMTPSmarthost := globalConfig_SMTPSmarthost r; globalConfig_SMTPAuthUsername :=
  globalConfig_SMTPAuthUsername r; globalConfig_SMTPAuthPassword := globalConfig_SMTPAuthPassword r;
  globalConfig_SMTPAuthPasswordFile := globalConfig_SMTPAuthPasswordFile r; globalConfig_SMTPAuthSecret :=
  globalConfig_SMTPAuthSecret r; globalConfig_SMTPAuthIdentity := globalConfig_SMTPAuthIdentity r;
  globalConfig_SMTPRequireTLS := globalConfig_SMTPRequireTLS r; globalConfig_SMTPTLSConfig :=
  globalConfig_SMTPTLSConfig r; globalConfig_SlackAPIURL := globalConfig_SlackAPIURL r; globalConfig_SlackAPIURLFile
  := globalConfig_SlackAPIURLFile r; globalConfig_PagerdutyURL := globalConfig_PagerdutyURL r;
  globalConfig_HipchatAPIURL := globalConfig_HipchatAPIURL r; globalConfig_HipchatAuthToken :=
  globalConfig_HipchatAuthToken r; globalConfig_OpsGenieAPIURL := globalConfig_OpsGenieAPIURL r;
  globalConfig_OpsGenieAPIKey := globalConfig_OpsGenieAPIKey r; globalConfig_OpsGenieAPIKeyFile :=
  globalConfig_OpsGenieAPIKeyFile r; globalConfig_WeChatAPIURL := globalConfig_WeChatAPIURL r;
  globalConfig_WeChatAPISecret := globalConfig_WeChatAPISecret r; globalConfig_WeChatAPICorpID :=
  globalConfig_WeChatAPICorpID r; globalConfig_VictorOpsAPIURL := globalConfig_VictorOpsAPIURL r;
  globalConfig_VictorOpsAPIKey := globalConfig_VictorOpsAPIKey r; globalConfig_VictorOpsAPIKeyFile :=
  globalConfig_VictorOpsAPIKeyFile r; globalConfig_TelegramAPIURL := globalConfig_TelegramAPIURL r;
  globalConfig_WebexAPIURL := globalConfig_WebexAPIURL r; globalConfig_JiraAPIURL := globalConfig_JiraAPIURL r;
  globalConfig_RocketChatAPIURL := v; globalConfig_RocketChatToken := globalConfig_RocketChatToken r;
  globalConfig_RocketChatTokenFile := globalConfig_RocketChatTokenFile r; globalConfig_RocketChatTokenID :=
  globalConfig_RocketChatTokenID r; globalConfig_RocketChatTokenIDFile := globalConfig_RocketChatTokenIDFile r |}.
Definition set_globalConfig_RocketChatToken (v : string) (r : globalConfig) : globalConfig := {|
  globalConfig_ResolveTimeout := globalConfig_ResolveTimeout r; globalConfig_HTTPConfig := globalConfig_HTTPConfig r;
  globalConfig_SMTPFrom := globalConfig_SMTPFrom r; globalConfig_SMTPHello := globalConfig_SMTPHello r;
  globalConfig_SMTPSmarthost := globalConfig_SMTPSmarthost r; globalConfig_SMTPAuthUsername :=
  globalConfig_SMTPAuthUsername r; globalConfig_SMTPAuthPassword := globalConfig_SMTPAuthPassword r;
  globalConfig_SMTPAuthPasswordFile := globalConfig_SMTPAuthPasswordFile r; globalConfig_SMTPAuthSecret :=
  globalConfig_SMTPAuthSecret r; globalConfig_SMTPAuthIdentity := globalConfig_SMTPAuthIdentity r;
  globalConfig_SMTPRequireTLS := globalConfig_SMTPRequireTLS r; globalConfig_SMTPTLSConfig :=
  globalConfig_SMTPTLSConfig r; globalConfig_SlackAPIURL := globalConfig_SlackAPIURL r; globalConfig_SlackAPIURLFile
  := globalConfig_SlackAPIURLFile r; globalConfig_PagerdutyURL := globalConfig_PagerdutyURL r;
  globalConfig_HipchatAPIURL := globalConfig_HipchatAPIURL r; globalConfig_HipchatAuthToken :=
  globalConfig_HipchatAuthToken r; globalConfig_OpsGenieAPIURL := globalConfig_OpsGenieAPIURL r;
  globalConfig_OpsGenieAPIKey := globalConfig_OpsGenieAPIKey r; globalConfig_OpsGenieAPIKeyFile :=
  globalConfig_OpsGenieAPIKeyFile r; globalConfig_WeChatAPIURL := globalConfig_WeChatAPIURL r;
  globalConfig_WeChatAPISecret := globalConfig_WeChatAPISecret r; globalConfig_WeChatAPICorpID :=
  globalConfig_WeChatAPICorpID r; globalConfig_VictorOpsAPIURL := globalConfig_VictorOpsAPIURL r;
  globalConfig_VictorOpsAPIKey := globalConfig_VictorOpsAPIKey r; globalConfig_VictorOpsAPIKeyFile :=
  globalConfig_VictorOpsAPIKeyFile r; globalConfig_TelegramAPIURL := globalConfig_TelegramAPIURL r;
  globalConfig_WebexAPIURL := globalConfig_WebexAPIURL r; globalConfig_JiraAPIURL := globalConfig_JiraAPIURL r;
  globalConfig_RocketChatAPIURL := globalConfig_RocketChatAPIURL r; globalConfig_RocketChatToken := v;
  globalConfig_RocketChatTokenFile := globalConfig_RocketChatTokenFile r; globalConfig_RocketChatTokenID :=
  globalConfig_RocketChatTokenID r; globalConfig_RocketChatTokenIDFile := globalConfig_RocketChatTokenIDFile r |}.
Definition set_globalConfig_RocketChatTokenID (v : string) (r : globalConfig) : globalConfig := {|
  globalConfig_ResolveTimeout := globalConfig_ResolveTimeout r; globalConfig_HTTPConfig := globalConfig_HTTPConfig r;
  globalConfig_SMTPFrom := globalConfig_SMTPFrom r; globalConfig_SMTPHello := globalConfig_SMTPHello r;
  globalConfig_SMTPSmarthost := globalConfig_SMTPSmarthost r; globalConfig_SMTPAuthUsername :=
  globalConfig_SMTPAuthUsername r; globalConfig_SMTPAuthPassword := globalConfig_SMTPAuthPassword r;
  globalConfig_SMTPAuthPasswordFile := globalConfig_SMTPAuthPasswordFile r; globalConfig_SMTPAuthSecret :=
  globalConfig_SMTPAuthSecret r; globalConfig_SMTPAuthIdentity := globalConfig_SMTPAuthIdentity r;
  globalConfig_SMTPRequireTLS := globalConfig_SMTPRequireTLS r; globalConfig_SMTPTLSConfig :=
  globalConfig_SMTPTLSConfig r; globalConfig_SlackAPIURL := globalConfig_SlackAPIURL r; globalConfig_SlackAPIURLFile
  := globalConfig_SlackAPIURLFile r; globalConfig_PagerdutyURL := globalConfig_PagerdutyURL r;
  globalConfig_HipchatAPIURL := globalConfig_HipchatAPIURL r; globalConfig_HipchatAuthToken :=
  globalConfig_HipchatAuthToken r; globalConfig_OpsGenieAPIURL := globalConfig_OpsGenieAPIURL r;
  globalConfig_OpsGenieAPIKey := globalConfig_OpsGenieAPIKey r; globalConfig_OpsGenieAPIKeyFile :=
  globalConfig_OpsGenieAPIKeyFile r; globalConfig_WeChatAPIURL := globalConfig_WeChatAPIURL r;
  globalConfig_WeChatAPISecret := globalConfig_WeChatAPISecret r; globalConfig_WeChatAPICorpID :=
  globalConfig_WeChatAPICorpID r; globalConfig_VictorOpsAPIURL := globalConfig_VictorOpsAPIURL r;
  globalConfig_VictorOpsAPIKey := globalConfig_VictorOpsAPIKey r; globalConfig_VictorOpsAPIKeyFile :=
  globalConfig_VictorOpsAPIKeyFile r; globalConfig_TelegramAPIURL := globalConfig_TelegramAPIURL r;
  globalConfig_WebexAPIURL := globalConfig_WebexAPIURL r; globalConfig_JiraAPIURL := globalConfig_JiraAPIURL r;
  globalConfig_RocketChatAPIURL := globalConfig_RocketChatAPIURL r; globalConfig_RocketChatToken :=
  globalConfig_RocketChatToken r; globalConfig_RocketChatTokenFile := globalConfig_RocketChatTokenFile r;
  globalConfig_RocketChatTokenID := v; globalConfig_RocketChatTokenIDFile := globalConfig_RocketChatTokenIDFile r |}.
Definition set_globalConfig_WebexAPIURL (v : option string) (r : globalConfig) : globalConfig := {|
  globalConfig_ResolveTimeout := globalConfig_ResolveTimeout r; globalConfig_HTTPConfig := globalConfig_HTTPConfig r;
  globalConfig_SMTPFrom := globalConfig_SMTPFrom r; globalConfig_SMTPHello := globalConfig_SMTPHello r;
  globalConfig_SMTPSmarthost := globalConfig_SMTPSmarthost r; globalConfig_SMTPAuthUsername :=
  globalConfig_SMTPAuthUsername r; globalConfig_SMTPAuthPassword := globalConfig_SMTPAuthPassword r;
  globalConfig_SMTPAuthPasswordFile := globalConfig_SMTPAuthPasswordFile r; globalConfig_SMTPAuthSecret :=
  globalConfig_SMTPAuthSecret r; globalConfig_SMTPAuthIdentity := globalConfig_SMTPAuthIdentity r;
  globalConfig_SMTPRequireTLS := globalConfig_SMTPRequireTLS r; globalConfig_SMTPTLSConfig :=
  globalConfig_SMTPTLSConfig r; globalConfig_SlackAPIURL := globalConfig_SlackAPIURL r; globalConfig_SlackAPIURLFile
  := globalConfig_SlackAPIURLFile r; globalConfig_PagerdutyURL := globalConfig_PagerdutyURL r;
  globalConfig_HipchatAPIURL := globalConfig_HipchatAPIURL r; globalConfig_HipchatAuthToken :=
  globalConfig_HipchatAuthToken r; globalConfig_OpsGenieAPIURL := globalConfig_OpsGenieAPIURL r;
  globalConfig_OpsGenieAPIKey := globalConfig_OpsGenieAPIKey r; globalConfig_OpsGenieAPIKeyFile :=
  globalConfig_OpsGenieAPIKeyFile r; globalConfig_WeChatAPIURL := globalConfig_WeChatAPIURL r;
  globalConfig_WeChatAPISecret := globalConfig_WeChatAPISecret r; globalConfig_WeChatAPICorpID :=
  globalConfig_WeChatAPICorpID r; globalConfig_VictorOpsAPIURL := globalConfig_VictorOpsAPIURL r;
  globalConfig_VictorOpsAPIKey := globalConfig_VictorOpsAPIKey r; globalConfig_VictorOpsAPIKeyFile :=
  globalConfig_VictorOpsAPIKeyFile r; globalConfig_TelegramAPIURL := globalConfig_TelegramAPIURL r;
  globalConfig_WebexAPIURL := v; globalConfig_JiraAPIURL := globalConfig_JiraAPIURL r; globalConfig_RocketChatAPIURL
  := globalConfig_RocketChatAPIURL r; globalConfig_RocketChatToken := globalConfig_RocketChatToken r;
  globalConfig_RocketChatTokenFile := globalConfig_RocketChatTokenFile r; globalConfig_RocketChatTokenID :=
  globalConfig_RocketChatTokenID r; globalConfig_RocketChatTokenIDFile := globalConfig_RocketChatTokenIDFile r |}.
Definition set_globalConfig_WeChatAPIURL (v : option string) (r : globalConfig) : globalConfig := {|
  globalConfig_ResolveTimeout := globalConfig_ResolveTimeout r; globalConfig_HTTPConfig := globalConfig_HTTPConfig r;
  globalConfig_SMTPFrom := globalConfig_SMTPFrom r; globalConfig_SMTPHello := globalConfig_SMTPHello r;
  globalConfig_SMTPSmarthost := globalConfig_SMTPSmarthost r; globalConfig_SMTPAuthUsername :=
  globalConfig_SMTPAuthUsername r; globalConfig_SMTPAuthPassword := globalConfig_SMTPAuthPassword r;
  globalConfig_SMTPAuthPasswordFile := globalConfig_SMTPAuthPasswordFile r; globalConfig_SMTPAuthSecret :=
  globalConfig_SMTPAuthSecret r; globalConfig_SMTPAuthIdentity := globalConfig_SMTPAuthIdentity r;
  globalConfig_SMTPRequireTLS := globalConfig_SMTPRequireTLS r; globalConfig_SMTPTLSConfig :=
  globalConfig_SMTPTLSConfig r; globalConfig_SlackAPIURL := globalConfig_SlackAPIURL r; globalConfig_SlackAPIURLFile
  := globalConfig_SlackAPIURLFile r; globalConfig_PagerdutyURL := globalConfig_PagerdutyURL r;
  globalConfig_HipchatAPIURL := globalConfig_HipchatAPIURL r; globalConfig_HipchatAuthToken :=
  globalConfig_HipchatAuthToken r; globalConfig_OpsGenieAPIURL := globalConfig_OpsGenieAPIURL r;
  globalConfig_OpsGenieAPIKey := globalConfig_OpsGenieAPIKey r; globalConfig_OpsGenieAPIKeyFile :=
  globalConfig_OpsGenieAPIKeyFile r; globalConfig_WeChatAPIURL := v; globalConfig_WeChatAPISecret :=
  globalConfig_WeChatAPISecret r; globalConfig_WeChatAPICorpID := globalConfig_WeChatAPICorpID r;
  globalConfig_VictorOpsAPIURL := globalConfig_VictorOpsAPIURL r; globalConfig_VictorOpsAPIKey :=
  globalConfig_VictorOpsAPIKey r; globalConfig_VictorOpsAPIKeyFile := globalConfig_VictorOpsAPIKeyFile r;
  globalConfig_TelegramAPIURL := globalConfig_TelegramAPIURL r; globalConfig_WebexAPIURL := globalConfig_WebexAPIURL
  r; globalConfig_JiraAPIURL := globalConfig_JiraAPIURL r; globalConfig_RocketChatAPIURL :=
  globalConfig_RocketChatAPIURL r; globalConfig_RocketChatToken := globalConfig_RocketChatToken r;
  globalConfig_RocketChatTokenFile := globalConfig_RocketChatTokenFile r; globalConfig_RocketChatTokenID :=
  globalConfig_RocketChatTokenID r; globalConfig_RocketChatTokenIDFile := globalConfig_RocketChatTokenIDFile r |}.
Definition set_globalConfig_WeChatAPISecret (v : string) (r : globalConfig) : globalConfig := {|
  globalConfig_ResolveTimeout := globalConfig_ResolveTimeout r; globalConfig_HTTPConfig := globalConfig_HTTPConfig r;
  globalConfig_SMTPFrom := globalConfig_SMTPFrom r; globalConfig_SMTPHello := globalConfig_SMTPHello r;
  globalConfig_SMTPSmarthost := globalConfig_SMTPSmarthost r; globalConfig_SMTPAuthUsername :=
  globalConfig_SMTPAuthUsername r; globalConfig_SMTPAuthPassword := globalConfig_SMTPAuthPassword r;
  globalConfig_SMTPAuthPasswordFile := globalConfig_SMTPAuthPasswordFile r; globalConfig_SMTPAuthSecret :=
  globalConfig_SMTPAuthSecret r; globalConfig_SMTPAuthIdentity := globalConfig_SMTPAuthIdentity r;
  globalConfig_SMTPRequireTLS := globalConfig_SMTPRequireTLS r; globalConfig_SMTPTLSConfig :=
  globalConfig_SMTPTLSConfig r; globalConfig_SlackAPIURL := globalConfig_SlackAPIURL r; globalConfig_SlackAPIURLFile
  := globalConfig_SlackAPIURLFile r; globalConfig_PagerdutyURL := globalConfig_PagerdutyURL r;
  globalConfig_HipchatAPIURL := globalConfig_HipchatAPIURL r; globalConfig_HipchatAuthToken :=
  globalConfig_HipchatAuthToken r; globalConfig_OpsGenieAPIURL := globalConfig_OpsGenieAPIURL r;
  globalConfig_OpsGenieAPIKey := globalConfig_OpsGenieAPIKey r; globalConfig_OpsGenieAPIKeyFile :=
  globalConfig_OpsGenieAPIKeyFile r; globalConfig_WeChatAPIURL := globalConfig_WeChatAPIURL r;
  globalConfig_WeChatAPISecret := v; globalConfig_WeChatAPICorpID := globalConfig_WeChatAPICorpID r;
  globalConfig_VictorOpsAPIURL := globalConfig_VictorOpsAPIURL r; globalConfig_VictorOpsAPIKey :=
  globalConfig_VictorOpsAPIKey r; globalConfig_VictorOpsAPIKeyFile := globalConfig_VictorOpsAPIKeyFile r;
  globalConfig_TelegramAPIURL := globalConfig_TelegramAPIURL r; globalConfig_WebexAPIURL := globalConfig_WebexAPIURL
  r; globalConfig_JiraAPIURL := globalConfig_JiraAPIURL r; globalConfig_RocketChatAPIURL :=
  globalConfig_RocketChatAPIURL r; globalConfig_RocketChatToken := globalConfig_RocketChatToken r;
  globalConfig_RocketChatTokenFile := globalConfig_RocketChatTokenFile r; globalConfig_RocketChatTokenID :=
  globalConfig_RocketChatTokenID r; globalConfig_RocketChatTokenIDFile := globalConfig_RocketChatTokenIDFile r |}.
Definition set_globalConfig_WeChatAPICorpID (v : string) (r : globalConfig) : globalConfig := {|
  globalConfig_ResolveTimeout := globalConfig_ResolveTimeout r; globalConfig_HTTPConfig := globalConfig_HTTPConfig r;
  globalConfig_SMTPFrom := globalConfig_SMTPFrom r; globalConfig_SMTPHello := globalConfig_SMTPHello r;
  globalConfig_SMTPSmarthost := globalConfig_SMTPSmarthost r; globalConfig_SMTPAuthUsername :=
  globalConfig_SMTPAuthUsername r; globalConfig_SMTPAuthPassword := globalConfig_SMTPAuthPassword r;
  globalConfig_SMTPAuthPasswordFile := globalConfig_SMTPAuthPasswordFile r; globalConfig_SMTPAuthSecret :=
  globalConfig_SMTPAuthSecret r; globalConfig_SMTPAuthIdentity := globalConfig_SMTPAuthIdentity r;
  globalConfig_SMTPRequireTLS := globalConfig_SMTPRequireTLS r; globalConfig_SMTPTLSConfig :=
  globalConfig_SMTPTLSConfig r; globalConfig_SlackAPIURL := globalConfig_SlackAPIURL r; globalConfig_SlackAPIURLFile
  := globalConfig_SlackAPIURLFile r; globalConfig_PagerdutyURL := globalConfig_PagerdutyURL r;
  globalConfig_HipchatAPIURL := globalConfig_HipchatAPIURL r; globalConfig_HipchatAuthToken :=
  globalConfig_HipchatAuthToken r; globalConfig_OpsGenieAPIURL := globalConfig_OpsGenieAPIURL r;
  globalConfig_OpsGenieAPIKey := globalConfig_OpsGenieAPIKey r; globalConfig_OpsGenieAPIKeyFile :=
  globalConfig_OpsGenieAPIKeyFile r; globalConfig_WeChatAPIURL := globalConfig_WeChatAPIURL r;
  globalConfig_WeChatAPISecret := globalConfig_WeChatAPISecret r; globalConfig_WeChatAPICorpID := v;
  globalConfig_VictorOpsAPIURL := globalConfig_VictorOpsAPIURL r; globalConfig_VictorOpsAPIKey :=
  globalConfig_VictorOpsAPIKey r; globalConfig_VictorOpsAPIKeyFile := globalConfig_VictorOpsAPIKeyFile r;
  globalConfig_TelegramAPIURL := globalConfig_TelegramAPIURL r; globalConfig_WebexAPIURL := globalConfig_WebexAPIURL
  r; globalConfig_JiraAPIURL := globalConfig_JiraAPIURL r; globalConfig_RocketChatAPIURL :=
  globalConfig_RocketChatAPIURL r; globalConfig_RocketChatToken := globalConfig_RocketChatToken r;
  globalConfig_RocketChatTokenFile := globalConfig_RocketChatTokenFile r; globalConfig_RocketChatTokenID :=
  globalConfig_RocketChatTokenID r; globalConfig_RocketChatTokenIDFile := globalConfig_RocketChatTokenIDFile r |}.
Definition set_globalConfig_VictorOpsAPIURL (v : option string) (r : globalConfig) : globalConfig := {|
  globalConfig_ResolveTimeout := globalConfig_ResolveTimeout r; globalConfig_HTTPConfig := globalConfig_HTTPConfig r;
  globalConfig_SMTPFrom := globalConfig_SMTPFrom r; globalConfig_SMTPHello := globalConfig_SMTPHello r;
  globalConfig_SMTPSmarthost := globalConfig_SMTPSmarthost r; globalConfig_SMTPAuthUsername :=
  globalConfig_SMTPAuthUsername r; globalConfig_SMTPAuthPassword := globalConfig_SMTPAuthPassword r;
  globalConfig_SMTPAuthPasswordFile := globalConfig_SMTPAuthPasswordFile r; globalConfig_SMTPAuthSecret :=
  globalConfig_SMTPAuthSecret r; globalConfig_SMTPAuthIdentity := globalConfig_SMTPAuthIdentity r;
  globalConfig_SMTPRequireTLS := globalConfig_SMTPRequireTLS r; globalConfig_SMTPTLSConfig :=
  globalConfig_SMTPTLSConfig r; globalConfig_SlackAPIURL := globalConfig_SlackAPIURL r; globalConfig_SlackAPIURLFile
  := globalConfig_SlackAPIURLFile r; globalConfig_PagerdutyURL := globalConfig_PagerdutyURL r;
  globalConfig_HipchatAPIURL := globalConfig_HipchatAPIURL r; globalConfig_HipchatAuthToken :=
  globalConfig_HipchatAuthToken r; globalConfig_OpsGenieAPIURL := globalConfig_OpsGenieAPIURL r;
  globalConfig_OpsGenieAPIKey := globalConfig_OpsGenieAPIKey r; globalConfig_OpsGenieAPIKeyFile :=
  globalConfig_OpsGenieAPIKeyFile r; globalConfig_WeChatAPIURL := globalConfig_WeChatAPIURL r;
  globalConfig_WeChatAPISecret := globalConfig_WeChatAPISecret r; globalConfig_WeChatAPICorpID :=
  globalConfig_WeChatAPICorpID r; globalConfig_VictorOpsAPIURL := v; globalConfig_VictorOpsAPIKey :=
  globalConfig_VictorOpsAPIKey r; globalConfig_VictorOpsAPIKeyFile := globalConfig_VictorOpsAPIKeyFile r;
  globalConfig_TelegramAPIURL := globalConfig_TelegramAPIURL r; globalConfig_WebexAPIURL := globalConfig_WebexAPIURL
  r; globalConfig_JiraAPIURL := globalConfig_JiraAPIURL r; globalConfig_RocketChatAPIURL :=
  globalConfig_RocketChatAPIURL r; globalConfig_RocketChatToken := globalConfig_RocketChatToken r;
  globalConfig_RocketChatTokenFile := globalConfig_RocketChatTokenFile r; globalConfig_RocketChatTokenID :=
  globalConfig_RocketChatTokenID r; globalConfig_RocketChatTokenIDFile := globalConfig_RocketChatTokenIDFile r |}.
Definition set_globalConfig_VictorOpsAPIKey (v : string) (r : globalConfig) : globalConfig := {|
  globalConfig_ResolveTimeout := globalConfig_ResolveTimeout r; globalConfig_HTTPConfig := globalConfig_HTTPConfig r;
  globalConfig_SMTPFrom := globalConfig_SMTPFrom r; globalConfig_SMTPHello := globalConfig_SMTPHello r;
  globalConfig_SMTPSmarthost := globalConfig_SMTPSmarthost r; globalConfig_SMTPAuthUsername :=
  globalConfig_SMTPAuthUsername r; globalConfig_SMTPAuthPassword := globalConfig_SMTPAuthPassword r;
  globalConfig_SMTPAuthPasswordFile := globalConfig_SMTPAuthPasswordFile r; globalConfig_SMTPAuthSecret :=
  globalConfig_SMTPAuthSecret r; globalConfig_SMTPAuthIdentity := globalConfig_SMTPAuthIdentity r;
  globalConfig_SMTPRequireTLS := globalConfig_SMTPRequireTLS r; globalConfig_SMTPTLSConfig :=
  globalConfig_SMTPTLSConfig r; globalConfig_SlackAPIURL := globalConfig_SlackAPIURL r; globalConfig_SlackAPIURLFile
  := globalConfig_SlackAPIURLFile r; globalConfig_PagerdutyURL := globalConfig_PagerdutyURL r;
  globalConfig_HipchatAPIURL := globalConfig_HipchatAPIURL r; globalConfig_HipchatAuthToken :=
  globalConfig_HipchatAuthToken r; globalConfig_OpsGenieAPIURL := globalConfig_OpsGenieAPIURL r;
  globalConfig_OpsGenieAPIKey := globalConfig_OpsGenieAPIKey r; globalConfig_OpsGenieAPIKeyFile :=
  globalConfig_OpsGenieAPIKeyFile r; globalConfig_WeChatAPIURL := globalConfig_WeChatAPIURL r;
  globalConfig_WeChatAPISecret := globalConfig_WeChatAPISecret r; globalConfig_WeChatAPICorpID :=
  globalConfig_WeChatAPICorpID r; globalConfig_VictorOpsAPIURL := globalConfig_VictorOpsAPIURL r;
  globalConfig_VictorOpsAPIKey := v; globalConfig_VictorOpsAPIKeyFile := globalConfig_VictorOpsAPIKeyFile r;
  globalConfig_TelegramAPIURL := globalConfig_TelegramAPIURL r; globalConfig_WebexAPIURL := globalConfig_WebexAPIURL
  r; globalConfig_JiraAPIURL := globalConfig_JiraAPIURL r; globalConfig_RocketChatAPIURL :=
  globalConfig_RocketChatAPIURL r; globalConfig_RocketChatToken := globalConfig_RocketChatToken r;
  globalConfig_RocketChatTokenFile := globalConfig_RocketChatTokenFile r; globalConfig_RocketChatTokenID :=
  globalConfig_RocketChatTokenID r; globalConfig_RocketChatTokenIDFile := globalConfig_RocketChatTokenIDFile r |}.
Definition set_route_Continue (v : bool) (r : route) : route := {| route_Receiver := route_Receiver r;
  route_GroupByStr := route_GroupByStr r; route_Match := route_Match r; route_MatchRE := route_MatchRE r;
  route_Matchers := route_Matchers r; route_Continue := v; route_Routes := route_Routes r; route_GroupWait :=
  route_GroupWait r; route_GroupInterval := route_GroupInterval r; route_RepeatInterval := route_RepeatInterval r;
  route_MuteTimeIntervals := route_MuteTimeIntervals r; route_ActiveTimeIntervals := route_ActiveTimeIntervals r |}.
Definition set_route_Match (v : gomap) (r : route) : route := {| route_Receiver := route_Receiver r; route_GroupByStr
  := route_GroupByStr r; route_Match := v; route_MatchRE := route_MatchRE r; route_Matchers := route_Matchers r;
  route_Continue := route_Continue r; route_Routes := route_Routes r; route_GroupWait := route_GroupWait r;
  route_GroupInterval := route_GroupInterval r; route_RepeatInterval := route_RepeatInterval r;
  route_MuteTimeIntervals := route_MuteTimeIntervals r; route_ActiveTimeIntervals := route_ActiveTimeIntervals r |}.
Definition set_route_Matchers (v : list string) (r : route) : route := {| route_Receiver := route_Receiver r;
  route_GroupByStr := route_GroupByStr r; route_Match := route_Match r; route_MatchRE := route_MatchRE r;
  route_Matchers := v; route_Continue := route_Continue r; route_Routes := route_Routes r; route_GroupWait :=
  route_GroupWait r; route_GroupInterval := route_GroupInterval r; route_RepeatInterval := route_RepeatInterval r;
  route_MuteTimeIntervals := route_MuteTimeIntervals r; route_ActiveTimeIntervals := route_ActiveTimeIntervals r |}.
Definition set_route_Routes (v : list route) (r : route) : route := {| route_Receiver := route_Receiver r;
  route_GroupByStr := route_GroupByStr r; route_Match := route_Match r; route_MatchRE := route_MatchRE r;
  route_Matchers := route_Matchers r; route_Continue := route_Continue r; route_Routes := v; route_GroupWait :=
  route_GroupWait r; route_GroupInterval := route_GroupInterval r; route_RepeatInterval := route_RepeatInterval r;
  route_MuteTimeIntervals := route_MuteTimeIntervals r; route_ActiveTimeIntervals := route_ActiveTimeIntervals r |}.
Definition set_inhibitRule_SourceMatch (v : gomap) (r : inhibitRule) : inhibitRule := {| inhibitRule_TargetMatch :=
  inhibitRule_TargetMatch r; inhibitRule_TargetMatchRE := inhibitRule_TargetMatchRE r; inhibitRule_TargetMatchers :=
  inhibitRule_TargetMatchers r; inhibitRule_SourceMatch := v; inhibitRule_SourceMatchRE := inhibitRule_SourceMatchRE
  r; inhibitRule_SourceMatchers := inhibitRule_SourceMatchers r; inhibitRule_Equal := inhibitRule_Equal r |}.
Definition set_inhibitRule_TargetMatch (v : gomap) (r : inhibitRule) : inhibitRule := {| inhibitRule_TargetMatch := v;
  inhibitRule_TargetMatchRE := inhibitRule_TargetMatchRE r; inhibitRule_TargetMatchers := inhibitRule_TargetMatchers
  r; inhibitRule_SourceMatch := inhibitRule_SourceMatch r; inhibitRule_SourceMatchRE := inhibitRule_SourceMatchRE r;
  inhibitRule_SourceMatchers := inhibitRule_SourceMatchers r; inhibitRule_Equal := inhibitRule_Equal r |}.
Definition set_inhibitRule_SourceMatchRE (v : gomap) (r : inhibitRule) : inhibitRule := {| inhibitRule_TargetMatch :=
  inhibitRule_TargetMatch r; inhibitRule_TargetMatchRE := inhibitRule_TargetMatchRE r; inhibitRule_TargetMatchers :=
  inhibitRule_TargetMatchers r; inhibitRule_SourceMatch := inhibitRule_SourceMatch r; inhibitRule_SourceMatchRE := v;
  inhibitRule_SourceMatchers := inhibitRule_SourceMatchers r; inhibitRule_Equal := inhibitRule_Equal r |}.
Definition set_inhibitRule_TargetMatchRE (v : gomap) (r : inhibitRule) : inhibitRule := {| inhibitRule_TargetMatch :=
  inhibitRule_TargetMatch r; inhibitRule_TargetMatchRE := v; inhibitRule_TargetMatchers := inhibitRule_TargetMatchers
  r; inhibitRule_SourceMatch := inhibitRule_SourceMatch r; inhibitRule_SourceMatchRE := inhibitRule_SourceMatchRE r;
  inhibitRule_SourceMatchers := inhibitRule_SourceMatchers r; inhibitRule_Equal := inhibitRule_Equal r |}.
Definition set_inhibitRule_SourceMatchers (v : list string) (r : inhibitRule) : inhibitRule := {|
  inhibitRule_TargetMatch := inhibitRule_TargetMatch r; inhibitRule_TargetMatchRE := inhibitRule_TargetMatchRE r;
  inhibitRule_TargetMatchers := inhibitRule_TargetMatchers r; inhibitRule_SourceMatch := inhibitRule_SourceMatch r;
  inhibitRule_SourceMatchRE := inhibitRule_SourceMatchRE r; inhibitRule_SourceMatchers := v; inhibitRule_Equal :=
  inhibitRule_Equal r |}.
Definition set_inhibitRule_TargetMatchers (v : list string) (r : inhibitRule) : inhibitRule := {|
  inhibitRule_TargetMatch := inhibitRule_TargetMatch r; inhibitRule_TargetMatchRE := inhibitRule_TargetMatchRE r;
  inhibitRule_TargetMatchers := v; inhibitRule_SourceMatch := inhibitRule_SourceMatch r; inhibitRule_SourceMatchRE :=
  inhibitRule_SourceMatchRE r; inhibitRule_SourceMatchers := inhibitRule_SourceMatchers r; inhibitRule_Equal :=
  inhibitRule_Equal r |}.
Definition set_webhookConfig_HTTPConfig (v : option httpClientConfig) (r : webhookConfig) : webhookConfig := {|
  webhookConfig_VSendResolved := webhookConfig_VSendResolved r; webhookConfig_URL := webhookConfig_URL r;
  webhookConfig_URLFile := webhookConfig_URLFile r; webhookConfig_HTTPConfig := v; webhookConfig_MaxAlerts :=
  webhookConfig_MaxAlerts r; webhookConfig_Timeout := webhookConfig_Timeout r |}.
Definition set_webhookConfig_URLFile (v : string) (r : webhookConfig) : webhookConfig := {|
  webhookConfig_VSendResolved := webhookConfig_VSendResolved r; webhookConfig_URL := webhookConfig_URL r;
  webhookConfig_URLFile := v; webhookConfig_HTTPConfig := webhookConfig_HTTPConfig r; webhookConfig_MaxAlerts :=
  webhookConfig_MaxAlerts r; webhookConfig_Timeout := webhookConfig_Timeout r |}.
Definition set_webhookConfig_Timeout (v : option Z) (r : webhookConfig) : webhookConfig := {|
  webhookConfig_VSendResolved := webhookConfig_VSendResolved r; webhookConfig_URL := webhookConfig_URL r;
  webhookConfig_URLFile := webhookConfig_URLFile r; webhookConfig_HTTPConfig := webhookConfig_HTTPConfig r;
  webhookConfig_MaxAlerts := webhookConfig_MaxAlerts r; webhookConfig_Timeout := v |}.
Definition set_pagerdutyConfig_Source (v : string) (r : pagerdutyConfig) : pagerdutyConfig := {|
  pagerdutyConfig_VSendResolved := pagerdutyConfig_VSendResolved r; pagerdutyConfig_HTTPConfig :=
  pagerdutyConfig_HTTPConfig r; pagerdutyConfig_ServiceKey := pagerdutyConfig_ServiceKey r;
  pagerdutyConfig_ServiceKeyFile := pagerdutyConfig_ServiceKeyFile r; pagerdutyConfig_RoutingKey :=
  pagerdutyConfig_RoutingKey r; pagerdutyConfig_RoutingKeyFile := pagerdutyConfig_RoutingKeyFile r;
  pagerdutyConfig_URL := pagerdutyConfig_URL r; pagerdutyConfig_Client := pagerdutyConfig_Client r;
  pagerdutyConfig_ClientURL := pagerdutyConfig_ClientURL r; pagerdutyConfig_Description := pagerdutyConfig_Description
  r; pagerdutyConfig_Details := pagerdutyConfig_Details r; pagerdutyConfig_Images := pagerdutyConfig_Images r;
  pagerdutyConfig_Links := pagerdutyConfig_Links r; pagerdutyConfig_Severity := pagerdutyConfig_Severity r;
  pagerdutyConfig_Class := pagerdutyConfig_Class r; pagerdutyConfig_Component := pagerdutyConfig_Component r;
  pagerdutyConfig_Group := pagerdutyConfig_Group r; pagerdutyConfig_Source := v |}.
Definition set_pagerdutyConfig_RoutingKeyFile (v : string) (r : pagerdutyConfig) : pagerdutyConfig := {|
  pagerdutyConfig_VSendResolved := pagerdutyConfig_VSendResolved r; pagerdutyConfig_HTTPConfig :=
  pagerdutyConfig_HTTPConfig r; pagerdutyConfig_ServiceKey := pagerdutyConfig_ServiceKey r;
  pagerdutyConfig_ServiceKeyFile := pagerdutyConfig_ServiceKeyFile r; pagerdutyConfig_RoutingKey :=
  pagerdutyConfig_RoutingKey r; pagerdutyConfig_RoutingKeyFile := v; pagerdutyConfig_URL := pagerdutyConfig_URL r;
  pagerdutyConfig_Client := pagerdutyConfig_Client r; pagerdutyConfig_ClientURL := pagerdutyConfig_ClientURL r;
  pagerdutyConfig_Description := pagerdutyConfig_Description r; pagerdutyConfig_Details := pagerdutyConfig_Details r;
  pagerdutyConfig_Images := pagerdutyConfig_Images r; pagerdutyConfig_Links := pagerdutyConfig_Links r;
  pagerdutyConfig_Severity := pagerdutyConfig_Severity r; pagerdutyConfig_Class := pagerdutyConfig_Class r;
  pagerdutyConfig_Component := pagerdutyConfig_Component r; pagerdutyConfig_Group := pagerdutyConfig_Group r;
  pagerdutyConfig_Source := pagerdutyConfig_Source r |}.
Definition set_pagerdutyConfig_ServiceKeyFile (v : string) (r : pagerdutyConfig) : pagerdutyConfig := {|
  pagerdutyConfig_VSendResolved := pagerdutyConfig_VSendResolved r; pagerdutyConfig_HTTPConfig :=
  pagerdutyConfig_HTTPConfig r; pagerdutyConfig_ServiceKey := pagerdutyConfig_ServiceKey r;
  pagerdutyConfig_ServiceKeyFile := v; pagerdutyConfig_RoutingKey := pagerdutyConfig_RoutingKey r;
  pagerdutyConfig_RoutingKeyFile := pagerdutyConfig_RoutingKeyFile r; pagerdutyConfig_URL := pagerdutyConfig_URL r;
  pagerdutyConfig_Client := pagerdutyConfig_Client r; pagerdutyConfig_ClientURL := pagerdutyConfig_ClientURL r;
  pagerdutyConfig_Description := pagerdutyConfig_Description r; pagerdutyConfig_Details := pagerdutyConfig_Details r;
  pagerdutyConfig_Images := pagerdutyConfig_Images r; pagerdutyConfig_Links := pagerdutyConfig_Links r;
  pagerdutyConfig_Severity := pagerdutyConfig_Severity r; pagerdutyConfig_Class := pagerdutyConfig_Class r;
  pagerdutyConfig_Component := pagerdutyConfig_Component r; pagerdutyConfig_Group := pagerdutyConfig_Group r;
  pagerdutyConfig_Source := pagerdutyConfig_Source r |}.
Definition set_pagerdutyConfig_HTTPConfig (v : option httpClientConfig) (r : pagerdutyConfig) : pagerdutyConfig := {|
  pagerdutyConfig_VSendResolved := pagerdutyConfig_VSendResolved r; pagerdutyConfig_HTTPConfig := v;
  pagerdutyConfig_ServiceKey := pagerdutyConfig_ServiceKey r; pagerdutyConfig_ServiceKeyFile :=
  pagerdutyConfig_ServiceKeyFile r; pagerdutyConfig_RoutingKey := pagerdutyConfig_RoutingKey r;
  pagerdutyConfig_RoutingKeyFile := pagerdutyConfig_RoutingKeyFile r; pagerdutyConfig_URL := pagerdutyConfig_URL r;
  pagerdutyConfig_Client := pagerdutyConfig_Client r; pagerdutyConfig_ClientURL := pagerdutyConfig_ClientURL r;
  pagerdutyConfig_Description := pagerdutyConfig_Description r; pagerdutyConfig_Details := pagerdutyConfig_Details r;
  pagerdutyConfig_Images := pagerdutyConfig_Images r; pagerdutyConfig_Links := pagerdutyConfig_Links r;
  pagerdutyConfig_Severity := pagerdutyConfig_Severity r; pagerdutyConfig_Class := pagerdutyConfig_Class r;
  pagerdutyConfig_Component := pagerdutyConfig_Component r; pagerdutyConfig_Group := pagerdutyConfig_Group r;
  pagerdutyConfig_Source := pagerdutyConfig_Source r |}.
Definition set_opsgenieConfig_HTTPConfig (v : option httpClientConfig) (r : opsgenieConfig) : opsgenieConfig := {|
  opsgenieConfig_VSendResolved := opsgenieConfig_VSendResolved r; opsgenieConfig_HTTPConfig := v;
  opsgenieConfig_APIKey := opsgenieConfig_APIKey r; opsgenieConfig_APIKeyFile := opsgenieConfig_APIKeyFile r;
  opsgenieConfig_APIURL := opsgenieConfig_APIURL r; opsgenieConfig_Message := opsgenieConfig_Message r;
  opsgenieConfig_Description := opsgenieConfig_Description r; opsgenieConfig_Source := opsgenieConfig_Source r;
  opsgenieConfig_Details := opsgenieConfig_Details r; opsgenieConfig_Responders := opsgenieConfig_Responders r;
  opsgenieConfig_Tags := opsgenieConfig_Tags r; opsgenieConfig_Note := opsgenieConfig_Note r; opsgenieConfig_Priority
  := opsgenieConfig_Priority r; opsgenieConfig_UpdateAlerts := opsgenieConfig_UpdateAlerts r; opsgenieConfig_Entity :=
  opsgenieConfig_Entity r; opsgenieConfig_Actions := opsgenieConfig_Actions r |}.
Definition set_opsgenieConfig_Actions (v : string) (r : opsgenieConfig) : opsgenieConfig := {|
  opsgenieConfig_VSendResolved := opsgenieConfig_VSendResolved r; opsgenieConfig_HTTPConfig :=
  opsgenieConfig_HTTPConfig r; opsgenieConfig_APIKey := opsgenieConfig_APIKey r; opsgenieConfig_APIKeyFile :=
  opsgenieConfig_APIKeyFile r; opsgenieConfig_APIURL := opsgenieConfig_APIURL r; opsgenieConfig_Message :=
  opsgenieConfig_Message r; opsgenieConfig_Description := opsgenieConfig_Description r; opsgenieConfig_Source :=
  opsgenieConfig_Source r; opsgenieConfig_Details := opsgenieConfig_Details r; opsgenieConfig_Responders :=
  opsgenieConfig_Responders r; opsgenieConfig_Tags := opsgenieConfig_Tags r; opsgenieConfig_Note :=
  opsgenieConfig_Note r; opsgenieConfig_Priority := opsgenieConfig_Priority r; opsgenieConfig_UpdateAlerts :=
  opsgenieConfig_UpdateAlerts r; opsgenieConfig_Entity := opsgenieConfig_Entity r; opsgenieConfig_Actions := v |}.
Definition set_opsgenieConfig_Entity (v : string) (r : opsgenieConfig) : opsgenieConfig := {|
  opsgenieConfig_VSendResolved := opsgenieConfig_VSendResolved r; opsgenieConfig_HTTPConfig :=
  opsgenieConfig_HTTPConfig r; opsgenieConfig_APIKey := opsgenieConfig_APIKey r; opsgenieConfig_APIKeyFile :=
  opsgenieConfig_APIKeyFile r; opsgenieConfig_APIURL := opsgenieConfig_APIURL r; opsgenieConfig_Message :=
  opsgenieConfig_Message r; opsgenieConfig_Description := opsgenieConfig_Description r; opsgenieConfig_Source :=
  opsgenieConfig_Source r; opsgenieConfig_Details := opsgenieConfig_Details r; opsgenieConfig_Responders :=
  opsgenieConfig_Responders r; opsgenieConfig_Tags := opsgenieConfig_Tags r; opsgenieConfig_Note :=
  opsgenieConfig_Note r; opsgenieConfig_Priority := opsgenieConfig_Priority r; opsgenieConfig_UpdateAlerts :=
  opsgenieConfig_UpdateAlerts r; opsgenieConfig_Entity := v; opsgenieConfig_Actions := opsgenieConfig_Actions r |}.
Definition set_opsgenieConfig_UpdateAlerts (v : option bool) (r : opsgenieConfig) : opsgenieConfig := {|
  opsgenieConfig_VSendResolved := opsgenieConfig_VSendResolved r; opsgenieConfig_HTTPConfig :=
  opsgenieConfig_HTTPConfig r; opsgenieConfig_APIKey := opsgenieConfig_APIKey r; opsgenieConfig_APIKeyFile :=
  opsgenieConfig_APIKeyFile r; opsgenieConfig_APIURL := opsgenieConfig_APIURL r; opsgenieConfig_Message :=
  opsgenieConfig_Message r; opsgenieConfig_Description := opsgenieConfig_Description r; opsgenieConfig_Source :=
  opsgenieConfig_Source r; opsgenieConfig_Details := opsgenieConfig_Details r; opsgenieConfig_Responders :=
  opsgenieConfig_Responders r; opsgenieConfig_Tags := opsgenieConfig_Tags r; opsgenieConfig_Note :=
  opsgenieConfig_Note r; opsgenieConfig_Priority := opsgenieConfig_Priority r; opsgenieConfig_UpdateAlerts := v;
  opsgenieConfig_Entity := opsgenieConfig_Entity r; opsgenieConfig_Actions := opsgenieConfig_Actions r |}.
Definition set_opsgenieConfig_APIKeyFile (v : string) (r : opsgenieConfig) : opsgenieConfig := {|
  opsgenieConfig_VSendResolved := opsgenieConfig_VSendResolved r; opsgenieConfig_HTTPConfig :=
  opsgenieConfig_HTTPConfig r; opsgenieConfig_APIKey := opsgenieConfig_APIKey r; opsgenieConfig_APIKeyFile := v;
  opsgenieConfig_APIURL := opsgenieConfig_APIURL r; opsgenieConfig_Message := opsgenieConfig_Message r;
  opsgenieConfig_Description := opsgenieConfig_Description r; opsgenieConfig_Source := opsgenieConfig_Source r;
  opsgenieConfig_Details := opsgenieConfig_Details r; opsgenieConfig_Responders := opsgenieConfig_Responders r;
  opsgenieConfig_Tags := opsgenieConfig_Tags r; opsgenieConfig_Note := opsgenieConfig_Note r; opsgenieConfig_Priority
  := opsgenieConfig_Priority r; opsgenieConfig_UpdateAlerts := opsgenieConfig_UpdateAlerts r; opsgenieConfig_Entity :=
  opsgenieConfig_Entity r; opsgenieConfig_Actions := opsgenieConfig_Actions r |}.
Definition set_weChatConfig_HTTPConfig (v : option httpClientConfig) (r : weChatConfig) : weChatConfig := {|
  weChatConfig_VSendResolved := weChatConfig_VSendResolved r; weChatConfig_APISecret := weChatConfig_APISecret r;
  weChatConfig_APIURL := weChatConfig_APIURL r; weChatConfig_CorpID := weChatConfig_CorpID r; weChatConfig_AgentID :=
  weChatConfig_AgentID r; weChatConfig_ToUser := weChatConfig_ToUser r; weChatConfig_ToParty := weChatConfig_ToParty
  r; weChatConfig_ToTag := weChatConfig_ToTag r; weChatConfig_Message := weChatConfig_Message r;
  weChatConfig_MessageType := weChatConfig_MessageType r; weChatConfig_HTTPConfig := v |}.
Definition set_slackConfig_HTTPConfig (v : option httpClientConfig) (r : slackConfig) : slackConfig := {|
  slackConfig_VSendResolved := slackConfig_VSendResolved r; slackConfig_HTTPConfig := v; slackConfig_APIURL :=
  slackConfig_APIURL r; slackConfig_APIURLFile := slackConfig_APIURLFile r; slackConfig_Channel := slackConfig_Channel
  r; slackConfig_Username := slackConfig_Username r; slackConfig_Color := slackConfig_Color r; slackConfig_Title :=
  slackConfig_Title r; slackConfig_TitleLink := slackConfig_TitleLink r; slackConfig_Pretext := slackConfig_Pretext r;
  slackConfig_Text := slackConfig_Text r; slackConfig_Fields := slackConfig_Fields r; slackConfig_ShortFields :=
  slackConfig_ShortFields r; slackConfig_Footer := slackConfig_Footer r; slackConfig_Fallback := slackConfig_Fallback
  r; slackConfig_CallbackID := slackConfig_CallbackID r; slackConfig_IconEmoji := slackConfig_IconEmoji r;
  slackConfig_IconURL := slackConfig_IconURL r; slackConfig_ImageURL := slackConfig_ImageURL r; slackConfig_ThumbURL
  := slackConfig_ThumbURL r; slackConfig_LinkNames := slackConfig_LinkNames r; slackConfig_MrkdwnIn :=
  slackConfig_MrkdwnIn r; slackConfig_Actions := slackConfig_Actions r |}.
Definition set_slackConfig_APIURLFile (v : string) (r : slackConfig) : slackConfig := {| slackConfig_VSendResolved :=
  slackConfig_VSendResolved r; slackConfig_HTTPConfig := slackConfig_HTTPConfig r; slackConfig_APIURL :=
  slackConfig_APIURL r; slackConfig_APIURLFile := v; slackConfig_Channel := slackConfig_Channel r;
  slackConfig_Username := slackConfig_Username r; slackConfig_Color := slackConfig_Color r; slackConfig_Title :=
  slackConfig_Title r; slackConfig_TitleLink := slackConfig_TitleLink r; slackConfig_Pretext := slackConfig_Pretext r;
  slackConfig_Text := slackConfig_Text r; slackConfig_Fields := slackConfig_Fields r; slackConfig_ShortFields :=
  slackConfig_ShortFields r; slackConfig_Footer := slackConfig_Footer r; slackConfig_Fallback := slackConfig_Fallback
  r; slackConfig_CallbackID := slackConfig_CallbackID r; slackConfig_IconEmoji := slackConfig_IconEmoji r;
  slackConfig_IconURL := slackConfig_IconURL r; slackConfig_ImageURL := slackConfig_ImageURL r; slackConfig_ThumbURL
  := slackConfig_ThumbURL r; slackConfig_LinkNames := slackConfig_LinkNames r; slackConfig_MrkdwnIn :=
  slackConfig_MrkdwnIn r; slackConfig_Actions := slackConfig_Actions r |}.
Definition set_emailConfig_AuthPasswordFile (v : string) (r : emailConfig) : emailConfig := {|
  emailConfig_VSendResolved := emailConfig_VSendResolved r; emailConfig_To := emailConfig_To r; emailConfig_From :=
  emailConfig_From r; emailConfig_Hello := emailConfig_Hello r; emailConfig_Smarthost := emailConfig_Smarthost r;
  emailConfig_AuthUsername := emailConfig_AuthUsername r; emailConfig_AuthPassword := emailConfig_AuthPassword r;
  emailConfig_AuthPasswordFile := v; emailConfig_AuthSecret := emailConfig_AuthSecret r; emailConfig_AuthIdentity :=
  emailConfig_AuthIdentity r; emailConfig_Headers := emailConfig_Headers r; emailConfig_HTML := emailConfig_HTML r;
  emailConfig_Text := emailConfig_Text r; emailConfig_RequireTLS := emailConfig_RequireTLS r; emailConfig_TLSConfig :=
  emailConfig_TLSConfig r |}.
Definition set_pushoverConfig_UserKeyFile (v : string) (r : pushoverConfig) : pushoverConfig := {|
  pushoverConfig_VSendResolved := pushoverConfig_VSendResolved r; pushoverConfig_HTTPConfig :=
  pushoverConfig_HTTPConfig r; pushoverConfig_UserKey := pushoverConfig_UserKey r; pushoverConfig_UserKeyFile := v;
  pushoverConfig_Token := pushoverConfig_Token r; pushoverConfig_TokenFile := pushoverConfig_TokenFile r;
  pushoverConfig_Title := pushoverConfig_Title r; pushoverConfig_Message := pushoverConfig_Message r;
  pushoverConfig_URL := pushoverConfig_URL r; pushoverConfig_URLTitle := pushoverConfig_URLTitle r; pushoverConfig_TTL
  := pushoverConfig_TTL r; pushoverConfig_Device := pushoverConfig_Device r; pushoverConfig_Sound :=
  pushoverConfig_Sound r; pushoverConfig_Priority := pushoverConfig_Priority r; pushoverConfig_Retry :=
  pushoverConfig_Retry r; pushoverConfig_Expire := pushoverConfig_Expire r; pushoverConfig_HTML := pushoverConfig_HTML
  r |}.
Definition set_pushoverConfig_TokenFile (v : string) (r : pushoverConfig) : pushoverConfig := {|
  pushoverConfig_VSendResolved := pushoverConfig_VSendResolved r; pushoverConfig_HTTPConfig :=
  pushoverConfig_HTTPConfig r; pushoverConfig_UserKey := pushoverConfig_UserKey r; pushoverConfig_UserKeyFile :=
  pushoverConfig_UserKeyFile r; pushoverConfig_Token := pushoverConfig_Token r; pushoverConfig_TokenFile := v;
  pushoverConfig_Title := pushoverConfig_Title r; pushoverConfig_Message := pushoverConfig_Message r;
  pushoverConfig_URL := pushoverConfig_URL r; pushoverConfig_URLTitle := pushoverConfig_URLTitle r; pushoverConfig_TTL
  := pushoverConfig_TTL r; pushoverConfig_Device := pushoverConfig_Device r; pushoverConfig_Sound :=
  pushoverConfig_Sound r; pushoverConfig_Priority := pushoverConfig_Priority r; pushoverConfig_Retry :=
  pushoverConfig_Retry r; pushoverConfig_Expire := pushoverConfig_Expire r; pushoverConfig_HTML := pushoverConfig_HTML
  r |}.
Definition set_pushoverConfig_TTL (v : string) (r : pushoverConfig) : pushoverConfig := {|
  pushoverConfig_VSendResolved := pushoverConfig_VSendResolved r; pushoverConfig_HTTPConfig :=
  pushoverConfig_HTTPConfig r; pushoverConfig_UserKey := pushoverConfig_UserKey r; pushoverConfig_UserKeyFile :=
  pushoverConfig_UserKeyFile r; pushoverConfig_Token := pushoverConfig_Token r; pushoverConfig_TokenFile :=
  pushoverConfig_TokenFile r; pushoverConfig_Title := pushoverConfig_Title r; pushoverConfig_Message :=
  pushoverConfig_Message r; pushoverConfig_URL := pushoverConfig_URL r; pushoverConfig_URLTitle :=
  pushoverConfig_URLTitle r; pushoverConfig_TTL := v; pushoverConfig_Device := pushoverConfig_Device r;
  pushoverConfig_Sound := pushoverConfig_Sound r; pushoverConfig_Priority := pushoverConfig_Priority r;
  pushoverConfig_Retry := pushoverConfig_Retry r; pushoverConfig_Expire := pushoverConfig_Expire r;
  pushoverConfig_HTML := pushoverConfig_HTML r |}.
Definition set_pushoverConfig_Device (v : string) (r : pushoverConfig) : pushoverConfig := {|
  pushoverConfig_VSendResolved := pushoverConfig_VSendResolved r; pushoverConfig_HTTPConfig :=
  pushoverConfig_HTTPConfig r; pushoverConfig_UserKey := pushoverConfig_UserKey r; pushoverConfig_UserKeyFile :=
  pushoverConfig_UserKeyFile r; pushoverConfig_Token := pushoverConfig_Token r; pushoverConfig_TokenFile :=
  pushoverConfig_TokenFile r; pushoverConfig_Title := pushoverConfig_Title r; pushoverConfig_Message :=
  pushoverConfig_Message r; pushoverConfig_URL := pushoverConfig_URL r; pushoverConfig_URLTitle :=
  pushoverConfig_URLTitle r; pushoverConfig_TTL := pushoverConfig_TTL r; pushoverConfig_Device := v;
  pushoverConfig_Sound := pushoverConfig_Sound r; pushoverConfig_Priority := pushoverConfig_Priority r;
  pushoverConfig_Retry := pushoverConfig_Retry r; pushoverConfig_Expire := pushoverConfig_Expire r;
  pushoverConfig_HTML := pushoverConfig_HTML r |}.
Definition set_pushoverConfig_HTTPConfig (v : option httpClientConfig) (r : pushoverConfig) : pushoverConfig := {|
  pushoverConfig_VSendResolved := pushoverConfig_VSendResolved r; pushoverConfig_HTTPConfig := v;
  pushoverConfig_UserKey := pushoverConfig_UserKey r; pushoverConfig_UserKeyFile := pushoverConfig_UserKeyFile r;
  pushoverConfig_Token := pushoverConfig_Token r; pushoverConfig_TokenFile := pushoverConfig_TokenFile r;
  pushoverConfig_Title := pushoverConfig_Title r; pushoverConfig_Message := pushoverConfig_Message r;
  pushoverConfig_URL := pushoverConfig_URL r; pushoverConfig_URLTitle := pushoverConfig_URLTitle r; pushoverConfig_TTL
  := pushoverConfig_TTL r; pushoverConfig_Device := pushoverConfig_Device r; pushoverConfig_Sound :=
  pushoverConfig_Sound r; pushoverConfig_Priority := pushoverConfig_Priority r; pushoverConfig_Retry :=
  pushoverConfig_Retry r; pushoverConfig_Expire := pushoverConfig_Expire r; pushoverConfig_HTML := pushoverConfig_HTML
  r |}.
Definition set_snsConfig_HTTPConfig (v : option httpClientConfig) (r : snsConfig) : snsConfig := {|
  snsConfig_VSendResolved := snsConfig_VSendResolved r; snsConfig_HTTPConfig := v; snsConfig_APIUrl :=
  snsConfig_APIUrl r; snsConfig_Sigv4 := snsConfig_Sigv4 r; snsConfig_TopicARN := snsConfig_TopicARN r;
  snsConfig_PhoneNumber := snsConfig_PhoneNumber r; snsConfig_TargetARN := snsConfig_TargetARN r; snsConfig_Subject :=
  snsConfig_Subject r; snsConfig_Message := snsConfig_Message r; snsConfig_Attributes := snsConfig_Attributes r |}.
Definition set_telegramConfig_BotTokenFile (v : string) (r : telegramConfig) : telegramConfig := {|
  telegramConfig_VSendResolved := telegramConfig_VSendResolved r; telegramConfig_APIUrl := telegramConfig_APIUrl r;
  telegramConfig_BotToken := telegramConfig_BotToken r; telegramConfig_BotTokenFile := v; telegramConfig_ChatID :=
  telegramConfig_ChatID r; telegramConfig_MessageThreadID := telegramConfig_MessageThreadID r; telegramConfig_Message
  := telegramConfig_Message r; telegramConfig_DisableNotifications := telegramConfig_DisableNotifications r;
  telegramConfig_ParseMode := telegramConfig_ParseMode r; telegramConfig_HTTPConfig := telegramConfig_HTTPConfig r |}.
Definition set_telegramConfig_MessageThreadID (v : Z) (r : telegramConfig) : telegramConfig := {|
  telegramConfig_VSendResolved := telegramConfig_VSendResolved r; telegramConfig_APIUrl := telegramConfig_APIUrl r;
  telegramConfig_BotToken := telegramConfig_BotToken r; telegramConfig_BotTokenFile := telegramConfig_BotTokenFile r;
  telegramConfig_ChatID := telegramConfig_ChatID r; telegramConfig_MessageThreadID := v; telegramConfig_Message :=
  telegramConfig_Message r; telegramConfig_DisableNotifications := telegramConfig_DisableNotifications r;
  telegramConfig_ParseMode := telegramConfig_ParseMode r; telegramConfig_HTTPConfig := telegramConfig_HTTPConfig r |}.
Definition set_telegramConfig_HTTPConfig (v : option httpClientConfig) (r : telegramConfig) : telegramConfig := {|
  telegramConfig_VSendResolved := telegramConfig_VSendResolved r; telegramConfig_APIUrl := telegramConfig_APIUrl r;
  telegramConfig_BotToken := telegramConfig_BotToken r; telegramConfig_BotTokenFile := telegramConfig_BotTokenFile r;
  telegramConfig_ChatID := telegramConfig_ChatID r; telegramConfig_MessageThreadID := telegramConfig_MessageThreadID
  r; telegramConfig_Message := telegramConfig_Message r; telegramConfig_DisableNotifications :=
  telegramConfig_DisableNotifications r; telegramConfig_ParseMode := telegramConfig_ParseMode r;
  telegramConfig_HTTPConfig := v |}.
Definition set_discordConfig_Content (v : string) (r : discordConfig) : discordConfig := {|
  discordConfig_VSendResolved := discordConfig_VSendResolved r; discordConfig_HTTPConfig := discordConfig_HTTPConfig
  r; discordConfig_WebhookURL := discordConfig_WebhookURL r; discordConfig_Title := discordConfig_Title r;
  discordConfig_Message := discordConfig_Message r; discordConfig_Content := v; discordConfig_Username :=
  discordConfig_Username r; discordConfig_AvatarURL := discordConfig_AvatarURL r |}.
Definition set_discordConfig_Username (v : string) (r : discordConfig) : discordConfig := {|
  discordConfig_VSendResolved := discordConfig_VSendResolved r; discordConfig_HTTPConfig := discordConfig_HTTPConfig
  r; discordConfig_WebhookURL := discordConfig_WebhookURL r; discordConfig_Title := discordConfig_Title r;
  discordConfig_Message := discordConfig_Message r; discordConfig_Content := discordConfig_Content r;
  discordConfig_Username := v; discordConfig_AvatarURL := discordConfig_AvatarURL r |}.
Definition set_discordConfig_AvatarURL (v : string) (r : discordConfig) : discordConfig := {|
  discordConfig_VSendResolved := discordConfig_VSendResolved r; discordConfig_HTTPConfig := discordConfig_HTTPConfig
  r; discordConfig_WebhookURL := discordConfig_WebhookURL r; discordConfig_Title := discordConfig_Title r;
  discordConfig_Message := discordConfig_Message r; discordConfig_Content := discordConfig_Content r;
  discordConfig_Username := discordConfig_Username r; discordConfig_AvatarURL := v |}.
Definition set_discordConfig_HTTPConfig (v : option httpClientConfig) (r : discordConfig) : discordConfig := {|
  discordConfig_VSendResolved := discordConfig_VSendResolved r; discordConfig_HTTPConfig := v;
  discordConfig_WebhookURL := discordConfig_WebhookURL r; discordConfig_Title := discordConfig_Title r;
  discordConfig_Message := discordConfig_Message r; discordConfig_Content := discordConfig_Content r;
  discordConfig_Username := discordConfig_Username r; discordConfig_AvatarURL := discordConfig_AvatarURL r |}.
Definition set_webexConfig_HTTPConfig (v : option httpClientConfig) (r : webexConfig) : webexConfig := {|
  webexConfig_VSendResolved := webexConfig_VSendResolved r; webexConfig_HTTPConfig := v; webexConfig_APIURL :=
  webexConfig_APIURL r; webexConfig_Message := webexConfig_Message r; webexConfig_RoomID := webexConfig_RoomID r |}.
Definition set_victorOpsConfig_HTTPConfig (v : option httpClientConfig) (r : victorOpsConfig) : victorOpsConfig := {|
  victorOpsConfig_VSendResolved := victorOpsConfig_VSendResolved r; victorOpsConfig_HTTPConfig := v;
  victorOpsConfig_APIKey := victorOpsConfig_APIKey r; victorOpsConfig_APIKeyFile := victorOpsConfig_APIKeyFile r;
  victorOpsConfig_APIURL := victorOpsConfig_APIURL r; victorOpsConfig_RoutingKey := victorOpsConfig_RoutingKey r;
  victorOpsConfig_MessageType := victorOpsConfig_MessageType r; victorOpsConfig_StateMessage :=
  victorOpsConfig_StateMessage r; victorOpsConfig_EntityDisplayName := victorOpsConfig_EntityDisplayName r;
  victorOpsConfig_MonitoringTool := victorOpsConfig_MonitoringTool r; victorOpsConfig_CustomFields :=
  victorOpsConfig_CustomFields r |}.
Definition set_victorOpsConfig_APIKeyFile (v : string) (r : victorOpsConfig) : victorOpsConfig := {|
  victorOpsConfig_VSendResolved := victorOpsConfig_VSendResolved r; victorOpsConfig_HTTPConfig :=
  victorOpsConfig_HTTPConfig r; victorOpsConfig_APIKey := victorOpsConfig_APIKey r; victorOpsConfig_APIKeyFile := v;
  victorOpsConfig_APIURL := victorOpsConfig_APIURL r; victorOpsConfig_RoutingKey := victorOpsConfig_RoutingKey r;
  victorOpsConfig_MessageType := victorOpsConfig_MessageType r; victorOpsConfig_StateMessage :=
  victorOpsConfig_StateMessage r; victorOpsConfig_EntityDisplayName := victorOpsConfig_EntityDisplayName r;
  victorOpsConfig_MonitoringTool := victorOpsConfig_MonitoringTool r; victorOpsConfig_CustomFields :=
  victorOpsConfig_CustomFields r |}.
Definition set_msTeamsConfig_Summary (v : string) (r : msTeamsConfig) : msTeamsConfig := {| msTeamsConfig_SendResolved
  := msTeamsConfig_SendResolved r; msTeamsConfig_WebhookURL := msTeamsConfig_WebhookURL r; msTeamsConfig_Title :=
  msTeamsConfig_Title r; msTeamsConfig_Summary := v; msTeamsConfig_Text := msTeamsConfig_Text r;
  msTeamsConfig_HTTPConfig := msTeamsConfig_HTTPConfig r |}.
Definition set_msTeamsConfig_HTTPConfig (v : option httpClientConfig) (r : msTeamsConfig) : msTeamsConfig := {|
  msTeamsConfig_SendResolved := msTeamsConfig_SendResolved r; msTeamsConfig_WebhookURL := msTeamsConfig_WebhookURL r;
  msTeamsConfig_Title := msTeamsConfig_Title r; msTeamsConfig_Summary := msTeamsConfig_Summary r; msTeamsConfig_Text
  := msTeamsConfig_Text r; msTeamsConfig_HTTPConfig := v |}.
Definition set_msTeamsV2Config_HTTPConfig (v : option httpClientConfig) (r : msTeamsV2Config) : msTeamsV2Config := {|
  msTeamsV2Config_SendResolved := msTeamsV2Config_SendResolved r; msTeamsV2Config_WebhookURL :=
  msTeamsV2Config_WebhookURL r; msTeamsV2Config_WebhookURLFile := msTeamsV2Config_WebhookURLFile r;
  msTeamsV2Config_Title := msTeamsV2Config_Title r; msTeamsV2Config_Text := msTeamsV2Config_Text r;
  msTeamsV2Config_HTTPConfig := v |}.
Definition set_jiraConfig_HTTPConfig (v : option httpClientConfig) (r : jiraConfig) : jiraConfig := {|
  jiraConfig_HTTPConfig := v; jiraConfig_APIURL := jiraConfig_APIURL r; jiraConfig_Project := jiraConfig_Project r;
  jiraConfig_Summary := jiraConfig_Summary r; jiraConfig_Description := jiraConfig_Description r; jiraConfig_Labels :=
  jiraConfig_Labels r; jiraConfig_Priority := jiraConfig_Priority r; jiraConfig_IssueType := jiraConfig_IssueType r;
  jiraConfig_ReopenTransition := jiraConfig_ReopenTransition r; jiraConfig_ResolveTransition :=
  jiraConfig_ResolveTransition r; jiraConfig_WontFixResolution := jiraConfig_WontFixResolution r;
  jiraConfig_ReopenDuration := jiraConfig_ReopenDuration r; jiraConfig_Fields := jiraConfig_Fields r |}.
Definition set_rocketChatConfig_HTTPConfig (v : option httpClientConfig) (r : rocketChatConfig) : rocketChatConfig :=
  {| rocketChatConfig_HTTPConfig := v; rocketChatConfig_APIURL := rocketChatConfig_APIURL r; rocketChatConfig_TokenID
  := rocketChatConfig_TokenID r; rocketChatConfig_TokenIDFile := rocketChatConfig_TokenIDFile r;
  rocketChatConfig_Token := rocketChatConfig_Token r; rocketChatConfig_TokenFile := rocketChatConfig_TokenFile r;
  rocketChatConfig_Channel := rocketChatConfig_Channel r; rocketChatConfig_Color := rocketChatConfig_Color r;
  rocketChatConfig_Title := rocketChatConfig_Title r; rocketChatConfig_TitleLink := rocketChatConfig_TitleLink r;
  rocketChatConfig_Text := rocketChatConfig_Text r; rocketChatConfig_Fields := rocketChatConfig_Fields r;
  rocketChatConfig_ShortFields := rocketChatConfig_ShortFields r; rocketChatConfig_Emoji := rocketChatConfig_Emoji r;
  rocketChatConfig_IconURL := rocketChatConfig_IconURL r; rocketChatConfig_ImageURL := rocketChatConfig_ImageURL r;
  rocketChatConfig_ThumbURL := rocketChatConfig_ThumbURL r; rocketChatConfig_LinkNames := rocketChatConfig_LinkNames
  r; rocketChatConfig_Actions := rocketChatConfig_Actions r |}.
Definition set_alertmanagerConfig_Route (v : option route) (r : alertmanagerConfig) : alertmanagerConfig := {|
  alertmanagerConfig_Global := alertmanagerConfig_Global r; alertmanagerConfig_Route := v;
  alertmanagerConfig_InhibitRules := alertmanagerConfig_InhibitRules r; alertmanagerConfig_Receivers :=
  alertmanagerConfig_Receivers r; alertmanagerConfig_MuteTimeIntervals := alertmanagerConfig_MuteTimeIntervals r;
  alertmanagerConfig_TimeIntervals := alertmanagerConfig_TimeIntervals r; alertmanagerConfig_Templates :=
  alertmanagerConfig_Templates r |}.
Definition set_alertmanagerConfig_InhibitRules (v : list inhibitRule) (r : alertmanagerConfig) : alertmanagerConfig :=
  {| alertmanagerConfig_Global := alertmanagerConfig_Global r; alertmanagerConfig_Route := alertmanagerConfig_Route r;
  alertmanagerConfig_InhibitRules := v; alertmanagerConfig_Receivers := alertmanagerConfig_Receivers r;
  alertmanagerConfig_MuteTimeIntervals := alertmanagerConfig_MuteTimeIntervals r; alertmanagerConfig_TimeIntervals :=
  alertmanagerConfig_TimeIntervals r; alertmanagerConfig_Templates := alertmanagerConfig_Templates r |}.
Definition set_alertmanagerConfig_Receivers (v : list receiver) (r : alertmanagerConfig) : alertmanagerConfig := {|
  alertmanagerConfig_Global := alertmanagerConfig_Global r; alertmanagerConfig_Route := alertmanagerConfig_Route r;
  alertmanagerConfig_InhibitRules := alertmanagerConfig_InhibitRules r; alertmanagerConfig_Receivers := v;
  alertmanagerConfig_MuteTimeIntervals := alertmanagerConfig_MuteTimeIntervals r; alertmanagerConfig_TimeIntervals :=
  alertmanagerConfig_TimeIntervals r; alertmanagerConfig_Templates := alertmanagerConfig_Templates r |}.
Definition set_alertmanagerConfig_MuteTimeIntervals (v : list timeInterval) (r : alertmanagerConfig) :
  alertmanagerConfig := {| alertmanagerConfig_Global := alertmanagerConfig_Global r; alertmanagerConfig_Route :=
  alertmanagerConfig_Route r; alertmanagerConfig_InhibitRules := alertmanagerConfig_InhibitRules r;
  alertmanagerConfig_Receivers := alertmanagerConfig_Receivers r; alertmanagerConfig_MuteTimeIntervals := v;
  alertmanagerConfig_TimeIntervals := alertmanagerConfig_TimeIntervals r; alertmanagerConfig_Templates :=
  alertmanagerConfig_Templates r |}.
Definition set_alertmanagerConfig_Templates (v : list string) (r : alertmanagerConfig) : alertmanagerConfig := {|
  alertmanagerConfig_Global := alertmanagerConfig_Global r; alertmanagerConfig_Route := alertmanagerConfig_Route r;
  alertmanagerConfig_InhibitRules := alertmanagerConfig_InhibitRules r; alertmanagerConfig_Receivers :=
  alertmanagerConfig_Receivers r; alertmanagerConfig_MuteTimeIntervals := alertmanagerConfig_MuteTimeIntervals r;
  alertmanagerConfig_TimeIntervals := alertmanagerConfig_TimeIntervals r; alertmanagerConfig_Templates := v |}.
Definition zero_proxyConfig : proxyConfig := {| proxyConfig_ProxyURL := ""; proxyConfig_NoProxy := "";
  proxyConfig_ProxyFromEnvironment := false; proxyConfig_ProxyConnectHeader := None |}.
Definition zero_globalConfig : globalConfig := {| globalConfig_ResolveTimeout := None; globalConfig_HTTPConfig :=
  None; globalConfig_SMTPFrom := ""; globalConfig_SMTPHello := ""; globalConfig_SMTPSmarthost := {| Host := ""; Port
  := "" |}; globalConfig_SMTPAuthUsername := ""; globalConfig_SMTPAuthPassword := "";
  globalConfig_SMTPAuthPasswordFile := ""; globalConfig_SMTPAuthSecret := ""; globalConfig_SMTPAuthIdentity := "";
  globalConfig_SMTPRequireTLS := None; globalConfig_SMTPTLSConfig := None; globalConfig_SlackAPIURL := None;
  globalConfig_SlackAPIURLFile := ""; globalConfig_PagerdutyURL := None; globalConfig_HipchatAPIURL := None;
  globalConfig_HipchatAuthToken := ""; globalConfig_OpsGenieAPIURL := None; globalConfig_OpsGenieAPIKey := "";
  globalConfig_OpsGenieAPIKeyFile := ""; globalConfig_WeChatAPIURL := None; globalConfig_WeChatAPISecret := "";
  globalConfig_WeChatAPICorpID := ""; globalConfig_VictorOpsAPIURL := None; globalConfig_VictorOpsAPIKey := "";
  globalConfig_VictorOpsAPIKeyFile := ""; globalConfig_TelegramAPIURL := None; globalConfig_WebexAPIURL := None;
  globalConfig_JiraAPIURL := None; globalConfig_RocketChatAPIURL := None; globalConfig_RocketChatToken := "";
  globalConfig_RocketChatTokenFile := ""; globalConfig_RocketChatTokenID := ""; globalConfig_RocketChatTokenIDFile :=
  "" |}.
Definition zero_sigV4Config : sigV4Config := {| sigV4Config_Region := ""; sigV4Config_AccessKey := "";
  sigV4Config_SecretKey := ""; sigV4Config_Profile := ""; sigV4Config_RoleARN := "" |}.
