(* ===== verification/AmSanitize.v ===== *)
(** * Sanitizing an Alertmanager configuration

    The methods [sanitize] of pkg/alertmanager/amcfg.go: a configuration is made fit for a version
    of Alertmanager by dropping the fields that it does not know yet, or refused. A method that
    changes its receiver returns the changed value; warnings are left out. *)

From S2P Require Import Prelude GoStrings Meta Semver MonitoringV1 AmTypes.

(** A field that is set to its zero value if [b] holds. *)
Definition dropped {A} (zero : A) (b : bool) (v : A) : A := if b then zero else v.
(** A method called on a pointer, which does nothing for nil. *)
Definition on_pointer {A} (f : A → res A) (o : option A) : res (option A) :=
  match o with None => Ok None | Some x => Some <$> f x end.
Definition nonempty (s : string) : bool := bool_decide (s ≠ "").
Definition nonzero (z : Z) : bool := bool_decide (z ≠ 0%Z).
Definition map_used {A} (m : option (gmap string A)) : bool := match m with Some m => bool_decide (m ≠ ∅) | None => false end.
Definition checkNotEmptyMap (l : list gomap) : bool := existsb map_used l.
Definition checkNotEmptyStrSlice (l : list (list string)) : bool := existsb (fun x => bool_decide (x ≠ [])) l.
Definition convertMapToNilIfEmpty (m : gomap) : gomap := if map_used m then m else None.
Definition mandatory (field : string) (empty : bool) : res () :=
  if empty then Err (Errorf "mandatory field %q is empty" [field]) else Ok ().
(** [fmt.Sprint] of a slice of strings *)
Definition Sprint (l : list string) : string := "[" +:+ Join l " " +:+ "]".

Section sanitize.
Context `{Semver} (amVersion : version).
Local Abbreviation before v := (LT amVersion (MustParse v)).
Local Abbreviation reaches v := (GTE amVersion (MustParse v)).

(** ** HTTP clients *)

Definition tlsVersions : list (string * Z) := [("", 0); ("TLS13", 772); ("TLS12", 771); ("TLS11", 770); ("TLS10", 769)]%Z.
Definition tls_version (s : string) : res Z :=
  match (list_to_map tlsVersions : gmap string Z) !! s with Some z => Ok z | None => Err (Errorf "unknown TLS version: %s" [s]) end.
Definition tlsConfig_sanitize (tc : tlsConfig) : res tlsConfig :=
  let tc := set_tlsConfig_MinVersion
    (dropped "" (nonempty (tlsConfig_MinVersion tc) && negb (reaches "0.25.0")) (tlsConfig_MinVersion tc)) tc in
  let tc := set_tlsConfig_MaxVersion
    (dropped "" (nonempty (tlsConfig_MaxVersion tc) && negb (reaches "0.25.0")) (tlsConfig_MaxVersion tc)) tc in
  minVersion ← tls_version (tlsConfig_MinVersion tc);
  maxVersion ← tls_version (tlsConfig_MaxVersion tc);
  if bool_decide (minVersion ≠ 0 ∧ maxVersion ≠ 0 ∧ minVersion > maxVersion)%Z
  then Err (Errorf "max TLS version %q must be greater than or equal to min TLS version %q" [tlsConfig_MaxVersion tc; tlsConfig_MinVersion tc])
  else Ok tc.

Definition proxyConfig_sanitize (pc : proxyConfig) : res proxyConfig :=
  if reaches "0.26.0" then
    _ ← check (map_used (proxyConfig_ProxyConnectHeader pc) && (negb (proxyConfig_ProxyFromEnvironment pc) && negb (nonempty (proxyConfig_ProxyURL pc))))
          "if 'proxy_connect_header' is configured, 'proxy_url' or 'proxy_from_environment' must also be configured";
    _ ← check (proxyConfig_ProxyFromEnvironment pc && nonempty (proxyConfig_ProxyURL pc))
          "if 'proxy_from_environment' is configured, 'proxy_url' must not be configured";
    _ ← check (proxyConfig_ProxyFromEnvironment pc && nonempty (proxyConfig_NoProxy pc))
          "if 'proxy_from_environment' is configured, 'no_proxy' must not be configured";
    _ ← check (negb (nonempty (proxyConfig_ProxyURL pc)) && nonempty (proxyConfig_NoProxy pc))
          "if 'no_proxy' is configured, 'proxy_url' must also be configured";
    Ok pc
  else
    let pc := set_proxyConfig_ProxyFromEnvironment
    (dropped false (proxyConfig_ProxyFromEnvironment pc) (proxyConfig_ProxyFromEnvironment pc)) pc in
    let pc := set_proxyConfig_NoProxy (dropped "" (nonempty (proxyConfig_NoProxy pc)) (proxyConfig_NoProxy pc)) pc in
    Ok (set_proxyConfig_ProxyConnectHeader
    (dropped None (map_used (proxyConfig_ProxyConnectHeader pc)) (proxyConfig_ProxyConnectHeader pc)) pc).

Definition oauth2_sanitize (o : oauth2) : res oauth2 :=
  let pc := oauth2_proxyConfig o in
  Ok (set_oauth2_proxyConfig
    (dropped zero_proxyConfig ((nonempty (proxyConfig_ProxyURL pc) || nonempty (proxyConfig_NoProxy pc) || map_used (proxyConfig_ProxyConnectHeader pc))
            && negb (reaches "0.25.0")) (oauth2_proxyConfig o)) o).

Definition httpClientConfig_sanitize (hc : httpClientConfig) : res httpClientConfig :=
  _ ← check (is_set (httpClientConfig_Authorization hc) && negb (reaches "0.22.0"))
        "'authorization' set in 'http_config' but supported in Alertmanager >= 0.22.0 only";
  _ ← check (is_set (httpClientConfig_OAuth2 hc) && negb (reaches "0.22.0"))
        "'oauth2' set in 'http_config' but supported in Alertmanager >= 0.22.0 only";
  let hc := set_httpClientConfig_FollowRedirects
    (dropped None (is_set (httpClientConfig_FollowRedirects hc) && negb (reaches "0.22.0")) (httpClientConfig_FollowRedirects hc)) hc in
  let hc := set_httpClientConfig_EnableHTTP2
    (dropped None (is_set (httpClientConfig_EnableHTTP2 hc) && negb (reaches "0.25.0")) (httpClientConfig_EnableHTTP2 hc)) hc in
  tc ← on_pointer tlsConfig_sanitize (httpClientConfig_TLSConfig hc);
  pc ← proxyConfig_sanitize (httpClientConfig_proxyConfig hc);
  o ← on_pointer oauth2_sanitize (httpClientConfig_OAuth2 hc);
  Ok (set_httpClientConfig_OAuth2 o (set_httpClientConfig_proxyConfig pc (set_httpClientConfig_TLSConfig tc hc))).
Definition http_sanitize : option httpClientConfig → res (option httpClientConfig) := on_pointer httpClientConfig_sanitize.

(** ** The global section *)

Definition globalConfig_sanitize (gc : globalConfig) : res globalConfig :=
  hc ← http_sanitize (globalConfig_HTTPConfig gc);
  let gc := set_globalConfig_HTTPConfig hc gc in
  let gc := set_globalConfig_SMTPTLSConfig
    (dropped None (is_set (globalConfig_SMTPTLSConfig gc) && before "0.28.0") (globalConfig_SMTPTLSConfig gc)) gc in
  let gc := set_globalConfig_SlackAPIURLFile
    (dropped "" (nonempty (globalConfig_SlackAPIURLFile gc) && is_set (globalConfig_SlackAPIURL gc)) (globalConfig_SlackAPIURLFile gc)) gc in
  let gc := set_globalConfig_SlackAPIURLFile
    (dropped "" (nonempty (globalConfig_SlackAPIURLFile gc) && before "0.22.0") (globalConfig_SlackAPIURLFile gc)) gc in
  let gc := set_globalConfig_OpsGenieAPIKeyFile
    (dropped "" (nonempty (globalConfig_OpsGenieAPIKeyFile gc) && before "0.24.0") (globalConfig_OpsGenieAPIKeyFile gc)) gc in
  let gc := set_globalConfig_SMTPAuthPasswordFile
    (dropped "" (nonempty (globalConfig_SMTPAuthPasswordFile gc) && before "0.25.0") (globalConfig_SMTPAuthPasswordFile gc)) gc in
  let gc := set_globalConfig_SMTPAuthPasswordFile
    (dropped "" (nonempty (globalConfig_SMTPAuthPassword gc) && nonempty (globalConfig_SMTPAuthPasswordFile gc)) (globalConfig_SMTPAuthPasswordFile gc)) gc in
  let gc := set_globalConfig_VictorOpsAPIKeyFile
    (dropped "" (nonempty (globalConfig_VictorOpsAPIKeyFile gc) && before "0.25.0") (globalConfig_VictorOpsAPIKeyFile gc)) gc in
  Ok (set_globalConfig_VictorOpsAPIKeyFile
    (dropped "" (nonempty (globalConfig_VictorOpsAPIKey gc) && nonempty (globalConfig_VictorOpsAPIKeyFile gc)) (globalConfig_VictorOpsAPIKeyFile gc)) gc).

(** ** Receivers *)

Definition emailConfig_sanitize (ec : emailConfig) : res emailConfig :=
  let ec := set_emailConfig_AuthPasswordFile
    (dropped "" (nonempty (emailConfig_AuthPasswordFile ec) && before "0.25.0") (emailConfig_AuthPasswordFile ec)) ec in
  Ok (set_emailConfig_AuthPasswordFile
    (dropped "" (nonempty (emailConfig_AuthPassword ec) && nonempty (emailConfig_AuthPasswordFile ec)) (emailConfig_AuthPasswordFile ec)) ec).

Definition opsgenieResponder_sanitize (ops : opsgenieResponder) : res () :=
  check (bool_decide (opsgenieResponder_Type ops = "teams") && before "0.24.0")
    "'teams' set in 'opsgenieResponder' but supported in Alertmanager >= 0.24.0 only".
Definition opsgenieConfig_sanitize (ogc : opsgenieConfig) : res opsgenieConfig :=
  hc ← http_sanitize (opsgenieConfig_HTTPConfig ogc);
  let ogc := set_opsgenieConfig_HTTPConfig hc ogc in
  let ogc := set_opsgenieConfig_Actions
    (dropped "" (nonempty (opsgenieConfig_Actions ogc) && before "0.24.0") (opsgenieConfig_Actions ogc)) ogc in
  let ogc := set_opsgenieConfig_Entity
    (dropped "" (nonempty (opsgenieConfig_Entity ogc) && before "0.24.0") (opsgenieConfig_Entity ogc)) ogc in
  let ogc := set_opsgenieConfig_UpdateAlerts
    (dropped None (is_set (opsgenieConfig_UpdateAlerts ogc) && before "0.24.0") (opsgenieConfig_UpdateAlerts ogc)) ogc in
  _ ← for_each opsgenieResponder_sanitize (opsgenieConfig_Responders ogc);
  let ogc := set_opsgenieConfig_APIKeyFile
    (dropped "" (nonempty (opsgenieConfig_APIKey ogc) && nonempty (opsgenieConfig_APIKeyFile ogc)) (opsgenieConfig_APIKeyFile ogc)) ogc in
  if negb (nonempty (opsgenieConfig_APIKeyFile ogc)) then Ok ogc
  else Ok (set_opsgenieConfig_APIKeyFile (dropped "" (before "0.24.0") (opsgenieConfig_APIKeyFile ogc)) ogc).

Definition pagerdutyConfig_sanitize (pdc : pagerdutyConfig) : res pagerdutyConfig :=
  let pdc := set_pagerdutyConfig_Source
    (dropped "" (nonempty (pagerdutyConfig_Source pdc) && before "0.25.0") (pagerdutyConfig_Source pdc)) pdc in
  let pdc := set_pagerdutyConfig_RoutingKeyFile
    (dropped "" (nonempty (pagerdutyConfig_RoutingKeyFile pdc) && before "0.25.0") (pagerdutyConfig_RoutingKeyFile pdc)) pdc in
  let pdc := set_pagerdutyConfig_ServiceKeyFile
    (dropped "" (nonempty (pagerdutyConfig_ServiceKeyFile pdc) && before "0.25.0") (pagerdutyConfig_ServiceKeyFile pdc)) pdc in
  let pdc := set_pagerdutyConfig_ServiceKeyFile
    (dropped "" (nonempty (pagerdutyConfig_ServiceKey pdc) && nonempty (pagerdutyConfig_ServiceKeyFile pdc)) (pagerdutyConfig_ServiceKeyFile pdc)) pdc in
  let pdc := set_pagerdutyConfig_RoutingKeyFile
    (dropped "" (nonempty (pagerdutyConfig_RoutingKey pdc) && nonempty (pagerdutyConfig_RoutingKeyFile pdc)) (pagerdutyConfig_RoutingKeyFile pdc)) pdc in
  hc ← http_sanitize (pagerdutyConfig_HTTPConfig pdc);
  Ok (set_pagerdutyConfig_HTTPConfig hc pdc).

Definition pushoverConfig_sanitize (poc : pushoverConfig) : res pushoverConfig :=
  let poc := set_pushoverConfig_UserKeyFile
    (dropped "" (nonempty (pushoverConfig_UserKeyFile poc) && before "0.26.0") (pushoverConfig_UserKeyFile poc)) poc in
  _ ← check (negb (nonempty (pushoverConfig_UserKey poc)) && negb (nonempty (pushoverConfig_UserKeyFile poc)))
        "missing mandatory field user_key or user_key_file";
  let poc := set_pushoverConfig_UserKeyFile
    (dropped "" (nonempty (pushoverConfig_UserKey poc) && nonempty (pushoverConfig_UserKeyFile poc)) (pushoverConfig_UserKeyFile poc)) poc in
  let poc := set_pushoverConfig_TokenFile
    (dropped "" (nonempty (pushoverConfig_TokenFile poc) && before "0.26.0") (pushoverConfig_TokenFile poc)) poc in
  _ ← check (negb (nonempty (pushoverConfig_Token poc)) && negb (nonempty (pushoverConfig_TokenFile poc)))
        "missing mandatory field token or token_file";
  let poc := set_pushoverConfig_TokenFile
    (dropped "" (nonempty (pushoverConfig_Token poc) && nonempty (pushoverConfig_TokenFile poc)) (pushoverConfig_TokenFile poc)) poc in
  let poc := set_pushoverConfig_TTL
    (dropped "" (nonempty (pushoverConfig_TTL poc) && before "0.27.0") (pushoverConfig_TTL poc)) poc in
  let poc := set_pushoverConfig_Device
    (dropped "" (nonempty (pushoverConfig_Device poc) && before "0.26.0") (pushoverConfig_Device poc)) poc in
  hc ← http_sanitize (pushoverConfig_HTTPConfig poc);
  Ok (set_pushoverConfig_HTTPConfig hc poc).

Definition slackConfig_sanitize (sc : slackConfig) : res slackConfig :=
  hc ← http_sanitize (slackConfig_HTTPConfig sc);
  let sc := set_slackConfig_HTTPConfig hc sc in
  if negb (nonempty (slackConfig_APIURLFile sc)) then Ok sc
  else
    let sc := set_slackConfig_APIURLFile
    (dropped "" (nonempty (slackConfig_APIURLFile sc) && before "0.22.0") (slackConfig_APIURLFile sc)) sc in
    Ok (set_slackConfig_APIURLFile
    (dropped "" (nonempty (slackConfig_APIURL sc) && nonempty (slackConfig_APIURLFile sc)) (slackConfig_APIURLFile sc)) sc).

Definition victorOpsConfig_sanitize (voc : victorOpsConfig) : res victorOpsConfig :=
  hc ← http_sanitize (victorOpsConfig_HTTPConfig voc);
  let voc := set_victorOpsConfig_HTTPConfig hc voc in
  let voc := set_victorOpsConfig_APIKeyFile
    (dropped "" (nonempty (victorOpsConfig_APIKeyFile voc) && before "0.25.0") (victorOpsConfig_APIKeyFile voc)) voc in
  Ok (set_victorOpsConfig_APIKeyFile
    (dropped "" (nonempty (victorOpsConfig_APIKey voc) && nonempty (victorOpsConfig_APIKeyFile voc)) (victorOpsConfig_APIKeyFile voc)) voc).

Definition webhookConfig_sanitize (whc : webhookConfig) : res webhookConfig :=
  hc ← http_sanitize (webhookConfig_HTTPConfig whc);
  let whc := set_webhookConfig_HTTPConfig hc whc in
  let whc := set_webhookConfig_URLFile
    (dropped "" (nonempty (webhookConfig_URLFile whc) && before "0.26.0") (webhookConfig_URLFile whc)) whc in
  let whc := set_webhookConfig_URLFile
    (dropped "" (nonempty (webhookConfig_URL whc) && nonempty (webhookConfig_URLFile whc)) (webhookConfig_URLFile whc)) whc in
  Ok (set_webhookConfig_Timeout
    (dropped None (is_set (webhookConfig_Timeout whc) && before "0.28.0") (webhookConfig_Timeout whc)) whc).

Definition msTeamsConfig_sanitize (tc : msTeamsConfig) : res msTeamsConfig :=
  _ ← check (before "0.26.0") "invalid syntax in receivers config; msteams integration is only available in Alertmanager >= 0.26.0";
  _ ← mandatory "webhook_url" (negb (nonempty (msTeamsConfig_WebhookURL tc)));
  let tc := set_msTeamsConfig_Summary
    (dropped "" (nonempty (msTeamsConfig_Summary tc) && before "0.27.0") (msTeamsConfig_Summary tc)) tc in
  hc ← http_sanitize (msTeamsConfig_HTTPConfig tc);
  Ok (set_msTeamsConfig_HTTPConfig hc tc).
Definition msTeamsV2Config_sanitize (tc : msTeamsV2Config) : res msTeamsV2Config :=
  _ ← check (negb (reaches "0.28.0")) "invalid syntax in receivers config; msteams v2 integration is available in Alertmanager >= 0.28.0";
  _ ← check (negb (nonempty (msTeamsV2Config_WebhookURL tc)) && negb (nonempty (msTeamsV2Config_WebhookURLFile tc)))
        "no webhook_url or webhook_url_file provided";
  _ ← check (nonempty (msTeamsV2Config_WebhookURL tc) && nonempty (msTeamsV2Config_WebhookURLFile tc))
        "both webhook_url and webhook_url_file cannot be set at the same time";
  hc ← http_sanitize (msTeamsV2Config_HTTPConfig tc);
  Ok (set_msTeamsV2Config_HTTPConfig hc tc).

Definition weChatConfig_sanitize (wcc : weChatConfig) : res weChatConfig :=
  hc ← http_sanitize (weChatConfig_HTTPConfig wcc);
  Ok (set_weChatConfig_HTTPConfig hc wcc).
Definition snsConfig_sanitize (sc : snsConfig) : res snsConfig :=
  hc ← http_sanitize (snsConfig_HTTPConfig sc);
  Ok (set_snsConfig_HTTPConfig hc sc).

Definition telegramConfig_sanitize (tc : telegramConfig) : res telegramConfig :=
  _ ← check (negb (reaches "0.24.0")) "invalid syntax in receivers config; telegram integration is available in Alertmanager >= 0.24.0";
  _ ← mandatory "chatID" (negb (nonzero (telegramConfig_ChatID tc)));
  let tc := set_telegramConfig_BotTokenFile
    (dropped "" (nonempty (telegramConfig_BotTokenFile tc) && before "0.26.0") (telegramConfig_BotTokenFile tc)) tc in
  _ ← check (negb (nonempty (telegramConfig_BotToken tc)) && negb (nonempty (telegramConfig_BotTokenFile tc)))
        "missing mandatory field botToken or botTokenFile";
  let tc := set_telegramConfig_BotTokenFile
    (dropped "" (nonempty (telegramConfig_BotToken tc) && nonempty (telegramConfig_BotTokenFile tc)) (telegramConfig_BotTokenFile tc)) tc in
  let tc := set_telegramConfig_MessageThreadID
    (dropped 0%Z (nonzero (telegramConfig_MessageThreadID tc) && before "0.26.0") (telegramConfig_MessageThreadID tc)) tc in
  hc ← http_sanitize (telegramConfig_HTTPConfig tc);
  Ok (set_telegramConfig_HTTPConfig hc tc).

Definition discordConfig_sanitize (dc : discordConfig) : res discordConfig :=
  _ ← check (negb (reaches "0.25.0")) "invalid syntax in receivers config; discord integration is available in Alertmanager >= 0.25.0";
  let dc := set_discordConfig_Content
    (dropped "" (nonempty (discordConfig_Content dc) && before "0.28.0") (discordConfig_Content dc)) dc in
  let dc := set_discordConfig_Username
    (dropped "" (nonempty (discordConfig_Username dc) && before "0.28.0") (discordConfig_Username dc)) dc in
  let dc := set_discordConfig_AvatarURL
    (dropped "" (nonempty (discordConfig_AvatarURL dc) && before "0.28.0") (discordConfig_AvatarURL dc)) dc in
  hc ← http_sanitize (discordConfig_HTTPConfig dc);
  Ok (set_discordConfig_HTTPConfig hc dc).

Definition webexConfig_sanitize (tc : webexConfig) : res webexConfig :=
  _ ← check (negb (reaches "0.25.0")) "invalid syntax in receivers config; webex integration is available in Alertmanager >= 0.25.0";
  _ ← mandatory "room_id" (negb (nonempty (webexConfig_RoomID tc)));
  hc ← http_sanitize (webexConfig_HTTPConfig tc);
  Ok (set_webexConfig_HTTPConfig hc tc).

Definition jiraConfig_sanitize (jc : jiraConfig) : res jiraConfig :=
  _ ← check (negb (reaches "0.28.0")) "invalid syntax in receivers config; jira integration is available in Alertmanager >= 0.28.0";
  _ ← check (negb (nonempty (jiraConfig_Project jc))) "missing project in jira_config";
  _ ← check (negb (nonempty (jiraConfig_IssueType jc))) "missing issue_type in jira_config";
  hc ← http_sanitize (jiraConfig_HTTPConfig jc);
  Ok (set_jiraConfig_HTTPConfig hc jc).

Definition rocketChatConfig_sanitize (rc : rocketChatConfig) : res rocketChatConfig :=
  _ ← check (negb (reaches "0.28.0")) "invalid syntax in receivers config; rocketchat integration is available in Alertmanager >= 0.28.0";
  _ ← check (is_set (rocketChatConfig_Token rc) && nonempty (rocketChatConfig_TokenFile rc))
        "at most one of token & token_file must be configured";
  _ ← check (is_set (rocketChatConfig_TokenID rc) && nonempty (rocketChatConfig_TokenIDFile rc))
        "at most one of token_id & token_id_file must be configured";
  hc ← http_sanitize (rocketChatConfig_HTTPConfig rc);
  Ok (set_rocketChatConfig_HTTPConfig hc rc).

Definition receiver_sanitize (r : receiver) : res receiver :=
  email ← res_map emailConfig_sanitize (receiver_EmailConfigs r);
  opsgenie ← res_map opsgenieConfig_sanitize (receiver_OpsgenieConfigs r);
  pagerduty ← res_map pagerdutyConfig_sanitize (receiver_PagerdutyConfigs r);
  pushover ← res_map pushoverConfig_sanitize (receiver_PushoverConfigs r);
  slack ← res_map slackConfig_sanitize (receiver_SlackConfigs r);
  victorops ← res_map victorOpsConfig_sanitize (receiver_VictorOpsConfigs r);
  webhook ← res_map webhookConfig_sanitize (receiver_WebhookConfigs r);
  wechat ← res_map weChatConfig_sanitize (receiver_WeChatConfigs r);
  sns ← res_map snsConfig_sanitize (receiver_SNSConfigs r);
  telegram ← res_map telegramConfig_sanitize (receiver_TelegramConfigs r);
  discord ← res_map discordConfig_sanitize (receiver_DiscordConfigs r);
  webex ← res_map webexConfig_sanitize (receiver_WebexConfigs r);
  msteams ← res_map msTeamsConfig_sanitize (receiver_MSTeamsConfigs r);
  msteamsv2 ← res_map msTeamsV2Config_sanitize (receiver_MSTeamsV2Configs r);
  jira ← res_map jiraConfig_sanitize (receiver_JiraConfigs r);
  rocketchat ← res_map rocketChatConfig_sanitize (receiver_RocketChatConfigs r);
  Ok {| receiver_Name := receiver_Name r; receiver_OpsgenieConfigs := opsgenie; receiver_PagerdutyConfigs := pagerduty;
        receiver_SlackConfigs := slack; receiver_WebhookConfigs := webhook; receiver_WeChatConfigs := wechat;
        receiver_EmailConfigs := email; receiver_PushoverConfigs := pushover; receiver_VictorOpsConfigs := victorops;
        receiver_SNSConfigs := sns; receiver_TelegramConfigs := telegram; receiver_DiscordConfigs := discord;
        receiver_WebexConfigs := webex; receiver_MSTeamsConfigs := msteams; receiver_MSTeamsV2Configs := msteamsv2;
        receiver_JiraConfigs := jira; receiver_RocketChatConfigs := rocketchat |}.

(** ** Inhibition rules, time intervals and routes *)

(** Empty maps are set to nil so that they do not show in the YAML; nil and empty slices are the
    same here. *)
Definition inhibitRule_sanitize (ir : inhibitRule) : res inhibitRule :=
  if negb (reaches "0.22.0") then
    if checkNotEmptyStrSlice [inhibitRule_SourceMatchers ir; inhibitRule_TargetMatchers ir] then
      Err (Errorf "target_matchers and source_matchers matching is supported in Alertmanager >= 0.22.0 only (target_matchers=%v, source_matchers=%v)"
        [Sprint (inhibitRule_TargetMatchers ir); Sprint (inhibitRule_SourceMatchers ir)])
    else Ok ir
  else Ok {|
    inhibitRule_TargetMatch := convertMapToNilIfEmpty (inhibitRule_TargetMatch ir);
    inhibitRule_TargetMatchRE := convertMapToNilIfEmpty (inhibitRule_TargetMatchRE ir);
    inhibitRule_TargetMatchers := inhibitRule_TargetMatchers ir;
    inhibitRule_SourceMatch := convertMapToNilIfEmpty (inhibitRule_SourceMatch ir);
    inhibitRule_SourceMatchRE := convertMapToNilIfEmpty (inhibitRule_SourceMatchRE ir);
    inhibitRule_SourceMatchers := inhibitRule_SourceMatchers ir;
    inhibitRule_Equal := inhibitRule_Equal ir |}.

Definition drop_location (i : interval) : interval := {|
  interval_Times := interval_Times i; interval_Weekdays := interval_Weekdays i; interval_DaysOfMonth := interval_DaysOfMonth i;
  interval_Months := interval_Months i; interval_Years := interval_Years i; interval_Location := None |}.
Definition timeInterval_sanitize (ti : timeInterval) : res timeInterval :=
  if reaches "0.25.0" then Ok ti
  else Ok {| timeInterval_Name := timeInterval_Name ti;
             timeInterval_TimeIntervals := drop_location <$> timeInterval_TimeIntervals ti |}.

(** The loop over the children of a route; [i] counts them. *)
Definition sanitize_children (sanitize : route → res route) : nat → list route → res (list route) :=
  fix loop (i : nat) (l : list route) : res (list route) :=
    match l with
    | [] => Ok []
    | child :: l' =>
        c ← wrap "route[%d]: %w" [Itoa (Z.of_nat i)] (sanitize child);
        cs ← loop (S i) l';
        Ok (c :: cs)
    end.
Fixpoint route_sanitize (r : route) : res route :=
  if negb (reaches "0.22.0") && checkNotEmptyStrSlice [route_Matchers r] then
    Err (Errorf "invalid syntax in route config for 'matchers' comparison based matching is supported in Alertmanager >= 0.22.0 only (matchers=%v)"
      [Sprint (route_Matchers r)])
  else
    let mute := if negb (reaches "0.22.0") then [] else route_MuteTimeIntervals r in
    let active := if negb (reaches "0.24.0") then [] else route_ActiveTimeIntervals r in
    routes ← sanitize_children route_sanitize 0 (route_Routes r);
    Ok {| route_Receiver := route_Receiver r; route_GroupByStr := route_GroupByStr r;
          route_Match := convertMapToNilIfEmpty (route_Match r); route_MatchRE := convertMapToNilIfEmpty (route_MatchRE r);
          route_Matchers := route_Matchers r; route_Continue := route_Continue r; route_Routes := routes;
          route_GroupWait := route_GroupWait r; route_GroupInterval := route_GroupInterval r;
          route_RepeatInterval := route_RepeatInterval r; route_MuteTimeIntervals := mute; route_ActiveTimeIntervals := active |}.

(** ** The whole configuration *)

Definition alertmanagerConfig_sanitize (c : alertmanagerConfig) : res alertmanagerConfig :=
  global ← on_pointer globalConfig_sanitize (alertmanagerConfig_Global c);
  receivers ← res_map receiver_sanitize (alertmanagerConfig_Receivers c);
  rules ← res_map (fun ix => wrap "inhibit_rules[%d]: %w" [Itoa (Z.of_nat ix.1)] (inhibitRule_sanitize ix.2))
    (imap pair (alertmanagerConfig_InhibitRules c));
  let mute := if bool_decide (alertmanagerConfig_MuteTimeIntervals c ≠ []) && before "0.22.0" then []
              else alertmanagerConfig_MuteTimeIntervals c in
  let intervals := if bool_decide (alertmanagerConfig_TimeIntervals c ≠ []) && before "0.24.0" then []
                   else alertmanagerConfig_TimeIntervals c in
  mute ← res_map (fun ti => wrap "mute_time_intervals[%s]: %w" [timeInterval_Name ti] (timeInterval_sanitize ti)) mute;
  intervals ← res_map (fun ti => wrap "time_intervals[%s]: %w" [timeInterval_Name ti] (timeInterval_sanitize ti)) intervals;
  route ← on_pointer route_sanitize (alertmanagerConfig_Route c);
  Ok {| alertmanagerConfig_Global := global; alertmanagerConfig_Route := route; alertmanagerConfig_InhibitRules := rules;
        alertmanagerConfig_Receivers := receivers; alertmanagerConfig_MuteTimeIntervals := mute;
        alertmanagerConfig_TimeIntervals := intervals; alertmanagerConfig_Templates := alertmanagerConfig_Templates c |}.
End sanitize.
