(* ===== verification/AmSupport.v ===== *)
(** * What a version of Alertmanager supports

    The fields of a configuration with the version that introduced them ([uses]) and the pairs of
    fields that exclude each other ([clashes]), and the proof that sanitizing is a projection onto
    the configurations that fit a version: its result fits, sanitizing again changes nothing, and
    nothing is dropped from a configuration that fits already. *)

From S2P Require Import Prelude GoStrings Meta Semver MonitoringV1 AmTypes AmSanitize.

(** ** Which version a field needs *)

Abbreviation usage := (list (string * bool)).
Definition optional {A B} (f : A → list B) (o : option A) : list B := match o with Some x => f x | None => [] end.

Definition tlsConfig_uses (tc : tlsConfig) : usage :=
  [("0.25.0", nonempty (tlsConfig_MinVersion tc)); ("0.25.0", nonempty (tlsConfig_MaxVersion tc))].
Definition proxyConfig_uses (pc : proxyConfig) : usage :=
  [("0.26.0", proxyConfig_ProxyFromEnvironment pc); ("0.26.0", nonempty (proxyConfig_NoProxy pc));
   ("0.26.0", map_used (proxyConfig_ProxyConnectHeader pc))].
(** The tables below list every field with the version that introduced it. With [full = false] they
    leave out the fields that the sanitizers do not look at (or not for the right version): the TLS
    versions of OAuth2 clients and of email receivers, and the proxy options of OAuth2 clients but
    the URL. *)
Section tables.
Context (full : bool).
Definition unchecked (us : usage) : usage := if full then us else [].
Definition oauth2_uses (o : oauth2) : usage :=
  ("0.25.0", nonempty (proxyConfig_ProxyURL (oauth2_proxyConfig o))) ::
  unchecked (proxyConfig_uses (oauth2_proxyConfig o) ++ optional tlsConfig_uses (oauth2_TLSConfig o)).
Definition httpClientConfig_uses (hc : httpClientConfig) : usage :=
  [("0.22.0", is_set (httpClientConfig_Authorization hc)); ("0.22.0", is_set (httpClientConfig_OAuth2 hc));
   ("0.22.0", is_set (httpClientConfig_FollowRedirects hc)); ("0.25.0", is_set (httpClientConfig_EnableHTTP2 hc))] ++
  optional tlsConfig_uses (httpClientConfig_TLSConfig hc) ++ proxyConfig_uses (httpClientConfig_proxyConfig hc) ++
  optional oauth2_uses (httpClientConfig_OAuth2 hc).
Definition http_uses : option httpClientConfig → usage := optional httpClientConfig_uses.
Definition globalConfig_uses (gc : globalConfig) : usage :=
  [("0.28.0", is_set (globalConfig_SMTPTLSConfig gc)); ("0.22.0", nonempty (globalConfig_SlackAPIURLFile gc));
   ("0.24.0", nonempty (globalConfig_OpsGenieAPIKeyFile gc)); ("0.25.0", nonempty (globalConfig_SMTPAuthPasswordFile gc));
   ("0.25.0", nonempty (globalConfig_VictorOpsAPIKeyFile gc))] ++ http_uses (globalConfig_HTTPConfig gc).
Definition emailConfig_uses (ec : emailConfig) : usage :=
  ("0.25.0", nonempty (emailConfig_AuthPasswordFile ec)) :: unchecked (optional tlsConfig_uses (emailConfig_TLSConfig ec)).
Definition responders_uses : list opsgenieResponder → usage :=
  fmap (fun r => ("0.24.0", bool_decide (opsgenieResponder_Type r = "teams"))).
Definition opsgenieConfig_uses (c : opsgenieConfig) : usage :=
  [("0.24.0", nonempty (opsgenieConfig_Actions c)); ("0.24.0", nonempty (opsgenieConfig_Entity c));
   ("0.24.0", is_set (opsgenieConfig_UpdateAlerts c)); ("0.24.0", nonempty (opsgenieConfig_APIKeyFile c))] ++
  responders_uses (opsgenieConfig_Responders c) ++
  http_uses (opsgenieConfig_HTTPConfig c).
Definition pagerdutyConfig_uses (c : pagerdutyConfig) : usage :=
  [("0.25.0", nonempty (pagerdutyConfig_Source c)); ("0.25.0", nonempty (pagerdutyConfig_RoutingKeyFile c));
   ("0.25.0", nonempty (pagerdutyConfig_ServiceKeyFile c))] ++ http_uses (pagerdutyConfig_HTTPConfig c).
Definition pushoverConfig_uses (c : pushoverConfig) : usage :=
  [("0.26.0", nonempty (pushoverConfig_UserKeyFile c)); ("0.26.0", nonempty (pushoverConfig_TokenFile c));
   ("0.27.0", nonempty (pushoverConfig_TTL c)); ("0.26.0", nonempty (pushoverConfig_Device c))] ++ http_uses (pushoverConfig_HTTPConfig c).
Definition slackConfig_uses (c : slackConfig) : usage := ("0.22.0", nonempty (slackConfig_APIURLFile c)) :: http_uses (slackConfig_HTTPConfig c).
Definition victorOpsConfig_uses (c : victorOpsConfig) : usage :=
  ("0.25.0", nonempty (victorOpsConfig_APIKeyFile c)) :: http_uses (victorOpsConfig_HTTPConfig c).
Definition webhookConfig_uses (c : webhookConfig) : usage :=
  [("0.26.0", nonempty (webhookConfig_URLFile c)); ("0.28.0", is_set (webhookConfig_Timeout c))] ++ http_uses (webhookConfig_HTTPConfig c).
Definition msTeamsConfig_uses (c : msTeamsConfig) : usage :=
  [("0.26.0", true); ("0.27.0", nonempty (msTeamsConfig_Summary c))] ++ http_uses (msTeamsConfig_HTTPConfig c).
Definition msTeamsV2Config_uses (c : msTeamsV2Config) : usage := ("0.28.0", true) :: http_uses (msTeamsV2Config_HTTPConfig c).
Definition weChatConfig_uses (c : weChatConfig) : usage := http_uses (weChatConfig_HTTPConfig c).
Definition snsConfig_uses (c : snsConfig) : usage := http_uses (snsConfig_HTTPConfig c).
Definition telegramConfig_uses (c : telegramConfig) : usage :=
  [("0.24.0", true); ("0.26.0", nonempty (telegramConfig_BotTokenFile c));
   ("0.26.0", nonzero (telegramConfig_MessageThreadID c))] ++ http_uses (telegramConfig_HTTPConfig c).
Definition discordConfig_uses (c : discordConfig) : usage :=
  [("0.25.0", true); ("0.28.0", nonempty (discordConfig_Content c)); ("0.28.0", nonempty (discordConfig_Username c));
   ("0.28.0", nonempty (discordConfig_AvatarURL c))] ++ http_uses (discordConfig_HTTPConfig c).
Definition webexConfig_uses (c : webexConfig) : usage := ("0.25.0", true) :: http_uses (webexConfig_HTTPConfig c).
Definition jiraConfig_uses (c : jiraConfig) : usage := ("0.28.0", true) :: http_uses (jiraConfig_HTTPConfig c).
Definition rocketChatConfig_uses (c : rocketChatConfig) : usage := ("0.28.0", true) :: http_uses (rocketChatConfig_HTTPConfig c).
Definition receiver_uses (r : receiver) : usage :=
  (receiver_EmailConfigs r ≫= emailConfig_uses) ++ (receiver_OpsgenieConfigs r ≫= opsgenieConfig_uses) ++
  (receiver_PagerdutyConfigs r ≫= pagerdutyConfig_uses) ++ (receiver_PushoverConfigs r ≫= pushoverConfig_uses) ++
  (receiver_SlackConfigs r ≫= slackConfig_uses) ++ (receiver_VictorOpsConfigs r ≫= victorOpsConfig_uses) ++
  (receiver_WebhookConfigs r ≫= webhookConfig_uses) ++ (receiver_WeChatConfigs r ≫= weChatConfig_uses) ++
  (receiver_SNSConfigs r ≫= snsConfig_uses) ++ (receiver_TelegramConfigs r ≫= telegramConfig_uses) ++
  (receiver_DiscordConfigs r ≫= discordConfig_uses) ++ (receiver_WebexConfigs r ≫= webexConfig_uses) ++
  (receiver_MSTeamsConfigs r ≫= msTeamsConfig_uses) ++ (receiver_MSTeamsV2Configs r ≫= msTeamsV2Config_uses) ++
  (receiver_JiraConfigs r ≫= jiraConfig_uses) ++ (receiver_RocketChatConfigs r ≫= rocketChatConfig_uses).
Definition inhibitRule_uses (ir : inhibitRule) : usage :=
  [("0.22.0", bool_decide (inhibitRule_SourceMatchers ir ≠ [])); ("0.22.0", bool_decide (inhibitRule_TargetMatchers ir ≠ []))].
Definition timeInterval_uses (ti : timeInterval) : usage :=
  (fun i => ("0.25.0", is_set (interval_Location i))) <$> timeInterval_TimeIntervals ti.
Fixpoint route_uses (r : route) : usage :=
  [("0.22.0", bool_decide (route_Matchers r ≠ [])); ("0.22.0", bool_decide (route_MuteTimeIntervals r ≠ []));
   ("0.24.0", bool_decide (route_ActiveTimeIntervals r ≠ []))] ++ concat (route_uses <$> route_Routes r).
Definition alertmanagerConfig_uses (c : alertmanagerConfig) : usage :=
  [("0.22.0", bool_decide (alertmanagerConfig_MuteTimeIntervals c ≠ [])); ("0.24.0", bool_decide (alertmanagerConfig_TimeIntervals c ≠ []))] ++
  optional globalConfig_uses (alertmanagerConfig_Global c) ++ (alertmanagerConfig_Receivers c ≫= receiver_uses) ++
  (alertmanagerConfig_InhibitRules c ≫= inhibitRule_uses) ++ (alertmanagerConfig_MuteTimeIntervals c ≫= timeInterval_uses) ++
  (alertmanagerConfig_TimeIntervals c ≫= timeInterval_uses) ++ optional route_uses (alertmanagerConfig_Route c).

End tables.

(** ** Which fields exclude each other *)

Abbreviation pairs := (list (bool * bool)).
Definition globalConfig_clashes (gc : globalConfig) : pairs :=
  [(is_set (globalConfig_SlackAPIURL gc), nonempty (globalConfig_SlackAPIURLFile gc));
   (nonempty (globalConfig_SMTPAuthPassword gc), nonempty (globalConfig_SMTPAuthPasswordFile gc));
   (nonempty (globalConfig_VictorOpsAPIKey gc), nonempty (globalConfig_VictorOpsAPIKeyFile gc))].
Definition emailConfig_clashes (c : emailConfig) : pairs := [(nonempty (emailConfig_AuthPassword c), nonempty (emailConfig_AuthPasswordFile c))].
Definition opsgenieConfig_clashes (c : opsgenieConfig) : pairs := [(nonempty (opsgenieConfig_APIKey c), nonempty (opsgenieConfig_APIKeyFile c))].
Definition pagerdutyConfig_clashes (c : pagerdutyConfig) : pairs :=
  [(nonempty (pagerdutyConfig_ServiceKey c), nonempty (pagerdutyConfig_ServiceKeyFile c));
   (nonempty (pagerdutyConfig_RoutingKey c), nonempty (pagerdutyConfig_RoutingKeyFile c))].
Definition pushoverConfig_clashes (c : pushoverConfig) : pairs :=
  [(nonempty (pushoverConfig_UserKey c), nonempty (pushoverConfig_UserKeyFile c));
   (nonempty (pushoverConfig_Token c), nonempty (pushoverConfig_TokenFile c))].
Definition slackConfig_clashes (c : slackConfig) : pairs := [(nonempty (slackConfig_APIURL c), nonempty (slackConfig_APIURLFile c))].
Definition victorOpsConfig_clashes (c : victorOpsConfig) : pairs := [(nonempty (victorOpsConfig_APIKey c), nonempty (victorOpsConfig_APIKeyFile c))].
Definition webhookConfig_clashes (c : webhookConfig) : pairs := [(nonempty (webhookConfig_URL c), nonempty (webhookConfig_URLFile c))].
Definition msTeamsV2Config_clashes (c : msTeamsV2Config) : pairs :=
  [(nonempty (msTeamsV2Config_WebhookURL c), nonempty (msTeamsV2Config_WebhookURLFile c))].
Definition telegramConfig_clashes (c : telegramConfig) : pairs := [(nonempty (telegramConfig_BotToken c), nonempty (telegramConfig_BotTokenFile c))].
Definition rocketChatConfig_clashes (c : rocketChatConfig) : pairs :=
  [(is_set (rocketChatConfig_Token c), nonempty (rocketChatConfig_TokenFile c));
   (is_set (rocketChatConfig_TokenID c), nonempty (rocketChatConfig_TokenIDFile c))].
Definition receiver_clashes (r : receiver) : pairs :=
  (receiver_EmailConfigs r ≫= emailConfig_clashes) ++ (receiver_OpsgenieConfigs r ≫= opsgenieConfig_clashes) ++
  (receiver_PagerdutyConfigs r ≫= pagerdutyConfig_clashes) ++ (receiver_PushoverConfigs r ≫= pushoverConfig_clashes) ++
  (receiver_SlackConfigs r ≫= slackConfig_clashes) ++ (receiver_VictorOpsConfigs r ≫= victorOpsConfig_clashes) ++
  (receiver_WebhookConfigs r ≫= webhookConfig_clashes) ++ (receiver_TelegramConfigs r ≫= telegramConfig_clashes) ++
  (receiver_MSTeamsV2Configs r ≫= msTeamsV2Config_clashes) ++ (receiver_RocketChatConfigs r ≫= rocketChatConfig_clashes).
Definition alertmanagerConfig_clashes (c : alertmanagerConfig) : pairs :=
  optional globalConfig_clashes (alertmanagerConfig_Global c) ++ (alertmanagerConfig_Receivers c ≫= receiver_clashes).

(** ** Normal forms: empty maps are nil *)

Definition inhibitRule_norm (ir : inhibitRule) : inhibitRule := {|
  inhibitRule_TargetMatch := convertMapToNilIfEmpty (inhibitRule_TargetMatch ir);
  inhibitRule_TargetMatchRE := convertMapToNilIfEmpty (inhibitRule_TargetMatchRE ir);
  inhibitRule_TargetMatchers := inhibitRule_TargetMatchers ir;
  inhibitRule_SourceMatch := convertMapToNilIfEmpty (inhibitRule_SourceMatch ir);
  inhibitRule_SourceMatchRE := convertMapToNilIfEmpty (inhibitRule_SourceMatchRE ir);
  inhibitRule_SourceMatchers := inhibitRule_SourceMatchers ir;
  inhibitRule_Equal := inhibitRule_Equal ir |}.
Fixpoint route_norm (r : route) : route := {|
  route_Receiver := route_Receiver r; route_GroupByStr := route_GroupByStr r;
  route_Match := convertMapToNilIfEmpty (route_Match r); route_MatchRE := convertMapToNilIfEmpty (route_MatchRE r);
  route_Matchers := route_Matchers r; route_Continue := route_Continue r; route_Routes := route_norm <$> route_Routes r;
  route_GroupWait := route_GroupWait r; route_GroupInterval := route_GroupInterval r;
  route_RepeatInterval := route_RepeatInterval r; route_MuteTimeIntervals := route_MuteTimeIntervals r;
  route_ActiveTimeIntervals := route_ActiveTimeIntervals r |}.

(** ** Sanitizing as a projection *)

Section projection.
Context `{Semver} (v : version).

Definition known (u : string * bool) : Prop := u.2 = true → GTE v (MustParse u.1) = true.
Definition exclusive (c : bool * bool) : Prop := c.1 && c.2 = false.
(** Everything in use is known, and no two fields exclude each other. *)
Definition fits (us : usage) (cs : pairs) : Prop := Forall known us ∧ Forall exclusive cs.
Lemma fits_app us us' cs cs' : fits (us ++ us') (cs ++ cs') ↔ fits us cs ∧ fits us' cs'.
Proof. unfold fits. rewrite !Forall_app. tauto. Qed.

(** [f] projects on what fits [uses], and keeps what fits [needs]. *)
Class projection {A} (f : A → res A) (uses needs : A → usage) (clashes : A → pairs) (norm : A → A) : Prop := {
  proj_fits x x' : f x = Ok x' → fits (uses x') (clashes x');
  proj_idem x x' : f x = Ok x' → f x' = Ok x';
  proj_keeps x x' : f x = Ok x' → fits (needs x) (clashes x) → norm x' = norm x;
}.

Lemma projection_wrap {A} (f : A → res A) uses needs clashes norm (fmt : A → string) (args : A → list string) :
  projection f uses needs clashes norm → projection (fun x => wrap (fmt x) (args x) (f x)) uses needs clashes norm.
Proof. intros [Hf Hi Hk]. split; intros x x'; rewrite ?wrap_ok; eauto. Qed.
Lemma projection_pointer {A} (f : A → res A) uses needs clashes norm :
  projection f uses needs clashes norm → projection (on_pointer f) (optional uses) (optional needs) (optional clashes) (fmap norm).
Proof.
  intros [Hf Hi Hk]. split; intros [x|] x'; simpl; try (intros [= <-]; simpl; try done; by repeat constructor);
    (destruct (f x) as [y| |] eqn:E; [|done..]); intros [= <-]; simpl.
  - eauto.
  - by rewrite (Hi _ _ E).
  - intros Hx. by rewrite (Hk _ _ E).
Qed.
Lemma projection_pointer_id {A} (f : A → res A) uses needs clashes :
  projection f uses needs clashes id → projection (on_pointer f) (optional uses) (optional needs) (optional clashes) id.
Proof.
  intros Hp. destruct (projection_pointer _ _ _ _ _ Hp) as [Hf Hi Hk]. split; [done..|].
  intros x x' Hx Hu. specialize (Hk x x' Hx Hu). by rewrite !option_fmap_id in Hk.
Qed.
Lemma projection_list {A} (f : A → res A) uses needs clashes norm :
  projection f uses needs clashes norm → projection (res_map f) (fun l => l ≫= uses) (fun l => l ≫= needs) (fun l => l ≫= clashes) (fmap norm).
Proof.
  intros [Hf Hi Hk]. split; intros l l'; rewrite ?res_map_ok.
  - induction 1 as [|x x' l l' Hx _ IH]; simpl; [by split; constructor|]. apply fits_app. eauto.
  - induction 1 as [|x x' l l' Hx _ IH]; constructor; eauto.
  - induction 1 as [|x x' l l' Hx _ IH]; [done|]. csimpl. rewrite fits_app. intros [Hux Hul]. f_equal; eauto.
Qed.

Lemma projection_list_id {A} (f : A → res A) uses needs clashes :
  projection f uses needs clashes id → projection (res_map f) (fun l => l ≫= uses) (fun l => l ≫= needs) (fun l => l ≫= clashes) id.
Proof.
  intros Hp. destruct (projection_list _ _ _ _ _ Hp) as [Hf Hi Hk]. split; [done..|].
  intros x x' Hx Hu. specialize (Hk x x' Hx Hu). by rewrite !list_fmap_id in Hk.
Qed.

(** *** Dropped fields *)

Lemma nonempty_dropped b s : nonempty (dropped "" b s) = negb b && nonempty s.
Proof. by destruct b. Qed.
Lemma is_set_dropped {A} b (o : option A) : is_set (dropped None b o) = negb b && is_set o.
Proof. by destruct b. Qed.
Lemma map_used_dropped {A} b (m : option (gmap string A)) : map_used (dropped None b m) = negb b && map_used m.
Proof. by destruct b. Qed.
Lemma bool_dropped b x : dropped false b x = negb b && x.
Proof. by destruct b, x. Qed.
Lemma number_dropped b z : nonzero (dropped 0%Z b z) = negb b && nonzero z.
Proof. by destruct b. Qed.
Lemma dropped_id {A} (z : A) b x : b = false → dropped z b x = x.
Proof. by intros ->. Qed.
Lemma dropped_dropped {A} (z : A) b c x : dropped z b (dropped z c x) = dropped z (b || c) x.
Proof. by destruct b. Qed.
Lemma dropped_when {A} (z : A) b c x : b = c → dropped z b x = dropped z c x.
Proof. by intros ->. Qed.
Lemma mandatory_ok f b : mandatory f b = Ok () ↔ b = false.
Proof. by destruct b. Qed.
End projection.

(** Decide a claim on booleans that are made of the fields in use and comparisons of versions, from
    what is known of the fields that occur in it. *)
Ltac recall H := lazymatch type of H with known _ _ => revert H | exclusive _ => revert H | @eq bool _ _ => revert H end.
Ltac relevant := repeat match goal with
  | H : context [nonempty ?s] |- context [nonempty ?s] => recall H
  | H : context [nonzero ?s] |- context [nonzero ?s] => recall H
  | H : context [is_set ?s] |- context [is_set ?s] => recall H
  | H : context [map_used ?s] |- context [map_used ?s] => recall H
  | H : context [@bool_decide ?P ?d] |- context [@bool_decide ?P ?d] => recall H
  | H : context [?b] |- context [?b] => is_var b; lazymatch type of b with bool => recall H end
  | H : LT _ _ = _ |- _ => revert H
  | H : negb (GTE _ _) = _ |- _ => revert H
  | H : GTE _ _ = _ |- _ => revert H
  end.
Ltac bools :=
  rewrite ?nonempty_dropped, ?is_set_dropped, ?map_used_dropped, ?bool_dropped, ?number_dropped;
  relevant;
  unfold known, exclusive, GTE; simpl;
  rewrite ?nonempty_dropped, ?is_set_dropped, ?map_used_dropped, ?bool_dropped, ?number_dropped;
  repeat match goal with
    | |- context [nonempty ?s] => destruct (nonempty s)
    | |- context [nonzero ?s] => destruct (nonzero s)
    | |- context [is_set ?s] => destruct (is_set s)
    | |- context [map_used ?s] => destruct (map_used s)
    | |- context [bool_decide ?s] => destruct (bool_decide s)
    | |- context [LT ?a ?b] => destruct (LT a b)
    | |- context [negb ?b] => is_var b; destruct b
    | |- context [?b = true] => is_var b; destruct b
    | |- context [?b = false] => is_var b; destruct b
    end; simpl; intros;
  repeat match goal with H : ?a = ?a → _ |- _ => specialize (H eq_refl) end; solve [done | discriminate | congruence].

(** Apply the setters of a record that is given by its fields, the innermost one first. *)
Ltac head_of t := lazymatch t with ?f _ => head_of f | _ => t end.
Ltac setters := repeat match goal with
  | |- context [?s ?x ?r] =>
      is_const s; let c := head_of r in is_constructor c;
      let T := type of r in let T' := type of (s x r) in unify T T';
      let t := eval unfold s in (s x r) in let t := eval simpl in t in change (s x r) with t
  end.

(** Compute the fields of a record, with sharing; comparisons and the steps of a sanitizer are kept. *)
Ltac flat_in H := lazy -[dropped is_set nonempty nonzero map_used bool_decide GTE LT MustParse andb orb negb known exclusive fits http_sanitize
  check mandatory for_each mbind res_bind opsgenieResponder_sanitize responders_uses app] in H.
Ltac flat := lazy -[dropped is_set nonempty nonzero map_used bool_decide GTE LT MustParse andb orb negb known exclusive fits http_sanitize
  http_uses check mandatory for_each mbind res_bind opsgenieResponder_sanitize responders_uses app].

Lemma bind_none {A B} (l : list A) : l ≫= (fun _ => [] : list B) = [].
Proof. by induction l. Qed.
(** Split what is known of a list of uses. *)
Ltac split_fits := simpl in *; repeat match goal with
  | H : fits _ _ _ |- _ => let H1 := fresh "Hu" in let H2 := fresh "Hx" in destruct H as [H1 H2]
  | H : Forall _ (_ :: _) |- _ => apply Forall_cons in H as [? ?]
  | H : Forall _ (_ ++ _) |- _ => apply Forall_app in H as [? ?]
  | H : Forall _ [] |- _ => clear H
  end.
Ltac goal_fits := simpl; split; repeat (try assumption; lazymatch goal with
  | |- Forall _ [] => apply Forall_nil_2
  | |- Forall _ (_ :: _) => apply Forall_cons_2; [bools|]
  | |- Forall _ (_ ++ _) => apply Forall_app_2
  end).
(** Fields are equal once what would be dropped is not in use. *)
Ltac fields :=
  repeat lazymatch goal with
    | |- @eq string _ _ => fail | |- @eq (option _) _ _ => fail | |- @eq bool _ _ => fail
    | |- @eq Z _ _ => fail | |- @eq (list _) _ _ => fail | |- _ => f_equal
    end;
  rewrite ?dropped_dropped;
  try lazymatch goal with
    | |- dropped _ _ ?x = dropped _ _ ?x => apply dropped_when; bools
    | |- dropped _ _ ?x = ?x => apply dropped_id; bools
    end; try reflexivity; try congruence.

(** Take a sanitizer apart into its steps. *)
Ltac steps E := repeat first
  [ rewrite bind_ok in E; let Hc := fresh "Hc" in destruct E as [Hc E]; rewrite ?check_ok, ?mandatory_ok in Hc
  | rewrite bind_ok_ex in E; let y := fresh "y" in let Hy := fresh "Hy" in destruct E as (y & Hy & E) ].
Ltac redo := repeat first
  [ rewrite bind_ok; split; [rewrite ?check_ok, ?mandatory_ok; bools|]
  | rewrite bind_ok_ex; eexists; split; [eassumption|] ].
Ltac parts_fit := repeat match goal with Hy : ?f _ = Ok _ |- _ => apply (@proj_fits _ _ _ f _ _ _ _ _) in Hy as [? ?] end.
Ltac parts_idem := repeat match goal with
  | Hy : ?f _ = Ok ?y |- context [?f ?y] => rewrite (@proj_idem _ _ _ f _ _ _ _ _ _ _ Hy); clear Hy; simpl
  end.
Ltac parts_keep := repeat match goal with
  | Hy : ?f ?x = Ok ?y |- _ =>
      assert (y = x) as -> by
        (apply (@proj_keeps _ _ _ f _ _ _ id _ _ _ Hy); split; [assumption | first [assumption | rewrite ?bind_none; constructor]]); clear Hy
  end.

Section components.
Context `{SemverLaws} (v : version).
Local Abbreviation none := (fun _ => []).

Lemma tlsConfig_projection : projection v (tlsConfig_sanitize v) tlsConfig_uses tlsConfig_uses none id.
Proof.
  split; intros [ca cert key name skip mi ma] x'; unfold tlsConfig_sanitize; simpl;
    rewrite bind_ok_ex; intros (a & Ha & E); rewrite bind_ok_ex in E; destruct E as (b & Hb & E);
    (destruct (bool_decide _) eqn:Ec; [done|]); injection E as <-; simpl.
  - unfold tlsConfig_uses. goal_fits.
  - rewrite !(dropped_id (A:=string) "" (_ && _) (dropped _ _ _)) by bools. rewrite Ha. simpl. rewrite Hb. simpl. by rewrite Ec.
  - unfold tlsConfig_uses. intros Hf. split_fits. unfold set_tlsConfig_MaxVersion, set_tlsConfig_MinVersion. simpl. fields.
Qed.
Lemma proxyConfig_projection : projection v (proxyConfig_sanitize v) proxyConfig_uses proxyConfig_uses none id.
Proof.
  split; intros [url no env hdr] x'; unfold proxyConfig_sanitize, proxyConfig_uses; simpl; destruct (GTE v (MustParse "0.26.0")) eqn:Ev.
  - rewrite !bind_ok, !check_ok. intros (? & ? & ? & ? & [= <-]). simpl. goal_fits.
  - intros [= <-]. simpl. unfold set_proxyConfig_ProxyConnectHeader, set_proxyConfig_NoProxy, set_proxyConfig_ProxyFromEnvironment. simpl. goal_fits.
  - rewrite !bind_ok, !check_ok. intros (? & ? & ? & ? & [= <-]). by split_and!.
  - intros [= <-]. simpl. unfold set_proxyConfig_ProxyConnectHeader, set_proxyConfig_NoProxy, set_proxyConfig_ProxyFromEnvironment. simpl. fields.
  - rewrite !bind_ok, !check_ok. by intros (? & ? & ? & ? & [= <-]).
  - intros [= <-] Hf. split_fits. unfold set_proxyConfig_ProxyConnectHeader, set_proxyConfig_NoProxy, set_proxyConfig_ProxyFromEnvironment. simpl in *. fields.
Qed.
Lemma proxy_field_dropped b pc :
  nonempty (proxyConfig_ProxyURL (dropped zero_proxyConfig b pc)) = negb b && nonempty (proxyConfig_ProxyURL pc) ∧
  nonempty (proxyConfig_NoProxy (dropped zero_proxyConfig b pc)) = negb b && nonempty (proxyConfig_NoProxy pc) ∧
  map_used (proxyConfig_ProxyConnectHeader (dropped zero_proxyConfig b pc)) = negb b && map_used (proxyConfig_ProxyConnectHeader pc).
Proof. by destruct b. Qed.
Lemma oauth2_projection : projection v (oauth2_sanitize v) (oauth2_uses false) (oauth2_uses true) none id.
Proof.
  split; intros [id secret file scopes url params pc tls] x'; unfold oauth2_sanitize; simpl; intros [= <-]; simpl.
  - split; [|done]. constructor; [|done]. destruct (proxy_field_dropped ((nonempty (proxyConfig_ProxyURL pc)
      || nonempty (proxyConfig_NoProxy pc) || map_used (proxyConfig_ProxyConnectHeader pc)) && negb (GTE v (MustParse "0.25.0"))) pc)
      as (E1 & _). simpl. rewrite E1. bools.
  - unfold set_oauth2_proxyConfig. simpl. do 2 f_equal. apply dropped_id.
    destruct (proxy_field_dropped ((nonempty (proxyConfig_ProxyURL pc) || nonempty (proxyConfig_NoProxy pc)
      || map_used (proxyConfig_ProxyConnectHeader pc)) && negb (GTE v (MustParse "0.25.0"))) pc) as (E1 & E2 & E3).
    rewrite E1, E2, E3. bools.
  - unfold oauth2_uses, proxyConfig_uses. intros Hf. split_fits. unfold set_oauth2_proxyConfig. simpl. f_equal. apply dropped_id.
    assert (GTE v (MustParse "0.26.0") = true → GTE v (MustParse "0.25.0") = true) as Hlaw.
    { intros Hv. apply (GTE_release v (0, 26, 0)%Z (0, 25, 0)%Z); [exact Hv|by repeat split; simpl; lia..|done]. }
    apply andb_false_iff. rewrite negb_false_iff.
    destruct (nonempty (proxyConfig_ProxyURL pc)) eqn:Eu; [right; by apply H1|].
    destruct (nonempty (proxyConfig_NoProxy pc)) eqn:En; [right; by apply Hlaw, H3|].
    destruct (map_used (proxyConfig_ProxyConnectHeader pc)) eqn:Eh; [right; by apply Hlaw, H4|]. by left.
Qed.

Lemma on_pointer_set {A} (f : A → res A) o o' : on_pointer f o = Ok o' → is_set o' = is_set o.
Proof. destruct o as [x|]; simpl; [|by intros [= <-]]. destruct (f x); [|done..]. by intros [= <-]. Qed.
Lemma optional_none {A B} (o : option A) : optional (fun _ => [] : list B) o = [].
Proof. by destruct o. Qed.
Local Opaque tlsConfig_uses proxyConfig_uses oauth2_uses.
Lemma httpClientConfig_projection : projection v (httpClientConfig_sanitize v) (httpClientConfig_uses false) (httpClientConfig_uses true) none id.
Proof.
  pose proof (projection_pointer_id _ _ _ _ _ tlsConfig_projection) as [Ht1 Ht2 Ht3].
  pose proof proxyConfig_projection as [Hp1 Hp2 Hp3].
  pose proof (projection_pointer_id _ _ _ _ _ oauth2_projection) as [Ho1 Ho2 Ho3].
  split; intros [auth basic oauth bearer bfile tls redirects http2 pc] x' E; unfold httpClientConfig_sanitize in *; steps E;
    injection E as <-; pose proof (on_pointer_set _ _ _ Hy1) as Hset; simpl in *.
  - apply Ht1 in Hy as [? _]. apply Hp1 in Hy0 as [? _]. apply Ho1 in Hy1 as [? _]. unfold httpClientConfig_uses. simpl. rewrite Hset. goal_fits.
  - apply Ht2 in Hy. apply Hp2 in Hy0. apply Ho2 in Hy1. rewrite Hset. redo. setters. fields.
  - unfold httpClientConfig_uses. intros Hf. split_fits.
    rewrite (Ht3 _ _ Hy), (Hp3 _ _ Hy0), (Ho3 _ _ Hy1) by (rewrite ?optional_none; done). setters. fields.
Qed.
Lemma http_projection : projection v (http_sanitize v) (http_uses false) (http_uses true) none id.
Proof.
  destruct (projection_pointer_id _ _ _ _ _ httpClientConfig_projection) as [Hf Hi Hk]. split; [|done|].
  - intros x x' Hx. destruct (Hf x x' Hx). by split.
  - intros x x' Hx Hu. apply Hk; [done|]. by rewrite optional_none.
Qed.
Local Opaque http_uses.

(** A part that consists of an HTTP client and fields that are kept or dropped. *)
Ltac part_fits :=
  match goal with Hy : http_sanitize _ _ = Ok _ |- _ => apply (@proj_fits _ _ _ _ _ _ _ _ http_projection) in Hy as [? _] end;
  goal_fits.
Ltac part_idem :=
  match goal with Hy : http_sanitize _ _ = Ok _ |- _ => apply (@proj_idem _ _ _ _ _ _ _ _ http_projection) in Hy end;
  redo; setters; fields.
Ltac part_keeps :=
  let Hf := fresh in intros Hf; split_fits;
  match goal with Hy : http_sanitize _ ?o = Ok ?y |- _ =>
    assert (y = o) as -> by (apply (@proj_keeps _ _ _ _ _ _ _ _ http_projection _ _ Hy); by split) end;
  setters; fields.
Tactic Notation "part" reference(sanitize) :=
  split; intros [] x' E; unfold sanitize in E; flat_in E; steps E; injection E as <-; flat; [part_fits | part_idem | part_keeps].

Lemma globalConfig_projection : projection v (globalConfig_sanitize v) (globalConfig_uses false) (globalConfig_uses true) globalConfig_clashes id.
Proof. part globalConfig_sanitize. Qed.
Lemma pagerdutyConfig_projection : projection v (pagerdutyConfig_sanitize v) (pagerdutyConfig_uses false) (pagerdutyConfig_uses true) pagerdutyConfig_clashes id.
Proof. part pagerdutyConfig_sanitize. Qed.
Lemma pushoverConfig_projection : projection v (pushoverConfig_sanitize v) (pushoverConfig_uses false) (pushoverConfig_uses true) pushoverConfig_clashes id.
Proof. part pushoverConfig_sanitize. Qed.
Lemma victorOpsConfig_projection : projection v (victorOpsConfig_sanitize v) (victorOpsConfig_uses false) (victorOpsConfig_uses true) victorOpsConfig_clashes id.
Proof. part victorOpsConfig_sanitize. Qed.
Lemma webhookConfig_projection : projection v (webhookConfig_sanitize v) (webhookConfig_uses false) (webhookConfig_uses true) webhookConfig_clashes id.
Proof. part webhookConfig_sanitize. Qed.
Lemma weChatConfig_projection : projection v (weChatConfig_sanitize v) (weChatConfig_uses false) (weChatConfig_uses true) none id.
Proof. part weChatConfig_sanitize. Qed.
Lemma snsConfig_projection : projection v (snsConfig_sanitize v) (snsConfig_uses false) (snsConfig_uses true) none id.
Proof. part snsConfig_sanitize. Qed.
Lemma telegramConfig_projection : projection v (telegramConfig_sanitize v) (telegramConfig_uses false) (telegramConfig_uses true) telegramConfig_clashes id.
Proof. part telegramConfig_sanitize. Qed.
Lemma discordConfig_projection : projection v (discordConfig_sanitize v) (discordConfig_uses false) (discordConfig_uses true) none id.
Proof. part discordConfig_sanitize. Qed.
Lemma webexConfig_projection : projection v (webexConfig_sanitize v) (webexConfig_uses false) (webexConfig_uses true) none id.
Proof. part webexConfig_sanitize. Qed.
Lemma msTeamsConfig_projection : projection v (msTeamsConfig_sanitize v) (msTeamsConfig_uses false) (msTeamsConfig_uses true) none id.
Proof. part msTeamsConfig_sanitize. Qed.
Lemma msTeamsV2Config_projection : projection v (msTeamsV2Config_sanitize v) (msTeamsV2Config_uses false) (msTeamsV2Config_uses true) msTeamsV2Config_clashes id.
Proof. part msTeamsV2Config_sanitize. Qed.
Lemma jiraConfig_projection : projection v (jiraConfig_sanitize v) (jiraConfig_uses false) (jiraConfig_uses true) none id.
Proof. part jiraConfig_sanitize. Qed.
Lemma rocketChatConfig_projection : projection v (rocketChatConfig_sanitize v) (rocketChatConfig_uses false) (rocketChatConfig_uses true) rocketChatConfig_clashes id.
Proof. part rocketChatConfig_sanitize. Qed.
Lemma emailConfig_projection : projection v (emailConfig_sanitize v) (emailConfig_uses false) (emailConfig_uses true) emailConfig_clashes id.
Proof.
  split; intros [] x' E; unfold emailConfig_sanitize in E; flat_in E; injection E as <-; flat; [goal_fits|fields|].
  intros Hf. split_fits. fields.
Qed.
Lemma slackConfig_projection : projection v (slackConfig_sanitize v) (slackConfig_uses false) (slackConfig_uses true) slackConfig_clashes id.
Proof.
  split; intros [] x' E; unfold slackConfig_sanitize in E; flat_in E; steps E;
    destruct (nonempty slackConfig_APIURLFile) eqn:Hn; simpl in E; injection E as <-; flat.
  1,2: part_fits.
  3,4: part_keeps.
  all: match goal with Hy : http_sanitize _ _ = Ok _ |- _ => apply (@proj_idem _ _ _ _ _ _ _ _ http_projection) in Hy end;
    redo; setters; destruct (negb _); fields.
Qed.

Lemma responders_known l :
  for_each (opsgenieResponder_sanitize v) l = Ok () ↔ Forall (known v) (responders_uses l).
Proof.
  unfold responders_uses. rewrite for_each_ok, Forall_fmap. apply Forall_iff. intros r. unfold opsgenieResponder_sanitize, known, GTE. rewrite check_ok. simpl.
  destruct (bool_decide _), (LT _ _); naive_solver.
Qed.
Lemma opsgenieConfig_projection : projection v (opsgenieConfig_sanitize v) (opsgenieConfig_uses false) (opsgenieConfig_uses true) opsgenieConfig_clashes id.
Proof.
  split; intros [] x' E; unfold opsgenieConfig_sanitize in E; flat_in E; steps E;
    pose proof (proj1 (responders_known _) Hc) as Hr; destruct (negb _) eqn:Hn; injection E as <-; flat.
  1,2: part_fits.
  3,4: part_keeps.
  all: match goal with Hy : http_sanitize _ _ = Ok _ |- _ => apply (@proj_idem _ _ _ _ _ _ _ _ http_projection) in Hy end;
    rewrite bind_ok_ex; eexists; split; [eassumption|]; rewrite Hc; simpl;
    match goal with |- (if ?b then _ else _) = _ => first [assert (b = true) as -> by bools | destruct b] end; fields.
Qed.

#[local] Existing Instances emailConfig_projection opsgenieConfig_projection pagerdutyConfig_projection pushoverConfig_projection
  slackConfig_projection victorOpsConfig_projection webhookConfig_projection weChatConfig_projection snsConfig_projection
  telegramConfig_projection discordConfig_projection webexConfig_projection msTeamsConfig_projection
  msTeamsV2Config_projection jiraConfig_projection rocketChatConfig_projection globalConfig_projection
  projection_list_id projection_pointer_id.
Lemma receiver_projection : projection v (receiver_sanitize v) (receiver_uses false) (receiver_uses true) receiver_clashes id.
Proof.
  split; intros [] x' E; unfold receiver_sanitize in *; simpl in E; steps E; injection E as <-.
  - parts_fit. unfold receiver_uses, receiver_clashes. simpl. split; repeat (apply Forall_app_2; [assumption|]); assumption.
  - simpl. parts_idem. done.
  - unfold receiver_uses, receiver_clashes. intros Hf. split_fits. parts_keep. done.
Qed.

(** ** Inhibition rules and time intervals *)

Lemma map_used_nil m : map_used (convertMapToNilIfEmpty m) = map_used m.
Proof. unfold convertMapToNilIfEmpty. by destruct (map_used m) eqn:E. Qed.
Lemma convertMapToNilIfEmpty_idem m : convertMapToNilIfEmpty (convertMapToNilIfEmpty m) = convertMapToNilIfEmpty m.
Proof. unfold convertMapToNilIfEmpty at 1. rewrite map_used_nil. unfold convertMapToNilIfEmpty. by destruct (map_used m). Qed.
Lemma inhibitRule_projection : projection v (inhibitRule_sanitize v) inhibitRule_uses inhibitRule_uses none inhibitRule_norm.
Proof.
  split; intros [tm tr ts sm sr ss eq] x'; unfold inhibitRule_sanitize, checkNotEmptyStrSlice; simpl;
    destruct (negb (GTE v (MustParse "0.22.0"))) eqn:Ev; try (destruct (_ || _) eqn:Ec; [done|]); intros [= <-].
  - unfold inhibitRule_uses. goal_fits.
  - unfold inhibitRule_uses. goal_fits.
  - simpl. by rewrite Ec.
  - simpl. by rewrite !convertMapToNilIfEmpty_idem.
  - done.
  - intros _. unfold inhibitRule_norm. simpl. by rewrite !convertMapToNilIfEmpty_idem.
Qed.

Lemma timeInterval_projection : projection v (timeInterval_sanitize v) timeInterval_uses timeInterval_uses none id.
Proof.
  split; intros [name l] x'; unfold timeInterval_sanitize, timeInterval_uses; simpl; destruct (GTE _ _) eqn:Ev; intros [= <-].
  - split; [|constructor]. apply Forall_fmap, Forall_true. intros i _. done.
  - split; [|constructor]. simpl. rewrite !Forall_fmap. by apply Forall_true.
  - done.
  - simpl. by rewrite <-list_fmap_compose.
  - done.
  - intros [Hl _]. rewrite Forall_fmap in Hl. unfold id. f_equal. simpl. transitivity (id <$> l); [|apply list_fmap_id].
    apply list_fmap_ext. intros i [ti da mo ye lo loc] Hi. pose proof (proj1 (Forall_lookup _ _) Hl _ _ Hi) as Hk.
    unfold drop_location. simpl. destruct loc; [|done]. specialize (Hk eq_refl). simpl in Hk. congruence.
Qed.
End components.
#[export] Existing Instances emailConfig_projection opsgenieConfig_projection pagerdutyConfig_projection pushoverConfig_projection
  slackConfig_projection victorOpsConfig_projection webhookConfig_projection weChatConfig_projection snsConfig_projection
  telegramConfig_projection discordConfig_projection webexConfig_projection msTeamsConfig_projection
  msTeamsV2Config_projection jiraConfig_projection rocketChatConfig_projection globalConfig_projection
  receiver_projection inhibitRule_projection timeInterval_projection projection_list_id projection_pointer_id.
