(* ===== verification/AmProjection.v ===== *)
(** * Sanitizing routes and whole configurations

    Sanitizing is a projection onto the configurations that a version of Alertmanager supports: for
    the tree of routes, by induction on it, and for a configuration from its parts. *)

From S2P Require Import Prelude GoStrings Meta Semver MonitoringV1 AmTypes AmSanitize AmSupport.

Section projections.
Context `{SemverLaws} (v : version).
Local Abbreviation none := (fun _ => []).

(** ** Routes *)

Lemma route_induction (P : route → Prop) :
  (∀ r, Forall P (route_Routes r) → P r) → ∀ r, P r.
Proof.
  intros Hr. fix IH 1. intros r. apply Hr. destruct r as [? ? ? ? ? ? l]. simpl. induction l; constructor; [apply IH|done].
Qed.
Lemma sanitize_children_ok f i l cs : sanitize_children f i l = Ok cs ↔ Forall2 (fun c c' => f c = Ok c') l cs.
Proof.
  revert i cs. induction l as [|c l IH]; intros i cs; simpl; [split; [by intros [= <-]|by intros ->%Forall2_nil_inv_l]|].
  rewrite bind_ok_ex. setoid_rewrite bind_ok_ex. setoid_rewrite wrap_ok. split.
  - intros (c' & Hc & cs' & Hcs & [= <-]). constructor; [done|by eapply IH].
  - intros (c' & cs' & Hc & Hcs & ->)%Forall2_cons_inv_l. exists c'. split; [done|]. exists cs'. split; [by apply IH|done].
Qed.
(** What a route turns into, given what its children turn into. *)
Definition route_image (r : route) (routes : list route) : route := {|
  route_Receiver := route_Receiver r; route_GroupByStr := route_GroupByStr r;
  route_Match := convertMapToNilIfEmpty (route_Match r); route_MatchRE := convertMapToNilIfEmpty (route_MatchRE r);
  route_Matchers := route_Matchers r; route_Continue := route_Continue r; route_Routes := routes;
  route_GroupWait := route_GroupWait r; route_GroupInterval := route_GroupInterval r; route_RepeatInterval := route_RepeatInterval r;
  route_MuteTimeIntervals := if negb (GTE v (MustParse "0.22.0")) then [] else route_MuteTimeIntervals r;
  route_ActiveTimeIntervals := if negb (GTE v (MustParse "0.24.0")) then [] else route_ActiveTimeIntervals r |}.
Lemma route_sanitize_ok r r' :
  route_sanitize v r = Ok r' ↔
  known v ("0.22.0", bool_decide (route_Matchers r ≠ [])) ∧
  ∃ routes, Forall2 (fun c c' => route_sanitize v c = Ok c') (route_Routes r) routes ∧ r' = route_image r routes.
Proof.
  destruct r as [rcv gs m mr ms co l gw gi ri mt at']. simpl. unfold known, checkNotEmptyStrSlice, route_image. simpl.
  destruct (GTE v (MustParse "0.22.0")) eqn:Ev, (bool_decide (ms ≠ [])) eqn:Em; simpl;
    rewrite ?bind_ok_ex; try setoid_rewrite sanitize_children_ok; 
    (split; [try done; try (intros (? & ? & [= <-]); split; [done|]; eexists; split; done)|]); try (intros (Hm & _); by specialize (Hm eq_refl));
    intros (_ & routes & Hr & ->); by exists routes.
Qed.
Lemma route_projection : projection v (route_sanitize v) route_uses route_uses none route_norm.
Proof.
  split; intros r; induction r as [r IH] using route_induction; intros r' (Hm & routes & Hl & ->)%route_sanitize_ok.
  - split; [|constructor]. simpl. repeat (apply Forall_cons_2; [try done; unfold known; simpl; by destruct (GTE _ _)|]).
    clear Hm. induction Hl as [|c c' l cs Hc Hl IHl]; csimpl; [done|]. decompose_Forall_hyps. apply Forall_app_2; [|by apply IHl].
    by eapply H1.
  - apply route_sanitize_ok. split; [done|]. exists routes. split; [|by unfold route_image; simpl; rewrite !convertMapToNilIfEmpty_idem; destruct (GTE _ _), (GTE _ _)].
    simpl. clear Hm. induction Hl as [|c c' l cs Hc Hl IHl]; constructor; decompose_Forall_hyps; eauto.
  - destruct r as [rcv gs m mr ms co l gw gi ri mt at']. unfold route_image. simpl in *. intros [Hu _].
    apply Forall_cons in Hu as [_ Hu]. apply Forall_cons in Hu as [Hmute Hu]. apply Forall_cons in Hu as [Hactive Hu].
    rewrite !convertMapToNilIfEmpty_idem. f_equal.
    + clear Hm Hmute Hactive. induction Hl as [|c c' l cs Hc Hl IHl]; csimpl in *; [done|]. decompose_Forall_hyps. f_equal; [by apply H1|by apply IHl].
    + revert Hmute. unfold known. simpl. destruct (GTE _ _); [done|]. destruct mt; [done|]. by intros Hk; specialize (Hk eq_refl).
    + revert Hactive. unfold known. simpl. destruct (GTE _ _); [done|]. destruct at'; [done|]. by intros Hk; specialize (Hk eq_refl).
Qed.

(** ** The whole configuration *)

Definition alertmanagerConfig_norm (c : alertmanagerConfig) : alertmanagerConfig := {|
  alertmanagerConfig_Global := alertmanagerConfig_Global c; alertmanagerConfig_Route := route_norm <$> alertmanagerConfig_Route c;
  alertmanagerConfig_InhibitRules := inhibitRule_norm <$> alertmanagerConfig_InhibitRules c;
  alertmanagerConfig_Receivers := alertmanagerConfig_Receivers c; alertmanagerConfig_MuteTimeIntervals := alertmanagerConfig_MuteTimeIntervals c;
  alertmanagerConfig_TimeIntervals := alertmanagerConfig_TimeIntervals c; alertmanagerConfig_Templates := alertmanagerConfig_Templates c |}.
Lemma res_map_wrap {A B} f (args : A → list string) (g : A → res B) l ys : res_map (fun x => wrap f (args x) (g x)) l = Ok ys ↔ res_map g l = Ok ys.
Proof. rewrite !res_map_ok. split; intros Hl; apply (Forall2_impl _ _ _ _ Hl); intros x y; apply wrap_ok. Qed.
Lemma res_map_position {A B} (g : A → res B) l ys : res_map (fun ix : nat * A => g ix.2) (imap pair l) = Ok ys ↔ res_map g l = Ok ys.
Proof.
  rewrite !res_map_ok, !Forall2_same_length_lookup, length_imap. apply and_iff_compat_l. setoid_rewrite list_lookup_imap. split.
  - intros Hl i x y Hx Hy. apply (Hl i (i, x) y); [by rewrite Hx|done].
  - intros Hl i [j x] y Hx Hy. destruct (l !! i) as [x'|] eqn:E; simplify_eq/=. eauto.
Qed.
(** Time intervals are dropped altogether by the versions that do not know them. *)
Lemma intervals_step (w : string) (l l' : list timeInterval) (f : timeInterval → string) fmt :
  res_map (fun ti => wrap fmt [f ti] (timeInterval_sanitize v ti)) (if bool_decide (l ≠ []) && LT v (MustParse w) then [] else l) = Ok l' →
  known v (w, bool_decide (l' ≠ [])) ∧ Forall (known v) (l' ≫= timeInterval_uses) ∧
  res_map (fun ti => wrap fmt [f ti] (timeInterval_sanitize v ti)) (if bool_decide (l' ≠ []) && LT v (MustParse w) then [] else l') = Ok l' ∧
  (known v (w, bool_decide (l ≠ [])) → Forall (known v) (l ≫= timeInterval_uses) → l' = l).
Proof.
  rewrite !res_map_wrap. destruct (projection_list_id v _ _ _ _ (timeInterval_projection v)) as [Hf Hi Hk].
  destruct (bool_decide (l ≠ [])) eqn:El, (LT v (MustParse w)) eqn:Ev; simpl; intros E.
  1: { injection E as <-. split_and!; [done..|]. unfold known, GTE. simpl. rewrite Ev. by intros Hk'; specialize (Hk' eq_refl). }
  all: assert (bool_decide (l' ≠ []) = bool_decide (l ≠ [])) as Hl' by
    (apply bool_decide_ext; apply res_map_ok, Forall2_length in E; by destruct l, l').
  all: rewrite Hl', El; simpl; pose proof (Hf _ _ E) as [Hu _].
  all: split_and!; [unfold known, GTE; simpl; by rewrite Ev|done|by eapply Hi|].
  all: intros _ Hu'; apply (Hk _ _ E); split; [done|]; rewrite bind_none; constructor.
Qed.
Lemma configuration_projection :
  projection v (alertmanagerConfig_sanitize v) (alertmanagerConfig_uses false) (alertmanagerConfig_uses true) alertmanagerConfig_clashes alertmanagerConfig_norm.
Proof.
  pose proof (projection_pointer_id v _ _ _ _ (globalConfig_projection v)) as [Gf Gi Gk].
  pose proof (projection_list_id v _ _ _ _ (receiver_projection v)) as [Rf Ri Rk].
  pose proof (projection_list v _ _ _ _ _ (inhibitRule_projection v)) as [If Ii Ik].
  pose proof (projection_pointer v _ _ _ _ _ route_projection) as [Tf Ti Tk].
  split; intros [gl rt rules rcv mute act tm] c' E; unfold alertmanagerConfig_sanitize in *; steps E; injection E as <-; simpl in *;
    rewrite res_map_wrap, (res_map_position (inhibitRule_sanitize v)) in Hy1;
    apply intervals_step in Hy2 as (Km & Um & Im & Em), Hy3 as (Ka & Ua & Ia & Ea).
  - destruct (Gf _ _ Hy), (Rf _ _ Hy0), (If _ _ Hy1), (Tf _ _ Hy4). unfold alertmanagerConfig_uses, alertmanagerConfig_clashes. simpl.
    split; [|by apply Forall_app_2]. do 2 (apply Forall_cons_2; [done|]). by repeat apply Forall_app_2.
  - rewrite (Gi _ _ Hy). simpl. rewrite (Ri _ _ Hy0). simpl.
    rewrite (proj2 (res_map_wrap _ _ (fun ix : nat * inhibitRule => inhibitRule_sanitize v ix.2) _ y1)
      (proj2 (res_map_position (inhibitRule_sanitize v) _ _) (Ii _ _ Hy1))). simpl.
    rewrite Im. simpl. rewrite Ia. simpl. by rewrite (Ti _ _ Hy4).
  - unfold alertmanagerConfig_uses, alertmanagerConfig_clashes. intros Hf. split_fits.
    rewrite Em, Ea by done. unfold alertmanagerConfig_norm. simpl. f_equal.
    + by apply (Gk _ _ Hy).
    + apply (Tk _ _ Hy4). split; [done|]. rewrite optional_none. constructor.
    + apply (Ik _ _ Hy1). split; [done|]. rewrite bind_none. constructor.
    + by apply (Rk _ _ Hy0).
Qed.
End projections.
