(* ===== verification/AmConvert.v ===== *)
(** * From AlertmanagerConfig objects to Alertmanager's configuration

    The methods [convert...] of ConfigBuilder in pkg/alertmanager/amcfg.go. The asset store is the
    state of the effect monad; the builder's current configuration [cfg] is only read here, by
    [convertEmailConfig]. The parsers of the Alertmanager and Prometheus repositories are the
    operations of [AmLibs] and [ConvertLibs]; a parsed URL is represented by the text it comes
    from. *)

From S2P Require Import Prelude GoStrings Meta ApiClient Semver MonitoringV1 Json RouteTree TimeRanges V1alpha1 AmLibs PromCommon AssetStore AmTypes.
Import v1alpha1.

(** ** The global section of an Alertmanager object (pkg/apis/monitoring/v1/alertmanager_types.go) *)

Module amv1.
Record GlobalSMTPConfig := {
  GlobalSMTPConfig_From : option string;
  GlobalSMTPConfig_SmartHost : option HostPort;
  GlobalSMTPConfig_Hello : option string;
  GlobalSMTPConfig_AuthUsername : option string;
  GlobalSMTPConfig_AuthPassword : option SecretKeySelector;
  GlobalSMTPConfig_AuthIdentity : option string;
  GlobalSMTPConfig_AuthSecret : option SecretKeySelector;
  GlobalSMTPConfig_RequireTLS : option bool;
  GlobalSMTPConfig_TLSConfig : option SafeTLSConfig;
}.
Record GlobalTelegramConfig := { GlobalTelegramConfig_APIURL : option string }.
Record GlobalJiraConfig := { GlobalJiraConfig_APIURL : option string }.
Record GlobalRocketChatConfig := {
  GlobalRocketChatConfig_APIURL : option string;
  GlobalRocketChatConfig_Token : option SecretKeySelector;
  GlobalRocketChatConfig_TokenID : option SecretKeySelector;
}.
Record GlobalWebexConfig := { GlobalWebexConfig_APIURL : option string }.
Record GlobalWeChatConfig := {
  GlobalWeChatConfig_APIURL : option string;
  GlobalWeChatConfig_APISecret : option SecretKeySelector;
  GlobalWeChatConfig_APICorpID : option string;
}.
Record GlobalVictorOpsConfig := {
  GlobalVictorOpsConfig_APIURL : option string;
  GlobalVictorOpsConfig_APIKey : option SecretKeySelector;
}.
Record HTTPConfig := {
  HTTPConfig_Authorization : option SafeAuthorization;
  HTTPConfig_BasicAuth : option BasicAuth;
  HTTPConfig_OAuth2 : option OAuth2;
  HTTPConfig_BearerTokenSecret : option SecretKeySelector;
  HTTPConfig_TLSConfig : option SafeTLSConfig;
  HTTPConfig_ProxyConfig : ProxyConfig;
  HTTPConfig_FollowRedirects : option bool;
}.
Record AlertmanagerGlobalConfig := {
  AlertmanagerGlobalConfig_SMTPConfig : option GlobalSMTPConfig;
  AlertmanagerGlobalConfig_ResolveTimeout : string;
  AlertmanagerGlobalConfig_HTTPConfig : option HTTPConfig;
  AlertmanagerGlobalConfig_SlackAPIURL : option SecretKeySelector;
  AlertmanagerGlobalConfig_OpsGenieAPIURL : option SecretKeySelector;
  AlertmanagerGlobalConfig_OpsGenieAPIKey : option SecretKeySelector;
  AlertmanagerGlobalConfig_PagerdutyURL : option string;
  AlertmanagerGlobalConfig_TelegramConfig : option GlobalTelegramConfig;
  AlertmanagerGlobalConfig_JiraConfig : option GlobalJiraConfig;
  AlertmanagerGlobalConfig_VictorOpsConfig : option GlobalVictorOpsConfig;
  AlertmanagerGlobalConfig_RocketChatConfig : option GlobalRocketChatConfig;
  AlertmanagerGlobalConfig_WebexConfig : option GlobalWebexConfig;
  AlertmanagerGlobalConfig_WeChatConfig : option GlobalWeChatConfig;
}.
End amv1.

(** ** Names and matchers *)

Record NamespacedName := { nn_Namespace : string; nn_Name : string }.
Definition NamespacedName_String (k : NamespacedName) : string := nn_Namespace k +:+ "/" +:+ nn_Name k.
Definition makeNamespacedString (x : string) (crKey : NamespacedName) : string :=
  if bool_decide (x = "") then "" else nn_Namespace crKey +:+ "/" +:+ nn_Name crKey +:+ "/" +:+ x.

Definition MatchEqual : string := "=".
Definition MatchRegexp : string := "=~".
Definition newline : ascii := ascii_of_nat 10.
Definition backslash : ascii := ascii_of_nat 92.
Definition double_quote : ascii := ascii_of_nat 34.
Fixpoint openMetricsEscape (s : string) : string :=
  match s with
  | EmptyString => EmptyString
  | String c s' =>
      let rest := openMetricsEscape s' in
      if decide (c = backslash) then String backslash (String backslash rest)
      else if decide (c = newline) then String backslash (String "n" rest)
      else if decide (c = double_quote) then String backslash (String double_quote rest)
      else String c rest
  end.
Definition Matcher_String (m : Matcher) : string :=
  Matcher_Name m +:+ Matcher_MatchType m +:+ quote +:+ openMetricsEscape (Matcher_Value m) +:+ quote.
Definition typed_matcher (name type value : string) : Matcher := {|
  Matcher_Name := name; Matcher_Value := value; Matcher_MatchType := type; Matcher_Regex := false |}.
Definition inhibitRuleToV2 (name value : string) : string := Matcher_String (typed_matcher name MatchEqual value).
Definition inhibitRuleRegexToV2 (name value : string) : string := Matcher_String (typed_matcher name MatchRegexp value).

(** [m[k] = v] on a map that is not nil *)
Definition put (k v : string) (m : gomap) : gomap := Some (<[k := v]> (default ∅ m)).

Class ConvertLibs := {
  (** [String] of the URL that [config.URL] unmarshals to *)
  config_URL_String : string → string;
  (** [model.ParseDuration], in nanoseconds *)
  model_ParseDuration : string → res Z;
}.

Definition nil_pointer {A} : res A := Panic "invalid memory address or nil pointer dereference".
(** A pointer that is dereferenced. *)
Definition deref {A} (o : option A) : res A := match o with Some x => Ok x | None => nil_pointer end.
(** The loop [for i := range l] that fills a slice and returns the first error with its index. *)
Fixpoint mmap {S A B} (f : A → M S B) (l : list A) : M S (list B) :=
  match l with
  | [] => mret []
  | x :: l' => y ← f x; ys ← mmap f l'; mret (y :: ys)
  end.
Definition mmap_indexed {S A B} (msg : string) (f : A → M S B) (l : list A) : M S (list B) :=
  mmap (fun ix => mwrap msg [Itoa (Z.of_nat ix.1)] (f ix.2)) (imap pair l).
(** A field set from a pointer if that is not nil, and left at its zero value otherwise. *)
Definition mset {S A B} (zero : B) (o : option A) (f : A → M S B) : M S B :=
  match o with Some x => f x | None => mret zero end.

Section convert.
Context `{Semver} `{AmLibs} `{ConvertLibs} {C : Type} `{CacheStore C}.
Context (sClient : string → string → res Secret) (cmClient : string → string → res ConfigMap).
Context (amVersion : version).
Local Abbreviation M := (M (StoreBuilder C)).
Local Abbreviation GetSecretKey := (GetSecretKey sClient).
Local Abbreviation GetKey := (GetKey sClient cmClient).
Local Abbreviation before v := (LT amVersion (MustParse v)).

(** ** Routes and inhibition rules *)

Definition convert_matcher (acc : list string * gomap * gomap) (m : Matcher) : list string * gomap * gomap :=
  let '(matchers, match_, matchRE) := acc in
  if bool_decide (Matcher_MatchType m ≠ "") then (matchers ++ [Matcher_String m], match_, matchRE)
  else if GTE amVersion (MustParse "0.22.0") then
    if Matcher_Regex m then (matchers ++ [inhibitRuleRegexToV2 (Matcher_Name m) (Matcher_Value m)], match_, matchRE)
    else (matchers ++ [inhibitRuleToV2 (Matcher_Name m) (Matcher_Value m)], match_, matchRE)
  else if Matcher_Regex m then (matchers, match_, put (Matcher_Name m) (Matcher_Value m) matchRE)
  else (matchers, put (Matcher_Name m) (Matcher_Value m) match_, matchRE).
Definition convertMatchersV2 (ms : list Matcher) : list string * gomap * gomap :=
  foldl convert_matcher ([], Some ∅, Some ∅) ms.

Definition convertInhibitRule (x : InhibitRule) : inhibitRule :=
  let '(sourceMatchers, sourceMatch, sourceMatchRE) := convertMatchersV2 (InhibitRule_SourceMatch x) in
  let '(targetMatchers, targetMatch, targetMatchRE) := convertMatchersV2 (InhibitRule_TargetMatch x) in
  {| inhibitRule_SourceMatch := sourceMatch; inhibitRule_SourceMatchRE := sourceMatchRE;
     inhibitRule_SourceMatchers := sourceMatchers; inhibitRule_TargetMatch := targetMatch;
     inhibitRule_TargetMatchRE := targetMatchRE; inhibitRule_TargetMatchers := targetMatchers;
     inhibitRule_Equal := InhibitRule_Equal x |}.

(** The route itself, given its converted children. *)
Definition convert_one_route (x : Route) (crKey : NamespacedName) (routes : list route) : route :=
  let '(matchers, match_, matchRE) := convertMatchersV2 (Route_Matchers x) in
  {| route_Receiver := makeNamespacedString (Route_Receiver x) crKey;
     route_GroupByStr := Route_GroupBy x; route_GroupWait := Route_GroupWait x;
     route_GroupInterval := Route_GroupInterval x; route_RepeatInterval := Route_RepeatInterval x;
     route_Continue := Route_Continue x; route_Match := match_; route_MatchRE := matchRE; route_Matchers := matchers;
     route_Routes := routes;
     route_MuteTimeIntervals := (fun mti => makeNamespacedString mti crKey) <$> Route_MuteTimeIntervals x;
     route_ActiveTimeIntervals := (fun ati => makeNamespacedString ati crKey) <$> Route_ActiveTimeIntervals x |}.
(** Children that cannot be decoded make it panic. *)
Fixpoint convertRoute_fuel `{RawJSON} (fuel : nat) (x : Route) (crKey : NamespacedName) : res route :=
  match fuel with
  | 0 => out_of_fuel
  | S fuel' =>
      children ← match child_routes x with
                 | Err _ => Panic "ChildRoutes"
                 | r => r
                 end;
      routes ← res_map (fun c => convertRoute_fuel fuel' c crKey) children;
      Ok (convert_one_route x crKey routes)
  end.
Definition convertRoute `{RawJSON} (x : option Route) (crKey : NamespacedName) : res (option route) :=
  match x with
  | None => Ok None
  | Some x => Some <$> convertRoute_fuel (depth x) x crKey
  end.

(** ** Time intervals *)

Definition range_of (p : ParsedRange) : InclusiveRange := {| Begin := Start p; End_ := End p |}.
Definition convert_time_interval (x : TimeInterval) : res interval :=
  times ← res_map (fun t => p ← TimeRange_Parse (TimeRange_StartTime t) (TimeRange_EndTime t);
                            Ok {| StartMinute := Start p; EndMinute := End p |}) (TimeInterval_Times x);
  weekdays ← res_map (fun wd => range_of <$> WeekdayRange_Parse wd) (TimeInterval_Weekdays x);
  months ← res_map (fun m => range_of <$> MonthRange_Parse m) (TimeInterval_Months x);
  years ← res_map (fun y => range_of <$> YearRange_Parse y) (TimeInterval_Years x);
  Ok {| interval_Times := times; interval_Weekdays := weekdays;
        interval_DaysOfMonth := (fun dom => {| Begin := DayOfMonthRange_Start dom; End_ := DayOfMonthRange_End dom |})
                                  <$> TimeInterval_DaysOfMonth x;
        interval_Months := months; interval_Years := years; interval_Location := None |}.
(** The name is set while going through the intervals: an interval without any has no name. *)
Definition convertMuteTimeInterval (x : MuteTimeInterval) (crKey : NamespacedName) : res timeInterval :=
  intervals ← res_map convert_time_interval (MuteTimeInterval_TimeIntervals x);
  Ok {| timeInterval_Name := match MuteTimeInterval_TimeIntervals x with
                             | [] => ""
                             | _ => makeNamespacedString (MuteTimeInterval_Name x) crKey
                             end;
        timeInterval_TimeIntervals := intervals |}.

(** ** HTTP clients *)

Definition tlsAssetsDir : string := "/etc/alertmanager/certs".
Definition tls_path (asset : res string) : res string := (fun a => path_Join [tlsAssetsDir; a]) <$> asset.
Definition some_asset (s : SecretOrConfigMap) : bool := is_set (SecretOrConfigMap_Secret s) || is_set (SecretOrConfigMap_ConfigMap s).
Definition convertTLSConfig (x : SafeTLSConfig) (crKey : NamespacedName) : M tlsConfig :=
  st ← mget;
  mlift (
    s ← ForNamespace st (nn_Namespace crKey);
    ca ← if some_asset (SafeTLSConfig_CA x) then tls_path (TLSAsset s (SafeTLSConfig_CA x)) else Ok "";
    cert ← if some_asset (SafeTLSConfig_Cert x) then tls_path (TLSAsset s (SafeTLSConfig_Cert x)) else Ok "";
    key ← match SafeTLSConfig_KeySecret x with Some k => tls_path (TLSAsset_secret s k) | None => Ok "" end;
    Ok {| tlsConfig_CAFile := ca; tlsConfig_CertFile := cert; tlsConfig_KeyFile := key;
          tlsConfig_ServerName := default "" (SafeTLSConfig_ServerName x);
          tlsConfig_InsecureSkipVerify := default false (SafeTLSConfig_InsecureSkipVerify x);
          tlsConfig_MinVersion := default "" (SafeTLSConfig_MinVersion x);
          tlsConfig_MaxVersion := default "" (SafeTLSConfig_MaxVersion x) |}).

(** The headers are visited in the order of [map_to_list]. *)
Definition convert_header (ns : string) (kv : string * list SecretKeySelector) : M (string * list string) :=
  values ← mmap (fun vv => mwrap "failed to get proxyConnectHeader secretKey: %w" [] (GetSecretKey ns vv)) kv.2;
  mret (kv.1, values).
Definition convertProxyConfig (x : ProxyConfig) (crKey : NamespacedName) : M proxyConfig :=
  let headers := default ∅ (ProxyConfig_ProxyConnectHeader x) in
  header ← if bool_decide (headers = ∅) then mret None
           else l ← mmap (convert_header (nn_Namespace crKey)) (map_to_list headers);
                mret (Some (list_to_map l));
  mret {| proxyConfig_ProxyURL := default "" (ProxyConfig_ProxyURL x); proxyConfig_NoProxy := default "" (ProxyConfig_NoProxy x);
          proxyConfig_ProxyFromEnvironment := default false (ProxyConfig_ProxyFromEnvironment x);
          proxyConfig_ProxyConnectHeader := header |}.

Definition convert_basic_auth (ns : string) (x : BasicAuth) : M (option basicAuth) :=
  username ← mwrap "failed to get BasicAuth username: %w" [] (GetSecretKey ns (BasicAuth_Username x));
  password ← mwrap "failed to get BasicAuth password: %w" [] (GetSecretKey ns (BasicAuth_Password x));
  mret (if bool_decide (username ≠ "" ∨ password ≠ "")
        then Some {| basicAuth_Username := username; basicAuth_Password := password; basicAuth_PasswordFile := "" |}
        else None).
(** The credentials are dereferenced. *)
Definition convert_authorization (ns : string) (x : SafeAuthorization) : M (option authorization) :=
  sel ← mlift (deref (SafeAuthorization_Credentials x));
  credentials ← mwrap "failed to get Authorization credentials: %w" [] (GetSecretKey ns sel);
  mret (if bool_decide (credentials ≠ "")
        then Some {| authorization_Type := if bool_decide (SafeAuthorization_Type x = "") then "Bearer" else SafeAuthorization_Type x;
                     authorization_Credentials := credentials; authorization_CredentialsFile := "" |}
        else None).
(** The TLS settings of the token endpoint are left out. *)
Definition convert_oauth2 (crKey : NamespacedName) (x : OAuth2) : M (option oauth2) :=
  clientID ← mwrap "failed to get clientID: %w" [] (GetKey (nn_Namespace crKey) (OAuth2_ClientID x));
  clientSecret ← mwrap "failed to get client secret: %w" [] (GetSecretKey (nn_Namespace crKey) (OAuth2_ClientSecret x));
  pc ← convertProxyConfig (OAuth2_ProxyConfig x) crKey;
  mret (Some {| oauth2_ClientID := clientID; oauth2_ClientSecret := clientSecret; oauth2_ClientSecretFile := "";
                oauth2_Scopes := OAuth2_Scopes x; oauth2_TokenURL := OAuth2_TokenURL x;
                oauth2_EndpointParams := OAuth2_EndpointParams x; oauth2_proxyConfig := pc; oauth2_TLSConfig := None |}).
Definition convertHTTPConfig (x : option HTTPConfig) (crKey : NamespacedName) : M (option httpClientConfig) :=
  mset None x (fun x =>
    pc ← convertProxyConfig (HTTPConfig_ProxyConfig x) crKey;
    let url := default "" (HTTPConfig_ProxyURLOriginal x) in
    let pc := if bool_decide (url ≠ "") then set_proxyConfig_ProxyURL url pc else pc in
    basic ← mset None (HTTPConfig_BasicAuth x) (convert_basic_auth (nn_Namespace crKey));
    auth ← mset None (HTTPConfig_Authorization x) (convert_authorization (nn_Namespace crKey));
    tc ← mset None (HTTPConfig_TLSConfig x) (fun t => c ← convertTLSConfig t crKey; mret (Some c));
    token ← mset "" (HTTPConfig_BearerTokenSecret x) (fun s => mwrap "failed to get bearer token: %w" [] (GetSecretKey (nn_Namespace crKey) s));
    o ← mset None (HTTPConfig_OAuth2 x) (convert_oauth2 crKey);
    mret (Some {| httpClientConfig_Authorization := auth; httpClientConfig_BasicAuth := basic; httpClientConfig_OAuth2 := o;
                  httpClientConfig_BearerToken := token; httpClientConfig_BearerTokenFile := ""; httpClientConfig_TLSConfig := tc;
                  httpClientConfig_FollowRedirects := HTTPConfig_FollowRedirects x; httpClientConfig_EnableHTTP2 := None;
                  httpClientConfig_proxyConfig := pc |})).

(** ** Receivers *)

Definition secret (ns msg : string) (o : option SecretKeySelector) : M string :=
  mset "" o (fun sel => mwrap msg [] (GetSecretKey ns sel)).
Definition getValidURLFromSecret (namespace : string) (selector : SecretKeySelector) : M string :=
  url ← mwrap "failed to get URL: %w" [] (GetSecretKey namespace selector);
  let url := TrimSpace url in
  _ ← mlift (wrap "invalid URL %q in key %q from secret %q: %w" [url; SecretKeySelector_Key selector; SecretKeySelector_Name selector]
               (ValidateURL url));
  mret url.
(** A map filled from a list of pairs, or nil if there is none. *)
Definition key_values (l : list KeyValue) : gomap :=
  match l with
  | [] => None
  | _ => Some (foldl (fun m d => <[KeyValue_Key d := KeyValue_Value d]> m) ∅ l)
  end.
Definition optional_duration (msg : string) (s : string) : M (option Z) :=
  if bool_decide (s = "") then mret None
  else d ← mlift (wrap msg [] (model_ParseDuration s)); mret (Some d).

Definition convertWebhookConfig (x : WebhookConfig) (crKey : NamespacedName) : M webhookConfig :=
  url ← match WebhookConfig_URLSecret x, WebhookConfig_URL x with
        | Some sel, _ => getValidURLFromSecret (nn_Namespace crKey) sel
        | None, Some url => _ ← mlift (ValidateURL url); mret (config_URL_String url)
        | None, None => mret ""
        end;
  http ← convertHTTPConfig (WebhookConfig_HTTPConfig x) crKey;
  timeout ← match WebhookConfig_Timeout x with
            | Some t => if bool_decide (t ≠ "") then d ← mlift (model_ParseDuration t); mret (Some d) else mret None
            | None => mret None
            end;
  mret {| webhookConfig_VSendResolved := WebhookConfig_SendResolved x; webhookConfig_URL := url; webhookConfig_URLFile := "";
          webhookConfig_HTTPConfig := http;
          webhookConfig_MaxAlerts := if bool_decide (WebhookConfig_MaxAlerts x > 0)%Z then WebhookConfig_MaxAlerts x else 0;
          webhookConfig_Timeout := timeout |}.

Definition convertDiscordConfig (x : DiscordConfig) (crKey : NamespacedName) : M discordConfig :=
  url ← getValidURLFromSecret (nn_Namespace crKey) (DiscordConfig_APIURL x);
  http ← convertHTTPConfig (DiscordConfig_HTTPConfig x) crKey;
  mret {| discordConfig_VSendResolved := DiscordConfig_SendResolved x; discordConfig_HTTPConfig := http; discordConfig_WebhookURL := url;
          discordConfig_Title := default "" (DiscordConfig_Title x); discordConfig_Message := default "" (DiscordConfig_Message x);
          discordConfig_Content := default "" (DiscordConfig_Content x); discordConfig_Username := default "" (DiscordConfig_Username x);
          discordConfig_AvatarURL := default "" (DiscordConfig_AvatarURL x) |}.

Definition convert_slack_action (a : SlackAction) : slackAction := {|
  slackAction_Type := SlackAction_Type a; slackAction_Text := SlackAction_Text a; slackAction_URL := SlackAction_URL a;
  slackAction_Style := SlackAction_Style a; slackAction_Name := SlackAction_Name a; slackAction_Value := SlackAction_Value a;
  slackAction_ConfirmField := (fun c => {|
    slackConfirmationField_Text := SlackConfirmationField_Text c; slackConfirmationField_Title := SlackConfirmationField_Title c;
    slackConfirmationField_OkText := SlackConfirmationField_OkText c;
    slackConfirmationField_DismissText := SlackConfirmationField_DismissText c |}) <$> SlackAction_ConfirmField a |}.
Definition convert_slack_field (f : SlackField) : slackField := {|
  slackField_Title := SlackField_Title f; slackField_Value := SlackField_Value f; slackField_Short := default false (SlackField_Short f) |}.
Definition convertSlackConfig (x : SlackConfig) (crKey : NamespacedName) : M slackConfig :=
  url ← mset "" (SlackConfig_APIURL x) (getValidURLFromSecret (nn_Namespace crKey));
  http ← convertHTTPConfig (SlackConfig_HTTPConfig x) crKey;
  mret {| slackConfig_VSendResolved := SlackConfig_SendResolved x; slackConfig_HTTPConfig := http; slackConfig_APIURL := url;
          slackConfig_APIURLFile := ""; slackConfig_Channel := SlackConfig_Channel x; slackConfig_Username := SlackConfig_Username x;
          slackConfig_Color := SlackConfig_Color x; slackConfig_Title := SlackConfig_Title x; slackConfig_TitleLink := SlackConfig_TitleLink x;
          slackConfig_Pretext := SlackConfig_Pretext x; slackConfig_Text := SlackConfig_Text x;
          slackConfig_Fields := convert_slack_field <$> SlackConfig_Fields x; slackConfig_ShortFields := SlackConfig_ShortFields x;
          slackConfig_Footer := SlackConfig_Footer x; slackConfig_Fallback := SlackConfig_Fallback x;
          slackConfig_CallbackID := SlackConfig_CallbackID x; slackConfig_IconEmoji := SlackConfig_IconEmoji x;
          slackConfig_IconURL := SlackConfig_IconURL x; slackConfig_ImageURL := SlackConfig_ImageURL x;
          slackConfig_ThumbURL := SlackConfig_ThumbURL x; slackConfig_LinkNames := SlackConfig_LinkNames x;
          slackConfig_MrkdwnIn := SlackConfig_MrkdwnIn x; slackConfig_Actions := convert_slack_action <$> SlackConfig_Actions x |}.

Definition convertPagerdutyConfig (x : PagerDutyConfig) (crKey : NamespacedName) : M pagerdutyConfig :=
  routingKey ← secret (nn_Namespace crKey) "failed to get routing key: %w" (PagerDutyConfig_RoutingKey x);
  serviceKey ← secret (nn_Namespace crKey) "failed to get service key: %w" (PagerDutyConfig_ServiceKey x);
  http ← convertHTTPConfig (PagerDutyConfig_HTTPConfig x) crKey;
  mret {| pagerdutyConfig_VSendResolved := PagerDutyConfig_SendResolved x; pagerdutyConfig_HTTPConfig := http;
          pagerdutyConfig_ServiceKey := serviceKey; pagerdutyConfig_ServiceKeyFile := ""; pagerdutyConfig_RoutingKey := routingKey;
          pagerdutyConfig_RoutingKeyFile := ""; pagerdutyConfig_URL := PagerDutyConfig_URL x; pagerdutyConfig_Client := PagerDutyConfig_Client x;
          pagerdutyConfig_ClientURL := PagerDutyConfig_ClientURL x; pagerdutyConfig_Description := PagerDutyConfig_Description x;
          pagerdutyConfig_Details := key_values (PagerDutyConfig_Details x);
          pagerdutyConfig_Images := (fun ic => {| pagerdutyImage_Src := PagerDutyImageConfig_Src ic; pagerdutyImage_Alt := PagerDutyImageConfig_Alt ic;
                                                  pagerdutyImage_Href := PagerDutyImageConfig_Href ic |}) <$> PagerDutyConfig_PagerDutyImageConfigs x;
          pagerdutyConfig_Links := (fun lc => {| pagerdutyLink_Href := PagerDutyLinkConfig_Href lc; pagerdutyLink_Text := PagerDutyLinkConfig_Text lc |})
                                     <$> PagerDutyConfig_PagerDutyLinkConfigs x;
          pagerdutyConfig_Severity := PagerDutyConfig_Severity x; pagerdutyConfig_Class := PagerDutyConfig_Class x;
          pagerdutyConfig_Component := PagerDutyConfig_Component x; pagerdutyConfig_Group := PagerDutyConfig_Group x;
          pagerdutyConfig_Source := default "" (PagerDutyConfig_Source x) |}.

Definition convertOpsgenieConfig (x : OpsGenieConfig) (crKey : NamespacedName) : M opsgenieConfig :=
  apiKey ← secret (nn_Namespace crKey) "failed to get API key: %w" (OpsGenieConfig_APIKey x);
  http ← convertHTTPConfig (OpsGenieConfig_HTTPConfig x) crKey;
  mret {| opsgenieConfig_VSendResolved := OpsGenieConfig_SendResolved x; opsgenieConfig_HTTPConfig := http; opsgenieConfig_APIKey := apiKey;
          opsgenieConfig_APIKeyFile := ""; opsgenieConfig_APIURL := OpsGenieConfig_APIURL x; opsgenieConfig_Message := OpsGenieConfig_Message x;
          opsgenieConfig_Description := OpsGenieConfig_Description x; opsgenieConfig_Source := OpsGenieConfig_Source x;
          opsgenieConfig_Details := key_values (OpsGenieConfig_Details x);
          opsgenieConfig_Responders := (fun r => {|
            opsgenieResponder_ID := OpsGenieConfigResponder_ID r; opsgenieResponder_Name := OpsGenieConfigResponder_Name r;
            opsgenieResponder_Username := OpsGenieConfigResponder_Username r; opsgenieResponder_Type := OpsGenieConfigResponder_Type r |})
              <$> OpsGenieConfig_Responders x;
          opsgenieConfig_Tags := OpsGenieConfig_Tags x; opsgenieConfig_Note := OpsGenieConfig_Note x;
          opsgenieConfig_Priority := OpsGenieConfig_Priority x; opsgenieConfig_UpdateAlerts := OpsGenieConfig_UpdateAlerts x;
          opsgenieConfig_Entity := OpsGenieConfig_Entity x; opsgenieConfig_Actions := OpsGenieConfig_Actions x |}.

Definition convertWeChatConfig (x : WeChatConfig) (crKey : NamespacedName) : M weChatConfig :=
  apiSecret ← secret (nn_Namespace crKey) "failed to get API secret: %w" (WeChatConfig_APISecret x);
  http ← convertHTTPConfig (WeChatConfig_HTTPConfig x) crKey;
  mret {| weChatConfig_VSendResolved := WeChatConfig_SendResolved x; weChatConfig_APISecret := apiSecret; weChatConfig_APIURL := WeChatConfig_APIURL x;
          weChatConfig_CorpID := WeChatConfig_CorpID x; weChatConfig_AgentID := WeChatConfig_AgentID x; weChatConfig_ToUser := WeChatConfig_ToUser x;
          weChatConfig_ToParty := WeChatConfig_ToParty x; weChatConfig_ToTag := WeChatConfig_ToTag x; weChatConfig_Message := WeChatConfig_Message x;
          weChatConfig_MessageType := WeChatConfig_MessageType x; weChatConfig_HTTPConfig := http |}.
Definition convertWebexConfig (x : WebexConfig) (crKey : NamespacedName) : M webexConfig :=
  http ← convertHTTPConfig (WebexConfig_HTTPConfig x) crKey;
  mret {| webexConfig_VSendResolved := WebexConfig_SendResolved x; webexConfig_HTTPConfig := http;
          webexConfig_APIURL := default "" (WebexConfig_APIURL x); webexConfig_Message := default "" (WebexConfig_Message x);
          webexConfig_RoomID := WebexConfig_RoomID x |}.

(** A mandatory field that the receiver leaves to the global section. Without a configuration the
    builder's pointer to it is dereferenced. *)
Definition needs_global (cfg : option alertmanagerConfig) (own : string) (global : globalConfig → string) (msg : string) : res () :=
  if bool_decide (own = "") then
    c ← deref cfg;
    match alertmanagerConfig_Global c with
    | Some g => if bool_decide (global g = "") then Err (Errorf msg []) else Ok ()
    | None => Err (Errorf msg [])
    end
  else Ok ().
(** An error of [net.SplitHostPort] is ignored, with empty results. *)
Definition split_smarthost (s : string) : HostPort :=
  match SplitHostPort s with Ok (h, p) => {| Host := h; Port := p |} | _ => {| Host := ""; Port := "" |} end.
Definition convertEmailConfig (cfg : option alertmanagerConfig) (x : EmailConfig) (crKey : NamespacedName) : M emailConfig :=
  _ ← mlift (needs_global cfg (EmailConfig_Smarthost x) (fun g => Host (globalConfig_SMTPSmarthost g))
        "SMTP smarthost is a mandatory field, it is neither specified at global config nor at receiver level");
  _ ← mlift (needs_global cfg (EmailConfig_From x) globalConfig_SMTPFrom
        "SMTP from is a mandatory field, it is neither specified at global config nor at receiver level");
  authPassword ← secret (nn_Namespace crKey) "failed to get auth password: %w" (EmailConfig_AuthPassword x);
  authSecret ← secret (nn_Namespace crKey) "failed to get auth secret: %w" (EmailConfig_AuthSecret x);
  tc ← mset None (EmailConfig_TLSConfig x) (fun t => c ← convertTLSConfig t crKey; mret (Some c));
  mret {| emailConfig_VSendResolved := EmailConfig_SendResolved x; emailConfig_To := EmailConfig_To x; emailConfig_From := EmailConfig_From x;
          emailConfig_Hello := EmailConfig_Hello x;
          emailConfig_Smarthost := if bool_decide (EmailConfig_Smarthost x ≠ "") then split_smarthost (EmailConfig_Smarthost x)
                                   else {| Host := ""; Port := "" |};
          emailConfig_AuthUsername := EmailConfig_AuthUsername x; emailConfig_AuthPassword := authPassword; emailConfig_AuthPasswordFile := "";
          emailConfig_AuthSecret := authSecret; emailConfig_AuthIdentity := EmailConfig_AuthIdentity x;
          emailConfig_Headers := key_values (EmailConfig_Headers x); emailConfig_HTML := EmailConfig_HTML x; emailConfig_Text := EmailConfig_Text x;
          emailConfig_RequireTLS := EmailConfig_RequireTLS x; emailConfig_TLSConfig := tc |}.

Definition reservedFields : list string :=
  ["routing_key"; "message_type"; "state_message"; "entity_display_name"; "monitoring_tool"; "entity_id"; "entity_state"].
Definition convertVictorOpsConfig (x : VictorOpsConfig) (crKey : NamespacedName) : M victorOpsConfig :=
  apiKey ← secret (nn_Namespace crKey) "failed to get API key: %w" (VictorOpsConfig_APIKey x);
  _ ← mlift (for_each (fun d =>
        if bool_decide (KeyValue_Key d ∈ reservedFields)
        then Err (Errorf "VictorOps config contains custom field %s which cannot be used as it conflicts with the fixed/static fields" [KeyValue_Key d])
        else Ok ()) (VictorOpsConfig_CustomFields x));
  http ← convertHTTPConfig (VictorOpsConfig_HTTPConfig x) crKey;
  mret {| victorOpsConfig_VSendResolved := VictorOpsConfig_SendResolved x; victorOpsConfig_HTTPConfig := http; victorOpsConfig_APIKey := apiKey;
          victorOpsConfig_APIKeyFile := ""; victorOpsConfig_APIURL := VictorOpsConfig_APIURL x; victorOpsConfig_RoutingKey := VictorOpsConfig_RoutingKey x;
          victorOpsConfig_MessageType := VictorOpsConfig_MessageType x; victorOpsConfig_StateMessage := VictorOpsConfig_StateMessage x;
          victorOpsConfig_EntityDisplayName := VictorOpsConfig_EntityDisplayName x;
          victorOpsConfig_MonitoringTool := VictorOpsConfig_MonitoringTool x;
          victorOpsConfig_CustomFields := key_values (VictorOpsConfig_CustomFields x) |}.

(** A mandatory key whose pointer is dereferenced. *)
Definition mandatory_key (ns msg field : string) (o : option SecretKeySelector) : M string :=
  sel ← mlift (deref o);
  key ← mwrap msg [] (GetSecretKey ns sel);
  if bool_decide (key = "") then mfail (Errorf "mandatory field %q is empty" [field]) else mret key.
Definition convertPushoverConfig (x : PushoverConfig) (crKey : NamespacedName) : M pushoverConfig :=
  userKey ← mandatory_key (nn_Namespace crKey) "failed to get user key: %w" "userKey" (PushoverConfig_UserKey x);
  token ← mandatory_key (nn_Namespace crKey) "failed to get token: %w" "token" (PushoverConfig_Token x);
  retry ← optional_duration "parse resolve retry: %w" (PushoverConfig_Retry x);
  expire ← optional_duration "parse resolve expire: %w" (PushoverConfig_Expire x);
  http ← convertHTTPConfig (PushoverConfig_HTTPConfig x) crKey;
  mret {| pushoverConfig_VSendResolved := PushoverConfig_SendResolved x; pushoverConfig_HTTPConfig := http; pushoverConfig_UserKey := userKey;
          pushoverConfig_UserKeyFile := ""; pushoverConfig_Token := token; pushoverConfig_TokenFile := ""; pushoverConfig_Title := PushoverConfig_Title x;
          pushoverConfig_Message := PushoverConfig_Message x; pushoverConfig_URL := PushoverConfig_URL x; pushoverConfig_URLTitle := PushoverConfig_URLTitle x;
          pushoverConfig_TTL := default "" (PushoverConfig_TTL x); pushoverConfig_Device := default "" (PushoverConfig_Device x);
          pushoverConfig_Sound := ""; pushoverConfig_Priority := PushoverConfig_Priority x; pushoverConfig_Retry := retry;
          pushoverConfig_Expire := expire; pushoverConfig_HTML := PushoverConfig_HTML x |}.

Definition convertTelegramConfig (x : TelegramConfig) (crKey : NamespacedName) : M telegramConfig :=
  http ← convertHTTPConfig (TelegramConfig_HTTPConfig x) crKey;
  botToken ← mset "" (TelegramConfig_BotToken x) (fun sel => mandatory_key (nn_Namespace crKey) "failed to get bot token: %w" "botToken" (Some sel));
  mret {| telegramConfig_VSendResolved := TelegramConfig_SendResolved x; telegramConfig_APIUrl := TelegramConfig_APIURL x;
          telegramConfig_BotToken := botToken; telegramConfig_BotTokenFile := ""; telegramConfig_ChatID := TelegramConfig_ChatID x;
          telegramConfig_MessageThreadID := default 0%Z (TelegramConfig_MessageThreadID x); telegramConfig_Message := TelegramConfig_Message x;
          telegramConfig_DisableNotifications := false; telegramConfig_ParseMode := TelegramConfig_ParseMode x; telegramConfig_HTTPConfig := http |}.

Definition convert_sigv4 (ns : string) (x : Sigv4) : M sigV4Config :=
  keys ← match Sigv4_AccessKey x, Sigv4_SecretKey x with
         | Some a, Some s =>
             accessKey ← mwrap "failed to get access key: %w" [] (GetSecretKey ns a);
             secretKey ← mwrap "failed to get AWS secret key: %w" [] (GetSecretKey ns s);
             mret (accessKey, secretKey)
         | _, _ => mret ("", "")
         end;
  mret {| sigV4Config_Region := Sigv4_Region x; sigV4Config_AccessKey := keys.1; sigV4Config_SecretKey := keys.2;
          sigV4Config_Profile := Sigv4_Profile x; sigV4Config_RoleARN := Sigv4_RoleArn x |}.
Definition convertSnsConfig (x : SNSConfig) (crKey : NamespacedName) : M snsConfig :=
  http ← convertHTTPConfig (SNSConfig_HTTPConfig x) crKey;
  sigv4 ← mset zero_sigV4Config (SNSConfig_Sigv4 x) (convert_sigv4 (nn_Namespace crKey));
  mret {| snsConfig_VSendResolved := SNSConfig_SendResolved x; snsConfig_HTTPConfig := http; snsConfig_APIUrl := SNSConfig_ApiURL x;
          snsConfig_Sigv4 := sigv4; snsConfig_TopicARN := SNSConfig_TopicARN x; snsConfig_PhoneNumber := SNSConfig_PhoneNumber x;
          snsConfig_TargetARN := SNSConfig_TargetARN x; snsConfig_Subject := SNSConfig_Subject x; snsConfig_Message := SNSConfig_Message x;
          snsConfig_Attributes := SNSConfig_Attributes x |}.

Definition convertMSTeamsConfig (x : MSTeamsConfig) (crKey : NamespacedName) : M msTeamsConfig :=
  webHookURL ← GetSecretKey (nn_Namespace crKey) (MSTeamsConfig_WebhookURL x);
  http ← convertHTTPConfig (MSTeamsConfig_HTTPConfig x) crKey;
  mret {| msTeamsConfig_SendResolved := MSTeamsConfig_SendResolved x; msTeamsConfig_WebhookURL := webHookURL;
          msTeamsConfig_Title := default "" (MSTeamsConfig_Title x); msTeamsConfig_Summary := default "" (MSTeamsConfig_Summary x);
          msTeamsConfig_Text := default "" (MSTeamsConfig_Text x); msTeamsConfig_HTTPConfig := http |}.
Definition convertMSTeamsV2Config (x : MSTeamsV2Config) (crKey : NamespacedName) : M msTeamsV2Config :=
  webHookURL ← mset "" (MSTeamsV2Config_WebhookURL x) (GetSecretKey (nn_Namespace crKey));
  http ← convertHTTPConfig (MSTeamsV2Config_HTTPConfig x) crKey;
  mret {| msTeamsV2Config_SendResolved := MSTeamsV2Config_SendResolved x; msTeamsV2Config_WebhookURL := webHookURL;
          msTeamsV2Config_WebhookURLFile := ""; msTeamsV2Config_Title := default "" (MSTeamsV2Config_Title x);
          msTeamsV2Config_Text := default "" (MSTeamsV2Config_Text x); msTeamsV2Config_HTTPConfig := http |}.

Definition convertReceiver (cfg : option alertmanagerConfig) (x : Receiver) (crKey : NamespacedName) : M receiver :=
  pagerduty ← mmap_indexed "PagerDutyConfig[%d]: %w" (fun c => convertPagerdutyConfig c crKey) (Receiver_PagerDutyConfigs x);
  discord ← mmap_indexed "DiscordConfig[%d]: %w" (fun c => convertDiscordConfig c crKey) (Receiver_DiscordConfigs x);
  slack ← mmap_indexed "SlackConfig[%d]: %w" (fun c => convertSlackConfig c crKey) (Receiver_SlackConfigs x);
  webhook ← mmap_indexed "WebhookConfig[%d]: %w" (fun c => convertWebhookConfig c crKey) (Receiver_WebhookConfigs x);
  opsgenie ← mmap_indexed "OpsGenieConfigs[%d]: %w" (fun c => convertOpsgenieConfig c crKey) (Receiver_OpsGenieConfigs x);
  wechat ← mmap_indexed "WeChatConfig[%d]: %w" (fun c => convertWeChatConfig c crKey) (Receiver_WeChatConfigs x);
  email ← mmap_indexed "EmailConfig[%d]: %w" (fun c => convertEmailConfig cfg c crKey) (Receiver_EmailConfigs x);
  victorops ← mmap_indexed "VictorOpsConfig[%d]: %w" (fun c => convertVictorOpsConfig c crKey) (Receiver_VictorOpsConfigs x);
  pushover ← mmap_indexed "PushoverConfig[%d]: %w" (fun c => convertPushoverConfig c crKey) (Receiver_PushoverConfigs x);
  sns ← mmap_indexed "SNSConfig[%d]: %w" (fun c => convertSnsConfig c crKey) (Receiver_SNSConfigs x);
  telegram ← mmap_indexed "TelegramConfig[%d]: %w" (fun c => convertTelegramConfig c crKey) (Receiver_TelegramConfigs x);
  msteams ← mmap_indexed "MSTeamsConfig[%d]: %w" (fun c => convertMSTeamsConfig c crKey) (Receiver_MSTeamsConfigs x);
  msteamsv2 ← mmap_indexed "MSTeamsConfigV2[%d]: %w" (fun c => convertMSTeamsV2Config c crKey) (Receiver_MSTeamsV2Configs x);
  webex ← mmap_indexed "WebexConfig[%d]: %w" (fun c => convertWebexConfig c crKey) (Receiver_WebexConfigs x);
  mret {| receiver_Name := makeNamespacedString (Receiver_Name x) crKey; receiver_OpsgenieConfigs := opsgenie;
          receiver_PagerdutyConfigs := pagerduty; receiver_SlackConfigs := slack; receiver_WebhookConfigs := webhook;
          receiver_WeChatConfigs := wechat; receiver_EmailConfigs := email; receiver_PushoverConfigs := pushover;
          receiver_VictorOpsConfigs := victorops; receiver_SNSConfigs := sns; receiver_TelegramConfigs := telegram;
          receiver_DiscordConfigs := discord; receiver_WebexConfigs := webex; receiver_MSTeamsConfigs := msteams;
          receiver_MSTeamsV2Configs := msteamsv2; receiver_JiraConfigs := []; receiver_RocketChatConfigs := [] |}.

(** ** The global section *)

(** A URL parsed from a text, kept as that text. *)
Definition parsed_url (msg : string) (o : option string) : M (option string) :=
  mset None o (fun u => _ ← mlift (wrap msg [] (url_Parse u)); mret (Some u)).
Definition parsed_secret_url (ns get parse : string) (o : option SecretKeySelector) : M (option string) :=
  mset None o (fun sel =>
    u ← mwrap get [] (GetSecretKey ns sel);
    _ ← mlift (wrap parse [] (url_Parse u));
    mret (Some u)).

Definition convertSMTPConfig (out : globalConfig) (x : amv1.GlobalSMTPConfig) (crKey : NamespacedName) : M globalConfig :=
  let keep {A} (old : A) (o : option A) := default old o in
  let out := set_globalConfig_SMTPFrom (keep (globalConfig_SMTPFrom out) (amv1.GlobalSMTPConfig_From x)) out in
  let out := set_globalConfig_SMTPHello (keep (globalConfig_SMTPHello out) (amv1.GlobalSMTPConfig_Hello x)) out in
  let out := set_globalConfig_SMTPAuthUsername (keep (globalConfig_SMTPAuthUsername out) (amv1.GlobalSMTPConfig_AuthUsername x)) out in
  let out := set_globalConfig_SMTPAuthIdentity (keep (globalConfig_SMTPAuthIdentity out) (amv1.GlobalSMTPConfig_AuthIdentity x)) out in
  let out := set_globalConfig_SMTPRequireTLS (amv1.GlobalSMTPConfig_RequireTLS x) out in
  let out := set_globalConfig_SMTPSmarthost (keep (globalConfig_SMTPSmarthost out) (amv1.GlobalSMTPConfig_SmartHost x)) out in
  tc ← mset (globalConfig_SMTPTLSConfig out) (amv1.GlobalSMTPConfig_TLSConfig x) (fun t => c ← convertTLSConfig t crKey; mret (Some c));
  let out := set_globalConfig_SMTPTLSConfig tc out in
  password ← mset (globalConfig_SMTPAuthPassword out) (amv1.GlobalSMTPConfig_AuthPassword x) (GetSecretKey (nn_Namespace crKey));
  let out := set_globalConfig_SMTPAuthPassword password out in
  sec ← mset (globalConfig_SMTPAuthSecret out) (amv1.GlobalSMTPConfig_AuthSecret x) (GetSecretKey (nn_Namespace crKey));
  mret (set_globalConfig_SMTPAuthSecret sec out).

(** A section that needs a version, with a URL to parse: the parsed URL, if there is one. *)
Definition integration_url (since too_old bad : string) (url : option string) : M (option string) :=
  if before since then mfail (Errorf too_old []) else parsed_url bad url.
(** Setting a pointer that was parsed; nil leaves the field as it is. *)
Definition override {A} (new old : option A) : option A := match new with Some x => Some x | None => old end.

Definition convertGlobalTelegramConfig (out : globalConfig) (x : option amv1.GlobalTelegramConfig) : M globalConfig :=
  mset out x (fun x =>
    u ← integration_url "0.24.0" "telegram integration requires Alertmanager >= 0.24.0" "failed to parse Telegram API URL: %w"
          (amv1.GlobalTelegramConfig_APIURL x);
    mret (set_globalConfig_TelegramAPIURL (override u (globalConfig_TelegramAPIURL out)) out)).
Definition convertGlobalJiraConfig (out : globalConfig) (x : option amv1.GlobalJiraConfig) : M globalConfig :=
  mset out x (fun x =>
    u ← integration_url "0.28.0" "jira integration requires Alertmanager >= 0.28.0" "failed to parse Jira API URL: %w"
          (amv1.GlobalJiraConfig_APIURL x);
    mret (set_globalConfig_JiraAPIURL (override u (globalConfig_JiraAPIURL out)) out)).
Definition convertGlobalRocketChatConfig (out : globalConfig) (x : option amv1.GlobalRocketChatConfig) (crKey : NamespacedName) : M globalConfig :=
  mset out x (fun x =>
    u ← integration_url "0.28.0" "rocket chat integration requires Alertmanager >= 0.28.0" "failed to parse Rocket Chat API URL: %w"
          (amv1.GlobalRocketChatConfig_APIURL x);
    let out := set_globalConfig_RocketChatAPIURL (override u (globalConfig_RocketChatAPIURL out)) out in
    token ← mset (globalConfig_RocketChatToken out) (amv1.GlobalRocketChatConfig_Token x)
              (fun sel => mwrap "failed to get Rocket Chat Token: %w" [] (GetSecretKey (nn_Namespace crKey) sel));
    let out := set_globalConfig_RocketChatToken token out in
    tokenID ← mset (globalConfig_RocketChatTokenID out) (amv1.GlobalRocketChatConfig_TokenID x)
                (fun sel => mwrap "failed to get Rocket Chat Token ID: %w" [] (GetSecretKey (nn_Namespace crKey) sel));
    mret (set_globalConfig_RocketChatTokenID tokenID out)).
Definition convertGlobalWebexConfig (out : globalConfig) (x : option amv1.GlobalWebexConfig) : M globalConfig :=
  mset out x (fun x =>
    u ← integration_url "0.25.0" "webex integration requires Alertmanager >= 0.25.0" "parse Webex API URL: %w" (amv1.GlobalWebexConfig_APIURL x);
    mret (set_globalConfig_WebexAPIURL (override u (globalConfig_WebexAPIURL out)) out)).
Definition convertGlobalWeChatConfig (out : globalConfig) (x : option amv1.GlobalWeChatConfig) (crKey : NamespacedName) : M globalConfig :=
  mset out x (fun x =>
    u ← parsed_url "wechat API URL: %w" (amv1.GlobalWeChatConfig_APIURL x);
    let out := set_globalConfig_WeChatAPIURL (override u (globalConfig_WeChatAPIURL out)) out in
    apiSecret ← mset (globalConfig_WeChatAPISecret out) (amv1.GlobalWeChatConfig_APISecret x)
                  (fun sel => mwrap "failed to get WeChat Secret: %w" [] (GetSecretKey (nn_Namespace crKey) sel));
    let out := set_globalConfig_WeChatAPISecret apiSecret out in
    mret (set_globalConfig_WeChatAPICorpID (default (globalConfig_WeChatAPICorpID out) (amv1.GlobalWeChatConfig_APICorpID x)) out)).
Definition convertGlobalVictorOpsConfig (out : globalConfig) (x : option amv1.GlobalVictorOpsConfig) (crKey : NamespacedName) : M globalConfig :=
  mset out x (fun x =>
    u ← parsed_url "failed to parse VictorOps API URL: %w" (amv1.GlobalVictorOpsConfig_APIURL x);
    let out := set_globalConfig_VictorOpsAPIURL (override u (globalConfig_VictorOpsAPIURL out)) out in
    apiSecret ← mset (globalConfig_VictorOpsAPIKey out) (amv1.GlobalVictorOpsConfig_APIKey x)
                  (fun sel => mwrap "failed to get VictorOps Secret: %w" [] (GetSecretKey (nn_Namespace crKey) sel));
    mret (set_globalConfig_VictorOpsAPIKey apiSecret out)).

(** The HTTP settings as those of v1alpha1. *)
Definition http_v1alpha1 (x : amv1.HTTPConfig) : HTTPConfig := {|
  HTTPConfig_Authorization := amv1.HTTPConfig_Authorization x; HTTPConfig_BasicAuth := amv1.HTTPConfig_BasicAuth x;
  HTTPConfig_OAuth2 := amv1.HTTPConfig_OAuth2 x; HTTPConfig_BearerTokenSecret := amv1.HTTPConfig_BearerTokenSecret x;
  HTTPConfig_TLSConfig := amv1.HTTPConfig_TLSConfig x; HTTPConfig_ProxyURLOriginal := None;
  HTTPConfig_ProxyConfig := amv1.HTTPConfig_ProxyConfig x; HTTPConfig_FollowRedirects := amv1.HTTPConfig_FollowRedirects x |}.
Definition convertGlobalConfig (x : option amv1.AlertmanagerGlobalConfig) (crKey : NamespacedName) : M (option globalConfig) :=
  mset None x (fun x =>
    let ns := nn_Namespace crKey in
    out ← mset zero_globalConfig (amv1.AlertmanagerGlobalConfig_SMTPConfig x)
            (fun smtp => mwrap "invalid global smtpConfig: %w" [] (convertSMTPConfig zero_globalConfig smtp crKey));
    http ← mset (globalConfig_HTTPConfig out) (amv1.AlertmanagerGlobalConfig_HTTPConfig x)
             (fun h => mwrap "invalid global httpConfig: %w" [] (convertHTTPConfig (Some (http_v1alpha1 h)) crKey));
    let out := set_globalConfig_HTTPConfig http out in
    timeout ← optional_duration "parse resolve timeout: %w" (amv1.AlertmanagerGlobalConfig_ResolveTimeout x);
    let out := set_globalConfig_ResolveTimeout timeout out in
    slack ← parsed_secret_url ns "failed to get Slack API URL: %w" "parse slack API URL: %w" (amv1.AlertmanagerGlobalConfig_SlackAPIURL x);
    let out := set_globalConfig_SlackAPIURL slack out in
    opsgenie ← parsed_secret_url ns "failed to get OpsGenie API URL: %w" "parse OpsGenie API URL: %w" (amv1.AlertmanagerGlobalConfig_OpsGenieAPIURL x);
    let out := set_globalConfig_OpsGenieAPIURL opsgenie out in
    key ← secret ns "failed to get OpsGenie API KEY: %w" (amv1.AlertmanagerGlobalConfig_OpsGenieAPIKey x);
    let out := set_globalConfig_OpsGenieAPIKey key out in
    pagerduty ← parsed_url "parse Pagerduty URL: %w" (amv1.AlertmanagerGlobalConfig_PagerdutyURL x);
    let out := set_globalConfig_PagerdutyURL pagerduty out in
    out ← mwrap "invalid global telegram config: %w" [] (convertGlobalTelegramConfig out (amv1.AlertmanagerGlobalConfig_TelegramConfig x));
    out ← mwrap "invalid global jira config: %w" [] (convertGlobalJiraConfig out (amv1.AlertmanagerGlobalConfig_JiraConfig x));
    out ← mwrap "invalid global rocket chat config: %w" [] (convertGlobalRocketChatConfig out (amv1.AlertmanagerGlobalConfig_RocketChatConfig x) crKey);
    out ← mwrap "invalid global webex config: %w" [] (convertGlobalWebexConfig out (amv1.AlertmanagerGlobalConfig_WebexConfig x));
    out ← mwrap "invalid global wechat config: %w" [] (convertGlobalWeChatConfig out (amv1.AlertmanagerGlobalConfig_WeChatConfig x) crKey);
    out ← mwrap "invalid global victorops config: %w" [] (convertGlobalVictorOpsConfig out (amv1.AlertmanagerGlobalConfig_VictorOpsConfig x) crKey);
    mret (Some out)).
End convert.
