(* ===== verification/AmCheck.v ===== *)
(** * Checking AlertmanagerConfig objects

    pkg/alertmanager/operator.go, [checkAlertmanagerConfigResource] and what it calls. An object is
    validated, checked against the version of Alertmanager, and every Secret and ConfigMap it refers
    to is loaded into the asset store. *)

From S2P Require Import Prelude GoStrings Meta ApiClient Semver MonitoringV1 Json RouteTree V1alpha1 AmLibs ValidationV1alpha1 AssetStore AmTypes AmConvert.
Import v1alpha1 validation_v1alpha1.

Class CheckLibs := {
  (** [UnmarshalJSON] of config.SecretURL *)
  unmarshal_SecretURL : string → res ();
}.
Definition ValidateSecretURL `{CheckLibs} (url : string) : res () :=
  wrap "validate url from string failed with error: %w" [] (unmarshal_SecretURL (quote +:+ url +:+ quote)).

Definition checkIsV2Matcher (l : list (list Matcher)) : bool :=
  existsb (existsb (fun m => bool_decide (Matcher_MatchType m ≠ ""))) l.
(** What [%v] prints of a list of matchers. *)
Definition show_matchers (l : list Matcher) : string :=
  "[" +:+ Join ((fun m => "{" +:+ Matcher_Name m +:+ " " +:+ Matcher_Value m +:+ " " +:+ Matcher_MatchType m +:+ " "
                          +:+ (if Matcher_Regex m then "true" else "false") +:+ "}") <$> l) " " +:+ "]".

Section checks.
Context `{Semver} `{RawJSON} `{AmLibs} `{ConvertLibs} `{CheckLibs} {C : Type} `{CacheStore C}.
Context (sClient : string → string → res Secret) (cmClient : string → string → res ConfigMap).
Context (pem_Decode : string → option string) (x509_ParseCertificate : string → res ()).
Context (tls_X509KeyPair : string → string → res ()).
Context (amVersion : version).
Local Abbreviation M := (M (StoreBuilder C)).
Local Abbreviation GetSecretKey := (GetSecretKey sClient).
Local Abbreviation before v := (LT amVersion (MustParse v)).
Local Abbreviation matchersV2Allowed := (GTE amVersion (MustParse "0.22.0")).

(** ** Routes and inhibition rules *)

Fixpoint checkRoute_fuel (fuel : nat) (route : Route) : res () :=
  match fuel with
  | 0 => out_of_fuel
  | S fuel' =>
      _ ← if negb matchersV2Allowed && checkIsV2Matcher [Route_Matchers route]
          then Err (Errorf "invalid syntax in route config for 'matchers' comparison based matching is supported in Alertmanager >= 0.22.0 only (matchers=%v) (receiver=%v)"
                      [show_matchers (Route_Matchers route); Route_Receiver route])
          else Ok ();
      childRoutes ← child_routes route;
      for_each (checkRoute_fuel fuel') childRoutes
  end.
Definition checkRoute (route : option Route) : res () :=
  match route with None => Ok () | Some r => checkRoute_fuel (depth r) r end.

Definition check_matchers (fmt : string) (i : nat) (name : string) (ms : list Matcher) : res () :=
  for_each (fun jm => wrap fmt [Itoa (Z.of_nat jm.1); Itoa (Z.of_nat i); name] (Matcher_Validate jm.2)) (imap pair ms).
Definition checkInhibitRules (amc : AlertmanagerConfig) : res () :=
  let name := om_Name (AlertmanagerConfig_ObjectMeta amc) in
  for_each (fun ir =>
      let rule := ir.2 in
      if negb matchersV2Allowed then
        if checkIsV2Matcher [InhibitRule_SourceMatch rule; InhibitRule_TargetMatch rule]
        then Err (Errorf "'sourceMatch' and/or 'targetMatch' are using matching syntax which is supported in Alertmanager >= 0.22.0 only (sourceMatch=%v, targetMatch=%v)"
                    [show_matchers (InhibitRule_SourceMatch rule); show_matchers (InhibitRule_TargetMatch rule)])
        else Ok ()
      else
        _ ← check_matchers "invalid targetMatchers[%d] in inhibitRule[%d] in config %s: %w" ir.1 name (InhibitRule_TargetMatch rule);
        check_matchers "invalid sourceMatchers[%d] in inhibitRule[%d] in config %s: %w" ir.1 name (InhibitRule_SourceMatch rule))
    (imap pair (AlertmanagerConfigSpec_InhibitRules (AlertmanagerConfig_Spec amc))).

(** ** HTTP clients *)

Definition checkHTTPConfig (hc : option HTTPConfig) : res () :=
  match hc with
  | None => Ok ()
  | Some hc =>
      let pc := HTTPConfig_ProxyConfig hc in
      if is_set (HTTPConfig_Authorization hc) && negb (GTE amVersion (MustParse "0.22.0"))
      then Err (Errorf "'authorization' config set in 'httpConfig' but supported in Alertmanager >= 0.22.0 only - current %s" [version_String amVersion])
      else if is_set (HTTPConfig_OAuth2 hc) && negb (GTE amVersion (MustParse "0.22.0"))
      then Err (Errorf "'oauth2' config set in 'httpConfig' but supported in Alertmanager >= 0.22.0 only - current %s" [version_String amVersion])
      else if (is_set (ProxyConfig_NoProxy pc) || is_set (ProxyConfig_ProxyFromEnvironment pc) || is_set (ProxyConfig_ProxyConnectHeader pc))
              && before "0.25.0"
      then Err (Errorf "'ProxyConfig' config set in 'httpConfig' but supported in Alertmanager >= 0.25.0 only - current %s" [version_String amVersion])
      else Ok ()
  end.
Definition load (ns : string) (o : option SecretKeySelector) : M () := mset () o (fun sel => GetSecretKey ns sel ≫= fun _ => mret ()).
Definition configureHTTPConfigInStore (httpConfig : option HTTPConfig) (ns : string) : M () :=
  mset () httpConfig (fun hc =>
    _ ← load ns (HTTPConfig_BearerTokenSecret hc);
    _ ← AddSafeAuthorizationCredentials sClient ns (HTTPConfig_Authorization hc);
    _ ← AddBasicAuth sClient ns (HTTPConfig_BasicAuth hc);
    _ ← AddSafeTLSConfig sClient cmClient pem_Decode x509_ParseCertificate tls_X509KeyPair ns (HTTPConfig_TLSConfig hc);
    _ ← AddProxyConfig sClient ns (HTTPConfig_ProxyConfig hc);
    AddOAuth2 sClient cmClient pem_Decode x509_ParseCertificate tls_X509KeyPair ns (HTTPConfig_OAuth2 hc)).

(** ** Receivers *)

(** [if len(configs) == 0 { return nil }], the version check and the loop over the configurations. *)
Definition since {A} (v msg : string) (args : list string) (configs : list A) (f : A → M ()) : M () :=
  match configs with
  | [] => mret ()
  | _ => if before v then mfail (Errorf msg args) else mfor_each f configs
  end.
Definition load_url (ns msg : string) (sel : SecretKeySelector) : M () :=
  url ← GetSecretKey ns sel;
  mlift (wrap msg [] (ValidateSecretURL (TrimSpace url))).

Definition checkPagerDutyConfigs (configs : list PagerDutyConfig) (ns : string) : M () :=
  mfor_each (fun config =>
    _ ← mlift (checkHTTPConfig (PagerDutyConfig_HTTPConfig config));
    _ ← load ns (PagerDutyConfig_RoutingKey config);
    _ ← load ns (PagerDutyConfig_ServiceKey config);
    _ ← if bool_decide (PagerDutyConfig_URL config ≠ "")
        then mlift (wrap "failed to validate URL: %w " [] (ValidateURL (TrimSpace (PagerDutyConfig_URL config)))) else mret ();
    configureHTTPConfigInStore (PagerDutyConfig_HTTPConfig config) ns) configs.
Definition checkOpsGenieResponder (responders : list OpsGenieConfigResponder) : res () :=
  for_each (fun resp => check (bool_decide (OpsGenieConfigResponder_Type resp = "teams") && before "0.24.0")
    "'teams' set in 'opsgenieResponder' but supported in Alertmanager >= 0.24.0 only") responders.
Definition checkOpsGenieConfigs (configs : list OpsGenieConfig) (ns : string) : M () :=
  mfor_each (fun config =>
    _ ← mlift (checkHTTPConfig (OpsGenieConfig_HTTPConfig config));
    _ ← mlift (checkOpsGenieResponder (OpsGenieConfig_Responders config));
    _ ← load ns (OpsGenieConfig_APIKey config);
    configureHTTPConfigInStore (OpsGenieConfig_HTTPConfig config) ns) configs.
Definition checkDiscordConfigs (configs : list DiscordConfig) (ns : string) : M () :=
  since "0.25.0" "discordConfigs' is available in Alertmanager >= 0.25.0 only - current %s" [version_String amVersion] configs (fun config =>
    _ ← mlift (checkHTTPConfig (DiscordConfig_HTTPConfig config));
    _ ← configureHTTPConfigInStore (DiscordConfig_HTTPConfig config) ns;
    url ← mwrap "failed to retrieve API URL: %w" [] (GetSecretKey ns (DiscordConfig_APIURL config));
    mlift (wrap "failed to validate API URL: %w" [] (ValidateSecretURL (TrimSpace url)))).
Definition checkSlackConfigs (configs : list SlackConfig) (ns : string) : M () :=
  mfor_each (fun config =>
    _ ← mlift (checkHTTPConfig (SlackConfig_HTTPConfig config));
    _ ← mset () (SlackConfig_APIURL config) (load_url ns "failed to validate API URL: %w");
    configureHTTPConfigInStore (SlackConfig_HTTPConfig config) ns) configs.
Definition checkWebhookConfigs (configs : list WebhookConfig) (ns : string) : M () :=
  mfor_each (fun config =>
    _ ← mlift (checkHTTPConfig (WebhookConfig_HTTPConfig config));
    _ ← mset () (WebhookConfig_URLSecret config) (load_url ns "failed to validate URL: %w");
    configureHTTPConfigInStore (WebhookConfig_HTTPConfig config) ns) configs.
Definition checkWechatConfigs (configs : list WeChatConfig) (ns : string) : M () :=
  mfor_each (fun config =>
    _ ← mlift (checkHTTPConfig (WeChatConfig_HTTPConfig config));
    _ ← load ns (WeChatConfig_APISecret config);
    configureHTTPConfigInStore (WeChatConfig_HTTPConfig config) ns) configs.
Definition checkWebexConfigs (configs : list WebexConfig) (ns : string) : M () :=
  since "0.25.0" "webexConfigs' is available in Alertmanager >= 0.25.0 only - current %s" [version_String amVersion] configs (fun config =>
    _ ← mlift (checkHTTPConfig (WebexConfig_HTTPConfig config));
    configureHTTPConfigInStore (WebexConfig_HTTPConfig config) ns).
Definition checkEmailConfigs (configs : list EmailConfig) (ns : string) : M () :=
  mfor_each (fun config =>
    _ ← load ns (EmailConfig_AuthPassword config);
    _ ← load ns (EmailConfig_AuthSecret config);
    AddSafeTLSConfig sClient cmClient pem_Decode x509_ParseCertificate tls_X509KeyPair ns (EmailConfig_TLSConfig config)) configs.
Definition checkVictorOpsConfigs (configs : list VictorOpsConfig) (ns : string) : M () :=
  mfor_each (fun config =>
    _ ← mlift (checkHTTPConfig (VictorOpsConfig_HTTPConfig config));
    _ ← load ns (VictorOpsConfig_APIKey config);
    configureHTTPConfigInStore (VictorOpsConfig_HTTPConfig config) ns) configs.
(** The message names [userKey] for an empty token, too. *)
Definition check_pushover_secret (ns name : string) (sec : option SecretKeySelector) : M () :=
  match sec with
  | None => mfail (Errorf "mandatory field %s is empty" [name])
  | Some sel =>
      s ← GetSecretKey ns sel;
      mlift (check (bool_decide (s = "")) "mandatory field userKey is empty")
  end.
Definition check_duration (s : string) : res () := if bool_decide (s ≠ "") then model_ParseDuration s ≫= fun _ => Ok () else Ok ().
Definition checkPushoverConfigs (configs : list PushoverConfig) (ns : string) : M () :=
  mfor_each (fun config =>
    _ ← mlift (checkHTTPConfig (PushoverConfig_HTTPConfig config));
    _ ← check_pushover_secret ns "userKey" (PushoverConfig_UserKey config);
    _ ← check_pushover_secret ns "token" (PushoverConfig_Token config);
    _ ← mlift (check_duration (PushoverConfig_Expire config));
    _ ← mlift (check_duration (PushoverConfig_Retry config));
    configureHTTPConfigInStore (PushoverConfig_HTTPConfig config) ns) configs.
Definition checkSnsConfigs (configs : list SNSConfig) (ns : string) : M () :=
  mfor_each (fun config =>
    _ ← mlift (checkHTTPConfig (SNSConfig_HTTPConfig config));
    _ ← AddSigV4 sClient ns (SNSConfig_Sigv4 config);
    configureHTTPConfigInStore (SNSConfig_HTTPConfig config) ns) configs.
Definition checkTelegramConfigs (configs : list TelegramConfig) (ns : string) : M () :=
  since "0.24.0" "telegramConfigs' is available in Alertmanager >= 0.24.0 only - current %s" [version_String amVersion] configs (fun config =>
    _ ← mlift (checkHTTPConfig (TelegramConfig_HTTPConfig config));
    _ ← load ns (TelegramConfig_BotToken config);
    configureHTTPConfigInStore (TelegramConfig_HTTPConfig config) ns).
(** The webhook's URL is not loaded. *)
Definition checkMSTeamsConfigs (configs : list MSTeamsConfig) (ns : string) : M () :=
  since "0.26.0" "invalid syntax in receivers config; msteams integration is only available in Alertmanager >= 0.26.0" [] configs (fun config =>
    _ ← mlift (checkHTTPConfig (MSTeamsConfig_HTTPConfig config));
    configureHTTPConfigInStore (MSTeamsConfig_HTTPConfig config) ns).
Definition checkMSTeamsV2Configs (configs : list MSTeamsV2Config) (ns : string) : M () :=
  since "0.28.0" "invalid syntax in receivers config; msteamsv2 integration is only available in Alertmanager >= 0.28.0" [] configs (fun config =>
    _ ← load ns (MSTeamsV2Config_WebhookURL config);
    _ ← mlift (checkHTTPConfig (MSTeamsV2Config_HTTPConfig config));
    configureHTTPConfigInStore (MSTeamsV2Config_HTTPConfig config) ns).

Definition check_receiver (ns : string) (receiver : Receiver) : M () :=
  _ ← checkPagerDutyConfigs (Receiver_PagerDutyConfigs receiver) ns;
  _ ← checkOpsGenieConfigs (Receiver_OpsGenieConfigs receiver) ns;
  _ ← checkDiscordConfigs (Receiver_DiscordConfigs receiver) ns;
  _ ← checkSlackConfigs (Receiver_SlackConfigs receiver) ns;
  _ ← checkWebhookConfigs (Receiver_WebhookConfigs receiver) ns;
  _ ← checkWechatConfigs (Receiver_WeChatConfigs receiver) ns;
  _ ← checkWebexConfigs (Receiver_WebexConfigs receiver) ns;
  _ ← checkEmailConfigs (Receiver_EmailConfigs receiver) ns;
  _ ← checkVictorOpsConfigs (Receiver_VictorOpsConfigs receiver) ns;
  _ ← checkPushoverConfigs (Receiver_PushoverConfigs receiver) ns;
  _ ← checkSnsConfigs (Receiver_SNSConfigs receiver) ns;
  _ ← checkTelegramConfigs (Receiver_TelegramConfigs receiver) ns;
  _ ← checkMSTeamsConfigs (Receiver_MSTeamsConfigs receiver) ns;
  checkMSTeamsV2Configs (Receiver_MSTeamsV2Configs receiver) ns.
Definition checkReceivers (amc : AlertmanagerConfig) : M () :=
  mfor_each (check_receiver (om_Namespace (AlertmanagerConfig_ObjectMeta amc))) (AlertmanagerConfigSpec_Receivers (AlertmanagerConfig_Spec amc)).

Definition checkAlertmanagerConfigResource (amc : AlertmanagerConfig) : M () :=
  _ ← mlift (ValidateAlertmanagerConfig amc);
  _ ← checkReceivers amc;
  _ ← mlift (checkRoute (AlertmanagerConfigSpec_Route (AlertmanagerConfig_Spec amc)));
  mlift (checkInhibitRules amc).
End checks.
