(* ===== verification/AmBuilder.v ===== *)
(** * Building the configuration of Alertmanager

    The enforcers and the ConfigBuilder of pkg/alertmanager/amcfg.go: a base configuration, read from
    a Secret or converted from an AlertmanagerConfig object, to which the routes, receivers,
    inhibition rules and time intervals of the selected objects are added. Loading and parsing a raw
    configuration is the business of the Alertmanager and yaml packages ([BuilderLibs]). *)

From S2P Require Import Prelude GoStrings SortUtil Meta ApiClient Semver MonitoringV1 Json RouteTree V1alpha1 AmLibs AssetStore.
From S2P Require Import AmTypes AmSanitize AmConvert AmCheck.
Import v1alpha1.

(** ** Enforcers *)

Inductive enforcer :=
  | noopEnforcer
  | namespaceEnforcer (matchersV2Allowed : bool)
  | otherNamespaceEnforcer (alertmanagerNamespace : string) (matchersV2Allowed : bool)
  | continueToNextRoute (e : enforcer).

Definition inhibitRuleNamespaceKey := "namespace".
(** [m[k] = v], which panics on a nil map, and [delete(m, k)]. *)
Definition assign_key (k v : string) (m : gomap) : res gomap :=
  match m with Some m => Ok (Some (<[k := v]> m)) | None => Panic "assignment to entry in nil map" end.
Definition delete_key (k : string) (m : gomap) : gomap := delete k <$> m.

(** [strings.ReplaceAll] of a space with nothing. *)
Fixpoint without_spaces (s : string) : string :=
  match s with
  | EmptyString => EmptyString
  | String c s' => if decide (c = " "%char) then without_spaces s' else String c (without_spaces s')
  end.
Definition contains (value : string) (l : list string) : bool :=
  existsb (fun str => bool_decide (without_spaces value = without_spaces str)) l.

Definition namespace_matcher (crKey : NamespacedName) : string :=
  Matcher_String (typed_matcher inhibitRuleNamespaceKey MatchEqual (nn_Namespace crKey)).
Definition enforce_matcher (crKey : NamespacedName) (matchers : list string) : list string :=
  if contains (namespace_matcher crKey) matchers then matchers else matchers ++ [namespace_matcher crKey].
Definition namespace_processInhibitRule (matchersV2Allowed : bool) (crKey : NamespacedName) (ir : inhibitRule) : res inhibitRule :=
  let ir := set_inhibitRule_SourceMatchRE (delete_key inhibitRuleNamespaceKey (inhibitRule_SourceMatchRE ir)) ir in
  let ir := set_inhibitRule_TargetMatchRE (delete_key inhibitRuleNamespaceKey (inhibitRule_TargetMatchRE ir)) ir in
  if negb matchersV2Allowed then
    source ← assign_key inhibitRuleNamespaceKey (nn_Namespace crKey) (inhibitRule_SourceMatch ir);
    let ir := set_inhibitRule_SourceMatch source ir in
    target ← assign_key inhibitRuleNamespaceKey (nn_Namespace crKey) (inhibitRule_TargetMatch ir);
    Ok (set_inhibitRule_TargetMatch target ir)
  else
    let ir := set_inhibitRule_SourceMatchers (enforce_matcher crKey (inhibitRule_SourceMatchers ir)) ir in
    let ir := set_inhibitRule_TargetMatchers (enforce_matcher crKey (inhibitRule_TargetMatchers ir)) ir in
    let ir := set_inhibitRule_SourceMatch (delete_key inhibitRuleNamespaceKey (inhibitRule_SourceMatch ir)) ir in
    Ok (set_inhibitRule_TargetMatch (delete_key inhibitRuleNamespaceKey (inhibitRule_TargetMatch ir)) ir).
Definition namespace_processRoute (matchersV2Allowed : bool) (crKey : NamespacedName) (r : route) : res route :=
  if matchersV2Allowed then Ok (set_route_Matchers (route_Matchers r ++ [namespace_matcher crKey]) r)
  else m ← assign_key "namespace" (nn_Namespace crKey) (route_Match r); Ok (set_route_Match m r).

Fixpoint processInhibitRule (e : enforcer) (crKey : NamespacedName) (ir : inhibitRule) : res inhibitRule :=
  match e with
  | noopEnforcer => Ok ir
  | namespaceEnforcer v2 => namespace_processInhibitRule v2 crKey ir
  | otherNamespaceEnforcer ns v2 =>
      if bool_decide (nn_Namespace crKey = ns) then Ok ir else namespace_processInhibitRule v2 crKey ir
  | continueToNextRoute e => processInhibitRule e crKey ir
  end.
Fixpoint processRoute (e : enforcer) (crKey : NamespacedName) (r : route) : res route :=
  match e with
  | noopEnforcer => Ok r
  | namespaceEnforcer v2 => namespace_processRoute v2 crKey r
  | otherNamespaceEnforcer ns v2 => if bool_decide (nn_Namespace crKey = ns) then Ok r else namespace_processRoute v2 crKey r
  | continueToNextRoute e => r ← processRoute e crKey r; Ok (set_route_Continue true r)
  end.

Definition NoneConfigMatcherStrategyType := "None".
Definition OnNamespaceConfigMatcherStrategyType := "OnNamespace".
Definition OnNamespaceExceptForAlertmanagerNamespaceConfigMatcherStrategyType := "OnNamespaceExceptForAlertmanagerNamespace".
Definition getEnforcer `{Semver} (matcherStrategyType : string) (amVersion : version) (amNamespace : string) : enforcer :=
  let v2 := GTE amVersion (MustParse "0.22.0") in
  continueToNextRoute
    (if bool_decide (matcherStrategyType = NoneConfigMatcherStrategyType) then noopEnforcer
     else if bool_decide (matcherStrategyType = OnNamespaceExceptForAlertmanagerNamespaceConfigMatcherStrategyType)
     then otherNamespaceEnforcer amNamespace v2
     else namespaceEnforcer v2).

(** ** The builder *)

Class BuilderLibs := {
  (** [config.Load] of Alertmanager, as the validation that it runs *)
  config_Load : string → res ();
  (** [yaml.UnmarshalStrict] into and [yaml.Marshal] of [alertmanagerConfig] *)
  yaml_UnmarshalStrict : string → res alertmanagerConfig;
  yaml_Marshal : alertmanagerConfig → res string;
}.

Definition empty_alertmanagerConfig : alertmanagerConfig := {|
  alertmanagerConfig_Global := None; alertmanagerConfig_Route := None; alertmanagerConfig_InhibitRules := [];
  alertmanagerConfig_Receivers := []; alertmanagerConfig_MuteTimeIntervals := []; alertmanagerConfig_TimeIntervals := [];
  alertmanagerConfig_Templates := [] |}.
Definition checkAlertmanagerConfigRootRoute (rootRoute : option route) : res () :=
  match rootRoute with
  | None => Err (Errorf "root route must exist" [])
  | Some r =>
      _ ← check (route_Continue r) "cannot have continue in root route";
      _ ← check (bool_decide (route_Receiver r = "")) "root route's receiver must exist";
      _ ← check (bool_decide (route_Matchers r ≠ []) || map_used (route_Match r) || map_used (route_MatchRE r))
            "'matchers' not permitted on root route";
      _ ← check (bool_decide (route_MuteTimeIntervals r ≠ [])) "'mute_time_intervals' not permitted on root route";
      check (bool_decide (route_ActiveTimeIntervals r ≠ [])) "'active_time_intervals' not permitted on root route"
  end.
Definition alertmanagerConfigFromBytes `{BuilderLibs} (b : string) : res alertmanagerConfig :=
  _ ← config_Load b;
  cfg ← yaml_UnmarshalStrict b;
  _ ← wrap "check AlertmanagerConfig root route failed: %w" [] (checkAlertmanagerConfigRootRoute (alertmanagerConfig_Route cfg));
  Ok cfg.

Fixpoint mfold {S A B} (f : B → A → M S B) (b : B) (l : list A) : M S B :=
  match l with
  | [] => mret b
  | x :: l' => b' ← f b x; mfold f b' l'
  end.

Section builder.
Context `{Semver} `{RawJSON} `{AmLibs} `{ConvertLibs} `{CheckLibs} `{BuilderLibs} {C : Type} `{CacheStore C}.
Context (sClient : string → string → res Secret) (cmClient : string → string → res ConfigMap).
Context (pem_Decode : string → option string) (x509_ParseCertificate : string → res ()).
Context (tls_X509KeyPair : string → string → res ()).
Local Abbreviation M := (M (StoreBuilder C)).

Record ConfigBuilder := { cb_cfg : option alertmanagerConfig; cb_amVersion : version; cb_enforcer : enforcer }.
Definition NewConfigBuilder (amVersion : version) (matcherStrategyType amNamespace : string) : ConfigBuilder := {|
  cb_cfg := None; cb_amVersion := amVersion; cb_enforcer := getEnforcer matcherStrategyType amVersion amNamespace |}.
Definition with_cfg (cb : ConfigBuilder) (cfg : alertmanagerConfig) : ConfigBuilder := {|
  cb_cfg := Some cfg; cb_amVersion := cb_amVersion cb; cb_enforcer := cb_enforcer cb |}.
Definition crKey_of (amc : AlertmanagerConfig) : NamespacedName := {|
  nn_Namespace := om_Namespace (AlertmanagerConfig_ObjectMeta amc); nn_Name := om_Name (AlertmanagerConfig_ObjectMeta amc) |}.

Definition initializeFromAlertmanagerConfig (cb : ConfigBuilder) (globalConfig : option amv1.AlertmanagerGlobalConfig)
    (amConfig : AlertmanagerConfig) : M ConfigBuilder :=
  let crKey := crKey_of amConfig in
  let spec := AlertmanagerConfig_Spec amConfig in
  _ ← checkAlertmanagerConfigResource sClient cmClient pem_Decode x509_ParseCertificate tls_X509KeyPair (cb_amVersion cb) amConfig;
  global ← convertGlobalConfig sClient cmClient (cb_amVersion cb) globalConfig crKey;
  let cfg := match global with
             | Some _ => Some {| alertmanagerConfig_Global := global; alertmanagerConfig_Route := None; alertmanagerConfig_InhibitRules := [];
                                 alertmanagerConfig_Receivers := []; alertmanagerConfig_MuteTimeIntervals := [];
                                 alertmanagerConfig_TimeIntervals := []; alertmanagerConfig_Templates := [] |}
             | None => cb_cfg cb
             end in
  let rules := convertInhibitRule (cb_amVersion cb) <$> AlertmanagerConfigSpec_InhibitRules spec in
  route ← mlift (convertRoute (cb_amVersion cb) (AlertmanagerConfigSpec_Route spec) crKey);
  receivers ← mmap (fun r => convertReceiver sClient cmClient cfg r crKey) (AlertmanagerConfigSpec_Receivers spec);
  mute ← mlift (res_map (fun mti => convertMuteTimeInterval mti crKey) (AlertmanagerConfigSpec_MuteTimeIntervals spec));
  c ← mlift (alertmanagerConfig_sanitize (cb_amVersion cb) {|
        alertmanagerConfig_Global := global; alertmanagerConfig_Route := route; alertmanagerConfig_InhibitRules := rules;
        alertmanagerConfig_Receivers := receivers; alertmanagerConfig_MuteTimeIntervals := mute;
        alertmanagerConfig_TimeIntervals := []; alertmanagerConfig_Templates := [] |});
  _ ← mlift (checkAlertmanagerConfigRootRoute (alertmanagerConfig_Route c));
  mret (with_cfg cb c).

Definition InitializeFromRawConfiguration (cb : ConfigBuilder) (b : string) : res ConfigBuilder :=
  cfg ← alertmanagerConfigFromBytes b;
  Ok (with_cfg cb cfg).

(** *** Adding objects *)

Definition append_rule (cb : ConfigBuilder) (crKey : NamespacedName) (cfg : option alertmanagerConfig) (x : InhibitRule)
    : M (option alertmanagerConfig) :=
  mlift (rule ← processInhibitRule (cb_enforcer cb) crKey (convertInhibitRule (cb_amVersion cb) x);
         c ← deref cfg;
         Ok (Some (set_alertmanagerConfig_InhibitRules (alertmanagerConfig_InhibitRules c ++ [rule]) c))).
Definition append_receiver (crKey : NamespacedName) (cfg : option alertmanagerConfig) (x : Receiver) : M (option alertmanagerConfig) :=
  r ← mwrap "AlertmanagerConfig %s: %w" [NamespacedName_String crKey] (convertReceiver sClient cmClient cfg x crKey);
  mlift (c ← deref cfg;
         Ok (Some (set_alertmanagerConfig_Receivers (alertmanagerConfig_Receivers c ++ [r]) c))).
Definition append_interval (crKey : NamespacedName) (cfg : option alertmanagerConfig) (x : MuteTimeInterval) : M (option alertmanagerConfig) :=
  mlift (mti ← wrap "AlertmanagerConfig %s: %w" [NamespacedName_String crKey] (convertMuteTimeInterval x crKey);
         c ← deref cfg;
         Ok (Some (set_alertmanagerConfig_MuteTimeIntervals (alertmanagerConfig_MuteTimeIntervals c ++ [mti]) c))).
(** One object: its rules are added even if it has no route, the rest only if it has one. *)
Definition add_object (cb : ConfigBuilder) (acc : option alertmanagerConfig * list route) (amc : AlertmanagerConfig)
    : M (option alertmanagerConfig * list route) :=
  let '(cfg, subRoutes) := acc in
  let crKey := crKey_of amc in
  let spec := AlertmanagerConfig_Spec amc in
  cfg ← mfold (append_rule cb crKey) cfg (AlertmanagerConfigSpec_InhibitRules spec);
  match AlertmanagerConfigSpec_Route spec with
  | None => mret (cfg, subRoutes)
  | Some x =>
      r ← mlift (convertRoute_fuel (cb_amVersion cb) (depth x) x crKey ≫= processRoute (cb_enforcer cb) crKey);
      cfg ← mfold (append_receiver crKey) cfg (AlertmanagerConfigSpec_Receivers spec);
      cfg ← mfold (append_interval crKey) cfg (AlertmanagerConfigSpec_MuteTimeIntervals spec);
      mret (cfg, subRoutes ++ [r])
  end.
(** The routes of the objects come before those of the base configuration. *)
Definition prepend_routes (subRoutes : list route) (cfg : option alertmanagerConfig) : res alertmanagerConfig :=
  c ← deref cfg;
  r ← deref (alertmanagerConfig_Route c);
  Ok (set_alertmanagerConfig_Route (Some (set_route_Routes (subRoutes ++ route_Routes r) r)) c).
Definition AddAlertmanagerConfigs (cb : ConfigBuilder) (amConfigs : gmap string AlertmanagerConfig) : M ConfigBuilder :=
  acc ← mfold (add_object cb) (cb_cfg cb, []) (sorted_values amConfigs);
  c ← mlift (prepend_routes acc.2 acc.1);
  c ← mlift (alertmanagerConfig_sanitize (cb_amVersion cb) c);
  mret (with_cfg cb c).
End builder.
