(* ===== verification/AmLaws.v ===== *)
(** * What the builder adds to a configuration

    The loop of [AddAlertmanagerConfigs] as a relation between the selected objects and what they
    contribute ([added]), what the enforcers do to routes, and the alerts that reach a route. *)

From S2P Require Import Prelude GoStrings SortUtil Meta ApiClient Semver MonitoringV1 Json RouteTree V1alpha1 AmLibs AssetStore.
From S2P Require Import AmTypes AmSanitize AmSupport AmProjection AmConvert AmCheck AmBuilder.
Import v1alpha1.

(** ** Enforcers *)

(** Whether a strategy confines the objects of a namespace. *)
Definition enforced (strategy amNamespace ns : string) : bool :=
  negb (bool_decide (strategy = NoneConfigMatcherStrategyType)) &&
  negb (bool_decide (strategy = OnNamespaceExceptForAlertmanagerNamespaceConfigMatcherStrategyType) && bool_decide (ns = amNamespace)).
(** The route asks for the namespace. *)
Definition confined (v2 : bool) (crKey : NamespacedName) (r : route) : Prop :=
  if v2 then namespace_matcher crKey ∈ route_Matchers r
  else default ∅ (route_Match r) !! "namespace" = Some (nn_Namespace crKey).
(** Two routes that differ in matchers and [continue] only. *)
Definition same_but_matchers (r r' : route) : Prop :=
  route_Receiver r' = route_Receiver r ∧ route_Routes r' = route_Routes r ∧ route_MatchRE r' = route_MatchRE r ∧
  route_MuteTimeIntervals r' = route_MuteTimeIntervals r ∧ route_ActiveTimeIntervals r' = route_ActiveTimeIntervals r.

Lemma namespace_processRoute_ok v2 crKey r r' :
  namespace_processRoute v2 crKey r = Ok r' → confined v2 crKey r' ∧ same_but_matchers r r'.
Proof.
  unfold namespace_processRoute. destruct v2; [intros [= <-]; simpl; split; [set_solver|done]|].
  unfold assign_key. destruct (route_Match r) as [m|] eqn:E; simpl; [|done]. intros [= <-]. split; [|done]. simpl. apply lookup_insert_eq.
Qed.
Lemma processRoute_ok `{Semver} strategy v amNamespace crKey r r' :
  processRoute (getEnforcer strategy v amNamespace) crKey r = Ok r' →
  route_Continue r' = true ∧ same_but_matchers r r' ∧
  (enforced strategy amNamespace (nn_Namespace crKey) = true → confined (GTE v (MustParse "0.22.0")) crKey r').
Proof.
  unfold getEnforcer, enforced. simpl. rewrite bind_ok_ex. intros (r1 & E & [= <-]).
  split; [by destruct r1|].
  assert (same_but_matchers r r1 ∧ (enforced strategy amNamespace (nn_Namespace crKey) = true → confined (GTE v (MustParse "0.22.0")) crKey r1))
    as [Hs Hc]; [|split; [by destruct r1|by destruct r1]].
  unfold enforced. revert E. case_bool_decide as Hn; simpl; [intros [= <-]; by split|].
  case_bool_decide as Ho; simpl; [case_bool_decide; simpl|].
  - intros [= <-]. by split.
  - intros [? ?]%namespace_processRoute_ok. by split.
  - intros [? ?]%namespace_processRoute_ok. by split.
Qed.

(** ** Routes and alerts *)

(** A property of every route of a tree. *)
Inductive every (P : route → Prop) : route → Prop :=
  | every_intro r : P r → Forall (every P) (route_Routes r) → every P r.
Lemma every_impl (P Q : route → Prop) r : (∀ r, P r → Q r) → every P r → every Q r.
Proof.
  intros HPQ. induction r as [r IH] using route_induction. inversion 1 as [? HP Hc]. subst. constructor; [auto|].
  clear -IH Hc. induction Hc; inversion IH; subst; constructor; auto.
Qed.

Lemma every_and (P Q : route → Prop) r : every P r → every Q r → every (fun r => P r ∧ Q r) r.
Proof.
  induction r as [r IH] using route_induction. inversion 1 as [? HP Hc]. inversion 1 as [? HQ Hd]. subst. constructor; [auto|].
  clear -IH Hc Hd. induction (route_Routes r); inversion IH; inversion Hc; inversion Hd; subst; constructor; auto.
Qed.
(** Every enforcer leaves what is below the route, its receiver and its intervals. *)
Lemma processRoute_same e key : ∀ r r', processRoute e key r = Ok r' → same_but_matchers r r'.
Proof.
  induction e as [| | |e IH]; intros r r'; simpl; [by intros [= <-]|by intros [_ ?]%namespace_processRoute_ok| |].
  - case_bool_decide; [by intros [= <-]|by intros [_ ?]%namespace_processRoute_ok].
  - intros (r1 & Hr1%IH & [= <-])%bind_ok_ex. by destruct r1.
Qed.

(** An escaped value ends at its closing quote, and is the escape of one value only. *)
Lemma escape_quote_inj x : ∀ y, openMetricsEscape x +:+ quote = openMetricsEscape y +:+ quote → x = y.
Proof.
  induction x as [|c x IH]; intros [|d y]; simpl; [done|..].
  - repeat case_decide; simpl; subst; try discriminate. unfold quote. intros [= E]. by subst.
  - repeat case_decide; simpl; subst; try discriminate. unfold quote. intros [= E]. by subst.
  - repeat case_decide; subst; simpl; intros E; try (by injection E as E; f_equal; auto); try discriminate; try (injection E as E ?; by subst).
Qed.
Lemma namespace_matcher_inj key key' : namespace_matcher key = namespace_matcher key' → nn_Namespace key = nn_Namespace key'.
Proof. unfold namespace_matcher, Matcher_String. simpl. intros E. repeat (injection E as E). by apply escape_quote_inj. Qed.

(** What Alertmanager makes of the matchers of a route: all of them have to hold for the labels of
    an alert. *)
Section alerts.
Context (matcher_holds : string → (string → string) → bool) (regex_holds : string → string → bool).
Definition accepts (r : route) (l : string → string) : Prop :=
  (∀ m, m ∈ route_Matchers r → matcher_holds m l = true) ∧
  (∀ n x, default ∅ (route_Match r) !! n = Some x → l n = x) ∧
  (∀ n x, default ∅ (route_MatchRE r) !! n = Some x → regex_holds x (l n) = true).
(** An alert gets to a route through the routes above it. *)
Inductive reaches (l : string → string) : route → route → Prop :=
  | reaches_here r : accepts r l → reaches l r r
  | reaches_child r c x : accepts r l → c ∈ route_Routes r → reaches l c x → reaches l r x.

Lemma reaches_accepts l r x : reaches l r x → accepts r l.
Proof. by inversion 1. Qed.
Hypothesis namespace_holds : ∀ key l, matcher_holds (namespace_matcher key) l = true → l "namespace" = nn_Namespace key.
Lemma confined_reaches v2 crKey r x l : confined v2 crKey r → reaches l r x → l "namespace" = nn_Namespace crKey.
Proof.
  intros Hc (Hm & He & _)%reaches_accepts. destruct v2; simpl in Hc; [|by apply He]. by apply namespace_holds, Hm.
Qed.
End alerts.

(** Sanitizing keeps what confines a route. *)
Lemma confined_sanitize `{Semver} v v2 crKey r r' : route_sanitize v r = Ok r' → confined v2 crKey r → confined v2 crKey r'.
Proof.
  intros (_ & routes & _ & ->)%route_sanitize_ok. destruct v2; simpl; [done|].
  unfold convertMapToNilIfEmpty, map_used. destruct (route_Match r) as [m|]; simpl; [|done].
  case_bool_decide as Hm; [done|]. by rewrite Hm.
Qed.

(** ** How a route of an object looks in a configuration *)

(** A receiver or time interval of an object carries the namespace and the name of the object. *)
Definition named (key : NamespacedName) (n s : string) : Prop :=
  if bool_decide (n = "") then s = "" else s = nn_Namespace key +:+ "/" +:+ nn_Name key +:+ "/" +:+ n.
(** A matcher in the syntax that Alertmanager has since 0.22.0. *)
Definition matcher_text (m : Matcher) : string :=
  let op := if bool_decide (Matcher_MatchType m ≠ "") then Matcher_MatchType m else if Matcher_Regex m then "=~" else "=" in
  Matcher_Name m +:+ op +:+ quote +:+ openMetricsEscape (Matcher_Value m) +:+ quote.
(** The older syntax: for every label one value, the last one given. *)
Definition by_label (ms : list Matcher) : gmap string string :=
  foldl (fun m x => <[Matcher_Name x := Matcher_Value x]> m) ∅ ms.

Section shows.
Context `{Semver} `{RawJSON} (v : version) (key : NamespacedName).

Definition matchers_shown (enforce : bool) (ms : list Matcher) (r : route) : Prop :=
  if GTE v (MustParse "0.22.0") then
    route_Matchers r = (matcher_text <$> ms) ++ (if enforce then ["namespace=" +:+ quote +:+ openMetricsEscape (nn_Namespace key) +:+ quote] else []) ∧
    default ∅ (route_Match r) = ∅ ∧ default ∅ (route_MatchRE r) = ∅
  else
    Forall (fun m => Matcher_MatchType m = "") ms ∧ route_Matchers r = [] ∧
    default ∅ (route_Match r) =
      (if enforce then <["namespace" := nn_Namespace key]> else id) (by_label (base.filter (fun m => Matcher_Regex m = false) ms)) ∧
    default ∅ (route_MatchRE r) = by_label (base.filter (fun m => Matcher_Regex m = true) ms).
(** The route [r] shows the route [x] of an object, with the matcher for the namespace if it is
    enforced; the versions that do not know time intervals get none. *)
Inductive shows : bool → bool → Route → route → Prop :=
  | shows_intro enforce continue_ x r children :
      child_routes x = Ok children →
      Forall2 (fun c c' => shows false (Route_Continue c) c c') children (route_Routes r) →
      named key (Route_Receiver x) (route_Receiver r) →
      route_GroupByStr r = Route_GroupBy x → route_GroupWait r = Route_GroupWait x →
      route_GroupInterval r = Route_GroupInterval x → route_RepeatInterval r = Route_RepeatInterval x →
      route_Continue r = continue_ → matchers_shown enforce (Route_Matchers x) r →
      Forall2 (named key) (if GTE v (MustParse "0.22.0") then Route_MuteTimeIntervals x else []) (route_MuteTimeIntervals r) →
      Forall2 (named key) (if GTE v (MustParse "0.24.0") then Route_ActiveTimeIntervals x else []) (route_ActiveTimeIntervals r) →
      shows enforce continue_ x r.

Lemma makeNamespacedString_named n : named key n (makeNamespacedString n key).
Proof. unfold named, makeNamespacedString. by case_bool_decide. Qed.
Lemma named_all l : Forall2 (named key) l ((fun n => makeNamespacedString n key) <$> l).
Proof. induction l as [|n l IH]; csimpl; constructor; [apply makeNamespacedString_named|done]. Qed.
Lemma Matcher_String_text m : bool_decide (Matcher_MatchType m ≠ "") = true → Matcher_String m = matcher_text m.
Proof. unfold matcher_text. by intros ->. Qed.
Lemma convert_matchers_new ms acc m mr :
  GTE v (MustParse "0.22.0") = true →
  foldl (convert_matcher v) (acc, m, mr) ms = (acc ++ (matcher_text <$> ms), m, mr).
Proof.
  intros Hv. revert acc. induction ms as [|x ms IH]; intros acc; simpl; [by rewrite app_nil_r|].
  destruct (bool_decide (Matcher_MatchType x ≠ "")) eqn:Ex; [|rewrite Hv; destruct (Matcher_Regex x) eqn:Er];
    rewrite IH, <-app_assoc; do 4 f_equal; unfold matcher_text; by rewrite Ex, ?Er.
Qed.
Lemma convert_matchers_old ms acc m mr r :
  GTE v (MustParse "0.22.0") = false → foldl (convert_matcher v) (acc, Some m, Some mr) ms = r → r.1.1 = [] →
  Forall (fun x => Matcher_MatchType x = "") ms ∧ acc = [] ∧
  r.1.2 = Some (foldl (fun m x => <[Matcher_Name x := Matcher_Value x]> m) m (base.filter (fun m => Matcher_Regex m = false) ms)) ∧
  r.2 = Some (foldl (fun m x => <[Matcher_Name x := Matcher_Value x]> m) mr (base.filter (fun m => Matcher_Regex m = true) ms)).
Proof.
  intros Hv. revert acc m mr. induction ms as [|x ms IH]; intros acc m mr; simpl; [by intros <-|].
  case_bool_decide as Ht.
  { intros E Hr. destruct (IH _ _ _ E Hr) as (_ & Hacc & _). by apply app_nil in Hacc as [_ ?]. }
  rewrite Hv. destruct (Matcher_Regex x) eqn:Er; intros E Hr.
  - destruct (IH _ _ _ E Hr) as (HF & -> & -> & ->). rewrite filter_cons_False, filter_cons_True by congruence. auto.
  - destruct (IH _ _ _ E Hr) as (HF & -> & -> & ->). rewrite filter_cons_True, filter_cons_False by congruence. auto.
Qed.

(** What an enforcer does to a converted route. *)
Definition adjusted (enforce continue_ : bool) (t : route) : route :=
  set_route_Continue continue_
    (if enforce then
       if GTE v (MustParse "0.22.0") then set_route_Matchers (route_Matchers t ++ [namespace_matcher key]) t
       else set_route_Match (put "namespace" (nn_Namespace key) (route_Match t)) t
     else t).
Lemma default_nil_if_empty m : default ∅ (convertMapToNilIfEmpty m) = default ∅ m.
Proof.
  unfold convertMapToNilIfEmpty, map_used. destruct m as [m|]; [|done]. simpl. case_bool_decide as Hm; [done|]. by rewrite Hm.
Qed.
Lemma adjusted_matchers enforce continue_ x routes r' :
  route_sanitize v (adjusted enforce continue_ (convert_one_route v x key routes)) = Ok r' →
  matchers_shown enforce (Route_Matchers x) r'.
Proof.
  intros (Hm & routes' & _ & ->)%route_sanitize_ok. unfold matchers_shown, adjusted, convert_one_route, convertMatchersV2 in *.
  destruct (GTE v (MustParse "0.22.0")) eqn:Hv.
  - rewrite convert_matchers_new in * by done. destruct enforce; simpl; rewrite ?app_nil_r; by rewrite !default_nil_if_empty.
  - destruct (foldl _ _ _) as [[ms m] mr] eqn:E. unfold known in Hm. simpl in Hm. rewrite Hv in Hm.
    assert (ms = []) as ->.
    { destruct enforce; simpl in Hm; destruct ms; try done; by specialize (Hm eq_refl). }
    destruct (convert_matchers_old _ _ _ _ _ Hv E eq_refl) as (HF & _ & Hmm & Hmr). simpl in Hmm, Hmr. subst m mr.
    destruct enforce; simpl; by rewrite !default_nil_if_empty.
Qed.
Lemma adjusted_fields enforce continue_ t :
  route_Receiver (adjusted enforce continue_ t) = route_Receiver t ∧ route_Routes (adjusted enforce continue_ t) = route_Routes t ∧
  route_GroupByStr (adjusted enforce continue_ t) = route_GroupByStr t ∧ route_GroupWait (adjusted enforce continue_ t) = route_GroupWait t ∧
  route_GroupInterval (adjusted enforce continue_ t) = route_GroupInterval t ∧
  route_RepeatInterval (adjusted enforce continue_ t) = route_RepeatInterval t ∧
  route_MuteTimeIntervals (adjusted enforce continue_ t) = route_MuteTimeIntervals t ∧
  route_ActiveTimeIntervals (adjusted enforce continue_ t) = route_ActiveTimeIntervals t ∧
  route_Continue (adjusted enforce continue_ t) = continue_.
Proof. unfold adjusted. destruct enforce; [|done]. by destruct (GTE _ _). Qed.
Lemma adjusted_shows enforce continue_ x routes children r' :
  child_routes x = Ok children →
  (∀ routes', Forall2 (fun c c' => route_sanitize v c = Ok c') routes routes' →
     Forall2 (fun c c' => shows false (Route_Continue c) c c') children routes') →
  route_sanitize v (adjusted enforce continue_ (convert_one_route v x key routes)) = Ok r' → shows enforce continue_ x r'.
Proof.
  intros Hch Hc Hs. pose proof (adjusted_matchers _ _ _ _ _ Hs) as Hm.
  apply route_sanitize_ok in Hs as (_ & routes' & HF & ->).
  destruct (adjusted_fields enforce continue_ (convert_one_route v x key routes)) as (E1 & E2 & E3 & E4 & E5 & E6 & E7 & E8 & E9).
  rewrite E2 in HF. revert Hm. unfold route_image. rewrite E1, E3, E4, E5, E6, E7, E8, E9. clear E1 E2 E3 E4 E5 E6 E7 E8 E9.
  unfold convert_one_route in *. destruct (convertMatchersV2 v (Route_Matchers x)) as [[ms m] mr]. simpl in *. intros Hm.
  econstructor; simpl; [exact Hch|by apply Hc|apply makeNamespacedString_named|done..|exact Hm| |].
  - destruct (GTE _ _); [apply named_all|constructor].
  - destruct (GTE v (MustParse "0.24.0")); [apply named_all|constructor].
Qed.
Lemma converted_children n x t :
  convertRoute_fuel v (S n) x key = Ok t →
  ∃ children routes, child_routes x = Ok children ∧ Forall2 (fun c t => convertRoute_fuel v n c key = Ok t) children routes ∧
    t = convert_one_route v x key routes.
Proof.
  simpl. intros (children & Hc & E)%bind_ok_ex. apply bind_ok_ex in E as (routes & Hr & [= <-]). exists children, routes.
  rewrite res_map_ok in Hr. split_and!; [by destruct (child_routes x); [|done..]|done|done].
Qed.
Lemma adjusted_same t : adjusted false (route_Continue t) t = t.
Proof. unfold adjusted. by destruct t. Qed.
Lemma converted_continue n x t : convertRoute_fuel v n x key = Ok t → route_Continue t = Route_Continue x.
Proof.
  destruct n as [|n]; [done|]. intros (children & routes & _ & _ & ->)%converted_children.
  unfold convert_one_route. by destruct (convertMatchersV2 v (Route_Matchers x)) as [[? ?] ?].
Qed.
Lemma converted_shows n : ∀ x t r' enforce continue_,
  convertRoute_fuel v n x key = Ok t → route_sanitize v (adjusted enforce continue_ t) = Ok r' → shows enforce continue_ x r'.
Proof.
  induction n as [|n IH]; intros x t r' enforce continue_; [done|].
  intros (children & routes & Hch & Hr & ->)%converted_children. apply adjusted_shows with children; [done|].
  clear -IH Hr. induction Hr as [|c t l ts Hc _ IH']; intros routes' HF.
  - apply Forall2_nil_inv_l in HF as ->. constructor.
  - apply Forall2_cons_inv_l in HF as (c' & cs' & Hc' & HF & ->). constructor; [|auto].
    apply (IH c t); [done|]. rewrite <-(converted_continue _ _ _ Hc), adjusted_same. done.
Qed.
End shows.
Lemma processRoute_adjusted `{Semver} strategy v amNamespace key t r :
  processRoute (getEnforcer strategy v amNamespace) key t = Ok r →
  r = adjusted v key (enforced strategy amNamespace (nn_Namespace key)) true t.
Proof.
  unfold getEnforcer, adjusted, enforced. simpl. intros (r1 & E & [= <-])%bind_ok_ex. f_equal. revert E.
  assert (∀ v2, namespace_processRoute v2 key t = Ok r1 →
    r1 = if v2 then set_route_Matchers (route_Matchers t ++ [namespace_matcher key]) t
         else set_route_Match (put "namespace" (nn_Namespace key) (route_Match t)) t) as Hn.
  { intros [] E; unfold namespace_processRoute in E; [by injection E as <-|].
    unfold assign_key in E. destruct (route_Match t) as [m|]; [|done]. by injection E as <-. }
  case_bool_decide as H1; simpl; [by intros [= <-]|].
  case_bool_decide as H2; simpl; [case_bool_decide; simpl; [by intros [= <-]|]|]; apply Hn.
Qed.

Lemma on_pointer_Some {A} (f : A → res A) x o : on_pointer f (Some x) = Ok o → ∃ y, o = Some y ∧ f x = Ok y.
Proof. simpl. destruct (f x) as [y| |]; simpl; [|done..]. intros [= <-]. eauto. Qed.
(** What sanitizing does to a configuration with a route. *)
Lemma sanitize_parts `{Semver} v c c' : alertmanagerConfig_sanitize v c = Ok c' →
  on_pointer (route_sanitize v) (alertmanagerConfig_Route c) = Ok (alertmanagerConfig_Route c') ∧
  receiver_Name <$> alertmanagerConfig_Receivers c' = receiver_Name <$> alertmanagerConfig_Receivers c ∧
  (GTE v (MustParse "0.22.0") = true →
   timeInterval_Name <$> alertmanagerConfig_MuteTimeIntervals c' = timeInterval_Name <$> alertmanagerConfig_MuteTimeIntervals c).
Proof.
  unfold alertmanagerConfig_sanitize. intros E. steps E. injection E as <-. simpl. split_and!; [done| |].
  - apply res_map_ok in Hy0. clear -Hy0. induction Hy0 as [|r r' l l' Hr _ IH]; csimpl; [done|]. f_equal; [|done].
    unfold receiver_sanitize in Hr. steps Hr. by injection Hr as <-.
  - intros Hv. assert (LT v (MustParse "0.22.0") = false) as Hlt by (unfold GTE in Hv; by destruct (LT _ _)).
    rewrite Hlt, andb_false_r in Hy2. apply res_map_wrap, res_map_ok in Hy2. clear -Hy2.
    induction Hy2 as [|t t' l l' Ht _ IH]; csimpl; [done|]. f_equal; [|done].
    unfold timeInterval_sanitize in Ht. destruct (GTE _ _); by injection Ht as <-.
Qed.

(** ** The loop over the objects *)

Section adding.
Context `{Semver} `{RawJSON} `{AmLibs} `{ConvertLibs} `{CheckLibs} `{BuilderLibs} {C : Type} `{CacheStore C}.
Context (sClient : string → string → res Secret) (cmClient : string → string → res ConfigMap).
Implicit Types (cb : ConfigBuilder) (amc : AlertmanagerConfig) (st : StoreBuilder C).

Definition rules_of amc := AlertmanagerConfigSpec_InhibitRules (AlertmanagerConfig_Spec amc).
Definition route_of amc := AlertmanagerConfigSpec_Route (AlertmanagerConfig_Spec amc).
Definition receivers_of amc := AlertmanagerConfigSpec_Receivers (AlertmanagerConfig_Spec amc).
Definition intervals_of amc := AlertmanagerConfigSpec_MuteTimeIntervals (AlertmanagerConfig_Spec amc).

Definition receiver_from amc (x : Receiver) (y : receiver) : Prop :=
  ∃ cfg st st', convertReceiver sClient cmClient cfg x (crKey_of amc) st = (st', Ok y).
Definition route_from cb amc (x : Route) (r : route) : Prop :=
  ∃ t, convertRoute_fuel (cb_amVersion cb) (depth x) x (crKey_of amc) = Ok t ∧ processRoute (cb_enforcer cb) (crKey_of amc) t = Ok r.

(** What an object contributes: rules, and routes, receivers and intervals if it has a route. *)
Record contribution := {
  new_rules : list inhibitRule; new_routes : list route; new_receivers : list receiver; new_intervals : list timeInterval;
}.
Record contributes cb amc (n : contribution) : Prop := {
  contributes_rules : Forall2 (fun x y => processInhibitRule (cb_enforcer cb) (crKey_of amc) (convertInhibitRule (cb_amVersion cb) x) = Ok y)
                        (rules_of amc) (new_rules n);
  contributes_rest :
    match route_of amc with
    | None => new_routes n = [] ∧ new_receivers n = [] ∧ new_intervals n = []
    | Some x => ∃ r, new_routes n = [r] ∧ route_from cb amc x r ∧ Forall2 (receiver_from amc) (receivers_of amc) (new_receivers n) ∧
        Forall2 (fun x y => convertMuteTimeInterval x (crKey_of amc) = Ok y) (intervals_of amc) (new_intervals n)
    end;
}.
Definition extend (n : contribution) (c : alertmanagerConfig) : alertmanagerConfig := {|
  alertmanagerConfig_Global := alertmanagerConfig_Global c; alertmanagerConfig_Route := alertmanagerConfig_Route c;
  alertmanagerConfig_InhibitRules := alertmanagerConfig_InhibitRules c ++ new_rules n;
  alertmanagerConfig_Receivers := alertmanagerConfig_Receivers c ++ new_receivers n;
  alertmanagerConfig_MuteTimeIntervals := alertmanagerConfig_MuteTimeIntervals c ++ new_intervals n;
  alertmanagerConfig_TimeIntervals := alertmanagerConfig_TimeIntervals c; alertmanagerConfig_Templates := alertmanagerConfig_Templates c |}.

Lemma append_rules_ok cb key l : ∀ c st cfg st',
  mfold (append_rule cb key) (Some c) l st = (st', Ok cfg) →
  ∃ rules, Forall2 (fun x y => processInhibitRule (cb_enforcer cb) key (convertInhibitRule (cb_amVersion cb) x) = Ok y) l rules ∧
    cfg = Some (extend {| new_rules := rules; new_routes := []; new_receivers := []; new_intervals := [] |} c).
Proof.
  induction l as [|x l IH]; intros c st cfg st'; simpl.
  - intros [<- <-]%mret_ok. exists []. split; [done|]. unfold extend. simpl. rewrite !app_nil_r. by destruct c.
  - intros E. apply mbind_ok in E as (st1 & cfg1 & [<- E1]%mlift_ok & E). apply bind_ok_ex in E1 as (rule & Hr & [= <-]).
    apply IH in E as (rules & HF & ->). exists (rule :: rules). split; [by constructor|]. unfold extend. simpl. by rewrite <-!app_assoc.
Qed.
Lemma append_receivers_ok amc l : ∀ c st cfg st',
  mfold (append_receiver sClient cmClient (crKey_of amc)) (Some c) l st = (st', Ok cfg) →
  ∃ rs, Forall2 (receiver_from amc) l rs ∧
    cfg = Some (extend {| new_rules := []; new_routes := []; new_receivers := rs; new_intervals := [] |} c).
Proof.
  induction l as [|x l IH]; intros c st cfg st'; simpl.
  - intros [<- <-]%mret_ok. exists []. split; [done|]. unfold extend. simpl. rewrite !app_nil_r. by destruct c.
  - intros E. apply mbind_ok in E as (st1 & cfg1 & E1 & E). unfold append_receiver in E1.
    apply mbind_ok in E1 as (st2 & r & Hr%mwrap_ok & [<- [= <-]]%mlift_ok).
    apply IH in E as (rs & HF & ->). exists (r :: rs). split; [constructor; [by eexists _, _, _|done]|]. unfold extend. simpl. by rewrite <-!app_assoc.
Qed.
Lemma append_intervals_ok key l : ∀ c (st : StoreBuilder C) cfg st',
  mfold (append_interval key) (Some c) l st = (st', Ok cfg) →
  ∃ ts, Forall2 (fun x y => convertMuteTimeInterval x key = Ok y) l ts ∧
    cfg = Some (extend {| new_rules := []; new_routes := []; new_receivers := []; new_intervals := ts |} c).
Proof.
  induction l as [|x l IH]; intros c st cfg st'; simpl.
  - intros [<- <-]%mret_ok. exists []. split; [done|]. unfold extend. simpl. rewrite !app_nil_r. by destruct c.
  - intros E. apply mbind_ok in E as (st1 & cfg1 & [<- E1]%mlift_ok & E). apply bind_ok_ex in E1 as (t & Ht%wrap_ok & [= <-]).
    apply IH in E as (ts & HF & ->). exists (t :: ts). split; [by constructor|]. unfold extend. simpl. by rewrite <-!app_assoc.
Qed.
Lemma add_object_ok cb c subs amc st st' cfg subs' :
  add_object sClient cmClient cb (Some c, subs) amc st = (st', Ok (cfg, subs')) →
  ∃ n, contributes cb amc n ∧ cfg = Some (extend n c) ∧ subs' = subs ++ new_routes n.
Proof.
  unfold add_object. intros E. apply mbind_ok in E as (st1 & cfg1 & (rules & Hrules & ->)%append_rules_ok & E).
  fold (route_of amc) in E. destruct (route_of amc) as [x|] eqn:Er.
  - apply mbind_ok in E as (st2 & r & [<- (t & Ht & Hr)%bind_ok_ex]%mlift_ok & E).
    apply mbind_ok in E as (st3 & cfg3 & (rs & Hrs & ->)%append_receivers_ok & E).
    apply mbind_ok in E as (st4 & cfg4 & (ts & Hts & ->)%append_intervals_ok & E). apply mret_ok in E as [<- [= <- <-]].
    exists {| new_rules := rules; new_routes := [r]; new_receivers := rs; new_intervals := ts |}. split.
    + split; [done|]. rewrite Er. exists r. split; [done|]. split; [by exists t|done].
    + split; [|done]. unfold extend. simpl. by rewrite !app_nil_r.
  - apply mret_ok in E as [<- [= <- <-]].
    exists {| new_rules := rules; new_routes := []; new_receivers := []; new_intervals := [] |}. split; [split; [done|by rewrite Er]|].
    by rewrite app_nil_r.
Qed.

Lemma add_objects_ok cb objs : ∀ c subs st st' cfg subs',
  mfold (add_object sClient cmClient cb) (Some c, subs) objs st = (st', Ok (cfg, subs')) →
  ∃ ns, Forall2 (contributes cb) objs ns ∧ cfg = Some (foldl (fun c n => extend n c) c ns) ∧ subs' = subs ++ (ns ≫= new_routes).
Proof.
  induction objs as [|amc objs IH]; intros c subs st st' cfg subs'; simpl.
  - intros [<- [= <- <-]]%mret_ok. exists []. by rewrite app_nil_r.
  - intros E. apply mbind_ok in E as (st1 & [cfg1 subs1] & (n & Hn & -> & ->)%add_object_ok & E).
    apply IH in E as (ns & HF & -> & ->). exists (n :: ns). split; [by constructor|]. split; [done|]. simpl. by rewrite app_assoc.
Qed.
(** All that is added, in the order of the objects. *)
Lemma extend_all ns c :
  foldl (fun c n => extend n c) c ns =
  extend {| new_rules := ns ≫= new_rules; new_routes := ns ≫= new_routes; new_receivers := ns ≫= new_receivers;
            new_intervals := ns ≫= new_intervals |} c.
Proof.
  revert c. induction ns as [|n ns IH]; intros c; simpl; [unfold extend; simpl; rewrite !app_nil_r; by destruct c|].
  rewrite IH. unfold extend. simpl. by rewrite <-!app_assoc.
Qed.

(** What comes out of [AddAlertmanagerConfigs], before it is sanitized. *)
Lemma AddAlertmanagerConfigs_ok cb amConfigs base root st st' cb' :
  cb_cfg cb = Some base → alertmanagerConfig_Route base = Some root →
  AddAlertmanagerConfigs sClient cmClient cb amConfigs st = (st', Ok cb') →
  ∃ ns c, Forall2 (contributes cb) (sorted_values amConfigs) ns ∧ cb' = with_cfg cb c ∧
    alertmanagerConfig_sanitize (cb_amVersion cb)
      (set_alertmanagerConfig_Route (Some (set_route_Routes ((ns ≫= new_routes) ++ route_Routes root) root))
         (foldl (fun c n => extend n c) base ns)) = Ok c.
Proof.
  intros Hb Hr. unfold AddAlertmanagerConfigs. rewrite Hb. intros E. apply mbind_ok in E as (st1 & [cfg subs] & E1 & E).
  apply add_objects_ok in E1 as (ns & HF & -> & ->). simpl in E.
  apply mbind_ok in E as (st2 & c & [<- E2]%mlift_ok & E). unfold prepend_routes in E2. simpl in E2.
  assert (alertmanagerConfig_Route (foldl (fun c n => extend n c) base ns) = Some root) as Hroot by by rewrite extend_all.
  rewrite Hroot in E2. simpl in E2. injection E2 as <-.
  apply mbind_ok in E as (st3 & c' & [<- E3]%mlift_ok & [<- <-]%mret_ok). by exists ns, c'.
Qed.

(** The objects that have a route contribute one each, in their order. *)
Definition routed (objs : list AlertmanagerConfig) : list AlertmanagerConfig := base.filter (fun amc => is_Some (route_of amc)) objs.
Lemma routes_contributed cb objs ns : Forall2 (contributes cb) objs ns →
  Forall2 (fun amc r => ∃ x, route_of amc = Some x ∧ route_from cb amc x r) (routed objs) (ns ≫= new_routes).
Proof.
  unfold routed. induction 1 as [|amc n objs ns Hn _ IH]; csimpl; [done|]. apply contributes_rest in Hn.
  destruct (route_of amc) as [x|] eqn:Er.
  - destruct Hn as (r & -> & Hr & _). rewrite filter_cons_True by (rewrite Er; eauto). simpl. constructor; [eauto|done].
  - destruct Hn as (-> & _). rewrite filter_cons_False by (rewrite Er; by intros []). done.
Qed.
(** The routes of the result: those of the objects, then those of the base configuration. *)
Lemma added_routes cb amConfigs base root st st' cb' :
  cb_cfg cb = Some base → alertmanagerConfig_Route base = Some root →
  AddAlertmanagerConfigs sClient cmClient cb amConfigs st = (st', Ok cb') →
  ∃ c root' subs rest, cb' = with_cfg cb c ∧ alertmanagerConfig_Route c = Some root' ∧ route_Routes root' = subs ++ rest ∧
    Forall2 (fun r r' => route_sanitize (cb_amVersion cb) r = Ok r') (route_Routes root) rest ∧
    Forall2 (fun amc r' => ∃ x r, route_of amc = Some x ∧ route_from cb amc x r ∧ route_sanitize (cb_amVersion cb) r = Ok r')
      (routed (sorted_values amConfigs)) subs.
Proof.
  intros Hb Hr (ns & c & HF & -> & Hs)%(AddAlertmanagerConfigs_ok _ _ _ _ _ _ _ Hb Hr).
  apply sanitize_parts in Hs as (Hroute & _). apply on_pointer_Some in Hroute as (root' & Hroute & E).
  apply route_sanitize_ok in E as (_ & routes & HR & ->). simpl in HR. apply Forall2_app_inv_l in HR as (subs & rest & Hsubs & Hrest & ->).
  exists c, (route_image (cb_amVersion cb) (set_route_Routes ((ns ≫= new_routes) ++ route_Routes root) root) (subs ++ rest)), subs, rest.
  split_and!; [done..|]. apply routes_contributed in HF. clear Hroute. revert subs Hsubs.
  induction HF as [|amc r objs rs (x & Hx & Hf) _ IH]; intros subs Hsubs.
  - by apply Forall2_nil_inv_l in Hsubs as ->.
  - apply Forall2_cons_inv_l in Hsubs as (r' & subs' & Hr' & Hsubs & ->). constructor; [eauto 6|auto].
Qed.
End adding.
