(* ===== verification/AmRefs.v ===== *)
(** * References inside a generated configuration

    Routes name receivers and time intervals. The names of an object are prefixed with its namespace
    and name; what a validated object refers to is defined in the configuration. *)

From S2P Require Import Prelude GoStrings SortUtil Meta ApiClient Semver MonitoringV1 Json RouteTree V1alpha1 AmLibs ValidationV1alpha1.
From S2P Require Import AssetStore AmTypes AmSanitize AmSupport AmProjection AmConvert AmCheck AmBuilder AmLaws.
Import v1alpha1 validation_v1alpha1.

(** A route refers to names of the two sets, prefixed; a route below another one may have no receiver. *)
Definition refers (key : NamespacedName) (receivers intervals : gset string) (r : route) : Prop :=
  (route_Receiver r = "" ∨ ∃ n, n ∈ receivers ∧ route_Receiver r = makeNamespacedString n key) ∧
  ∀ m, m ∈ route_MuteTimeIntervals r ++ route_ActiveTimeIntervals r → ∃ n, n ∈ intervals ∧ m = makeNamespacedString n key.

Section refs.
Context `{Semver} `{RawJSON} `{AmLibs}.

Lemma check_route_refers receivers intervals top x key v routes :
  check_route receivers intervals top x = Ok () → refers key receivers intervals (convert_one_route v x key routes).
Proof.
  unfold check_route, convert_one_route. intros E.
  apply bind_ok in E as [Hr E]. apply bind_ok in E as [_ E].
  apply bind_ok in E as [Hm E]. apply bind_ok in E as [Ha _]. rewrite all_known_ok in Hm. rewrite all_known_ok in Ha.
  destruct (convertMatchersV2 v (Route_Matchers x)) as [[? ?] ?]. split; simpl.
  - case_bool_decide as Hx; [left; by rewrite Hx|]. case_decide as Hin; [|done]. right. eauto.
  - intros m [(n & -> & Hn)%list_elem_of_fmap|(n & -> & Hn)%list_elem_of_fmap]%elem_of_app; eauto.
Qed.
Lemma converted_refers receivers intervals key v n : ∀ top x r,
  validate_with (check_route receivers intervals) n top x = Ok () → convertRoute_fuel v n x key = Ok r →
  every (refers key receivers intervals) r.
Proof.
  induction n as [|n IH]; intros top x r; simpl; [done|].
  intros [Hc Hv]%bind_ok. apply bind_ok_ex in Hv as (children & Hch & Hv). rewrite Hch. simpl.
  intros (routes & Hr & [= <-])%bind_ok_ex. rewrite for_each_indexed in Hv. apply res_map_ok in Hr.
  constructor; [by eapply check_route_refers|].
  assert (route_Routes (convert_one_route v x key routes) = routes) as ->
    by (unfold convert_one_route; by destruct (convertMatchersV2 v (Route_Matchers x)) as [[? ?] ?]).
  clear -IH Hv Hr. induction Hr as [|c r l l' Hc _ IH']; [done|]. apply Forall_cons in Hv as [Hvc Hv]. constructor; [by eapply IH|auto].
Qed.

Lemma receivers_valid rs : ∀ names s, validateReceivers_from names rs = Ok s →
  s ⊆ list_to_set (Receiver_Name <$> rs) ∪ names ∧ Forall (fun r => validateReceiver r = Ok ()) rs.
Proof.
  induction rs as [|r rs IH]; intros names s; simpl; [intros [= <-]; split; [set_solver|done]|].
  case_decide; [done|]. intros [Hr E]%bind_ok. apply IH in E as [Hs HF]. split; [set_solver|by constructor].
Qed.
Lemma intervals_valid tis : ∀ i names s, validateMuteTimeIntervals_from i names tis = Ok s →
  s ⊆ list_to_set (MuteTimeInterval_Name <$> tis) ∪ names ∧ Forall (fun t => MuteTimeInterval_Validate t = Ok ()) tis.
Proof.
  induction tis as [|t tis IH]; intros i names s; simpl; [intros [= <-]; split; [set_solver|done]|].
  intros [Ht%wrap_ok E]%bind_ok. apply IH in E as [Hs HF]. split; [set_solver|by constructor].
Qed.
Lemma validated_refers v amc x r :
  ValidateAlertmanagerConfig amc = Ok () → route_of amc = Some x → convertRoute_fuel v (depth x) x (crKey_of amc) = Ok r →
  every (refers (crKey_of amc) (list_to_set (Receiver_Name <$> receivers_of amc)) (list_to_set (MuteTimeInterval_Name <$> intervals_of amc))) r.
Proof.
  unfold ValidateAlertmanagerConfig. intros (rs & Hrs & E)%bind_ok_ex. apply bind_ok_ex in E as (ts & Hts & E).
  apply receivers_valid in Hrs as [Hrs _]. apply intervals_valid in Hts as [Hts _].
  fold (route_of amc) in E. intros Hx. rewrite Hx in E. intros Hr. eapply every_impl; [|by eapply converted_refers].
  intros r' [Hrec Hint]. fold (receivers_of amc) in Hrs. fold (intervals_of amc) in Hts. split.
  - destruct Hrec as [?|(n & Hn & ?)]; [by left|right]. exists n. split; [set_solver|done].
  - intros m Hm. destruct (Hint m Hm) as (n & Hn & ?). exists n. split; [set_solver|done].
Qed.
(** Sanitizing drops references, never the receiver. *)
Lemma refers_sanitize v key rs is_ r r' : route_sanitize v r = Ok r' → every (refers key rs is_) r → every (refers key rs is_) r'.
Proof.
  revert r'. induction r as [r IH] using route_induction. intros r' (_ & routes & HF & ->)%route_sanitize_ok.
  inversion 1 as [? [Hrec Hint] Hc]. subst. constructor.
  - split; [done|]. intros m. simpl. intros [Hm|Hm]%elem_of_app; (destruct (negb _); [by apply not_elem_of_nil in Hm|]); apply Hint; set_solver.
  - simpl. clear -IH HF Hc. induction HF as [|c c' l l' Hcc _ IH']; [done|].
    inversion IH; inversion Hc; subst. constructor; auto.
Qed.
Lemma refers_process e key0 key rs is_ r r' : processRoute e key0 r = Ok r' → every (refers key rs is_) r → every (refers key rs is_) r'.
Proof.
  intros (Hrec & Hroutes & _ & Hm & Ha)%processRoute_same. inversion 1 as [? [? ?] Hc]. subst. constructor; [|by rewrite Hroutes].
  unfold refers. by rewrite Hrec, Hm, Ha.
Qed.
(** Only the versions that know time intervals get routes that refer to some. *)
Lemma sanitized_intervals `{!SemverLaws} v : ∀ r r', route_sanitize v r = Ok r' →
  every (fun r => ∀ m, m ∈ route_MuteTimeIntervals r ++ route_ActiveTimeIntervals r → GTE v (MustParse "0.22.0") = true) r'.
Proof.
  intros r. induction r as [r IH] using route_induction. intros r' (_ & routes & HF & ->)%route_sanitize_ok. constructor.
  - intros m. simpl. destruct (GTE v (MustParse "0.22.0")) eqn:E; [done|]. simpl. destruct (GTE v (MustParse "0.24.0")) eqn:E'; simpl.
    + assert (GTE v (MustParse "0.22.0") = true); [|congruence]. by apply (GTE_release v (0, 24, 0)%Z (0, 22, 0)%Z E').
    + by intros ?%not_elem_of_nil.
  - simpl. clear -IH HF. induction HF as [|c c' l l' Hcc _ IH']; [done|]. inversion IH; subst. constructor; auto.
Qed.
End refs.

Section names.
Context `{Semver} `{RawJSON} `{AmLibs} `{ConvertLibs} `{CheckLibs} `{BuilderLibs} {C : Type} `{CacheStore C}.
Context (sClient : string → string → res Secret) (cmClient : string → string → res ConfigMap).

Lemma receiver_from_name amc x y : receiver_from (C := C) sClient cmClient amc x y → receiver_Name y = makeNamespacedString (Receiver_Name x) (crKey_of amc).
Proof.
  intros (cfg & st & st' & E). unfold convertReceiver in E.
  repeat (apply mbind_ok in E as (? & ? & _ & E)). by apply mret_ok in E as [_ <-].
Qed.
Lemma converted_interval_name x key y :
  MuteTimeInterval_TimeIntervals x ≠ [] → convertMuteTimeInterval x key = Ok y → timeInterval_Name y = makeNamespacedString (MuteTimeInterval_Name x) key.
Proof. unfold convertMuteTimeInterval. intros Hx (l & _ & [= <-])%bind_ok_ex. simpl. by destruct (MuteTimeInterval_TimeIntervals x). Qed.
(** The receivers and intervals of the objects with a route are in the result under their names. *)
Lemma added_names cb amConfigs base root st st' cb' amc :
  cb_cfg cb = Some base → alertmanagerConfig_Route base = Some root →
  AddAlertmanagerConfigs sClient cmClient cb amConfigs st = (st', Ok cb') →
  amc ∈ routed (sorted_values amConfigs) →
  ∃ c, cb' = with_cfg cb c ∧
    (∀ x, x ∈ receivers_of amc → makeNamespacedString (Receiver_Name x) (crKey_of amc) ∈ receiver_Name <$> alertmanagerConfig_Receivers c) ∧
    (GTE (cb_amVersion cb) (MustParse "0.22.0") = true →
     ∀ x, x ∈ intervals_of amc → MuteTimeInterval_TimeIntervals x ≠ [] →
       makeNamespacedString (MuteTimeInterval_Name x) (crKey_of amc) ∈ timeInterval_Name <$> alertmanagerConfig_MuteTimeIntervals c).
Proof.
  intros Hb Hr Ha [[x Hx] Hin]%list_elem_of_filter.
  destruct (AddAlertmanagerConfigs_ok _ _ _ _ _ _ _ _ _ Hb Hr Ha) as (ns & c & HF & -> & Hs).
  exists c. split; [done|]. apply sanitize_parts in Hs as (_ & Hrec & Hint). rewrite extend_all in Hrec, Hint. simpl in Hrec, Hint.
  apply list_elem_of_lookup in Hin as [i Hi]. destruct (Forall2_lookup_l _ _ _ _ _ HF Hi) as (n & Hn & Hc).
  apply contributes_rest in Hc. rewrite Hx in Hc. destruct Hc as (r & _ & _ & Hrs & Hts). apply list_elem_of_lookup_2 in Hn. split.
  - intros y Hy. rewrite Hrec, fmap_app. apply elem_of_app. right.
    apply list_elem_of_lookup in Hy as [j Hj]. destruct (Forall2_lookup_l _ _ _ _ _ Hrs Hj) as (z & Hz & Hyz).
    rewrite <-(receiver_from_name _ _ _ Hyz). apply list_elem_of_fmap_2, list_elem_of_bind. exists n. split; [|done]. by eapply list_elem_of_lookup_2.
  - intros Hv y Hy Hne. rewrite (Hint Hv), fmap_app. apply elem_of_app. right.
    apply list_elem_of_lookup in Hy as [j Hj]. destruct (Forall2_lookup_l _ _ _ _ _ Hts Hj) as (z & Hz & Hyz).
    rewrite <-(converted_interval_name _ _ _ Hne Hyz). apply list_elem_of_fmap_2, list_elem_of_bind. exists n. split; [|done]. by eapply list_elem_of_lookup_2.
Qed.
End names.
