(* ===== verification/AmSafety.v ===== *)
(** * The configuration builder does not panic

    A computation on the asset store is [safe] if it does not panic on a well-formed store and leaves
    one behind. Safety is closed under the ways in which conversions are put together; what a
    conversion dereferences has to be there, which validation and the checks of the operator
    establish for every receiver type but MSTeams v2. *)

From S2P Require Import Prelude GoStrings SortUtil Meta ApiClient Semver MonitoringV1 Json RouteTree TimeRanges V1alpha1 AmLibs.
From S2P Require Import ValidationV1alpha1 AssetStore ConfigGenerator AmTypes AmSanitize AmSupport AmProjection AmConvert AmCheck AmBuilder AmLaws AmRefs.
Import v1alpha1 validation_v1alpha1.

(** ** Sanitizing *)

Lemma bind_no_panic {A B} (x : res A) (k : A → res B) : no_panic x → (∀ a, no_panic (k a)) → no_panic (x ≫= k).
Proof. intros Hx Hk m. destruct x as [a|e|m']; simpl; [apply Hk|done|]. exfalso. by eapply (Hx m'). Qed.
Lemma wrap_no_panic {A} f args (x : res A) : no_panic x → no_panic (wrap f args x).
Proof. intros Hx m. destruct x; simpl; [done|done|]. apply Hx. Qed.
Lemma fmap_no_panic {A B} (f : A → B) (x : res A) : no_panic x → no_panic (f <$> x).
Proof. intros Hx m. destruct x as [a|e|m']; simpl; [done|done|]. exfalso. by eapply (Hx m'). Qed.
Lemma ok_no_panic {A} (a : A) : no_panic (Ok a).
Proof. done. Qed.
Lemma err_no_panic {A} e : no_panic (Err e : res A).
Proof. done. Qed.
Lemma check_no_panic b msg : no_panic (check b msg).
Proof. by destruct b. Qed.
Lemma mandatory_no_panic f b : no_panic (mandatory f b).
Proof. by destruct b. Qed.
Lemma pointer_no_panic {A} (f : A → res A) o : (∀ x, no_panic (f x)) → no_panic (on_pointer f o).
Proof. intros Hf. destruct o; [by apply fmap_no_panic|done]. Qed.
Lemma map_no_panic {A B} (f : A → res B) l : (∀ x, no_panic (f x)) → no_panic (res_map f l).
Proof. intros Hf. apply res_map_no_panic. auto. Qed.
Create HintDb quiet.
#[export] Hint Resolve bind_no_panic wrap_no_panic fmap_no_panic ok_no_panic err_no_panic check_no_panic mandatory_no_panic
  pointer_no_panic map_no_panic : quiet.
(** Split a computation until the hints apply. *)
Ltac quiet := repeat first
  [ progress intros
  | match goal with
    | |- no_panic (_ ≫= _) => apply bind_no_panic
    | |- no_panic (wrap _ _ _) => apply wrap_no_panic
    | |- no_panic (_ <$> _) => apply fmap_no_panic
    | |- no_panic (if ?b then _ else _) => destruct b
    | |- no_panic (match ?x with _ => _ end) => destruct x
    | |- no_panic (let _ := _ in _) => cbv zeta
    end ]; auto with quiet.

Section sanitize.
Context `{Semver} (v : version).
Lemma tlsConfig_quiet x : no_panic (tlsConfig_sanitize v x).
Proof. unfold tlsConfig_sanitize, tls_version. quiet. Qed.
Lemma proxyConfig_quiet x : no_panic (proxyConfig_sanitize v x).
Proof. unfold proxyConfig_sanitize. quiet. Qed.
Lemma oauth2_quiet x : no_panic (oauth2_sanitize v x).
Proof. done. Qed.
#[local] Hint Resolve tlsConfig_quiet proxyConfig_quiet oauth2_quiet : quiet.
Lemma http_quiet x : no_panic (http_sanitize v x).
Proof. unfold http_sanitize. apply pointer_no_panic. intros hc. unfold httpClientConfig_sanitize. quiet. Qed.
#[local] Hint Resolve http_quiet : quiet.
Lemma responders_quiet l : no_panic (for_each (opsgenieResponder_sanitize v) l).
Proof. apply for_each_no_panic. intros. unfold opsgenieResponder_sanitize. quiet. Qed.
#[local] Hint Resolve responders_quiet : quiet.
Lemma receiver_quiet r : no_panic (receiver_sanitize v r).
Proof.
  unfold receiver_sanitize. quiet; apply map_no_panic; intros ?;
    unfold emailConfig_sanitize, opsgenieConfig_sanitize, pagerdutyConfig_sanitize, pushoverConfig_sanitize, slackConfig_sanitize,
      victorOpsConfig_sanitize, webhookConfig_sanitize, weChatConfig_sanitize, snsConfig_sanitize, telegramConfig_sanitize,
      discordConfig_sanitize, webexConfig_sanitize, msTeamsConfig_sanitize, msTeamsV2Config_sanitize, jiraConfig_sanitize,
      rocketChatConfig_sanitize; quiet.
Qed.
Lemma route_quiet r : no_panic (route_sanitize v r).
Proof.
  induction r as [r IH] using route_induction. destruct r as [? ? ? ? ? ? l]. simpl in *.
  assert (∀ i, no_panic (sanitize_children (route_sanitize v) i l)) as Hl by
    (induction IH as [|c l Hc _ IHl]; intros i; simpl; quiet).
  quiet.
Qed.
#[local] Hint Resolve receiver_quiet route_quiet : quiet.
Lemma configuration_quiet c : no_panic (alertmanagerConfig_sanitize v c).
Proof.
  unfold alertmanagerConfig_sanitize. quiet.
  - apply pointer_no_panic. intros g. unfold globalConfig_sanitize. quiet.
  - apply map_no_panic. intros ir. apply wrap_no_panic. unfold inhibitRule_sanitize. quiet.
  - apply map_no_panic. intros t. apply wrap_no_panic. unfold timeInterval_sanitize. quiet.
  - apply map_no_panic. intros t. apply wrap_no_panic. unfold timeInterval_sanitize. quiet.
Qed.
End sanitize.

(** ** Computations on the store *)

Section safe.
Context {C : Type} `{CacheStore C}.
Definition safe {A} (c : M (StoreBuilder C) A) : Prop :=
  ∀ st, cache_wf (objStore st) → no_panic (c st).2 ∧ cache_wf (objStore (c st).1).

Lemma safe_ret {A} (a : A) : safe (mret a).
Proof. by intros st. Qed.
Lemma safe_fail {A} e : safe (mfail e : M _ A).
Proof. by intros st. Qed.
Lemma safe_lift {A} (r : res A) : no_panic r → safe (mlift r).
Proof. by intros Hr st. Qed.
Lemma safe_bind {A B} (c : M _ A) (k : A → M _ B) : safe c → (∀ a, safe (k a)) → safe (c ≫= k).
Proof.
  intros Hc Hk st Hst. destruct (Hc st Hst) as [Hp Hw]. unfold mbind, M_bind. destruct (c st) as [st' [a|e|m]]; simpl in *; [by apply Hk|done|].
  by edestruct (Hp m).
Qed.
Lemma safe_wrap {A} f args (c : M _ A) : safe c → safe (mwrap f args c).
Proof. intros Hc st Hst. destruct (Hc st Hst) as [Hp Hw]. unfold mwrap. destruct (c st). simpl in *. split; [by apply wrap_no_panic|done]. Qed.
Lemma safe_mset {A B} (z : B) (o : option A) (f : A → M _ B) : (∀ x, o = Some x → safe (f x)) → safe (mset z o f).
Proof. intros Hf. destruct o; [by apply Hf|apply safe_ret]. Qed.
Lemma safe_mmap {A B} (f : A → M _ B) l : (∀ x, x ∈ l → safe (f x)) → safe (mmap f l).
Proof.
  induction l as [|x l IH]; intros Hf; simpl; [apply safe_ret|]. apply safe_bind; [apply Hf; set_solver|]. intros y.
  apply safe_bind; [apply IH; set_solver|]. intros ys. apply safe_ret.
Qed.
Lemma safe_indexed {A B} msg (f : A → M _ B) l : (∀ x, x ∈ l → safe (f x)) → safe (mmap_indexed msg f l).
Proof.
  intros Hf. apply safe_mmap. intros [i x] Hi. apply safe_wrap. apply elem_of_lookup_imap in Hi as (j & y & [= -> ->] & Hl).
  apply Hf. by eapply list_elem_of_lookup_2.
Qed.
Lemma safe_mfold {A B} (P : B → Prop) (f : B → A → M _ B) l : ∀ b,
  P b → (∀ b x, P b → x ∈ l → safe (f b x)) → (∀ b x st st' b', P b → f b x st = (st', Ok b') → P b') → safe (mfold f b l).
Proof.
  induction l as [|x l IH]; intros b Hb Hf Hp; simpl; [apply safe_ret|]. intros st Hst.
  destruct (Hf b x Hb ltac:(set_solver) st Hst) as [Hn Hw]. unfold mbind, M_bind.
  destruct (f b x st) as [st' [b'|e|m]] eqn:E; simpl in *; [|done|by edestruct (Hn m)].
  apply IH; [by eapply Hp| |done|done]. intros b1 y Hb1 Hy. apply Hf; set_solver.
Qed.

Lemma mfold_keeps {S A B} (P : B → Prop) (f : B → A → M S B) l : (∀ b x st st' b', P b → f b x st = (st', Ok b') → P b') →
  ∀ b st st' b', P b → mfold f b l st = (st', Ok b') → P b'.
Proof.
  intros Hp. induction l as [|x l IH]; intros b st st' b' Hb; simpl; [by intros [= _ <-]|]. intros (st1 & b1 & E & E')%mbind_ok. eauto.
Qed.
Lemma safe_bind_post {A B} (P : A → Prop) (c : M _ A) (k : A → M _ B) :
  safe c → (∀ st st' a, c st = (st', Ok a) → P a) → (∀ a, P a → safe (k a)) → safe (c ≫= k).
Proof.
  intros Hc HP Hk st Hst. destruct (Hc st Hst) as [Hp Hw]. unfold mbind, M_bind.
  destruct (c st) as [st' [a|e|m]] eqn:E; simpl in *; [apply Hk; eauto|done|]. by edestruct (Hp m).
Qed.
Lemma safe_mfold_then {A B D} (P : B → Prop) (f : B → A → M _ B) l (k : B → M _ D) b :
  P b → (∀ b x, P b → x ∈ l → safe (f b x)) → (∀ b x st st' b', P b → f b x st = (st', Ok b') → P b') →
  (∀ b, P b → safe (k b)) → safe (mfold f b l ≫= k).
Proof. intros Hb Hf Hp Hk. apply (safe_bind_post P); [by eapply safe_mfold|intros *; by eapply mfold_keeps|done]. Qed.

Context (sClient : string → string → res Secret) (cmClient : string → string → res ConfigMap).
Context (secrets_quiet : ∀ ns n, no_panic (sClient ns n)) (configmaps_quiet : ∀ ns n, no_panic (cmClient ns n)).
Lemma safe_secret ns sel : safe (GetSecretKey sClient ns sel).
Proof.
  unfold GetSecretKey. case_bool_decide; [apply safe_fail|]. intros st Hst. unfold mget, mbind, M_bind, mlift, mret, M_ret, cache_add, mfail. simpl.
  destruct (GetByKey _ (objStore st)) as [[s|c]|] eqn:E.
  - by case_match.
  - apply Hst in E. by apply asset_key_kind in E.
  - specialize (secrets_quiet ns (SecretKeySelector_Name sel)). destruct (sClient _ _) as [s| |m] eqn:Es; simpl; [|done|by edestruct (secrets_quiet m)].
    pose proof (cache_wf_add (ASecret s) _ Hst). by case_match.
Qed.
Lemma safe_configmap ns sel : safe (GetConfigMapKey cmClient ns sel).
Proof.
  unfold GetConfigMapKey. case_bool_decide; [apply safe_fail|]. intros st Hst. unfold mget, mbind, M_bind, mlift, mret, M_ret, cache_add, mfail. simpl.
  destruct (GetByKey _ (objStore st)) as [[s|c]|] eqn:E.
  - apply Hst in E. by apply asset_key_kind in E.
  - by case_match.
  - specialize (configmaps_quiet ns (ConfigMapKeySelector_Name sel)). destruct (cmClient _ _) as [s| |m] eqn:Es; simpl; [|done|by edestruct (configmaps_quiet m)].
    pose proof (cache_wf_add (AConfigMap s) _ Hst). by case_match.
Qed.
Lemma safe_key ns sel : safe (GetKey sClient cmClient ns sel).
Proof. unfold GetKey. destruct (SecretOrConfigMap_Secret sel), (SecretOrConfigMap_ConfigMap sel); auto using safe_secret, safe_configmap, safe_ret. Qed.
End safe.

(** What is dereferenced in an HTTP client is there. *)
Definition credentials_given (h : option HTTPConfig) : Prop :=
  ∀ x a, h = Some x → HTTPConfig_Authorization x = Some a → is_Some (SafeAuthorization_Credentials a).
Lemma validated_credentials parse h : HTTPConfig_Validate parse h = Ok () → credentials_given h.
Proof.
  intros E x a -> Ha. simpl in E. unfold HTTPConfig_Validate_fields in E. rewrite Ha in E. simpl in E.
  apply bind_ok in E as [_ E]. apply bind_ok in E as [E _]. apply bind_ok in E as [_ E]. apply bind_ok in E as [_ E].
  simpl in E. case_bool_decide; [done|]. apply check_ok, negb_false_iff in E. by destruct (SafeAuthorization_Credentials a).
Qed.

(** What the receivers of an object have to provide. *)
Record receiver_complete (r : Receiver) : Prop := {
  rc_pagerduty : Forall (fun c => credentials_given (PagerDutyConfig_HTTPConfig c)) (Receiver_PagerDutyConfigs r);
  rc_discord : Forall (fun c => credentials_given (DiscordConfig_HTTPConfig c)) (Receiver_DiscordConfigs r);
  rc_slack : Forall (fun c => credentials_given (SlackConfig_HTTPConfig c)) (Receiver_SlackConfigs r);
  rc_webhook : Forall (fun c => credentials_given (WebhookConfig_HTTPConfig c)) (Receiver_WebhookConfigs r);
  rc_opsgenie : Forall (fun c => credentials_given (OpsGenieConfig_HTTPConfig c)) (Receiver_OpsGenieConfigs r);
  rc_wechat : Forall (fun c => credentials_given (WeChatConfig_HTTPConfig c)) (Receiver_WeChatConfigs r);
  rc_victorops : Forall (fun c => credentials_given (VictorOpsConfig_HTTPConfig c)) (Receiver_VictorOpsConfigs r);
  rc_pushover : Forall (fun c => credentials_given (PushoverConfig_HTTPConfig c) ∧ is_Some (PushoverConfig_UserKey c) ∧ is_Some (PushoverConfig_Token c))
                  (Receiver_PushoverConfigs r);
  rc_sns : Forall (fun c => credentials_given (SNSConfig_HTTPConfig c)) (Receiver_SNSConfigs r);
  rc_telegram : Forall (fun c => credentials_given (TelegramConfig_HTTPConfig c)) (Receiver_TelegramConfigs r);
  rc_msteams : Forall (fun c => credentials_given (MSTeamsConfig_HTTPConfig c)) (Receiver_MSTeamsConfigs r);
  rc_msteamsv2 : Forall (fun c => credentials_given (MSTeamsV2Config_HTTPConfig c)) (Receiver_MSTeamsV2Configs r);
  rc_webex : Forall (fun c => credentials_given (WebexConfig_HTTPConfig c)) (Receiver_WebexConfigs r);
}.

(** ** Conversions *)

Section conversions.
Context `{Semver} `{RawJSON} `{AmLibs} `{ConvertLibs} `{CheckLibs} {C : Type} `{CacheStore C}.
Context (sClient : string → string → res Secret) (cmClient : string → string → res ConfigMap).
(** The API client and the parsers of other packages return. *)
Record quiet_libs : Prop := {
  secrets_quiet ns n : no_panic (sClient ns n);
  configmaps_quiet ns n : no_panic (cmClient ns n);
  unmarshal_quiet s : no_panic (unmarshal_config_URL s);
  duration_quiet s : no_panic (model_ParseDuration s);
}.
Context (Hlibs : quiet_libs) (key : NamespacedName) (Hns : nn_Namespace key ≠ "").

Lemma safe_tls x : safe (C := C) (convertTLSConfig x key).
Proof.
  intros st Hst. split; [|done]. unfold convertTLSConfig, mget, mbind, M_bind, mlift. simpl. unfold ForNamespace.
  rewrite bool_decide_eq_false_2 by done. simpl. unfold some_asset, tls_path, TLSAsset, TLSAsset_secret, tlsAssetKeyFromSecretSelector, tlsAssetKeyFromSelector.
  destruct x as [[ca1 ca2] [ce1 ce2] k ? ? ? ?]. simpl. destruct ca1, ca2, ce1, ce2, k; done.
Qed.
Ltac safely := repeat first
  [ progress intros
  | match goal with
    | |- safe (mret _) => apply safe_ret
    | |- safe (mfail _) => apply safe_fail
    | |- safe (_ ≫= _) => apply safe_bind
    | |- safe (mwrap _ _ _) => apply safe_wrap
    | |- safe (mset _ _ _) => apply safe_mset
    | |- safe (GetSecretKey _ _ _) => apply safe_secret, Hlibs
    | |- safe (GetKey _ _ _ _) => apply safe_key; apply Hlibs
    | |- safe (convertTLSConfig _ _) => apply safe_tls
    | |- safe (mmap _ _) => apply safe_mmap
    | |- safe (mlift (wrap _ _ _)) => apply safe_lift, wrap_no_panic
    | |- safe (mlift (ValidateURL _)) => apply safe_lift
    | |- safe (mlift (model_ParseDuration _)) => apply safe_lift, Hlibs
    | |- no_panic (ValidateURL _) => apply wrap_no_panic, Hlibs
    | |- no_panic (model_ParseDuration _) => apply Hlibs
    | |- safe (if _ then _ else _) => case_match
    | |- safe (match _ with _ => _ end) => case_match
    end ].
Lemma safe_proxy x : safe (C := C) (convertProxyConfig sClient x key).
Proof. unfold convertProxyConfig, convert_header. safely. Qed.
Lemma safe_http h : credentials_given h → safe (C := C) (convertHTTPConfig sClient cmClient h key).
Proof.
  intros Hc. unfold convertHTTPConfig. apply safe_mset. intros x ->.
  unfold convert_basic_auth, convert_authorization, convert_oauth2. safely; try apply safe_proxy.
  apply safe_lift. edestruct (Hc x) as [c Hcred]; [done..|]. by rewrite Hcred.
Qed.
Lemma safe_url ns sel : safe (C := C) (getValidURLFromSecret sClient ns sel).
Proof. unfold getValidURLFromSecret. safely. Qed.
Lemma safe_optional_secret ns msg o : safe (C := C) (secret sClient ns msg o).
Proof. unfold secret. safely. Qed.
Lemma safe_mandatory ns msg f o : is_Some o → safe (C := C) (mandatory_key sClient ns msg f o).
Proof. intros [sel ->]. unfold mandatory_key. apply safe_bind; [by apply safe_lift|]. safely. Qed.
Lemma safe_duration msg s : safe (C := C) (optional_duration msg s).
Proof. unfold optional_duration. safely. Qed.
Lemma safe_email cfg x : is_Some cfg → safe (C := C) (convertEmailConfig sClient cfg x key).
Proof.
  intros [c ->]. unfold convertEmailConfig. safely; try apply safe_optional_secret.
  all: apply safe_lift; unfold needs_global; simpl; quiet.
Qed.
Lemma safe_receiver cfg r : is_Some cfg → receiver_complete r → safe (C := C) (convertReceiver sClient cmClient cfg r key).
Proof.
  intros Hcfg []. unfold convertReceiver.
  repeat (apply safe_bind; [apply safe_indexed; intros c Hc; rewrite ?Forall_forall in *|intros ?]); try apply safe_ret.
  - unfold convertPagerdutyConfig. safely; auto using safe_optional_secret, safe_http.
  - unfold convertDiscordConfig. safely; auto using safe_url, safe_http.
  - unfold convertSlackConfig. safely; auto using safe_url, safe_http.
  - unfold convertWebhookConfig. safely; auto using safe_url, safe_http.
  - unfold convertOpsgenieConfig. safely; auto using safe_optional_secret, safe_http.
  - unfold convertWeChatConfig. safely; auto using safe_optional_secret, safe_http.
  - by apply safe_email.
  - unfold convertVictorOpsConfig. safely; auto using safe_optional_secret, safe_http.
    apply safe_lift, for_each_no_panic. intros. by case_match.
  - destruct (rc_pushover0 c Hc) as (? & ? & ?). unfold convertPushoverConfig. safely; auto using safe_mandatory, safe_duration, safe_http.
  - unfold convertSnsConfig, convert_sigv4. safely; auto using safe_http.
  - unfold convertTelegramConfig. safely; auto using safe_http. apply safe_mandatory. eauto.
  - unfold convertMSTeamsConfig. safely; auto using safe_http.
  - unfold convertMSTeamsV2Config. safely; auto using safe_http.
  - unfold convertWebexConfig. safely; auto using safe_http.
Qed.
End conversions.

(** ** What validation establishes *)

Section validated.
Context `{Semver} `{RawJSON} `{AmLibs}.

Lemma validated_route receivers intervals v key n : ∀ top x,
  validate_with (check_route receivers intervals) n top x = Ok () → ∃ r, convertRoute_fuel v n x key = Ok r.
Proof.
  induction n as [|n IH]; intros top x; simpl; [done|].
  intros [_ Hv]%bind_ok. apply bind_ok_ex in Hv as (children & -> & Hv). simpl. rewrite for_each_indexed in Hv.
  assert (∃ rs, res_map (fun c => convertRoute_fuel v n c key) children = Ok rs) as [rs ->]; [|eauto].
  setoid_rewrite res_map_ok. induction Hv as [|c l Hc _ [rs Hrs]]; [by exists []|].
  apply IH in Hc as [r Hr]. exists (r :: rs). by constructor.
Qed.
Lemma matcher_maps v ms : ∀ matchers m re, ∃ matchers' m' re', foldl (convert_matcher v) (matchers, Some m, Some re) ms = (matchers', Some m', Some re').
Proof.
  induction ms as [|x ms IH]; intros matchers m re; simpl; [eauto|].
  case_bool_decide; [apply IH|]. case_match; (case_match; apply IH).
Qed.
Lemma convertRoute_map v n x key r : convertRoute_fuel v n x key = Ok r → is_Some (route_Match r).
Proof.
  destruct n as [|n]; simpl; [done|]. intros (? & _ & (rs & _ & [= <-])%bind_ok_ex)%bind_ok_ex.
  unfold convert_one_route, convertMatchersV2. destruct (matcher_maps v (Route_Matchers x) [] ∅ ∅) as (? & ? & ? & ->). eauto.
Qed.
Lemma processRoute_quiet e key r : is_Some (route_Match r) → no_panic (processRoute e key r).
Proof.
  intros [m Hm]. assert (∀ v2, no_panic (namespace_processRoute v2 key r)) as Hq by
    (intros []; unfold namespace_processRoute, assign_key; rewrite ?Hm; simpl; quiet).
  induction e; simpl; quiet.
Qed.
Lemma processRule_quiet e v key x : no_panic (processInhibitRule e key (convertInhibitRule v x)).
Proof.
  assert (∀ v2, no_panic (namespace_processInhibitRule v2 key (convertInhibitRule v x))) as Hq; [|induction e; simpl; quiet].
  unfold convertInhibitRule, convertMatchersV2.
  destruct (matcher_maps v (InhibitRule_SourceMatch x) [] ∅ ∅) as (? & ? & ? & ->).
  destruct (matcher_maps v (InhibitRule_TargetMatch x) [] ∅ ∅) as (? & ? & ? & ->).
  intros []; unfold namespace_processInhibitRule, assign_key; simpl; quiet.
Qed.
Lemma parsed_map {X Y} (p : X → res ParsedRange) (f : ParsedRange → Y) fmt args l :
  for_each (fun x => wrap fmt args (Validate_of (p x))) l = Ok () → ∃ ys, res_map (fun x => f <$> p x) l = Ok ys.
Proof.
  rewrite for_each_ok. induction 1 as [|x l Hx _ [ys IH]]; simpl; [by exists []|].
  apply wrap_ok in Hx. unfold Validate_of in Hx. destruct (p x); simpl in *; [|done..]. rewrite IH. simpl. eauto.
Qed.
Lemma validated_interval t key : MuteTimeInterval_Validate t = Ok () → ∃ y, convertMuteTimeInterval t key = Ok y.
Proof.
  unfold MuteTimeInterval_Validate, convertMuteTimeInterval. case_bool_decide; [done|]. rewrite for_each_ok, Forall_lookup. setoid_rewrite list_lookup_imap. intros Hl.
  assert (∃ l, res_map convert_time_interval (MuteTimeInterval_TimeIntervals t) = Ok l) as [l ->]; [|simpl; eauto].
  assert (∀ x, x ∈ MuteTimeInterval_TimeIntervals t → ∃ y, convert_time_interval x = Ok y) as Hx.
  { intros x [i Hi]%list_elem_of_lookup. specialize (Hl i (i, x)). rewrite Hi in Hl. specialize (Hl eq_refl). simpl in Hl.
    apply bind_ok in Hl as [Ht Hl]. apply bind_ok in Hl as [Hw Hl]. apply bind_ok in Hl as [_ Hl]. apply bind_ok in Hl as [Hm Hy].
    unfold convert_time_interval.
    apply (parsed_map _ (fun p => {| StartMinute := Start p; EndMinute := End p |})) in Ht as [a Ha]. unfold mbind, res_bind.
    change (res_map (fun t => match TimeRange_Parse (TimeRange_StartTime t) (TimeRange_EndTime t) with
      Ok p => Ok {| StartMinute := Start p; EndMinute := End p |} | Err e => Err e | Panic m => Panic m end) (TimeInterval_Times x) = Ok a) in Ha.
    rewrite Ha. apply (parsed_map _ range_of) in Hw as [b ->]. apply (parsed_map _ range_of) in Hm as [d ->].
    apply (parsed_map _ range_of) in Hy as [e ->]. eauto. }
  clear Hl. induction (MuteTimeInterval_TimeIntervals t) as [|x l IH]; simpl; [by exists []|].
  destruct (Hx x) as [y ->]; [set_solver|]. simpl. destruct IH as [ys ->]; [set_solver|]. simpl. eauto.
Qed.
End validated.

(** An object that the operator accepts is complete, but for its MSTeams v2 receivers. *)
Section accepted.
Context `{Semver} `{RawJSON} `{AmLibs} `{ConvertLibs} `{CheckLibs} {C : Type} `{CacheStore C}.
Context (sClient : string → string → res Secret) (cmClient : string → string → res ConfigMap).
Context (pem_Decode : string → option string) (x509_ParseCertificate : string → res ()).
Context (tls_X509KeyPair : string → string → res ()).
Context (amVersion : version).

Lemma mfor_each_elem {S A} (f : A → M S ()) l : ∀ st st' x, mfor_each f l st = (st', Ok ()) → x ∈ l → ∃ st1 st2, f x st1 = (st2, Ok ()).
Proof.
  induction l as [|y l IH]; intros st st' x; simpl; [by intros _ ?%not_elem_of_nil|].
  intros (st1 & [] & E1 & E2)%mbind_ok [->|Hx]%elem_of_cons; eauto.
Qed.
Lemma http_validated {X} (l : list X) (f : X → res ()) (h : X → option HTTPConfig) :
  for_each f l = Ok () → (∀ x, f x = Ok () → HTTPConfig_Validate url_Parse (h x) = Ok ()) → Forall (fun x => credentials_given (h x)) l.
Proof. rewrite for_each_ok. intros HF Hh. eapply Forall_impl; [exact HF|]. intros x Hx. by eapply validated_credentials, Hh. Qed.
Lemma pushover_checked (l : list PushoverConfig) ns st st' :
  checkPushoverConfigs (C := C) sClient cmClient pem_Decode x509_ParseCertificate tls_X509KeyPair amVersion l ns st = (st', Ok ()) →
  Forall (fun c => is_Some (PushoverConfig_UserKey c) ∧ is_Some (PushoverConfig_Token c)) l.
Proof.
  intros E. apply Forall_forall. intros c Hc. destruct (mfor_each_elem _ _ _ _ _ E Hc) as (st1 & st2 & E').
  apply mbind_ok in E' as (? & ? & _ & E'). apply mbind_ok in E' as (? & ? & Eu & E'). apply mbind_ok in E' as (? & ? & Et & _).
  destruct (PushoverConfig_UserKey c), (PushoverConfig_Token c); by eauto.
Qed.
Lemma accepted_receiver r ns st st' :
  validateReceiver r = Ok () →
  check_receiver (C := C) sClient cmClient pem_Decode x509_ParseCertificate tls_X509KeyPair amVersion ns r st = (st', Ok ()) →
  Forall (fun c => credentials_given (MSTeamsV2Config_HTTPConfig c)) (Receiver_MSTeamsV2Configs r) → receiver_complete r.
Proof.
  intros Hv Hc Ht. unfold check_receiver in Hc. do 9 (apply mbind_ok in Hc as (? & ? & _ & Hc)).
  apply mbind_ok in Hc as (? & [] & Hp%pushover_checked & _). unfold validateReceiver in Hv.
  repeat match type of Hv with _ ≫= _ = _ => let Hx := fresh "Hx" in apply bind_ok in Hv as [Hx%wrap_ok Hv] end. apply wrap_ok in Hv.
  split; try assumption; try (apply Forall_and; split; [|done]);
    (eapply http_validated; [eassumption|]; simpl; intros c Hx';
     repeat match type of Hx' with _ ≫= _ = _ => apply bind_ok in Hx' as [_ Hx'] end; exact Hx').
Qed.
Record complete (amc : AlertmanagerConfig) : Prop := {
  complete_namespace : nn_Namespace (crKey_of amc) ≠ "";
  complete_teams : Forall (fun r => Forall (fun c => credentials_given (MSTeamsV2Config_HTTPConfig c)) (Receiver_MSTeamsV2Configs r)) (receivers_of amc);
  complete_accepted : ∃ st st', checkAlertmanagerConfigResource (C := C) sClient cmClient pem_Decode x509_ParseCertificate tls_X509KeyPair
                        amVersion amc st = (st', Ok ());
}.
Lemma complete_validated amc : complete amc → ValidateAlertmanagerConfig amc = Ok () ∧ Forall receiver_complete (receivers_of amc).
Proof.
  intros [Hns Ht (st & st' & E)]. apply mbind_ok in E as (st1 & [] & [_ Hv]%mlift_ok & E). apply mbind_ok in E as (st2 & [] & Hr & _).
  split; [done|]. unfold ValidateAlertmanagerConfig in Hv. apply bind_ok_ex in Hv as (rs & Hrs & _). apply receivers_valid in Hrs as [_ Hrs].
  fold (receivers_of amc) in Hrs. rewrite Forall_forall in Hrs, Ht |- *. intros r Hin.
  destruct (mfor_each_elem _ _ _ _ _ Hr Hin) as (st3 & st4 & E). eapply accepted_receiver; eauto.
Qed.
End accepted.

Section adding.
Context `{Semver} `{RawJSON} `{AmLibs} `{ConvertLibs} `{CheckLibs} `{BuilderLibs} {C : Type} `{CacheStore C}.
Context (sClient : string → string → res Secret) (cmClient : string → string → res ConfigMap).
Context (Hlibs : quiet_libs sClient cmClient).

(** An object is added to a configuration, without a panic. *)
Lemma safe_add_object (cb : ConfigBuilder) amc c subs :
  nn_Namespace (crKey_of amc) ≠ "" → ValidateAlertmanagerConfig amc = Ok () → Forall receiver_complete (receivers_of amc) →
  safe (C := C) (add_object sClient cmClient cb (Some c, subs) amc).
Proof.
  intros Hns Hv Hr. unfold ValidateAlertmanagerConfig in Hv. apply bind_ok_ex in Hv as (rs & _ & Hv). apply bind_ok_ex in Hv as (ts & Hts & Hv).
  apply intervals_valid in Hts as [_ Hts]. fold (intervals_of amc) in Hts. rewrite Forall_forall in Hr.
  rewrite Forall_forall in Hts.
  unfold add_object. fold (rules_of amc) (route_of amc) (receivers_of amc) (intervals_of amc).
  fold (route_of amc) in Hv. apply (safe_mfold_then is_Some); [eauto| | |].
  - intros cfg x [c' ->] _. apply safe_lift. apply bind_no_panic; [apply processRule_quiet|done].
  - intros cfg x st1 st2 cfg' [c' ->] [_ (? & _ & [= <-])%bind_ok_ex]%mlift_ok. eauto.
  - intros cfg Hcfg. destruct (route_of amc) as [x|]; [|done]. apply safe_bind.
    { apply safe_lift. destruct (validated_route _ _ (cb_amVersion cb) (crKey_of amc) _ _ _ Hv) as [r Hr']. rewrite Hr'. simpl.
      by eapply processRoute_quiet, convertRoute_map. }
    intros r. apply (safe_mfold_then is_Some); [done| | |].
    + intros cfg1 y Hcfg1 Hy. unfold append_receiver. apply safe_bind; [apply safe_wrap, safe_receiver; auto|].
      intros z. apply safe_lift. by destruct Hcfg1 as [? ->].
    + intros cfg1 y st2 st3 cfg' [c2 ->] (? & ? & _ & [_ [= <-]]%mlift_ok)%mbind_ok. eauto.
    + intros cfg1 Hcfg1. apply (safe_mfold_then is_Some); [done| | |intros; apply safe_ret].
      * intros cfg2 y [c3 ->] Hy. apply safe_lift. destruct (validated_interval y (crKey_of amc)) as [z ->]; [auto|done].
      * intros cfg2 y st3 st4 cfg' [c3 ->] [_ (? & _ & [= <-])%bind_ok_ex]%mlift_ok. eauto.
Qed.
(** So is a map of objects to a configuration with a root route. *)
Definition rooted (acc : option alertmanagerConfig * list route) : Prop := ∃ c r, acc.1 = Some c ∧ alertmanagerConfig_Route c = Some r.
Lemma safe_add_objects (cb : ConfigBuilder) (amConfigs : gmap string AlertmanagerConfig) :
  rooted (cb_cfg cb, []) →
  (∀ k amc, amConfigs !! k = Some amc →
     nn_Namespace (crKey_of amc) ≠ "" ∧ ValidateAlertmanagerConfig amc = Ok () ∧ Forall receiver_complete (receivers_of amc)) →
  safe (C := C) (AddAlertmanagerConfigs sClient cmClient cb amConfigs).
Proof.
  intros Hroot Hall. apply (safe_mfold_then rooted); [done| | |].
  - intros [cfg subs] amc (c & r & Hc & Hr) (k & Hk)%elem_of_sorted_values. simpl in Hc. subst cfg.
    destruct (Hall k amc Hk) as (? & ? & ?). by apply safe_add_object.
  - intros [cfg subs] amc st st' [cfg' subs'] (c & r & Hc & Hr) E. simpl in Hc. subst cfg.
    apply add_object_ok in E as (n & _ & -> & _). by exists (extend n c), r.
  - intros [cfg subs] (c & r & Hc & Hr). simpl in *. subst cfg. apply safe_bind.
    + apply safe_lift. unfold prepend_routes. simpl. rewrite Hr. done.
    + intros c'. apply safe_bind; [apply safe_lift, configuration_quiet|]. intros; apply safe_ret.
Qed.
End adding.
