(* ===== verification/AmTeams.v ===== *)
(** * MSTeams v2 receivers and their authorization

    The validation of receivers leaves MSTeams v2 out. Two objects that differ only in an
    authorization without credentials that one MSTeams v2 configuration has more ([unauthorized])
    are treated alike by all checks of the operator, but the conversion of the second one
    dereferences the missing credentials. Both runs go through the same steps up to that point. *)

From S2P Require Import Prelude GoStrings SortUtil Meta ApiClient Semver MonitoringV1 Json RouteTree V1alpha1 AmLibs AssetStore.
From S2P Require Import AmTypes AmSanitize AmConvert AmCheck AmBuilder AmLaws ValidationV1alpha1.
Import v1alpha1 validation_v1alpha1.

(** ** Objects that differ in one authorization *)

(** The lists are equal but for one element. *)
Inductive one_changed {A} (R : A → A → Prop) : list A → list A → Prop :=
  | one_changed_intro l x y l' : R x y → one_changed R (l ++ x :: l') (l ++ y :: l').

Definition add_authorization (type : string) (h : HTTPConfig) : HTTPConfig := {|
  HTTPConfig_Authorization := Some {| SafeAuthorization_Type := type; SafeAuthorization_Credentials := None |};
  HTTPConfig_BasicAuth := HTTPConfig_BasicAuth h; HTTPConfig_OAuth2 := HTTPConfig_OAuth2 h;
  HTTPConfig_BearerTokenSecret := HTTPConfig_BearerTokenSecret h; HTTPConfig_TLSConfig := HTTPConfig_TLSConfig h;
  HTTPConfig_ProxyURLOriginal := HTTPConfig_ProxyURLOriginal h; HTTPConfig_ProxyConfig := HTTPConfig_ProxyConfig h;
  HTTPConfig_FollowRedirects := HTTPConfig_FollowRedirects h |}.
Definition set_http (h : option HTTPConfig) (c : MSTeamsV2Config) : MSTeamsV2Config := {|
  MSTeamsV2Config_SendResolved := MSTeamsV2Config_SendResolved c; MSTeamsV2Config_WebhookURL := MSTeamsV2Config_WebhookURL c;
  MSTeamsV2Config_Title := MSTeamsV2Config_Title c; MSTeamsV2Config_Text := MSTeamsV2Config_Text c;
  MSTeamsV2Config_HTTPConfig := h |}.
Definition set_teams (l : list MSTeamsV2Config) (r : Receiver) : Receiver := {|
  Receiver_Name := Receiver_Name r; Receiver_OpsGenieConfigs := Receiver_OpsGenieConfigs r;
  Receiver_PagerDutyConfigs := Receiver_PagerDutyConfigs r; Receiver_DiscordConfigs := Receiver_DiscordConfigs r;
  Receiver_SlackConfigs := Receiver_SlackConfigs r; Receiver_WebhookConfigs := Receiver_WebhookConfigs r;
  Receiver_WeChatConfigs := Receiver_WeChatConfigs r; Receiver_EmailConfigs := Receiver_EmailConfigs r;
  Receiver_VictorOpsConfigs := Receiver_VictorOpsConfigs r; Receiver_PushoverConfigs := Receiver_PushoverConfigs r;
  Receiver_SNSConfigs := Receiver_SNSConfigs r; Receiver_TelegramConfigs := Receiver_TelegramConfigs r;
  Receiver_WebexConfigs := Receiver_WebexConfigs r; Receiver_MSTeamsConfigs := Receiver_MSTeamsConfigs r;
  Receiver_MSTeamsV2Configs := l |}.
Definition set_receivers (l : list Receiver) (amc : AlertmanagerConfig) : AlertmanagerConfig := {|
  AlertmanagerConfig_ObjectMeta := AlertmanagerConfig_ObjectMeta amc;
  AlertmanagerConfig_Spec := {|
    AlertmanagerConfigSpec_Route := AlertmanagerConfigSpec_Route (AlertmanagerConfig_Spec amc);
    AlertmanagerConfigSpec_Receivers := l;
    AlertmanagerConfigSpec_InhibitRules := AlertmanagerConfigSpec_InhibitRules (AlertmanagerConfig_Spec amc);
    AlertmanagerConfigSpec_MuteTimeIntervals := AlertmanagerConfigSpec_MuteTimeIntervals (AlertmanagerConfig_Spec amc) |} |}.

Definition teams_unauthorized (c c' : MSTeamsV2Config) : Prop :=
  ∃ type h, MSTeamsV2Config_HTTPConfig c = Some h ∧ HTTPConfig_Authorization h = None ∧
    c' = set_http (Some (add_authorization type h)) c.
Definition receiver_unauthorized (r r' : Receiver) : Prop :=
  ∃ l, one_changed teams_unauthorized (Receiver_MSTeamsV2Configs r) l ∧ r' = set_teams l r.
(** [amc'] is [amc] with an authorization that lacks its credentials. *)
Definition unauthorized (amc amc' : AlertmanagerConfig) : Prop :=
  ∃ l, one_changed receiver_unauthorized (receivers_of amc) l ∧ amc' = set_receivers l amc.

(** ** Runs that agree, and runs that break off *)

Section runs.
Context {S : Type}.
Lemma mbind_same {A B} (c : M S A) (k k' : A → M S B) s :
  (∀ a s, k a s = k' a s) → (c ≫= k) s = (c ≫= k') s.
Proof. intros Hk. unfold mbind, M_bind. destruct (c s) as [s1 [a| |]]; simpl; auto. Qed.
Lemma mfor_each_same {A} (R : A → A → Prop) (f : A → M S ()) l l' :
  (∀ x y s, R x y → f x s = f y s) → one_changed R l l' → ∀ s, mfor_each f l s = mfor_each f l' s.
Proof.
  intros Hf [l1 x y l2 Hxy]. induction l1 as [|z l1 IH]; intros s; cbn [app mfor_each].
  - unfold mbind, M_bind. by rewrite (Hf x y s Hxy).
  - apply mbind_same. intros _ s1. apply IH.
Qed.
(** [d] panics where [c] succeeds. *)
Definition breaks {A} (msg : string) (c d : M S A) : Prop := ∀ s s' a, c s = (s', Ok a) → (d s).2 = Panic msg.
Lemma breaks_bind {A B} msg (c d : M S A) (k k' : A → M S B) : breaks msg c d → breaks msg (c ≫= k) (d ≫= k').
Proof.
  intros Hb s s' a (s1 & x & Hc & _)%mbind_ok. specialize (Hb _ _ _ Hc). unfold mbind, M_bind.
  destruct (d s) as [s2 [y| |]]; simpl in *; congruence.
Qed.
Lemma breaks_after {A B} msg (c : M S A) (k k' : A → M S B) : (∀ a, breaks msg (k a) (k' a)) → breaks msg (c ≫= k) (c ≫= k').
Proof.
  intros Hb s s' a (s1 & x & Hc & Hk)%mbind_ok. unfold mbind, M_bind. rewrite Hc. by eapply Hb.
Qed.
Lemma breaks_wrap {A} msg f args (c d : M S A) : breaks msg c d → breaks msg (mwrap f args c) (mwrap f args d).
Proof. intros Hb s s' a Hc%mwrap_ok%Hb. unfold mwrap. destruct (d s) as [s2 [| |]]; simpl in *; congruence. Qed.
Lemma breaks_mfold {A B} msg (R : A → A → Prop) (f : B → A → M S B) l l' :
  (∀ b x y, R x y → breaks msg (f b x) (f b y)) → one_changed R l l' → ∀ b, breaks msg (mfold f b l) (mfold f b l').
Proof.
  intros Hf [l1 x y l2 Hxy]. induction l1 as [|z l1 IH]; intros b; cbn [app mfold].
  - apply breaks_bind. by apply Hf.
  - apply breaks_after. intros b1. apply IH.
Qed.
Lemma breaks_mmap {A B} msg (R : A → A → Prop) (f : A → M S B) l l' :
  (∀ x y, R x y → breaks msg (f x) (f y)) → one_changed R l l' → breaks msg (mmap f l) (mmap f l').
Proof.
  intros Hf [l1 x y l2 Hxy]. induction l1 as [|z l1 IH]; cbn [app mmap].
  - apply breaks_bind. by apply Hf.
  - apply breaks_after. intros b1. by apply breaks_bind.
Qed.
Lemma breaks_mmap_indexed {A B} msg fmt (R : A → A → Prop) (f : A → M S B) l l' :
  (∀ x y, R x y → breaks msg (f x) (f y)) → one_changed R l l' → breaks msg (mmap_indexed fmt f l) (mmap_indexed fmt f l').
Proof.
  intros Hf [l1 x y l2 Hxy]. unfold mmap_indexed. rewrite !imap_app. cbn [imap].
  apply (breaks_mmap msg (fun a b => a.1 = b.1 ∧ R a.2 b.2)); [|by constructor].
  intros [i a] [j b] [Hij HR]. simpl in *. subst j. apply breaks_wrap. by apply Hf.
Qed.
End runs.

(** ** The checks do not see it *)

Section checks.
Context `{SemverLaws} `{RawJSON} `{AmLibs} `{ConvertLibs} `{CheckLibs} {C : Type} `{CacheStore C}.
Context (sClient : string → string → res Secret) (cmClient : string → string → res ConfigMap).
Context (pem_Decode : string → option string) (x509_ParseCertificate : string → res ()).
Context (tls_X509KeyPair : string → string → res ()) (v : version).

Lemma validateReceivers_same l l' names :
  one_changed receiver_unauthorized l l' → validateReceivers_from names l = validateReceivers_from names l'.
Proof.
  intros [l1 r r' l2 (teams & _ & ->)]. revert names. induction l1 as [|z l1 IH]; intros names; cbn [app validateReceivers_from].
  - done.
  - case_decide; [done|]. destruct (validateReceiver z) as [[]| |]; simpl; [apply IH|done..].
Qed.
Lemma Validate_same amc amc' : unauthorized amc amc' → ValidateAlertmanagerConfig amc = ValidateAlertmanagerConfig amc'.
Proof.
  intros (l & Hl & ->). unfold ValidateAlertmanagerConfig, validateReceivers. simpl.
  by rewrite <-(validateReceivers_same _ _ ∅ Hl).
Qed.
Lemma since_same {A} (R : A → A → Prop) w msg args l l' (f : A → M (StoreBuilder C) ()) :
  one_changed R l l' → (LT v (MustParse w) = false → ∀ x y s, R x y → f x s = f y s) →
  ∀ s, since v w msg args l f s = since v w msg args l' f s.
Proof.
  intros Hl Hf s. unfold since. destruct Hl as [l1 x y l2 Hxy].
  transitivity ((if LT v (MustParse w) then mfail (Errorf msg args) else mfor_each f (l1 ++ x :: l2)) s); [by destruct l1|].
  transitivity ((if LT v (MustParse w) then mfail (Errorf msg args) else mfor_each f (l1 ++ y :: l2)) s); [|by destruct l1].
  destruct (LT v (MustParse w)); [done|]. eapply mfor_each_same; [by apply Hf|by constructor].
Qed.
Lemma check_teams_same ns l l' (s : StoreBuilder C) :
  one_changed teams_unauthorized l l' →
  checkMSTeamsV2Configs sClient cmClient pem_Decode x509_ParseCertificate tls_X509KeyPair v l ns s =
  checkMSTeamsV2Configs sClient cmClient pem_Decode x509_ParseCertificate tls_X509KeyPair v l' ns s.
Proof.
  intros Hl. unfold checkMSTeamsV2Configs. apply (since_same teams_unauthorized); [done|]. intros Hv c c' s0 (type & h & Hh & Ha & ->).
  cbn [set_http MSTeamsV2Config_WebhookURL MSTeamsV2Config_HTTPConfig].
  assert (GTE v (MustParse "0.22.0") = true) as Hv'.
  { apply (GTE_release v (0, 28, 0)%Z (0, 22, 0)%Z); [unfold GTE; change (release (0, 28, 0)%Z) with "0.28.0"; by rewrite Hv| | |done];
      unfold small; simpl; lia. }
  rewrite Hh. apply mbind_same. intros _ s1.
  assert (checkHTTPConfig v (Some (add_authorization type h)) = checkHTTPConfig v (Some h)) as ->.
  { unfold checkHTTPConfig. rewrite Ha, Hv'. done. }
  apply mbind_same. intros _ s2. unfold configureHTTPConfigInStore. simpl. by rewrite Ha.
Qed.
Lemma check_same amc amc' (s : StoreBuilder C) :
  unauthorized amc amc' →
  checkAlertmanagerConfigResource sClient cmClient pem_Decode x509_ParseCertificate tls_X509KeyPair v amc s =
  checkAlertmanagerConfigResource sClient cmClient pem_Decode x509_ParseCertificate tls_X509KeyPair v amc' s.
Proof.
  intros Hu. unfold checkAlertmanagerConfigResource. rewrite <-(Validate_same _ _ Hu). apply mbind_same. intros _ s1.
  destruct Hu as (l & Hl & ->). unfold checkReceivers, checkInhibitRules. simpl. unfold mbind at 1 3, M_bind at 1 3.
  fold (receivers_of amc). erewrite (mfor_each_same receiver_unauthorized); [done| |exact Hl].
  intros r r' s2 (teams & Ht & ->). unfold check_receiver. simpl. repeat (apply mbind_same; intros _ ?). by apply check_teams_same.
Qed.
End checks.

(** ** The conversion breaks off *)

Section conversion.
Context `{Semver} `{RawJSON} `{AmLibs} `{ConvertLibs} `{CheckLibs} `{BuilderLibs} {C : Type} `{CacheStore C}.
Context (sClient : string → string → res Secret) (cmClient : string → string → res ConfigMap).
Local Abbreviation nil_message := "invalid memory address or nil pointer dereference".
Implicit Types (cb : ConfigBuilder).

Lemma teams_break c c' key :
  teams_unauthorized c c' →
  breaks (S := StoreBuilder C) nil_message (convertMSTeamsV2Config sClient cmClient c key) (convertMSTeamsV2Config sClient cmClient c' key).
Proof.
  intros (type & h & Hh & Ha & ->). unfold convertMSTeamsV2Config. simpl. rewrite Hh. apply breaks_after. intros url.
  apply breaks_bind. unfold convertHTTPConfig. simpl. rewrite Ha. apply breaks_after. intros pc. apply breaks_after. intros basic.
  apply breaks_bind. intros s s' a _. done.
Qed.
Lemma receiver_breaks cfg r r' key :
  receiver_unauthorized r r' →
  breaks (S := StoreBuilder C) nil_message (convertReceiver sClient cmClient cfg r key) (convertReceiver sClient cmClient cfg r' key).
Proof.
  intros (l & Hl & ->). unfold convertReceiver. simpl. do 12 (apply breaks_after; intros ?). apply breaks_bind.
  eapply breaks_mmap_indexed; [|exact Hl]. intros c c' Hc. by apply teams_break.
Qed.
Lemma object_breaks cb acc amc amc' :
  unauthorized amc amc' → is_Some (route_of amc) →
  breaks (S := StoreBuilder C) nil_message (add_object sClient cmClient cb acc amc) (add_object sClient cmClient cb acc amc').
Proof.
  intros (l & Hl & ->) [x Hx]. destruct acc as [cfg subs]. unfold add_object. simpl. fold (route_of amc). rewrite Hx.
  apply breaks_after. intros cfg1. apply breaks_after. intros r. apply breaks_bind.
  eapply breaks_mfold; [|exact Hl]. intros cfg2 y y' Hy. unfold append_receiver. apply breaks_bind, breaks_wrap. by apply receiver_breaks.
Qed.
Lemma SortedKeys_insert {V} (m : gmap string V) k x y : SortedKeys (<[k := x]> m) = SortedKeys (<[k := y]> m).
Proof.
  rewrite <-(SortedKeys_any_order (<[k := x]> m) (SortedKeys (<[k := y]> m))).
  - apply SortedKeys_any_order. apply SortedKeys_Permutation.
  - apply NoDup_Permutation; [apply NoDup_SortedKeys|apply NoDup_keys|]. intros j.
    rewrite elem_of_SortedKeys, elem_of_keys. destruct (decide (j = k)) as [->|Hj];
      [rewrite !lookup_insert_eq; split; by eexists|by rewrite !lookup_insert_ne].
Qed.
Lemma sorted_values_changed (m : gmap string AlertmanagerConfig) k amc amc' :
  one_changed (fun a b => a = amc ∧ b = amc') (sorted_values (<[k := amc]> m)) (sorted_values (<[k := amc']> m)).
Proof.
  unfold sorted_values. rewrite (SortedKeys_insert m k amc amc').
  assert (k ∈ SortedKeys (<[k := amc']> m)) as (l1 & l2 & E)%list_elem_of_split
    by (apply elem_of_SortedKeys; rewrite lookup_insert_eq; by eexists).
  pose proof (NoDup_SortedKeys (<[k := amc']> m)) as Hnd. rewrite E in *. rewrite !omap_app. csimpl. rewrite !lookup_insert_eq.
  assert (∀ (l : list string) x, k ∉ l → omap (fun j => <[k := x]> m !! j) l = omap (fun j => m !! j) l) as Hl.
  { intros l x Hk. induction l as [|j l IH]; csimpl; [done|]. apply not_elem_of_cons in Hk as [Hj Hk].
    rewrite lookup_insert_ne by done. by rewrite IH. }
  apply NoDup_app in Hnd as (_ & Hd1 & [Hd2 _]%NoDup_cons).
  rewrite !Hl by (try done; intros Hk; apply (Hd1 k Hk); set_solver).
  by constructor.
Qed.
Lemma add_breaks cb amConfigs k amc amc' :
  unauthorized amc amc' → is_Some (route_of amc) →
  breaks (S := StoreBuilder C) nil_message (AddAlertmanagerConfigs sClient cmClient cb (<[k := amc]> amConfigs))
    (AddAlertmanagerConfigs sClient cmClient cb (<[k := amc']> amConfigs)).
Proof.
  intros Hu Hr. unfold AddAlertmanagerConfigs. apply breaks_bind.
  eapply breaks_mfold; [|apply sorted_values_changed]. intros acc x y [-> ->]. by apply object_breaks.
Qed.
End conversion.
