(* ===== verification/AmExample.v ===== *)
(** * AlertmanagerConfig objects for examples

    An Alertmanager 0.28.1 with a base configuration and objects of two namespaces, on which the
    witnesses of the configuration builder run, with concrete parsers. *)

From S2P Require Import Prelude GoStrings SortUtil Meta ApiClient Semver MonitoringV1 Json RouteTree V1alpha1 AmLibs AssetStore.
From S2P Require Import AmTypes AmConvert AmCheck AmBuilder AmLaws.
Import v1alpha1.

#[global] Instance am_libs : AmLibs := {| unmarshal_config_URL _ := Ok (); url_Parse _ := Ok (); template_Parse _ := Ok () |}.
#[global] Instance convert_libs : ConvertLibs := {|
  config_URL_String s := s;
  model_ParseDuration s := match Atoi s with Ok z => Ok (z * 1000000000)%Z | _ => Err (Errorf "not a valid duration string: %q" [s]) end |}.
#[global] Instance check_libs : CheckLibs := {| unmarshal_SecretURL _ := Ok () |}.

Definition null_route : route := {|
  route_Receiver := "null"; route_GroupByStr := []; route_Match := None; route_MatchRE := None; route_Matchers := []; route_Continue := false;
  route_Routes := []; route_GroupWait := ""; route_GroupInterval := ""; route_RepeatInterval := ""; route_MuteTimeIntervals := [];
  route_ActiveTimeIntervals := [] |}.
Definition no_receiver (n : string) : receiver := {|
  receiver_Name := n; receiver_OpsgenieConfigs := []; receiver_PagerdutyConfigs := []; receiver_SlackConfigs := []; receiver_WebhookConfigs := [];
  receiver_WeChatConfigs := []; receiver_EmailConfigs := []; receiver_PushoverConfigs := []; receiver_VictorOpsConfigs := [];
  receiver_SNSConfigs := []; receiver_TelegramConfigs := []; receiver_DiscordConfigs := []; receiver_WebexConfigs := [];
  receiver_MSTeamsConfigs := []; receiver_MSTeamsV2Configs := []; receiver_JiraConfigs := []; receiver_RocketChatConfigs := [] |}.
(** The base configuration, with a catch-all route of its own. *)
Definition base_root : route := set_route_Routes [null_route] null_route.
Definition base_config : alertmanagerConfig := {|
  alertmanagerConfig_Global := None; alertmanagerConfig_Route := Some base_root; alertmanagerConfig_InhibitRules := [];
  alertmanagerConfig_Receivers := [no_receiver "null"]; alertmanagerConfig_MuteTimeIntervals := [];
  alertmanagerConfig_TimeIntervals := []; alertmanagerConfig_Templates := [] |}.
#[global] Instance builder_libs : BuilderLibs := {|
  config_Load _ := Ok (); yaml_UnmarshalStrict _ := Ok base_config; yaml_Marshal c := Ok (Join (receiver_Name <$> alertmanagerConfig_Receivers c) ",") |}.

(** ** Objects *)

Definition a_receiver (n : string) (webhooks : list WebhookConfig) (teams : list MSTeamsV2Config) : Receiver := {|
  Receiver_Name := n; Receiver_OpsGenieConfigs := []; Receiver_PagerDutyConfigs := []; Receiver_DiscordConfigs := []; Receiver_SlackConfigs := [];
  Receiver_WebhookConfigs := webhooks; Receiver_WeChatConfigs := []; Receiver_EmailConfigs := []; Receiver_VictorOpsConfigs := [];
  Receiver_PushoverConfigs := []; Receiver_SNSConfigs := []; Receiver_TelegramConfigs := []; Receiver_WebexConfigs := [];
  Receiver_MSTeamsConfigs := []; Receiver_MSTeamsV2Configs := teams |}.
Definition http_config (auth : option SafeAuthorization) (tls : option SafeTLSConfig) : HTTPConfig := {|
  HTTPConfig_Authorization := auth; HTTPConfig_BasicAuth := None; HTTPConfig_OAuth2 := None; HTTPConfig_BearerTokenSecret := None;
  HTTPConfig_TLSConfig := tls; HTTPConfig_ProxyURLOriginal := None;
  HTTPConfig_ProxyConfig := {| ProxyConfig_ProxyURL := None; ProxyConfig_NoProxy := None; ProxyConfig_ProxyFromEnvironment := None;
                               ProxyConfig_ProxyConnectHeader := None |};
  HTTPConfig_FollowRedirects := None |}.
Definition webhook (url : string) : WebhookConfig := {|
  WebhookConfig_SendResolved := None; WebhookConfig_URL := Some url; WebhookConfig_URLSecret := None; WebhookConfig_HTTPConfig := None;
  WebhookConfig_MaxAlerts := 0; WebhookConfig_Timeout := None |}.
Definition a_route (receiver : string) (mute : list string) : Route := {|
  Route_Receiver := receiver; Route_GroupBy := []; Route_GroupWait := ""; Route_GroupInterval := ""; Route_RepeatInterval := "";
  Route_Matchers := [typed_matcher "severity" MatchEqual "critical"]; Route_Continue := false; Route_Routes := [];
  Route_MuteTimeIntervals := mute; Route_ActiveTimeIntervals := [] |}.
Definition object (ns n : string) (spec : AlertmanagerConfigSpec) : AlertmanagerConfig := {|
  AlertmanagerConfig_ObjectMeta := SetNamespace ns (SetName n zero_meta); AlertmanagerConfig_Spec := spec |}.
Definition weekend : TimeInterval := {|
  TimeInterval_Times := []; TimeInterval_Weekdays := ["saturday"; "sunday"]; TimeInterval_DaysOfMonth := []; TimeInterval_Months := []; TimeInterval_Years := [] |}.
Definition mute_interval (n : string) (l : list TimeInterval) : MuteTimeInterval := {| MuteTimeInterval_Name := n; MuteTimeInterval_TimeIntervals := l |}.

(** Two objects with a route; the second one has a time interval, too. *)
Definition team_a : AlertmanagerConfig := object "team-a" "alerts" {|
  AlertmanagerConfigSpec_Route := Some (a_route "web" []); AlertmanagerConfigSpec_Receivers := [a_receiver "web" [webhook "http://a.example"] []];
  AlertmanagerConfigSpec_InhibitRules := []; AlertmanagerConfigSpec_MuteTimeIntervals := [] |}.
Definition team_b (intervals : list TimeInterval) : AlertmanagerConfig := object "team-b" "alerts" {|
  AlertmanagerConfigSpec_Route := Some (a_route "web" ["weekend"]); AlertmanagerConfigSpec_Receivers := [a_receiver "web" [webhook "http://b.example"] []];
  AlertmanagerConfigSpec_InhibitRules := [{| InhibitRule_TargetMatch := [typed_matcher "severity" MatchEqual "warning"];
                                             InhibitRule_SourceMatch := [typed_matcher "severity" MatchEqual "critical"]; InhibitRule_Equal := ["job"] |}];
  AlertmanagerConfigSpec_MuteTimeIntervals := [mute_interval "weekend" intervals] |}.
Definition objects : gmap string AlertmanagerConfig := <["team-b/alerts" := team_b [weekend]]> {["team-a/alerts" := team_a]}.

Definition v028 : version := MustParse "0.28.1".
Definition example_builder : ConfigBuilder := with_cfg (NewConfigBuilder v028 OnNamespaceConfigMatcherStrategyType "monitoring") base_config.
Definition example_result : StoreBuilder (gmap string asset) * res ConfigBuilder :=
  AddAlertmanagerConfigs Example_.secrets Example_.configmaps example_builder objects NewStoreBuilder.

(** An object with an MSTeams v2 receiver. *)
Definition teams_config : MSTeamsV2Config := {|
  MSTeamsV2Config_SendResolved := None; MSTeamsV2Config_WebhookURL := Some (Example_.sel "user"); MSTeamsV2Config_Title := None;
  MSTeamsV2Config_Text := None; MSTeamsV2Config_HTTPConfig := Some (http_config None None) |}.
Definition teams_object : AlertmanagerConfig := object "default" "teams" {|
  AlertmanagerConfigSpec_Route := Some (a_route "teams" []); AlertmanagerConfigSpec_Receivers := [a_receiver "teams" [] [teams_config]];
  AlertmanagerConfigSpec_InhibitRules := []; AlertmanagerConfigSpec_MuteTimeIntervals := [] |}.
