(* ===== verification/AmOperator.v ===== *)
(** * Provisioning the configuration of an Alertmanager object

    selectAlertmanagerConfigs, loadConfigurationFromSecret, createOrUpdateGeneratedConfigSecret,
    provisionAlertmanagerConfiguration and newTLSAssetSecret of pkg/alertmanager/operator.go: the
    AlertmanagerConfig objects are listed and checked, the base configuration is read, the objects
    are added to it, and the result is written into a Secret. *)

From S2P Require Import Prelude GoStrings SortUtil Meta ApiClient K8sUtil Accessor Semver MonitoringV1 Json RouteTree V1alpha1 AmLibs.
From S2P Require Import PromTypes PromCommon AssetStore Status ConfigGenerator Selection ServerConfig.
From S2P Require Import AmTypes AmSanitize AmConvert AmCheck AmBuilder.
Import v1alpha1.

(** ** Alertmanager objects, with the fields that shape the configuration *)

Record AlertmanagerConfiguration := {
  AlertmanagerConfiguration_Name : string;
  AlertmanagerConfiguration_Global : option amv1.AlertmanagerGlobalConfig;
  AlertmanagerConfiguration_Templates : list SecretOrConfigMap;
}.
Record AlertmanagerSpec := {
  AlertmanagerSpec_Version : string;
  AlertmanagerSpec_ConfigSecret : string;
  AlertmanagerSpec_AlertmanagerConfigSelector : option LabelSelector;
  AlertmanagerSpec_AlertmanagerConfigNamespaceSelector : option LabelSelector;
  (** the [Type] of the matcher strategy *)
  AlertmanagerSpec_AlertmanagerConfigMatcherStrategy : string;
  AlertmanagerSpec_AlertmanagerConfiguration : option AlertmanagerConfiguration;
}.
Record Alertmanager := { Alertmanager_ObjectMeta : ObjectMeta; Alertmanager_Spec : AlertmanagerSpec }.
Definition am_Name (am : Alertmanager) : string := om_Name (Alertmanager_ObjectMeta am).
Definition am_Namespace (am : Alertmanager) : string := om_Namespace (Alertmanager_ObjectMeta am).

Definition AlertmanagerConfigKind := "AlertmanagerConfig".
Definition DefaultAlertmanagerVersion := "v0.28.1".
Definition alertmanagerConfigFile := "alertmanager.yaml".
Definition alertmanagerConfigFileCompressed := "alertmanager.yaml.gz".
Definition alertmanagerTemplatesDir := "/etc/alertmanager/templates".
Definition prefixedName (n : string) : string := "alertmanager-" +:+ n.
Definition generatedConfigSecretName (n : string) : string := prefixedName n +:+ "-generated".
Definition defaultConfigSecretName (am : Alertmanager) : string :=
  if bool_decide (AlertmanagerSpec_ConfigSecret (Alertmanager_Spec am) = "") then prefixedName (am_Name am)
  else AlertmanagerSpec_ConfigSecret (Alertmanager_Spec am).

Definition lf : string := String newline EmptyString.
Definition defaultAlertmanagerConfiguration : string :=
  "route:" +:+ lf +:+ "  receiver: 'null'" +:+ lf +:+ "receivers:" +:+ lf +:+ "- name: 'null'".

(** The informers for AlertmanagerConfig objects and their namespaces. *)
Record AmInformers := {
  nsAlrtCfgInf : LabelSelector → res (list string);
  alrtCfgInfs : string → option LabelSelector → res (list AlertmanagerConfig);
}.

Section operator.
Context `{Semver} `{PromLibs} `{KeyFunc} `{RawJSON} `{AmLibs} `{ConvertLibs} `{CheckLibs} `{BuilderLibs} {C : Type} `{CacheStore C}.
Context (sClient : string → string → res Secret) (cmClient : string → string → res ConfigMap).
Context (pem_Decode : string → option string) (x509_ParseCertificate : string → res ()).
Context (tls_X509KeyPair : string → string → res ()).
(** The client for the Secrets of the object's namespace, and the one for AlertmanagerConfig
    objects. *)
Context {St : Type} `{ApiClient Secret St, !Retry, !SemanticEquality Secret}.
Context (amcClient : string → string → res AlertmanagerConfig).
(** Compression, the order in which a map is visited, and the owner reference with the addresses
    of its pointers. *)
Context (gzip_Write : string → res string) (visit : gmap string AlertmanagerConfig → list (string * AlertmanagerConfig)).
Context (owner : Owner) (addrs : nat * nat) (config : Config) (infs : AmInformers).
Local Abbreviation checkResource := (checkAlertmanagerConfigResource (C := C) sClient cmClient pem_Decode x509_ParseCertificate tls_X509KeyPair).
Local Abbreviation selector_state := (@selector_state C).
Local Abbreviation op_state := (@op_state C St).

(** ** Selecting AlertmanagerConfig objects *)

(** The object that is the base configuration. *)
Definition is_global (am : Alertmanager) (amc : AlertmanagerConfig) : bool :=
  match AlertmanagerSpec_AlertmanagerConfiguration (Alertmanager_Spec am) with
  | Some g => bool_decide (om_Namespace (AlertmanagerConfig_ObjectMeta amc) = am_Namespace am) &&
              bool_decide (om_Name (AlertmanagerConfig_ObjectMeta amc) = AlertmanagerConfiguration_Name g)
  | None => false
  end.
Definition add_config (am : Alertmanager) (amConfigs : gmap string AlertmanagerConfig) (amc : AlertmanagerConfig)
    : gmap string AlertmanagerConfig :=
  match MetaNamespaceKey (Object (AlertmanagerConfig_ObjectMeta amc)) with
  | None => amConfigs
  | Some k => if is_global am amc then amConfigs else <[k := amc]> amConfigs
  end.
Fixpoint list_configs (am : Alertmanager) (selector : option LabelSelector) (namespaces : list string)
    (amConfigs : gmap string AlertmanagerConfig) : res (gmap string AlertmanagerConfig) :=
  match namespaces with
  | [] => Ok amConfigs
  | ns :: rest =>
      l ← wrap "failed to list alertmanager configs in namespace %s: %w" [ns] (alrtCfgInfs infs ns selector);
      list_configs am selector rest (foldl (add_config am) amConfigs l)
  end.
Definition config_namespaces (am : Alertmanager) : res (list string) :=
  match AlertmanagerSpec_AlertmanagerConfigNamespaceSelector (Alertmanager_Spec am) with
  | None => Ok [am_Namespace am]
  | Some s => _ ← LabelSelectorAsSelector (Some s); wrap "failed to list namespaces: %w" [] (nsAlrtCfgInf infs s)
  end.
(** The accepted objects and the number of rejected ones. *)
Fixpoint check_configs (amVersion : version) (l : list (string * AlertmanagerConfig)) (accepted : gmap string AlertmanagerConfig) (rejected : Z)
    : M selector_state (gmap string AlertmanagerConfig * Z) :=
  match l with
  | [] => mret (accepted, rejected)
  | (namespaceAndName, amc) :: l =>
      r ← mtry (on_store (checkResource amVersion amc));
      match r with
      | inr _ => check_configs amVersion l accepted (rejected + 1)%Z
      | inl _ => check_configs amVersion l (<[namespaceAndName := amc]> accepted) rejected
      end
  end.
Definition set_config_metrics (am : Alertmanager) (n rejected : Z) : M selector_state () := fun st =>
  match MetaNamespaceKey (Object (Alertmanager_ObjectMeta am)) with
  | None => (st, Ok ())
  | Some amKey =>
      ({| ss_store := ss_store st;
          ss_metrics := SetRejectedResources (SetSelectedResources (ss_metrics st) amKey AlertmanagerConfigKind n)
                          amKey AlertmanagerConfigKind rejected |}, Ok ())
  end.
Definition selectAlertmanagerConfigs (am : Alertmanager) (amVersion : version) : M selector_state (gmap string AlertmanagerConfig) :=
  namespaces ← mlift (config_namespaces am);
  selector ← mlift (LabelSelectorAsSelector (AlertmanagerSpec_AlertmanagerConfigSelector (Alertmanager_Spec am)));
  amConfigs ← mlift (list_configs am selector namespaces ∅);
  r ← check_configs amVersion (visit amConfigs) ∅ 0;
  _ ← set_config_metrics am (Z.of_nat (size r.1)) r.2;
  mret r.1.

(** ** Secrets *)

Definition loadConfigurationFromSecret (am : Alertmanager) : M St (string * gmap string string) :=
  r ← mtry (Get (defaultConfigSecretName am));
  match r with
  | inr err => if IsNotFound err then mret (defaultAlertmanagerConfiguration, ∅) else mfail err
  | inl secret =>
      match sec_Data secret !! alertmanagerConfigFile with
      | None => mret (defaultAlertmanagerConfiguration, sec_Data secret)
      | Some raw =>
          let data := delete alertmanagerConfigFile (sec_Data secret) in
          mret (if bool_decide (raw = "") then defaultAlertmanagerConfiguration else raw, data)
      end
  end.
Definition owned_meta (options : list ObjectOption) : ObjectMeta :=
  UpdateObject zero_meta
    ([WithLabels (config_Labels config); WithAnnotations (config_Annotations config); WithManagingOwner addrs.1 addrs.2 owner] ++ options).
Definition createOrUpdateGeneratedConfigSecret (am : Alertmanager) (conf : string) (additionalData : gmap string string) : M St () :=
  buf ← mlift (wrap "couldnt gzip config: %w" [] (GzipConfig gzip_Write conf));
  mwrap "failed to update generated config secret: %w" []
    (CreateOrUpdateSecret {| sec_meta := owned_meta [WithName (generatedConfigSecretName (am_Name am))]; sec_Type := "";
                             sec_Data := <[alertmanagerConfigFileCompressed := buf]> additionalData |}).
Definition newTLSAssetSecret (am : Alertmanager) : Secret := {|
  sec_meta := owned_meta [WithName (prefixedName (am_Name am) +:+ "-tls-assets"); WithNamespace (am_Namespace am)];
  sec_Type := ""; sec_Data := ∅ |}.

(** ** Provisioning *)

Definition unmanaged (am : Alertmanager) : bool :=
  negb (is_set (AlertmanagerSpec_AlertmanagerConfigSelector (Alertmanager_Spec am))) &&
  negb (is_set (AlertmanagerSpec_AlertmanagerConfiguration (Alertmanager_Spec am))).
(** The files of the notification templates, in the order in which they are appended. *)
Definition template_files (l : list SecretOrConfigMap) : list string :=
  l ≫= fun v =>
    ((fun c => path_Join [alertmanagerTemplatesDir; ConfigMapKeySelector_Key c]) <$> option_list (SecretOrConfigMap_ConfigMap v)) ++
    ((fun c => path_Join [alertmanagerTemplatesDir; SecretKeySelector_Key c]) <$> option_list (SecretOrConfigMap_Secret v)).
Definition am_version (am : Alertmanager) : res version :=
  let amVersion := StringValOrDefault (AlertmanagerSpec_Version (Alertmanager_Spec am)) DefaultAlertmanagerVersion in
  version ← wrap "failed to parse alertmanager version: %w" [] (ParseTolerant amVersion);
  if LT version (MustParse "0.15.0") || bool_decide (Major version > 0)%Z
  then Err (Errorf "unsupported Alertmanager version %q" [amVersion]) else Ok version.
Definition with_templates (files : list string) (cb : ConfigBuilder) : res ConfigBuilder :=
  match files with
  | [] => Ok cb
  | _ => c ← deref (cb_cfg cb); Ok (with_cfg cb (set_alertmanagerConfig_Templates (alertmanagerConfig_Templates c ++ files) c))
  end.
(** The base configuration, from the global AlertmanagerConfig object or from the Secret, and the
    further keys of the Secret. *)
Definition base_configuration (am : Alertmanager) (cb : ConfigBuilder) : M op_state (ConfigBuilder * gmap string string) :=
  match AlertmanagerSpec_AlertmanagerConfiguration (Alertmanager_Spec am) with
  | Some g =>
      globalAmConfig ← mlift (wrap "failed to get global AlertmanagerConfig: %w" [] (amcClient (am_Namespace am) (AlertmanagerConfiguration_Name g)));
      cb ← mwrap "failed to initialize from global AlertmangerConfig: %w" []
             (on_selection (on_store (initializeFromAlertmanagerConfig sClient cmClient pem_Decode x509_ParseCertificate tls_X509KeyPair
                cb (AlertmanagerConfiguration_Global g) globalAmConfig)));
      cb ← mlift (with_templates (template_files (AlertmanagerConfiguration_Templates g)) cb);
      mret (cb, ∅)
  | None =>
      raw ← mwrap "failed to retrieve configuration from secret: %w" [] (on_secrets (loadConfigurationFromSecret am));
      cb ← mlift (wrap "failed to initialize from secret: %w" [] (InitializeFromRawConfiguration cb raw.1));
      mret (cb, raw.2)
  end.
Definition MarshalJSON (cb : ConfigBuilder) : res string :=
  match cb_cfg cb with Some c => yaml_Marshal c | None => Ok ("null" +:+ lf) end.
Definition provisionAlertmanagerConfiguration (am : Alertmanager) : M op_state () :=
  version ← mlift (am_version am);
  if unmanaged am then
    raw ← mwrap "failed to retrieve configuration from secret: %w" [] (on_secrets (loadConfigurationFromSecret am));
    mwrap "create or update generated config secret failed: %w" [] (on_secrets (createOrUpdateGeneratedConfigSecret am raw.1 raw.2))
  else
    amConfigs ← mwrap "failed to select AlertmanagerConfig objects: %w" [] (on_selection (selectAlertmanagerConfigs am version));
    base ← base_configuration am
             (NewConfigBuilder version (AlertmanagerSpec_AlertmanagerConfigMatcherStrategy (Alertmanager_Spec am)) (am_Namespace am));
    cb ← mwrap "failed to generate Alertmanager configuration: %w" []
           (on_selection (on_store (AddAlertmanagerConfigs sClient cmClient base.1 amConfigs)));
    generatedConfig ← mlift (wrap "failed to marshal configuration: %w" [] (MarshalJSON cb));
    mwrap "failed to create or update the generated configuration secret: %w" []
      (on_secrets (createOrUpdateGeneratedConfigSecret am generatedConfig base.2)).
End operator.
