(* ===== verification/PromExample.v ===== *)
(** * Objects for examples

    A Prometheus object, monitors and the libraries of [PromLibs] as concrete values, on which the
    witnesses of the configuration generator run. Fields that are not mentioned have Go's zero
    value. *)

From S2P Require Import Prelude GoStrings SortUtil Meta Semver NamespaceLabeler MonitoringV1 Status.
From S2P Require Import PromTypes PromCommon AssetStore Yaml ConfigGenerator Relabel Monitors ScrapeTypes.
From S2P Require Import ApiClient Accessor Selection SelectionLaws.

#[global] Instance libs : PromLibs := {|
  NewRegexp _ := Ok ();
  LabelName_IsValid s := all_word s;
  ParseDuration s := match Atoi s with Ok z => Ok (z * 1000000000)%Z | _ => Err (Errorf "not a valid duration string: %q" [s]) end;
  ParseBase2Bytes s := Atoi s;
  LabelSelector_String _ := Ok "";
  QuoteMeta s := s |}.

Definition cpf_with (deny : bool) (v : string) (enforced : string) : CommonPrometheusFields :=
  {| cpf_PodMetadata := None; cpf_ServiceMonitorSelector := None; cpf_ServiceMonitorNamespaceSelector := None;
    cpf_PodMonitorSelector := None; cpf_PodMonitorNamespaceSelector := None; cpf_ProbeSelector := None;
    cpf_ProbeNamespaceSelector := None; cpf_ScrapeConfigSelector := None; cpf_ScrapeConfigNamespaceSelector := None;
    cpf_Version := v; cpf_Paused := false; cpf_Replicas := None; cpf_Shards := Some 2%Z;
    cpf_ReplicaExternalLabelName := None; cpf_PrometheusExternalLabelName := None; cpf_LogLevel := ""; cpf_LogFormat
    := ""; cpf_ScrapeInterval := ""; cpf_ScrapeTimeout := ""; cpf_ScrapeProtocols := []; cpf_ExternalLabels := None;
    cpf_EnableRemoteWriteReceiver := false; cpf_EnableOTLPReceiver := None; cpf_RemoteWriteReceiverMessageVersions
    := []; cpf_EnableFeatures := []; cpf_ExternalURL := ""; cpf_RoutePrefix := ""; cpf_Web := None; cpf_RemoteWrite
    := []; cpf_OTLP := None; cpf_ListenLocal := false; cpf_APIServerConfig := None; cpf_PortName := "";
    cpf_ArbitraryFSAccessThroughSMs := {| fsa_Deny := deny |}; cpf_OverrideHonorLabels := false;
    cpf_OverrideHonorTimestamps := false; cpf_IgnoreNamespaceSelectors := false; cpf_EnforcedNamespaceLabel :=
    enforced; cpf_EnforcedSampleLimit := Some 1000%Z; cpf_EnforcedTargetLimit := None; cpf_EnforcedLabelLimit :=
    None; cpf_EnforcedLabelNameLengthLimit := None; cpf_EnforcedLabelValueLengthLimit := None;
    cpf_EnforcedKeepDroppedTargets := None; cpf_EnforcedBodySizeLimit := ""; cpf_NameValidationScheme := None;
    cpf_NameEscapingScheme := None; cpf_ConvertClassicHistogramsToNHCB := None; cpf_ScrapeClassicHistograms := None;
    cpf_AdditionalArgs := []; cpf_WALCompression := None; cpf_ExcludedFromEnforcement := []; cpf_HostNetwork :=
    false; cpf_PodTargetLabels := []; cpf_TracingConfig := None; cpf_AdditionalScrapeConfigs := None; cpf_BodySizeLimit := None; cpf_SampleLimit := None;
    cpf_TargetLimit := None; cpf_LabelLimit := None; cpf_LabelNameLengthLimit := None; cpf_LabelValueLengthLimit :=
    None; cpf_KeepDroppedTargets := None; cpf_ReloadStrategy := None; cpf_MaximumStartupDurationSeconds := None;
    cpf_ScrapeClasses := []; cpf_ServiceDiscoveryRole := None; cpf_TSDB := None; cpf_ScrapeFailureLogFile := None;
    cpf_Runtime := None |}.
Definition cpf : string → string → CommonPrometheusFields := cpf_with false.
Definition prometheus (v : string) (enforced : string) : PrometheusObject :=
  {| po_kind := Prometheus; po_ObjectMeta := SetNamespace "default" (SetName "k8s" zero_meta); po_cpf := cpf v enforced |}.
(** A Prometheus object that denies monitors access to its file system. *)
Definition denying : PrometheusObject :=
  {| po_kind := Prometheus; po_ObjectMeta := SetNamespace "default" (SetName "k8s" zero_meta); po_cpf := cpf_with true "v3.5.0" "" |}.
Definition endpoint_with (a : BasicAuth) : Endpoint :=
  {| ep_Port := "web"; ep_TargetPort := None; ep_Path := ""; ep_Scheme := ""; ep_Params := None; ep_Interval := "";
    ep_ScrapeTimeout := ""; ep_TLSConfig := None; ep_BearerTokenFile := ""; ep_BearerTokenSecret := None;
    ep_Authorization := None; ep_HonorLabels := false; ep_HonorTimestamps := None; ep_TrackTimestampsStaleness :=
    None; ep_BasicAuth := Some a; ep_OAuth2 := None; ep_MetricRelabelConfigs := []; ep_RelabelConfigs :=
    []; ep_ProxyConfig := zero_ProxyConfig; ep_FollowRedirects := None; ep_EnableHttp2 := None; ep_FilterRunning :=
    None |}.
Definition endpoint : Endpoint := endpoint_with Example_.auth.
Definition smon_spec_with (ep : Endpoint) : ServiceMonitorSpec :=
  {| sms_JobLabel := ""; sms_TargetLabels := []; sms_PodTargetLabels := []; sms_Endpoints := [ep];
    sms_Selector := {| ls_MatchLabels := Some {["app" := "api"]}; ls_MatchExpressions := [] |};
    sms_SelectorMechanism := None; sms_NamespaceSelector := {| nsel_Any := false; nsel_MatchNames := [] |};
    sms_SampleLimit := None; sms_ScrapeProtocols := []; sms_FallbackScrapeProtocol := None; sms_TargetLimit := None;
    sms_LabelLimit := None; sms_LabelNameLengthLimit := None; sms_LabelValueLengthLimit := None;
    sms_NativeHistogramConfig := zero_NativeHistogramConfig; sms_KeepDroppedTargets := None; sms_AttachMetadata :=
    None; sms_ScrapeClassName := None; sms_BodySizeLimit := None |}.
Definition smon_spec : ServiceMonitorSpec := smon_spec_with endpoint.
Definition smon_with (n : string) (ep : Endpoint) : ServiceMonitor :=
  {| sm_TypeMeta := {| gk_Group := GroupName; gk_Kind := "ServiceMonitor" |}; sm_ObjectMeta := SetNamespace "default" (SetName n zero_meta);
     sm_Spec := smon_spec_with ep |}.
Definition smon : ServiceMonitor := smon_with "api" endpoint.
(** A ServiceMonitor that refers to a key that does not exist. *)
Definition broken_smon : ServiceMonitor :=
  smon_with "broken" (endpoint_with {| BasicAuth_Username := Example_.sel "user"; BasicAuth_Password := Example_.sel "missing" |}).
Definition pod_endpoint : PodMetricsEndpoint :=
  {| pep_Port := Some "web"; pep_PortNumber := None; pep_TargetPort := None; pep_Path := ""; pep_Scheme := "";
    pep_Params := None; pep_Interval := ""; pep_ScrapeTimeout := ""; pep_TLSConfig := None; pep_BearerTokenSecret :=
    zero_selector; pep_HonorLabels := false; pep_HonorTimestamps := None; pep_TrackTimestampsStaleness := None;
    pep_BasicAuth := None; pep_OAuth2 := None; pep_Authorization := None; pep_MetricRelabelConfigs := [];
    pep_RelabelConfigs := []; pep_ProxyConfig := zero_ProxyConfig; pep_FollowRedirects := None; pep_EnableHttp2 :=
    None; pep_FilterRunning := None |}.
Definition pmon_spec : PodMonitorSpec :=
  {| pms_JobLabel := ""; pms_PodTargetLabels := []; pms_PodMetricsEndpoints := [pod_endpoint]; pms_Selector := {|
    ls_MatchLabels := None; ls_MatchExpressions := [] |}; pms_SelectorMechanism := None; pms_NamespaceSelector := {|
    nsel_Any := false; nsel_MatchNames := [] |}; pms_SampleLimit := None; pms_TargetLimit := None;
    pms_ScrapeProtocols := []; pms_FallbackScrapeProtocol := None; pms_LabelLimit := None; pms_LabelNameLengthLimit
    := None; pms_LabelValueLengthLimit := None; pms_NativeHistogramConfig := zero_NativeHistogramConfig;
    pms_KeepDroppedTargets := None; pms_AttachMetadata := None; pms_ScrapeClassName := None; pms_BodySizeLimit :=
    None |}.
Definition pmon : PodMonitor :=
  {| pm_TypeMeta := {| gk_Group := GroupName; gk_Kind := "PodMonitor" |}; pm_ObjectMeta := SetNamespace "default" (SetName "pods" zero_meta); pm_Spec := pmon_spec |}.

Definition consul (token : option SecretKeySelector) : ConsulSDConfig :=
  {| ConsulSDConfig_Server := "consul:8500"; ConsulSDConfig_PathPrefix := None; ConsulSDConfig_TokenRef := token;
    ConsulSDConfig_Datacenter := None; ConsulSDConfig_Namespace := None; ConsulSDConfig_Partition := None;
    ConsulSDConfig_Scheme := None; ConsulSDConfig_Services := ["web"]; ConsulSDConfig_Tags := [];
    ConsulSDConfig_TagSeparator := None; ConsulSDConfig_NodeMeta := None; ConsulSDConfig_Filter := None;
    ConsulSDConfig_AllowStale := None; ConsulSDConfig_RefreshInterval := None; ConsulSDConfig_BasicAuth := None;
    ConsulSDConfig_Authorization := None; ConsulSDConfig_OAuth2 := None; ConsulSDConfig_ProxyConfig :=
    zero_ProxyConfig; ConsulSDConfig_FollowRedirects := None; ConsulSDConfig_EnableHttp2 := None;
    ConsulSDConfig_TLSConfig := None |}.
Definition scrape_spec (token : option SecretKeySelector) : ScrapeConfigSpec :=
  {| scs_JobName := None; scs_StaticConfigs := []; scs_FileSDConfigs := []; scs_HTTPSDConfigs := [];
    scs_KubernetesSDConfigs := []; scs_ConsulSDConfigs := [consul token]; scs_DNSSDConfigs := []; scs_EC2SDConfigs
    := []; scs_AzureSDConfigs := []; scs_GCESDConfigs := []; scs_OpenStackSDConfigs := []; scs_DigitalOceanSDConfigs
    := []; scs_KumaSDConfigs := []; scs_EurekaSDConfigs := []; scs_DockerSDConfigs := []; scs_LinodeSDConfigs := [];
    scs_HetznerSDConfigs := []; scs_NomadSDConfigs := []; scs_DockerSwarmSDConfigs := []; scs_PuppetDBSDConfigs :=
    []; scs_LightSailSDConfigs := []; scs_OVHCloudSDConfigs := []; scs_ScalewaySDConfigs := []; scs_IonosSDConfigs
    := []; scs_RelabelConfigs := []; scs_MetricsPath := None; scs_ScrapeInterval := None; scs_ScrapeTimeout := None;
    scs_ScrapeProtocols := []; scs_FallbackScrapeProtocol := None; scs_HonorTimestamps := None;
    scs_TrackTimestampsStaleness := None; scs_HonorLabels := None; scs_Params := None; scs_Scheme := None;
    scs_EnableCompression := None; scs_EnableHTTP2 := None; scs_BasicAuth := None; scs_Authorization := None;
    scs_OAuth2 := None; scs_TLSConfig := None; scs_SampleLimit := Some 5000%Z; scs_TargetLimit := None;
    scs_LabelLimit := None; scs_LabelNameLengthLimit := None; scs_LabelValueLengthLimit := None;
    scs_NativeHistogramConfig := zero_NativeHistogramConfig; scs_KeepDroppedTargets := None;
    scs_MetricRelabelConfigs := []; scs_ProxyConfig := zero_ProxyConfig; scs_NameValidationScheme := None;
    scs_NameEscapingScheme := None; scs_ScrapeClassName := None |}.
Definition scrapeconfig (token : option SecretKeySelector) : ScrapeConfig :=
  {| scrapeconfig_TypeMeta := {| gk_Group := GroupName; gk_Kind := ScrapeConfigsKind |};
    scrapeconfig_ObjectMeta := SetNamespace "default" (SetName "consul" zero_meta); scrapeconfig_Spec := scrape_spec token |}.
Definition server_spec (v : string) : PrometheusSpec :=
  {| spec_CommonPrometheusFields := cpf v ""; spec_Retention := ""; spec_RetentionSize := ""; spec_DisableCompaction
    := false; spec_Rules := {| rls_Alert := {| ra_ForOutageTolerance := ""; ra_ForGracePeriod := ""; ra_ResendDelay
    := "" |} |}; spec_RuleSelector := None; spec_Query := None; spec_Alerting := None; spec_RemoteRead := [];
    spec_QueryLogFile := ""; spec_AllowOverlappingBlocks := false; spec_Exemplars := None; spec_EvaluationInterval
    := ""; spec_RuleQueryOffset := None; spec_EnableAdminAPI := false; spec_AdditionalAlertRelabelConfigs := None; spec_AdditionalAlertManagerConfigs := None |}.
Definition store : StoreBuilder (gmap string asset) := (Example_.add_all Example_.additions).1.
Lemma store_wf : cache_wf (objStore store).
Proof.
  intros k o Hk. assert (map_Forall (fun k o => assetKeyFunc o = k) (objStore store)) as Hf by table.
  by apply Hf in Hk.
Qed.

(** Parsers that accept everything, and informers for the objects above. *)
#[global] Instance selection_libs : SelectionLibs := {|
  parse_URL s := Ok {| url_Scheme := ""; url_Host := s |}; fields_ParseSelector _ := Ok (); labels_Parse _ := Ok ();
  IsHost _ := true; IsPort _ := true; uuid_Parse _ := Ok () |}.
Definition in_default {A} (l : list A) (ns : string) (sel : option LabelSelector) : res (list A) :=
  Ok (if bool_decide (ns = "default") then l else []).
Definition no_kinds : res (list GroupVersionKind) := Ok [].
Definition selection_start : selector_state := {| ss_store := NewStoreBuilder; ss_metrics := {| resources := ∅ |} |}.
Lemma example_api : api_answers Example_.secrets Example_.configmaps.
Proof.
  split; [exact Example_.secrets_named|done| |done]. intros ns n s. unfold Example_.secrets.
  case_bool_decide as Hn; [|done]. by destruct Hn as [-> ->].
Qed.
