(* ===== verification/MonitorClaims.v ===== *)
(** * Properties of the scrape configurations of monitors

    Theorems on [generatePodMonitorConfig], [generateServiceMonitorConfig] and
    [generateProbeConfig] with their witnesses: the configuration follows the format of the
    version, and the enforced namespace label cannot be overridden. *)

From S2P Require Import Prelude GoStrings SortUtil Meta Semver NamespaceLabeler MonitoringV1.
From S2P Require Import PromTypes PromCommon AssetStore Yaml ConfigGenerator Relabel Monitors PromExample.

Section claims.
Context `{SemverLaws} `{PromLibs} {C : Type} `{CacheStore C}.

(** For a valid monitor the generator returns, and the scrape configuration it returns follows
    the format of Prometheus: no field occurs twice, at any depth, every field is one the format
    knows and holds a value of its type, and none needs a later version of Prometheus than the one
    that runs. The monitor has passed selection ([monitor_ok]), the options are those of the
    program, the objects of the cache are stored under their own keys, and the version is at
    least 2.26.0. *)
Theorem monitor_config_conforms (p : PrometheusObject) (opts : list ConfigGeneratorOption) (cg : ConfigGenerator)
    (api : option APIServerConfig) (store : StoreBuilder C) (l : Labeler) (shards : Z) (x : monitor) :
  known_options opts → NewConfigGenerator p opts = Ok cg →
  supported cg (Since "2.26.0") = true → api_ok api → cache_wf (objStore store) →
  New (cpf_EnforcedNamespaceLabel (po_cpf p)) (cpf_ExcludedFromEnforcement (po_cpf p)) false = Ok l →
  monitor_ok x →
  ∃ cfg, generate cg api store shards x = Ok cfg ∧ conforms (supported cg) (SObj scrape_fields) (YMap cfg) ∧
    ("relabel_configs", YMaps (monitor_relabelings cg l shards x)) ∈ cfg.
Proof.
  intros Ho Hcg Hv Hapi Hc Hl Hx. apply NewConfigGenerator_wf in Hcg as [Hwf Hp]; [|done].
  assert (ready cg api store) as Hr by (split; try done; exists l; unfold cg_cpf; by rewrite Hp).
  destruct (generate_ok cg api store Hr x shards Hx) as (l' & Hl' & cfg & Hg & Hcf & _ & Hin).
  unfold cg_cpf in Hl'. rewrite Hp, Hl in Hl'. injection Hl' as <-. eauto.
Qed.

(** The relabelings a user attaches to the targets, if the monitor has targets. *)
Definition user_relabelings (x : monitor) : option (list RelabelConfig) :=
  match x with
  | MPod _ ep _ => Some (pep_RelabelConfigs ep)
  | MService _ ep _ => Some (ep_RelabelConfigs ep)
  | MProbe m =>
      match pt_StaticConfig (prs_Targets (probe_Spec m)), pt_Ingress (prs_Targets (probe_Spec m)) with
      | Some st, _ => Some (pts_RelabelConfigs st)
      | None, Some ing => Some (pti_RelabelConfigs ing)
      | None, None => None
      end
  end.
(** The rules of the user and of the enforced namespace come last, but for those of sharding. *)
Lemma relabelings_end cg l shards x rcs :
  user_relabelings x = Some rcs →
  ∃ body lbl b, monitor_relabelings cg l shards x = body ++ (if (b : bool) then sharding_rules shards lbl else []) ∧
    generateRelabelConfig (GetRelabelingConfigs l (monitor_kind x) (monitor_meta x) rcs) `suffix_of` body.
Proof.
  destruct x as [m ep i|m ep i|m]; simpl.
  - intros [= <-]. unfold pod_relabelings. destruct (daemonSet cg).
    + eexists _, "", false. rewrite app_nil_r. split; [done|]. repeat apply suffix_app_r. done.
    + eexists _, _, true. split; [done|]. repeat apply suffix_app_r. done.
  - intros [= <-]. eexists _, _, true. split; [done|]. repeat apply suffix_app_r. done.
  - intros Hu. eexists _, _, true. split; [done|]. repeat apply suffix_app_r. unfold probe_target_rules.
    destruct (pt_StaticConfig _) as [st|]; [|destruct (pt_Ingress _) as [ing|]]; simplify_eq/=;
      repeat first [apply suffix_app_r|apply suffix_cons_r]; done.
Qed.
Lemma enforced_suffix l tm om rcs :
  IsExcluded l tm om = false → enforcedNsLabel l ≠ "" →
  [enforce_rule (enforcedNsLabel l) (om_Namespace om)] `suffix_of` generateRelabelConfig (GetRelabelingConfigs l tm om rcs).
Proof.
  intros He Hl. unfold GetRelabelingConfigs, generateRelabelConfig. rewrite He, fmap_app. simpl.
  exists (relabel_rule <$> rcs). f_equal. unfold relabel_rule, relabel_items. simpl.
  by rewrite bool_decide_true.
Qed.

(** The metric relabelings: those of the scrape class, of the user and of the enforced namespace. *)
Definition user_metric_relabelings (x : monitor) : list RelabelConfig :=
  match x with
  | MPod _ ep _ => pep_MetricRelabelConfigs ep
  | MService _ ep _ => ep_MetricRelabelConfigs ep
  | MProbe m => prs_MetricRelabelConfigs (probe_Spec m)
  end.
Definition monitor_class (cg : ConfigGenerator) (x : monitor) : ScrapeClass :=
  getScrapeClassOrDefault cg match x with
    | MPod m _ _ => pms_ScrapeClassName (pm_Spec m)
    | MService m _ _ => sms_ScrapeClassName (sm_Spec m)
    | MProbe m => prs_ScrapeClassName (probe_Spec m)
    end.
(** Every generator ends with the metric relabelings. *)
Lemma generate_metrics cg api (store : StoreBuilder C) l shards x cfg :
  New (cpf_EnforcedNamespaceLabel (cg_cpf cg)) (cpf_ExcludedFromEnforcement (cg_cpf cg)) false = Ok l →
  generate cg api store shards x = Ok cfg →
  ∃ c, metric_relabelings l (monitor_kind x) (monitor_meta x) (monitor_class cg x) (user_metric_relabelings x) c = Ok cfg.
Proof.
  intros Hl. destruct x as [m ep i|m ep i|m]; cbn [generate].
  - unfold generatePodMonitorConfig. rewrite Hl. rewrite bind_ok_ex. intros (cos & _ & Hr).
    eapply run_last; [|exact Hr]. reflexivity.
  - unfold generateServiceMonitorConfig. rewrite Hl. rewrite bind_ok_ex. intros (cos & _ & Hr).
    eapply run_last; [|exact Hr]. reflexivity.
  - unfold generateProbeConfig. rewrite Hl. cbn [mbind res_bind]. rewrite bind_ok_ex. intros (cos & _ & Hr).
    eapply run_last; [|exact Hr]. reflexivity.
Qed.
(** With an enforced label there are metric relabelings, and its rule is the last one. *)
Lemma metric_relabelings_enforced l tm om sc rcs c cfg :
  IsExcluded l tm om = false → enforcedNsLabel l ≠ "" → metric_relabelings l tm om sc rcs c = Ok cfg →
  ∃ pre, ("metric_relabel_configs", YMaps (pre ++ [enforce_rule (enforcedNsLabel l) (om_Namespace om)])) ∈ cfg.
Proof.
  intros He Hl. destruct (enforced_suffix l tm om rcs He Hl) as [pre Hpre]. unfold metric_relabelings.
  exists (generateRelabelConfig (sc_MetricRelabelings sc) ++ pre). revert H3. rewrite bool_decide_true.
  - intros [= <-]. unfold generateRelabelConfig in *. rewrite fmap_app, Hpre, app_assoc. set_solver.
  - intros [_ Hn]%app_nil. rewrite Hn in Hpre. by destruct pre.
Qed.

(** C13: An enforced namespace label cannot be overridden. When the Prometheus object enforces a
    label and the monitor is not excluded, the scrape configuration generated for it has
    relabelings and metric relabelings such that, whatever the relabelings of the user, of the
    scrape class and of the shards do to a target that is scraped or to a sample that is kept, the
    label ends up as the monitor's own namespace. The monitor is valid and has targets, the label is
    not the one used for sharding, and neither the label nor the namespace has a dollar sign. *)
Theorem enforced_namespace_wins `{RelabelEngine} (p : PrometheusObject) (opts : list ConfigGeneratorOption)
    (cg : ConfigGenerator) (api : option APIServerConfig) (store : StoreBuilder C) (l : Labeler) (shards : Z) (x : monitor) :
  known_options opts → NewConfigGenerator p opts = Ok cg →
  supported cg (Since "2.26.0") = true → api_ok api → cache_wf (objStore store) →
  New (cpf_EnforcedNamespaceLabel (po_cpf p)) (cpf_ExcludedFromEnforcement (po_cpf p)) false = Ok l →
  monitor_ok x → is_Some (user_relabelings x) → (0 < shards)%Z →
  IsExcluded l (monitor_kind x) (monitor_meta x) = false →
  enforcedNsLabel l ∉ [""; hashLabelNameForSharding] →
  contains_char "$" (enforcedNsLabel l) = false → contains_char "$" (om_Namespace (monitor_meta x)) = false →
  ∃ cfg targets samples, generate cg api store shards x = Ok cfg ∧ NoDup cfg.*1 ∧
    ("relabel_configs", YMaps targets) ∈ cfg ∧ ("metric_relabel_configs", YMaps samples) ∈ cfg ∧
    ∀ i t t', run_rules (expand_shard i <$> targets) t = Some t' ∨ run_rules (expand_shard i <$> samples) t = Some t' →
      t' !! enforcedNsLabel l = Some (om_Namespace (monitor_meta x)).
Proof.
  intros Ho Hcg Hv Hapi Hc Hl Hx [rcs Hu] Hs He [Hne Hh]%not_elem_of_cons Hd Hd'.
  apply NewConfigGenerator_wf in Hcg as [Hwf Hp]; [|done].
  assert (ready cg api store) as Hr by (split; try done; exists l; unfold cg_cpf; by rewrite Hp).
  destruct (generate_ok cg api store Hr x shards Hx) as (l' & Hl' & cfg & Hg & Hcf & _ & Hin).
  destruct (generate_metrics cg api store l' shards x cfg Hl' Hg) as [c Hm].
  unfold cg_cpf in Hl'. rewrite Hp, Hl in Hl'. injection Hl' as <-.
  destruct (metric_relabelings_enforced _ _ _ _ _ _ _ He Hne Hm) as [mpre Hmin].
  apply conforms_obj_inv in Hcf as (? & [= <-] & Hnd & _).
  eexists cfg, _, _. split_and!; [done|done|exact Hin|exact Hmin|]. intros i t t'.
  assert (om_Namespace (monitor_meta x) ≠ "") as Hns by by destruct x; destruct Hx.
  assert (enforcedNsLabel l ≠ hashLabelNameForSharding) by set_solver.
  intros [Hrun|Hrun]; revert Hrun.
  - destruct (relabelings_end cg l shards x rcs Hu) as (body & lbl & b & -> & Hsuf).
    destruct (enforced_suffix l _ _ rcs He Hne) as [pre Hpre]. destruct Hsuf as [pre' ->]. rewrite Hpre.
    rewrite <-!app_assoc, app_assoc. by apply enforced_last.
  - rewrite <-(app_nil_r [enforce_rule _ _]). by apply (enforced_last _ shards "" _ _ false).
Qed.
End claims.

(** ** Witnesses *)

Section witnesses.
Import Concrete_engine.
Definition example_monitor : monitor := MService smon endpoint 0.
Definition cg0 : res ConfigGenerator := NewConfigGenerator (prometheus "v3.5.0" "namespace") [WithEndpointSliceSupport].
Lemma monitor_config_conforms_witness :
  ∃ cg cfg, cg0 = Ok cg ∧ generate cg None store 2 example_monitor = Ok cfg ∧
    conforms (supported cg) (SObj scrape_fields) (YMap cfg).
Proof.
  assert (match cg0 with Ok cg => supported cg (Since "2.26.0") | _ => false end = true) as Hv by by vm_compute.
  destruct cg0 as [cg| |] eqn:E; [|discriminate Hv..]. exists cg.
  destruct (monitor_config_conforms (prometheus "v3.5.0" "namespace") [WithEndpointSliceSupport] cg None store
    {| enforcedNsLabel := "namespace"; prometheusRuleLabeler := false; excludeNamespaceGroupKindToNames := ∅ |}
    2 example_monitor) as (cfg & Hg & Hc & _).
  - constructor; [by left|constructor].
  - exact E.
  - exact Hv.
  - intros x [=].
  - exact store_wf.
  - done.
  - split; [done|]. split; [by eexists|done].
  - by exists cfg.
Defined.

Definition labeler0 : Labeler :=
  {| enforcedNsLabel := "namespace"; prometheusRuleLabeler := false; excludeNamespaceGroupKindToNames := ∅ |}.
(** A pod that claims another namespace. *)
Definition liar : labels := {["__address__" := "10.0.0.1:9090"; "namespace" := "kube-system"]}.
Lemma enforced_namespace_wins_witness :
  ∃ cg cfg rules t', cg0 = Ok cg ∧ generate cg None store 2 (MPod pmon pod_endpoint 0) = Ok cfg ∧
    ("relabel_configs", YMaps rules) ∈ cfg ∧
    run_rules (expand_shard 1 <$> rules) liar = Some t' ∧ t' !! "namespace" = Some "default".
Proof.
  assert (match cg0 with
    | Ok cg => supported cg (Since "2.26.0") &&
        match generate cg None store 2 (MPod pmon pod_endpoint 0) with
        | Ok cfg => bool_decide (Exists (fun kv => kv.1 = "relabel_configs" ∧
            kv.2 = YMaps (monitor_relabelings cg labeler0 2 (MPod pmon pod_endpoint 0))) cfg)
        | _ => false
        end &&
        bool_decide (is_Some (run_rules (expand_shard 1 <$> monitor_relabelings cg labeler0 2 (MPod pmon pod_endpoint 0)) liar))
    | _ => false end = true) as Hv by by vm_compute.
  destruct cg0 as [cg| |] eqn:E; [|discriminate Hv..]. apply andb_true_iff in Hv as [Hv Ht].
  apply andb_true_iff in Hv as [Hv Hg]. apply bool_decide_eq_true_1 in Ht as [t' Ht].
  destruct (enforced_namespace_wins (prometheus "v3.5.0" "namespace") [WithEndpointSliceSupport] cg None store labeler0 2
    (MPod pmon pod_endpoint 0)) as (cfg & targets & samples & Hcfg & Hnd & Hin & _ & Hw).
  - constructor; [by left|constructor].
  - exact E.
  - exact Hv.
  - intros x [=].
  - exact store_wf.
  - done.
  - split; [done|by eexists].
  - by eexists.
  - done.
  - done.
  - refine (bool_decide_eq_true_1 _ _). by vm_compute.
  - done.
  - done.
  - exists cg, cfg, targets, t'. rewrite Hcfg in Hg. apply bool_decide_eq_true_1, Exists_exists in Hg as ([k v] & Hk & Hkk & Hkv).
    simpl in Hkk, Hkv. subst k v.
    assert (targets = monitor_relabelings cg labeler0 2 (MPod pmon pod_endpoint 0)) as ->.
    { assert (YMaps targets = YMaps (monitor_relabelings cg labeler0 2 (MPod pmon pod_endpoint 0))) as [= Hy].
      { exact (keys_functional cfg _ _ _ Hnd Hin Hk). }
      revert Hy. apply list_fmap_eq_inj. by intros ? ? [= ->]. }
    split_and!; [done|done|done|done|]. apply (Hw 1%Z liar t'). by left.
Defined.
End witnesses.
