(* ===== verification/ConfigClaims.v ===== *)
(** * Properties of whole Prometheus configurations

    Theorems on [GenerateServerConfiguration], [GenerateAgentConfiguration] and
    [generateScrapeConfig] with their witnesses: the configuration is generated and follows the
    format, job names are distinct, enforced limits apply, and a ScrapeConfig is refused exactly
    when a secret it needs is missing. *)

From S2P Require Import Prelude GoStrings SortUtil Meta Semver NamespaceLabeler MonitoringV1 Status.
From S2P Require Import PromTypes PromCommon AssetStore Yaml ConfigGenerator Relabel Monitors GlobalConfig.
From S2P Require Import ScrapeTypes ServiceDiscovery ScrapeConfigs PromCfg Limits PromExample.

Section claims.
Context `{SemverLaws} `{PromLibs} {C : Type} `{CacheStore C}.
Context (um : string → res (list MapSlice)) (marshal : yaml → res string).


(** The names of the jobs of a list of scrape configurations. *)
Definition job_names (cfgs : list MapSlice) : list (option yaml) := field "job_name" <$> cfgs.
Lemma job_names_jobs cg jobs cfgs : Forall2 (job_config cg) jobs cfgs → job_names cfgs = Some ∘ YStr <$> jobs.
Proof.
  induction 1 as [|j cfg jobs cfgs [Hj _] _ IH]; csimpl; [done|]. rewrite IH. f_equal.
  destruct cfg as [|[k v] cfg]; [done|]. injection Hj as -> ->. unfold field. simpl. by rewrite lookup_insert_eq.
Qed.
Lemma jobs_distinct jobs : NoDup jobs → NoDup (Some ∘ YStr <$> jobs).
Proof. intros Hj. apply NoDup_fmap_2_strong; [|done]. by intros x y _ _ [= ->]. Qed.

(** C20: Prometheus refuses a configuration in which two scrape configurations have the same job
    name. The names that are generated, for the endpoints of all monitors, for probes and for
    ScrapeConfigs, are pairwise different, in server and in agent mode: the objects' names contain
    no slash and the maps are keyed by namespace and name. Scrape configurations that the user
    adds as text ([addl]) are not renamed. *)
Theorem job_names_distinct (cg : ConfigGenerator) (sMons : gmap string ServiceMonitor) (pMons : gmap string PodMonitor)
    (probes : gmap string Probe) (sCons : gmap string ScrapeConfig) (store : StoreBuilder C) (additional : option string)
    (order : list (string * string)) :
  inputs_ok um cg sMons pMons probes sCons store additional order →
  (∃ cfgs addl, server_scrape_configs um cg sMons pMons probes sCons store additional = Ok (cfgs ++ addl) ∧
    generateAdditionalScrapeConfigs um cg additional (shardsNumber (iface (prom cg))) = Ok addl ∧ NoDup (job_names cfgs)) ∧
  (∃ pods addl others,
    agent_scrape_configs um cg sMons pMons probes sCons store additional = Ok (pods ++ addl ++ others) ∧
    generateAdditionalScrapeConfigs um cg additional (shardsNumber (iface (prom cg))) = Ok addl ∧ NoDup (job_names (pods ++ others))).
Proof.
  intros Hin. pose proof (all_jobs_NoDup um cg sMons pMons probes sCons store additional order Hin) as Hnd. split.
  - destruct (server_scrape_configs_ok um cg sMons pMons probes sCons store additional order Hin) as (cfgs & addl & Hs & Ha & Hj).
    exists cfgs, addl. split; [done|]. split; [done|]. rewrite (job_names_jobs _ _ _ Hj). by apply jobs_distinct.
  - destruct (agent_scrape_configs_ok um cg sMons pMons probes sCons store additional order Hin)
      as (pods & addl & others & Hs & Ha & Hp & Ho).
    exists pods, addl, others. split; [done|]. split; [done|].
    rewrite (job_names_jobs cg (pod_jobs pMons ++ (if daemonSet cg then [] else service_jobs sMons ++ probe_jobs probes ++ scrapeConfig_jobs sCons)))
      by by apply Forall2_app.
    apply jobs_distinct. unfold all_jobs in Hnd.
    assert (service_jobs sMons ++ pod_jobs pMons ++ probe_jobs probes ++ scrapeConfig_jobs sCons ≡ₚ
      pod_jobs pMons ++ service_jobs sMons ++ probe_jobs probes ++ scrapeConfig_jobs sCons) as Hp'
      by (rewrite !app_assoc; do 2 f_equiv; apply Permutation_app_comm).
    rewrite Hp' in Hnd. destruct (daemonSet cg); [|done]. rewrite app_nil_r. by apply NoDup_app in Hnd as [? _].
Qed.

(** C21: An enforced limit applies to every scrape job. When the Prometheus object enforces a limit
    (samples, targets, labels, lengths of label names and values, dropped targets) and the version
    knows it, the limit in force for the job of any monitor and of any ScrapeConfig is set and at
    most the enforced one, whatever the user asks for there and in the global section. The limit
    in force is the one of the job and, where that is absent or zero, the one of the global
    section. *)
Theorem enforced_limits_hold (cg : ConfigGenerator) (api : option APIServerConfig) (store : StoreBuilder C) (shards n : Z)
    (k : limitKey) (global : MapSlice) :
  ready cg api store → k ∈ limit_keys → key_supported cg k →
  enforced_limit (cg_cpf cg) k = Some n → (0 < n)%Z → buildGlobalConfig cg [] = Ok global →
  (∀ x job, monitor_ok x → generate cg api store shards x = Ok job → (0 ≤ default 0%Z (limit_of k (monitor_limits x)))%Z →
    (0 < effective_limit global job (lk_prometheusField k) ≤ n)%Z) ∧
  (∀ sc s job, store_ok s → readable s (checked_secrets (scrapeconfig_Spec sc)) →
    generateScrapeConfig cg sc s shards = Ok job → (0 ≤ default 0%Z (limit_of k (scrape_config_limits sc)))%Z →
    (0 < effective_limit global job (lk_prometheusField k) ≤ n)%Z).
Proof.
  intros Hr Hk Hs He Hn Hg. split.
  - intros x job Hx Hj Hl. eapply (enforced_bound cg api store Hr k (limit_of k (monitor_limits x))); try done.
    rewrite <-He. by eapply monitor_limits_field.
  - intros sc s job Hst Hsec Hj Hl. eapply (enforced_bound cg api store Hr k (limit_of k (scrape_config_limits sc))); try done.
    rewrite <-He. by eapply scrape_config_limits_field.
Qed.


(** With a version before 2.26.0 a configured authorization makes the generator panic: it takes
    the first item of a list that is empty because the version does not support it. *)
Theorem authorization_panics (cg : ConfigGenerator) (s : StoreGetter) (a : Authorization) (cfg : MapSlice) :
  bypassVersionCheck cg = false → GTE (cg_version cg) (MustParse "2.26.0") = false → store_ok s →
  addAuthorizationToYaml cg s (Some a) cfg = Panic "index out of range [0] with length 0".
Proof.
  intros Hb Hv Hs. unfold addAuthorizationToYaml, addSafeAuthorizationToYaml, from_res. simpl.
  destruct (emits_conforms _ _ _ (auth_items_emits cg s Hs (Authorization_SafeAuthorization a))) as (m & -> & _). simpl.
  unfold AppendMapItem, WithMinimumVersion. unfold GTE in Hv. apply negb_false_iff in Hv. rewrite Hb, Hv. done.
Qed.
End claims.

(** ** Witnesses *)

Section witnesses.
Definition unmarshal (text : string) : res (list MapSlice) := Ok [].
Definition encode (y : yaml) : res string := Ok "document".
Definition cg1 : res ConfigGenerator := NewConfigGenerator (prometheus "v3.5.0" "") [WithEndpointSliceSupport].
Lemma cg1_ok : ∃ cg, cg1 = Ok cg.
Proof.
  assert (match cg1 with Ok cg => true | _ => false end = true) as Hv by by vm_compute.
  destruct cg1 as [cg| |]; [by exists cg|discriminate Hv..].
Qed.
Definition services : gmap string ServiceMonitor := {["default/api" := smon]}.
Definition pods : gmap string PodMonitor := {["default/pods" := pmon]}.
Definition token : SecretKeySelector := Example_.sel "user".
Definition scrapeconfigs : gmap string ScrapeConfig := {["default/consul" := scrapeconfig (Some token)]}.

Lemma singleton_ok {A} (meta : A → ObjectMeta) (P : A → Prop) k x :
  k = om_Namespace (meta x) +:+ "/" +:+ om_Name (meta x) → no_slash (meta x) → om_Namespace (meta x) ≠ "" → P x →
  objects_ok meta P {[k := x]}.
Proof. intros Hk Hs Hn HP k' y [<- <-]%lookup_singleton_Some. done. Qed.
Lemma cg1_ready cg : cg1 = Ok cg → ready cg None store ∧ prom cg = prometheus "v3.5.0" "".
Proof.
  intros E. assert (match cg1 with Ok cg => supported cg (Since "2.26.0") | _ => false end = true) as Hv by by vm_compute.
  rewrite E in Hv. apply NewConfigGenerator_wf in E as [Hwf Hp]; [|by repeat constructor].
  split; [|done]. split; [done|done|by intros x|exact store_wf|]. unfold cg_cpf. rewrite Hp. by eexists.
Qed.
Lemma token_readable cos : ForNamespace store "default" = Ok cos → readable (getter cos) [Some token].
Proof.
  intros [= <-] x ->%list_elem_of_singleton%(inj Some). eexists. by vm_compute.
Qed.
Lemma example_inputs cg :
  cg1 = Ok cg → inputs_ok unmarshal cg services pods ∅ scrapeconfigs store None [].
Proof.
  intros [Hr Hp]%cg1_ready. unfold cg_cpf in *. split; unfold cg_cpf; rewrite ?Hp; try done.
  - apply singleton_ok; [done..|]. split; [by eexists|]. by repeat constructor.
  - apply singleton_ok; [done..|]. by eexists.
  - apply singleton_ok; [done..|]. intros cos Hc. by apply token_readable.
  - unfold generateAdditionalScrapeConfigs. simpl. destruct (daemonSet cg); by eexists.
  - intros o Ho. unfold cg_cpf in Ho. by rewrite Hp in Ho.
Qed.
Lemma job_names_distinct_witness :
  ∃ cg cfgs addl, cg1 = Ok cg ∧
    server_scrape_configs unmarshal cg services pods ∅ scrapeconfigs store None = Ok (cfgs ++ addl) ∧ NoDup (job_names cfgs).
Proof.
  destruct cg1_ok as [cg E]. exists cg.
  destruct (job_names_distinct unmarshal cg services pods ∅ scrapeconfigs store None [] (example_inputs cg E))
    as [(cfgs & addl & Hs & _ & Hn) _].
  exists cfgs, addl. exact (conj E (conj Hs Hn)).
Defined.
(** A ScrapeConfig that asks for 5000 samples is held to the enforced 1000. *)
Lemma enforced_limits_hold_witness :
  ∃ cg global cos job, cg1 = Ok cg ∧ buildGlobalConfig cg [] = Ok global ∧ ForNamespace store "default" = Ok cos ∧
    generateScrapeConfig cg (scrapeconfig (Some token)) (getter cos) 2 = Ok job ∧
    (0 < effective_limit global job "sample_limit" ≤ 1000)%Z.
Proof.
  destruct cg1_ok as [cg E]. pose proof (cg1_ready cg E) as [Hr Hp].
  destruct (emits_conforms _ _ _ (buildGlobalConfig_emits cg)) as (global & Hg & _).
  destruct (ForNamespace_ok cg None store Hr "default") as (cos & Hf & Hst); [done|].
  destruct (ready_labeler _ _ _ Hr) as [lb Hlb].
  destruct (generateScrapeConfig_ok cg (getter cos) (ready_cg _ _ _ Hr) (ready_version _ _ _ Hr) Hst (scrapeconfig (Some token)) 2 lb Hlb)
    as (job & Hj & _); [by apply token_readable|].
  exists cg, global, cos, job. refine (conj E (conj Hg (conj Hf (conj Hj _)))).
  destruct (enforced_limits_hold cg None store 2 1000 sampleLimitKey global Hr) as [_ Hs]; try done.
  - apply list_elem_of_here.
  - by left.
  - unfold cg_cpf. by rewrite Hp.
  - apply (Hs (scrapeconfig (Some token)) (getter cos) job Hst); [by apply token_readable|done|done].
Defined.
Definition cg_old : res ConfigGenerator := NewConfigGenerator (prometheus "v2.25.2" "") [].
Definition bearer : Authorization := {|
  Authorization_SafeAuthorization := {| SafeAuthorization_Type := ""; SafeAuthorization_Credentials := None |};
  Authorization_CredentialsFile := "/etc/token" |}.
Lemma authorization_panics_witness :
  ∃ cg cos, cg_old = Ok cg ∧ ForNamespace store "default" = Ok cos ∧
    addAuthorizationToYaml cg (getter cos) (Some bearer) [] = Panic "index out of range [0] with length 0".
Proof.
  assert (match cg_old with Ok cg => negb (bypassVersionCheck cg) && negb (GTE (cg_version cg) (MustParse "2.26.0")) | _ => false end = true)
    as Hv by by vm_compute.
  destruct cg_old as [cg| |] eqn:E; [|discriminate Hv..]. apply andb_true_iff in Hv as [Hb Hg].
  eexists cg, _. split; [done|]. split; [done|].
  apply authorization_panics; [by apply negb_true_iff|by apply negb_true_iff|]. by apply getter_ok, store_wf.
Defined.
End witnesses.
