(* ===== verification/ArgClaims.v ===== *)
(** * Properties of command lines and probes

    Theorems on PromArgs.v with their witnesses: which flags the operator passes, which arguments
    of the user it accepts, and how long the startup probe waits. *)

From S2P Require Import Prelude GoStrings SortUtil Meta Semver NamespaceLabeler MonitoringV1 Status.
From S2P Require Import PromTypes PromCommon AssetStore Yaml ConfigGenerator GlobalConfig PromArgs PromExample.

Section claims.
Context `{SemverLaws} `{PromLibs}.

(** C26: The command line of a Prometheus server, or of an agent of version 2.32.0 or later (the first
    with the agent mode), is one Prometheus accepts: the operator passes no flag twice, but
    [enable-feature], which may be repeated; every flag it passes is known to the version that runs
    ([supported]: unless the object turns the checks of the version off), and so is every feature it
    enables, but for those that the user asks for. *)
Theorem managed_flags_accepted (cg : ConfigGenerator) (p : PrometheusSpec) (walCompression : option bool) :
  notCompatible cg = false →
  args_ok (supported cg) (cpf_EnableFeatures (cg_cpf cg)) ((common_flags ++ feature_flags ++ web_flags) ++ server_flags)
    (buildServerArgs cg p) ∧
  (supported cg (Since "2.32.0") = true →
   args_ok (supported cg) (cpf_EnableFeatures (cg_cpf cg)) ((common_flags ++ feature_flags ++ web_flags) ++ agent_flags)
     (buildAgentArgs cg walCompression)).
Proof.
  intros Hcg. split; [|intros Hagent]; apply managed_args_ok; try done; [by apply server_grows|table|by apply agent_grows|table].
Qed.

(** C27: The arguments a user adds are accepted exactly when none of them is a flag that the operator
    sets, or its negation: one of the two names is the other with the prefix [no-] (a name with the
    prefix is not negated again). Then the command line has the flags of the operator followed by
    those of the user, in order, each as [--name=value], or [--name] when it has no value, and
    otherwise an error is reported. *)
Theorem additional_args_accepted (args extra : list Argument) :
  ((∀ a e, a ∈ args → e ∈ extra → ¬ clashes (Argument_Name a) (Argument_Name e)) ∧
   ∃ l, BuildArgs args extra = Ok l ∧ Forall2 passed_as (args ++ extra) l) ∨
  ((∃ a e, a ∈ args ∧ e ∈ extra ∧ clashes (Argument_Name a) (Argument_Name e)) ∧ ∃ err, BuildArgs args extra = Err err).
Proof.
  destruct (decide (intersection (extractArgKeys args) (extractArgKeys extra) = [])) as [Hi|Hi].
  - left. assert (∀ a e, a ∈ args → e ∈ extra → ¬ clashes (Argument_Name a) (Argument_Name e)) as Hc.
    { intros a e Ha He. by apply (proj1 (intersection_nil _ _) Hi); apply list_elem_of_fmap_2. }
    split; [done|]. by apply BuildArgs_ok.
  - right. destruct (exists_clash args extra Hi) as (a & e & Ha & He & Hc). split; [by exists a, e|]. by eapply BuildArgs_err.
Qed.

(** The startup probe waits as long as the user allows. A maximum startup duration of a minute
    or more is covered by the probe (its period times its failure threshold), the period is
    between half a minute and a minute, the probe does not wait longer than a second per attempt
    beyond the duration, and both numbers fit 32 bits. *)
Theorem startup_probe_budget (maximum : Z) :
  (60 ≤ maximum < 2 ^ 31)%Z →
  let '(period, threshold) := getStatupProbePeriodSecondsAndFailureThreshold (Some maximum) in
  (maximum ≤ period * threshold < maximum + threshold ∧ 30 < period ≤ 60 ∧ 1 ≤ threshold < 2 ^ 31)%Z.
Proof.
  intros Hm. unfold getStatupProbePeriodSecondsAndFailureThreshold. simpl. rewrite bool_decide_true by lia.
  pose proof (ceil_div_bounds maximum 60). set (t := ceil_div maximum 60) in *.
  assert (0 < t)%Z by lia. pose proof (ceil_div_bounds maximum t). set (q := ceil_div maximum t) in *. nia.
Qed.
End claims.

(** ** Witnesses *)

Lemma managed_flags_accepted_witness :
  ∃ cg, NewConfigGenerator (prometheus "v3.5.0" "") [] = Ok cg ∧
    args_ok (supported cg) (cpf_EnableFeatures (cg_cpf cg)) ((common_flags ++ feature_flags ++ web_flags) ++ server_flags)
      (buildServerArgs cg (server_spec "v3.5.0")) ∧
    args_ok (supported cg) (cpf_EnableFeatures (cg_cpf cg)) ((common_flags ++ feature_flags ++ web_flags) ++ agent_flags)
      (buildAgentArgs cg (Some true)).
Proof.
  assert (match NewConfigGenerator (prometheus "v3.5.0" "") [] with
          | Ok cg => negb (notCompatible cg) && supported cg (Since "2.32.0") | _ => false end = true) as Hv by by vm_compute.
  destruct (NewConfigGenerator _ _) as [cg| |] eqn:E; [|discriminate Hv..]. apply andb_true_iff in Hv as [Hv Hs].
  exists cg. split; [reflexivity|].
  destruct (managed_flags_accepted cg (server_spec "v3.5.0") (Some true)) as [H1 H2]; [by apply negb_true_iff|].
  split; [exact H1|exact (H2 Hs)].
Defined.
Lemma startup_probe_budget_witness :
  getStatupProbePeriodSecondsAndFailureThreshold (Some 901%Z) = (57, 16)%Z ∧ (901 ≤ 57 * 16 < 901 + 16)%Z.
Proof.
  split; [reflexivity|]. apply (startup_probe_budget 901). split; [done|reflexivity].
Defined.
