(* ===== verification/SelectionClaims.v ===== *)
(** * Properties of selection

    Theorems on [SelectServiceMonitors], [SelectPodMonitors], [SelectProbes] and
    [SelectScrapeConfigs] with their witnesses. *)

From S2P Require Import Prelude GoStrings SortUtil Meta ApiClient Accessor Semver NamespaceLabeler MonitoringV1 Status.
From S2P Require Import PromTypes PromCommon AssetStore Yaml ConfigGenerator ScrapeTypes Monitors ServiceDiscovery.
From S2P Require Import Selection SelectionLaws PromExample.

Lemma unset s : bool_decide (s ≠ "") = false → s = "".
Proof. rewrite bool_decide_eq_false. by destruct (decide (s = "")). Qed.
Lemma no_files ep :
  testForArbitraryFSAccess ep = Ok () →
  ep_BearerTokenFile ep = "" ∧
  ∀ t, ep_TLSConfig ep = Some t → TLSConfig_CAFile t = "" ∧ TLSConfig_CertFile t = "" ∧ TLSConfig_KeyFile t = "".
Proof.
  unfold testForArbitraryFSAccess. rewrite bind_ok, check_ok. intros [Hb Ht]. split; [by apply unset|].
  intros t E. rewrite E, check_ok, !orb_false_iff in Ht. destruct Ht as [[]]. split_and!; by apply unset.
Qed.

Section claims.
Context `{SemverLaws} `{PromLibs} `{SelectionLibs} `{KeyFunc} {C : Type} `{CacheStore C}.
Context (sClient : string → string → res Secret) (cmClient : string → string → res ConfigMap).
Context (pem_Decode : string → option string) (x509_ParseCertificate : string → res ()).
Context (tls_X509KeyPair : string → string → res ()).
Context (rs : ResourceSelector) (nsInf : LabelSelector → res (list string)).
Local Abbreviation cpf := (po_cpf (rs_p rs)).
Local Abbreviation checkServiceMonitor_ := (checkServiceMonitor (C:=C) sClient cmClient pem_Decode x509_ParseCertificate tls_X509KeyPair rs).
Local Abbreviation checkPodMonitor_ := (checkPodMonitor (C:=C) sClient cmClient pem_Decode x509_ParseCertificate tls_X509KeyPair rs).
Local Abbreviation checkProbe_ := (checkProbe (C:=C) sClient cmClient pem_Decode x509_ParseCertificate tls_X509KeyPair rs).
Local Abbreviation checkScrapeConfig_ := (checkScrapeConfig (C:=C) sClient cmClient pem_Decode x509_ParseCertificate tls_X509KeyPair rs).

Section kind.
Context {A : Type} `{Resource A} (check : A → M (StoreBuilder C) ()).
(** The objects that fail their check. *)
Definition failing (objects : gmap string A) : gmap string A := base.filter (fun kv => verdict check kv.2 ≠ Ok ()) objects.
Lemma filter_size (P : string * A → Prop) `{∀ kv, Decision (P kv)} (m : gmap string A) l :
  l ≡ₚ map_to_list m → length (base.filter P l) = size (base.filter P m).
Proof.
  intros Hl. rewrite <-length_map_to_list. apply Permutation_length. rewrite Hl. apply NoDup_Permutation.
  - apply NoDup_filter, NoDup_map_to_list.
  - apply NoDup_map_to_list.
  - intros [k x]. by rewrite list_elem_of_filter, !elem_of_map_to_list, map_lookup_filter_Some, (comm (∧)).
Qed.

(** [select] returns, of the objects that match, exactly those whose check succeeds against an
    empty store, and counts the selected and the rejected ones. *)
Definition selects_exactly (kind : string) (selector nsSelector : option LabelSelector)
    (select : res (list GroupVersionKind) → (string → option LabelSelector → res (list A)) →
      (gmap string A → list (string * A)) → M selector_state (ResourcesSelection A)) : Prop :=
  ∀ kinds listFn visit objects st,
    (∀ m, visit m ≡ₚ map_to_list m) → coherent sClient cmClient (ss_store st) →
    selected_objects rs nsInf kinds listFn selector nsSelector = Ok objects →
    (∀ k o, objects !! k = Some o → no_panic (verdict check o)) →
    ∃ st' l, select kinds listFn visit st = (st', Ok l) ∧
      (∀ k o, ValidResources l !! k = Some o ↔ objects !! k = Some o ∧ verdict check o = Ok ()) ∧
      coherent sClient cmClient (ss_store st') ∧ grows (ss_store st) (ss_store st') ∧
      ∀ pKey, MetaNamespaceKey (Object (po_ObjectMeta (rs_p rs))) = Some pKey →
        ss_metrics st' = SetRejectedResources
          (SetSelectedResources (ss_metrics st) pKey kind (Z.of_nat (size objects))) pKey kind (Z.of_nat (size (failing objects))).
Lemma selectObjects_exact kind selector nsSelector :
  (∀ o, determined sClient cmClient (check o)) → (∀ o, monotone (check o)) →
  selects_exactly kind selector nsSelector
    (fun kinds listFn visit => selectObjects rs nsInf kinds listFn visit kind selector nsSelector check).
Proof.
  intros Hdet Hmono kinds listFn visit objects st Hvisit Hst Hobj Hn.
  assert (Forall (fun kv => no_panic (verdict check kv.2)) (visit objects)) as Hp.
  { apply Forall_forall. intros [k o] Hk. rewrite Hvisit in Hk. apply elem_of_map_to_list in Hk. by eapply Hn. }
  destruct (check_objects_total sClient cmClient check Hdet (visit objects) st Hst Hp) as (st1 & l & E).
  destruct (check_objects_ok sClient cmClient check Hdet Hmono _ _ _ _ Hst E) as [-> Hac].
  unfold selectObjects. rewrite Hobj. unfold mbind at 1, M_bind. unfold mlift. unfold mbind, M_bind. rewrite E.
  unfold set_selection_metrics. rewrite length_fmap, (Permutation_length (Hvisit objects)), length_map_to_list.
  rewrite (rejected_judged check _ Hp), (filter_size _ objects _ (Hvisit objects)).
  assert (∀ k o, ValidResources (judged check <$> visit objects) !! k = Some o ↔ objects !! k = Some o ∧ verdict check o = Ok ()) as Hv.
  { intros k o. rewrite (ValidResources_judged check objects _ Hp (Hvisit objects)). by rewrite map_lookup_filter_Some. }
  pose proof (ac_metrics _ _ _ _ _ _ Hac) as Hm.
  destruct (MetaNamespaceKey _) as [pKey|]; do 2 eexists; (split; [reflexivity|]); (split; [exact Hv|]);
    (split; [apply Hac|]); (split; [apply Hac|]); [|done].
  intros pKey' [= ->]. simpl. by rewrite Hm.
Qed.
(** What the check of an object ensures holds of the valid resources. *)
Lemma valid_ensured kinds listFn visit kind selector nsSelector st st' l k o (Q : Prop) :
  (∀ o, determined sClient cmClient (check o)) → (∀ o, monotone (check o)) → (∀ m, visit m ≡ₚ map_to_list m) →
  coherent sClient cmClient (ss_store st) →
  selectObjects rs nsInf kinds listFn visit kind selector nsSelector check st = (st', Ok l) →
  ValidResources l !! k = Some o → ensures (fun _ => Q) (check o) → Q.
Proof.
  intros Hdet Hmono Hvisit Hst Hsel Hk Hens.
  destruct (selectObjects_ok sClient cmClient check Hdet Hmono rs nsInf kinds listFn visit Hvisit _ _ _ _ _ _ Hst Hsel)
    as (objects & st1 & _ & -> & Hac & _ & Hvalid).
  rewrite Hvalid in Hk. apply map_lookup_filter_Some in Hk as [Hk Hv].
  apply (ac_ensured _ _ _ _ _ _ Hac (k, o) (fun _ => Q)); [|done|apply persistent_pure|done].
  rewrite (Hvisit objects). by apply elem_of_map_to_list.
Qed.
End kind.

Local Abbreviation SelectServiceMonitors_ := (SelectServiceMonitors (C:=C) sClient cmClient pem_Decode x509_ParseCertificate tls_X509KeyPair rs nsInf).
Local Abbreviation SelectScrapeConfigs_ := (SelectScrapeConfigs (C:=C) sClient cmClient pem_Decode x509_ParseCertificate tls_X509KeyPair rs nsInf).

(** C19: Selection of ServiceMonitors, PodMonitors, Probes and ScrapeConfigs. When the matching
    objects can be listed, selection succeeds, however many of them are invalid, and the valid
    resources are exactly the objects whose own check succeeds against an empty store. So the
    outcome depends neither on the order in which Go visits the map, nor on what earlier checks
    left in the store. The store only grows, and the metrics of the object count the selected and
    the rejected resources. *)
Theorem selection_exact :
  api_answers sClient cmClient →
  selects_exactly checkServiceMonitor_ ServiceMonitorsKind (cpf_ServiceMonitorSelector cpf) (cpf_ServiceMonitorNamespaceSelector cpf)
    SelectServiceMonitors_ ∧
  selects_exactly checkPodMonitor_ PodMonitorsKind (cpf_PodMonitorSelector cpf) (cpf_PodMonitorNamespaceSelector cpf)
    (SelectPodMonitors sClient cmClient pem_Decode x509_ParseCertificate tls_X509KeyPair rs nsInf) ∧
  selects_exactly checkProbe_ ProbesKind (cpf_ProbeSelector cpf) (cpf_ProbeNamespaceSelector cpf)
    (SelectProbes sClient cmClient pem_Decode x509_ParseCertificate tls_X509KeyPair rs nsInf) ∧
  selects_exactly checkScrapeConfig_ ScrapeConfigsKind (cpf_ScrapeConfigSelector cpf) (cpf_ScrapeConfigNamespaceSelector cpf)
    SelectScrapeConfigs_.
Proof.
  intros Hapi. pose proof (determined_compositional (C:=C) _ _ Hapi). pose proof (monotone_compositional (C:=C) _ _ Hapi).
  split_and!; apply selectObjects_exact; intros o;
    first [by eapply (comp_checkServiceMonitor _ _ _ _ _ (@determined _ _ _ _))|by eapply comp_checkServiceMonitor
          |by eapply comp_checkPodMonitor|by eapply comp_checkProbe|by eapply comp_checkScrapeConfig].
Qed.

(** C24: A Prometheus object that denies access to the file system: no selected ServiceMonitor has an
    endpoint that names a file, neither a bearer token file nor a CA, certificate or key file. *)
Theorem denied_files_not_selected kinds listFn visit st st' l k sm ep :
  api_answers sClient cmClient → (∀ m, visit m ≡ₚ map_to_list m) → coherent sClient cmClient (ss_store st) →
  fsa_Deny (cpf_ArbitraryFSAccessThroughSMs cpf) = true →
  SelectServiceMonitors_ kinds listFn visit st = (st', Ok l) →
  ValidResources l !! k = Some sm → ep ∈ sms_Endpoints (sm_Spec sm) →
  ep_BearerTokenFile ep = "" ∧
  ∀ t, ep_TLSConfig ep = Some t → TLSConfig_CAFile t = "" ∧ TLSConfig_CertFile t = "" ∧ TLSConfig_KeyFile t = "".
Proof.
  intros Hapi Hvisit Hst Hd Hsel Hk Hep.
  assert (testForArbitraryFSAccess ep = Ok ()) as Ht.
  { eapply (valid_ensured checkServiceMonitor_); [..|exact Hsel|exact Hk|by apply service_monitor_files]; try done; intros o;
      [by apply comp_checkServiceMonitor, determined_compositional|by eapply comp_checkServiceMonitor, monotone_compositional]. }
  by apply no_files.
Qed.

(** With a version of Prometheus before 2.40.0 no ScrapeConfig is ever selected, whatever it
    configures: the check for service discovery with OVHcloud compares the version before it looks
    whether any such configuration is there. *)
Theorem old_version_selects_no_scrapeconfig kinds listFn visit st st' l :
  api_answers sClient cmClient → (∀ m, visit m ≡ₚ map_to_list m) → coherent sClient cmClient (ss_store st) →
  LT (rs_version rs) (MustParse "2.40.0") = true →
  SelectScrapeConfigs_ kinds listFn visit st = (st', Ok l) → ValidResources l = ∅.
Proof.
  intros Hapi Hvisit Hst Hlt Hsel. apply map_empty. intros k. apply eq_None_ne_Some. intros sc Hk.
  assert (LT (rs_version rs) (MustParse "2.40.0") = false); [|congruence].
  eapply (valid_ensured checkScrapeConfig_); [..|exact Hsel|exact Hk|by apply scrape_config_version]; try done; intros o;
    [by apply comp_checkScrapeConfig, determined_compositional|by eapply comp_checkScrapeConfig, monotone_compositional].
Qed.
End claims.

(** ** Witnesses *)

Section witnesses.
Local Abbreviation selector_for p := (NewResourceSelector p).
Local Abbreviation with_secrets f := (f Example_.secrets Example_.configmaps Some (fun _ => Ok ()) (fun _ _ => Ok ())).
Local Abbreviation cache := (gmap string asset).
Definition visit_all {A} (m : gmap string A) : list (string * A) := map_to_list m.
Lemma new_selector p : match selector_for p with Ok _ => true | _ => false end = true → ∃ rs, selector_for p = Ok rs ∧ rs_p rs = p.
Proof.
  destruct (selector_for p) as [rs| |] eqn:E; intros Hx; [|done..]. exists rs. split; [done|].
  unfold NewResourceSelector in E. rewrite bind_ok_ex in E. by destruct E as (v & _ & [= <-]).
Qed.
(** Of two ServiceMonitors, one refers to a key that does not exist. *)
Definition two_monitors := in_default [broken_smon; smon].
Lemma selection_exact_witness :
  ∃ rs st' l, selector_for (prometheus "v3.5.0" "") = Ok rs ∧
    with_secrets (SelectServiceMonitors (C:=cache)) rs (fun _ => Ok []) no_kinds two_monitors visit_all selection_start = (st', Ok l) ∧
    ValidResources l !! "default/api" = Some smon ∧ ValidResources l !! "default/broken" = None.
Proof.
  destruct (new_selector (prometheus "v3.5.0" "")) as (rs & E & Hp); [by vm_compute|]. exists rs.
  destruct (selection_exact (C:=cache) Example_.secrets Example_.configmaps Some (fun _ => Ok ()) (fun _ _ => Ok ()) rs
    (fun _ => Ok []) example_api) as [Hsm _].
  destruct (Hsm no_kinds two_monitors visit_all {["default/broken" := broken_smon; "default/api" := smon]} selection_start)
    as (st' & l & Hl & Hv & _).
  - done.
  - apply coherent_new.
  - unfold selected_objects. rewrite Hp. by vm_compute.
  - injection E as <-. intros k o. rewrite lookup_insert_Some, lookup_singleton_Some.
    by intros [[<- <-]|[_ [<- <-]]] m; vm_compute.
  - exists st', l. refine (conj E (conj Hl _)). injection E as <-. split.
    + apply Hv. split; [done|]. by vm_compute.
    + apply eq_None_ne_Some. intros o Ho. apply Hv in Ho as [Ho Hok].
      rewrite lookup_insert_eq in Ho. injection Ho as <-. by vm_compute in Hok.
Defined.
Lemma denied_files_not_selected_witness :
  ∃ rs st' l, selector_for denying = Ok rs ∧
    with_secrets (SelectServiceMonitors (C:=cache)) rs (fun _ => Ok []) no_kinds (in_default [smon]) visit_all selection_start = (st', Ok l) ∧
    ValidResources l !! "default/api" = Some smon ∧ ep_BearerTokenFile endpoint = "".
Proof.
  destruct (new_selector denying) as (rs & E & Hp); [by vm_compute|]. exists rs.
  destruct (with_secrets (SelectServiceMonitors (C:=cache)) rs (fun _ => Ok []) no_kinds (in_default [smon]) visit_all selection_start)
    as [st' r] eqn:Hl.
  assert (match r with Ok l => ValidResources l !! "default/api" | _ => None end = Some smon) as Hv.
  { replace r with (st', r).2 by done. rewrite <-Hl. injection E as <-. by vm_compute. }
  destruct r as [l| |]; [|done..]. exists st', l.
  refine (conj E (conj eq_refl (conj Hv _))).
  apply (denied_files_not_selected (C:=cache) Example_.secrets Example_.configmaps Some (fun _ => Ok ()) (fun _ _ => Ok ()) rs
    (fun _ => Ok []) no_kinds (in_default [smon]) visit_all selection_start st' l "default/api" smon endpoint).
  - exact example_api.
  - done.
  - apply coherent_new.
  - by rewrite Hp.
  - exact Hl.
  - exact Hv.
  - apply list_elem_of_here.
Defined.
Lemma old_version_selects_no_scrapeconfig_witness :
  ∃ rs st' l, selector_for (prometheus "v2.39.0" "") = Ok rs ∧
    with_secrets (SelectScrapeConfigs (C:=cache)) rs (fun _ => Ok []) no_kinds (in_default [scrapeconfig None]) visit_all selection_start
      = (st', Ok l) ∧ length l = 1 ∧ ValidResources l = ∅.
Proof.
  destruct (new_selector (prometheus "v2.39.0" "")) as (rs & E & Hp); [by vm_compute|]. exists rs.
  destruct (with_secrets (SelectScrapeConfigs (C:=cache)) rs (fun _ => Ok []) no_kinds (in_default [scrapeconfig None]) visit_all selection_start)
    as [st' r] eqn:Hl.
  assert (match r with Ok l => length l | _ => 0 end = 1) as Hv.
  { replace r with (st', r).2 by done. rewrite <-Hl. injection E as <-. by vm_compute. }
  destruct r as [l| |]; [|done..]. exists st', l. refine (conj E (conj eq_refl (conj Hv _))).
  apply (old_version_selects_no_scrapeconfig (C:=cache) Example_.secrets Example_.configmaps Some (fun _ => Ok ()) (fun _ _ => Ok ()) rs
    (fun _ => Ok []) no_kinds (in_default [scrapeconfig None]) visit_all selection_start st' l).
  - exact example_api.
  - done.
  - apply coherent_new.
  - injection E as <-. by vm_compute.
  - exact Hl.
Defined.
End witnesses.
