(* ===== verification/ServerClaims.v ===== *)
(** * The configuration that is written

    Selection and generation together: what [createOrUpdateConfigurationSecret] of servers and of
    agents leaves in the API. *)

From S2P Require Import Prelude GoStrings SortUtil Meta ApiClient K8sUtil Accessor Semver NamespaceLabeler MonitoringV1 Status.
From S2P Require Import PromTypes PromCommon AssetStore Yaml ConfigGenerator Relabel Monitors GlobalConfig.
From S2P Require Import ScrapeTypes ServiceDiscovery ScrapeConfigs PromCfg Selection SelectionLaws ServerConfig PromExample.

(** ** What a successful generation says of its inputs *)

Lemma run_each_ok fs m m' : run fs m = Ok m' → Forall (fun f => ∃ a b, f a = Ok b) fs.
Proof.
  revert m. induction fs as [|f fs IH]; intros m; simpl; [constructor|].
  rewrite bind_ok_ex. intros (m1 & E1 & E2). constructor; [eauto|]. by eapply IH.
Qed.
Lemma from_res_ok {A} (r : res A) k m m' : from_res r k m = Ok m' → ∃ v, r = Ok v ∧ k v m = Ok m'.
Proof. unfold from_res. rewrite bind_ok_ex. intros (v & ? & ?). eauto. Qed.
Lemma or_fail_ok fmt f m m' : or_fail fmt f m = Ok m' → f m = Ok m'.
Proof. unfold or_fail. by rewrite wrap_ok. Qed.

Section success.
Context `{SemverLaws} `{PromLibs} {C : Type} `{CacheStore C}.
Context (um : string → res (list MapSlice)) (marshal : yaml → res string).
Context (cg : ConfigGenerator) (sMons : gmap string ServiceMonitor) (pMons : gmap string PodMonitor).
Context (probes : gmap string Probe) (sCons : gmap string ScrapeConfig) (store : StoreBuilder C).
Context (additional : option string) (order : list (string * string)).
Local Abbreviation shards := (shardsNumber (iface (prom cg))).

Lemma additional_success l m :
  appendAdditionalScrapeConfigs um cg shards l additional = Ok m →
  ∃ addl, generateAdditionalScrapeConfigs um cg additional shards = Ok addl.
Proof. unfold appendAdditionalScrapeConfigs. rewrite bind_ok_ex. intros (a & Ha & _). eauto. Qed.
Lemma alerting_success a x y s m m' :
  appendAlertingConfig um cg a x y s m = Ok m' → is_set a || is_set x || is_set y = true → parses um x ∧ parses um y.
Proof.
  unfold appendAlertingConfig. intros E Hs.
  assert (negb (is_set a) && negb (is_set x) && negb (is_set y) = false) as Hn by by destruct a, x, y.
  rewrite Hn in E. apply from_res_ok in E as (v & _ & (w & Hw & (z & Hz%wrap_ok & _)%from_res_ok)%from_res_ok).
  split; [by exists z|]. destruct (um (default "" y)) as [t| |] eqn:Et; [by exists t|done..].
Qed.
(** What the generator checks itself. *)
Record generable : Prop := {
  gen_timeout : check_timeout (cg_cpf cg) = Ok ();
  gen_additional : ∃ l, generateAdditionalScrapeConfigs um cg additional shards = Ok l;
  gen_otlp : otlp_accepted cg;
}.
Lemma server_generable p relabel am rules conf :
  GenerateServerConfiguration um marshal cg sMons pMons probes sCons store additional order p relabel am rules = Ok conf →
  generable ∧ (is_set (spec_Alerting p) || is_set relabel || is_set am = true → parses um relabel ∧ parses um am).
Proof.
  unfold GenerateServerConfiguration. rewrite bind_ok. intros [Ht (cfg & Hrun & _)%bind_ok_ex].
  apply run_each_ok in Hrun. do 3 apply Forall_cons in Hrun as [_ Hrun].
  apply Forall_cons in Hrun as [(m1 & m2 & (l & Hl & _)%from_res_ok) Hrun]. apply Forall_cons in Hrun as [_ Hrun].
  apply Forall_cons in Hrun as [(m3 & m4 & (cos & _ & Hin)%from_res_ok) _].
  apply run_each_ok in Hin. apply Forall_cons in Hin as [(m5 & m6 & Ha%or_fail_ok) Hin].
  do 2 apply Forall_cons in Hin as [_ Hin]. apply Forall_cons in Hin as [(m7 & m8 & Ho%or_fail_ok) _].
  split; [|by eapply alerting_success]. split; [done| |by eapply appendOTLPConfig_accepted].
  unfold server_scrape_configs in Hl. rewrite bind_ok_ex in Hl. destruct Hl as (l1 & _ & Hl).
  do 3 (rewrite bind_ok_ex in Hl; destruct Hl as (? & _ & Hl)). apply wrap_ok in Hl. by eapply additional_success.
Qed.
Lemma agent_generable conf :
  GenerateAgentConfiguration um marshal cg sMons pMons probes sCons store additional order = Ok conf → generable.
Proof.
  unfold GenerateAgentConfiguration. rewrite bind_ok. intros [Ht (cfg & Hrun & _)%bind_ok_ex].
  apply run_each_ok in Hrun. do 2 apply Forall_cons in Hrun as [_ Hrun].
  apply Forall_cons in Hrun as [(m1 & m2 & (l & Hl & _)%from_res_ok) Hrun]. apply Forall_cons in Hrun as [_ Hrun].
  apply Forall_cons in Hrun as [(m3 & m4 & (cos & _ & Hin)%from_res_ok) _].
  apply run_each_ok in Hin. apply Forall_cons in Hin as [_ Hin]. apply Forall_cons in Hin as [(m7 & m8 & Ho%or_fail_ok) _].
  split; [done| |by eapply appendOTLPConfig_accepted].
  unfold agent_scrape_configs in Hl. rewrite bind_ok_ex in Hl. destruct Hl as (l1 & _ & Hl).
  rewrite bind_ok_ex in Hl. destruct Hl as (l2 & Hl%wrap_ok & _). by eapply additional_success.
Qed.
End success.

(** ** What selection provides *)

(** What the informers hand out: objects of the API, with a namespace and names without a slash. *)
Definition listing_ok {A} `{Resource A} (L : A → Prop) (listFn : string → option LabelSelector → res (list A)) : Prop :=
  ∀ ns sel l o, listFn ns sel = Ok l → o ∈ l → no_slash (r_meta o) ∧ om_Namespace (r_meta o) ≠ "" ∧ L o.
Definition azure_ok (sc : ScrapeConfig) : Prop := Forall azure_checked (scs_AzureSDConfigs (scrapeconfig_Spec sc)).
Record informers_ok (infs : Informers) : Prop := {
  inf_smons : listing_ok (fun _ => True) (smonInfs infs);
  inf_pmons : listing_ok (fun _ => True) (pmonInfs infs);
  inf_probes : listing_ok (fun _ => True) (probeInfs infs);
  inf_scons f : sconInfs infs = Some f → listing_ok azure_ok f;
}.

Section selection.
Context `{SemverLaws} `{PromLibs} `{SelectionLibs} `{KeyFunc} {C : Type} `{CacheStore C}.
Context (sClient : string → string → res Secret) (cmClient : string → string → res ConfigMap).
Context (pem_Decode : string → option string) (x509_ParseCertificate : string → res ()).
Context (tls_X509KeyPair : string → string → res ()).
Context (Hapi : api_answers sClient cmClient).
Context (ObjectKinds : string → res (list GroupVersionKind)) (visit : ∀ A, gmap string A → list (string * A)).
Context (Hvisit : ∀ A m, visit A m ≡ₚ map_to_list m).
Local Abbreviation coherent_ := (coherent sClient cmClient).

Lemma key_of_object om k : om_Namespace om ≠ "" → MetaNamespaceKey (Object om) = Some k → k = om_Namespace om +:+ "/" +:+ om_Name om.
Proof. unfold MetaNamespaceKey. rewrite KeyFunc_object. intros Hn. rewrite bool_decide_false by done. by intros [= <-]. Qed.

(** One kind of resource: the valid ones have what the check ensures. *)
Lemma selected_valid {A} `{Resource A} (L : A → Prop) (P : StoreBuilder C → A → Prop) (checkFn : A → M (StoreBuilder C) ())
    rs nsInf kinds listFn kind selector nsSelector st st' sel :
  (∀ o, determined sClient cmClient (checkFn o)) → (∀ o, monotone (checkFn o)) →
  (∀ k o, L o → L (r_set_kind k o)) → (∀ o, persistent (fun s => P s o)) → (∀ o, L o → ensures (fun s => P s o) (checkFn o)) →
  listing_ok L listFn → coherent_ (ss_store st) →
  selectObjects rs nsInf kinds listFn (visit A) kind selector nsSelector checkFn st = (st', Ok sel) →
  coherent_ (ss_store st') ∧ grows (ss_store st) (ss_store st') ∧ objects_ok r_meta (P (ss_store st')) (ValidResources sel).
Proof.
  intros Hdet Hmono Hkind Hpers Hens Hlist Hst Hsel.
  destruct (selectObjects_ok sClient cmClient checkFn Hdet Hmono rs nsInf kinds listFn (visit A) (Hvisit A) _ _ _ _ _ _ Hst Hsel)
    as (objects & st1 & Hobj & -> & Hac & Hs & Hvalid).
  rewrite Hs. split; [apply Hac|]. split; [apply Hac|]. rewrite Hvalid.
  intros k x [Hk Hv]%map_lookup_filter_Some. simpl in Hv.
  unfold selected_objects in Hobj. rewrite bind_ok_ex in Hobj. destruct Hobj as (ls & _ & Hobj).
  rewrite bind_ok_ex in Hobj. destruct Hobj as (nss & _ & Hobj).
  destruct (list_objects_lookup kinds listFn _ _ _ _ _ _ Hobj Hk) as [Hk'|(ns & l & o & Hl & Ho & Hkey & Hx)];
    [by rewrite lookup_empty in Hk'|].
  destruct (Hlist _ _ _ _ Hl Ho) as (Hslash & Hne & HL). rewrite (listed_meta _ _ Hx).
  split; [by apply key_of_object|]. split; [done|]. split; [done|].
  assert (L x) as HLx by (destruct Hx as [g [-> | ->]]; auto).
  apply (ac_ensured _ _ _ _ _ _ Hac (k, x) (fun s => P s x)); auto.
  rewrite (Hvisit A objects). by apply elem_of_map_to_list.
Qed.

Lemma service_monitor_ensured rs sm :
  ensures (fun _ => service_ok sm)
    (checkServiceMonitor (C:=C) sClient cmClient pem_Decode x509_ParseCertificate tls_X509KeyPair rs sm).
Proof.
  intros st st' v E. split; [by eapply service_monitor_selector|].
  apply Forall_forall. intros ep Hep. by eapply service_monitor_tls.
Qed.
(** The secrets that a ScrapeConfig needs are in the store. *)
Definition secrets_loaded (s : StoreBuilder C) (sc : ScrapeConfig) : Prop :=
  ∀ x, Some x ∈ checked_secrets (scrapeconfig_Spec sc) → resolved s (om_Namespace (scrapeconfig_ObjectMeta sc)) (secret_ref x).
Lemma secrets_loaded_persistent sc : persistent (fun s => secrets_loaded s sc).
Proof. intros s s' Hg Hs x Hx. eapply persistent_resolved; [done|by apply Hs]. Qed.
Lemma secrets_loaded_ok s sc : secrets_loaded s sc → secrets_ok s sc.
Proof.
  intros Hs cos Hcos x Hx. destruct (Hs x Hx) as [v Hv]. exists v. unfold ForNamespace in Hcos.
  case_bool_decide; [done|]. injection Hcos as <-. unfold resolves, cos_GetSecretOrConfigMapKey in Hv. simpl in *.
  by destruct (cos_GetSecretKey _ x).
Qed.

Record resources_ok (s : StoreBuilder C) (r : Resources) : Prop := {
  ro_smons : objects_ok sm_ObjectMeta service_ok (res_smons r);
  ro_pmons : objects_ok pm_ObjectMeta pod_ok (res_pmons r);
  ro_probes : objects_ok probe_ObjectMeta (fun _ => True) (res_probes r);
  ro_scons : objects_ok scrapeconfig_ObjectMeta (secrets_loaded s) (res_scons r);
}.
Lemma objects_ok_impl {A} meta (P Q : A → Prop) m : (∀ x, P x → Q x) → objects_ok meta P m → objects_ok meta Q m.
Proof. intros HPQ Hm k x Hx. destruct (Hm k x Hx) as (? & ? & ? & ?). auto. Qed.

Lemma select_resources_ok infs p st st' r :
  informers_ok infs → coherent_ (ss_store st) →
  select_resources sClient cmClient pem_Decode x509_ParseCertificate tls_X509KeyPair ObjectKinds visit infs p st = (st', Ok r) →
  coherent_ (ss_store st') ∧ resources_ok (ss_store st') r.
Proof.
  intros Hinf Hst. unfold select_resources.
  intros (s0 & rs & [<- Hrs]%mlift_ok & (s1 & sm & E1%mwrap_ok & (s2 & pm & E2%mwrap_ok & (s3 & pr & E3%mwrap_ok & E)%mbind_ok)%mbind_ok)%mbind_ok)%mbind_ok.
  eapply (selected_valid (fun _ => True) (fun _ => service_ok)) in E1 as (Hc1 & _ & Hsm);
    [|intros o; by apply comp_checkServiceMonitor, determined_compositional
     |intros o; by eapply comp_checkServiceMonitor, (monotone_compositional _ _ Hapi)
     |done|intros o; apply persistent_pure|intros o _; apply service_monitor_ensured|apply Hinf|done].
  eapply (selected_valid (fun _ => True) (fun _ => pod_ok)) in E2 as (Hc2 & _ & Hpm);
    [|intros o; by apply comp_checkPodMonitor, determined_compositional
     |intros o; by eapply comp_checkPodMonitor, (monotone_compositional _ _ Hapi)
     |done|intros o; apply persistent_pure|intros o _; by apply pod_monitor_selector|apply Hinf|done].
  eapply (selected_valid (fun _ => True) (fun _ _ => True)) in E3 as (Hc3 & _ & Hpr);
    [|intros o; by apply comp_checkProbe, determined_compositional
     |intros o; by eapply comp_checkProbe, (monotone_compositional _ _ Hapi)
     |done|intros o; apply persistent_pure|done|apply Hinf|done].
  apply mbind_ok in E as (s4 & sc & E & [<- <-]%mret_ok).
  destruct (sconInfs infs) as [listFn|] eqn:Elist.
  - apply mwrap_ok in E.
    eapply (selected_valid azure_ok secrets_loaded) in E as (Hc4 & _ & Hsc);
      [|intros o; by apply comp_checkScrapeConfig, determined_compositional
       |intros o; by eapply comp_checkScrapeConfig, (monotone_compositional _ _ Hapi)
       |done|apply secrets_loaded_persistent
       |intros o Hz s s' v Hv x Hx; by eapply scrape_config_secrets
       |by apply Hinf|done].
    split; [done|]. by split.
  - apply mret_ok in E as [<- <-]. split; [done|]. by split.
Qed.

(** ** What the object itself refers to *)

Local Abbreviation addition_of := (run_addition sClient cmClient pem_Decode x509_ParseCertificate tls_X509KeyPair).
Lemma comp_add_alertmanager P ns am :
  compositional sClient cmClient P →
  P unit (addAlertmanagerEndpoint (C:=C) sClient cmClient pem_Decode x509_ParseCertificate tls_X509KeyPair ns am).
Proof.
  intros HP. assert (∀ x, P unit (addition_of x)) as Hadd by (intros x; by apply comp_addition).
  apply (comp_bind _ _ P HP); [apply (Hadd (ns, OfBasicAuth _))|intros _].
  apply (comp_bind _ _ P HP); [apply (Hadd (ns, OfSafeAuthorization _))|intros _].
  apply (comp_bind _ _ P HP); [apply (Hadd (ns, OfSigV4 _))|intros _].
  apply (comp_bind _ _ P HP); [apply (Hadd (ns, OfTLSConfig _))|intros _].
  apply (Hadd (ns, OfProxyConfig _)).
Qed.
Lemma comp_add_alertmanagers P ns ams :
  compositional sClient cmClient P →
  P unit (addAlertmanagerEndpointsToStore (C:=C) sClient cmClient pem_Decode x509_ParseCertificate tls_X509KeyPair ns ams).
Proof.
  intros HP. apply (comp_for_each _ _ P HP). intros [i am]. apply (comp_wrap _ _ P HP). by apply comp_add_alertmanager.
Qed.
Lemma comp_load_server_assets P p spec :
  compositional sClient cmClient P →
  P unit (load_server_assets (C:=C) sClient cmClient pem_Decode x509_ParseCertificate tls_X509KeyPair p spec).
Proof.
  intros HP. apply (comp_bind _ _ P HP); [by apply comp_AddRemoteReads|intros _].
  apply (comp_bind _ _ P HP); [by apply comp_AddRemoteWrites|intros _].
  apply (comp_bind _ _ P HP); [by apply comp_AddAPIServerConfig|intros _].
  apply (comp_bind _ _ P HP); [|intros _; apply (comp_wrap _ _ P HP); by apply comp_AddScrapeClasses].
  destruct (spec_Alerting spec) as [a|]; [|apply (comp_ret _ _ P HP)].
  apply (comp_bind _ _ P HP); [|intros _; by apply comp_add_alertmanagers].
  apply (comp_for_each _ _ P HP). intros [i am]. apply (comp_wrap _ _ P HP), (comp_lift _ _ P HP).
Qed.
Lemma comp_load_agent_assets P p :
  compositional sClient cmClient P →
  P unit (load_agent_assets (C:=C) sClient cmClient pem_Decode x509_ParseCertificate tls_X509KeyPair p).
Proof.
  intros HP. apply (comp_bind _ _ P HP); [by apply comp_AddRemoteWrites|intros _].
  apply (comp_bind _ _ P HP); [by apply comp_AddAPIServerConfig|intros _].
  apply (comp_wrap _ _ P HP). by apply comp_AddScrapeClasses.
Qed.

Lemma alertmanagers_tls ns ams st st' v :
  addAlertmanagerEndpointsToStore (C:=C) sClient cmClient pem_Decode x509_ParseCertificate tls_X509KeyPair ns ams st = (st', Ok v) →
  Forall (fun am => TLSConfig_Validate (ame_TLSConfig am) = Ok ()) ams.
Proof.
  intros E. apply Forall_forall. intros am Ham. revert st st' v E.
  change (ensures (fun _ => TLSConfig_Validate (ame_TLSConfig am) = Ok ())
    (addAlertmanagerEndpointsToStore (C:=C) sClient cmClient pem_Decode x509_ParseCertificate tls_X509KeyPair ns ams)).
  eapply ensures_each; [apply persistent_pure| |exact Ham|].
  - intros i y. apply monotone_wrap, (comp_add_alertmanager _ ns y (monotone_compositional _ _ Hapi)).
  - intros i. apply ensures_wrap. do 3 (apply ensures_right; intros _).
    apply ensures_left; [apply persistent_pure| |by apply ensures_tls].
    intros _. apply (addition_monotone _ _ pem_Decode x509_ParseCertificate tls_X509KeyPair Hapi (ns, OfProxyConfig _)).
Qed.

Lemma remote_writes_valid ns l st st' v :
  AddRemoteWritesToStore (C:=C) sClient cmClient pem_Decode x509_ParseCertificate tls_X509KeyPair ns l st = (st', Ok v) →
  Forall (fun r => TLSConfig_Validate (rw_TLSConfig r) = Ok ()) l.
Proof. intros E. apply Forall_forall. intros r Hr. by eapply remote_write_tls. Qed.
Lemma load_server_assets_ok p spec st st' v :
  load_server_assets (C:=C) sClient cmClient pem_Decode x509_ParseCertificate tls_X509KeyPair p spec st = (st', Ok v) →
  Forall (fun r => TLSConfig_Validate (rrd_TLSConfig r) = Ok ()) (spec_RemoteRead spec) ∧
  Forall (fun r => TLSConfig_Validate (rw_TLSConfig r) = Ok ()) (cpf_RemoteWrite (po_cpf p)) ∧
  api_ok (cpf_APIServerConfig (po_cpf p)) ∧ alerting_ok (spec_Alerting spec).
Proof.
  intros (s1 & u1 & E1 & (s2 & u2 & E2 & (s3 & u3 & E3 & (s4 & u4 & E4 & _)%mbind_ok)%mbind_ok)%mbind_ok)%mbind_ok.
  split_and!.
  - apply Forall_forall. intros r Hr. by eapply remote_read_tls.
  - by eapply remote_writes_valid.
  - by eapply api_server_tls.
  - intros a Ha. rewrite Ha in E4. apply mbind_ok in E4 as (s5 & u5 & _ & E4). by eapply alertmanagers_tls.
Qed.
Lemma load_agent_assets_ok p st st' v :
  load_agent_assets (C:=C) sClient cmClient pem_Decode x509_ParseCertificate tls_X509KeyPair p st = (st', Ok v) →
  Forall (fun r => TLSConfig_Validate (rw_TLSConfig r) = Ok ()) (cpf_RemoteWrite (po_cpf p)) ∧
  api_ok (cpf_APIServerConfig (po_cpf p)).
Proof.
  intros (s1 & u1 & E1 & (s2 & u2 & E2 & _)%mbind_ok)%mbind_ok. split; [by eapply remote_writes_valid|by eapply api_server_tls].
Qed.

(** ** The inputs of the generator *)

(** What is asked of the object beyond what the code checks: the generator was made for it, its
    version is at least 2.26.0, and its tracing section, which nothing validates, is valid. *)
Record object_ok (cg : ConfigGenerator) (p : PrometheusObject) (order : list (string * string)) : Prop := {
  obj_generator : ∃ opts, known_options opts ∧ NewConfigGenerator p opts = Ok cg;
  obj_version : supported cg (Since "2.26.0") = true;
  obj_labeler : ∃ l, New (cpf_EnforcedNamespaceLabel (po_cpf p)) (cpf_ExcludedFromEnforcement (po_cpf p)) false = Ok l;
  obj_namespace : om_Namespace (po_ObjectMeta p) ≠ "";
  obj_tracing t : cpf_TracingConfig (po_cpf p) = Some t →
    TLSConfig_Validate (tracing_TLSConfig t) = Ok () ∧ header_order (tracing_Headers t) order;
}.
Lemma coherent_cache_wf st : coherent_ st → cache_wf (objStore st).
Proof. intros Hc k o Hk. by destruct (Hc k o Hk). Qed.
Lemma selected_inputs um cg p order store r additional :
  object_ok cg p order → coherent_ store → resources_ok store r →
  Forall (fun r => TLSConfig_Validate (rw_TLSConfig r) = Ok ()) (cpf_RemoteWrite (po_cpf p)) →
  api_ok (cpf_APIServerConfig (po_cpf p)) → generable um cg additional →
  inputs_ok um cg (res_smons r) (res_pmons r) (res_probes r) (res_scons r) store additional order.
Proof.
  intros [(opts & Ho & Hcg) Hv Hlb Hns Htr] Hc [Hsm Hpm Hpr Hsc] Hrw Hapis [Ht Had Hotlp].
  apply NewConfigGenerator_wf in Hcg as [Hwf Hp]; [|done].
  split; unfold cg_cpf in *; rewrite ?Hp in *; try done.
  - split; unfold cg_cpf; rewrite ?Hp; try done. by apply coherent_cache_wf.
  - eapply objects_ok_impl; [|exact Hsc]. intros sc. apply secrets_loaded_ok.
Qed.

(** Loading more keeps what selection provided. *)
Lemma loaded_store (c : M (StoreBuilder C) ()) st st' r :
  determined sClient cmClient c → monotone c → ∀ v,
  coherent_ st → resources_ok st r → c st = (st', Ok v) → coherent_ st' ∧ resources_ok st' r.
Proof.
  intros [a Ha] Hm v Hc [? ? ? Hsc] E. destruct (Ha st Hc) as [_ Hc']. specialize (Hm st). rewrite E in Hc', Hm.
  split; [done|]. split; try done. eapply objects_ok_impl; [|exact Hsc]. intros sc. by apply secrets_loaded_persistent.
Qed.
End selection.

(** ** Writing the configuration *)

Section written.
Context `{SemverLaws} `{PromLibs} `{SelectionLibs} `{KeyFunc} {C : Type} `{CacheStore C}.
Context {St : Type} `{ApiClient Secret St, !ApiLaws Secret St, !Retry, !SemanticEquality Secret}.
Context (sClient : string → string → res Secret) (cmClient : string → string → res ConfigMap).
Context (pem_Decode : string → option string) (x509_ParseCertificate : string → res ()).
Context (tls_X509KeyPair : string → string → res ()).
Context (gzip_Write : string → res string) (um : string → res (list MapSlice)) (marshal : yaml → res string).
Context (ObjectKinds : string → res (list GroupVersionKind)) (visit : ∀ A, gmap string A → list (string * A)).
Context (order : list (string * string)) (owner : Owner) (addrs : nat * nat) (config : Config) (infs : Informers).
Local Abbreviation state := (op_state (C:=C) (St:=St)).

Lemma on_secrets_ok {A} (c : M St A) (st st' : state) v :
  on_secrets c st = (st', Ok v) → c (os_api st) = (os_api st', Ok v) ∧ os_sel st' = os_sel st.
Proof. unfold on_secrets. destruct (c (os_api st)) as [s r]. by intros [= <- ->]. Qed.
Lemma on_selection_ok {A} (c : M selector_state A) (st st' : state) v :
  on_selection c st = (st', Ok v) → c (os_sel st) = (os_sel st', Ok v) ∧ os_api st' = os_api st.
Proof. unfold on_selection. destruct (c (os_sel st)) as [s r]. by intros [= <- ->]. Qed.
Lemma on_builder_ok {A} (c : M (StoreBuilder C) A) (st st' : state) v :
  on_selection (on_store c) st = (st', Ok v) →
  c (ss_store (os_sel st)) = (ss_store (os_sel st'), Ok v) ∧ os_api st' = os_api st.
Proof.
  intros [E Ha]%on_selection_ok. split; [|done]. revert E. unfold on_store.
  destruct (c (ss_store (os_sel st))) as [s r]. by intros [= <- ->].
Qed.
Lemma LoadSecretRef_objs sks (s s' : St) v : LoadSecretRef sks s = (s', Ok v) → objs s' = objs s.
Proof.
  unfold LoadSecretRef. destruct sks as [sks|]; [|by intros [<- _]%mret_ok].
  intros (s1 & r & E & Hr)%mbind_ok. assert (objs s1 = objs s) as <-.
  { unfold mtry in E. destruct (Get _ s) as [s2 r2] eqn:Eg. apply Get_objs in Eg.
    destruct r2; try done; by injection E as <- _. }
  repeat case_match; try (by apply mret_ok in Hr as [<- _]); by unfold mfail in Hr.
Qed.
(** The text that a reference leads to. *)
Definition ref_text (m : gmap string Secret) (sks : option SecretKeySelector) : option string :=
  r ← sks; secret ← m !! SecretKeySelector_Name r; sec_Data secret !! SecretKeySelector_Key r.
Lemma LoadSecretRef_text sks (s s' : St) v : LoadSecretRef sks s = (s', Ok v) → v = ref_text (objs s) sks.
Proof.
  unfold LoadSecretRef, ref_text. destruct sks as [sks|]; [|by intros [_ <-]%mret_ok].
  intros (s1 & r & E & Hr)%mbind_ok. unfold mtry in E. simpl. destruct (Get _ s) as [s2 [secret|e|m]] eqn:Eg; [| |done]; injection E as <- <-.
  - apply Get_ok in Eg. rewrite Eg. simpl. destruct (sec_Data secret !! _); [by apply mret_ok in Hr as [_ <-]|].
    case_match; [by apply mret_ok in Hr as [_ <-]|by unfold mfail in Hr].
  - destruct (IsNotFound e) eqn:Hn; [|by unfold mfail in Hr]. apply (Get_NotFound _ _ _ _ Eg) in Hn. rewrite Hn.
    simpl in Hr. case_match; [by apply mret_ok in Hr as [_ <-]|by unfold mfail in Hr].
Qed.
Lemma load_ref_ok what sks (st st' : state) v :
  load_ref what sks st = (st', Ok v) →
  (os_sel st' = os_sel st ∧ objs (os_api st') = objs (os_api st)) ∧ v = ref_text (objs (os_api st)) sks.
Proof. unfold load_ref. intros [E Hs]%mwrap_ok%on_secrets_ok. split; [split; [done|by eapply LoadSecretRef_objs]|by eapply LoadSecretRef_text]. Qed.

(** The API holds a Secret of the object's name with the compressed text, and what it held before
    under other names. *)
Definition published (p : PrometheusObject) (text : string) (before after : gmap string Secret) : Prop :=
  ∃ data secret, GzipConfig gzip_Write text = Ok data ∧ after = <[PrefixedName (iface p) := secret]> before ∧
    sec_Data secret = {[ConfigFilename := data]}.
Lemma write_configuration_ok p text (st st' : state) :
  write_configuration gzip_Write owner addrs config p text st = (st', Ok ()) →
  published p text (objs (os_api st)) (objs (os_api st')).
Proof.
  intros (s1 & s & [<- Hs%wrap_ok]%mlift_ok & [E _]%on_secrets_ok)%mbind_ok.
  unfold MakeConfigurationSecret in Hs. rewrite bind_ok_ex in Hs. destruct Hs as (data & Hd%wrap_ok & [= <-]).
  apply CreateOrUpdateSecret_ok in E as (o1 & Ho & ->). rewrite name_reconciled.
  exists data, o1. split; [done|]. split; [done|]. apply content_sec_Data in Ho. rewrite Ho. by destruct (objs _ !! _).
Qed.

Section selected.
Context (Hapi : api_answers sClient cmClient) (Hvisit : ∀ A m, visit A m ≡ₚ map_to_list m) (Hinf : informers_ok infs).
Context (om : ObjectMeta) (cg : ConfigGenerator) (st st' : state) (Hc : coherent sClient cmClient (ss_store (os_sel st))).
(** A document that follows the format was written for [p], apart from the items in the texts that
    its references lead to. *)
Definition written (p : PrometheusObject) (relabel am : option SecretKeySelector) : Prop :=
  let ref := ref_text (objs (os_api st)) in
  ∃ scrapes ams relabels cfg text,
    user_part um cg (ref (cpf_AdditionalScrapeConfigs (po_cpf p))) scrapes ams relabels (ref relabel) (ref am) ∧
    conforms (supported cg) (SObj (config_fields scrapes ams relabels)) (YMap cfg) ∧ marshal (YMap cfg) = Ok text ∧
    published p text (objs (os_api st)) (objs (os_api st')).
Lemma server_written spec disableUnmanaged rules :
  object_ok cg (server_object om spec) order → unmanagedPrometheusConfiguration disableUnmanaged spec = false →
  createOrUpdateConfigurationSecret sClient cmClient pem_Decode x509_ParseCertificate tls_X509KeyPair gzip_Write um marshal
    ObjectKinds visit order owner addrs config infs disableUnmanaged om spec cg rules st = (st', Ok ()) →
  written (server_object om spec) (spec_AdditionalAlertRelabelConfigs spec) (spec_AdditionalAlertManagerConfigs spec).
Proof.
  intros Hobj Hm. unfold createOrUpdateConfigurationSecret. rewrite Hm.
  intros (s1 & r & [E1 A1]%on_selection_ok & (s2 & u & [E2 A2]%on_builder_ok & E)%mbind_ok)%mbind_ok.
  apply mbind_ok in E as (s3 & add & [[L3 A3] ->]%load_ref_ok & E). apply mbind_ok in E as (s4 & rel & [[L4 A4] ->]%load_ref_ok & E).
  apply mbind_ok in E as (s5 & am & [[L5 A5] ->]%load_ref_ok & (s6 & store & [= <- <-] & (s7 & text & [<- Hg%wrap_ok]%mlift_ok & E)%mbind_ok)%mbind_ok).
  rewrite L5, L4, L3 in Hg.
  eapply select_resources_ok in E1 as [Hc1 Hr]; [|done..].
  destruct (load_server_assets_ok _ _ _ _ _ Hapi _ _ _ _ _ E2) as (Hrr & Hrw & Hapis & Hal).
  pose proof (loaded_store _ _ _ _ _ _ (comp_load_server_assets _ _ _ _ _ _ _ _ (determined_compositional _ _ Hapi))
    (comp_load_server_assets _ _ _ _ _ _ _ _ (monotone_compositional _ _ Hapi)) _ Hc1 Hr E2) as [Hc2 Hr2].
  destruct (server_generable _ _ _ _ _ _ _ _ _ _ _ _ _ _ _ Hg) as [Hgen Hxy].
  pose proof (selected_inputs _ _ um cg _ order _ _ _ Hobj Hc2 Hr2 Hrw Hapis Hgen) as Hin.
  destruct (GenerateServerConfiguration_ok um marshal _ _ _ _ _ _ _ _ Hin spec rules _ _ Hal Hxy Hrr)
    as (scrapes & ams & relabels & Hu & cfg & l & Hd & Hcf & _). rewrite A4, A3, A2, A1 in Hu.
  exists scrapes, ams, relabels, cfg, text. split; [done|]. split; [done|]. split; [congruence|]. apply write_configuration_ok in E.
  by rewrite A5, A4, A3, A2, A1 in E.
Qed.
Lemma agent_written cpf :
  object_ok cg (agent_object om cpf) order →
  agent_createOrUpdateConfigurationSecret sClient cmClient pem_Decode x509_ParseCertificate tls_X509KeyPair gzip_Write um marshal
    ObjectKinds visit order owner addrs config infs om cpf cg st = (st', Ok ()) →
  written (agent_object om cpf) None None.
Proof.
  intros Hobj. unfold agent_createOrUpdateConfigurationSecret.
  intros (s1 & r & [E1 A1]%on_selection_ok & (s2 & u & [E2 A2]%on_builder_ok & E)%mbind_ok)%mbind_ok.
  apply mbind_ok in E as (s3 & add & [[L3 A3] ->]%load_ref_ok & E).
  apply mbind_ok in E as (s6 & store & [= <- <-] & (s7 & text & [<- Hg%wrap_ok]%mlift_ok & E)%mbind_ok).
  rewrite L3 in Hg.
  eapply select_resources_ok in E1 as [Hc1 Hr]; [|done..].
  destruct (load_agent_assets_ok _ _ _ _ _ Hapi _ _ _ _ E2) as (Hrw & Hapis).
  pose proof (loaded_store _ _ _ _ _ _ (comp_load_agent_assets _ _ _ _ _ _ _ (determined_compositional _ _ Hapi))
    (comp_load_agent_assets _ _ _ _ _ _ _ (monotone_compositional _ _ Hapi)) _ Hc1 Hr E2) as [Hc2 Hr2].
  pose proof (agent_generable _ _ _ _ _ _ _ _ _ _ _ Hg) as Hgen.
  pose proof (selected_inputs _ _ um cg _ order _ _ _ Hobj Hc2 Hr2 Hrw Hapis Hgen) as Hin.
  destruct (GenerateAgentConfiguration_ok um marshal _ _ _ _ _ _ _ _ Hin) as (scrapes & Hu & cfg & l & Hd & Hcf & _). rewrite A2, A1 in Hu.
  exists scrapes, [], [], cfg, text. split; [done|]. split; [done|]. split; [congruence|]. apply write_configuration_ok in E.
  by rewrite A3, A2, A1 in E.
Qed.
End selected.

End written.

(** ** Witness *)

Section witnesses.
Local Abbreviation cache := (gmap string asset).
Definition example_meta : ObjectMeta := SetNamespace "default" (SetName "k8s" zero_meta).
Definition example_owner : Owner :=
  {| owner_APIVersion := "monitoring.coreos.com/v1"; owner_Kind := "Prometheus"; owner_Name := "k8s"; owner_UID := "1" |}.
(** The informers list a broken ServiceMonitor too. *)
Definition example_informers : Informers := {|
  nsMonInf _ := Ok []; smonInfs := in_default [broken_smon; smon]; pmonInfs := in_default [pmon]; probeInfs := in_default [];
  sconInfs := Some (in_default [scrapeconfig (Some (Example_.sel "user"))]) |}.
Definition server_generator : res ConfigGenerator :=
  NewConfigGenerator (server_object example_meta (server_spec "v3.5.0")) [WithEndpointSliceSupport].
Definition example_state : op_state (C:=cache) (St:=FakeStore.state Secret) :=
  {| os_api := FakeStore.State [] 0 ∅; os_sel := selection_start |}.
Definition run_server (cg : ConfigGenerator) :=
  createOrUpdateConfigurationSecret Example_.secrets Example_.configmaps Some (fun _ => Ok ()) (fun _ _ => Ok ()) Ok
    (fun _ => Ok []) (fun _ => Ok "document") (fun _ => no_kinds) (fun A m => map_to_list m) [] example_owner (0, 1)
    {| config_Labels := None; config_Annotations := None |} example_informers true example_meta (server_spec "v3.5.0") cg [] example_state.

Lemma in_default_ok {A} `{Resource A} (L : A → Prop) l :
  Forall (fun o => no_slash (r_meta o) ∧ om_Namespace (r_meta o) ≠ "" ∧ L o) l → listing_ok L (in_default l).
Proof.
  intros Hl ns sel l' o [= <-]. case_bool_decide; [|by intros ?%elem_of_nil]. rewrite Forall_forall in Hl. apply Hl.
Qed.
Lemma example_informers_ok : informers_ok example_informers.
Proof. split; [..|intros f [= <-]]; apply in_default_ok; repeat constructor; done. Qed.
Lemma server_generator_ok cg : server_generator = Ok cg → object_ok cg (server_object example_meta (server_spec "v3.5.0")) [].
Proof.
  intros E. assert (match server_generator with Ok cg => supported cg (Since "2.26.0") | _ => false end = true) as Hv by by vm_compute.
  rewrite E in Hv. split; try done.
  - exists [WithEndpointSliceSupport]. split; [by repeat constructor|done].
  - by eexists.
Qed.
End witnesses.
