(* ===== verification/AmProvision.v ===== *)
(** * Provisioning: what is selected and what is written

    The checks of AlertmanagerConfig objects answer the same whatever is cached, so that selection
    keeps exactly the objects that pass them, in any order; and what the pieces of
    provisionAlertmanagerConfiguration return when they succeed. *)

From S2P Require Import Prelude GoStrings SortUtil Meta ApiClient K8sUtil Accessor Semver MonitoringV1 Json RouteTree V1alpha1 AmLibs.
From S2P Require Import PromTypes PromCommon AssetStore Status ConfigGenerator Selection SelectionLaws SelectionClaims ServerConfig ServerClaims.
From S2P Require Import AmTypes AmSanitize AmSupport AmProjection AmConvert AmCheck AmBuilder AmLaws AmRefs AmOperator.
Import v1alpha1.

(** ** Checks are composed of additions *)

Section checks.
Context `{Semver} `{RawJSON} `{AmLibs} `{ConvertLibs} `{CheckLibs} {C : Type} `{CacheStore C}.
Context (sClient : string → string → res Secret) (cmClient : string → string → res ConfigMap).
Context (pem_Decode : string → option string) (x509_ParseCertificate : string → res ()).
Context (tls_X509KeyPair : string → string → res ()) (amVersion : version).
Context (P : ∀ A, M (StoreBuilder C) A → Prop) (HP : compositional sClient cmClient P).
Local Abbreviation addition := (comp_addition sClient cmClient pem_Decode x509_ParseCertificate tls_X509KeyPair P HP).
Ltac comp :=
  repeat first
    [ progress intros
    | match goal with
      | |- P _ (match ?x with _ => _ end) => destruct x
      | |- P _ (mret _) => apply (comp_ret sClient cmClient P HP)
      | |- P _ (mfail _) => apply (comp_fail sClient cmClient P HP)
      | |- P _ (mlift _) => apply (comp_lift sClient cmClient P HP)
      | |- P _ (mwrap _ _ _) => apply (comp_wrap sClient cmClient P HP)
      | |- P _ (mfor_each _ _) => apply (comp_for_each sClient cmClient P HP)
      | |- P _ (GetSecretKey _ _ _) => apply (comp_secret sClient cmClient P HP)
      | |- P _ (_ ≫= _) => apply (comp_bind sClient cmClient P HP)
      end
    | apply (addition (_, OfBasicAuth _)) | apply (addition (_, OfProxyConfig _)) | apply (addition (_, OfSafeTLSConfig _))
    | apply (addition (_, OfOAuth2 _)) | apply (addition (_, OfSafeAuthorization _)) | apply (addition (_, OfSigV4 _))
    | progress unfold mset, load, load_url, since, check_pushover_secret ].
Lemma comp_http o ns : P unit (configureHTTPConfigInStore sClient cmClient pem_Decode x509_ParseCertificate tls_X509KeyPair o ns).
Proof. unfold configureHTTPConfigInStore. comp. Qed.
Lemma comp_receiver ns r : P unit (check_receiver sClient cmClient pem_Decode x509_ParseCertificate tls_X509KeyPair amVersion ns r).
Proof.
  unfold check_receiver, checkPagerDutyConfigs, checkOpsGenieConfigs, checkDiscordConfigs, checkSlackConfigs, checkWebhookConfigs,
    checkWechatConfigs, checkWebexConfigs, checkEmailConfigs, checkVictorOpsConfigs, checkPushoverConfigs, checkSnsConfigs,
    checkTelegramConfigs, checkMSTeamsConfigs, checkMSTeamsV2Configs.
  comp; apply comp_http.
Qed.
Lemma comp_checkResource amc :
  P unit (checkAlertmanagerConfigResource sClient cmClient pem_Decode x509_ParseCertificate tls_X509KeyPair amVersion amc).
Proof. unfold checkAlertmanagerConfigResource, checkReceivers. comp. apply comp_receiver. Qed.
End checks.

(** ** Selection *)

Lemma foldl_insert {A} (l : list (string * A)) : ∀ m : gmap string A,
  foldl (fun m kv => <[kv.1 := kv.2]> m) m l = list_to_map (reverse l) ∪ m.
Proof.
  induction l as [|kv l IH] using rev_ind; intros m; simpl; [by rewrite (left_id_L ∅ (∪))|].
  rewrite foldl_app, reverse_app. simpl. by rewrite IH, insert_union_l; destruct kv.
Qed.
(** Inserting the entries of a map that satisfy [Q], in any order. *)
Lemma insert_filtered {A} (Q : string * A → Prop) `{!∀ x, Decision (Q x)} (m : gmap string A) l :
  l ≡ₚ map_to_list m → foldl (fun m kv => <[kv.1 := kv.2]> m) ∅ (base.filter Q l) = base.filter Q m.
Proof.
  intros Hl. rewrite foldl_insert, (right_id_L ∅ (∪)), map_filter_alt. apply list_to_map_proper.
  - rewrite reverse_Permutation, Hl. apply NoDup_fmap_fst; [|apply NoDup_filter, NoDup_map_to_list].
    intros k x y [_ Hx%elem_of_map_to_list]%list_elem_of_filter [_ Hy%elem_of_map_to_list]%list_elem_of_filter. congruence.
  - by rewrite reverse_Permutation, Hl.
Qed.

Section selecting.
Context `{Semver} `{PromLibs} `{KeyFunc} `{RawJSON} `{AmLibs} `{ConvertLibs} `{CheckLibs} `{BuilderLibs} {C : Type} `{CacheStore C}.
Context (sClient : string → string → res Secret) (cmClient : string → string → res ConfigMap).
Context (pem_Decode : string → option string) (x509_ParseCertificate : string → res ()).
Context (tls_X509KeyPair : string → string → res ()).
Context (Hapi : api_answers sClient cmClient).
Context (visit : gmap string AlertmanagerConfig → list (string * AlertmanagerConfig)) (Hvisit : ∀ m, visit m ≡ₚ map_to_list m).
Context (infs : AmInformers) (v : version).
Local Abbreviation checkResource := (checkAlertmanagerConfigResource (C := C) sClient cmClient pem_Decode x509_ParseCertificate tls_X509KeyPair v).
Local Abbreviation coherent := (coherent sClient cmClient).

(** What the checks say of an object. *)
Definition config_verdict (amc : AlertmanagerConfig) : res () := (checkResource amc NewStoreBuilder).2.
Definition accepted (kv : string * AlertmanagerConfig) : Prop := config_verdict kv.2 = Ok ().
#[global] Instance accepted_decision kv : Decision (accepted kv).
Proof. unfold accepted. destruct (config_verdict kv.2) as [[]|e|m]; [by left|by right..]. Defined.
Lemma config_verdict_spec amc st : coherent st → (checkResource amc st).2 = config_verdict amc ∧ coherent (checkResource amc st).1.
Proof.
  apply (verdict_spec sClient cmClient checkResource).
  intros o. apply (comp_checkResource sClient cmClient), determined_compositional, Hapi.
Qed.

Lemma check_configs_ok l : ∀ acc n st st' r, coherent (ss_store st) →
  check_configs sClient cmClient pem_Decode x509_ParseCertificate tls_X509KeyPair v l acc n st = (st', Ok r) →
  r.1 = foldl (fun m kv => <[kv.1 := kv.2]> m) acc (base.filter accepted l) ∧
  r.2 = (n + Z.of_nat (length (base.filter (fun kv => ¬ accepted kv) l)))%Z ∧
  coherent (ss_store st') ∧ ss_metrics st' = ss_metrics st.
Proof.
  induction l as [|[k amc] l IH]; intros acc n st st' r Hst; simpl.
  { intros [<- <-]%mret_ok. simpl. split_and!; [done|lia|done|done]. }
  intros (st1 & x & E1 & E)%mbind_ok. unfold mtry, on_store in E1. destruct (config_verdict_spec amc (ss_store st) Hst) as [Hv Hc].
  destruct (checkResource amc (ss_store st)) as [s0 r0]. simpl in Hv, Hc. subst r0.
  destruct (config_verdict amc) as [[]|e|m] eqn:Ev; [| |done]; injection E1 as <- <-.
  - apply IH in E as (-> & -> & ? & ?); [|done].
    rewrite filter_cons_True, filter_cons_False by (unfold accepted; simpl; rewrite ?Ev; auto). done.
  - apply IH in E as (-> & -> & ? & ?); [|done]. assert (¬ accepted (k, amc)) by (unfold accepted; simpl; by rewrite Ev).
    rewrite filter_cons_False, filter_cons_True by done. simpl. split_and!; [done|lia|done|done].
Qed.
Lemma check_configs_total l : ∀ acc n st, coherent (ss_store st) → Forall (fun kv => no_panic (config_verdict kv.2)) l →
  ∃ st' r, check_configs sClient cmClient pem_Decode x509_ParseCertificate tls_X509KeyPair v l acc n st = (st', Ok r).
Proof.
  induction l as [|[k amc] l IH]; intros acc n st Hst Hl; simpl; [by do 2 eexists|]. apply Forall_cons in Hl as [Ho Hl].
  destruct (config_verdict_spec amc (ss_store st) Hst) as [Hv Hc]. unfold mbind, M_bind, mtry, on_store.
  destruct (checkResource amc (ss_store st)) as [s0 r0]. simpl in Hv, Hc, Ho. subst r0.
  destruct (config_verdict amc) as [[]|e|m]; [by apply IH..|by destruct (Ho m)].
Qed.

(** The objects that the informers list. *)
Definition listed_configs (am : Alertmanager) : res (gmap string AlertmanagerConfig) :=
  namespaces ← config_namespaces infs am;
  selector ← LabelSelectorAsSelector (AlertmanagerSpec_AlertmanagerConfigSelector (Alertmanager_Spec am));
  list_configs infs am selector namespaces ∅.
Lemma selectAlertmanagerConfigs_ok am st st' r : coherent (ss_store st) →
  selectAlertmanagerConfigs sClient cmClient pem_Decode x509_ParseCertificate tls_X509KeyPair visit infs am v st = (st', Ok r) →
  ∃ listed, listed_configs am = Ok listed ∧ r = base.filter accepted listed ∧ coherent (ss_store st') ∧
    ss_metrics st' = match MetaNamespaceKey (Object (Alertmanager_ObjectMeta am)) with
      | None => ss_metrics st
      | Some k => SetRejectedResources (SetSelectedResources (ss_metrics st) k AlertmanagerConfigKind (Z.of_nat (size r)))
                    k AlertmanagerConfigKind (Z.of_nat (size (base.filter (fun kv => ¬ accepted kv) listed)))
      end.
Proof.
  intros Hst. unfold selectAlertmanagerConfigs.
  intros (s1 & nss & [<- Hn]%mlift_ok & (s2 & sel & [<- Hs]%mlift_ok & (s3 & listed & [<- Hl]%mlift_ok & E)%mbind_ok)%mbind_ok)%mbind_ok.
  apply mbind_ok in E as (s4 & x & E & (s5 & [] & Em & [<- <-]%mret_ok)%mbind_ok).
  apply check_configs_ok in E as (Hx & Hr & Hc & Hm); [|done]. exists listed.
  rewrite (insert_filtered _ listed) in Hx by apply Hvisit. split; [unfold listed_configs; by rewrite Hn; simpl; rewrite Hs|]. split; [done|].
  rewrite <-(filter_size _ listed (visit listed)), <-Hm by apply Hvisit. rewrite Z.add_0_l in Hr. rewrite <-Hr.
  unfold set_config_metrics in Em. destruct (MetaNamespaceKey _); injection Em as <-; done.
Qed.
End selecting.

(** ** Provisioning *)

Lemma root_route_ok o : checkAlertmanagerConfigRootRoute o = Ok () → is_Some o.
Proof. by destruct o. Qed.

Section provisioning.
Context `{Semver} `{PromLibs} `{KeyFunc} `{RawJSON} `{AmLibs} `{ConvertLibs} `{CheckLibs} `{BuilderLibs} {C : Type} `{CacheStore C}.
Context (sClient : string → string → res Secret) (cmClient : string → string → res ConfigMap).
Context (pem_Decode : string → option string) (x509_ParseCertificate : string → res ()).
Context (tls_X509KeyPair : string → string → res ()).
Context {St : Type} `{ApiClient Secret St, !Retry, !SemanticEquality Secret, !ApiLaws Secret St}.
Context (amcClient : string → string → res AlertmanagerConfig) (gzip_Write : string → res string).
Context (visit : gmap string AlertmanagerConfig → list (string * AlertmanagerConfig)).
Context (owner : Owner) (addrs : nat * nat) (config : Config) (infs : AmInformers).
Local Abbreviation state := (@op_state C St).

(** What the generated Secret holds: a compressed text beside further keys. *)
Definition generated (am : Alertmanager) (text : string) (extra : gmap string string) (before after : gmap string Secret) : Prop :=
  ∃ data secret, GzipConfig gzip_Write text = Ok data ∧ after = <[generatedConfigSecretName (am_Name am) := secret]> before ∧
    sec_Data secret = <[alertmanagerConfigFileCompressed := data]> extra.
Lemma generated_ok am text extra (s s' : St) :
  createOrUpdateGeneratedConfigSecret gzip_Write owner addrs config am text extra s = (s', Ok ()) → generated am text extra (objs s) (objs s').
Proof.
  intros (s1 & data & [<- Hd%wrap_ok]%mlift_ok & E%mwrap_ok)%mbind_ok.
  apply CreateOrUpdateSecret_ok in E as (o1 & Ho & ->). rewrite name_reconciled.
  exists data, o1. split; [done|]. split; [done|]. apply content_sec_Data in Ho. rewrite Ho. by destruct (objs _ !! _).
Qed.

(** The configuration of the user: the one in the Secret, unless there is none. *)
Definition user_configuration (am : Alertmanager) (secrets : gmap string Secret) : string * gmap string string :=
  let data := default ∅ (sec_Data <$> secrets !! defaultConfigSecretName am) in
  (match data !! alertmanagerConfigFile with
   | Some raw => if bool_decide (raw = "") then defaultAlertmanagerConfiguration else raw
   | None => defaultAlertmanagerConfiguration
   end, delete alertmanagerConfigFile data).
Lemma loadConfigurationFromSecret_ok am (s s' : St) r :
  loadConfigurationFromSecret am s = (s', Ok r) → r = user_configuration am (objs s) ∧ objs s' = objs s.
Proof.
  intros (s1 & x & E & Hr)%mbind_ok. unfold mtry in E. unfold user_configuration.
  destruct (Get (defaultConfigSecretName am) s) as [s2 [secret|e|m]] eqn:Eg; [| |done]; injection E as <- <-; pose proof (Get_objs _ _ _ _ Eg) as Ho.
  - apply Get_ok in Eg. rewrite Eg. simpl. destruct (sec_Data secret !! alertmanagerConfigFile) eqn:Ed; apply mret_ok in Hr as [<- <-]; [done|].
    by rewrite delete_id.
  - destruct (IsNotFound e) eqn:En; [|done]. apply mret_ok in Hr as [<- <-]. apply Get_NotFound in Eg; [|done]. rewrite Eg. simpl.
    by rewrite delete_empty.
Qed.

(** The keys that are passed on from the Secret of the user, unless a global AlertmanagerConfig object
    takes its place. *)
Definition further_keys (am : Alertmanager) (secrets : gmap string Secret) : gmap string string :=
  match AlertmanagerSpec_AlertmanagerConfiguration (Alertmanager_Spec am) with
  | Some _ => ∅
  | None => (user_configuration am secrets).2
  end.
Lemma initialized_ok cb g amc st st' cb' :
  initializeFromAlertmanagerConfig sClient cmClient pem_Decode x509_ParseCertificate tls_X509KeyPair cb g amc st = (st', Ok cb') →
  ∃ c root, cb' = with_cfg cb c ∧ alertmanagerConfig_Route c = Some root.
Proof.
  unfold initializeFromAlertmanagerConfig. intros E. do 6 (apply mbind_ok in E as (? & ? & _ & E)).
  apply mbind_ok in E as (? & [] & [_ [root Hr]%root_route_ok]%mlift_ok & [_ <-]%mret_ok). eauto.
Qed.
Lemma base_configuration_ok am cb (st st' : state) cb' extra :
  base_configuration sClient cmClient pem_Decode x509_ParseCertificate tls_X509KeyPair amcClient am cb st = (st', Ok (cb', extra)) →
  ∃ base root, cb' = with_cfg cb base ∧ alertmanagerConfig_Route base = Some root ∧ objs (os_api st') = objs (os_api st) ∧
    extra = further_keys am (objs (os_api st)).
Proof.
  unfold base_configuration, further_keys. destruct (AlertmanagerSpec_AlertmanagerConfiguration _) as [g|].
  - intros (s1 & amc & [<- _]%mlift_ok & E)%mbind_ok.
    apply mbind_ok in E as (s2 & cb1 & [(c & root & -> & Hr)%initialized_ok Ha]%mwrap_ok%on_builder_ok & E).
    apply mbind_ok in E as (s3 & cb2 & [<- Ht]%mlift_ok & [<- [= <- <-]]%mret_ok). rewrite Ha.
    unfold with_templates in Ht. case_match; simpl in Ht; injection Ht as <-; [by exists c, root|].
    eexists _, root. split; [reflexivity|done].
  - intros (s1 & raw & [[-> Ho]%loadConfigurationFromSecret_ok _]%mwrap_ok%on_secrets_ok & E)%mbind_ok.
    apply mbind_ok in E as (s2 & cb1 & [<- Hi%wrap_ok]%mlift_ok & [<- [= <- <-]]%mret_ok).
    apply bind_ok_ex in Hi as (c & Hc & [= <-]). unfold alertmanagerConfigFromBytes in Hc. apply bind_ok in Hc as [_ Hc].
    apply bind_ok_ex in Hc as (c' & _ & [[root Hr]%wrap_ok%root_route_ok [= <-]]%bind_ok). by exists c', root.
Qed.

(** A run that succeeds: what was selected, which base configuration it was added to, and what was
    written. *)
Context (Hapi : api_answers sClient cmClient) (Hvisit : ∀ m, visit m ≡ₚ map_to_list m).
Lemma provision_ok am (st st' : state) :
  coherent sClient cmClient (ss_store (os_sel st)) → unmanaged am = false →
  provisionAlertmanagerConfiguration sClient cmClient pem_Decode x509_ParseCertificate tls_X509KeyPair amcClient gzip_Write visit owner addrs
    config infs am st = (st', Ok ()) →
  ∃ v listed base root cb' s1 s2 c text,
    am_version am = Ok v ∧ listed_configs infs am = Ok listed ∧
    alertmanagerConfig_Route base = Some root ∧
    AddAlertmanagerConfigs sClient cmClient
      (with_cfg (NewConfigBuilder v (AlertmanagerSpec_AlertmanagerConfigMatcherStrategy (Alertmanager_Spec am)) (am_Namespace am)) base)
      (base.filter (accepted sClient cmClient pem_Decode x509_ParseCertificate tls_X509KeyPair (C := C) v) listed) s1 = (s2, Ok cb') ∧
    cb_cfg cb' = Some c ∧ yaml_Marshal c = Ok text ∧
    generated am text (further_keys am (objs (os_api st))) (objs (os_api st)) (objs (os_api st')).
Proof.
  intros Hc Hu (s1 & v & [<- Hv]%mlift_ok & E)%mbind_ok. rewrite Hu in E.
  apply mbind_ok in E as (s2 & amcs & [Es Ha1]%mwrap_ok%on_selection_ok & E).
  apply mbind_ok in E as (s3 & [cb1 extra] & (base & root & -> & Hr & Ha2 & ->)%base_configuration_ok & E).
  apply mbind_ok in E as (s4 & cb' & [Ea Ha3]%mwrap_ok%on_builder_ok & E).
  apply mbind_ok in E as (s5 & text & [<- Ht%wrap_ok]%mlift_ok & [E%generated_ok _]%mwrap_ok%on_secrets_ok).
  rewrite Ha1 in Ha2. rewrite Ha3, Ha2 in E. rewrite Ha1 in E.
  eapply selectAlertmanagerConfigs_ok in Es as (listed & Hl & -> & _); [|done..].
  pose proof Ea as Ec. eapply AddAlertmanagerConfigs_ok in Ec as (ns & c & _ & -> & _); [|reflexivity|exact Hr].
  exists v, listed, base, root, (with_cfg (with_cfg (NewConfigBuilder v (AlertmanagerSpec_AlertmanagerConfigMatcherStrategy
    (Alertmanager_Spec am)) (am_Namespace am)) base) c), (ss_store (os_sel s3)), (ss_store (os_sel s4)), c, text.
  done.
Qed.
(** When the user manages the configuration, it is passed on. *)
Lemma provision_unmanaged am (st st' : state) :
  unmanaged am = true →
  provisionAlertmanagerConfiguration sClient cmClient pem_Decode x509_ParseCertificate tls_X509KeyPair amcClient gzip_Write visit owner addrs
    config infs am st = (st', Ok ()) →
  os_sel st' = os_sel st ∧
  generated am (user_configuration am (objs (os_api st))).1 (user_configuration am (objs (os_api st))).2 (objs (os_api st)) (objs (os_api st')).
Proof.
  intros Hu (s1 & v & [<- Hv]%mlift_ok & E)%mbind_ok. rewrite Hu in E.
  apply mbind_ok in E as (s2 & raw & [[-> Ho]%loadConfigurationFromSecret_ok Hs]%mwrap_ok%on_secrets_ok & [E%generated_ok Hs']%mwrap_ok%on_secrets_ok).
  rewrite Ho in E. split; [congruence|done].
Qed.
End provisioning.
