(* ===== verification/AmClaims.v ===== *)
(** * Alertmanager configurations: what is guaranteed

    The theorems about the configuration that is generated from AlertmanagerConfig objects, and an
    example of an Alertmanager with objects in two namespaces. *)

From S2P Require Import Prelude GoStrings SortUtil Meta ApiClient Semver MonitoringV1 Json RouteTree V1alpha1 AmLibs AssetStore.
From S2P Require Import AmTypes AmSanitize AmSupport AmProjection AmConvert AmCheck AmBuilder AmLaws AmRefs AmSafety AmTeams AmExample ConfigGenerator.
From S2P Require Import ValidationV1alpha1.
From S2P Require Import K8sUtil Accessor Status PromTypes PromCommon Selection SelectionLaws ServerConfig PromExample SelectionClaims ServerClaims.
From S2P Require Import AmOperator AmProvision.
Import v1alpha1 validation_v1alpha1.


Section claims.
Context `{Semver} `{RawJSON} `{AmLibs} `{ConvertLibs} `{CheckLibs} `{BuilderLibs} {C : Type} `{CacheStore C}.
Context (sClient : string → string → res Secret) (cmClient : string → string → res ConfigMap).

(** Adding AlertmanagerConfig objects to a configuration puts one route per object that has one,
    in the order of the objects' keys, in front of the routes of the base configuration, which are
    only sanitized. The route shows the one of the object, with [continue: true], so that the alerts
    fall through to the routes after it, and if the matching strategy confines the object's namespace, then no
    alert reaches the route, or one below it, that does not have the object's namespace for its
    [namespace] label. *)
Lemma objects_confined (matcher_holds : string → (string → string) → bool) (regex_holds : string → string → bool)
    (strategy amNamespace : string) (cb cb' : ConfigBuilder) (amConfigs : gmap string AlertmanagerConfig)
    (base : alertmanagerConfig) (root : route) (st st' : StoreBuilder C) :
  (∀ key l, matcher_holds (namespace_matcher key) l = true → l "namespace" = nn_Namespace key) →
  cb_enforcer cb = getEnforcer strategy (cb_amVersion cb) amNamespace →
  cb_cfg cb = Some base → alertmanagerConfig_Route base = Some root →
  AddAlertmanagerConfigs sClient cmClient cb amConfigs st = (st', Ok cb') →
  ∃ c root' subs rest, cb_cfg cb' = Some c ∧ alertmanagerConfig_Route c = Some root' ∧ route_Routes root' = subs ++ rest ∧
    Forall2 (fun r r' => route_sanitize (cb_amVersion cb) r = Ok r') (route_Routes root) rest ∧
    Forall2 (fun amc r =>
        (∃ x, route_of amc = Some x ∧
           shows (cb_amVersion cb) (crKey_of amc) (enforced strategy amNamespace (nn_Namespace (crKey_of amc))) true x r) ∧
        (enforced strategy amNamespace (nn_Namespace (crKey_of amc)) = true →
         ∀ l x, reaches matcher_holds regex_holds l r x → l "namespace" = nn_Namespace (crKey_of amc)))
      (routed (sorted_values amConfigs)) subs.
Proof.
  intros Hm He Hb Hr Ha. destruct (added_routes _ _ _ _ _ _ _ _ _ Hb Hr Ha) as (c & root' & subs & rest & -> & Hc & Happ & Hrest & HF).
  exists c, root', subs, rest. split_and!; [done..|]. eapply Forall2_impl; [exact HF|].
  intros amc r' (x & r & Hx & (t & Ht & Hp) & Hs). rewrite He in Hp. pose proof (processRoute_adjusted _ _ _ _ _ _ Hp) as Hadj.
  apply processRoute_ok in Hp as (_ & _ & Hconf).
  split; [exists x; split; [done|]; subst r; by eapply converted_shows|].
  intros Hen l y Hy. eapply confined_reaches; [exact Hm| |exact Hy]. eapply confined_sanitize; [exact Hs|]. by apply Hconf.
Qed.

(** C12: In the configuration that is built from objects that pass validation and whose time intervals
    are not empty, what the routes of the objects refer to is defined: every receiver they name is
    one of the configuration's receivers, and every time interval one of its time intervals. *)
Theorem references_defined `{!SemverLaws} (cb cb' : ConfigBuilder) (amConfigs : gmap string AlertmanagerConfig)
    (base : alertmanagerConfig) (root : route) (st st' : StoreBuilder C) :
  cb_cfg cb = Some base → alertmanagerConfig_Route base = Some root →
  (∀ k amc, amConfigs !! k = Some amc → ValidateAlertmanagerConfig amc = Ok () ∧
     Forall (fun x => MuteTimeInterval_TimeIntervals x ≠ []) (intervals_of amc)) →
  AddAlertmanagerConfigs sClient cmClient cb amConfigs st = (st', Ok cb') →
  ∃ c root' subs rest, cb_cfg cb' = Some c ∧ alertmanagerConfig_Route c = Some root' ∧ route_Routes root' = subs ++ rest ∧
    length rest = length (route_Routes root) ∧ length subs = length (routed (sorted_values amConfigs)) ∧
    Forall (every (fun r =>
      (route_Receiver r = "" ∨ route_Receiver r ∈ receiver_Name <$> alertmanagerConfig_Receivers c) ∧
      ∀ m, m ∈ route_MuteTimeIntervals r ++ route_ActiveTimeIntervals r →
        m ∈ timeInterval_Name <$> alertmanagerConfig_MuteTimeIntervals c)) subs.
Proof.
  intros Hb Hr Hv Ha. destruct (added_routes _ _ _ _ _ _ _ _ _ Hb Hr Ha) as (c & root' & subs & rest & -> & Hc & Happ & Hrest & HF).
  exists c, root', subs, rest. split_and!; [done..|by apply Forall2_length in Hrest|by apply Forall2_length in HF|].
  apply Forall_lookup. intros i r' Hi. destruct (Forall2_lookup_r _ _ _ _ _ HF Hi) as (amc & Hamc & x & r & Hx & (t & Ht & Hp) & Hs).
  apply list_elem_of_lookup_2 in Hamc. pose proof Hamc as [_ (k & Hk)%elem_of_sorted_values]%list_elem_of_filter.
  destruct (Hv k amc Hk) as [Hval Hint]. rewrite Forall_forall in Hint.
  destruct (added_names _ _ _ _ _ _ _ _ _ _ Hb Hr Ha Hamc) as (c2 & E2 & Hrec & Htimes). injection E2 as <-.
  pose proof (refers_sanitize _ _ _ _ _ _ Hs (refers_process _ _ _ _ _ _ _ Hp (validated_refers _ _ _ _ Hval Hx Ht))) as Hrefs.
  eapply every_impl; [|exact (every_and _ _ _ Hrefs (sanitized_intervals _ _ _ Hs))].
  intros r1 [[Hr1 Hm1] Hver]. split.
  - destruct Hr1 as [?|(n & Hn & ->)]; [by left|right]. apply elem_of_list_to_set, list_elem_of_fmap in Hn as (y & -> & Hy). by apply Hrec.
  - intros m Hm. destruct (Hm1 m Hm) as (n & Hn & ->). apply elem_of_list_to_set, list_elem_of_fmap in Hn as (y & -> & Hy).
    apply Htimes; [by eapply Hver|done|by apply Hint].
Qed.

(** C10: Adding objects to a configuration with a root route does not panic, if every object has a
    namespace, was accepted by the operator's checks (in whatever store they ran) and gives the
    credentials of the authorizations of its MSTeams v2 receivers, which the checks leave out; the
    store stays well-formed. *)
Theorem objects_never_panic (pem_Decode : string → option string) (x509_ParseCertificate : string → res ())
    (tls_X509KeyPair : string → string → res ()) (cb : ConfigBuilder) (amConfigs : gmap string AlertmanagerConfig)
    (base : alertmanagerConfig) (root : route) (st : StoreBuilder C) :
  quiet_libs sClient cmClient →
  cb_cfg cb = Some base → alertmanagerConfig_Route base = Some root →
  (∀ k amc, amConfigs !! k = Some amc →
     complete (C := C) sClient cmClient pem_Decode x509_ParseCertificate tls_X509KeyPair (cb_amVersion cb) amc) →
  cache_wf (objStore st) →
  no_panic (AddAlertmanagerConfigs sClient cmClient cb amConfigs st).2 ∧
  cache_wf (objStore (AddAlertmanagerConfigs sClient cmClient cb amConfigs st).1).
Proof.
  intros Hlibs Hb Hr Hall. apply safe_add_objects; [done|by exists base, root|]. intros k amc Hk.
  pose proof (Hall k amc Hk) as Hc. apply complete_validated in Hc as [? ?]. split; [by apply (Hall k amc Hk)|done].
Qed.
End claims.

Section provisioning.
Context `{SemverLaws} `{PromLibs} `{KeyFunc} `{RawJSON} `{AmLibs} `{ConvertLibs} `{CheckLibs} `{BuilderLibs} {C : Type} `{CacheStore C}.
Context (sClient : string → string → res Secret) (cmClient : string → string → res ConfigMap).
Context (pem_Decode : string → option string) (x509_ParseCertificate : string → res ()).
Context (tls_X509KeyPair : string → string → res ()).
Context {St : Type} `{ApiClient Secret St, !Retry, !SemanticEquality Secret, !ApiLaws Secret St}.
Context (amcClient : string → string → res AlertmanagerConfig) (gzip_Write : string → res string).
Context (visit : gmap string AlertmanagerConfig → list (string * AlertmanagerConfig)).
Context (owner : Owner) (addrs : nat * nat) (config : Config) (infs : AmInformers).

(** C8: When the configuration of an Alertmanager object with selectors or a global AlertmanagerConfig
    is provisioned successfully, the Secret that is written for the object, and no other, holds the
    compressed text of a configuration that the version of Alertmanager supports, beside the further
    keys of the user's Secret if that was the base configuration. Its first routes
    are those of the listed AlertmanagerConfig objects that pass the checks, one for each that has
    a route, in the order of their keys; rejected objects leave nothing behind. Each of these routes
    shows the route of its object, and so on below it ([shows]): receivers and time intervals are
    those of the object, prefixed with its namespace and name, grouping, times and matchers are as
    given. It falls through to the next ones, and if the matching strategy confines the object's
    namespace it has a matcher for the namespace as well, and no alert of another namespace reaches
    it or a route below it. This holds for all objects the informers list, in whatever order Go
    visits the map of objects. What the version supports is as in the claim on sanitizing. *)
Theorem provisioned_configuration (matcher_holds : string → (string → string) → bool) (regex_holds : string → string → bool)
    (am : Alertmanager) (st st' : @op_state C St) :
  (∀ key l, matcher_holds (namespace_matcher key) l = true → l "namespace" = nn_Namespace key) →
  api_answers sClient cmClient → (∀ m, visit m ≡ₚ map_to_list m) → coherent sClient cmClient (ss_store (os_sel st)) →
  unmanaged am = false →
  provisionAlertmanagerConfiguration sClient cmClient pem_Decode x509_ParseCertificate tls_X509KeyPair amcClient gzip_Write visit owner addrs
    config infs am st = (st', Ok ()) →
  ∃ v listed c root subs rest text,
    am_version am = Ok v ∧ listed_configs infs am = Ok listed ∧
    fits v (alertmanagerConfig_uses false c) (alertmanagerConfig_clashes c) ∧
    alertmanagerConfig_Route c = Some root ∧ route_Routes root = subs ++ rest ∧
    Forall2 (fun amc r =>
        (∃ x, route_of amc = Some x ∧ shows v (crKey_of amc)
           (enforced (AlertmanagerSpec_AlertmanagerConfigMatcherStrategy (Alertmanager_Spec am)) (am_Namespace am) (nn_Namespace (crKey_of amc)))
           true x r) ∧
        (enforced (AlertmanagerSpec_AlertmanagerConfigMatcherStrategy (Alertmanager_Spec am)) (am_Namespace am) (nn_Namespace (crKey_of amc)) = true →
         ∀ l x, reaches matcher_holds regex_holds l r x → l "namespace" = nn_Namespace (crKey_of amc)))
      (routed (sorted_values (base.filter (accepted (C := C) sClient cmClient pem_Decode x509_ParseCertificate tls_X509KeyPair v) listed))) subs ∧
    yaml_Marshal c = Ok text ∧ generated gzip_Write am text (further_keys am (objs (os_api st))) (objs (os_api st)) (objs (os_api st')).
Proof.
  intros Hm Hapi Hvisit Hc Hu Hp.
  eapply provision_ok in Hp as (v & listed & base & root & cb' & s1 & s2 & c & text & Hv & Hl & Hr & Ha & Hcb & Ht & Hg); [|done..].
  eapply objects_confined in Ha as Hconf; [|exact Hm|reflexivity|reflexivity|exact Hr].
  destruct Hconf as (c' & root' & subs & rest & Hcb' & Hroot & Happ & _ & HF). rewrite Hcb in Hcb'. injection Hcb' as <-.
  eapply AddAlertmanagerConfigs_ok in Ha as (ns & c' & _ & -> & Hs); [|reflexivity|exact Hr]. injection Hcb as ->.
  exists v, listed, c, root', subs, rest, text. split; [exact Hv|]. split; [exact Hl|].
  split; [|done]. destruct (configuration_projection v) as [Hf _ _]. by eapply Hf.
Qed.
End provisioning.

Section teams.
Context `{SemverLaws} `{RawJSON} `{AmLibs} `{ConvertLibs} `{CheckLibs} `{BuilderLibs} {C : Type} `{CacheStore C}.
Context (sClient : string → string → res Secret) (cmClient : string → string → res ConfigMap).
Context (pem_Decode : string → option string) (x509_ParseCertificate : string → res ()).
Context (tls_X509KeyPair : string → string → res ()).

(** C23: An authorization without credentials in an MSTeams v2 receiver stops the operator. Take any
    objects that can be added to a configuration, and give the HTTP client of an MSTeams v2
    configuration of one of them, which has a route, an authorization that lacks its credentials: the
    checks of the operator answer for the changed object exactly as before, whatever the version and
    the store (validation leaves MSTeams v2 out), and adding the objects now dereferences the nil
    credentials and panics. *)
Theorem teams_authorization_panics (cb cb' : ConfigBuilder) (amConfigs : gmap string AlertmanagerConfig) (k : string)
    (amc amc' : AlertmanagerConfig) (st st' : StoreBuilder C) :
  AddAlertmanagerConfigs sClient cmClient cb (<[k := amc]> amConfigs) st = (st', Ok cb') →
  unauthorized amc amc' → is_Some (route_of amc) →
  (∀ v (st0 : StoreBuilder C),
     checkAlertmanagerConfigResource sClient cmClient pem_Decode x509_ParseCertificate tls_X509KeyPair v amc' st0 =
     checkAlertmanagerConfigResource sClient cmClient pem_Decode x509_ParseCertificate tls_X509KeyPair v amc st0) ∧
  (AddAlertmanagerConfigs sClient cmClient cb (<[k := amc']> amConfigs) st).2 = nil_pointer.
Proof.
  intros Ha Hu Hr. split; [intros v st0; symmetry; by apply check_same|]. by eapply add_breaks.
Qed.
End teams.

(** ** Witnesses *)

Lemma added_example : ∃ st' cb', example_result = (st', Ok cb').
Proof.
  assert (match example_result with (_, Ok _) => true | _ => false end = true) as E by by vm_compute.
  destruct example_result as [st' [cb'|e|m]]; by eauto.
Qed.
Definition namespace_holds (s : string) (l : string → string) : bool :=
  bool_decide (s = namespace_matcher {| nn_Namespace := l "namespace"; nn_Name := "" |}).
Lemma namespace_holds_ok key l : namespace_holds (namespace_matcher key) l = true → l "namespace" = nn_Namespace key.
Proof. intros E%bool_decide_eq_true. by apply namespace_matcher_inj in E. Qed.
Lemma example_objects k amc : objects !! k = Some amc → amc = team_a ∨ amc = team_b [weekend].
Proof. unfold objects. intros [[_ <-]|[_ [_ <-]%lookup_singleton_Some]]%lookup_insert_Some; auto. Qed.

Definition every_label : LabelSelector := {| ls_MatchLabels := None; ls_MatchExpressions := [] |}.
(** An Alertmanager object that selects the objects of both teams and a broken one. *)
Definition example_alertmanager : Alertmanager := {|
  Alertmanager_ObjectMeta := SetNamespace "monitoring" (SetName "main" zero_meta);
  Alertmanager_Spec := {|
    AlertmanagerSpec_Version := "v0.28.1"; AlertmanagerSpec_ConfigSecret := "";
    AlertmanagerSpec_AlertmanagerConfigSelector := Some every_label; AlertmanagerSpec_AlertmanagerConfigNamespaceSelector := Some every_label;
    AlertmanagerSpec_AlertmanagerConfigMatcherStrategy := OnNamespaceConfigMatcherStrategyType;
    AlertmanagerSpec_AlertmanagerConfiguration := None |} |}.
Definition broken_object : AlertmanagerConfig := object "team-b" "broken" {|
  AlertmanagerConfigSpec_Route := Some (a_route "missing" []); AlertmanagerConfigSpec_Receivers := [];
  AlertmanagerConfigSpec_InhibitRules := []; AlertmanagerConfigSpec_MuteTimeIntervals := [] |}.
Definition example_configs : AmInformers := {|
  nsAlrtCfgInf _ := Ok ["team-a"; "team-b"];
  alrtCfgInfs ns _ := Ok (if bool_decide (ns = "team-a") then [team_a] else [broken_object; team_b [weekend]]) |}.
Definition provision_example : @op_state (gmap string asset) (FakeStore.state Secret) * res () :=
  provisionAlertmanagerConfiguration Example_.secrets Example_.configmaps Some (fun _ => Ok ()) (fun _ _ => Ok ())
    (fun _ n => Err (StatusError NotFound n)) Ok map_to_list example_owner (0, 1) {| config_Labels := None; config_Annotations := None |}
    example_configs example_alertmanager example_state.
Lemma provisioned_configuration_witness : ∃ st' text, provision_example = (st', Ok ()) ∧
  generated Ok example_alertmanager text ∅ ∅ (objs (os_api st')).
Proof.
  assert (match provision_example.2 with Ok _ => true | _ => false end = true) as Hok by by vm_compute.
  destruct provision_example as [st' [[]| |]] eqn:E; [|discriminate Hok..]. 
  destruct (provisioned_configuration Example_.secrets Example_.configmaps Some (fun _ => Ok ()) (fun _ _ => Ok ())
    (fun _ n => Err (StatusError NotFound n)) Ok map_to_list example_owner (0, 1) {| config_Labels := None; config_Annotations := None |}
    example_configs namespace_holds (fun _ _ => false) example_alertmanager example_state st' namespace_holds_ok example_api
    (fun m => reflexivity _) (coherent_new _ _) eq_refl E) as (v & listed & c & root & subs & rest & text & _ & _ & _ & _ & _ & _ & _ & Hg).
  exists st', text. refine (conj eq_refl _). exact Hg.
Defined.

Lemma references_defined_witness : ∃ cb' c root' subs rest, example_result.2 = Ok cb' ∧ cb_cfg cb' = Some c ∧
  alertmanagerConfig_Route c = Some root' ∧ route_Routes root' = subs ++ rest ∧
  Forall (every (fun r =>
      (route_Receiver r = "" ∨ route_Receiver r ∈ receiver_Name <$> alertmanagerConfig_Receivers c) ∧
      ∀ m, m ∈ route_MuteTimeIntervals r ++ route_ActiveTimeIntervals r →
        m ∈ timeInterval_Name <$> alertmanagerConfig_MuteTimeIntervals c)) subs.
Proof.
  destruct added_example as (st' & cb' & E).
  destruct (references_defined Example_.secrets Example_.configmaps example_builder cb' objects base_config base_root NewStoreBuilder st'
    eq_refl eq_refl) as (c & root' & subs & rest & ? & ? & ? & _ & _ & ?).
  - intros k amc [-> | ->]%example_objects; (split; [by vm_compute|]); repeat constructor; done.
  - exact E.
  - exists cb', c, root', subs, rest. split_and!; [rewrite E; reflexivity|assumption..].
Defined.

Lemma quiet_example : quiet_libs Example_.secrets Example_.configmaps.
Proof.
  split; try (intros; discriminate).
  - intros ns n m. unfold Example_.secrets. by case_bool_decide.
  - intros s m. simpl. by destruct (Atoi s).
Qed.
Definition accepts_object (amc : AlertmanagerConfig) : bool :=
  match checkAlertmanagerConfigResource (C := gmap string asset) Example_.secrets Example_.configmaps Some (fun _ => Ok ()) (fun _ _ => Ok ())
    v028 amc NewStoreBuilder with (_, Ok _) => true | _ => false end.
Lemma accepted_object amc : accepts_object amc = true → ∃ st st' : StoreBuilder (gmap string asset),
  checkAlertmanagerConfigResource Example_.secrets Example_.configmaps Some (fun _ => Ok ()) (fun _ _ => Ok ()) v028 amc st = (st', Ok ()).
Proof. unfold accepts_object. destruct (checkAlertmanagerConfigResource _ _ _ _ _ _ _ _) as [st' [[]| |]] eqn:E; [|done..]. by exists NewStoreBuilder, st'. Qed.

Lemma objects_never_panic_witness : no_panic example_result.2.
Proof.
  apply (objects_never_panic Example_.secrets Example_.configmaps Some (fun _ => Ok ()) (fun _ _ => Ok ()) example_builder objects
    base_config base_root NewStoreBuilder quiet_example eq_refl eq_refl).
  - intros k amc [-> | ->]%example_objects; (split; [done|by repeat constructor|by apply accepted_object; vm_compute]).
  - apply cache_wf_new.
Defined.


(** The object is accepted, and the authorization added to it. *)
Definition teams_config_unauthorized : MSTeamsV2Config := set_http (Some (add_authorization "Bearer" (http_config None None))) teams_config.
Definition teams_receiver_unauthorized : Receiver := set_teams [teams_config_unauthorized] (a_receiver "teams" [] [teams_config]).
Definition teams_object_unauthorized : AlertmanagerConfig := set_receivers [teams_receiver_unauthorized] teams_object.
Lemma teams_example : unauthorized teams_object teams_object_unauthorized.
Proof.
  exists [teams_receiver_unauthorized]. split; [|reflexivity].
  apply (one_changed_intro _ [] (a_receiver "teams" [] [teams_config]) _ []). exists [teams_config_unauthorized]. split; [|reflexivity].
  apply (one_changed_intro _ [] teams_config _ []). exists "Bearer", (http_config None None).
  split; [reflexivity|]. split; reflexivity.
Qed.
Lemma teams_authorization_panics_witness :
  accepts_object teams_object_unauthorized = true ∧
  (AddAlertmanagerConfigs (C := gmap string asset) Example_.secrets Example_.configmaps example_builder
     (<["default/teams" := teams_object_unauthorized]> ∅) NewStoreBuilder).2 = nil_pointer.
Proof.
  assert (match AddAlertmanagerConfigs (C := gmap string asset) Example_.secrets Example_.configmaps example_builder
    (<["default/teams" := teams_object]> ∅) NewStoreBuilder with (_, Ok _) => true | _ => false end = true) as Hok by by vm_compute.
  destruct (AddAlertmanagerConfigs _ _ _ _ _) as [st' [cb'| |]] eqn:E; [|discriminate Hok..].
  destruct (teams_authorization_panics Example_.secrets Example_.configmaps Some (fun _ => Ok ()) (fun _ _ => Ok ())
    example_builder cb' ∅ "default/teams" teams_object teams_object_unauthorized NewStoreBuilder st' E teams_example) as [Hc Hp].
  - eexists. reflexivity.
  - split; [|exact Hp]. unfold accepts_object. rewrite Hc. by vm_compute.
Defined.
