(* ===== verification/KubeletClaims.v ===== *)
(** * The kubelet controller: what is guaranteed

    The theorems about a run of [sync] of pkg/kubelet/controller.go. *)

From S2P Require Import Prelude GoStrings SortUtil Meta ApiClient NetIP Kubelet KubeletLaws KubeletSync.

(** ** Addresses of nodes *)

Section addresses.
Context (c : Controller).
Lemma address_of_family n a : address_of c n = Ok a → na_ipv4 a = family (na_ipAddress a).
Proof.
  unfold address_of. intros (address & _ & E)%bind_ok_ex. destruct (ParseIP address) as [ip|] eqn:Ep; [|done]. injection E as <-.
  unfold family. simpl. by rewrite Ep.
Qed.
Lemma collect_addresses_ok nodes : ∀ r, collect_addresses c nodes = Ok r →
  ∀ a, a ∈ r.1 ↔ ∃ n, n ∈ nodes ∧ address_of c n = Ok a.
Proof.
  induction nodes as [|n nodes IH]; intros r; simpl.
  { intros [= <-] a. simpl. split; [by intros ?%elem_of_nil|by intros (? & ?%elem_of_nil & _)]. }
  destruct (address_of c n) as [na|e|m] eqn:E; [| |done]; intros (r' & Hr & [= <-])%bind_ok_ex a; simpl; rewrite ?elem_of_cons, (IH _ Hr).
  - split; [intros [->|(n' & ? & ?)]; [exists n|exists n']; set_solver|]. intros (n' & [->|Hn]%elem_of_cons & Ha); [left; congruence|eauto].
  - split; [intros (n' & ? & ?); exists n'; set_solver|]. intros (n' & [->|Hn]%elem_of_cons & Ha); [congruence|eauto].
Qed.
Lemma names_by_address_ok ready l ip k : names_by_address ready l !! ip = Some k →
  ∃ a, a ∈ l ∧ na_ipAddress a = ip ∧ na_name a = k.
Proof.
  unfold names_by_address. induction l as [|a l IH] using rev_ind; [done|]. rewrite foldl_app. simpl. case_bool_decide.
  - intros [[<- <-]|[_ Hk]]%lookup_insert_Some; [exists a; set_solver|]. destruct (IH Hk) as (b & ? & ?). exists b. set_solver.
  - intros Hk. destruct (IH Hk) as (b & ? & ?). exists b. set_solver.
Qed.
(** No address is lost when duplicates are removed. *)
Lemma kept_address l ip : ip ∈ na_ipAddress <$> base.filter (fun a => kept l a = true) l ↔ ip ∈ na_ipAddress <$> l.
Proof.
  rewrite !list_elem_of_fmap. setoid_rewrite list_elem_of_filter. split; [intros (a & ? & _ & ?); eauto|]. intros (a & -> & Ha).
  destruct (kept l a) eqn:Hk; [eauto|]. unfold kept in Hk.
  destruct (names_by_address true l !! na_ipAddress a) as [k|] eqn:Ek; [|done]. destruct (names_by_address false l !! na_ipAddress a) eqn:Ef; [|done].
  destruct (names_by_address_ok _ _ _ _ Ek) as (b & Hb & Hip & Hn). exists b. split; [done|]. split; [|done].
  unfold kept. rewrite Hip, Ek, Ef. by apply bool_decide_eq_true.
Qed.
Lemma getNodeAddresses_ok nodes r : getNodeAddresses c nodes = Ok r →
  Forall (fun a => na_ipv4 a = family (na_ipAddress a)) r.1 ∧
  (∀ ip, ip ∈ na_ipAddress <$> r.1 ↔ ∃ n a, n ∈ nodes ∧ address_of c n = Ok a ∧ na_ipAddress a = ip) ∧
  ∀ a, a ∈ r.1 → ∃ n, n ∈ nodes ∧ address_of c n = Ok a.
Proof.
  intros (r' & Hr & [= <-])%bind_ok_ex. pose proof (collect_addresses_ok _ _ Hr) as Hc. simpl. split_and!.
  - apply Forall_forall. intros a [_ (n & _ & Ha)%Hc]%list_elem_of_filter. by eapply address_of_family.
  - intros ip. rewrite kept_address, list_elem_of_fmap. setoid_rewrite Hc. naive_solver.
  - intros a [_ Ha]%list_elem_of_filter. by apply Hc.
Qed.
End addresses.

(** ** Synchronization *)

Section sync.
Context `{!Retry} {S1 S2 S3 : Type} `{ApiClient Service S1, ApiClient Endpoints S2, ApiClient EndpointSlice S3, !NamingLaws EndpointSlice S3}.
Local Abbreviation state := (@kubelet_state S1 S2 S3).

(** Computations that touch neither the slices nor the counter of their errors. *)
Definition quiet {A} (m : M state A) : Prop := ∀ st st' r, m st = (st', r) →
  ks_slices st' = ks_slices st ∧ (nodeEndpointSyncErrors st').2 = (nodeEndpointSyncErrors st).2.
Lemma quiet_mret {A} (a : A) : quiet (mret a).
Proof. by intros st st' r [= <- <-]. Qed.
Lemma quiet_bind {A B} (m : M state A) (f : A → M state B) : quiet m → (∀ a, quiet (f a)) → quiet (m ≫= f).
Proof.
  intros Hm Hf st st' r. unfold mbind, M_bind. destruct (m st) as [s1 [a|e|p]] eqn:E; apply Hm in E as [Es Ee].
  - intros [??]%Hf. split; congruence.
  - by intros [= <- <-].
  - by intros [= <- <-].
Qed.
Lemma quiet_mtry {A} (m : M state A) : quiet m → quiet (mtry m).
Proof. intros Hm st st' r. unfold mtry. destruct (m st) as [s1 [a|e|p]] eqn:E; apply Hm in E; by intros [= <- <-]. Qed.
Lemma quiet_count lookups syncs n : quiet (count lookups syncs (n, 0%Z)).
Proof. intros st st' r [= <- <-]. simpl. split; [done|lia]. Qed.
Lemma quiet_on_services {A} (m : M S1 A) : quiet (on_services m).
Proof. intros st st' r. unfold on_services. destruct (m (ks_services st)). by intros [= <- <-]. Qed.
Lemma quiet_on_endpoints {A} (m : M S2 A) : quiet (on_endpoints m).
Proof. intros st st' r. unfold on_endpoints. destruct (m (ks_endpoints st)). by intros [= <- <-]. Qed.
Hint Resolve quiet_mret quiet_bind quiet_mtry quiet_count quiet_on_services quiet_on_endpoints : core.
Lemma ensured_endpoints (c : Controller) (addresses : list nodeAddress) : quiet (
  if manageEndpoints c then
    _ ← count 0 (1, 0)%Z (0, 0)%Z;
    r ← mtry (on_endpoints (syncEndpoints c addresses));
    match r with inl _ => mret () | inr _ => count 0 (0, 0)%Z (1, 0)%Z end
  else mret ()).
Proof. destruct (manageEndpoints c); [|auto]. apply quiet_bind; [auto|]. intros _. apply quiet_bind; [auto|]. intros []; auto. Qed.
(** A synchronization of the slices whose error is not counted succeeded. *)
Lemma slices_counted (m : M S3 ()) (st st' : state) :
  (r ← mtry (on_slices m); match r with inl _ => mret () | inr _ => count 0 (0, 0)%Z (0, 1)%Z end) st = (st', Ok ()) →
  (nodeEndpointSyncErrors st').2 = (nodeEndpointSyncErrors st).2 → m (ks_slices st) = (ks_slices st', Ok ()).
Proof.
  unfold mtry, on_slices, mbind, M_bind. destruct (m (ks_slices st)) as [s [[]|e|p]]; [by intros [= <-]| |done].
  intros [= <-]. simpl. lia.
Qed.

(** C9: When the controller manages EndpointSlices and a run over the nodes that were listed counts no
    error, the slices of its service in the API hold one endpoint for each address of a node, and
    nothing else: every node whose address can be determined is reachable under it, no address
    occurs twice, also if nodes share it, and an endpoint describes a node that was listed. No slice
    exceeds the capacity or is empty, and IPv4 and IPv6 addresses are in slices of their family, if
    that was so before. Slices of other services are untouched. *)
Theorem node_slices_synced (c : Controller) (failed_result : option Service) (fresh : nat → nat * nat) (nodes : list Node) (st st' : state) :
  manageEndpointSlice c = true →
  default (kubeletObjectName c) (entries (labels c) !! LabelServiceName) = kubeletObjectName c →
  Forall (slice_ok c) (slices_in (view c (objs (ks_slices st)) ∅)) →
  sync c failed_result fresh (Ok nodes) st = (st', Ok ()) →
  (nodeEndpointSyncErrors st').2 = (nodeEndpointSyncErrors st).2 →
  let l := slices_in (view c (objs (ks_slices st')) ∅) in
  NoDup (ips l) ∧
  (∀ ip, ip ∈ ips l ↔ ∃ n a, n ∈ nodes ∧ address_of c n = Ok a ∧ na_ipAddress a = ip) ∧
  Forall (fun s => Forall (fun e => ∃ n a, n ∈ nodes ∧ address_of c n = Ok a ∧ e = discoveryV1Endpoint a) (eps_Endpoints s)) l ∧
  Forall (slice_ok c) l ∧ Forall (fun s => eps_Endpoints s ≠ []) l ∧
  ∀ n o, of_service c o = false → objs (ks_slices st) !! n = Some o → objs (ks_slices st') !! n = Some o.
Proof.
  intros Hm Hlabel Hok E Herr.
  apply mbind_ok in E as (s0 & r & E0 & E). unfold mtry, mlift in E0. injection E0 as <- <-.
  apply mbind_ok in E as (s1 & addrs & [<- Ha]%mlift_ok & E).
  apply mbind_ok in E as (s2 & [] & [Es2 Ee2]%quiet_count & E).
  apply mbind_ok in E as (s3 & svc & [Es3 Ee3]%quiet_on_services & E).
  apply mbind_ok in E as (s4 & [] & [Es4 Ee4]%ensured_endpoints & E). rewrite Hm in E.
  apply mbind_ok in E as (s5 & [] & [Es5 Ee5]%quiet_count & E).
  apply slices_counted in E; [|congruence]. rewrite Es5, Es4, Es3, Es2 in E.
  apply getNodeAddresses_ok in Ha as (Hfam & Hin & Hof). setoid_rewrite SortStableFunc_Permutation in Hin. setoid_rewrite SortStableFunc_Permutation in Hof.
  destruct (syncEndpointSlice_ok c fresh Hlabel _ _ _ _ Hfam Hok E) as (Hnd & Hips & Hnodes & Hcap & Hne & Hframe).
  split_and!; [done| |..]; [intros ip; by rewrite Hips, Hin| |done..].
  apply (Forall_impl _ _ _ Hnodes). intros s Hs. apply (Forall_impl _ _ _ Hs). intros e (a & (n & Hn & Hna)%Hof & ->). eauto.
Qed.

(** A Service that cannot be read is returned as nil. *)
Lemma unread_service (c : Controller) failed_result (s s1 : S1) e :
  Get (kubeletObjectName c) s = (s1, Err e) → IsNotFound e = false → IsConflict e = false →
  syncService c failed_result s = (s1, Ok (None, Some e)).
Proof.
  intros Hg Hnf Hc. unfold syncService, CreateOrUpdateService.
  rewrite (RetryOnConflict_once _ _ (s1, (kubelet_service c, None)) (Err e)); [done| |by intros ? [= <-]].
  unfold CreateOrUpdateService_attempt, mget, mtry, on_api, mbind, M_bind, mfail. simpl.
  change (name (kubelet_service c)) with (kubeletObjectName c). rewrite Hg. simpl. by rewrite Hnf.
Qed.
(** The first address that has no place in an existing slice needs the Service. *)
Lemma plan_without_service (c : Controller) fresh addresses : addresses ≠ [] →
  plan_slices c fresh None addresses [] = Panic "invalid memory address or nil pointer dereference".
Proof.
  intros Hne. unfold plan_slices. simpl.
  assert (∀ l idx, append_existing c l idx [] = (idx, [])) as ->.
  { intros l. induction l as [|a l IH]; intros idx; simpl; [done|]. destruct (idx !! na_ipAddress a); apply IH. }
  destruct addresses as [|a l]; [done|]. pose proof (node_index_ok (a :: l) (na_ipAddress a)) as Hidx. unfold node_index in Hidx.
  cbn [pack_new fst snd]. case_match eqn:Hx; [|set_solver].
  unfold pack_one. simpl. by destruct (na_ipv4 a).
Qed.

(** C39: The controller crashes when it cannot read its Service, instead of reporting the error and
    going on: if the request fails with anything but not found, no EndpointSlice exists yet and a
    node has an address, the UID of the nil Service is read for the owner of the first slice. *)
Theorem sync_without_service_panics (c : Controller) (failed_result : option Service) (fresh : nat → nat * nat) (nodes : list Node)
    (st : state) addresses errs (s1 : S1) e :
  manageEndpointSlice c = true →
  Get (kubeletObjectName c) (ks_services st) = (s1, Err e) → IsNotFound e = false → IsConflict e = false →
  (List (of_service c) (ks_slices st)).2 = Ok [] →
  getNodeAddresses c (SortStableFunc node_Name nodes) = Ok (addresses, errs) → addresses ≠ [] →
  no_panic (syncEndpoints c addresses (ks_endpoints st)).2 →
  (sync c failed_result fresh (Ok nodes) st).2 = Panic "invalid memory address or nil pointer dereference".
Proof.
  intros Hm Hg Hnf Hc Hl Ha Hne Hnp. unfold sync, mtry, mlift, mbind, M_bind, count, on_services. simpl. rewrite Ha. simpl.
  rewrite (unread_service _ _ _ _ _ Hg Hnf Hc). simpl. rewrite Hm.
  assert (∀ s : state, ks_slices s = ks_slices st → (on_slices (syncEndpointSlice c fresh None addresses) s).2 = Panic "invalid memory address or nil pointer dereference") as Hs.
  { intros s E. unfold on_slices, syncEndpointSlice, mwrap, mlift, mbind, M_bind. rewrite E.
    destruct (List (of_service c) (ks_slices st)) as [s3 r]. simpl in Hl. rewrite Hl. simpl. by rewrite plan_without_service. }
  assert (∀ s : state, ks_slices s = ks_slices st →
    ((r ← mtry (on_slices (syncEndpointSlice c fresh None addresses)); match r with inl _ => mret () | inr _ => count 0 (0, 0)%Z (0, 1)%Z end) s).2
    = Panic "invalid memory address or nil pointer dereference") as Hs'.
  { intros s E. specialize (Hs s E). unfold mtry, mbind, M_bind. destruct (on_slices _ s) as [s' r]. simpl in Hs. by subst. }
  destruct (manageEndpoints c); [|by apply Hs'].
  unfold on_endpoints. simpl. destruct (syncEndpoints c addresses (ks_endpoints st)) as [s2 [[]|e'|m]]; [by apply Hs'..|]. by destruct (Hnp m).
Qed.
End sync.

(** ** An example *)

Definition example_node (n ip status : string) : Node := {|
  node_Name := n; node_UID := "uid-" +:+ n; node_APIVersion := "v1"; node_Addresses := [("Hostname", n); (NodeInternalIP, ip)];
  node_Conditions := [("MemoryPressure", "False"); ("Ready", status)] |}.
Definition example_nodes : list Node :=
  [example_node "node-c" "fd00::7" "True"; example_node "node-b" "10.0.0.2" "Unknown"; example_node "node-a" "10.0.0.1" "True";
   example_node "node-d" "10.0.0.2" "True"; example_node "node-e" "10.0.0.300" "True"].
Definition example_controller : Controller :=
  match New "kubelet" None None [WithEndpointSlice; WithEndpoints; WithNodeAddressPriority "internal"; WithMaxEndpointsPerSlice 1] with
  | Ok c => c
  | _ => {| kubeletObjectName := ""; annotations := None; labels := None; nodeAddressPriority := ""; maxEndpointsPerSlice := 0;
            manageEndpointSlice := false; manageEndpoints := false |}
  end.
Definition example_state (faults : list bool) :
    @kubelet_state (FakeStore.state Service) (FakeStore.state Endpoints) (NamingStore.state EndpointSlice) := {|
  ks_services := FakeStore.State faults 0 ∅; ks_endpoints := FakeStore.State [] 0 ∅; ks_slices := ∅;
  nodeAddressLookupErrors := 0; nodeEndpointSyncs := (0, 0)%Z; nodeEndpointSyncErrors := (0, 0)%Z |}.
Definition example_run (faults : list bool) :=
  sync example_controller None (fun n => (2 * n, 2 * n + 1)) (Ok example_nodes) (example_state faults).
Definition example_slices (faults : list bool) : list EndpointSlice :=
  slices_in (view example_controller (objs (ks_slices (example_run faults).1)) ∅).
Lemma node_slices_synced_witness :
  (example_run []).2 = Ok () ∧ NoDup (ips (example_slices [])) ∧ "fd00::7" ∈ ips (example_slices []) ∧ "10.0.0.2" ∈ ips (example_slices []).
Proof.
  assert ((example_run []).2 = Ok ()) as E by (vm_compute; reflexivity).
  assert ((nodeEndpointSyncErrors (example_run []).1).2 = 0%Z) as Herr by (vm_compute; reflexivity).
  destruct (node_slices_synced example_controller None (fun n => (2 * n, 2 * n + 1)) example_nodes (example_state []) (example_run []).1) as (Hnd & Hin & _).
  - reflexivity.
  - reflexivity.
  - assert (slices_in (view example_controller (objs (ks_slices (example_state []))) ∅) = []) as -> by (vm_compute; reflexivity). constructor.
  - rewrite <-E. apply surjective_pairing.
  - exact Herr.
  - split; [exact E|]. split; [exact Hnd|]. split; apply Hin.
    + exists (example_node "node-c" "fd00::7" "True"). eexists. split; [apply list_elem_of_here|]. split; [vm_compute; reflexivity|reflexivity].
    + exists (example_node "node-d" "10.0.0.2" "True"). eexists. split; [do 3 apply list_elem_of_further; apply list_elem_of_here|].
      split; [vm_compute; reflexivity|reflexivity].
Defined.
Lemma sync_without_service_panics_witness :
  (example_run [true]).2 = Panic "invalid memory address or nil pointer dereference".
Proof.
  destruct (getNodeAddresses example_controller (SortStableFunc node_Name example_nodes)) as [[addresses errs]|e|m] eqn:Ha; [|by vm_compute in Ha..].
  unfold example_run. eapply (sync_without_service_panics _ _ _ _ _ addresses errs).
  - reflexivity.
  - reflexivity.
  - reflexivity.
  - reflexivity.
  - vm_compute. reflexivity.
  - exact Ha.
  - intros ->. by vm_compute in Ha.
  - assert (match getNodeAddresses example_controller (SortStableFunc node_Name example_nodes) with
            | Ok (addresses, _) => is_ok (syncEndpoints example_controller addresses (ks_endpoints (example_state [true]))).2
            | _ => false end = true) as Hn by (vm_compute; reflexivity).
    rewrite Ha in Hn. intros m Hp. rewrite Hp in Hn. discriminate.
Defined.
